(* ===== verification/_CoqProject ===== *)
-Q . S2P
Prelude.v
Regs.v
Checksum.v
Iov.v
NetQueue.v
Device.v
Board.v
Intr.v
Eeprom.v
Rx.v
Tx.v
Mmio.v
Lifecycle.v
System.v
VMState.v
Snapshot.v
E1000Vmsd.v
Harness.v
Qom.v
Qdev.v
Timer.v
TimedDevice.v
Pci.v
PciBus.v
PciHost.v
Msi.v
Msix.v
BusDevice.v
Net.v
NetRegistry.v
Release.v
QemuFile.v
SaveVm.v
