(* ===== verification/Prelude.v ===== *)
(** SE4VM: a verification development for the e1000 device under symbolic execution and for the
    device-state snapshots (DISC) of this repository.

    * The program

    SE4VM runs virtual devices of QEMU under symbolic execution.  Its harness (src/harness/e1000)
    compiles the e1000 network device (e1000.c) together with stubs for the emulator
    (klee_external_function_calls.c) and a driver that fills the device with symbolic values and
    calls its entry points (klee_main.c).  Around a call the device may be put to a "nap": a
    snapshot of its state taken when it was realized is copied back, except for the fields its
    migration description lists (src/snapshot/qemu-1.5.0/hw/core/qdev.c).  The device calls the
    network layer (net/queue.c, net/net.c, net/checksum.c, util/iov.c), the timers (qemu-timer.c)
    and the PCI bus it sits on (hw/pci/pci.c, pci_host.c, msi.c, msix.c), reaches other network clients
    directly or through hubs (net/hub.c), and is described for migration by tables that savevm.c
    interprets, in sections of a buffered file.

    * Files, in dependency order

    - Prelude: machine integers, bytes and bit operations, arrays of words ([arr]), the result type
      [res] (a value, a fault or exhausted fuel) with its monad notation, hint databases and tactics.
    - Regs: the constants of e1000_regs.h and the register indices of e1000.c.
    - Checksum (net/checksum.c), Iov (util/iov.c), NetQueue (net/queue.c and the senders of net/net.c).
    - Device: the records for [E1000State] and [NetClientState], the class [DeviceEnv] of the
      services the device calls (DMA, interrupt pin, timers, clock, peer) with its laws
      ([DeviceEnvLaws], [DmaMemory], [IrqPin], [TimerWorld]), and well-formedness [dev_wf].  Board is a concrete
      instance; the witnesses run on it.
    - Intr: interrupt causes, masks, the mitigation timer, the PHY registers, link and
      auto-negotiation.  Eeprom: the microwire port and EERD.  Rx: filters and the receive
      path.  Tx: descriptors, segmentation, checksums, VLAN tags and the ring walk.  Mmio: the
      register handlers, the dispatch tables and the MMIO entry points, and the invariant
      [mach_ok] of the machine.  Lifecycle: initialisation, reset, the migration hooks and the
      load of a saved state.
    - System: all entry points as a step relation from initialisation.
    - VMState: state descriptions over a flat memory and the interpreter of savevm.c that saves and
      loads them.  Snapshot: the DISC functions of qdev.c on the same memory.  E1000Vmsd: the
      layout of [struct E1000State] and its tables.
    - Harness: the stubs as an instance of [DeviceEnv] and the driver.  Qom: the types and dynamic
      casts the harness carries.  Qdev: the tree of devices and buses (the rest of qdev.c) on
      objects with reference counts (qom/object.c).
    - Timer: the linked list of timers, running them, deadlines and migration.  TimedDevice: the
      device on a world whose timers are such a list ([TimerWorld] is what the device's proofs
      use of it), with turns of the timer loop and time as further steps.
    - Pci: a device's configuration space, masks, base address registers and capabilities
      (hw/pci/pci.c).  PciBus: pins, routing through bridges, the counters of the lines,
      configuration writes and reset.  PciHost: registration, bus numbers, the ports of a host
      bridge (hw/pci/pci_host.c) and migration of a PCI device, with the windows of a bridge
      (pci_bridge.c).  Msi: message-signalled interrupts
      (hw/pci/msi.c), which implement the interface [MsiLaws] of PciBus.  Msix: their extended form
      (hw/pci/msix.c), with its tables in device memory and its listeners.  BusDevice: the e1000
      with its interrupt pin on such a bus, beside other devices.
    - Net: the registry of network clients with peers, cards and hubs (net/net.c, net/hub.c), and
      packets through it; what clients other than hub ports do is the class [Endpoints].
      NetRegistry: its operations as a step relation, their invariant [net_ok], and shutdown.
    - Release: unplugging the device, on the timer list, the network, the memory regions, the
      address spaces and the bus together.
    - QemuFile: the buffered files of savevm.c, which implement the streams of VMState.  SaveVm:
      the registry of what a machine saves, the sections of the stream, saving and loading.

    * What the theorems show

    - The device: every machine reachable from initialisation through register accesses, packets,
      link changes, timers, reset, save and the load of a state saved by such a machine of the same
      configuration satisfies the invariant (C1), and no access or packet makes it fault (C2).
      Receiving returns and stores the frame in the descriptors' buffers with the right status
      (C3, C8) and the filter is the documented one (C10).  Transmitting never faults, and returns
      if every segmentation descriptor it meets makes progress and the head is on the ring (C7); a
      legacy descriptor's packet is sent as it is unless tags are inserted (C11), an inserted checksum verifies if the guest asks for it at an even
      distance inside the frame (C36), and a tag inserted on the way out is the one stripped on
      the way in ([vlan_tag_roundtrip]).  Register writes are safe and read back (C9,
      [mmio_readback]), writing RDT hands the queued packets to the receiver in order (C34),
      interrupts are raised exactly when a cause is enabled, now ([set_interrupt_cause_spec])
      or when the timer list runs the mitigation timer (C12), both EEPROM ports agree with the
      image (C37) and the PHY with what was written ([mdic_write_read]), and reset and
      initialisation leave an address filter and an EEPROM image the hardware accepts
      ([reset_own_address], [eeprom_image_accepted]).
    - The snapshots: for a description without pointers, a nap reset keeps exactly the bytes it
      covers (C6; with pointers it does not, [nap_reset_pointer_lost]), also after the realization
      of the first device and whatever happened in between (C4; there is room for one snapshot);
      for the e1000 it is spelled out which registers and members those are (C5).
    - The device tree: unplugging a device, with everything below it realized and its reference
      counts exact, frees everything below it, leaves up, with no use after free and no reference
      left over (C13); plugging a device in and unplugging it leaves the
      tree as it was (C14), and so does a realization that fails ([qdev_init_failure_undone]);
      reset reaches every device once, parents first (C26).  A bus with a device that was never
      realized cannot be freed ([unrealized_child_stuck]).
    - Supporting components: saving and loading a description is a round trip
      ([vmstate_roundtrip]), and so is that of a machine whose devices have flat descriptions (C20);
      with nested structures data can imitate a subsection ([nested_data_rejected]); the timer list
      implements a sorted list (C27), runs what is due (C28), migrates ([timer_migrates]) and gives the least deadline
      ([qemu_clock_deadline_least]) in bounds (C40); the packet queue is first in, first out
      ([qemu_net_queue_flush_fifo]); a computed checksum verifies
      ([net_checksum_calculate_verifies]) and the vector functions equal their definitions on flat data ([iov_to_buf_flat] and the like);
      casts follow the type hierarchy, for the classes without interfaces of the harness (C38) and
      with interfaces where their root type is registered ([dynamic_cast_interfaces]).
    - Migration: a file is a stream: what was put reaches a back end that takes all or reports an
      error in order (C29), and what is got is what is left there, however short the reads (C30).
      Looking ahead needs a back end that reads as much as it can ([file_peek_subsection_refines],
      [short_reads_hide_subsection]); a full buffer and a short write are not handled
      ([full_buffer_error], [short_write_lost]).  Entries that register without a number are found
      again ([register_new_instance]), old-style ones not always ([alias_zero_shadows]).
    - The PCI bus: each interrupt line is the logical or of the pins routed to it, whatever the
      devices and the guest do but write the upper byte of the command register alone (C21); a
      32-bit base address register is sized and programmed as the standard says, and with decoding
      enabled the region is mapped there and nowhere else (C25); registering a device
      (C32), reaching it through the ports and bridges (C33,
      [pci_find_bus_nr_correct]) and migrating it at version 2, the one devices have, (C31) do what
      they promise; capabilities are found until they are removed ([pci_capability_lifecycle]).
      With message-signalled interrupts the same theorems hold, since [msi_laws] gives them the
      interface they are proved against; no interrupt a device signals is lost, it is sent or
      waits (C22), and the ones the guest unmasks are sent ([msi_unmask_sends]).  The same goes for the vectors of
      MSI-X (C23); a listener knows which may fire (C24) as long as the guest does not disable
      them ([disabling_releases_nothing]), registers completely or not at all (C35), and the
      tables migrate ([msix_migrates]).  Resetting or removing a
      device whose pin is up breaks the counters ([pci_device_reset_leaks], [unregister_leaks]), as does a write to
      the upper byte of the command register alone ([byte_write_stuck]).  With the e1000 on the
      bus, the host's line is up while the device has an unmasked cause (C15).
    - The network: a hub gives a packet to every client but its sender, once, or to the queues of
      those that cannot take it now or refuse it (C16); the registry stays in order whatever is
      created, sent and removed, and removing never fails (C17); shutting down ends with everything
      freed (C18).  Both need cards with one queue and different names for the back ends, which the
      names the code makes up do not guarantee ([assign_name_collides]).
    - Unplugging the device with its pins low unmaps its regions before it destroys them, leaves no
      timer, client, region, address space or slot of it, and the rest of the machine as it was
      (C19); after the network was shut down it is a null dereference ([unplug_after_cleanup]).
    - The driver explores exactly the register files it means to ([klee_registers_exact]), but
      never gets past its nap reset (C39).
    - Loops that do not end and reads past a buffer, on inputs a guest controls: [tso_loop_mss0_diverges],
      [net_checksum_calculate_overrun], [start_xmit_lost_head_diverges].

    * Fuel and bounds

    Loops that are not structural take fuel and give [Diverge] when it runs out; the theorems that
    say a function returns give an amount that is always enough: 65536 rounds for the descriptor
    rings (RDLEN and TDLEN are masked to 20 bits and a descriptor has 16 bytes), the length of
    the list for queues, timers and the shutdown of the network, the depth of the hierarchy for
    casts and of the bridges for PCI.  Integers are [Z] with the wrap-around of their C type
    written out ([u8] to [u64], [s32], [s64]).  Uninitialised
    stack buffers and heap blocks are arbitrary or, for [malloc], zero.

    * Not modelled

    The rest of QEMU and glib, which the program only links; debugging output and trace points;
    socket I/O and hex dumps of iov.c; the command-line and monitor front ends of net.c; the
    encoding of pointers to timers of savevm.c, the back ends of files (system calls)
    and the monitor commands; the configuration function of bridges (pci_bridge.c), loading of
    option ROMs and hot-plug requests of pci.c; the references that memory regions hold on their owners;
    the memory regions that hold the tables of msix.c, beyond their sizes; static properties, GPIO
    lines and monitor events of qdev.c; clock sources, locks and polling of qemu-timer.c; the Python
    and shell scripts that run the symbolic executor.  The sizes of embedded structures of
    other headers are parameters ([Abi] in E1000Vmsd), and in Harness so is the way the
    structure lies in memory.  The wire of the device is the class
    [DeviceEnv], and the clients of a hub are the class [Endpoints]. *)

From stdpp Require Export base numbers list gmap strings.
From Stdlib Require Export ZArith Lia Btauto.

#[global] Open Scope Z_scope.

(** ** Notations and hint databases of the development *)

Declare Scope dev_scope.
Delimit Scope dev_scope with dev.
#[global] Open Scope dev_scope.

Create HintDb width.
Create Rewrite HintDb arr.

(** ** Machine integers: values are [Z], conversions are written out *)

Definition u8 (x : Z) : Z := x mod 2 ^ 8.
Definition u16 (x : Z) : Z := x mod 2 ^ 16.
Definition u32 (x : Z) : Z := x mod 2 ^ 32.
Definition u64 (x : Z) : Z := x mod 2 ^ 64.

(** Conversion to a signed [int] (two's complement). *)
Definition s32 (x : Z) : Z := (x + 2 ^ 31) mod 2 ^ 32 - 2 ^ 31.
Definition s64 (x : Z) : Z := (x + 2 ^ 63) mod 2 ^ 64 - 2 ^ 63.

(** [x] is a value of the unsigned [w]-bit type. *)
Definition fits (w x : Z) : Prop := 0 ≤ x < 2 ^ w.

#[global] Instance fits_dec w x : Decision (fits w x).
Proof. unfold fits; apply _. Defined.

(** C's truth value of [x & m]. *)
Definition tst (x m : Z) : bool := negb (Z.land x m =? 0).

(** C's [x & ~m]. *)
Definition clr (x m : Z) : Z := Z.land x (Z.lnot m).

(** ** Results of code that may fault or run out of loop fuel *)

Inductive fault : Type :=
| OutOfBounds      (* an access outside the object *)
| NullDeref        (* a use of a null pointer *)
| AssertFail.      (* a failed assert / abort *)

Inductive res (A : Type) : Type :=
| Ok (a : A)
| Fault (f : fault)
| Diverge.         (* the loop's fuel ran out *)
Arguments Ok {_} a.
Arguments Fault {_} f.
Arguments Diverge {_}.

#[global] Instance fault_eq_dec : EqDecision fault.
Proof. solve_decision. Defined.

#[global] Instance res_ret : MRet res := λ A a, Ok a.
#[global] Instance res_bind : MBind res := λ A B f m,
  match m with Ok a => f a | Fault e => Fault e | Diverge => Diverge end.

Definition is_ok {A} (r : res A) : bool := match r with Ok _ => true | _ => false end.

(** [holds r P]: the computation returns, and what it returns satisfies [P]. *)
Definition holds {A} (r : res A) (P : A → Prop) : Prop :=
  match r with Ok a => P a | _ => False end.

(** [safe r P]: the computation does not fault, and if it returns the result satisfies [P]. *)
Definition safe {A} (r : res A) (P : A → Prop) : Prop :=
  match r with Ok a => P a | Fault _ => False | Diverge => True end.

Lemma holds_bind {A B} (r : res A) (f : A → res B) P :
  holds r (λ a, holds (f a) P) ↔ holds (r ≫= f) P.
Proof. destruct r; reflexivity. Qed.

Lemma safe_bind {A B} (r : res A) (f : A → res B) P :
  safe r (λ a, safe (f a) P) → safe (r ≫= f) P.
Proof. destruct r; auto. Qed.

Lemma holds_mono {A} (r : res A) (P Q : A → Prop) :
  (∀ a, P a → Q a) → holds r P → holds r Q.
Proof. destruct r; simpl; auto. Qed.

Lemma safe_mono {A} (r : res A) (P Q : A → Prop) :
  (∀ a, P a → Q a) → safe r P → safe r Q.
Proof. destruct r; simpl; auto. Qed.

Lemma holds_Ok {A} (r : res A) P : holds r P ↔ ∃ a, r = Ok a ∧ P a.
Proof.
  destruct r; simpl; split; intros H; eauto; try done.
  - by destruct H as (? & [= ->] & ?).
  - by destruct H as (? & ? & ?).
  - by destruct H as (? & ? & ?).
Qed.

Lemma bind_Ok {A B} (r : res A) (f : A → res B) b :
  r ≫= f = Ok b → ∃ a, r = Ok a ∧ f a = Ok b.
Proof. destruct r; simpl; [eauto|discriminate|discriminate]. Qed.

(** [runs ok r P]: the computation does not fault, it returns when [ok] holds, and what it returns
    satisfies [P].  [runs True] is total correctness, [runs False] is safety. *)
Definition runs {A} (ok : Prop) (r : res A) (P : A → Prop) : Prop :=
  match r with Ok a => P a | Fault _ => False | Diverge => ¬ ok end.

Section Runs.
Context {A B : Type}.

Lemma runs_ret (ok : Prop) (a : A) (P : A → Prop) : P a → runs ok (Ok a) P.
Proof. done. Qed.
Lemma runs_bind (ok : Prop) (r : res A) (f : A → res B) P :
  runs ok r (λ a, runs ok (f a) P) → runs ok (r ≫= f) P.
Proof. destruct r; auto. Qed.
Lemma runs_mono (ok ok' : Prop) (r : res A) (P Q : A → Prop) :
  (ok → ok') → (∀ a, P a → Q a) → runs ok' r P → runs ok r Q.
Proof. destruct r; cbn; auto. Qed.
(** Sequencing, where the second computation's condition may depend on the first's result. *)
Lemma runs_seq (ok ok1 : Prop) (ok2 : A → Prop) (r : res A) (f : A → res B) (P : A → Prop) Q :
  runs ok1 r P → (ok → ok1) → (∀ a, P a → (ok → ok2 a) ∧ runs (ok2 a) (f a) Q) →
  runs ok (r ≫= f) Q.
Proof.
  intros Hr Hok Hf. destruct r as [a| |]; cbn in *; [|done|auto].
  destruct (Hf a Hr) as [H1 H2]. destruct (f a); cbn in *; auto.
Qed.
Lemma runs_total (ok : Prop) (r : res A) P : ok → runs ok r P → ∃ a, r = Ok a ∧ P a.
Proof. destruct r; cbn; [eauto|done|done]. Qed.
Lemma runs_no_fault (ok : Prop) (r : res A) P f : runs ok r P → r ≠ Fault f.
Proof. by destruct r. Qed.
End Runs.

(** ** Tactics *)

(** Case split on the innermost [if]/[match] of the goal. *)
Ltac split_if :=
  match goal with
  | |- context [if ?b then _ else _] => destruct b eqn:?
  end.

(** Evaluate the first [if] of the goal whose condition computes. *)
Ltac known_if :=
  match goal with
  | |- context [if ?b then _ else _] => first [change b with true | change b with false]; cbv iota beta
  end.

(** Turn boolean tests in hypotheses into propositions. *)
Ltac bool_hyps :=
  repeat match goal with
  | H : negb _ = true |- _ => apply negb_true_iff in H
  | H : negb _ = false |- _ => apply negb_false_iff in H
  | H : (_ && _)%bool = true |- _ => apply andb_true_iff in H as [? ?]
  | H : (_ || _)%bool = false |- _ => apply orb_false_iff in H as [? ?]
  | H : (_ && _)%bool = false |- _ => apply andb_false_iff in H
  | H : (_ || _)%bool = true |- _ => apply orb_true_iff in H
  | H : (_ =? _) = true |- _ => apply Z.eqb_eq in H
  | H : (_ =? _) = false |- _ => apply Z.eqb_neq in H
  | H : (_ <? _) = true |- _ => apply Z.ltb_lt in H
  | H : (_ <? _) = false |- _ => apply Z.ltb_ge in H
  | H : (_ <=? _) = true |- _ => apply Z.leb_le in H
  | H : (_ <=? _) = false |- _ => apply Z.leb_gt in H
  end.

(** Equality of integers, bit by bit. *)
Ltac bitwise :=
  apply Z.bits_inj'; intros ?n ?Hn;
  repeat first [rewrite Z.land_spec | rewrite Z.lor_spec | rewrite Z.lxor_spec
               | rewrite Z.lnot_spec by assumption];
  try btauto.

(** Stateful operations step through [safe]/[holds] goals by these. *)
Ltac inv_bind :=
  match goal with
  | H : (_ ≫= _) = Ok _ |- _ => apply bind_Ok in H as (? & ? & ?)
  end.

(** ** Width lemmas *)

Section Widths.
Lemma u32_fits x : fits 32 (u32 x).
Proof. apply Z.mod_pos_bound; lia. Qed.
Lemma u16_fits x : fits 16 (u16 x).
Proof. apply Z.mod_pos_bound; lia. Qed.
Lemma u8_fits x : fits 8 (u8 x).
Proof. apply Z.mod_pos_bound; lia. Qed.
Lemma u64_fits x : fits 64 (u64 x).
Proof. apply Z.mod_pos_bound; lia. Qed.

Lemma u32_small x : fits 32 x → u32 x = x.
Proof. apply Z.mod_small. Qed.
Lemma u16_small x : fits 16 x → u16 x = x.
Proof. apply Z.mod_small. Qed.
Lemma u8_small x : fits 8 x → u8 x = x.
Proof. apply Z.mod_small. Qed.
Lemma u64_small x : fits 64 x → u64 x = x.
Proof. apply Z.mod_small. Qed.
Lemma s32_small x : - 2 ^ 31 ≤ x < 2 ^ 31 → s32 x = x.
Proof. intros Hx. unfold s32. rewrite Z.mod_small by lia. lia. Qed.

Lemma s64_id x : - 2 ^ 63 ≤ x < 2 ^ 63 → s64 x = x.
Proof. intros Hx. unfold s64. rewrite Z.mod_small; lia. Qed.
Lemma fits_bits w x : 0 ≤ w → 0 ≤ x → fits w x ↔ ∀ l, w ≤ l → Z.testbit x l = false.
Proof. intros. by apply Z.bounded_iff_bits_nonneg'. Qed.

Lemma land_fits_l w x y : 0 ≤ w → fits w x → fits w (Z.land x y).
Proof.
  intros Hw Hx. assert (0 ≤ Z.land x y) by (apply Z.land_nonneg; left; apply Hx).
  apply fits_bits; auto. intros l Hl. rewrite Z.land_spec.
  by rewrite (proj1 (fits_bits w x Hw (proj1 Hx)) Hx l Hl).
Qed.
Lemma land_fits_r w x y : 0 ≤ w → fits w y → fits w (Z.land x y).
Proof. rewrite Z.land_comm. apply land_fits_l. Qed.
Lemma lor_fits w x y : 0 ≤ w → fits w x → fits w y → fits w (Z.lor x y).
Proof.
  intros Hw Hx Hy.
  assert (0 ≤ Z.lor x y) by (apply Z.lor_nonneg; split; [apply Hx|apply Hy]).
  apply fits_bits; auto. intros l Hl. rewrite Z.lor_spec.
  rewrite (proj1 (fits_bits w x Hw (proj1 Hx)) Hx l Hl).
  by rewrite (proj1 (fits_bits w y Hw (proj1 Hy)) Hy l Hl).
Qed.
Lemma lxor_fits w x y : 0 ≤ w → fits w x → fits w y → fits w (Z.lxor x y).
Proof.
  intros Hw Hx Hy.
  assert (0 ≤ Z.lxor x y) by (apply Z.lxor_nonneg; split; intros; [apply Hy|apply Hx]).
  apply fits_bits; auto. intros l Hl. rewrite Z.lxor_spec.
  rewrite (proj1 (fits_bits w x Hw (proj1 Hx)) Hx l Hl).
  by rewrite (proj1 (fits_bits w y Hw (proj1 Hy)) Hy l Hl).
Qed.
Lemma clr_fits w x m : 0 ≤ w → fits w x → fits w (clr x m).
Proof. apply land_fits_l. Qed.
Lemma shiftr_fits w x n : 0 ≤ n → fits w x → fits w (Z.shiftr x n).
Proof.
  intros Hn [H1 H2]. rewrite Z.shiftr_div_pow2 by done. split.
  - apply Z.div_pos; lia.
  - eapply Z.le_lt_trans; [apply Z.div_le_upper_bound with (q := x)|]; nia.
Qed.
Lemma fits_mono w w' x : 0 ≤ w ≤ w' → fits w x → fits w' x.
Proof.
  intros Hw [H1 H2]. split; [done|].
  eapply Z.lt_le_trans; [apply H2|]. apply Z.pow_le_mono_r; lia.
Qed.
End Widths.

#[export] Hint Resolve u8_fits u16_fits u32_fits u64_fits : width.
#[export] Hint Resolve land_fits_l land_fits_r lor_fits lxor_fits clr_fits : width.
#[export] Hint Extern 1 (0 ≤ _) => lia : width.
#[export] Hint Extern 2 (fits _ _) => (unfold fits; vm_compute; split; congruence) : width.

(** Bit operations on values that fit, and constants. *)
Ltac solve_fits :=
  repeat (first [apply lor_fits | apply land_fits_l | apply clr_fits]; [lia|..]);
  first [assumption | apply u8_fits | apply u16_fits | apply u32_fits
        | (unfold fits; vm_compute; split; congruence)].

(** A mask of constant width bounds a [Z.land]. *)
Lemma land_ones_le x m : 0 ≤ m → 0 ≤ Z.land x m ≤ m.
Proof.
  intros Hm. split; [apply Z.land_nonneg; auto|].
  assert (Hs : m = Z.land x m + Z.ldiff m x).
  { rewrite Z.add_nocarry_lxor; bitwise; rewrite Z.ldiff_spec, ?Z.bits_0; btauto. }
  assert (0 ≤ Z.ldiff m x) by (apply Z.ldiff_nonneg; auto). lia.
Qed.

Lemma land_ffff x : Z.land x 0xffff = x mod 65536.
Proof. exact (Z.land_ones x 16 ltac:(lia)). Qed.
Lemma land_ff x : Z.land x 0xff = x mod 256.
Proof. exact (Z.land_ones x 8 ltac:(lia)). Qed.

(** Bits of a low field do not show under a mask of higher bits, and conversely. *)
Lemma land_lor_high c x m : fits 16 x → Z.land m 0xffff = 0 → Z.land (Z.lor c x) m = Z.land c m.
Proof.
  intros Hx Hm. bitwise. destruct (Z.lt_ge_cases n 16) as [Hlt|Hge].
  - assert (Hb : Z.testbit (Z.land m (Z.ones 16)) n = false) by (change (Z.ones 16) with 0xffff; rewrite Hm; apply Z.bits_0).
    rewrite Z.land_spec, Z.ones_spec_low, andb_true_r in Hb by lia. rewrite Hb. btauto.
  - rewrite (proj1 (fits_bits 16 x ltac:(lia) (proj1 Hx)) Hx n Hge). btauto.
Qed.
Lemma land_lor_low c x : fits 16 x → Z.land c 0xffff = 0 → Z.land (Z.lor c x) 0xffff = x.
Proof.
  intros Hx Hc. rewrite Z.land_lor_distr_l, Hc, Z.lor_0_l, land_ffff. apply Z.mod_small, Hx.
Qed.

(** A test of a single-bit mask. *)
Lemma tst_bit x n : 0 ≤ n → tst x (2 ^ n) = Z.testbit x n.
Proof.
  intros Hn. unfold tst. destruct (Z.testbit x n) eqn:E.
  - apply negb_true_iff, Z.eqb_neq. intros H0.
    assert (Z.testbit (Z.land x (2 ^ n)) n = false) by (rewrite H0; apply Z.bits_0).
    rewrite Z.land_spec, E, Z.pow2_bits_true in H by done. discriminate.
  - apply negb_false_iff, Z.eqb_eq. bitwise.
    rewrite Z.pow2_bits_eqb, Z.bits_0 by done.
    destruct (Z.eqb_spec n n0) as [<-|]; [by rewrite E|btauto].
Qed.

(** Setting and clearing a mask. *)
Lemma lor_mul q y k : 0 ≤ k → 0 ≤ y < 2 ^ k → Z.lor (q * 2 ^ k) y = q * 2 ^ k + y.
Proof.
  intros Hk Hy. assert (Hl : Z.land (q * 2 ^ k) y = 0).
  { apply Z.bits_inj_0. intros n. rewrite Z.land_spec. destruct (Z.ltb_spec n 0); [by rewrite Z.testbit_neg_r|]. destruct (Z.ltb_spec n k).
    - by rewrite Z.mul_pow2_bits_low.
    - rewrite (proj1 (fits_bits k y Hk (proj1 Hy)) Hy n) by lia. apply andb_false_r. }
  rewrite <-Z.lxor_lor, Z.add_nocarry_lxor by done. done.
Qed.
Lemma lor_tst x m : m ≠ 0 → tst (Z.lor x m) m = true.
Proof.
  intros Hm. unfold tst. rewrite Z.land_comm, Z.lor_comm, Z.land_lor_distr_r, Z.land_diag. apply negb_true_iff, Z.eqb_neq.
  intros E. apply Hm. by apply Z.lor_eq_0_iff in E as [? _].
Qed.
Lemma lor_tst_l x y m : tst x m = true → tst (Z.lor x y) m = true.
Proof.
  unfold tst. rewrite !negb_true_iff, !Z.eqb_neq, Z.land_lor_distr_l. intros Hx E. apply Hx.
  by apply Z.lor_eq_0_iff in E as [? _].
Qed.
Lemma clr_tst x m : tst (clr x m) m = false.
Proof.
  unfold tst, clr. apply negb_false_iff, Z.eqb_eq. bitwise. rewrite Z.bits_0. btauto.
Qed.

(** ** Fixed-size arrays: a cell that was never stored reads 0 *)

Abbreviation arr := (gmap Z Z).

Definition aget (a : arr) (i : Z) : Z := default 0 (a !! i).
Definition aset (a : arr) (i v : Z) : arr := <[i := v]> a.

(** [aread a o n]: the [n] cells from offset [o]; [awrite a o l] stores [l] from offset [o]. *)
Definition aread (a : arr) (o : Z) (n : nat) : list Z :=
  (λ i, aget a (o + Z.of_nat i)) <$> seq 0 n.
Fixpoint awrite (a : arr) (o : Z) (l : list Z) : arr :=
  match l with
  | [] => a
  | b :: l => awrite (aset a o b) (o + 1) l
  end.

(** Every cell is a value of the unsigned [w]-bit type. *)
Definition afits (w : Z) (a : arr) : Prop := ∀ i, fits w (aget a i).

Section Arrays.
Implicit Types (a : arr) (l : list Z).

Lemma aget_aset_eq a i v : aget (aset a i v) i = v.
Proof. unfold aget, aset. by rewrite lookup_insert_eq. Qed.
Lemma aget_aset_ne a i j v : i ≠ j → aget (aset a i v) j = aget a j.
Proof. intros. unfold aget, aset. by rewrite lookup_insert_ne. Qed.
Lemma aget_aset a i j v : aget (aset a i v) j = if i =? j then v else aget a j.
Proof.
  destruct (Z.eqb_spec i j) as [->|]; [apply aget_aset_eq|by apply aget_aset_ne].
Qed.
Lemma aget_empty i : aget ∅ i = 0.
Proof. unfold aget. by rewrite lookup_empty. Qed.

Lemma aget_awrite a o l i :
  aget (awrite a o l) i =
  if (o <=? i) && (i <? o + Z.of_nat (length l)) then nth (Z.to_nat (i - o)) l 0
  else aget a i.
Proof.
  revert a o. induction l as [|b l IH]; intros a o; simpl awrite.
  - destruct (o <=? i) eqn:?, (i <? _) eqn:?; simpl in *; bool_hyps; try done; lia.
  - rewrite IH, aget_aset. simpl length.
    destruct (Z.eqb_spec o i) as [->|].
    + rewrite (proj2 (Z.leb_gt (i + 1) i)), Z.leb_refl by lia.
      rewrite (proj2 (Z.ltb_lt i (i + Z.of_nat (S (length l))))) by lia.
      by rewrite Z.sub_diag.
    + destruct (o <=? i) eqn:H1, (o + 1 <=? i) eqn:H2; bool_hyps; try lia; simpl; [|done].
      replace (o + 1 + Z.of_nat (length l)) with (o + Z.of_nat (S (length l))) by lia.
      split_if; [|done].
      replace (Z.to_nat (i - o)) with (S (Z.to_nat (i - (o + 1)))) by lia. done.
Qed.
Lemma aget_awrite_out a o l i :
  i < o ∨ o + Z.of_nat (length l) ≤ i → aget (awrite a o l) i = aget a i.
Proof.
  intros H. rewrite aget_awrite.
  destruct (o <=? i) eqn:?, (i <? _) eqn:?; simpl; bool_hyps; try done; lia.
Qed.
Lemma aget_awrite_in a o l i :
  o ≤ i < o + Z.of_nat (length l) → aget (awrite a o l) i = nth (Z.to_nat (i - o)) l 0.
Proof.
  intros H. rewrite aget_awrite.
  rewrite (proj2 (Z.leb_le o i)), (proj2 (Z.ltb_lt i _)) by lia. done.
Qed.

Lemma length_aread a o n : length (aread a o n) = n.
Proof. unfold aread. by rewrite length_fmap, length_seq. Qed.
Lemma lookup_aread a o n i :
  (i < n)%nat → aread a o n !! i = Some (aget a (o + Z.of_nat i)).
Proof. intros. unfold aread. rewrite list_lookup_fmap, lookup_seq_lt by done. done. Qed.
Lemma nth_aread a o n i : (i < n)%nat → nth i (aread a o n) 0 = aget a (o + Z.of_nat i).
Proof. intros. by apply nth_lookup_Some, lookup_aread. Qed.

Lemma aread_ext a a' o o' n :
  (∀ i, 0 ≤ i < Z.of_nat n → aget a (o + i) = aget a' (o' + i)) →
  aread a o n = aread a' o' n.
Proof.
  intros H. apply list_eq. intros i. destruct (decide (i < n)%nat).
  - rewrite !lookup_aread by done. rewrite H by lia. done.
  - rewrite !lookup_ge_None_2; rewrite ?length_aread; auto with lia.
Qed.
Lemma aread_awrite a o l : aread (awrite a o l) o (length l) = l.
Proof.
  apply list_eq. intros i. destruct (decide (i < length l)%nat).
  - rewrite lookup_aread by done. rewrite aget_awrite_in by lia.
    replace (Z.to_nat _) with i by lia. destruct (lookup_lt_is_Some_2 l i) as [x Hx]; [done|].
    by rewrite Hx, (nth_lookup_Some _ _ _ _ Hx).
  - rewrite !lookup_ge_None_2; rewrite ?length_aread; auto with lia.
Qed.
Lemma aread_awrite_len a o l n : length l = n → aread (awrite a o l) o n = l.
Proof. intros <-. apply aread_awrite. Qed.
Lemma aread_awrite_out a o l o' n :
  o' + Z.of_nat n ≤ o ∨ o + Z.of_nat (length l) ≤ o' →
  aread (awrite a o l) o' n = aread a o' n.
Proof. intros H. apply aread_ext. intros i Hi. apply aget_awrite_out. lia. Qed.
Lemma aread_app a o n m :
  aread a o (n + m) = aread a o n ++ aread a (o + Z.of_nat n) m.
Proof.
  unfold aread. rewrite seq_app, fmap_app. f_equal. apply list_eq. intros i.
  rewrite !list_lookup_fmap. destruct (decide (i < m)%nat).
  - rewrite !lookup_seq_lt by done. simpl. do 2 f_equal. lia.
  - rewrite !lookup_seq_ge by lia. done.
Qed.
Lemma awrite_app a o l l' :
  awrite a o (l ++ l') = awrite (awrite a o l) (o + Z.of_nat (length l)) l'.
Proof.
  revert a o. induction l as [|b l IH]; intros a o; simpl.
  - by rewrite Z.add_0_r.
  - rewrite IH. f_equal. lia.
Qed.

Lemma afits_aset w a i v : afits w a → fits w v → afits w (aset a i v).
Proof. intros Ha Hv j. rewrite aget_aset. split_if; auto. Qed.
Lemma afits_awrite w a o l : afits w a → Forall (fits w) l → afits w (awrite a o l).
Proof.
  intros Ha Hl. revert a o Ha. induction Hl as [|b l Hb Hl IH]; intros; simpl; [done|].
  by apply IH, afits_aset.
Qed.
Lemma afits_empty w : 0 ≤ w → afits w ∅.
Proof. intros Hw i. rewrite aget_empty. split; [done|]. apply Z.pow_pos_nonneg; lia. Qed.
Lemma aread_fits w a o n : afits w a → Forall (fits w) (aread a o n).
Proof. intros Ha. apply Forall_fmap, Forall_true. intros. apply Ha. Qed.
End Arrays.

#[export] Hint Resolve afits_aset afits_awrite afits_empty aread_fits : width.
#[export] Hint Rewrite aget_aset_eq aget_empty length_aread : arr.
#[export] Hint Rewrite aget_aset_ne using (first [done | lia | (vm_compute; congruence)]) : arr.

(** A block access of [n] bytes at offset [o] of an object of [cap] bytes. *)
Definition in_object (cap o n : Z) : bool := (0 <=? o) && (0 <=? n) && (o + n <=? cap).

Definition load (cap : Z) (a : arr) (o n : Z) : res (list Z) :=
  if in_object cap o n then Ok (aread a o (Z.to_nat n)) else Fault OutOfBounds.
Definition store (cap : Z) (a : arr) (o : Z) (l : list Z) : res arr :=
  if in_object cap o (Z.of_nat (length l)) then Ok (awrite a o l) else Fault OutOfBounds.

Lemma load_in cap a o n : 0 ≤ o → 0 ≤ n → o + n ≤ cap → load cap a o n = Ok (aread a o (Z.to_nat n)).
Proof.
  intros. unfold load, in_object.
  by rewrite (proj2 (Z.leb_le 0 o)), (proj2 (Z.leb_le 0 n)), (proj2 (Z.leb_le (o + n) cap)) by lia.
Qed.
Lemma store_in cap a o l : 0 ≤ o → o + Z.of_nat (length l) ≤ cap → store cap a o l = Ok (awrite a o l).
Proof.
  intros. unfold store, in_object.
  by rewrite (proj2 (Z.leb_le 0 o)), (proj2 (Z.leb_le 0 _)), (proj2 (Z.leb_le (o + _) cap)) by lia.
Qed.

(** ** Byte order *)

Fixpoint le_val (l : list Z) : Z :=
  match l with [] => 0 | b :: l => b + 256 * le_val l end.
Fixpoint le_bytes (n : nat) (v : Z) : list Z :=
  match n with O => [] | S n => v mod 256 :: le_bytes n (v / 256) end.
Definition be_val (l : list Z) : Z := le_val (reverse l).
Definition be_bytes (n : nat) (v : Z) : list Z := reverse (le_bytes n v).

Section Endian.
Lemma length_le_bytes n v : length (le_bytes n v) = n.
Proof. revert v. induction n; intros; simpl; auto. Qed.
Lemma length_be_bytes n v : length (be_bytes n v) = n.
Proof. unfold be_bytes. rewrite length_reverse. apply length_le_bytes. Qed.
Lemma le_bytes_fits n v : Forall (fits 8) (le_bytes n v).
Proof.
  revert v. induction n; intros; simpl; constructor; auto.
  apply (Z.mod_pos_bound v 256). lia.
Qed.
Lemma be_bytes_fits n v : Forall (fits 8) (be_bytes n v).
Proof. apply Forall_reverse, le_bytes_fits. Qed.
Lemma le_val_le_bytes n v : le_val (le_bytes n v) = v mod 256 ^ Z.of_nat n.
Proof.
  revert v. induction n as [|n IH]; intros v.
  - simpl. by rewrite Z.mod_1_r.
  - cbn [le_bytes le_val]. rewrite IH.
    replace (256 ^ Z.of_nat (S n)) with (256 * 256 ^ Z.of_nat n)
      by (rewrite Nat2Z.inj_succ, Z.pow_succ_r; lia).
    rewrite Z.rem_mul_r; lia.
Qed.
Lemma le_bytes_le_val l : Forall (fits 8) l → le_bytes (length l) (le_val l) = l.
Proof.
  induction 1 as [|b l Hb Hl IH]; [done|]. cbn [le_val length le_bytes].
  unfold fits in Hb. change (2 ^ 8) with 256 in Hb.
  rewrite (Z.mul_comm 256), Z.mod_add, Z.div_add, Z.mod_small, Z.div_small by lia.
  rewrite Z.add_0_l, IH. done.
Qed.
Lemma le_val_fits l : Forall (fits 8) l → fits (8 * Z.of_nat (length l)) (le_val l).
Proof.
  induction 1 as [|b l Hb Hl IH]; [done|]. cbn [le_val length].
  unfold fits in *. change (2 ^ 8) with 256 in Hb.
  replace (8 * Z.of_nat (S (length l))) with (8 + 8 * Z.of_nat (length l)) by lia.
  rewrite Z.pow_add_r by lia. change (2 ^ 8) with 256. nia.
Qed.
Lemma be_val_be_bytes n v : be_val (be_bytes n v) = v mod 256 ^ Z.of_nat n.
Proof. unfold be_val, be_bytes. rewrite reverse_involutive. apply le_val_le_bytes. Qed.
Lemma be_val_fits l : Forall (fits 8) l → fits (8 * Z.of_nat (length l)) (be_val l).
Proof.
  intros H. unfold be_val. rewrite <-length_reverse. by apply le_val_fits, Forall_reverse.
Qed.
Lemma le_val_app l l' : le_val (l ++ l') = le_val l + 256 ^ Z.of_nat (length l) * le_val l'.
Proof.
  induction l as [|b l IH]; [cbn [app le_val length]; rewrite Z.pow_0_r; lia|]. cbn [app le_val length]. rewrite IH, Nat2Z.inj_succ, Z.pow_succ_r by lia. lia.
Qed.
Lemma be_val_app l l' : be_val (l ++ l') = be_val l * 256 ^ Z.of_nat (length l') + be_val l'.
Proof. unfold be_val. rewrite reverse_app, le_val_app, length_reverse. lia. Qed.
Lemma le_bytes_app n m v : le_bytes (n + m) v = le_bytes n v ++ le_bytes m (v / 256 ^ Z.of_nat n).
Proof.
  revert v. induction n as [|n IH]; intros v; [cbn [Nat.add le_bytes app]; by rewrite Z.pow_0_r, Z.div_1_r|]. cbn [Nat.add le_bytes app]. rewrite IH, Nat2Z.inj_succ, Z.pow_succ_r, Z.div_div by lia. done.
Qed.
Lemma le_bytes_mod n v : le_bytes n (v mod 256 ^ Z.of_nat n) = le_bytes n v.
Proof.
  rewrite <-le_val_le_bytes. pose proof (le_bytes_le_val (le_bytes n v) (le_bytes_fits n v)) as Hl. by rewrite length_le_bytes in Hl.
Qed.
End Endian.

#[export] Hint Resolve le_bytes_fits be_bytes_fits : width.
#[export] Hint Rewrite length_le_bytes length_be_bytes : arr.

(** ** Overwriting part of a list *)

(** [splice l o new]: [l] with [new] stored from position [o] (as much of it as fits). *)
Definition splice {A} (l : list A) (o : nat) (new : list A) : list A :=
  take o l ++ take (length l - o) new ++ drop (o + length new) l.

Section Splice.
Local Open Scope nat_scope.
Context {A : Type}.
Implicit Types l new : list A.

Lemma lookup_splice l o new i :
  o ≤ length l →
  splice l o new !! i =
  if decide (o ≤ i < o + length new ∧ i < length l) then new !! (i - o) else l !! i.
Proof.
  intros Ho. unfold splice. rewrite !lookup_app, !length_take, Nat.min_l by lia.
  case_decide as H.
  - rewrite lookup_take_ge by lia. rewrite lookup_take_lt by lia.
    destruct (lookup_lt_is_Some_2 new (i - o)) as [x Hx]; [lia|]. by rewrite Hx.
  - destruct (decide (i < o)) as [Hi|Hi].
    + rewrite lookup_take_lt by done.
      destruct (lookup_lt_is_Some_2 l i) as [x Hx]; [lia|]. by rewrite Hx.
    + rewrite lookup_take_ge by lia.
      destruct (decide (i < length l)) as [Hl|Hl].
      * rewrite (lookup_ge_None_2 (take _ _)) by (rewrite length_take; lia).
        rewrite lookup_drop. f_equal. lia.
      * rewrite (lookup_ge_None_2 l) by lia.
        rewrite (lookup_ge_None_2 (take _ _)) by (rewrite length_take; lia).
        apply lookup_ge_None_2. rewrite length_drop. lia.
Qed.

Lemma length_splice l o new : o ≤ length l → length (splice l o new) = length l.
Proof. intros. unfold splice. rewrite !length_app, !length_take, length_drop. lia. Qed.

Lemma splice_nil l o : splice l o [] = l.
Proof. unfold splice. by rewrite take_nil, app_nil_l, Nat.add_0_r, take_drop. Qed.

Lemma splice_app_l l l' o new :
  o ≤ length l →
  splice (l ++ l') o new =
  splice l o (take (length l - o) new) ++ splice l' 0 (drop (length l - o) new).
Proof.
  intros Ho. apply list_eq. intros i.
  rewrite lookup_splice by (rewrite length_app; lia).
  destruct (decide (i < length l)).
  - rewrite (lookup_app_l (splice _ _ _)) by (rewrite length_splice; lia).
    rewrite lookup_splice, length_take, length_app by done.
    repeat case_decide; try lia; [by rewrite lookup_take_lt by lia|by rewrite lookup_app_l].
  - rewrite (lookup_app_r (splice _ _ _)), length_splice by (rewrite ?length_splice; lia).
    rewrite lookup_splice, length_drop, length_app by lia.
    repeat case_decide; try lia; [rewrite lookup_drop; f_equal; lia|by rewrite lookup_app_r by lia].
Qed.

Lemma splice_app_r l l' o new :
  length l ≤ o ≤ length l + length l' →
  splice (l ++ l') o new = l ++ splice l' (o - length l) new.
Proof.
  intros Ho. apply list_eq. intros i.
  rewrite lookup_splice by (rewrite length_app; lia).
  destruct (decide (i < length l)).
  - rewrite !lookup_app_l by done. case_decide; [lia|done].
  - rewrite !lookup_app_r by lia. rewrite lookup_splice, length_app by lia.
    repeat case_decide; try lia; [f_equal; lia|done].
Qed.

Lemma splice_fit l o new :
  o + length new ≤ length l → splice l o new = take o l ++ new ++ drop (o + length new) l.
Proof. intros. unfold splice. by rewrite (take_ge new) by lia. Qed.

(** Reading back what was stored. *)
Lemma take_drop_splice l o new :
  o ≤ length l →
  take (length new) (drop o (splice l o new)) = take (length l - o) new.
Proof.
  intros Ho. apply list_eq. intros i. destruct (decide (i < length new)).
  - rewrite lookup_take_lt, lookup_drop, lookup_splice by lia.
    destruct (decide (i < length l - o)).
    + rewrite decide_True by lia. rewrite lookup_take_lt by lia. f_equal. lia.
    + rewrite decide_False, lookup_take_ge by lia. apply lookup_ge_None_2. lia.
  - rewrite !lookup_ge_None_2; [done| |]; rewrite length_take; lia.
Qed.
End Splice.
