(* ===== verification/Regs.v ===== *)
(** Register offsets and bit definitions of hw/net/e1000_regs.h that e1000.c uses, and the
    register indices of e1000.c's [defreg] enumeration (byte offset shifted right by 2). *)

From S2P Require Import Prelude.

(** Device identities *)
Definition E1000_DEV_ID_82540EM : Z := 0x100E.
Definition E1000_DEV_ID_82544GC_COPPER : Z := 0x100C.
Definition E1000_DEV_ID_82547EI_MOBILE : Z := 0x101A.
Definition E1000_DEV_ID_82573L : Z := 0x109A.

(** Register offsets in the MMIO window *)
Definition E1000_CTRL : Z := 0x00000.
Definition E1000_EECD : Z := 0x00010.
Definition E1000_EERD : Z := 0x00014.
Definition E1000_GPRC : Z := 0x04074.
Definition E1000_GPTC : Z := 0x04080.
Definition E1000_ICR : Z := 0x000C0.
Definition E1000_ICS : Z := 0x000C8.
Definition E1000_IMC : Z := 0x000D8.
Definition E1000_IMS : Z := 0x000D0.
Definition E1000_LEDCTL : Z := 0x00E00.
Definition E1000_MANC : Z := 0x05820.
Definition E1000_MDIC : Z := 0x00020.
Definition E1000_MPC : Z := 0x04010.
Definition E1000_PBA : Z := 0x01000.
Definition E1000_RCTL : Z := 0x00100.
Definition E1000_RDBAH : Z := 0x02804.
Definition E1000_RDBAL : Z := 0x02800.
Definition E1000_RDH : Z := 0x02810.
Definition E1000_RDLEN : Z := 0x02808.
Definition E1000_RDT : Z := 0x02818.
Definition E1000_STATUS : Z := 0x00008.
Definition E1000_SWSM : Z := 0x05B50.
Definition E1000_TCTL : Z := 0x00400.
Definition E1000_TDBAH : Z := 0x03804.
Definition E1000_TDBAL : Z := 0x03800.
Definition E1000_TDH : Z := 0x03810.
Definition E1000_TDLEN : Z := 0x03808.
Definition E1000_TDT : Z := 0x03818.
Definition E1000_TORH : Z := 0x040C4.
Definition E1000_TORL : Z := 0x040C0.
Definition E1000_TOTH : Z := 0x040CC.
Definition E1000_TOTL : Z := 0x040C8.
Definition E1000_TPR : Z := 0x040D0.
Definition E1000_TPT : Z := 0x040D4.
Definition E1000_TXDCTL : Z := 0x03828.
Definition E1000_WUFC : Z := 0x05808.
Definition E1000_RA : Z := 0x05400.
Definition E1000_MTA : Z := 0x05200.
Definition E1000_CRCERRS : Z := 0x04000.
Definition E1000_VFTA : Z := 0x05600.
Definition E1000_VET : Z := 0x00038.
Definition E1000_RDTR : Z := 0x02820.
Definition E1000_RADV : Z := 0x0282C.
Definition E1000_TADV : Z := 0x0382C.
Definition E1000_ITR : Z := 0x000C4.

(** PHY registers *)
Definition PHY_CTRL : Z := 0x00.
Definition PHY_STATUS : Z := 0x01.
Definition PHY_ID1 : Z := 0x02.
Definition PHY_ID2 : Z := 0x03.
Definition PHY_AUTONEG_ADV : Z := 0x04.
Definition PHY_LP_ABILITY : Z := 0x05.
Definition PHY_1000T_CTRL : Z := 0x09.
Definition PHY_1000T_STATUS : Z := 0x0A.
Definition M88E1000_PHY_SPEC_CTRL : Z := 0x10.
Definition M88E1000_PHY_SPEC_STATUS : Z := 0x11.
Definition M88E1000_EXT_PHY_SPEC_CTRL : Z := 0x14.
Definition M88E1000_RX_ERR_CNTR : Z := 0x15.

(** PHY control and status bits *)
Definition MII_CR_RESTART_AUTO_NEG : Z := 0x0200.
Definition MII_CR_AUTO_NEG_EN : Z := 0x1000.
Definition MII_CR_LOOPBACK : Z := 0x4000.
Definition MII_SR_LINK_STATUS : Z := 0x0004.
Definition MII_SR_AUTONEG_COMPLETE : Z := 0x0020.

(** Interrupt causes *)
Definition E1000_ICR_TXDW : Z := 0x00000001.
Definition E1000_ICR_TXQE : Z := 0x00000002.
Definition E1000_ICR_LSC : Z := 0x00000004.
Definition E1000_ICR_RXDMT0 : Z := 0x00000010.
Definition E1000_ICR_RXO : Z := 0x00000040.
Definition E1000_ICR_RXT0 : Z := 0x00000080.
Definition E1000_ICR_MDAC : Z := 0x00000200.
Definition E1000_ICR_INT_ASSERTED : Z := 0x80000000.

(** Interrupt cause set *)
Definition E1000_ICS_TXQE : Z := E1000_ICR_TXQE.
Definition E1000_ICS_RXDMT0 : Z := E1000_ICR_RXDMT0.
Definition E1000_ICS_RXO : Z := E1000_ICR_RXO.
Definition E1000_ICS_RXT0 : Z := E1000_ICR_RXT0.

(** Receive control *)
Definition E1000_RCTL_EN : Z := 0x00000002.
Definition E1000_RCTL_SBP : Z := 0x00000004.
Definition E1000_RCTL_UPE : Z := 0x00000008.
Definition E1000_RCTL_MPE : Z := 0x00000010.
Definition E1000_RCTL_LPE : Z := 0x00000020.
Definition E1000_RCTL_RDMTS_QUAT : Z := 0x00000100.
Definition E1000_RCTL_MO_SHIFT : Z := 12.
Definition E1000_RCTL_BAM : Z := 0x00008000.
Definition E1000_RCTL_SZ_2048 : Z := 0x00000000.
Definition E1000_RCTL_SZ_1024 : Z := 0x00010000.
Definition E1000_RCTL_SZ_512 : Z := 0x00020000.
Definition E1000_RCTL_SZ_256 : Z := 0x00030000.
Definition E1000_RCTL_SZ_16384 : Z := 0x00010000.
Definition E1000_RCTL_SZ_8192 : Z := 0x00020000.
Definition E1000_RCTL_SZ_4096 : Z := 0x00030000.
Definition E1000_RCTL_VFE : Z := 0x00040000.
Definition E1000_RCTL_BSEX : Z := 0x02000000.
Definition E1000_RCTL_SECRC : Z := 0x04000000.

(** EEPROM read register *)
Definition E1000_EEPROM_RW_REG_DATA : Z := 16.
Definition E1000_EEPROM_RW_REG_DONE : Z := 0x10.
Definition E1000_EEPROM_RW_REG_START : Z := 1.
Definition E1000_EEPROM_RW_ADDR_SHIFT : Z := 8.

(** Device control and status *)
Definition E1000_CTRL_SLU : Z := 0x00000040.
Definition E1000_CTRL_SPD_1000 : Z := 0x00000200.
Definition E1000_CTRL_SWDPIN0 : Z := 0x00040000.
Definition E1000_CTRL_SWDPIN2 : Z := 0x00100000.
Definition E1000_CTRL_RST : Z := 0x04000000.
Definition E1000_CTRL_VME : Z := 0x40000000.
Definition E1000_STATUS_FD : Z := 0x00000001.
Definition E1000_STATUS_LU : Z := 0x00000002.
Definition E1000_STATUS_SPEED_1000 : Z := 0x00000080.
Definition E1000_STATUS_ASDV : Z := 0x00000300.
Definition E1000_STATUS_GIO_MASTER_ENABLE : Z := 0x00080000.
Definition E1000_STATUS_MTXCKOK : Z := 0x00000400.

(** EEPROM/flash control *)
Definition E1000_EECD_SK : Z := 0x00000001.
Definition E1000_EECD_CS : Z := 0x00000002.
Definition E1000_EECD_DI : Z := 0x00000004.
Definition E1000_EECD_DO : Z := 0x00000008.
Definition E1000_EECD_FWE_MASK : Z := 0x00000030.
Definition E1000_EECD_REQ : Z := 0x00000040.
Definition E1000_EECD_GNT : Z := 0x00000080.
Definition E1000_EECD_PRES : Z := 0x00000100.

(** MDI control *)
Definition E1000_MDIC_DATA_MASK : Z := 0x0000FFFF.
Definition E1000_MDIC_REG_MASK : Z := 0x001F0000.
Definition E1000_MDIC_REG_SHIFT : Z := 16.
Definition E1000_MDIC_PHY_MASK : Z := 0x03E00000.
Definition E1000_MDIC_PHY_SHIFT : Z := 21.
Definition E1000_MDIC_OP_WRITE : Z := 0x04000000.
Definition E1000_MDIC_OP_READ : Z := 0x08000000.
Definition E1000_MDIC_READY : Z := 0x10000000.
Definition E1000_MDIC_INT_EN : Z := 0x20000000.
Definition E1000_MDIC_ERROR : Z := 0x40000000.

(** EEPROM commands and words *)
Definition EEPROM_READ_OPCODE_MICROWIRE : Z := 0x6.
Definition EEPROM_CHECKSUM_REG : Z := 0x003F.
Definition EEPROM_SUM : Z := 0xBABA.

(** Transmit descriptor bits *)
Definition E1000_TXD_DTYP_D : Z := 0x00100000.
Definition E1000_TXD_POPTS_IXSM : Z := 0x01.
Definition E1000_TXD_POPTS_TXSM : Z := 0x02.
Definition E1000_TXD_CMD_EOP : Z := 0x01000000.
Definition E1000_TXD_CMD_RS : Z := 0x08000000.
Definition E1000_TXD_CMD_RPS : Z := 0x10000000.
Definition E1000_TXD_CMD_DEXT : Z := 0x20000000.
Definition E1000_TXD_CMD_VLE : Z := 0x40000000.
Definition E1000_TXD_CMD_IDE : Z := 0x80000000.
Definition E1000_TXD_STAT_DD : Z := 0x00000001.
Definition E1000_TXD_STAT_EC : Z := 0x00000002.
Definition E1000_TXD_STAT_LC : Z := 0x00000004.
Definition E1000_TXD_STAT_TU : Z := 0x00000008.
Definition E1000_TXD_CMD_TCP : Z := 0x01000000.
Definition E1000_TXD_CMD_IP : Z := 0x02000000.
Definition E1000_TXD_CMD_TSE : Z := 0x04000000.

(** Transmit control *)
Definition E1000_TCTL_EN : Z := 0x00000002.

(** Receive descriptor bits *)
Definition E1000_RXD_STAT_DD : Z := 0x01.
Definition E1000_RXD_STAT_EOP : Z := 0x02.
Definition E1000_RXD_STAT_IXSM : Z := 0x04.
Definition E1000_RXD_STAT_VP : Z := 0x08.
Definition E1000_RAH_AV : Z := 0x80000000.

(** Management control *)
Definition E1000_MANC_RMCP_EN : Z := 0x00000100.
Definition E1000_MANC_0298_EN : Z := 0x00000200.
Definition E1000_MANC_ARP_EN : Z := 0x00002000.
Definition E1000_MANC_RCV_TCO_EN : Z := 0x00020000.
Definition E1000_MANC_EN_MNG2HOST : Z := 0x00200000.

(** Indices into [mac_reg] *)
Definition CTRL : Z := Z.shiftr E1000_CTRL 2.
Definition EECD : Z := Z.shiftr E1000_EECD 2.
Definition EERD : Z := Z.shiftr E1000_EERD 2.
Definition GPRC : Z := Z.shiftr E1000_GPRC 2.
Definition GPTC : Z := Z.shiftr E1000_GPTC 2.
Definition ICR : Z := Z.shiftr E1000_ICR 2.
Definition ICS : Z := Z.shiftr E1000_ICS 2.
Definition IMC : Z := Z.shiftr E1000_IMC 2.
Definition IMS : Z := Z.shiftr E1000_IMS 2.
Definition LEDCTL : Z := Z.shiftr E1000_LEDCTL 2.
Definition MANC : Z := Z.shiftr E1000_MANC 2.
Definition MDIC : Z := Z.shiftr E1000_MDIC 2.
Definition MPC : Z := Z.shiftr E1000_MPC 2.
Definition PBA : Z := Z.shiftr E1000_PBA 2.
Definition RCTL : Z := Z.shiftr E1000_RCTL 2.
Definition RDBAH : Z := Z.shiftr E1000_RDBAH 2.
Definition RDBAL : Z := Z.shiftr E1000_RDBAL 2.
Definition RDH : Z := Z.shiftr E1000_RDH 2.
Definition RDLEN : Z := Z.shiftr E1000_RDLEN 2.
Definition RDT : Z := Z.shiftr E1000_RDT 2.
Definition STATUS : Z := Z.shiftr E1000_STATUS 2.
Definition SWSM : Z := Z.shiftr E1000_SWSM 2.
Definition TCTL : Z := Z.shiftr E1000_TCTL 2.
Definition TDBAH : Z := Z.shiftr E1000_TDBAH 2.
Definition TDBAL : Z := Z.shiftr E1000_TDBAL 2.
Definition TDH : Z := Z.shiftr E1000_TDH 2.
Definition TDLEN : Z := Z.shiftr E1000_TDLEN 2.
Definition TDT : Z := Z.shiftr E1000_TDT 2.
Definition TORH : Z := Z.shiftr E1000_TORH 2.
Definition TORL : Z := Z.shiftr E1000_TORL 2.
Definition TOTH : Z := Z.shiftr E1000_TOTH 2.
Definition TOTL : Z := Z.shiftr E1000_TOTL 2.
Definition TPR : Z := Z.shiftr E1000_TPR 2.
Definition TPT : Z := Z.shiftr E1000_TPT 2.
Definition TXDCTL : Z := Z.shiftr E1000_TXDCTL 2.
Definition WUFC : Z := Z.shiftr E1000_WUFC 2.
Definition RA : Z := Z.shiftr E1000_RA 2.
Definition MTA : Z := Z.shiftr E1000_MTA 2.
Definition CRCERRS : Z := Z.shiftr E1000_CRCERRS 2.
Definition VFTA : Z := Z.shiftr E1000_VFTA 2.
Definition VET : Z := Z.shiftr E1000_VET 2.
Definition RDTR : Z := Z.shiftr E1000_RDTR 2.
Definition RADV : Z := Z.shiftr E1000_RADV 2.
Definition TADV : Z := Z.shiftr E1000_TADV 2.
Definition ITR : Z := Z.shiftr E1000_ITR 2.

(** Sizes of e1000.c *)
Definition IOPORT_SIZE : Z := 0x40.
Definition PNPMMIO_SIZE : Z := 0x20000.
Definition MIN_BUF_SIZE : Z := 60.
Definition MAXIMUM_ETHERNET_VLAN_SIZE : Z := 1522.
Definition MAXIMUM_ETHERNET_LPE_SIZE : Z := 16384.
Definition MAXIMUM_ETHERNET_HDR_LEN : Z := 14 + 4.

Definition E1000_DEVID : Z := E1000_DEV_ID_82540EM.
Definition PHY_ID2_INIT : Z :=
  if E1000_DEVID =? E1000_DEV_ID_82573L then 0xcc2
  else if E1000_DEVID =? E1000_DEV_ID_82544GC_COPPER then 0xc30
  else 0xc20.

Definition E1000_FLAG_AUTONEG_BIT : Z := 0.
Definition E1000_FLAG_MIT_BIT : Z := 1.
Definition E1000_FLAG_AUTONEG : Z := Z.shiftl 1 E1000_FLAG_AUTONEG_BIT.
Definition E1000_FLAG_MIT : Z := Z.shiftl 1 E1000_FLAG_MIT_BIT.
