(* ===== verification/Checksum.v ===== *)
(** The Internet checksum of net/checksum.c (and the harness' copy of its first two functions):
    the accumulation loop, the folding loop, the TCP/UDP checksum over a frame and the
    checksum over a scatter/gather list.  A buffer argument is the list of bytes the pointer
    points at; whole-frame updates work on an array of known capacity, so that an access
    outside the frame is a fault. *)

From S2P Require Import Prelude.

Module Checksum.

Definition PROTO_TCP : Z := 6.
Definition PROTO_UDP : Z := 17.

(** One round of the loop of [net_checksum_add_cont] per unit of [n]. *)
Fixpoint add_cont_loop (n : nat) (buf : list Z) (i sum : Z) : Z :=
  match n with
  | O => sum
  | S n =>
      let b := hd 0 buf in
      let t := if Z.odd i then b else Z.shiftl b 8 in
      add_cont_loop n (tail buf) (i + 1) (u32 (sum + t))
  end.

Definition net_checksum_add_cont (len : Z) (buf : list Z) (seq : Z) : Z :=
  add_cont_loop (Z.to_nat len) buf seq 0.

Definition net_checksum_add (len : Z) (buf : list Z) : Z :=
  net_checksum_add_cont len buf 0.

(** [while (sum >> 16) sum = (sum & 0xFFFF) + (sum >> 16);] *)
Fixpoint finish_loop (fuel : nat) (sum : Z) : res Z :=
  if Z.shiftr sum 16 =? 0 then Ok sum
  else match fuel with
       | O => Diverge
       | S fuel => finish_loop fuel (u32 (Z.land sum 0xffff + Z.shiftr sum 16))
       end.

Definition finish_fuel : nat := 2.

Definition net_checksum_finish (sum : Z) : res Z :=
  s ← finish_loop finish_fuel sum; Ok (u16 (Z.lnot s)).

Definition net_checksum_tcpudp (length proto : Z) (addrs buf : list Z) : res Z :=
  let sum := u32 (0 + net_checksum_add length buf) in
  let sum := u32 (sum + net_checksum_add 8 addrs) in
  let sum := u32 (sum + (proto + length)) in
  net_checksum_finish sum.

Definition byte_at (cap : Z) (data : arr) (i : Z) : res Z :=
  if in_object cap i 1 then Ok (aget data i) else Fault OutOfBounds.
Definition set_byte (cap : Z) (data : arr) (i v : Z) : res arr :=
  store cap data i [u8 v].

(** [cap] is the number of bytes that really follow [data]; the C parameter [length] is never
    read by the function. *)
Definition net_checksum_calculate (cap : Z) (data : arr) (length : Z) : res arr :=
  b14 ← byte_at cap data 14;
  if negb (Z.land b14 0xf0 =? 0x40) then Ok data else
  let hlen := Z.land b14 0x0f * 4 in
  b16 ← byte_at cap data 16;
  b17 ← byte_at cap data 17;
  let plen := Z.lor (Z.shiftl b16 8) b17 - hlen in
  proto ← byte_at cap data 23;
  match (if proto =? PROTO_TCP then Some 16 else if proto =? PROTO_UDP then Some 6 else None) with
  | None => Ok data
  | Some csum_offset =>
      if plen <? csum_offset + 2 then Ok data else
      data ← set_byte cap data (14 + hlen + csum_offset) 0;
      data ← set_byte cap data (14 + hlen + csum_offset + 1) 0;
      addrs ← load cap data (14 + 12) 8;
      payload ← load cap data (14 + hlen) plen;
      csum ← net_checksum_tcpudp (u16 plen) proto addrs payload;
      data ← set_byte cap data (14 + hlen + csum_offset) (Z.shiftr csum 8);
      set_byte cap data (14 + hlen + csum_offset + 1) (Z.land csum 0xff)
  end.

(** The scan of [net_checksum_add_iov]: [iovec_off] is the offset of the current vector. *)
Fixpoint add_iov_loop (iov : list (list Z)) (iovec_off iov_off size seq res : Z) : Z :=
  match iov with
  | [] => res
  | v :: iov =>
      if size =? 0 then res
      else
        let iov_len := Z.of_nat (length v) in
        if iov_off <? iovec_off + iov_len then
          let len := Z.min (iovec_off + iov_len - iov_off) size in
          let chunk_buf := drop (Z.to_nat (iov_off - iovec_off)) v in
          add_iov_loop iov (iovec_off + iov_len) (u32 (iov_off + len)) (u32 (size - len))
            (u32 (seq + len)) (u32 (res + net_checksum_add_cont len chunk_buf (s32 seq)))
        else add_iov_loop iov (iovec_off + iov_len) iov_off size seq res
  end.

Definition net_checksum_add_iov (iov : list (list Z)) (iov_off size : Z) : Z :=
  add_iov_loop iov 0 iov_off size 0 0.

(** ** The sum a byte sequence stands for *)

(** The mathematical sum: the byte at an even position counts 256-fold. *)
Fixpoint wsum (l : list Z) (i : Z) : Z :=
  match l with
  | [] => 0
  | b :: l => (if Z.odd i then b else 256 * b) + wsum l (i + 1)
  end.

(** One's-complement folding of a sum into 16 bits. *)
Definition fold16 (s : Z) : Z := if s =? 0 then 0 else (s - 1) mod 65535 + 1.

Lemma add_cont_loop_spec l i sum :
  fits 32 sum → add_cont_loop (length l) l i sum = u32 (sum + wsum l i).
Proof.
  revert i sum. induction l as [|b l IH]; intros i sum Hs; cbn [length add_cont_loop wsum].
  - by rewrite Z.add_0_r, u32_small.
  - cbn [hd tail]. rewrite IH by auto with width.
    rewrite Z.shiftl_mul_pow2 by lia. change (2 ^ 8) with 256.
    unfold u32. rewrite Zplus_mod_idemp_l. f_equal. split_if; lia.
Qed.

Lemma add_cont_spec l seq :
  net_checksum_add_cont (Z.of_nat (length l)) l seq = u32 (wsum l seq).
Proof.
  unfold net_checksum_add_cont. rewrite Nat2Z.id, add_cont_loop_spec by (split; lia).
  by rewrite Z.add_0_l.
Qed.

Lemma add_cont_loop_take n l i sum :
  (n ≤ length l)%nat → add_cont_loop n l i sum = add_cont_loop n (take n l) i sum.
Proof.
  revert l i sum. induction n as [|n IH]; intros l i sum Hn; [done|].
  destruct l as [|b l]; simpl in *; [lia|]. apply IH. lia.
Qed.

Lemma add_cont_prefix n l seq :
  (n ≤ length l)%nat → net_checksum_add_cont (Z.of_nat n) l seq = u32 (wsum (take n l) seq).
Proof.
  intros Hn. rewrite <-add_cont_spec, length_take_le by done.
  unfold net_checksum_add_cont. rewrite Nat2Z.id. by apply add_cont_loop_take.
Qed.

Lemma wsum_parity l i j : Z.odd i = Z.odd j → wsum l i = wsum l j.
Proof.
  revert i j. induction l as [|b l IH]; intros i j H; simpl; [done|].
  rewrite H. f_equal. apply IH. by rewrite !Z.odd_add, H.
Qed.

Lemma wsum_app l l' i : wsum (l ++ l') i = wsum l i + wsum l' (i + Z.of_nat (length l)).
Proof.
  revert i. induction l as [|b l IH]; intros i; simpl.
  - by rewrite Z.add_0_r.
  - rewrite IH. replace (i + 1 + Z.of_nat (length l)) with (i + Z.of_nat (S (length l))) by lia.
    lia.
Qed.

Lemma wsum_bounds l i :
  Forall (fits 8) l → 0 ≤ wsum l i ≤ 65280 * Z.of_nat (length l).
Proof.
  intros H. revert i. induction H as [|b l [Hb1 Hb2] Hl IH]; intros i; cbn [wsum length]; [lia|].
  specialize (IH (i + 1)). change (2 ^ 8) with 256 in Hb2. split_if; lia.
Qed.

(** ** Folding *)

Lemma fold_step s : fits 32 s → Z.shiftr s 16 ≠ 0 →
  fold16 (Z.land s 0xffff + Z.shiftr s 16) = fold16 s ∧
  0 < Z.land s 0xffff + Z.shiftr s 16 < s.
Proof.
  intros [H0 H1] Hne. rewrite land_ffff.
  rewrite Z.shiftr_div_pow2 in * by lia. change (2 ^ 16) with 65536 in *.
  pose proof (Z.div_mod s 65536). pose proof (Z.mod_pos_bound s 65536).
  assert (0 < s / 65536) by (pose proof (Z.div_pos s 65536); lia).
  assert (Hlt : 0 < s mod 65536 + s / 65536 < s) by lia. split; [|lia].
  unfold fold16.
  rewrite (proj2 (Z.eqb_neq s 0)), (proj2 (Z.eqb_neq (_ + _) 0)) by lia. f_equal.
  replace (s - 1) with (s mod 65536 + s / 65536 - 1 + s / 65536 * 65535) by lia.
  by rewrite Z.mod_add by lia.
Qed.

Lemma fold16_small s : 0 ≤ s < 65536 → fold16 s = s.
Proof.
  intros H. unfold fold16. destruct (Z.eqb_spec s 0); [done|]. rewrite Z.mod_small; lia.
Qed.

Lemma shiftr16_zero s : 0 ≤ s → Z.shiftr s 16 = 0 ↔ s < 65536.
Proof.
  intros H. rewrite Z.shiftr_div_pow2 by lia. change (2 ^ 16) with 65536. split; intros.
  - pose proof (Z.div_mod s 65536). pose proof (Z.mod_pos_bound s 65536). lia.
  - apply Z.div_small. lia.
Qed.

Lemma fold_step_bound s b : 0 ≤ s < 65536 * (b + 1) → 0 ≤ b →
  Z.land s 0xffff + Z.shiftr s 16 ≤ 65535 + b.
Proof.
  intros H Hb. rewrite land_ffff.
  rewrite Z.shiftr_div_pow2 by lia. change (2 ^ 16) with 65536.
  pose proof (Z.mod_pos_bound s 65536). assert (s / 65536 < b + 1); [|lia].
  apply Z.div_lt_upper_bound; lia.
Qed.

(** Two rounds fold any 32-bit sum: the loop terminates with the one's-complement fold. *)
Lemma finish_loop_spec s : fits 32 s → finish_loop finish_fuel s = Ok (fold16 s).
Proof.
  intros Hs. unfold finish_fuel. pose proof Hs as [H0 H1].
  assert (Hdone : ∀ n t, 0 ≤ t < 65536 → finish_loop n t = Ok (fold16 t)).
  { intros n t Ht. rewrite fold16_small by done.
    destruct n; simpl; rewrite (proj2 (shiftr16_zero t (proj1 Ht))) by lia; done. }
  destruct (Z.eqb_spec (Z.shiftr s 16) 0) as [E|E].
  { apply Hdone. apply (shiftr16_zero s H0) in E. lia. }
  destruct (fold_step s Hs E) as [F1 B1].
  pose proof (fold_step_bound s 65535) as B2.
  cbn [finish_loop]. rewrite (proj2 (Z.eqb_neq _ _) E).
  set (t := Z.land s 0xffff + Z.shiftr s 16) in *.
  assert (Ht : fits 32 t) by (split; lia). rewrite (u32_small t Ht).
  destruct (Z.eqb_spec (Z.shiftr t 16) 0) as [E'|E'].
  { apply (shiftr16_zero t (proj1 Ht)) in E'. by rewrite <-F1, fold16_small by lia. }
  destruct (fold_step t Ht E') as [F2 B3].
  pose proof (fold_step_bound t 1) as B4.
  set (u := Z.land t 0xffff + Z.shiftr t 16) in *.
  rewrite (u32_small u) by (split; lia).
  assert (Hu : u < 65536).
  { destruct (Z.lt_ge_cases u 65536) as [|Hge]; [done|]. exfalso.
    assert (u = 65536) by lia.
    pose proof (land_ffff t). pose proof (Z.shiftr_div_pow2 t 16). change (2 ^ 16) with 65536 in *.
    pose proof (Z.div_mod t 65536). pose proof (Z.mod_pos_bound t 65536). lia. }
  rewrite (proj2 (shiftr16_zero u ltac:(lia)) Hu), Z.eqb_refl.
  rewrite <-F1, <-F2, fold16_small by lia. done.
Qed.

Lemma fold16_range s : 0 ≤ s → 0 ≤ fold16 s ≤ 65535.
Proof.
  intros H. unfold fold16. split_if; [lia|]. pose proof (Z.mod_pos_bound (s - 1) 65535). lia.
Qed.

Lemma finish_eq s : fits 32 s → net_checksum_finish s = Ok (65535 - fold16 s).
Proof.
  intros Hs. unfold net_checksum_finish. rewrite finish_loop_spec by done. cbn.
  f_equal. pose proof (fold16_range s (proj1 Hs)).
  pose proof (Z.add_lnot_diag (fold16 s)) as Hl.
  replace (Z.lnot (fold16 s)) with (65535 - fold16 s + (-1) * 65536) by lia.
  unfold u16. change (2 ^ 16) with 65536. rewrite Z.mod_add, Z.mod_small by lia. done.
Qed.

Lemma fold16_mod s : 0 ≤ s → fold16 s mod 65535 = s mod 65535.
Proof.
  intros H. unfold fold16. destruct (Z.eqb_spec s 0) as [->|]; [done|].
  rewrite Zplus_mod_idemp_l. f_equal. lia.
Qed.

Lemma fold16_ones s : 0 < s → fold16 s = 65535 ↔ s mod 65535 = 0.
Proof.
  intros H. pose proof (fold16_range s). rewrite <-fold16_mod by lia. split; intros E.
  - by rewrite E.
  - assert (fold16 s ≠ 0).
    { unfold fold16. rewrite (proj2 (Z.eqb_neq s 0)) by lia.
      pose proof (Z.mod_pos_bound (s - 1) 65535). lia. }
    destruct (Z.eq_dec (fold16 s) 65535); [done|]. rewrite Z.mod_small in E; lia.
Qed.

(** ** Inserting a checksum *)

Lemma wsum_be2 v i : fits 16 v → Z.odd i = false → wsum (be_bytes 2 v) i = v.
Proof.
  intros [H0 H1] Hi. unfold be_bytes. simpl. rewrite Z.odd_add, Hi. simpl.
  change (2 ^ 16) with 65536 in H1. pose proof (Z.div_mod v 256).
  rewrite (Z.mod_small (v / 256)); [lia|]. split; [apply Z.div_pos; lia|].
  apply Z.div_lt_upper_bound; lia.
Qed.

Lemma be_val2 hi lo : be_val [hi; lo] = 256 * hi + lo.
Proof. unfold be_val. simpl. lia. Qed.

(** C: storing the folded complement into an aligned 16-bit field. *)
Lemma checksum_insert s old c t :
  0 ≤ s → fits 32 t → c = 65535 - fold16 s → t = s - old + c + old → 0 < t →
  net_checksum_finish t = Ok 0.
Proof.
  intros Hs Ht -> -> Hpos. rewrite finish_eq by done.
  replace (fold16 _) with 65535; [done|]. symmetry. apply fold16_ones; [done|].
  replace (s - old + (65535 - fold16 s) + old) with (s - fold16 s + 1 * 65535) by lia.
  rewrite Z.mod_add, Zminus_mod, fold16_mod by lia. by rewrite Z.sub_diag.
Qed.

(** The checksum that the accumulate/fold pair computes over a region verifies: after it is stored
    big-endian in an aligned field of the region, the sum over the new region plus the value the
    field held before folds to all ones. *)
Lemma checksum_field_verifies (l1 l2 : list Z) (hi lo c : Z) :
  Forall (fits 8) (l1 ++ [hi; lo] ++ l2) →
  Z.odd (Z.of_nat (length l1)) = false →
  Z.of_nat (length (l1 ++ [hi; lo] ++ l2)) ≤ 65536 →
  net_checksum_finish (net_checksum_add (Z.of_nat (length (l1 ++ [hi; lo] ++ l2)))
                         (l1 ++ [hi; lo] ++ l2)) = Ok c →
  net_checksum_finish (net_checksum_add (Z.of_nat (length (l1 ++ be_bytes 2 c ++ l2)))
                         (l1 ++ be_bytes 2 c ++ l2) + be_val [hi; lo]) = Ok 0.
Proof.
  intros Hb Hodd Hlen Hc. unfold net_checksum_add in *. rewrite !add_cont_spec in *.
  pose proof (wsum_bounds _ 0 Hb) as Hs.
  rewrite (u32_small (wsum (l1 ++ [hi; lo] ++ l2) 0)) in Hc by (split; lia).
  rewrite finish_eq in Hc by (split; lia).
  assert (c = 65535 - fold16 (wsum (l1 ++ [hi; lo] ++ l2) 0)) by congruence. clear Hc.
  pose proof (fold16_range (wsum (l1 ++ [hi; lo] ++ l2) 0) ltac:(lia)) as Hf.
  apply Forall_app in Hb as [Hb1 Hb2]. apply Forall_app in Hb2 as [Hb2 Hb3].
  pose proof (Forall_inv Hb2) as Hhi. pose proof (Forall_inv (Forall_inv_tail Hb2)) as Hlo.
  unfold fits in Hhi, Hlo. change (2 ^ 8) with 256 in *.
  pose proof (wsum_bounds l1 0 Hb1). pose proof (wsum_bounds l2 (0 + Z.of_nat (length l1) + Z.of_nat 2) Hb3).
  rewrite !length_app in Hlen. cbn [length] in Hlen.
  assert (Hwc : wsum (l1 ++ be_bytes 2 c ++ l2) 0 + be_val [hi; lo]
                = wsum (l1 ++ [hi; lo] ++ l2) 0 - be_val [hi; lo] + c + be_val [hi; lo]).
  { rewrite !wsum_app, be_val2, wsum_be2, length_be_bytes; [|split; lia|done].
    cbn [wsum length]. rewrite !Z.add_0_l, Z.odd_add, Hodd. cbn [Z.odd xorb].
    replace (Z.of_nat (length l1) + Z.of_nat 2) with (Z.of_nat (length l1) + 1 + 1) by lia. lia. }
  rewrite be_val2 in *.
  assert (0 ≤ wsum (l1 ++ be_bytes 2 c ++ l2) 0 ≤ 4278190080).
  { rewrite !wsum_app, wsum_be2, length_be_bytes; [|split; lia|done]. lia. }
  rewrite u32_small by (split; lia).
  apply (checksum_insert (wsum (l1 ++ [hi; lo] ++ l2) 0) (256 * hi + lo) c); [lia|split; lia|lia|lia|].
  rewrite Hwc. unfold fold16 in *. destruct (Z.eqb_spec (wsum (l1 ++ [hi; lo] ++ l2) 0) 0); lia.
Qed.

(** ** Checksums over scatter/gather lists *)

Lemma add_iov_loop_spec iov iovec_off iov_off size seq r :
  0 ≤ iovec_off ≤ iov_off → 0 ≤ size → 0 ≤ seq → fits 32 r →
  seq + size < 2 ^ 31 → iov_off + size < 2 ^ 31 →
  iov_off + size ≤ iovec_off + Z.of_nat (length (concat iov)) →
  add_iov_loop iov iovec_off iov_off size seq r =
  u32 (r + wsum (take (Z.to_nat size) (drop (Z.to_nat (iov_off - iovec_off)) (concat iov))) seq).
Proof.
  revert iovec_off iov_off size seq r.
  induction iov as [|v iov IH]; intros iovec_off iov_off size seq r H1 H2 H3 Hr H4 H5 H6.
  - simpl in *. rewrite drop_nil, take_nil. simpl. by rewrite Z.add_0_r, u32_small.
  - cbn [add_iov_loop]. destruct (Z.eqb_spec size 0) as [->|Hsz].
    { simpl. by rewrite Z.add_0_r, u32_small. }
    cbn [concat] in *. rewrite length_app in H6.
    destruct (iov_off <? iovec_off + Z.of_nat (length v)) eqn:E; bool_hyps.
    + set (len := Z.min (iovec_off + Z.of_nat (length v) - iov_off) size).
      assert (Hlen : 0 < len ≤ size) by lia.
      rewrite !(u32_small (iov_off + len)), !(u32_small (size - len)), !(u32_small (seq + len))
        by (unfold fits; lia).
      destruct (Z.eq_dec len size) as [Hall|Hpart].
      * assert (Hend : ∀ a b c e, add_iov_loop iov a b (size - len) c e = e).
        { intros. replace (size - len) with 0 by lia. by destruct iov. }
        rewrite Hend.
        replace len with (Z.of_nat (Z.to_nat size)) by lia.
        rewrite add_cont_prefix by (rewrite length_drop; lia).
        rewrite s32_small by lia. unfold u32. rewrite Zplus_mod_idemp_r. do 3 f_equal.
        rewrite drop_app_le by lia. rewrite take_app_le by (rewrite length_drop; lia). done.
      * assert (Hlv : len = iovec_off + Z.of_nat (length v) - iov_off) by lia.
        rewrite IH; [|lia|lia|lia|auto with width|lia|lia|lia].
        rewrite s32_small by lia.
        replace len with (Z.of_nat (Z.to_nat len)) at 1 by lia.
        rewrite add_cont_prefix by (rewrite length_drop; lia).
        unfold u32. rewrite Zplus_mod_idemp_r, Zplus_mod_idemp_l, <-Z.add_assoc. do 2 f_equal.
        rewrite drop_app_le by lia.
        set (d := drop (Z.to_nat (iov_off - iovec_off)) v).
        assert (Hd : Z.of_nat (length d) = len) by (unfold d; rewrite length_drop; lia).
        rewrite (take_ge d) by lia. rewrite take_app, (take_ge d), wsum_app by lia.
        rewrite Hd. replace (Z.to_nat (iov_off + len - (iovec_off + Z.of_nat (length v)))) with 0%nat by lia.
        rewrite drop_0. do 3 f_equal. lia.
    + rewrite IH; [|lia|lia|lia|done|lia|lia|lia]. do 3 f_equal.
      rewrite drop_app_ge by lia. do 2 f_equal. lia.
Qed.

(** the scatter/gather checksum is the checksum of the flattened bytes: splitting a packet
    over vectors (at odd lengths too) does not change its checksum. *)
Theorem net_checksum_add_iov_flat (iov : list (list Z)) (iov_off size : Z) :
  0 ≤ iov_off → 0 ≤ size → iov_off + size < 2 ^ 31 →
  iov_off + size ≤ Z.of_nat (length (concat iov)) →
  net_checksum_add_iov iov iov_off size =
  net_checksum_add size (drop (Z.to_nat iov_off) (concat iov)).
Proof.
  intros H1 H2 H3 H4. unfold net_checksum_add_iov, net_checksum_add.
  rewrite add_iov_loop_spec; [|lia|lia|lia|split; lia|lia|lia|lia].
  rewrite Z.add_0_l, Z.sub_0_r. replace size with (Z.of_nat (Z.to_nat size)) at 2 by lia.
  rewrite add_cont_prefix by (rewrite length_drop; lia). done.
Qed.

Example net_checksum_add_iov_flat_witness :
  net_checksum_add_iov [[1; 2; 3]; [4]; [5; 6; 7; 8]] 1 5 =
  net_checksum_add 5 [2; 3; 4; 5; 6; 7; 8].
Proof.
  apply (net_checksum_add_iov_flat [[1; 2; 3]; [4]; [5; 6; 7; 8]] 1 5);
    vm_compute; congruence.
Defined.

(** ** TCP/UDP checksum of a frame *)

Definition csum_offset_of (proto : Z) : option Z :=
  if proto =? PROTO_TCP then Some 16 else if proto =? PROTO_UDP then Some 6 else None.

(** The header fields [net_checksum_calculate] reads. *)
Record ipv4_frame (cap : Z) (data : arr) (hlen plen off : Z) : Prop := {
  frame_bytes : afits 8 data;
  frame_hdr : 34 ≤ cap;
  frame_v4 : Z.land (aget data 14) 0xf0 = 0x40;
  frame_hlen : hlen = Z.land (aget data 14) 0x0f * 4;
  frame_plen : plen = Z.lor (Z.shiftl (aget data 16) 8) (aget data 17) - hlen;
  frame_off : csum_offset_of (aget data 23) = Some off;
  frame_room : off + 2 ≤ plen;
}.

Lemma byte_at_ok cap data i : 0 ≤ i < cap → byte_at cap data i = Ok (aget data i).
Proof.
  intros. unfold byte_at, in_object.
  rewrite !(proj2 (Z.leb_le _ _)) by lia. done.
Qed.

Lemma set_byte_ok cap data i v : 0 ≤ i < cap → set_byte cap data i v = Ok (aset data i (u8 v)).
Proof.
  intros. unfold set_byte, store, in_object.
  rewrite !(proj2 (Z.leb_le _ _)) by (simpl; lia). done.
Qed.

Lemma load_ok cap data o n : 0 ≤ o → 0 ≤ n → o + n ≤ cap →
  load cap data o n = Ok (aread data o (Z.to_nat n)).
Proof. intros. unfold load, in_object. by rewrite !(proj2 (Z.leb_le _ _)) by lia. Qed.

Lemma load_oob cap data o n : cap < o + n → load cap data o n = Fault OutOfBounds.
Proof. intros. unfold load, in_object. by rewrite (proj2 (Z.leb_gt (o + n) cap)), andb_false_r by lia. Qed.

Lemma csum_offset_cases p off : csum_offset_of p = Some off → off = 16 ∨ off = 6.
Proof. unfold csum_offset_of. repeat split_if; intros; simplify_eq; auto. Qed.

Lemma frame_hlen_range cap data hlen plen off :
  ipv4_frame cap data hlen plen off → 0 ≤ hlen ≤ 60.
Proof. intros []. pose proof (land_ones_le (aget data 14) 15). lia. Qed.

Lemma frame_plen_max cap data hlen plen off :
  ipv4_frame cap data hlen plen off → plen + hlen ≤ 65535.
Proof.
  intros []. assert (fits 16 (Z.lor (Z.shiftl (aget data 16) 8) (aget data 17))) as [? ?].
  { apply lor_fits; [lia| |eapply fits_mono; [|apply frame_bytes0]; lia].
    rewrite Z.shiftl_mul_pow2 by lia. destruct (frame_bytes0 16).
    change (2 ^ 8) with 256 in *. split; lia. }
  lia.
Qed.

(** The prologue of the function on such a frame, up to the load of the payload. *)
Lemma calculate_prologue cap data length hlen plen off :
  ipv4_frame cap data hlen plen off → 14 + hlen + off + 2 ≤ cap →
  let data1 := aset (aset data (14 + hlen + off) 0) (14 + hlen + off + 1) 0 in
  net_checksum_calculate cap data length =
    (payload ← load cap data1 (14 + hlen) plen;
     csum ← net_checksum_tcpudp (u16 plen) (aget data 23) (aread data1 26 8) payload;
     data ← set_byte cap data1 (14 + hlen + off) (Z.shiftr csum 8);
     set_byte cap data (14 + hlen + off + 1) (Z.land csum 0xff)).
Proof.
  intros F Hcap data1. pose proof (frame_hlen_range _ _ _ _ _ F).
  destruct F. pose proof (csum_offset_cases _ _ frame_off0).
  unfold net_checksum_calculate. rewrite !byte_at_ok by lia. cbn [mbind res_bind].
  rewrite frame_v5, <-frame_hlen0, <-frame_plen0. cbn [Z.eqb Pos.eqb negb].
  fold (csum_offset_of (aget data 23)). rewrite frame_off0.
  rewrite (proj2 (Z.ltb_ge plen (off + 2))) by lia.
  do 2 (rewrite set_byte_ok by lia; cbn [mbind res_bind]).
  change (u8 0) with 0. fold data1. by rewrite (load_ok cap data1 (14 + 12) 8) by lia.
Qed.

(** the function trusts the total length of the IP header and never looks at its [length]
    argument: when the header announces more bytes than the frame has, the checksum loop
    reads past the end of the frame. *)
Theorem net_checksum_calculate_overrun (cap : Z) (data : arr) (length hlen plen off : Z) :
  ipv4_frame cap data hlen plen off →
  14 + hlen + off + 2 ≤ cap → cap < 14 + hlen + plen →
  net_checksum_calculate cap data length = Fault OutOfBounds.
Proof.
  intros F H1 H2. rewrite (calculate_prologue _ _ _ _ _ _ F H1). by rewrite load_oob by lia.
Qed.

Definition short_udp_frame : arr :=
  awrite ∅ 14 [0x45; 0; 0x05; 0xdc; 0; 0; 0; 0; 64; 17].

Example net_checksum_calculate_overrun_witness :
  net_checksum_calculate 60 short_udp_frame 60 = Fault OutOfBounds.
Proof.
  apply (net_checksum_calculate_overrun 60 short_udp_frame 60 20 1480 6);
    [split; try reflexivity; try (vm_compute; congruence)
    |vm_compute; congruence|vm_compute; congruence].
  apply afits_awrite; [apply afits_empty; lia|].
  repeat constructor; vm_compute; congruence.
Defined.

Lemma tcpudp_ok len proto addrs buf :
  0 ≤ len < 65536 → 0 ≤ proto < 256 → Forall (fits 8) addrs → Forall (fits 8) buf →
  length addrs = 8%nat → Z.of_nat (length buf) = len →
  net_checksum_tcpudp len proto addrs buf =
  net_checksum_finish (wsum buf 0 + wsum addrs 0 + (proto + len)) ∧
  0 ≤ wsum buf 0 + wsum addrs 0 + (proto + len) < 4279000000.
Proof.
  intros Hl Hp Ha Hb La Lb. subst len.
  pose proof (wsum_bounds _ 0 Ha) as Ba. pose proof (wsum_bounds _ 0 Hb) as Bb.
  rewrite La in Ba. split; [|lia]. unfold net_checksum_tcpudp, net_checksum_add.
  replace 8 with (Z.of_nat (length addrs)) by lia. rewrite !add_cont_spec, Z.add_0_l.
  rewrite !(u32_small (wsum buf 0)), (u32_small (wsum addrs 0)) by (split; lia).
  rewrite (u32_small (wsum buf 0 + wsum addrs 0)) by (split; lia).
  by rewrite u32_small by (split; lia).
Qed.

Lemma be_bytes2 c : fits 16 c → be_bytes 2 c = [u8 (Z.shiftr c 8); u8 (Z.land c 0xff)].
Proof.
  intros [H0 H1]. unfold be_bytes, u8. simpl. rewrite Z.shiftr_div_pow2, land_ff by lia.
  change (2 ^ 8) with 256. by rewrite Z.mod_mod by lia.
Qed.

Lemma aread_split3 data o k n :
  (k + 2 ≤ n)%nat →
  aread data o n = aread data o k ++ aread data (o + Z.of_nat k) 2
                   ++ aread data (o + Z.of_nat k + 2) (n - k - 2).
Proof.
  intros H. replace n with (k + (2 + (n - k - 2)))%nat at 1 by lia. by rewrite !aread_app.
Qed.

(** on a complete IPv4 TCP or UDP frame the function stores the transport checksum: the
    checksum recomputed over the updated frame is 0 (it verifies), and no other byte of the
    frame changes. *)
Theorem net_checksum_calculate_verifies (cap : Z) (data : arr) (length hlen plen off : Z) :
  ipv4_frame cap data hlen plen off →
  20 ≤ hlen → 14 + hlen + plen ≤ cap →
  ∃ data', net_checksum_calculate cap data length = Ok data' ∧
    net_checksum_tcpudp plen (aget data' 23) (aread data' 26 8)
      (aread data' (14 + hlen) (Z.to_nat plen)) = Ok 0 ∧
    ∀ i, i ≠ 14 + hlen + off → i ≠ 14 + hlen + off + 1 → aget data' i = aget data i.
Proof.
  intros F Hh Hcap. pose proof (frame_hlen_range _ _ _ _ _ F). pose proof (frame_plen_max _ _ _ _ _ F).
  rewrite (calculate_prologue _ _ _ _ _ _ F) by (destruct F; lia).
  set (p := 14 + hlen + off). pose proof F as [Hb _ _ _ _ Ho Hr].
  pose proof (csum_offset_cases _ _ Ho) as Hoff.
  set (d1 := aset (aset data p 0) (p + 1) 0).
  assert (Hb1 : afits 8 d1) by (unfold d1; auto 6 with width).
  rewrite load_ok by lia. cbn [mbind res_bind]. rewrite (u16_small plen) by (split; lia).
  set (pay := aread d1 (14 + hlen) (Z.to_nat plen)).
  assert (Hproto : 0 ≤ aget data 23 < 256) by apply Hb.
  destruct (tcpudp_ok plen (aget data 23) (aread d1 26 8) pay) as [-> Hs];
    [lia|done|auto with width|unfold pay; auto with width|done|unfold pay; rewrite length_aread; lia|].
  set (s := wsum pay 0 + wsum (aread d1 26 8) 0 + (aget data 23 + plen)) in *.
  rewrite finish_eq by (split; lia). cbn [mbind res_bind].
  pose proof (fold16_range s ltac:(lia)). set (c := 65535 - fold16 s).
  do 2 (rewrite set_byte_ok by lia; cbn [mbind res_bind]).
  set (d2 := aset (aset d1 p (u8 (Z.shiftr c 8))) (p + 1) (u8 (Z.land c 0xff))).
  exists d2. assert (Hout : ∀ i, i ≠ p → i ≠ p + 1 → aget d2 i = aget data i ∧ aget d1 i = aget data i).
  { intros i N1 N2. unfold d2, d1. by rewrite !aget_aset_ne by done. }
  split; [done|]. split; [|intros i N1 N2; by apply Hout].
  assert (Hb2 : afits 8 d2) by (unfold d2; auto 6 with width).
  rewrite (proj1 (Hout 23 ltac:(lia) ltac:(lia))).
  replace (aread d2 26 8) with (aread d1 26 8)
    by (apply aread_ext; intros; destruct (Hout (26 + i)) as [-> ->]; [lia|lia|done]).
  destruct (tcpudp_ok plen (aget data 23) (aread d1 26 8) (aread d2 (14 + hlen) (Z.to_nat plen)))
    as [-> _]; [lia|done|auto with width|auto with width|done|rewrite length_aread; lia|].
  assert (Hw : wsum (aread d2 (14 + hlen) (Z.to_nat plen)) 0 = wsum pay 0 + c).
  { unfold pay. rewrite (aread_split3 d2 (14 + hlen) (Z.to_nat off)), (aread_split3 d1 (14 + hlen) (Z.to_nat off)) by lia.
    replace (14 + hlen + Z.of_nat (Z.to_nat off)) with p by lia.
    rewrite !wsum_app, !length_aread, !Z.add_0_l.
    replace (aread d2 p 2) with (be_bytes 2 c)
      by (rewrite be_bytes2 by (split; lia); unfold aread, d2; simpl; rewrite Z.add_0_r;
          by autorewrite with arr).
    replace (aread d1 p 2) with [0; 0]
      by (unfold aread, d1; simpl; rewrite Z.add_0_r; by autorewrite with arr).
    rewrite wsum_be2; [|split; lia|by destruct Hoff as [-> | ->]].
    rewrite (aread_ext d2 d1 (14 + hlen) (14 + hlen)), (aread_ext d2 d1 (p + 2) (p + 2)).
    - rewrite ?length_be_bytes. cbn [wsum Datatypes.length]. repeat split_if; lia.
    - intros i Hi. destruct (Hout (p + 2 + i)) as [-> ->]; [lia|lia|done].
    - intros i Hi. destruct (Hout (14 + hlen + i)) as [-> ->]; [lia|lia|done]. }
  rewrite Hw. apply (checksum_insert s 0 c); [lia|split; lia|done|lia|].
  assert (s = 0 → fold16 s = 0) by (by intros ->). lia.
Qed.

Definition small_udp_frame : arr :=
  awrite ∅ 14 [0x45; 0; 0; 30; 0; 0; 0; 0; 64; 17; 0; 0; 10; 0; 0; 1; 10; 0; 0; 2;
               0; 53; 0; 99; 0; 10; 7; 7; 0x68; 0x69].

Lemma net_checksum_calculate_verifies_witness :
  ∃ data', net_checksum_calculate 60 small_udp_frame 60 = Ok data' ∧
    net_checksum_tcpudp 10 (aget data' 23) (aread data' 26 8) (aread data' 34 10) = Ok 0 ∧
    ∀ i, i ≠ 40 → i ≠ 41 → aget data' i = aget small_udp_frame i.
Proof.
  apply (net_checksum_calculate_verifies 60 small_udp_frame 60 20 10 6);
    [split; try reflexivity; try (vm_compute; congruence)
    |vm_compute; congruence|vm_compute; congruence].
  apply afits_awrite; [apply afits_empty; lia|].
  repeat constructor; vm_compute; congruence.
Defined.

End Checksum.
