(* ===== verification/Iov.v ===== *)
(** Scatter/gather vectors: util/iov.c (and the harness' copy of its first functions).  An
    [iovec] is represented by the bytes it designates, so [iov_len] is the length of the list
    and [iov_base + k] is the list after [k] bytes; functions that only move pointers return
    the sub-slices the new pointers designate.  Sizes are [size_t] values, written as [nat]:
    they are lengths of objects in memory.  The reference semantics of every operation is the
    flat byte sequence [concat iov]. *)

From S2P Require Import Prelude.

Module Iov.

Local Open Scope nat_scope.

Abbreviation iovec := (list Z).

(** ** Copying in and out *)

Fixpoint iov_from_buf_loop (iov : list iovec) (offset done : nat) (buf : list Z) (bytes : nat)
  : res (list iovec * nat * nat) :=
  match iov with
  | [] => Ok ([], offset, done)
  | v :: iov' =>
      if (offset =? 0) && (bytes <=? done) then Ok (v :: iov', offset, done)
      else if offset <? length v then
        let len := (length v - offset) `min` (bytes - done) in
        if done + len <=? length buf then
          let v' := take offset v ++ take len (drop done buf) ++ drop (offset + len) v in
          '(r, o, d) ← iov_from_buf_loop iov' 0 (done + len) buf bytes;
          Ok (v' :: r, o, d)
        else Fault OutOfBounds
      else
        '(r, o, d) ← iov_from_buf_loop iov' (offset - length v) done buf bytes;
        Ok (v :: r, o, d)
  end.

Definition iov_from_buf (iov : list iovec) (offset : nat) (buf : list Z) (bytes : nat)
  : res (list iovec * nat) :=
  '(r, o, d) ← iov_from_buf_loop iov offset 0 buf bytes;
  if o =? 0 then Ok (r, d) else Fault AssertFail.

(** [iov_to_buf] returns the bytes it stores at [buf]; their number is the C result. *)
Fixpoint iov_to_buf_loop (iov : list iovec) (offset done bytes : nat) : list Z * nat :=
  match iov with
  | [] => ([], offset)
  | v :: iov' =>
      if (offset =? 0) && (bytes <=? done) then ([], offset)
      else if offset <? length v then
        let len := (length v - offset) `min` (bytes - done) in
        let '(l, o) := iov_to_buf_loop iov' 0 (done + len) bytes in
        (take len (drop offset v) ++ l, o)
      else iov_to_buf_loop iov' (offset - length v) done bytes
  end.

Definition iov_to_buf (iov : list iovec) (offset bytes : nat) : res (list Z) :=
  let '(l, o) := iov_to_buf_loop iov offset 0 bytes in
  if o =? 0 then Ok l else Fault AssertFail.

Fixpoint iov_memset_loop (iov : list iovec) (offset done : nat) (fillc : Z) (bytes : nat)
  : list iovec * nat * nat :=
  match iov with
  | [] => ([], offset, done)
  | v :: iov' =>
      if (offset =? 0) && (bytes <=? done) then (v :: iov', offset, done)
      else if offset <? length v then
        let len := (length v - offset) `min` (bytes - done) in
        let v' := take offset v ++ replicate len (u8 fillc) ++ drop (offset + len) v in
        let '(r, o, d) := iov_memset_loop iov' 0 (done + len) fillc bytes in
        (v' :: r, o, d)
      else
        let '(r, o, d) := iov_memset_loop iov' (offset - length v) done fillc bytes in
        (v :: r, o, d)
  end.

Definition iov_memset (iov : list iovec) (offset : nat) (fillc : Z) (bytes : nat)
  : res (list iovec * nat) :=
  let '(r, o, d) := iov_memset_loop iov offset 0 fillc bytes in
  if o =? 0 then Ok (r, d) else Fault AssertFail.

Definition iov_size (iov : list iovec) : nat := foldl (λ len v, len + length v) 0 iov.

(** ** Moving vector boundaries *)

Fixpoint iov_copy_loop (dst_cnt : nat) (iov : list iovec) (offset bytes : nat)
  : list iovec * nat :=
  match iov with
  | [] => ([], offset)
  | v :: iov' =>
      match dst_cnt with
      | O => ([], offset)
      | S dst_cnt' =>
          if bytes =? 0 then ([], offset)
          else if length v <=? offset then iov_copy_loop dst_cnt iov' (offset - length v) bytes
          else
            let len := bytes `min` (length v - offset) in
            let '(r, o) := iov_copy_loop dst_cnt' iov' 0 (bytes - len) in
            (take len (drop offset v) :: r, o)
      end
  end.

(** The vectors written to [dst_iov]; their number is the C result. *)
Definition iov_copy (dst_cnt : nat) (iov : list iovec) (offset bytes : nat) : res (list iovec) :=
  let '(r, o) := iov_copy_loop dst_cnt iov offset bytes in
  if o =? 0 then Ok r else Fault AssertFail.

(** [*iov] and [*iov_cnt] afterwards, and the number of bytes discarded. *)
Fixpoint iov_discard_front (iov : list iovec) (bytes : nat) : list iovec * nat :=
  match iov with
  | [] => ([], 0)
  | cur :: iov' =>
      if bytes <? length cur then (drop bytes cur :: iov', bytes)
      else let '(r, total) := iov_discard_front iov' (bytes - length cur) in
           (r, length cur + total)
  end.

(** The scan runs from the last vector down: [rev] is the reversed array. *)
Fixpoint discard_back_loop (rev : list iovec) (bytes : nat) : list iovec * nat :=
  match rev with
  | [] => ([], 0)
  | cur :: rev' =>
      if bytes <? length cur then (take (length cur - bytes) cur :: rev', bytes)
      else let '(r, total) := discard_back_loop rev' (bytes - length cur) in
           (r, length cur + total)
  end.

Definition iov_discard_back (iov : list iovec) (bytes : nat) : list iovec * nat :=
  let '(r, total) := discard_back_loop (reverse iov) bytes in (reverse r, total).

(** ** Growable vectors *)

(** [nalloc = None] is the C value -1: the array belongs to somebody else.  [iov] holds the
    first [niov] entries. *)
Record QEMUIOVector : Type := mkQIOV {
  qiov_iov : list iovec;
  qiov_nalloc : option nat;
  qiov_size : nat;
}.

Definition niov (q : QEMUIOVector) : nat := length (qiov_iov q).

Definition qemu_iovec_init (alloc_hint : nat) : QEMUIOVector := mkQIOV [] (Some alloc_hint) 0.

Definition qemu_iovec_init_external (iov : list iovec) : QEMUIOVector :=
  mkQIOV iov None (iov_size iov).

Definition qemu_iovec_add (q : QEMUIOVector) (v : iovec) : res QEMUIOVector :=
  match qiov_nalloc q with
  | None => Fault AssertFail
  | Some nalloc =>
      let nalloc := if niov q =? nalloc then 2 * nalloc + 1 else nalloc in
      if niov q <? nalloc
      then Ok (mkQIOV (qiov_iov q ++ [v]) (Some nalloc) (qiov_size q + length v))
      else Fault OutOfBounds
  end.

Fixpoint concat_iov_loop (dst : QEMUIOVector) (src : list iovec) (soffset done sbytes : nat)
  : res (QEMUIOVector * nat) :=
  match src with
  | [] => Ok (dst, soffset)
  | v :: src' =>
      if sbytes <=? done then Ok (dst, soffset)
      else if soffset <? length v then
        let len := (length v - soffset) `min` (sbytes - done) in
        dst ← qemu_iovec_add dst (take len (drop soffset v));
        concat_iov_loop dst src' 0 (done + len) sbytes
      else concat_iov_loop dst src' (soffset - length v) done sbytes
  end.

Definition qemu_iovec_concat_iov (dst : QEMUIOVector) (src : list iovec) (soffset sbytes : nat)
  : res QEMUIOVector :=
  if sbytes =? 0 then Ok dst else
  match qiov_nalloc dst with
  | None => Fault AssertFail
  | Some _ =>
      '(dst, so) ← concat_iov_loop dst src soffset 0 sbytes;
      if so =? 0 then Ok dst else Fault AssertFail
  end.

Definition qemu_iovec_concat (dst src : QEMUIOVector) (soffset sbytes : nat) : res QEMUIOVector :=
  qemu_iovec_concat_iov dst (qiov_iov src) soffset sbytes.

Definition qemu_iovec_reset (q : QEMUIOVector) : res QEMUIOVector :=
  match qiov_nalloc q with
  | None => Fault AssertFail
  | Some n => Ok (mkQIOV [] (Some n) 0)
  end.

Definition qemu_iovec_destroy (q : QEMUIOVector) : res QEMUIOVector :=
  match qiov_nalloc q with
  | None => Fault AssertFail
  | Some _ => q ← qemu_iovec_reset q; Ok (mkQIOV (qiov_iov q) (Some 0) (qiov_size q))
  end.

Definition qemu_iovec_to_buf (q : QEMUIOVector) (offset bytes : nat) : res (list Z) :=
  iov_to_buf (qiov_iov q) offset bytes.
Definition qemu_iovec_from_buf (q : QEMUIOVector) (offset : nat) (buf : list Z) (bytes : nat)
  : res (list iovec * nat) :=
  iov_from_buf (qiov_iov q) offset buf bytes.
Definition qemu_iovec_memset (q : QEMUIOVector) (offset : nat) (fillc : Z) (bytes : nat)
  : res (list iovec * nat) :=
  iov_memset (qiov_iov q) offset fillc bytes.

(** ** Reference semantics *)

(** Two arrays of vectors with the same boundaries. *)
Definition same_shape (iov iov' : list iovec) : Prop := length <$> iov = length <$> iov'.

(** What the growable vectors keep: room for every entry, and the byte count. *)
Definition qiov_wf (q : QEMUIOVector) : Prop :=
  qiov_size q = length (concat (qiov_iov q)) ∧
  match qiov_nalloc q with Some n => niov q ≤ n | None => True end.

(** ** Lemmas *)

Lemma andb_guard_false o b d : ((o =? 0) && (b <=? d)) = false → o ≠ 0 ∨ d < b.
Proof.
  intros [H|H]%andb_false_iff; [apply Nat.eqb_neq in H|apply Nat.leb_gt in H]; lia.
Qed.

Lemma andb_guard_true o b d : ((o =? 0) && (b <=? d)) = true → o = 0 ∧ b ≤ d.
Proof. intros [->%Nat.eqb_eq H%Nat.leb_le]%andb_true_iff. auto. Qed.

(** Case analysis on the loop guard and on the position of the offset. *)
Ltac iov_cases :=
  match goal with
  | |- context [(?o =? 0) && (?b <=? ?d)] =>
      destruct ((o =? 0) && (b <=? d)) eqn:?G;
      [apply andb_guard_true in G as [? ?]; subst|apply andb_guard_false in G]
  end;
  try match goal with
  | |- context [?o <? length ?v] => destruct (Nat.ltb_spec o (length v))
  end.

Lemma iov_to_buf_loop_spec iov offset done bytes :
  offset ≤ length (concat iov) →
  iov_to_buf_loop iov offset done bytes =
  (take (bytes - done) (drop offset (concat iov)), 0).
Proof.
  revert offset done. induction iov as [|v iov IH]; intros offset done Ho; simpl in Ho |- *.
  - rewrite drop_nil, take_nil. f_equal. lia.
  - rewrite length_app in Ho. iov_cases.
    + by replace (bytes - done) with 0 by lia.
    + rewrite IH, drop_0 by lia. f_equal.
      rewrite drop_app_le, take_app, length_drop by lia. f_equal.
      * destruct (Nat.le_ge_cases (bytes - done) (length v - offset)).
        -- by rewrite Nat.min_r by lia.
        -- by rewrite !take_ge by (rewrite length_drop; lia).
      * f_equal. lia.
    + rewrite IH by lia. by rewrite drop_app_ge by lia.
Qed.

Lemma iov_to_buf_loop_beyond iov offset done bytes :
  length (concat iov) < offset → snd (iov_to_buf_loop iov offset done bytes) ≠ 0.
Proof.
  revert offset done. induction iov as [|v iov IH]; intros offset done Ho; simpl in Ho |- *.
  - lia.
  - rewrite length_app in Ho. iov_cases; [lia|lia|]. apply IH. lia.
Qed.

Lemma iov_size_concat iov : iov_size iov = length (concat iov).
Proof.
  unfold iov_size. rewrite <-(Nat.add_0_l (length (concat iov))). generalize 0 as n.
  induction iov as [|v iov IH]; intros n; simpl; [lia|]. rewrite IH, length_app. lia.
Qed.

(** What one vector looks like after [len] bytes were stored in it. *)
Lemma vec_update (v new : list Z) offset len :
  length new = len → offset + len ≤ length v →
  take offset v ++ new ++ drop (offset + len) v = splice v offset new.
Proof. intros <- ?. by rewrite splice_fit. Qed.

Lemma iov_from_buf_loop_spec iov offset done buf bytes :
  offset ≤ length (concat iov) → done ≤ bytes → bytes ≤ length buf →
  ∃ iov', iov_from_buf_loop iov offset done buf bytes =
    Ok (iov', 0, done + (bytes - done) `min` (length (concat iov) - offset)) ∧
    concat iov' = splice (concat iov) offset (take (bytes - done) (drop done buf)) ∧
    same_shape iov iov'.
Proof.
  unfold same_shape. revert offset done.
  induction iov as [|v iov IH]; intros offset done Ho Hd Hb; simpl in Ho.
  - exists []. simpl. replace offset with 0 by lia.
    repeat split; [do 2 f_equal; lia|].
    unfold splice. simpl. by rewrite drop_nil.
  - rewrite length_app in Ho. cbn [iov_from_buf_loop concat]. iov_cases.
    + exists (v :: iov). replace (bytes - done) with 0 by lia. rewrite take_0, splice_nil.
      split; [do 2 f_equal; lia|done].
    + set (len := (length v - offset) `min` (bytes - done)).
      rewrite (proj2 (Nat.leb_le _ _)) by lia.
      destruct (IH 0 (done + len)) as (r & -> & Hr & Hsh); [lia|lia|lia|].
      assert (Hlen : length (take len (drop done buf)) = len)
        by (rewrite length_take, length_drop; lia).
      cbn [mbind res_bind]. eexists.
      split; [do 2 f_equal; rewrite length_app; lia|].
      rewrite (vec_update _ _ _ _ Hlen) by lia. split; [|by rewrite !fmap_cons, Hsh, length_splice by lia].
      cbn [concat]. rewrite Hr, splice_app_l by lia. f_equal; f_equal.
      * rewrite take_take; f_equal; lia.
      * destruct (Nat.le_ge_cases (bytes - done) (length v - offset)).
        -- rewrite (drop_ge (take _ _)) by (rewrite length_take; lia).
           by replace (bytes - (done + len)) with 0 by lia.
        -- replace (bytes - done) with (length v - offset + (bytes - (done + len))) by lia.
           rewrite <-take_drop_commute, drop_drop. do 2 f_equal; lia.
    + destruct (IH (offset - length v) done) as (r & -> & Hr & Hsh); [lia|lia|lia|].
      cbn [mbind res_bind]. eexists. split; [do 2 f_equal; rewrite length_app; lia|].
      split; [|by rewrite !fmap_cons, Hsh]. cbn [concat]. by rewrite Hr, splice_app_r by lia.
Qed.

Lemma iov_memset_loop_from iov offset done c buf bytes :
  (∀ n d, d + n ≤ bytes → take n (drop d buf) = replicate n (u8 c)) → bytes ≤ length buf →
  done ≤ bytes →
  iov_from_buf_loop iov offset done buf bytes = Ok (iov_memset_loop iov offset done c bytes).
Proof.
  intros Hbuf Hb. revert offset done. induction iov as [|v iov IH]; intros offset done Hd.
  { done. }
  cbn [iov_from_buf_loop iov_memset_loop]. iov_cases; [done| |].
  - rewrite (proj2 (Nat.leb_le _ _)) by lia. rewrite IH by lia. rewrite Hbuf by lia.
    cbn [mbind res_bind]. by destruct (iov_memset_loop _ _ _ _ _) as [[? ?] ?].
  - rewrite IH by lia. cbn [mbind res_bind].
    by destruct (iov_memset_loop _ _ _ _ _) as [[? ?] ?].
Qed.

(** ** Properties of copying *)

(** [iov_to_buf] reads the flat byte sequence: for an offset inside the vectors it returns
    exactly the next [bytes] bytes (fewer at the end), and for an offset beyond the end the
    assertion fails. *)
Theorem iov_to_buf_flat (iov : list iovec) (offset bytes : nat) :
  iov_to_buf iov offset bytes =
  if offset <=? length (concat iov) then Ok (take bytes (drop offset (concat iov)))
  else Fault AssertFail.
Proof.
  unfold iov_to_buf. destruct (Nat.leb_spec offset (length (concat iov))).
  - rewrite iov_to_buf_loop_spec by done. simpl. by rewrite Nat.sub_0_r.
  - pose proof (iov_to_buf_loop_beyond iov offset 0 bytes ltac:(done)) as Hne.
    destruct (iov_to_buf_loop _ _ _ _) as [l o]. simpl in *.
    by rewrite (proj2 (Nat.eqb_neq o 0) Hne).
Qed.

(** [iov_from_buf] is a store into the flat byte sequence: the vectors keep their boundaries,
    the bytes from [offset] on are replaced by [buf], nothing else changes, and the result
    counts the bytes stored. *)
Theorem iov_from_buf_flat (iov : list iovec) (offset : nat) (buf : list Z) (bytes : nat) :
  offset ≤ length (concat iov) → bytes ≤ length buf →
  ∃ iov', iov_from_buf iov offset buf bytes =
            Ok (iov', bytes `min` (length (concat iov) - offset)) ∧
    concat iov' = splice (concat iov) offset (take bytes buf) ∧ same_shape iov iov'.
Proof.
  intros Ho Hb. destruct (iov_from_buf_loop_spec iov offset 0 buf bytes) as (r & Hr & Hc & Hs);
    [done|lia|done|].
  exists r. unfold iov_from_buf. rewrite Hr. cbn [mbind res_bind Nat.eqb].
  rewrite Nat.sub_0_r, drop_0 in *. auto.
Qed.

Lemma iov_from_buf_flat_witness :
  ∃ iov', iov_from_buf [[1; 2; 3]%Z; [4]%Z; [5; 6]%Z] 2 [9; 8; 7]%Z 3 = Ok (iov', 3) ∧
    concat iov' = [1; 2; 9; 8; 7; 6]%Z ∧ same_shape [[1; 2; 3]%Z; [4]%Z; [5; 6]%Z] iov'.
Proof.
  apply (iov_from_buf_flat [[1; 2; 3]%Z; [4]%Z; [5; 6]%Z] 2 [9; 8; 7]%Z 3); simpl; lia.
Defined.

(** What [iov_from_buf] stores, [iov_to_buf] reads back at the same offset. *)
Theorem iov_roundtrip (iov iov' : list iovec) (offset : nat) (buf : list Z) (bytes n : nat) :
  offset ≤ length (concat iov) → bytes ≤ length buf →
  iov_from_buf iov offset buf bytes = Ok (iov', n) →
  iov_to_buf iov' offset n = Ok (take n buf).
Proof.
  intros Ho Hb H. destruct (iov_from_buf_loop_spec iov offset 0 buf bytes) as (r & Hr & Hc & Hs);
    [done|lia|done|].
  unfold iov_from_buf in H. rewrite Hr in H. cbn [mbind res_bind Nat.eqb] in H.
  rewrite Nat.sub_0_r, drop_0 in *. injection H as <- <-.
  unfold iov_to_buf. rewrite iov_to_buf_loop_spec by (rewrite Hc, length_splice; lia).
  simpl. f_equal. rewrite Nat.sub_0_r, Hc.
  pose proof (take_drop_splice (concat iov) offset (take bytes buf) Ho) as Hrd.
  rewrite length_take, take_take in Hrd. rewrite (Nat.min_l bytes) in Hrd by done.
  rewrite (Nat.min_comm bytes), <-take_take, Hrd, take_take. f_equal. lia.
Qed.

Lemma iov_roundtrip_witness : iov_to_buf [[1; 9]%Z; [8; 7]%Z] 1 3 = Ok [9; 8; 7]%Z.
Proof.
  apply (iov_roundtrip [[1; 2]%Z; [3; 4]%Z] [[1; 9]%Z; [8; 7]%Z] 1 [9; 8; 7; 6]%Z 4 3);
    [simpl; lia|simpl; lia|reflexivity].
Defined.

(** [iov_memset] is [iov_from_buf] of a constant buffer. *)
Lemma iov_memset_eq iov offset c bytes :
  iov_memset iov offset c bytes = iov_from_buf iov offset (replicate bytes (u8 c)) bytes.
Proof.
  unfold iov_memset, iov_from_buf.
  rewrite (iov_memset_loop_from _ _ _ c); [..|rewrite length_replicate; done|lia].
  - cbn [mbind res_bind]. by destruct (iov_memset_loop _ _ _ _ _) as [[? ?] ?].
  - intros n d Hn. rewrite drop_replicate, take_replicate. f_equal. lia.
Qed.

(** ** Properties of boundary moves *)

Lemma iov_copy_loop_spec cnt iov offset bytes :
  length iov ≤ cnt → offset ≤ length (concat iov) → (bytes = 0 → offset = 0) →
  ∃ r, iov_copy_loop cnt iov offset bytes = (r, 0) ∧
       concat r = take bytes (drop offset (concat iov)).
Proof.
  revert cnt offset bytes. induction iov as [|v iov IH]; intros cnt offset bytes Hc Ho Hz; simpl in *.
  - exists []. rewrite drop_nil, take_nil. split; [f_equal; lia|done].
  - destruct cnt as [|cnt]; [lia|]. rewrite length_app in Ho.
    destruct (Nat.eqb_spec bytes 0) as [->|Hb].
    { exists []. rewrite Hz by done. done. }
    destruct (Nat.leb_spec (length v) offset).
    + destruct (IH (S cnt) (offset - length v) bytes) as (r & -> & Hr); [lia|lia|lia|].
      exists r. split; [done|]. by rewrite Hr, drop_app_ge by lia.
    + destruct (IH cnt 0 (bytes - bytes `min` (length v - offset))) as (r & -> & Hr); [lia|lia|done|].
      eexists. split; [done|]. cbn [concat]. rewrite Hr, drop_0, drop_app_le, take_app, length_drop by lia.
      f_equal; [|f_equal; lia]. destruct (Nat.le_ge_cases bytes (length v - offset)).
      * by rewrite Nat.min_l by lia.
      * by rewrite !take_ge by (rewrite length_drop; lia).
Qed.

Lemma discard_front_spec iov bytes :
  concat (fst (iov_discard_front iov bytes)) = drop bytes (concat iov) ∧
  snd (iov_discard_front iov bytes) = bytes `min` length (concat iov).
Proof.
  revert bytes. induction iov as [|v iov IH]; intros bytes; simpl.
  - rewrite drop_nil. split; [done|lia].
  - rewrite length_app. destruct (Nat.ltb_spec bytes (length v)); simpl.
    + rewrite drop_app_le by lia. split; [done|lia].
    + specialize (IH (bytes - length v)). destruct (iov_discard_front iov _) as [r t]. simpl in *.
      destruct IH as [-> ->]. rewrite drop_app_ge by lia. split; [done|lia].
Qed.

Lemma discard_back_loop_spec rv bytes :
  let flat l := concat (reverse l) in
  flat (fst (discard_back_loop rv bytes)) = take (length (flat rv) - bytes) (flat rv) ∧
  snd (discard_back_loop rv bytes) = bytes `min` length (flat rv).
Proof.
  cbn zeta. revert bytes. induction rv as [|v rv IH]; intros bytes.
  - simpl. split; [done|lia].
  - cbn [discard_back_loop]. rewrite !reverse_cons, concat_app, length_app. cbn [concat].
    rewrite app_nil_r. destruct (Nat.ltb_spec bytes (length v)); cbn [fst snd].
    + rewrite reverse_cons, concat_app. cbn [concat]. rewrite app_nil_r, take_app.
      split; [|lia]. rewrite (take_ge (concat _)) by lia. do 2 f_equal. lia.
    + specialize (IH (bytes - length v)). destruct (discard_back_loop rv _) as [r t]. cbn [fst snd] in *.
      destruct IH as [-> ->]. rewrite take_app. split; [|lia].
      replace (_ + length v - bytes - _) with 0 by lia. rewrite take_0, app_nil_r. f_equal. lia.
Qed.

(** Discarding from either end removes exactly the requested bytes of the flat sequence (or
    all of them) and reports how many went. *)
Theorem iov_discard_flat (iov : list iovec) (bytes : nat) :
  concat (fst (iov_discard_front iov bytes)) = drop bytes (concat iov) ∧
  snd (iov_discard_front iov bytes) = bytes `min` iov_size iov ∧
  concat (fst (iov_discard_back iov bytes)) = take (iov_size iov - bytes) (concat iov) ∧
  snd (iov_discard_back iov bytes) = bytes `min` iov_size iov.
Proof.
  rewrite iov_size_concat. pose proof (discard_front_spec iov bytes) as [Hf1 Hf2].
  pose proof (discard_back_loop_spec (reverse iov) bytes) as [Hb1 Hb2]. cbn zeta in *.
  rewrite reverse_involutive in *. unfold iov_discard_back.
  destruct (discard_back_loop (reverse iov) bytes) as [r t]. simpl in *. auto.
Qed.

(** ** Growable vectors *)

Lemma qemu_iovec_add_ok q v :
  qiov_wf q → is_Some (qiov_nalloc q) →
  ∃ q', qemu_iovec_add q v = Ok q' ∧ qiov_wf q' ∧ is_Some (qiov_nalloc q') ∧
        qiov_iov q' = qiov_iov q ++ [v].
Proof.
  intros [Hs Hn] [n Hq]. unfold qemu_iovec_add, niov in *. rewrite Hq in *.
  assert (Hlt : length (qiov_iov q) < (if length (qiov_iov q) =? n then 2 * n + 1 else n)).
  { destruct (Nat.eqb_spec (length (qiov_iov q)) n); lia. }
  rewrite (proj2 (Nat.ltb_lt _ _) Hlt). eexists. split; [done|].
  unfold qiov_wf, niov. cbn [qiov_iov qiov_nalloc qiov_size].
  rewrite concat_app, !length_app. cbn [concat length]. rewrite app_nil_r. repeat split; eauto; lia.
Qed.

Lemma concat_iov_loop_spec dst src soffset done sbytes :
  qiov_wf dst → is_Some (qiov_nalloc dst) → soffset ≤ length (concat src) →
  done ≤ sbytes → (sbytes ≤ done → soffset = 0) →
  ∃ dst', concat_iov_loop dst src soffset done sbytes = Ok (dst', 0) ∧ qiov_wf dst' ∧
    concat (qiov_iov dst') =
    concat (qiov_iov dst) ++ take (sbytes - done) (drop soffset (concat src)).
Proof.
  revert dst soffset done. induction src as [|v src IH];
    intros dst soffset done Hw Ha Ho Hd Hz; simpl in *.
  - exists dst. rewrite drop_nil, take_nil, app_nil_r. split; [do 2 f_equal; lia|done].
  - rewrite length_app in Ho. destruct (Nat.leb_spec sbytes done) as [Hle|Hlt].
    { exists dst. rewrite Hz by done. replace (sbytes - done) with 0 by lia.
      rewrite take_0, app_nil_r. auto. }
    destruct (Nat.ltb_spec soffset (length v)).
    + destruct (qemu_iovec_add_ok dst (take ((length v - soffset) `min` (sbytes - done)) (drop soffset v)))
        as (d & -> & Hw' & Ha' & Hi); [done|done|]. cbn [mbind res_bind].
      destruct (IH d 0 (done + (length v - soffset) `min` (sbytes - done)))
        as (d' & -> & Hw'' & Hc); [done|done|lia|lia|done|].
      exists d'. split; [done|]. split; [done|].
      rewrite Hc, Hi, concat_app, <-app_assoc. cbn [concat]. rewrite app_nil_r, drop_0. f_equal.
      rewrite drop_app_le, take_app, length_drop by lia. f_equal; [|f_equal; lia].
      destruct (Nat.le_ge_cases (sbytes - done) (length v - soffset)).
      * by rewrite Nat.min_r by lia.
      * by rewrite !take_ge by (rewrite length_drop; lia).
    + destruct (IH dst (soffset - length v) done) as (d & -> & Hw' & Hc); [done|done|lia|lia|lia|].
      exists d. by rewrite Hc, drop_app_ge by lia.
Qed.

(** Appending part of one growable vector to another never overruns the entry array, keeps
    the recorded byte count exact, and appends exactly the requested slice of the source. *)
Theorem qemu_iovec_concat_flat (dst src : QEMUIOVector) (soffset sbytes : nat) :
  qiov_wf dst → is_Some (qiov_nalloc dst) →
  soffset ≤ length (concat (qiov_iov src)) →
  ∃ dst', qemu_iovec_concat dst src soffset sbytes = Ok dst' ∧ qiov_wf dst' ∧
    concat (qiov_iov dst') =
    concat (qiov_iov dst) ++ take sbytes (drop soffset (concat (qiov_iov src))).
Proof.
  intros Hw Ha Ho. unfold qemu_iovec_concat, qemu_iovec_concat_iov.
  destruct (Nat.eqb_spec sbytes 0) as [->|Hz].
  { exists dst. by rewrite take_0, app_nil_r. }
  destruct (concat_iov_loop_spec dst (qiov_iov src) soffset 0 sbytes) as (d & Hd & Hw' & Hc);
    [done|done|done|lia|lia|].
  destruct Ha as [n ->]. rewrite Hd. cbn [mbind res_bind Nat.eqb].
  exists d. rewrite Nat.sub_0_r in Hc. auto.
Qed.

Lemma qemu_iovec_concat_flat_witness :
  ∃ dst', qemu_iovec_concat (qemu_iovec_init 0) (qemu_iovec_init_external [[1; 2]%Z; [3; 4]%Z]) 1 2
          = Ok dst' ∧ qiov_wf dst' ∧ concat (qiov_iov dst') = [2; 3]%Z.
Proof.
  apply (qemu_iovec_concat_flat (qemu_iovec_init 0) (qemu_iovec_init_external [[1; 2]%Z; [3; 4]%Z]) 1 2);
    [split; [reflexivity|apply Nat.le_refl]|by exists 0|simpl; lia].
Defined.

End Iov.
