(* ===== verification/NetQueue.v ===== *)
(** The packet queue between two network clients: net/queue.c, the delivery and send functions
    of net/net.c, and the harness' copies of them.  The code that a queue calls out to (the
    client behind [queue->opaque], the sender's state, the sent callback) is the interface
    [NetPort]; a client's theorems are proved against [NetPortLaws].  [e1000.c]'s client
    instantiates the interface in the file of the device's MMIO entry points. *)

From S2P Require Import Prelude Iov.

Module NetQueue.

(** ** Data *)

Definition QEMU_NET_PACKET_FLAG_NONE : Z := 0.
Definition QEMU_NET_PACKET_FLAG_RAW : Z := 1.

(** Clients and callbacks are identified by numbers; [data] stands for [size] and the bytes. *)
Record NetPacket : Type := mkPacket {
  pkt_sender : Z;
  pkt_flags : Z;
  pkt_data : list Z;
  pkt_sent_cb : option Z;
}.

Record NetQueue : Type := mkQueue {
  nq_maxlen : Z;
  nq_count : Z;
  packets : list NetPacket;
  delivering : bool;
}.

Definition set_packets (q : NetQueue) (count : Z) (l : list NetPacket) : NetQueue :=
  mkQueue (nq_maxlen q) (u32 count) l (delivering q).
Definition set_delivering (q : NetQueue) (d : bool) : NetQueue :=
  mkQueue (nq_maxlen q) (nq_count q) (packets q) d.

Definition qemu_new_net_queue : NetQueue := mkQueue 10000 0 [] false.

(** ** What a queue calls *)

Class NetPort (S : Type) : Type := {
  port_queue : S → NetQueue;                      (* nc->incoming_queue *)
  set_port_queue : NetQueue → S → S;
  (* qemu_deliver_packet(sender, flags, data, size, queue->opaque) *)
  deliver_packet : Z → Z → list Z → S → res (Z * S);
  (* qemu_deliver_packet_iov(sender, flags, iov, iovcnt, queue->opaque) *)
  deliver_packet_iov : Z → Z → list (list Z) → S → res (Z * S);
  can_send_packet : Z → S → bool;                 (* qemu_can_send_packet(sender) *)
  packet_sent : Z → Z → Z → S → S;                (* sent_cb(sender, ret) *)
}.

Section Queue.
Context {S : Type} `{NetPort S}.

(** ** Queue operations *)

Definition qemu_net_queue_append (sender flags : Z) (buf : list Z) (sent_cb : option Z) (s : S) : S :=
  let queue := port_queue s in
  if (nq_maxlen queue <=? nq_count queue) && negb (bool_decide (is_Some sent_cb)) then s
  else
    let packet := mkPacket sender flags buf sent_cb in
    set_port_queue (set_packets queue (nq_count queue + 1) (packets queue ++ [packet])) s.

(** The two loops over the vectors: the allocation size, then the copy. *)
Definition qemu_net_queue_append_iov (sender flags : Z) (iov : list (list Z))
    (sent_cb : option Z) (s : S) : S :=
  let queue := port_queue s in
  if (nq_maxlen queue <=? nq_count queue) && negb (bool_decide (is_Some sent_cb)) then s
  else
    let data := foldl (λ d v, d ++ v) [] iov in
    let packet := mkPacket sender flags data sent_cb in
    set_port_queue (set_packets queue (nq_count queue + 1) (packets queue ++ [packet])) s.

Definition qemu_net_queue_deliver (sender flags : Z) (data : list Z) (s : S) : res (Z * S) :=
  let s := set_port_queue (set_delivering (port_queue s) true) s in
  '(ret, s) ← deliver_packet sender flags data s;
  let s := set_port_queue (set_delivering (port_queue s) false) s in
  Ok (ret, s).

Definition qemu_net_queue_deliver_iov (sender flags : Z) (iov : list (list Z)) (s : S)
  : res (Z * S) :=
  let s := set_port_queue (set_delivering (port_queue s) true) s in
  '(ret, s) ← deliver_packet_iov sender flags iov s;
  let s := set_port_queue (set_delivering (port_queue s) false) s in
  Ok (ret, s).

(** One round of the loop of [qemu_net_queue_flush] per unit of fuel. *)
Fixpoint qemu_net_queue_flush (fuel : nat) (s : S) : res (bool * S) :=
  match packets (port_queue s) with
  | [] => Ok (true, s)
  | packet :: rest =>
      match fuel with
      | O => Diverge
      | Datatypes.S fuel =>
          let queue := port_queue s in
          let s := set_port_queue (set_packets queue (nq_count queue - 1) rest) s in
          '(ret, s) ← qemu_net_queue_deliver (pkt_sender packet) (pkt_flags packet) (pkt_data packet) s;
          let ret := s32 ret in
          if ret =? 0 then
            let queue := port_queue s in
            Ok (false, set_port_queue (set_packets queue (nq_count queue + 1)
                                         (packet :: packets queue)) s)
          else
            let s := match pkt_sent_cb packet with
                     | Some cb => packet_sent cb (pkt_sender packet) ret s
                     | None => s
                     end in
            qemu_net_queue_flush fuel s
      end
  end.

Definition qemu_net_queue_send (fuel : nat) (sender flags : Z) (data : list Z)
    (sent_cb : option Z) (s : S) : res (Z * S) :=
  if delivering (port_queue s) || negb (can_send_packet sender s)
  then Ok (0, qemu_net_queue_append sender flags data sent_cb s)
  else
    '(ret, s) ← qemu_net_queue_deliver sender flags data s;
    if ret =? 0 then Ok (0, qemu_net_queue_append sender flags data sent_cb s)
    else
      '(_, s) ← qemu_net_queue_flush fuel s;
      Ok (ret, s).

Definition qemu_net_queue_send_iov (fuel : nat) (sender flags : Z) (iov : list (list Z))
    (sent_cb : option Z) (s : S) : res (Z * S) :=
  if delivering (port_queue s) || negb (can_send_packet sender s)
  then Ok (0, qemu_net_queue_append_iov sender flags iov sent_cb s)
  else
    '(ret, s) ← qemu_net_queue_deliver_iov sender flags iov s;
    if ret =? 0 then Ok (0, qemu_net_queue_append_iov sender flags iov sent_cb s)
    else
      '(_, s) ← qemu_net_queue_flush fuel s;
      Ok (ret, s).

Definition qemu_net_queue_purge (from : Z) (s : S) : S :=
  let queue := port_queue s in
  let '(count, l) :=
    foldl (λ '(c, l) packet,
             if pkt_sender packet =? from then (u32 (c - 1), l) else (c, l ++ [packet]))
          (nq_count queue, []) (packets queue) in
  set_port_queue (set_packets queue count l) s.

(** ** The send path of net.c: [peer] tells whether [sender->peer] is set *)

Definition qemu_send_packet_async_with_flags (fuel : nat) (link_down peer : bool)
    (sender flags : Z) (buf : list Z) (sent_cb : option Z) (s : S) : res (Z * S) :=
  if link_down || negb peer then Ok (Z.of_nat (length buf), s)
  else qemu_net_queue_send fuel sender flags buf sent_cb s.

Definition qemu_send_packet_async (fuel : nat) (link_down peer : bool) (sender : Z)
    (buf : list Z) (sent_cb : option Z) (s : S) : res (Z * S) :=
  qemu_send_packet_async_with_flags fuel link_down peer sender QEMU_NET_PACKET_FLAG_NONE buf sent_cb s.

Definition qemu_send_packet (fuel : nat) (link_down peer : bool) (sender : Z) (buf : list Z) (s : S)
  : res S :=
  '(_, s) ← qemu_send_packet_async fuel link_down peer sender buf None s; Ok s.

Definition qemu_sendv_packet_async (fuel : nat) (link_down peer : bool) (sender : Z)
    (iov : list (list Z)) (sent_cb : option Z) (s : S) : res (Z * S) :=
  if link_down || negb peer then Ok (Z.of_nat (Iov.iov_size iov), s)
  else qemu_net_queue_send_iov fuel sender QEMU_NET_PACKET_FLAG_NONE iov sent_cb s.
End Queue.

(** ** Delivery to a client (net.c) *)

(** The fields of the receiving [NetClientState] and its [NetClientInfo]. *)
Class NetClient (S : Type) : Type := {
  nc_link_down : S → bool;
  nc_receive_disabled : S → bool;
  set_receive_disabled : bool → S → S;
  nc_receive : list Z → S → res (Z * S);                    (* info->receive *)
  nc_receive_raw : option (list Z → S → res (Z * S));       (* info->receive_raw, may be NULL *)
  nc_receive_iov : option (list (list Z) → S → res (Z * S)); (* info->receive_iov *)
  nc_can_receive : option (S → bool);                       (* info->can_receive *)
}.

Definition NET_BUFSIZE : nat := Z.to_nat (4096 + 65536).

Section Client.
Context {S : Type} `{NetClient S}.

Definition qemu_deliver_packet (flags : Z) (data : list Z) (nc : S) : res (Z * S) :=
  if nc_link_down nc then Ok (Z.of_nat (length data), nc)
  else if nc_receive_disabled nc then Ok (0, nc)
  else
    '(ret, nc) ← match nc_receive_raw with
                 | Some receive_raw =>
                     if tst flags QEMU_NET_PACKET_FLAG_RAW then receive_raw data nc
                     else nc_receive data nc
                 | None => nc_receive data nc
                 end;
    let nc := if ret =? 0 then set_receive_disabled true nc else nc in
    Ok (ret, nc).

(** Receive a vector through a client that only takes flat buffers. *)
Definition nc_sendv_compat (iov : list (list Z)) (nc : S) : res (Z * S) :=
  buffer ← Iov.iov_to_buf iov 0 NET_BUFSIZE; nc_receive buffer nc.

Definition qemu_deliver_packet_iov (flags : Z) (iov : list (list Z)) (nc : S) : res (Z * S) :=
  if nc_link_down nc then Ok (Z.of_nat (Iov.iov_size iov), nc)
  else if nc_receive_disabled nc then Ok (0, nc)
  else
    '(ret, nc) ← match nc_receive_iov with
                 | Some receive_iov => receive_iov iov nc
                 | None => nc_sendv_compat iov nc
                 end;
    let ret := s32 ret in
    let nc := if ret =? 0 then set_receive_disabled true nc else nc in
    Ok (ret, nc).

(** [sender->peer] is the client [nc] when there is one. *)
Definition qemu_can_send_packet (peer : option S) : bool :=
  match peer with
  | None => true
  | Some nc =>
      if nc_receive_disabled nc then false
      else match nc_can_receive with
           | Some can_receive => can_receive nc
           | None => true
           end
  end.
End Client.

(** ** Laws *)

(** What the queue relies on: the queue field behaves like a field, and neither the receiving
    client nor the sent callback touches the queue while it is being delivered to. *)
Class NetPortLaws (S : Type) `{NetPort S} : Prop := {
  port_queue_set : ∀ q s, port_queue (set_port_queue q s) = q;
  deliver_keeps_queue : ∀ sender flags data s ret s',
    deliver_packet sender flags data s = Ok (ret, s') → port_queue s' = port_queue s;
  deliver_iov_keeps_queue : ∀ sender flags iov s ret s',
    deliver_packet_iov sender flags iov s = Ok (ret, s') → port_queue s' = port_queue s;
  sent_keeps_queue : ∀ cb sender ret s, port_queue (packet_sent cb sender ret s) = port_queue s;
}.

(** The queue's counter counts its packets. *)
Definition queue_wf (q : NetQueue) : Prop := nq_count q = u32 (Z.of_nat (length (packets q))).

(** ** Lemmas *)

Lemma u32_count_down n : u32 (u32 (Z.of_nat (S n)) - 1) = u32 (Z.of_nat n).
Proof. unfold u32. rewrite Zminus_mod_idemp_l. f_equal. lia. Qed.

Lemma u32_count_up n : u32 (u32 (Z.of_nat n) + 1) = u32 (Z.of_nat (S n)).
Proof. unfold u32. rewrite Zplus_mod_idemp_l. f_equal. lia. Qed.

Section QueueLemmas.
Context {S : Type} `{NetPortLaws S}.
Implicit Types s : S.

Definition q_of (s : S) : NetQueue := port_queue s.

Lemma deliver_queue sender flags data s ret s' :
  qemu_net_queue_deliver sender flags data s = Ok (ret, s') →
  port_queue s' = set_delivering (port_queue s) false.
Proof.
  unfold qemu_net_queue_deliver. intros Hd. apply bind_Ok in Hd as ([r s1] & Hd & He).
  injection He as <- <-. apply deliver_keeps_queue in Hd.
  by rewrite port_queue_set, Hd, port_queue_set.
Qed.

Lemma deliver_iov_queue sender flags iov s ret s' :
  qemu_net_queue_deliver_iov sender flags iov s = Ok (ret, s') →
  port_queue s' = set_delivering (port_queue s) false.
Proof.
  unfold qemu_net_queue_deliver_iov. intros Hd. apply bind_Ok in Hd as ([r s1] & Hd & He).
  injection He as <- <-. apply deliver_iov_keeps_queue in Hd.
  by rewrite port_queue_set, Hd, port_queue_set.
Qed.

Lemma append_queue sender flags data cb s :
  let q := port_queue s in
  port_queue (qemu_net_queue_append sender flags data cb s) =
  if (nq_maxlen q <=? nq_count q) && negb (bool_decide (is_Some cb)) then q
  else set_packets q (nq_count q + 1) (packets q ++ [mkPacket sender flags data cb]).
Proof. cbn zeta. unfold qemu_net_queue_append. split_if; [done|]. by rewrite port_queue_set. Qed.

Lemma append_iov_flat sender flags iov cb s :
  qemu_net_queue_append_iov sender flags iov cb s =
  qemu_net_queue_append sender flags (concat iov) cb s.
Proof.
  unfold qemu_net_queue_append_iov, qemu_net_queue_append.
  assert (∀ d, foldl (λ d v, d ++ v) d iov = d ++ concat iov) as ->; [|done].
  induction iov as [|v iov IH]; intros d; simpl; [by rewrite app_nil_r|].
  by rewrite IH, app_assoc.
Qed.

Lemma append_wf sender flags data cb s :
  queue_wf (port_queue s) →
  queue_wf (port_queue (qemu_net_queue_append sender flags data cb s)).
Proof.
  intros Hw. rewrite append_queue. split_if; [done|]. unfold queue_wf in *. cbn.
  rewrite Hw, u32_count_up, length_app. do 2 f_equal. simpl. lia.
Qed.

(** The loop invariant of the flush: what is left is a suffix of what was queued, the counter
    is exact, and the queue is empty exactly when the result is [true]. *)
Definition flushed (s : S) (r : bool * S) : Prop :=
  let q := port_queue s in
  let q' := port_queue (snd r) in
  (∃ k, packets q' = drop k (packets q)) ∧
  (fst r = true ↔ packets q' = []) ∧
  queue_wf q' ∧ nq_maxlen q' = nq_maxlen q ∧ delivering q' = false.

Lemma flush_inv fuel s r :
  qemu_net_queue_flush fuel s = Ok r → queue_wf (port_queue s) →
  delivering (port_queue s) = false → flushed s r.
Proof.
  revert s. induction fuel as [|fuel IH]; intros s Hf Hw Hd; cbn [qemu_net_queue_flush] in Hf.
  - destruct (packets (port_queue s)) as [|p l] eqn:Hp; [|discriminate]. injection Hf as <-.
    unfold flushed. cbn. rewrite Hp. repeat split; eauto. by exists 0%nat.
  - destruct (packets (port_queue s)) as [|p l] eqn:Hp.
    { injection Hf as <-. unfold flushed. cbn. rewrite Hp. repeat split; eauto. by exists 0%nat. }
    apply bind_Ok in Hf as ([ret s1] & Hdel & Hf). apply deliver_queue in Hdel.
    rewrite port_queue_set in Hdel.
    assert (Hc : nq_count (port_queue s1) = u32 (Z.of_nat (length l))).
    { rewrite Hdel. cbn. rewrite Hw, Hp. cbn [length]. apply u32_count_down. }
    assert (Hl : packets (port_queue s1) = l) by by rewrite Hdel.
    assert (Hm : nq_maxlen (port_queue s1) = nq_maxlen (port_queue s)) by by rewrite Hdel.
    assert (Hv : delivering (port_queue s1) = false) by by rewrite Hdel.
    destruct (s32 ret =? 0).
    + injection Hf as <-. unfold flushed, queue_wf. cbn. rewrite port_queue_set. cbn.
      rewrite Hl, Hc, u32_count_up, Hm, Hv. repeat split; try done. exists 0%nat. by rewrite Hp.
    + assert (Hs : ∀ s2, port_queue s2 = port_queue s1 →
                   qemu_net_queue_flush fuel s2 = Ok r → flushed s r).
      { intros s2 E Hf2. apply IH in Hf2; [|unfold queue_wf; rewrite E, Hc, Hl; done|by rewrite E].
        unfold flushed in *. rewrite E in Hf2. destruct Hf2 as ([k Hk] & H2 & H3 & H4 & H5).
        rewrite Hl in Hk. repeat split; try tauto; [|congruence]. exists (Datatypes.S k). by rewrite Hp. }
      eapply Hs; [|exact Hf]. destruct (pkt_sent_cb p); [apply sent_keeps_queue|done].
Qed.

(** The loop ends: with one unit of fuel per queued packet it returns. *)
Lemma flush_total fuel s :
  (∀ sender flags data s, ∃ r, deliver_packet sender flags data s = Ok r) →
  (length (packets (port_queue s)) ≤ fuel)%nat →
  ∃ r, qemu_net_queue_flush fuel s = Ok r.
Proof.
  intros Htot. revert s. induction fuel as [|fuel IH]; intros s Hlen; cbn [qemu_net_queue_flush].
  - destruct (packets (port_queue s)) eqn:Hp; [eauto|]. simpl in Hlen. lia.
  - destruct (packets (port_queue s)) as [|p l] eqn:Hp; [eauto|]. simpl in Hlen.
    destruct (qemu_net_queue_deliver _ _ _ _) as [[ret s1]| |] eqn:Hd.
    + cbn [mbind res_bind]. split_if; [eauto|]. apply IH.
      apply deliver_queue in Hd. rewrite port_queue_set in Hd.
      destruct (pkt_sent_cb p); rewrite ?sent_keeps_queue, Hd; cbn; lia.
    + unfold qemu_net_queue_deliver in Hd. edestruct Htot as [[r s'] E]. rewrite E in Hd. done.
    + unfold qemu_net_queue_deliver in Hd. edestruct Htot as [[r s'] E]. rewrite E in Hd. done.
Qed.

Lemma purge_fold from l c acc :
  foldl (λ '(c, l) packet, if pkt_sender packet =? from then (u32 (c - 1), l)
                           else (c, l ++ [packet])) (c, acc) l =
  (foldl (λ c packet, if pkt_sender packet =? from then u32 (c - 1) else c) c l,
   acc ++ filter (λ p, pkt_sender p ≠ from) l).
Proof.
  revert c acc. induction l as [|p l IH]; intros c acc; cbn [foldl].
  - by rewrite app_nil_r.
  - rewrite filter_cons. destruct (Z.eqb_spec (pkt_sender p) from).
    + rewrite IH, decide_False by naive_solver. done.
    + rewrite IH, decide_True by done. by rewrite <-app_assoc.
Qed.

Lemma purge_count from l c n :
  c = u32 (Z.of_nat (n + length l)) →
  foldl (λ c packet, if pkt_sender packet =? from then u32 (c - 1) else c) c l =
  u32 (Z.of_nat (n + length (filter (λ p, pkt_sender p ≠ from) l))).
Proof.
  revert c n. induction l as [|p l IH]; intros c n Hc; cbn [foldl]; [done|].
  rewrite filter_cons. cbn [length] in Hc. destruct (Z.eqb_spec (pkt_sender p) from).
  - rewrite decide_False by naive_solver. apply IH.
    rewrite Hc, <-plus_n_Sm. apply u32_count_down.
  - rewrite decide_True by done. cbn [length]. rewrite (IH c (Datatypes.S n)); [do 2 f_equal; lia|].
    rewrite Hc. do 2 f_equal. lia.
Qed.

(** ** Properties *)

(** flushing a queue is first-in first-out and loses nothing: it always returns, what is
    left in the queue is a suffix of what was queued (a refused packet goes back to the
    head), the result is [true] exactly when the queue was emptied, and the packet counter
    stays exact. *)
Theorem qemu_net_queue_flush_fifo s :
  (∀ sender flags data s, ∃ r, deliver_packet sender flags data s = Ok r) →
  queue_wf (port_queue s) → delivering (port_queue s) = false →
  ∃ b s', qemu_net_queue_flush (length (packets (port_queue s))) s = Ok (b, s') ∧
    (∃ k, packets (port_queue s') = drop k (packets (port_queue s))) ∧
    (b = true ↔ packets (port_queue s') = []) ∧
    queue_wf (port_queue s').
Proof.
  intros Htot Hw Hd. destruct (flush_total _ s Htot (le_n _)) as [[b s'] Hf].
  exists b, s'. destruct (flush_inv _ _ _ Hf Hw Hd) as (? & ? & ? & _). auto.
Qed.

(** purging removes exactly the packets of one sender, keeps the order of the others, and
    keeps the counter exact. *)
Theorem qemu_net_queue_purge_exact from s :
  queue_wf (port_queue s) →
  packets (port_queue (qemu_net_queue_purge from s)) =
    filter (λ p, pkt_sender p ≠ from) (packets (port_queue s)) ∧
  queue_wf (port_queue (qemu_net_queue_purge from s)).
Proof.
  intros Hw. unfold qemu_net_queue_purge, queue_wf in *. rewrite purge_fold, port_queue_set.
  cbn. split; [done|]. rewrite (purge_count from _ _ 0) by (by rewrite Hw).
  cbn [Nat.add]. by rewrite u32_small by apply u32_fits.
Qed.

(** A send that is not taken by the receiver queues the packet behind the others unless
    the queue is full and the sender gave no callback, in which case it is dropped; a packet
    with a callback is never dropped. *)
Theorem qemu_net_queue_send_refused fuel sender flags data cb s :
  delivering (port_queue s) = true ∨ can_send_packet sender s = false →
  ∃ s', qemu_net_queue_send fuel sender flags data cb s = Ok (0, s') ∧
    packets (port_queue s') =
      packets (port_queue s) ++
      (if bool_decide (is_Some cb) || (nq_count (port_queue s) <? nq_maxlen (port_queue s))
       then [mkPacket sender flags data cb] else []).
Proof.
  intros Hr. unfold qemu_net_queue_send.
  assert (delivering (port_queue s) || negb (can_send_packet sender s) = true) as ->.
  { destruct Hr as [-> | ->]; [done|]. apply orb_true_r. }
  eexists. split; [done|]. rewrite append_queue. rewrite Z.ltb_antisym.
  destruct (nq_maxlen _ <=? nq_count _), (bool_decide _); cbn; by rewrite ?app_nil_r.
Qed.
End QueueLemmas.

(** ** What the port's operations preserve, the queue's operations preserve *)

Section QueuePreserves.
Context {S : Type} `{NetPort S} (R : relation S) `{!PreOrder R}.
Hypothesis set_R : ∀ q s, R s (set_port_queue q s).
Hypothesis sent_R : ∀ cb sender ret s, R s (packet_sent cb sender ret s).
Hypothesis deliver_R : ∀ sender flags data s r s', deliver_packet sender flags data s = Ok (r, s') → R s s'.
Hypothesis deliver_iov_R : ∀ sender flags iov s r s', deliver_packet_iov sender flags iov s = Ok (r, s') → R s s'.

Lemma append_preserves sender flags data cb s : R s (qemu_net_queue_append sender flags data cb s).
Proof. unfold qemu_net_queue_append. by split_if. Qed.
Lemma queue_deliver_preserves sender flags data s r s' : qemu_net_queue_deliver sender flags data s = Ok (r, s') → R s s'.
Proof.
  unfold qemu_net_queue_deliver. intros ([r1 s1] & Hd & He)%bind_Ok. injection He as <- <-. apply deliver_R in Hd.
  by etrans; [apply set_R|etrans; [exact Hd|apply set_R]].
Qed.
Lemma queue_deliver_iov_preserves sender flags iov s r s' : qemu_net_queue_deliver_iov sender flags iov s = Ok (r, s') → R s s'.
Proof.
  unfold qemu_net_queue_deliver_iov. intros ([r1 s1] & Hd & He)%bind_Ok. injection He as <- <-. apply deliver_iov_R in Hd.
  by etrans; [apply set_R|etrans; [exact Hd|apply set_R]].
Qed.
Lemma flush_preserves fuel s r s' : qemu_net_queue_flush fuel s = Ok (r, s') → R s s'.
Proof.
  revert s. induction fuel as [|fuel IH]; intros s Hf; cbn [qemu_net_queue_flush] in Hf; destruct (packets (port_queue s)) as [|p l]; try (by injection Hf as <- <-); [done|].
  apply bind_Ok in Hf as ([r1 s1] & Hd & Hf). apply queue_deliver_preserves in Hd. etrans; [apply set_R|]. etrans; [exact Hd|].
  destruct (s32 r1 =? 0); [injection Hf as <- <-; apply set_R|]. etrans; [|by apply IH]. destruct (pkt_sent_cb p); [apply sent_R|done].
Qed.
Lemma queue_send_preserves fuel sender flags data cb s r s' : qemu_net_queue_send fuel sender flags data cb s = Ok (r, s') → R s s'.
Proof.
  unfold qemu_net_queue_send. split_if; intros Hs; [injection Hs as <- <-; apply append_preserves|].
  apply bind_Ok in Hs as ([r1 s1] & Hd & Hs). apply queue_deliver_preserves in Hd. etrans; [exact Hd|].
  destruct (r1 =? 0); [injection Hs as <- <-; apply append_preserves|]. apply bind_Ok in Hs as ([b s2] & Hf & He). injection He as <- <-. by eapply flush_preserves.
Qed.
Lemma append_iov_preserves sender flags iov cb s : R s (qemu_net_queue_append_iov sender flags iov cb s).
Proof. unfold qemu_net_queue_append_iov. by split_if. Qed.
Lemma queue_send_iov_preserves fuel sender flags iov cb s r s' : qemu_net_queue_send_iov fuel sender flags iov cb s = Ok (r, s') → R s s'.
Proof.
  unfold qemu_net_queue_send_iov. split_if; intros Hs; [injection Hs as <- <-; apply append_iov_preserves|].
  apply bind_Ok in Hs as ([r1 s1] & Hd & Hs). apply queue_deliver_iov_preserves in Hd. etrans; [exact Hd|].
  destruct (r1 =? 0); [injection Hs as <- <-; apply append_iov_preserves|]. apply bind_Ok in Hs as ([b s2] & Hf & He). injection He as <- <-. by eapply flush_preserves.
Qed.
End QueuePreserves.

Section ClientPreserves.
Context {S : Type} `{NetClient S} (R : relation S) `{!PreOrder R}.
Hypothesis disabled_R : ∀ b s, R s (set_receive_disabled b s).
Hypothesis receive_R : ∀ data s r s', nc_receive data s = Ok (r, s') → R s s'.
Hypothesis receive_raw_R : ∀ f data s r s', nc_receive_raw = Some f → f data s = Ok (r, s') → R s s'.
Hypothesis receive_iov_R : ∀ f iov s r s', nc_receive_iov = Some f → f iov s = Ok (r, s') → R s s'.

Lemma deliver_packet_preserves flags data s r s' : qemu_deliver_packet flags data s = Ok (r, s') → R s s'.
Proof.
  unfold qemu_deliver_packet. intros Hd. destruct (nc_link_down s); [by injection Hd as <- <-|]. destruct (nc_receive_disabled s); [by injection Hd as <- <-|].
  apply bind_Ok in Hd as ([r1 s1] & Hr & He). injection He as <- <-. transitivity s1; [|by destruct (r1 =? 0)].
  destruct nc_receive_raw as [f|] eqn:Ef; [|by eapply receive_R]. destruct (tst flags _); [by eapply receive_raw_R|by eapply receive_R].
Qed.
Lemma deliver_packet_iov_preserves flags iov s r s' : qemu_deliver_packet_iov flags iov s = Ok (r, s') → R s s'.
Proof.
  unfold qemu_deliver_packet_iov. intros Hd. destruct (nc_link_down s); [by injection Hd as <- <-|]. destruct (nc_receive_disabled s); [by injection Hd as <- <-|].
  apply bind_Ok in Hd as ([r1 s1] & Hr & He). injection He as <- <-. transitivity s1; [|by destruct (s32 r1 =? 0)].
  destruct nc_receive_iov as [f|] eqn:Ef; [by eapply receive_iov_R|]. unfold nc_sendv_compat in Hr. apply bind_Ok in Hr as (buf & _ & Hr). by eapply receive_R.
Qed.
End ClientPreserves.

(** ** A concrete receiver: takes [credit] packets, then refuses *)

Record Sink : Type := mkSink { sink_queue : NetQueue; credit : nat; taken : list (list Z) }.

Definition sink_take (data : list Z) (s : Sink) : res (Z * Sink) :=
  match credit s with
  | O => Ok (0, s)
  | S c => Ok (1, mkSink (sink_queue s) c (taken s ++ [data]))
  end.

#[export] Instance sink_port : NetPort Sink := {
  port_queue := sink_queue;
  set_port_queue q s := mkSink q (credit s) (taken s);
  deliver_packet _ _ data s := sink_take data s;
  deliver_packet_iov _ _ iov s := sink_take (concat iov) s;
  can_send_packet _ s := bool_decide (credit s ≠ 0%nat);
  packet_sent _ _ _ s := s;
}.

#[export] Instance sink_laws : NetPortLaws Sink.
Proof.
  split; try done.
  - intros ? ? data s ret s' Hd. cbn in *. unfold sink_take in Hd. destruct (credit s); by simplify_eq.
  - intros ? ? iov s ret s' Hd. cbn in *. unfold sink_take in Hd. destruct (credit s); by simplify_eq.
Qed.

Definition three_queued : Sink :=
  mkSink (mkQueue 10000 3 [mkPacket 1 0 [10] None; mkPacket 2 0 [20] (Some 7); mkPacket 1 0 [30] None]
            false) 2 [].

Lemma sink_total (sender flags : Z) (data : list Z) (s : Sink) :
  ∃ r, deliver_packet sender flags data s = Ok r.
Proof. cbn. unfold sink_take. destruct (credit s); eauto. Qed.

Lemma qemu_net_queue_flush_fifo_witness :
  ∃ b s', qemu_net_queue_flush (length (packets (port_queue three_queued))) three_queued = Ok (b, s') ∧
    (∃ k, packets (port_queue s') = drop k (packets (port_queue three_queued))) ∧
    (b = true ↔ packets (port_queue s') = []) ∧ queue_wf (port_queue s').
Proof.
  apply (qemu_net_queue_flush_fifo three_queued); [exact sink_total|reflexivity|reflexivity].
Defined.

Lemma qemu_net_queue_purge_exact_witness :
  packets (port_queue (qemu_net_queue_purge 1 three_queued)) =
    filter (λ p, pkt_sender p ≠ 1) (packets (port_queue three_queued)) ∧
  queue_wf (port_queue (qemu_net_queue_purge 1 three_queued)).
Proof. apply (qemu_net_queue_purge_exact 1 three_queued). reflexivity. Defined.

Lemma qemu_net_queue_send_refused_witness :
  ∃ s', qemu_net_queue_send 9 4 0 [40] None (mkSink qemu_new_net_queue 0 []) = Ok (0, s') ∧
    packets (port_queue s') = [mkPacket 4 0 [40] None].
Proof.
  destruct (qemu_net_queue_send_refused 9 4 0 [40] None (mkSink qemu_new_net_queue 0 [])) as (s' & H1 & H2).
  - right. reflexivity.
  - exists s'. split; [exact H1|]. rewrite H2. reflexivity.
Defined.

End NetQueue.
