(* ===== verification/Device.v ===== *)
(** The state of the emulated 82540EM (the [E1000State] of e1000.c), the network client it is
    attached to, and the interface to the services of the emulator the device calls (PCI bus
    mastering, interrupt pin, timers, clock, network peer).  A machine is the device, its
    client and the rest of the world; every function of e1000.c is a function on it.

    Arrays are [arr] (see the prelude); stores convert to the width of the cell.  The host is
    little-endian, as the builds of the repository are. *)

From S2P Require Import Prelude Regs Iov NetQueue.

(** ** Device state *)

(** [struct e1000_tx]. The C code relies on [vlan] and [data] being adjacent and sends from
    [vlan] across both, so they are one object: [vlan] at offset 0, [data] at offset 4. *)
Record e1000_tx : Type := mkTx {
  tp_header : arr;  (* unsigned char header[256] *)
  tp_vlan_header : arr;  (* unsigned char vlan_header[4] *)
  tp_vd : arr;  (* vlan[4] immediately followed by data[0x10000] *)
  tp_size : Z;
  tp_sum_needed : Z;
  tp_vlan_needed : bool;
  tp_ipcss : Z;
  tp_ipcso : Z;
  tp_ipcse : Z;
  tp_tucss : Z;
  tp_tucso : Z;
  tp_tucse : Z;
  tp_hdr_len : Z;
  tp_mss : Z;
  tp_paylen : Z;
  tp_tso_frames : Z;
  tp_tse : bool;
  tp_ip : bool;
  tp_tcp : bool;
  tp_cptse : bool;
}.

(** The serial EEPROM interface. *)
Record eecd : Type := mkEecd {
  val_in : Z;
  bitnum_in : Z;
  bitnum_out : Z;
  reading : bool;
  old_eecd : Z;
}.

(** [macaddr] is [conf.macaddr.a]. *)
Record E1000State : Type := mkE1000 {
  macaddr : list Z;
  mac_reg : arr;
  phy_reg : arr;
  eeprom_data : arr;
  rxbuf_size : Z;
  rxbuf_min_shift : Z;
  tx : e1000_tx;
  eecd_state : eecd;
  mit_timer_on : bool;
  mit_irq_level : bool;
  mit_ide : Z;
  compat_flags : Z;
}.

(** The client of the device: the fields of [NetClientState] that e1000.c and the functions it
    calls use. [peer_is_hubport]: the peer exists and is a hub port. *)
Record NetClientState : Type := mkNc {
  link_down : bool;
  receive_disabled : bool;
  model : string;
  info_str : string;
  incoming_queue : NetQueue.NetQueue;
  peer_is_hubport : bool;
}.

(** ** Field updates *)

Definition txs_header (x : arr) (r : e1000_tx) : e1000_tx :=
  mkTx x (tp_vlan_header r) (tp_vd r) (tp_size r) (tp_sum_needed r) (tp_vlan_needed r) (tp_ipcss r) (tp_ipcso r) (tp_ipcse r) (tp_tucss r) (tp_tucso r) (tp_tucse r) (tp_hdr_len r) (tp_mss r) (tp_paylen r) (tp_tso_frames r) (tp_tse r) (tp_ip r) (tp_tcp r) (tp_cptse r).
Definition txs_vlan_header (x : arr) (r : e1000_tx) : e1000_tx :=
  mkTx (tp_header r) x (tp_vd r) (tp_size r) (tp_sum_needed r) (tp_vlan_needed r) (tp_ipcss r) (tp_ipcso r) (tp_ipcse r) (tp_tucss r) (tp_tucso r) (tp_tucse r) (tp_hdr_len r) (tp_mss r) (tp_paylen r) (tp_tso_frames r) (tp_tse r) (tp_ip r) (tp_tcp r) (tp_cptse r).
Definition txs_vd (x : arr) (r : e1000_tx) : e1000_tx :=
  mkTx (tp_header r) (tp_vlan_header r) x (tp_size r) (tp_sum_needed r) (tp_vlan_needed r) (tp_ipcss r) (tp_ipcso r) (tp_ipcse r) (tp_tucss r) (tp_tucso r) (tp_tucse r) (tp_hdr_len r) (tp_mss r) (tp_paylen r) (tp_tso_frames r) (tp_tse r) (tp_ip r) (tp_tcp r) (tp_cptse r).
Definition txs_size (x : Z) (r : e1000_tx) : e1000_tx :=
  mkTx (tp_header r) (tp_vlan_header r) (tp_vd r) x (tp_sum_needed r) (tp_vlan_needed r) (tp_ipcss r) (tp_ipcso r) (tp_ipcse r) (tp_tucss r) (tp_tucso r) (tp_tucse r) (tp_hdr_len r) (tp_mss r) (tp_paylen r) (tp_tso_frames r) (tp_tse r) (tp_ip r) (tp_tcp r) (tp_cptse r).
Definition txs_sum_needed (x : Z) (r : e1000_tx) : e1000_tx :=
  mkTx (tp_header r) (tp_vlan_header r) (tp_vd r) (tp_size r) x (tp_vlan_needed r) (tp_ipcss r) (tp_ipcso r) (tp_ipcse r) (tp_tucss r) (tp_tucso r) (tp_tucse r) (tp_hdr_len r) (tp_mss r) (tp_paylen r) (tp_tso_frames r) (tp_tse r) (tp_ip r) (tp_tcp r) (tp_cptse r).
Definition txs_vlan_needed (x : bool) (r : e1000_tx) : e1000_tx :=
  mkTx (tp_header r) (tp_vlan_header r) (tp_vd r) (tp_size r) (tp_sum_needed r) x (tp_ipcss r) (tp_ipcso r) (tp_ipcse r) (tp_tucss r) (tp_tucso r) (tp_tucse r) (tp_hdr_len r) (tp_mss r) (tp_paylen r) (tp_tso_frames r) (tp_tse r) (tp_ip r) (tp_tcp r) (tp_cptse r).
Definition txs_ipcss (x : Z) (r : e1000_tx) : e1000_tx :=
  mkTx (tp_header r) (tp_vlan_header r) (tp_vd r) (tp_size r) (tp_sum_needed r) (tp_vlan_needed r) x (tp_ipcso r) (tp_ipcse r) (tp_tucss r) (tp_tucso r) (tp_tucse r) (tp_hdr_len r) (tp_mss r) (tp_paylen r) (tp_tso_frames r) (tp_tse r) (tp_ip r) (tp_tcp r) (tp_cptse r).
Definition txs_ipcso (x : Z) (r : e1000_tx) : e1000_tx :=
  mkTx (tp_header r) (tp_vlan_header r) (tp_vd r) (tp_size r) (tp_sum_needed r) (tp_vlan_needed r) (tp_ipcss r) x (tp_ipcse r) (tp_tucss r) (tp_tucso r) (tp_tucse r) (tp_hdr_len r) (tp_mss r) (tp_paylen r) (tp_tso_frames r) (tp_tse r) (tp_ip r) (tp_tcp r) (tp_cptse r).
Definition txs_ipcse (x : Z) (r : e1000_tx) : e1000_tx :=
  mkTx (tp_header r) (tp_vlan_header r) (tp_vd r) (tp_size r) (tp_sum_needed r) (tp_vlan_needed r) (tp_ipcss r) (tp_ipcso r) x (tp_tucss r) (tp_tucso r) (tp_tucse r) (tp_hdr_len r) (tp_mss r) (tp_paylen r) (tp_tso_frames r) (tp_tse r) (tp_ip r) (tp_tcp r) (tp_cptse r).
Definition txs_tucss (x : Z) (r : e1000_tx) : e1000_tx :=
  mkTx (tp_header r) (tp_vlan_header r) (tp_vd r) (tp_size r) (tp_sum_needed r) (tp_vlan_needed r) (tp_ipcss r) (tp_ipcso r) (tp_ipcse r) x (tp_tucso r) (tp_tucse r) (tp_hdr_len r) (tp_mss r) (tp_paylen r) (tp_tso_frames r) (tp_tse r) (tp_ip r) (tp_tcp r) (tp_cptse r).
Definition txs_tucso (x : Z) (r : e1000_tx) : e1000_tx :=
  mkTx (tp_header r) (tp_vlan_header r) (tp_vd r) (tp_size r) (tp_sum_needed r) (tp_vlan_needed r) (tp_ipcss r) (tp_ipcso r) (tp_ipcse r) (tp_tucss r) x (tp_tucse r) (tp_hdr_len r) (tp_mss r) (tp_paylen r) (tp_tso_frames r) (tp_tse r) (tp_ip r) (tp_tcp r) (tp_cptse r).
Definition txs_tucse (x : Z) (r : e1000_tx) : e1000_tx :=
  mkTx (tp_header r) (tp_vlan_header r) (tp_vd r) (tp_size r) (tp_sum_needed r) (tp_vlan_needed r) (tp_ipcss r) (tp_ipcso r) (tp_ipcse r) (tp_tucss r) (tp_tucso r) x (tp_hdr_len r) (tp_mss r) (tp_paylen r) (tp_tso_frames r) (tp_tse r) (tp_ip r) (tp_tcp r) (tp_cptse r).
Definition txs_hdr_len (x : Z) (r : e1000_tx) : e1000_tx :=
  mkTx (tp_header r) (tp_vlan_header r) (tp_vd r) (tp_size r) (tp_sum_needed r) (tp_vlan_needed r) (tp_ipcss r) (tp_ipcso r) (tp_ipcse r) (tp_tucss r) (tp_tucso r) (tp_tucse r) x (tp_mss r) (tp_paylen r) (tp_tso_frames r) (tp_tse r) (tp_ip r) (tp_tcp r) (tp_cptse r).
Definition txs_mss (x : Z) (r : e1000_tx) : e1000_tx :=
  mkTx (tp_header r) (tp_vlan_header r) (tp_vd r) (tp_size r) (tp_sum_needed r) (tp_vlan_needed r) (tp_ipcss r) (tp_ipcso r) (tp_ipcse r) (tp_tucss r) (tp_tucso r) (tp_tucse r) (tp_hdr_len r) x (tp_paylen r) (tp_tso_frames r) (tp_tse r) (tp_ip r) (tp_tcp r) (tp_cptse r).
Definition txs_paylen (x : Z) (r : e1000_tx) : e1000_tx :=
  mkTx (tp_header r) (tp_vlan_header r) (tp_vd r) (tp_size r) (tp_sum_needed r) (tp_vlan_needed r) (tp_ipcss r) (tp_ipcso r) (tp_ipcse r) (tp_tucss r) (tp_tucso r) (tp_tucse r) (tp_hdr_len r) (tp_mss r) x (tp_tso_frames r) (tp_tse r) (tp_ip r) (tp_tcp r) (tp_cptse r).
Definition txs_tso_frames (x : Z) (r : e1000_tx) : e1000_tx :=
  mkTx (tp_header r) (tp_vlan_header r) (tp_vd r) (tp_size r) (tp_sum_needed r) (tp_vlan_needed r) (tp_ipcss r) (tp_ipcso r) (tp_ipcse r) (tp_tucss r) (tp_tucso r) (tp_tucse r) (tp_hdr_len r) (tp_mss r) (tp_paylen r) x (tp_tse r) (tp_ip r) (tp_tcp r) (tp_cptse r).
Definition txs_tse (x : bool) (r : e1000_tx) : e1000_tx :=
  mkTx (tp_header r) (tp_vlan_header r) (tp_vd r) (tp_size r) (tp_sum_needed r) (tp_vlan_needed r) (tp_ipcss r) (tp_ipcso r) (tp_ipcse r) (tp_tucss r) (tp_tucso r) (tp_tucse r) (tp_hdr_len r) (tp_mss r) (tp_paylen r) (tp_tso_frames r) x (tp_ip r) (tp_tcp r) (tp_cptse r).
Definition txs_ip (x : bool) (r : e1000_tx) : e1000_tx :=
  mkTx (tp_header r) (tp_vlan_header r) (tp_vd r) (tp_size r) (tp_sum_needed r) (tp_vlan_needed r) (tp_ipcss r) (tp_ipcso r) (tp_ipcse r) (tp_tucss r) (tp_tucso r) (tp_tucse r) (tp_hdr_len r) (tp_mss r) (tp_paylen r) (tp_tso_frames r) (tp_tse r) x (tp_tcp r) (tp_cptse r).
Definition txs_tcp (x : bool) (r : e1000_tx) : e1000_tx :=
  mkTx (tp_header r) (tp_vlan_header r) (tp_vd r) (tp_size r) (tp_sum_needed r) (tp_vlan_needed r) (tp_ipcss r) (tp_ipcso r) (tp_ipcse r) (tp_tucss r) (tp_tucso r) (tp_tucse r) (tp_hdr_len r) (tp_mss r) (tp_paylen r) (tp_tso_frames r) (tp_tse r) (tp_ip r) x (tp_cptse r).
Definition txs_cptse (x : bool) (r : e1000_tx) : e1000_tx :=
  mkTx (tp_header r) (tp_vlan_header r) (tp_vd r) (tp_size r) (tp_sum_needed r) (tp_vlan_needed r) (tp_ipcss r) (tp_ipcso r) (tp_ipcse r) (tp_tucss r) (tp_tucso r) (tp_tucse r) (tp_hdr_len r) (tp_mss r) (tp_paylen r) (tp_tso_frames r) (tp_tse r) (tp_ip r) (tp_tcp r) x.

Definition ees_val_in (x : Z) (r : eecd) : eecd :=
  mkEecd x (bitnum_in r) (bitnum_out r) (reading r) (old_eecd r).
Definition ees_bitnum_in (x : Z) (r : eecd) : eecd :=
  mkEecd (val_in r) x (bitnum_out r) (reading r) (old_eecd r).
Definition ees_bitnum_out (x : Z) (r : eecd) : eecd :=
  mkEecd (val_in r) (bitnum_in r) x (reading r) (old_eecd r).
Definition ees_reading (x : bool) (r : eecd) : eecd :=
  mkEecd (val_in r) (bitnum_in r) (bitnum_out r) x (old_eecd r).
Definition ees_old_eecd (x : Z) (r : eecd) : eecd :=
  mkEecd (val_in r) (bitnum_in r) (bitnum_out r) (reading r) x.

Definition set_macaddr (x : list Z) (r : E1000State) : E1000State :=
  mkE1000 x (mac_reg r) (phy_reg r) (eeprom_data r) (rxbuf_size r) (rxbuf_min_shift r) (tx r) (eecd_state r) (mit_timer_on r) (mit_irq_level r) (mit_ide r) (compat_flags r).
Definition set_mac_reg (x : arr) (r : E1000State) : E1000State :=
  mkE1000 (macaddr r) x (phy_reg r) (eeprom_data r) (rxbuf_size r) (rxbuf_min_shift r) (tx r) (eecd_state r) (mit_timer_on r) (mit_irq_level r) (mit_ide r) (compat_flags r).
Definition set_phy_reg (x : arr) (r : E1000State) : E1000State :=
  mkE1000 (macaddr r) (mac_reg r) x (eeprom_data r) (rxbuf_size r) (rxbuf_min_shift r) (tx r) (eecd_state r) (mit_timer_on r) (mit_irq_level r) (mit_ide r) (compat_flags r).
Definition set_eeprom_data (x : arr) (r : E1000State) : E1000State :=
  mkE1000 (macaddr r) (mac_reg r) (phy_reg r) x (rxbuf_size r) (rxbuf_min_shift r) (tx r) (eecd_state r) (mit_timer_on r) (mit_irq_level r) (mit_ide r) (compat_flags r).
Definition set_rxbuf_size (x : Z) (r : E1000State) : E1000State :=
  mkE1000 (macaddr r) (mac_reg r) (phy_reg r) (eeprom_data r) x (rxbuf_min_shift r) (tx r) (eecd_state r) (mit_timer_on r) (mit_irq_level r) (mit_ide r) (compat_flags r).
Definition set_rxbuf_min_shift (x : Z) (r : E1000State) : E1000State :=
  mkE1000 (macaddr r) (mac_reg r) (phy_reg r) (eeprom_data r) (rxbuf_size r) x (tx r) (eecd_state r) (mit_timer_on r) (mit_irq_level r) (mit_ide r) (compat_flags r).
Definition set_tx (x : e1000_tx) (r : E1000State) : E1000State :=
  mkE1000 (macaddr r) (mac_reg r) (phy_reg r) (eeprom_data r) (rxbuf_size r) (rxbuf_min_shift r) x (eecd_state r) (mit_timer_on r) (mit_irq_level r) (mit_ide r) (compat_flags r).
Definition set_eecd_state (x : eecd) (r : E1000State) : E1000State :=
  mkE1000 (macaddr r) (mac_reg r) (phy_reg r) (eeprom_data r) (rxbuf_size r) (rxbuf_min_shift r) (tx r) x (mit_timer_on r) (mit_irq_level r) (mit_ide r) (compat_flags r).
Definition set_mit_timer_on (x : bool) (r : E1000State) : E1000State :=
  mkE1000 (macaddr r) (mac_reg r) (phy_reg r) (eeprom_data r) (rxbuf_size r) (rxbuf_min_shift r) (tx r) (eecd_state r) x (mit_irq_level r) (mit_ide r) (compat_flags r).
Definition set_mit_irq_level (x : bool) (r : E1000State) : E1000State :=
  mkE1000 (macaddr r) (mac_reg r) (phy_reg r) (eeprom_data r) (rxbuf_size r) (rxbuf_min_shift r) (tx r) (eecd_state r) (mit_timer_on r) x (mit_ide r) (compat_flags r).
Definition set_mit_ide (x : Z) (r : E1000State) : E1000State :=
  mkE1000 (macaddr r) (mac_reg r) (phy_reg r) (eeprom_data r) (rxbuf_size r) (rxbuf_min_shift r) (tx r) (eecd_state r) (mit_timer_on r) (mit_irq_level r) x (compat_flags r).
Definition set_compat_flags (x : Z) (r : E1000State) : E1000State :=
  mkE1000 (macaddr r) (mac_reg r) (phy_reg r) (eeprom_data r) (rxbuf_size r) (rxbuf_min_shift r) (tx r) (eecd_state r) (mit_timer_on r) (mit_irq_level r) (mit_ide r) x.

Definition ncs_link_down (x : bool) (r : NetClientState) : NetClientState :=
  mkNc x (receive_disabled r) (model r) (info_str r) (incoming_queue r) (peer_is_hubport r).
Definition ncs_receive_disabled (x : bool) (r : NetClientState) : NetClientState :=
  mkNc (link_down r) x (model r) (info_str r) (incoming_queue r) (peer_is_hubport r).
Definition ncs_model (x : string) (r : NetClientState) : NetClientState :=
  mkNc (link_down r) (receive_disabled r) x (info_str r) (incoming_queue r) (peer_is_hubport r).
Definition ncs_info_str (x : string) (r : NetClientState) : NetClientState :=
  mkNc (link_down r) (receive_disabled r) (model r) x (incoming_queue r) (peer_is_hubport r).
Definition ncs_incoming_queue (x : NetQueue.NetQueue) (r : NetClientState) : NetClientState :=
  mkNc (link_down r) (receive_disabled r) (model r) (info_str r) x (peer_is_hubport r).
Definition ncs_peer_is_hubport (x : bool) (r : NetClientState) : NetClientState :=
  mkNc (link_down r) (receive_disabled r) (model r) (info_str r) (incoming_queue r) x.

(** ** Sizes of the arrays *)

Definition MAC_REGS : Z := 0x8000.
Definition PHY_REGS : Z := 0x20.
Definition EEPROM_WORDS : Z := 64.
Definition TX_HEADER : Z := 256.
Definition TX_DATA : Z := 0x10000.
Definition TX_VD : Z := 4 + TX_DATA.

(** Register access; a store converts to the cell's type. *)
Definition reg (d : E1000State) (i : Z) : Z := aget (mac_reg d) i.
Definition set_reg (i v : Z) (d : E1000State) : E1000State :=
  set_mac_reg (aset (mac_reg d) i (u32 v)) d.
Definition phy (d : E1000State) (i : Z) : Z := aget (phy_reg d) i.
Definition set_phy (i v : Z) (d : E1000State) : E1000State :=
  set_phy_reg (aset (phy_reg d) i (u16 v)) d.

(** ** The emulator's services *)

Inductive timer : Type := AutonegTimer | MitTimer.

#[global] Instance timer_eq_dec : EqDecision timer.
Proof. solve_decision. Defined.

(** The rest of the world: what e1000.c calls outside itself.  [pci_dma_read a buf w] fills a
    buffer whose present contents are [buf]; [stack_bytes n] are the indeterminate contents
    of an uninitialised local of [n] bytes. *)
Class DeviceEnv (W : Type) : Type := {
  pci_dma_read : Z → list Z → W → list Z * W;
  pci_dma_write : Z → list Z → W → W;
  pci_set_irq : bool → W → W;
  timer_mod : timer → Z → W → W;
  timer_del : timer → W → W;
  qemu_clock_get_ns : W → Z;
  qemu_clock_get_ms : W → Z;
  net_send : list Z → W → W;               (* qemu_send_packet on the device's client *)
  net_hub_flush : W → bool * W;            (* net_hub_flush(nc->peer) *)
  qemu_notify_event : W → W;
  packet_sent_cb : Z → Z → Z → W → W;      (* a queued packet's sent callback *)
  stack_bytes : nat → list Z;
}.

(** What the device relies on: a DMA read fills the buffer with as many bytes as it has. *)
Class DeviceEnvLaws (W : Type) `{DeviceEnv W} : Prop := {
  dma_read_length : ∀ a buf w, length (fst (pci_dma_read a buf w)) = length buf;
  dma_read_bytes : ∀ a buf w, Forall (fits 8) buf → Forall (fits 8) (fst (pci_dma_read a buf w));
  stack_length : ∀ n, length (stack_bytes n) = n;
  stack_fits : ∀ n, Forall (fits 8) (stack_bytes n);
}.

(** A world whose DMA is a byte-addressed memory. *)
Class DmaMemory (W : Type) `{DeviceEnv W} : Type := {
  guest : W → Z → Z;
  guest_read : ∀ a buf w, pci_dma_read a buf w =
    ((λ i, guest w (a + Z.of_nat i)) <$> seq 0 (length buf), w);
  guest_write : ∀ a l w x, Forall (fits 8) l → guest (pci_dma_write a l w) x =
    if (a <=? x) && (x <? a + Z.of_nat (length l)) then nth (Z.to_nat (x - a)) l 0 else guest w x;
  guest_irq : ∀ b w x, guest (pci_set_irq b w) x = guest w x;
  guest_timer : ∀ t e w x, guest (timer_mod t e w) x = guest w x;
  guest_send : ∀ l w x, guest (net_send l w) x = guest w x;
}.

(** A world whose interrupt pin can be observed. *)
Class IrqPin (W : Type) `{DeviceEnv W} : Type := {
  irq_line : W → bool;
  irq_line_set : ∀ b w, irq_line (pci_set_irq b w) = b;
  irq_line_read : ∀ a l w, irq_line (snd (pci_dma_read a l w)) = irq_line w;
  irq_line_write : ∀ a l w, irq_line (pci_dma_write a l w) = irq_line w;
  irq_line_timer : ∀ t e w, irq_line (timer_mod t e w) = irq_line w;
  irq_line_del : ∀ t w, irq_line (timer_del t w) = irq_line w;
  irq_line_send : ∀ l w, irq_line (net_send l w) = irq_line w;
  irq_line_hub : ∀ w, irq_line (snd (net_hub_flush w)) = irq_line w;
  irq_line_notify : ∀ w, irq_line (qemu_notify_event w) = irq_line w;
  irq_line_sent : ∀ a b c w, irq_line (packet_sent_cb a b c w) = irq_line w;
}.

(** A world that keeps timers: [timer_inv] holds of it at all times, [armed t w] says that
    timer [t] is set to fire.  Setting a timer arms it, and only [timer_del] disarms one (a timer
    that fires is taken off by the loop that runs it). *)
Definition timers_kept {W} (inv : W → Prop) (armed : timer → W → Prop) (w w' : W) : Prop :=
  inv w → inv w' ∧ ∀ t, armed t w → armed t w'.
Class TimerWorld (W : Type) `{DeviceEnv W} : Type := {
  timer_inv : W → Prop;
  armed : timer → W → Prop;
  armed_mod : ∀ t e w, timer_inv w → armed t (timer_mod t e w);
  timers_mod : ∀ t e w, timers_kept timer_inv armed w (timer_mod t e w);
  timers_del : ∀ t w, timer_inv w → timer_inv (timer_del t w);
  timers_read : ∀ a l w, timers_kept timer_inv armed w (snd (pci_dma_read a l w));
  timers_write : ∀ a l w, timers_kept timer_inv armed w (pci_dma_write a l w);
  timers_irq : ∀ b w, timers_kept timer_inv armed w (pci_set_irq b w);
  timers_send : ∀ l w, timers_kept timer_inv armed w (net_send l w);
  timers_hub : ∀ w, timers_kept timer_inv armed w (snd (net_hub_flush w));
  timers_notify : ∀ w, timers_kept timer_inv armed w (qemu_notify_event w);
  timers_sent : ∀ a b c w, timers_kept timer_inv armed w (packet_sent_cb a b c w);
}.

(** ** Machines *)

Record Machine (W : Type) : Type := mkMachine {
  dev : E1000State;
  nc : NetClientState;
  world : W;
}.
Arguments mkMachine {_} dev nc world.
Arguments dev {_} m.
Arguments nc {_} m.
Arguments world {_} m.

Section Machine.
Context {W : Type}.
Implicit Types m : Machine W.

Definition with_dev (d : E1000State) m : Machine W := mkMachine d (nc m) (world m).
Definition upd_dev (f : E1000State → E1000State) m : Machine W := with_dev (f (dev m)) m.
Definition upd_nc (f : NetClientState → NetClientState) m : Machine W :=
  mkMachine (dev m) (f (nc m)) (world m).
Definition upd_world (f : W → W) m : Machine W := mkMachine (dev m) (nc m) (f (world m)).

(** [s->mac_reg[i]], [s->mac_reg[i] = v] and the same for [phy_reg]. *)
Definition rd m (i : Z) : Z := reg (dev m) i.
Definition wr (i v : Z) m : Machine W := upd_dev (set_reg i v) m.
Definition rd_phy m (i : Z) : Z := phy (dev m) i.
Definition wr_phy (i v : Z) m : Machine W := upd_dev (set_phy i v) m.
End Machine.

(** The flag [mit_timer_on] means what it says: while it is set the mitigation timer is armed. *)
Definition timer_linked {W} `{TimerWorld W} (s : Machine W) : Prop :=
  timer_inv (world s) ∧ (mit_timer_on (dev s) = true → armed MitTimer (world s)).

(** ** Well-formed devices: every field is a value of its C type *)

Record tx_wf (t : e1000_tx) : Prop := {
  tx_wf_header : afits 8 (tp_header t);
  tx_wf_vlan_header : afits 8 (tp_vlan_header t);
  tx_wf_vd : afits 8 (tp_vd t);
  tx_wf_size : fits 16 (tp_size t);
  tx_wf_sum : fits 8 (tp_sum_needed t);
  tx_wf_ipcss : fits 8 (tp_ipcss t);
  tx_wf_ipcso : fits 8 (tp_ipcso t);
  tx_wf_ipcse : fits 16 (tp_ipcse t);
  tx_wf_tucss : fits 8 (tp_tucss t);
  tx_wf_tucso : fits 8 (tp_tucso t);
  tx_wf_tucse : fits 16 (tp_tucse t);
  tx_wf_hdr : fits 8 (tp_hdr_len t);
  tx_wf_mss : fits 16 (tp_mss t);
  tx_wf_paylen : fits 32 (tp_paylen t);
  tx_wf_frames : fits 16 (tp_tso_frames t);
}.

Record dev_wf (d : E1000State) : Prop := {
  wf_mac : afits 32 (mac_reg d);
  wf_phy : afits 16 (phy_reg d);
  wf_eeprom : afits 16 (eeprom_data d);
  wf_tx : tx_wf (tx d);
  wf_macaddr : Forall (fits 8) (macaddr d) ∧ length (macaddr d) = 6%nat;
}.

(** ** Register-file lemmas *)

Section RegLemmas.
Implicit Types d : E1000State.

Lemma reg_set_eq d i v : reg (set_reg i v d) i = u32 v.
Proof. unfold reg. cbn. apply aget_aset_eq. Qed.
Lemma reg_set_ne d i j v : i ≠ j → reg (set_reg i v d) j = reg d j.
Proof. intros. unfold reg. cbn. by apply aget_aset_ne. Qed.
Lemma reg_set_phy d i v j : reg (set_phy i v d) j = reg d j.
Proof. done. Qed.
Lemma phy_set_reg d i v j : phy (set_reg i v d) j = phy d j.
Proof. done. Qed.
Lemma phy_set_eq d i v : phy (set_phy i v d) i = u16 v.
Proof. unfold phy. cbn. apply aget_aset_eq. Qed.
Lemma phy_set_ne d i j v : i ≠ j → phy (set_phy i v d) j = phy d j.
Proof. intros. unfold phy. cbn. by apply aget_aset_ne. Qed.
Lemma reg_fits d i : dev_wf d → fits 32 (reg d i).
Proof. intros []. apply wf_mac0. Qed.
Lemma phy_fits d i : dev_wf d → fits 16 (phy d i).
Proof. intros []. apply wf_phy0. Qed.
Lemma set_reg_wf d i v : dev_wf d → dev_wf (set_reg i v d).
Proof. intros []. split; cbn; auto with width. Qed.
Lemma set_phy_wf d i v : dev_wf d → dev_wf (set_phy i v d).
Proof. intros []. split; cbn; auto with width. Qed.
Lemma set_tx_wf d t : dev_wf d → tx_wf t → dev_wf (set_tx t d).
Proof. intros [] ?. split; cbn; auto. Qed.
End RegLemmas.

Section MachineLemmas.
Context {W : Type}.
Implicit Types m : Machine W.

Lemma rd_wr_eq m i v : rd (wr i v m) i = u32 v.
Proof. apply reg_set_eq. Qed.
Lemma rd_wr_ne m i j v : i ≠ j → rd (wr i v m) j = rd m j.
Proof. apply reg_set_ne. Qed.
Lemma rd_wr_phy m i j v : rd (wr_phy i v m) j = rd m j.
Proof. done. Qed.
Lemma rd_phy_wr m i j v : rd_phy (wr i v m) j = rd_phy m j.
Proof. done. Qed.
Lemma rd_phy_wr_eq m i v : rd_phy (wr_phy i v m) i = u16 v.
Proof. apply phy_set_eq. Qed.
Lemma rd_phy_wr_ne m i j v : i ≠ j → rd_phy (wr_phy i v m) j = rd_phy m j.
Proof. apply phy_set_ne. Qed.
Lemma rd_world m f i : rd (upd_world f m) i = rd m i.
Proof. done. Qed.
Lemma rd_nc m f i : rd (upd_nc f m) i = rd m i.
Proof. done. Qed.
Lemma dev_world m f : dev (upd_world f m) = dev m.
Proof. done. Qed.
Lemma dev_nc m f : dev (upd_nc f m) = dev m.
Proof. done. Qed.
Lemma wr_wf m i v : dev_wf (dev m) → dev_wf (dev (wr i v m)).
Proof. apply set_reg_wf. Qed.
Lemma wr_phy_wf m i v : dev_wf (dev m) → dev_wf (dev (wr_phy i v m)).
Proof. apply set_phy_wf. Qed.
End MachineLemmas.

(** Registers with different names are different cells. *)
Ltac neq_reg := first [done | (vm_compute; congruence)].

Create Rewrite HintDb regs.
#[export] Hint Rewrite @rd_wr_eq @rd_wr_phy @rd_phy_wr @rd_phy_wr_eq @rd_world @rd_nc @dev_world
  @dev_nc reg_set_eq reg_set_phy phy_set_reg phy_set_eq : regs.
#[export] Hint Rewrite @rd_wr_ne @rd_phy_wr_ne reg_set_ne phy_set_ne using neq_reg : regs.
#[export] Hint Resolve reg_fits phy_fits set_reg_wf set_phy_wf set_tx_wf wr_wf wr_phy_wf : width.

Ltac regs := autorewrite with regs.

(** ** Worlds that differ by bus mastering only *)

Section Dma.
Context {W : Type} `{DeviceEnv W}.

Inductive dma_only : W → W → Prop :=
| dma_refl w : dma_only w w
| dma_read a buf w w' : dma_only (snd (pci_dma_read a buf w)) w' → dma_only w w'
| dma_write a l w w' : dma_only (pci_dma_write a l w) w' → dma_only w w'.

Lemma dma_trans w1 w2 w3 : dma_only w1 w2 → dma_only w2 w3 → dma_only w1 w3.
Proof. induction 1; eauto using dma_only. Qed.

Lemma dma_irq_line `{!IrqPin W} w w' : dma_only w w' → irq_line w' = irq_line w.
Proof. induction 1; [done|..]; by rewrite IHdma_only, ?irq_line_read, ?irq_line_write. Qed.

Lemma kept_trans (inv : W → Prop) (ar : timer → W → Prop) w1 w2 w3 :
  timers_kept inv ar w1 w2 → timers_kept inv ar w2 w3 → timers_kept inv ar w1 w3.
Proof. intros H1 H2 Hi. destruct (H1 Hi) as [Hi2 Ha2], (H2 Hi2) as [Hi3 Ha3]. eauto. Qed.

Lemma dma_timers `{!TimerWorld W} w w' : dma_only w w' → timers_kept timer_inv armed w w'.
Proof. induction 1; [done|..]; (eapply kept_trans; [|eassumption]); [apply timers_read|apply timers_write]. Qed.

(** A change of the world that keeps the timers keeps the link. *)
Lemma linked_kept `{!TimerWorld W} d n w (s : Machine W) :
  timers_kept timer_inv armed (world s) w → mit_timer_on d = mit_timer_on (dev s) →
  timer_linked s → timer_linked (mkMachine d n w).
Proof. intros Hk Hd [Hi Ha]. destruct (Hk Hi) as [Hi' Ha']. split; cbn; [done|]. rewrite Hd. auto. Qed.

(** Consecutive blocks written from address [ba]. *)
Fixpoint write_chunks (ba : Z) (cs : list (list Z)) (w : W) : W :=
  match cs with
  | [] => w
  | c :: cs => write_chunks (u64 (ba + Z.of_nat (length c))) cs (pci_dma_write ba c w)
  end.

Lemma write_chunks_dma ba cs w : dma_only w (write_chunks ba cs w).
Proof. revert ba w. induction cs; intros; cbn; eauto using dma_only. Qed.

(** They store their concatenation. *)
Lemma guest_write_chunks `{!DmaMemory W} ba cs w x :
  Forall (fits 8) (concat cs) → 0 ≤ ba → ba + Z.of_nat (length (concat cs)) < 2 ^ 64 →
  guest (write_chunks ba cs w) x =
  if (ba <=? x) && (x <? ba + Z.of_nat (length (concat cs)))
  then nth (Z.to_nat (x - ba)) (concat cs) 0 else guest w x.
Proof.
  revert ba w. induction cs as [|c cs IH]; intros ba w Hf Hb Hlt; cbn.
  - rewrite Z.add_0_r. destruct (ba <=? x) eqn:?, (x <? ba) eqn:?; bool_hyps; try done; lia.
  - cbn in Hf, Hlt. rewrite length_app, Nat2Z.inj_add in *. apply Forall_app in Hf as [Hc Hcs].
    rewrite (u64_small (ba + _)) by (split; lia).
    rewrite IH, guest_write by (done || lia).
    destruct (Z.leb_spec ba x), (Z.leb_spec (ba + Z.of_nat (length c)) x),
      (Z.ltb_spec x (ba + Z.of_nat (length c))), (Z.ltb_spec x (ba + Z.of_nat (length c) + Z.of_nat (length (concat cs)))),
      (Z.ltb_spec x (ba + (Z.of_nat (length c) + Z.of_nat (length (concat cs))))); cbn; try lia; try done.
    + rewrite app_nth2 by lia. f_equal. lia.
    + rewrite app_nth1 by lia. done.
Qed.
End Dma.

#[export] Hint Constructors dma_only : width.

(** ** Descriptor rings *)

(** The index after [i] in a ring of [len] bytes of 16-byte descriptors, as the code advances
    RDH and TDH. *)
Definition ring_next (len i : Z) : Z := if len <=? u32 (i + 1) * 16 then 0 else u32 (i + 1).

(** [i] is an index of the ring (index 0 also when the ring is empty). *)
Definition in_ring (len i : Z) : Prop := i = 0 ∨ (0 ≤ i ∧ i * 16 < len).

(** Steps from [i] to the next visit of [start]. *)
Definition ring_dist (len start i : Z) : Z :=
  if i <? start then start - i else Z.max 1 ((len + 15) / 16) - i + start.

Lemma ring_next_step len start i :
  fits 32 len → in_ring len start → in_ring len i →
  in_ring len (ring_next len i) ∧ 1 ≤ ring_dist len start i ∧
  (ring_next len i ≠ start → ring_dist len start (ring_next len i) = ring_dist len start i - 1).
Proof.
  intros Hl Hs Hi. unfold fits in Hl. unfold in_ring in Hs, Hi. unfold ring_next, ring_dist, in_ring.
  rewrite u32_small by (split; lia).
  pose proof (Z.div_mod (len + 15) 16 ltac:(lia)). pose proof (Z.mod_pos_bound (len + 15) 16 ltac:(lia)).
  destruct (Z.leb_spec len ((i + 1) * 16)), (Z.ltb_spec i start); try lia.
  - destruct (Z.ltb_spec 0 start); lia.
  - destruct (Z.ltb_spec (i + 1) start); lia.
  - destruct (Z.ltb_spec (i + 1) start); lia.
Qed.

Lemma ring_dist_bound len start i :
  fits 20 len → in_ring len start → in_ring len i → ring_dist len start i ≤ 65536.
Proof.
  intros Hl Hs Hi. unfold fits in Hl. unfold in_ring in Hs, Hi. unfold ring_dist.
  pose proof (Z.div_mod (len + 15) 16 ltac:(lia)). pose proof (Z.mod_pos_bound (len + 15) 16 ltac:(lia)).
  destruct (Z.ltb_spec i start); lia.
Qed.

Lemma set_reg_set_reg i v v' d : set_reg i v (set_reg i v' d) = set_reg i v d.
Proof. unfold set_reg, set_mac_reg, aset. cbn. by rewrite insert_insert_eq. Qed.

(** Advancing always lands in the ring. *)
Lemma ring_next_in_ring len i : in_ring len (ring_next len i).
Proof.
  unfold in_ring, ring_next. split_if; bool_hyps; [by left|right].
  pose proof (u32_fits (i + 1)) as Hf. unfold fits in Hf. lia.
Qed.
Lemma ring_next_fits len i : fits 32 (ring_next len i).
Proof. unfold ring_next. split_if; auto with width. Qed.
Lemma in_ring_fits16 len i : len < 2 ^ 20 → in_ring len i → fits 16 i.
Proof. unfold in_ring, fits. lia. Qed.

(** A ring's head register [H] (its length in register [L]) stays where it is or lands in the ring. *)
Definition head_moved {W} (L H : Z) (s s' : Machine W) : Prop :=
  rd s' H = rd s H ∨ in_ring (rd s' L) (rd s' H).

Lemma head_moved_refl {W} L H (s : Machine W) : head_moved L H s s.
Proof. by left. Qed.
Lemma head_moved_trans {W} L H (s1 s2 s3 : Machine W) :
  rd s3 L = rd s2 L → head_moved L H s1 s2 → head_moved L H s2 s3 → head_moved L H s1 s3.
Proof. unfold head_moved. intros E [H1|H1] [H2|H2]; rewrite ?E, ?H2 in *; auto. Qed.
Lemma head_moved_ring {W} L H (s s' : Machine W) :
  rd s' L = rd s L → head_moved L H s s' → in_ring (rd s L) (rd s H) → in_ring (rd s' L) (rd s' H).
Proof. unfold head_moved. intros E [H1|H1] Hi; [by rewrite E, H1|done]. Qed.
