(* ===== verification/Board.v ===== *)
(** A concrete board for the device: a byte-addressed memory behind the bus, an interrupt pin,
    the deadlines of the two timers, a clock, and the frames handed to the network.  It
    satisfies the laws the device relies on ([DeviceEnvLaws], [DmaMemory], [IrqPin]), so the
    theorems stated against those interfaces apply to it. *)

From S2P Require Import Prelude Regs Iov NetQueue Device.

Record Board : Type := mkBoard {
  b_mem : arr;
  b_irq : bool;
  b_deadline : timer → option Z;
  b_clock : Z;                     (* nanoseconds *)
  b_sent : list (list Z);
}.

Definition b_read (a : Z) (n : nat) (w : Board) : list Z :=
  (λ i, u8 (aget (b_mem w) (a + Z.of_nat i))) <$> seq 0 n.

Definition b_set_timer (t : timer) (v : option Z) (w : Board) : Board :=
  mkBoard (b_mem w) (b_irq w) (λ t', if decide (t = t') then v else b_deadline w t')
    (b_clock w) (b_sent w).

#[export] Instance BoardEnv : DeviceEnv Board := {
  pci_dma_read a buf w := (b_read a (length buf) w, w);
  pci_dma_write a l w :=
    mkBoard (awrite (b_mem w) a (u8 <$> l)) (b_irq w) (b_deadline w) (b_clock w) (b_sent w);
  pci_set_irq b w := mkBoard (b_mem w) b (b_deadline w) (b_clock w) (b_sent w);
  timer_mod t e w := b_set_timer t (Some e) w;
  timer_del t w := b_set_timer t None w;
  qemu_clock_get_ns w := b_clock w;
  qemu_clock_get_ms w := b_clock w / 1000000;
  net_send l w := mkBoard (b_mem w) (b_irq w) (b_deadline w) (b_clock w) (b_sent w ++ [l]);
  net_hub_flush w := (false, w);
  qemu_notify_event w := w;
  packet_sent_cb a b c w := w;
  stack_bytes n := replicate n 0;
}.

#[export] Instance BoardLaws : DeviceEnvLaws Board.
Proof.
  split; intros; cbn.
  - unfold b_read. by rewrite length_fmap, length_seq.
  - apply Forall_fmap, Forall_true. intros. apply u8_fits.
  - apply length_replicate.
  - apply Forall_replicate. done.
Qed.

#[export] Program Instance BoardPin : IrqPin Board := { irq_line := b_irq }.
Solve All Obligations with done.

#[export] Program Instance BoardTimers : TimerWorld Board := {
  timer_inv w := True;
  armed t w := is_Some (b_deadline w t);
}.
Next Obligation. intros. cbn. rewrite decide_True by done. by eexists. Qed.
Next Obligation. intros t e w _. split; [done|]. intros t' Ht. cbn. case_decide; [by eexists|done]. Qed.
Solve All Obligations with done.

#[export] Program Instance BoardMemory : DmaMemory Board := {
  guest w x := u8 (aget (b_mem w) x)
}.
Next Obligation. done. Qed.
Next Obligation.
  intros a l w x Hl. cbn. rewrite aget_awrite, length_fmap. split_if; [|done].
  assert (Hu : u8 <$> l = l).
  { clear -Hl. induction Hl; cbn; [done|]. rewrite u8_small by done. by f_equal. }
  rewrite Hu. apply u8_small.
  destruct (nth_in_or_default (Z.to_nat (x - a)) l 0) as [Hin | ->]; [|done].
  rewrite Forall_forall in Hl. by apply Hl, list_elem_of_In.
Qed.
Solve All Obligations with done.

(** An idle device on a quiet board. *)
Definition idle_tx : e1000_tx :=
  mkTx ∅ ∅ ∅ 0 0 false 0 0 0 0 0 0 0 0 0 0 false false false false.
Definition idle_dev : E1000State :=
  mkE1000 [0x52; 0x54; 0; 0x12; 0x34; 0x56] ∅ ∅ ∅ 2048 1 idle_tx (mkEecd 0 0 0 false 0)
    false false 0 (Z.lor E1000_FLAG_AUTONEG E1000_FLAG_MIT).
Definition idle_nc : NetClientState :=
  mkNc false false "e1000" "" NetQueue.qemu_new_net_queue false.
Definition idle_board : Board := mkBoard ∅ false (λ _, None) 0 [].
Definition idle : Machine Board := mkMachine idle_dev idle_nc idle_board.

Lemma idle_dev_wf : dev_wf idle_dev.
Proof.
  split; cbn; auto with width.
  - split; cbn; auto with width; try apply afits_empty; try done; lia.
  - split; [|done]. repeat constructor; done.
Qed.
