(* ===== verification/Intr.v ===== *)
(** Link state, PHY access and interrupts of e1000.c: the functions from [e1000_link_down] to
    [set_ics], the MDI control register, and the interrupt mask registers. *)

From S2P Require Import Prelude Regs Iov NetQueue Device Board.

Module Intr.

(** ** Link *)

Definition e1000_link_down (s : E1000State) : E1000State :=
  let s := set_reg STATUS (clr (reg s STATUS) E1000_STATUS_LU) s in
  set_phy PHY_STATUS (clr (phy s PHY_STATUS) MII_SR_LINK_STATUS) s.

Definition e1000_link_up (s : E1000State) : E1000State :=
  let s := set_reg STATUS (Z.lor (reg s STATUS) E1000_STATUS_LU) s in
  set_phy PHY_STATUS (Z.lor (phy s PHY_STATUS) MII_SR_LINK_STATUS) s.

(** ** PHY capabilities *)

Definition PHY_R : Z := 1.
Definition PHY_W : Z := 2.
Definition PHY_RW : Z := Z.lor PHY_R PHY_W.

Definition phy_regcap : arr :=
  list_to_map
    [(PHY_STATUS, PHY_R); (M88E1000_EXT_PHY_SPEC_CTRL, PHY_RW);
     (PHY_ID1, PHY_R); (M88E1000_PHY_SPEC_CTRL, PHY_RW);
     (PHY_CTRL, PHY_RW); (PHY_1000T_CTRL, PHY_RW);
     (PHY_LP_ABILITY, PHY_R); (PHY_1000T_STATUS, PHY_R);
     (PHY_AUTONEG_ADV, PHY_RW); (M88E1000_RX_ERR_CNTR, PHY_R);
     (PHY_ID2, PHY_R); (M88E1000_PHY_SPEC_STATUS, PHY_R)].

(** ** Interrupt mitigation *)

Definition mit_update_delay (curr value : Z) : Z :=
  if negb (value =? 0) && ((curr =? 0) || (value <? curr)) then value else curr.

Section Interrupts.
Context {W : Type} `{DeviceEnv W}.
Implicit Types s : Machine W.

Definition set_phy_ctrl (val : Z) s : Machine W :=
  if negb (tst (compat_flags (dev s)) E1000_FLAG_AUTONEG) then s
  else if tst val MII_CR_AUTO_NEG_EN && tst val MII_CR_RESTART_AUTO_NEG then
    let s := upd_dev e1000_link_down s in
    let s := wr_phy PHY_STATUS (clr (rd_phy s PHY_STATUS) MII_SR_AUTONEG_COMPLETE) s in
    upd_world (λ w, timer_mod AutonegTimer (qemu_clock_get_ms w + 500) w) s
  else s.

Definition e1000_autoneg_timer s : Machine W :=
  let s := if negb (link_down (nc s)) then upd_dev e1000_link_up s else s in
  wr_phy PHY_STATUS (Z.lor (rd_phy s PHY_STATUS) MII_SR_AUTONEG_COMPLETE) s.

(** [phyreg_writeops] has one entry, so [NPHYWRITEOPS] is [PHY_CTRL + 1]. *)
Definition phyreg_writeops (addr : Z) : option (Z → Machine W → Machine W) :=
  if addr =? PHY_CTRL then Some set_phy_ctrl else None.
Definition NPHYWRITEOPS : Z := PHY_CTRL + 1.

(** The mitigation delay for the pending causes (in units of 256 ns). *)
Definition mitigation_delay s (pending_ints : Z) : Z :=
  let mit_delay := 0 in
  let mit_delay :=
    if negb (mit_ide (dev s) =? 0) && tst pending_ints (Z.lor E1000_ICR_TXQE E1000_ICR_TXDW)
    then mit_update_delay mit_delay (u32 (rd s TADV * 4)) else mit_delay in
  let mit_delay :=
    if negb (rd s RDTR =? 0) && tst pending_ints E1000_ICS_RXT0
    then mit_update_delay mit_delay (u32 (rd s RADV * 4)) else mit_delay in
  mit_update_delay mit_delay (rd s ITR).

Definition set_interrupt_cause (val : Z) s : Machine W :=
  let val := if negb (val =? 0) && (E1000_DEV_ID_82547EI_MOBILE <=? E1000_DEVID)
             then Z.lor val E1000_ICR_INT_ASSERTED else val in
  let s := wr ICR val s in
  let s := wr ICS val s in
  let pending_ints := Z.land (rd s IMS) (rd s ICR) in
  let finish s :=
    let level := negb (pending_ints =? 0) in
    let s := upd_dev (set_mit_irq_level level) s in
    upd_world (pci_set_irq level) s in
  if negb (mit_irq_level (dev s)) && negb (pending_ints =? 0) then
    if mit_timer_on (dev s) then s
    else if tst (compat_flags (dev s)) E1000_FLAG_MIT then
      let mit_delay := mitigation_delay s pending_ints in
      let s := if negb (mit_delay =? 0) then
                 let s := upd_dev (set_mit_timer_on true) s in
                 upd_world (λ w, timer_mod MitTimer (qemu_clock_get_ns w + u32 (mit_delay * 256)) w) s
               else s in
      finish (upd_dev (set_mit_ide 0) s)
    else finish s
  else finish s.

Definition e1000_mit_timer s : Machine W :=
  let s := upd_dev (set_mit_timer_on false) s in
  set_interrupt_cause (rd s ICR) s.

Definition set_ics (val : Z) s : Machine W :=
  set_interrupt_cause (Z.lor val (rd s ICR)) s.

Definition set_icr (val : Z) s : Machine W :=
  set_interrupt_cause (clr (rd s ICR) val) s.

Definition set_imc (val : Z) s : Machine W :=
  set_ics 0 (wr IMS (clr (rd s IMS) val) s).

Definition set_ims (val : Z) s : Machine W :=
  set_ics 0 (wr IMS (Z.lor (rd s IMS) val) s).

Definition mac_icr_read s : Z * Machine W :=
  let ret := rd s ICR in (ret, set_interrupt_cause 0 s).

Definition e1000_set_link_status s : Machine W :=
  let old_status := rd s STATUS in
  let s := if link_down (nc s) then upd_dev e1000_link_down s else upd_dev e1000_link_up s in
  if negb (rd s STATUS =? old_status) then set_ics E1000_ICR_LSC s else s.

(** ** MDI control *)

Definition set_mdic (val : Z) s : Machine W :=
  let data := Z.land val E1000_MDIC_DATA_MASK in
  let addr := Z.shiftr (Z.land val E1000_MDIC_REG_MASK) E1000_MDIC_REG_SHIFT in
  let '(val, s) :=
    if negb (Z.shiftr (Z.land val E1000_MDIC_PHY_MASK) E1000_MDIC_PHY_SHIFT =? 1)
    then (Z.lor (rd s MDIC) E1000_MDIC_ERROR, s)
    else if tst val E1000_MDIC_OP_READ then
      if negb (tst (aget phy_regcap addr) PHY_R)
      then (Z.lor val E1000_MDIC_ERROR, s)
      else (Z.lor (Z.lxor val data) (rd_phy s addr), s)
    else if tst val E1000_MDIC_OP_WRITE then
      if negb (tst (aget phy_regcap addr) PHY_W)
      then (Z.lor val E1000_MDIC_ERROR, s)
      else
        let s := match phyreg_writeops addr with
                 | Some op => if addr <? NPHYWRITEOPS then op data s else s
                 | None => s
                 end in
        (val, wr_phy addr data s)
    else (val, s) in
  let s := wr MDIC (Z.lor val E1000_MDIC_READY) s in
  if tst val E1000_MDIC_INT_EN then set_ics E1000_ICR_MDAC s else s.
End Interrupts.

(** ** What an interrupt update changes *)

(** The masked causes. *)
Definition pending (d : E1000State) : Z := Z.land (reg d IMS) (reg d ICR).

(** The interrupt pin follows the masked causes, except inside the mitigation window: the pin is
    high only while a cause is pending, and a pending cause with the pin low waits for the
    mitigation timer. *)
Definition irq_ok (d : E1000State) : Prop :=
  (mit_irq_level d = true → pending d ≠ 0) ∧
  (pending d ≠ 0 → mit_irq_level d = true ∨ mit_timer_on d = true).

(** ICR and ICS are two views of one register. *)
Definition icr_ics (d : E1000State) : Prop := reg d ICR = reg d ICS.

Section InterruptLemmas.
Context {W : Type} `{DeviceEnv W}.
Implicit Types s : Machine W.

(** Everything [set_interrupt_cause] may change of the device. *)
Lemma sic_dev val s :
  ∃ l t x, dev (set_interrupt_cause val s) =
    set_mit_irq_level l (set_mit_timer_on t (set_mit_ide x
      (set_reg ICS val (set_reg ICR val (dev s))))) ∧
    nc (set_interrupt_cause val s) = nc s.
Proof.
  unfold set_interrupt_cause.
  replace (negb (val =? 0) && (E1000_DEV_ID_82547EI_MOBILE <=? E1000_DEVID)) with false
    by (by rewrite andb_false_r).
  repeat split_if; (do 3 eexists; split; [|reflexivity]);
    cbn -[u32 aset mitigation_delay]; unfold set_mit_irq_level, set_mit_timer_on, set_mit_ide;
    cbn -[u32 aset mitigation_delay]; reflexivity.
Qed.

Lemma sic_rd val s i : i ≠ ICR → i ≠ ICS → rd (set_interrupt_cause val s) i = rd s i.
Proof.
  intros H1 H2. destruct (sic_dev val s) as (l & t & x & Hd & _).
  unfold rd. rewrite Hd. unfold reg. cbn. by rewrite !aget_aset_ne by auto.
Qed.
Lemma sic_icr val s : rd (set_interrupt_cause val s) ICR = u32 val.
Proof.
  destruct (sic_dev val s) as (l & t & x & Hd & _).
  unfold rd. rewrite Hd. unfold reg. cbn. rewrite aget_aset_ne by neq_reg. apply aget_aset_eq.
Qed.
Lemma sic_ics val s : rd (set_interrupt_cause val s) ICS = u32 val.
Proof.
  destruct (sic_dev val s) as (l & t & x & Hd & _).
  unfold rd. rewrite Hd. unfold reg. cbn. apply aget_aset_eq.
Qed.
Lemma sic_nc val s : nc (set_interrupt_cause val s) = nc s.
Proof. by destruct (sic_dev val s) as (l & t & x & _ & Hn). Qed.
Lemma sic_phy val s i : rd_phy (set_interrupt_cause val s) i = rd_phy s i.
Proof. destruct (sic_dev val s) as (l & t & x & Hd & _). unfold rd_phy. by rewrite Hd. Qed.
Lemma sic_tx val s : tx (dev (set_interrupt_cause val s)) = tx (dev s).
Proof. destruct (sic_dev val s) as (l & t & x & Hd & _). by rewrite Hd. Qed.
Lemma sic_rxbuf val s :
  rxbuf_size (dev (set_interrupt_cause val s)) = rxbuf_size (dev s) ∧
  rxbuf_min_shift (dev (set_interrupt_cause val s)) = rxbuf_min_shift (dev s).
Proof. destruct (sic_dev val s) as (l & t & x & Hd & _). by rewrite Hd. Qed.
Lemma sic_wf val s : dev_wf (dev s) → dev_wf (dev (set_interrupt_cause val s)).
Proof.
  intros [? ? ? ? ?]. destruct (sic_dev val s) as (l & t & x & Hd & _). rewrite Hd.
  split; cbn; auto with width.
Qed.

(** The pin and the timer after an update. *)
Lemma sic_level val s :
  let p := Z.land (rd s IMS) (u32 val) in
  let late := negb (mit_irq_level (dev s)) && negb (p =? 0) && mit_timer_on (dev s) in
  mit_irq_level (dev (set_interrupt_cause val s)) = (if late then false else negb (p =? 0)) ∧
  (late = true → mit_timer_on (dev (set_interrupt_cause val s)) = true).
Proof.
  cbn zeta. unfold set_interrupt_cause.
  replace (negb (val =? 0) && (E1000_DEV_ID_82547EI_MOBILE <=? E1000_DEVID)) with false
    by (by rewrite andb_false_r).
  cbn zeta. regs.
  change (mit_irq_level (dev (wr ICS val (wr ICR val s)))) with (mit_irq_level (dev s)).
  change (mit_timer_on (dev (wr ICS val (wr ICR val s)))) with (mit_timer_on (dev s)).
  destruct (mit_irq_level (dev s)) eqn:El, (Z.land (rd s IMS) (u32 val) =? 0) eqn:Ep,
    (mit_timer_on (dev s)) eqn:Et; cbn [negb andb]; cbn -[wr tst mitigation_delay];
    try (split; [reflexivity|done]); try (split; [exact El|intros; exact Et]).
  repeat split_if; split; done.
Qed.

Lemma sic_irq_ok val s : irq_ok (dev (set_interrupt_cause val s)).
Proof.
  destruct (sic_level val s) as [Hl Ht]. cbn zeta in *.
  unfold irq_ok, pending. fold (rd (set_interrupt_cause val s) IMS) (rd (set_interrupt_cause val s) ICR).
  rewrite sic_icr, sic_rd by neq_reg. rewrite Hl.
  destruct (Z.eqb_spec (Z.land (rd s IMS) (u32 val)) 0) as [->|Hne]; cbn in *.
  - rewrite andb_false_r in *. done.
  - rewrite andb_true_r in *. destruct (negb _ && _); cbn in *; auto.
Qed.

Lemma sic_icr_ics val s : icr_ics (dev (set_interrupt_cause val s)).
Proof. unfold icr_ics. change (rd (set_interrupt_cause val s) ICR = rd (set_interrupt_cause val s) ICS). by rewrite sic_icr, sic_ics. Qed.

(** The pin of the world follows the level the device tracks. *)
Lemma sic_pin `{!IrqPin W} val s :
  irq_line (world s) = mit_irq_level (dev s) →
  irq_line (world (set_interrupt_cause val s)) = mit_irq_level (dev (set_interrupt_cause val s)).
Proof.
  intros Hp. unfold set_interrupt_cause.
  destruct (negb (val =? 0) && (E1000_DEV_ID_82547EI_MOBILE <=? E1000_DEVID)); cbn zeta;
    repeat split_if; cbn -[wr rd tst mitigation_delay];
    rewrite ?irq_line_set; first [done | exact Hp].
Qed.

(** What an update asks of the world: nothing, the pin, or the timer and then the pin. *)
Lemma sic_world val s :
  let s1 := wr ICS val (wr ICR val s) in
  (mit_timer_on (dev s) = true ∧ world (set_interrupt_cause val s) = world s) ∨
  (∃ b, world (set_interrupt_cause val s) = pci_set_irq b (world s)) ∨
  (∃ b p, mitigation_delay s1 p ≠ 0 ∧ world (set_interrupt_cause val s) =
     pci_set_irq b (timer_mod MitTimer (qemu_clock_get_ns (world s) + u32 (mitigation_delay s1 p * 256)) (world s))).
Proof.
  cbn zeta. unfold set_interrupt_cause.
  replace (negb (val =? 0) && (E1000_DEV_ID_82547EI_MOBILE <=? E1000_DEVID)) with false
    by (by rewrite andb_false_r).
  cbn zeta. set (s1 := wr ICS val (wr ICR val s)). change (world s) with (world s1).
  change (mit_timer_on (dev s)) with (mit_timer_on (dev s1)). set (p := Z.land (rd s1 IMS) (rd s1 ICR)).
  clearbody s1. repeat split_if; first
    [ by left
    | right; right; do 2 eexists; split; [|reflexivity]; by apply Z.eqb_neq, negb_true_iff
    | right; left; by eexists ].
Qed.

(** The mitigation timer is armed whenever the flag is set. *)
Lemma linked_armed `{!TimerWorld W} b e d n (w : W) :
  timer_inv w → timer_linked (mkMachine d n (pci_set_irq b (timer_mod MitTimer e w))).
Proof.
  intros Hi. destruct (timers_mod MitTimer e w Hi) as [Hi1 _], (timers_irq b _ Hi1) as [Hi2 Ha2].
  split; [done|]. intros _. by apply Ha2, armed_mod.
Qed.

Lemma sic_linked `{!TimerWorld W} val s : timer_linked s → timer_linked (set_interrupt_cause val s).
Proof.
  intros Hl. unfold set_interrupt_cause.
  destruct (negb (val =? 0) && (E1000_DEV_ID_82547EI_MOBILE <=? E1000_DEVID)); cbn zeta;
    repeat split_if; try exact Hl; first
      [ apply (linked_kept _ _ _ s); [apply timers_irq|done|exact Hl]
      | exact (linked_armed _ _ _ _ _ (proj1 Hl)) ].
Qed.

Lemma set_ics_rd val s i : i ≠ ICR → i ≠ ICS → rd (set_ics val s) i = rd s i.
Proof. apply sic_rd. Qed.
Lemma set_ics_wf val s : dev_wf (dev s) → dev_wf (dev (set_ics val s)).
Proof. apply sic_wf. Qed.
End InterruptLemmas.

(** ** Mitigation *)

(** The delays that apply to a set of pending causes: TADV when a transmit descriptor asked for
    delayed interrupts, RADV when RDTR enables it, ITR always. *)
Definition delay_sources {W} (s : Machine W) (p : Z) : list Z :=
  (if negb (mit_ide (dev s) =? 0) && tst p (Z.lor E1000_ICR_TXQE E1000_ICR_TXDW)
   then [u32 (rd s TADV * 4)] else []) ++
  (if negb (rd s RDTR =? 0) && tst p E1000_ICS_RXT0 then [u32 (rd s RADV * 4)] else []) ++
  [rd s ITR].

(** The least non-zero element, 0 if there is none. *)
Definition least_nonzero (l : list Z) : Z :=
  match filter (λ x, x ≠ 0) l with
  | [] => 0
  | x :: l => foldr Z.min x l
  end.

Lemma foldr_min_acc l x y : foldr Z.min (Z.min x y) l = Z.min x (foldr Z.min y l).
Proof. induction l; simpl; lia. Qed.

Lemma update_fold_set c l :
  c ≠ 0 → foldl mit_update_delay c l = foldr Z.min c (filter (λ x, x ≠ 0) l).
Proof.
  revert c. induction l as [|x l IH]; intros c Hc; [done|]. cbn [foldl]. rewrite filter_cons.
  unfold mit_update_delay at 2. rewrite (proj2 (Z.eqb_neq c 0) Hc). cbn [orb].
  destruct (Z.eqb_spec x 0), (decide (x ≠ 0)); try done; cbn [negb andb foldr]; [by apply IH|].
  destruct (Z.ltb_spec x c); rewrite IH by done; rewrite <-foldr_min_acc; f_equal; lia.
Qed.

(** Updating from 0 keeps the least non-zero value. *)
Lemma update_fold_least l : foldl mit_update_delay 0 l = least_nonzero l.
Proof.
  unfold least_nonzero. induction l as [|x l IH]; [done|]. cbn [foldl]. rewrite filter_cons.
  unfold mit_update_delay at 2. cbn [Z.eqb orb]. rewrite andb_true_r.
  destruct (Z.eqb_spec x 0), (decide (x ≠ 0)); try done; cbn [negb]. by apply update_fold_set.
Qed.

(** The mitigation delay is the least non-zero delay among the sources that apply to the
    pending causes (and 0, i.e. no mitigation, when every source is 0). *)
Theorem mitigation_delay_least {W} `{DeviceEnv W} (s : Machine W) (p : Z) :
  mitigation_delay s p = least_nonzero (delay_sources s p).
Proof.
  rewrite <-update_fold_least. unfold mitigation_delay, delay_sources. by repeat split_if.
Qed.

(** With delays of 16 bits the interval neither wraps nor vanishes. *)
Lemma mitigation_delay_bound {W} `{DeviceEnv W} (s : Machine W) (p : Z) :
  fits 16 (rd s TADV) → fits 16 (rd s RADV) → fits 16 (rd s ITR) → 0 ≤ mitigation_delay s p < 2 ^ 18.
Proof.
  assert (Hu : ∀ v, fits 16 v → 0 ≤ u32 (v * 4) < 2 ^ 18).
  { intros v [H0 H1]. rewrite u32_small by (split; lia). lia. }
  intros Ht%Hu Hr%Hu [Hi0 Hi1]. unfold mitigation_delay, mit_update_delay. repeat split_if; lia.
Qed.

(** ** Interrupt properties *)

Section InterruptTheorems.
Context {W : Type} `{DeviceEnv W}.
Implicit Types s : Machine W.

(** updating the interrupt causes stores the new causes in both ICR and ICS, touches no
    other register, and leaves the pin consistent with the masked causes: high only while a
    cause is pending, and low with a cause pending only while the mitigation timer runs. *)
Theorem set_interrupt_cause_spec val s :
  fits 32 val →
  let s' := set_interrupt_cause val s in
  rd s' ICR = val ∧ rd s' ICS = val ∧
  (∀ i, i ≠ ICR → i ≠ ICS → rd s' i = rd s i) ∧ irq_ok (dev s').
Proof.
  intros Hv. cbn zeta. rewrite sic_icr, sic_ics, u32_small by done.
  repeat split; try apply sic_irq_ok. intros. by apply sic_rd.
Qed.

(** When the mitigation timer fires no pending interrupt stays deferred: the pin (and the
    level the device tracks) is high exactly when an unmasked cause is set. *)
Theorem e1000_mit_timer_delivers `{!IrqPin W} s :
  dev_wf (dev s) → irq_line (world s) = mit_irq_level (dev s) →
  mit_irq_level (dev (e1000_mit_timer s)) = negb (pending (dev s) =? 0) ∧
  irq_line (world (e1000_mit_timer s)) = negb (pending (dev s) =? 0).
Proof.
  intros Hw Hp. unfold e1000_mit_timer. set (s1 := upd_dev (set_mit_timer_on false) s).
  assert (Hl : mit_irq_level (dev (set_interrupt_cause (rd s1 ICR) s1)) = negb (pending (dev s) =? 0)).
  { destruct (sic_level (rd s1 ICR) s1) as [-> _]. cbn [mit_timer_on dev s1 upd_dev with_dev set_mit_timer_on].
    rewrite andb_false_r. rewrite u32_small by (apply (reg_fits (dev s)); done). done. }
  split; [exact Hl|]. rewrite sic_pin by exact Hp. exact Hl.
Qed.
End InterruptTheorems.

(** ** MDI access *)

(** The value a driver writes to MDIC to access register [addr] of PHY 1. *)
Definition mdic_cmd (op addr data : Z) : Z :=
  Z.lor (Z.lor op (Z.lor (Z.shiftl 1 E1000_MDIC_PHY_SHIFT) (Z.shiftl addr E1000_MDIC_REG_SHIFT))) data.

(** The PHY registers of [phy_regcap] that can be written. *)
Definition phy_writable (addr : Z) : Prop :=
  addr ∈ [PHY_CTRL; PHY_AUTONEG_ADV; PHY_1000T_CTRL; M88E1000_PHY_SPEC_CTRL; M88E1000_EXT_PHY_SPEC_CTRL].

Section Mdic.
Context {W : Type} `{DeviceEnv W}.
Implicit Types s : Machine W.

(** A write command stores the data in the PHY register. *)
Lemma mdic_write_phy addr data s :
  phy_writable addr → fits 16 data →
  rd_phy (set_mdic (mdic_cmd E1000_MDIC_OP_WRITE addr data) s) addr = data.
Proof.
  intros Ha Hd. unfold set_mdic, mdic_cmd.
  rewrite (land_lor_high _ _ E1000_MDIC_PHY_MASK), (land_lor_high _ _ E1000_MDIC_REG_MASK) by done.
  unfold tst. rewrite (land_lor_high _ _ E1000_MDIC_OP_READ), (land_lor_high _ _ E1000_MDIC_OP_WRITE) by done.
  unfold phy_writable in Ha. repeat (apply elem_of_cons in Ha as [->|Ha]); [..|by apply elem_of_nil in Ha];
    unfold E1000_MDIC_DATA_MASK; (rewrite land_lor_low by done);
    do 4 known_if; rewrite (land_lor_high _ _ E1000_MDIC_INT_EN) by done; known_if;
    regs; by apply u16_small.
Qed.

(** A read command returns the PHY register in the data field. *)
Lemma mdic_read_reg addr s :
  phy_writable addr → dev_wf (dev s) →
  Z.land (rd (set_mdic (mdic_cmd E1000_MDIC_OP_READ addr 0) s) MDIC) E1000_MDIC_DATA_MASK = rd_phy s addr ∧
  tst (rd (set_mdic (mdic_cmd E1000_MDIC_OP_READ addr 0) s) MDIC) E1000_MDIC_ERROR = false ∧
  tst (rd (set_mdic (mdic_cmd E1000_MDIC_OP_READ addr 0) s) MDIC) E1000_MDIC_READY = true.
Proof.
  intros Ha Hw. pose proof (phy_fits (dev s) addr Hw) as Hf. change (phy (dev s) addr) with (rd_phy s addr) in Hf.
  set (r := rd (set_mdic (mdic_cmd E1000_MDIC_OP_READ addr 0) s) MDIC).
  assert (Hr : ∃ c, r = Z.lor c (rd_phy s addr) ∧ Z.land c E1000_MDIC_DATA_MASK = 0 ∧
               Z.land c E1000_MDIC_ERROR = 0 ∧ Z.land c E1000_MDIC_READY ≠ 0).
  { unfold phy_writable in Ha. repeat (apply elem_of_cons in Ha as [->|Ha]); [..|by apply elem_of_nil in Ha];
      unfold r, set_mdic, mdic_cmd;
      do 3 known_if; unfold tst; rewrite (land_lor_high _ _ E1000_MDIC_INT_EN) by done; known_if; regs;
      rewrite u32_small
        by (repeat apply lor_fits; first [done | (eapply fits_mono; [|exact Hf]; lia)]);
      rewrite (Z.lor_comm (Z.lor _ _)), Z.lor_assoc; eexists; (split; [reflexivity|done]). }
  destruct Hr as (c & -> & H1 & H2 & H3). unfold tst.
  rewrite (land_lor_high _ _ E1000_MDIC_ERROR), (land_lor_high _ _ E1000_MDIC_READY) by done.
  rewrite H2. split; [by apply land_lor_low|]. split; [done|].
  by apply negb_true_iff, Z.eqb_neq.
Qed.

Lemma set_mdic_wf val s : dev_wf (dev s) → dev_wf (dev (set_mdic val s)).
Proof.
  intros Hw. unfold set_mdic. repeat split_if; try apply set_ics_wf; apply wr_wf; auto with width;
    apply wr_phy_wf; unfold phyreg_writeops; repeat split_if; auto with width;
    unfold set_phy_ctrl; repeat split_if; auto; cbn; unfold e1000_link_down; auto 6 with width.
Qed.

(** what a driver writes to a writable PHY register through MDIC, it reads back through
    MDIC, with READY set and ERROR clear. *)
Theorem mdic_write_read addr data s :
  phy_writable addr → fits 16 data → dev_wf (dev s) →
  let s1 := set_mdic (mdic_cmd E1000_MDIC_OP_WRITE addr data) s in
  let v := rd (set_mdic (mdic_cmd E1000_MDIC_OP_READ addr 0) s1) MDIC in
  Z.land v E1000_MDIC_DATA_MASK = data ∧ tst v E1000_MDIC_ERROR = false ∧
  tst v E1000_MDIC_READY = true.
Proof.
  intros Ha Hd Hw. cbn zeta.
  destruct (mdic_read_reg addr (set_mdic (mdic_cmd E1000_MDIC_OP_WRITE addr data) s)) as (H1 & H2 & H3);
    [done|by apply set_mdic_wf|]. rewrite H1. by rewrite mdic_write_phy.
Qed.
End Mdic.

(** ** Evolution of a machine *)

(** What the receive and transmit paths may do to a machine: change the registers of [R], the
    interrupt state and the transmit state, keeping the device well-formed and the interrupt
    state consistent. *)
Record evolves {W} `{DeviceEnv W} (R : list Z) (s s' : Machine W) : Prop := {
  ev_regs : ∀ i, i ∉ R → rd s' i = rd s i;
  ev_nc : nc s' = nc s;
  ev_phy : phy_reg (dev s') = phy_reg (dev s);
  ev_eeprom : eeprom_data (dev s') = eeprom_data (dev s);
  ev_rxbuf : rxbuf_size (dev s') = rxbuf_size (dev s);
  ev_shift : rxbuf_min_shift (dev s') = rxbuf_min_shift (dev s);
  ev_eecd : eecd_state (dev s') = eecd_state (dev s);
  ev_compat : compat_flags (dev s') = compat_flags (dev s);
  ev_macaddr : macaddr (dev s') = macaddr (dev s);
  ev_wf : dev_wf (dev s) → dev_wf (dev s');
  ev_irq : irq_ok (dev s) → irq_ok (dev s');
  ev_icr : icr_ics (dev s) → icr_ics (dev s');
  ev_pin : ∀ `{!IrqPin W}, irq_line (world s) = mit_irq_level (dev s) →
             irq_line (world s') = mit_irq_level (dev s');
  ev_timer : ∀ `{!TimerWorld W}, timer_linked s → timer_linked s';
}.

Section Evolution.
Context {W : Type} `{DeviceEnv W}.
Implicit Types s : Machine W.

Lemma evolves_refl R s : evolves R s s.
Proof. split; auto. Qed.
Lemma evolves_trans R s1 s2 s3 : evolves R s1 s2 → evolves R s2 s3 → evolves R s1 s3.
Proof.
  intros A B. destruct A, B. split; try congruence; eauto.
  intros i Hi. rewrite ev_regs1 by done. auto.
Qed.
Lemma evolves_mono R R' s s' : R ⊆ R' → evolves R s s' → evolves R' s s'.
Proof. intros HR []. split; eauto. Qed.

Lemma evolves_wr R i v s :
  i ∈ R → i ≠ IMS → i ≠ ICR → i ≠ ICS → evolves R s (wr i v s).
Proof.
  intros Hi ? ? ?. split; try done.
  - intros j Hj. apply rd_wr_ne. by intros ->.
  - apply wr_wf.
  - unfold irq_ok, pending. cbn. by rewrite !reg_set_ne by done.
  - unfold icr_ics. cbn. by rewrite !reg_set_ne by done.
Qed.

Lemma evolves_sic R v s : ICR ∈ R → ICS ∈ R → evolves R s (set_interrupt_cause v s).
Proof.
  intros H1 H2. destruct (sic_dev v s) as (l & t & x & Hd & Hn).
  split; try (by rewrite ?Hd).
  - intros i Hi. apply sic_rd; by intros ->.
  - apply sic_wf.
  - intros _. apply sic_irq_ok.
  - intros _. apply sic_icr_ics.
  - intros. by apply sic_pin.
  - intros. by apply sic_linked.
Qed.
Lemma evolves_ics R v s : ICR ∈ R → ICS ∈ R → evolves R s (set_ics v s).
Proof. apply evolves_sic. Qed.

Lemma evolves_dma R w s : dma_only (world s) w → evolves R s (mkMachine (dev s) (nc s) w).
Proof.
  intros Hd. split; auto.
  - intros ? Hp. cbn. by rewrite (dma_irq_line _ _ Hd).
  - intros ?. apply linked_kept; [by apply dma_timers|done].
Qed.

(** Steps appended to an evolution; the side conditions compute. *)
Lemma evolves_then_wr R i v s s1 :
  evolves R s s1 → bool_decide (i ∈ R ∧ i ∉ [IMS; ICR; ICS]) = true → evolves R s (wr i v s1).
Proof.
  intros He Hb. apply bool_decide_eq_true in Hb as [H1 H2]. eapply evolves_trans; [exact He|].
  apply evolves_wr; [done|..]; intros ->; set_solver.
Qed.
Lemma evolves_then_ics R v s s1 :
  evolves R s s1 → bool_decide (ICR ∈ R ∧ ICS ∈ R) = true → evolves R s (set_ics v s1).
Proof.
  intros He Hb. apply bool_decide_eq_true in Hb as [H1 H2]. eapply evolves_trans; [exact He|].
  by apply evolves_ics.
Qed.

(** A change of the transmit state alone. *)
Lemma evolves_tx R t s : (dev_wf (dev s) → tx_wf t) → evolves R s (upd_dev (set_tx t) s).
Proof. intros Ht. split; auto. intros Hw. apply set_tx_wf; auto. Qed.
Lemma evolves_mit_ide R v s : evolves R s (upd_dev (set_mit_ide v) s).
Proof. split; auto. intros []. by split. Qed.
End Evolution.

(** ** Witnesses *)

Lemma set_interrupt_cause_spec_witness :
  let s' := set_interrupt_cause E1000_ICR_LSC (wr IMS E1000_ICR_LSC idle) in
  rd s' ICR = E1000_ICR_LSC ∧ irq_ok (dev s') ∧ b_irq (world s') = true.
Proof.
  destruct (set_interrupt_cause_spec E1000_ICR_LSC (wr IMS E1000_ICR_LSC idle)) as (H1 & _ & _ & H2).
  { done. }
  split; [exact H1|split; [exact H2|reflexivity]].
Defined.

Lemma set_mit_timer_on_wf d b : dev_wf d → dev_wf (set_mit_timer_on b d).
Proof. intros [? ? ? ? ?]. split; assumption. Qed.

(** A deferred interrupt: the timer runs, a cause is pending, the pin is low. *)
Definition deferred : Machine Board :=
  upd_dev (set_mit_timer_on true) (wr ICR E1000_ICR_LSC (wr IMS E1000_ICR_LSC idle)).

Lemma e1000_mit_timer_delivers_witness :
  irq_line (world deferred) = false ∧ irq_line (world (e1000_mit_timer deferred)) = true.
Proof.
  split; [reflexivity|].
  destruct (e1000_mit_timer_delivers deferred) as [_ H].
  - apply set_mit_timer_on_wf, wr_wf, wr_wf, idle_dev_wf.
  - reflexivity.
  - rewrite H. vm_compute. reflexivity.
Defined.

Lemma mdic_write_read_witness :
  Z.land (rd (set_mdic (mdic_cmd E1000_MDIC_OP_READ PHY_AUTONEG_ADV 0)
               (set_mdic (mdic_cmd E1000_MDIC_OP_WRITE PHY_AUTONEG_ADV 0xde1) idle)) MDIC)
    E1000_MDIC_DATA_MASK = 0xde1.
Proof.
  apply (mdic_write_read PHY_AUTONEG_ADV 0xde1 idle).
  - unfold phy_writable. set_solver.
  - done.
  - apply idle_dev_wf.
Defined.

End Intr.
