(* ===== verification/Eeprom.v ===== *)
(** The EEPROM interfaces of e1000.c: the bit-banged microwire port (EECD) and the EERD read
    register.  The specification side is a driver that clocks a command out and a word in. *)

From S2P Require Import Prelude Regs Iov NetQueue Device Board.

Module Eeprom.

Definition EECD_WRITABLE : Z :=
  Z.lor (Z.lor (Z.lor (Z.lor E1000_EECD_SK E1000_EECD_CS) E1000_EECD_DI) E1000_EECD_FWE_MASK)
    E1000_EECD_REQ.

Definition get_eecd (s : E1000State) : Z :=
  let e := eecd_state s in
  let ret := Z.lor (Z.lor E1000_EECD_PRES E1000_EECD_GNT) (old_eecd e) in
  if negb (reading e) ||
     tst (Z.shiftr (aget (eeprom_data s) (Z.land (Z.shiftr (bitnum_out e) 4) 0x3f))
                   (Z.lxor (Z.land (bitnum_out e) 0xf) 0xf)) 1
  then Z.lor ret E1000_EECD_DO else ret.

Definition eecd_write (val : Z) (e : eecd) : eecd :=
  let oldval := old_eecd e in
  let e := ees_old_eecd (Z.land val EECD_WRITABLE) e in
  if negb (tst E1000_EECD_CS val) then e                     (* CS inactive; nothing to do *)
  else
    let e := if tst E1000_EECD_CS (Z.lxor val oldval)         (* CS rise edge; reset state *)
             then ees_reading false (ees_bitnum_out 0 (ees_bitnum_in 0 (ees_val_in 0 e)))
             else e in
    if negb (tst E1000_EECD_SK (Z.lxor val oldval)) then e    (* no clock edge *)
    else if negb (tst E1000_EECD_SK val)                      (* falling edge *)
    then ees_bitnum_out (u16 (bitnum_out e + 1)) e
    else
      let e := ees_val_in (u32 (Z.shiftl (val_in e) 1)) e in
      let e := if tst val E1000_EECD_DI then ees_val_in (Z.lor (val_in e) 1) e else e in
      let e := ees_bitnum_in (u16 (bitnum_in e + 1)) e in
      if (bitnum_in e =? 9) && negb (reading e) then
        let e := ees_bitnum_out (u16 (Z.shiftl (Z.land (val_in e) 0x3f) 4 - 1)) e in
        ees_reading (Z.land (Z.shiftr (val_in e) 6) 7 =? EEPROM_READ_OPCODE_MICROWIRE) e
      else e.

Definition set_eecd (val : Z) (s : E1000State) : E1000State :=
  set_eecd_state (eecd_write val (eecd_state s)) s.

Definition flash_eerd_read (s : E1000State) : Z :=
  let r := clr (reg s EERD) E1000_EEPROM_RW_REG_START in
  if Z.land (reg s EERD) E1000_EEPROM_RW_REG_START =? 0 then reg s EERD
  else
    let index := Z.shiftr r E1000_EEPROM_RW_ADDR_SHIFT in
    if EEPROM_CHECKSUM_REG <? index then Z.lor E1000_EEPROM_RW_REG_DONE r
    else Z.lor (Z.lor (u32 (Z.shiftl (aget (eeprom_data s) index) E1000_EEPROM_RW_REG_DATA))
                  E1000_EEPROM_RW_REG_DONE) r.

(** ** A driver's use of the port *)

Section Driver.
(** Clock one command bit out: data set up with the clock low, then a rising and a falling
    edge. *)
Definition clock_out (b : bool) (s : E1000State) : E1000State :=
  let v := Z.lor E1000_EECD_CS (if b then E1000_EECD_DI else 0) in
  set_eecd v (set_eecd (Z.lor v E1000_EECD_SK) (set_eecd v s)).

(** Clock one data bit in: rising edge, sample DO, falling edge. *)
Definition clock_in (s : E1000State) : bool * E1000State :=
  let s := set_eecd (Z.lor E1000_EECD_CS E1000_EECD_SK) s in
  let b := tst (get_eecd s) E1000_EECD_DO in
  (b, set_eecd E1000_EECD_CS s).

Fixpoint read_bits (n : nat) (acc : Z) (s : E1000State) : Z * E1000State :=
  match n with
  | O => (acc, s)
  | S n => let '(b, s) := clock_in s in read_bits n (2 * acc + Z.b2z b) s
  end.

(** The most significant bit first. *)
Definition msb_first (n : nat) (v : Z) : list bool :=
  (λ i, Z.testbit v (Z.of_nat (n - 1 - i))) <$> seq 0 n.

(** Select the chip, send the read opcode and the six address bits, read a word. *)
Definition microwire_read (addr : Z) (s : E1000State) : Z * E1000State :=
  let s := set_eecd E1000_EECD_CS (set_eecd 0 s) in
  let s := foldl (λ s b, clock_out b s) s
             (msb_first 3 EEPROM_READ_OPCODE_MICROWIRE ++ msb_first 6 addr) in
  read_bits 16 0 s.
End Driver.

(** ** The word the driver reads *)

Section Reading.
Implicit Types s : E1000State.

(** The port while a word is clocked in: reading from bit [bit], the chip selected, the clock
    low. *)
Definition selected (o : Z) : Prop :=
  o = E1000_EECD_CS ∨ o = Z.lor E1000_EECD_CS E1000_EECD_DI.
Definition shifting (bit : Z) (e : eecd) : Prop :=
  reading e = true ∧ bitnum_out e = bit ∧ selected (old_eecd e).

Definition eecd_cmd (cmd : list bool) (e : eecd) : eecd :=
  foldl (λ (e : eecd) (b : bool), let v := Z.lor E1000_EECD_CS (if b then E1000_EECD_DI else 0) in
                eecd_write v (eecd_write (Z.lor v E1000_EECD_SK) (eecd_write v e))) e cmd.

Lemma eecd_cmd_foldl cmd s :
  foldl (λ s b, clock_out b s) s cmd = set_eecd_state (eecd_cmd cmd (eecd_state s)) s.
Proof.
  revert s. induction cmd as [|b cmd IH]; intros s; [by destruct s|]. cbn [foldl]. by rewrite IH.
Qed.

Definition shifting_b (bit : Z) (e : eecd) : bool :=
  reading e && (bitnum_out e =? bit) &&
  ((old_eecd e =? E1000_EECD_CS) || (old_eecd e =? Z.lor E1000_EECD_CS E1000_EECD_DI)).

(** The command leaves the port at the first bit of the addressed word. *)
Lemma command_shifting addr :
  0 ≤ addr < 64 →
  shifting (16 * addr) (eecd_cmd (msb_first 3 EEPROM_READ_OPCODE_MICROWIRE ++ msb_first 6 addr)
                          (mkEecd 0 0 0 false E1000_EECD_CS)).
Proof.
  intros Ha.
  set (f (a : Z) := shifting_b (16 * a) (eecd_cmd (msb_first 3 EEPROM_READ_OPCODE_MICROWIRE ++ msb_first 6 a)
                          (mkEecd 0 0 0 false E1000_EECD_CS))).
  assert (Hall : forallb f (seqZ 0 64) = true) by (vm_compute; reflexivity).
  rewrite forallb_forall in Hall. specialize (Hall addr).
  rewrite <-list_elem_of_In, elem_of_seqZ in Hall. specialize (Hall ltac:(lia)).
  unfold f, shifting_b in Hall. bool_hyps. split; [done|split; [done|]].
  unfold selected. destruct H0; bool_hyps; auto.
Qed.

Lemma eecd_rise vi bi bit o :
  selected o →
  eecd_write (Z.lor E1000_EECD_CS E1000_EECD_SK) (mkEecd vi bi bit true o) =
  mkEecd (u32 (Z.shiftl vi 1)) (u16 (bi + 1)) bit true (Z.lor E1000_EECD_CS E1000_EECD_SK).
Proof.
  intros [-> | ->]; unfold eecd_write; cbn [old_eecd]; do 5 known_if;
    (rewrite andb_false_r || (cbn [reading negb ees_bitnum_in ees_val_in]; rewrite andb_false_r)); reflexivity.
Qed.
Lemma eecd_fall vi bi bit :
  eecd_write E1000_EECD_CS (mkEecd vi bi bit true (Z.lor E1000_EECD_CS E1000_EECD_SK)) =
  mkEecd vi bi (u16 (bit + 1)) true E1000_EECD_CS.
Proof. reflexivity. Qed.

(** What DO shows while reading. *)
Lemma get_eecd_DO s :
  reading (eecd_state s) = true → Z.testbit (old_eecd (eecd_state s)) 3 = false →
  tst (get_eecd s) E1000_EECD_DO =
  Z.testbit (aget (eeprom_data s) (Z.land (Z.shiftr (bitnum_out (eecd_state s)) 4) 0x3f))
    (Z.lxor (Z.land (bitnum_out (eecd_state s)) 0xf) 0xf).
Proof.
  intros Hr Ho. unfold get_eecd. rewrite Hr. cbn [negb orb]. change E1000_EECD_DO with (2 ^ 3).
  change 1 with (2 ^ 0). rewrite !tst_bit, Z.shiftr_spec, Z.add_0_l by lia.
  split_if; rewrite Z.lor_spec, ?Z.lor_spec, Ho; reflexivity.
Qed.

Lemma low_nibble_flip bit : 0 ≤ bit → Z.lxor (Z.land bit 0xf) 0xf = 15 - bit mod 16.
Proof.
  intros Hb. change 15 with (Z.ones 4) at 1. rewrite Z.land_ones by lia. change (2 ^ 4) with 16.
  pose proof (Z.mod_pos_bound bit 16 ltac:(lia)) as Hm. set (r := bit mod 16) in *. clearbody r.
  assert (Hr16 : r ∈ seqZ 0 16) by (apply elem_of_seqZ; lia).
  repeat (apply elem_of_cons in Hr16 as [->|Hr16]; [reflexivity|]). by apply elem_of_nil in Hr16.
Qed.

(** One data bit. *)
Lemma clock_in_spec bit s :
  shifting bit (eecd_state s) → 0 ≤ bit < 0xffff →
  fst (clock_in s) =
    Z.testbit (aget (eeprom_data s) (Z.land (Z.shiftr bit 4) 0x3f)) (15 - bit mod 16) ∧
  shifting (bit + 1) (eecd_state (snd (clock_in s))) ∧
  eeprom_data (snd (clock_in s)) = eeprom_data s.
Proof.
  intros (Hr & Hb & Ho) Hlt.
  destruct s as [? ? ? ed ? ? ? e ? ? ? ?]. destruct e as [vi bi bo rdg oe]. cbn in Hr, Hb, Ho. subst.
  unfold clock_in, set_eecd. cbn [eecd_state set_eecd_state fst snd]. rewrite eecd_rise, eecd_fall by done.
  rewrite (u16_small (bit + 1)) by (split; [|change (2 ^ 16) with 0x10000]; lia).
  split; [|split; [|reflexivity]]; [|by split; [|split; [|left]]].
  rewrite get_eecd_DO by reflexivity. cbn [bitnum_out eecd_state eeprom_data set_eecd_state].
  by rewrite low_nibble_flip by lia.
Qed.

(** Sixteen data bits. *)
Lemma read_bits_spec n acc addr s :
  (n ≤ 16)%nat → 0 ≤ addr < 64 →
  shifting (16 * addr + (16 - Z.of_nat n)) (eecd_state s) →
  fst (read_bits n acc s) = acc * 2 ^ Z.of_nat n + aget (eeprom_data s) addr mod 2 ^ Z.of_nat n.
Proof.
  revert acc s. induction n as [|n IH]; intros acc s Hn Ha Hs.
  - cbn. rewrite Z.mod_1_r. lia.
  - cbn [read_bits]. destruct (clock_in_spec _ s Hs) as (Hb & Hs' & He); [lia|].
    destruct (clock_in s) as [b s']. cbn [fst snd] in *. subst b.
    rewrite IH by (try lia; replace (16 - Z.of_nat n) with (16 - Z.of_nat (S n) + 1) by lia; by rewrite Z.add_assoc).
    rewrite He.
    assert (Hi : Z.land (Z.shiftr (16 * addr + (16 - Z.of_nat (S n))) 4) 63 = addr).
    { rewrite Z.shiftr_div_pow2 by lia. change (2 ^ 4) with 16.
      replace ((16 * addr + (16 - Z.of_nat (S n))) / 16) with addr
        by (apply Z.div_unique with (16 - Z.of_nat (S n)); lia).
      change 63 with (Z.ones 6). rewrite Z.land_ones by lia. apply Z.mod_small. exact Ha. }
    assert (Hm : (16 * addr + (16 - Z.of_nat (S n))) mod 16 = 16 - Z.of_nat (S n))
      by (symmetry; apply Z.mod_unique with addr; lia).
    rewrite Hi, Hm. replace (15 - (16 - Z.of_nat (S n))) with (Z.of_nat n) by lia.
    rewrite Nat2Z.inj_succ, Z.pow_succ_r by lia. set (w := aget _ _). set (k := Z.of_nat n).
    rewrite (Z.mul_comm 2 (2 ^ k)) at 2. rewrite Z.rem_mul_r by lia.
    rewrite <-Z.testbit_spec' by lia. lia.
Qed.
End Reading.

Lemma microwire_read_val (addr : Z) (s : E1000State) :
  0 ≤ addr < 64 → dev_wf s → fst (microwire_read addr s) = aget (eeprom_data s) addr.
Proof.
  intros Ha Hw. unfold microwire_read.
  assert (H0 : set_eecd E1000_EECD_CS (set_eecd 0 s) = set_eecd_state (mkEecd 0 0 0 false E1000_EECD_CS) s)
    by reflexivity.
  rewrite H0, eecd_cmd_foldl, (read_bits_spec 16 0 addr) by
    (try lia; cbn [eecd_state set_eecd_state]; rewrite Z.sub_diag, Z.add_0_r; by apply command_shifting).
  cbn [eeprom_data set_eecd_state]. rewrite Z.mul_0_l, Z.add_0_l. apply Z.mod_small.
  apply (wf_eeprom s Hw).
Qed.

(** The command a driver writes to EERD to read a word. *)
Definition eerd_cmd (addr : Z) : Z :=
  Z.lor (Z.shiftl addr E1000_EEPROM_RW_ADDR_SHIFT) E1000_EEPROM_RW_REG_START.

Lemma eerd_read_val (addr : Z) (s : E1000State) :
  0 ≤ addr < 64 → dev_wf s → reg s EERD = eerd_cmd addr →
  Z.shiftr (flash_eerd_read s) E1000_EEPROM_RW_REG_DATA = aget (eeprom_data s) addr ∧
  tst (flash_eerd_read s) E1000_EEPROM_RW_REG_DONE = true.
Proof.
  intros Ha Hw Hr. unfold flash_eerd_read. rewrite Hr. unfold eerd_cmd.
  set (w := aget (eeprom_data s) addr).
  assert (Hwf : fits 16 w) by apply (wf_eeprom s Hw).
  assert (Hall : Forall (λ a, Z.land (eerd_cmd a) E1000_EEPROM_RW_REG_START = 1 ∧
                  clr (eerd_cmd a) E1000_EEPROM_RW_REG_START = Z.shiftl a 8 ∧
                  Z.shiftr (Z.shiftl a 8) 8 = a ∧ Z.shiftr (Z.shiftl a 8) 16 = 0) (seqZ 0 64)).
  { repeat (apply Forall_cons; split; [by vm_compute|]). by apply Forall_nil. }
  rewrite Forall_forall in Hall. destruct (Hall addr) as (H1 & H2 & H3 & H4); [apply elem_of_seqZ; lia|].
  unfold eerd_cmd in *. rewrite H1, H2. known_if.
  unfold E1000_EEPROM_RW_ADDR_SHIFT, E1000_EEPROM_RW_REG_DATA. rewrite H3.
  rewrite (proj2 (Z.ltb_ge EEPROM_CHECKSUM_REG addr)) by (unfold EEPROM_CHECKSUM_REG; lia).
  fold w. rewrite u32_small by (split; rewrite Z.shiftl_mul_pow2 by lia; unfold fits in Hwf; lia).
  split.
  - rewrite !Z.shiftr_lor, Z.shiftr_shiftl_l, Z.shiftl_0_r, H4 by lia.
    rewrite Z.lor_0_r. apply Z.lor_0_r.
  - unfold E1000_EEPROM_RW_REG_DONE. change 0x10 with (2 ^ 4). rewrite tst_bit, !Z.lor_spec by lia.
    change (Z.testbit (2 ^ 4) 4) with true. btauto.
Qed.

(** C37: a driver that selects the chip, clocks out the microwire read command for any of the 64
    words and clocks sixteen bits in, reads the EEPROM word at that address, whatever state the
    port was left in; and reading EERD after a start command returns the same word in its upper
    half, with DONE set. *)
Theorem eeprom_ports_agree (addr : Z) (s : E1000State) :
  0 ≤ addr < 64 → dev_wf s →
  fst (microwire_read addr s) = aget (eeprom_data s) addr ∧
  (reg s EERD = eerd_cmd addr →
   Z.shiftr (flash_eerd_read s) E1000_EEPROM_RW_REG_DATA = fst (microwire_read addr s) ∧
   tst (flash_eerd_read s) E1000_EEPROM_RW_REG_DONE = true).
Proof.
  intros Ha Hw. rewrite microwire_read_val by done. split; [done|]. by apply eerd_read_val.
Qed.

(** A device with one programmed word and the EERD command for it. *)
Definition programmed : E1000State :=
  set_reg EERD (eerd_cmd 0x0d) (set_eeprom_data (<[0x0d := 0x100e]> ∅) idle_dev).

Lemma eeprom_ports_agree_witness :
  fst (microwire_read 0x0d programmed) = 0x100e ∧
  Z.shiftr (flash_eerd_read programmed) E1000_EEPROM_RW_REG_DATA = 0x100e.
Proof.
  assert (Hw : dev_wf programmed).
  { apply set_reg_wf. destruct idle_dev_wf as [? ? ? ? ?]. split; try done.
    apply (afits_aset 16 ∅ 0x0d 0x100e); [by apply afits_empty|done]. }
  destruct (eeprom_ports_agree 0x0d programmed ltac:(lia) Hw) as [H1 H2].
  destruct H2 as [H2 _]; [reflexivity|]. rewrite H2, H1. split; reflexivity.
Defined.

End Eeprom.
