(* ===== verification/Rx.v ===== *)
(** The receive path of e1000.c: buffer sizing, VLAN and address filters, the receive descriptor
    ring and [e1000_receive_iov].

    The frame is the caller's vector; the VLAN branch moves the addresses inside the caller's
    buffers, so the vector is returned with the result.  Loops over the vector recurse on it;
    the descriptor loop takes fuel, and the theorems give the fuel that suffices. *)

From S2P Require Import Prelude Regs Iov NetQueue Device Board Intr.
Import Iov Intr.

Module Rx.

(** ** Receive descriptors ([struct e1000_rx_desc], 16 bytes, little-endian) *)

Record e1000_rx_desc : Type := mkRxDesc {
  rxd_buffer_addr : Z;
  rxd_length : Z;
  rxd_csum : Z;
  rxd_status : Z;
  rxd_errors : Z;
  rxd_special : Z;
}.

Definition rx_desc_of_bytes (l : list Z) : e1000_rx_desc :=
  mkRxDesc (le_val (take 8 l)) (le_val (take 2 (drop 8 l))) (le_val (take 2 (drop 10 l)))
    (le_val (take 1 (drop 12 l))) (le_val (take 1 (drop 13 l))) (le_val (take 2 (drop 14 l))).
Definition rx_desc_to_bytes (d : e1000_rx_desc) : list Z :=
  le_bytes 8 (rxd_buffer_addr d) ++ le_bytes 2 (rxd_length d) ++ le_bytes 2 (rxd_csum d) ++
  le_bytes 1 (rxd_status d) ++ le_bytes 1 (rxd_errors d) ++ le_bytes 2 (rxd_special d).

Definition rxs_length (x : Z) (d : e1000_rx_desc) : e1000_rx_desc :=
  mkRxDesc (rxd_buffer_addr d) (u16 x) (rxd_csum d) (rxd_status d) (rxd_errors d) (rxd_special d).
Definition rxs_status (x : Z) (d : e1000_rx_desc) : e1000_rx_desc :=
  mkRxDesc (rxd_buffer_addr d) (rxd_length d) (rxd_csum d) (u8 x) (rxd_errors d) (rxd_special d).
Definition rxs_special (x : Z) (d : e1000_rx_desc) : e1000_rx_desc :=
  mkRxDesc (rxd_buffer_addr d) (rxd_length d) (rxd_csum d) (rxd_status d) (rxd_errors d) (u16 x).

(** ** Configuration *)

Definition rxbufsize (v : Z) : Z :=
  let v := Z.land v (Z.lor E1000_RCTL_BSEX (Z.lor E1000_RCTL_SZ_16384 (Z.lor E1000_RCTL_SZ_8192
             (Z.lor E1000_RCTL_SZ_4096 (Z.lor E1000_RCTL_SZ_2048 (Z.lor E1000_RCTL_SZ_1024
             (Z.lor E1000_RCTL_SZ_512 E1000_RCTL_SZ_256))))))) in
  if v =? Z.lor E1000_RCTL_BSEX E1000_RCTL_SZ_16384 then 16384
  else if v =? Z.lor E1000_RCTL_BSEX E1000_RCTL_SZ_8192 then 8192
  else if v =? Z.lor E1000_RCTL_BSEX E1000_RCTL_SZ_4096 then 4096
  else if v =? E1000_RCTL_SZ_1024 then 1024
  else if v =? E1000_RCTL_SZ_512 then 512
  else if v =? E1000_RCTL_SZ_256 then 256
  else 2048.

Definition vlan_enabled (s : E1000State) : bool := tst (reg s CTRL) E1000_CTRL_VME.
Definition vlan_rx_filter_enabled (s : E1000State) : bool := tst (reg s RCTL) E1000_RCTL_VFE.

(** A read of [n] bytes at offset [o] of a buffer. *)
Definition peek (buf : list Z) (o n : nat) : res (list Z) :=
  if (o + n <=? length buf)%nat then Ok (take n (drop o buf)) else Fault OutOfBounds.

Definition is_vlan_packet (s : E1000State) (buf : list Z) : res bool :=
  b ← peek buf 12 2;
  Ok (be_val b =? le_val (take 2 (le_bytes 4 (reg s VET)))).

Definition fcs_len (s : E1000State) : Z := if tst (reg s RCTL) E1000_RCTL_SECRC then 0 else 4.

(** ** The receive filter *)

Definition bcast : list Z := [0xff; 0xff; 0xff; 0xff; 0xff; 0xff].
Definition mta_shift (i : Z) : Z := nth (Z.to_nat i) [4; 3; 2; 0] 0.

(** The perfect filter: the sixteen address pairs from RA, those with AV set. *)
Definition ra_match (s : E1000State) (dst : list Z) : bool :=
  existsb (λ i, let rp := RA + 2 * Z.of_nat i in
                tst (reg s (rp + 1)) E1000_RAH_AV &&
                bool_decide (dst = take 6 (le_bytes 4 (reg s rp) ++ le_bytes 4 (reg s (rp + 1)))))
    (seq 0 16).

(** The VLAN filter drops the frame. *)
Definition vlan_drop (s : E1000State) (buf : list Z) : res bool :=
  isvlan ← is_vlan_packet s buf;
  if isvlan && vlan_rx_filter_enabled s then
    b ← peek buf 14 2;
    let vid := be_val b in
    let vfta := reg s (VFTA + Z.land (Z.shiftr vid 5) 0x7f) in
    Ok (Z.land vfta (Z.shiftl 1 (Z.land vid 0x1f)) =? 0)
  else Ok false.

Definition receive_filter (s : E1000State) (buf : list Z) : res bool :=
  let rctl := reg s RCTL in
  drop ← vlan_drop s buf;
  if drop : bool then Ok false
  else if tst rctl E1000_RCTL_UPE then Ok true
  else
    dst ← peek buf 0 6;
    if tst (nth 0 dst 0) 1 && tst rctl E1000_RCTL_MPE then Ok true
    else if tst rctl E1000_RCTL_BAM && bool_decide (dst = bcast) then Ok true
    else if ra_match s dst then Ok true
    else
      let f := mta_shift (Z.land (Z.shiftr rctl E1000_RCTL_MO_SHIFT) 3) in
      let f := Z.land (Z.shiftr (Z.lor (Z.shiftl (nth 5 dst 0) 8) (nth 4 dst 0)) f) 0xfff in
      Ok (tst (reg s (MTA + Z.shiftr f 5)) (Z.shiftl 1 (Z.land f 0x1f))).

(** ** Receive buffers *)

Definition e1000_has_rxbufs (s : E1000State) (total_size : Z) : bool :=
  if total_size <=? rxbuf_size s then negb (reg s RDH =? reg s RDT)
  else
    let ok bufs := total_size <=? u32 (s32 bufs * rxbuf_size s) in
    if reg s RDH <? reg s RDT then ok (reg s RDT - reg s RDH)
    else if reg s RDT <? reg s RDH then ok (reg s RDLEN / 16 + reg s RDT - reg s RDH)
    else false.

Definition e1000_can_receive (s : E1000State) : bool :=
  tst (reg s STATUS) E1000_STATUS_LU && tst (reg s RCTL) E1000_RCTL_EN && e1000_has_rxbufs s 1.

Definition rx_desc_base (s : E1000State) : Z :=
  let bah := reg s RDBAH in
  let bal := clr (reg s RDBAL) 0xf in
  u64 (Z.shiftl bah 32 + bal).

(** ** [e1000_receive_iov] *)

(** Padding: the vector to deliver, the bytes the filter looks at, whether these are the first
    vector itself, and the size. *)
Definition rx_pad (stack iov0 : list Z) (iov : list iovec) (size : Z)
  : res (list iovec * list Z * bool * Z) :=
  if size <? MIN_BUF_SIZE then
    b ← iov_to_buf iov 0 (Z.to_nat size);
    let min_buf := b ++ replicate (Z.to_nat (MIN_BUF_SIZE - size)) 0 in
    Ok ([min_buf], min_buf, true, MIN_BUF_SIZE)
  else if Z.of_nat (length iov0) <? MAXIMUM_ETHERNET_HDR_LEN then
    b ← iov_to_buf iov 0 (Z.to_nat MAXIMUM_ETHERNET_HDR_LEN);
    Ok (iov, b ++ drop (length b) stack, false, size)
  else Ok (iov, iov0, true, size).

(** [while (iov->iov_len <= iov_ofs)]: skip the vectors before the offset. *)
Fixpoint rx_skip (iov : list iovec) (iov_ofs : Z) : res (list iovec * Z) :=
  match iov with
  | [] => Fault OutOfBounds
  | v :: iov' =>
      if Z.of_nat (length v) <=? iov_ofs then rx_skip iov' (iov_ofs - Z.of_nat (length v))
      else Ok (v :: iov', iov_ofs)
  end.

(** Take the VLAN tag out: the addresses move up four bytes, over the tag.  Returns the vector as
    stored, and the place in it where the frame now starts. *)
Definition rx_strip (iov : list iovec) (filter_buf : list Z) (is_base : bool)
  : res (list iovec * list iovec * Z) :=
  if is_base then
    match iov with
    | [] => Fault OutOfBounds
    | v :: iov' =>
        if (16 <=? length v)%nat then
          let iov := (take 4 v ++ take 12 v ++ drop 16 v) :: iov' in
          Ok (iov, iov, 4)
        else Fault OutOfBounds
    end
  else
    '(iov, _) ← iov_from_buf iov 4 filter_buf 12;
    '(cur, iov_ofs) ← rx_skip iov 4;
    Ok (iov, cur, iov_ofs).

Section Receive.
Context {W : Type} `{DeviceEnv W}.
Implicit Types s : Machine W.

(** The inner [do ... while (copy_size)].  When the block written is shorter than [copy_size]
    it ends at the end of its vector, so the next round starts the next vector. *)
Fixpoint rx_copy (iov : list iovec) (iov_ofs copy_size ba : Z) (w : W)
  : res (list iovec * Z * W) :=
  match iov with
  | [] => Fault OutOfBounds
  | v :: iov' =>
      let iov_len := Z.of_nat (length v) in
      let iov_copy := Z.min copy_size (u64 (iov_len - iov_ofs)) in
      if iov_len <? iov_ofs + iov_copy then Fault OutOfBounds
      else
        let w := pci_dma_write ba (take (Z.to_nat iov_copy) (drop (Z.to_nat iov_ofs) v)) w in
        let copy_size := copy_size - iov_copy in
        let ba := u64 (ba + iov_copy) in
        let iov_ofs := iov_ofs + iov_copy in
        if copy_size =? 0 then
          if iov_ofs =? iov_len then Ok (iov', 0, w) else Ok (v :: iov', iov_ofs, w)
        else rx_copy iov' 0 copy_size ba w
  end.

(** What the loop keeps in locals: the descriptor buffer, the progress, the place in the
    vector. *)
Record rx_locals : Type := mkLoc {
  l_desc : list Z;
  l_offset : Z;
  l_iov : list iovec;
  l_ofs : Z;
}.

(** Fill one descriptor: the body of the descriptor loop up to its write-back. *)
Definition rx_fill (vlan_special vlan_status size total_size : Z) (l : rx_locals) s
  : res (rx_locals * Machine W) :=
  let desc_offset := l_offset l in
  let desc_size := total_size - desc_offset in
  let desc_size := if rxbuf_size (dev s) <? desc_size then rxbuf_size (dev s) else desc_size in
  let base := u64 (rx_desc_base (dev s) + 16 * rd s RDH) in
  let '(bytes, w) := pci_dma_read base (l_desc l) (world s) in
  let desc := rx_desc_of_bytes bytes in
  let desc := rxs_special vlan_special desc in
  let desc := rxs_status (Z.lor (rxd_status desc) (Z.lor vlan_status E1000_RXD_STAT_DD)) desc in
  '(desc, desc_offset, iov, iov_ofs, w) ←
    (if negb (rxd_buffer_addr desc =? 0) then
       '(iov, iov_ofs, w) ←
         (if desc_offset <? size then
            let ba := rxd_buffer_addr desc in
            let copy_size := size - desc_offset in
            let copy_size := if rxbuf_size (dev s) <? copy_size then rxbuf_size (dev s) else copy_size in
            rx_copy (l_iov l) (l_ofs l) copy_size ba w
          else Ok (l_iov l, l_ofs l, w));
       let desc_offset := desc_offset + desc_size in
       let desc := rxs_length desc_size desc in
       let desc :=
         if total_size <=? desc_offset
         then rxs_status (Z.lor (rxd_status desc) (Z.lor E1000_RXD_STAT_EOP E1000_RXD_STAT_IXSM)) desc
         else rxs_status (clr (rxd_status desc) E1000_RXD_STAT_EOP) desc in
       Ok (desc, desc_offset, iov, iov_ofs, w)
     else Ok (desc, desc_offset, l_iov l, l_ofs l, w));
  let w := pci_dma_write base (rx_desc_to_bytes desc) w in
  Ok (mkLoc (rx_desc_to_bytes desc) desc_offset iov iov_ofs, mkMachine (dev s) (nc s) w).

(** [if (++s->mac_reg[RDH] * sizeof(desc) >= s->mac_reg[RDLEN]) s->mac_reg[RDH] = 0;] *)
Definition rx_advance s : Machine W :=
  let s := wr RDH (rd s RDH + 1) s in
  if rd s RDLEN <=? rd s RDH * 16 then wr RDH 0 s else s.

(** The descriptor loop; [false] is the early return on wraparound. *)
Fixpoint rx_loop (fuel : nat) (rdh_start vlan_special vlan_status size total_size : Z)
    (l : rx_locals) s : res (bool * Machine W) :=
  match fuel with
  | O => Diverge
  | S fuel =>
      '(l, s) ← rx_fill vlan_special vlan_status size total_size l s;
      let s := rx_advance s in
      if rd s RDH =? rdh_start then Ok (false, set_ics E1000_ICS_RXO s)
      else if l_offset l <? total_size
      then rx_loop fuel rdh_start vlan_special vlan_status size total_size l s
      else Ok (true, s)
  end.

(** The statistics of a received frame. *)
Definition rx_count (size : Z) s : Machine W :=
  let s := wr GPRC (rd s GPRC + 1) s in
  let s := wr TPR (rd s TPR + 1) s in
  let n := u32 (rd s TORL + size + 4) in
  let s := if n <? rd s TORL then wr TORH (rd s TORH + 1) s else s in
  wr TORL n s.

(** Its interrupt causes: also the low-threshold cause when few descriptors are left. *)
Definition rx_causes s : Z :=
  let n := E1000_ICS_RXT0 in
  let rdt := rd s RDT in
  let rdt := if rdt <? rd s RDH then u32 (rdt + rd s RDLEN / 16) else rdt in
  if u32 (rdt - rd s RDH) * 16 <=? Z.shiftr (rd s RDLEN) (rxbuf_min_shift (dev s))
  then Z.lor n E1000_ICS_RXDMT0 else n.

Definition rx_finish (size : Z) s : Machine W :=
  let s := rx_count size s in
  set_ics (rx_causes s) s.

(** Deliver the frame that starts at [cur]/[iov_ofs]; returns the C result. *)
Definition rx_deliver (fuel : nat) (vlan_special vlan_status size : Z) (cur : list iovec)
    (iov_ofs : Z) s : res (Z * Machine W) :=
  let rdh_start := rd s RDH in
  let total_size := size + fcs_len (dev s) in
  if negb (e1000_has_rxbufs (dev s) total_size) then Ok (-1, set_ics E1000_ICS_RXO s)
  else
    '(completed, s) ← rx_loop fuel rdh_start vlan_special vlan_status size total_size
                        (mkLoc (stack_bytes 16) 0 cur iov_ofs) s;
    if completed : bool then Ok (size, rx_finish size s) else Ok (-1, s).

Definition oversized (s : E1000State) (size : Z) : bool :=
  ((MAXIMUM_ETHERNET_LPE_SIZE <? size) ||
   (MAXIMUM_ETHERNET_VLAN_SIZE <? size) && negb (tst (reg s RCTL) E1000_RCTL_LPE)) &&
  negb (tst (reg s RCTL) E1000_RCTL_SBP).

Definition e1000_receive_iov (fuel : nat) (iov : list iovec) s
  : res (Z * list iovec * Machine W) :=
  match iov with
  | [] => Fault OutOfBounds
  | iov0 :: _ =>
      let caller := iov in
      let size := Z.of_nat (iov_size iov) in
      if negb (tst (rd s STATUS) E1000_STATUS_LU) then Ok (-1, caller, s)
      else if negb (tst (rd s RCTL) E1000_RCTL_EN) then Ok (-1, caller, s)
      else
        let padded := size <? MIN_BUF_SIZE in
        '(iov, filter_buf, is_base, size) ← rx_pad (stack_bytes 60) iov0 iov size;
        if oversized (dev s) size then Ok (size, caller, s)
        else
          pass ← receive_filter (dev s) filter_buf;
          if negb pass then Ok (size, caller, s)
          else
            isvlan ← is_vlan_packet (dev s) filter_buf;
            if vlan_enabled (dev s) && isvlan then
              b ← peek filter_buf 14 2;
              '(iov, cur, iov_ofs) ← rx_strip iov filter_buf is_base;
              '(ret, s) ← rx_deliver fuel (be_val b) E1000_RXD_STAT_VP (size - 4) cur iov_ofs s;
              Ok (ret, if padded then caller else iov, s)
            else
              '(ret, s) ← rx_deliver fuel 0 0 size iov 0 s;
              Ok (ret, caller, s)
  end.

Definition e1000_receive (fuel : nat) (buf : list Z) s : res (Z * list Z * Machine W) :=
  '(ret, iov, s) ← e1000_receive_iov fuel [buf] s;
  Ok (ret, concat iov, s).
End Receive.

(** ** The filter *)

Lemma peek_ok buf o n : (o + n ≤ length buf)%nat → peek buf o n = Ok (take n (drop o buf)).
Proof. intros H. unfold peek. by rewrite (proj2 (Nat.leb_le _ _) H). Qed.

(** The frame's addresses and tag. *)
Definition dst_of (buf : list Z) : list Z := take 6 buf.
Definition tag_type (buf : list Z) : Z := be_val (take 2 (drop 12 buf)).
Definition tag_id (buf : list Z) : Z := be_val (take 2 (drop 14 buf)).

(** The hash of the multicast filter: twelve bits of the destination address chosen by RCTL.MO. *)
Definition mta_hash (s : E1000State) (dst : list Z) : Z :=
  Z.land (Z.shiftr (Z.lor (Z.shiftl (nth 5 dst 0) 8) (nth 4 dst 0))
                   (mta_shift (Z.land (Z.shiftr (reg s RCTL) E1000_RCTL_MO_SHIFT) 3))) 0xfff.

(** What the filter admits. *)
Definition vlan_admitted (s : E1000State) (buf : list Z) : Prop :=
  tst (reg s RCTL) E1000_RCTL_VFE = true → tag_type buf = Z.land (reg s VET) 0xffff →
  Z.testbit (reg s (VFTA + Z.land (Z.shiftr (tag_id buf) 5) 0x7f)) (Z.land (tag_id buf) 0x1f) = true.
Definition addr_admitted (s : E1000State) (dst : list Z) : Prop :=
  tst (reg s RCTL) E1000_RCTL_UPE = true ∨
  (Z.testbit (nth 0 dst 0) 0 = true ∧ tst (reg s RCTL) E1000_RCTL_MPE = true) ∨
  (dst = bcast ∧ tst (reg s RCTL) E1000_RCTL_BAM = true) ∨
  (∃ i, 0 ≤ i < 16 ∧ tst (reg s (RA + 2 * i + 1)) E1000_RAH_AV = true ∧
        dst = take 6 (le_bytes 4 (reg s (RA + 2 * i)) ++ le_bytes 4 (reg s (RA + 2 * i + 1)))) ∨
  Z.testbit (reg s (MTA + Z.shiftr (mta_hash s dst) 5)) (Z.land (mta_hash s dst) 0x1f) = true.

Lemma vet_low s : le_val (take 2 (le_bytes 4 (reg s VET))) = Z.land (reg s VET) 0xffff.
Proof.
  change (take 2 (le_bytes 4 (reg s VET))) with (le_bytes 2 (reg s VET)).
  rewrite le_val_le_bytes, land_ffff. done.
Qed.

Lemma tst_shiftl x n : 0 ≤ n → tst x (Z.shiftl 1 n) = Z.testbit x n.
Proof. intros. rewrite Z.shiftl_1_l. by apply tst_bit. Qed.

Lemma is_vlan_ok s buf :
  (14 ≤ length buf)%nat → is_vlan_packet s buf = Ok (tag_type buf =? Z.land (reg s VET) 0xffff).
Proof. intros. unfold is_vlan_packet. rewrite peek_ok by lia. cbn [mbind res_bind]. by rewrite vet_low. Qed.

Lemma ra_match_spec s dst :
  ra_match s dst = true ↔
  ∃ i, 0 ≤ i < 16 ∧ tst (reg s (RA + 2 * i + 1)) E1000_RAH_AV = true ∧
       dst = take 6 (le_bytes 4 (reg s (RA + 2 * i)) ++ le_bytes 4 (reg s (RA + 2 * i + 1))).
Proof.
  unfold ra_match. rewrite existsb_exists. split.
  - intros (i & Hi & Hb). apply andb_true_iff in Hb as [H1 H2]. apply bool_decide_eq_true in H2.
    apply in_seq in Hi. exists (Z.of_nat i). split; [lia|]. by split.
  - intros (i & Hi & H1 & H2). exists (Z.to_nat i). rewrite Z2Nat.id by lia.
    split; [apply in_seq; lia|]. apply andb_true_iff. split; [done|]. by apply bool_decide_eq_true.
Qed.

Lemma vlan_drop_ok s buf :
  (16 ≤ length buf)%nat → ∃ d, vlan_drop s buf = Ok d ∧ (d = false ↔ vlan_admitted s buf).
Proof.
  intros Hl. unfold vlan_drop, vlan_admitted, vlan_rx_filter_enabled.
  rewrite is_vlan_ok, peek_ok by lia. cbn [mbind res_bind]. fold (tag_id buf).
  destruct (Z.eqb_spec (tag_type buf) (Z.land (reg s VET) 0xffff)) as [He|He],
    (tst (reg s RCTL) E1000_RCTL_VFE) eqn:Ev; cbn [andb]; (eexists; split; [reflexivity|]);
    try (intuition congruence).
  rewrite <-tst_shiftl by (apply Z.land_nonneg; right; lia). unfold tst.
  destruct (_ =? 0); cbn [negb]; (intuition congruence).
Qed.

(** The filter on a complete header. *)
Lemma receive_filter_ok s buf :
  (16 ≤ length buf)%nat →
  ∃ b, receive_filter s buf = Ok b ∧ (b = true ↔ vlan_admitted s buf ∧ addr_admitted s (dst_of buf)).
Proof.
  intros Hl. unfold receive_filter. destruct (vlan_drop_ok s buf Hl) as (d & -> & Hd).
  cbn [mbind res_bind]. destruct d.
  { eexists; split; [reflexivity|]. (intuition congruence). }
  rewrite peek_ok by lia. cbn [mbind res_bind]. change (drop 0 buf) with buf.
  fold (dst_of buf) (mta_hash s (dst_of buf)).
  assert (Hva : vlan_admitted s buf) by (intuition congruence). clear Hd.
  pose proof (ra_match_spec s (dst_of buf)) as Hra. unfold addr_admitted.
  rewrite <-(tst_shiftl _ (Z.land (mta_hash s (dst_of buf)) 0x1f)) by (apply Z.land_nonneg; right; lia).
  rewrite <-(tst_bit _ 0) by done. change (2 ^ 0) with 1.
  destruct (tst (reg s RCTL) E1000_RCTL_UPE); [eexists; split; [reflexivity|]; (intuition congruence)|].
  destruct (tst (nth 0 (dst_of buf) 0) 1), (tst (reg s RCTL) E1000_RCTL_MPE); cbn [andb];
    try (eexists; split; [reflexivity|]; (intuition congruence)).
  all: destruct (tst (reg s RCTL) E1000_RCTL_BAM); cbn [andb];
    try (destruct (bool_decide (dst_of buf = bcast)) eqn:Eb;
         [apply bool_decide_eq_true in Eb; eexists; split; [reflexivity|]; (intuition congruence)|
          apply bool_decide_eq_false in Eb]);
    destruct (ra_match s (dst_of buf)); (eexists; split; [reflexivity|]); (intuition congruence).
Qed.


(** ** The vector cursor *)

(** A place in a vector, and the bytes from there on. *)
Definition cur_ok (cur : list iovec) (ofs : Z) : Prop :=
  0 ≤ ofs ≤ match cur with [] => 0 | v :: _ => Z.of_nat (length v) end.
Definition rest (cur : list iovec) (ofs : Z) : list Z := drop (Z.to_nat ofs) (concat cur).

Lemma rest_cons v iov ofs :
  0 ≤ ofs ≤ Z.of_nat (length v) → rest (v :: iov) ofs = drop (Z.to_nat ofs) v ++ concat iov.
Proof. intros. unfold rest. cbn. by rewrite drop_app_le by lia. Qed.

Section RxLemmas.
Context {W : Type} `{DeviceEnv W}.
Implicit Types s : Machine W.

(** The copy loop writes the next bytes of the frame to consecutive addresses. *)
Lemma rx_copy_spec iov ofs n ba w :
  iov ≠ [] → cur_ok iov ofs → 0 ≤ n ≤ Z.of_nat (length (rest iov ofs)) →
  Z.of_nat (length (concat iov)) < 2 ^ 64 →
  ∃ iov' ofs' cs, rx_copy iov ofs n ba w = Ok (iov', ofs', write_chunks ba cs w) ∧
    cur_ok iov' ofs' ∧ rest iov' ofs' = drop (Z.to_nat n) (rest iov ofs) ∧
    concat cs = take (Z.to_nat n) (rest iov ofs) ∧ (length (concat iov') ≤ length (concat iov))%nat.
Proof.
  revert ofs n ba w. induction iov as [|v iov IH]; intros ofs n ba w Hne Hc Hn Hs; [done|].
  cbn [rx_copy]. cbn zeta. unfold cur_ok in Hc. rewrite rest_cons in * by done.
  cbn [concat] in Hs. rewrite length_app in Hs, Hn. rewrite length_drop in Hn.
  rewrite (u64_small (_ - _)) by (split; lia).
  rewrite (proj2 (Z.ltb_ge _ _)) by lia.
  destruct (Z.eqb_spec (n - Z.min n (Z.of_nat (length v) - ofs)) 0) as [Heq|Hneq].
  - replace (Z.min n (Z.of_nat (length v) - ofs)) with n by lia.
    destruct (Z.eqb_spec (ofs + n) (Z.of_nat (length v))) as [He|He].
    + exists iov, 0, [take (Z.to_nat n) (drop (Z.to_nat ofs) v)].
      split; [reflexivity|]. split; [unfold cur_ok; destruct iov; lia|].
      rewrite drop_app_ge, take_app_le, length_drop by (rewrite length_drop; lia).
      replace (Z.to_nat n - _)%nat with 0%nat by lia.
      split; [done|]. cbn. rewrite app_nil_r, length_app. split; [done|lia].
    + exists (v :: iov), (ofs + n), [take (Z.to_nat n) (drop (Z.to_nat ofs) v)].
      split; [reflexivity|]. split; [unfold cur_ok; lia|].
      rewrite rest_cons, drop_app_le, take_app_le, drop_drop by (try rewrite length_drop; lia).
      cbn. rewrite app_nil_r. split; [|split; [done|lia]]. do 2 f_equal. lia.
  - assert (Hgt : Z.of_nat (length v) - ofs < n) by lia.
    replace (Z.min n (Z.of_nat (length v) - ofs)) with (Z.of_nat (length v) - ofs) in * by lia.
    set (c := take _ (drop (Z.to_nat ofs) v)).
    assert (Hcv : c = drop (Z.to_nat ofs) v) by (apply take_ge; rewrite length_drop; lia).
    destruct (IH 0 (n - (Z.of_nat (length v) - ofs)) (u64 (ba + (Z.of_nat (length v) - ofs)))
                (pci_dma_write ba c w)) as (iov' & ofs' & cs & He & Hc' & Hr & Hcs & Hlen).
    { intros ->. change (length (concat (@nil iovec))) with 0%nat in Hn. lia. } { unfold cur_ok; destruct iov; lia. }
    { unfold rest. rewrite drop_0. lia. } { lia. }
    exists iov', ofs', (c :: cs). rewrite He. cbn [write_chunks concat].
    rewrite length_app. change (rest iov 0) with (drop 0 (concat iov)) in Hr, Hcs. rewrite drop_0 in Hr, Hcs.
    split; [|split; [done|split; [|split; [|lia]]]].
    + replace (Z.of_nat (length c)) with (Z.of_nat (length v) - ofs); [done|].
      rewrite Hcv, length_drop. lia.
    + rewrite Hr, drop_app_ge, length_drop by (rewrite length_drop; lia). f_equal. lia.
    + rewrite Hcs, Hcv, take_app_ge, length_drop by (rewrite length_drop; lia). do 2 f_equal. lia.
Qed.

(** The frame still to be copied is in the vector. *)
Definition enough (size : Z) (l : rx_locals) : Prop :=
  cur_ok (l_iov l) (l_ofs l) ∧ 0 ≤ l_offset l ∧
  size - l_offset l ≤ Z.of_nat (length (rest (l_iov l) (l_ofs l))) ∧
  Z.of_nat (length (concat (l_iov l))) < 2 ^ 64.

Lemma length_rx_desc_to_bytes d : length (rx_desc_to_bytes d) = 16%nat.
Proof. unfold rx_desc_to_bytes. rewrite !length_app, !length_le_bytes. done. Qed.
Lemma rx_desc_to_bytes_fits d : Forall (fits 8) (rx_desc_to_bytes d).
Proof. unfold rx_desc_to_bytes. repeat (apply Forall_app; split); apply le_bytes_fits. Qed.

(** Filling a descriptor never leaves the vector and changes nothing of the device. *)
Lemma rx_fill_ok sp st size total l s :
  enough size l → size ≤ total → 0 ≤ rxbuf_size (dev s) → l_offset l < total →
  ∃ l' w', rx_fill sp st size total l s = Ok (l', mkMachine (dev s) (nc s) w') ∧
    enough size l' ∧ l_offset l' ≤ total ∧ length (l_desc l') = 16%nat ∧ dma_only (world s) w'.
Proof.
  intros (Hc & H0 & He & Hsz) Hst Hrb Hlt. unfold rx_fill.
  set (base := u64 _). pose proof (dma_read base (l_desc l) (world s)) as Hrd.
  destruct (pci_dma_read base (l_desc l) (world s)) as [bytes w]. cbn [snd] in Hrd. cbn zeta.
  set (cs0 := if rxbuf_size (dev s) <? size - l_offset l then _ else _).
  set (ds := if rxbuf_size (dev s) <? total - l_offset l then _ else _).
  assert (Hds : 0 ≤ ds ≤ total - l_offset l ∧ (l_offset l < size → cs0 ≤ ds) ∧
                (l_offset l < size → cs0 = rxbuf_size (dev s) ∧ ds = cs0 ∨ cs0 = size - l_offset l) ∧
                (l_offset l < size → 0 ≤ cs0 ≤ size - l_offset l)).
  { unfold ds, cs0. repeat split_if; bool_hyps; lia. }
  clearbody ds cs0. destruct Hds as (Hd1 & Hd2 & Hd3 & Hd4).
  destruct (rxd_buffer_addr _ =? 0); cbn [negb mbind res_bind].
  { do 2 eexists. split; [reflexivity|]. cbn [l_desc l_offset l_iov l_ofs]. split; [done|]. split; [lia|].
    split; [apply length_rx_desc_to_bytes|]. eapply Hrd, dma_write, dma_refl. }
  destruct (Z.ltb_spec (l_offset l) size) as [Hos|Hos].
  - match goal with |- context [rx_copy _ _ _ ?b w] => destruct (rx_copy_spec (l_iov l) (l_ofs l) cs0 b w)
      as (iov' & ofs' & cs & -> & Hc' & Hr & _ & Hlen) end;
      [intros E; unfold rest in He; rewrite E in He; cbn in He; rewrite drop_nil in He; cbn in He; lia|done|lia|lia|].
    cbn [mbind res_bind]. do 2 eexists. split; [reflexivity|]. split; [|split; [cbn [l_offset]; lia|split]].
    + split; [done|]. cbn [l_offset l_iov l_ofs]. rewrite Hr, length_drop. lia.
    + apply length_rx_desc_to_bytes.
    + eapply Hrd, dma_trans; [apply write_chunks_dma|]. eapply dma_write, dma_refl.
  - cbn [mbind res_bind]. do 2 eexists. split; [reflexivity|]. split; [|split; [cbn [l_offset]; lia|split]].
    + split; [done|]. cbn [l_offset l_iov l_ofs]. lia.
    + apply length_rx_desc_to_bytes.
    + eapply Hrd, dma_write, dma_refl.
Qed.
End RxLemmas.

Section RxLoop.
Context {W : Type} `{DeviceEnv W}.
Implicit Types s : Machine W.

Lemma rx_advance_eq s :
  rx_advance s = wr RDH (ring_next (rd s RDLEN) (rd s RDH)) s.
Proof.
  unfold rx_advance, ring_next. regs. split_if.
  - unfold wr, upd_dev, with_dev. cbn. by rewrite set_reg_set_reg.
  - unfold wr, upd_dev, with_dev, set_reg. cbn. by rewrite (u32_small (u32 _)) by apply u32_fits.
Qed.

(** The state after the loop: RDH moved, bus traffic, and the overrun interrupt when the ring
    wrapped. *)
Definition rx_post (completed : bool) s s' : Prop :=
  ∃ r w', fits 32 r ∧ dma_only (world s) w' ∧
    in_ring (rd s RDLEN) r ∧
    s' = (if completed then id else set_ics E1000_ICS_RXO)
           (mkMachine (set_reg RDH r (dev s)) (nc s) w').

Lemma rx_loop_cases fuel start sp st size total l s :
  enough size l → size ≤ total → dev_wf (dev s) → 0 ≤ rxbuf_size (dev s) → l_offset l < total →
  (rx_loop fuel start sp st size total l s = Diverge ∧
   (in_ring (rd s RDLEN) start → in_ring (rd s RDLEN) (rd s RDH) →
    Z.of_nat fuel < ring_dist (rd s RDLEN) start (rd s RDH))) ∨
  (∃ b s', rx_loop fuel start sp st size total l s = Ok (b, s') ∧ rx_post b s s').
Proof.
  revert l s. induction fuel as [|fuel IH]; intros l s He Hst Hwf Hrb Hlt.
  { left. split; [done|]. intros Hs Hi.
    destruct (ring_next_step (rd s RDLEN) start (rd s RDH)) as (_ & ? & _); [|done..|lia]. by apply reg_fits. }
  cbn [rx_loop]. destruct (rx_fill_ok sp st size total l s He Hst Hrb Hlt) as (l' & w' & -> & He' & Hle & _ & Hdma).
  cbn [mbind res_bind]. cbn zeta. rewrite rx_advance_eq.
  set (s1 := mkMachine (dev s) (nc s) w').
  change (rd s1 RDLEN) with (rd s RDLEN). change (rd s1 RDH) with (rd s RDH).
  set (r := ring_next (rd s RDLEN) (rd s RDH)).
  assert (Hr : fits 32 r) by apply ring_next_fits.
  assert (Hin : in_ring (rd s RDLEN) r) by apply ring_next_in_ring.
  regs. rewrite u32_small by done.
  destruct (Z.eqb_spec r start) as [Hrs|Hrs].
  { right. exists false. eexists. split; [reflexivity|]. exists r, w'. done. }
  destruct (Z.ltb_spec (l_offset l') total) as [Hlt'|Hge].
  2:{ right. exists true. eexists. split; [reflexivity|]. exists r, w'. done. }
  destruct (IH l' (wr RDH r s1)) as [(-> & Hd)|(b & s' & -> & r' & w2 & Hr' & Hdma' & Hin' & ->)].
  1-5: auto using wr_wf.
  - left. split; [done|]. intros Hs Hi. revert Hd. regs. rewrite u32_small by done. intros Hd.
    destruct (ring_next_step (rd s RDLEN) start (rd s RDH)) as (Hi' & _ & Hstep); [by apply reg_fits|done..|].
    fold r in Hi', Hstep. specialize (Hstep Hrs). specialize (Hd Hs Hi'). change (rd s1 RDLEN) with (rd s RDLEN) in *. lia.
  - right. exists b. eexists. split; [reflexivity|]. exists r', w2.
    revert Hin'. regs. change (rd s1 RDLEN) with (rd s RDLEN). intros Hin'.
    split; [done|split; [|split; [auto|]]]; [eapply dma_trans; [exact Hdma|exact Hdma']|].
    f_equal. cbn [dev wr upd_dev with_dev nc s1]. by rewrite set_reg_set_reg.
Qed.
End RxLoop.

(** ** From the vector to the descriptors *)

(** The frame as delivered: padded to the minimum length, and without its tag when stripping. *)
Definition padded_frame (iov : list iovec) : list Z :=
  concat iov ++ replicate (60 - length (concat iov)) 0.
Definition strips (s : E1000State) (frame : list Z) : bool :=
  vlan_enabled s && (tag_type frame =? Z.land (reg s VET) 0xffff).
Definition payload (s : E1000State) (frame : list Z) : list Z :=
  if strips s frame then take 12 frame ++ drop 16 frame else frame.

Lemma padded_frame_length iov : (60 ≤ length (padded_frame iov))%nat.
Proof. unfold padded_frame. rewrite length_app, length_replicate. lia. Qed.

Lemma rx_pad_ok stack iov0 iov' :
  let iov := iov0 :: iov' in
  ∃ out fb b, rx_pad stack iov0 iov (Z.of_nat (iov_size iov)) =
      Ok (out, fb, b, Z.of_nat (length (padded_frame iov))) ∧
    concat out = padded_frame iov ∧ take 18 fb = take 18 (padded_frame iov) ∧
    match out with
    | [] => False
    | v :: _ => if b then fb = v ∧ (18 ≤ length v)%nat else Z.of_nat (iov_size iov) <? MIN_BUF_SIZE = false
    end.
Proof.
  cbn zeta. set (iov := iov0 :: iov'). rewrite iov_size_concat. unfold rx_pad, iov_to_buf.
  rewrite !iov_to_buf_loop_spec by lia. cbn [Nat.eqb mbind res_bind]. rewrite drop_0, !Nat.sub_0_r.
  unfold padded_frame. destruct (Z.ltb_spec (Z.of_nat (length (concat iov))) MIN_BUF_SIZE) as [Hs|Hs].
  - unfold MIN_BUF_SIZE in *. rewrite take_ge by lia.
    replace (Z.to_nat (60 - Z.of_nat (length (concat iov)))) with (60 - length (concat iov))%nat by lia.
    do 3 eexists. split; [do 2 f_equal; rewrite length_app, length_replicate; lia|].
    cbn [concat]. rewrite app_nil_r. do 2 (split; [done|]). split; [done|].
    rewrite length_app, length_replicate. lia.
  - unfold MIN_BUF_SIZE in *. replace (60 - length (concat iov))%nat with 0%nat by lia.
    rewrite app_nil_r. unfold MAXIMUM_ETHERNET_HDR_LEN.
    destruct (Z.ltb_spec (Z.of_nat (length iov0)) (14 + 4)) as [Hv|Hv]; do 3 eexists.
    + split; [reflexivity|]. split; [done|]. split; [|done].
      rewrite take_app_le by (rewrite length_take; lia). change (Z.to_nat (14 + 4)) with 18%nat.
      by rewrite take_take, Nat.min_id.
    + split; [reflexivity|]. split; [done|]. unfold iov. cbn. split; [|split; [done|lia]].
      by rewrite take_app_le by lia.
Qed.

Lemma rx_skip_ok iov n :
  0 ≤ n < Z.of_nat (length (concat iov)) →
  ∃ cur ofs, rx_skip iov n = Ok (cur, ofs) ∧ cur_ok cur ofs ∧ rest cur ofs = rest iov n ∧
    (length (concat cur) ≤ length (concat iov))%nat.
Proof.
  revert n. induction iov as [|v iov IH]; intros n Hn; cbn [concat] in Hn; [cbn in Hn; lia|].
  rewrite length_app in Hn. cbn [rx_skip]. destruct (Z.leb_spec (Z.of_nat (length v)) n).
  - destruct (IH (n - Z.of_nat (length v))) as (cur & ofs & -> & Hc & Hr & Hl); [lia|].
    exists cur, ofs. split; [done|]. split; [done|]. rewrite Hr. unfold rest. cbn [concat].
    rewrite length_app, drop_app_ge by lia. split; [f_equal; lia|lia].
  - do 2 eexists. split; [reflexivity|]. split; [unfold cur_ok; lia|done].
Qed.

Lemma rx_strip_ok out fb (b : bool) frame :
  concat out = frame → (60 ≤ length frame)%nat → take 18 fb = take 18 frame →
  match out with [] => False | v :: _ => if b then fb = v ∧ (18 ≤ length v)%nat else True end →
  ∃ iov cur ofs, rx_strip out fb b = Ok (iov, cur, ofs) ∧ cur_ok cur ofs ∧
    rest cur ofs = take 12 frame ++ drop 16 frame ∧ (length (concat cur) ≤ length frame)%nat ∧
    concat iov = take 4 frame ++ take 12 frame ++ drop 16 frame.
Proof.
  intros <- Hl Hfb Ho. assert (Ht12 : take 12 fb = take 12 (concat out)).
  { replace (take 12 fb) with (take 12 (take 18 fb)) by by rewrite take_take. by rewrite Hfb, take_take. }
  assert (H18 : (18 ≤ length fb)%nat).
  { apply (f_equal length) in Hfb. rewrite !length_take in Hfb. lia. }
  unfold rx_strip. destruct b.
  - destruct out as [|v out]; [done|]. destruct Ho as [-> Hv].
    rewrite (proj2 (Nat.leb_le _ _)) by lia. do 3 eexists. split; [reflexivity|].
    split; [unfold cur_ok; rewrite !length_app, !length_take, length_drop; lia|].
    unfold rest. cbn [concat]. rewrite (take_app_le v _ 12), (take_app_le v _ 4), (drop_app_le v _ 16) by lia. rewrite <-!app_assoc.
    rewrite drop_app_ge by (rewrite length_take; lia). rewrite length_take.
    replace (Z.to_nat 4 - 4 `min` length v)%nat with 0%nat by lia. rewrite drop_0.
    split; [done|]. rewrite !length_app, !length_take, length_drop. split; [lia|]. done.
  - unfold iov_from_buf.
    destruct (iov_from_buf_loop_spec out 4 0 fb 12) as (iov & -> & Hc & _); [lia..|].
    cbn [mbind res_bind Nat.eqb]. rewrite Nat.sub_0_r, drop_0, Ht12 in Hc.
    assert (Hlen : length (take 12 (concat out)) = 12%nat) by (rewrite length_take; lia).
    rewrite splice_fit, Hlen in Hc by lia.
    assert (Hci : length (concat iov) = length (concat out)).
    { rewrite Hc, !length_app, length_drop, !length_take. lia. }
    destruct (rx_skip_ok iov 4) as (cur & ofs & -> & Hcur & Hr & Hcl); [lia|].
    cbn [mbind res_bind]. do 3 eexists. split; [reflexivity|]. split; [done|].
    rewrite Hr. unfold rest. rewrite Hc, drop_app_ge by (rewrite length_take; lia).
    rewrite length_take. replace (Z.to_nat 4 - 4 `min` length (concat out))%nat with 0%nat by lia.
    rewrite drop_0. split; [done|]. split; [lia|done].
Qed.

(** The filter's view is the head of the frame. *)
Lemma head_eq (a b : list Z) o n : (o + n ≤ 18)%nat → take 18 a = take 18 b → take n (drop o a) = take n (drop o b).
Proof.
  intros Hn He. rewrite !take_drop_commute.
  rewrite <-(Nat.min_l (o + n) 18), <-!take_take by lia. by rewrite He.
Qed.

(** The frame passes every check before the ring is touched. *)
Definition admitted (s : E1000State) (frame : list Z) : Prop :=
  oversized s (Z.of_nat (length frame)) = false ∧ vlan_admitted s frame ∧ addr_admitted s (dst_of frame).

Definition rx_regs : list Z := [RDH; GPRC; TPR; TORH; TORL; ICR; ICS].

Section Receiving.
Context {W : Type} `{DeviceEnv W}.
Implicit Types s : Machine W.

(** A frame is dropped, or handed to the descriptor loop with the tag removed. *)
Lemma receive_iov_shape fuel iov s :
  iov ≠ [] → tst (rd s STATUS) E1000_STATUS_LU = true → tst (rd s RCTL) E1000_RCTL_EN = true →
  let frame := padded_frame iov in
  (¬ admitted (dev s) frame ∧
   e1000_receive_iov fuel iov s = Ok (Z.of_nat (length frame), iov, s)) ∨
  (admitted (dev s) frame ∧ ∃ cur ofs out,
     cur_ok cur ofs ∧ rest cur ofs = payload (dev s) frame ∧
     (length (concat cur) ≤ length frame)%nat ∧ length (concat out) = length (concat iov) ∧
     (Forall (fits 8) (concat iov) → Forall (fits 8) (concat out)) ∧
     (strips (dev s) frame = false → out = iov) ∧
     e1000_receive_iov fuel iov s =
       ('(ret, s) ← rx_deliver fuel (if strips (dev s) frame then tag_id frame else 0)
                      (if strips (dev s) frame then E1000_RXD_STAT_VP else 0)
                      (Z.of_nat (length (payload (dev s) frame))) cur ofs s;
        Ok (ret, out, s))).
Proof.
  intros Hne Hlu Hen. cbn zeta. destruct iov as [|iov0 iov']; [done|].
  unfold e1000_receive_iov. cbv beta iota zeta. set (iov := iov0 :: iov').
  rewrite Hlu, Hen. cbn [negb].
  destruct (rx_pad_ok (stack_bytes 60) iov0 iov') as (out & fb & b & Hpad & Hout & Hfb & Hshape).
  fold iov in Hpad, Hout, Hfb, Hshape. rewrite Hpad. cbn [mbind res_bind].
  pose proof (padded_frame_length iov) as Hl60. set (frame := padded_frame iov) in *.
  assert (H18 : (18 ≤ length fb)%nat).
  { apply (f_equal length) in Hfb. rewrite !length_take in Hfb. lia. }
  assert (Htype : tag_type fb = tag_type frame) by (unfold tag_type; f_equal; apply head_eq; [lia|done]).
  assert (Hid : tag_id fb = tag_id frame) by (unfold tag_id; f_equal; apply head_eq; [lia|done]).
  assert (Hdst : dst_of fb = dst_of frame)
    by (unfold dst_of; rewrite <-(drop_0 fb), <-(drop_0 frame); apply head_eq; [lia|done]).
  unfold admitted. destruct (oversized (dev s) (Z.of_nat (length frame))).
  { left. split; [|done]. by intros [? _]. }
  destruct (receive_filter_ok (dev s) fb) as (pass & -> & Hpass); [lia|]. cbn [mbind res_bind].
  unfold vlan_admitted in Hpass. rewrite Hid, Htype, Hdst in Hpass. fold (vlan_admitted (dev s) frame) in Hpass.
  destruct pass; cbn [negb].
  2:{ left. split; [|done]. intros (_ & Hv & Ha). by destruct Hpass as [_ Hp]; discriminate Hp. }
  right. split; [split; [done|by apply Hpass]|].
  rewrite is_vlan_ok, Htype by lia. cbn [mbind res_bind]. unfold payload.
  fold (strips (dev s) frame). destruct (strips (dev s) frame) eqn:Es.
  - rewrite peek_ok by lia. cbn [mbind res_bind]. fold (tag_id fb). rewrite Hid.
    destruct (rx_strip_ok out fb b frame) as (iov2 & cur & ofs & -> & Hc & Hr & Hcl & Hcat); [done..| |].
    { destruct out; [done|]. destruct b; auto. }
    cbn [mbind res_bind]. exists cur, ofs, (if Z.of_nat (iov_size iov) <? MIN_BUF_SIZE then iov else iov2).
    split; [done|]. split; [done|]. split; [done|].
    assert (Hpn : Z.of_nat (iov_size iov) <? MIN_BUF_SIZE = false → frame = concat iov).
    { intros Hp. apply Z.ltb_ge in Hp. unfold MIN_BUF_SIZE in Hp. rewrite iov_size_concat in Hp.
      unfold frame, padded_frame. replace (60 - _)%nat with 0%nat by lia. apply app_nil_r. }
    split; [|split; [|split; [done|]]].
    + destruct (_ <? MIN_BUF_SIZE); [done|]. rewrite <-Hpn, Hcat, !length_app, !length_take, length_drop by done. lia.
    + intros Hf. destruct (_ <? MIN_BUF_SIZE); [done|]. rewrite Hcat, Hpn by done.
      repeat (apply Forall_app; split); auto using Forall_take, Forall_drop.
    + do 2 f_equal. rewrite length_app, length_take, length_drop. f_equal. lia.
  - exists out, 0, iov. split; [unfold cur_ok; destruct out; [done|lia]|].
    unfold rest. rewrite drop_0, Hout. do 5 (split; [done|]). done.
Qed.

Lemma payload_length d frame :
  (60 ≤ length frame)%nat →
  (56 ≤ length (payload d frame) ≤ length frame ≤ length (payload d frame) + 4)%nat.
Proof.
  intros. unfold payload. split_if; [|lia]. rewrite length_app, length_take, length_drop. lia.
Qed.

Lemma fcs_len_range d : 0 ≤ fcs_len d ≤ 4.
Proof. unfold fcs_len. split_if; lia. Qed.

(** Counting a received frame. *)
Lemma rx_finish_evolves size s : evolves rx_regs s (rx_finish size s).
Proof.
  unfold rx_finish. apply evolves_then_ics; [|reflexivity]. unfold rx_count. cbn zeta.
  apply evolves_then_wr; [|reflexivity].
  split_if; repeat (apply evolves_then_wr; [|reflexivity]); apply evolves_refl.
Qed.

(** Delivery to the ring: the fuel ran out before the ring wrapped, or one of three results. *)
Lemma rx_deliver_cases fuel sp st size cur ofs s :
  cur_ok cur ofs → size = Z.of_nat (length (rest cur ofs)) → 0 < size →
  Z.of_nat (length (concat cur)) < 2 ^ 64 → dev_wf (dev s) → 0 ≤ rxbuf_size (dev s) →
  (rx_deliver fuel sp st size cur ofs s = Diverge ∧
   (in_ring (rd s RDLEN) (rd s RDH) → Z.of_nat fuel < ring_dist (rd s RDLEN) (rd s RDH) (rd s RDH))) ∨
  (∃ ret s', rx_deliver fuel sp st size cur ofs s = Ok (ret, s') ∧ (ret = -1 ∨ ret = size) ∧
     evolves rx_regs s s' ∧ tx (dev s') = tx (dev s) ∧
     head_moved RDLEN RDH s s').
Proof.
  intros Hc Hsz Hpos Hl Hw Hrb. unfold rx_deliver. cbn zeta.
  pose proof (fcs_len_range (dev s)) as Hf.
  destruct (e1000_has_rxbufs (dev s) (size + fcs_len (dev s))); cbn [negb].
  2:{ right. do 2 eexists. split; [reflexivity|]. split; [auto|].
      split; [apply evolves_then_ics; [apply evolves_refl|reflexivity]|].
      unfold set_ics, head_moved. rewrite !sic_rd, sic_tx by neq_reg. split; [done|by left]. }
  destruct (rx_loop_cases fuel (rd s RDH) sp st size (size + fcs_len (dev s))
              (mkLoc (stack_bytes 16) 0 cur ofs) s) as [(-> & Hd)|(b & s' & -> & r & w' & Hr & Hdma & Hin & ->)].
  { split; [done|]. cbn [l_offset l_iov l_ofs]. lia. } { lia. } { done. } { done. } { cbn; lia. }
  - left. split; [done|]. auto.
  - right. cbn [mbind res_bind]. set (s1 := mkMachine (set_reg RDH r (dev s)) (nc s) w').
    assert (He : evolves rx_regs s s1).
    { eapply evolves_trans; [apply (evolves_dma _ w'); exact Hdma|].
      change s1 with (wr RDH r (mkMachine (dev s) (nc s) w')). apply evolves_then_wr; [apply evolves_refl|reflexivity]. }
    assert (Hrd : ∀ i, i ≠ RDH → rd s1 i = rd s i) by (intros; apply reg_set_ne; congruence).
    assert (HR : rd s1 RDH = r) by (etransitivity; [apply reg_set_eq|by apply u32_small]).
    destruct b; cbn [id].
    + exists size, (rx_finish size s1). split; [done|]. split; [auto|]. split.
      { eapply evolves_trans; [exact He|apply rx_finish_evolves]. }
      unfold rx_finish, set_ics, head_moved. rewrite sic_tx, !sic_rd by neq_reg. unfold rx_count.
      cbn zeta. regs. split; [by split_if|right]. split_if; regs; rewrite Hrd, HR by neq_reg; done.
    + exists (-1), (set_ics E1000_ICS_RXO s1). split; [done|]. split; [auto|]. split.
      { apply evolves_then_ics; [exact He|reflexivity]. }
      unfold set_ics, head_moved. rewrite sic_tx, !sic_rd by neq_reg. rewrite (Hrd RDLEN), HR by neq_reg. auto.
Qed.
End Receiving.

Section ReceiveTheorems.
Context {W : Type} `{DeviceEnv W}.
Implicit Types s : Machine W.

Lemma receive_iov_cases fuel iov s :
  iov ≠ [] → Z.of_nat (length (concat iov)) < 2 ^ 63 → dev_wf (dev s) → 0 ≤ rxbuf_size (dev s) →
  (e1000_receive_iov fuel iov s = Diverge ∧
   (in_ring (rd s RDLEN) (rd s RDH) → Z.of_nat fuel < ring_dist (rd s RDLEN) (rd s RDH) (rd s RDH))) ∨
  (∃ ret out s', e1000_receive_iov fuel iov s = Ok (ret, out, s') ∧ (ret = -1 ∨ 56 ≤ ret ≤ Z.of_nat (length (concat iov)) + 60) ∧
     evolves rx_regs s s' ∧ tx (dev s') = tx (dev s) ∧
     head_moved RDLEN RDH s s' ∧
     length (concat out) = length (concat iov) ∧
     (Forall (fits 8) (concat iov) → Forall (fits 8) (concat out))).
Proof.
  intros Hne Hl Hw Hrb.
  destruct (tst (rd s STATUS) E1000_STATUS_LU) eqn:Hlu.
  2:{ right. exists (-1), iov, s. unfold e1000_receive_iov. rewrite Hlu. destruct iov; [done|].
      repeat (split; [auto using evolves_refl, head_moved_refl|]). done. }
  destruct (tst (rd s RCTL) E1000_RCTL_EN) eqn:Hen.
  2:{ right. exists (-1), iov, s. unfold e1000_receive_iov. rewrite Hlu, Hen. destruct iov; [done|].
      repeat (split; [auto using evolves_refl, head_moved_refl|]). done. }
  pose proof (padded_frame_length iov) as Hpf.
  assert (Hfl : (length (padded_frame iov) ≤ length (concat iov) + 60)%nat).
  { unfold padded_frame. rewrite length_app, length_replicate. lia. }
  destruct (receive_iov_shape fuel iov s Hne Hlu Hen)
    as [(_ & ->)|(_ & cur & ofs & out & Hc & Hr & Hcl & Hol & Hof & _ & ->)].
  - right. do 3 eexists. split; [reflexivity|]. split; [right; lia|].
    repeat (split; [auto using evolves_refl, head_moved_refl|]). done.
  - pose proof (payload_length (dev s) (padded_frame iov) Hpf) as Hpl.
    set (sp := if strips _ _ then tag_id _ else 0). set (st := if strips _ _ then E1000_RXD_STAT_VP else 0).
    destruct (rx_deliver_cases fuel sp st (Z.of_nat (length (payload (dev s) (padded_frame iov)))) cur ofs s)
      as [(-> & Hd)|(ret & s' & -> & Hret & Hev & Htx & Hin)]; try done; try lia.
    { by rewrite Hr. }
    + left. done.
    + right. do 3 eexists. split; [reflexivity|].
      split; [destruct Hret as [->| ->]; [by left|right; lia]|]. done.
Qed.

Lemma receive_cases fuel buf s :
  Z.of_nat (length buf) < 2 ^ 63 → dev_wf (dev s) → 0 ≤ rxbuf_size (dev s) →
  (e1000_receive fuel buf s = Diverge ∧
   (in_ring (rd s RDLEN) (rd s RDH) → Z.of_nat fuel < ring_dist (rd s RDLEN) (rd s RDH) (rd s RDH))) ∨
  (∃ ret buf' s', e1000_receive fuel buf s = Ok (ret, buf', s') ∧ (ret = -1 ∨ 56 ≤ ret ≤ Z.of_nat (length buf) + 60) ∧
     evolves rx_regs s s' ∧ tx (dev s') = tx (dev s) ∧
     head_moved RDLEN RDH s s' ∧
     length buf' = length buf ∧ (Forall (fits 8) buf → Forall (fits 8) buf')).
Proof.
  intros Hl Hw Hrb. unfold e1000_receive.
  destruct (receive_iov_cases fuel [buf] s) as [(-> & Hd)|(ret & out & s' & -> & ?)]; auto.
  - cbn. by rewrite app_nil_r.
  - right. cbn [mbind res_bind]. do 3 eexists. split; [reflexivity|].
    cbn [concat] in *. rewrite app_nil_r in *. done.
Qed.

(** C10: on a complete header (16 bytes) the filter accepts a frame exactly when its VLAN tag, if
    VLAN filtering is on, is one the VFTA bitmap enables, and its destination is admitted by
    promiscuous mode, multicast promiscuous mode, broadcast mode, one of the sixteen exact
    addresses or the multicast hash table; and it reads nothing beyond the header. *)
Theorem receive_filter_spec (d : E1000State) (buf : list Z) :
  (16 ≤ length buf)%nat →
  ∃ b, receive_filter d buf = Ok b ∧
    (b = true ↔ vlan_admitted d buf ∧ addr_admitted d (dst_of buf)).
Proof. apply receive_filter_ok. Qed.

(** C8: for every vector of buffers and every well-formed device whose receive head is an index
    of the ring, [e1000_receive_iov] returns (the descriptor loop takes at most 65536 rounds,
    one visit of every descriptor) without leaving the caller's buffers, keeps the device
    well-formed, the head in the ring and the interrupt state consistent, touches no register
    but the head, the statistics and the causes, and never answers 0 (which would make the
    sender's queue wait). *)
Theorem e1000_receive_iov_returns fuel iov s :
  iov ≠ [] → Z.of_nat (length (concat iov)) < 2 ^ 63 → dev_wf (dev s) → 0 ≤ rxbuf_size (dev s) →
  fits 20 (rd s RDLEN) → in_ring (rd s RDLEN) (rd s RDH) → 65536 ≤ Z.of_nat fuel →
  ∃ ret out s', e1000_receive_iov fuel iov s = Ok (ret, out, s') ∧ (ret = -1 ∨ 56 ≤ ret ≤ Z.of_nat (length (concat iov)) + 60) ∧
    length (concat out) = length (concat iov) ∧
    dev_wf (dev s') ∧ in_ring (rd s' RDLEN) (rd s' RDH) ∧
    (irq_ok (dev s) → irq_ok (dev s')) ∧
    (∀ i, i ∉ rx_regs → rd s' i = rd s i) ∧ tx (dev s') = tx (dev s).
Proof.
  intros Hne Hl Hw Hrb Hrl Hin Hf.
  destruct (receive_iov_cases fuel iov s) as [(_ & Hd)|(ret & out & s' & -> & Hret & Hev & Htx & Hin' & Hlen & _)];
    [done..| |].
  - specialize (Hd Hin). pose proof (ring_dist_bound (rd s RDLEN) (rd s RDH) (rd s RDH)). naive_solver lia.
  - exists ret, out, s'. apply head_moved_ring in Hin'; [|by apply (ev_regs _ _ _ Hev), (bool_decide_eq_false (_ ∈ _))|done].
    destruct Hev. auto 10.
Qed.
End ReceiveTheorems.

(** ** Delivery into guest memory *)

Lemma le_val_single b : le_val [b] = b.
Proof. cbn. lia. Qed.

(** Fields of a descriptor read from bytes are in range. *)
Record rxd_wf (d : e1000_rx_desc) : Prop := {
  rxd_wf_addr : fits 64 (rxd_buffer_addr d);
  rxd_wf_length : fits 16 (rxd_length d);
  rxd_wf_csum : fits 16 (rxd_csum d);
  rxd_wf_status : fits 8 (rxd_status d);
  rxd_wf_errors : fits 8 (rxd_errors d);
  rxd_wf_special : fits 16 (rxd_special d);
}.

Lemma field_fits l o n :
  Forall (fits 8) l → (o + n ≤ length l)%nat → fits (8 * Z.of_nat n) (le_val (take n (drop o l))).
Proof.
  intros Hl Hn. replace n with (length (take n (drop o l))) at 1 by (rewrite length_take, length_drop; lia).
  apply le_val_fits. by apply Forall_take, Forall_drop.
Qed.

Lemma rx_desc_of_bytes_wf l : Forall (fits 8) l → length l = 16%nat → rxd_wf (rx_desc_of_bytes l).
Proof.
  intros Hl Hn. unfold rx_desc_of_bytes.
  split; cbn [rxd_buffer_addr rxd_length rxd_csum rxd_status rxd_errors rxd_special].
  - rewrite <-(drop_0 l). apply (field_fits l 0 8 Hl). lia.
  - apply (field_fits l 8 2 Hl). lia.
  - apply (field_fits l 10 2 Hl). lia.
  - apply (field_fits l 12 1 Hl). lia.
  - apply (field_fits l 13 1 Hl). lia.
  - apply (field_fits l 14 2 Hl). lia.
Qed.

Lemma le_val_of_bytes n v : fits (8 * Z.of_nat n) v → le_val (le_bytes n v) = v.
Proof.
  intros Hv. rewrite le_val_le_bytes. apply Z.mod_small. change 256 with (2 ^ 8).
  rewrite <-Z.pow_mul_r by lia. exact Hv.
Qed.

(** Encoding and decoding a descriptor. *)
Lemma rx_desc_roundtrip d : rxd_wf d → rx_desc_of_bytes (rx_desc_to_bytes d) = d.
Proof.
  intros [? ? ? ? ? ?]. destruct d as [a ln cs st er sp].
  unfold rx_desc_to_bytes, rx_desc_of_bytes. cbn [rxd_buffer_addr rxd_length rxd_csum rxd_status rxd_errors rxd_special] in *.
  f_equal.
  all: match goal with |- le_val ?l = ?v => first
    [ change l with (le_bytes 8 v) | change l with (le_bytes 2 v) | change l with (le_bytes 1 v) ] end.
  all: by apply le_val_of_bytes.
Qed.

Section Guest.
Context {W : Type} `{DeviceEnvLaws W} `{!DmaMemory W}.
Implicit Types s : Machine W.

Definition guest_bytes (w : W) (a : Z) (n : nat) : list Z := (λ i, guest w (a + Z.of_nat i)) <$> seq 0 n.

Lemma guest_bytes_ext w w' a n :
  (∀ x, a ≤ x < a + Z.of_nat n → guest w x = guest w' x) → guest_bytes w a n = guest_bytes w' a n.
Proof.
  intros He. unfold guest_bytes. apply list_fmap_ext. intros i x Hx. apply lookup_seq in Hx as [-> Hi].
  apply He. lia.
Qed.
Lemma guest_bytes_written w' a l :
  (∀ x, a ≤ x < a + Z.of_nat (length l) → guest w' x = nth (Z.to_nat (x - a)) l 0) →
  guest_bytes w' a (length l) = l.
Proof.
  intros He. apply list_eq. intros i. unfold guest_bytes. rewrite list_lookup_fmap.
  destruct (decide (i < length l)%nat) as [Hi|Hi].
  - rewrite lookup_seq_lt by done. cbn. rewrite He by lia.
    replace (Z.to_nat (a + Z.of_nat i - a)) with i by lia.
    destruct (lookup_lt_is_Some_2 l i) as [x Hx]; [done|]. by rewrite Hx, (nth_lookup_Some _ _ _ _ Hx).
  - rewrite lookup_seq_ge, (lookup_ge_None_2 l) by lia. done.
Qed.
Lemma guest_bytes_fits w a n : Forall (fits 8) (guest_bytes w a n).
Proof.
  pose proof (dma_read_bytes a (stack_bytes n) w (stack_fits n)) as Hb.
  rewrite guest_read, stack_length in Hb. exact Hb.
Qed.

Lemma sic_guest v s x : guest (world (set_interrupt_cause v s)) x = guest (world s) x.
Proof.
  unfold set_interrupt_cause. cbn zeta.
  repeat split_if; cbn -[wr rd tst mitigation_delay]; rewrite ?guest_irq, ?guest_timer; done.
Qed.

(** The descriptor the device is about to use. *)
Definition rx_base s : Z := u64 (rx_desc_base (dev s) + 16 * rd s RDH).
Definition rx_head_desc s : e1000_rx_desc := rx_desc_of_bytes (guest_bytes (world s) (rx_base s) 16).

(** What the descriptor looks like once it holds a whole frame. *)
Definition completed_desc (d : e1000_rx_desc) (len special vlan_status : Z) : e1000_rx_desc :=
  mkRxDesc (rxd_buffer_addr d) len (rxd_csum d)
    (Z.lor (Z.lor (rxd_status d) (Z.lor vlan_status E1000_RXD_STAT_DD))
           (Z.lor E1000_RXD_STAT_EOP E1000_RXD_STAT_IXSM)) (rxd_errors d) special.

Lemma rx_fill_whole sp st cur ofs size total s :
  let d := rx_head_desc s in
  cur_ok cur ofs → size = Z.of_nat (length (rest cur ofs)) → 0 < size ≤ total →
  Z.of_nat (length (concat cur)) < 2 ^ 64 → total ≤ rxbuf_size (dev s) → total < 2 ^ 16 →
  rxd_buffer_addr d ≠ 0 → fits 16 sp → fits 8 st →
  ∃ cs l', rx_fill sp st size total (mkLoc (stack_bytes 16) 0 cur ofs) s =
    Ok (l', mkMachine (dev s) (nc s)
              (pci_dma_write (rx_base s) (rx_desc_to_bytes (completed_desc d total sp st))
                 (write_chunks (rxd_buffer_addr d) cs (world s)))) ∧
    concat cs = rest cur ofs ∧ l_offset l' = total.
Proof.
  cbn zeta. intros Hc Hsz Hst Hl Hrb H16 Ha Hsp Hstf. unfold rx_fill. fold (rx_base s).
  cbn [l_desc l_offset l_iov l_ofs]. rewrite guest_read, stack_length. fold (guest_bytes (world s) (rx_base s) 16).
  fold (rx_head_desc s). set (d := rx_head_desc s) in *. cbn zeta. cbn [rxd_buffer_addr rxs_status rxs_special].
  rewrite (proj2 (Z.eqb_neq _ _) Ha). cbn [negb]. rewrite !Z.sub_0_r.
  rewrite (proj2 (Z.ltb_lt 0 size)), !(proj2 (Z.ltb_ge _ _)) by lia.
  destruct (rx_copy_spec cur ofs size (rxd_buffer_addr d) (world s)) as (iov' & ofs' & cs & -> & _ & _ & Hcs & _).
  { intros ->. unfold rest in Hsz. cbn [concat] in Hsz. rewrite drop_nil in Hsz. cbn in Hsz. lia. } { done. } { lia. } { done. }
  cbn [mbind res_bind]. rewrite Z.add_0_l, Z.leb_refl. exists cs.
  match goal with |- context [Ok (mkLoc (rx_desc_to_bytes ?d') _ _ _, _)] =>
    assert (He : d' = completed_desc d total sp st); [|rewrite He; eexists; split; [reflexivity|split; [rewrite Hcs; apply take_ge; lia|reflexivity]]] end.
  - unfold completed_desc, rxs_length, rxs_status, rxs_special.
    cbn [rxd_buffer_addr rxd_length rxd_csum rxd_status rxd_errors rxd_special].
    assert (Hd : rxd_wf d) by (apply rx_desc_of_bytes_wf; [apply guest_bytes_fits|apply length_fmap]).
    destruct Hd. rewrite (u16_small sp), (u16_small total) by (done || (split; lia)).
    clearbody d. rewrite (u8_small (Z.lor (rxd_status d) _)) by solve_fits.
    rewrite u8_small by solve_fits. reflexivity.
Qed.
End Guest.

(** The 64-bit counter of octets received. *)
Definition rx_octets {W} (s : Machine W) : Z := rd s TORH * 2 ^ 32 + rd s TORL.

(** A carry out of the low word is detected by comparing the sum with an operand. *)
Lemma carry_add lo hi n :
  fits 32 lo → fits 32 hi → 0 ≤ n < 2 ^ 32 →
  (if u32 (lo + n) <? lo then u32 (hi + 1) else hi) * 2 ^ 32 + u32 (lo + n) =
  (hi * 2 ^ 32 + lo + n) mod 2 ^ 64.
Proof.
  unfold fits, u32. intros Hlo Hhi Hn. change (2 ^ 64) with (2 ^ 32 * 2 ^ 32) in *.
  set (B := 2 ^ 32) in *. assert (0 < B) by done. clearbody B.
  destruct (Z.lt_ge_cases (lo + n) B) as [Hc|Hc].
  - rewrite (Z.mod_small (lo + n)) by lia. rewrite (proj2 (Z.ltb_ge _ _)) by lia.
    rewrite Z.mod_small by nia. lia.
  - assert (Hm : (lo + n) mod B = lo + n - B) by (symmetry; apply Z.mod_unique with 1; lia).
    rewrite Hm, (proj2 (Z.ltb_lt _ _)) by lia.
    destruct (Z.lt_ge_cases (hi + 1) B).
    + rewrite Z.mod_small by lia. rewrite Z.mod_small by nia. lia.
    + replace (hi + 1) with B by lia. rewrite Z.mod_same by lia.
      apply Z.mod_unique with 1; nia.
Qed.

Section Delivers.
Context {W : Type} `{DeviceEnvLaws W} `{!DmaMemory W}.
Implicit Types s : Machine W.

Lemma rx_count_octets size s :
  dev_wf (dev s) → 0 ≤ size < 2 ^ 32 - 4 →
  rx_octets (rx_count size s) = (rx_octets s + size + 4) mod 2 ^ 64.
Proof.
  intros Hw Hs. unfold rx_octets, rx_count. cbn zeta. regs. rewrite (u32_small (u32 _)) by apply u32_fits.
  rewrite <-!(Z.add_assoc _ size 4), <-(carry_add (rd s TORL) (rd s TORH) (size + 4));
    [|by apply reg_fits|by apply reg_fits|lia].
  split_if; regs; done.
Qed.

Lemma rx_count_rd size s i :
  bool_decide (i ∉ [GPRC; TPR; TORH; TORL]) = true → rd (rx_count size s) i = rd s i.
Proof.
  intros Hi. apply bool_decide_eq_true in Hi. unfold rx_count. cbn zeta.
  assert (∀ j v s0, j ∈ [GPRC; TPR; TORH; TORL] → rd (wr j v s0) i = rd s0 i) as Hne.
  { intros j v s0 Hj. apply rd_wr_ne. by intros ->. }
  split_if; rewrite !Hne by (repeat constructor); done.
Qed.

Lemma payload_fits d frame : Forall (fits 8) frame → Forall (fits 8) (payload d frame).
Proof.
  intros Hf. unfold payload. split_if; [|done].
  apply Forall_app; split; auto using Forall_take, Forall_drop.
Qed.
Lemma tag_id_fits frame : Forall (fits 8) frame → (16 ≤ length frame)%nat → fits 16 (tag_id frame).
Proof.
  intros Hf Hl. unfold tag_id.
  pose proof (be_val_fits (take 2 (drop 14 frame)) ltac:(by apply Forall_take, Forall_drop)) as Hb.
  rewrite length_take, length_drop in Hb. replace (2 `min` _)%nat with 2%nat in Hb by lia. exact Hb.
Qed.

(** Guest memory after a frame and then its descriptor were stored. *)
Definition stored (base ba : Z) (db pl : list Z) (w : W) (x : Z) : Z :=
  if (base <=? x) && (x <? base + Z.of_nat (length db)) then nth (Z.to_nat (x - base)) db 0
  else if (ba <=? x) && (x <? ba + Z.of_nat (length pl)) then nth (Z.to_nat (x - ba)) pl 0
  else guest w x.

Lemma stored_reads base ba db pl w w' :
  (∀ x, guest w' x = stored base ba db pl w x) →
  ba + Z.of_nat (length pl) ≤ base ∨ base + Z.of_nat (length db) ≤ ba →
  guest_bytes w' base (length db) = db ∧ guest_bytes w' ba (length pl) = pl ∧
  (∀ x, ¬ (ba ≤ x < ba + Z.of_nat (length pl)) → ¬ (base ≤ x < base + Z.of_nat (length db)) →
        guest w' x = guest w x).
Proof.
  intros Hw Hd. repeat split.
  - apply guest_bytes_written. intros x Hx. rewrite Hw. unfold stored.
    by rewrite (proj2 (Z.leb_le _ _)), (proj2 (Z.ltb_lt _ _)) by lia.
  - apply guest_bytes_written. intros x Hx. rewrite Hw. unfold stored.
    rewrite (proj2 (andb_false_iff _ _)) by (rewrite Z.leb_gt, Z.ltb_ge; lia).
    by rewrite (proj2 (Z.leb_le _ _)), (proj2 (Z.ltb_lt _ _)) by lia.
  - intros x H1 H2. rewrite Hw. unfold stored.
    by rewrite !(proj2 (andb_false_iff _ _)) by (rewrite Z.leb_gt, Z.ltb_ge; lia).
Qed.

(** One round suffices for a frame that fits the head buffer. *)
Lemma rx_deliver_whole fuel sp st cur ofs s :
  let pl := rest cur ofs in
  let len := Z.of_nat (length pl) in
  let d := rx_head_desc s in
  cur_ok cur ofs → 0 < len → Forall (fits 8) pl → Z.of_nat (length (concat cur)) < 2 ^ 64 →
  len + fcs_len (dev s) ≤ rxbuf_size (dev s) → rxbuf_size (dev s) < 2 ^ 16 →
  rd s RDH ≠ rd s RDT → ring_next (rd s RDLEN) (rd s RDH) ≠ rd s RDH →
  rxd_buffer_addr d ≠ 0 → rxd_buffer_addr d + len < 2 ^ 64 → fits 16 sp → fits 8 st →
  ∃ w', rx_deliver (S fuel) sp st len cur ofs s =
    Ok (len, rx_finish len (wr RDH (ring_next (rd s RDLEN) (rd s RDH)) (mkMachine (dev s) (nc s) w'))) ∧
    (∀ x, guest w' x = stored (rx_base s) (rxd_buffer_addr d)
       (rx_desc_to_bytes (completed_desc d (len + fcs_len (dev s)) sp st)) pl (world s) x).
Proof.
  cbn zeta. intros Hc Hpos Hpf Hcl Hroom H16 Hrt Hnx Ha Hend Hsp Hst.
  pose proof (fcs_len_range (dev s)) as Hfcs. unfold rx_deliver. cbn zeta. unfold e1000_has_rxbufs.
  rewrite (proj2 (Z.leb_le _ _) Hroom). fold (rd s RDH) (rd s RDT). rewrite (proj2 (Z.eqb_neq _ _) Hrt).
  cbn [negb rx_loop]. set (pl := rest cur ofs) in *.
  destruct (rx_fill_whole sp st cur ofs (Z.of_nat (length pl)) (Z.of_nat (length pl) + fcs_len (dev s)) s)
    as (cs & l' & -> & Hcs & Hoff); [done|done|lia..|done|done|done|]. set (d := rx_head_desc s) in *.
  cbn [mbind res_bind]. cbn zeta. rewrite rx_advance_eq. set (w1 := pci_dma_write _ _ _).
  set (s1 := mkMachine (dev s) (nc s) w1).
  change (rd s1 RDLEN) with (rd s RDLEN). change (rd s1 RDH) with (rd s RDH).
  set (r := ring_next _ _) in *. regs. rewrite (u32_small r) by apply ring_next_fits.
  rewrite (proj2 (Z.eqb_neq _ _) Hnx), Hoff, Z.ltb_irrefl. cbn [mbind res_bind].
  exists w1. split; [reflexivity|]. intros x. unfold w1, stored.
  rewrite guest_write, length_rx_desc_to_bytes by apply rx_desc_to_bytes_fits.
  assert (Hd : rxd_wf d) by (apply rx_desc_of_bytes_wf; [apply guest_bytes_fits|apply length_fmap]).
  rewrite guest_write_chunks; rewrite ?Hcs; [done|done|apply (rxd_wf_addr d Hd)|done].
Qed.

Lemma completed_desc_wf d len sp st :
  rxd_wf d → fits 16 len → fits 16 sp → fits 8 st → rxd_wf (completed_desc d len sp st).
Proof.
  intros [? ? ? ? ? ?] ? ? ?. unfold completed_desc.
  split; cbn [rxd_buffer_addr rxd_length rxd_csum rxd_status rxd_errors rxd_special]; try done. solve_fits.
Qed.

Lemma rx_causes_rxt0 s v : tst (u32 (Z.lor (rx_causes s) v)) E1000_ICS_RXT0 = true.
Proof.
  change E1000_ICS_RXT0 with (2 ^ 7). rewrite tst_bit by lia. unfold u32.
  rewrite Z.mod_pow2_bits_low, Z.lor_spec by lia. unfold rx_causes. by split_if.
Qed.

Lemma rx_finish_world size s x : guest (world (rx_finish size s)) x = guest (world s) x.
Proof. unfold rx_finish, set_ics. rewrite sic_guest. unfold rx_count. cbn zeta. by split_if. Qed.

(** C3: a frame that is admitted and fits one receive buffer is stored whole, padded to 60 bytes
    and (when tag stripping applies) without its VLAN tag, at the address in the head
    descriptor; the descriptor is written back complete (DD, EOP, length with the FCS, the tag);
    no other byte of guest memory changes; the head moves to the next descriptor; the receive
    interrupt cause is set and the 64-bit octet counter advances by the length and the FCS. *)
Theorem e1000_receive_iov_delivers fuel iov s :
  let frame := padded_frame iov in
  let pl := payload (dev s) frame in
  let len := Z.of_nat (length pl) in
  let d := rx_head_desc s in
  let ba := rxd_buffer_addr d in
  let base := rx_base s in
  iov ≠ [] → Forall (fits 8) (concat iov) → dev_wf (dev s) →
  tst (rd s STATUS) E1000_STATUS_LU = true → tst (rd s RCTL) E1000_RCTL_EN = true →
  admitted (dev s) frame →
  len + fcs_len (dev s) ≤ rxbuf_size (dev s) → rxbuf_size (dev s) < 2 ^ 16 →
  rd s RDH ≠ rd s RDT → ring_next (rd s RDLEN) (rd s RDH) ≠ rd s RDH →
  ba ≠ 0 → ba + len < 2 ^ 64 → (ba + len ≤ base ∨ base + 16 ≤ ba) →
  ∃ out s', e1000_receive_iov (S fuel) iov s = Ok (len, out, s') ∧
    guest_bytes (world s') ba (length pl) = pl ∧
    rx_desc_of_bytes (guest_bytes (world s') base 16) =
      completed_desc d (len + fcs_len (dev s)) (if strips (dev s) frame then tag_id frame else 0)
        (if strips (dev s) frame then E1000_RXD_STAT_VP else 0) ∧
    (∀ x, ¬ (ba ≤ x < ba + len) → ¬ (base ≤ x < base + 16) → guest (world s') x = guest (world s) x) ∧
    rd s' RDH = ring_next (rd s RDLEN) (rd s RDH) ∧
    tst (rd s' ICR) E1000_ICS_RXT0 = true ∧
    rx_octets s' = (rx_octets s + len + 4) mod 2 ^ 64.
Proof.
  cbn zeta. intros Hne Hf Hw Hlu Hen Hadm Hroom H16 Hrt Hnx Ha Hend Hdis.
  destruct (receive_iov_shape (S fuel) iov s Hne Hlu Hen)
    as [[Hno _]|(_ & cur & ofs & out & Hc & Hr & Hcl & _ & _ & _ & ->)]; [done|].
  pose proof (payload_length (dev s) _ (padded_frame_length iov)) as Hpl.
  pose proof (padded_frame_length iov) as H60. pose proof (fcs_len_range (dev s)) as Hfcs.
  set (frame := padded_frame iov) in *. set (d := rx_head_desc s) in *.
  assert (Hffit : Forall (fits 8) frame) by (apply Forall_app; split; [done|by apply Forall_replicate]).
  set (sp := if strips _ _ then tag_id _ else 0). set (st := if strips _ _ then E1000_RXD_STAT_VP else 0).
  assert (Hsp : fits 16 sp) by (unfold sp; split_if; [apply tag_id_fits; [done|lia]|done]).
  assert (Hst : fits 8 st) by (unfold st; split_if; done).
  destruct (rx_deliver_whole fuel sp st cur ofs s) as (w1 & Hdel & Hmem);
    rewrite ?Hr in *; try done; try lia; [by apply payload_fits|].
  rewrite Hdel. fold d in Hmem. set (pl := payload (dev s) frame) in *. cbn [mbind res_bind].
  set (r := ring_next _ _) in *. set (s1 := wr RDH r _). do 2 eexists. split; [reflexivity|].
  assert (Hmem' : ∀ x, guest (world (rx_finish (Z.of_nat (length pl)) s1)) x =
            stored (rx_base s) (rxd_buffer_addr d) (rx_desc_to_bytes
              (completed_desc d (Z.of_nat (length pl) + fcs_len (dev s)) sp st)) pl (world s) x)
    by (intros; rewrite rx_finish_world; apply Hmem).
  destruct (stored_reads _ _ _ _ _ _ Hmem') as (Hm1 & Hm2 & Hm3);
    rewrite ?length_rx_desc_to_bytes in *; [lia|].
  assert (Hd : rxd_wf d) by (apply rx_desc_of_bytes_wf; [apply guest_bytes_fits|apply length_fmap]).
  split; [done|]. split.
  { rewrite Hm1. apply rx_desc_roundtrip, completed_desc_wf; try done. split; lia. }
  split; [done|]. unfold rx_finish, set_ics, rx_octets. rewrite sic_icr, !sic_rd by neq_reg.
  split; [|split].
  - rewrite rx_count_rd by reflexivity. unfold s1. regs. apply u32_small, ring_next_fits.
  - apply rx_causes_rxt0.
  - fold (rx_octets (rx_count (Z.of_nat (length pl)) s1)). rewrite rx_count_octets; [|by apply wr_wf|lia].
    unfold rx_octets, s1. regs. done.
Qed.
End Delivers.

(** ** Witnesses *)

(** A board with a ring of eight descriptors at 0x1000, the first one pointing at 0x2000. *)
Definition rx_board : Board :=
  mkBoard (awrite ∅ 0x1000 (le_bytes 8 0x2000)) false (λ _, None) 0 [].
Definition rx_machine : Machine Board :=
  let s := mkMachine idle_dev idle_nc rx_board in
  let s := wr STATUS E1000_STATUS_LU s in
  let s := wr RCTL (Z.lor E1000_RCTL_EN E1000_RCTL_UPE) s in
  let s := wr RDBAL 0x1000 s in
  let s := wr RDLEN 128 s in
  wr RDT 4 s.

Lemma rx_machine_wf : dev_wf (dev rx_machine).
Proof. unfold rx_machine. repeat apply wr_wf. apply idle_dev_wf. Qed.

Lemma receive_filter_spec_witness :
  ∃ b, receive_filter (dev rx_machine) (replicate 16 1) = Ok b ∧ b = true.
Proof.
  destruct (receive_filter_spec (dev rx_machine) (replicate 16 1)) as (b & Hb & Hs); [cbn; lia|].
  exists b. split; [exact Hb|]. apply Hs. split; [intros H; discriminate H|]. left. reflexivity.
Defined.

Lemma e1000_receive_iov_returns_witness :
  ∃ ret out s', e1000_receive_iov (Z.to_nat 65536) [[1; 2; 3]; [4]] rx_machine = Ok (ret, out, s') ∧
    dev_wf (dev s').
Proof.
  destruct (e1000_receive_iov_returns (Z.to_nat 65536) [[1; 2; 3]; [4]] rx_machine)
    as (ret & out & s' & H1 & _ & _ & H2 & _).
  - discriminate.
  - reflexivity.
  - apply rx_machine_wf.
  - vm_compute. discriminate.
  - split; [vm_compute; discriminate|reflexivity].
  - left. reflexivity.
  - rewrite Z2Nat.id; lia.
  - exists ret, out, s'. split; [exact H1|exact H2].
Defined.

Lemma e1000_receive_iov_delivers_witness :
  ∃ out s', e1000_receive_iov 1 [[1; 2; 3]; [4]] rx_machine = Ok (60, out, s') ∧
    guest_bytes (world s') 0x2000 4 = [1; 2; 3; 4].
Proof.
  destruct (e1000_receive_iov_delivers 0 [[1; 2; 3]; [4]] rx_machine) as (out & s' & H1 & H2 & _).
  - discriminate.
  - repeat constructor; try discriminate.
  - apply rx_machine_wf.
  - reflexivity.
  - reflexivity.
  - split; [reflexivity|]. split; [intros H; discriminate H|left; reflexivity].
  - vm_compute. discriminate.
  - reflexivity.
  - vm_compute. discriminate.
  - vm_compute. discriminate.
  - vm_compute. discriminate.
  - reflexivity.
  - right. vm_compute. discriminate.
  - exists out, s'. split; [exact H1|].
    apply (f_equal (take 4)) in H2. exact H2.
Defined.

End Rx.
