(* ===== verification/Tx.v ===== *)
(** The transmit path of e1000.c: checksum insertion, segmentation, VLAN insertion, the transmit
    descriptors and the ring walk of [start_xmit].

    The transmit buffer is one object of [TX_VD] bytes ([vlan] then [data]); every access to it
    and to the header buffer is checked against the object.  With the PHY in loopback a frame is
    received from the transmit buffer itself, so the buffer is stored back after the receive.
    One fuel bounds each of the loops (ring, segmentation, receive ring). *)

From S2P Require Import Prelude Regs Checksum Iov NetQueue Device Board Intr Rx.
Import Checksum Iov Intr Rx.

Module Tx.

(** ** Access to the buffers of the transmit state *)

(** Big-endian fields at [tp->data + o]. *)
Definition data_get (a : arr) (o n : Z) : res Z :=
  l ← load TX_VD a (4 + o) n; Ok (be_val l).
Definition data_put (a : arr) (o : Z) (n : nat) (v : Z) : res arr :=
  store TX_VD a (4 + o) (be_bytes n v).

Definition putsum (a : arr) (n sloc css cse : Z) : res arr :=
  let n := if negb (cse =? 0) && (cse <? n) then cse + 1 else n in
  if sloc <? u32 (n - 1) then
    let len := s32 (u32 (n - css)) in
    buf ← (if len <=? 0 then Ok [] else load TX_VD a (4 + css) len);
    csum ← net_checksum_finish (net_checksum_add len buf);
    data_put a sloc 2 csum
  else Ok a.

Definition is_vlan_txd (txd_lower : Z) : bool := tst txd_lower E1000_TXD_CMD_VLE.

(** ** Segment headers *)

(** The first part of [xmit_seg]: with segmentation, the IP length and identification, the TCP
    sequence number and flags (or the UDP length) and the pseudo-header checksum of this
    segment. *)
Definition tso_ip (t : e1000_tx) (a : arr) : res arr :=
  let css := tp_ipcss t in
  if tp_ip t then
    a ← data_put a (css + 2) 2 (tp_size t - css);
    id ← data_get a (css + 4) 2;
    data_put a (css + 4) 2 (id + tp_tso_frames t)
  else data_put a (css + 4) 2 (tp_size t - css).

Definition tso_l4 (t : e1000_tx) (a : arr) : res arr :=
  let css := tp_tucss t in
  let len := u16 (tp_size t - css) in
  a ← (if tp_tcp t then
         let sofar := u32 (tp_tso_frames t * tp_mss t) in
         seq ← data_get a (css + 4) 4;
         a ← data_put a (css + 4) 4 (seq + sofar);
         if tp_mss t <? u32 (tp_paylen t - sofar) then
           flags ← data_get a (css + 13) 1;
           data_put a (css + 13) 1 (clr flags 9)
         else Ok a
       else data_put a (css + 4) 2 len);
  if tst (tp_sum_needed t) E1000_TXD_POPTS_TXSM then
    phsum ← data_get a (tp_tucso t) 2;
    let phsum := phsum + len in
    let phsum := Z.shiftr phsum 16 + Z.land phsum 0xffff in
    data_put a (tp_tucso t) 2 phsum
  else Ok a.

Definition tso_headers (t : e1000_tx) : res e1000_tx :=
  if tp_tse t && tp_cptse t then
    a ← tso_ip t (tp_vd t);
    a ← tso_l4 t a;
    Ok (txs_tso_frames (u16 (tp_tso_frames t + 1)) (txs_vd a t))
  else Ok t.

(** The checksums, then the VLAN tag: the addresses move down four bytes into [vlan] and the tag
    is stored after them. Returns the offset and length of the frame to send. *)
Definition tx_sums (t : e1000_tx) : res e1000_tx :=
  a ← (if tst (tp_sum_needed t) E1000_TXD_POPTS_TXSM
       then putsum (tp_vd t) (tp_size t) (tp_tucso t) (tp_tucss t) (tp_tucse t) else Ok (tp_vd t));
  a ← (if tst (tp_sum_needed t) E1000_TXD_POPTS_IXSM
       then putsum a (tp_size t) (tp_ipcso t) (tp_ipcss t) (tp_ipcse t) else Ok a);
  Ok (txs_vd a t).

Definition tx_tag (t : e1000_tx) : res (e1000_tx * Z * Z) :=
  if tp_vlan_needed t then
    mac ← load TX_VD (tp_vd t) 4 4;
    a ← store TX_VD (tp_vd t) 0 mac;
    mac ← load TX_VD a (4 + 4) 8;
    a ← store TX_VD a 4 mac;
    a ← store TX_VD a (4 + 8) (aread (tp_vlan_header t) 0 4);
    Ok (txs_vd a t, 0, tp_size t + 4)
  else Ok (t, 4, tp_size t).

(** ** Context descriptors *)

(** A field of a descriptor ([dp] are its 16 bytes). *)
Definition fld (dp : list Z) (o n : nat) : Z := le_val (take n (drop o dp)).

Definition tx_context (dp : list Z) (tp : e1000_tx) : e1000_tx :=
  let op := fld dp 8 4 in
  let tp := txs_ipcss (fld dp 0 1) tp in
  let tp := txs_ipcso (fld dp 1 1) tp in
  let tp := txs_ipcse (fld dp 2 2) tp in
  let tp := txs_tucss (fld dp 4 1) tp in
  let tp := txs_tucso (fld dp 5 1) tp in
  let tp := txs_tucse (fld dp 6 2) tp in
  let tp := txs_paylen (Z.land op 0xfffff) tp in
  let tp := txs_hdr_len (fld dp 13 1) tp in
  let tp := txs_mss (fld dp 14 2) tp in
  let tp := txs_ip (tst op E1000_TXD_CMD_IP) tp in
  let tp := txs_tcp (tst op E1000_TXD_CMD_TCP) tp in
  let tp := txs_tse (tst op E1000_TXD_CMD_TSE) tp in
  let tp := txs_tso_frames 0 tp in
  if tp_tucso tp =? 0 then txs_tucso (u8 (tp_tucss tp + (if tp_tcp tp then 16 else 6))) tp else tp.

Definition tx_desc_base (s : E1000State) : Z :=
  let bah := reg s TDBAH in
  let bal := clr (reg s TDBAL) 0xf in
  u64 (Z.shiftl bah 32 + bal).

Section Transmit.
Context {W : Type} `{DeviceEnv W}.
Implicit Types s : Machine W.

Definition upd_tx (f : e1000_tx → e1000_tx) s : Machine W :=
  upd_dev (λ d, set_tx (f (tx d)) d) s.

(** [e1000_send_packet] of the [size] bytes at offset [off] of the transmit buffer. *)
Definition e1000_send_packet (fuel : nat) (off size : Z) s : res (Machine W) :=
  buf ← load TX_VD (tp_vd (tx (dev s))) off size;
  if tst (rd_phy s PHY_CTRL) MII_CR_LOOPBACK then
    '(_, buf, s) ← e1000_receive fuel buf s;
    Ok (upd_tx (λ t, txs_vd (awrite (tp_vd t) off buf) t) s)
  else Ok (upd_world (net_send buf) s).

(** The counters of a transmitted frame. *)
Definition tx_count s : Machine W :=
  let s := wr TPT (rd s TPT + 1) s in
  let s := wr GPTC (rd s GPTC + 1) s in
  let n := rd s TOTL in
  let s := wr TOTL (rd s TOTL + tp_size (tx (dev s))) s in
  if rd s TOTL <? n then wr TOTH (rd s TOTH + 1) s else s.

Definition xmit_seg (fuel : nat) s : res (Machine W) :=
  t ← tso_headers (tx (dev s));
  t ← tx_sums t;
  '(t, off, size) ← tx_tag t;
  s ← e1000_send_packet fuel off size (upd_tx (λ _, t) s);
  Ok (tx_count s).

(** A DMA read of [n] bytes into the buffer at [tp->data + tp->size]. *)
Definition tx_fetch (addr n : Z) s : res (Machine W) :=
  let t := tx (dev s) in
  old ← load TX_VD (tp_vd t) (4 + tp_size t) n;
  let '(l, w) := pci_dma_read addr old (world s) in
  a ← store TX_VD (tp_vd t) (4 + tp_size t) l;
  Ok (mkMachine (set_tx (txs_vd a t) (dev s)) (nc s) w).

(** [memmove(tp->header, tp->data, tp->hdr_len)] and back. *)
Definition save_header (t : e1000_tx) : res e1000_tx :=
  l ← load TX_VD (tp_vd t) 4 (tp_hdr_len t);
  h ← store TX_HEADER (tp_header t) 0 l;
  Ok (txs_header h t).
Definition restore_header (t : e1000_tx) : res e1000_tx :=
  l ← load TX_HEADER (tp_header t) 0 (tp_hdr_len t);
  a ← store TX_VD (tp_vd t) 4 l;
  Ok (txs_vd a t).

Definition with_tx (f : e1000_tx → res e1000_tx) s : res (Machine W) :=
  t ← f (tx (dev s)); Ok (upd_tx (λ _, t) s).

(** The header is complete with this fetch: keep a copy. *)
Definition tso_keep (size sz : Z) s : res (Machine W) :=
  let hdr_len := tp_hdr_len (tx (dev s)) in
  if (hdr_len <=? sz) && (size <? hdr_len) then with_tx save_header s else Ok s.

(** A full segment: send it and start the next one with the header. *)
Definition tso_emit (fuel : nat) s : res (Machine W) :=
  s ← xmit_seg fuel s;
  s ← with_tx restore_header s;
  Ok (upd_tx (λ t, txs_size (tp_hdr_len t) t) s).

(** One round of the segmentation loop: the bytes it consumed and the state. *)
Definition tso_round (fuel : nat) (msh addr split_size : Z) s : res (Z * Machine W) :=
  let size := tp_size (tx (dev s)) in
  let bytes := split_size in
  let bytes := if msh <? u32 (size + bytes) then u32 (msh - size) else bytes in
  let bytes := Z.min (TX_DATA - size) bytes in
  s ← tx_fetch addr bytes s;
  let sz := u32 (size + bytes) in
  s ← tso_keep size sz s;
  let s := upd_tx (txs_size (u16 sz)) s in
  s ← (if sz =? msh then tso_emit fuel s else Ok s);
  Ok (bytes, s).

(** [do ... while (split_size -= bytes)]: one unit of [n] per round. *)
Fixpoint tso_loop (n fuel : nat) (msh addr split_size : Z) s : res (Machine W) :=
  match n with
  | O => Diverge
  | S n =>
      '(bytes, s) ← tso_round fuel msh addr split_size s;
      let split_size := u32 (split_size - bytes) in
      if split_size =? 0 then Ok s
      else tso_loop n fuel msh (u64 (addr + bytes)) split_size s
  end.

(** The descriptor kinds: context, data, legacy. *)
Definition tx_dtype (txd_lower : Z) : Z :=
  Z.land txd_lower (Z.lor E1000_TXD_CMD_DEXT E1000_TXD_DTYP_D).

(** What a data or legacy descriptor sets before its data is fetched. *)
Definition tx_prepare (dp : list Z) (s : Machine W) (tp : e1000_tx) : res e1000_tx :=
  let txd_lower := fld dp 8 4 in
  let tp :=
    if tx_dtype txd_lower =? Z.lor E1000_TXD_CMD_DEXT E1000_TXD_DTYP_D then
      let tp := if tp_size tp =? 0 then txs_sum_needed (u8 (Z.shiftr (fld dp 12 4) 8)) tp else tp in
      txs_cptse (tst txd_lower E1000_TXD_CMD_TSE) tp
    else txs_cptse false tp in
  if vlan_enabled (dev s) && is_vlan_txd txd_lower &&
     (tp_cptse tp || tst txd_lower E1000_TXD_CMD_EOP) then
    let tp := txs_vlan_needed true tp in
    a ← store 4 (tp_vlan_header tp) 0 (be_bytes 2 (le_val (take 2 (le_bytes 4 (rd s VET)))));
    a ← store 4 a 2 (be_bytes 2 (fld dp 14 2));
    Ok (txs_vlan_header a tp)
  else Ok tp.

(** Fetch the data of the descriptor, segmenting when asked to. *)
Definition tx_data (fuel : nat) (dp : list Z) s : res (Machine W) :=
  let tp := tx (dev s) in
  let split_size := Z.land (fld dp 8 4) 0xffff in
  let addr := fld dp 0 8 in
  if tp_tse tp && tp_cptse tp then
    tso_loop fuel fuel (tp_hdr_len tp + tp_mss tp) addr split_size s
  else if negb (tp_tse tp) && tp_cptse tp then Ok s
  else
    let split_size := Z.min (TX_DATA - tp_size tp) split_size in
    s ← tx_fetch addr split_size s;
    Ok (upd_tx (λ t, txs_size (u16 (tp_size t + split_size)) t) s).

(** The end of a packet. *)
Definition tx_end (t : e1000_tx) : e1000_tx :=
  txs_cptse false (txs_size 0 (txs_vlan_needed false (txs_sum_needed 0 (txs_tso_frames 0 t)))).

Definition process_tx_desc (fuel : nat) (dp : list Z) s : res (Machine W) :=
  let txd_lower := fld dp 8 4 in
  let s := upd_dev (λ d, set_mit_ide (Z.lor (mit_ide d) (Z.land txd_lower E1000_TXD_CMD_IDE)) d) s in
  if tx_dtype txd_lower =? E1000_TXD_CMD_DEXT then Ok (upd_tx (tx_context dp) s)
  else
    s ← with_tx (tx_prepare dp s) s;
    s ← tx_data fuel dp s;
    if negb (tst txd_lower E1000_TXD_CMD_EOP) then Ok s
    else
      let tp := tx (dev s) in
      s ← (if negb (tp_tse tp && tp_cptse tp && (tp_size tp <? tp_hdr_len tp))
           then xmit_seg fuel s else Ok s);
      Ok (upd_tx tx_end s).

Definition txdesc_writeback (base : Z) (dp : list Z) s : Z * list Z * Machine W :=
  let txd_lower := fld dp 8 4 in
  if negb (tst txd_lower (Z.lor E1000_TXD_CMD_RS E1000_TXD_CMD_RPS)) then (0, dp, s)
  else
    let txd_upper := clr (Z.lor (fld dp 12 4) E1000_TXD_STAT_DD)
                         (Z.lor E1000_TXD_STAT_EC (Z.lor E1000_TXD_STAT_LC E1000_TXD_STAT_TU)) in
    let upper := le_bytes 4 txd_upper in
    (E1000_ICR_TXDW, take 12 dp ++ upper, upd_world (pci_dma_write (u64 (base + 12)) upper) s).

(** [if (++s->mac_reg[TDH] * sizeof(desc) >= s->mac_reg[TDLEN]) s->mac_reg[TDH] = 0;] *)
Definition tx_advance s : Machine W :=
  let s := wr TDH (rd s TDH + 1) s in
  if rd s TDLEN <=? rd s TDH * 16 then wr TDH 0 s else s.

(** The ring walk; returns the interrupt causes. [desc] is the descriptor local. *)
Fixpoint xmit_loop (n fuel : nat) (tdh_start cause : Z) (desc : list Z) s : res (Z * Machine W) :=
  if rd s TDH =? rd s TDT then Ok (cause, s)
  else
    match n with
    | O => Diverge
    | S n =>
        let base := u64 (tx_desc_base (dev s) + 16 * rd s TDH) in
        let '(desc, w) := pci_dma_read base desc (world s) in
        let s := upd_world (λ _, w) s in
        s ← process_tx_desc fuel desc s;
        let '(c, desc, s) := txdesc_writeback base desc s in
        let cause := Z.lor cause c in
        let s := tx_advance s in
        if rd s TDH =? tdh_start then Ok (cause, s)
        else xmit_loop n fuel tdh_start cause desc s
    end.

Definition start_xmit (fuel : nat) s : res (Machine W) :=
  if negb (tst (rd s TCTL) E1000_TCTL_EN) then Ok s
  else
    '(cause, s) ← xmit_loop fuel fuel (rd s TDH) E1000_ICS_TXQE (stack_bytes 16) s;
    Ok (set_ics cause s).
End Transmit.

(** ** The transmit buffer is never left *)

Section Buffer.
Implicit Types (t : e1000_tx) (a : arr).

Lemma data_put_ok a o n v :
  afits 8 a → 0 ≤ o → o + Z.of_nat n ≤ TX_DATA → ∃ a', data_put a o n v = Ok a' ∧ afits 8 a'.
Proof.
  intros Ha Ho Hn. unfold data_put. rewrite store_in by (rewrite ?length_be_bytes; unfold TX_VD; lia).
  eexists. split; [done|]. apply afits_awrite; auto with width.
Qed.
Lemma data_get_ok a o n :
  0 ≤ o → 0 ≤ n → o + n ≤ TX_DATA → data_get a o n = Ok (be_val (aread a (4 + o) (Z.to_nat n))).
Proof. intros. unfold data_get. by rewrite load_in by (unfold TX_VD; lia). Qed.

Ltac put :=
  match goal with
  | |- context [data_put ?a ?o ?n ?v] =>
      let a' := fresh "a" in let H := fresh "Ha" in
      destruct (data_put_ok a o n v) as (a' & -> & H);
      [first [assumption | eassumption]|unfold TX_DATA; lia..|]; cbn [mbind res_bind]
  end.
Ltac get := rewrite data_get_ok by (unfold TX_DATA; lia); cbn [mbind res_bind].

Lemma s32_u32_small x : -2 ^ 31 ≤ x < 2 ^ 31 → s32 (u32 x) = x.
Proof.
  intros Hx. unfold s32, u32. rewrite Zplus_mod_idemp_l. rewrite Z.mod_small by lia. lia.
Qed.

Lemma add_cont_fits n buf i sum : fits 32 sum → fits 32 (add_cont_loop n buf i sum).
Proof. revert buf i sum. induction n; intros; cbn [add_cont_loop]; auto with width. Qed.

Lemma putsum_ok a n sloc css cse :
  afits 8 a → fits 16 n → fits 8 sloc → fits 8 css → fits 16 cse →
  ∃ a', putsum a n sloc css cse = Ok a' ∧ afits 8 a'.
Proof.
  intros Ha Hn Hl Hc He. unfold putsum, fits in *. set (m := if _ && _ then cse + 1 else n).
  assert (Hm : 0 ≤ m < 2 ^ 16) by (unfold m; split_if; bool_hyps; lia). clearbody m.
  split_if; [|eauto]. rewrite s32_u32_small by lia.
  assert (Hb : ∃ buf, (if m - css <=? 0 then Ok [] else load TX_VD a (4 + css) (m - css)) = Ok buf).
  { destruct (Z.leb_spec (m - css) 0); [eauto|].
    rewrite load_in by (unfold TX_VD, TX_DATA; lia). eauto. }
  destruct Hb as (buf & ->). cbn [mbind res_bind].
  rewrite finish_eq. 2:{ unfold net_checksum_add, net_checksum_add_cont. apply add_cont_fits. done. }
  cbn [mbind res_bind]. put. eauto.
Qed.

Lemma tso_ip_ok t a : tx_wf t → afits 8 a → ∃ a', tso_ip t a = Ok a' ∧ afits 8 a'.
Proof.
  intros [] Ha. unfold tso_ip, fits in *. destruct (tp_ip t); [put; get|]; put; eauto.
Qed.

Lemma tso_l4_ok t a : tx_wf t → afits 8 a → ∃ a', tso_l4 t a = Ok a' ∧ afits 8 a'.
Proof.
  intros [] Ha. unfold tso_l4, fits in *.
  assert (Htcp : ∃ a', (if tp_tcp t then
       seq ← data_get a (tp_tucss t + 4) 4;
       a ← data_put a (tp_tucss t + 4) 4 (seq + u32 (tp_tso_frames t * tp_mss t));
       if tp_mss t <? u32 (tp_paylen t - u32 (tp_tso_frames t * tp_mss t)) then
         flags ← data_get a (tp_tucss t + 13) 1; data_put a (tp_tucss t + 13) 1 (clr flags 9)
       else Ok a
     else data_put a (tp_tucss t + 4) 2 (u16 (tp_size t - tp_tucss t))) = Ok a' ∧ afits 8 a').
  { destruct (tp_tcp t); [get; put; split_if; [get; put; eauto|eauto]|put; eauto]. }
  destruct Htcp as (a' & -> & Ha'). cbn [mbind res_bind].
  destruct (tst _ _); [get; put|]; eauto.
Qed.

(** The headers and checksums of a segment change the data and the frame counter only. *)
Lemma tso_headers_ok t :
  tx_wf t → ∃ a f, tso_headers t = Ok (txs_tso_frames f (txs_vd a t)) ∧ afits 8 a ∧ fits 16 f.
Proof.
  intros Hw. unfold tso_headers.
  split_if; [|destruct Hw; exists (tp_vd t), (tp_tso_frames t); split; [by destruct t|done]].
  destruct (tso_ip_ok t (tp_vd t)) as (a & -> & Ha); [done|by destruct Hw|]. cbn [mbind res_bind].
  destruct (tso_l4_ok t a) as (a' & -> & Ha'); [done|done|]. cbn [mbind res_bind].
  eauto using u16_fits.
Qed.

Lemma tx_sums_ok t : tx_wf t → ∃ a, tx_sums t = Ok (txs_vd a t) ∧ afits 8 a.
Proof.
  intros []. unfold tx_sums.
  assert (H1 : ∃ a, (if tst (tp_sum_needed t) E1000_TXD_POPTS_TXSM
     then putsum (tp_vd t) (tp_size t) (tp_tucso t) (tp_tucss t) (tp_tucse t) else Ok (tp_vd t)) = Ok a ∧ afits 8 a).
  { destruct (tst _ _); [by apply putsum_ok|eauto]. }
  destruct H1 as (a & -> & Ha). cbn [mbind res_bind].
  destruct (tst _ _); [|by eauto].
  destruct (putsum_ok a (tp_size t) (tp_ipcso t) (tp_ipcss t) (tp_ipcse t)) as (a' & -> & Ha'); eauto.
Qed.

Lemma tx_tag_ok t :
  tx_wf t → ∃ a off size, tx_tag t = Ok (txs_vd a t, off, size) ∧ afits 8 a ∧
    0 ≤ off ∧ 0 ≤ size ∧ off + size ≤ TX_VD.
Proof.
  intros []. unfold tx_tag, TX_VD, TX_DATA, fits in *.
  destruct (tp_vlan_needed t).
  - rewrite load_in by lia. cbn [mbind res_bind]. rewrite store_in by (rewrite ?length_aread; lia).
    cbn [mbind res_bind]. rewrite load_in by lia. cbn [mbind res_bind].
    rewrite store_in by (rewrite ?length_aread; lia). cbn [mbind res_bind].
    rewrite store_in by (rewrite ?length_aread; lia). cbn [mbind res_bind].
    do 3 eexists. split; [reflexivity|]. split; [auto 8 with width|lia].
  - exists (tp_vd t), 4, (tp_size t). split; [by destruct t|]. split; [done|lia].
Qed.
End Buffer.

(** ** Segments *)

Definition tx_regs : list Z := [TPT; GPTC; TOTL; TOTH] ++ rx_regs.

(** The transmit state keeps the settings of its context. *)
Record tx_ctl (t t' : e1000_tx) : Prop := {
  ctl_hdr : tp_hdr_len t' = tp_hdr_len t;
  ctl_mss : tp_mss t' = tp_mss t;
  ctl_tse : tp_tse t' = tp_tse t;
  ctl_cptse : tp_cptse t' = tp_cptse t;
}.

Lemma tx_ctl_trans t1 t2 t3 : tx_ctl t1 t2 → tx_ctl t2 t3 → tx_ctl t1 t3.
Proof. intros [] []. split; congruence. Qed.

Lemma tx_wf_vd_frames t a f : tx_wf t → afits 8 a → fits 16 f → tx_wf (txs_tso_frames f (txs_vd a t)).
Proof. intros [] ? ?. by split. Qed.
Lemma tx_wf_setvd t a : tx_wf t → afits 8 a → tx_wf (txs_vd a t).
Proof. intros [] ?. by split. Qed.
Lemma tx_wf_setsize t z : tx_wf t → fits 16 z → tx_wf (txs_size z t).
Proof. intros [] ?. by split. Qed.
Lemma tx_wf_setheader t h : tx_wf t → afits 8 h → tx_wf (txs_header h t).
Proof. intros [] ?. by split. Qed.

(** What the transmit functions may do to the device. *)
Record tx_step {W} `{DeviceEnv W} (s s' : Machine W) : Prop := {
  ts_ev : evolves tx_regs s s';
  ts_ring : head_moved RDLEN RDH s s';
}.

Section Segments.
Context {W : Type} `{DeviceEnvLaws W}.
Implicit Types s : Machine W.

Lemma evolves_rd R i s s' : evolves R s s' → bool_decide (i ∉ R) = true → rd s' i = rd s i.
Proof. intros He Hi. apply bool_decide_eq_true in Hi. by apply (ev_regs _ _ _ He). Qed.

Lemma tx_step_refl s : tx_step s s.
Proof. split; [apply evolves_refl|apply head_moved_refl]. Qed.
Lemma tx_step_trans s1 s2 s3 : tx_step s1 s2 → tx_step s2 s3 → tx_step s1 s3.
Proof.
  intros [E1 R1] [E2 R2]. split; [by eapply evolves_trans|].
  eapply head_moved_trans; [|done..]. by eapply evolves_rd.
Qed.

Lemma evolves_upd_tx R f s :
  (dev_wf (dev s) → tx_wf (f (tx (dev s)))) → evolves R s (upd_tx f s).
Proof. exact (evolves_tx R (f (tx (dev s))) s). Qed.
Lemma tx_step_tx f s :
  (dev_wf (dev s) → tx_wf (f (tx (dev s)))) → tx_step s (upd_tx f s).
Proof. intros. split; [by apply evolves_upd_tx|by left]. Qed.
Lemma tx_step_wr i v s s1 :
  tx_step s s1 → bool_decide (i ∈ [TPT; GPTC; TOTL; TOTH]) = true → tx_step s (wr i v s1).
Proof.
  intros [He Hr] Hi. split.
  - apply evolves_then_wr; [done|]. apply bool_decide_eq_true in Hi.
    repeat (apply elem_of_cons in Hi as [->|Hi]); [reflexivity..|by apply elem_of_nil in Hi].
  - apply bool_decide_eq_true in Hi. unfold head_moved in *. rewrite !rd_wr_ne; [done|..]; intros ->; revert Hi;
      apply (bool_decide_eq_false (_ ∈ _)); reflexivity.
Qed.
Lemma tx_step_dma w s : dma_only (world s) w → tx_step s (mkMachine (dev s) (nc s) w).
Proof. intros. split; [by apply evolves_dma|by left]. Qed.

(** The receive ring is usable, in case frames loop back. *)
Definition loops_back s : bool := tst (rd_phy s PHY_CTRL) MII_CR_LOOPBACK.
Definition rx_can (fuel : nat) s : Prop :=
  loops_back s = true →
  fits 20 (rd s RDLEN) ∧ in_ring (rd s RDLEN) (rd s RDH) ∧ 65536 ≤ Z.of_nat fuel.

Lemma evolves_loops_back R s s' : evolves R s s' → loops_back s' = loops_back s.
Proof. intros He. unfold loops_back, rd_phy, phy. by rewrite (ev_phy _ _ _ He). Qed.

Lemma tx_step_rx_can fuel s s' : tx_step s s' → rx_can fuel s → rx_can fuel s'.
Proof.
  intros [He Hr] Hrx Hlb. rewrite (evolves_loops_back _ _ _ He) in Hlb. destruct (Hrx Hlb) as (H1 & H2 & H3).
  pose proof (evolves_rd _ RDLEN _ _ He eq_refl) as El.
  split; [by rewrite El|]. split; [by eapply head_moved_ring|done].
Qed.

Lemma send_packet_runs fuel off size s :
  0 ≤ off → 0 ≤ size → off + size ≤ TX_VD → dev_wf (dev s) → 0 ≤ rxbuf_size (dev s) →
  runs (rx_can fuel s) (e1000_send_packet fuel off size s) (λ s', tx_step s s' ∧
    (∀ i, i ∉ rx_regs → rd s' i = rd s i) ∧ ∃ a, tx (dev s') = txs_vd a (tx (dev s))).
Proof.
  intros Ho Hs Hos Hw Hrb. unfold e1000_send_packet. rewrite load_in by done. cbn [mbind res_bind].
  fold (loops_back s). split_if.
  - assert (Hl : Z.of_nat (length (aread (tp_vd (tx (dev s))) off (Z.to_nat size))) < 2 ^ 63).
    { rewrite length_aread. unfold TX_VD, TX_DATA in Hos. lia. }
    destruct (receive_cases fuel _ s Hl Hw Hrb)
      as [(-> & Hd)|(ret & buf' & s' & -> & _ & Hev & Htx & Hring & _ & Hbf)]; cbn.
    { intros Hrx. destruct (Hrx ltac:(done)) as (H1 & H2 & H3). specialize (Hd H2). pose proof (ring_dist_bound _ _ _ H1 H2 H2). lia. }
    rewrite Htx. split; [|split; [apply (ev_regs _ _ _ Hev)|eauto]]. split; [|done].
    eapply evolves_trans; [eapply evolves_mono; [|exact Hev]; unfold tx_regs; apply list_subseteq_app_r; done|].
    apply evolves_upd_tx. intros Hw'. destruct (wf_tx _ Hw').
    split; cbn; auto. apply afits_awrite; [done|]. apply Hbf. apply aread_fits.
    first [done | by rewrite <-Htx].
  - cbn. split; [|split; [done|exists (tp_vd (tx (dev s))); by destruct (tx (dev s))]].
    split; [|by left]. split; auto.
    + intros ? Hp. cbn. by rewrite irq_line_send.
    + intros ?. apply linked_kept; [apply timers_send|done].
Qed.

Lemma tx_count_step s : tx_step s (tx_count s) ∧ tx (dev (tx_count s)) = tx (dev s).
Proof.
  unfold tx_count. cbn zeta. split_if; (split; [|done]);
    repeat (apply tx_step_wr; [|reflexivity]); apply tx_step_refl.
Qed.

(** The counters after a frame of [size] bytes. *)
Definition tx_octets s : Z := rd s TOTH * 2 ^ 32 + rd s TOTL.

Lemma tx_count_octets s :
  dev_wf (dev s) →
  tx_octets (tx_count s) = (tx_octets s + tp_size (tx (dev s))) mod 2 ^ 64 ∧
  rd (tx_count s) GPTC = u32 (rd s GPTC + 1) ∧ rd (tx_count s) TPT = u32 (rd s TPT + 1).
Proof.
  intros Hw. pose proof (tx_wf_size _ (wf_tx _ Hw)) as Hz. unfold fits in Hz.
  unfold tx_octets. rewrite <-carry_add; [|by apply reg_fits|by apply reg_fits|lia].
  unfold tx_count. cbn zeta. regs.
  change (tp_size (tx (dev (wr GPTC (rd s GPTC + 1) (wr TPT (rd s TPT + 1) s))))) with (tp_size (tx (dev s))).
  split_if; regs; done.
Qed.

Lemma xmit_seg_runs fuel s :
  dev_wf (dev s) → 0 ≤ rxbuf_size (dev s) →
  runs (rx_can fuel s) (xmit_seg fuel s) (λ s', tx_step s s' ∧ tx_ctl (tx (dev s)) (tx (dev s')) ∧
    tp_size (tx (dev s')) = tp_size (tx (dev s)) ∧
    tx_octets s' = (tx_octets s + tp_size (tx (dev s))) mod 2 ^ 64 ∧
    rd s' GPTC = u32 (rd s GPTC + 1) ∧ rd s' TPT = u32 (rd s TPT + 1)).
Proof.
  intros Hw Hrb. pose proof (wf_tx _ Hw) as Htw. unfold xmit_seg.
  destruct (tso_headers_ok _ Htw) as (a1 & f & -> & Ha1 & Hf). cbn [mbind res_bind].
  set (t1 := txs_tso_frames f _). assert (Hw1 : tx_wf t1) by by apply tx_wf_vd_frames.
  destruct (tx_sums_ok t1 Hw1) as (a2 & -> & Ha2). cbn [mbind res_bind].
  assert (Hw2 : tx_wf (txs_vd a2 t1)) by by apply tx_wf_setvd.
  destruct (tx_tag_ok _ Hw2) as (a3 & off & size & -> & Ha3 & Ho & Hsz & Hos). cbn [mbind res_bind].
  set (t3 := txs_vd a3 _). assert (Hw3 : tx_wf t3) by by apply tx_wf_setvd.
  eapply (runs_seq _ (rx_can fuel (upd_tx (λ _, t3) s)) (λ _, True)); [apply send_packet_runs; auto| |].
  - apply set_tx_wf; auto.
  - done.
  - intros s1 (Hst & Hrd & a4 & Htx). split; [done|].
    destruct (tx_count_octets s1) as (H1 & H2 & H3); [apply Hst; by apply set_tx_wf|].
    unfold runs. rewrite H1, H2, H3. unfold tx_octets. rewrite !Hrd by (apply (bool_decide_eq_false (_ ∈ _)); reflexivity).
    destruct (tx_count_step s1) as [Hc ->]. rewrite Htx. split; [|done].
    apply (tx_step_trans _ (upd_tx (λ _, t3) s)); [apply tx_step_tx; by intros|]. eapply tx_step_trans; [exact Hst|exact Hc].
Qed.
End Segments.

(** ** Descriptors *)

Section Descriptors.
Context {W : Type} `{DeviceEnvLaws W}.
Implicit Types s : Machine W.

Lemma tx_fetch_ok addr n s :
  dev_wf (dev s) → 0 ≤ n ≤ TX_DATA - tp_size (tx (dev s)) →
  ∃ a w, tx_fetch addr n s = Ok (mkMachine (set_tx (txs_vd a (tx (dev s))) (dev s)) (nc s) w) ∧
    afits 8 a ∧ dma_only (world s) w.
Proof.
  intros Hw Hn. pose proof (tx_wf_size _ (wf_tx _ Hw)) as Hsz. pose proof (tx_wf_vd _ (wf_tx _ Hw)) as Hvd.
  unfold fits in Hsz. unfold tx_fetch, TX_VD, TX_DATA in *.
  rewrite load_in by lia. cbn [mbind res_bind].
  set (old := aread _ _ _). pose proof (dma_read addr old (world s)) as Hd.
  pose proof (dma_read_length addr old (world s)) as Hl.
  pose proof (dma_read_bytes addr old (world s) ltac:(by apply aread_fits)) as Hb.
  destruct (pci_dma_read addr old (world s)) as [l w]. cbn [fst snd] in *.
  unfold old in Hl. rewrite length_aread in Hl. rewrite store_in by lia. cbn [mbind res_bind].
  do 2 eexists. split; [reflexivity|]. split; [by apply afits_awrite|]. eauto with width.
Qed.

Lemma tx_fetch_step addr n s :
  dev_wf (dev s) → 0 ≤ n ≤ TX_DATA - tp_size (tx (dev s)) →
  ∃ s', tx_fetch addr n s = Ok s' ∧ tx_step s s' ∧ ∃ a, tx (dev s') = txs_vd a (tx (dev s)).
Proof.
  intros Hw Hn. destruct (tx_fetch_ok addr n s Hw Hn) as (a & w & -> & Ha & Hd).
  eexists. split; [done|]. split; [|by eexists].
  eapply tx_step_trans; [apply (tx_step_dma w); exact Hd|].
  apply (tx_step_tx (λ _, txs_vd a (tx (dev s))) (mkMachine (dev s) (nc s) w)). intros _. apply tx_wf_setvd; [by destruct Hw|done].
Qed.

(** The header copies stay inside both buffers. *)
Lemma save_header_step s :
  dev_wf (dev s) → ∃ s', with_tx save_header s = Ok s' ∧ tx_step s s' ∧
    ∃ h, tx (dev s') = txs_header h (tx (dev s)).
Proof.
  intros Hw. pose proof (wf_tx _ Hw) as Ht. pose proof (tx_wf_hdr _ Ht) as Hh. unfold fits in Hh.
  pose proof (tx_wf_vd _ Ht) as Hvd. pose proof (tx_wf_header _ Ht) as Hhd.
  unfold with_tx, save_header, TX_VD, TX_DATA, TX_HEADER.
  rewrite load_in by lia. cbn [mbind res_bind]. rewrite store_in by (rewrite ?length_aread; lia). cbn [mbind res_bind].
  eexists. split; [done|]. split; [|by eexists]. apply tx_step_tx. intros _.
  apply tx_wf_setheader; [by destruct Hw|auto with width].
Qed.
Lemma restore_header_step s :
  dev_wf (dev s) → ∃ s', with_tx restore_header s = Ok s' ∧ tx_step s s' ∧
    ∃ a, tx (dev s') = txs_vd a (tx (dev s)).
Proof.
  intros Hw. pose proof (wf_tx _ Hw) as Ht. pose proof (tx_wf_hdr _ Ht) as Hh. unfold fits in Hh.
  pose proof (tx_wf_vd _ Ht) as Hvd. pose proof (tx_wf_header _ Ht) as Hhd.
  unfold with_tx, restore_header, TX_VD, TX_DATA, TX_HEADER.
  rewrite load_in by lia. cbn [mbind res_bind]. rewrite store_in by (rewrite ?length_aread; lia). cbn [mbind res_bind].
  eexists. split; [done|]. split; [|by eexists]. apply tx_step_tx. intros _.
  apply tx_wf_setvd; [by destruct Hw|auto with width].
Qed.

(** The bytes one round of segmentation fetches. *)
Definition tso_bytes (msh size split : Z) : Z :=
  Z.min (TX_DATA - size) (if msh <? u32 (size + split) then u32 (msh - size) else split).

Lemma tso_bytes_range msh size split :
  0 ≤ size < 2 ^ 16 → 0 ≤ split → 0 ≤ tso_bytes msh size split ≤ TX_DATA - size.
Proof.
  intros Hs Hp. unfold tso_bytes, TX_DATA. pose proof (u32_fits (msh - size)) as Hu. unfold fits in Hu.
  split_if; lia.
Qed.
Lemma tso_bytes_progress msh size split :
  0 ≤ size < 2 ^ 16 → size < msh < 2 ^ 17 → 0 ≤ split < 2 ^ 16 →
  let b := tso_bytes msh size split in
  0 ≤ b ≤ split ∧ (0 < split → 0 < b) ∧ size + b ≤ msh.
Proof.
  intros Hs Hm Hp. unfold tso_bytes, TX_DATA. cbn zeta.
  rewrite (u32_small (size + split)) by (split; lia). rewrite (u32_small (msh - size)) by (split; lia).
  destruct (Z.ltb_spec msh (size + split)); lia.
Qed.

(** Segmentation makes progress: a segment has room left and a payload. *)
Definition tso_progress (t : e1000_tx) (msh : Z) : Prop := 0 < tp_mss t ∧ tp_size t < msh.

Lemma tso_keep_step size sz s :
  dev_wf (dev s) → ∃ s', tso_keep size sz s = Ok s' ∧ tx_step s s' ∧
    ∃ h, tx (dev s') = txs_header h (tx (dev s)).
Proof.
  intros Hw. unfold tso_keep. split_if; [by apply save_header_step|].
  exists s. split; [done|]. split; [apply tx_step_refl|].
  exists (tp_header (tx (dev s))). by destruct (tx (dev s)).
Qed.

Lemma tso_emit_runs fuel s :
  dev_wf (dev s) → 0 ≤ rxbuf_size (dev s) →
  runs (rx_can fuel s) (tso_emit fuel s) (λ s', tx_step s s' ∧ tx_ctl (tx (dev s)) (tx (dev s')) ∧
    tp_size (tx (dev s')) = tp_hdr_len (tx (dev s))).
Proof.
  intros Hw Hrb. unfold tso_emit.
  eapply (runs_seq _ (rx_can fuel s) (λ _, True)); [by apply xmit_seg_runs|done|].
  intros s1 (Hst1 & Hctl & _). split; [done|]. assert (Hw1 : dev_wf (dev s1)) by (by apply Hst1).
  destruct (restore_header_step s1 Hw1) as (s2 & -> & Hst2 & a & Htx). cbn.
  rewrite Htx. destruct Hctl as [H1 H2 H3 H4].
  split; [|split; [by split|done]].
  eapply tx_step_trans; [exact Hst1|]. eapply tx_step_trans; [exact Hst2|].
  apply tx_step_tx. intros Hd. apply tx_wf_setsize; [by destruct Hd|].
  apply (fits_mono 8 16); [lia|]. apply (wf_tx _ Hd).
Qed.

Lemma tso_round_runs fuel addr split s :
  let msh := tp_hdr_len (tx (dev s)) + tp_mss (tx (dev s)) in
  dev_wf (dev s) → 0 ≤ rxbuf_size (dev s) → 0 ≤ split →
  runs (rx_can fuel s) (tso_round fuel msh addr split s) (λ '(bytes, s'),
    tx_step s s' ∧ tx_ctl (tx (dev s)) (tx (dev s')) ∧
    bytes = tso_bytes msh (tp_size (tx (dev s))) split ∧
    (tso_progress (tx (dev s)) msh → split < 2 ^ 16 → tso_progress (tx (dev s')) msh)).
Proof.
  cbn zeta. intros Hw Hrb Hsp. set (msh := _ + _). pose proof (wf_tx _ Hw) as Ht.
  assert (Hsz : 0 ≤ tp_size (tx (dev s)) < 2 ^ 16) by apply Ht.
  assert (Hmsh : msh < 2 ^ 17).
  { pose proof (tx_wf_hdr _ Ht). pose proof (tx_wf_mss _ Ht). unfold msh, fits in *. lia. }
  unfold tso_round. fold (tso_bytes msh (tp_size (tx (dev s))) split). set (b := tso_bytes _ _ _).
  destruct (tx_fetch_step addr b s Hw) as (s1 & -> & Hst1 & a1 & Htx1); [by apply tso_bytes_range|].
  cbn [mbind res_bind]. set (sz := u32 (_ + b)).
  destruct (tso_keep_step (tp_size (tx (dev s))) sz s1) as (s2 & -> & Hst2 & h & Htx2); [by apply Hst1|].
  cbn [mbind res_bind]. set (s3 := upd_tx (txs_size (u16 sz)) s2).
  assert (Hst3 : tx_step s s3).
  { eapply tx_step_trans; [exact Hst1|]. eapply tx_step_trans; [exact Hst2|].
    apply tx_step_tx. intros Hd. apply tx_wf_setsize; [by destruct Hd|apply u16_fits]. }
  assert (Htx3 : tx (dev s3) = txs_size (u16 sz) (txs_header h (txs_vd a1 (tx (dev s)))))
    by (cbn; by rewrite Htx2, Htx1).
  destruct (Z.eqb_spec sz msh) as [He|He].
  - eapply (runs_seq _ (rx_can fuel s3) (λ _, True)).
    { apply tso_emit_runs; [by apply Hst3|]. by rewrite (ev_rxbuf _ _ _ (ts_ev _ _ Hst3)). }
    { by apply tx_step_rx_can. }
    intros s4 (Hst4 & Hctl & Hsz4). split; [done|]. rewrite Htx3 in Hctl, Hsz4. cbn in Hsz4.
    destruct Hctl as [H1 H2 H3 H4]. cbn in H1, H2, H3, H4.
    split; [by eapply tx_step_trans|]. split; [by split|]. split; [done|].
    intros [Hp1 _] _. unfold tso_progress. rewrite H2, Hsz4. unfold msh. lia.
  - cbn [mbind res_bind runs]. rewrite Htx3. split; [done|]. split; [by split|]. split; [done|].
    intros [Hp1 Hp2] Hp3. split; cbn; [done|].
    destruct (tso_bytes_progress msh (tp_size (tx (dev s))) split) as (Hb1 & _ & Hb2); [done|done|done|].
    fold b in Hb1, Hb2. unfold sz in *. rewrite u32_small in * by (split; lia). unfold u16.
    pose proof (Z.mod_le (tp_size (tx (dev s)) + b) (2 ^ 16)). lia.
Qed.
End Descriptors.

Section Process.
Context {W : Type} `{DeviceEnvLaws W}.
Implicit Types s : Machine W.

(** The segmentation loop stays inside the buffers; with progress it takes at most
    [split_size] rounds. *)
Lemma tso_loop_runs n fuel addr split s :
  let msh := tp_hdr_len (tx (dev s)) + tp_mss (tx (dev s)) in
  dev_wf (dev s) → 0 ≤ rxbuf_size (dev s) → 0 ≤ split →
  runs (rx_can fuel s ∧ tso_progress (tx (dev s)) msh ∧ split < 2 ^ 16 ∧ Z.max 1 split ≤ Z.of_nat n)
    (tso_loop n fuel msh addr split s)
    (λ s', tx_step s s' ∧ tx_ctl (tx (dev s)) (tx (dev s'))).
Proof.
  cbn zeta. revert addr split s. induction n as [|n IH]; intros addr split s Hw Hrb Hsp; cbn [tso_loop].
  { cbn. lia. }
  eapply (runs_seq _ (rx_can fuel s)
    (λ '(bytes, s'), rx_can fuel s' ∧ tso_progress (tx (dev s')) (tp_hdr_len (tx (dev s)) + tp_mss (tx (dev s))) ∧
       split - bytes < 2 ^ 16 ∧ 0 ≤ split - bytes ∧ split - bytes ≤ Z.of_nat n));
    [by apply tso_round_runs|by intros (? & _)|].
  intros [bytes s'] (Hst & Hctl & Hb & Hprog). split.
  - intros (Hrx & Hp & Hlt & Hn). split; [by eapply tx_step_rx_can|]. split; [auto|].
    destruct Hp as [Hp1 Hp2]. pose proof (wf_tx _ Hw) as Ht.
    pose proof (tx_wf_hdr _ Ht). pose proof (tx_wf_mss _ Ht). unfold fits in *.
    destruct (tso_bytes_progress (tp_hdr_len (tx (dev s)) + tp_mss (tx (dev s))) (tp_size (tx (dev s))) split)
      as (Hb1 & Hb2 & _); [apply Ht|lia|lia|]. rewrite <-Hb in Hb1, Hb2. lia.
  - destruct (Z.eqb_spec (u32 (split - bytes)) 0) as [He|He]; [by cbn|].
    replace (tp_hdr_len (tx (dev s)) + tp_mss (tx (dev s))) with (tp_hdr_len (tx (dev s')) + tp_mss (tx (dev s')))
      by (by rewrite (ctl_hdr _ _ Hctl), (ctl_mss _ _ Hctl)).
    eapply runs_mono; [| |apply IH].
    + intros (Hrx & Hp & H1 & H2 & H3). rewrite u32_small in * by (split; lia). split; [done|].
      split; [done|]. split; [lia|]. lia.
    + intros s2 [Hst2 Hctl2]. split; [by eapply tx_step_trans|by eapply tx_ctl_trans].
    + by apply Hst.
    + by rewrite (ev_rxbuf _ _ _ (ts_ev _ _ Hst)).
    + apply u32_fits.
Qed.

(** A descriptor's sixteen bytes. *)
Definition desc_ok (dp : list Z) : Prop := length dp = 16%nat ∧ Forall (fits 8) dp.

Lemma fld_fits dp o n : desc_ok dp → (o + n ≤ 16)%nat → fits (8 * Z.of_nat n) (fld dp o n).
Proof. intros [Hl Hf] Hn. apply field_fits; [done|lia]. Qed.

Lemma tx_context_wf dp t : desc_ok dp → tx_wf t → tx_wf (tx_context dp t).
Proof.
  intros Hd []. unfold tx_context. cbn zeta.
  assert (Hp : fits 32 (Z.land (fld dp 8 4) 0xfffff)).
  { apply land_fits_l; [lia|]. apply (fld_fits dp 8 4 Hd). lia. }
  pose proof (fld_fits dp 0 1 Hd ltac:(lia)). pose proof (fld_fits dp 1 1 Hd ltac:(lia)).
  pose proof (fld_fits dp 2 2 Hd ltac:(lia)). pose proof (fld_fits dp 4 1 Hd ltac:(lia)).
  pose proof (fld_fits dp 5 1 Hd ltac:(lia)). pose proof (fld_fits dp 6 2 Hd ltac:(lia)).
  pose proof (fld_fits dp 13 1 Hd ltac:(lia)). pose proof (fld_fits dp 14 2 Hd ltac:(lia)).
  split_if; split; cbn [txs_ipcss txs_ipcso txs_ipcse txs_tucss txs_tucso txs_tucse txs_paylen txs_hdr_len txs_mss
    txs_ip txs_tcp txs_tse txs_tso_frames tp_header tp_vlan_header tp_vd tp_size tp_sum_needed tp_ipcss tp_ipcso
    tp_ipcse tp_tucss tp_tucso tp_tucse tp_hdr_len tp_mss tp_paylen tp_tso_frames]; first [assumption | apply u8_fits | done].
Qed.

(** A data descriptor that asks for segmentation. *)
Definition asks_tse (dp : list Z) : bool :=
  (tx_dtype (fld dp 8 4) =? Z.lor E1000_TXD_CMD_DEXT E1000_TXD_DTYP_D) && tst (fld dp 8 4) E1000_TXD_CMD_TSE.

Lemma tx_prepare_ok dp s t :
  tx_wf t → ∃ t', tx_prepare dp s t = Ok t' ∧ tx_wf t' ∧ tp_hdr_len t' = tp_hdr_len t ∧
    tp_mss t' = tp_mss t ∧ tp_size t' = tp_size t ∧ tp_tse t' = tp_tse t ∧ tp_cptse t' = asks_tse dp.
Proof.
  intros Hw. unfold tx_prepare, asks_tse. cbn zeta.
  set (t1 := if _ =? Z.lor _ _ then _ else _).
  assert (H1 : tx_wf t1 ∧ tp_hdr_len t1 = tp_hdr_len t ∧ tp_mss t1 = tp_mss t ∧ tp_size t1 = tp_size t ∧
               tp_tse t1 = tp_tse t ∧ tp_cptse t1 = (tx_dtype (fld dp 8 4) =? Z.lor E1000_TXD_CMD_DEXT E1000_TXD_DTYP_D)
                                                     && tst (fld dp 8 4) E1000_TXD_CMD_TSE).
  { unfold t1. destruct Hw. repeat split_if; (split; [split; cbn; auto; apply u8_fits|done]). }
  clearbody t1. destruct H1 as ([] & ?). split_if; [|eexists; split; [done|]; split; [by split|done]].
  rewrite store_in by (rewrite ?length_be_bytes; lia). cbn [mbind res_bind].
  rewrite store_in by (rewrite ?length_be_bytes; lia). cbn [mbind res_bind].
  eexists. split; [done|]. split; [|done]. split; cbn [tp_header tp_vlan_header tp_vd tp_size tp_sum_needed tp_ipcss tp_ipcso
    tp_ipcse tp_tucss tp_tucso tp_tucse tp_hdr_len tp_mss tp_paylen tp_tso_frames txs_vlan_header txs_vlan_needed];
    auto 8 with width.
Qed.
End Process.

Section Ring.
Context {W : Type} `{DeviceEnvLaws W}.
Implicit Types s : Machine W.

Lemma tx_data_runs fuel dp s :
  let t := tx (dev s) in
  desc_ok dp → dev_wf (dev s) → 0 ≤ rxbuf_size (dev s) →
  runs (rx_can fuel s ∧ 65536 ≤ Z.of_nat fuel ∧ (tp_tse t && tp_cptse t = true → tso_progress t (tp_hdr_len t + tp_mss t)))
    (tx_data fuel dp s) (λ s', tx_step s s').
Proof.
  cbn zeta. intros Hdp Hw Hrb. pose proof (wf_tx _ Hw) as Ht. unfold tx_data.
  assert (Hsp : 0 ≤ Z.land (fld dp 8 4) 0xffff < 2 ^ 16).
  { rewrite land_ffff. by apply Z.mod_pos_bound. }
  destruct (tp_tse (tx (dev s)) && tp_cptse (tx (dev s))).
  - eapply runs_mono; [| |apply tso_loop_runs; try done; lia]; [|by intros ? [? _]].
    intros (Hrx & Hf & Hp). split; [done|]. split; [auto|]. lia.
  - destruct (negb _ && _); [by apply tx_step_refl|].
    assert (Hsz : fits 16 (tp_size (tx (dev s)))) by apply Ht. unfold fits in Hsz.
    destruct (tx_fetch_step (fld dp 0 8) (Z.min (TX_DATA - tp_size (tx (dev s))) (Z.land (fld dp 8 4) 0xffff)) s Hw)
      as (s1 & -> & Hst & a & Htx); [unfold TX_DATA; lia|]. cbn.
    eapply tx_step_trans; [exact Hst|]. apply tx_step_tx. intros Hd.
    apply tx_wf_setsize; [by destruct Hd|apply u16_fits].
Qed.

Lemma tx_end_wf t : tx_wf t → tx_wf (tx_end t).
Proof. intros []. by split. Qed.

(** Segmentation of this descriptor, if any, makes progress. *)
Definition tx_progress (dp : list Z) (t : e1000_tx) : Prop :=
  tp_tse t && asks_tse dp = true → tso_progress t (tp_hdr_len t + tp_mss t).

Lemma process_runs fuel dp s :
  desc_ok dp → dev_wf (dev s) → 0 ≤ rxbuf_size (dev s) →
  runs (rx_can fuel s ∧ 65536 ≤ Z.of_nat fuel ∧ tx_progress dp (tx (dev s))) (process_tx_desc fuel dp s)
    (λ s', tx_step s s').
Proof.
  intros Hdp Hw Hrb. unfold process_tx_desc. set (s1 := upd_dev _ s).
  assert (Hst1 : tx_step s s1).
  { split; [|by left]. exact (evolves_mit_ide _ (Z.lor (mit_ide (dev s)) (Z.land (fld dp 8 4) E1000_TXD_CMD_IDE)) s). }
  assert (Hw1 : dev_wf (dev s1)) by (by apply Hst1). change (tx (dev s)) with (tx (dev s1)).
  split_if.
  { cbn. eapply tx_step_trans; [exact Hst1|]. apply tx_step_tx. intros Hd. apply tx_context_wf; [done|]. by destruct Hd. }
  unfold with_tx. destruct (tx_prepare_ok dp s1 (tx (dev s1))) as (t & -> & Htw & Hh & Hm & Hz & Hts & Hcp); [by destruct Hw1|].
  cbn [mbind res_bind]. set (s2 := upd_tx (λ _, t) s1).
  assert (Hst2 : tx_step s s2) by (eapply tx_step_trans; [exact Hst1|]; by apply tx_step_tx).
  assert (Hw2 : dev_wf (dev s2)) by (by apply Hst2).
  eapply (runs_seq _ _ (rx_can fuel)); [apply (tx_data_runs fuel dp s2); try done| |].
  - intros (Hrx & Hf & Hp). split; [by eapply tx_step_rx_can|]. split; [done|]. change (tx (dev s2)) with t.
    unfold tso_progress. rewrite Hts, Hcp, Hh, Hm, Hz. exact Hp.
  - intros s3 Hst3. assert (Hst : tx_step s s3) by (by eapply tx_step_trans).
    split; [intros [Hrx _]; by eapply tx_step_rx_can|]. split_if; [done|].
    eapply (runs_seq _ (rx_can fuel s3) (λ _, True) _ _ (λ s4, tx_step s s4)); [|done|].
    + split_if; [|done]. eapply runs_mono; [done| |apply xmit_seg_runs].
      * intros s4 [Hst4 _]. by eapply tx_step_trans.
      * by apply Hst.
      * by rewrite (ev_rxbuf _ _ _ (ts_ev _ _ Hst)).
    + intros s4 Hst4. split; [done|]. cbn. eapply tx_step_trans; [exact Hst4|].
      apply tx_step_tx. intros Hd. apply tx_end_wf. by destruct Hd.
Qed.

Lemma writeback_step base dp s :
  desc_ok dp → let '(c, dp', s') := txdesc_writeback base dp s in desc_ok dp' ∧ tx_step s s'.
Proof.
  intros [Hl Hf]. unfold txdesc_writeback. cbn zeta. split_if; [split; [done|apply tx_step_refl]|].
  split; [split|].
  - rewrite length_app, length_take, length_le_bytes. lia.
  - apply Forall_app; split; [by apply Forall_take|apply le_bytes_fits].
  - apply (tx_step_dma _ s). eapply dma_write, dma_refl.
Qed.

Lemma tx_advance_eq s : tx_advance s = wr TDH (ring_next (rd s TDLEN) (rd s TDH)) s.
Proof.
  unfold tx_advance, ring_next. regs. split_if.
  - unfold wr, upd_dev, with_dev. cbn. by rewrite set_reg_set_reg.
  - unfold wr, upd_dev, with_dev, set_reg. cbn. by rewrite (u32_small (u32 _)) by apply u32_fits.
Qed.

(** The ring walk also moves the head. *)
Record xmit_step s s' : Prop := {
  xs_ev : evolves (TDH :: tx_regs) s s';
  xs_ring : head_moved RDLEN RDH s s';
}.

Lemma xmit_step_tx s s' : tx_step s s' → xmit_step s s'.
Proof. intros []. split; [|done]. eapply evolves_mono; [|done]. intros x Hx; by apply elem_of_cons; right. Qed.
Lemma xmit_step_trans s1 s2 s3 : xmit_step s1 s2 → xmit_step s2 s3 → xmit_step s1 s3.
Proof.
  intros [E1 R1] [E2 R2]. split; [by eapply evolves_trans|].
  eapply head_moved_trans; [|done..]. by eapply evolves_rd.
Qed.
Lemma xmit_step_tdh v s : xmit_step s (wr TDH v s).
Proof. split; [apply evolves_then_wr; [apply evolves_refl|reflexivity]|]. unfold head_moved. regs. by left. Qed.
Lemma xmit_step_rx_can fuel s s' : xmit_step s s' → rx_can fuel s → rx_can fuel s'.
Proof.
  intros [He Hr] Hrx Hlb. rewrite (evolves_loops_back _ _ _ He) in Hlb. destruct (Hrx Hlb) as (H1 & H2 & H3).
  pose proof (evolves_rd _ RDLEN _ _ He eq_refl) as El.
  split; [by rewrite El|]. split; [by eapply head_moved_ring|done].
Qed.
Lemma tx_step_rd i s s' : tx_step s s' → bool_decide (i ∉ tx_regs) = true → rd s' i = rd s i.
Proof. intros [He _] Hi. apply bool_decide_eq_true in Hi. by apply (ev_regs _ _ _ He). Qed.

#[export] Instance tx_progress_dec dp t : Decision (tx_progress dp t).
Proof. unfold tx_progress, tso_progress. apply _. Defined.

(** The rounds of [xmit_loop] one by one: each descriptor the walk reads from guest memory, with
    the transmit state it is processed in. *)
Fixpoint xmit_visits (n fuel : nat) (tdh_start : Z) (desc : list Z) s : list (list Z * e1000_tx) :=
  if rd s TDH =? rd s TDT then []
  else
    match n with
    | O => []
    | S n =>
        let base := u64 (tx_desc_base (dev s) + 16 * rd s TDH) in
        let '(desc, w) := pci_dma_read base desc (world s) in
        let s := upd_world (λ _, w) s in
        (desc, tx (dev s)) ::
        match process_tx_desc fuel desc s with
        | Ok s =>
            let '(_, desc, s) := txdesc_writeback base desc s in
            let s := tx_advance s in
            if rd s TDH =? tdh_start then [] else xmit_visits n fuel tdh_start desc s
        | _ => []
        end
    end.

(** Every descriptor [start_xmit] comes to makes progress where it comes to it. *)
Definition visits_progress : list (list Z * e1000_tx) → Prop := Forall (λ v, tx_progress v.1 v.2).
Definition xmit_progress (fuel : nat) s : Prop :=
  visits_progress (xmit_visits fuel fuel (rd s TDH) (stack_bytes 16) s).

(** One descriptor of the walk: the new head, or no progress. *)
Lemma xmit_round fuel base desc s :
  desc_ok desc → dev_wf (dev s) → 0 ≤ rxbuf_size (dev s) →
  let '(dp, w) := pci_dma_read base desc (world s) in
  match process_tx_desc fuel dp (upd_world (λ _, w) s) with
  | Ok s1 =>
      let '(c, dp', s2) := txdesc_writeback base dp s1 in
      desc_ok dp' ∧ tx_step s s2 ∧ tx_advance s2 = wr TDH (ring_next (rd s TDLEN) (rd s TDH)) s2
  | Fault _ => False
  | Diverge => rx_can fuel s → 65536 ≤ Z.of_nat fuel → ¬ tx_progress dp (tx (dev s))
  end.
Proof.
  intros Hdp Hw Hrb.
  pose proof (dma_read base desc (world s)) as Hd. pose proof (dma_read_length base desc (world s)) as Hl.
  pose proof (dma_read_bytes base desc (world s) ltac:(apply Hdp)) as Hb.
  destruct (pci_dma_read base desc (world s)) as [dp w]. cbn [fst snd] in *.
  set (s1 := upd_world (λ _, w) s).
  assert (Hst1 : tx_step s s1) by (apply (tx_step_dma w); eauto with width).
  assert (Hdp1 : desc_ok dp) by (split; [destruct Hdp; lia|done]).
  pose proof (process_runs fuel dp s1 Hdp1 ltac:(by apply Hst1) Hrb) as Hp.
  destruct (process_tx_desc fuel dp s1) as [s2|f|] eqn:Ep; [|done|].
  - cbn in Hp. pose proof (writeback_step base dp s2 Hdp1) as Hwb.
    destruct (txdesc_writeback base dp s2) as [[c dp2] s3]. destruct Hwb as [Hdp2 Hst3].
    assert (Hst : tx_step s s3) by (eapply tx_step_trans; [exact Hst1|]; by eapply tx_step_trans).
    split; [done|]. split; [done|]. rewrite tx_advance_eq.
    by rewrite (tx_step_rd TDLEN s s3 Hst eq_refl), (tx_step_rd TDH s s3 Hst eq_refl).
  - intros Hrx Hf Hprog. apply Hp. split; [by eapply tx_step_rx_can|done].
Qed.

Lemma xmit_loop_cases n fuel start cause desc s :
  desc_ok desc → dev_wf (dev s) → 0 ≤ rxbuf_size (dev s) →
  match xmit_loop n fuel start cause desc s with
  | Ok (_, s') => xmit_step s s' ∧ head_moved TDLEN TDH s s'
  | Fault _ => False
  | Diverge =>
      rx_can fuel s → 65536 ≤ Z.of_nat fuel → in_ring (rd s TDLEN) start → in_ring (rd s TDLEN) (rd s TDH) →
      ring_dist (rd s TDLEN) start (rd s TDH) ≤ Z.of_nat n → ¬ visits_progress (xmit_visits n fuel start desc s)
  end.
Proof.
  revert cause desc s. induction n as [|n IH]; intros cause desc s Hdp Hw Hrb; cbn [xmit_loop xmit_visits].
  { split_if; [split; [apply xmit_step_tx, tx_step_refl|by left]|]. intros Hrx _ H1 H2 H3 _.
    destruct (ring_next_step (rd s TDLEN) start (rd s TDH)) as (_ & ? & _); [by apply reg_fits|done..|lia]. }
  split_if; [split; [apply xmit_step_tx, tx_step_refl|by left]|]. set (base := u64 _).
  pose proof (xmit_round fuel base desc s Hdp Hw Hrb) as Hround.
  destruct (pci_dma_read base desc (world s)) as [dp w]. cbn zeta.
  destruct (process_tx_desc fuel dp _) as [s2|f|]; cbn [mbind res_bind]; [|done|].
  2:{ intros Hrx Hf _ _ _ [Hv _]%Forall_cons. by apply Hround. }
  destruct (txdesc_writeback base dp s2) as [[c dp2] s3]. destruct Hround as (Hdp2 & Hst & ->).
  set (r := ring_next _ _). set (s4 := wr TDH r s3).
  assert (Hst4 : xmit_step s s4) by (eapply xmit_step_trans; [by apply xmit_step_tx|apply xmit_step_tdh]).
  assert (Hr : rd s4 TDH = r) by (unfold s4; regs; apply u32_small, ring_next_fits).
  assert (Hlen : rd s4 TDLEN = rd s TDLEN) by (unfold s4; regs; by apply (tx_step_rd TDLEN _ _ Hst)).
  assert (Hin : in_ring (rd s TDLEN) r) by apply ring_next_in_ring.
  assert (Hmv : head_moved TDLEN TDH s s4) by (right; by rewrite Hr, Hlen).
  destruct (Z.eqb_spec (rd s4 TDH) start) as [He|He]; [done|].
  specialize (IH (Z.lor cause c) dp2 s4 Hdp2 ltac:(by apply Hst4)
    ltac:(by rewrite (ev_rxbuf _ _ _ (xs_ev _ _ Hst4)))).
  rewrite Hr, Hlen in IH.
  destruct (xmit_loop _ _ _ _ _ _) as [[c' s5]|f|]; [|done|].
  - destruct IH as [IH1 IH2]. split; [by eapply xmit_step_trans|]. eapply head_moved_trans; [|done..].
    by apply (evolves_rd _ TDLEN _ _ (xs_ev _ _ IH1)).
  - intros Hrx Hf Hs Hi Hn [_ Hv]%Forall_cons. apply IH in Hv; [done|by eapply xmit_step_rx_can|done|done|auto|].
    destruct (ring_next_step (rd s TDLEN) start (rd s TDH)) as (_ & _ & Hstep); [by apply reg_fits|done..|].
    fold r in Hstep. rewrite Hr in He. specialize (Hstep He). lia.
Qed.

Lemma stack_desc_ok : desc_ok (stack_bytes 16).
Proof. split; [apply stack_length|apply stack_fits]. Qed.

Lemma start_xmit_cases fuel s :
  dev_wf (dev s) → 0 ≤ rxbuf_size (dev s) →
  match start_xmit fuel s with
  | Ok s' => xmit_step s s' ∧ head_moved TDLEN TDH s s'
  | Fault _ => False
  | Diverge => rx_can fuel s → 65536 ≤ Z.of_nat fuel → fits 20 (rd s TDLEN) → in_ring (rd s TDLEN) (rd s TDH) → ¬ xmit_progress fuel s
  end.
Proof.
  intros Hw Hrb. unfold start_xmit. split_if; [split; [apply xmit_step_tx, tx_step_refl|by left]|].
  pose proof (xmit_loop_cases fuel fuel (rd s TDH) E1000_ICS_TXQE (stack_bytes 16) s stack_desc_ok Hw Hrb) as Hl.
  destruct (xmit_loop _ _ _ _ _ _) as [[c s1]|f|]; cbn [mbind res_bind]; [|done|].
  - destruct Hl as [Hst Hr]. split.
    + eapply xmit_step_trans; [exact Hst|]. split; [apply evolves_then_ics; [apply evolves_refl|reflexivity]|].
      unfold set_ics, head_moved. rewrite !sic_rd by neq_reg. by left.
    + unfold set_ics, head_moved. rewrite !sic_rd by neq_reg. exact Hr.
  - intros Hrx Hfu Hf Hi. apply Hl; try done. pose proof (ring_dist_bound _ _ _ Hf Hi Hi). lia.
Qed.
End Ring.

(** ** Properties *)

Section TransmitTheorems.
Context {W : Type} `{DeviceEnvLaws W}.
Implicit Types s : Machine W.

(** C7: [start_xmit] on a well-formed device whose transmit head is an index of the ring and whose
    ring length fits its 20-bit register (and, with the PHY in loopback, whose receive ring is
    usable).  It never leaves the transmit, header and VLAN buffers whatever the guest puts in the
    descriptors.  If every descriptor the walk actually reads makes progress where it is read (a
    data descriptor that asks for segmentation finds a payload per segment, and the packet built so
    far shorter than a segment), it returns: 65536 rounds are enough for each of its loops, the
    device stays well-formed, the head stays in the ring, the interrupt state stays consistent and
    no register changes but the head, the statistics, the interrupt causes and those a received
    (looped back) frame changes. *)
Theorem start_xmit_returns fuel s :
  dev_wf (dev s) → 0 ≤ rxbuf_size (dev s) → rx_can fuel s → 65536 ≤ Z.of_nat fuel →
  fits 20 (rd s TDLEN) → in_ring (rd s TDLEN) (rd s TDH) →
  (∀ f, start_xmit fuel s ≠ Fault f) ∧
  (xmit_progress fuel s →
   ∃ s', start_xmit fuel s = Ok s' ∧ dev_wf (dev s') ∧ in_ring (rd s' TDLEN) (rd s' TDH) ∧
     (irq_ok (dev s) → irq_ok (dev s')) ∧ (∀ i, i ∉ TDH :: tx_regs → rd s' i = rd s i)).
Proof.
  intros Hw Hrb Hrx Hf Hl Hi. pose proof (start_xmit_cases fuel s Hw Hrb) as Hc.
  destruct (start_xmit fuel s) as [s'|f|]; [|done|].
  - split; [done|intros _]. destruct Hc as [[He _] Hr]. exists s'. split; [done|].
    apply head_moved_ring in Hr; [|by apply (evolves_rd _ TDLEN _ _ He)|done]. destruct He. auto.
  - split; [done|]. intros Hp. by apply Hc in Hp.
Qed.

Lemma xmit_seg_ok fuel s :
  dev_wf (dev s) → 0 ≤ rxbuf_size (dev s) → loops_back s = false →
  ∃ s', xmit_seg fuel s = Ok s' ∧ tx_step s s' ∧ tx_ctl (tx (dev s)) (tx (dev s')).
Proof.
  intros Hw Hrb Hlb. destruct (runs_total (rx_can fuel s) _ _ ltac:(intros E; congruence) (xmit_seg_runs fuel s Hw Hrb))
    as (s' & -> & H1 & H2 & _). eauto.
Qed.

(** Sending a segment counts it: the 64-bit octet counter (two 32-bit registers with carry)
    advances by its size, and both packet counters by one, also when the frame loops back. *)
Theorem xmit_seg_counts fuel s s' :
  dev_wf (dev s) → 0 ≤ rxbuf_size (dev s) → xmit_seg fuel s = Ok s' →
  tx_octets s' = (tx_octets s + tp_size (tx (dev s))) mod 2 ^ 64 ∧
  rd s' GPTC = u32 (rd s GPTC + 1) ∧ rd s' TPT = u32 (rd s TPT + 1).
Proof.
  intros Hw Hrb He. pose proof (xmit_seg_runs fuel s Hw Hrb) as Hr. rewrite He in Hr.
  destruct Hr as (_ & _ & _ & H1 & H2 & H3). done.
Qed.

(** Without payload a full segment leaves the loop where it was. *)
Lemma tso_round_no_payload fuel addr split s :
  let msh := tp_hdr_len (tx (dev s)) + tp_mss (tx (dev s)) in
  dev_wf (dev s) → 0 ≤ rxbuf_size (dev s) → loops_back s = false → 0 < split < 2 ^ 16 →
  tp_mss (tx (dev s)) = 0 → tp_size (tx (dev s)) = tp_hdr_len (tx (dev s)) →
  ∃ s', tso_round fuel msh addr split s = Ok (0, s') ∧ tx_step s s' ∧ loops_back s' = false ∧
    tp_mss (tx (dev s')) = 0 ∧ tp_size (tx (dev s')) = tp_hdr_len (tx (dev s')) ∧
    tp_hdr_len (tx (dev s')) = tp_hdr_len (tx (dev s)).
Proof.
  cbn zeta. intros Hw Hrb Hlb Hsp Hm Hz. pose proof (tx_wf_hdr _ (wf_tx _ Hw)) as Hh. unfold fits in Hh.
  unfold tso_round. rewrite Hz, Hm, Z.add_0_r. rewrite (u32_small (_ + split)) by (split; lia).
  rewrite (proj2 (Z.ltb_lt _ _)), Z.sub_diag by lia. change (u32 0) with 0.
  rewrite Z.min_r by (unfold TX_DATA; lia).
  destruct (tx_fetch_step addr 0 s Hw) as (s1 & -> & Hst1 & a1 & Htx1); [unfold TX_DATA; lia|].
  cbn [mbind res_bind]. rewrite Z.add_0_r, u32_small by (split; lia).
  assert (Hk : ∀ z s0, tp_hdr_len (tx (dev s0)) = z → tso_keep z z s0 = Ok s0).
  { intros z s0 <-. unfold tso_keep. by rewrite Z.ltb_irrefl, andb_false_r. }
  rewrite Hk by (by rewrite Htx1). cbn [mbind res_bind]. rewrite Z.eqb_refl. set (s2 := upd_tx _ s1).
  assert (Hst2 : tx_step s s2).
  { eapply tx_step_trans; [exact Hst1|]. apply tx_step_tx. intros Hd. apply tx_wf_setsize; [by destruct Hd|apply u16_fits]. }
  assert (Hlb2 : loops_back s2 = false) by (by rewrite (evolves_loops_back _ _ _ (ts_ev _ _ Hst2))).
  destruct (runs_total (rx_can fuel s2) _ _ ltac:(intros E; congruence)
    (tso_emit_runs fuel s2 ltac:(by apply Hst2) ltac:(by rewrite (ev_rxbuf _ _ _ (ts_ev _ _ Hst2)))))
    as (s3 & -> & Hst3 & Hctl & Hz3).
  cbn [mbind res_bind]. exists s3. split; [done|]. split; [by eapply tx_step_trans|].
  rewrite (evolves_loops_back _ _ _ (ts_ev _ _ Hst3)). destruct Hctl as [H1 H2 _ _].
  assert (Htx2 : tx (dev s2) = txs_size (u16 (tp_hdr_len (tx (dev s)))) (txs_vd a1 (tx (dev s)))) by (cbn; by rewrite Htx1).
  rewrite Htx2 in *. cbn in H1, H2, Hz3. split; [done|]. split; [congruence|]. split; congruence.
Qed.

(** with a context descriptor whose segments have no payload (MSS 0), a packet whose header is
    complete never leaves the segmentation loop: every round fetches nothing, sends the header
    again and leaves the remaining length unchanged. *)
Theorem tso_loop_mss0_diverges n fuel addr split s :
  dev_wf (dev s) → 0 ≤ rxbuf_size (dev s) → loops_back s = false → 0 < split < 2 ^ 16 →
  tp_mss (tx (dev s)) = 0 → tp_size (tx (dev s)) = tp_hdr_len (tx (dev s)) →
  tso_loop n fuel (tp_hdr_len (tx (dev s)) + tp_mss (tx (dev s))) addr split s = Diverge.
Proof.
  revert addr s. induction n as [|n IH]; intros addr s Hw Hrb Hlb Hsp Hm Hz; [done|]. cbn [tso_loop].
  destruct (tso_round_no_payload fuel addr split s Hw Hrb Hlb Hsp Hm Hz)
    as (s' & -> & Hst & Hlb' & Hm' & Hz' & Hh'). cbn [mbind res_bind].
  rewrite Z.sub_0_r, u32_small by (split; lia). rewrite (proj2 (Z.eqb_neq _ _)) by lia.
  rewrite Hm, <-Hh', <-Hm'. apply IH; try done; [by apply Hst|].
  by rewrite (ev_rxbuf _ _ _ (ts_ev _ _ Hst)).
Qed.
End TransmitTheorems.

(** ** Checksum insertion *)

(** C36: when the field the guest programmed lies inside the summed region (it does not start before
    the region, both its bytes are before its end) at an even distance from its start, [putsum]
    stores a checksum that verifies: the sum over the region, with the value the field held before
    (the pseudo-header sum for TCP and UDP) added, folds to all ones; only the two bytes of the
    field change.  The region ends at [cse] inclusive when that is set and inside the packet, else
    at the end of the packet. *)
Theorem putsum_verifies (a : arr) (n sloc css cse : Z) :
  let m := if negb (cse =? 0) && (cse <? n) then cse + 1 else n in
  afits 8 a → fits 16 n → fits 16 cse → 0 ≤ css → css ≤ sloc → sloc + 2 ≤ m →
  Z.odd (sloc - css) = false →
  ∃ a', putsum a n sloc css cse = Ok a' ∧
    net_checksum_finish (net_checksum_add (m - css) (aread a' (4 + css) (Z.to_nat (m - css)))
                         + be_val (aread a (4 + sloc) 2)) = Ok 0 ∧
    ∀ i, i < 4 + sloc ∨ 4 + sloc + 2 ≤ i → aget a' i = aget a i.
Proof.
  cbn zeta. intros Ha Hn Hce Hc Hs Hm Hodd. unfold putsum. set (m := if _ && _ then _ else _) in *. unfold fits in *.
  assert (Hmr : m < 2 ^ 16) by (unfold m; split_if; bool_hyps; lia). clearbody m.
  rewrite (u32_small (m - 1)) by (split; lia). rewrite (proj2 (Z.ltb_lt _ _)) by lia.
  rewrite s32_u32_small by lia. rewrite (proj2 (Z.leb_gt _ _)) by lia.
  rewrite load_in by (unfold TX_VD, TX_DATA; lia). cbn [mbind res_bind].
  set (l := aread a (4 + css) (Z.to_nat (m - css))). set (k := Z.to_nat (sloc - css)).
  assert (Hl : l = aread a (4 + css) k ++ aread a (4 + sloc) 2 ++ aread a (4 + sloc + 2) (Z.to_nat (m - css) - k - 2)).
  { unfold l. rewrite (aread_split3 a (4 + css) k) by lia.
    by replace (4 + css + Z.of_nat k) with (4 + sloc) by lia. }
  assert (Hll : m - css = Z.of_nat (length l)) by (unfold l; rewrite length_aread; lia).
  assert (Hfit : fits 32 (net_checksum_add (m - css) l)).
  { unfold net_checksum_add, net_checksum_add_cont. apply add_cont_fits. done. }
  rewrite finish_eq by done. cbn [mbind res_bind]. set (c := 65535 - _).
  unfold data_put. rewrite store_in by (rewrite ?length_be_bytes; unfold TX_VD, TX_DATA; lia).
  eexists. split; [done|]. split.
  - replace (aread (awrite a (4 + sloc) (be_bytes 2 c)) (4 + css) (Z.to_nat (m - css)))
      with (aread a (4 + css) k ++ be_bytes 2 c ++ aread a (4 + sloc + 2) (Z.to_nat (m - css) - k - 2)).
    2:{ rewrite (aread_split3 (awrite a (4 + sloc) (be_bytes 2 c)) (4 + css) k) by lia. replace (4 + css + Z.of_nat k) with (4 + sloc) by lia.
        rewrite (aread_awrite_out a (4 + sloc) (be_bytes 2 c) (4 + css) k) by (rewrite length_be_bytes; lia). 
        rewrite (aread_awrite_len a (4 + sloc) _ 2) by apply length_be_bytes.
        by rewrite (aread_awrite_out a (4 + sloc) (be_bytes 2 c) (4 + sloc + 2)) by (rewrite length_be_bytes; lia). }
    set (p := aread a (4 + css) k) in *. set (q := aread a (4 + sloc + 2) _) in *.
    assert (Hp : Z.odd (Z.of_nat (length p)) = false) by (unfold p, k; by rewrite length_aread, Z2Nat.id by lia).
    assert (Hpq : m - css = Z.of_nat (length (p ++ be_bytes 2 c ++ q))).
    { unfold p, q. rewrite !length_app, !length_aread, length_be_bytes. lia. }
    destruct (aread a (4 + sloc) 2) as [|hi [|lo [|]]] eqn:E2;
      try (apply (f_equal length) in E2; rewrite length_aread in E2; discriminate).
    rewrite Hpq. apply checksum_field_verifies; rewrite <-?Hl; [by apply aread_fits|done|lia|].
    rewrite <-Hll. by apply finish_eq.
  - intros i Hi. apply aget_awrite_out. rewrite length_be_bytes. lia.
Qed.

(** ** VLAN tags *)

Lemma tx_tag_frame t :
  tx_wf t → tp_vlan_needed t = true → 12 ≤ tp_size t →
  ∃ t', tx_tag t = Ok (t', 0, tp_size t + 4) ∧
    aread (tp_vd t') 0 (Z.to_nat (tp_size t + 4)) =
      aread (tp_vd t) 4 12 ++ aread (tp_vlan_header t) 0 4 ++
      aread (tp_vd t) 16 (Z.to_nat (tp_size t - 12)).
Proof.
  intros Hw Hv Hs. pose proof (tx_wf_size _ Hw) as Hz. unfold fits in Hz. unfold tx_tag, TX_VD, TX_DATA. rewrite Hv.
  rewrite load_in by lia. cbn [mbind res_bind]. rewrite store_in by (rewrite ?length_aread; lia).
  cbn [mbind res_bind]. rewrite load_in by lia. cbn [mbind res_bind].
  rewrite store_in by (rewrite ?length_aread; lia). cbn [mbind res_bind].
  rewrite store_in by (rewrite ?length_aread; lia). cbn [mbind res_bind].
  eexists. split; [done|]. cbn [tp_vd txs_vd]. change (Z.to_nat 4) with 4%nat. change (Z.to_nat 8) with 8%nat.
  change (4 + 4) with 8. change (4 + 8) with 12.
  set (a1 := awrite (tp_vd t) 0 (aread (tp_vd t) 4 4)). set (a2 := awrite a1 4 (aread a1 8 8)).
  set (h := aread (tp_vlan_header t) 0 4).
  replace (Z.to_nat (tp_size t + 4)) with (4 + (8 + (4 + Z.to_nat (tp_size t - 12))))%nat by lia.
  rewrite !aread_app. change (0 + Z.of_nat 4) with 4. change (4 + Z.of_nat 8) with 12. change (12 + Z.of_nat 4) with 16.
  assert (Hh : length h = 4%nat) by apply length_aread.
  rewrite (aread_awrite_out a2 12 h 0 4), (aread_awrite_out a2 12 h 4 8), (aread_awrite_out a2 12 h 16) by lia.
  rewrite (aread_awrite_len a2 12 h 4 Hh).
  unfold a2. rewrite (aread_awrite_out a1 4 _ 0 4), (aread_awrite_out a1 4 _ 16) by (rewrite length_aread; lia).
  rewrite (aread_awrite_len a1 4 _ 8) by apply length_aread.
  unfold a1. rewrite (aread_awrite_out (tp_vd t) 0 _ 8 8), (aread_awrite_out (tp_vd t) 0 _ 16) by (rewrite length_aread; lia).
  rewrite (aread_awrite_len (tp_vd t) 0 _ 4) by apply length_aread.
  change 12%nat with (4 + 8)%nat. by rewrite aread_app, <-app_assoc.
Qed.

(** a VLAN tag inserted on transmission and removed on reception cancel out: the transmitted
    frame is the packet with the four tag bytes after the two addresses, and the receive path's
    tag removal gives back the packet. *)
Theorem vlan_tag_roundtrip (t : e1000_tx) (d : E1000State) :
  tx_wf t → tp_vlan_needed t = true → 12 ≤ tp_size t →
  ∃ t', tx_tag t = Ok (t', 0, tp_size t + 4) ∧
    let frame := aread (tp_vd t') 0 (Z.to_nat (tp_size t + 4)) in
    take 4 (drop 12 frame) = aread (tp_vlan_header t) 0 4 ∧
    (strips d frame = true → payload d frame = aread (tp_vd t) 4 (Z.to_nat (tp_size t))).
Proof.
  intros Hw Hv Hs. destruct (tx_tag_frame t Hw Hv Hs) as (t' & -> & Hf). exists t'. split; [done|].
  cbn zeta. rewrite Hf. set (p := aread (tp_vd t) 4 12). set (h := aread (tp_vlan_header t) 0 4).
  assert (Hp : length p = 12%nat) by apply length_aread. assert (Hh : length h = 4%nat) by apply length_aread.
  split.
  - rewrite drop_app_ge, Hp, Nat.sub_diag, drop_0 by lia. by rewrite take_app_le, take_ge by lia.
  - intros Hst. unfold payload. rewrite Hst. rewrite take_app_le, take_ge by lia.
    rewrite drop_app_ge, drop_app_ge, Hp, Hh by lia. cbn [Nat.sub]. rewrite drop_0.
    unfold p. replace (Z.to_nat (tp_size t)) with (12 + Z.to_nat (tp_size t - 12))%nat by lia.
    by rewrite aread_app.
Qed.

(** ** A packet in one descriptor *)

Section Legacy.
Context {W : Type} `{DeviceEnvLaws W} `{!DmaMemory W}.
Implicit Types s : Machine W.

Lemma tx_octets_upd_tx f s : tx_octets (upd_tx f s) = tx_octets s.
Proof. done. Qed.

Lemma world_upd_tx f s : world (upd_tx f s) = world s.
Proof. done. Qed.

(** A legacy descriptor that is a whole packet: length, address and command. *)
Definition legacy_eop (dp : list Z) : Prop :=
  tx_dtype (fld dp 8 4) = 0 ∧ tst (fld dp 8 4) E1000_TXD_CMD_EOP = true ∧
  tst (fld dp 8 4) E1000_TXD_CMD_VLE = false.

(** C11: a legacy end-of-packet descriptor without the VLAN flag (VLE), on a transmitter between
    packets (nothing collected, no checksum and no tag asked for) whose PHY is not in loopback,
    sends to the network exactly the bytes of guest memory it points at, in one frame, adds them to
    the 64-bit octet counter, and leaves nothing collected. *)
Theorem process_legacy_sends fuel dp s :
  let len := Z.land (fld dp 8 4) 0xffff in
  legacy_eop dp → dev_wf (dev s) → loops_back s = false →
  tp_size (tx (dev s)) = 0 → tp_sum_needed (tx (dev s)) = 0 → tp_vlan_needed (tx (dev s)) = false →
  ∃ s', process_tx_desc fuel dp s = Ok s' ∧
    world s' = net_send (guest_bytes (world s) (fld dp 0 8) (Z.to_nat len)) (world s) ∧
    tp_size (tx (dev s')) = 0 ∧ tx_octets s' = (tx_octets s + len) mod 2 ^ 64.
Proof.
  cbn zeta. intros (Hdt & Heop & Hvle) Hw Hlb Hz Hsum Hvn. set (len := Z.land _ 0xffff).
  assert (Hlen : 0 ≤ len < 2 ^ 16) by (unfold len; rewrite land_ffff; by apply Z.mod_pos_bound).
  unfold process_tx_desc. rewrite Hdt. known_if. unfold with_tx, tx_prepare. rewrite Hdt.
  known_if. unfold is_vlan_txd. rewrite Hvle, andb_false_r. cbn [andb mbind res_bind].
  unfold tx_data. fold len. set (s1 := upd_tx _ _).
  assert (Ht1 : tx (dev s1) = txs_cptse false (tx (dev s))) by reflexivity.
  rewrite Ht1. cbn [tp_cptse tp_tse tp_size txs_cptse]. rewrite !andb_false_r, Hz.
  rewrite Z.min_r by (unfold TX_DATA; lia). unfold tx_fetch. rewrite Ht1.
  cbn [tp_vd tp_size txs_cptse]. rewrite Hz, Z.add_0_r, load_in by (unfold TX_VD, TX_DATA; lia).
  cbn [mbind res_bind]. rewrite guest_read, length_aread. change (world s1) with (world s).
  fold (guest_bytes (world s) (fld dp 0 8) (Z.to_nat len)). set (gb := guest_bytes _ _ _).
  assert (Hgb : length gb = Z.to_nat len) by (unfold gb, guest_bytes; by rewrite length_fmap, length_seq).
  rewrite store_in by (rewrite ?Hgb; unfold TX_VD, TX_DATA; lia). cbn [mbind res_bind]. rewrite Heop. cbn [negb].
  set (s2 := upd_tx _ _).
  assert (Ht2 : tx (dev s2) = txs_size len (txs_vd (awrite (tp_vd (tx (dev s))) 4 gb) (txs_cptse false (tx (dev s))))).
  { cbn. by rewrite Hz, Z.add_0_l, u16_small. }
  rewrite Ht2. cbn [tp_tse tp_cptse txs_size txs_vd txs_cptse]. rewrite andb_false_r. cbn [andb negb].
  unfold xmit_seg. rewrite Ht2. unfold tso_headers. cbn [tp_tse tp_cptse txs_size txs_vd txs_cptse].
  rewrite andb_false_r. cbn [mbind res_bind]. unfold tx_sums. cbn [tp_sum_needed txs_size txs_vd txs_cptse].
  rewrite Hsum. known_if. cbn [mbind res_bind]. known_if. cbn [mbind res_bind].
  unfold tx_tag. cbn [tp_vlan_needed tp_size txs_size txs_vd txs_cptse]. rewrite Hvn. cbn [mbind res_bind].
  set (s3 := upd_tx _ s2).
  assert (Ht3 : tx (dev s3) = tx (dev s2)) by (rewrite Ht2; reflexivity).
  unfold e1000_send_packet. rewrite Ht3, Ht2. cbn [tp_vd txs_size txs_vd txs_cptse].
  rewrite load_in by (unfold TX_VD, TX_DATA; lia). cbn [mbind res_bind].
  rewrite (aread_awrite_len _ 4 gb (Z.to_nat len) Hgb). change (tst (rd_phy s3 PHY_CTRL) MII_CR_LOOPBACK) with (loops_back s). rewrite Hlb.
  cbn [mbind res_bind]. set (s4 := upd_world (net_send gb) s3).
  assert (Hw4 : dev_wf (dev s4)).
  { destruct Hw as [? ? ? Htw ?]. split; try done. change (tx (dev s4)) with (tx (dev s3)). rewrite Ht3, Ht2.
    apply tx_wf_setsize; [|done]. apply tx_wf_setvd; [by destruct Htw|]. apply afits_awrite; [apply Htw|].
    apply guest_bytes_fits. }
  destruct (tx_count_octets s4 Hw4) as (Hoct & _).
  assert (Hwc : ∀ m : Machine W, world (tx_count m) = world m) by (intros m; unfold tx_count; cbn zeta; by split_if).
  eexists. split; [reflexivity|]. split; [rewrite world_upd_tx, Hwc; reflexivity|]. split; [reflexivity|].
  rewrite tx_octets_upd_tx, Hoct.
  assert (Hrd : mac_reg (dev s4) = mac_reg (dev s)) by reflexivity. unfold tx_octets, rd, reg. rewrite Hrd.
  change (tx (dev s4)) with (tx (dev s3)). rewrite Ht3, Ht2. reflexivity.
Qed.
End Legacy.

(** ** A head outside the ring *)

(** Eight descriptors at address 0 (all zero), the head beyond the last one, the tail not in the
    ring. *)
Definition lost_head : Machine Board :=
  let s := mkMachine idle_dev idle_nc idle_board in
  let s := wr TCTL E1000_TCTL_EN s in
  let s := wr TDLEN 128 s in
  let s := wr TDT 9 s in
  wr TDH 8 s.

Lemma lost_head_process fuel r :
  process_tx_desc fuel (replicate 16 0) (wr TDH r lost_head) = Ok (wr TDH r lost_head).
Proof. unfold process_tx_desc. do 1 known_if. reflexivity. Qed.

Lemma lost_head_step n fuel cause r :
  r ∈ seqZ 0 9 →
  xmit_loop (S n) fuel 8 cause (replicate 16 0) (wr TDH r lost_head) =
  xmit_loop n fuel 8 (Z.lor cause 0) (replicate 16 0) (wr TDH (if 7 <=? r then 0 else r + 1) lost_head).
Proof.
  intros Hr. set (s := wr TDH r lost_head). cbn [xmit_loop].
  assert (Hm : pci_dma_read (u64 (tx_desc_base (dev s) + 16 * rd s TDH)) (replicate 16 0) (world s) =
               (replicate 16 0, world s)).
  { cbn. unfold b_read. cbn. by rewrite !aget_empty. }
  rewrite Hm. change (upd_world (λ _, world s) s) with s. pose proof (lost_head_process fuel r) as Hp. fold s in Hp. rewrite Hp.
  cbn [mbind res_bind].
  change (txdesc_writeback _ (replicate 16 0) s) with (0, replicate 16 0, s). cbv beta iota zeta.
  rewrite tx_advance_eq. unfold s.
  change (seqZ 0 9) with [0; 1; 2; 3; 4; 5; 6; 7; 8] in Hr.
  repeat (apply elem_of_cons in Hr as [->|Hr]; [do 2 known_if; reflexivity|]). by apply elem_of_nil in Hr.
Qed.

Lemma lost_head_loop n fuel cause r :
  r ∈ seqZ 0 9 → xmit_loop n fuel 8 cause (replicate 16 0) (wr TDH r lost_head) = Diverge.
Proof.
  revert cause r. induction n as [|n IH]; intros cause r Hr.
  - change (seqZ 0 9) with [0; 1; 2; 3; 4; 5; 6; 7; 8] in Hr.
    repeat (apply elem_of_cons in Hr as [->|Hr]; [reflexivity|]). by apply elem_of_nil in Hr.
  - rewrite lost_head_step by done. apply IH. apply elem_of_seqZ in Hr. apply elem_of_seqZ. split_if; bool_hyps; lia.
Qed.

(** a transmit head beyond the end of the ring makes [start_xmit] walk the ring for ever: the
    wraparound test compares with the starting head, which is never reached again, whatever the
    number of rounds. *)
Theorem start_xmit_lost_head_diverges (fuel : nat) : start_xmit fuel lost_head = Diverge.
Proof.
  unfold start_xmit. known_if. change (rd lost_head TDH) with 8.
  assert (He : lost_head = wr TDH 8 lost_head) by reflexivity.
  rewrite He. change (stack_bytes 16) with (replicate 16 0). rewrite lost_head_loop; [done|].
  apply elem_of_seqZ. lia.
Qed.

(** ** Witnesses *)

(** A ring of eight descriptors at 0x1000; the first is a legacy packet of four bytes at 0x2000. *)
Definition tx_desc_bytes : list Z :=
  le_bytes 8 0x2000 ++ le_bytes 4 (Z.lor 4 (Z.lor E1000_TXD_CMD_EOP E1000_TXD_CMD_RS)) ++ le_bytes 4 0.
Definition tx_machine : Machine Board :=
  let w := mkBoard (awrite (awrite ∅ 0x1000 tx_desc_bytes) 0x2000 [1; 2; 3; 4]) false (λ _, None) 0 [] in
  let s := mkMachine idle_dev idle_nc w in
  let s := wr TCTL E1000_TCTL_EN s in
  let s := wr TDBAL 0x1000 s in
  let s := wr TDLEN 128 s in
  wr TDT 1 s.

Lemma tx_machine_wf : dev_wf (dev tx_machine).
Proof. unfold tx_machine. repeat apply wr_wf. apply idle_dev_wf. Qed.

Lemma start_xmit_returns_witness :
  xmit_progress (Z.to_nat 65536) tx_machine ∧
  ∃ s', start_xmit (Z.to_nat 65536) tx_machine = Ok s' ∧ dev_wf (dev s').
Proof.
  assert (Hp : xmit_progress (Z.to_nat 65536) tx_machine)
    by (unfold xmit_progress, visits_progress; apply (bool_decide_unpack _); vm_compute; reflexivity).
  split; [exact Hp|].
  destruct (start_xmit_returns (Z.to_nat 65536) tx_machine) as [_ H].
  - apply tx_machine_wf.
  - vm_compute. discriminate.
  - intros H. discriminate H.
  - rewrite Z2Nat.id; lia.
  - split; [vm_compute; discriminate|reflexivity].
  - left. reflexivity.
  - destruct (H Hp) as (s' & H1 & H2 & _). exists s'. split; [exact H1|exact H2].
Defined.

Lemma xmit_seg_counts_witness :
  ∃ s', xmit_seg 1 tx_machine = Ok s' ∧ rd s' GPTC = 1.
Proof.
  destruct (xmit_seg 1 tx_machine) as [s'| |] eqn:E.
  - exists s'. split; [reflexivity|].
    destruct (xmit_seg_counts 1 tx_machine s') as (_ & H & _).
    + apply tx_machine_wf.
    + vm_compute. discriminate.
    + exact E.
    + rewrite H. reflexivity.
  - vm_compute in E. discriminate E.
  - vm_compute in E. discriminate E.
Defined.

Lemma tso_loop_mss0_diverges_witness :
  tso_loop 1000 1000 0 0 5 tx_machine = Diverge.
Proof.
  apply (tso_loop_mss0_diverges 1000 1000 0 5 tx_machine).
  - apply tx_machine_wf.
  - vm_compute. discriminate.
  - reflexivity.
  - lia.
  - reflexivity.
  - reflexivity.
Defined.

Lemma putsum_verifies_witness :
  ∃ a', putsum (awrite ∅ 4 [0x45; 0x00; 0x00; 0x00; 0x12; 0x34]) 6 2 0 0 = Ok a' ∧
    net_checksum_finish (net_checksum_add 6 (aread a' 4 6) + 0) = Ok 0.
Proof.
  destruct (putsum_verifies (awrite ∅ 4 [0x45; 0x00; 0x00; 0x00; 0x12; 0x34]) 6 2 0 0) as (a' & H1 & H2 & _).
  - apply afits_awrite; [apply afits_empty; lia|]. repeat constructor; discriminate.
  - split; [discriminate|reflexivity].
  - split; [discriminate|reflexivity].
  - lia.
  - lia.
  - vm_compute. discriminate.
  - reflexivity.
  - exists a'. split; [exact H1|exact H2].
Defined.

(** A transmitter with a sixty-byte packet and a tag to insert. *)
Definition tagged_tx : e1000_tx :=
  txs_vlan_needed true (txs_size 60 (txs_vlan_header (awrite ∅ 0 [0x81; 0; 0; 5]) idle_tx)).

Lemma vlan_tag_roundtrip_witness :
  ∃ t', tx_tag tagged_tx = Ok (t', 0, 64) ∧
    take 4 (drop 12 (aread (tp_vd t') 0 64)) = [0x81; 0; 0; 5].
Proof.
  destruct (vlan_tag_roundtrip tagged_tx idle_dev) as (t' & H1 & H2 & _).
  - destruct (wf_tx _ idle_dev_wf). split; try assumption.
    + apply afits_awrite; [apply afits_empty; lia|]. repeat constructor; discriminate.
    + split; [discriminate|reflexivity].
  - reflexivity.
  - discriminate.
  - exists t'. split; [exact H1|exact H2].
Defined.

Lemma process_legacy_sends_witness :
  ∃ s', process_tx_desc 1 tx_desc_bytes tx_machine = Ok s' ∧ b_sent (world s') = [[1; 2; 3; 4]].
Proof.
  destruct (process_legacy_sends 1 tx_desc_bytes tx_machine) as (s' & H1 & H2 & _).
  - split; [reflexivity|split; reflexivity].
  - apply tx_machine_wf.
  - reflexivity.
  - reflexivity.
  - reflexivity.
  - reflexivity.
  - exists s'. split; [exact H1|]. rewrite H2. vm_compute. reflexivity.
Defined.

End Tx.
