(* ===== verification/Mmio.v ===== *)
(** The register interface of e1000.c: the register write handlers, the two dispatch tables and
    the MMIO and I/O entry points, with the network client's side they trigger
    ([qemu_flush_queued_packets], [qemu_format_nic_info_str]).  The device is an instance of the
    queue's interface: its client receives through [e1000_receive]. *)

From S2P Require Import Prelude Regs Iov NetQueue Device Board Intr Eeprom Rx Tx.
Import Iov NetQueue Intr Eeprom Rx Tx.

Module Mmio.

(** ** The client's information string *)

Definition hexdigit (d : Z) : string :=
  nth (Z.to_nat d) ["0"; "1"; "2"; "3"; "4"; "5"; "6"; "7"; "8"; "9"; "a"; "b"; "c"; "d"; "e"; "f"]%string "".
Definition hex2 (b : Z) : string := hexdigit (b / 16) +:+ hexdigit (b mod 16).

(** [info_str] is a [char[256]]: [snprintf] keeps 255 characters. *)
Definition format_nic_info (model : string) (mac : list Z) : string :=
  String.substring 0 255
    ("model=" +:+ model +:+ ",macaddr=" +:+ String.concat ":" (hex2 <$> take 6 mac)).

Definition qemu_format_nic_info_str (mac : list Z) (n : NetClientState) : NetClientState :=
  ncs_info_str (format_nic_info (model n) mac) n.

Section Registers.
Context {W : Type} `{DeviceEnv W}.
Implicit Types s : Machine W.

(** ** The device as a network client *)

#[local] Instance e1000_client (fuel : nat) : NetClient (Machine W) := {
  nc_link_down s := link_down (nc s);
  nc_receive_disabled s := receive_disabled (nc s);
  set_receive_disabled b s := upd_nc (ncs_receive_disabled b) s;
  nc_receive data s := '(ret, _, s) ← e1000_receive fuel data s; Ok (ret, s);
  nc_receive_raw := None;
  nc_receive_iov := Some (λ iov s, '(ret, _, s) ← e1000_receive_iov fuel iov s; Ok (ret, s));
  nc_can_receive := Some (λ s, e1000_can_receive (dev s));
}.

#[local] Instance e1000_port (fuel : nat) : NetPort (Machine W) := {
  port_queue s := incoming_queue (nc s);
  set_port_queue q s := upd_nc (ncs_incoming_queue q) s;
  deliver_packet sender flags data s := @qemu_deliver_packet _ (e1000_client fuel) flags data s;
  deliver_packet_iov sender flags iov s := @qemu_deliver_packet_iov _ (e1000_client fuel) flags iov s;
  can_send_packet sender s := @qemu_can_send_packet _ (e1000_client fuel) (Some s);
  packet_sent cb sender ret s := upd_world (packet_sent_cb cb sender ret) s;
}.

Definition qemu_flush_queued_packets (fuel : nat) s : res (Machine W) :=
  let s := upd_nc (ncs_receive_disabled false) s in
  let s := if peer_is_hubport (nc s) then
             let '(flushed, w) := net_hub_flush (world s) in
             upd_world (λ _, if flushed : bool then qemu_notify_event w else w) s
           else s in
  '(emptied, s) ← @qemu_net_queue_flush _ (e1000_port fuel) fuel s;
  Ok (if emptied : bool then upd_world qemu_notify_event s else s).

(** ** Write handlers *)

Definition set_ctrl (index val : Z) s : Machine W := wr CTRL (clr val E1000_CTRL_RST) s.

Definition set_rx_control (fuel : nat) (index val : Z) s : res (Machine W) :=
  let s := wr RCTL val s in
  let s := upd_dev (set_rxbuf_size (rxbufsize val)) s in
  let s := upd_dev (set_rxbuf_min_shift (Z.land (val / E1000_RCTL_RDMTS_QUAT) 3 + 1)) s in
  qemu_flush_queued_packets fuel s.

Definition mac_writereg (index val : Z) s : Machine W :=
  let s := wr index val s in
  if index =? RA + 1 then
    upd_nc (qemu_format_nic_info_str (le_bytes 4 (rd s RA) ++ le_bytes 4 (rd s (RA + 1)))) s
  else s.

Definition set_rdt (fuel : nat) (index val : Z) s : res (Machine W) :=
  let s := wr index (Z.land val 0xffff) s in
  if e1000_has_rxbufs (dev s) 1 then qemu_flush_queued_packets fuel s else Ok s.

Definition set_16bit (index val : Z) s : Machine W := wr index (Z.land val 0xffff) s.
Definition set_dlen (index val : Z) s : Machine W := wr index (Z.land val 0xfff80) s.

Definition set_tctl (fuel : nat) (index val : Z) s : res (Machine W) :=
  let s := wr index val s in
  let s := wr TDT (Z.land (rd s TDT) 0xffff) s in
  start_xmit fuel s.

(** ** Read handlers *)

Definition mac_readreg (index : Z) s : Z * Machine W := (rd s index, s).
Definition mac_read_clr4 (index : Z) s : Z * Machine W := (rd s index, wr index 0 s).
Definition mac_read_clr8 (index : Z) s : Z * Machine W :=
  (rd s index, wr (index - 1) 0 (wr index 0 s)).

(** ** Dispatch *)

Definition readop : Type := Z → Machine W → Z * Machine W.
Definition writeop : Type := Z → Z → Machine W → res (Machine W).

Definition in_range (i first last : Z) : bool := (first <=? i) && (i <=? last).
Definition one_of (i : Z) (l : list Z) : bool := bool_decide (i ∈ l).

Definition macreg_readops (i : Z) : option readop :=
  if one_of i [PBA; RCTL; TDH; TXDCTL; WUFC; TDT; CTRL; LEDCTL; MANC; MDIC; SWSM; STATUS; TORL; TOTL;
               IMS; TCTL; RDH; RDT; VET; ICS; TDBAL; TDBAH; RDBAH; RDBAL; TDLEN; RDLEN; RDTR; RADV;
               TADV; ITR] then Some mac_readreg
  else if one_of i [TOTH; TORH] then Some mac_read_clr8
  else if one_of i [GPRC; GPTC; TPR; TPT] then Some mac_read_clr4
  else if i =? ICR then Some (λ _ s, mac_icr_read s)
  else if i =? EECD then Some (λ _ s, (get_eecd (dev s), s))
  else if i =? EERD then Some (λ _ s, (flash_eerd_read (dev s), s))
  else if in_range i CRCERRS MPC || in_range i RA (RA + 31) || in_range i MTA (MTA + 127)
          || in_range i VFTA (VFTA + 127) then Some mac_readreg
  else None.
Definition NREADOPS : Z := SWSM + 1.

Definition macreg_writeops (fuel : nat) (i : Z) : option writeop :=
  let pure (f : Z → Z → Machine W → Machine W) : writeop := λ index val s, Ok (f index val s) in
  if one_of i [PBA; EERD; SWSM; WUFC; TDBAL; TDBAH; TXDCTL; RDBAH; RDBAL; LEDCTL; VET]
  then Some (pure mac_writereg)
  else if one_of i [TDLEN; RDLEN] then Some (pure set_dlen)
  else if one_of i [TCTL; TDT] then Some (set_tctl fuel)
  else if i =? MDIC then Some (pure (λ _, set_mdic))
  else if i =? ICS then Some (pure (λ _, set_ics))
  else if one_of i [TDH; RDH] then Some (pure set_16bit)
  else if i =? RDT then Some (set_rdt fuel)
  else if i =? IMC then Some (pure (λ _, set_imc))
  else if i =? IMS then Some (pure (λ _, set_ims))
  else if i =? ICR then Some (pure (λ _, set_icr))
  else if i =? EECD then Some (pure (λ _ val, upd_dev (set_eecd val)))
  else if i =? RCTL then Some (set_rx_control fuel)
  else if i =? CTRL then Some (pure set_ctrl)
  else if one_of i [RDTR; RADV; TADV; ITR] then Some (pure set_16bit)
  else if in_range i RA (RA + 31) || in_range i MTA (MTA + 127) || in_range i VFTA (VFTA + 127)
  then Some (pure mac_writereg)
  else None.
Definition NWRITEOPS : Z := SWSM + 1.

Definition mmio_index (addr : Z) : Z := Z.shiftr (Z.land addr 0x1ffff) 2.

Definition e1000_mmio_write (fuel : nat) (addr val : Z) s : res (Machine W) :=
  let index := mmio_index addr in
  match macreg_writeops fuel index with
  | Some op => if index <? NWRITEOPS then op index (u32 val) s else Ok s
  | None => Ok s          (* read-only or unknown: logged in debug builds *)
  end.

Definition e1000_mmio_read (addr : Z) s : Z * Machine W :=
  let index := mmio_index addr in
  match macreg_readops index with
  | Some op => if index <? NREADOPS then op index s else (0, s)
  | None => (0, s)
  end.

Definition e1000_io_read (addr : Z) s : Z := 0.
Definition e1000_io_write (addr val : Z) s : Machine W := s.
End Registers.

(** ** The invariant of the machine *)

Definition len_regs : list Z := [RDLEN; TDLEN].
Definition idx_regs : list Z := [RDH; RDT; TDH; TDT; RDTR; RADV; TADV; ITR].

(** The ring lengths fit 20 bits; ring indices and mitigation registers fit 16 bits. *)
Definition reg_ok (i v : Z) : Prop := (i ∈ len_regs → fits 20 v) ∧ (i ∈ idx_regs → fits 16 v).

Record base_ok {W} `{IrqPin W} `{!TimerWorld W} (s : Machine W) : Prop := {
  bo_wf : dev_wf (dev s);
  bo_regs : ∀ i, reg_ok i (rd s i);
  bo_rxbuf : 0 ≤ rxbuf_size (dev s) ≤ 16384;
  bo_shift : 0 ≤ rxbuf_min_shift (dev s) ≤ 4;
  bo_pin : irq_line (world s) = mit_irq_level (dev s);
  bo_timer : timer_linked s;
}.

(** The device's part of the invariant. *)
Record dev_ok {W} `{IrqPin W} `{!TimerWorld W} (s : Machine W) : Prop := {
  do_base : base_ok s;
  do_irq : irq_ok (dev s);
  do_icr : icr_ics (dev s);
}.

(** The client's part: the queue's counter is exact, no delivery is under way, and the packets
    queued are non-empty and of a size an [int] can hold. *)
Definition packet_ok (p : NetPacket) : Prop := 0 < Z.of_nat (length (pkt_data p)) < 2 ^ 31 - 64.
Record nc_ok (n : NetClientState) : Prop := {
  no_queue : queue_wf (incoming_queue n);
  no_idle : delivering (incoming_queue n) = false;
  no_packets : Forall packet_ok (packets (incoming_queue n));
}.

Definition mach_ok {W} `{IrqPin W} `{!TimerWorld W} (s : Machine W) : Prop := dev_ok s ∧ nc_ok (nc s).

Lemma notin_absurd (i : Z) (l : list Z) (P : Prop) : bool_decide (i ∈ l) = false → i ∈ l → P.
Proof. intros Hb Hi. by apply bool_decide_eq_false in Hb. Qed.

Section Invariant.
Context {W : Type} `{DeviceEnvLaws W} `{!IrqPin W} `{!TimerWorld W}.
Implicit Types s : Machine W.

Lemma base_ok_wr i v s : base_ok s → reg_ok i (u32 v) → base_ok (wr i v s).
Proof.
  intros [] Hv. split; try done; [by apply wr_wf|]. intros j. destruct (decide (i = j)) as [->|Hne].
  - by rewrite rd_wr_eq.
  - by rewrite rd_wr_ne.
Qed.
Lemma dev_ok_wr i v s :
  dev_ok s → bool_decide (i ∉ [IMS; ICR; ICS]) = true → reg_ok i (u32 v) → dev_ok (wr i v s).
Proof.
  intros [? ? ?] Hi Hv. apply bool_decide_eq_true in Hi. split; [by apply base_ok_wr|..].
  - unfold irq_ok, pending. cbn. rewrite !reg_set_ne; [done|..]; intros ->; set_solver.
  - unfold icr_ics. cbn. rewrite !reg_set_ne; [done|..]; intros ->; set_solver.
Qed.

(** Registers without a width constraint. *)
Lemma reg_ok_free i v : bool_decide (i ∉ len_regs ++ idx_regs) = true → reg_ok i v.
Proof. intros Hi. apply bool_decide_eq_true in Hi. split; intros; exfalso; set_solver. Qed.

Lemma dev_ok_sic v s : base_ok s → dev_ok (set_interrupt_cause v s).
Proof.
  intros []. destruct (sic_dev v s) as (l & t & x & Hd & _).
  split; [split|apply sic_irq_ok|apply sic_icr_ics].
  - by apply sic_wf.
  - intros i. destruct (decide (i = ICR)) as [->|]; [by apply reg_ok_free|].
    destruct (decide (i = ICS)) as [->|]; [by apply reg_ok_free|]. by rewrite sic_rd.
  - by rewrite Hd.
  - by rewrite Hd.
  - by apply sic_pin.
  - by apply sic_linked.
Qed.
Lemma dev_ok_ics v s : base_ok s → dev_ok (set_ics v s).
Proof. apply dev_ok_sic. Qed.

Lemma dev_ok_phy i v s : dev_ok s → dev_ok (wr_phy i v s).
Proof. intros [[] ? ?]. split; [split|done|done]; try done. by apply wr_phy_wf. Qed.
Lemma dev_ok_nc f s : dev_ok s → dev_ok (upd_nc f s).
Proof. intros [[] ? ?]. by split. Qed.
(** A change of the world that leaves the pin and the timers alone. *)
Definition world_kept (w w' : W) : Prop := irq_line w' = irq_line w ∧ timers_kept timer_inv armed w w'.

Lemma dev_ok_world f s : world_kept (world s) (f (world s)) → dev_ok s → dev_ok (upd_world f s).
Proof.
  intros [Hp Ht] [[] ? ?]. split; [split|done|done]; try done.
  - cbn. by rewrite Hp.
  - by apply (linked_kept _ _ _ s).
Qed.
Lemma world_kept_trans w1 w2 w3 : world_kept w1 w2 → world_kept w2 w3 → world_kept w1 w3.
Proof. intros [P1 T1] [P2 T2]. split; [congruence|by eapply kept_trans]. Qed.
Lemma kept_hub w : world_kept w (snd (net_hub_flush w)).
Proof. split; [apply irq_line_hub|apply timers_hub]. Qed.
Lemma kept_mod t e w : world_kept w (timer_mod t e w).
Proof. split; [apply irq_line_timer|apply timers_mod]. Qed.
Lemma kept_notify w : world_kept w (qemu_notify_event w).
Proof. split; [apply irq_line_notify|apply timers_notify]. Qed.

(** The receive and transmit paths keep it. *)
Lemma dev_ok_evolves s s' :
  evolves (TDH :: tx_regs) s s' → head_moved RDLEN RDH s s' → head_moved TDLEN TDH s s' →
  dev_ok s → dev_ok s'.
Proof.
  intros He Hr Ht [[Hw Hg Hb Hs Hp Htl] Hi Hc]. split; [split|by apply He|by apply He].
  - by apply He.
  - intros i. destruct (decide (i = RDH)) as [->|].
    { split; [by apply notin_absurd|]. intros Hx.
      destruct Hr as [-> | Hr]; [by apply Hg|]. eapply in_ring_fits16; [|exact Hr].
      rewrite (evolves_rd _ RDLEN _ _ He) by done. apply (Hg RDLEN). by apply (bool_decide_eq_true (_ ∈ _)). }
    destruct (decide (i = TDH)) as [->|].
    { split; [by apply notin_absurd|]. intros Hx.
      destruct Ht as [-> | Ht]; [by apply Hg|]. eapply in_ring_fits16; [|exact Ht].
      rewrite (evolves_rd _ TDLEN _ _ He) by done. apply (Hg TDLEN). by apply (bool_decide_eq_true (_ ∈ _)). }
    destruct (decide (i ∈ TDH :: tx_regs)) as [Hin|Hin].
    + apply reg_ok_free. unfold tx_regs, rx_regs in Hin. cbn [app] in Hin.
      repeat (apply elem_of_cons in Hin as [->|Hin]); try done. by apply elem_of_nil in Hin.
    + by rewrite (ev_regs _ _ _ He).
  - by rewrite (ev_rxbuf _ _ _ He).
  - by rewrite (ev_shift _ _ _ He).
  - by apply He.
  - by apply He.
Qed.

Lemma dev_ok_xmit s s' : xmit_step s s' → head_moved TDLEN TDH s s' → dev_ok s → dev_ok s'.
Proof. intros []. by apply dev_ok_evolves. Qed.

Lemma rx_regs_sub : rx_regs ⊆ TDH :: tx_regs.
Proof. intros x Hx. apply elem_of_cons; right. unfold tx_regs. apply elem_of_app. by right. Qed.

Lemma dev_ok_receive s s' :
  evolves rx_regs s s' → head_moved RDLEN RDH s s' → dev_ok s → dev_ok s'.
Proof.
  intros He Hr. apply dev_ok_evolves; [|done|].
  - eapply evolves_mono; [apply rx_regs_sub|done].
  - left. by apply (evolves_rd _ TDH _ _ He).
Qed.
End Invariant.

(** ** Delivery to the device *)

Section Delivery.
Context {W : Type} `{DeviceEnvLaws W} `{!IrqPin W} `{!TimerWorld W}.
Implicit Types s : Machine W.

(** The receive ring can be walked. *)
Definition rx_ready (fuel : nat) s : Prop :=
  in_ring (rd s RDLEN) (rd s RDH) ∧ 65536 ≤ Z.of_nat fuel.

Lemma s32_nonzero r : r = -1 ∨ 0 < r < 2 ^ 31 → s32 r ≠ 0.
Proof. intros Hr. unfold s32. rewrite Z.mod_small by lia. lia. Qed.

Lemma rdlen_fits s : dev_ok s → fits 20 (rd s RDLEN).
Proof. intros [[_ Hg _ _ _ _] _ _]. apply (Hg RDLEN). by apply (bool_decide_eq_true (_ ∈ _)). Qed.

(** What the receive path leaves alone. *)
Record rx_done s s' : Prop := {
  rd_ok : dev_ok s → dev_ok s';
  rd_ready : ∀ fuel, rx_ready fuel s → rx_ready fuel s';
  rd_regs : ∀ i, i ∉ rx_regs → rd s' i = rd s i;
}.

Lemma rx_done_refl s : rx_done s s.
Proof. by split. Qed.
Lemma rx_done_trans s1 s2 s3 : rx_done s1 s2 → rx_done s2 s3 → rx_done s1 s3.
Proof. intros [] []. split; auto. intros i Hi. rewrite rd_regs1 by done. auto. Qed.
Lemma rx_done_evolves s s' : evolves rx_regs s s' → head_moved RDLEN RDH s s' → rx_done s s'.
Proof.
  intros He Hr. split; [by apply dev_ok_receive| |by apply (ev_regs _ _ _ He)].
  intros fuel [Hi Hf]. split; [|done]. eapply head_moved_ring; [|done..]. by apply (evolves_rd _ RDLEN _ _ He).
Qed.
Lemma rx_done_nc f s : rx_done s (upd_nc f s).
Proof. split; [apply dev_ok_nc|done|done]. Qed.
Lemma rx_done_world f s : world_kept (world s) (f (world s)) → rx_done s (upd_world f s).
Proof. intros Hf. split; [by apply dev_ok_world|done|done]. Qed.

(** A frame of a sane size is always answered, and never with 0. *)
Lemma receive_runs fuel data s :
  dev_ok s → Z.of_nat (length data) < 2 ^ 31 - 64 →
  runs (rx_ready fuel s) (e1000_receive fuel data s) (λ '(ret, _, s'),
    rx_done s s' ∧ nc s' = nc s ∧ s32 ret ≠ 0 ∧ ret ≠ 0).
Proof.
  intros Hok Hl. destruct (do_base s Hok) as [Hw Hg Hb Hs Hp].
  destruct (receive_cases fuel data s) as [(-> & Hd)|(ret & buf & s' & -> & Hret & He & _ & Hr & _)]; try done; try lia.
  - intros [Hin Hf]. specialize (Hd Hin). pose proof (ring_dist_bound _ _ _ (rdlen_fits s Hok) Hin Hin). lia.
  - cbn. split; [by apply rx_done_evolves|]. split; [apply He|].
    assert (Hr0 : ret = -1 ∨ 0 < ret < 2 ^ 31) by lia. split; [by apply s32_nonzero|lia].
Qed.

Lemma deliver_runs fuel sender flags data s :
  dev_ok s → 0 < Z.of_nat (length data) < 2 ^ 31 - 64 → receive_disabled (nc s) = false →
  runs (rx_ready fuel s) (@qemu_net_queue_deliver _ (e1000_port fuel) sender flags data s) (λ '(ret, s'),
    rx_done s s' ∧ s32 ret ≠ 0 ∧
    nc s' = ncs_incoming_queue (set_delivering (incoming_queue (nc s)) false) (nc s)).
Proof.
  intros Hok Hl Hrd. unfold qemu_net_queue_deliver. cbn [set_port_queue port_queue deliver_packet e1000_port].
  set (s1 := upd_nc _ s). assert (Hd1 : rx_done s s1) by apply rx_done_nc.
  unfold qemu_deliver_packet. cbn [nc_link_down nc_receive_disabled nc_receive_raw nc_receive e1000_client].
  change (link_down (nc s1)) with (link_down (nc s)). change (receive_disabled (nc s1)) with (receive_disabled (nc s)).
  rewrite Hrd. destruct (link_down (nc s)).
  - cbn. split; [|split; [apply s32_nonzero; lia|reflexivity]].
    eapply rx_done_trans; [exact Hd1|apply rx_done_nc].
  - eapply (runs_seq _ (rx_ready fuel s1) (λ _, True) _ _ (λ '(ret, s2), rx_done s1 s2 ∧ nc s2 = nc s1 ∧ s32 ret ≠ 0)).
    + eapply (runs_seq _ (rx_ready fuel s1) (λ _, True)).
      * eapply (runs_seq _ (rx_ready fuel s1) (λ _, True)); [apply receive_runs; [by apply Hd1|lia]|done|].
        intros [[ret b] s2] (H1 & H2 & H3 & H4). split; [done|]. cbn.
        instantiate (1 := λ '(ret, s2), rx_done s1 s2 ∧ nc s2 = nc s1 ∧ s32 ret ≠ 0 ∧ ret ≠ 0). done.
      * done.
      * intros [ret s2] (H1 & H2 & H3 & H4). split; [done|]. cbn.
        by rewrite (proj2 (Z.eqb_neq _ _) H4).
    + apply Hd1.
    + intros [ret s2] (H1 & H2 & H3). split; [done|]. cbn. rewrite H2.
      split; [|split; [done|reflexivity]].
      eapply rx_done_trans; [exact Hd1|]. eapply rx_done_trans; [exact H1|apply rx_done_nc].
Qed.

(** Flushing hands every queued packet to the device and leaves the queue empty. *)
Lemma flush_runs fuel n s :
  dev_ok s → nc_ok (nc s) → receive_disabled (nc s) = false →
  runs (rx_ready fuel s ∧ Z.of_nat (length (packets (incoming_queue (nc s)))) ≤ Z.of_nat n)
    (@qemu_net_queue_flush _ (e1000_port fuel) n s) (λ '(b, s'),
    rx_done s s' ∧ b = true ∧ nc_ok (nc s') ∧ packets (incoming_queue (nc s')) = []).
Proof.
  revert s. induction n as [|n IH]; intros s Hok Hn Hrd; cbn [qemu_net_queue_flush port_queue e1000_port].
  { destruct (packets (incoming_queue (nc s))) as [|p l] eqn:Ep; cbn.
    - split; [apply rx_done_refl|]. done.
    - lia. }
  destruct (packets (incoming_queue (nc s))) as [|p l] eqn:Ep.
  { cbn. split; [apply rx_done_refl|]. done. }
  cbn zeta. cbn [set_port_queue e1000_port]. set (s1 := upd_nc _ s).
  destruct Hn as [Hq Hdl Hpk]. rewrite Ep in Hpk. inversion Hpk as [|? ? Hp1 Hpl]; subst.
  assert (Hd1 : rx_done s s1) by apply rx_done_nc.
  eapply (runs_seq _ (rx_ready fuel s1) (λ '(ret, s2), rx_ready fuel s2 ∧ Z.of_nat (length l) ≤ Z.of_nat n));
    [apply deliver_runs; [by apply Hd1|apply Hp1|done]|intros [? _]; by apply Hd1|].
  intros [ret s2] (Hd2 & Hret & Hnc). split.
  { intros [Hr Hn]. cbn [length] in Hn. split; [by apply Hd2, Hd1|lia]. }
  rewrite (proj2 (Z.eqb_neq _ _) Hret). set (s3 := match pkt_sent_cb p with Some _ => _ | None => _ end).
  assert (H3 : rx_done s2 s3 ∧ nc s3 = nc s2).
  { unfold s3. destruct (pkt_sent_cb p); [|split; [apply rx_done_refl|done]].
    split; [|done]. apply rx_done_world. split; [apply irq_line_sent|apply timers_sent]. }
  destruct H3 as [Hd3 Hnc3]. assert (Hd : rx_done s s3) by (do 2 (eapply rx_done_trans; [eassumption|]); done).
  assert (Hq3 : incoming_queue (nc s3) = mkQueue (nq_maxlen (incoming_queue (nc s))) (u32 (nq_count (incoming_queue (nc s)) - 1)) l false)
    by (rewrite Hnc3, Hnc; reflexivity).
  eapply runs_mono; [| |apply (IH s3)].
  - rewrite Hq3. intros [Hr Hn]. split; [by apply Hd3|done].
  - intros [b s'] (H1 & H2 & H3 & H4). split; [by eapply rx_done_trans|done].
  - by apply Hd.
  - split; rewrite Hq3; [|done|done]. unfold queue_wf in *. cbn. rewrite Hq, Ep. apply u32_count_down.
  - by rewrite Hnc3, Hnc.
Qed.

Lemma flush_queued_runs fuel s :
  mach_ok s →
  runs (rx_ready fuel s ∧ Z.of_nat (length (packets (incoming_queue (nc s)))) ≤ Z.of_nat fuel)
    (qemu_flush_queued_packets fuel s) (λ s', mach_ok s' ∧ packets (incoming_queue (nc s')) = []).
Proof.
  intros [Hok Hn]. unfold qemu_flush_queued_packets. set (s1 := upd_nc _ s). cbn zeta.
  set (s2 := if peer_is_hubport (nc s1) then _ else s1).
  assert (H2 : rx_done s s2 ∧ nc s2 = nc s1).
  { assert (Hd1 : rx_done s s1) by apply rx_done_nc. unfold s2. split_if; [|done].
    destruct (net_hub_flush (world s1)) as [f w] eqn:Ef. split; [|done].
    eapply rx_done_trans; [exact Hd1|]. apply rx_done_world. pose proof (kept_hub (world s1)) as Hh.
    rewrite Ef in Hh. destruct f; [|done]. eapply world_kept_trans; [exact Hh|apply kept_notify]. }
  destruct H2 as [Hd2 Hnc2]. clearbody s2.
  eapply (runs_seq _ _ (λ _, True)); [apply (flush_runs fuel fuel s2)| |].
  - by apply Hd2.
  - rewrite Hnc2. destruct Hn. by split.
  - by rewrite Hnc2.
  - intros [Hr Hl]. split; [by apply Hd2|]. by rewrite Hnc2.
  - intros [b s3] (Hd3 & -> & Hn3 & Hp3). split; [done|]. cbn. split; [|done]. split; [|done].
    apply dev_ok_world; [apply kept_notify|]. by apply Hd3, Hd2.
Qed.
End Delivery.

(** ** Every register access keeps the invariant *)

Section Accesses.
Context {W : Type} `{DeviceEnvLaws W} `{!IrqPin W} `{!TimerWorld W}.
Implicit Types s : Machine W.

Lemma link_down_eq s :
  upd_dev e1000_link_down s =
  wr_phy PHY_STATUS (clr (rd_phy s PHY_STATUS) MII_SR_LINK_STATUS)
    (wr STATUS (clr (rd s STATUS) E1000_STATUS_LU) s).
Proof. done. Qed.
Lemma link_up_eq s :
  upd_dev e1000_link_up s =
  wr_phy PHY_STATUS (Z.lor (rd_phy s PHY_STATUS) MII_SR_LINK_STATUS)
    (wr STATUS (Z.lor (rd s STATUS) E1000_STATUS_LU) s).
Proof. done. Qed.

Lemma dev_ok_free i v s :
  dev_ok s → bool_decide (i ∉ [IMS; ICR; ICS] ++ len_regs ++ idx_regs) = true → dev_ok (wr i v s).
Proof.
  intros Hok Hi. apply bool_decide_eq_true in Hi. apply dev_ok_wr; [done|..].
  - apply bool_decide_eq_true. set_solver.
  - apply reg_ok_free, bool_decide_eq_true. set_solver.
Qed.

Lemma link_down_ok s : dev_ok s → dev_ok (upd_dev e1000_link_down s).
Proof. intros. rewrite link_down_eq. by apply dev_ok_phy, dev_ok_free. Qed.
Lemma link_up_ok s : dev_ok s → dev_ok (upd_dev e1000_link_up s).
Proof. intros. rewrite link_up_eq. by apply dev_ok_phy, dev_ok_free. Qed.

Lemma set_phy_ctrl_ok val s : dev_ok s → dev_ok (set_phy_ctrl val s).
Proof.
  intros Hok. unfold set_phy_ctrl. repeat split_if; [done| |done].
  apply dev_ok_world; [apply kept_mod|]. by apply dev_ok_phy, link_down_ok.
Qed.

Lemma set_mdic_ok val s : dev_ok s → dev_ok (set_mdic val s).
Proof.
  intros Hok. unfold set_mdic. cbn zeta.
  assert (Hop : ∀ a data, dev_ok (match phyreg_writeops a with
                  | Some op => if a <? NPHYWRITEOPS then op data s else s | None => s end)).
  { intros a data. unfold phyreg_writeops. destruct (a =? PHY_CTRL); [|done].
    destruct (a <? _); [by apply set_phy_ctrl_ok|done]. }
  set (r := if negb (_ =? 1) then _ else _). assert (Hr : dev_ok (snd r)).
  { unfold r. destruct (negb (_ =? 1)); [done|]. destruct (tst val E1000_MDIC_OP_READ); [by split_if|].
    destruct (tst val E1000_MDIC_OP_WRITE); [|done].
    destruct (negb (tst _ PHY_W)); [done|]. apply dev_ok_phy, Hop. }
  destruct r as [v s1]. cbn in Hr.
  assert (dev_ok (wr MDIC (Z.lor v E1000_MDIC_READY) s1)) by by apply dev_ok_free.
  split_if; [by apply dev_ok_ics, do_base|done].
Qed.

Lemma set_mdic_nc val s : nc (set_mdic val s) = nc s.
Proof.
  assert (Hop : ∀ a data, nc (match phyreg_writeops a with
                  | Some op => if a <? NPHYWRITEOPS then op data s else s | None => s end) = nc s).
  { intros a data. unfold phyreg_writeops. destruct (a =? PHY_CTRL); [|done].
    destruct (a <? _); [|done]. unfold set_phy_ctrl. by repeat split_if. }
  unfold set_mdic. cbn zeta. set (r := if negb (_ =? 1) then _ else _). assert (Hr : nc (snd r) = nc s).
  { unfold r. destruct (negb (_ =? 1)); [done|]. destruct (tst val E1000_MDIC_OP_READ); [by split_if|].
    destruct (tst val E1000_MDIC_OP_WRITE); [|done]. destruct (negb (tst _ PHY_W)); [done|]. apply Hop. }
  destruct r as [v s1]. cbn in Hr. split_if; [|done]. unfold set_ics. by rewrite sic_nc.
Qed.

Lemma set_ims_ok v s : dev_ok s → dev_ok (set_ics 0 (wr IMS v s)).
Proof. intros [? _ _]. apply dev_ok_ics, base_ok_wr; [done|]. by apply reg_ok_free. Qed.

Lemma set_eecd_ok v s : dev_ok s → dev_ok (upd_dev (set_eecd v) s).
Proof. intros [[[? ? ? ? ?] ? ? ? ?] ? ?]. by split; [split|done|done]. Qed.

Lemma reg_ok_16 i v : i ∉ len_regs → reg_ok i (u32 (Z.land v 0xffff)).
Proof.
  intros Hi. split; [done|]. intros _. rewrite land_ffff.
  pose proof (Z.mod_pos_bound v 65536 ltac:(lia)). rewrite u32_small by (split; lia). split; lia.
Qed.
Lemma reg_ok_20 i v : i ∉ idx_regs → reg_ok i (u32 (Z.land v 0xfff80)).
Proof.
  intros Hi. split; [|done]. intros _. pose proof (land_ones_le v 0xfff80 ltac:(lia)).
  rewrite u32_small by (split; lia). split; lia.
Qed.

Lemma rxbufsize_range v : 256 ≤ rxbufsize v ≤ 16384.
Proof. unfold rxbufsize. repeat split_if; lia. Qed.

Lemma set_rx_control_runs fuel index val s :
  mach_ok s →
  runs (rx_ready fuel s ∧ Z.of_nat (length (packets (incoming_queue (nc s)))) ≤ Z.of_nat fuel)
    (set_rx_control fuel index val s) (λ s', mach_ok s' ∧ packets (incoming_queue (nc s')) = []).
Proof.
  intros [Hok Hn]. unfold set_rx_control. eapply runs_mono; [| |apply flush_queued_runs]; [|done|].
  - unfold rx_ready. intros [[Hi Hf] Hl]. split; [|done]. split; [|done].
    unfold rd, upd_dev, with_dev, reg. cbn. rewrite !aget_aset_ne by neq_reg. exact Hi.
  - split; [|done]. pose proof (dev_ok_free RCTL val s Hok eq_refl) as [[Hw Hg Hb Hs Hp] Hi Hc].
    pose proof (rxbufsize_range val). pose proof (land_ones_le (val / E1000_RCTL_RDMTS_QUAT) 3 ltac:(lia)).
    split; [split|done|done]; try done; cbn; try lia. by destruct Hw.
Qed.

Lemma set_rdt_runs fuel val s :
  mach_ok s →
  runs (rx_ready fuel s ∧ Z.of_nat (length (packets (incoming_queue (nc s)))) ≤ Z.of_nat fuel)
    (set_rdt fuel RDT val s) (λ s', mach_ok s' ∧
       (e1000_has_rxbufs (dev (wr RDT (Z.land val 0xffff) s)) 1 = true → packets (incoming_queue (nc s')) = [])).
Proof.
  intros [Hok Hn]. unfold set_rdt. set (s1 := wr RDT _ s). cbn zeta.
  assert (Hok1 : mach_ok s1).
  { split; [|done]. apply dev_ok_wr; [done|done|]. apply reg_ok_16. by apply (bool_decide_eq_false (_ ∈ _)). }
  split_if; [|done]. eapply runs_mono; [| |by apply flush_queued_runs]; [|by intros s' [? ?]; split].
  unfold rx_ready, s1. regs. done.
Qed.

Lemma set_tctl_runs fuel index val s :
  index ∈ [TCTL; TDT] → mach_ok s → runs False (set_tctl fuel index val s) mach_ok.
Proof.
  intros Hi [Hok Hn]. unfold set_tctl. set (s1 := wr TDT _ _).
  assert (Hok1 : dev_ok s1).
  { destruct Hok as [Hb Hirq Hicr].
    assert (Hs1 : base_ok (wr TDT (Z.land (rd (wr index val s) TDT) 0xffff) s)).
    { apply base_ok_wr; [done|]. apply reg_ok_16. by apply (bool_decide_eq_false (_ ∈ _)). }
    repeat (apply elem_of_cons in Hi as [->|Hi]); [| |by apply elem_of_nil in Hi].
    - apply dev_ok_wr; [by apply dev_ok_free|done|]. apply reg_ok_16. by apply (bool_decide_eq_false (_ ∈ _)).
    - unfold s1. replace (wr TDT _ (wr TDT val s)) with (wr TDT (Z.land (rd (wr TDT val s) TDT) 0xffff) s).
      + apply dev_ok_wr; [done|done|]. apply reg_ok_16. by apply (bool_decide_eq_false (_ ∈ _)).
      + unfold wr, upd_dev, with_dev. cbn. by rewrite set_reg_set_reg. }
  assert (Hn1 : nc s1 = nc s) by done. clearbody s1. destruct (do_base _ Hok1) as [Hw _ Hrb _ _].
  pose proof (start_xmit_cases fuel s1 Hw ltac:(lia)) as Hx.
  destruct (start_xmit fuel s1) as [s'|f|]; [|done|by intros []].
  destruct Hx as [Hx Hm]. split; [by eapply dev_ok_xmit|]. by rewrite (ev_nc _ _ _ (xs_ev _ _ Hx)), Hn1.
Qed.
End Accesses.

Section Dispatch.
Context {W : Type} `{DeviceEnvLaws W} `{!IrqPin W} `{!TimerWorld W}.
Implicit Types s : Machine W.

Lemma mac_writereg_ok i v s :
  mach_ok s → bool_decide (i ∉ [IMS; ICR; ICS] ++ len_regs ++ idx_regs) = true → mach_ok (mac_writereg i v s).
Proof.
  intros [Hok Hn] Hi. unfold mac_writereg. cbn zeta.
  assert (dev_ok (wr i v s)) by by apply dev_ok_free.
  split_if; [|done]. split; [by apply dev_ok_nc|]. destruct Hn. by split.
Qed.

Lemma one_of_true i l : one_of i l = true → i ∈ l.
Proof. apply bool_decide_eq_true. Qed.

(** No constrained register lies in the address and filter tables. *)
Lemma table_free i :
  in_range i RA (RA + 31) || in_range i MTA (MTA + 127) || in_range i VFTA (VFTA + 127) = true →
  bool_decide (i ∉ [IMS; ICR; ICS] ++ len_regs ++ idx_regs) = true.
Proof.
  unfold in_range. intros Hr. apply bool_decide_eq_true. intros Hi.
  repeat (apply elem_of_cons in Hi as [->|Hi]; [vm_compute in Hr; discriminate Hr|]).
  cbn [app] in Hi. repeat (apply elem_of_cons in Hi as [->|Hi]; [vm_compute in Hr; discriminate Hr|]).
  by apply elem_of_nil in Hi.
Qed.

Ltac in_list H :=
  apply one_of_true in H;
  repeat (apply elem_of_cons in H as [->|H]); [..|by apply elem_of_nil in H].

(** What a write needs in order to return: a receive ring that can be walked, fuel for the queue,
    and not a register that starts the transmitter. *)
Definition write_returns (fuel : nat) (addr : Z) s : Prop :=
  rx_ready fuel s ∧ Z.of_nat (length (packets (incoming_queue (nc s)))) ≤ Z.of_nat fuel ∧
  mmio_index addr ∉ [TCTL; TDT].

Lemma mmio_write_runs fuel addr val s :
  mach_ok s → runs (write_returns fuel addr s) (e1000_mmio_write fuel addr val s) mach_ok.
Proof.
  intros Hok. unfold e1000_mmio_write, write_returns. set (i := mmio_index addr). set (v := u32 val). clearbody i v.
  unfold macreg_writeops. cbn zeta. pose proof Hok as [Hd Hn].
  destruct (one_of i [PBA; _; _; _; _; _; _; _; _; _; _]) eqn:E1.
  { split_if; [|done]. in_list E1; by apply mac_writereg_ok. }
  destruct (one_of i [TDLEN; RDLEN]) eqn:E2.
  { split_if; [|done]. split; [|done]. in_list E2; (apply dev_ok_wr; [done|done|]; apply reg_ok_20;
      by apply (bool_decide_eq_false (_ ∈ _))). }
  destruct (one_of i [TCTL; TDT]) eqn:E3.
  { split_if; [|done]. eapply runs_mono; [|done|apply set_tctl_runs; [by apply one_of_true|done]].
    intros (_ & _ & Hni). apply one_of_true in E3. done. }
  destruct (i =? MDIC); [split_if; [|done]; split; [by apply set_mdic_ok|by rewrite set_mdic_nc]|].
  destruct (i =? ICS); [split_if; [|done]; split; [by apply dev_ok_ics, do_base|by unfold set_ics; rewrite sic_nc]|].
  destruct (one_of i [TDH; RDH]) eqn:E4.
  { split_if; [|done]. split; [|done]. in_list E4; (apply dev_ok_wr; [done|done|]; apply reg_ok_16;
      by apply (bool_decide_eq_false (_ ∈ _))). }
  destruct (Z.eqb_spec i RDT) as [->|].
  { split_if; [|done]. eapply runs_mono; [| |by apply set_rdt_runs]; [by intros (? & ? & _)|by intros s' [? _]]. }
  destruct (i =? IMC); [split_if; [|done]; split; [by apply set_ims_ok|by unfold set_imc, set_ics; rewrite sic_nc]|].
  destruct (i =? IMS); [split_if; [|done]; split; [by apply set_ims_ok|by unfold set_ims, set_ics; rewrite sic_nc]|].
  destruct (i =? ICR); [split_if; [|done]; split; [by apply dev_ok_sic, do_base|by unfold set_icr; rewrite sic_nc]|].
  destruct (i =? EECD); [split_if; [|done]; split; [by apply set_eecd_ok|done]|].
  destruct (i =? RCTL).
  { split_if; [|done]. eapply runs_mono; [| |by apply set_rx_control_runs]; [by intros (? & ? & _)|by intros s' [? _]]. }
  destruct (i =? CTRL); [split_if; [|done]; split; [by apply dev_ok_free|done]|].
  destruct (one_of i [RDTR; RADV; TADV; ITR]) eqn:E5.
  { split_if; [|done]. split; [|done]. in_list E5; (apply dev_ok_wr; [done|done|]; apply reg_ok_16;
      by apply (bool_decide_eq_false (_ ∈ _))). }
  destruct (_ || _) eqn:E6; [|done]. split_if; [|done]. apply mac_writereg_ok; [done|]. by apply table_free.
Qed.
End Dispatch.

(** ** Reading back what was written *)

Lemma mmio_index_4 i : 0 ≤ i < 0x8000 → mmio_index (4 * i) = i.
Proof.
  intros Hi. unfold mmio_index. change 0x1ffff with (Z.ones 17). rewrite Z.land_ones by lia.
  rewrite Z.mod_small by lia. rewrite Z.shiftr_div_pow2 by lia. change (2 ^ 2) with 4.
  rewrite Z.mul_comm. by apply Z.div_mul.
Qed.

(** The registers that keep what is written, and the bits they keep. *)
Definition plain_regs : list Z := [PBA; SWSM; WUFC; TDBAL; TDBAH; TXDCTL; RDBAH; RDBAL; LEDCTL; VET].
Definition in_tables (i : Z) : bool :=
  in_range i RA (RA + 31) || in_range i MTA (MTA + 127) || in_range i VFTA (VFTA + 127).
Definition kept_bits (i : Z) : option Z :=
  if one_of i plain_regs || in_tables i then Some 0xffffffff
  else if one_of i [TDLEN; RDLEN] then Some 0xfff80
  else if one_of i [TDH; RDH; RDTR; RADV; TADV; ITR] then Some 0xffff
  else None.

Section Readback.
Context {W : Type} `{DeviceEnv W}.
Implicit Types s : Machine W.

Lemma table_range i : in_tables i = true → 0 ≤ i < SWSM.
Proof.
  assert (RA = 0x1500) by done. assert (MTA = 0x1480) by done. assert (VFTA = 0x1580) by done.
  assert (SWSM = 0x16d4) by done. unfold in_tables, in_range. intros Hi.
  repeat (apply orb_true_iff in Hi as [Hi|Hi]); bool_hyps; lia.
Qed.

Ltac not_in_table Hi :=
  repeat match goal with
  | |- context [one_of ?i ?l] =>
      replace (one_of i l) with false
        by (symmetry; apply bool_decide_eq_false; intros Hx;
            repeat (apply elem_of_cons in Hx as [->|Hx]; [vm_compute in Hi; discriminate Hi|]);
            by apply elem_of_nil in Hx)
  | |- context [?i =? ?r] =>
      replace (i =? r) with false
        by (symmetry; apply Z.eqb_neq; intros ->; vm_compute in Hi; discriminate Hi)
  end.

(** How a register that keeps its value is dispatched: the stored function of the value. *)
Definition kept_op (i m : Z) : writeop (W := W) :=
  if m =? 0xffffffff then λ index val s, Ok (mac_writereg index val s)
  else λ index val s, Ok (wr index (Z.land val m) s).

Lemma kept_ops fuel i m :
  kept_bits i = Some m →
  macreg_writeops fuel i = Some (kept_op i m) ∧ macreg_readops (W := W) i = Some mac_readreg ∧
  0 ≤ i ≤ SWSM ∧ fits 32 m.
Proof.
  unfold kept_bits. destruct (one_of i plain_regs) eqn:E1; cbn [orb]; [|destruct (in_tables i) eqn:E2].
  - intros [= <-]. apply bool_decide_eq_true in E1. unfold plain_regs in E1.
    repeat (apply elem_of_cons in E1 as [->|E1]; [by repeat split|]). by apply elem_of_nil in E1.
  - intros [= <-]. pose proof (table_range i E2) as Hr. unfold macreg_writeops, macreg_readops.
    split; [|split; [|split; [lia|done]]]; not_in_table E2; unfold in_tables in E2.
    + by rewrite E2.
    + destruct (in_range i CRCERRS MPC); [done|]. cbn [orb]. by rewrite E2.
  - destruct (one_of i [TDLEN; RDLEN]) eqn:E3; [|destruct (one_of i [TDH; _; _; _; _; _]) eqn:E4; [|done]];
      intros [= <-]; [rename E3 into E|rename E4 into E]; apply bool_decide_eq_true in E;
      repeat (apply elem_of_cons in E as [->|E]; [by repeat split|]); by apply elem_of_nil in E.
Qed.

Lemma mac_writereg_rd i v s : rd (mac_writereg i v s) i = u32 v.
Proof. unfold mac_writereg. cbn zeta. split_if; regs; done. Qed.

(** a register that keeps its value reads back what was written to it: all 32 bits for the
    plain registers and for every entry of the address, multicast and VLAN tables; the bits a
    ring length may have; the low 16 bits for ring heads and mitigation timers. *)
Theorem mmio_readback fuel i m v s :
  kept_bits i = Some m →
  ∃ s', e1000_mmio_write fuel (4 * i) v s = Ok s' ∧ e1000_mmio_read (4 * i) s' = (Z.land (u32 v) m, s').
Proof.
  intros Hk. destruct (kept_ops fuel i m Hk) as (Hw & Hr & Hi & Hm). assert (SWSM < 0x8000) by done.
  unfold e1000_mmio_write, e1000_mmio_read. rewrite mmio_index_4, Hw, Hr by lia.
  unfold NWRITEOPS, NREADOPS, kept_op. rewrite !(proj2 (Z.ltb_lt _ _)) by lia.
  destruct (Z.eqb_spec m 0xffffffff) as [->|]; (eexists; split; [reflexivity|]); unfold mac_readreg.
  - rewrite mac_writereg_rd, (u32_small (u32 v)) by apply u32_fits.
    change 0xffffffff with (Z.ones 32). rewrite Z.land_ones by lia. by rewrite Z.mod_small by apply u32_fits.
  - rewrite rd_wr_eq, u32_small; [done|]. by apply land_fits_r.
Qed.

(** The 64-bit statistics of octets: low half at the even register, high half after it. *)
Definition octet_counter (hi : Z) : Prop := hi = TORH ∨ hi = TOTH.

(** A driver that reads the low and then the high register of an octet counter gets the 64-bit
    count, and the counter restarts from 0. *)
Theorem octets_read_and_clear hi s :
  octet_counter hi →
  let '(lo_v, s1) := e1000_mmio_read (4 * (hi - 1)) s in
  let '(hi_v, s2) := e1000_mmio_read (4 * hi) s1 in
  hi_v * 2 ^ 32 + lo_v = rd s hi * 2 ^ 32 + rd s (hi - 1) ∧ rd s2 hi * 2 ^ 32 + rd s2 (hi - 1) = 0 ∧
  (∀ i, i ≠ hi → i ≠ hi - 1 → rd s2 i = rd s i).
Proof.
  intros Hh.
  assert (E1 : e1000_mmio_read (4 * (hi - 1)) s = (rd s (hi - 1), s)) by (by destruct Hh as [-> | ->]).
  assert (E2 : e1000_mmio_read (4 * hi) s = (rd s hi, wr (hi - 1) 0 (wr hi 0 s))) by (by destruct Hh as [-> | ->]).
  rewrite E1, E2. split; [done|]. split.
  - rewrite rd_wr_eq, rd_wr_ne, rd_wr_eq by lia. done.
  - intros i H1 H2. rewrite !rd_wr_ne by lia. done.
Qed.
End Readback.

Section AccessTheorems.
Context {W : Type} `{DeviceEnvLaws W} `{!IrqPin W} `{!TimerWorld W}.
Implicit Types s : Machine W.

(** C9: no register write can break the device: whatever the address and the value, the write does
    not fault (no access outside a buffer, no failed assertion), and the machine it leaves
    satisfies the invariant: fields within their widths, ring lengths of 20 bits and indices of 16
    bits, receive buffer size of at most 16 KiB, interrupt pin and causes consistent, exact queue
    counter.  It returns when the receive head is in the ring, unless it starts the
    transmitter (treated by the transmit theorems). *)
Theorem e1000_mmio_write_safe fuel addr val s :
  mach_ok s →
  (∀ f, e1000_mmio_write fuel addr val s ≠ Fault f) ∧
  (∀ s', e1000_mmio_write fuel addr val s = Ok s' → mach_ok s') ∧
  (write_returns fuel addr s → ∃ s', e1000_mmio_write fuel addr val s = Ok s').
Proof.
  intros Hok. pose proof (mmio_write_runs fuel addr val s Hok) as Hr. split; [|split].
  - intros f. by eapply runs_no_fault.
  - intros s' E. by rewrite E in Hr.
  - intros Hw. destruct (runs_total _ _ _ Hw Hr) as (s' & E & _). eauto.
Qed.

Lemma mmio_read_ok addr s : mach_ok s → mach_ok (snd (e1000_mmio_read addr s)).
Proof.
  intros Hok. pose proof Hok as [Hd Hn]. unfold e1000_mmio_read. set (i := mmio_index addr). clearbody i.
  unfold macreg_readops. destruct (one_of i [PBA; _; _; _; _; _; _; _; _; _; _; _; _; _; _; _; _; _; _; _; _; _; _; _; _; _; _; _; _; _]);
    [by split_if|].
  destruct (one_of i [TOTH; TORH]) eqn:E1.
  { split_if; [|done]. split; [|done]. apply bool_decide_eq_true in E1.
    repeat (apply elem_of_cons in E1 as [->|E1]); [..|by apply elem_of_nil in E1]; by apply dev_ok_free; [apply dev_ok_free|]. }
  destruct (one_of i [GPRC; GPTC; TPR; TPT]) eqn:E2.
  { split_if; [|done]. split; [|done]. apply bool_decide_eq_true in E2.
    repeat (apply elem_of_cons in E2 as [->|E2]); [..|by apply elem_of_nil in E2]; by apply dev_ok_free. }
  destruct (i =? ICR); [split_if; [|done]; split; [by apply dev_ok_sic, do_base|by cbn; rewrite sic_nc]|].
  destruct (i =? EECD); [by split_if|]. destruct (i =? EERD); [by split_if|]. destruct (_ || _); [by split_if|done].
Qed.

(** The packets of a list handed to [e1000_receive] one after another, the senders told the result
    where they asked for it; device and world before and after. *)
Inductive handed (fuel : nat) : list NetPacket → E1000State → W → E1000State → W → Prop :=
| handed_nil d w : handed fuel [] d w d w
| handed_cons p l d w n ret buf s1 d2 w2 :
    e1000_receive fuel (pkt_data p) (mkMachine d n w) = Ok (ret, buf, s1) → s32 ret ≠ 0 →
    handed fuel l (dev s1)
      (match pkt_sent_cb p with Some cb => packet_sent_cb cb (pkt_sender p) (s32 ret) (world s1) | None => world s1 end) d2 w2 →
    handed fuel (p :: l) d w d2 w2.

Lemma deliver_hands fuel sender flags data s ret s' :
  link_down (nc s) = false → receive_disabled (nc s) = false →
  @qemu_net_queue_deliver _ (e1000_port fuel) sender flags data s = Ok (ret, s') →
  ∃ n buf s2, e1000_receive fuel data (mkMachine (dev s) n (world s)) = Ok (ret, buf, s2) ∧
    dev s' = dev s2 ∧ world s' = world s2.
Proof.
  intros Hl Hr. unfold qemu_net_queue_deliver. cbn [set_port_queue port_queue deliver_packet e1000_port].
  set (s1 := upd_nc _ s). unfold qemu_deliver_packet. cbn [nc_link_down nc_receive_disabled nc_receive_raw nc_receive e1000_client set_receive_disabled].
  change (link_down (nc s1)) with (link_down (nc s)). change (receive_disabled (nc s1)) with (receive_disabled (nc s)).
  rewrite Hl, Hr. change s1 with (mkMachine (dev s) (nc s1) (world s)).
  destruct (e1000_receive fuel data (mkMachine (dev s) (nc s1) (world s))) as [[[r b] s2]|f|] eqn:E; cbn [mbind res_bind]; [|done..].
  intros [= <- <-]. exists (nc s1), b, s2. split; [done|]. by destruct (r =? 0).
Qed.

Lemma flush_hands fuel n s s' :
  dev_ok s → nc_ok (nc s) → link_down (nc s) = false → receive_disabled (nc s) = false →
  @qemu_net_queue_flush _ (e1000_port fuel) n s = Ok (true, s') →
  handed fuel (packets (incoming_queue (nc s))) (dev s) (world s) (dev s') (world s').
Proof.
  revert s. induction n as [|n IH]; intros s Hok Hn Hl Hrd; cbn [qemu_net_queue_flush port_queue e1000_port];
    destruct (packets (incoming_queue (nc s))) as [|p l] eqn:Ep; try done; try (intros [= <-]; constructor).
  cbn zeta. cbn [set_port_queue e1000_port]. set (s1 := upd_nc _ s).
  destruct Hn as [Hq Hdl Hpk]. rewrite Ep in Hpk. apply Forall_cons in Hpk as [Hp1 Hpl].
  pose proof (deliver_runs fuel (pkt_sender p) (pkt_flags p) (pkt_data p) s1 (dev_ok_nc _ s Hok) Hp1 Hrd) as Hd.
  destruct (qemu_net_queue_deliver _ _ _ s1) as [[ret s2]|f|] eqn:E; cbn [mbind res_bind]; [|done..].
  destruct Hd as (Hd2 & Hret & Hnc). rewrite (proj2 (Z.eqb_neq _ _) Hret).
  destruct (deliver_hands fuel _ _ _ s1 ret s2 Hl Hrd E) as (m & b & s3 & Er & Ed & Ew).
  set (s4 := match pkt_sent_cb p with Some _ => _ | None => _ end).
  assert (H4 : rx_done s2 s4 ∧ nc s4 = nc s2).
  { unfold s4. destruct (pkt_sent_cb p); [|split; [apply rx_done_refl|done]].
    split; [|done]. apply rx_done_world. split; [apply irq_line_sent|apply timers_sent]. }
  destruct H4 as [Hd4 Hnc4].
  assert (Hq4 : incoming_queue (nc s4) = mkQueue (nq_maxlen (incoming_queue (nc s))) (u32 (nq_count (incoming_queue (nc s)) - 1)) l false)
    by (rewrite Hnc4, Hnc; reflexivity).
  intros Ef. apply IH in Ef.
  - eapply handed_cons; [exact Er|exact Hret|]. rewrite Hq4 in Ef. cbn [packets] in Ef. rewrite <-Ed, <-Ew.
    unfold s4 in Ef. by destruct (pkt_sent_cb p).
  - by apply Hd4, Hd2, dev_ok_nc.
  - split; rewrite Hq4; [|done|done]. unfold queue_wf in *. cbn. rewrite Hq, Ep. apply u32_count_down.
  - by rewrite Hnc4, Hnc.
  - by rewrite Hnc4, Hnc.
Qed.

(** The world when the queue is flushed: a hub at the other end has been asked first. *)
Definition hub_asked s : W :=
  if peer_is_hubport (nc s) then
    let '(flushed, w) := net_hub_flush (world s) in if flushed : bool then qemu_notify_event w else w
  else world s.

Lemma flush_queued_hands fuel s s' :
  mach_ok s → link_down (nc s) = false → qemu_flush_queued_packets fuel s = Ok s' →
  ∃ w, handed fuel (packets (incoming_queue (nc s))) (dev s) (hub_asked s) (dev s') w ∧ world s' = qemu_notify_event w.
Proof.
  intros [Hok Hn] Hl. unfold qemu_flush_queued_packets, hub_asked. set (s1 := upd_nc _ s). cbn zeta.
  set (s2 := if peer_is_hubport (nc s1) then _ else s1). set (w0 := if peer_is_hubport (nc s) then _ else _).
  assert (H2 : rx_done s s2 ∧ s2 = mkMachine (dev s) (nc s1) w0).
  { assert (Hd1 : rx_done s s1) by apply rx_done_nc. unfold s2, w0. change (peer_is_hubport (nc s1)) with (peer_is_hubport (nc s)).
    change (world s1) with (world s). split_if; [|done].
    destruct (net_hub_flush (world s)) as [f w] eqn:Ef. split; [|done].
    eapply rx_done_trans; [exact Hd1|]. apply rx_done_world. pose proof (kept_hub (world s1)) as Hh.
    change (world s1) with (world s) in Hh. rewrite Ef in Hh. destruct f; [|done]. eapply world_kept_trans; [exact Hh|apply kept_notify]. }
  destruct H2 as [Hd2 E2]. clearbody s2 w0. subst s2.
  pose proof (flush_runs fuel fuel (mkMachine (dev s) (nc s1) w0)) as Hr.
  destruct (qemu_net_queue_flush fuel _) as [[b s3]|f|] eqn:E; cbn [mbind res_bind]; [|done..].
  destruct Hr as (_ & -> & _); [by apply Hd2|destruct Hn; by split|done|]. intros [= <-]. exists (world s3). split; [|done].
  apply (flush_hands fuel fuel _ s3) in E; [exact E|by apply Hd2|destruct Hn; by split|exact Hl|done].
Qed.

(** C34: writing the receive tail so that buffers become available (the driver refilling the ring),
    with the receive head in the ring and the client's link up, returns and hands every queued
    packet to [e1000_receive], each once, oldest first (it stores the packet or, with the receiver
    off, the filter not passed or no room, drops it), and tells the senders that asked; the
    queue is empty afterwards and its counter exact, and the invariant holds. *)
Theorem rdt_write_drains_queue fuel val s :
  mach_ok s → rx_ready fuel s → Z.of_nat (length (packets (incoming_queue (nc s)))) ≤ Z.of_nat fuel →
  link_down (nc s) = false → e1000_has_rxbufs (dev (wr RDT (Z.land (u32 val) 0xffff) s)) 1 = true →
  ∃ s' w, e1000_mmio_write fuel (4 * RDT) val s = Ok s' ∧ mach_ok s' ∧
    handed fuel (packets (incoming_queue (nc s))) (dev (wr RDT (Z.land (u32 val) 0xffff) s)) (hub_asked s) (dev s') w ∧
    world s' = qemu_notify_event w ∧
    packets (incoming_queue (nc s')) = [] ∧ nq_count (incoming_queue (nc s')) = 0.
Proof.
  intros Hok Hr Hl Hlk Hb. pose proof (set_rdt_runs fuel (u32 val) s Hok) as Hs.
  destruct (runs_total _ _ _ (conj Hr Hl) Hs) as (s' & E & Hok' & Hp). specialize (Hp Hb).
  assert (Hok1 : mach_ok (wr RDT (Z.land (u32 val) 0xffff) s)).
  { destruct Hok as [Hok Hn]. split; [|done]. apply dev_ok_wr; [done|done|]. apply reg_ok_16. by apply (bool_decide_eq_false (_ ∈ _)). }
  pose proof E as Ef. unfold set_rdt in Ef. cbn zeta in Ef. rewrite Hb in Ef.
  destruct (flush_queued_hands fuel _ s' Hok1 Hlk Ef) as (w & Hh & Hw).
  exists s', w. split; [exact E|]. do 4 (split; [done|]).
  destruct Hok' as [_ [Hq _ _]]. unfold queue_wf in Hq. by rewrite Hq, Hp.
Qed.
End AccessTheorems.

(** ** Witnesses *)

Lemma idle_ok (w : Board) : b_irq w = false → mach_ok (mkMachine idle_dev idle_nc w).
Proof.
  intros Hw. split; [split; [split|..]|split]; try done.
  apply idle_dev_wf.
Qed.

Lemma mach_ok_wr (s : Machine Board) i v :
  mach_ok s → bool_decide (i ∉ [IMS; ICR; ICS]) = true → reg_ok i (u32 v) → mach_ok (wr i v s).
Proof. intros [? ?] ? ?. split; [by apply dev_ok_wr|done]. Qed.

(** A concrete value fits its register. *)
Ltac reg_width :=
  first [by apply reg_ok_free
        |split; [by apply notin_absurd|intros _; by split]
        |split; [intros _; by split|by apply notin_absurd]].

Lemma rx_machine_ok : mach_ok rx_machine.
Proof.
  unfold rx_machine. repeat (apply mach_ok_wr; [|reflexivity|reg_width]). by apply idle_ok.
Qed.

(** A machine with one packet waiting. *)
Definition waiting : Machine Board :=
  upd_nc (ncs_incoming_queue (mkQueue 10000 1 [mkPacket 1 0 [1; 2; 3] None] false)) rx_machine.

Lemma waiting_ok : mach_ok waiting.
Proof.
  destruct rx_machine_ok as [H1 H2]. split; [by apply dev_ok_nc|]. split; [done|done|]. by repeat constructor.
Qed.

Lemma mmio_readback_witness :
  ∃ s', e1000_mmio_write 1 (4 * RDLEN) 0x12345678 idle = Ok s' ∧ fst (e1000_mmio_read (4 * RDLEN) s') = 0x45600.
Proof.
  destruct (mmio_readback 1 RDLEN 0xfff80 0x12345678 idle) as (s' & H1 & H2); [reflexivity|].
  exists s'. split; [exact H1|]. rewrite H2. reflexivity.
Defined.

Lemma octets_read_and_clear_witness :
  fst (e1000_mmio_read (4 * (TORH - 1)) (wr TORL 77 idle)) = 77.
Proof.
  pose proof (octets_read_and_clear TORH (wr TORL 77 idle) (or_introl eq_refl)) as H.
  destruct (e1000_mmio_read (4 * (TORH - 1)) (wr TORL 77 idle)) as [lo s1] eqn:E1.
  destruct (e1000_mmio_read (4 * TORH) s1) as [hi s2] eqn:E2. vm_compute in E1. injection E1 as <- <-. reflexivity.
Defined.

Lemma e1000_mmio_write_safe_witness :
  ∃ s', e1000_mmio_write (Z.to_nat 65536) (4 * RDT) 5 rx_machine = Ok s' ∧ mach_ok s'.
Proof.
  destruct (e1000_mmio_write_safe (Z.to_nat 65536) (4 * RDT) 5 rx_machine rx_machine_ok) as (_ & H2 & H3).
  destruct H3 as [s' E].
  - split; [split; [left; reflexivity|rewrite Z2Nat.id; lia]|]. split; [vm_compute; discriminate|].
    apply (bool_decide_eq_false (_ ∈ _)). reflexivity.
  - exists s'. split; [exact E|apply H2; exact E].
Defined.

Lemma rdt_write_drains_queue_witness :
  ∃ s' w, e1000_mmio_write (Z.to_nat 65536) (4 * RDT) 5 waiting = Ok s' ∧
    handed (Z.to_nat 65536) (packets (incoming_queue (nc waiting))) (dev (wr RDT 5 waiting)) (world waiting) (dev s') w ∧
    packets (incoming_queue (nc s')) = [].
Proof.
  destruct (rdt_write_drains_queue (Z.to_nat 65536) 5 waiting waiting_ok) as (s' & w & H1 & _ & H2 & _ & H3 & _).
  - split; [left; reflexivity|rewrite Z2Nat.id; lia].
  - vm_compute. discriminate.
  - reflexivity.
  - reflexivity.
  - exists s', w. split; [exact H1|]. split; [exact H2|exact H3].
Defined.

End Mmio.
