(* ===== verification/Lifecycle.v ===== *)
(** The life of the device in e1000.c: the initial contents of its registers and EEPROM,
    [pci_e1000_init] with the memory-mapped window it sets up, [e1000_reset] as a bus reset runs
    it, and the hooks migration calls ([e1000_pre_save], [e1000_post_load]). *)

From S2P Require Import Prelude Regs Iov NetQueue Device Board Intr Eeprom Rx Tx Mmio.
Import Iov NetQueue Intr Eeprom Rx Tx Mmio.

Module Lifecycle.

(** ** Initial contents *)

Definition phy_reg_init : arr :=
  list_to_map
    [(PHY_CTRL, 0x1140); (PHY_STATUS, 0x794d); (PHY_ID1, 0x141); (PHY_ID2, PHY_ID2_INIT);
     (PHY_1000T_CTRL, 0x0e00); (M88E1000_PHY_SPEC_CTRL, 0x360);
     (M88E1000_EXT_PHY_SPEC_CTRL, 0x0d60); (PHY_AUTONEG_ADV, 0xde1);
     (PHY_LP_ABILITY, 0x1e0); (PHY_1000T_STATUS, 0x3c00); (M88E1000_PHY_SPEC_STATUS, 0xac00)].

Definition lors (l : list Z) : Z := foldr Z.lor 0 l.

Definition mac_reg_init : arr :=
  list_to_map
    [(PBA, 0x00100030); (LEDCTL, 0x602);
     (CTRL, lors [E1000_CTRL_SWDPIN2; E1000_CTRL_SWDPIN0; E1000_CTRL_SPD_1000; E1000_CTRL_SLU]);
     (STATUS, lors [0x80000000; E1000_STATUS_GIO_MASTER_ENABLE; E1000_STATUS_ASDV;
                    E1000_STATUS_MTXCKOK; E1000_STATUS_SPEED_1000; E1000_STATUS_FD;
                    E1000_STATUS_LU]);
     (MANC, lors [E1000_MANC_EN_MNG2HOST; E1000_MANC_RCV_TCO_EN; E1000_MANC_ARP_EN;
                  E1000_MANC_0298_EN; E1000_MANC_RMCP_EN])].

Definition e1000_eeprom_template : list Z := [
  0x0000; 0x0000; 0x0000; 0x0000;      0xffff; 0x0000;      0x0000; 0x0000;
  0x3000; 0x1000; 0x6403; E1000_DEVID; 0x8086; E1000_DEVID; 0x8086; 0x3040;
  0x0008; 0x2000; 0x7e14; 0x0048;      0x1000; 0x00d8;      0x0000; 0x2700;
  0x6cc9; 0x3150; 0x0722; 0x040b;      0x0984; 0x0000;      0xc000; 0x0706;
  0x1008; 0x0000; 0x0f04; 0x7fff;      0x4d01; 0xffff;      0xffff; 0xffff;
  0xffff; 0xffff; 0xffff; 0xffff;      0xffff; 0xffff;      0xffff; 0xffff;
  0x0100; 0x4000; 0x121c; 0xffff;      0xffff; 0xffff;      0xffff; 0xffff;
  0xffff; 0xffff; 0xffff; 0xffff;      0xffff; 0xffff;      0xffff; 0x0000 ].

(** [memset(&d->tx, 0, sizeof d->tx)]. *)
Definition zero_tx : e1000_tx :=
  mkTx ∅ ∅ ∅ 0 0 false 0 0 0 0 0 0 0 0 0 0 false false false false.

(** ** The memory-mapped window *)

Definition excluded_regs : list Z :=
  [E1000_MDIC; E1000_ICR; E1000_ICS; E1000_IMS; E1000_IMC; E1000_TCTL; E1000_TDT; PNPMMIO_SIZE].

(** The ranges (offset, size) whose writes may be batched: the loop over [excluded_regs]. *)
Fixpoint coalesce_loop (excluded : list Z) : list (Z * Z) :=
  match excluded with
  | r :: (r' :: _) as rest =>
      if r =? PNPMMIO_SIZE then [] else (r + 4, u32 (r' - r - 4)) :: coalesce_loop rest
  | _ => []
  end.
Definition e1000_mmio_setup : list (Z * Z) :=
  (0, hd 0 excluded_regs) :: coalesce_loop excluded_regs.

(** ** Initialisation *)

(** What the device keeps in its PCI part: configuration space, BARs (number, kind, size) and
    the coalesced ranges of its memory region. *)
Record PciPart : Type := mkPci {
  pci_conf : arr;
  pci_bars : list (Z * Z * Z);
  pci_coalesced : list (Z * Z);
}.

Definition PCI_CACHE_LINE_SIZE : Z := 0x0c.
Definition PCI_INTERRUPT_PIN : Z := 0x3d.
Definition PCI_BASE_ADDRESS_SPACE_MEMORY : Z := 0.
Definition PCI_BASE_ADDRESS_SPACE_IO : Z := 1.

(** [index] is the function's static counter. *)
Definition qemu_macaddr_default_if_unset (index : Z) (a : list Z) : Z * list Z :=
  if bool_decide (a = replicate 6 0)
  then (index + 1, [0x52; 0x54; 0x00; 0x12; 0x34; u8 (0x56 + index)])
  else (index, a).

(** The address and the checksum of the EEPROM image. *)
Definition eeprom_mac (macaddr : list Z) (e : arr) : arr :=
  foldl (λ e i, aset e (Z.of_nat i)
                  (u16 (Z.lor (Z.shiftl (nth (2 * i + 1) macaddr 0) 8) (nth (2 * i) macaddr 0))))
    e [0; 1; 2]%nat.
Definition eeprom_sum (e : arr) : Z :=
  foldl (λ c i, u16 (c + aget e i)) 0 (seqZ 0 EEPROM_CHECKSUM_REG).
Definition eeprom_image (macaddr : list Z) : arr :=
  let e := eeprom_mac macaddr (awrite ∅ 0 e1000_eeprom_template) in
  aset e EEPROM_CHECKSUM_REG (u16 (EEPROM_SUM - eeprom_sum e)).

(** [qemu_new_nic]: a client with an empty queue, its link up. *)
Definition qemu_new_nic (model_name : string) (hub_peer : bool) : NetClientState :=
  mkNc false false model_name "" qemu_new_net_queue hub_peer.

Section Life.
Context {W : Type} `{DeviceEnv W}.
Implicit Types s : Machine W.

(** The device as allocated (zeroed), with its [macaddr] and [compat_flags] properties.  Returns
    the PCI part, the static counter and the machine with its new client. *)
Definition pci_e1000_init (index : Z) (hub_peer : bool) (p : PciPart) (d : E1000State) (w : W)
  : PciPart * Z * Machine W :=
  let conf := aset (pci_conf p) PCI_CACHE_LINE_SIZE 0x10 in
  let conf := aset conf PCI_INTERRUPT_PIN 1 in
  let p := mkPci conf
             (pci_bars p ++ [(0, PCI_BASE_ADDRESS_SPACE_MEMORY, PNPMMIO_SIZE);
                             (1, PCI_BASE_ADDRESS_SPACE_IO, IOPORT_SIZE)])
             (pci_coalesced p ++ e1000_mmio_setup) in
  let '(index, a) := qemu_macaddr_default_if_unset index (macaddr d) in
  let d := set_macaddr a d in
  let d := set_eeprom_data (eeprom_image a) d in
  let n := qemu_format_nic_info_str a (qemu_new_nic "e1000" hub_peer) in
  (p, index, mkMachine d n w).

(** ** Reset *)

(** The loop that fills the first receive address. *)
Definition reset_ra (macaddr : list Z) (d : E1000State) : E1000State :=
  let d := set_reg RA 0 d in
  let d := set_reg (RA + 1) E1000_RAH_AV d in
  foldl (λ d i,
           let d := set_reg RA (Z.lor (reg d RA) (Z.shiftl (nth i macaddr 0) (8 * Z.of_nat i))) d in
           set_reg (RA + 1) (Z.lor (reg d (RA + 1))
             (if (i <? 2)%nat then Z.shiftl (nth (i + 4) macaddr 0) (8 * Z.of_nat i) else 0)) d)
    d [0; 1; 2; 3]%nat.

Definition e1000_reset s : Machine W :=
  let s := upd_world (timer_del AutonegTimer) s in
  let s := upd_world (timer_del MitTimer) s in
  let s := upd_dev (set_mit_timer_on false) s in
  let s := upd_dev (set_mit_irq_level false) s in
  let s := upd_dev (set_mit_ide 0) s in
  let s := upd_dev (set_phy_reg phy_reg_init) s in
  let s := upd_dev (set_mac_reg mac_reg_init) s in
  let s := upd_dev (set_rxbuf_min_shift 1) s in
  let s := upd_dev (set_tx zero_tx) s in
  let s := if link_down (nc s) then upd_dev e1000_link_down s else s in
  let s := upd_dev (reset_ra (macaddr (dev s))) s in
  upd_nc (qemu_format_nic_info_str (macaddr (dev s))) s.

(** A bus reset of the device as the device sees it: its reset handler, then its interrupt pin is
    de-asserted.  The code forgets the pin ([dev->irq_state = 0]) before it de-asserts it, so the
    counters of the bus do not move: that is the bus's side (PciBus, [pci_device_reset] and
    [pci_bus_reset]), and the runs of the device on its bus (BusDevice) have no reset. *)
Definition e1000_pci_reset s : Machine W := upd_world (pci_set_irq false) (e1000_reset s).

(** ** Migration hooks *)

Definition e1000_pre_save s : Machine W :=
  let s := if mit_timer_on (dev s) then e1000_mit_timer s else s in
  if negb (tst (compat_flags (dev s)) E1000_FLAG_AUTONEG) then s
  else if link_down (nc s) && tst (rd_phy s PHY_CTRL) MII_CR_AUTO_NEG_EN &&
          tst (rd_phy s PHY_CTRL) MII_CR_RESTART_AUTO_NEG
  then wr_phy PHY_STATUS (Z.lor (rd_phy s PHY_STATUS) MII_SR_AUTONEG_COMPLETE) s
  else s.

Definition e1000_post_load s : Machine W :=
  let s := if negb (tst (compat_flags (dev s)) E1000_FLAG_MIT) then
             upd_dev (set_mit_irq_level false) (wr ITR 0 (wr RDTR 0 (wr RADV 0 (wr TADV 0 s))))
           else s in
  let s := upd_dev (set_mit_ide 0) s in
  let s := upd_dev (set_mit_timer_on false) s in
  let s := upd_nc (ncs_link_down (Z.land (rd s STATUS) E1000_STATUS_LU =? 0)) s in
  if negb (tst (compat_flags (dev s)) E1000_FLAG_AUTONEG) then s
  else if tst (rd_phy s PHY_CTRL) MII_CR_AUTO_NEG_EN &&
          tst (rd_phy s PHY_CTRL) MII_CR_RESTART_AUTO_NEG &&
          negb (tst (rd_phy s PHY_STATUS) MII_SR_AUTONEG_COMPLETE)
  then
    let s := upd_nc (ncs_link_down false) s in
    upd_world (λ w, timer_mod AutonegTimer (qemu_clock_get_ms w + 500) w) s
  else s.

Definition e1000_mit_state_needed (d : E1000State) : bool := tst (compat_flags d) E1000_FLAG_MIT.
End Life.

(** ** What a record carries *)

(** The registers [vmstate_e1000] lists one by one and as arrays, and those of its subsection. *)
Definition migrated_regs : list Z :=
  [CTRL; EECD; EERD; GPRC; GPTC; ICR; ICS; IMC; IMS; LEDCTL; MANC; MDIC; MPC; PBA; RCTL;
   RDBAH; RDBAL; RDH; RDLEN; RDT; STATUS; SWSM; TCTL; TDBAH; TDBAL; TDH; TDLEN; TDT;
   TORH; TORL; TOTH; TOTL; TPR; TPT; TXDCTL; WUFC; VET] ++ seqZ RA 32 ++ seqZ MTA 128 ++ seqZ VFTA 128.
Definition mit_regs : list Z := [RDTR; RADV; TADV; ITR].

Definition load_regs (idx : list Z) (saved a : arr) : arr := foldl (λ a i, aset a i (aget saved i)) a idx.

(** Of the transmit state, [vlan_header], [vlan], [vlan_needed], [tse] and [cptse] are not in the
    record. *)
Definition load_tx (saved t : e1000_tx) : e1000_tx :=
  mkTx (tp_header saved) (tp_vlan_header t)
    (awrite (tp_vd t) 4 (aread (tp_vd saved) 4 (Z.to_nat TX_DATA)))
    (tp_size saved) (tp_sum_needed saved) (tp_vlan_needed t)
    (tp_ipcss saved) (tp_ipcso saved) (tp_ipcse saved)
    (tp_tucss saved) (tp_tucso saved) (tp_tucse saved)
    (tp_hdr_len saved) (tp_mss saved) (tp_paylen saved) (tp_tso_frames saved)
    (tp_tse t) (tp_ip saved) (tp_tcp saved) (tp_cptse t).

(** The fields of the record of [saved] stored into [d]; the subsection is there when the device
    that wrote the record needed it. *)
Definition e1000_load_state (saved d : E1000State) : E1000State :=
  let mit := e1000_mit_state_needed saved in
  mkE1000 (macaddr d)
    (load_regs (migrated_regs ++ if mit then mit_regs else []) (mac_reg saved) (mac_reg d))
    (phy_reg saved) (eeprom_data saved) (rxbuf_size saved) (rxbuf_min_shift saved)
    (load_tx (tx saved) (tx d)) (eecd_state saved)
    (mit_timer_on d) (if mit then mit_irq_level saved else mit_irq_level d) (mit_ide d) (compat_flags d).

(** Loading the record of [saved] into the device of [s]: the fields, then [e1000_post_load].  [w] is
    the world after the record of the PCI part, which comes first, has been read. *)
Definition e1000_load {W} `{DeviceEnv W} (saved : E1000State) (w : W) (s : Machine W) : Machine W :=
  e1000_post_load (mkMachine (e1000_load_state saved (dev s)) (nc s) w).


(** ** The memory-mapped window *)

(** The address is in one of the batched ranges. *)
Definition coalesced (a : Z) : Prop := ∃ o n, (o, n) ∈ e1000_mmio_setup ∧ o ≤ a < o + n.

(** ** The EEPROM image *)

(** The sum a driver computes over all 64 words. *)
Definition eeprom_total (e : arr) : Z := foldl (λ c i, u16 (c + aget e i)) 0 (seqZ 0 64).

Lemma eeprom_fold_ext (e e' : arr) l c :
  (∀ i, i ∈ l → aget e i = aget e' i) →
  foldl (λ c i, u16 (c + aget e i)) c l = foldl (λ c i, u16 (c + aget e' i)) c l.
Proof.
  revert c. induction l as [|i l IH]; intros c Hi; cbn; [done|].
  rewrite (Hi i) by apply list_elem_of_here. apply IH. intros j Hj. apply Hi. by apply list_elem_of_further.
Qed.

Lemma eeprom_image_total mac : eeprom_total (eeprom_image mac) = EEPROM_SUM.
Proof.
  unfold eeprom_total, eeprom_image. set (e := eeprom_mac _ _). clearbody e.
  change 64 with (EEPROM_CHECKSUM_REG + 1). rewrite seqZ_app, foldl_app by done. cbn [foldl seqZ].
  rewrite (eeprom_fold_ext _ e (seqZ 0 EEPROM_CHECKSUM_REG)).
  - change (seqZ (0 + EEPROM_CHECKSUM_REG) 1) with [EEPROM_CHECKSUM_REG]. cbn [foldl].
    rewrite aget_aset_eq. unfold eeprom_sum.
    generalize (foldl (λ c i, u16 (c + aget e i)) 0 (seqZ 0 EEPROM_CHECKSUM_REG)). intros x.
    unfold u16. rewrite Z.add_mod_idemp_r by done. replace (x + (EEPROM_SUM - x)) with EEPROM_SUM by lia.
    reflexivity.
  - intros i Hi%elem_of_seqZ. rewrite aget_aset_ne; [done|]. unfold EEPROM_CHECKSUM_REG in *. lia.
Qed.

Lemma eeprom_image_fits mac : afits 16 (eeprom_image mac).
Proof.
  unfold eeprom_image, eeprom_mac. cbn [foldl]. repeat (apply afits_aset; [|apply u16_fits]).
  apply afits_awrite; [by apply afits_empty|]. apply (bool_decide_unpack (Forall (fits 16) e1000_eeprom_template)). by vm_compute.
Qed.

(** ** Reset *)

Lemma lor_shiftl_add a b n : 0 ≤ n → fits n a → 0 ≤ b → Z.lor a (Z.shiftl b n) = a + 2 ^ n * b.
Proof.
  intros Hn [Ha1 Ha2] Hb. rewrite Z.shiftl_mul_pow2, Z.mul_comm by done.
  rewrite Z.add_nocarry_lxor; [symmetry; apply Z.lxor_lor|];
  apply Z.bits_inj'; intros k Hk; rewrite Z.land_spec, Z.bits_0, Z.mul_comm, <-Z.shiftl_mul_pow2 by done.
  all: destruct (Z.lt_ge_cases k n); [rewrite Z.shiftl_spec_low by done; btauto|].
  all: rewrite (proj1 (fits_bits n a Hn Ha1) (conj Ha1 Ha2) k) by done; done.
Qed.

Lemma lor_byte x b n :
  0 ≤ n → n + 8 ≤ 32 → fits n x → fits 8 b → u32 (Z.lor x (Z.shiftl b n)) = x + 2 ^ n * b.
Proof.
  intros Hn Hn' Hx Hb. rewrite lor_shiftl_add by (done || apply Hb). apply u32_small. unfold fits in *.
  assert (2 ^ n * (b + 1) ≤ 2 ^ (n + 8)) by (rewrite Z.pow_add_r by lia; apply Z.mul_le_mono_nonneg_l; lia).
  assert (2 ^ (n + 8) ≤ 2 ^ 32) by (apply Z.pow_le_mono_r; lia). lia.
Qed.

Lemma lor_u32_l x y : u32 (Z.lor (u32 x) y) = u32 (Z.lor x y).
Proof.
  unfold u32. rewrite <-!(Z.land_ones _ 32) by done. bitwise.
Qed.

(** The address registers after the loop: the address itself, and its valid bit. *)
Lemma reset_ra_spec mac d :
  Forall (fits 8) mac → length mac = 6%nat →
  reg (reset_ra mac d) RA = le_val (take 4 mac) ∧
  reg (reset_ra mac d) (RA + 1) = le_val (drop 4 mac ++ [0; 128]).
Proof.
  intros Hf Hl. destruct mac as [|a [|b [|c [|d' [|e [|f [|? ?]]]]]]]; try discriminate Hl.
  repeat match goal with H : Forall _ (_ :: _) |- _ => apply Forall_cons in H as [? H] end.
  unfold reset_ra. cbn [foldl nth Nat.add Nat.ltb Nat.leb take drop app].
  change (8 * Z.of_nat 0) with 0. change (8 * Z.of_nat 1) with 8. change (8 * Z.of_nat 2) with 16.
  change (8 * Z.of_nat 3) with 24. regs. unfold fits in *. split.
  - change (u32 0) with 0. rewrite (lor_byte 0 a 0) by (unfold fits; lia).
    rewrite (lor_byte _ b 8) by (unfold fits; lia). rewrite (lor_byte _ c 16) by (unfold fits; lia).
    rewrite (lor_byte _ d' 24) by (unfold fits; lia). cbn [le_val]. lia.
  - rewrite !Z.lor_0_r, Z.shiftl_0_r, lor_u32_l, (Z.lor_comm _ e), <-Z.lor_assoc, (Z.lor_comm _ (Z.shiftl f 8)),
      Z.lor_assoc. change (u32 E1000_RAH_AV) with (Z.shiftl 1 31).
    rewrite (lor_shiftl_add e f 8), (lor_shiftl_add _ 1 31) by (unfold fits; lia).
    rewrite !(u32_small (e + 2 ^ 8 * f + 2 ^ 31 * 1)) by (unfold fits; lia). cbn [le_val]. lia.
Qed.

Lemma reset_ra_other mac d i : i ≠ RA → i ≠ RA + 1 → reg (reset_ra mac d) i = reg d i.
Proof. intros H1 H2. unfold reset_ra. cbn [foldl]. by rewrite !reg_set_ne by done. Qed.

(** It writes registers only. *)
Lemma reset_ra_frame mac d :
  dev_wf d → ∃ a, reset_ra mac d = set_mac_reg a d ∧ afits 32 a.
Proof.
  intros Hw. assert (Hw' : dev_wf (reset_ra mac d)) by (unfold reset_ra; cbn [foldl]; by do 10 apply set_reg_wf).
  exists (mac_reg (reset_ra mac d)). split; [|apply Hw']. reflexivity.
Qed.
Lemma reset_ra_macaddr mac d : macaddr (reset_ra mac d) = macaddr d.
Proof. reflexivity. Qed.

Section Reset.
Context {W : Type} `{DeviceEnv W}.
Implicit Types s : Machine W.

(** The machine the loop starts from. *)
Definition cleared s : Machine W :=
  mkMachine
    (let d := dev s in
     mkE1000 (macaddr d) mac_reg_init phy_reg_init (eeprom_data d) (rxbuf_size d) 1 zero_tx
       (eecd_state d) false false 0 (compat_flags d))
    (nc s) (timer_del MitTimer (timer_del AutonegTimer (world s))).
Definition linked s : Machine W :=
  if link_down (nc s) then upd_dev e1000_link_down (cleared s) else cleared s.

Lemma linked_macaddr s : macaddr (dev (linked s)) = macaddr (dev s).
Proof. unfold linked. by destruct (link_down _). Qed.

Lemma e1000_reset_eq s :
  e1000_reset s =
  upd_nc (qemu_format_nic_info_str (macaddr (dev s))) (upd_dev (reset_ra (macaddr (dev s))) (linked s)).
Proof.
  transitivity (let s' := upd_dev (reset_ra (macaddr (dev (linked s)))) (linked s) in
                upd_nc (qemu_format_nic_info_str (macaddr (dev s'))) s'); [reflexivity|].
  cbv zeta. rewrite linked_macaddr. f_equal. f_equal. cbn [upd_dev with_dev dev].
  by rewrite reset_ra_macaddr, linked_macaddr.
Qed.

Lemma e1000_reset_rd s i :
  i ≠ RA → i ≠ RA + 1 → i ≠ STATUS → rd (e1000_reset s) i = aget mac_reg_init i.
Proof.
  intros H1 H2 H3. rewrite e1000_reset_eq, rd_nc. unfold rd. cbn [upd_dev with_dev dev]. rewrite reset_ra_other by done. unfold linked.
  destruct (link_down _); [|done]. change (rd (upd_dev e1000_link_down (cleared s)) i = aget mac_reg_init i).
  rewrite link_down_eq. by rewrite rd_wr_phy, rd_wr_ne by done.
Qed.

Lemma e1000_reset_ra s :
  dev_wf (dev s) →
  rd (e1000_reset s) RA = le_val (take 4 (macaddr (dev s))) ∧
  rd (e1000_reset s) (RA + 1) = le_val (drop 4 (macaddr (dev s)) ++ [0; 128]).
Proof. intros Hw. rewrite e1000_reset_eq, !rd_nc. apply reset_ra_spec; apply Hw. Qed.
End Reset.

(** Without the address registers the table of initial values leaves every filter empty. *)
Lemma mac_init_filters :
  forallb (λ i, aget mac_reg_init (RA + 2 * i + 1) =? 0) (seqZ 1 15) = true ∧
  forallb (λ i, aget mac_reg_init (MTA + i) =? 0) (seqZ 0 128) = true.
Proof. split; vm_compute; reflexivity. Qed.

Lemma le_bytes_mac (mac : list Z) :
  Forall (fits 8) mac → length mac = 6%nat →
  take 6 (le_bytes 4 (le_val (take 4 mac)) ++ le_bytes 4 (le_val (drop 4 mac ++ [0; 128]))) = mac.
Proof.
  intros Hf Hl. pose proof (le_bytes_le_val (take 4 mac) (Forall_take _ _ _ Hf)) as E1.
  assert (Hf' : Forall (fits 8) (drop 4 mac ++ [0; 128])).
  { apply Forall_app. split; [by apply Forall_drop|]. rewrite !Forall_cons. done. }
  pose proof (le_bytes_le_val _ Hf') as E2. rewrite length_app, length_drop, Hl in E2.
  rewrite length_take, Hl in E1. cbn [Nat.min Nat.sub Nat.add length] in E1, E2.
  rewrite E1, E2, app_assoc, take_drop. apply take_app_length'. done.
Qed.

Lemma ra_valid_bit e f : fits 8 e → fits 8 f → tst (le_val [e; f; 0; 128]) E1000_RAH_AV = true.
Proof.
  intros He Hf. change E1000_RAH_AV with (2 ^ 31). rewrite tst_bit by done.
  replace (le_val [e; f; 0; 128]) with (Z.lor (e + 256 * f) (Z.shiftl 1 31)).
  - rewrite Z.lor_spec, Z.shiftl_spec by done. cbn. by rewrite orb_true_r.
  - unfold fits in *. rewrite lor_shiftl_add by (unfold fits; lia). cbn [le_val]. lia.
Qed.

(** The multicast index stays in its table. *)
Lemma mta_index s dst : 0 ≤ Z.shiftr (mta_hash s dst) 5 < 128.
Proof.
  pose proof (land_ones_le (Z.shiftr (Z.lor (Z.shiftl (nth 5 dst 0) 8) (nth 4 dst 0))
    (mta_shift (Z.land (Z.shiftr (reg s RCTL) E1000_RCTL_MO_SHIFT) 3))) 0xfff ltac:(done)) as Hl.
  unfold mta_hash. rewrite Z.shiftr_div_pow2 by done. set (x := Z.land _ 0xfff) in *. clearbody x.
  change (2 ^ 5) with 32. split; [apply Z.div_pos; lia|]. apply Z.div_lt_upper_bound; lia.
Qed.

(** Arithmetic on the indices of the filter tables. *)
Ltac reg_lia :=
  let a := eval vm_compute in MTA in let b := eval vm_compute in RA in
  let c := eval vm_compute in RCTL in let d := eval vm_compute in STATUS in
  change MTA with a; change RA with b; change RCTL with c; change STATUS with d; lia.

(** A device whose only filter is one exact address. *)
Lemma single_address d mac buf :
  Forall (fits 8) mac → length mac = 6%nat → (16 ≤ length buf)%nat →
  tst (reg d RCTL) (lors [E1000_RCTL_UPE; E1000_RCTL_MPE; E1000_RCTL_BAM; E1000_RCTL_VFE]) = false →
  reg d RA = le_val (take 4 mac) → reg d (RA + 1) = le_val (drop 4 mac ++ [0; 128]) →
  (∀ i, 1 ≤ i < 16 → reg d (RA + 2 * i + 1) = 0) → (∀ i, 0 ≤ i < 128 → reg d (MTA + i) = 0) →
  receive_filter d buf = Ok (bool_decide (dst_of buf = mac)).
Proof.
  intros Hm1 Hm2 Hl Hv Hra0 Hra1 Hras Hmta.
  destruct (receive_filter_ok d buf Hl) as (b & -> & Hb). f_equal.
  assert (Hbits : ∀ m, Z.land m (lors [E1000_RCTL_UPE; E1000_RCTL_MPE; E1000_RCTL_BAM; E1000_RCTL_VFE]) = m →
            tst (reg d RCTL) m = false).
  { intros m Hm. unfold tst in *. apply negb_false_iff, Z.eqb_eq in Hv.
    by rewrite <-Hm, Z.land_comm, <-Z.land_assoc, (Z.land_comm _ (reg d RCTL)), Hv, Z.land_0_r. }
  assert (Hva : vlan_admitted d buf) by (intros Hvf; by rewrite Hbits in Hvf).
  assert (Ha : addr_admitted d (dst_of buf) ↔ dst_of buf = mac).
  { unfold addr_admitted. rewrite !Hbits by done. split.
    - intros [?|[[_ ?]|[[_ ?]|[(i & Hi & Hav & Hd)|Ht]]]]; try discriminate.
      + destruct (decide (i = 0)) as [->|Hne].
        * rewrite Hd, Z.mul_0_r, Z.add_0_r, Hra0, Hra1. by apply le_bytes_mac.
        * exfalso. rewrite Hras in Hav by lia. done.
      + exfalso. rewrite Hmta, Z.bits_0 in Ht by apply mta_index. done.
    - intros Hd. do 3 right. left. exists 0. split; [lia|]. rewrite Z.mul_0_r, Z.add_0_r.
      rewrite Hra0, Hra1, le_bytes_mac by done. split; [|done].
      destruct mac as [|a0 [|a1 [|a2 [|a3 [|a4 [|a5 [|? ?]]]]]]]; try discriminate Hm2.
      repeat match goal with H : Forall _ (_ :: _) |- _ => apply Forall_cons in H as [? H] end.
      by apply ra_valid_bit. }
  destruct b, (bool_decide_reflect (dst_of buf = mac)); try done; tauto.
Qed.

Lemma afits_list w (l : list (Z * Z)) :
  0 ≤ w → forallb (λ p, (0 <=? snd p) && (snd p <? 2 ^ w)) l = true → afits w (list_to_map l).
Proof.
  intros Hw. induction l as [|[i v] l IH]; cbn; intros Hl; [by apply afits_empty|].
  apply andb_true_iff in Hl as [Hv Hl]. apply afits_aset; [by apply IH|]. unfold fits. lia.
Qed.

Lemma mac_init_fits : afits 32 mac_reg_init.
Proof. by apply afits_list. Qed.
Lemma phy_init_fits : afits 16 phy_reg_init.
Proof. by apply afits_list. Qed.
Lemma zero_tx_wf : tx_wf zero_tx.
Proof. split; cbn; auto with width; try apply afits_empty; try done; lia. Qed.

Section ResetTheorems.
Context {W : Type} `{DeviceEnvLaws W} `{!IrqPin W} `{!TimerWorld W}.
Implicit Types s : Machine W.

(** after a reset, a driver that enables the receiver without any promiscuous, broadcast or
    VLAN-filter bit gets exactly the frames sent to the device's own address: the reset has put
    the address into the first receive-address pair, marked it valid, and emptied every other
    filter. *)
Theorem reset_own_address v buf s :
  dev_wf (dev s) → (16 ≤ length buf)%nat →
  tst (u32 v) (lors [E1000_RCTL_UPE; E1000_RCTL_MPE; E1000_RCTL_BAM; E1000_RCTL_VFE]) = false →
  receive_filter (dev (wr RCTL v (e1000_reset s))) buf =
    Ok (bool_decide (dst_of buf = macaddr (dev s))).
Proof.
  intros Hw Hl Hv. pose proof (wf_macaddr _ Hw) as [Hm1 Hm2]. destruct mac_init_filters as [Hf1 Hf2].
  rewrite forallb_forall in Hf1, Hf2.
  pose proof (e1000_reset_ra s Hw) as Hra. pose proof (e1000_reset_rd s) as Hz. revert Hra Hz.
  generalize (e1000_reset s). intros m [Hra0 Hra1] Hz.
  assert (Hm : ∀ i, i ≠ RCTL → reg (dev (wr RCTL v m)) i = rd m i) by (intros; by apply rd_wr_ne).
  apply single_address; [exact Hm1|exact Hm2|exact Hl|..].
  - change (tst (rd (wr RCTL v m) RCTL) (lors [E1000_RCTL_UPE; E1000_RCTL_MPE; E1000_RCTL_BAM; E1000_RCTL_VFE]) = false).
    by rewrite rd_wr_eq.
  - by rewrite Hm.
  - by rewrite Hm.
  - intros i Hi. rewrite Hm, Hz by reg_lia.
    apply Z.eqb_eq, (Hf1 i), list_elem_of_In, elem_of_seqZ. lia.
  - intros i Hi. rewrite Hm, Hz by reg_lia.
    apply Z.eqb_eq, (Hf2 i), list_elem_of_In, elem_of_seqZ. lia.
Qed.

(** A bus reset establishes the invariant whatever state the registers were in: only the fields
    it does not write (EEPROM, address, receive buffer size) have to be well-formed. *)
Definition reset_base s : Machine W := upd_world (pci_set_irq false) (cleared s).

Lemma reset_base_ok s :
  dev_wf (dev s) → 0 ≤ rxbuf_size (dev s) ≤ 16384 → timer_inv (world s) → dev_ok (reset_base s).
Proof.
  intros [] Hb Ht. split; [split|..].
  - split; [exact mac_init_fits|exact phy_init_fits|done|exact zero_tx_wf|done].
  - intros i. split; intros Hi; unfold len_regs, idx_regs in Hi;
      repeat (apply elem_of_cons in Hi as [->|Hi]); try (by apply elem_of_nil in Hi); vm_compute; split; congruence.
  - done.
  - cbn. lia.
  - apply irq_line_set.
  - split; [|done]. by apply timers_irq, timers_del, timers_del.
  - split; [done|]. intros Hp. by vm_compute in Hp.
  - reflexivity.
Qed.

Lemma reset_ra_ok mac s : dev_ok s → dev_ok (upd_dev (reset_ra mac) s).
Proof.
  intros [[Hw Hg Hb Hs Hp Ht] Hi Hc].
  assert (Ho : ∀ i, i ≠ RA → i ≠ RA + 1 → rd (upd_dev (reset_ra mac) s) i = rd s i)
    by apply reset_ra_other.
  destruct (reset_ra_frame mac (dev s) Hw) as (a & E & Ha). unfold upd_dev in *. rewrite E in *.
  destruct Hw. split; [split|..]; try done.
  - intros i. destruct (decide (i = RA)) as [->|]; [by apply reg_ok_free|].
    destruct (decide (i = RA + 1)) as [->|]; [by apply reg_ok_free|]. rewrite Ho by done. apply Hg.
  - unfold irq_ok, pending in *. pose proof (Ho IMS) as E1. pose proof (Ho ICR) as E2. unfold rd in E1, E2.
    cbn [with_dev dev] in *. rewrite E1, E2 by done. exact Hi.
  - unfold icr_ics in *. pose proof (Ho ICR) as E1. pose proof (Ho ICS) as E2. unfold rd in E1, E2.
    cbn [with_dev dev] in *. by rewrite E1, E2 by done.
Qed.

Lemma e1000_pci_reset_ok s :
  dev_wf (dev s) → 0 ≤ rxbuf_size (dev s) ≤ 16384 → timer_inv (world s) → nc_ok (nc s) →
  mach_ok (e1000_pci_reset s).
Proof.
  intros Hw Hb Ht [Hq Hi Hp]. pose proof (reset_base_ok s Hw Hb Ht) as Hok. unfold e1000_pci_reset.
  rewrite e1000_reset_eq. split.
  - change (dev_ok (upd_nc (qemu_format_nic_info_str (macaddr (dev s)))
              (upd_dev (reset_ra (macaddr (dev s))) (upd_world (pci_set_irq false) (linked s))))).
    apply dev_ok_nc, reset_ra_ok. unfold linked. destruct (link_down (nc s)); [|exact Hok].
    change (dev_ok (upd_dev e1000_link_down (reset_base s))). by apply link_down_ok.
  - assert (Hn : nc (linked s) = nc s) by (unfold linked; by destruct (link_down (nc s))).
    cbn [nc upd_world upd_nc upd_dev with_dev]. rewrite Hn. split; [exact Hq|exact Hi|exact Hp].
Qed.

(** ** Migration hooks *)

Lemma e1000_mit_timer_ok s : dev_ok s → dev_ok (e1000_mit_timer s).
Proof.
  intros [[? ? ? ? ? [Ht _]] _ _]. apply dev_ok_sic. split; try done. by apply set_mit_timer_on_wf.
Qed.

Lemma mit_timer_pending s : dev_wf (dev s) → pending (dev (e1000_mit_timer s)) = pending (dev s).
Proof.
  intros Hw. unfold e1000_mit_timer, pending. set (s1 := upd_dev _ s).
  change (Z.land (rd (set_interrupt_cause (rd s1 ICR) s1) IMS) (rd (set_interrupt_cause (rd s1 ICR) s1) ICR) =
          Z.land (rd s1 IMS) (rd s1 ICR)).
  rewrite sic_icr, sic_rd by neq_reg. rewrite u32_small; [done|]. by apply (reg_fits (dev s)).
Qed.

Lemma e1000_pre_save_ok s : mach_ok s → mach_ok (e1000_pre_save s).
Proof.
  intros [Hd Hn]. unfold e1000_pre_save. set (s1 := if mit_timer_on _ then _ else _).
  assert (H1 : dev_ok s1 ∧ nc s1 = nc s).
  { unfold s1. destruct (mit_timer_on (dev s)); [|done]. split; [by apply e1000_mit_timer_ok|exact (sic_nc _ (upd_dev (set_mit_timer_on false) s))]. }
  clearbody s1. destruct H1 as [H1 E]. split_if; [by split; rewrite ?E|]. split_if; [|by split; rewrite ?E].
  split; [by apply dev_ok_phy|]. cbn. by rewrite E.
Qed.

(** When a machine is saved its pin shows its pending causes: a mitigated interrupt has been
    delivered. *)
Lemma e1000_pre_save_level s :
  mach_ok s → irq_line (world (e1000_pre_save s)) = true ↔ pending (dev (e1000_pre_save s)) ≠ 0.
Proof.
  intros Hok. unfold e1000_pre_save. set (s1 := if mit_timer_on _ then _ else _).
  assert (H1 : irq_line (world s1) = true ↔ pending (dev s1) ≠ 0).
  { unfold s1. destruct Hok as [[[Hw _ _ _ Hp _] [Hi1 Hi2] _] _]. destruct (mit_timer_on (dev s)) eqn:E.
    - destruct (e1000_mit_timer_delivers s Hw Hp) as [_ Hl]. rewrite Hl, mit_timer_pending by done.
      by rewrite negb_true_iff, Z.eqb_neq.
    - rewrite Hp. split; [exact Hi1|]. intros Hx. destruct (Hi2 Hx) as [?|?]; [done|congruence]. }
  clearbody s1. repeat split_if; exact H1.
Qed.

Lemma e1000_pre_save_compat s : compat_flags (dev (e1000_pre_save s)) = compat_flags (dev s).
Proof.
  unfold e1000_pre_save. set (s1 := if mit_timer_on _ then _ else _).
  assert (H1 : compat_flags (dev s1) = compat_flags (dev s)).
  { unfold s1. split_if; [|done]. unfold e1000_mit_timer. destruct (sic_dev (rd (upd_dev (set_mit_timer_on false) s) ICR) (upd_dev (set_mit_timer_on false) s)) as (l & x & y & -> & _). done. }
  clearbody s1. by repeat split_if.
Qed.

(** [e1000_post_load] establishes the invariant when the pin agrees with the pending causes; without
    interrupt mitigation the pin has to be low, since the level is not in the record and is taken
    to be low. *)
Lemma e1000_post_load_ok s :
  dev_wf (dev s) → (∀ i, reg_ok i (rd s i)) → 0 ≤ rxbuf_size (dev s) ≤ 16384 →
  0 ≤ rxbuf_min_shift (dev s) ≤ 4 → timer_inv (world s) → icr_ics (dev s) → nc_ok (nc s) →
  (irq_line (world s) = true ↔ pending (dev s) ≠ 0) →
  (if tst (compat_flags (dev s)) E1000_FLAG_MIT then mit_irq_level (dev s) = irq_line (world s)
   else irq_line (world s) = false) →
  mach_ok (e1000_post_load s).
Proof.
  intros Hw Hg Hb Hs Ht Hc [Hq Hi Hk] Hp Hm.
  set (s0 := upd_dev (set_mit_timer_on false) (upd_dev (set_mit_ide 0)
               (upd_dev (set_mit_irq_level (irq_line (world s))) s))).
  assert (Hok0 : dev_ok s0).
  { destruct Hw. split; [split|..]; try done. split; cbn; [by apply Hp|]. intros. left. by apply Hp. }
  set (s1 := if negb (tst (compat_flags (dev s)) E1000_FLAG_MIT)
             then wr ITR 0 (wr RDTR 0 (wr RADV 0 (wr TADV 0 s0))) else s0).
  assert (H1 : dev_ok s1).
  { unfold s1. split_if; [|done]. repeat (apply dev_ok_wr; [|done|by (split; intros; vm_compute; split; congruence)]). done. }
  assert (He : e1000_post_load s =
    let s2 := upd_nc (ncs_link_down (Z.land (rd s1 STATUS) E1000_STATUS_LU =? 0)) s1 in
    if negb (tst (compat_flags (dev s2)) E1000_FLAG_AUTONEG) then s2
    else if tst (rd_phy s2 PHY_CTRL) MII_CR_AUTO_NEG_EN && tst (rd_phy s2 PHY_CTRL) MII_CR_RESTART_AUTO_NEG &&
            negb (tst (rd_phy s2 PHY_STATUS) MII_SR_AUTONEG_COMPLETE)
    then upd_world (λ w, timer_mod AutonegTimer (qemu_clock_get_ms w + 500) w) (upd_nc (ncs_link_down false) s2)
    else s2).
  { unfold e1000_post_load, s1, s0. destruct (tst (compat_flags (dev s)) E1000_FLAG_MIT); cbn [negb]; rewrite <-Hm; [|reflexivity].
    by destruct s as [[] ? ?]. }
  rewrite He. cbn zeta.
  assert (Hn1 : nc_ok (nc s1)) by (unfold s1; split_if; by split). clearbody s1. clear He.
  assert (H2 : ∀ b, mach_ok (upd_nc (ncs_link_down b) s1)).
  { intros b. split; [by apply dev_ok_nc|]. destruct Hn1. by split. }
  repeat split_if; [apply H2| |apply H2]. destruct (H2 false) as [Hd Hn].
  split; [|exact Hn]. apply dev_ok_world; [apply kept_mod|exact Hd].
Qed.

(** A register after a load: the saved one or the one that was there. *)
Lemma load_regs_get idx saved a i :
  aget (load_regs idx saved a) i = if bool_decide (i ∈ idx) then aget saved i else aget a i.
Proof.
  unfold load_regs. induction idx as [|j idx IH] using rev_ind.
  { by rewrite bool_decide_eq_false_2 by apply not_elem_of_nil. }
  rewrite foldl_app. cbn [foldl]. destruct (decide (j = i)) as [->|Hne].
  - rewrite aget_aset_eq, bool_decide_eq_true_2; [done|]. apply elem_of_app. right. by apply list_elem_of_singleton.
  - rewrite aget_aset_ne, IH by done. apply (f_equal (λ b : bool, if b then _ else _)), bool_decide_ext.
    rewrite elem_of_app, list_elem_of_singleton. split; [by left|]. by intros [?| ->].
Qed.

Lemma load_regs_fits w idx saved a : afits w saved → afits w a → afits w (load_regs idx saved a).
Proof. intros Hs Ha i. rewrite load_regs_get. split_if; [apply Hs|apply Ha]. Qed.

Lemma load_tx_wf saved t : tx_wf saved → tx_wf t → tx_wf (load_tx saved t).
Proof.
  intros [] [? ? Hvd]. unfold load_tx.
  assert (Hv : afits 8 (awrite (tp_vd t) 4 (aread (tp_vd saved) 4 (Z.to_nat TX_DATA))))
    by (apply afits_awrite; [exact Hvd|by apply aread_fits]).
  revert Hv. generalize (awrite (tp_vd t) 4 (aread (tp_vd saved) 4 (Z.to_nat TX_DATA))). intros a Hv.
  by split.
Qed.

Lemma e1000_load_wf saved d : dev_wf saved → dev_wf d → dev_wf (e1000_load_state saved d).
Proof. intros [] []. split; [by apply load_regs_fits|done|done|by apply load_tx_wf|done]. Qed.

Lemma e1000_load_reg saved d i :
  i ∈ migrated_regs → reg (e1000_load_state saved d) i = reg saved i.
Proof.
  intros Hi. unfold reg, e1000_load_state. cbn [mac_reg]. rewrite load_regs_get, bool_decide_eq_true_2; [done|].
  apply elem_of_app. by left.
Qed.

(** What was saved can be loaded: the machine that reads the record of a machine in order, after
    its [e1000_pre_save], is in order. *)
Lemma e1000_load_ok saved w s :
  mach_ok saved → mach_ok s → compat_flags (dev s) = compat_flags (dev saved) →
  timer_inv w → irq_line w = irq_line (world (e1000_pre_save saved)) →
  (tst (compat_flags (dev s)) E1000_FLAG_MIT = false → irq_line w = false) →
  mach_ok (e1000_load (dev (e1000_pre_save saved)) w s).
Proof.
  intros Hsv [[[Hw Hg _ _ _ _] _ _] Hn] Hcf Ht Hl Hm.
  assert (Hpend : irq_line w = true ↔ pending (dev (e1000_pre_save saved)) ≠ 0) by (rewrite Hl; by apply e1000_pre_save_level).
  pose proof (e1000_pre_save_ok saved Hsv) as [[[Hw' Hg' Hb' Hs' Hp' _] _ Hc'] _].
  rewrite <-(e1000_pre_save_compat saved) in Hcf. revert Hl Hpend Hcf Hw' Hg' Hb' Hs' Hp' Hc'.
  generalize (e1000_pre_save saved). intros sv Hl Hpend Hcf Hw' Hg' Hb' Hs' Hp' Hc'.
  assert (Hr : ∀ i, i ∈ [IMS; ICR; ICS] → reg (e1000_load_state (dev sv) (dev s)) i = reg (dev sv) i).
  { intros i Hi. apply e1000_load_reg. apply elem_of_app. left.
    repeat (apply elem_of_cons in Hi as [->|Hi]); [..|by apply elem_of_nil in Hi]; by apply (bool_decide_unpack _). }
  assert (Hgl : ∀ i, reg_ok i (reg (e1000_load_state (dev sv) (dev s)) i)).
  { intros i. unfold reg. unfold e1000_load_state at 1. cbn [mac_reg]. rewrite load_regs_get. split_if; [apply Hg'|apply Hg]. }
  pose proof (e1000_load_wf (dev sv) (dev s) Hw' Hw) as Hwl.
  assert (Hbl : rxbuf_size (e1000_load_state (dev sv) (dev s)) = rxbuf_size (dev sv)) by reflexivity.
  assert (Hsl : rxbuf_min_shift (e1000_load_state (dev sv) (dev s)) = rxbuf_min_shift (dev sv)) by reflexivity.
  assert (Hcl : compat_flags (e1000_load_state (dev sv) (dev s)) = compat_flags (dev s)) by reflexivity.
  assert (Hll : tst (compat_flags (dev sv)) E1000_FLAG_MIT = true →
                mit_irq_level (e1000_load_state (dev sv) (dev s)) = mit_irq_level (dev sv)).
  { unfold e1000_load_state, e1000_mit_state_needed. cbn [mit_irq_level]. by intros ->. }
  unfold e1000_load. revert Hr Hgl Hwl Hbl Hsl Hcl Hll. generalize (e1000_load_state (dev sv) (dev s)).
  intros d Hr Hgl Hwl Hbl Hsl Hcl Hll. apply e1000_post_load_ok; cbn [dev nc world]; try done.
  - by rewrite Hbl.
  - by rewrite Hsl.
  - unfold icr_ics. by rewrite !Hr by set_solver.
  - unfold pending. by rewrite !Hr by set_solver.
  - rewrite Hcl. destruct (tst (compat_flags (dev s)) E1000_FLAG_MIT) eqn:E; [|auto].
    rewrite Hcf in E. rewrite (Hll E), <-Hp'. congruence.
Qed.
End ResetTheorems.

(** the EEPROM image built at initialisation is one a driver accepts: its 64 words add up to
    0xBABA and its first three words hold the station address, low byte first. *)
Theorem eeprom_image_accepted {W} `{DeviceEnv W} index hub p d (w : W) :
  dev_wf d →
  let '(_, _, s) := pci_e1000_init index hub p d w in
  eeprom_total (eeprom_data (dev s)) = EEPROM_SUM ∧
  ∀ i, (i < 3)%nat →
    aget (eeprom_data (dev s)) (Z.of_nat i) =
      nth (2 * i) (macaddr (dev s)) 0 + 256 * nth (2 * i + 1) (macaddr (dev s)) 0.
Proof.
  intros Hw. unfold pci_e1000_init. destruct (qemu_macaddr_default_if_unset index (macaddr d)) as [ix a] eqn:E.
  assert (Ha : Forall (fits 8) a).
  { unfold qemu_macaddr_default_if_unset in E. destruct (bool_decide _); injection E as <- <-; [|apply Hw].
    rewrite !Forall_cons. repeat split; try done; apply u8_fits. }
  split; [apply eeprom_image_total|]. intros i Hi. cbn -[eeprom_image nth Nat.mul Nat.add].
  assert (Hb : ∀ k, fits 8 (nth k a 0)).
  { intros k. destruct (nth_in_or_default k a 0) as [Hin | ->]; [|done].
    rewrite Forall_forall in Ha. by apply Ha, list_elem_of_In. }
  assert (Hword : ∀ k, u16 (Z.lor (Z.shiftl (nth (2 * k + 1) a 0) 8) (nth (2 * k) a 0)) =
                       nth (2 * k) a 0 + 256 * nth (2 * k + 1) a 0).
  { intros k. pose proof (Hb (2 * k)%nat) as H1. pose proof (Hb (2 * k + 1)%nat) as H2.
    rewrite Z.lor_comm, lor_shiftl_add by (done || apply H2). apply u16_small. unfold fits in *. lia. }
  unfold eeprom_image. rewrite aget_aset_ne by (unfold EEPROM_CHECKSUM_REG; lia).
  unfold eeprom_mac. cbn [foldl].
  destruct i as [|[|[|i]]]; [..|lia]; autorewrite with arr; apply Hword.
Qed.

(** The write-batching ranges of the register window cover every byte of it except the
    registers whose writes must take effect at once: the MDI control, interrupt and transmit
    registers. *)
Theorem mmio_coalesced_exact a :
  0 ≤ a < PNPMMIO_SIZE →
  coalesced a ↔ ¬ ∃ r, r ∈ [E1000_MDIC; E1000_ICR; E1000_ICS; E1000_IMS; E1000_IMC; E1000_TCTL; E1000_TDT] ∧
                       r ≤ a < r + 4.
Proof.
  intros Ha. change PNPMMIO_SIZE with 0x20000 in Ha. unfold coalesced.
  assert (Hs : e1000_mmio_setup =
    [(0, 0x20); (0x24, 0x9c); (0xc4, 4); (0xcc, 4); (0xd4, 4); (0xdc, 0x324); (0x404, 0x3414);
     (0x381c, 0x1c7e4)]) by reflexivity.
  rewrite Hs. cbv [E1000_MDIC E1000_ICR E1000_ICS E1000_IMS E1000_IMC E1000_TCTL E1000_TDT]. split.
  - intros (o & n & Hin & Ho) (r & Hr & Hra).
    repeat (apply elem_of_cons in Hin as [[= -> ->]|Hin]); [..|by apply elem_of_nil in Hin];
      repeat (apply elem_of_cons in Hr as [->|Hr]); try lia; by apply elem_of_nil in Hr.
  - intros Hn.
    assert (Hr : Forall (λ r, ¬ r ≤ a < r + 4) [0x20; 0xc0; 0xc8; 0xd0; 0xd8; 0x400; 0x3818])
      by (apply Forall_forall; intros r Hr Hra; apply Hn; by exists r).
    rewrite !Forall_cons in Hr.
    assert (Hc : a < 0x20 ∨ 0x24 ≤ a < 0xc0 ∨ 0xc4 ≤ a < 0xc8 ∨ 0xcc ≤ a < 0xd0 ∨ 0xd4 ≤ a < 0xd8 ∨
                 0xdc ≤ a < 0x400 ∨ 0x404 ≤ a < 0x3818 ∨ 0x381c ≤ a) by lia.
    repeat destruct Hc as [Hc|Hc];
      [exists 0, 0x20|exists 0x24, 0x9c|exists 0xc4, 4|exists 0xcc, 4|exists 0xd4, 4
      |exists 0xdc, 0x324|exists 0x404, 0x3414|exists 0x381c, 0x1c7e4];
      (split; [set_solver|lia]).
Qed.

(** ** Witnesses *)

Definition fresh_dev : E1000State :=
  mkE1000 (replicate 6 0) ∅ ∅ ∅ 0 0 zero_tx (mkEecd 0 0 0 false 0) false false 0
    (Z.lor E1000_FLAG_AUTONEG E1000_FLAG_MIT).
Lemma fresh_dev_wf : dev_wf fresh_dev.
Proof.
  split; cbn; auto with width; [exact zero_tx_wf|]. split; [|done]. rewrite !Forall_cons. done.
Qed.

Lemma reset_own_address_witness :
  receive_filter (dev (wr RCTL E1000_RCTL_EN (e1000_reset idle)))
    ([0x52; 0x54; 0; 0x12; 0x34; 0x56] ++ replicate 54 0) = Ok true.
Proof.
  rewrite (reset_own_address E1000_RCTL_EN _ idle idle_dev_wf); [reflexivity|cbn; lia|reflexivity].
Defined.

Lemma eeprom_image_accepted_witness :
  let '(_, _, s) := pci_e1000_init 3 false (mkPci ∅ [] []) fresh_dev idle_board in
  eeprom_total (eeprom_data (dev s)) = EEPROM_SUM ∧ aget (eeprom_data (dev s)) 2 = 0x34 + 256 * 0x59.
Proof.
  pose proof (eeprom_image_accepted 3 false (mkPci ∅ [] []) fresh_dev idle_board fresh_dev_wf) as H.
  destruct (pci_e1000_init 3 false (mkPci ∅ [] []) fresh_dev idle_board) as [[p ix] s] eqn:E.
  destruct H as [H1 H2]. split; [exact H1|].
  specialize (H2 2%nat ltac:(lia)). change (Z.of_nat 2) with 2 in H2. rewrite H2. injection E as _ _ <-. reflexivity.
Defined.

Lemma mmio_coalesced_exact_witness : coalesced E1000_RDT ∧ ¬ coalesced E1000_TDT.
Proof.
  split.
  - apply (mmio_coalesced_exact E1000_RDT); [by vm_compute|]. intros (r & Hr & Hra). unfold E1000_RDT in Hra.
    cbv [E1000_MDIC E1000_ICR E1000_ICS E1000_IMS E1000_IMC E1000_TCTL E1000_TDT] in Hr.
    repeat (apply elem_of_cons in Hr as [->|Hr]); try lia; by apply elem_of_nil in Hr.
  - intros H. apply (mmio_coalesced_exact E1000_TDT) in H; [|by vm_compute]. apply H.
    exists E1000_TDT. split; [set_solver|lia].
Defined.

End Lifecycle.
