(* ===== verification/System.v ===== *)
(** The device as a whole: the entry points through which the emulator drives it (register
    accesses of the guest, packets of the peer, link changes, timers, reset, saving) as a step
    relation on machines, loading what another reachable machine saved, and the invariant of every
    machine reachable from initialisation. *)

From S2P Require Import Prelude Regs Iov NetQueue Device Board Intr Eeprom Rx Tx Mmio Lifecycle.
Import Iov NetQueue Intr Eeprom Rx Tx Mmio Lifecycle.

Module System.

Section System.
Context {W : Type} `{DeviceEnv W}.
Implicit Types s : Machine W.

(** ** Entry points *)

(** The device's part of [qmp_set_link]. *)
Definition set_link (up : bool) s : Machine W :=
  e1000_set_link_status (upd_nc (ncs_link_down (negb up)) s).

(** A packet from the peer: sent to the queue of the device's client. *)
Definition peer_send (fuel : nat) (sender flags : Z) (data : list Z) (cb : option Z) s
  : res (Z * Machine W) :=
  @qemu_net_queue_send _ (e1000_port fuel) fuel sender flags data cb s.

(** ** Steps *)

(** [fuel] bounds the loops of the entry points, [init] are the machines the emulator builds. *)
Inductive step (fuel : nat) : Machine W → Machine W → Prop :=
| step_write addr val s s' : e1000_mmio_write fuel addr val s = Ok s' → step fuel s s'
| step_read addr s : step fuel s (snd (e1000_mmio_read addr s))
| step_packet sender flags data cb ret s s' :
    0 < Z.of_nat (length data) < 2 ^ 31 - 64 →
    peer_send fuel sender flags data cb s = Ok (ret, s') → step fuel s s'
| step_link up s : step fuel s (set_link up s)
| step_autoneg s : step fuel s (e1000_autoneg_timer s)
| step_mitigation s : step fuel s (e1000_mit_timer s)
| step_reset s : step fuel s (e1000_pci_reset s)
| step_save s : step fuel s (e1000_pre_save s).

(** A machine just initialised and reset, in a world whose timers are in order. *)
Inductive initial `{!TimerWorld W} : Machine W → Prop :=
| initial_intro index hub p d w :
    dev_wf d → rxbuf_size d = 0 → timer_inv w →
    initial (e1000_pci_reset (snd (pci_e1000_init index hub p d w))).

(** Migration: the device of [s] reads the record a machine [saved] wrote ([e1000_pre_save], then the
    fields).  Both have the same [compat_flags], as both ends of a migration have the same machine
    type.  [w] is the world of the destination after the record of the PCI part, which holds the
    level of the pin, has been read.  A device without interrupt mitigation has no level in its
    record and takes it to be low ([e1000_post_load_level]), so its pin has to be low. *)
Inductive reachable `{!TimerWorld W} `{!IrqPin W} (fuel : nat) : Machine W → Prop :=
| reach_init s : initial s → reachable fuel s
| reach_step s s' : reachable fuel s → step fuel s s' → reachable fuel s'
| reach_load saved s w :
    reachable fuel saved → reachable fuel s → compat_flags (dev s) = compat_flags (dev saved) →
    timer_inv w → irq_line w = irq_line (world (e1000_pre_save saved)) →
    (tst (compat_flags (dev s)) E1000_FLAG_MIT = false → irq_line w = false) →
    reachable fuel (e1000_load (dev (e1000_pre_save saved)) w s).
End System.

(** ** Every step keeps the invariant *)

Section Invariants.
Context {W : Type} `{DeviceEnvLaws W} `{!IrqPin W} `{!TimerWorld W}.
Implicit Types s : Machine W.

Lemma set_link_ok up s : mach_ok s → mach_ok (set_link up s).
Proof.
  intros [Hd [Hq Hi Hp]]. unfold set_link, e1000_set_link_status. cbn zeta. set (s0 := upd_nc _ s).
  assert (Hd0 : dev_ok s0) by by apply dev_ok_nc.
  assert (Hn0 : nc_ok (nc s0)) by by split. clearbody s0.
  set (s1 := if link_down (nc s0) then _ else _).
  assert (H1 : dev_ok s1 ∧ nc s1 = nc s0).
  { unfold s1. destruct (link_down (nc s0)); (split; [|done]); [by apply link_down_ok|by apply link_up_ok]. }
  clearbody s1. destruct H1 as [H1 E1]. split_if; [|by split; rewrite ?E1].
  split; [by apply dev_ok_ics, do_base|]. unfold set_ics. by rewrite sic_nc, E1.
Qed.

Lemma autoneg_ok s : mach_ok s → mach_ok (e1000_autoneg_timer s).
Proof.
  intros [Hd Hn]. unfold e1000_autoneg_timer. cbn zeta.
  destruct (negb (link_down (nc s))); (split; [|done]); apply dev_ok_phy; [by apply link_up_ok|done].
Qed.

Lemma mit_timer_ok s : mach_ok s → mach_ok (e1000_mit_timer s).
Proof.
  intros [Hd Hn]. split; [by apply e1000_mit_timer_ok|].
  by rewrite (sic_nc _ (upd_dev (set_mit_timer_on false) s) : nc (e1000_mit_timer s) = _).
Qed.

Lemma init_ok index hub p d (w : W) :
  dev_wf d → rxbuf_size d = 0 → timer_inv w →
  mach_ok (e1000_pci_reset (snd (pci_e1000_init index hub p d w))).
Proof.
  intros Hw Hb Ht. unfold pci_e1000_init.
  destruct (qemu_macaddr_default_if_unset index (macaddr d)) as [ix a] eqn:E. cbn [snd].
  apply e1000_pci_reset_ok; [|cbn; lia|done|by split; [..|apply Forall_nil]].
  destruct Hw as [? ? ? ? [Hm1 Hm2]]. split; try done.
  - apply eeprom_image_fits.
  - unfold qemu_macaddr_default_if_unset in E. destruct (bool_decide _); injection E as <- <-; [|done].
    cbn. split; [|done]. rewrite !Forall_cons. repeat split; try done; apply u8_fits.
Qed.

(** Queueing a packet, or delivering it and what was queued before. *)
Lemma append_ok fuel sender flags data cb s :
  mach_ok s → 0 < Z.of_nat (length data) < 2 ^ 31 - 64 →
  mach_ok (@qemu_net_queue_append _ (e1000_port fuel) sender flags data cb s).
Proof.
  intros [Hd [Hq Hi Hp]] Hl. unfold qemu_net_queue_append. cbn [port_queue e1000_port]. split_if; [by split|].
  split; [by apply dev_ok_nc|]. split; cbn.
  - unfold queue_wf in *. cbn. rewrite Hq, u32_count_up, length_app. do 2 f_equal. simpl. lia.
  - done.
  - apply Forall_app. split; [done|]. by constructor.
Qed.

Lemma can_send_enabled fuel sender s :
  @can_send_packet _ (e1000_port fuel) sender s = true → receive_disabled (nc s) = false.
Proof.
  cbn [can_send_packet e1000_port]. unfold qemu_can_send_packet. cbn [nc_receive_disabled e1000_client].
  by destruct (receive_disabled (nc s)).
Qed.

Lemma s32_zero : s32 0 = 0.
Proof. done. Qed.

Definition queue_fits (fuel : nat) s : Prop :=
  rx_ready fuel s ∧ Z.of_nat (length (packets (incoming_queue (nc s)))) ≤ Z.of_nat fuel.

Lemma peer_send_runs fuel sender flags data cb s :
  mach_ok s → 0 < Z.of_nat (length data) < 2 ^ 31 - 64 →
  runs (queue_fits fuel s) (peer_send fuel sender flags data cb s) (λ '(_, s'), mach_ok s').
Proof.
  intros Hok Hl. pose proof Hok as [Hd [Hq Hi Hp]]. unfold peer_send, qemu_net_queue_send.
  destruct (delivering (@port_queue _ (e1000_port fuel) s) || _) eqn:E; [by apply append_ok|].
  apply orb_false_iff in E as [_ E]. apply negb_false_iff, can_send_enabled in E.
  eapply (runs_seq _ (rx_ready fuel s) (λ '(_, s2), rx_ready fuel s2 ∧
            Z.of_nat (length (packets (incoming_queue (nc s2)))) ≤ Z.of_nat fuel));
    [by apply deliver_runs|by intros [? _]|].
  intros [ret s2] (Hd2 & Hret & Hnc). split.
  { intros [Hr Hn]. split; [by apply Hd2|by rewrite Hnc]. }
  assert (Hr0 : ret ≠ 0) by (by intros ->). rewrite (proj2 (Z.eqb_neq _ _) Hr0).
  assert (Hn2 : nc_ok (nc s2)) by (rewrite Hnc; by split).
  eapply (runs_seq _ _ (λ _, True)); [apply (flush_runs fuel fuel s2); [by apply Hd2|done|by rewrite Hnc]|done|].
  intros [b s3] (Hd3 & _ & Hn3 & _). split; [done|]. cbn. split; [by apply Hd3, Hd2|done].
Qed.

Lemma step_ok fuel s s' : mach_ok s → step fuel s s' → mach_ok s'.
Proof.
  intros Hok Hs. destruct Hs as [addr val s s' E|addr s|sender flags data cb ret s s' Hl E|up s|s|s|s|s].
  - pose proof (mmio_write_runs fuel addr val s Hok) as Hr. by rewrite E in Hr.
  - by apply mmio_read_ok.
  - pose proof (peer_send_runs fuel sender flags data cb s Hok Hl) as Hr. by rewrite E in Hr.
  - by apply set_link_ok.
  - by apply autoneg_ok.
  - by apply mit_timer_ok.
  - destruct Hok as [[[? ? ? ? ? [? _]] _ _] ?]. by apply e1000_pci_reset_ok.
  - by apply e1000_pre_save_ok.
Qed.

Lemma reachable_inv fuel s : reachable fuel s → mach_ok s.
Proof.
  induction 1 as [s Hi|s s' _ IH Hs|saved s w _ IH1 _ IH2]; [|by eapply step_ok|by apply e1000_load_ok].
  destruct Hi. by apply init_ok.
Qed.

(** C1: whatever register accesses of the guest, packets of the peer, link changes, timers, resets
    and saves happen, in any order, and whatever record of a machine so reached the device loads
    (written with the same compatibility flags; without interrupt mitigation only one whose
    interrupt pin is low), every machine reachable from initialisation satisfies the invariant:
    every field within its C width, ring lengths of 20 bits and ring indices of 16 bits, receive
    buffers of at most 16 KiB, the tracked interrupt level equal to the pin, the pin high only for
    an unmasked cause and low with one pending only while the mitigation timer is armed, ICR and
    ICS equal, the queue counter exact and no delivery left open.  Packets are non-empty and shorter
    than 2^31 - 64 bytes. *)
Theorem reachable_ok fuel s : reachable fuel s → mach_ok s.
Proof. apply reachable_inv. Qed.

(** C2: from a reachable machine no register access of the guest and no packet of the peer can make
    the device fault: no access outside a buffer, no failed assertion, whatever the registers,
    descriptors and frames hold. *)
Theorem reachable_no_fault fuel s addr val sender flags data cb f :
  reachable fuel s → 0 < Z.of_nat (length data) < 2 ^ 31 - 64 →
  e1000_mmio_write fuel addr val s ≠ Fault f ∧ peer_send fuel sender flags data cb s ≠ Fault f.
Proof.
  intros Hok%reachable_inv Hl. split; eapply runs_no_fault; [by apply mmio_write_runs|by apply peer_send_runs].
Qed.
(** Without interrupt mitigation a load forgets a level that is high: the pin stays up while the
    device tracks it as low, until the causes are next updated. *)
Lemma e1000_post_load_level s :
  tst (compat_flags (dev s)) E1000_FLAG_MIT = false →
  mit_irq_level (dev (e1000_post_load s)) = false ∧ irq_line (world (e1000_post_load s)) = irq_line (world s).
Proof.
  intros Hm. unfold e1000_post_load. rewrite Hm. cbn [negb].
  repeat split_if; (split; [done|]); [done| |done]. cbn. by rewrite irq_line_timer.
Qed.

Lemma e1000_post_load_recovers val s :
  tst (compat_flags (dev s)) E1000_FLAG_MIT = false → dev_wf (dev s) →
  let s' := set_interrupt_cause val (e1000_post_load s) in
  irq_line (world s') = mit_irq_level (dev s').
Proof.
  intros Hm Hw. cbn zeta. set (s1 := e1000_post_load s).
  assert (Ht : mit_timer_on (dev s1) = false ∧ tst (compat_flags (dev s1)) E1000_FLAG_MIT = false).
  { unfold s1, e1000_post_load. rewrite Hm. cbn [negb]. by repeat split_if. }
  clearbody s1. destruct Ht as [Ht Hf]. unfold set_interrupt_cause.
  destruct (negb (val =? 0) && (E1000_DEV_ID_82547EI_MOBILE <=? E1000_DEVID)); cbn zeta;
    cbn [dev nc world upd_dev upd_world with_dev wr set_reg set_mac_reg mit_timer_on compat_flags] in *; rewrite ?Ht, ?Hf;
    repeat split_if; try done; cbn; apply irq_line_set.
Qed.
End Invariants.

(** ** Witnesses *)

(** The machine of a virtual machine that just started, and after the driver refilled a ring. *)
Definition booted : Machine Board :=
  e1000_pci_reset (snd (pci_e1000_init 0 false (mkPci ∅ [] []) fresh_dev idle_board)).

Lemma booted_initial : initial booted.
Proof. apply (initial_intro 0 false (mkPci ∅ [] []) fresh_dev idle_board); [exact fresh_dev_wf|reflexivity|exact I]. Qed.

(** The link goes down, the machine is saved, and a machine just started loads the record. *)
Lemma reachable_ok_witness :
  mach_ok (e1000_load (dev (e1000_pre_save (set_link false booted))) idle_board booted).
Proof.
  apply (reachable_ok 1). apply reach_load.
  - eapply reach_step; [apply reach_init, booted_initial|]. apply step_link.
  - apply reach_init, booted_initial.
  - reflexivity.
  - exact I.
  - vm_compute. reflexivity.
  - intros _. reflexivity.
Defined.

Lemma reachable_no_fault_witness :
  e1000_mmio_write 1 0x3818 7 booted ≠ Fault OutOfBounds ∧
  peer_send 1 0 0 [1; 2; 3] None booted ≠ Fault OutOfBounds.
Proof.
  apply (reachable_no_fault 1 booted 0x3818 7 0 0 [1; 2; 3] None OutOfBounds).
  - apply reach_init, booted_initial.
  - cbn. lia.
Defined.

End System.
