(* ===== verification/VMState.v ===== *)
(** Device state as QEMU describes it: the tables of [VMStateField]s (migration/vmstate.h) and the
    functions of savevm.c that write the state they describe to a stream and read it back.
    The state lives in a flat memory of bytes; an access to an address that is not mapped is a
    fault.  Streams are lists of bytes. *)

From Stdlib Require Import Ascii.
From S2P Require Import Prelude.

Module VMState.

(** ** Memory *)

Abbreviation mem := (gmap Z Z).

Definition mapped (m : mem) (a : Z) (n : nat) : bool :=
  forallb (λ i, bool_decide (is_Some (m !! (a + Z.of_nat i)))) (seq 0 n).

Definition mem_read (m : mem) (a : Z) (n : nat) : res (list Z) :=
  if mapped m a n then Ok (aread m a n) else Fault OutOfBounds.
Definition mem_write (m : mem) (a : Z) (l : list Z) : res mem :=
  if mapped m a (length l) then Ok (awrite m a l) else Fault OutOfBounds.

(** A negative [int] converted to [size_t] is larger than any object. *)
Definition memcpy (dst src size : Z) (m : mem) : res mem :=
  if size <? 0 then Fault OutOfBounds
  else l ← mem_read m src (Z.to_nat size); mem_write m dst l.

Definition read_ptr (m : mem) (a : Z) : res Z := l ← mem_read m a 8; Ok (le_val l).
Definition read_int (m : mem) (a : Z) (n : nat) : res Z := l ← mem_read m a n; Ok (le_val l).

(** ** Descriptions *)

Definition VMS_SINGLE : Z := 0x001.
Definition VMS_POINTER : Z := 0x002.
Definition VMS_ARRAY : Z := 0x004.
Definition VMS_STRUCT : Z := 0x008.
Definition VMS_VARRAY_INT32 : Z := 0x010.
Definition VMS_BUFFER : Z := 0x020.
Definition VMS_ARRAY_OF_POINTER : Z := 0x040.
Definition VMS_VARRAY_UINT16 : Z := 0x080.
Definition VMS_VBUFFER : Z := 0x100.
Definition VMS_MULTIPLY : Z := 0x200.
Definition VMS_VARRAY_UINT8 : Z := 0x400.
Definition VMS_VARRAY_UINT32 : Z := 0x800.
Definition VMS_MUST_EXIST : Z := 0x1000.

(** The [VMStateInfo]s with a fixed encoding. *)
Inductive VMStateInfo : Type :=
| info_bool
| info_int8 | info_int16 | info_int32 | info_int64
| info_int32_equal | info_int32_le
| info_uint8 | info_uint16 | info_uint32 | info_uint64
| info_uint8_equal | info_uint16_equal | info_uint32_equal | info_uint64_equal
| info_float64
| info_buffer
| info_unused_buffer
| info_bitmap.

(** Hooks see the memory and the address of the structure. *)
Inductive VMStateDescription : Type := mkVMSD {
  vm_name : string;
  vm_version_id : Z;
  vm_minimum_version_id : Z;
  vm_minimum_version_id_old : Z;
  vm_load_state_old : option (list Z → mem → Z → Z → res (Z * list Z * mem));
  vm_pre_load : option (mem → Z → res (Z * mem));
  vm_post_load : option (mem → Z → Z → res (Z * mem));
  vm_pre_save : option (mem → Z → res mem);
  vm_fields : option (list VMStateField);
  vm_subsections : list VMStateSubsection;
}
with VMStateField : Type := mkField {
  f_name : string;
  f_offset : Z;
  f_size : Z;
  f_start : Z;
  f_num : Z;
  f_num_offset : Z;
  f_size_offset : Z;
  f_info : option VMStateInfo;
  f_flags : Z;
  f_vmsd : option VMStateDescription;
  f_version_id : Z;
  f_exists : option (mem → Z → Z → bool);
}
with VMStateSubsection : Type := mkSub {
  s_vmsd : VMStateDescription;
  s_needed : mem → Z → bool;
}.

(** ** Places of a field *)

Definition vmstate_n_elems (opaque : Z) (f : VMStateField) (m : mem) : res Z :=
  if tst (f_flags f) VMS_ARRAY then Ok (f_num f)
  else if tst (f_flags f) VMS_VARRAY_INT32 then
    v ← read_int m (opaque + f_num_offset f) 4; Ok (s32 v)
  else if tst (f_flags f) VMS_VARRAY_UINT32 then
    v ← read_int m (opaque + f_num_offset f) 4; Ok (s32 v)
  else if tst (f_flags f) VMS_VARRAY_UINT16 then read_int m (opaque + f_num_offset f) 2
  else if tst (f_flags f) VMS_VARRAY_UINT8 then read_int m (opaque + f_num_offset f) 1
  else Ok 1.

Definition vmstate_size (opaque : Z) (f : VMStateField) (m : mem) : res Z :=
  let size := s32 (f_size f) in
  if tst (f_flags f) VMS_VBUFFER then
    v ← read_int m (opaque + f_size_offset f) 4;
    let size := s32 v in
    Ok (if tst (f_flags f) VMS_MULTIPLY then s32 (size * f_size f) else size)
  else Ok size.

Definition vmstate_base_addr (opaque : Z) (f : VMStateField) (m : mem) : res Z :=
  let base_addr := opaque + f_offset f in
  if tst (f_flags f) VMS_POINTER then p ← read_ptr m base_addr; Ok (p + f_start f)
  else Ok base_addr.

(** ** Encoding of one element *)

(** The width of the integer encodings; [None] for the buffers and bitmaps, which use the field's size. *)
Definition info_width (i : VMStateInfo) : option nat :=
  match i with
  | info_bool | info_int8 | info_uint8 | info_uint8_equal => Some 1%nat
  | info_int16 | info_uint16 | info_uint16_equal => Some 2%nat
  | info_int32 | info_int32_equal | info_int32_le | info_uint32 | info_uint32_equal => Some 4%nat
  | info_int64 | info_uint64 | info_uint64_equal | info_float64 => Some 8%nat
  | info_buffer | info_unused_buffer | info_bitmap => None
  end.

(** [qemu_get_byte] at the end of the stream gives 0. *)
Definition qemu_get_byte (inp : list Z) : Z * list Z :=
  match inp with [] => (0, []) | b :: inp => (b, inp) end.
Fixpoint qemu_get_bytes (n : nat) (inp : list Z) : list Z * list Z :=
  match n with
  | O => ([], inp)
  | S n => let '(b, inp) := qemu_get_byte inp in
           let '(l, inp) := qemu_get_bytes n inp in (b :: l, inp)
  end.
(** [qemu_get_buffer] stores what there is. *)
Definition qemu_get_buffer (n : nat) (inp : list Z) : list Z * list Z := (take n inp, drop n inp).

Definition EINVAL : Z := 22.
Definition ENOENT : Z := 2.

(** The two functions of a [VMStateInfo]: [get] stores what it reads from the stream and gives 0 or
    an error, [put] gives the bytes it writes. *)
Record InfoOps : Type := mkOps {
  i_get : Z → Z → list Z → mem → res (Z * list Z * mem);
  i_put : Z → Z → mem → res (list Z);
}.

(** Integers of [n] bytes travel big-endian. *)
Definition put_be (n : nat) (size pv : Z) (m : mem) : res (list Z) := l ← mem_read m pv n; Ok (rev l).
Definition get_be (n : nat) (size pv : Z) (inp : list Z) (m : mem) : res (Z * list Z * mem) :=
  let '(l, inp) := qemu_get_bytes n inp in m ← mem_write m pv (rev l); Ok (0, inp, m).
(** The value received has to be the one in the field. *)
Definition get_equal (n : nat) (size pv : Z) (inp : list Z) (m : mem) : res (Z * list Z * mem) :=
  let '(l, inp) := qemu_get_bytes n inp in
  v ← mem_read m pv n; Ok (if bool_decide (v = rev l) then 0 else - EINVAL, inp, m).

Definition get_bool (size pv : Z) (inp : list Z) (m : mem) : res (Z * list Z * mem) :=
  let '(l, inp) := qemu_get_bytes 1 inp in
  m ← mem_write m pv [if hd 0 l =? 0 then 0 else 1]; Ok (0, inp, m).
(** Non-negative and at most the value in the field. *)
Definition get_int32_le (size pv : Z) (inp : list Z) (m : mem) : res (Z * list Z * mem) :=
  let '(l, inp) := qemu_get_bytes 4 inp in
  v ← mem_read m pv 4;
  let loaded := s32 (be_val l) in
  if (0 <=? loaded) && (loaded <=? s32 (le_val v))
  then m ← mem_write m pv (rev l); Ok (0, inp, m)
  else Ok (- EINVAL, inp, m).
Definition get_buffer (size pv : Z) (inp : list Z) (m : mem) : res (Z * list Z * mem) :=
  if size <? 0 then Fault OutOfBounds
  else let '(l, inp) := qemu_get_buffer (Z.to_nat size) inp in m ← mem_write m pv l; Ok (0, inp, m).
Definition put_buffer (size pv : Z) (m : mem) : res (list Z) :=
  if size <? 0 then Fault OutOfBounds else mem_read m pv (Z.to_nat size).
(** The blocks of 1024 bytes add up to [size]; nothing of the state is touched. *)
Definition get_unused_buffer (size pv : Z) (inp : list Z) (m : mem) : res (Z * list Z * mem) :=
  if size <? 0 then Fault OutOfBounds
  else let '(l, inp) := qemu_get_buffer (Z.to_nat size) inp in Ok (0, inp, m).
Definition put_unused_buffer (size pv : Z) (m : mem) : res (list Z) :=
  if size <? 0 then Fault OutOfBounds else Ok (replicate (Z.to_nat size) 0).

(** A [float64] is its bits.  A bitmap of [size] bits is an array of words of 64 bits, as in memory
    of a machine whose [unsigned long] has 64. *)
Definition get_float64 : Z → Z → list Z → mem → res (Z * list Z * mem) := get_be 8.
Definition put_float64 : Z → Z → mem → res (list Z) := put_be 8.
Definition BITS_TO_U64S (nr : Z) : Z := (nr + 63) / 64.
Fixpoint get_bitmap_loop (n : nat) (bmp : Z) (inp : list Z) (m : mem) : res (Z * list Z * mem) :=
  match n with
  | O => Ok (0, inp, m)
  | S n => '(_, inp, m) ← get_be 8 8 bmp inp m; get_bitmap_loop n (bmp + 8) inp m
  end.
Definition get_bitmap (size pv : Z) (inp : list Z) (m : mem) : res (Z * list Z * mem) :=
  if size <? 0 then Fault OutOfBounds else get_bitmap_loop (Z.to_nat (BITS_TO_U64S size)) pv inp m.
Fixpoint put_bitmap_loop (n : nat) (bmp : Z) (m : mem) : res (list Z) :=
  match n with
  | O => Ok []
  | S n => w ← put_be 8 8 bmp m; l ← put_bitmap_loop n (bmp + 8) m; Ok (w ++ l)
  end.
Definition put_bitmap (size pv : Z) (m : mem) : res (list Z) :=
  if size <? 0 then Fault OutOfBounds else put_bitmap_loop (Z.to_nat (BITS_TO_U64S size)) pv m.

Definition vmstate_info_bool : InfoOps := mkOps get_bool (put_be 1).
Definition vmstate_info_int8 : InfoOps := mkOps (get_be 1) (put_be 1).
Definition vmstate_info_int16 : InfoOps := mkOps (get_be 2) (put_be 2).
Definition vmstate_info_int32 : InfoOps := mkOps (get_be 4) (put_be 4).
Definition vmstate_info_int32_equal : InfoOps := mkOps (get_equal 4) (put_be 4).
Definition vmstate_info_int32_le : InfoOps := mkOps get_int32_le (put_be 4).
Definition vmstate_info_int64 : InfoOps := mkOps (get_be 8) (put_be 8).
Definition vmstate_info_uint8 : InfoOps := mkOps (get_be 1) (put_be 1).
Definition vmstate_info_uint16 : InfoOps := mkOps (get_be 2) (put_be 2).
Definition vmstate_info_uint32 : InfoOps := mkOps (get_be 4) (put_be 4).
Definition vmstate_info_uint32_equal : InfoOps := mkOps (get_equal 4) (put_be 4).
Definition vmstate_info_uint64 : InfoOps := mkOps (get_be 8) (put_be 8).
Definition vmstate_info_uint64_equal : InfoOps := mkOps (get_equal 8) (put_be 8).
Definition vmstate_info_uint8_equal : InfoOps := mkOps (get_equal 1) (put_be 1).
Definition vmstate_info_uint16_equal : InfoOps := mkOps (get_equal 2) (put_be 2).
Definition vmstate_info_buffer : InfoOps := mkOps get_buffer put_buffer.
Definition vmstate_info_unused_buffer : InfoOps := mkOps get_unused_buffer put_unused_buffer.

Definition vmstate_info_float64 : InfoOps := mkOps get_float64 put_float64.
Definition vmstate_info_bitmap : InfoOps := mkOps get_bitmap put_bitmap.

Definition info_ops (i : VMStateInfo) : InfoOps :=
  match i with
  | info_bool => vmstate_info_bool
  | info_int8 => vmstate_info_int8
  | info_int16 => vmstate_info_int16
  | info_int32 => vmstate_info_int32
  | info_int64 => vmstate_info_int64
  | info_int32_equal => vmstate_info_int32_equal
  | info_int32_le => vmstate_info_int32_le
  | info_uint8 => vmstate_info_uint8
  | info_uint16 => vmstate_info_uint16
  | info_uint32 => vmstate_info_uint32
  | info_uint64 => vmstate_info_uint64
  | info_uint8_equal => vmstate_info_uint8_equal
  | info_uint16_equal => vmstate_info_uint16_equal
  | info_uint32_equal => vmstate_info_uint32_equal
  | info_uint64_equal => vmstate_info_uint64_equal
  | info_buffer => vmstate_info_buffer
  | info_unused_buffer => vmstate_info_unused_buffer
  | info_float64 => vmstate_info_float64
  | info_bitmap => vmstate_info_bitmap
  end.
Definition info_get (i : VMStateInfo) := i_get (info_ops i).
Definition info_put (i : VMStateInfo) := i_put (info_ops i).

(** ** Names *)

Definition QEMU_VM_SUBSECTION : Z := 0x05.

Definition str_bytes (s : string) : list Z := (λ c, Z.of_N (N_of_ascii c)) <$> String.list_ascii_of_string s.
(** The C string in a buffer: up to the first 0. *)
Fixpoint cstring (l : list Z) : list Z :=
  match l with [] => [] | b :: l => if b =? 0 then [] else b :: cstring l end.

(** ** Saving *)

(** [for (i = 0; i < n_elems; i++)] with an accumulated output; [f] handles element [i]. *)
Fixpoint save_elems (n : nat) (i : Z) (f : Z → mem → res (list Z * mem)) (m : mem)
  : res (list Z * mem) :=
  match n with
  | O => Ok ([], m)
  | S n => '(out, m) ← f i m; '(out', m) ← save_elems n (i + 1) f m; Ok (out ++ out', m)
  end.

(** The loops over the fields and over the subsections. *)
Definition save_list {A} (F : A → mem → res (list Z * mem)) : list A → mem → res (list Z * mem) :=
  fix go l m :=
    match l with
    | [] => Ok ([], m)
    | x :: l => '(out, m) ← F x m; '(out', m) ← go l m; Ok (out ++ out', m)
    end.

Fixpoint vmstate_save_state (v : VMStateDescription) (opaque : Z) (m : mem) {struct v}
  : res (list Z * mem) :=
  m ← match vm_pre_save v with Some h => h m opaque | None => Ok m end;
  '(out, m) ←
    match vm_fields v with
    | None => Fault NullDeref
    | Some fs => save_list (λ f m, vmstate_save_field f (vm_version_id v) opaque m) fs m
    end;
  '(out', m) ← save_list (λ sub m, vmstate_save_sub sub opaque m) (vm_subsections v) m;
  Ok (out ++ out', m)
with vmstate_save_field (f : VMStateField) (version opaque : Z) (m : mem) {struct f}
  : res (list Z * mem) :=
  if match f_exists f with None => true | Some e => e m opaque version end then
    base_addr ← vmstate_base_addr opaque f m;
    n_elems ← vmstate_n_elems opaque f m;
    size ← vmstate_size opaque f m;
    save_elems (Z.to_nat n_elems) 0
      (λ i m,
         let addr := base_addr + s32 (size * i) in
         addr ← (if tst (f_flags f) VMS_ARRAY_OF_POINTER then read_ptr m addr else Ok addr);
         if tst (f_flags f) VMS_STRUCT then
           match f_vmsd f with
           | Some v => vmstate_save_state v addr m
           | None => Fault NullDeref
           end
         else
           match f_info f with
           | Some i => l ← info_put i size addr m; Ok (l, m)
           | None => Fault NullDeref
           end) m
  else if tst (f_flags f) VMS_MUST_EXIST then Fault AssertFail
  else Ok ([], m)
with vmstate_save_sub (sub : VMStateSubsection) (opaque : Z) (m : mem) {struct sub}
  : res (list Z * mem) :=
  if s_needed sub m opaque then
    let v := s_vmsd sub in
    let len := u8 (Z.of_nat (String.length (vm_name v))) in
    '(out, m) ← vmstate_save_state v opaque m;
    Ok ([QEMU_VM_SUBSECTION; len] ++ take (Z.to_nat len) (str_bytes (vm_name v)) ++
        be_bytes 4 (vm_version_id v) ++ out, m)
  else Ok ([], m).

(** ** Loading *)

(** The element loop of a load stops at the first negative result. *)
Fixpoint load_elems (n : nat) (i : Z) (f : Z → list Z → mem → res (Z * list Z * mem))
    (inp : list Z) (m : mem) : res (Z * list Z * mem) :=
  match n with
  | O => Ok (0, inp, m)
  | S n =>
      '(ret, inp, m) ← f i inp m;
      if ret <? 0 then Ok (ret, inp, m) else load_elems n (i + 1) f inp m
  end.

(** What [vmstate_subsection_load] sees at the head of the stream: the name of a subsection that
    may belong to the section, with the stream behind it. *)
Definition peek_subsection (name : string) (inp : list Z) : option (list Z * list Z) :=
  if nth 0 inp 0 =? QEMU_VM_SUBSECTION then
    let len := u8 (nth 1 inp 0) in
    if len <? Z.of_nat (String.length name) + 1 then None
    else
      let l := take (Z.to_nat len) (drop 2 inp) in
      if negb (Z.of_nat (length l) =? len) then None
      else
        let idstr := cstring l in
        if bool_decide (take (String.length name) idstr = str_bytes name)
        then Some (idstr, drop (Z.to_nat len) (drop 2 inp))
        else None
  else None.

(** The loop over the fields stops at the first negative result. *)
Definition load_list {A} (F : A → list Z → mem → res (Z * list Z * mem))
  : list A → list Z → mem → res (Z * list Z * mem) :=
  fix go l inp m :=
    match l with
    | [] => Ok (0, inp, m)
    | x :: l => '(ret, inp, m) ← F x inp m; if ret <? 0 then Ok (ret, inp, m) else go l inp m
    end.

(** [vmstate_get_subsection]: the first subsection of that name. *)
Definition with_subsection {B} (idstr : list Z) (F : VMStateSubsection → B) (none : B)
  : list VMStateSubsection → B :=
  fix go subs :=
    match subs with
    | [] => none
    | sub :: subs => if bool_decide (idstr = str_bytes (vm_name (s_vmsd sub))) then F sub else go subs
    end.

(** The loop of [vmstate_subsection_load]; [F] looks the name up and loads what follows it. *)
Definition subsection_loop (name : string)
    (F : list Z → list Z → list Z → mem → res (Z * list Z * mem))
  : nat → list Z → mem → res (Z * list Z * mem) :=
  fix go n inp m :=
    match peek_subsection name inp with
    | None => Ok (0, inp, m)
    | Some (idstr, rest) =>
        match n with
        | O => Diverge
        | S n =>
            '(ret, inp, m) ← F idstr inp rest m;
            if negb (ret =? 0) then Ok (ret, inp, m) else go n inp m
        end
    end.

Fixpoint vmstate_load_state (v : VMStateDescription) (opaque version_id : Z) (inp : list Z) (m : mem)
    {struct v} : res (Z * list Z * mem) :=
  if vm_version_id v <? version_id then Ok (- EINVAL, inp, m)
  else if version_id <? vm_minimum_version_id v then
    match vm_load_state_old v with
    | Some h => if vm_minimum_version_id_old v <=? version_id then h inp m opaque version_id
                else Ok (- EINVAL, inp, m)
    | None => Ok (- EINVAL, inp, m)
    end
  else
    '(ret, m) ← match vm_pre_load v with Some h => h m opaque | None => Ok (0, m) end;
    if negb (ret =? 0) then Ok (ret, inp, m)
    else
      '(ret, inp, m) ←
        match vm_fields v with
        | None => Fault NullDeref
        | Some fs => load_list (λ f inp m, vmstate_load_field f version_id opaque inp m) fs inp m
        end;
      if ret <? 0 then Ok (ret, inp, m)
      else
        '(ret, inp, m) ←
          subsection_loop (vm_name v)
            (λ idstr inp rest m,
               with_subsection idstr
                 (λ sub, let '(b, inp) := qemu_get_bytes 4 rest in
                         vmstate_load_sub sub opaque (u8 (be_val b)) inp m)
                 (Ok (- ENOENT, inp, m)) (vm_subsections v))
            (length inp) inp m;
        if negb (ret =? 0) then Ok (ret, inp, m)
        else match vm_post_load v with
             | Some h => '(ret, m) ← h m opaque version_id; Ok (ret, inp, m)
             | None => Ok (0, inp, m)
             end
with vmstate_load_field (f : VMStateField) (version_id opaque : Z) (inp : list Z) (m : mem) {struct f}
  : res (Z * list Z * mem) :=
  if match f_exists f with
     | Some e => e m opaque version_id
     | None => f_version_id f <=? version_id
     end then
    base_addr ← vmstate_base_addr opaque f m;
    n_elems ← vmstate_n_elems opaque f m;
    size ← vmstate_size opaque f m;
    load_elems (Z.to_nat n_elems) 0
      (λ i inp m,
         let addr := base_addr + s32 (size * i) in
         addr ← (if tst (f_flags f) VMS_ARRAY_OF_POINTER then read_ptr m addr else Ok addr);
         if tst (f_flags f) VMS_STRUCT then
           match f_vmsd f with
           | Some v => vmstate_load_state v addr (vm_version_id v) inp m
           | None => Fault NullDeref
           end
         else
           match f_info f with
           | Some i => info_get i size addr inp m
           | None => Fault NullDeref
           end) inp m
  else if tst (f_flags f) VMS_MUST_EXIST then Ok (-1, inp, m)
  else Ok (0, inp, m)
with vmstate_load_sub (sub : VMStateSubsection) (opaque version_id : Z) (inp : list Z) (m : mem)
    {struct sub} : res (Z * list Z * mem) :=
  vmstate_load_state (s_vmsd sub) opaque version_id inp m.

(** ** Memory lemmas *)

(** Case analysis on range tests. *)
Ltac range_cases :=
  repeat match goal with
  | |- context [?a <=? ?b] => destruct (Z.leb_spec a b)
  | |- context [?a <? ?b] => destruct (Z.ltb_spec a b)
  end; cbn [andb orb]; try lia.

Lemma mapped_spec m a n : mapped m a n = true ↔ ∀ i, 0 ≤ i < Z.of_nat n → is_Some (m !! (a + i)).
Proof.
  unfold mapped. rewrite forallb_forall. split.
  - intros Hm i Hi. specialize (Hm (Z.to_nat i)). rewrite Z2Nat.id in Hm by lia.
    apply (bool_decide_eq_true (is_Some _)), Hm, in_seq. lia.
  - intros Hm i Hi%in_seq. apply bool_decide_eq_true, Hm. lia.
Qed.

(** The bytes of a region, and the bytes a state function gives for a region. *)
Definition slice (st : Z → Z) (o : Z) (n : nat) : list Z := (λ k, st (o + Z.of_nat k)) <$> seq 0 n.

Lemma length_slice st o n : length (slice st o n) = n.
Proof. unfold slice. by rewrite length_fmap, length_seq. Qed.

Lemma nth_slice st o n k : (k < n)%nat → nth k (slice st o n) 0 = st (o + Z.of_nat k).
Proof.
  intros Hk. apply nth_lookup_Some. unfold slice. rewrite list_lookup_fmap, lookup_seq_lt by done. done.
Qed.

(** A region of memory holds a state. *)
Definition holds_state (m : mem) (base sz : Z) (st : Z → Z) : Prop :=
  ∀ o, 0 ≤ o < sz → m !! (base + o) = Some (st o).

Lemma mem_read_state m base sz st o n :
  holds_state m base sz st → 0 ≤ o → o + Z.of_nat n ≤ sz → mem_read m (base + o) n = Ok (slice st o n).
Proof.
  intros Hm Ho Hn. unfold mem_read.
  assert (Hmap : mapped m (base + o) n = true).
  { apply mapped_spec. intros i Hi. rewrite <-Z.add_assoc, Hm by lia. by eexists. }
  rewrite Hmap. f_equal. unfold aread, slice. apply list_fmap_ext. intros i k Hk.
  apply lookup_seq in Hk as [-> Hk]. unfold aget. rewrite <-Z.add_assoc, Hm by lia. done.
Qed.

Lemma lookup_awrite (m : mem) o l x :
  awrite m o l !! x =
  if (o <=? x) && (x <? o + Z.of_nat (length l)) then Some (nth (Z.to_nat (x - o)) l 0) else m !! x.
Proof.
  revert m o. induction l as [|b l IH]; intros m o; cbn [awrite length].
  { by range_cases. }
  rewrite IH. unfold aset. destruct (decide (o = x)) as [->|Hne].
  - rewrite lookup_insert_eq, Z.sub_diag. by range_cases.
  - rewrite lookup_insert_ne by done. range_cases; try done.
    by replace (Z.to_nat (x - o)) with (S (Z.to_nat (x - (o + 1)))) by lia.
Qed.

(** ** Restored regions *)

(** Ranges are pairs of a start and a length, relative to the structure. *)
Definition in_ranges (rs : list (Z * Z)) (o : Z) : bool :=
  existsb (λ '(lo, n), (lo <=? o) && (o <? lo + n)) rs.

(** [m'] is [m] with the bytes of the ranges, relative to [base], taken from [st]. *)
Definition restored (base : Z) (st : Z → Z) (rs : list (Z * Z)) (m m' : mem) : Prop :=
  ∀ a, m' !! a = if in_ranges rs (a - base) then Some (st (a - base)) else m !! a.

Lemma restored_nil base st m : restored base st [] m m.
Proof. done. Qed.
Lemma restored_app base st rs1 rs2 m1 m2 m3 :
  restored base st rs1 m1 m2 → restored base st rs2 m2 m3 → restored base st (rs1 ++ rs2) m1 m3.
Proof.
  intros H1 H2 a. rewrite H2, H1. unfold in_ranges. rewrite existsb_app.
  by destruct (existsb _ rs1), (existsb _ rs2).
Qed.

Definition within (sz : Z) (rs : list (Z * Z)) : Prop := Forall (λ '(lo, n), 0 ≤ lo ∧ lo + n ≤ sz) rs.

(** Outside the structure nothing changes; inside, a mapped byte stays mapped. *)
Lemma in_ranges_within sz rs o : within sz rs → in_ranges rs o = true → 0 ≤ o < sz.
Proof.
  intros Hw Hi. apply existsb_exists in Hi as ([lo n] & Hin & Hb). unfold within in Hw.
  rewrite Forall_forall in Hw. specialize (Hw _ (proj2 (list_elem_of_In _ _) Hin)). cbn in Hw. lia.
Qed.
Lemma restored_mapped base st rs m m' a : restored base st rs m m' → is_Some (m !! a) → is_Some (m' !! a).
Proof. intros Hr Hm. rewrite Hr. split_if; [by eexists|done]. Qed.

Lemma mem_write_slice base st m o n :
  mapped m (base + o) n = true →
  ∃ m', mem_write m (base + o) (slice st o n) = Ok m' ∧ restored base st [(o, Z.of_nat n)] m m'.
Proof.
  intros Hm. unfold mem_write. rewrite length_slice, Hm. eexists. split; [reflexivity|].
  intros a. rewrite lookup_awrite, length_slice. cbn [in_ranges existsb]. rewrite orb_false_r.
  range_cases; try done. f_equal. rewrite nth_slice by lia. f_equal. lia.
Qed.

(** ** Elements *)

(** Encodings that store whatever they read. *)
Definition plain_info (i : VMStateInfo) : bool :=
  match i with
  | info_int32_equal | info_int32_le | info_uint8_equal | info_uint16_equal | info_uint32_equal
  | info_uint64_equal => false
  | _ => true
  end.

(** The size of an element fits its encoding.  (The size of a bitmap counts bits; bitmaps are not
    in the structure itself, and have a lemma of their own, [bitmap_roundtrip].) *)
Definition info_size (i : VMStateInfo) (size : Z) : Prop :=
  0 ≤ size ∧ i ≠ info_bitmap ∧ match info_width i with Some n => size = Z.of_nat n | None => True end.

(** The stream of an element. *)
Definition enc (i : VMStateInfo) (st : Z → Z) (o size : Z) : list Z :=
  match info_width i, i with
  | Some n, _ => rev (slice st o n)
  | None, info_unused_buffer => replicate (Z.to_nat size) 0
  | None, _ => slice st o (Z.to_nat size)
  end.

(** What it restores. *)
Definition enc_ranges (i : VMStateInfo) (o size : Z) : list (Z * Z) :=
  match i with info_unused_buffer => [] | _ => [(o, size)] end.

(** A [bool] in memory is 0 or 1. *)
Definition bool_state (i : VMStateInfo) (st : Z → Z) (o : Z) : Prop :=
  match i with info_bool => st o = 0 ∨ st o = 1 | _ => True end.

(** Both functions by the width of the encoding. *)
Lemma info_put_eq i size pv m : i ≠ info_bitmap →
  info_put i size pv m =
  match info_width i with
  | Some n => l ← mem_read m pv n; Ok (rev l)
  | None =>
      if size <? 0 then Fault OutOfBounds
      else match i with
           | info_unused_buffer => Ok (replicate (Z.to_nat size) 0)
           | _ => mem_read m pv (Z.to_nat size)
           end
  end.
Proof. by destruct i. Qed.

Lemma info_get_eq i size pv inp m : i ≠ info_bitmap →
  info_get i size pv inp m =
  match info_width i with
  | Some n =>
      let '(l, inp) := qemu_get_bytes n inp in
      match i with
      | info_bool =>
          m ← mem_write m pv [if hd 0 l =? 0 then 0 else 1]; Ok (0, inp, m)
      | info_int32_equal | info_uint8_equal | info_uint16_equal | info_uint32_equal
      | info_uint64_equal =>
          v ← mem_read m pv n;
          Ok (if bool_decide (v = rev l) then 0 else - EINVAL, inp, m)
      | info_int32_le =>
          v ← mem_read m pv 4;
          let loaded := s32 (be_val l) in
          if (0 <=? loaded) && (loaded <=? s32 (le_val v))
          then m ← mem_write m pv (rev l); Ok (0, inp, m)
          else Ok (- EINVAL, inp, m)
      | _ => m ← mem_write m pv (rev l); Ok (0, inp, m)
      end
  | None =>
      if size <? 0 then Fault OutOfBounds
      else
        let '(l, inp) := qemu_get_buffer (Z.to_nat size) inp in
        match i with
        | info_unused_buffer => Ok (0, inp, m)
        | _ => m ← mem_write m pv l; Ok (0, inp, m)
        end
  end.
Proof. destruct i; try done; cbn; unfold get_unused_buffer; by destruct (size <? 0). Qed.

Lemma info_put_enc i m base sz st o size :
  holds_state m base sz st → info_size i size → 0 ≤ o → o + size ≤ sz →
  info_put i size (base + o) m = Ok (enc i st o size).
Proof.
  intros Hm (Hs & Hnb & Hw) Ho Hz. rewrite info_put_eq by done. unfold enc. destruct (info_width i) as [n|] eqn:E.
  - subst size. rewrite (mem_read_state _ _ _ _ _ _ Hm) by lia. done.
  - rewrite (proj2 (Z.ltb_ge _ _)) by lia.
    destruct i; try discriminate E; [|done|done]. apply (mem_read_state _ _ _ _ _ _ Hm); lia.
Qed.

Lemma get_bytes_app l rest : qemu_get_bytes (length l) (l ++ rest) = (l, rest).
Proof. induction l as [|b l IH]; cbn; [done|]. by rewrite IH. Qed.

Lemma get_bytes_rev st o n rest :
  qemu_get_bytes n (rev (slice st o n) ++ rest) = (rev (slice st o n), rest).
Proof. pose proof (get_bytes_app (rev (slice st o n)) rest) as H. by rewrite length_rev, length_slice in H. Qed.

Lemma info_get_enc i m base st o size rest :
  plain_info i = true → info_size i size → bool_state i st o → mapped m (base + o) (Z.to_nat size) = true →
  ∃ m', info_get i size (base + o) (enc i st o size ++ rest) m = Ok (0, rest, m') ∧
        restored base st (enc_ranges i o size) m m'.
Proof.
  intros Hp (Hs & Hnb & Hw) Hb Hm. destruct (mem_write_slice base st m o _ Hm) as (m' & Hwr & Hr).
  rewrite Z2Nat.id in Hr by done. rewrite info_get_eq by done. unfold enc. destruct (info_width i) as [n|] eqn:E.
  - subst size. rewrite get_bytes_rev. rewrite Nat2Z.id in Hwr.
    assert (Hplain : ∃ m', (m0 ← mem_write m (base + o) (rev (rev (slice st o n))); Ok (0, rest, m0)) = Ok (0, rest, m')
              ∧ restored base st [(o, Z.of_nat n)] m m')
      by (exists m'; rewrite rev_involutive, Hwr; done).
    destruct i; try discriminate Hp; try discriminate E; try exact Hplain.
    injection E as <-. exists m'. split; [|done]. cbn [slice rev seq fmap list_fmap app hd] in *.
    rewrite Z.add_0_r in *. destruct Hb as [Hb|Hb]; rewrite Hb in *; cbn in *; by rewrite Hwr.
  - rewrite (proj2 (Z.ltb_ge _ _)) by lia. unfold qemu_get_buffer.
    destruct i; try discriminate E; try done; cbn [enc_ranges].
    + rewrite take_app_length', drop_app_length' by (by rewrite length_slice). rewrite Hwr. by exists m'.
    + rewrite drop_app_length' by (by rewrite length_replicate). by exists m.
Qed.

(** A bitmap is sent word by word, and loaded into any place of the same size. *)
Definition bitmap_enc (st : Z → Z) (o : Z) (n : nat) : list Z := concat ((λ k, rev (slice st (o + 8 * Z.of_nat k) 8)) <$> seq 0 n).
Lemma bitmap_enc_S st o n : bitmap_enc st o (S n) = rev (slice st o 8) ++ bitmap_enc st (o + 8) n.
Proof.
  unfold bitmap_enc. rewrite <-cons_seq, fmap_cons, <-fmap_S_seq, <-list_fmap_compose. cbn [concat]. rewrite Z.mul_0_r, Z.add_0_r.
  f_equal. f_equal. apply list_fmap_ext. intros _ k _. cbn [compose]. do 2 f_equal. lia.
Qed.
Lemma put_bitmap_enc n m base sz st o :
  holds_state m base sz st → 0 ≤ o → o + 8 * Z.of_nat n ≤ sz → put_bitmap_loop n (base + o) m = Ok (bitmap_enc st o n).
Proof.
  intros Hm. revert o. induction n as [|n IH]; intros o Ho Hz; [done|]. cbn [put_bitmap_loop]. unfold put_be.
  rewrite (mem_read_state _ _ _ _ _ _ Hm) by lia. cbn [mbind res_bind]. rewrite <-Z.add_assoc, IH by lia. by rewrite bitmap_enc_S.
Qed.
Lemma get_bitmap_enc n base st o rest m :
  mapped m (base + o) (8 * n) = true →
  ∃ m', get_bitmap_loop n (base + o) (bitmap_enc st o n ++ rest) m = Ok (0, rest, m') ∧
        restored base st ((λ k, (o + 8 * Z.of_nat k, 8)) <$> seq 0 n) m m'.
Proof.
  revert o m. induction n as [|n IH]; intros o m Hm; [by exists m|]. rewrite mapped_spec in Hm. cbn [get_bitmap_loop]. unfold get_be. rewrite bitmap_enc_S, <-app_assoc, get_bytes_rev, rev_involutive.
  destruct (mem_write_slice base st m o 8) as (m1 & E & Hr); [apply mapped_spec; intros i Hi; apply Hm; lia|]. rewrite E. cbn [mbind res_bind].
  rewrite <-Z.add_assoc. destruct (IH (o + 8) m1) as (m2 & E2 & Hr2).
  { apply mapped_spec. intros i Hi. eapply restored_mapped; [done|]. replace (base + (o + 8) + i) with (base + o + (8 + i)) by lia. apply Hm. lia. }
  exists m2. split; [done|]. rewrite <-cons_seq, fmap_cons, <-fmap_S_seq, <-list_fmap_compose. rewrite Z.mul_0_r, Z.add_0_r.
  change (?x :: ?l) with ([x] ++ l). eapply restored_app; [exact Hr|]. erewrite list_fmap_ext; [exact Hr2|]. intros _ k _. cbn [compose]. f_equal. lia.
Qed.
Lemma bitmap_roundtrip m base sz st size o :
  holds_state m base sz st → 0 ≤ size → 0 ≤ o → o + 8 * BITS_TO_U64S size ≤ sz →
  ∃ out, info_put info_bitmap size (base + o) m = Ok out ∧
    ∀ base' m' rest, mapped m' (base' + o) (8 * Z.to_nat (BITS_TO_U64S size)) = true →
      ∃ m'', info_get info_bitmap size (base' + o) (out ++ rest) m' = Ok (0, rest, m'') ∧
        restored base' st ((λ k, (o + 8 * Z.of_nat k, 8)) <$> seq 0 (Z.to_nat (BITS_TO_U64S size))) m' m''.
Proof.
  intros Hm Hs Ho Hz. assert (0 ≤ BITS_TO_U64S size) by (apply Z.div_pos; lia). exists (bitmap_enc st o (Z.to_nat (BITS_TO_U64S size))).
  unfold info_put, info_get. cbn [info_ops vmstate_info_bitmap i_put i_get]. unfold put_bitmap, get_bitmap. rewrite (proj2 (Z.ltb_ge size 0)) by done.
  split; [apply (put_bitmap_enc _ m base sz); [done|done|lia]|]. intros base' m' rest Hm'. by apply get_bitmap_enc.
Qed.

(** ** Fields laid out in the structure itself *)

Definition dynamic_flags : Z :=
  Z.lor VMS_POINTER (Z.lor VMS_ARRAY_OF_POINTER (Z.lor VMS_VARRAY_INT32 (Z.lor VMS_VARRAY_UINT32
    (Z.lor VMS_VARRAY_UINT16 (Z.lor VMS_VARRAY_UINT8 VMS_VBUFFER))))).

(** The number of elements of a field of fixed size. *)
Definition f_count (f : VMStateField) : Z := if tst (f_flags f) VMS_ARRAY then f_num f else 1.

(** The presence test of a field does not look at the state. *)
Definition f_present (f : VMStateField) (version : Z) : bool :=
  match f_exists f with None => true | Some e => e ∅ 0 version end.
Definition exists_static (f : VMStateField) : Prop :=
  match f_exists f with None => True | Some e => ∀ m o v, e m o v = e ∅ 0 v end.

(** A field of fixed size inside a structure of [sz] bytes. *)
Record static_field (sz version : Z) (f : VMStateField) : Prop := {
  sf_flags : tst (f_flags f) dynamic_flags = false;
  sf_exists : exists_static f;
  sf_optional : tst (f_flags f) VMS_MUST_EXIST = false;
  sf_version : f_version_id f ≤ version;
  sf_num : 0 < f_count f;
  sf_offset : 0 ≤ f_offset f;
  sf_size : 0 ≤ f_size f;
  sf_fits : f_offset f + f_size f * f_count f ≤ sz;
}.

(** ... whose elements are encoded by a [VMStateInfo]. *)
Record leaf_field (f : VMStateField) (i : VMStateInfo) : Prop := {
  lf_flags : tst (f_flags f) VMS_STRUCT = false;
  lf_info : f_info f = Some i;
  lf_plain : plain_info i = true;
  lf_width : info_size i (f_size f);
}.

Lemma tst_sub x y m : tst x m = false → Z.land y m = y → tst x y = false.
Proof.
  unfold tst. rewrite !negb_false_iff, !Z.eqb_eq. intros Hx Hy.
  by rewrite <-Hy, (Z.land_comm y), Z.land_assoc, Hx.
Qed.

Lemma s32_id x : 0 ≤ x < 2 ^ 31 → s32 x = x.
Proof. intros. unfold s32. rewrite Z.mod_small; lia. Qed.

(** Without pointers and variable sizes the places of a field do not depend on the memory. *)
Lemma inline_places f opaque m :
  tst (f_flags f) dynamic_flags = false →
  vmstate_size opaque f m = Ok (s32 (f_size f)) ∧ vmstate_n_elems opaque f m = Ok (f_count f) ∧
  tst (f_flags f) VMS_POINTER = false ∧ tst (f_flags f) VMS_ARRAY_OF_POINTER = false.
Proof.
  intros Hd. assert (Ht : ∀ y, Z.land y dynamic_flags = y → tst (f_flags f) y = false)
    by (intros; by eapply (tst_sub _ _ dynamic_flags)).
  unfold vmstate_n_elems, vmstate_size, f_count.
  rewrite (Ht VMS_POINTER), (Ht VMS_ARRAY_OF_POINTER), (Ht VMS_VARRAY_INT32), (Ht VMS_VARRAY_UINT32),
    (Ht VMS_VARRAY_UINT16), (Ht VMS_VARRAY_UINT8), (Ht VMS_VBUFFER) by done.
  repeat split; try done. by destruct (tst _ VMS_ARRAY).
Qed.

Section Static.
Context (sz : Z) (Hsz : sz < 2 ^ 31).

Lemma f_size_bound version f : static_field sz version f → f_size f ≤ sz.
Proof. intros []. nia. Qed.

(** The places are the same on both sides of a migration. *)
Lemma static_places version f opaque m :
  static_field sz version f →
  vmstate_base_addr opaque f m = Ok (opaque + f_offset f) ∧
  vmstate_n_elems opaque f m = Ok (f_count f) ∧
  vmstate_size opaque f m = Ok (f_size f) ∧
  tst (f_flags f) VMS_ARRAY_OF_POINTER = false.
Proof.
  intros Hf. pose proof (f_size_bound _ _ Hf) as Hb. destruct Hf.
  destruct (inline_places f opaque m) as (H1 & H2 & H3 & H4); [done|]. rewrite s32_id in H1 by lia.
  unfold vmstate_base_addr. by rewrite H3.
Qed.

(** The encoding of a field, and what loading it restores. *)
Definition field_enc (f : VMStateField) (i : VMStateInfo) (version : Z) (st : Z → Z) : list Z :=
  if f_present f version then
    concat ((λ k, enc i st (f_offset f + f_size f * k) (f_size f)) <$> seqZ 0 (f_count f))
  else [].
Definition field_ranges (f : VMStateField) (i : VMStateInfo) (version : Z) : list (Z * Z) :=
  if f_present f version then
    concat ((λ k, enc_ranges i (f_offset f + f_size f * k) (f_size f)) <$> seqZ 0 (f_count f))
  else [].

Lemma save_elems_enc n i0 (f : Z → mem → res (list Z * mem)) (e : Z → list Z) m :
  (∀ k, i0 ≤ k < i0 + Z.of_nat n → f k m = Ok (e k, m)) →
  save_elems n i0 f m = Ok (concat (e <$> seqZ i0 (Z.of_nat n)), m).
Proof.
  revert i0. induction n as [|n IH]; intros i0 Hf; [done|].
  cbn [save_elems]. rewrite Hf by lia. cbn [mbind res_bind]. rewrite IH by (intros; apply Hf; lia).
  rewrite (seqZ_cons i0) by lia. cbn. rewrite Nat2Z.inj_succ. by replace (Z.pred (Z.succ (Z.of_nat n))) with (Z.of_nat n) by lia.
Qed.

Lemma load_elems_enc n i0 f (e : Z → list Z) (rs : Z → list (Z * Z)) base st rest m :
  (∀ k m1 rest, i0 ≤ k < i0 + Z.of_nat n → (∀ a, is_Some (m !! a) → is_Some (m1 !! a)) →
    ∃ m2, f k (e k ++ rest) m1 = Ok (0, rest, m2) ∧ restored base st (rs k) m1 m2) →
  ∃ m', load_elems n i0 f (concat (e <$> seqZ i0 (Z.of_nat n)) ++ rest) m = Ok (0, rest, m') ∧
        restored base st (concat (rs <$> seqZ i0 (Z.of_nat n))) m m'.
Proof.
  revert i0 m. induction n as [|n IH]; intros i0 m Hf; [by exists m|].
  rewrite (seqZ_cons i0) by lia. cbn [fmap list_fmap concat].
  replace (Z.pred (Z.of_nat (S n))) with (Z.of_nat n) by lia. rewrite <-app_assoc. cbn [load_elems].
  edestruct (Hf i0 m) as (m1 & -> & H1); [lia|done|]. cbn [mbind res_bind]. cbn.
  destruct (IH (i0 + 1) m1) as (m2 & E2 & H2).
  { intros k m2 rest' Hk Hm. apply Hf; [lia|]. intros a Ha. apply Hm. by eapply restored_mapped. }
  replace (Z.succ i0) with (i0 + 1) by lia. exists m2. split; [exact E2|]. by eapply restored_app.
Qed.

(** The two functions on a field, unfolded. *)
Lemma save_field_eq f version opaque m :
  vmstate_save_field f version opaque m =
  if match f_exists f with None => true | Some e => e m opaque version end then
    base_addr ← vmstate_base_addr opaque f m;
    n_elems ← vmstate_n_elems opaque f m;
    size ← vmstate_size opaque f m;
    save_elems (Z.to_nat n_elems) 0
      (λ i m,
         let addr := base_addr + s32 (size * i) in
         addr ← (if tst (f_flags f) VMS_ARRAY_OF_POINTER then read_ptr m addr else Ok addr);
         if tst (f_flags f) VMS_STRUCT then
           match f_vmsd f with Some v => vmstate_save_state v addr m | None => Fault NullDeref end
         else match f_info f with
              | Some i => l ← info_put i size addr m; Ok (l, m)
              | None => Fault NullDeref
              end) m
  else if tst (f_flags f) VMS_MUST_EXIST then Fault AssertFail
  else Ok ([], m).
Proof. by destruct f. Qed.

Lemma load_field_eq f version opaque inp m :
  vmstate_load_field f version opaque inp m =
  if match f_exists f with Some e => e m opaque version | None => f_version_id f <=? version end then
    base_addr ← vmstate_base_addr opaque f m;
    n_elems ← vmstate_n_elems opaque f m;
    size ← vmstate_size opaque f m;
    load_elems (Z.to_nat n_elems) 0
      (λ i inp m,
         let addr := base_addr + s32 (size * i) in
         addr ← (if tst (f_flags f) VMS_ARRAY_OF_POINTER then read_ptr m addr else Ok addr);
         if tst (f_flags f) VMS_STRUCT then
           match f_vmsd f with
           | Some v => vmstate_load_state v addr (vm_version_id v) inp m
           | None => Fault NullDeref
           end
         else match f_info f with
              | Some i => info_get i size addr inp m
              | None => Fault NullDeref
              end) inp m
  else if tst (f_flags f) VMS_MUST_EXIST then Ok (-1, inp, m)
  else Ok (0, inp, m).
Proof. by destruct f. Qed.

Lemma elem_offset version f k :
  static_field sz version f → 0 ≤ k < f_count f →
  s32 (f_size f * k) = f_size f * k ∧ 0 ≤ f_offset f + f_size f * k ∧
  f_offset f + f_size f * k + f_size f ≤ sz.
Proof.
  intros [] Hk. assert (f_size f * (k + 1) ≤ f_size f * f_count f) by (apply Z.mul_le_mono_nonneg_l; lia).
  rewrite s32_id by nia. nia.
Qed.

Lemma save_field_enc version f i opaque st m :
  static_field sz version f → leaf_field f i → holds_state m opaque sz st →
  vmstate_save_field f version opaque m = Ok (field_enc f i version st, m).
Proof.
  intros Hf [Hl1 Hl2 Hl3 Hl4] Hm. rewrite save_field_eq. unfold field_enc.
  assert (He : match f_exists f with None => true | Some e => e m opaque version end = f_present f version).
  { pose proof (sf_exists _ _ _ Hf) as Hx. unfold exists_static, f_present in *. by destruct (f_exists f). }
  rewrite He. destruct (f_present f version); [|by rewrite (sf_optional _ _ _ Hf)].
  destruct (static_places version f opaque m Hf) as (-> & -> & -> & Hap). cbn [mbind res_bind].
  pose proof (sf_num _ _ _ Hf) as Hn.
  rewrite (save_elems_enc (Z.to_nat (f_count f)) 0 _ (λ k, enc i st (f_offset f + f_size f * k) (f_size f))).
  - by rewrite Z2Nat.id by lia.
  - intros k Hk. rewrite Z2Nat.id in Hk by lia. destruct (elem_offset version f k Hf) as (-> & Ho & Hz); [lia|].
    rewrite Hap, Hl1, Hl2. cbn [mbind res_bind]. rewrite <-Z.add_assoc. by rewrite (info_put_enc _ _ _ _ _ _ _ Hm).
Qed.

Definition bool_field (f : VMStateField) (i : VMStateInfo) (st : Z → Z) : Prop :=
  ∀ k, 0 ≤ k < f_count f → bool_state i st (f_offset f + f_size f * k).

Lemma load_field_enc version f i opaque st m rest :
  static_field sz version f → leaf_field f i → bool_field f i st → mapped m opaque (Z.to_nat sz) = true →
  ∃ m', vmstate_load_field f version opaque (field_enc f i version st ++ rest) m = Ok (0, rest, m') ∧
        restored opaque st (field_ranges f i version) m m'.
Proof.
  intros Hf [Hl1 Hl2 Hl3 Hl4] Hb Hm. rewrite load_field_eq. unfold field_enc, field_ranges.
  assert (He : match f_exists f with Some e => e m opaque version | None => f_version_id f <=? version end =
               f_present f version).
  { pose proof (sf_exists _ _ _ Hf) as Hx. unfold exists_static, f_present in *. destruct (f_exists f); [done|].
    apply Z.leb_le, (sf_version _ _ _ Hf). }
  rewrite He. destruct (f_present f version); [|rewrite (sf_optional _ _ _ Hf); by exists m].
  destruct (static_places version f opaque m Hf) as (-> & -> & -> & Hap). cbn [mbind res_bind].
  pose proof (sf_num _ _ _ Hf) as Hn. rewrite <-(Z2Nat.id (f_count f)) by lia. rewrite Nat2Z.id.
  apply load_elems_enc. intros k m1 rest' Hk Hmm. rewrite Z2Nat.id in Hk by lia.
  destruct (elem_offset version f k Hf) as (-> & Ho & Hz); [lia|].
  rewrite Hap, Hl1, Hl2. cbn [mbind res_bind]. rewrite <-Z.add_assoc. apply info_get_enc; try done.
  - apply Hb. lia.
  - apply mapped_spec. intros j Hj. apply Hmm. rewrite <-Z.add_assoc.
    apply (proj1 (mapped_spec _ _ _) Hm). pose proof (sf_size _ _ _ Hf). lia.
Qed.

(** ** Flat descriptions *)

Definition info_of (f : VMStateField) : VMStateInfo := default info_buffer (f_info f).
Definition fields_of (v : VMStateDescription) : list VMStateField := default [] (vm_fields v).

Definition state_enc (v : VMStateDescription) (st : Z → Z) : list Z :=
  concat ((λ f, field_enc f (info_of f) (vm_version_id v) st) <$> fields_of v).
Definition state_ranges (v : VMStateDescription) : list (Z * Z) :=
  concat ((λ f, field_ranges f (info_of f) (vm_version_id v)) <$> fields_of v).

(** A description without nested structures, pointers or hooks. *)
Record flat (v : VMStateDescription) : Prop := {
  fl_pre_save : vm_pre_save v = None;
  fl_pre_load : vm_pre_load v = None;
  fl_post_load : vm_post_load v = None;
  fl_min : vm_minimum_version_id v ≤ vm_version_id v;
  fl_table : is_Some (vm_fields v);
  fl_fields : Forall (λ f, static_field sz (vm_version_id v) f ∧ leaf_field f (info_of f)) (fields_of v);
}.

Definition bool_fields (v : VMStateDescription) (st : Z → Z) : Prop :=
  Forall (λ f, bool_field f (info_of f) st) (fields_of v).

Lemma save_fields_enc version opaque st m fs :
  Forall (λ f, static_field sz version f ∧ leaf_field f (info_of f)) fs → holds_state m opaque sz st →
  save_list (λ f m, vmstate_save_field f version opaque m) fs m =
  Ok (concat ((λ f, field_enc f (info_of f) version st) <$> fs), m).
Proof.
  intros Hf Hm. induction Hf as [|f fs [H1 H2] _ IH]; [done|]. cbn [save_list].
  rewrite (save_field_enc _ _ _ _ _ _ H1 H2 Hm). cbn [mbind res_bind]. fold (@save_list VMStateField). by rewrite IH.
Qed.

Lemma load_fields_enc version opaque st rest fs m :
  Forall (λ f, static_field sz version f ∧ leaf_field f (info_of f)) fs →
  Forall (λ f, bool_field f (info_of f) st) fs → mapped m opaque (Z.to_nat sz) = true →
  ∃ m', load_list (λ f inp m, vmstate_load_field f version opaque inp m) fs
          (concat ((λ f, field_enc f (info_of f) version st) <$> fs) ++ rest) m = Ok (0, rest, m') ∧
        restored opaque st (concat ((λ f, field_ranges f (info_of f) version) <$> fs)) m m'.
Proof.
  intros Hf. revert m. induction Hf as [|f fs [H1 H2] _ IH]; intros m Hb Hm; [by exists m|].
  apply Forall_cons in Hb as [Hb Hbs]. cbn [fmap list_fmap concat]. rewrite <-app_assoc. cbn [load_list].
  destruct (load_field_enc version f _ opaque st m
    (concat ((λ f, field_enc f (info_of f) version st) <$> fs) ++ rest) H1 H2 Hb Hm) as (m1 & E1 & Hr1).
  rewrite E1. cbn [mbind res_bind].
  change (0 <? 0) with false. cbv iota. destruct (IH m1) as (m2 & E2 & Hr2); [done| |].
  { apply mapped_spec. intros i Hi. eapply restored_mapped; [done|]. by apply (proj1 (mapped_spec _ _ _) Hm). }
  exists m2. split; [exact E2|]. by eapply restored_app.
Qed.

Lemma save_state_eq v opaque m :
  flat v → vmstate_save_state v opaque m =
  '(out, m) ← save_list (λ f m, vmstate_save_field f (vm_version_id v) opaque m) (fields_of v) m;
  '(out', m) ← save_list (λ sub m, vmstate_save_sub sub opaque m) (vm_subsections v) m;
  Ok (out ++ out', m).
Proof.
  intros [H1 H2 H3 H4 [fs H5] H6]. unfold fields_of. destruct v. cbn in *. subst. done.
Qed.

Lemma load_state_eq v opaque inp m :
  flat v → vmstate_load_state v opaque (vm_version_id v) inp m =
  '(ret, inp, m) ← load_list (λ f inp m, vmstate_load_field f (vm_version_id v) opaque inp m) (fields_of v) inp m;
  if ret <? 0 then Ok (ret, inp, m)
  else
    '(ret, inp, m) ←
      subsection_loop (vm_name v)
        (λ idstr inp rest m,
           with_subsection idstr
             (λ sub, let '(b, inp) := qemu_get_bytes 4 rest in
                     vmstate_load_sub sub opaque (u8 (be_val b)) inp m)
             (Ok (- ENOENT, inp, m)) (vm_subsections v))
        (length inp) inp m;
    if negb (ret =? 0) then Ok (ret, inp, m) else Ok (0, inp, m).
Proof.
  intros [H1 H2 H3 H4 [fs H5] H6]. unfold fields_of. destruct v. cbn in *. subst.
  by rewrite Z.ltb_irrefl, (proj2 (Z.ltb_ge _ _) H4).
Qed.

Lemma save_flat v opaque st m :
  flat v → vm_subsections v = [] → holds_state m opaque sz st →
  vmstate_save_state v opaque m = Ok (state_enc v st, m).
Proof.
  intros Hv Hs Hm. rewrite save_state_eq, Hs by done.
  rewrite (save_fields_enc _ _ _ _ _ (fl_fields _ Hv) Hm). cbn. by rewrite app_nil_r.
Qed.

Lemma load_flat v opaque st m rest :
  flat v → vm_subsections v = [] → bool_fields v st → mapped m opaque (Z.to_nat sz) = true →
  peek_subsection (vm_name v) rest = None →
  ∃ m', vmstate_load_state v opaque (vm_version_id v) (state_enc v st ++ rest) m = Ok (0, rest, m') ∧
        restored opaque st (state_ranges v) m m'.
Proof.
  intros Hv Hs Hb Hm Hp. rewrite load_state_eq, Hs by done.
  destruct (load_fields_enc _ opaque st rest _ m (fl_fields _ Hv) Hb Hm) as (m' & E & Hr).
  unfold state_enc. rewrite E. cbn [mbind res_bind]. change (0 <? 0) with false. cbv iota.
  assert (Hl : ∀ F n, subsection_loop (vm_name v) F n rest m' = Ok (0, rest, m'))
    by (intros F [|n]; cbn; by rewrite Hp).
  rewrite Hl. by exists m'.
Qed.

(** ** Subsections *)

(** The name of a subsection: "section/...", short enough for its length byte, without a 0. *)
Record sub_name (section name : string) : Prop := {
  sn_prefix : take (String.length section) (str_bytes name) = str_bytes section;
  sn_longer : (String.length section < String.length name)%nat;
  sn_short : Z.of_nat (String.length name) < 256;
  sn_cstring : cstring (str_bytes name) = str_bytes name;
}.

Lemma length_str_bytes s : length (str_bytes s) = String.length s.
Proof. unfold str_bytes. rewrite length_fmap. induction s; cbn; by f_equal. Qed.

Lemma peek_sub section name body :
  sub_name section name →
  peek_subsection section
    ([QEMU_VM_SUBSECTION; Z.of_nat (String.length name)] ++ str_bytes name ++ body) =
  Some (str_bytes name, body).
Proof.
  intros [Hp Hl Hs Hc]. unfold peek_subsection. cbn [app nth drop].
  change (QEMU_VM_SUBSECTION =? QEMU_VM_SUBSECTION) with true. cbv iota.
  rewrite (u8_small (Z.of_nat (String.length name))) by (unfold fits; lia).
  rewrite (proj2 (Z.ltb_ge _ _)) by lia. rewrite Nat2Z.id, drop_0.
  rewrite take_app_length', drop_app_length' by (by rewrite length_str_bytes).
  rewrite length_str_bytes, Z.eqb_refl. cbn [negb]. rewrite Hc, Hp. by rewrite bool_decide_eq_true_2.
Qed.

(** The output of an optional subsection. *)
Definition sub_enc (sub : VMStateSubsection) (st : Z → Z) : list Z :=
  let v := s_vmsd sub in
  [QEMU_VM_SUBSECTION; Z.of_nat (String.length (vm_name v))] ++ str_bytes (vm_name v) ++
  be_bytes 4 (vm_version_id v) ++ state_enc v st.

(** A subsection that is flat itself. *)
Record flat_sub (section : string) (sub : VMStateSubsection) : Prop := {
  fs_flat : flat (s_vmsd sub);
  fs_leaf : vm_subsections (s_vmsd sub) = [];
  fs_name : sub_name section (vm_name (s_vmsd sub));
  fs_version : fits 8 (vm_version_id (s_vmsd sub));
}.

Lemma save_sub section sub opaque st m :
  flat_sub section sub → holds_state m opaque sz st →
  vmstate_save_sub sub opaque m = Ok (if s_needed sub m opaque then sub_enc sub st else [], m).
Proof.
  intros [Hf Hl Hn Hv] Hm. destruct sub as [v needed]. cbn [vmstate_save_sub s_needed s_vmsd] in *.
  destruct (needed m opaque); [|done]. rewrite (save_flat v opaque st m) by done. cbn [mbind res_bind].
  destruct Hn. unfold sub_enc. cbn [s_vmsd].
  rewrite (u8_small (Z.of_nat (String.length (vm_name v)))) by (unfold fits; lia).
  by rewrite Nat2Z.id, take_ge by (rewrite length_str_bytes; lia).
Qed.

Lemma load_sub section sub opaque st m rest n :
  flat_sub section sub → bool_fields (s_vmsd sub) st → mapped m opaque (Z.to_nat sz) = true →
  peek_subsection section rest = None → peek_subsection (vm_name (s_vmsd sub)) rest = None →
  ∃ m', subsection_loop section
          (λ idstr inp rest m,
             with_subsection idstr
               (λ sub, let '(b, inp) := qemu_get_bytes 4 rest in
                       vmstate_load_sub sub opaque (u8 (be_val b)) inp m)
               (Ok (- ENOENT, inp, m)) [sub]) (S n) (sub_enc sub st ++ rest) m = Ok (0, rest, m') ∧
        restored opaque st (state_ranges (s_vmsd sub)) m m'.
Proof.
  intros [Hf Hl Hn Hv] Hb Hm Hp1 Hp2. unfold sub_enc. rewrite <-!app_assoc. cbn [subsection_loop].
  rewrite peek_sub by done. cbn [with_subsection]. rewrite bool_decide_eq_true_2 by done.
  pose proof (get_bytes_app (be_bytes 4 (vm_version_id (s_vmsd sub))) (state_enc (s_vmsd sub) st ++ rest)) as Hg.
  rewrite length_be_bytes in Hg. rewrite Hg, be_val_be_bytes.
  rewrite (Z.mod_small _ (256 ^ Z.of_nat 4)) by (unfold fits in Hv; lia). rewrite (u8_small _ Hv).
  destruct (load_flat (s_vmsd sub) opaque st m rest) as (m' & E & Hr); [done..|].
  assert (El : vmstate_load_sub sub opaque (vm_version_id (s_vmsd sub)) (state_enc (s_vmsd sub) st ++ rest) m
               = Ok (0, rest, m')) by (destruct sub; exact E).
  rewrite El. cbn [mbind res_bind]. change (negb (0 =? 0)) with false. cbv iota. exists m'. split; [|done].
  destruct n; cbn -[peek_subsection]; by rewrite Hp1.
Qed.

(** migration restores the state: for a flat description with at most one subsection, what
    [vmstate_save_state] writes, [vmstate_load_state] reads back completely (it consumes
    exactly its part of the stream and reports success), restores every described byte (the
    subsection's bytes when the source needed it) in the destination and changes no other byte
    of memory. *)
Theorem vmstate_roundtrip v (sub : option VMStateSubsection) op op' st m m' rest :
  flat v → vm_subsections v = option_list sub →
  (∀ s, sub = Some s → flat_sub (vm_name v) s ∧ bool_fields (s_vmsd s) st ∧
                       peek_subsection (vm_name (s_vmsd s)) rest = None) →
  holds_state m op sz st → bool_fields v st → mapped m' op' (Z.to_nat sz) = true →
  peek_subsection (vm_name v) rest = None →
  ∃ out m2, vmstate_save_state v op m = Ok (out, m) ∧
    vmstate_load_state v op' (vm_version_id v) (out ++ rest) m' = Ok (0, rest, m2) ∧
    restored op' st (state_ranges v ++
      match sub with Some s => if s_needed s m op then state_ranges (s_vmsd s) else [] | None => [] end) m' m2.
Proof.
  intros Hv Hs Hsub Hm Hb Hm' Hp. destruct sub as [s|]; cbn in Hs.
  2:{ destruct (load_flat v op' st m' rest) as (m2 & E & Hr); [done..|].
      exists (state_enc v st), m2. rewrite app_nil_r. split; [by apply save_flat|done]. }
  destruct (Hsub s eq_refl) as (Hf & Hbs & Hps).
  set (tail := if s_needed s m op then sub_enc s st else []).
  assert (Es : vmstate_save_state v op m = Ok (state_enc v st ++ tail, m)).
  { rewrite save_state_eq, Hs by done. rewrite (save_fields_enc _ _ _ _ _ (fl_fields _ Hv) Hm).
    cbn [mbind res_bind save_list]. rewrite (save_sub _ _ _ _ _ Hf Hm). cbn [mbind res_bind]. by rewrite app_nil_r. }
  destruct (load_fields_enc _ op' st (tail ++ rest) _ m' (fl_fields _ Hv) Hb Hm') as (m1 & E1 & Hr1).
  assert (Hm1 : mapped m1 op' (Z.to_nat sz) = true).
  { apply mapped_spec. intros i Hi. eapply restored_mapped; [done|]. by apply (proj1 (mapped_spec _ _ _) Hm'). }
  exists (state_enc v st ++ tail). setoid_rewrite Es. setoid_rewrite load_state_eq; [|done].
  rewrite Hs, <-app_assoc. unfold state_enc. rewrite E1. cbn [mbind res_bind].
  change (0 <? 0) with false. cbv iota. unfold tail. destruct (s_needed s m op).
  - destruct (load_sub (vm_name v) s op' st m1 rest (length (sub_enc s st ++ rest) - 1)) as (m2 & E2 & Hr2); [done..|].
    exists m2. split; [reflexivity|].
    replace (length (sub_enc s st ++ rest)) with (S (length (sub_enc s st ++ rest) - 1))
      by (rewrite length_app; unfold sub_enc; cbn [length app]; lia).
    rewrite E2. split; [done|]. by eapply restored_app.
  - exists m1. split; [reflexivity|]. rewrite app_nil_r. split; [|done].
    cbn [app]. destruct (length rest); cbn -[peek_subsection]; by rewrite Hp.
Qed.
End Static.

(** ** Data that looks like a subsection *)

Definition leaf (name : string) (offset size num flags : Z) (i : VMStateInfo) : VMStateField :=
  mkField name offset size 0 num 0 0 (Some i) flags None 0 None.
Definition table (name : string) (fs : list VMStateField) (subs : list VMStateSubsection)
  : VMStateDescription := mkVMSD name 1 1 1 None None None None (Some fs) subs.

(** A structure "a" of one byte followed by a buffer. *)
Definition nested : VMStateDescription :=
  table "outer"
    [mkField "inner" 0 1 0 0 0 0 None VMS_STRUCT (Some (table "a" [leaf "x" 0 1 0 VMS_SINGLE info_uint8] [])) 0 None;
     leaf "buf" 1 5 0 VMS_BUFFER info_buffer] [].
Definition bytes_at (l : list Z) : mem := awrite ∅ 0 l.

(** the loader cannot tell the data after a nested structure from a subsection of it: a state
    whose buffer happens to start with the marker byte, a length and the structure's name is
    saved, but the very same stream is rejected (ENOENT) when loaded back. *)
Theorem nested_data_rejected :
  let st := [7; QEMU_VM_SUBSECTION; 2; 97; 47; 9] in
  vmstate_save_state nested 0 (bytes_at st) = Ok (st, bytes_at st) ∧
  ∃ inp m, vmstate_load_state nested 0 1 st (bytes_at st) = Ok (- ENOENT, inp, m).
Proof. split; [vm_compute; reflexivity|]. eexists _, _. vm_compute. reflexivity. Qed.

(** ** Witness *)

Definition small_sub : VMStateSubsection :=
  mkSub (table "dev/irq" [leaf "level" 9 1 0 VMS_SINGLE info_bool] []) (λ m o, bool_decide (m !! o = Some 1)).
Definition small : VMStateDescription :=
  table "dev" [leaf "reg" 0 4 0 VMS_SINGLE info_uint32; leaf "arr" 4 2 2 VMS_ARRAY info_uint16;
               leaf "pad" 0 3 0 VMS_BUFFER info_unused_buffer] [small_sub].
Definition small_state : list Z := [1; 2; 3; 4; 5; 6; 7; 8; 9; 1].

Ltac solve_flat :=
  repeat match goal with
  | |- Forall _ (fields_of _) => let l := match goal with |- Forall _ ?l => l end in
      let l' := eval hnf in l in change l with l'
  | |- Forall _ [] => apply Forall_nil
  | |- Forall _ (_ :: _) => apply Forall_cons; split
  | |- _ ∧ _ => split
  | |- flat _ _ => split
  | |- static_field _ _ _ => split
  | |- leaf_field _ _ => split
  | |- sub_name _ _ => split
  | |- info_size _ _ => split
  | |- is_Some _ => by eexists
  end; try done; try (cbn; lia).

Lemma small_sub_flat : flat_sub 10 "dev" small_sub.
Proof. split; solve_flat. Qed.
Lemma small_flat : flat 10 small.
Proof. solve_flat. Qed.

Lemma small_holds : holds_state (bytes_at small_state) 0 10 (λ o, nth (Z.to_nat o) small_state 0).
Proof.
  intros o Ho. unfold bytes_at. rewrite lookup_awrite. change (Z.of_nat (length small_state)) with 10.
  rewrite !Z.add_0_l, Z.sub_0_r, (proj2 (Z.leb_le _ _)), (proj2 (Z.ltb_lt _ _)) by lia. done.
Qed.

Lemma vmstate_roundtrip_witness :
  ∃ out m2, vmstate_save_state small 0 (bytes_at small_state) = Ok (out, bytes_at small_state) ∧
    vmstate_load_state small 0 1 (out ++ [0; 0]) (bytes_at (replicate 10 0)) = Ok (0, [0; 0], m2) ∧
    m2 !! 3 = Some 4 ∧ m2 !! 6 = Some 7 ∧ m2 !! 8 = Some 0 ∧ m2 !! 9 = Some 1.
Proof.
  destruct (vmstate_roundtrip 10 ltac:(lia) small (Some small_sub) 0 0 (λ o, nth (Z.to_nat o) small_state 0)
    (bytes_at small_state) (bytes_at (replicate 10 0)) [0; 0]) as (out & m2 & H1 & H2 & H3).
  - exact small_flat.
  - reflexivity.
  - intros s [= <-]. split; [exact small_sub_flat|]. split; [|reflexivity].
    apply Forall_cons_2; [|by apply Forall_nil]. intros k Hk. change (0 ≤ k < 1) in Hk.
    assert (k = 0) as -> by lia. by right.
  - exact small_holds.
  - apply Forall_cons_2; [done|]. apply Forall_cons_2; [done|]. apply Forall_cons_2; [done|by apply Forall_nil].
  - reflexivity.
  - reflexivity.
  - exists out, m2. split; [exact H1|]. split; [exact H2|].
    rewrite (H3 3), (H3 6), (H3 8), (H3 9). vm_compute. done.
Defined.

End VMState.
