(* ===== verification/Snapshot.v ===== *)
(** Device-state checking by snapshots (DISC): the functions added to qdev.c, and the copies of
    the first two in the harness.  When a checked device is realized its state is copied to a
    snapshot; a nap reset puts the device back to the snapshot except for the fields its
    [VMStateDescription] lists, which keep their current values.  State, snapshot and swap
    space are regions of the flat memory. *)

From S2P Require Import Prelude VMState.
Import VMState.

Module Snapshot.

(** ** Restoring the described fields *)

(** [for (i = 0; i < n_elems; i++)]. *)
Fixpoint copy_elems (n : nat) (i : Z) (f : Z → mem → res mem) (m : mem) : res mem :=
  match n with
  | O => Ok m
  | S n => m ← f i m; copy_elems n (i + 1) f m
  end.

(** [while (field->name) { ...; field++; }]. *)
Definition copy_list {A} (F : A → mem → res mem) : list A → mem → res mem :=
  fix go l m := match l with [] => Ok m | x :: l => m ← F x m; go l m end.

(** Sizes and counts come from the swap space, and only the source follows pointers. *)
Fixpoint device_load_state (vmsd : VMStateDescription) (opaque swapspace : Z) (m : mem) {struct vmsd}
  : res mem :=
  match vm_fields vmsd with
  | None => Fault NullDeref
  | Some fs => copy_list (λ f m, device_load_field f (vm_version_id vmsd) opaque swapspace m) fs m
  end
with device_load_field (f : VMStateField) (version opaque swapspace : Z) (m : mem) {struct f} : res mem :=
  if match f_exists f with None => true | Some e => e m opaque version end then
    let base_addr := opaque + f_offset f in
    let swap_base_addr := swapspace + f_offset f in
    size ← vmstate_size swapspace f m;
    n_elems ← vmstate_n_elems swapspace f m;
    swap_base_addr ←
      (if tst (f_flags f) VMS_POINTER then p ← read_ptr m swap_base_addr; Ok (p + f_start f)
       else Ok swap_base_addr);
    copy_elems (Z.to_nat n_elems) 0
      (λ i m,
         let addr := base_addr + s32 (size * i) in
         let swap_addr := swap_base_addr + s32 (size * i) in
         swap_addr ← (if tst (f_flags f) VMS_ARRAY_OF_POINTER then read_ptr m swap_addr else Ok swap_addr);
         if tst (f_flags f) VMS_STRUCT then
           match f_vmsd f with
           | Some v => device_load_state v addr swap_addr m
           | None => Fault NullDeref
           end
         else memcpy addr swap_addr size m) m
  else Ok m.

(** ** Snapshots *)

Definition MAX_DEV_SNAPSHOTS : Z := 1.

Record dev_snapshots : Type := mkDss {
  devname : option string;
  statesize : Z;
  snapshot : Z;
  swapspace : Z;
  dss_vmsd : option VMStateDescription;
}.

(** The memory, the C heap (the next free address and its limit) and the two globals. *)
Record Disc : Type := mkDisc {
  d_mem : mem;
  d_next : Z;
  d_limit : Z;
  g_dss : list dev_snapshots;
  g_num_dss : Z;
}.
Definition set_mem (m : mem) (d : Disc) : Disc :=
  mkDisc m (d_next d) (d_limit d) (g_dss d) (g_num_dss d).

Definition malloc (n : Z) (d : Disc) : option (Z * Disc) :=
  if d_next d + n <=? d_limit d then
    Some (d_next d, mkDisc (awrite (d_mem d) (d_next d) (replicate (Z.to_nat n) 0)) (d_next d + n) (d_limit d)
                      (g_dss d) (g_num_dss d))
  else None.

(** The search of [device_nap_reset]; [i] counts from 0, and [false] is the message that there is
    no snapshot of that name.  Reading [g_dss] past its end is a fault. *)
Fixpoint nap_loop (n : nat) (name : string) (opaque : Z) (dss : list dev_snapshots) (m : mem)
  : res (bool * mem) :=
  match n with
  | O => Ok (false, m)
  | S n =>
      match dss with
      | [] => Fault OutOfBounds
      | e :: dss =>
          match devname e with
          | None => Fault NullDeref
          | Some dn =>
              if bool_decide (name = dn) then
                m ← memcpy (swapspace e) opaque (statesize e) m;
                m ← memcpy opaque (snapshot e) (statesize e) m;
                match dss_vmsd e with
                | None => Fault NullDeref
                | Some vmsd => m ← device_load_state vmsd opaque (swapspace e) m; Ok (true, m)
                end
              else nap_loop n name opaque dss m
          end
      end
  end.

Definition device_nap_reset (name : string) (opaque : Z) (d : Disc) : res (bool * Disc) :=
  '(found, m) ← nap_loop (Z.to_nat (g_num_dss d)) name opaque (g_dss d) (d_mem d);
  Ok (found, set_mem m d).

Definition flip (dev_name : string) (dev : Z) (d : Disc) : res Disc :=
  '(_, d) ← device_nap_reset dev_name dev d; Ok d.

(** ** Taking snapshots *)

(** What the functions read of a device and its class. *)
Record DeviceClass : Type := mkDC {
  dc_instance_size : Z;
  dc_vmsd : option VMStateDescription;
  dc_vendor_id : Z;
  dc_device_id : Z;
  dc_init : option (Z → Disc → res (Z * Disc));
  dc_exit : option (Z → Disc → res (Z * Disc));
}.
Record DeviceState : Type := mkDev {
  dev_addr : Z;
  dev_class : DeviceClass;
  dev_parent_bus : option string;   (* the name of the bus, if there is one *)
}.

(** The entry [g_dss[g_num_dss]] is stored and the counter advanced. *)
Definition device_snapshot (dev : DeviceState) (d : Disc) : res Disc :=
  let dc := dev_class dev in
  let size := dc_instance_size dc in
  if MAX_DEV_SNAPSHOTS <=? g_num_dss d then Ok d
  else
    match malloc size d with
    | None => Ok d
    | Some (dev_snapshot, d1) =>
        match malloc size d1 with
        | None => Ok d          (* the first block is freed *)
        | Some (swap, d2) =>
            m ← memcpy dev_snapshot (dev_addr dev) size (d_mem d2);
            match dc_vmsd dc with
            | None => Fault NullDeref
            | Some vmsd =>
                let e := mkDss (Some (vm_name vmsd)) size dev_snapshot swap (Some vmsd) in
                Ok (mkDisc m (d_next d2) (d_limit d2)
                      (<[Z.to_nat (g_num_dss d) := e]> (g_dss d2)) (g_num_dss d + 1))
            end
        end
    end.

Definition free_device_snapshot (dev : DeviceState) (d : Disc) : Disc := d.

(** [strncmp(dev->parent_bus->name, "pci", 3) == 0] and the ids of the checked device. *)
Definition device_in_DISC_list (dev : DeviceState) : res bool :=
  match dev_parent_bus dev with
  | None => Fault NullDeref
  | Some bus =>
      Ok (bool_decide (String.substring 0 3 bus = "pci"%string) &&
          ((dc_vendor_id (dev_class dev) =? 0x8086) && (dc_device_id (dev_class dev) =? 0x100e)))
  end.

(** [true] is success; [false] an error set in [err]. *)
Definition device_realize (dev : DeviceState) (d : Disc) : res (bool * Disc) :=
  match dc_init (dev_class dev) with
  | None => Ok (true, d)
  | Some init =>
      '(rc, d) ← init (dev_addr dev) d;
      if rc <? 0 then Ok (false, d)
      else
        listed ← device_in_DISC_list dev;
        if listed : bool then d ← device_snapshot dev d; Ok (true, d) else Ok (true, d)
  end.

Definition device_unrealize (dev : DeviceState) (d : Disc) : res (bool * Disc) :=
  match dc_exit (dev_class dev) with
  | None => Ok (true, d)
  | Some exit =>
      '(rc, d) ← exit (dev_addr dev) d;
      if rc <? 0 then Ok (false, d)
      else
        listed ← device_in_DISC_list dev;
        Ok (true, if listed : bool then free_device_snapshot dev d else d)
  end.

(** ** Finding a device by name *)

(** A bus is the names and addresses of its (up to 256) devices. *)
Definition PCIBus : Type := list (option (string * Z)).

Fixpoint pci_find_root_bus (host_buses : list (Z * PCIBus)) (domain : Z) : option PCIBus :=
  match host_buses with
  | [] => None
  | (dom, bus) :: host_buses => if dom =? domain then Some bus else pci_find_root_bus host_buses domain
  end.

Fixpoint scan_devices (dev_name : string) (devices : PCIBus) (d : Disc) : res Disc :=
  match devices with
  | [] => Ok d
  | Some (name, addr) :: devices =>
      if bool_decide (name = dev_name) then
        '(_, d) ← device_nap_reset name addr d; scan_devices dev_name devices d
      else scan_devices dev_name devices d
  | None :: devices => scan_devices dev_name devices d
  end.

Definition find_device_state_by_name (host_buses : list (Z * PCIBus)) (dev_name : string) (d : Disc)
  : res Disc :=
  match pci_find_root_bus host_buses 0 with
  | None => Ok d
  | Some bus => scan_devices dev_name bus d
  end.

(** ** Induction on descriptions *)

Lemma vmsd_ind2 (P : VMStateDescription → Prop) (Q : VMStateField → Prop) :
  (∀ v, (∀ fs, vm_fields v = Some fs → Forall Q fs) → P v) →
  (∀ f, (∀ v, f_vmsd f = Some v → P v) → Q f) → ∀ v, P v.
Proof.
  intros HP HQ. fix IHv 1 with (IHf (f : VMStateField) : Q f).
  - intros v. apply HP. destruct v as [? ? ? ? ? ? ? ? [fs0|] ?]; cbn; [|intros fs; discriminate].
    assert (Hfs : Forall Q fs0) by (induction fs0 as [|f fs0 IH]; constructor; [apply IHf|exact IH]).
    intros fs [= <-]. exact Hfs.
  - intros f. apply HQ. destruct f as [? ? ? ? ? ? ? ? ? [v|] ? ?]; cbn; [|intros v; discriminate].
    pose proof (IHv v) as Hv. intros v' [= <-]. exact Hv.
Qed.

(** ** What a description covers *)

(** The ranges of the described fields, relative to the start of the device's state. *)
Fixpoint disc_ranges (v : VMStateDescription) (base : Z) {struct v} : list (Z * Z) :=
  match vm_fields v with
  | None => []
  | Some fs => concat ((λ f, disc_field_ranges f (vm_version_id v) base) <$> fs)
  end
with disc_field_ranges (f : VMStateField) (version base : Z) {struct f} : list (Z * Z) :=
  if f_present f version then
    concat ((λ k, let o := base + f_offset f + f_size f * k in
                  if tst (f_flags f) VMS_STRUCT
                  then match f_vmsd f with Some v => disc_ranges v o | None => [] end
                  else [(o, f_size f)]) <$> seqZ 0 (f_count f))
  else [].

(** A field of fixed size whose elements lie inside the state. *)
Record inside (sz base : Z) (f : VMStateField) : Prop := {
  in_flags : tst (f_flags f) dynamic_flags = false;
  in_num : 0 < f_count f;
  in_offset : 0 ≤ base + f_offset f;
  in_size : 0 ≤ f_size f;
  in_fits : base + f_offset f + f_size f * f_count f ≤ sz;
}.

(** A description without pointers or variable sizes, nested structures included. *)
Fixpoint inline (sz : Z) (v : VMStateDescription) (base : Z) {struct v} : Prop :=
  match vm_fields v with
  | None => False
  | Some fs => foldr (λ f P, inline_field sz f (vm_version_id v) base ∧ P) True fs
  end
with inline_field (sz : Z) (f : VMStateField) (version base : Z) {struct f} : Prop :=
  exists_static f ∧
  (f_present f version = true →
   inside sz base f ∧
   (tst (f_flags f) VMS_STRUCT = true →
    match f_vmsd f with
    | Some v => ∀ k, 0 ≤ k < f_count f → inline sz v (base + f_offset f + f_size f * k)
    | None => False
    end)).

Section Nap.
Context (sz op sw : Z) (st : Z → Z).
Context (Hsz : sz < 2 ^ 31) (Hdisj : op + sz ≤ sw ∨ sw + sz ≤ op).

(** The swap space holds the old state and the device's region is mapped. *)
Definition ready (m : mem) : Prop :=
  holds_state m sw sz st ∧ ∀ o, 0 ≤ o < sz → is_Some (m !! (op + o)).

Lemma ready_restored rs m m' : within sz rs → restored op st rs m m' → ready m → ready m'.
Proof.
  intros Hw Hr [Hs Hm]. split.
  - intros o Ho. rewrite Hr. destruct (in_ranges rs (sw + o - op)) eqn:E; [|by apply Hs].
    apply (in_ranges_within _ _ _ Hw) in E. lia.
  - intros o Ho. eapply restored_mapped; [done|]. by apply Hm.
Qed.

Lemma memcpy_swap m o size :
  ready m → 0 ≤ o → 0 ≤ size → o + size ≤ sz →
  ∃ m', memcpy (op + o) (sw + o) size m = Ok m' ∧ restored op st [(o, size)] m m'.
Proof.
  intros [Hs Hm] Ho Hz Hf. unfold memcpy. rewrite (proj2 (Z.ltb_ge _ _)) by lia.
  rewrite (mem_read_state _ _ _ _ _ _ Hs) by lia. cbn [mbind res_bind].
  destruct (mem_write_slice op st m o (Z.to_nat size)) as (m' & E & Hr).
  { apply mapped_spec. intros i Hi. rewrite <-Z.add_assoc. apply Hm. lia. }
  rewrite Z2Nat.id in Hr by done. by exists m'.
Qed.

(** Copying element by element and field by field. *)
Lemma copy_elems_restored n i0 f (rs : Z → list (Z * Z)) m :
  (∀ k m1, i0 ≤ k < i0 + Z.of_nat n → ready m1 →
    within sz (rs k) ∧ ∃ m2, f k m1 = Ok m2 ∧ restored op st (rs k) m1 m2) → ready m →
  within sz (concat (rs <$> seqZ i0 (Z.of_nat n))) ∧
  ∃ m', copy_elems n i0 f m = Ok m' ∧ restored op st (concat (rs <$> seqZ i0 (Z.of_nat n))) m m'.
Proof.
  revert i0 m. induction n as [|n IH]; intros i0 m Hf Hm.
  { split; [by apply Forall_nil|]. by exists m. }
  rewrite (seqZ_cons i0) by lia. cbn [fmap list_fmap concat copy_elems].
  replace (Z.pred (Z.of_nat (S n))) with (Z.of_nat n) by lia. replace (Z.succ i0) with (i0 + 1) by lia.
  destruct (Hf i0 m) as (Hw & m1 & -> & H1); [lia|done|]. cbn [mbind res_bind].
  destruct (IH (i0 + 1) m1) as (Hw2 & m2 & E2 & H2).
  { intros k m2 Hk. apply Hf. lia. }
  { by eapply ready_restored. }
  split; [by apply Forall_app|]. exists m2. split; [exact E2|]. by eapply restored_app.
Qed.

Lemma copy_list_restored {A} (F : A → mem → res mem) (rs : A → list (Z * Z)) l m :
  Forall (λ x, ∀ m1, ready m1 → within sz (rs x) ∧ ∃ m2, F x m1 = Ok m2 ∧ restored op st (rs x) m1 m2) l →
  ready m →
  within sz (concat (rs <$> l)) ∧
  ∃ m', copy_list F l m = Ok m' ∧ restored op st (concat (rs <$> l)) m m'.
Proof.
  intros Hl. revert m. induction Hl as [|x l Hx _ IH]; intros m Hm.
  { split; [by apply Forall_nil|]. by exists m. }
  cbn [fmap list_fmap concat copy_list]. destruct (Hx m Hm) as (Hw & m1 & -> & H1). cbn [mbind res_bind].
  destruct (IH m1) as (Hw2 & m2 & E2 & H2); [by eapply ready_restored|].
  split; [by apply Forall_app|]. exists m2. split; [exact E2|]. by eapply restored_app.
Qed.

Definition loads (v : VMStateDescription) : Prop :=
  ∀ base m, inline sz v base → ready m →
    within sz (disc_ranges v base) ∧
    ∃ m', device_load_state v (op + base) (sw + base) m = Ok m' ∧ restored op st (disc_ranges v base) m m'.

Lemma load_field_unfold f version opaque swap m :
  device_load_field f version opaque swap m =
  if match f_exists f with None => true | Some e => e m opaque version end then
    size ← vmstate_size swap f m;
    n_elems ← vmstate_n_elems swap f m;
    swap_base_addr ←
      (if tst (f_flags f) VMS_POINTER then p ← read_ptr m (swap + f_offset f); Ok (p + f_start f)
       else Ok (swap + f_offset f));
    copy_elems (Z.to_nat n_elems) 0
      (λ i m,
         swap_addr ← (if tst (f_flags f) VMS_ARRAY_OF_POINTER
                      then read_ptr m (swap_base_addr + s32 (size * i))
                      else Ok (swap_base_addr + s32 (size * i)));
         if tst (f_flags f) VMS_STRUCT then
           match f_vmsd f with
           | Some v => device_load_state v (opaque + f_offset f + s32 (size * i)) swap_addr m
           | None => Fault NullDeref
           end
         else memcpy (opaque + f_offset f + s32 (size * i)) swap_addr size m) m
  else Ok m.
Proof. by destruct f. Qed.

Lemma field_ranges_unfold f version base :
  disc_field_ranges f version base =
  if f_present f version then
    concat ((λ k, if tst (f_flags f) VMS_STRUCT
                  then match f_vmsd f with
                       | Some v => disc_ranges v (base + f_offset f + f_size f * k)
                       | None => []
                       end
                  else [(base + f_offset f + f_size f * k, f_size f)]) <$> seqZ 0 (f_count f))
  else [].
Proof. by destruct f. Qed.

Lemma inside_elem f base k :
  inside sz base f → 0 ≤ k < f_count f →
  s32 (f_size f * k) = f_size f * k ∧ 0 ≤ base + f_offset f + f_size f * k ∧
  base + f_offset f + f_size f * k + f_size f ≤ sz.
Proof.
  intros [] Hk. assert (f_size f * (k + 1) ≤ f_size f * f_count f) by (apply Z.mul_le_mono_nonneg_l; lia).
  rewrite s32_id by nia. nia.
Qed.

Lemma inside_places f base opaque m :
  inside sz base f →
  vmstate_size opaque f m = Ok (f_size f) ∧ vmstate_n_elems opaque f m = Ok (f_count f) ∧
  tst (f_flags f) VMS_POINTER = false ∧ tst (f_flags f) VMS_ARRAY_OF_POINTER = false.
Proof.
  intros Hi. destruct (inside_elem f base 0 Hi) as (_ & _ & Hb); [split; [lia|apply Hi]|]. destruct Hi.
  pose proof (inline_places f opaque m in_flags0) as (H1 & H2 & H3 & H4). by rewrite s32_id in H1 by lia.
Qed.

Lemma device_load_field_restored f version base m :
  (∀ v, f_vmsd f = Some v → loads v) → inline_field sz f version base → ready m →
  within sz (disc_field_ranges f version base) ∧
  ∃ m', device_load_field f version (op + base) (sw + base) m = Ok m' ∧
        restored op st (disc_field_ranges f version base) m m'.
Proof.
  intros Hv Hin Hm.
  assert (Hin' : exists_static f ∧ (f_present f version = true → inside sz base f ∧
    (tst (f_flags f) VMS_STRUCT = true →
     match f_vmsd f with
     | Some v => ∀ k, 0 ≤ k < f_count f → inline sz v (base + f_offset f + f_size f * k)
     | None => False
     end))) by (by destruct f). clear Hin. destruct Hin' as [Hex Hin].
  rewrite load_field_unfold, field_ranges_unfold.
  assert (He : match f_exists f with None => true | Some e => e m (op + base) version end = f_present f version).
  { unfold exists_static, f_present in *. by destruct (f_exists f). }
  rewrite He. destruct (f_present f version); [|split; [by apply Forall_nil|by exists m]].
  destruct (Hin eq_refl) as [Hi Hst]. clear Hin He Hex.
  destruct (inside_places f base (sw + base) m Hi) as (-> & -> & Hp & Hap). cbn [mbind res_bind].
  rewrite Hp. cbn [mbind res_bind]. pose proof (in_num _ _ _ Hi) as Hn.
  set (F := λ i m, _). set (rs := λ k : Z, _).
  destruct (copy_elems_restored (Z.to_nat (f_count f)) 0 F rs m) as [Hw He]; [|done|].
  - intros k m1 Hk Hm1. rewrite Z2Nat.id in Hk by lia. unfold F, rs. rewrite Hap. cbn [mbind res_bind].
    destruct (inside_elem f base k Hi ltac:(lia)) as (-> & Ho & Hf).
    replace (op + base + f_offset f + f_size f * k) with (op + (base + f_offset f + f_size f * k)) by lia.
    replace (sw + base + f_offset f + f_size f * k) with (sw + (base + f_offset f + f_size f * k)) by lia.
    destruct (tst (f_flags f) VMS_STRUCT).
    + specialize (Hst eq_refl). destruct (f_vmsd f) as [v|]; [|done]. apply (Hv v eq_refl); [|done]. apply Hst. lia.
    + pose proof (in_size _ _ _ Hi) as Hsize.
      split; [apply Forall_cons; split; [|by apply Forall_nil]; cbn; lia|]. apply memcpy_swap; [done|lia..].
  - rewrite Z2Nat.id in Hw, He by lia. done.
Qed.

Lemma device_load_state_restored v : loads v.
Proof.
  apply (vmsd_ind2 loads (λ f, ∀ version base m, inline_field sz f version base → ready m →
    within sz (disc_field_ranges f version base) ∧
    ∃ m', device_load_field f version (op + base) (sw + base) m = Ok m' ∧
          restored op st (disc_field_ranges f version base) m m')).
  - clear v. intros v Hfs base m Hin Hm. destruct v as [? ver ? ? ? ? ? ? [fs|] ?]; [|done].
    specialize (Hfs fs eq_refl). cbn [device_load_state disc_ranges vm_fields vm_version_id inline] in *.
    apply copy_list_restored; [|done].
    induction Hfs as [|f fs Hf _ IH]; [by apply Forall_nil|]. destruct Hin as [H1 H2].
    apply Forall_cons. split; [|by apply IH]. intros m1 Hm1. by apply Hf.
  - clear v. intros f Hv version base m. by apply device_load_field_restored.
Qed.
End Nap.

(** ** The nap reset *)

Definition apart (a b sz : Z) : Prop := a + sz ≤ b ∨ b + sz ≤ a.
Definition region (m : mem) (a sz : Z) : Prop := ∀ o, 0 ≤ o < sz → is_Some (m !! (a + o)).

(** Entry [e] is the one the search for [name] finds. *)
Definition registered (d : Disc) (name : string) (e : dev_snapshots) : Prop :=
  ∃ pre post, g_dss d = pre ++ e :: post ∧ Z.of_nat (length pre) < g_num_dss d ∧ devname e = Some name ∧
    Forall (λ x, ∃ n, devname x = Some n ∧ n ≠ name) pre.

(** The bytes of a device after a nap reset: those its description covers are the current ones,
    the others those of the snapshot. *)
Definition merge (v : VMStateDescription) (cur snap : Z → Z) (o : Z) : Z :=
  if in_ranges (disc_ranges v 0) o then cur o else snap o.

(** What a nap reset finds in memory. *)
Record napable (d : Disc) (e : dev_snapshots) (op : Z) (v : VMStateDescription) (cur snap : Z → Z) : Prop := {
  np_vmsd : dss_vmsd e = Some v;
  np_size : 0 ≤ statesize e < 2 ^ 31;
  np_cur : holds_state (d_mem d) op (statesize e) cur;
  np_snap : holds_state (d_mem d) (snapshot e) (statesize e) snap;
  np_swap : region (d_mem d) (swapspace e) (statesize e);
  np_op_swap : apart op (swapspace e) (statesize e);
  np_op_snap : apart op (snapshot e) (statesize e);
  np_swap_snap : apart (swapspace e) (snapshot e) (statesize e);
}.

(** What it leaves. *)
Record napped (d d' : Disc) (e : dev_snapshots) (op : Z) (cur new : Z → Z) : Prop := {
  nd_state : holds_state (d_mem d') op (statesize e) new;
  nd_swap : holds_state (d_mem d') (swapspace e) (statesize e) cur;
  nd_rest : ∀ a, ¬ (op ≤ a < op + statesize e) → ¬ (swapspace e ≤ a < swapspace e + statesize e) →
                 d_mem d' !! a = d_mem d !! a;
  nd_table : g_dss d' = g_dss d ∧ g_num_dss d' = g_num_dss d;
}.

Lemma memcpy_state dst src sz st m :
  0 ≤ sz → holds_state m src sz st → region m dst sz →
  ∃ m', memcpy dst src sz m = Ok m' ∧ restored dst st [(0, sz)] m m'.
Proof.
  intros Hsz Hs Hd. unfold memcpy. rewrite (proj2 (Z.ltb_ge _ _)) by lia.
  rewrite <-(Z.add_0_r src), (mem_read_state _ _ _ _ _ _ Hs) by lia. cbn [mbind res_bind].
  destruct (mem_write_slice dst st m 0 (Z.to_nat sz)) as (m' & E & Hr).
  { apply mapped_spec. intros i Hi. rewrite Z.add_0_r. apply Hd. lia. }
  rewrite Z.add_0_r in E. rewrite Z2Nat.id in Hr by done. by exists m'.
Qed.

Lemma restored_whole dst st sz m m' :
  restored dst st [(0, sz)] m m' →
  holds_state m' dst sz st ∧ ∀ a, ¬ (dst ≤ a < dst + sz) → m' !! a = m !! a.
Proof.
  intros Hr. split.
  - intros o Ho. rewrite Hr. replace (dst + o - dst) with o by lia.
    cbn [in_ranges existsb]. rewrite orb_false_r. range_cases; [done|lia..].
  - intros a Ha. rewrite Hr. cbn [in_ranges existsb]. rewrite orb_false_r. by range_cases.
Qed.

Lemma holds_other m m' a b sz st :
  holds_state m a sz st → apart a b sz → (∀ x, ¬ (b ≤ x < b + sz) → m' !! x = m !! x) → holds_state m' a sz st.
Proof. intros Hs Hab Hm o Ho. rewrite Hm by (unfold apart in Hab; lia). by apply Hs. Qed.

Lemma holds_region m a sz st : holds_state m a sz st → region m a sz.
Proof. intros Hs o Ho. rewrite Hs by done. done. Qed.

(** The two copies and the restore, for the entry found. *)
Lemma nap_entry d e op v cur snap :
  inline (statesize e) v 0 → napable d e op v cur snap →
  ∃ m1 m2 m', memcpy (swapspace e) op (statesize e) (d_mem d) = Ok m1 ∧
    memcpy op (snapshot e) (statesize e) m1 = Ok m2 ∧
    device_load_state v op (swapspace e) m2 = Ok m' ∧ napped d (set_mem m' d) e op cur (merge v cur snap).
Proof.
  intros Hin [Hv Hsz Hcur Hsnap Hswap H12 H13 H23]. set (sz := statesize e) in *. set (sw := swapspace e) in *.
  destruct (memcpy_state sw op sz cur (d_mem d)) as (m1 & E1 & [Hsw1 Hf1]%restored_whole); [lia|done..|].
  assert (Hcur1 : holds_state m1 op sz cur) by (eapply holds_other; [exact Hcur|exact H12|done]).
  destruct (memcpy_state op (snapshot e) sz snap m1) as (m2 & E2 & [Hop2 Hf2]%restored_whole).
  { lia. } { eapply holds_other; [exact Hsnap| |exact Hf1]. unfold apart in *. lia. } { by eapply holds_region. }
  assert (Hsw2 : holds_state m2 sw sz cur).
  { eapply holds_other; [exact Hsw1| |exact Hf2]. unfold apart in *. lia. }
  destruct (device_load_state_restored sz op sw cur ltac:(lia) H12 v 0 m2) as (Hw & m3 & E3 & Hr3).
  { done. } { split; [done|by eapply holds_region]. }
  rewrite !Z.add_0_r in E3. exists m1, m2, m3. repeat split; try done; fold sz sw.
  - intros o Ho. cbn [set_mem d_mem]. rewrite Hr3. replace (op + o - op) with o by lia. unfold merge.
    destruct (in_ranges _ o); [done|]. by apply Hop2.
  - intros o Ho. cbn [set_mem d_mem]. rewrite Hr3.
    destruct (in_ranges _ (sw + o - op)) eqn:E; [|by apply Hsw2].
    apply (in_ranges_within _ _ _ Hw) in E. unfold apart in H12. lia.
  - intros a Ha Hb. cbn [set_mem d_mem]. rewrite Hr3. destruct (in_ranges _ (a - op)) eqn:E.
    + apply (in_ranges_within _ _ _ Hw) in E. lia.
    + by rewrite Hf2, Hf1.
Qed.

Lemma nap_loop_found pre e post name op m n v :
  Forall (λ x, ∃ n, devname x = Some n ∧ n ≠ name) pre → devname e = Some name → dss_vmsd e = Some v →
  (length pre < n)%nat →
  nap_loop n name op (pre ++ e :: post) m =
  (m ← memcpy (swapspace e) op (statesize e) m;
   m ← memcpy op (snapshot e) (statesize e) m;
   m ← device_load_state v op (swapspace e) m; Ok (true, m)).
Proof.
  intros Hpre He Hv. revert n. induction Hpre as [|x pre (nm & Hx & Hne) _ IH]; intros [|n] Hn; cbn in Hn; try lia;
    cbn [app nap_loop].
  - rewrite He, bool_decide_eq_true_2, Hv by done. done.
  - rewrite Hx, bool_decide_eq_false_2 by done. apply IH. lia.
Qed.

Lemma nap_reset_registered d name e op v cur snap :
  registered d name e → inline (statesize e) v 0 → napable d e op v cur snap →
  ∃ d', device_nap_reset name op d = Ok (true, d') ∧ napped d d' e op cur (merge v cur snap).
Proof.
  intros (pre & post & Hg & Hlen & He & Hpre) Hin Hn. destruct (nap_entry _ _ _ _ _ _ Hin Hn) as (m1 & m2 & m3 & E1 & E2 & E3 & Hd).
  exists (set_mem m3 d). split; [|done]. unfold device_nap_reset.
  rewrite Hg, (nap_loop_found pre e post name op (d_mem d) _ v) by (first [done|apply Hn|lia]).
  rewrite E1. cbn [mbind res_bind]. rewrite E2. cbn [mbind res_bind]. rewrite E3. done.
Qed.

(** ** Taking the snapshot *)

(** The device was initialised to [st], the table of snapshots is empty and the heap has room for
    two more blocks of its size, away from the device. *)
Record snapshotable (d : Disc) (dev : DeviceState) (v : VMStateDescription) (st : Z → Z) : Prop := {
  ss_vmsd : dc_vmsd (dev_class dev) = Some v;
  ss_size : 0 ≤ dc_instance_size (dev_class dev) < 2 ^ 31;
  ss_inline : inline (dc_instance_size (dev_class dev)) v 0;
  ss_state : holds_state (d_mem d) (dev_addr dev) (dc_instance_size (dev_class dev)) st;
  ss_room : d_next d + 2 * dc_instance_size (dev_class dev) ≤ d_limit d;
  ss_apart : dev_addr dev + dc_instance_size (dev_class dev) ≤ d_next d ∨ d_limit d ≤ dev_addr dev;
  ss_empty : g_num_dss d = 0;
  ss_table : length (g_dss d) = Z.to_nat MAX_DEV_SNAPSHOTS;
}.

(** The entry a snapshot adds. *)
Definition entry_of (d : Disc) (dev : DeviceState) (v : VMStateDescription) : dev_snapshots :=
  let size := dc_instance_size (dev_class dev) in
  mkDss (Some (vm_name v)) size (d_next d) (d_next d + size) (Some v).

Lemma awrite_replicate (m : mem) a n c x :
  awrite m a (replicate n c) !! x = if (a <=? x) && (x <? a + Z.of_nat n) then Some c else m !! x.
Proof.
  rewrite lookup_awrite, length_replicate. range_cases; try done. f_equal.
  rewrite nth_lookup, lookup_replicate_2 by lia. done.
Qed.

Lemma device_snapshot_taken d dev v st :
  snapshotable d dev v st →
  ∃ d', device_snapshot dev d = Ok d' ∧ registered d' (vm_name v) (entry_of d dev v) ∧
        napable d' (entry_of d dev v) (dev_addr dev) v st st.
Proof.
  intros [Hv Hsz Hin Hst Hroom Hap Hn Hlen]. unfold device_snapshot, entry_of.
  set (size := dc_instance_size (dev_class dev)) in *.
  rewrite Hn. change (MAX_DEV_SNAPSHOTS <=? 0) with false. cbn match. unfold malloc at 1.
  rewrite (proj2 (Z.leb_le (d_next d + size) (d_limit d))) by lia. cbn [d_next d_limit d_mem g_dss g_num_dss]. unfold malloc. cbn [d_next d_limit d_mem].
  rewrite (proj2 (Z.leb_le (d_next d + size + size) (d_limit d))) by lia. cbn [d_mem d_next d_limit g_dss g_num_dss].
  set (m2 := awrite (awrite _ _ _) _ _).
  assert (Hm2 : ∀ x, m2 !! x = if (d_next d <=? x) && (x <? d_next d + 2 * size) then Some 0 else d_mem d !! x).
  { intros x. unfold m2. rewrite !awrite_replicate, !Z2Nat.id by lia. range_cases; done || lia. }
  assert (Hst2 : holds_state m2 (dev_addr dev) size st).
  { intros o Ho. rewrite Hm2. range_cases; by apply Hst. }
  destruct (memcpy_state (d_next d) (dev_addr dev) size st m2) as (m3 & E3 & [Hs3 Hf3]%restored_whole).
  { lia. } { done. } { intros o Ho. rewrite Hm2. range_cases; [done|lia..]. }
  rewrite E3. cbn [mbind res_bind]. rewrite Hv. eexists. split; [reflexivity|]. split.
  - destruct (g_dss d) as [|e0 l] eqn:Eg; [done|]. exists [], l. split; [done|]. split; [cbn; lia|]. split; [done|].
    by apply Forall_nil.
  - split; cbn [dss_vmsd statesize snapshot swapspace d_mem]; try done.
    + eapply holds_other; [exact Hst2| |exact Hf3]. unfold apart. lia.
    + intros o Ho. rewrite Hf3 by lia. rewrite Hm2. range_cases; [done|lia..].
    + unfold apart. lia.
    + unfold apart. lia.
    + unfold apart. lia.
Qed.


(** C6: a nap reset of a registered device (the first entry of its name in the table; the device,
    its snapshot and its swap space in memory, apart from each other, of less than 2^31 bytes) whose
    description has no pointer fields, no field outside the structure and no test on the device's
    own bytes ([inline]) ends, and leaves exactly the bytes its description covers, nested
    structures included, at their current values, all its other bytes at the snapshot's, the old
    state in the swap space and every other byte of memory alone. *)
Theorem nap_reset_merges d name e op v cur snap :
  registered d name e → inline (statesize e) v 0 → napable d e op v cur snap →
  ∃ d', device_nap_reset name op d = Ok (true, d') ∧ napped d d' e op cur (merge v cur snap).
Proof. apply nap_reset_registered. Qed.

(** C4: realizing the first checked device, while no snapshot is recorded yet (the table has room for
    one), records the state its initialisation left, when initialisation succeeds, the heap has room
    for two copies of the device away from it, and its description has no pointer fields, no field
    outside the structure and no test on the device's own bytes ([inline]).  A nap reset at any
    later time at which only the device's own bytes have changed, whatever they have become, brings
    it back to that state except for the bytes its description covers. *)
Theorem realize_then_nap dev d d1 init rc v st :
  dc_init (dev_class dev) = Some init → init (dev_addr dev) d = Ok (rc, d1) → 0 ≤ rc →
  device_in_DISC_list dev = Ok true → snapshotable d1 dev v st →
  ∃ d2, device_realize dev d = Ok (true, d2) ∧
    ∀ m cur, holds_state m (dev_addr dev) (dc_instance_size (dev_class dev)) cur →
      (∀ a, ¬ (dev_addr dev ≤ a < dev_addr dev + dc_instance_size (dev_class dev)) → m !! a = d_mem d2 !! a) →
      ∃ d3, device_nap_reset (vm_name v) (dev_addr dev) (set_mem m d2) = Ok (true, d3) ∧
            napped (set_mem m d2) d3 (entry_of d1 dev v) (dev_addr dev) cur (merge v cur st).
Proof.
  intros Hi Hrun Hrc Hl Hs. destruct (device_snapshot_taken _ _ _ _ Hs) as (d2 & E2 & Hreg & Hnap).
  exists d2. split.
  { unfold device_realize. rewrite Hi, Hrun. cbn [mbind res_bind].
    rewrite (proj2 (Z.ltb_ge _ _)), Hl by lia. cbn [mbind res_bind]. by rewrite E2. }
  intros m cur Hcur Hrest. apply nap_reset_registered; [exact Hreg|apply Hs|]. destruct Hnap.
  split; try done; cbn [set_mem d_mem].
  - eapply holds_other; [exact np_snap0| |exact Hrest]. unfold apart in *. cbn in *. lia.
  - intros o Ho. rewrite Hrest; [by apply np_swap0|]. unfold apart in *. cbn in *. lia.
Qed.

(** ** A device of four bytes whose description covers the second and third *)

Definition toy : VMStateDescription := table "toy" [leaf "reg" 1 2 0 VMS_SINGLE info_uint16] [].
Definition toy_class : DeviceClass :=
  mkDC 4 (Some toy) 0x8086 0x100e
    (Some (λ a d, Ok (0, set_mem (awrite (d_mem d) a [1; 2; 3; 4]) d))) None.
Definition toy_dev : DeviceState := mkDev 0 toy_class (Some "pci.0"%string).
Definition toy_disc : Disc := mkDisc (bytes_at [0; 0; 0; 0]) 16 32 [mkDss None 0 0 0 None] 0.
Definition st_of (l : list Z) (o : Z) : Z := nth (Z.to_nat o) l 0.

Lemma toy_inline : inline 4 toy 0.
Proof. split; [|done]. split; [done|]. intros _. split; [split; cbn; solve [done|lia]|]. intros H. discriminate H. Qed.

Lemma holds_bytes l a sz m : sz = Z.of_nat (length l) → aread m a (length l) = l → mapped m a (length l) = true →
  holds_state m a sz (st_of l).
Proof.
  intros -> Hr Hm o Ho. unfold st_of. assert (Hk : (Z.to_nat o < length l)%nat) by lia.
  destruct (proj1 (mapped_spec m a (length l)) Hm o Ho) as [x Hx]. rewrite Hx. f_equal.
  rewrite <-Hr. unfold aread. rewrite nth_lookup, list_lookup_fmap, lookup_seq_lt by lia. cbn.
  unfold aget. rewrite Z2Nat.id by lia. by rewrite Hx.
Qed.
Lemma aread_state m a n st : holds_state m a (Z.of_nat n) st → aread m a n = slice st 0 n.
Proof.
  intros Hs. unfold aread, slice. apply list_fmap_ext. intros i k [-> Hk]%lookup_seq. unfold aget.
  rewrite Hs by lia. done.
Qed.
Local Ltac holds_now := apply holds_bytes; reflexivity.

Definition napped_toy : Disc :=
  mkDisc (awrite (awrite (awrite ∅ 0 [9; 8; 7; 6]) 16 [1; 2; 3; 4]) 20 [0; 0; 0; 0]) 24 32
    [mkDss (Some "toy"%string) 4 16 20 (Some toy)] 1.

Lemma nap_reset_merges_witness :
  ∃ d', device_nap_reset "toy" 0 napped_toy = Ok (true, d') ∧
        aread (d_mem d') 0 4 = [1; 8; 7; 4] ∧ aread (d_mem d') 20 4 = [9; 8; 7; 6].
Proof.
  destruct (nap_reset_merges napped_toy "toy" (mkDss (Some "toy"%string) 4 16 20 (Some toy)) 0 toy
    (st_of [9; 8; 7; 6]) (st_of [1; 2; 3; 4])) as (d' & E & Hd).
  - exists [], []. split; [done|]. split; [cbn; lia|]. split; [done|by apply Forall_nil].
  - exact toy_inline.
  - split; cbn [dss_vmsd statesize swapspace snapshot]; try done; try (unfold apart; lia).
    + holds_now.
    + holds_now.
    + apply (holds_region _ _ _ (st_of [0; 0; 0; 0])). holds_now.
  - exists d'. split; [exact E|]. destruct Hd as [H1 H2 _ _]. cbn [statesize swapspace] in *.
    rewrite (aread_state _ _ 4 _ H1), (aread_state _ _ 4 _ H2). split; reflexivity.
Defined.

Lemma realize_then_nap_witness :
  ∃ d2 d3, device_realize toy_dev toy_disc = Ok (true, d2) ∧
    device_nap_reset "toy" 0 (set_mem (awrite (d_mem d2) 0 [9; 8; 7; 6]) d2) = Ok (true, d3) ∧
    aread (d_mem d3) 0 4 = [1; 8; 7; 4].
Proof.
  destruct (realize_then_nap toy_dev toy_disc
    (set_mem (awrite (d_mem toy_disc) 0 [1; 2; 3; 4]) toy_disc)
    (λ a d, Ok (0, set_mem (awrite (d_mem d) a [1; 2; 3; 4]) d)) 0 toy (st_of [1; 2; 3; 4])) as (d2 & E2 & Hnap).
  - reflexivity.
  - reflexivity.
  - lia.
  - reflexivity.
  - split; cbn; try done; try lia; try exact toy_inline. holds_now.
  - destruct (Hnap (awrite (d_mem d2) 0 [9; 8; 7; 6]) (st_of [9; 8; 7; 6])) as (d3 & E3 & Hd3).
    + intros o Ho. cbn in Ho. rewrite lookup_awrite. cbn [dev_addr toy_dev length]. range_cases; [|lia..].
      unfold st_of. do 2 f_equal. lia.
    + intros a Ha. cbn in Ha. rewrite lookup_awrite. cbn [length]. range_cases; done || lia.
    + exists d2, d3. split; [exact E2|]. split; [exact E3|]. destruct Hd3 as [H1 _ _ _]. 
      change 0 with (dev_addr toy_dev) at 1. rewrite (aread_state _ _ 4 _ H1). reflexivity.
Defined.

(** ** What the reset does not keep *)

(** A field behind a pointer: only the source follows it, so that the pointed-to bytes overwrite
    the device's own (here the pointer itself). *)
Definition pointy : VMStateDescription :=
  table "toy" [leaf "p" 0 8 0 (Z.lor VMS_SINGLE VMS_POINTER) info_uint64] [].
Definition pointy_disc : Disc :=
  mkDisc (awrite (awrite (awrite (awrite ∅ 0 [64; 0; 0; 0; 0; 0; 0; 0]) 64 (replicate 8 5)) 16
            [64; 0; 0; 0; 0; 0; 0; 0]) 24 (replicate 8 0)) 32 32
    [mkDss (Some "toy"%string) 8 16 24 (Some pointy)] 1.
Lemma nap_reset_pointer_lost :
  ∃ d', device_nap_reset "toy" 0 pointy_disc = Ok (true, d') ∧ aread (d_mem pointy_disc) 0 8 = [64; 0; 0; 0; 0; 0; 0; 0] ∧
        aread (d_mem d') 0 8 = replicate 8 5.
Proof. eexists. vm_compute. done. Qed.

(** The fields of a subsection, which a migration carries, go back to the snapshot. *)
Definition with_sub : VMStateDescription :=
  table "toy" [leaf "reg" 1 2 0 VMS_SINGLE info_uint16]
    [mkSub (table "toy/sub" [leaf "level" 3 1 0 VMS_SINGLE info_uint8] []) (λ _ _, true)].
Lemma nap_reset_subsection_lost :
  let m := d_mem napped_toy in
  vmstate_save_state with_sub 0 m = Ok ([7; 8; QEMU_VM_SUBSECTION; 7] ++ str_bytes "toy/sub" ++ [0; 0; 0; 1; 6], m) ∧
  ∃ d', device_nap_reset "toy" 0 (mkDisc m 24 32 [mkDss (Some "toy"%string) 4 16 20 (Some with_sub)] 1) = Ok (true, d') ∧
        aread (d_mem d') 0 4 = [1; 8; 7; 4].
Proof. split; [vm_compute; reflexivity|]. eexists. vm_compute. done. Qed.

End Snapshot.
