(* ===== verification/E1000Vmsd.v ===== *)
(** The description of the e1000's state: the layout of [struct E1000State] (e1000.c), the tables
    [vmstate_e1000], [vmstate_e1000_mit_state] and [vmstate_pci_device], and exactly which bytes of
    the device a nap reset keeps. *)

From S2P Require Import Prelude Regs Lifecycle VMState Snapshot.
Import VMState Snapshot.

Module E1000Vmsd.

(** ** Structure layout *)

(** A member is a name, a size and an alignment; members are placed in order at the next aligned
    offset. *)
Definition align_up (a x : Z) : Z := (x + a - 1) / a * a.

Fixpoint struct_layout (pos : Z) (ms : list (string * Z * Z)) : list (string * Z * Z) :=
  match ms with
  | [] => []
  | (name, size, align) :: ms =>
      let o := align_up align pos in (name, o, size) :: struct_layout (o + size) ms
  end.

Fixpoint offset_in (name : string) (l : list (string * Z * Z)) : option (Z * Z) :=
  match l with
  | [] => None
  | (n, o, size) :: l => if bool_decide (n = name) then Some (o, size) else offset_in name l
  end.

(** The types of other headers that the structure embeds, and the members of [PCIDevice] its
    description names: their sizes and offsets depend on the target. *)
Record Abi : Type := mkAbi {
  sizeof_PCIDevice : Z;
  sizeof_NICConf : Z;
  sizeof_MemoryRegion : Z;
  off_version_id : Z;
  off_config : Z;
  off_irq_state : Z;
}.

(** The members after [io], whose types are e1000.c's own; [tx] and [eecd_state] are flattened, both
    being aligned to 4 bytes like their first multi-byte member. *)
Definition own_members : list (string * Z * Z) :=
  [("mac_reg", 4 * 0x8000, 4); ("phy_reg", 2 * 0x20, 2); ("eeprom_data", 2 * 64, 2);
   ("rxbuf_size", 4, 4); ("rxbuf_min_shift", 4, 4);
   ("tx.header", 256, 4); ("tx.vlan_header", 4, 1); ("tx.vlan", 4, 1); ("tx.data", 0x10000, 1);
   ("tx.size", 2, 2); ("tx.sum_needed", 1, 1); ("tx.vlan_needed", 1, 1);
   ("tx.ipcss", 1, 1); ("tx.ipcso", 1, 1); ("tx.ipcse", 2, 2);
   ("tx.tucss", 1, 1); ("tx.tucso", 1, 1); ("tx.tucse", 2, 2);
   ("tx.hdr_len", 1, 1); ("tx.mss", 2, 2); ("tx.paylen", 4, 4); ("tx.tso_frames", 2, 2);
   ("tx.tse", 1, 1); ("tx.ip", 1, 1); ("tx.tcp", 1, 1); ("tx.cptse", 1, 1);
   ("eecd_state.val_in", 4, 4); ("eecd_state.bitnum_in", 2, 2); ("eecd_state.bitnum_out", 2, 2);
   ("eecd_state.reading", 2, 2); ("eecd_state.old_eecd", 4, 4);
   ("autoneg_timer", 8, 8); ("mit_timer", 8, 8); ("mit_timer_on", 1, 1); ("mit_irq_level", 1, 1);
   ("mit_ide", 4, 4); ("compat_flags", 4, 4)]%string.

Definition E1000State_members (A : Abi) : list (string * Z * Z) :=
  [("parent_obj", sizeof_PCIDevice A, 8); ("nic", 8, 8); ("conf", sizeof_NICConf A, 8);
   ("mmio", sizeof_MemoryRegion A, 8); ("io", sizeof_MemoryRegion A, 8)]%string ++ own_members.

Definition offsetof (A : Abi) (name : string) : Z :=
  default 0 (fst <$> offset_in name (struct_layout 0 (E1000State_members A))).

Definition sizeof_E1000State (A : Abi) : Z :=
  align_up 8 (foldl (λ _ '(_, o, size), o + size) 0 (struct_layout 0 (E1000State_members A))).

(** ** Tables *)

Section Tables.
(** [offsetof(E1000State, member)]. *)
Context (off : string → Z).

Definition VMSTATE_SINGLE (name : string) (size : Z) (i : VMStateInfo) : VMStateField :=
  mkField name (off name) size 0 0 0 0 (Some i) VMS_SINGLE None 0 None.
Definition VMSTATE_UINT8 name := VMSTATE_SINGLE name 1 info_uint8.
Definition VMSTATE_INT8 name := VMSTATE_SINGLE name 1 info_int8.
Definition VMSTATE_BOOL name := VMSTATE_SINGLE name 1 info_bool.
Definition VMSTATE_UINT16 name := VMSTATE_SINGLE name 2 info_uint16.
Definition VMSTATE_UINT32 name := VMSTATE_SINGLE name 4 info_uint32.
(** [VMSTATE_UINT32(mac_reg[r], E1000State)]. *)
Definition VMSTATE_REG (r : Z) : VMStateField :=
  mkField "mac_reg" (off "mac_reg" + 4 * r) 4 0 0 0 0 (Some info_uint32) VMS_SINGLE None 0 None.
Definition VMSTATE_UINT32_SUB_ARRAY (start num : Z) : VMStateField :=
  mkField "mac_reg" (off "mac_reg" + 4 * start) 4 0 num 0 0 (Some info_uint32) VMS_ARRAY None 0 None.
Definition VMSTATE_UINT16_ARRAY (name : string) (num : Z) : VMStateField :=
  mkField name (off name) 2 0 num 0 0 (Some info_uint16) VMS_ARRAY None 0 None.
Definition VMSTATE_BUFFER (name : string) (size : Z) : VMStateField :=
  mkField name (off name) size 0 0 0 0 (Some info_buffer) VMS_BUFFER None 0 None.
(** No offset is given, so it is 0. *)
Definition VMSTATE_UNUSED_TEST (test : option (mem → Z → Z → bool)) (size : Z) : VMStateField :=
  mkField "unused" 0 size 0 0 0 0 (Some info_unused_buffer) VMS_BUFFER None 0 test.
Definition VMSTATE_UNUSED (size : Z) : VMStateField := VMSTATE_UNUSED_TEST None size.
(** The infos of the configuration space and of the interrupt pins work on more than the field;
    a nap reset does not call them. *)
Definition VMSTATE_BUFFER_UNSAFE_INFO (name : string) (offset version size : Z) : VMStateField :=
  mkField name offset size 0 0 0 0 None VMS_BUFFER None version None.

Definition PCI_CONFIG_SPACE_SIZE : Z := 0x100.
Definition PCI_NUM_PINS : Z := 4.

Definition vmstate_pci_device (A : Abi) : VMStateDescription :=
  mkVMSD "PCIDevice" 2 1 1 None None None None
    (Some [mkField "version_id" (off_version_id A) 4 0 0 0 0 (Some info_int32_le) VMS_SINGLE None 0 None;
           VMSTATE_BUFFER_UNSAFE_INFO "config" (off_config A) 0 PCI_CONFIG_SPACE_SIZE;
           VMSTATE_BUFFER_UNSAFE_INFO "irq_state" (off_irq_state A) 2 (PCI_NUM_PINS * 4)]) [].

Definition VMSTATE_PCI_DEVICE (A : Abi) (vmstate_pci_device : VMStateDescription) : VMStateField :=
  mkField "parent_obj" (off "parent_obj") (sizeof_PCIDevice A) 0 0 0 0 None VMS_STRUCT
    (Some vmstate_pci_device) 0 None.

Definition vmstate_e1000_mit_state : VMStateDescription :=
  mkVMSD "e1000/mit_state" 1 1 1 None None None None
    (Some [VMSTATE_REG RDTR; VMSTATE_REG RADV; VMSTATE_REG TADV; VMSTATE_REG ITR;
           VMSTATE_BOOL "mit_irq_level"]) [].

(** The registers listed one by one, in the order of the table. *)
Definition saved_regs : list Z :=
  [CTRL; EECD; EERD; GPRC; GPTC; ICR; ICS; IMC; IMS; LEDCTL; MANC; MDIC; MPC; PBA; RCTL;
   RDBAH; RDBAL; RDH; RDLEN; RDT; STATUS; SWSM; TCTL; TDBAH; TDBAL; TDH; TDLEN; TDT;
   TORH; TORL; TOTH; TOTL; TPR; TPT; TXDCTL; WUFC; VET].

Definition is_version_1 (_ : mem) (_ : Z) (version_id : Z) : bool := version_id =? 1.

Definition e1000_scalars : list VMStateField :=
  [VMSTATE_UINT32 "rxbuf_size"; VMSTATE_UINT32 "rxbuf_min_shift";
   VMSTATE_UINT32 "eecd_state.val_in"; VMSTATE_UINT16 "eecd_state.bitnum_in";
   VMSTATE_UINT16 "eecd_state.bitnum_out"; VMSTATE_UINT16 "eecd_state.reading";
   VMSTATE_UINT32 "eecd_state.old_eecd";
   VMSTATE_UINT8 "tx.ipcss"; VMSTATE_UINT8 "tx.ipcso"; VMSTATE_UINT16 "tx.ipcse";
   VMSTATE_UINT8 "tx.tucss"; VMSTATE_UINT8 "tx.tucso"; VMSTATE_UINT16 "tx.tucse";
   VMSTATE_UINT32 "tx.paylen"; VMSTATE_UINT8 "tx.hdr_len"; VMSTATE_UINT16 "tx.mss";
   VMSTATE_UINT16 "tx.size"; VMSTATE_UINT16 "tx.tso_frames"; VMSTATE_UINT8 "tx.sum_needed";
   VMSTATE_INT8 "tx.ip"; VMSTATE_INT8 "tx.tcp";
   VMSTATE_BUFFER "tx.header" 256; VMSTATE_BUFFER "tx.data" 0x10000;
   VMSTATE_UINT16_ARRAY "eeprom_data" 64; VMSTATE_UINT16_ARRAY "phy_reg" 0x20]%string.

Definition e1000_arrays : list VMStateField :=
  [VMSTATE_UINT32_SUB_ARRAY RA 32; VMSTATE_UINT32_SUB_ARRAY MTA 128; VMSTATE_UINT32_SUB_ARRAY VFTA 128].
End Tables.

(** The description of the PCI part is the one linked with the device.  The save and load hooks
    work on the device's own state (Lifecycle) and are arguments here. *)
Definition vmstate_e1000 (A : Abi) (pci : VMStateDescription) (pre_save : mem → Z → res mem)
    (post_load : mem → Z → Z → res (Z * mem)) (mit_state_needed : mem → Z → bool) : VMStateDescription :=
  mkVMSD "e1000" 2 1 1 None None (Some post_load) (Some pre_save)
    (Some ([VMSTATE_PCI_DEVICE (offsetof A) A pci;
            VMSTATE_UNUSED_TEST (Some is_version_1) 4; VMSTATE_UNUSED 4] ++
           e1000_scalars (offsetof A) ++
           (VMSTATE_REG (offsetof A) <$> saved_regs) ++
           e1000_arrays (offsetof A)))
    [mkSub (vmstate_e1000_mit_state (offsetof A)) mit_state_needed].

(** ** Offsets *)

Ltac div_lia := Z.to_euclidean_division_equations; lia.

(** What the layout needs of the target. *)
Record abi_ok (A : Abi) : Prop := {
  abi_pci : 4 ≤ sizeof_PCIDevice A ∧ sizeof_PCIDevice A mod 8 = 0;
  abi_conf : 0 ≤ sizeof_NICConf A ∧ sizeof_NICConf A mod 8 = 0;
  abi_region : 0 ≤ sizeof_MemoryRegion A ∧ sizeof_MemoryRegion A mod 8 = 0;
  abi_version_id : 0 ≤ off_version_id A ∧ off_version_id A + 4 ≤ sizeof_PCIDevice A;
  abi_config : 0 ≤ off_config A ∧ off_config A + PCI_CONFIG_SPACE_SIZE ≤ sizeof_PCIDevice A;
  abi_irq_state : 0 ≤ off_irq_state A ∧ off_irq_state A + PCI_NUM_PINS * 4 ≤ sizeof_PCIDevice A;
  abi_small : sizeof_PCIDevice A + sizeof_NICConf A + 2 * sizeof_MemoryRegion A ≤ 2 ^ 30;
}.

(** The start of the members of e1000.c's own types, and their offsets from there. *)
Definition own_base (A : Abi) : Z := sizeof_PCIDevice A + 8 + sizeof_NICConf A + 2 * sizeof_MemoryRegion A.
Definition own_layout : list (string * Z * Z) := struct_layout 0 own_members.
Definition own_off (name : string) : Z := default 0 (fst <$> offset_in name own_layout).
Definition own_size : Z := 197152.

Definition shift3 (b : Z) : string * Z * Z → string * Z * Z := λ '(n, o, size), (n, b + o, size).

Lemma align_up_id a x : 0 < a → x mod a = 0 → align_up a x = x.
Proof. unfold align_up. intros Ha Hx. apply Z.mod_divide in Hx as [q ->]; [|lia].
  replace (q * a + a - 1) with (a - 1 + q * a) by lia. rewrite Z.div_add, Z.div_small by lia. lia.
Qed.

Lemma align_up_shift b a x : 0 < a → b mod a = 0 → align_up a (b + x) = b + align_up a x.
Proof.
  unfold align_up. intros Ha Hb. apply Z.mod_divide in Hb as [q ->]; [|lia].
  replace (q * a + x + a - 1) with (x + a - 1 + q * a) by lia. rewrite Z.div_add by lia. lia.
Qed.

Definition align_ok (m : string * Z * Z) : bool := (0 <? m.2) && (8 mod m.2 =? 0).

Lemma align_ok_mod m b : align_ok m = true → b mod 8 = 0 → 0 < m.2 ∧ b mod m.2 = 0.
Proof.
  unfold align_ok. intros [H0 H8]%andb_true_iff Hb. apply Z.ltb_lt in H0. apply Z.eqb_eq in H8. split; [done|].
  apply Z.mod_divide in Hb; [|lia]. apply Z.mod_divide in H8; [|lia]. apply Z.mod_divide; [lia|].
  by transitivity 8.
Qed.

Lemma struct_layout_shift b pos ms :
  b mod 8 = 0 → forallb align_ok ms = true → struct_layout (b + pos) ms = shift3 b <$> struct_layout pos ms.
Proof.
  intros Hb. revert pos. induction ms as [|[[n size] a] ms IH]; intros pos Hms; [done|]. cbn [forallb] in Hms.
  apply andb_true_iff in Hms as [Ha Hms]. destruct (align_ok_mod _ _ Ha Hb) as [H0 Hm]. cbn [snd] in *.
  cbn [struct_layout fmap list_fmap shift3]. rewrite align_up_shift by done. f_equal. rewrite <-Z.add_assoc. by apply IH.
Qed.

Section Offsets.
Context (A : Abi) (HA : abi_ok A).

Lemma own_base_aligned : own_base A mod 8 = 0.
Proof. destruct HA as [[_ H1] [_ H2] [_ H3] _ _ _ _]. unfold own_base. div_lia. Qed.

Lemma layout_eq :
  struct_layout 0 (E1000State_members A) =
  [("parent_obj"%string, 0, sizeof_PCIDevice A); ("nic"%string, sizeof_PCIDevice A, 8);
   ("conf"%string, sizeof_PCIDevice A + 8, sizeof_NICConf A);
   ("mmio"%string, sizeof_PCIDevice A + 8 + sizeof_NICConf A, sizeof_MemoryRegion A);
   ("io"%string, sizeof_PCIDevice A + 8 + sizeof_NICConf A + sizeof_MemoryRegion A, sizeof_MemoryRegion A)]
  ++ (shift3 (own_base A) <$> own_layout).
Proof.
  pose proof own_base_aligned as Hb. destruct HA as [[_ H1] [_ H2] [_ H3] _ _ _ _].
  unfold own_layout. rewrite <-struct_layout_shift by done. unfold E1000State_members.
  generalize own_members. intros ms. unfold own_base. cbn [app struct_layout].
  rewrite (align_up_id 8 0), Z.add_0_l, (align_up_id 8 (sizeof_PCIDevice A)) by (done || lia).
  rewrite (align_up_id 8 (sizeof_PCIDevice A + 8)) by div_lia.
  rewrite (align_up_id 8 (sizeof_PCIDevice A + 8 + sizeof_NICConf A)) by div_lia.
  rewrite (align_up_id 8 (sizeof_PCIDevice A + 8 + sizeof_NICConf A + sizeof_MemoryRegion A)) by div_lia.
  do 5 f_equal. f_equal. lia.
Qed.

Definition head_member (name : string) : bool :=
  bool_decide (name ∈ ["parent_obj"; "nic"; "conf"; "mmio"; "io"]%string).

Lemma offset_in_shift b name l :
  offset_in name (shift3 b <$> l) = (λ '(o, size), (b + o, size)) <$> offset_in name l.
Proof.
  induction l as [|[[n o] size] l IH]; [done|]. cbn [fmap list_fmap shift3 offset_in].
  by destruct (bool_decide (n = name)).
Qed.

Lemma offset_in_own name :
  head_member name = false →
  offset_in name (struct_layout 0 (E1000State_members A)) =
  (λ '(o, size), (own_base A + o, size)) <$> offset_in name own_layout.
Proof.
  intros Hn. apply bool_decide_eq_false in Hn. rewrite layout_eq, <-offset_in_shift. generalize (shift3 (own_base A) <$> own_layout).
  intros l. cbn [app offset_in]. rewrite !bool_decide_eq_false_2 by (intros <-; apply Hn; set_solver). done.
Qed.

Lemma offsetof_own name :
  head_member name = false → is_Some (offset_in name own_layout) → offsetof A name = own_base A + own_off name.
Proof. intros Hn [[o size] Ho]. unfold offsetof, own_off. by rewrite offset_in_own, Ho. Qed.

Lemma sizeof_eq : sizeof_E1000State A = own_base A + own_size.
Proof.
  unfold sizeof_E1000State. rewrite layout_eq. rewrite foldl_app.
  assert (Hf : ∀ x, foldl (λ _ '(_, o, size), o + size) x (shift3 (own_base A) <$> own_layout) = own_base A + 197148).
  { intros x. let l := eval vm_compute in own_layout in change own_layout with l. cbn [fmap list_fmap shift3 foldl]. lia. }
  rewrite Hf. by rewrite align_up_shift by (lia || apply own_base_aligned).
Qed.
End Offsets.

(** ** What the tables cover *)

Definition own_fields (off : string → Z) : list VMStateField :=
  e1000_scalars off ++ (VMSTATE_REG off <$> saved_regs) ++ e1000_arrays off.

Definition span (f : VMStateField) : Z * Z := (f_offset f, f_size f * f_count f).
Definition shift2 (b : Z) : Z * Z → Z * Z := λ '(o, n), (b + o, n).
Definition own_spans : list (Z * Z) := span <$> own_fields own_off.

(** A field without structure, pointers or test. *)
Definition plain_field (f : VMStateField) : bool :=
  negb (tst (f_flags f) VMS_STRUCT) && negb (tst (f_flags f) dynamic_flags) &&
  match f_exists f with None => true | Some _ => false end && (0 <? f_size f) && (0 <? f_count f).

Lemma in_ranges_app l1 l2 x : in_ranges (l1 ++ l2) x = in_ranges l1 x || in_ranges l2 x.
Proof. apply existsb_app. Qed.

Lemma in_ranges_concat ls x : in_ranges (concat ls) x = existsb (λ l, in_ranges l x) ls.
Proof. induction ls as [|l ls IH]; [done|]. cbn [concat existsb]. by rewrite in_ranges_app, IH. Qed.

Lemma in_ranges_shift b l x : in_ranges (shift2 b <$> l) x = in_ranges l (x - b).
Proof.
  induction l as [|[o n] l IH]; [done|]. cbn [fmap list_fmap shift2]. unfold in_ranges in *. cbn [existsb].
  rewrite IH. f_equal. range_cases; done || lia.
Qed.

Lemma in_array o size (n : nat) x :
  0 < size → in_ranges (concat ((λ k, [(o + size * k, size)]) <$> seqZ 0 (Z.of_nat n))) x =
             in_ranges [(o, size * Z.of_nat n)] x.
Proof.
  intros Hs. induction n as [|n IH].
  { cbn. range_cases; done || lia. }
  rewrite seqZ_S, fmap_app, concat_app, in_ranges_app, IH by lia. rewrite Nat2Z.inj_succ.
  cbn [fmap list_fmap concat app in_ranges existsb]. rewrite !orb_false_r. range_cases; done || nia.
Qed.

Lemma in_span f version x :
  plain_field f = true → in_ranges (disc_field_ranges f version 0) x = in_ranges [span f] x.
Proof.
  unfold plain_field. intros [[[[H1 H2]%andb_true_iff H3]%andb_true_iff H4]%andb_true_iff H5]%andb_true_iff.
  apply negb_true_iff in H1. apply Z.ltb_lt in H4, H5. rewrite field_ranges_unfold, H1. unfold f_present.
  destruct (f_exists f); [done|]. rewrite <-(Z2Nat.id (f_count f)) at 1 by lia. rewrite Z.add_0_l.
  rewrite in_array by done. by rewrite Z2Nat.id by lia.
Qed.

Lemma in_spans fs version x :
  forallb plain_field fs = true →
  in_ranges (concat ((λ f, disc_field_ranges f version 0) <$> fs)) x = in_ranges (span <$> fs) x.
Proof.
  induction fs as [|f fs IH]; [done|]. cbn [forallb]. intros [Hf Hfs]%andb_true_iff.
  cbn [fmap list_fmap concat]. rewrite in_ranges_app, IH, in_span by done. cbn [in_ranges existsb]. by rewrite orb_false_r.
Qed.

(** A range that lies in one of [l], or apart from all of them. *)
Definition range_class (l : list (Z * Z)) (o n : Z) : option bool :=
  if existsb (λ '(lo, k), (lo <=? o) && (o + n <=? lo + k)) l then Some true
  else if forallb (λ '(lo, k), (o + n <=? lo) || (lo + k <=? o)) l then Some false else None.

Lemma range_class_spec l o n b x : range_class l o n = Some b → o ≤ x < o + n → in_ranges l x = b.
Proof.
  unfold range_class. destruct (existsb _ l) eqn:E; [intros [= <-]|destruct (forallb _ l) eqn:E2; [intros [= <-]|done]]; intros Hx.
  - apply existsb_exists in E as ([lo k] & Hin & Hb). apply existsb_exists. exists (lo, k). split; [done|]. lia.
  - apply not_true_is_false. intros ([lo k] & Hin & Hb)%existsb_exists. rewrite forallb_forall in E2.
    specialize (E2 _ Hin). cbn in E2. lia.
Qed.

(** The specification: the registers and the members that keep their values. *)
Definition kept_reg (i : Z) : bool :=
  existsb (Z.eqb i) saved_regs ||
  ((RA <=? i) && (i <? RA + 32) || (MTA <=? i) && (i <? MTA + 128) || (VFTA <=? i) && (i <? VFTA + 128)).
(** The registers a load of the device stores are those of the table. *)
Lemma migrated_regs_table i : bool_decide (i ∈ Lifecycle.migrated_regs) = kept_reg i.
Proof.
  unfold Lifecycle.migrated_regs, kept_reg. apply eq_true_iff_eq. rewrite bool_decide_eq_true.
  fold saved_regs. rewrite !elem_of_app, !elem_of_seqZ, orb_true_iff, existsb_exists.
  setoid_rewrite <-list_elem_of_In. setoid_rewrite Z.eqb_eq. rewrite !orb_true_iff, !andb_true_iff, !Z.leb_le, !Z.ltb_lt.
  assert (He : (∃ x, x ∈ saved_regs ∧ i = x) ↔ i ∈ saved_regs) by naive_solver. rewrite He. tauto.
Qed.
Definition kept_member (name : string) : bool := bool_decide (name ∈ (f_name <$> e1000_scalars own_off)).
(** In the PCI part: the version, 256 bytes from the pointer to the configuration space, 16 from the
    interrupt levels, and the four of the entry that is no longer used. *)
Definition head_ranges (A : Abi) : list (Z * Z) :=
  [(off_version_id A, 4); (off_config A, PCI_CONFIG_SPACE_SIZE); (off_irq_state A, PCI_NUM_PINS * 4); (0, 4)].

Lemma in_regs off rs i b :
  0 ≤ b < 4 → off "mac_reg"%string = 0 →
  in_ranges (span <$> (VMSTATE_REG off <$> rs)) (4 * i + b) = existsb (Z.eqb i) rs.
Proof.
  intros Hb Ho. induction rs as [|r rs IH]; [done|]. cbn [fmap list_fmap]. unfold in_ranges in *. cbn [existsb]. rewrite IH.
  f_equal. unfold span, f_count. cbn [VMSTATE_REG f_offset f_size f_flags]. change (tst VMS_SINGLE VMS_ARRAY) with false. cbn match.
  rewrite Ho. destruct (Z.eqb_spec i r); range_cases; done || lia.
Qed.

Lemma own_covers_reg i b : 0 ≤ i < 0x8000 → 0 ≤ b < 4 → in_ranges own_spans (4 * i + b) = kept_reg i.
Proof.
  intros Hi Hb. unfold own_spans, own_fields. rewrite !fmap_app, !in_ranges_app, in_regs by done.
  rewrite (range_class_spec _ 0 (4 * 0x8000) false) by (first [vm_compute; reflexivity|lia]). unfold kept_reg. cbn [orb]. f_equal.
  unfold e1000_arrays, span. cbn [fmap list_fmap in_ranges existsb VMSTATE_UINT32_SUB_ARRAY f_offset f_size f_count f_num f_flags].
  change (own_off "mac_reg") with 0. unfold f_count. cbn [VMSTATE_UINT32_SUB_ARRAY f_flags f_num]. change (tst VMS_ARRAY VMS_ARRAY) with true. cbn match.
  generalize RA, MTA, VFTA. intros a c d. rewrite orb_false_r, <-orb_assoc.
  apply (f_equal2 orb); [|apply (f_equal2 orb)]. all: range_cases; done || lia.
Qed.

Lemma own_covers_member name o size b :
  offset_in name own_layout = Some (o, size) → name ≠ "mac_reg"%string → 0 ≤ b < size →
  in_ranges own_spans (o + b) = kept_member name.
Proof.
  intros Ho Hn Hb. apply (range_class_spec _ o size); [|lia].
  assert (Hall : forallb (λ '(n, o, size), bool_decide (n = "mac_reg"%string) ||
    bool_decide (range_class own_spans o size = Some (kept_member n))) own_layout = true) by (vm_compute; reflexivity).
  revert Ho Hall. generalize own_layout. intros l. induction l as [|[[n o'] size'] l IH]; [done|].
  cbn [offset_in forallb]. intros Ho [H1 H2]%andb_true_iff. destruct (bool_decide (n = name)) eqn:E; [|by apply IH].
  apply bool_decide_eq_true in E as ->. injection Ho as -> ->. rewrite bool_decide_eq_false_2 in H1 by done.
  by apply bool_decide_eq_true in H1.
Qed.

Lemma own_offset_pos name o size : offset_in name own_layout = Some (o, size) → 0 ≤ o.
Proof.
  assert (Hall : forallb (λ '(_, o, _), 0 <=? o) own_layout = true) by (vm_compute; reflexivity).
  revert Hall. generalize own_layout. intros l. induction l as [|[[n o'] size'] l IH]; [done|]. cbn [forallb offset_in].
  intros [H1 H2]%andb_true_iff. destruct (bool_decide _); [intros [= <- <-]; lia|by apply IH].
Qed.

Section Covered.
Context (A : Abi) (HA : abi_ok A).
Context (pre_save : mem → Z → res mem) (post_load : mem → Z → Z → res (Z * mem)) (needed : mem → Z → bool).

Definition the_vmsd : VMStateDescription := vmstate_e1000 A (vmstate_pci_device A) pre_save post_load needed.

Lemma offsetof_parent : offsetof A "parent_obj" = 0.
Proof. unfold offsetof. rewrite (layout_eq A HA). generalize (shift3 (own_base A) <$> own_layout). reflexivity. Qed.

Definition own_names : list string := "mac_reg"%string :: (f_name <$> e1000_scalars own_off).

Lemma own_names_ok name : name ∈ own_names → offsetof A name = own_base A + own_off name.
Proof.
  assert (Hall : forallb (λ n, negb (head_member n) && bool_decide (is_Some (offset_in n own_layout))) own_names = true)
    by (vm_compute; reflexivity).
  intros Hin%list_elem_of_In. rewrite forallb_forall in Hall. specialize (Hall _ Hin).
  apply andb_true_iff in Hall as [H1%negb_true_iff H2%bool_decide_eq_true]. apply (offsetof_own A HA _ H1 H2).
Qed.

Lemma spans_shift : span <$> own_fields (offsetof A) = shift2 (own_base A) <$> own_spans.
Proof.
  assert (Hm : offsetof A "mac_reg" = own_base A + own_off "mac_reg") by (apply own_names_ok; by left).
  assert (Hs : span <$> e1000_scalars (offsetof A) = shift2 (own_base A) <$> (span <$> e1000_scalars own_off)).
  { pose proof own_names_ok as Hn. unfold own_names in Hn.
    unfold e1000_scalars, VMSTATE_UINT8, VMSTATE_INT8, VMSTATE_UINT16, VMSTATE_UINT32 in *.
    cbn [fmap list_fmap f_name VMSTATE_SINGLE VMSTATE_BUFFER VMSTATE_UINT16_ARRAY] in *.
    unfold span, f_count. cbn [shift2 f_offset f_size f_flags f_num VMSTATE_SINGLE VMSTATE_BUFFER VMSTATE_UINT16_ARRAY].
    repeat match goal with |- context [offsetof A ?n] => rewrite (Hn n) by (repeat first [apply list_elem_of_here|apply list_elem_of_further]) end. reflexivity. }
  unfold own_spans, own_fields. rewrite !fmap_app, Hs. apply (f_equal2 app eq_refl), (f_equal2 app).
  - rewrite <-!list_fmap_compose. apply list_fmap_ext. intros _ r _. unfold span, f_count.
    cbn [compose VMSTATE_REG f_offset f_size f_flags f_num shift2]. rewrite Hm. f_equal. lia.
  - unfold e1000_arrays. cbn [fmap list_fmap]. unfold span, f_count.
    cbn [VMSTATE_UINT32_SUB_ARRAY f_offset f_size f_flags f_num shift2]. rewrite Hm, <-!Z.add_assoc. reflexivity.
Qed.

Lemma own_plain : forallb plain_field (own_fields (offsetof A)) = true.
Proof. generalize (offsetof A). intros off. vm_compute. reflexivity. Qed.

Lemma e1000_ranges x :
  in_ranges (disc_ranges the_vmsd 0) x = in_ranges (head_ranges A) x || in_ranges own_spans (x - own_base A).
Proof.
  unfold the_vmsd, vmstate_e1000. cbn [disc_ranges vm_fields vm_version_id]. rewrite fmap_app, concat_app, in_ranges_app.
  fold (own_fields (offsetof A)). rewrite (in_spans _ _ _ own_plain), spans_shift, in_ranges_shift. f_equal.
  cbn [fmap list_fmap concat]. unfold VMSTATE_PCI_DEVICE. rewrite offsetof_parent.
  set (base := 0 + 0 + sizeof_PCIDevice A * 0).
  transitivity (in_ranges [(base + off_version_id A + 4 * 0, 4);
    (base + off_config A + PCI_CONFIG_SPACE_SIZE * 0, PCI_CONFIG_SPACE_SIZE);
    (base + off_irq_state A + PCI_NUM_PINS * 4 * 0, PCI_NUM_PINS * 4); (0, 4)] x); [reflexivity|].
  assert (base = 0) as -> by lia. unfold head_ranges, in_ranges. by rewrite !Z.mul_0_r, !Z.add_0_r, !Z.add_0_l.
Qed.

Lemma head_below x : in_ranges (head_ranges A) x = true → x < sizeof_PCIDevice A.
Proof. destruct HA. cbn. rewrite orb_false_r. lia. Qed.

Lemma own_spans_pos x : in_ranges own_spans x = true → 0 ≤ x < own_size.
Proof.
  assert (Hw : forallb (λ '(lo, n), (0 <=? lo) && (lo + n <=? own_size)) own_spans = true) by (vm_compute; reflexivity).
  intros ([lo n] & Hin & Hb)%existsb_exists. rewrite forallb_forall in Hw. specialize (Hw _ Hin). cbn in Hw. lia.
Qed.

Lemma own_base_ge : sizeof_PCIDevice A + 8 ≤ own_base A.
Proof. destruct HA. unfold own_base. lia. Qed.

Lemma above_head x : sizeof_PCIDevice A ≤ x → in_ranges (head_ranges A) x = false.
Proof. intros Hx. apply not_true_is_false. intros H%head_below. lia. Qed.

(** Every register and every member is kept as a whole or not at all. *)
Lemma e1000_covers_reg i b :
  0 ≤ i < 0x8000 → 0 ≤ b < 4 →
  in_ranges (disc_ranges the_vmsd 0) (offsetof A "mac_reg" + 4 * i + b) = kept_reg i.
Proof.
  intros Hi Hb. rewrite e1000_ranges, (own_names_ok "mac_reg") by (by left). change (own_off "mac_reg") with 0.
  pose proof own_base_ge. rewrite above_head by lia. cbn [orb]. rewrite <-(own_covers_reg i b) by lia. f_equal. lia.
Qed.

Lemma e1000_covers_member name o size b :
  offset_in name (struct_layout 0 (E1000State_members A)) = Some (o, size) →
  name ∉ ["parent_obj"; "mac_reg"]%string → 0 ≤ b < size →
  in_ranges (disc_ranges the_vmsd 0) (o + b) = kept_member name.
Proof.
  intros Ho Hn Hb. rewrite e1000_ranges. pose proof own_base_ge as Hob. destruct (head_member name) eqn:Eh.
  - assert (sizeof_PCIDevice A ≤ o ∧ o + size ≤ own_base A ∧ kept_member name = false) as (H1 & H2 & ->).
    { destruct HA. rewrite (layout_eq A HA) in Ho. revert Ho. generalize (shift3 (own_base A) <$> own_layout). intros tl Ho. unfold own_base. apply bool_decide_eq_true in Eh.
      assert (name = "nic"%string ∨ name = "conf"%string ∨ name = "mmio"%string ∨ name = "io"%string) as [->|[->|[->| ->]]] by set_solver;
        cbn in Ho; injection Ho as <- <-; split_and!; try lia; reflexivity. }
    rewrite above_head by lia. apply not_true_is_false. intros Hx%own_spans_pos. lia.
  - rewrite (offset_in_own A HA _ Eh) in Ho. destruct (offset_in name own_layout) as [[o' size']|] eqn:E; [|done].
    injection Ho as <- <-. pose proof E as Hpos. rewrite above_head.
    + cbn [orb]. rewrite <-(own_covers_member _ _ _ _ E) by set_solver. f_equal. lia.
    + assert (0 ≤ o') by (eapply own_offset_pos; exact E). lia.
Qed.
End Covered.

Lemma member_inside (A : Abi) (HA : abi_ok A) name o size :
  offset_in name (struct_layout 0 (E1000State_members A)) = Some (o, size) → 0 ≤ o ∧ o + size ≤ sizeof_E1000State A.
Proof.
  rewrite (layout_eq A HA), (sizeof_eq A HA). assert (Hall : Forall (λ '(_, o, size), 0 ≤ o ∧ o + size ≤ own_size) own_layout).
  { assert (Hb : forallb (λ '(_, o, size), (0 <=? o) && (o + size <=? own_size)) own_layout = true) by (vm_compute; reflexivity).
    apply Forall_forall. intros [[n o'] sz'] Hin%list_elem_of_In. rewrite forallb_forall in Hb. specialize (Hb _ Hin). cbn in Hb. lia. }
  revert Hall. generalize own_layout. intros l Hall. destruct HA as [H1 H2 H3 _ _ _ _].
  assert (Hs : 0 ≤ own_size) by done. revert Hs Hall. generalize own_size. intros os Hs Hall.
  cbn [app offset_in]. unfold own_base. repeat (destruct (bool_decide _); [intros [= <- <-]; lia|]).
  induction Hall as [|[[n o'] sz'] l [Ho' Hsz'] _ IH]; [done|]. cbn [fmap list_fmap shift3 offset_in].
  destruct (bool_decide _); [intros [= <- <-]; lia|exact IH].
Qed.

(** ** The nap reset of an e1000 *)

Lemma inline_field_unfold sz f version base :
  inline_field sz f version base =
  (exists_static f ∧
   (f_present f version = true →
    inside sz base f ∧
    (tst (f_flags f) VMS_STRUCT = true →
     match f_vmsd f with
     | Some v => ∀ k, 0 ≤ k < f_count f → inline sz v (base + f_offset f + f_size f * k)
     | None => False
     end))).
Proof. by destruct f. Qed.

Lemma inline_fields sz fs version base :
  Forall (λ f, inline_field sz f version base) fs → foldr (λ f P, inline_field sz f version base ∧ P) True fs.
Proof. induction 1; by split. Qed.

Lemma plain_inline sz f version base :
  plain_field f = true → 0 ≤ base + f_offset f → base + (f_offset f + f_size f * f_count f) ≤ sz →
  inline_field sz f version base.
Proof.
  unfold plain_field. intros [[[[H1 H2]%andb_true_iff H3]%andb_true_iff H4]%andb_true_iff H5]%andb_true_iff Ho Hf.
  apply negb_true_iff in H1, H2. apply Z.ltb_lt in H4, H5. rewrite inline_field_unfold. unfold exists_static.
  destruct (f_exists f); [done|]. split; [done|]. intros _. split; [split; done || lia|]. rewrite H1. done.
Qed.

Ltac field_lia :=
  unfold f_count, VMSTATE_BUFFER_UNSAFE_INFO, VMSTATE_UNUSED, VMSTATE_UNUSED_TEST, PCI_CONFIG_SPACE_SIZE, PCI_NUM_PINS in *;
  cbn [f_offset f_size f_flags f_num];
  change (tst VMS_SINGLE VMS_ARRAY) with false; change (tst VMS_BUFFER VMS_ARRAY) with false; lia.

Section Nap.
Context (A : Abi) (HA : abi_ok A).
Context (pre_save : mem → Z → res mem) (post_load : mem → Z → Z → res (Z * mem)) (needed : mem → Z → bool).

Lemma own_inline version :
  Forall (λ f, inline_field (sizeof_E1000State A) f version 0) (own_fields (offsetof A)).
Proof.
  apply Forall_forall. intros f Hf. pose proof (own_plain A) as Hp. rewrite forallb_forall in Hp.
  apply plain_inline; [by apply Hp, list_elem_of_In|..].
  all: assert (Hs : span f ∈ shift2 (own_base A) <$> own_spans) by (rewrite <-(spans_shift A HA); by apply list_elem_of_fmap_2).
  all: apply list_elem_of_fmap in Hs as ([lo n] & [= Ho Hn] & Hin).
  all: assert (Hw : forallb (λ '(lo, n), (0 <=? lo) && (lo + n <=? own_size)) own_spans = true) by (vm_compute; reflexivity).
  all: rewrite forallb_forall in Hw; apply list_elem_of_In in Hin; specialize (Hw _ Hin); cbn in Hw.
  all: pose proof (own_base_ge A HA); pose proof (abi_pci A HA); rewrite ?(sizeof_eq A HA); lia.
Qed.

Lemma e1000_inline : inline (sizeof_E1000State A) (the_vmsd A pre_save post_load needed) 0.
Proof.
  unfold the_vmsd, vmstate_e1000. cbn [inline vm_fields vm_version_id]. apply inline_fields. apply Forall_app.
  split; [|exact (own_inline 2)]. pose proof (own_base_ge A HA) as Hb. pose proof (sizeof_eq A HA) as Hsz. unfold own_size in Hsz.
  destruct HA as [H1 H2 H3 H4 H5 H6 H7]. unfold PCI_CONFIG_SPACE_SIZE, PCI_NUM_PINS in *.
  unfold VMSTATE_PCI_DEVICE. rewrite (offsetof_parent A HA).
  apply Forall_cons_2; [|apply Forall_cons_2; [|apply Forall_cons_2; [|by apply Forall_nil]]].
  - rewrite inline_field_unfold. split; [done|]. intros _. split.
    { split; unfold f_count; cbn [f_flags f_offset f_size f_num]; try done; change (tst VMS_STRUCT VMS_ARRAY) with false; lia. }
    intros _. cbn [f_vmsd f_offset f_size]. intros k Hk. assert (k = 0) as ->.
    { change (0 ≤ k < 1) in Hk. lia. }
    apply inline_fields. repeat (apply Forall_cons_2); [..|by apply Forall_nil]; apply plain_inline; try done; field_lia.
  - rewrite inline_field_unfold. split; [done|]. discriminate 1.
  - apply plain_inline; [done|done|]. change (0 + (0 + 4 * 1) ≤ sizeof_E1000State A). lia.
Qed.

(** C5: a nap reset of an e1000, on any target whose structure sizes fit, keeps whole registers and
    whole members: a register of [mac_reg] keeps its value exactly if the table lists it (so that
    the interrupt-mitigation registers of the subsection go back to the snapshot), any other
    member of [E1000State] exactly if the table names it (so that [tx.tse], [tx.cptse],
    [tx.vlan_needed] and the timers go back), and of the PCI part 256 bytes of the structure are
    kept from the pointer to the configuration space on. *)
Theorem nap_reset_e1000 d name e op cur snap :
  registered d name e → statesize e = sizeof_E1000State A →
  napable d e op (vmstate_e1000 A (vmstate_pci_device A) pre_save post_load needed) cur snap →
  ∃ d', device_nap_reset name op d = Ok (true, d') ∧
    (∀ i b, 0 ≤ i < 0x8000 → 0 ≤ b < 4 →
       let o := offsetof A "mac_reg" + 4 * i + b in
       d_mem d' !! (op + o) = Some (if kept_reg i then cur o else snap o)) ∧
    (∀ member o size b,
       offset_in member (struct_layout 0 (E1000State_members A)) = Some (o, size) →
       member ∉ ["parent_obj"; "mac_reg"]%string → 0 ≤ b < size →
       d_mem d' !! (op + (o + b)) = Some (if kept_member member then cur (o + b) else snap (o + b))) ∧
    (∀ b, 0 ≤ b < sizeof_PCIDevice A →
       d_mem d' !! (op + b) = Some (if in_ranges (head_ranges A) b then cur b else snap b)).
Proof.
  intros Hr Hsz Hn. destruct (nap_reset_registered _ _ _ _ _ _ _ Hr ltac:(rewrite Hsz; exact e1000_inline) Hn)
    as (d' & E & Hd). exists d'. split; [exact E|]. destruct Hd as [Hd _ _ _]. rewrite Hsz in Hd.
  pose proof (own_base_ge A HA) as Hb. pose proof (sizeof_eq A HA) as Hsize. unfold own_size in Hsize.
  pose proof (abi_pci A HA) as Hp. fold (the_vmsd A pre_save post_load needed) in Hd. unfold merge in Hd. split_and!.
  - intros i b Hi Hb4 o. assert (Ho : o = own_base A + (4 * i + b)).
    { unfold o. rewrite (own_names_ok A HA "mac_reg") by (by left). change (own_off "mac_reg") with 0. lia. }
    rewrite Hd by lia. unfold o at 1. by rewrite (e1000_covers_reg A HA).
  - intros member o size b Hin Hne Hb'. pose proof (member_inside A HA _ _ _ Hin) as [Hlo Hhi]. rewrite Hd by lia.
    by rewrite (e1000_covers_member A HA _ _ _ _ _ _ _ Hin Hne Hb').
  - intros b Hb'. rewrite Hd by lia. rewrite (e1000_ranges A HA).
    replace (in_ranges own_spans (b - own_base A)) with false; [by rewrite orb_false_r|].
    symmetry. apply not_true_is_false. intros Hx%own_spans_pos. lia.
Qed.
End Nap.

(** ** Witness: a device full of 1s, a snapshot full of 2s *)

Definition abi64 : Abi := mkAbi 1024 64 200 800 200 700.
Definition abi64_size : Z := 198648.
Definition abi64_vmsd : VMStateDescription :=
  vmstate_e1000 abi64 (vmstate_pci_device abi64) (λ m _, Ok m) (λ m _ _, Ok (0, m)) (λ _ _, false).
Definition abi64_entry : dev_snapshots := mkDss (Some "e1000"%string) abi64_size 0x100000 0x200000 (Some abi64_vmsd).
Definition abi64_disc : Disc :=
  let block a c m := awrite m a (replicate (Z.to_nat abi64_size) c) in
  mkDisc (block 0 1 (block 0x100000 2 (block 0x200000 3 ∅))) 0x300000 0x300000 [abi64_entry] 1.

Lemma abi64_ok : abi_ok abi64.
Proof. split; cbn; done || lia. Qed.

Lemma abi64_holds a c :
  (a = 0 ∧ c = 1) ∨ (a = 0x100000 ∧ c = 2) ∨ (a = 0x200000 ∧ c = 3) →
  holds_state (d_mem abi64_disc) a abi64_size (λ _, c).
Proof.
  intros Hac o Ho. unfold abi64_disc. cbn [d_mem]. unfold abi64_size in *. rewrite !awrite_replicate, !Z2Nat.id by lia.
  destruct Hac as [[-> ->]|[[-> ->]|[-> ->]]]; range_cases; done.
Qed.

Lemma nap_reset_e1000_witness :
  ∃ d', device_nap_reset "e1000" 0 abi64_disc = Ok (true, d') ∧
    d_mem d' !! (offsetof abi64 "mac_reg" + 4 * RCTL) = Some 1 ∧
    d_mem d' !! (offsetof abi64 "mac_reg" + 4 * RDTR) = Some 2 ∧
    d_mem d' !! (offsetof abi64 "tx.tse") = Some 2.
Proof.
  assert (H0 : 0 ≤ 0 < 4) by lia. assert (H01 : 0 ≤ 0 < 1) by lia.
  assert (Hr1 : 0 ≤ RCTL < 0x8000) by (unfold RCTL, E1000_RCTL; done).
  assert (Hr2 : 0 ≤ RDTR < 0x8000) by (unfold RDTR, E1000_RDTR; done).
  assert (Ho : offset_in "tx.tse" (struct_layout 0 (E1000State_members abi64)) = Some (offsetof abi64 "tx.tse", 1))
    by (vm_compute; reflexivity).
  assert (Hne : "tx.tse"%string ∉ ["parent_obj"; "mac_reg"]%string) by set_solver.
  destruct (nap_reset_e1000 abi64 abi64_ok (λ m _, Ok m) (λ m _ _, Ok (0, m)) (λ _ _, false)
    abi64_disc "e1000" abi64_entry 0 (λ _, 1) (λ _, 2)) as (d' & E & Hreg & Hmem & _).
  - exists [], []. split; [done|]. split; [cbn; lia|]. split; [done|by apply Forall_nil].
  - vm_compute. reflexivity.
  - constructor; cbn [abi64_entry dss_vmsd statesize swapspace snapshot].
    + reflexivity.
    + unfold abi64_size. lia.
    + apply abi64_holds. by left.
    + apply abi64_holds. right. by left.
    + apply (holds_region _ _ _ (λ _, 3)), abi64_holds. right. by right.
    + unfold apart, abi64_size. lia.
    + unfold apart, abi64_size. lia.
    + unfold apart, abi64_size. lia.
  - exists d'. split; [exact E|]. clear E.
    pose proof (Hreg RCTL 0 Hr1 H0) as H1. pose proof (Hreg RDTR 0 Hr2 H0) as H2. pose proof (Hmem _ _ _ 0 Ho Hne H01) as H3.
    cbn zeta in H1, H2. change (kept_reg RCTL) with true in H1. change (kept_reg RDTR) with false in H2.
    change (kept_member "tx.tse") with false in H3. rewrite !Z.add_0_r, !Z.add_0_l in H1, H2, H3.
    split; [exact H1|]. split; [exact H2|exact H3].
Defined.

End E1000Vmsd.
