(* ===== verification/Harness.v ===== *)
(** The symbolic-execution harness: the driver klee_main.c, which fills a device with symbolic
    values and calls its entry points around a nap reset, and the stubs of
    klee_external_function_calls.c that stand for the emulator. *)

From S2P Require Import Prelude Regs Iov NetQueue Device Intr Rx Tx Mmio VMState Snapshot E1000Vmsd.
Import Iov NetQueue Intr Rx Tx Mmio VMState Snapshot E1000Vmsd.

Module Harness.

(** ** The stubs *)

(** What is left of the world: the value an uninitialised clock variable happens to have, and the
    contents of the stack. *)
Record KleeWorld : Type := mkKlee {
  now : Z;
}.

(** [address_space_rw], [pci_set_irq] and [timer_mod] do nothing, so that a DMA read leaves the buffer
    as it was; the client has no peer. *)
#[export] Instance KleeEnv : DeviceEnv KleeWorld := {
  pci_dma_read a buf w := (buf, w);
  pci_dma_write a l w := w;
  pci_set_irq b w := w;
  timer_mod t e w := w;
  timer_del t w := w;
  qemu_clock_get_ns w := now w;
  qemu_clock_get_ms w := now w / 1000000;
  net_send l w := w;
  net_hub_flush w := (false, w);
  qemu_notify_event w := w;
  packet_sent_cb a b c w := w;
  stack_bytes n := replicate n 0;
}.

#[export] Instance KleeLaws : DeviceEnvLaws KleeWorld.
Proof.
  split; intros; cbn; try done.
  - apply length_replicate.
  - apply Forall_replicate. done.
Qed.

(** ** The driver *)

(** The registers made symbolic one by one, in the order of the driver. *)
Definition symbolic_regs : list Z :=
  [STATUS; ICR; ICS; IMS; TADV; RDTR; RADV; ITR; CTRL; RCTL; MDIC; EERD; TPT; GPTC; TOTL; TOTH;
   TDBAH; TDBAL; TDH; TCTL; TDT; TDLEN; RDH; RDT; RDLEN; RDBAH; RDBAL; GPRC; TPR; TORL; TORH; VET].

(** One valuation of the symbolic variables. *)
Record Inputs : Type := mkInputs {
  k_link_down : Z;
  k_mit_timer_on : bool;
  k_mit_irq_level : bool;
  k_reg : Z → Z;             (* the value for each of [symbolic_regs] *)
  k_RA : list Z;
  k_MTA : list Z;
  k_VFTA : list Z;
  k_compat_flags : Z;
  k_mit_ide : Z;
  k_val0 : Z;                (* [val] where it sets the buffer size *)
  k_buf : list Z;            (* the [size] bytes at [buf] *)
  k_addr : Z;
  k_val : Z;
}.

(** The types of the variables. *)
Record inputs_ok (k : Inputs) : Prop := {
  ki_reg : ∀ i, fits 32 (k_reg k i);
  ki_RA : Forall (fits 32) (k_RA k) ∧ length (k_RA k) = 32%nat;
  ki_MTA : Forall (fits 32) (k_MTA k) ∧ length (k_MTA k) = 128%nat;
  ki_VFTA : Forall (fits 32) (k_VFTA k) ∧ length (k_VFTA k) = 128%nat;
}.

(** [uint32_t mac_reg[0x8000] = { 0 }] and the copies into it. *)
Definition klee_mac_reg (k : Inputs) : arr :=
  awrite (awrite (awrite
    (foldl (λ a r, aset a r (k_reg k r)) ∅ symbolic_regs)
    RA (k_RA k)) MTA (k_MTA k)) VFTA (k_VFTA k).

(** [d0] and [n0] are what the allocated memory happened to hold. *)
Definition klee_dev (k : Inputs) (d0 : E1000State) : E1000State :=
  mkE1000 (macaddr d0) (klee_mac_reg k) (phy_reg d0) (eeprom_data d0)
    (rxbufsize (k_val0 k)) (Z.land (k_val0 k / E1000_RCTL_RDMTS_QUAT) 3 + 1)
    (tx d0) (eecd_state d0) (k_mit_timer_on k) (k_mit_irq_level k) (k_mit_ide k) (k_compat_flags k).
Definition klee_nc (k : Inputs) (n0 : NetClientState) : NetClientState :=
  ncs_link_down (negb (k_link_down k =? 0)) n0.

(** The single entry of the snapshot table. *)
Definition klee_dss (sizeof_PCIDevice : Z) (vmsd : VMStateDescription) : dev_snapshots :=
  mkDss (Some "e1000"%string) sizeof_PCIDevice 0 0 (Some vmsd).

Section Main.
(** How the structure lies in memory at address [d]: its image and what an image stands for. *)
Context (image : E1000State → mem → mem) (of_image : mem → E1000State).

Definition klee_main (fuel : nat) (k : Inputs) (d0 : E1000State) (n0 : NetClientState) (w : KleeWorld)
    (d sizeof_PCIDevice : Z) (vmsd : VMStateDescription) (disc : Disc) : res (Machine KleeWorld * Disc) :=
  let disc := mkDisc (d_mem disc) (d_next disc) (d_limit disc) [klee_dss sizeof_PCIDevice vmsd] 1 in
  let s := mkMachine (klee_dev k d0) (klee_nc k n0) w in
  '(_, buf, s) ← e1000_receive fuel (k_buf k) s;
  s ← e1000_mmio_write fuel (k_addr k) (k_val k) s;
  disc ← flip "e1000" d (set_mem (image (dev s) (d_mem disc)) disc);
  let s := mkMachine (of_image (d_mem disc)) (nc s) (world s) in
  '(_, _, s) ← e1000_receive fuel buf s;
  Ok (s, disc).
End Main.

(** ** The register file the driver explores *)

Definition symbolic (i : Z) : bool :=
  bool_decide (i ∈ symbolic_regs) ||
  ((RA <=? i) && (i <? RA + 32) || (MTA <=? i) && (i <? MTA + 128) || (VFTA <=? i) && (i <? VFTA + 128)).

Lemma aget_foldl f rs a i :
  aget (foldl (λ a r, aset a r (f r)) a rs) i = if bool_decide (i ∈ rs) then f i else aget a i.
Proof.
  revert a. induction rs as [|r rs IH]; intros a; [done|]. cbn [foldl]. rewrite IH.
  destruct (decide (i ∈ rs)) as [Hi|Hi].
  - rewrite !bool_decide_eq_true_2 by set_solver. done.
  - rewrite (bool_decide_eq_false_2 (i ∈ rs)) by done. destruct (decide (i = r)) as [->|Hne].
    + rewrite bool_decide_eq_true_2 by set_solver. apply aget_aset_eq.
    + rewrite bool_decide_eq_false_2 by set_solver. by apply aget_aset_ne.
Qed.

Lemma aget_klee k i :
  inputs_ok k →
  aget (klee_mac_reg k) i =
  if (VFTA <=? i) && (i <? VFTA + 128) then nth (Z.to_nat (i - VFTA)) (k_VFTA k) 0
  else if (MTA <=? i) && (i <? MTA + 128) then nth (Z.to_nat (i - MTA)) (k_MTA k) 0
  else if (RA <=? i) && (i <? RA + 32) then nth (Z.to_nat (i - RA)) (k_RA k) 0
  else if bool_decide (i ∈ symbolic_regs) then k_reg k i else 0.
Proof.
  intros [_ [_ H1] [_ H2] [_ H3]]. unfold klee_mac_reg. rewrite !aget_awrite, H1, H2, H3.
  rewrite aget_foldl. done.
Qed.

Lemma nth_fits w l n : Forall (fits w) l → fits w 0 → fits w (nth n l 0).
Proof.
  intros Hl H0. destruct (nth_in_or_default n l 0) as [Hin| ->]; [|done].
  rewrite Forall_forall in Hl. by apply Hl, list_elem_of_In.
Qed.

Definition inputs_of (r : Z → Z) : Inputs :=
  mkInputs 0 false false (λ i, if symbolic i then r i else 0)
    ((λ j, r (RA + Z.of_nat j)) <$> seq 0 32) ((λ j, r (MTA + Z.of_nat j)) <$> seq 0 128)
    ((λ j, r (VFTA + Z.of_nat j)) <$> seq 0 128) 0 0 0 [] 0 0.

Lemma nth_block (r : Z → Z) a n i :
  a ≤ i < a + Z.of_nat n → nth (Z.to_nat (i - a)) ((λ j, r (a + Z.of_nat j)) <$> seq 0 n) 0 = r i.
Proof.
  intros Hi. rewrite nth_lookup, list_lookup_fmap, lookup_seq_lt by lia. cbn. f_equal. lia.
Qed.

Lemma block_fits (r : Z → Z) a n :
  (∀ i, a ≤ i < a + Z.of_nat n → fits 32 (r i)) → Forall (fits 32) ((λ j, r (a + Z.of_nat j)) <$> seq 0 n).
Proof.
  intros Hr. apply Forall_fmap, Forall_forall. intros j Hj%elem_of_seq. apply Hr. lia.
Qed.

Lemma symbolic_bound i : symbolic i = true → 0 ≤ i < 0x8000.
Proof.
  unfold symbolic. intros [Hi|Hi]%orb_true_iff.
  - apply bool_decide_eq_true in Hi. revert i Hi. apply Forall_forall.
    repeat (apply Forall_cons; split; [by vm_compute|]). by apply Forall_nil.
  - revert Hi. change RA with 5376. change MTA with 5248. change VFTA with 5504. lia.
Qed.

(** the driver explores exactly the register files of 32-bit values that are 0 outside the
    registers it makes symbolic: each of them is the initial one of some valuation, and no
    valuation gives another (so that EECD, PBA, LEDCTL, MANC and the other registers it does not
    list start at 0 in every run). *)
Theorem klee_registers_exact (r : Z → Z) :
  (∃ k, inputs_ok k ∧ ∀ i, 0 ≤ i < 0x8000 → aget (klee_mac_reg k) i = r i) ↔
  (∀ i, 0 ≤ i < 0x8000 → fits 32 (r i) ∧ (symbolic i = false → r i = 0)).
Proof.
  split.
  - intros (k & Hk & Hr) i Hi. rewrite <-Hr by done. rewrite aget_klee by done. unfold symbolic.
    pose proof Hk as [H0 [H1 _] [H2 _] [H3 _]]. split.
    + repeat case_match; try (by apply nth_fits); [apply H0|done].
    + intros [-> [[-> ->]%orb_false_iff ->]%orb_false_iff]%orb_false_iff. done.
  - intros Hr. exists (inputs_of r).
    assert (Hok : inputs_ok (inputs_of r)).
    { assert (Hs : ∀ i, symbolic i = true → fits 32 (r i)) by (intros i Hi; by apply Hr, symbolic_bound).
      unfold symbolic in Hs. split; cbn [inputs_of k_reg k_RA k_MTA k_VFTA].
      - intros i. case_match eqn:E; [|done]. by apply Hs.
      - split; [|by rewrite length_fmap, length_seq]. apply block_fits. intros i Hi. apply Hs. lia.
      - split; [|by rewrite length_fmap, length_seq]. apply block_fits. intros i Hi. apply Hs. lia.
      - split; [|by rewrite length_fmap, length_seq]. apply block_fits. intros i Hi. apply Hs. lia. }
    split; [done|]. intros i Hi. rewrite aget_klee by done. destruct (Hr i Hi) as [_ Hz].
    cbn [inputs_of k_reg k_RA k_MTA k_VFTA]. unfold symbolic in *.
    destruct ((VFTA <=? i) && _) eqn:E1; [apply nth_block; lia|].
    destruct ((MTA <=? i) && _) eqn:E2; [apply nth_block; lia|].
    destruct ((RA <=? i) && _) eqn:E3; [apply nth_block; lia|].
    destruct (bool_decide _) eqn:E4; cbn [orb] in *; [done|]. by rewrite Hz.
Qed.

(** ** The driver never gets past its nap reset *)

Lemma flip_null d size vmsd m next limit :
  0 < size → m !! 0 = None → flip "e1000" d (mkDisc m next limit [klee_dss size vmsd] 1) = Fault OutOfBounds.
Proof.
  intros Hs Hm. unfold flip, device_nap_reset. cbn [g_num_dss g_dss d_mem]. change (Z.to_nat 1) with 1%nat.
  cbn [nap_loop klee_dss devname swapspace statesize]. rewrite bool_decide_eq_true_2 by done.
  unfold memcpy. rewrite (proj2 (Z.ltb_ge _ _)) by lia. unfold mem_read.
  destruct (mapped m d (Z.to_nat size)); [|done]. cbn [mbind res_bind]. unfold mem_write.
  replace (mapped m 0 (length (aread m d (Z.to_nat size)))) with false; [done|]. symmetry. apply not_true_is_false.
  intros Hmap. destruct (proj1 (mapped_spec _ _ _) Hmap 0) as [x Hx].
  - unfold aread. rewrite length_fmap, length_seq. lia.
  - rewrite Z.add_0_r in Hx. congruence.
Qed.

(** C39: whatever the symbolic values are, the driver does not reach its second packet: its
    snapshot entry has null pointers for the snapshot and the swap space, so that once the first
    packet and the register write have been handled the nap reset faults. *)
Theorem klee_main_faults image of_image fuel k d0 n0 w d size vmsd disc :
  0 < size → (∀ e m, image e m !! 0 = None) →
  (∀ r, klee_main image of_image fuel k d0 n0 w d size vmsd disc ≠ Ok r) ∧
  (∀ ret buf s1 s2,
     e1000_receive fuel (k_buf k) (mkMachine (klee_dev k d0) (klee_nc k n0) w) = Ok (ret, buf, s1) →
     e1000_mmio_write fuel (k_addr k) (k_val k) s1 = Ok s2 →
     klee_main image of_image fuel k d0 n0 w d size vmsd disc = Fault OutOfBounds).
Proof.
  intros Hs Hi. unfold klee_main. cbn zeta. set (s0 := mkMachine _ _ w).
  destruct (e1000_receive fuel (k_buf k) s0) as [[[ret0 buf0] s1]| |]; cbn [mbind res_bind]; [|done..].
  destruct (e1000_mmio_write fuel (k_addr k) (k_val k) s1) as [s2| |] eqn:E2; cbn [mbind res_bind].
  - unfold set_mem. cbn [d_mem d_next d_limit g_dss g_num_dss]. rewrite flip_null by done. done.
  - split; [done|]. intros ret buf s1' s2 [= <- <- <-]. congruence.
  - split; [done|]. intros ret buf s1' s2 [= <- <- <-]. congruence.
Qed.

Definition blank_tx : e1000_tx := mkTx ∅ ∅ ∅ 0 0 false 0 0 0 0 0 0 0 0 0 0 false false false false.
Definition blank_dev : E1000State :=
  mkE1000 [0; 0; 0; 0; 0; 0] ∅ ∅ ∅ 0 0 blank_tx (mkEecd 0 0 0 false 0) false false 0 0.
Definition blank_nc : NetClientState := mkNc false false "" "" qemu_new_net_queue false.
Definition zero_inputs : Inputs :=
  mkInputs 0 false false (λ _, 0) (replicate 32 0) (replicate 128 0) (replicate 128 0) 0 0 0 (replicate 60 0) 0 0.
Definition empty_disc : Disc := mkDisc ∅ 0 0 [] 0.

Lemma klee_main_faults_witness :
  klee_main (λ _ _, ∅) (λ _, blank_dev) 1 zero_inputs blank_dev blank_nc (mkKlee 0) 4096 8 toy empty_disc = Fault OutOfBounds.
Proof.
  destruct (klee_main_faults (λ _ _, ∅) (λ _, blank_dev) 1 zero_inputs blank_dev blank_nc (mkKlee 0) 4096 8 toy empty_disc)
    as [_ H]; [lia|intros; apply lookup_empty|].
  eapply H.
  - vm_compute. reflexivity.
  - vm_compute. reflexivity.
Defined.

End Harness.
