(* ===== verification/Qom.v ===== *)
(** The object model the harness carries (klee_external_function_calls.c, after qom/object.c): the
    table of types, the search of a type's ancestors and the dynamic casts that PCI_DEVICE and
    E1000 expand to.  A pointer to a type is the name it is registered under, a pointer to a class
    an address; a C string is an address with its contents, because casts compare addresses. *)

From stdpp Require Import relations.
From S2P Require Import Prelude.

Module Qom.

Record cstr : Type := mkStr { s_ptr : Z; s_val : string }.

Record TypeImpl : Type := mkType {
  t_name : cstr;
  t_parent : option string;
  t_parent_type : option string;     (* cached by [type_get_parent] *)
  t_class : Z;
}.
Record ObjectClass : Type := mkClass {
  c_type : string;
  c_interfaces : list Z;
}.
Record Qom : Type := mkQom {
  q_types : gmap string TypeImpl;
  q_classes : gmap Z ObjectClass;
  type_interface : option string;
}.
Definition set_types (ts : gmap string TypeImpl) (q : Qom) : Qom := mkQom ts (q_classes q) (type_interface q).

(** ** Types *)

Definition type_table_lookup (name : string) (q : Qom) : option string :=
  if decide (is_Some (q_types q !! name)) then Some name else None.

Definition type_get_by_name (name : option cstr) (q : Qom) : option string :=
  match name with None => None | Some s => type_table_lookup (s_val s) q end.

Definition get_type (type : string) (q : Qom) : res TypeImpl :=
  match q_types q !! type with Some t => Ok t | None => Fault OutOfBounds end.
Definition get_class (c : Z) (q : Qom) : res ObjectClass :=
  match q_classes q !! c with Some k => Ok k | None => Fault OutOfBounds end.

Definition type_get_parent (type : string) (q : Qom) : res (option string * Qom) :=
  t ← get_type type q;
  match t_parent_type t, t_parent t with
  | None, Some parent =>
      match type_table_lookup parent q with
      | Some p =>
          let t := mkType (t_name t) (t_parent t) (Some p) (t_class t) in
          Ok (Some p, set_types (<[type := t]> (q_types q)) q)
      | None => Fault AssertFail
      end
  | p, _ => Ok (p, q)
  end.

(** [while (type)]; [fuel] bounds the length of the chain. *)
Fixpoint ancestor_loop (fuel : nat) (type : option string) (target_type : string) (q : Qom) : res (bool * Qom) :=
  match fuel with
  | O => Diverge
  | S fuel =>
      match type with
      | None => Ok (false, q)
      | Some ty =>
          if bool_decide (ty = target_type) then Ok (true, q)
          else '(p, q) ← type_get_parent ty q; ancestor_loop fuel p target_type q
      end
  end.
Definition type_is_ancestor (fuel : nat) (type target_type : option string) (q : Qom) : res (bool * Qom) :=
  match target_type with
  | None => Fault AssertFail
  | Some target => ancestor_loop fuel type target q
  end.

(** ** Casts *)

(** [for (i = class->interfaces; i; i = i->next)]: the last match and how many there are. *)
Fixpoint scan_interfaces (fuel : nat) (ifs : list Z) (target_type : string) (ret : option Z) (found : nat)
    (q : Qom) : res (option Z * nat * Qom) :=
  match ifs with
  | [] => Ok (ret, found, q)
  | i :: ifs =>
      k ← get_class i q;
      '(b, q) ← type_is_ancestor fuel (Some (c_type k)) (Some target_type) q;
      if b : bool then scan_interfaces fuel ifs target_type (Some i) (S found) q
      else scan_interfaces fuel ifs target_type ret found q
  end.

Definition object_class_dynamic_cast (fuel : nat) (class : option Z) (typename : cstr) (q : Qom)
  : res (option Z * Qom) :=
  match class with
  | None => Ok (None, q)
  | Some c =>
      k ← get_class c q;
      ty ← get_type (c_type k) q;
      if s_ptr (t_name ty) =? s_ptr typename then Ok (Some c, q)
      else
        match type_get_by_name (Some typename) q with
        | None => Ok (None, q)
        | Some target_type =>
            tk ← get_class (t_class ty) q;
            '(is_if, q) ←
              match c_interfaces tk with
              | [] => Ok (false, q)
              | _ :: _ => type_is_ancestor fuel (Some target_type) (type_interface q) q
              end;
            if is_if : bool then
              '(ret, found, q) ← scan_interfaces fuel (c_interfaces k) target_type None 0 q;
              Ok (if (1 <? found)%nat then None else ret, q)
            else
              '(b, q) ← type_is_ancestor fuel (Some (c_type k)) (Some target_type) q;
              Ok (if b : bool then Some c else None, q)
        end
  end.

(** An object is its address and its class. *)
Definition object_get_class (obj : Z * Z) : Z := snd obj.

Definition object_dynamic_cast (fuel : nat) (obj : option (Z * Z)) (typename : cstr) (q : Qom)
  : res (option (Z * Z) * Qom) :=
  match obj with
  | None => Ok (None, q)
  | Some o =>
      '(c, q) ← object_class_dynamic_cast fuel (Some (object_get_class o)) typename q;
      Ok (match c with Some _ => Some o | None => None end, q)
  end.

(** Without CONFIG_QOM_CAST_DEBUG the check is only the trace, which reads the type's name. *)
Definition object_dynamic_cast_assert (obj : option (Z * Z)) (q : Qom) : res (option (Z * Z)) :=
  match obj with
  | None => Ok None
  | Some o => k ← get_class (object_get_class o) q; t ← get_type (c_type k) q; Ok (Some o)
  end.

(** ** The hierarchy *)

(** [b] is the parent [a] was registered with. *)
Definition parent_of (q : Qom) (a b : string) : Prop := ∃ t, q_types q !! a = Some t ∧ t_parent t = Some b.
Definition ancestor (q : Qom) : string → string → Prop := rtc (parent_of q).

(** Two states with the same types and classes, whatever parents are cached. *)
Definition erase (t : TypeImpl) : cstr * option string * Z := (t_name t, t_parent t, t_class t).
Definition same_types (q q' : Qom) : Prop :=
  (∀ n, erase <$> (q_types q !! n) = erase <$> (q_types q' !! n)) ∧
  q_classes q = q_classes q' ∧ type_interface q = type_interface q'.

#[export] Instance same_types_equiv : Equivalence same_types.
Proof.
  split.
  - by intros q.
  - intros q q' (H1 & H2 & H3). split_and!; [intros n; by rewrite H1|done..].
  - intros q1 q2 q3 (H1 & H2 & H3) (G1 & G2 & G3). split_and!; [intros n; by rewrite H1, G1|congruence..].
Qed.

Lemma same_parent q q' a b : same_types q q' → parent_of q a b → parent_of q' a b.
Proof.
  intros (H1 & _) (t & Ht & Hp). specialize (H1 a). rewrite Ht in H1. cbn in H1.
  destruct (q_types q' !! a) as [t'|] eqn:E; [|done]. exists t'. split; [done|]. cbn in H1. unfold erase in H1. congruence.
Qed.

#[export] Instance parent_of_proper : Proper (same_types ==> (=) ==> (=) ==> iff) parent_of.
Proof. intros q q' Hq a _ <- b _ <-. split; by apply same_parent. Qed.

#[export] Instance ancestor_proper : Proper (same_types ==> (=) ==> (=) ==> iff) ancestor.
Proof.
  intros q q' Hq a _ <- b _ <-. unfold ancestor.
  split; induction 1 as [|x y z Hxy _ IH]; try reflexivity; (eapply rtc_l; [|exact IH]).
  - by rewrite <-Hq.
  - by rewrite Hq.
Qed.

#[export] Instance lookup_proper : Proper ((=) ==> same_types ==> (=)) type_table_lookup.
Proof.
  intros n _ <- q q' (H1 & _). unfold type_table_lookup. specialize (H1 n).
  destruct (q_types q !! n), (q_types q' !! n); try done.
Qed.

(** Parents are registered, a cached parent is the registered one, and there is no cycle. *)
Record types_ok (q : Qom) (rank : string → nat) : Prop := {
  ty_parent : ∀ a b, parent_of q a b → is_Some (q_types q !! b);
  ty_cache : ∀ a t p, q_types q !! a = Some t → t_parent_type t = Some p → t_parent t = Some p;
  ty_rank : ∀ a b, parent_of q a b → (rank b < rank a)%nat;
}.

Lemma set_cache_same q a t p :
  q_types q !! a = Some t →
  same_types q (set_types (<[a := mkType (t_name t) (t_parent t) p (t_class t)]> (q_types q)) q).
Proof.
  intros Ht. split; [|done]. intros n. cbn [set_types q_types]. destruct (decide (a = n)) as [<-|Hne].
  - by rewrite lookup_insert_eq, Ht.
  - by rewrite lookup_insert_ne.
Qed.

Lemma types_ok_same q q' rank :
  same_types q q' → (∀ a t p, q_types q' !! a = Some t → t_parent_type t = Some p → t_parent t = Some p) →
  types_ok q rank → types_ok q' rank.
Proof.
  intros Hs Hc [Hp _ Hr]. split; [|done|].
  - intros a b Hab. rewrite <-Hs in Hab. destruct (Hp _ _ Hab) as [t Ht]. destruct Hs as (H1 & _). specialize (H1 b).
    rewrite Ht in H1. by destruct (q_types q' !! b).
  - intros a b Hab. apply Hr. by rewrite Hs.
Qed.

(** [type_get_parent] gives the parent and at most caches it. *)
Lemma type_get_parent_spec q rank a t :
  types_ok q rank → q_types q !! a = Some t →
  ∃ q', type_get_parent a q = Ok (t_parent t, q') ∧ same_types q q' ∧ types_ok q' rank.
Proof.
  intros Hq Ht. unfold type_get_parent, get_type. rewrite Ht. cbn [mbind res_bind].
  destruct (t_parent_type t) as [p|] eqn:Ec.
  { rewrite (ty_cache _ _ Hq _ _ _ Ht Ec). by exists q. }
  destruct (t_parent t) as [b|] eqn:Ep; [|by exists q].
  assert (Hab : parent_of q a b) by (by exists t). unfold type_table_lookup. rewrite decide_True by (by eapply ty_parent).
  eexists. split; [reflexivity|]. rewrite <-Ep. split; [by apply set_cache_same|].
  eapply types_ok_same; [by apply set_cache_same| |done]. intros n t' p. cbn [set_types q_types].
  destruct (decide (a = n)) as [<-|Hne].
  - rewrite lookup_insert_eq. intros [= <-]. cbn. congruence.
  - rewrite lookup_insert_ne by done. apply (ty_cache _ _ Hq).
Qed.

Lemma ancestor_step q a t tg :
  q_types q !! a = Some t → a ≠ tg → (ancestor q a tg ↔ ∃ b, t_parent t = Some b ∧ ancestor q b tg).
Proof.
  intros Ht Hne. split.
  - intros Ha. destruct (rtc_inv _ _ Ha) as [->|(b & (t' & Ht' & Hp) & Hb)]; [done|].
    exists b. split; [congruence|done].
  - intros (b & Hp & Hb). eapply rtc_l; [|done]. by exists t.
Qed.

Lemma ancestor_loop_spec fuel q rank a tg :
  types_ok q rank → is_Some (q_types q !! a) → (S (rank a) < fuel)%nat →
  ∃ b q', ancestor_loop fuel (Some a) tg q = Ok (b, q') ∧ (b = true ↔ ancestor q a tg) ∧
          same_types q q' ∧ types_ok q' rank.
Proof.
  revert q a. induction fuel as [|fuel IH]; intros q a Hq [t Ht] Hf; [lia|]. cbn [ancestor_loop].
  destruct (decide (a = tg)) as [->|Hne].
  { rewrite bool_decide_eq_true_2 by done. exists true, q. by split_and!. }
  rewrite bool_decide_eq_false_2 by done.
  destruct (type_get_parent_spec q rank a t Hq Ht) as (q' & -> & Hs & Hq'). cbn [mbind res_bind].
  pose proof (ancestor_step q a t tg Ht Hne) as Hstep. destruct (t_parent t) as [b|] eqn:Ep.
  - assert (Hab : parent_of q a b) by (by exists t). pose proof (ty_rank _ _ Hq _ _ Hab) as Hr.
    assert (Hb : is_Some (q_types q' !! b)) by (apply (ty_parent _ _ Hq' a b); by rewrite <-Hs).
    destruct (IH q' b Hq' Hb ltac:(lia)) as (r & q'' & -> & Hr' & Hs' & Hq''). exists r, q''.
    split_and!; try done; [|by etrans]. rewrite Hr', Hstep, <-Hs. split.
    + intros H. by exists b.
    + intros (b' & [= <-] & H). done.
  - destruct fuel as [|fuel]; [lia|]. exists false, q'. split_and!; try done. rewrite Hstep. split; [done|].
    intros (b & ? & _). done.
Qed.

(** ** Casts *)

Lemma filter_Forall_iff {A} (P Q : A → Prop) `{∀ x, Decision (P x)} `{∀ x, Decision (Q x)} (l : list A) :
  Forall (λ x, P x ↔ Q x) l → filter P l = filter Q l.
Proof.
  induction 1 as [|x l Hx _ IH]; [done|]. rewrite !filter_cons, IH.
  destruct (decide (P x)), (decide (Q x)); tauto || done.
Qed.

Section Casts.
Context (rank : string → nat) (fuel : nat).

(** The types of the classes at hand are registered, and the fuel covers their chains. *)
Definition class_ok (q : Qom) (c : Z) : Prop :=
  ∃ k, q_classes q !! c = Some k ∧ is_Some (q_types q !! c_type k) ∧ (S (rank (c_type k)) < fuel)%nat.

Definition descends (q : Qom) (tg : string) (c : Z) : Prop :=
  ∃ k, q_classes q !! c = Some k ∧ ancestor q (c_type k) tg.

(** The search itself decides it. *)
Definition descends_b (q : Qom) (tg : string) (c : Z) : bool :=
  match q_classes q !! c with
  | Some k => match ancestor_loop fuel (Some (c_type k)) tg q with Ok (b, _) => b | _ => false end
  | None => false
  end.

Lemma descends_b_spec q tg c : types_ok q rank → class_ok q c → descends_b q tg c = true ↔ descends q tg c.
Proof.
  intros Hq (k & Hk & Ht & Hf). unfold descends_b, descends. rewrite Hk.
  destruct (ancestor_loop_spec fuel q rank _ tg Hq Ht Hf) as (b & q' & -> & Hb & _). rewrite Hb. split.
  - intros Ha. by exists k.
  - by intros (k' & [= <-] & Ha).
Qed.

Lemma class_ok_same q q' c : same_types q q' → class_ok q c → class_ok q' c.
Proof.
  intros (H1 & H2 & _) (k & Hk & Ht & Hf). exists k. rewrite <-H2. split_and!; try done. specialize (H1 (c_type k)).
  destruct Ht as [t Ht]. rewrite Ht in H1. by destruct (q_types q' !! c_type k).
Qed.

Lemma descends_same q q' tg c : same_types q q' → descends q tg c ↔ descends q' tg c.
Proof.
  intros Hs. pose proof Hs as (_ & Hc & _). unfold descends. rewrite Hc.
  split; intros (k & Hk & Ha); exists k; (split; [done|]); [by rewrite <-Hs|by rewrite Hs].
Qed.

Lemma class_ancestor q c tg :
  types_ok q rank → class_ok q c →
  ∃ k q', q_classes q !! c = Some k ∧
    type_is_ancestor fuel (Some (c_type k)) (Some tg) q = Ok (descends_b q tg c, q') ∧
    same_types q q' ∧ types_ok q' rank.
Proof.
  intros Hq (k & Hk & Ht & Hf). destruct (ancestor_loop_spec fuel q rank _ tg Hq Ht Hf) as (b & q' & E & _ & Hs & Hq').
  exists k, q'. unfold descends_b. cbn [type_is_ancestor]. rewrite Hk, E. done.
Qed.

(** The last interface that descends from the target, and how many do. *)
Lemma scan_interfaces_spec q ifs tg ret found :
  types_ok q rank → Forall (class_ok q) ifs →
  ∃ q', scan_interfaces fuel ifs tg ret found q =
          Ok (match last (filter (λ i, descends_b q tg i = true) ifs) with Some i => Some i | None => ret end,
              (found + length (filter (λ i, descends_b q tg i = true) ifs))%nat, q') ∧
        same_types q q' ∧ types_ok q' rank.
Proof.
  revert q ret found. induction ifs as [|i ifs IH]; intros q ret found Hq Hall.
  { exists q. cbn. by rewrite Nat.add_0_r. }
  apply Forall_cons in Hall as [Hi Hall]. destruct (class_ancestor q i tg Hq Hi) as (k & q1 & Hk & E & Hs & Hq1).
  cbn [scan_interfaces]. unfold get_class. rewrite Hk. cbn [mbind res_bind]. rewrite E. cbn [mbind res_bind].
  assert (Hall1 : Forall (class_ok q1) ifs) by (eapply Forall_impl; [exact Hall|]; intros; by eapply class_ok_same).
  assert (Hf : filter (λ i, descends_b q1 tg i = true) ifs = filter (λ i, descends_b q tg i = true) ifs).
  { apply filter_Forall_iff, Forall_forall. intros x Hx. rewrite Forall_forall in Hall, Hall1.
    rewrite !descends_b_spec by auto. by rewrite (descends_same q q1). }
  rewrite filter_cons. destruct (descends_b q tg i) eqn:Eb.
  - destruct (IH q1 (Some i) (S found) Hq1 Hall1) as (q' & -> & Hs' & Hq'). exists q'. rewrite Hf.
    split_and!; [|by etrans|done]. rewrite decide_True by done. cbn [length].
    rewrite last_cons. rewrite <-plus_n_Sm. by destruct (last _).
  - destruct (IH q1 ret found Hq1 Hall1) as (q' & -> & Hs' & Hq'). exists q'. rewrite Hf.
    split_and!; [|by etrans|done]. by rewrite decide_False.
Qed.

Lemma type_ancestor q a tg :
  types_ok q rank → is_Some (q_types q !! a) → (S (rank a) < fuel)%nat →
  ∃ b q', type_is_ancestor fuel (Some a) (Some tg) q = Ok (b, q') ∧ (b = true ↔ ancestor q a tg) ∧
          same_types q q' ∧ types_ok q' rank.
Proof. intros Hq Ha Hf. exact (ancestor_loop_spec fuel q rank a tg Hq Ha Hf). Qed.

(** The two ways a cast to a registered type goes. *)
Lemma cast_ancestor q c tg :
  types_ok q rank → class_ok q c →
  ∃ k q', q_classes q !! c = Some k ∧
    ('(b, q) ← type_is_ancestor fuel (Some (c_type k)) (Some tg) q; Ok (if b : bool then Some c else None, q))
      = Ok (if descends_b q tg c then Some c else None, q') ∧ same_types q q'.
Proof.
  intros Hq Hc. destruct (class_ancestor q c tg Hq Hc) as (k & q' & Hk & E & Hs & _). exists k, q'.
  split; [done|]. rewrite E. done.
Qed.

Lemma cast_interface q ifs tg :
  types_ok q rank → Forall (class_ok q) ifs →
  ∃ q', ('(ret, found, q) ← scan_interfaces fuel ifs tg None 0 q; Ok (if (1 <? found)%nat then None else ret, q))
      = Ok (match filter (λ i, descends_b q tg i = true) ifs with [i] => Some i | _ => None end, q') ∧ same_types q q'.
Proof.
  intros Hq Hi. destruct (scan_interfaces_spec q ifs tg None 0 Hq Hi) as (q' & -> & Hs & _). exists q'.
  split; [|done]. cbn [mbind res_bind]. destruct (filter _ ifs) as [|i [|j l]]; done.
Qed.

(** With an interface type registered (which the harness does not do): a cast ends and gives back the
    class exactly if the name is the very string of its type or the name of a registered ancestor
    of it; when the class has interfaces and the name is that of an interface type, it gives the
    interface that descends from it, if there is exactly one.  The hierarchy of types is unchanged:
    only parents get cached. *)
Lemma dynamic_cast_interfaces q c k ty tk ti typename :
  types_ok q rank → class_ok q c → q_classes q !! c = Some k → q_types q !! c_type k = Some ty →
  q_classes q !! t_class ty = Some tk → Forall (class_ok q) (c_interfaces k) → type_interface q = Some ti →
  (S (rank (s_val typename)) < fuel)%nat →
  ∃ r q', object_class_dynamic_cast fuel (Some c) typename q = Ok (r, q') ∧ same_types q q' ∧
    (s_ptr (t_name ty) = s_ptr typename → r = Some c) ∧
    (s_ptr (t_name ty) ≠ s_ptr typename →
       (q_types q !! s_val typename = None → r = None) ∧
       (is_Some (q_types q !! s_val typename) →
          (c_interfaces tk = [] ∨ ¬ ancestor q (s_val typename) ti →
             r = Some c ∧ ancestor q (c_type k) (s_val typename) ∨
             r = None ∧ ¬ ancestor q (c_type k) (s_val typename)) ∧
          (c_interfaces tk ≠ [] → ancestor q (s_val typename) ti →
             ∀ i, r = Some i ↔ filter (λ i, descends_b q (s_val typename) i = true) (c_interfaces k) = [i]))).
Proof.
  intros Hq Hc Hk Hty Htk Hifs Hti Hf. unfold object_class_dynamic_cast, get_class, get_type.
  rewrite Hk. cbn [mbind res_bind]. rewrite Hty. cbn [mbind res_bind].
  destruct (Z.eqb_spec (s_ptr (t_name ty)) (s_ptr typename)) as [Heq|Hne].
  { exists (Some c), q. by split_and!. }
  cbn [type_get_by_name]. unfold type_table_lookup.
  destruct (decide (is_Some (q_types q !! s_val typename))) as [Hreg|Hreg]; cycle 1.
  { exists None, q. by split_and!. }
  rewrite Htk. cbn [mbind res_bind].
  assert (Hif : ∃ b q1, (match c_interfaces tk with
      | [] => Ok (false, q)
      | _ :: _ => type_is_ancestor fuel (Some (s_val typename)) (type_interface q) q end) = Ok (b, q1) ∧
      (b = true ↔ c_interfaces tk ≠ [] ∧ ancestor q (s_val typename) ti) ∧ same_types q q1 ∧ types_ok q1 rank).
  { destruct (c_interfaces tk) as [|i l].
    - exists false, q. split_and!; try done. split; [done|]. by intros [? _].
    - rewrite Hti. destruct (type_ancestor q (s_val typename) ti Hq Hreg Hf) as (b & q1 & -> & Hb & Hs & Hq1).
      exists b, q1. split_and!; try done. rewrite Hb. split; [by split|by intros [_ ?]]. }
  destruct Hif as (b & q1 & -> & Hb & Hs1 & Hq1). cbn [mbind res_bind]. destruct b.
  - assert (Hifs1 : Forall (class_ok q1) (c_interfaces k)) by (eapply Forall_impl; [exact Hifs|]; intros; by eapply class_ok_same).
    destruct (cast_interface q1 _ (s_val typename) Hq1 Hifs1) as (q2 & -> & Hs2).
    eexists _, q2. split; [reflexivity|]. split; [by etrans|]. split; [done|]. intros _. split; [by rewrite <-not_eq_None_Some in Hreg|].
    intros _. split; [intros H; destruct (proj1 Hb eq_refl) as [H1 H2]; tauto|]. intros _ _ i.
    rewrite (filter_Forall_iff (λ i, descends_b q1 (s_val typename) i = true) (λ i, descends_b q (s_val typename) i = true)).
    + destruct (filter _ _) as [|j [|j' l]]; split; congruence.
    + apply Forall_forall. intros x Hx. rewrite Forall_forall in Hifs, Hifs1.
      rewrite !descends_b_spec by auto. by rewrite (descends_same q q1).
  - destruct (cast_ancestor q1 c (s_val typename) Hq1 ltac:(by eapply class_ok_same)) as (k1 & q2 & Hk1 & E2 & Hs2).
    assert (k1 = k) as -> by (pose proof Hs1 as (_ & Hcl & _); congruence). rewrite E2.
    eexists _, q2. split; [reflexivity|]. split; [by etrans|]. split; [done|]. intros _. split; [by rewrite <-not_eq_None_Some in Hreg|].
    intros _. split; [intros _|intros H1 H2; by assert (false = true) by (apply Hb; by split)].
    pose proof (descends_b_spec q1 (s_val typename) c Hq1 ltac:(by eapply class_ok_same)) as Hd.
    assert (Hd' : descends q1 (s_val typename) c ↔ ancestor q (c_type k) (s_val typename)).
    { rewrite <-(descends_same q q1 _ _ Hs1). unfold descends. rewrite Hk. split; [by intros (? & [= <-] & ?)|intros; by exists k]. }
    destruct (descends_b q1 (s_val typename) c); [left|right]; (split; [done|]).
    + by apply Hd', Hd.
    + intros Ha. apply Hd', Hd in Ha. done.
Qed.
(** Without one a cast of a class with interfaces to any registered type, other than by the address
    of its own name, fails the assertion. *)
Lemma cast_interfaces_abort q c k ty tk typename :
  q_classes q !! c = Some k → q_types q !! c_type k = Some ty → q_classes q !! t_class ty = Some tk →
  c_interfaces tk ≠ [] → type_interface q = None → s_ptr (t_name ty) ≠ s_ptr typename →
  is_Some (q_types q !! s_val typename) →
  object_class_dynamic_cast fuel (Some c) typename q = Fault AssertFail.
Proof.
  intros Hk Hty Htk Hi Hn Hp Hr. unfold object_class_dynamic_cast, get_class, get_type.
  rewrite Hk. cbn [mbind res_bind]. rewrite Hty. cbn [mbind res_bind]. rewrite (proj2 (Z.eqb_neq _ _)) by done.
  cbn [type_get_by_name]. unfold type_table_lookup. rewrite decide_True by done. rewrite Htk. cbn [mbind res_bind].
  rewrite Hn. by destruct (c_interfaces tk).
Qed.

(** C38: a dynamic cast in the harness, which never registers an interface type (its [type_interface]
    stays null), of a registered class without cycles above it.  By the very string of its type's
    name it gives back the class; to a name that is not registered it gives nothing; else, if
    the class has no interfaces, it ends and gives back the class exactly if the name is that of an
    ancestor of its type, and of the hierarchy only cached parents change; if the class has
    interfaces, it fails the assertion in [type_is_ancestor]. *)
Theorem object_class_dynamic_cast_spec q c k ty tk typename :
  types_ok q rank → class_ok q c → q_classes q !! c = Some k → q_types q !! c_type k = Some ty →
  q_classes q !! t_class ty = Some tk → type_interface q = None →
  let cast := object_class_dynamic_cast fuel (Some c) typename q in
  (s_ptr (t_name ty) = s_ptr typename → cast = Ok (Some c, q)) ∧
  (s_ptr (t_name ty) ≠ s_ptr typename → q_types q !! s_val typename = None → cast = Ok (None, q)) ∧
  (s_ptr (t_name ty) ≠ s_ptr typename → is_Some (q_types q !! s_val typename) → c_interfaces tk = [] →
     ∃ r q', cast = Ok (r, q') ∧ same_types q q' ∧
       (r = Some c ∧ ancestor q (c_type k) (s_val typename) ∨ r = None ∧ ¬ ancestor q (c_type k) (s_val typename))) ∧
  (s_ptr (t_name ty) ≠ s_ptr typename → is_Some (q_types q !! s_val typename) → c_interfaces tk ≠ [] →
     cast = Fault AssertFail).
Proof.
  intros Hq Hc Hk Hty Htk Hn cast. split_and!.
  - intros Hp. unfold cast, object_class_dynamic_cast, get_class, get_type. rewrite Hk. cbn [mbind res_bind]. rewrite Hty.
    cbn [mbind res_bind]. by rewrite (proj2 (Z.eqb_eq _ _) Hp).
  - intros Hp Hr. unfold cast, object_class_dynamic_cast, get_class, get_type. rewrite Hk. cbn [mbind res_bind]. rewrite Hty.
    cbn [mbind res_bind]. rewrite (proj2 (Z.eqb_neq _ _)) by done. cbn [type_get_by_name]. unfold type_table_lookup.
    rewrite decide_False; [done|]. rewrite Hr. by intros [? ?].
  - intros Hp Hr Hi. unfold cast, object_class_dynamic_cast, get_class, get_type. rewrite Hk. cbn [mbind res_bind]. rewrite Hty.
    cbn [mbind res_bind]. rewrite (proj2 (Z.eqb_neq _ _)) by done. cbn [type_get_by_name]. unfold type_table_lookup.
    rewrite decide_True by done. rewrite Htk. cbn [mbind res_bind]. rewrite Hi. cbn [mbind res_bind].
    destruct (cast_ancestor q c (s_val typename) Hq Hc) as (k1 & q2 & Hk1 & E2 & Hs2). rewrite Hk in Hk1. injection Hk1 as <-.
    rewrite E2. eexists _, q2. split; [reflexivity|]. split; [done|].
    pose proof (descends_b_spec q (s_val typename) c Hq Hc) as Hd. unfold descends in Hd. rewrite Hk in Hd.
    destruct (descends_b q (s_val typename) c); [left|right]; (split; [done|]).
    + by destruct (proj1 Hd eq_refl) as (? & [= <-] & ?).
    + intros Ha. discriminate (proj2 Hd). by exists k.
  - intros. by eapply cast_interfaces_abort.
Qed.
End Casts.

(** ** Witness: the types of the e1000 *)

Definition pc_types : Qom :=
  let ty name ptr parent class := (name, mkType (mkStr ptr name) parent None class) in
  mkQom (list_to_map [ty "object" 1 None 101; ty "device" 2 (Some "object") 102;
                      ty "pci-device" 3 (Some "device") 103; ty "e1000" 4 (Some "pci-device") 104;
                      ty "interface" 5 None 105])%string
        (list_to_map [(104, mkClass "e1000" [])]) None.
Definition pc_rank (n : string) : nat :=
  if bool_decide (n = "e1000"%string) then 3
  else if bool_decide (n = "pci-device"%string) then 2 else if bool_decide (n = "device"%string) then 1 else 0.

Lemma pc_types_ok : types_ok pc_types pc_rank.
Proof.
  assert (H : map_Forall (λ n t,
      match t_parent t with
      | Some p => bool_decide (is_Some (q_types pc_types !! p)) && (pc_rank p <? pc_rank n)%nat
      | None => true
      end && bool_decide (t_parent_type t = None) = true) (q_types pc_types))
    by (apply (bool_decide_unpack _); vm_compute; exact I).
  split.
  - intros a b (t & Ht & Hp). specialize (H a t Ht). cbn in H. rewrite Hp in H.
    apply andb_true_iff in H as [[H _]%andb_true_iff _]. by apply bool_decide_eq_true in H.
  - intros a t p Ht Hp. specialize (H a t Ht). cbn in H. apply andb_true_iff in H as [_ H%bool_decide_eq_true]. congruence.
  - intros a b (t & Ht & Hp). specialize (H a t Ht). cbn in H. rewrite Hp in H.
    apply andb_true_iff in H as [[_ H]%andb_true_iff _]. by apply Nat.ltb_lt.
Qed.

Lemma object_class_dynamic_cast_spec_witness :
  ∃ q', object_class_dynamic_cast 9 (Some 104) (mkStr 77 "pci-device") pc_types = Ok (Some 104, q').
Proof.
  destruct (object_class_dynamic_cast_spec pc_rank 9 pc_types 104 (mkClass "e1000" []) (mkType (mkStr 4 "e1000") (Some "pci-device"%string) None 104)
    (mkClass "e1000" []) (mkStr 77 "pci-device")) as (_ & _ & Hr & _).
  - exact pc_types_ok.
  - exists (mkClass "e1000" []). split; [reflexivity|]. split; [by eexists|vm_compute; lia].
  - reflexivity.
  - reflexivity.
  - reflexivity.
  - reflexivity.
  - destruct (Hr ltac:(done) ltac:(by eexists) eq_refl) as (r & q' & E & _ & Hc). exists q'. rewrite E.
    destruct Hc as [[-> _]|[_ Hn]]; [done|]. destruct Hn. eapply rtc_l; [|reflexivity].
    eexists. split; reflexivity.
Defined.

End Qom.
