(* ===== verification/Qdev.v ===== *)
(** The tree of devices and buses (hw/core/qdev.c) on the objects it is made of (qom/object.c):
    creation, realization, walks, reset and removal, with the reference counts that decide when an
    object is freed. *)

From stdpp Require Import pretty.
From S2P Require Import Prelude.

Module Qdev.

(** ** State *)

(** The fields of [struct DeviceState] and [struct BusState] that qdev.c uses; pointers are the
    addresses of objects. *)
Record DeviceState : Type := mkDS {
  d_typename : string;
  id : option string;
  realized : bool;
  hotplugged : bool;
  parent_bus : option Z;
  child_bus : list Z;
  num_child_bus : Z;
  instance_id_alias : Z;
  alias_required_for_version : Z;
}.
Definition set_realized (b : bool) (d : DeviceState) : DeviceState :=
  mkDS (d_typename d) (id d) b (hotplugged d) (parent_bus d) (child_bus d) (num_child_bus d) (instance_id_alias d) (alias_required_for_version d).
Definition set_parent_bus (b : option Z) (d : DeviceState) : DeviceState :=
  mkDS (d_typename d) (id d) (realized d) (hotplugged d) b (child_bus d) (num_child_bus d) (instance_id_alias d) (alias_required_for_version d).
Definition set_child_bus (l : list Z) (n : Z) (d : DeviceState) : DeviceState :=
  mkDS (d_typename d) (id d) (realized d) (hotplugged d) (parent_bus d) l n (instance_id_alias d) (alias_required_for_version d).
Definition set_alias (i r : Z) (d : DeviceState) : DeviceState :=
  mkDS (d_typename d) (id d) (realized d) (hotplugged d) (parent_bus d) (child_bus d) (num_child_bus d) i r.

(** [children]: the index and the device of each [BusChild]. *)
Record BusState : Type := mkBS {
  b_typename : string;
  b_name : string;
  b_parent : option Z;
  allow_hotplug : bool;
  max_index : Z;
  children : list (Z * Z);
}.
Definition set_children (n : Z) (l : list (Z * Z)) (b : BusState) : BusState :=
  mkBS (b_typename b) (b_name b) (b_parent b) (allow_hotplug b) n l.
Definition set_b_parent (p : option Z) (b : BusState) : BusState :=
  mkBS (b_typename b) (b_name b) p (allow_hotplug b) (max_index b) (children b).

(** An object: its reference count, its parent in the composition tree, its properties in order.  A
    child property holds its object; links and other properties, which have no release function, are
    [None].  A container holds nothing else. *)
Inductive kind : Type := KDev (d : DeviceState) | KBus (b : BusState) | KContainer.
Record Object : Type := mkO {
  ref : Z;
  parent : option Z;
  properties : list (string * option Z);
  body : kind;
}.
Definition set_ref (n : Z) (o : Object) : Object := mkO n (parent o) (properties o) (body o).
Definition set_parent (p : option Z) (o : Object) : Object := mkO (ref o) p (properties o) (body o).
Definition set_properties (l : list (string * option Z)) (o : Object) : Object := mkO (ref o) (parent o) l (body o).
Definition set_body (k : kind) (o : Object) : Object := mkO (ref o) (parent o) (properties o) k.

(** The live objects, the next address, the variables of qdev.c, the buses with a reset handler, the
    devices whose removal was announced, and what the devices themselves keep. *)
Record Sys (W : Type) : Type := mkSys {
  objs : gmap Z Object;
  next : Z;
  qdev_hotplug : bool;
  qdev_hot_added : bool;
  qdev_hot_removed : bool;
  unattached_count : Z;
  reset_handlers : list Z;
  deleted : list Z;
  world : W;
}.
Arguments mkSys {_} _ _ _ _ _ _ _ _ _.
Arguments objs {_} _.
Arguments next {_} _.
Arguments qdev_hotplug {_} _.
Arguments qdev_hot_added {_} _.
Arguments qdev_hot_removed {_} _.
Arguments unattached_count {_} _.
Arguments reset_handlers {_} _.
Arguments deleted {_} _.
Arguments world {_} _.

(** A class of devices and of buses: the functions it sets.  [true] is an error. *)
Record DeviceClass (W : Type) : Type := mkDC {
  dc_vmsd : bool;
  dc_realize : option (Z → Sys W → res (bool * Sys W));
  dc_unrealize : option (Z → W → bool * W);
  dc_reset : option (Z → W → W);
  dc_unplug : option (Z → Sys W → res (Z * Sys W));
}.
Arguments dc_vmsd {_} _.
Arguments dc_realize {_} _.
Arguments dc_unrealize {_} _.
Arguments dc_reset {_} _.
Arguments dc_unplug {_} _.

(** [QLIST_REMOVE] and [QTAILQ_REMOVE] of the first element that [f] accepts. *)
Fixpoint remove_first {A} (f : A → bool) (l : list A) : list A :=
  match l with [] => [] | x :: l => if f x then l else x :: remove_first f l end.

Section Qdev.
Context {W : Type}.

Definition set_objs (m : gmap Z Object) (s : Sys W) : Sys W :=
  mkSys m (next s) (qdev_hotplug s) (qdev_hot_added s) (qdev_hot_removed s) (unattached_count s) (reset_handlers s) (deleted s) (world s).
Definition set_world (w : W) (s : Sys W) : Sys W :=
  mkSys (objs s) (next s) (qdev_hotplug s) (qdev_hot_added s) (qdev_hot_removed s) (unattached_count s) (reset_handlers s) (deleted s) w.
Definition set_count (n : Z) (s : Sys W) : Sys W :=
  mkSys (objs s) (next s) (qdev_hotplug s) (qdev_hot_added s) (qdev_hot_removed s) n (reset_handlers s) (deleted s) (world s).
Definition set_reset_handlers (l : list Z) (s : Sys W) : Sys W :=
  mkSys (objs s) (next s) (qdev_hotplug s) (qdev_hot_added s) (qdev_hot_removed s) (unattached_count s) l (deleted s) (world s).
Definition set_deleted (l : list Z) (s : Sys W) : Sys W :=
  mkSys (objs s) (next s) (qdev_hotplug s) (qdev_hot_added s) (qdev_hot_removed s) (unattached_count s) (reset_handlers s) l (world s).
Definition set_flags (h a r : bool) (s : Sys W) : Sys W :=
  mkSys (objs s) (next s) h a r (unattached_count s) (reset_handlers s) (deleted s) (world s).
Definition put (a : Z) (o : Object) (s : Sys W) : Sys W := set_objs (<[a := o]> (objs s)) s.

(** A use of an object that is not there, any more or yet, is a fault. *)
Definition get_obj (a : Z) (s : Sys W) : res Object :=
  match objs s !! a with Some o => Ok o | None => Fault OutOfBounds end.
(** The casts [DEVICE] and [BUS]. *)
Definition get_dev (a : Z) (s : Sys W) : res (Object * DeviceState) :=
  o ← get_obj a s; match body o with KDev d => Ok (o, d) | _ => Fault AssertFail end.
Definition get_bus (a : Z) (s : Sys W) : res (Object * BusState) :=
  o ← get_obj a s; match body o with KBus b => Ok (o, b) | _ => Fault AssertFail end.
Definition put_dev (a : Z) (d : DeviceState) (s : Sys W) : res (Sys W) :=
  o ← get_obj a s; Ok (put a (set_body (KDev d) o) s).
Definition put_bus (a : Z) (b : BusState) (s : Sys W) : res (Sys W) :=
  o ← get_obj a s; Ok (put a (set_body (KBus b) o) s).

(** ** Objects *)

(** Counts of references stay below the 32 bits they have, since every reference is a pointer of
    some live object or of a running function. *)
Definition object_ref (a : Z) (s : Sys W) : res (Sys W) :=
  o ← get_obj a s; Ok (put a (set_ref (ref o + 1) o) s).

(** Properties are released and removed one by one until none is left. *)
Fixpoint del_all (unref : Z → Sys W → res (Sys W)) (n : nat) (a : Z) (s : Sys W) : res (Sys W) :=
  match n with
  | O => Diverge
  | S n =>
      o ← get_obj a s;
      match properties o with
      | [] => Ok s
      | (_, c) :: l =>
          let s := put a (set_properties l o) s in
          s ← (match c with Some c => unref c s | None => Ok s end);
          del_all unref n a s
      end
  end.
Definition object_finalize (unref : Z → Sys W → res (Sys W)) (n : nat) (a : Z) (s : Sys W) : res (Sys W) :=
  s ← del_all unref n a s;
  o ← get_obj a s;
  if negb (ref o =? 0) then Fault AssertFail else Ok (set_objs (delete a (objs s)) s).
Fixpoint object_unref (fuel : nat) (a : Z) (s : Sys W) : res (Sys W) :=
  match fuel with
  | O => Diverge
  | S fuel =>
      o ← get_obj a s;
      if negb (0 <? ref o) then Fault AssertFail
      else
        let s := put a (set_ref (ref o - 1) o) s in
        if ref o - 1 =? 0 then object_finalize (object_unref fuel) fuel a s else Ok s
  end.

Definition find_prop (name : string) (l : list (string * option Z)) : option (string * option Z) :=
  List.find (λ p, String.eqb p.1 name) l.
Definition remove_prop (name : string) (l : list (string * option Z)) : list (string * option Z) := remove_first (λ p, String.eqb p.1 name) l.
(** [true]: there is a property of that name already. *)
Definition object_property_add (a : Z) (name : string) (c : option Z) (s : Sys W) : res (bool * Sys W) :=
  o ← get_obj a s;
  match find_prop name (properties o) with
  | Some _ => Ok (true, s)
  | None => Ok (false, put a (set_properties (properties o ++ [(name, c)]) o) s)
  end.
Definition object_property_add_child (a : Z) (name : string) (child : Z) (s : Sys W) : res (bool * Sys W) :=
  '(err, s) ← object_property_add a name (Some child) s;
  s ← object_ref child s;
  o ← get_obj child s;
  match parent o with
  | Some _ => Fault AssertFail
  | None => Ok (err, put child (set_parent (Some a) o) s)
  end.
Definition object_property_add_link (a : Z) (name : string) (s : Sys W) : res (bool * Sys W) := object_property_add a name None s.
Definition object_property_del (fuel : nat) (a : Z) (name : string) (s : Sys W) : res (Sys W) :=
  o ← get_obj a s;
  match find_prop name (properties o) with
  | None => Ok s
  | Some (_, c) =>
      s ← (match c with Some c => object_unref fuel c s | None => Ok s end);
      o ← get_obj a s;
      Ok (put a (set_properties (remove_prop name (properties o)) o) s)
  end.
Definition is_child (child : Z) (p : string * option Z) : bool := match p.2 with Some c => c =? child | None => false end.
Definition object_property_del_child (fuel : nat) (a child : Z) (s : Sys W) : res (Sys W) :=
  o ← get_obj a s;
  match List.find (is_child child) (properties o) with
  | Some (name, _) => object_property_del fuel a name s
  | None => Ok s
  end.

(** ** Devices and buses *)

(** The classes by the names of their types, the registry of savevm.c, the container of devices that
    nothing else holds ("/machine/unattached"), and the bus of the board. *)
Context (classes : string → option (DeviceClass W)).
Context (vmstate_register_with_alias_id : Z → Z → Z → W → W) (vmstate_unregister : Z → W → W).
Context (unattached main_system_bus : Z).

Definition get_class (d : DeviceState) : res (DeviceClass W) :=
  match classes (d_typename d) with Some c => Ok c | None => Fault NullDeref end.
Definition child_name (i : Z) : string := "child[" +:+ pretty i +:+ "]".

Definition bus_remove_child (fuel : nat) (bus child : Z) (s : Sys W) : res (Sys W) :=
  '(_, b) ← get_bus bus s;
  match List.find (λ k, k.2 =? child) (children b) with
  | None => Ok s
  | Some (index, _) =>
      s ← put_bus bus (set_children (max_index b) (remove_first (λ k, k.2 =? child) (children b)) b) s;
      s ← object_property_del fuel bus (child_name index) s;
      object_unref fuel child s
  end.
Definition bus_add_child (bus child : Z) (s : Sys W) : res (Sys W) :=
  '(_, b) ← get_bus bus s;
  if qdev_hotplug s && negb (allow_hotplug b) then Fault AssertFail
  else
    let index := max_index b in
    s ← put_bus bus (set_children (index + 1) (children b) b) s;
    s ← object_ref child s;
    '(_, b) ← get_bus bus s;
    s ← put_bus bus (set_children (max_index b) ((index, child) :: children b) b) s;
    '(_, s) ← object_property_add_link bus (child_name index) s;
    Ok s.
Definition qdev_set_parent_bus (dev bus : Z) (s : Sys W) : res (Sys W) :=
  '(_, d) ← get_dev dev s;
  s ← put_dev dev (set_parent_bus (Some bus) d) s;
  s ← object_ref bus s;
  bus_add_child bus dev s.

(** [object_new] of a device with [device_initfn]; the properties of the class are not kept. *)
Definition new_device (type : string) (s : Sys W) : Z * Sys W :=
  let d := mkDS type None false (qdev_hotplug s) None [] 0 (-1) 0 in
  let a := next s in
  (a, mkSys (<[a := mkO 1 None [] (KDev d)]> (objs s)) (a + 1) (qdev_hotplug s) (qdev_hot_added s || qdev_hotplug s) (qdev_hot_removed s)
        (unattached_count s) (reset_handlers s) (deleted s) (world s)).
(** [None]: the type is unknown. *)
Definition qdev_try_create (fuel : nat) (bus : option Z) (type : string) (s : Sys W) : res (option Z * Sys W) :=
  match classes type with
  | None => Ok (None, s)
  | Some _ =>
      let '(dev, s) := new_device type s in
      s ← qdev_set_parent_bus dev (default main_system_bus bus) s;
      s ← object_unref fuel dev s;
      Ok (Some dev, s)
  end.
Definition qdev_create (fuel : nat) (bus : option Z) (type : string) (s : Sys W) : res (Z * Sys W) :=
  '(dev, s) ← qdev_try_create fuel bus type s;
  match dev with Some dev => Ok (dev, s) | None => Fault AssertFail end.

Definition device_reset (dev : Z) (s : Sys W) : res (Sys W) :=
  '(_, d) ← get_dev dev s; c ← get_class d;
  Ok (match dc_reset c with Some f => set_world (f dev (world s)) s | None => s end).

Definition device_name (n : Z) : string := "device[" +:+ pretty n +:+ "]".
(** [error_setg] over an error that is set is a failed assertion. *)
Definition device_set_realized (dev : Z) (value : bool) (s : Sys W) : res (bool * Sys W) :=
  '(o, d) ← get_dev dev s; c ← get_class d;
  '(err, s) ←
    (if value && negb (realized d) then
       '(err, s) ← (match parent o with
                    | None => let n := unattached_count s in object_property_add_child unattached (device_name n) dev (set_count (n + 1) s)
                    | Some _ => Ok (false, s)
                    end);
       '(err, s) ← (match dc_realize c with
                    | Some f => '(e, s) ← f dev s; if err && e then Fault AssertFail else Ok (err || e, s)
                    | None => Ok (err, s)
                    end);
       '(_, d) ← get_dev dev s;
       let s := if dc_vmsd c && negb err then set_world (vmstate_register_with_alias_id dev (instance_id_alias d) (alias_required_for_version d) (world s)) s else s in
       s ← (if hotplugged d && negb err then device_reset dev s else Ok s);
       Ok (err, s)
     else if negb value && realized d then
       let s := if dc_vmsd c then set_world (vmstate_unregister dev (world s)) s else s in
       Ok (match dc_unrealize c with
           | Some f => let '(e, w) := f dev (world s) in (e, set_world w s)
           | None => (false, s)
           end)
     else Ok (false, s));
  if err : bool then Ok (true, s)
  else '(_, d) ← get_dev dev s; s ← put_dev dev (set_realized value d) s; Ok (false, s).

(** ** Removal *)

(** [unparent] is the function of the class of the object. *)
Definition unparent_with (unparent : Z → Sys W → res (Sys W)) (fuel : nat) (a : Z) (s : Sys W) : res (Sys W) :=
  o ← get_obj a s;
  match parent o with
  | None => Ok s
  | Some _ =>
      s ← object_ref a s;
      s ← unparent a s;
      o ← get_obj a s;
      s ← (match parent o with Some p => object_property_del_child fuel p a s | None => Ok s end);
      object_unref fuel a s
  end.

(** The loop of [device_unparent] over the buses of the device. *)
Fixpoint free_buses (qbus_free : Z → Sys W → res (Sys W)) (n : nat) (dev : Z) (s : Sys W) : res (Sys W) :=
  match n with
  | O => Diverge
  | S n =>
      '(_, d) ← get_dev dev s;
      if num_child_bus d =? 0 then Ok s
      else match child_bus d with
           | [] => Fault NullDeref
           | bus :: _ => s ← qbus_free bus s; free_buses qbus_free n dev s
           end
  end.
Definition device_unparent (qbus_free : Z → Sys W → res (Sys W)) (fuel : nat) (dev : Z) (s : Sys W) : res (Sys W) :=
  '(_, d) ← get_dev dev s;
  let have_realized := realized d in
  s ← free_buses qbus_free fuel dev s;
  '(_, d) ← get_dev dev s;
  s ← (if realized d then '(_, s) ← device_set_realized dev false s; Ok s else Ok s);
  '(_, d) ← get_dev dev s;
  s ← (match parent_bus d with
       | Some bus =>
           s ← bus_remove_child fuel bus dev s;
           s ← object_unref fuel bus s;
           '(_, d) ← get_dev dev s;
           put_dev dev (set_parent_bus None d) s
       | None => Ok s
       end);
  Ok (if have_realized then set_deleted (deleted s ++ [dev]) s else s).

(** The loop of [bus_unparent] over the devices of the bus. *)
Fixpoint free_children (qdev_free : Z → Sys W → res (Sys W)) (n : nat) (bus : Z) (s : Sys W) : res (Sys W) :=
  match n with
  | O => Diverge
  | S n =>
      '(_, b) ← get_bus bus s;
      match children b with
      | [] => Ok s
      | (_, dev) :: _ => s ← qdev_free dev s; free_children qdev_free n bus s
      end
  end.
Definition bus_unparent (qdev_free : Z → Sys W → res (Sys W)) (fuel : nat) (bus : Z) (s : Sys W) : res (Sys W) :=
  s ← free_children qdev_free fuel bus s;
  '(_, b) ← get_bus bus s;
  match b_parent b with
  | Some dev =>
      '(_, d) ← get_dev dev s;
      s ← put_dev dev (set_child_bus (remove_first (λ x, x =? bus) (child_bus d)) (num_child_bus d - 1) d) s;
      '(_, b) ← get_bus bus s;
      put_bus bus (set_b_parent None b) s
  | None =>
      if bus =? main_system_bus then Fault AssertFail
      else Ok (set_reset_handlers (remove_first (λ x, x =? bus) (reset_handlers s)) s)
  end.

(** [object_unparent], with [device_unparent] and [bus_unparent] of the classes; [qdev_free] and
    [qbus_free] are nothing else. *)
Fixpoint object_unparent (fuel : nat) (a : Z) (s : Sys W) : res (Sys W) :=
  match fuel with
  | O => Diverge
  | S fuel =>
      unparent_with (λ a s, o ← get_obj a s;
                            match body o with
                            | KDev _ => device_unparent (object_unparent fuel) fuel a s
                            | KBus _ => bus_unparent (object_unparent fuel) fuel a s
                            | KContainer => Ok s
                            end) (S fuel) a s
  end.
Definition qdev_free (fuel : nat) (dev : Z) (s : Sys W) : res (Sys W) := object_unparent fuel dev s.
Definition qbus_free (fuel : nat) (bus : Z) (s : Sys W) : res (Sys W) := object_unparent fuel bus s.

Definition qdev_init (fuel : nat) (dev : Z) (s : Sys W) : res (Z * Sys W) :=
  '(_, d) ← get_dev dev s;
  if realized d then Fault AssertFail
  else
    '(err, s) ← device_set_realized dev true s;
    if err : bool then s ← qdev_free fuel dev s; Ok (-1, s) else Ok (0, s).

(** [false]: the emulator exits. *)
Definition qdev_init_nofail (fuel : nat) (dev : Z) (s : Sys W) : res (bool * Sys W) :=
  '(r, s) ← qdev_init fuel dev s; Ok (negb (r <? 0), s).
(** [true]: an error is set. *)
Definition qdev_unplug (dev : Z) (s : Sys W) : res (bool * Sys W) :=
  '(_, d) ← get_dev dev s; c ← get_class d;
  no_hotplug ← (match parent_bus d with Some bus => '(_, b) ← get_bus bus s; Ok (negb (allow_hotplug b)) | None => Ok false end);
  if no_hotplug : bool then Ok (true, s)
  else
    match dc_unplug c with
    | None => Fault AssertFail
    | Some f => '(r, s) ← f dev (set_flags (qdev_hotplug s) (qdev_hot_added s) true s); Ok (r <? 0, s)
    end.
Definition qdev_simple_unplug_cb (fuel : nat) (dev : Z) (s : Sys W) : res (Z * Sys W) := s ← qdev_free fuel dev s; Ok (0, s).
Definition qdev_machine_creation_done (s : Sys W) : Sys W := set_flags true (qdev_hot_added s) (qdev_hot_removed s) s.
Definition qdev_machine_modified (s : Sys W) : bool := qdev_hot_added s || qdev_hot_removed s.
Definition qdev_set_legacy_instance_id (dev alias_id required_for_version : Z) (s : Sys W) : res (Sys W) :=
  '(_, d) ← get_dev dev s;
  if realized d then Fault AssertFail else put_dev dev (set_alias alias_id required_for_version d) s.

(** ** Creation of a bus *)

Definition qemu_tolower (c : Ascii.ascii) : Ascii.ascii :=
  let n := Ascii.nat_of_ascii c in if (65 <=? n)%nat && (n <=? 90)%nat then Ascii.ascii_of_nat (n + 32) else c.
Fixpoint lower (x : string) : string := match x with EmptyString => EmptyString | String c x => String (qemu_tolower c) (lower x) end.
Definition qbus_name (typename : string) (p : option DeviceState) (name : option string) : string :=
  match name, p with
  | Some name, _ => name
  | None, Some d =>
      match id d with
      | Some i => i +:+ "." +:+ pretty (num_child_bus d)
      | None => lower (typename +:+ "." +:+ pretty (num_child_bus d))
      end
  | None, None => lower (typename +:+ ".0")
  end.
Definition qbus_realize (fuel : nat) (bus : Z) (dev : option Z) (name : option string) (s : Sys W) : res (Sys W) :=
  '(_, b) ← get_bus bus s;
  match dev with
  | Some dev =>
      '(_, d) ← get_dev dev s;
      let n := qbus_name (b_typename b) (Some d) name in
      s ← put_bus bus (mkBS (b_typename b) n (Some dev) (allow_hotplug b) (max_index b) (children b)) s;
      s ← put_dev dev (set_child_bus (bus :: child_bus d) (num_child_bus d + 1) d) s;
      '(_, s) ← object_property_add_child dev n bus s;
      object_unref fuel bus s
  | None =>
      let n := qbus_name (b_typename b) None name in
      s ← put_bus bus (mkBS (b_typename b) n None (allow_hotplug b) (max_index b) (children b)) s;
      Ok (if bus =? main_system_bus then s else set_reset_handlers (reset_handlers s ++ [bus]) s)
  end.
Definition qbus_create (fuel : nat) (typename : string) (dev : option Z) (name : option string) (s : Sys W) : res (Z * Sys W) :=
  let bus := next s in
  let s := mkSys (<[bus := mkO 1 None [] (KBus (mkBS typename "" None false 0 []))]> (objs s)) (bus + 1) (qdev_hotplug s) (qdev_hot_added s)
             (qdev_hot_removed s) (unattached_count s) (reset_handlers s) (deleted s) (world s) in
  s ← qbus_realize fuel bus dev name s; Ok (bus, s).
Definition qdev_get_child_bus (dev : Z) (name : string) (s : Sys W) : res (option Z) :=
  '(_, d) ← get_dev dev s;
  (fix go (l : list Z) : res (option Z) :=
     match l with [] => Ok None | bus :: l => '(_, b) ← get_bus bus s; if String.eqb name (b_name b) then Ok (Some bus) else go l end) (child_bus d).

(** ** Walks *)

(** The functions see what the devices keep ([opaque]) and leave the tree alone. *)
Section Walk.
Context (devfn busfn : option (Z → W → Z * W)).

Definition call (f : option (Z → W → Z * W)) (a : Z) (s : Sys W) : Z * Sys W :=
  match f with Some f => let '(err, w) := f a (world s) in (err, set_world w s) | None => (0, s) end.
(** The loop over the children: a negative result ends it. *)
Fixpoint walk_list (walk : Z → Sys W → res (Z * Sys W)) (l : list Z) (s : Sys W) : res (Z * Sys W) :=
  match l with
  | [] => Ok (0, s)
  | x :: l => '(err, s) ← walk x s; if err <? 0 then Ok (err, s) else walk_list walk l s
  end.
(** A bus, with the walk of its devices. *)
Definition walk_bus_with (walk_dev : Z → Sys W → res (Z * Sys W)) (bus : Z) (s : Sys W) : res (Z * Sys W) :=
  '(_, b) ← get_bus bus s;
  let '(err, s) := call busfn bus s in
  if negb (err =? 0) then Ok (err, s)
  else walk_list walk_dev (map snd (children b)) s.
Fixpoint qdev_walk_children (fuel : nat) (dev : Z) (s : Sys W) : res (Z * Sys W) :=
  match fuel with
  | O => Diverge
  | S fuel =>
      '(_, d) ← get_dev dev s;
      let '(err, s) := call devfn dev s in
      if negb (err =? 0) then Ok (err, s)
      else walk_list (walk_bus_with (qdev_walk_children fuel)) (child_bus d) s
  end.
Definition qbus_walk_children (fuel : nat) : Z → Sys W → res (Z * Sys W) := walk_bus_with (qdev_walk_children fuel).
End Walk.

(** The class of a device does not change; [types] are the types of the devices and the buses. *)
Definition type_of (a : Z) (s : Sys W) : string :=
  match objs s !! a with Some o => match body o with KDev d => d_typename d | KBus b => b_typename b | KContainer => "" end | None => "" end.
Section Reset.
(** The reset functions of the classes of buses. *)
Context (bc_reset : string → option (Z → W → Z * W)).
Definition qdev_reset_one (s : Sys W) (dev : Z) (w : W) : Z * W :=
  (0, match classes (type_of dev s) with Some c => match dc_reset c with Some f => f dev w | None => w end | None => w end).
Definition qbus_reset_one (s : Sys W) (bus : Z) (w : W) : Z * W :=
  match bc_reset (type_of bus s) with Some f => f bus w | None => (0, w) end.
Definition qdev_reset_all (fuel : nat) (dev : Z) (s : Sys W) : res (Sys W) :=
  '(_, s) ← qdev_walk_children (Some (qdev_reset_one s)) (Some (qbus_reset_one s)) fuel dev s; Ok s.
Definition qbus_reset_all (fuel : nat) (bus : Z) (s : Sys W) : res (Sys W) :=
  '(_, s) ← qbus_walk_children (Some (qdev_reset_one s)) (Some (qbus_reset_one s)) fuel bus s; Ok s.

End Reset.

(** The first device with the identifier below the bus, in the order of the walk. *)
Fixpoint find_in_buses (find : Z → res (option Z)) (l : list Z) : res (option Z) :=
  match l with [] => Ok None | b :: l => r ← find b; match r with Some _ => Ok r | None => find_in_buses find l end end.
Fixpoint find_in_kids (find : Z → res (option Z)) (i : string) (l : list Z) (s : Sys W) : res (option Z) :=
  match l with
  | [] => Ok None
  | dev :: l =>
      '(_, d) ← get_dev dev s;
      if bool_decide (id d = Some i) then Ok (Some dev)
      else r ← find_in_buses find (child_bus d); match r with Some _ => Ok r | None => find_in_kids find i l s end
  end.
Fixpoint qdev_find_recursive (fuel : nat) (bus : Z) (i : string) (s : Sys W) : res (option Z) :=
  match fuel with
  | O => Diverge
  | S fuel => '(_, b) ← get_bus bus s; find_in_kids (λ b, qdev_find_recursive fuel b i s) i (map snd (children b)) s
  end.

(** ** Paths for the firmware *)

Section FwPath.
Context (get_fw_dev_path : string → option (Z → string)).
Definition bus_get_fw_dev_path (bus dev : Z) (s : Sys W) : option string :=
  match get_fw_dev_path (type_of bus s) with Some f => Some (f dev) | None => None end.
(** [snprintf] of [x] at [p + l]: the text grows by [x] (what does not fit is cut, but counted); with
    [l] beyond [size] the bound is negative, which as a [size_t] is no bound. *)
Definition snprintf_at (p : string) (size : Z) (x : string) : res string :=
  if size - Z.of_nat (String.length p) <? 0 then Fault OutOfBounds else Ok (p +:+ x).
Fixpoint qdev_get_fw_dev_path_helper (fuel : nat) (dev : option Z) (size : Z) (s : Sys W) : res string :=
  match fuel with
  | O => Diverge
  | S fuel =>
      p ← (match dev with
           | None => Ok ""
           | Some dev =>
               '(_, d) ← get_dev dev s;
               match parent_bus d with
               | None => Ok ""
               | Some bus =>
                   '(_, b) ← get_bus bus s;
                   p ← qdev_get_fw_dev_path_helper fuel (b_parent b) size s;
                   snprintf_at p size (default (d_typename d) (bus_get_fw_dev_path bus dev s))
               end
           end);
      snprintf_at p size "/"
  end.
(** The last slash is overwritten by the end of the string. *)
Definition qdev_get_fw_dev_path (fuel : nat) (dev : Z) (s : Sys W) : res string :=
  p ← qdev_get_fw_dev_path_helper fuel (Some dev) 128 s;
  let l := String.length p in
  if (128 <? Z.of_nat l) then Fault OutOfBounds else Ok (String.substring 0 (l - 1) p).
End FwPath.

(** ** Trees of devices *)

Inductive dtree : Type := DT (a : Z) (bs : blist)
with blist : Type := BNil | BCons (b : Z) (ks : klist) (bs : blist)
with klist : Type := KNil | KCons (i : Z) (t : dtree) (ks : klist).

Scheme dtree_mut := Induction for dtree Sort Prop
with blist_mut := Induction for blist Sort Prop
with klist_mut := Induction for klist Sort Prop.
Combined Scheme tree_ind from dtree_mut, blist_mut, klist_mut.

Definition root (t : dtree) : Z := match t with DT a _ => a end.
Fixpoint bids (bs : blist) : list Z := match bs with BNil => [] | BCons b _ bs => b :: bids bs end.
Fixpoint kids (ks : klist) : list (Z * Z) := match ks with KNil => [] | KCons i t ks => (i, root t) :: kids ks end.

(** The addresses of a tree, and its devices with children first. *)
Fixpoint ids_d (t : dtree) : list Z := match t with DT a bs => a :: ids_b bs end
with ids_b (bs : blist) : list Z := match bs with BNil => [] | BCons b ks bs => b :: ids_k ks ++ ids_b bs end
with ids_k (ks : klist) : list Z := match ks with KNil => [] | KCons _ t ks => ids_d t ++ ids_k ks end.
Fixpoint post_d (t : dtree) : list Z := match t with DT a bs => post_b bs ++ [a] end
with post_b (bs : blist) : list Z := match bs with BNil => [] | BCons _ ks bs => post_k ks ++ post_b bs end
with post_k (ks : klist) : list Z := match ks with KNil => [] | KCons _ t ks => post_d t ++ post_k ks end.
Definition size_d (t : dtree) : nat := length (ids_d t).
Definition size_b (bs : blist) : nat := length (ids_b bs).
Definition size_k (ks : klist) : nat := length (ids_k ks).

(** The objects an object holds as children. *)
Definition held_by (o : Object) : list Z := omap snd (properties o).
(** Container [c] and no other holds [a], once, and its properties have different names. *)
Definition holds (m : gmap Z Object) (c a : Z) : Prop :=
  (∃ o n, m !! c = Some o ∧ body o = KContainer ∧ NoDup (properties o).*1 ∧ filter (λ p, p.2 = Some a) (properties o) = [(n, Some a)]) ∧
  ∀ c' o, m !! c' = Some o → body o = KContainer → c' ≠ c → Forall (λ p, p.2 ≠ Some a) (properties o).

(** The store has the tree: links in both directions agree, the counters count, and the reference
    counts are what the tree needs.  Every device was realized once, or put into a container. *)
Fixpoint rep_d (m : gmap Z Object) (pb : Z) (t : dtree) : Prop :=
  match t with
  | DT a bs =>
      (∃ c ps d, m !! a = Some (mkO 2 (Some c) ps (KDev d)) ∧ parent_bus d = Some pb ∧ child_bus d = bids bs ∧ num_child_bus d = Z.of_nat (length (bids bs)) ∧
         is_Some (classes (d_typename d)) ∧ omap snd ps ≡ₚ bids bs ∧ NoDup ps.*1 ∧ holds m c a) ∧
      rep_b m a bs
  end
with rep_b (m : gmap Z Object) (a : Z) (bs : blist) : Prop :=
  match bs with
  | BNil => True
  | BCons b ks bs =>
      (∃ ps B, m !! b = Some (mkO (1 + Z.of_nat (length (kids ks))) (Some a) ps (KBus B)) ∧ b_parent B = Some a ∧ children B = kids ks ∧ omap snd ps = []) ∧
      rep_k m b ks ∧ rep_b m a bs
  end
with rep_k (m : gmap Z Object) (b : Z) (ks : klist) : Prop :=
  match ks with KNil => True | KCons _ t ks => rep_d m b t ∧ rep_k m b ks end.

(** *** What removal leaves *)

Definition keeps (L : list Z) (p : string * option Z) : Prop := ∀ c, c ∈ L → p.2 ≠ Some c.
#[local] Instance keeps_dec L p : Decision (keeps L p).
Proof.
  destruct (decide (Forall (λ c, p.2 ≠ Some c) L)) as [H|H]; [left|right]; unfold keeps; rewrite Forall_forall in H; auto.
Defined.
(** Containers lose their properties for the devices of [L]. *)
Definition prune (L : list Z) (o : Object) : Object :=
  match body o with KContainer => set_properties (filter (keeps L) (properties o)) o | _ => o end.

Definition was_realized (m : gmap Z Object) (a : Z) : bool :=
  match m !! a with Some o => match body o with KDev d => realized d | _ => false end | None => false end.
(** A realized device is unregistered from savevm.c and unrealized. *)
Definition retire (m : gmap Z Object) (a : Z) (w : W) : W :=
  match m !! a with
  | Some o =>
      match body o with
      | KDev d =>
          match classes (d_typename d) with
          | Some c =>
              if realized d then
                let w := if dc_vmsd c then vmstate_unregister a w else w in
                match dc_unrealize c with Some f => (f a w).2 | None => w end
              else w
          | None => w
          end
      | _ => w
      end
  | None => w
  end.

Definition fields (s : Sys W) : Z * bool * bool * bool * Z * list Z :=
  (next s, qdev_hotplug s, qdev_hot_added s, qdev_hot_removed s, unattached_count s, reset_handlers s).
(** From [s] to [s'] the objects [L] were freed; [L'] are the devices among them in the order they
    were unrealized.  Nothing is said about [x], the object the removal started from. *)
Record removed (x : Z) (L L' : list Z) (s s' : Sys W) : Prop := {
  rm_gone : ∀ a, a ∈ L → objs s' !! a = None;
  rm_rest : ∀ a, a ∉ L → a ≠ x → objs s' !! a = prune L' <$> objs s !! a;
  rm_world : world s' = foldl (λ w a, retire (objs s) a w) (world s) L';
  rm_deleted : deleted s' = deleted s ++ filter (λ a, was_realized (objs s) a = true) L';
  rm_fields : fields s' = fields s;
}.

(** *** Steps on single objects *)

Lemma get_obj_ok a o s : objs s !! a = Some o → get_obj a s = Ok o.
Proof. intros E. unfold get_obj. by rewrite E. Qed.
Lemma get_dev_ok a o d s : objs s !! a = Some o → body o = KDev d → get_dev a s = Ok (o, d).
Proof. intros E Eb. unfold get_dev. rewrite (get_obj_ok a o s E). cbn [mbind res_bind]. by rewrite Eb. Qed.
Lemma get_bus_ok a o b s : objs s !! a = Some o → body o = KBus b → get_bus a s = Ok (o, b).
Proof. intros E Eb. unfold get_bus. rewrite (get_obj_ok a o s E). cbn [mbind res_bind]. by rewrite Eb. Qed.
Lemma put_dev_eq a o d s : objs s !! a = Some o → put_dev a d s = Ok (put a (set_body (KDev d) o) s).
Proof. intros E. unfold put_dev. by rewrite (get_obj_ok a o s E). Qed.
Lemma put_bus_eq a o b s : objs s !! a = Some o → put_bus a b s = Ok (put a (set_body (KBus b) o) s).
Proof. intros E. unfold put_bus. by rewrite (get_obj_ok a o s E). Qed.
Lemma put_same a o s : objs s !! a = Some o → put a o s = s.
Proof. intros E. unfold put, set_objs. rewrite insert_id by done. by destruct s. Qed.
Lemma put_put a o o' (s : Sys W) : put a o (put a o' s) = put a o s.
Proof. unfold put, set_objs. cbn [objs]. by rewrite insert_insert_eq. Qed.

Lemma unref_dec fuel a o s : objs s !! a = Some o → 1 < ref o → object_unref (S fuel) a s = Ok (put a (set_ref (ref o - 1) o) s).
Proof.
  intros E Hr. cbn [object_unref]. rewrite (get_obj_ok a o s E). cbn [mbind res_bind]. rewrite (proj2 (Z.ltb_lt 0 (ref o))) by lia.
  cbn [negb]. by rewrite (proj2 (Z.eqb_neq (ref o - 1) 0)) by lia.
Qed.

(** Properties that hold no object are dropped, however many. *)
Lemma del_all_quiet unref n a o s :
  objs s !! a = Some o → held_by o = [] → (length (properties o) < n)%nat → del_all unref n a s = Ok (put a (set_properties [] o) s).
Proof.
  revert o s. induction n as [|n IH]; intros o s E Hh Hn; [lia|]. cbn [del_all]. rewrite (get_obj_ok a o s E). cbn [mbind res_bind].
  destruct o as [r pa ps k]. cbn [properties] in *. destruct ps as [|[nm [c|]] ps]; cbn [held_by omap list_omap properties snd] in Hh; [|done|].
  { by rewrite put_same. }
  cbn [length] in Hn. cbn [mbind res_bind]. rewrite (IH (mkO r pa ps k)); [by rewrite put_put|by apply lookup_insert_eq|done|cbn; lia].
Qed.
Lemma unref_last fuel a o s :
  objs s !! a = Some o → ref o = 1 → held_by o = [] → (length (properties o) < fuel)%nat → object_unref (S fuel) a s = Ok (set_objs (delete a (objs s)) s).
Proof.
  intros E Hr Hh Hn. cbn [object_unref]. rewrite (get_obj_ok a o s E). cbn [mbind res_bind]. rewrite Hr. change (negb (0 <? 1)) with false. change (1 - 1) with 0. cbn [Z.eqb].
  unfold object_finalize. rewrite (del_all_quiet _ fuel a (set_ref 0 o)); [|by apply lookup_insert_eq|done|done]. cbn [mbind res_bind]. rewrite put_put.
  rewrite (get_obj_ok a (set_properties [] (set_ref 0 o))) by apply lookup_insert_eq. cbn [mbind res_bind set_properties set_ref ref Z.eqb negb].
  f_equal. unfold put, set_objs. cbn [objs next qdev_hotplug qdev_hot_added qdev_hot_removed unattached_count reset_handlers deleted world].
  by rewrite delete_insert_eq.
Qed.

Lemma find_none_held nm o : held_by o = [] → find_prop nm (properties o) = None ∨ ∃ n, find_prop nm (properties o) = Some (n, None).
Proof.
  unfold held_by, find_prop. induction (properties o) as [|[n [c|]] l IH]; cbn [omap list_omap snd List.find fst]; [by left|done|].
  intros Hh. destruct (String.eqb n nm); [right; by eexists|by apply IH].
Qed.
Lemma remove_first_absent {A} (f : A → bool) l : List.find f l = None → remove_first f l = l.
Proof. induction l as [|x l IH]; cbn; [done|]. destruct (f x); [done|]. intros E. by rewrite IH. Qed.
Lemma prop_del_quiet fuel b nm o s :
  objs s !! b = Some o → held_by o = [] → object_property_del fuel b nm s = Ok (put b (set_properties (remove_prop nm (properties o)) o) s).
Proof.
  intros E Hh. unfold object_property_del. rewrite (get_obj_ok b o s E). cbn [mbind res_bind]. destruct (find_none_held nm o Hh) as [Hf|[n Hf]]; rewrite Hf.
  - unfold remove_prop, find_prop in *. rewrite remove_first_absent by done. f_equal. rewrite <-(put_same b o s E) at 1. by destruct o.
  - cbn [mbind res_bind]. by rewrite (get_obj_ok b o s E).
Qed.
Lemma held_remove nm ps : omap snd ps = [] → omap snd (remove_prop nm ps) = ([] : list Z).
Proof.
  unfold remove_prop. induction ps as [|[n [c|]] l IH]; cbn [omap list_omap snd remove_first fst]; [done|done|]. intros Hh.
  destruct (String.eqb n nm); [done|]. cbn [omap list_omap snd]. by apply IH.
Qed.

Lemma filter_all {A} (P : A → Prop) `{!∀ x, Decision (P x)} (l : list A) : Forall P l → filter P l = l.
Proof. induction 1 as [|x l Hx _ IH]; [done|]. by rewrite filter_cons_True, IH. Qed.
Lemma filter_none {A} (P : A → Prop) `{!∀ x, Decision (P x)} (l : list A) : Forall (λ x, ¬ P x) l → filter P l = [].
Proof. induction 1 as [|x l Hx _ IH]; [done|]. by rewrite filter_cons_False, IH. Qed.

(** The property that holds [a] is found by its object and by its name. *)
Lemma the_child ps a n :
  NoDup ps.*1 → filter (λ p : string * option Z, p.2 = Some a) ps = [(n, Some a)] →
  List.find (is_child a) ps = Some (n, Some a) ∧ find_prop n ps = Some (n, Some a) ∧ remove_prop n ps = filter (λ p, p.2 ≠ Some a) ps.
Proof.
  unfold find_prop, remove_prop. induction ps as [|[m c] ps IH]; [done|]. cbn [fmap list_fmap fst]. rewrite NoDup_cons. intros [Hm Hnd] Hf.
  destruct (decide (c = Some a)) as [->|Hc].
  - rewrite filter_cons_True in Hf by done. injection Hf as -> Hf. cbn [List.find is_child snd fst remove_first]. rewrite Z.eqb_refl, String.eqb_refl.
    split; [done|]. split; [done|]. rewrite filter_cons_False by (cbn; tauto). symmetry. apply filter_all, Forall_forall. intros q Hq Hq2.
    assert (Hin : q ∈ filter (λ p : string * option Z, p.2 = Some a) ps) by by apply list_elem_of_filter. rewrite Hf in Hin. by apply not_elem_of_nil in Hin.
  - rewrite filter_cons_False in Hf by done. destruct (IH Hnd Hf) as (H1 & H2 & H3).
    assert (Hne : String.eqb m n = false).
    { apply String.eqb_neq. intros ->. apply Hm. assert (Hin : (n, Some a) ∈ filter (λ p : string * option Z, p.2 = Some a) ps) by (rewrite Hf; by left).
      apply list_elem_of_filter in Hin as [_ Hin]. apply list_elem_of_fmap. by exists (n, Some a). }
    cbn [List.find is_child snd fst remove_first]. rewrite Hne, H2, H3. rewrite filter_cons_True by done. split; [|done].
    destruct c as [c|]; unfold is_child; cbn [snd]; fold (is_child a); [|exact H1]. rewrite (proj2 (Z.eqb_neq c a)) by congruence. exact H1.
Qed.
Lemma one_child (ps : list (string * option Z)) a : NoDup (omap snd ps) → a ∈ omap snd ps → ∃ n, filter (λ p, p.2 = Some a) ps = [(n, Some a)].
Proof.
  induction ps as [|[n [c|]] ps IH]; cbn [omap list_omap snd]; [by intros _ []%not_elem_of_nil| |].
  - rewrite NoDup_cons, elem_of_cons. intros [Hc Hnd] [->|Hin].
    + exists n. rewrite filter_cons_True by done. f_equal. apply filter_none, Forall_forall. intros [m q] Hq Hq2. cbn in Hq2. subst q. apply Hc. apply list_elem_of_omap. by exists (m, Some c).
    + rewrite filter_cons_False; [by apply IH|]. cbn. intros [= ->]. done.
  - intros Hnd Hin. rewrite filter_cons_False by done. by apply IH.
Qed.
Lemma del_child_spec fuel c a oc oa n s :
  c ≠ a → objs s !! c = Some oc → objs s !! a = Some oa → 1 < ref oa → NoDup (properties oc).*1 → filter (λ p, p.2 = Some a) (properties oc) = [(n, Some a)] →
  object_property_del_child (S fuel) c a s = Ok (put c (set_properties (filter (λ p, p.2 ≠ Some a) (properties oc)) oc) (put a (set_ref (ref oa - 1) oa) s)).
Proof.
  intros Hne Ec Ea Hr Hnd Hf. destruct (the_child _ _ _ Hnd Hf) as (H1 & H2 & H3). unfold object_property_del_child. rewrite (get_obj_ok c oc s Ec). cbn [mbind res_bind].
  rewrite H1. unfold object_property_del. rewrite (get_obj_ok c oc s Ec). cbn [mbind res_bind]. rewrite H2, (unref_dec fuel a oa s Ea Hr). cbn [mbind res_bind].
  rewrite (get_obj_ok c oc) by (unfold put; cbn [set_objs objs]; by rewrite lookup_insert_ne). cbn [mbind res_bind]. by rewrite H3.
Qed.

(** [device_set_realized] to [false] of a realized device. *)
Lemma unrealize_spec a o d s :
  objs s !! a = Some o → body o = KDev d → realized d = true → is_Some (classes (d_typename d)) →
  ∃ e d', device_set_realized a false s = Ok (e, put a (set_body (KDev d') o) (set_world (retire (objs s) a (world s)) s)) ∧ (d' = d ∨ d' = set_realized false d).
Proof.
  intros E Eb Hre [c Hc]. unfold device_set_realized. rewrite (get_dev_ok a o d s E Eb). cbn [mbind res_bind]. unfold get_class. rewrite Hc. cbn [mbind res_bind andb negb]. rewrite Hre.
  set (w := if dc_vmsd c then vmstate_unregister a (world s) else world s).
  assert (Er : retire (objs s) a (world s) = match dc_unrealize c with Some f => (f a w).2 | None => w end) by (unfold retire; by rewrite E, Eb, Hc, Hre).
  rewrite Er.
  assert (Es : (if dc_vmsd c then set_world (vmstate_unregister a (world s)) s else s) = set_world w s) by (unfold w; destruct (dc_vmsd c); [done|by destruct s]). rewrite Es.
  change (world (set_world w s)) with w. set (e := match dc_unrealize c with Some f => (f a w).1 | None => false end). set (w' := match dc_unrealize c with Some f => (f a w).2 | None => w end).
  assert (Ef : match dc_unrealize c with Some f => let '(e, w0) := f a w in (e, set_world w0 (set_world w s)) | None => (false, set_world w s) end = (e, set_world w' s)).
  { unfold e, w'. destruct (dc_unrealize c) as [f|]; [|done]. by destruct (f a w). }
  rewrite Ef. cbn [mbind res_bind]. exists e. destruct e.
  - exists d. split; [|by left]. rewrite put_same; [done|]. cbn [set_world objs]. rewrite E. f_equal. destruct o. cbn in *. by subst.
  - exists (set_realized false d). split; [|by right]. rewrite (get_dev_ok a o d) by done. cbn [mbind res_bind]. by rewrite (put_dev_eq a o).
Qed.

Lemma bus_remove_child_spec fuel b a i ob B oa s :
  a ≠ b → objs s !! b = Some ob → body ob = KBus B → held_by ob = [] → List.find (λ k, k.2 =? a) (children B) = Some (i, a) → objs s !! a = Some oa → 1 < ref oa →
  bus_remove_child (S fuel) b a s = Ok (put a (set_ref (ref oa - 1) oa)
    (put b (mkO (ref ob) (parent ob) (remove_prop (child_name i) (properties ob)) (KBus (set_children (max_index B) (remove_first (λ k, k.2 =? a) (children B)) B))) s)).
Proof.
  intros Hne Eb Ebb Hh Hf Ea Hr. unfold bus_remove_child. rewrite (get_bus_ok b ob B s Eb Ebb). cbn [mbind res_bind]. rewrite Hf, (put_bus_eq b ob) by done. cbn [mbind res_bind].
  set (ob' := set_body _ ob). rewrite (prop_del_quiet _ b _ ob'); [|by apply lookup_insert_eq|done]. cbn [mbind res_bind]. rewrite put_put.
  rewrite (unref_dec fuel a oa); [done| |done]. unfold put. cbn [set_objs objs]. by rewrite lookup_insert_ne.
Qed.

(** *** Frames *)

Lemma prune_body L o : body (prune L o) = body o.
Proof. unfold prune. by destruct (body o) eqn:E. Qed.
Lemma prune_other L o : body o ≠ KContainer → prune L o = o.
Proof. unfold prune. by destruct (body o). Qed.
Lemma prune_nil o : prune [] o = o.
Proof.
  unfold prune. destruct (body o) eqn:E; [done|done|]. rewrite filter_all; [by destruct o|]. apply Forall_forall. by intros p _ c ?%not_elem_of_nil.
Qed.
Lemma prune_app L1 L2 o : prune (L1 ++ L2) o = prune L2 (prune L1 o).
Proof.
  unfold prune, set_properties. destruct o as [r pa ps [d|b|]]; cbn [body ref parent properties]; [done|done|]. f_equal. rewrite list_filter_filter.
  apply list_filter_iff. intros p. unfold keeps. split.
  - intros Hk. split; intros c Hc; apply Hk, elem_of_app; auto.
  - intros [H1 H2] c [Hc|Hc]%elem_of_app; auto.
Qed.
Definition rkey (o : Object) : option (string * bool) := match body o with KDev d => Some (d_typename d, realized d) | _ => None end.
Lemma retire_same m m' a w : rkey <$> m' !! a = rkey <$> m !! a → retire m' a w = retire m a w ∧ was_realized m' a = was_realized m a.
Proof.
  unfold retire, was_realized, rkey. destruct (m' !! a) as [o'|], (m !! a) as [o|]; cbn; intros E; try done. injection E as E.
  destruct (body o'), (body o); try done. by injection E as -> ->.
Qed.
Lemma retire_fold m m' L w : (∀ a, a ∈ L → rkey <$> m' !! a = rkey <$> m !! a) →
  foldl (λ w a, retire m' a w) w L = foldl (λ w a, retire m a w) w L ∧ filter (λ a, was_realized m' a = true) L = filter (λ a, was_realized m a = true) L.
Proof.
  revert w. induction L as [|a L IH]; intros w Hb; [done|]. cbn [foldl]. destruct (retire_same m m' a w (Hb a ltac:(by left))) as [-> Ew].
  destruct (IH (retire m a w)) as [H1 H2]; [intros; apply Hb; by right|]. split; [exact H1|]. destruct (was_realized m a) eqn:E.
  - rewrite !filter_cons_True by congruence. by rewrite H2.
  - rewrite !filter_cons_False by congruence. exact H2.
Qed.

Lemma removed_trans x L1 L1' L2 L2' s1 s2 s3 :
  removed x L1 L1' s1 s2 → removed x L2 L2' s2 s3 → (∀ a, a ∈ L2 → a ∉ L1) → (∀ a, a ∈ L2' → a ∈ L2 ∧ a ≠ x) → x ∉ L1 →
  removed x (L1 ++ L2) (L1' ++ L2') s1 s3.
Proof.
  intros [G1 R1 W1 D1 F1] [G2 R2 W2 D2 F2] Hd Hs Hx. split.
  - intros a. rewrite elem_of_app. intros [Ha|Ha]; [|by apply G2]. destruct (decide (a ∈ L2)) as [Ha2|Ha2]; [by apply G2|]. rewrite R2, G1 by (done || congruence). done.
  - intros a. rewrite not_elem_of_app. intros [H1 H2] Hne. rewrite R2, R1 by done. destruct (objs s1 !! a); cbn; [|done]. by rewrite prune_app.
  - destruct (retire_fold (objs s1) (objs s2) L2' (world s2)) as [E _].
    { intros a Ha. destruct (Hs a Ha) as [Ha2 Hne]. rewrite R1 by auto. destruct (objs s1 !! a); cbn; [unfold rkey; by rewrite prune_body|done]. }
    by rewrite W2, E, W1, foldl_app.
  - destruct (retire_fold (objs s1) (objs s2) L2' (world s2)) as [_ E].
    { intros a Ha. destruct (Hs a Ha) as [Ha2 Hne]. rewrite R1 by auto. destruct (objs s1 !! a); cbn; [unfold rkey; by rewrite prune_body|done]. }
    by rewrite D2, E, D1, filter_app, app_assoc.
  - congruence.
Qed.
Lemma removed_nil x s : removed x [] [] s s.
Proof. split; [by intros a ?%not_elem_of_nil| |done|by rewrite app_nil_r|done]. intros a _ _. destruct (objs s !! a); cbn; [by rewrite prune_nil|done]. Qed.

Lemma post_ids : (∀ t x, x ∈ post_d t → x ∈ ids_d t) ∧ (∀ bs x, x ∈ post_b bs → x ∈ ids_b bs) ∧ (∀ ks x, x ∈ post_k ks → x ∈ ids_k ks).
Proof.
  apply tree_ind.
  - intros a bs IH x. cbn [post_d ids_d]. rewrite elem_of_app, list_elem_of_singleton, elem_of_cons. intros [Hx|Hx]; auto.
  - done.
  - intros b ks IHk bs IHb x. cbn [post_b ids_b]. rewrite elem_of_app, elem_of_cons, elem_of_app. intros [Hx|Hx]; auto.
  - done.
  - intros i t IHt ks IHk x. cbn [post_k ids_k]. rewrite !elem_of_app. intros [Hx|Hx]; auto.
Qed.
Definition solid (m : gmap Z Object) (L : list Z) : Prop := ∀ x, x ∈ L → ∃ o, m !! x = Some o ∧ body o ≠ KContainer.
Lemma rep_solid m :
  (∀ t b, rep_d m b t → solid m (ids_d t)) ∧ (∀ bs a, rep_b m a bs → solid m (ids_b bs)) ∧ (∀ ks b, rep_k m b ks → solid m (ids_k ks)).
Proof.
  apply tree_ind.
  - intros a bs IH b [(c & ps & d & E & _) Hb] x. cbn [ids_d]. rewrite elem_of_cons. intros [->|Hx]; [by eexists|by eapply IH].
  - by intros a _ x ?%not_elem_of_nil.
  - intros b ks IHk bs IHb a ((ps & B & E & _) & Hk & Hb) x. cbn [ids_b]. rewrite elem_of_cons, elem_of_app. intros [->|[Hx|Hx]]; [by eexists|by eapply IHk|by eapply IHb].
  - by intros b _ x ?%not_elem_of_nil.
  - intros i t IHt ks IHk b [Ht Hk] x. cbn [ids_k]. rewrite elem_of_app. intros [Hx|Hx]; [by eapply IHt|by eapply IHk].
Qed.
(** A tree is there as long as its objects are as they were and its devices are held. *)
Lemma rep_frame m m' :
  (∀ t b, (∀ y, y ∈ ids_d t → m' !! y = m !! y ∧ ∀ c, holds m c y → holds m' c y) → rep_d m b t → rep_d m' b t) ∧
  (∀ bs a, (∀ y, y ∈ ids_b bs → m' !! y = m !! y ∧ ∀ c, holds m c y → holds m' c y) → rep_b m a bs → rep_b m' a bs) ∧
  (∀ ks b, (∀ y, y ∈ ids_k ks → m' !! y = m !! y ∧ ∀ c, holds m c y → holds m' c y) → rep_k m b ks → rep_k m' b ks).
Proof.
  apply tree_ind.
  - intros a bs IH b Hy [(c & ps & d & E & H1 & H2 & H3 & H4 & H5 & H6 & H7) Hb]. destruct (Hy a ltac:(by left)) as [Ea Ha]. split.
    + exists c, ps, d. rewrite Ea. split_and!; auto.
    + apply IH; [|done]. intros y Hin. apply Hy. by right.
  - done.
  - intros b ks IHk bs IHb a Hy ((ps & B & E & H1 & H2 & H3) & Hk & Hb). destruct (Hy b ltac:(by left)) as [Eb _]. split; [|split].
    + exists ps, B. by rewrite Eb.
    + apply IHk; [|done]. intros y Hin. apply Hy. right. apply elem_of_app. by left.
    + apply IHb; [|done]. intros y Hin. apply Hy. right. apply elem_of_app. by right.
  - done.
  - intros i t IHt ks IHk b Hy [Ht Hk]. split; [apply IHt|apply IHk]; try done; intros y Hin; apply Hy, elem_of_app; auto.
Qed.

Lemma holds_removed x L L' s s' c a :
  removed x L L' s s' → solid (objs s) (x :: L) → (∃ o, objs s' !! x = Some o ∧ body o ≠ KContainer) → a ∉ L' → holds (objs s) c a → holds (objs s') c a.
Proof.
  intros [G R _ _ _] Hs (ox & Ex & Hox) Ha [(o & n & Ec & Hk & Hnd & Hf) Ho].
  assert (Hout : ∀ c o, objs s !! c = Some o → body o = KContainer → c ∉ L ∧ c ≠ x).
  { intros c0 o0 E0 H0. split; [intros Hin|intros ->]; [destruct (Hs c0) as (o1 & E1 & H1); [by right|]|destruct (Hs x) as (o1 & E1 & H1); [by left|]]; congruence. }
  destruct (Hout c o Ec Hk) as [Hc1 Hc2]. split.
  - exists (prune L' o), n. rewrite R, Ec by done. split; [done|]. rewrite prune_body. split; [done|]. unfold prune. rewrite Hk. cbn [set_properties properties]. split.
    + eapply sublist_NoDup; [exact Hnd|]. apply fmap_sublist, sublist_filter.
    + rewrite list_filter_filter. rewrite <-Hf. apply list_filter_iff. intros p. split; [tauto|]. intros Hp. split; [done|]. intros y Hy. rewrite Hp. congruence.
  - intros c' o' Ec' Hk' Hne. assert (Hc' : c' ∉ L ∧ c' ≠ x) by (split; [intros Hin; rewrite (G c' Hin) in Ec'; done|congruence]).
    rewrite R in Ec' by tauto. destruct (objs s !! c') as [o0|] eqn:E0; [|done]. cbn in Ec'. injection Ec' as <-. rewrite prune_body in Hk'. pose proof (Ho c' o0 E0 Hk' Hne) as Hall.
    unfold prune. rewrite Hk'. cbn [set_properties properties]. rewrite Forall_forall in Hall |- *. intros p [_ Hp]%list_elem_of_filter. by apply Hall.
Qed.
Lemma rest_same x L L' s s' y : removed x L L' s s' → y ∉ L → y ≠ x → (∃ o, objs s !! y = Some o ∧ body o ≠ KContainer) → objs s' !! y = objs s !! y.
Proof. intros [_ R _ _ _] H1 H2 (o & E & Hb). rewrite R, E by done. cbn. by rewrite prune_other. Qed.

Lemma prune_one a o : body o = KContainer → prune [a] o = set_properties (filter (λ p, p.2 ≠ Some a) (properties o)) o.
Proof.
  intros E. unfold prune. rewrite E. f_equal. apply list_filter_iff. intros p. unfold keeps. split; [intros Hk; apply Hk; by left|]. by intros Hp c ->%list_elem_of_singleton.
Qed.
Lemma prune_unheld a o : (body o = KContainer → Forall (λ p, p.2 ≠ Some a) (properties o)) → prune [a] o = o.
Proof.
  intros Hf. destruct (body o) eqn:E; [unfold prune; by rewrite E..|]. rewrite prune_one, filter_all by auto. by destruct o.
Qed.
Lemma holds_put m x o o' c a : m !! x = Some o → body o ≠ KContainer → body o' ≠ KContainer → holds m c a → holds (<[x := o']> m) c a.
Proof.
  intros Ex Ho Ho' [(oc & n & Ec & Hk & H) Hall]. assert (x ≠ c) by congruence. split; [exists oc, n; by rewrite lookup_insert_ne|].
  intros c' o0 E0 Hk0 Hne. destruct (decide (x = c')) as [<-|]; [rewrite lookup_insert_eq in E0; congruence|]. rewrite lookup_insert_ne in E0 by done. by eapply Hall.
Qed.
Lemma rep_put m x o o' : m !! x = Some o → body o ≠ KContainer → body o' ≠ KContainer →
  (∀ bs a, x ∉ ids_b bs → rep_b m a bs → rep_b (<[x := o']> m) a bs) ∧ (∀ ks b, x ∉ ids_k ks → rep_k m b ks → rep_k (<[x := o']> m) b ks).
Proof.
  intros E Ho Ho'. split; [intros bs a Hx|intros ks b Hx]; apply rep_frame; intros y Hy; (split; [apply lookup_insert_ne; congruence|]); intros c; by apply (holds_put m x o).
Qed.

Ltac look :=
  unfold put; cbn [set_objs set_world set_deleted objs];
  repeat first [rewrite lookup_insert_eq | rewrite lookup_insert_ne by congruence | rewrite lookup_delete_eq | rewrite lookup_delete_ne by congruence]; try done.

Definition small (K : nat) (m : gmap Z Object) (L : list Z) : Prop := ∀ y o, y ∈ L → m !! y = Some o → (length (properties o) < K)%nat.

Definition free_d_spec (t : dtree) : Prop := ∀ K fuel s b i ob B,
  objs s !! b = Some ob → body ob = KBus B → held_by ob = [] → 1 < ref ob → List.find (λ k, k.2 =? root t) (children B) = Some (i, root t) →
  rep_d (objs s) b t → NoDup (b :: ids_d t) → small K (objs s) (b :: ids_d t) → (size_d t + K ≤ fuel)%nat →
  ∃ s', object_unparent fuel (root t) s = Ok s' ∧ removed b (ids_d t) (post_d t) s s' ∧
    objs s' !! b = Some (mkO (ref ob - 1) (parent ob) (remove_prop (child_name i) (properties ob))
                       (KBus (set_children (max_index B) (remove_first (λ k, k.2 =? root t) (children B)) B))).
Definition free_k_spec (ks : klist) : Prop := ∀ K fuel n s b ob B r,
  objs s !! b = Some ob → body ob = KBus B → held_by ob = [] → ref ob = r + Z.of_nat (length (kids ks)) → 1 ≤ r → children B = kids ks →
  rep_k (objs s) b ks → NoDup (b :: ids_k ks) → small K (objs s) (b :: ids_k ks) → (size_k ks + K ≤ fuel)%nat → (length (kids ks) < n)%nat →
  ∃ s' ps, free_children (object_unparent fuel) n b s = Ok s' ∧ removed b (ids_k ks) (post_k ks) s s' ∧
    objs s' !! b = Some (mkO r (parent ob) ps (KBus (set_children (max_index B) [] B))) ∧ omap snd ps = ([] : list Z) ∧ (length ps ≤ length (properties ob))%nat.
Definition free_b_spec (bs : blist) : Prop := ∀ K fuel n s a oa d,
  objs s !! a = Some oa → body oa = KDev d → child_bus d = bids bs → num_child_bus d = Z.of_nat (length (bids bs)) →
  held_by oa ≡ₚ bids bs → NoDup (properties oa).*1 → rep_b (objs s) a bs → NoDup (a :: ids_b bs) → small K (objs s) (a :: ids_b bs) →
  (size_b bs + K ≤ fuel)%nat → (length (bids bs) < n)%nat →
  ∃ s' ps, free_buses (object_unparent fuel) n a s = Ok s' ∧ removed a (ids_b bs) (post_b bs) s s' ∧
    objs s' !! a = Some (mkO (ref oa) (parent oa) ps (KDev (set_child_bus [] 0 d))) ∧ omap snd ps = ([] : list Z) ∧ (length ps ≤ length (properties oa))%nat.

(** Only the objects [X] may differ. *)
Record same_but (X : list Z) (s s' : Sys W) : Prop := {
  sb_objs : ∀ y, y ∉ X → objs s' !! y = objs s !! y;
  sb_world : world s' = world s;
  sb_deleted : deleted s' = deleted s;
  sb_fields : fields s' = fields s;
}.

Lemma unparent_unrealize a o d s : objs s !! a = Some o → body o = KDev d → is_Some (classes (d_typename d)) →
  ∃ d', (if realized d then '(_, s) ← device_set_realized a false s; Ok s else Ok s) = Ok (put a (set_body (KDev d') o) (set_world (retire (objs s) a (world s)) s)) ∧
    parent_bus d' = parent_bus d.
Proof.
  intros E Eb Hc. destruct (realized d) eqn:Hr.
  - destruct (unrealize_spec a o d s E Eb Hr Hc) as (e & d' & E' & Hd'). exists d'. rewrite E'. split; [done|]. by destruct Hd' as [-> | ->].
  - exists d. split; [|done]. assert (Ew : retire (objs s) a (world s) = world s) by (unfold retire; rewrite E, Eb, Hr; by destruct (classes _)).
    rewrite Ew, put_same; [by destruct s|]. cbn [set_world objs]. rewrite E. f_equal. destruct o. cbn in Eb. by subst.
Qed.

(** The device leaves its bus. *)
Lemma leave_bus fuel a b i ob B oa d s :
  a ≠ b → objs s !! b = Some ob → body ob = KBus B → held_by ob = [] → 1 < ref ob → List.find (λ k, k.2 =? a) (children B) = Some (i, a) →
  objs s !! a = Some oa → body oa = KDev d → 1 < ref oa →
  ∃ s', (s ← bus_remove_child (S fuel) b a s; s ← object_unref (S fuel) b s; '(_, d) ← get_dev a s; put_dev a (set_parent_bus None d) s) = Ok s' ∧ same_but [a; b] s s' ∧
    objs s' !! a = Some (mkO (ref oa - 1) (parent oa) (properties oa) (KDev (set_parent_bus None d))) ∧
    objs s' !! b = Some (mkO (ref ob - 1) (parent ob) (remove_prop (child_name i) (properties ob)) (KBus (set_children (max_index B) (remove_first (λ k, k.2 =? a) (children B)) B))).
Proof.
  intros Hne Eb Ebb Hh Hrb Hf Ea Eab Hra. rewrite (bus_remove_child_spec fuel b a i ob B oa s) by done. cbn [mbind res_bind].
  set (ob' := mkO (ref ob) _ _ _). set (s1 := put a _ _). assert (E1 : objs s1 !! b = Some ob') by (unfold s1; look).
  rewrite (unref_dec fuel b ob' s1 E1 Hrb). cbn [mbind res_bind]. set (s2 := put b _ s1). assert (E2 : objs s2 !! a = Some (set_ref (ref oa - 1) oa)) by (unfold s2, s1; look).
  rewrite (get_dev_ok a _ d s2 E2) by done. cbn [mbind res_bind]. rewrite (put_dev_eq a _ _ s2 E2). eexists. split; [reflexivity|]. split; [split; try done|].
  - intros y Hy. rewrite !not_elem_of_cons in Hy. destruct Hy as (H1 & H2 & _). unfold s2, s1. look.
  - split; [unfold s2, s1; look|]. unfold s2, s1. look.
Qed.

(** The parent drops its property, and the last reference goes. *)
Lemma leave_parent fuel a c n oc oa s :
  c ≠ a → objs s !! c = Some oc → NoDup (properties oc).*1 → filter (λ p, p.2 = Some a) (properties oc) = [(n, Some a)] →
  objs s !! a = Some oa → parent oa = Some c → ref oa = 2 → held_by oa = [] → (length (properties oa) < fuel)%nat →
  ∃ s', (o ← get_obj a s; s ← (match parent o with Some p => object_property_del_child (S fuel) p a s | None => Ok s end); object_unref (S fuel) a s) = Ok s' ∧
    same_but [a; c] s s' ∧ objs s' !! a = None ∧ objs s' !! c = Some (set_properties (filter (λ p, p.2 ≠ Some a) (properties oc)) oc).
Proof.
  intros Hne Ec Hnd Hf Ea Hpa Hr Hh Hn. rewrite (get_obj_ok a oa s Ea). cbn [mbind res_bind]. rewrite Hpa. rewrite (del_child_spec fuel c a oc oa n s) by (done || lia). cbn [mbind res_bind].
  set (s1 := put c _ _). assert (E1 : objs s1 !! a = Some (set_ref (ref oa - 1) oa)) by (unfold s1; look).
  rewrite (unref_last fuel a _ s1 E1); [|cbn; lia|done|done]. eexists. split; [reflexivity|]. split; [split; try done|].
  - intros y Hy. rewrite !not_elem_of_cons in Hy. destruct Hy as (H1 & H2 & _). unfold s1. look.
  - split; [unfold s1; look|]. unfold s1. look.
Qed.

Lemma small_put K m x o o' L : m !! x = Some o → (length (properties o') ≤ length (properties o))%nat → small K m L → small K (<[x := o']> m) L.
Proof.
  intros E Hle Hs y oy Hy. destruct (decide (x = y)) as [<-|Hne]; [rewrite lookup_insert_eq; intros [= <-]; pose proof (Hs x o Hy E); lia|].
  rewrite lookup_insert_ne by done. by apply Hs.
Qed.

(** What the end of [device_unparent] and of [object_unparent] make of a removal of the buses. *)
Lemma removed_device a bs b c oa d s s1 s2 s' :
  objs s !! a = Some oa → body oa = KDev d → s1 = put a (set_ref (ref oa + 1) oa) s → removed a (ids_b bs) (post_b bs) s1 s2 →
  a ≠ b → c ≠ a → c ≠ b → a ∉ ids_b bs → rkey <$> objs s2 !! a = rkey <$> objs s !! a → holds (objs s2) c a → (∃ o, objs s2 !! b = Some o ∧ body o ≠ KContainer) →
  (∀ y, y ≠ a → y ≠ b → y ≠ c → objs s' !! y = objs s2 !! y) → objs s' !! a = None →
  (∀ oc, objs s2 !! c = Some oc → objs s' !! c = Some (set_properties (filter (λ p, p.2 ≠ Some a) (properties oc)) oc)) →
  world s' = retire (objs s2) a (world s2) → deleted s' = deleted s2 ++ (if realized d then [a] else []) → fields s' = fields s2 →
  removed b (a :: ids_b bs) (post_b bs ++ [a]) s s'.
Proof.
  intros Ea Eab -> Hrm Hab Hca Hcb Hnin Hkey [(oc & n & Ec & Hk & _) Hall] (o2 & Eb2 & Hb2) Hsame Hgone Hc Hw Hdel Hfld.
  assert (Hin : ∀ y, y ∈ post_b bs → y ≠ a) by (intros y Hy ->; by apply Hnin, post_ids).
  assert (Hfold : foldl (λ w y, retire (objs (put a (set_ref (ref oa + 1) oa) s)) y w) (world s) (post_b bs) = foldl (λ w y, retire (objs s) y w) (world s) (post_b bs) ∧
    filter (λ y, was_realized (objs (put a (set_ref (ref oa + 1) oa) s)) y = true) (post_b bs) = filter (λ y, was_realized (objs s) y = true) (post_b bs)).
  { apply retire_fold. intros y Hy. unfold put. cbn [set_objs objs]. rewrite lookup_insert_ne by (apply not_eq_sym; auto). done. }
  destruct Hrm as [G R Hw2 Hd2 Hf2]. destruct (retire_same (objs s) (objs s2) a (world s2) Hkey) as [Hr1 Hr2]. split.
  - intros y. rewrite elem_of_cons. intros [->|Hy]; [done|]. assert (y ≠ a) by congruence. assert (y ≠ b) by (intros ->; rewrite (G b Hy) in Eb2; done).
    assert (y ≠ c) by (intros ->; rewrite (G c Hy) in Ec; done). rewrite Hsame by done. by apply G.
  - intros y. rewrite not_elem_of_cons. intros [Hya Hyi] Hyb. assert (R' : objs s2 !! y = prune (post_b bs) <$> objs s !! y).
    { rewrite R by done. unfold put. cbn [set_objs objs]. by rewrite lookup_insert_ne. }
    destruct (decide (y = c)) as [->|Hyc].
    + rewrite (Hc oc Ec). rewrite Ec in R'. destruct (objs s !! c) as [o0|]; cbn in R' |- *; [|done]. injection R' as ->. rewrite prune_app, prune_one by done. done.
    + rewrite Hsame, R' by done. destruct (objs s !! y) as [o0|] eqn:E0; cbn in R' |- *; [|done]. rewrite prune_app, (prune_unheld a (prune (post_b bs) o0)); [done|].
      intros Hk0. by apply (Hall y).
  - rewrite Hw, Hr1, Hw2. change (world (put a (set_ref (ref oa + 1) oa) s)) with (world s). by rewrite (proj1 Hfold), foldl_app.
  - rewrite Hdel, Hd2. change (deleted (put a (set_ref (ref oa + 1) oa) s)) with (deleted s). rewrite (proj2 Hfold), filter_app, app_assoc. f_equal.
    assert (Ew : was_realized (objs s) a = realized d) by (unfold was_realized; by rewrite Ea, Eab). destruct (realized d) eqn:E.
    + by rewrite filter_cons_True.
    + rewrite filter_cons_False by congruence. done.
  - by rewrite Hfld, Hf2.
Qed.

(** [device_unparent] of a device on a bus, up to the references of [object_unparent]. *)
Lemma device_unparent_ok a bs K fuel s b i c ps d ob B :
  free_b_spec bs → objs s !! a = Some (mkO 3 (Some c) ps (KDev d)) → parent_bus d = Some b → child_bus d = bids bs → num_child_bus d = Z.of_nat (length (bids bs)) →
  is_Some (classes (d_typename d)) → omap snd ps ≡ₚ bids bs → NoDup ps.*1 → rep_b (objs s) a bs →
  objs s !! b = Some ob → body ob = KBus B → held_by ob = [] → 1 < ref ob → List.find (λ k, k.2 =? a) (children B) = Some (i, a) →
  NoDup (b :: a :: ids_b bs) → small K (objs s) (a :: ids_b bs) → (size_b bs + K ≤ S fuel)%nat → (length (bids bs) < S fuel)%nat →
  ∃ s' s2 ps' d', device_unparent (object_unparent (S fuel)) (S fuel) a s = Ok s' ∧ removed a (ids_b bs) (post_b bs) s s2 ∧ (∀ y, y ≠ a → y ≠ b → objs s' !! y = objs s2 !! y) ∧
    objs s' !! a = Some (mkO 2 (Some c) ps' (KDev d')) ∧ omap snd ps' = ([] : list Z) ∧ (length ps' ≤ length ps)%nat ∧
    rkey <$> objs s2 !! a = rkey <$> objs s !! a ∧ objs s2 !! b = Some ob ∧
    objs s' !! b = Some (mkO (ref ob - 1) (parent ob) (remove_prop (child_name i) (properties ob)) (KBus (set_children (max_index B) (remove_first (λ k, k.2 =? a) (children B)) B))) ∧
    world s' = retire (objs s2) a (world s2) ∧ deleted s' = deleted s2 ++ (if realized d then [a] else []) ∧ fields s' = fields s2.
Proof.
  intros Hspec Ea Hpb Hcb Hnum Hcl Hperm Hnd Hrep Eb Ebb Hh Hrb Hf Hids Hsm Hfu Hn. apply NoDup_cons in Hids as [Hb Hids]. rewrite not_elem_of_cons in Hb. destruct Hb as [Hba Hbi].
  destruct (Hspec K (S fuel) (S fuel) s a _ d Ea eq_refl Hcb Hnum Hperm Hnd Hrep Hids Hsm Hfu Hn) as (s2 & ps2 & E2 & Hrm & Ea2 & Hps2 & Hlen).
  assert (Eb2 : objs s2 !! b = Some ob) by (rewrite (rest_same _ _ _ _ _ b Hrm) by (done || eexists; rewrite ?Ebb; done); done). cbn [ref parent properties] in *.
  unfold device_unparent. rewrite (get_dev_ok a _ d s Ea eq_refl). cbn [mbind res_bind]. rewrite E2. cbn [mbind res_bind]. rewrite (get_dev_ok a _ _ s2 Ea2 eq_refl). cbn [mbind res_bind].
  destruct (unparent_unrealize a _ (set_child_bus [] 0 d) s2 Ea2 eq_refl Hcl) as (d3 & E3 & Hp3). rewrite E3. cbn [mbind res_bind]. set (s3 := put a _ (set_world _ s2)).
  set (o3 := set_body (KDev d3) _) in s3. assert (Ea3 : objs s3 !! a = Some o3) by (unfold s3; look). rewrite (get_dev_ok a o3 d3 s3 Ea3 eq_refl). cbn [mbind res_bind]. rewrite Hp3. cbn [set_child_bus parent_bus]. rewrite Hpb.
  assert (Eb3 : objs s3 !! b = Some ob) by (unfold s3; look).
  destruct (leave_bus fuel a b i ob B o3 d3 s3) as (s4 & E4 & Hsb & Ea4 & Eb4); [done..|].
  rewrite E4. cbn [mbind res_bind]. set (s' := if realized d then _ else _). exists s', s2, ps2, (set_parent_bus None d3).
  assert (Es : objs s' = objs s4 ∧ world s' = world s4 ∧ fields s' = fields s4 ∧ deleted s' = deleted s4 ++ (if realized d then [a] else [])).
  { unfold s'. destruct (realized d); [done|]. split_and!; try done. by rewrite app_nil_r. }
  destruct Es as (Eo & Ew & Ef & Ed). rewrite Eo. split; [done|]. split; [done|]. split.
  { intros y Hya Hyb. rewrite (sb_objs _ _ _ Hsb) by (rewrite !not_elem_of_cons; split_and!; [done|done|apply not_elem_of_nil]). unfold s3. look. }
  split; [exact Ea4|]. split; [done|]. split; [done|]. split; [by rewrite Ea2, Ea|]. split; [done|]. split; [exact Eb4|].
  split; [rewrite Ew, (sb_world _ _ _ Hsb); done|]. split; [rewrite Ed, (sb_deleted _ _ _ Hsb); done|]. rewrite Ef, (sb_fields _ _ _ Hsb). done.
Qed.

Lemma bids_size bs : (length (bids bs) ≤ size_b bs)%nat.
Proof. unfold size_b. induction bs as [|b ks bs IH]; cbn; [done|]. rewrite length_app. lia. Qed.
Lemma kids_size ks : (length (kids ks) ≤ size_k ks)%nat.
Proof.
  unfold size_k. induction ks as [|i t ks IH]; cbn; [done|].
  rewrite length_app. destruct t. cbn. lia.
Qed.

Lemma object_unparent_S fuel a s :
  object_unparent (S fuel) a s =
  unparent_with (λ a s, o ← get_obj a s;
                        match body o with
                        | KDev _ => device_unparent (object_unparent fuel) fuel a s
                        | KBus _ => bus_unparent (object_unparent fuel) fuel a s
                        | KContainer => Ok s
                        end) (S fuel) a s.
Proof. done. Qed.

Lemma free_device_step a bs : free_b_spec bs → free_d_spec (DT a bs).
Proof.
  intros Hspec K fuel s b i ob B Eb Ebb Hh Hrb Hf [(c & ps & d & Ea & Hpb & Hcb & Hnum & Hcl & Hperm & Hnd & Hholds) Hrep] Hids Hsm Hfu. cbn [root ids_d] in *.
  pose proof (Hsm a _ ltac:(right; by left) Ea) as HK. cbn [properties] in HK. unfold size_d in Hfu. cbn [ids_d length] in Hfu. fold (size_b bs) in Hfu. pose proof (bids_size bs) as Hbs.
  destruct fuel as [|[|f]]; [lia..|]. pose proof Hids as Hids'. apply NoDup_cons in Hids' as [Hb Hids']. apply NoDup_cons in Hids' as [Hai _]. rewrite not_elem_of_cons in Hb. destruct Hb as [Hba Hbi].
  set (oa := mkO 2 (Some c) ps (KDev d)) in Ea. set (s1 := put a (set_ref (ref oa + 1) oa) s). assert (Ea1 : objs s1 !! a = Some (mkO 3 (Some c) ps (KDev d))) by (unfold s1; look).
  assert (Eb1 : objs s1 !! b = Some ob) by (unfold s1; look).
  assert (Hrep1 : rep_b (objs s1) a bs) by (apply (rep_put (objs s) a oa); done).
  assert (Hsm1 : small K (objs s1) (a :: ids_b bs)) by (apply (small_put K (objs s) a oa); [done|done|]; intros y oy Hy; apply Hsm; by right).
  destruct (device_unparent_ok a bs K f s1 b i c ps d ob B) as (s3 & s2 & ps' & d' & E3 & Hrm & Hsame & Ea3 & Hps & Hlen & Hkey & Eb2 & Eb3 & Hw & Hdel & Hfld); try done; [lia..|].
  assert (Hca : c ≠ a) by (intros ->; destruct Hholds as [(o & n & Ec & Hk & _) _]; rewrite Ea in Ec; injection Ec as <-; done).
  assert (Hcb' : c ≠ b) by (intros ->; destruct Hholds as [(o & n & Ec & Hk & _) _]; rewrite Eb in Ec; injection Ec as <-; congruence).
  assert (Ha2 : ∃ o, objs s2 !! a = Some o ∧ body o ≠ KContainer).
  { destruct (objs s2 !! a) as [o|]; [|by rewrite Ea1 in Hkey]. exists o. split; [done|]. rewrite Ea1 in Hkey. cbn in Hkey. injection Hkey as Hkey. intros Hk. unfold rkey in Hkey. by rewrite Hk in Hkey. }
  assert (Hholds2 : holds (objs s2) c a).
  { apply (holds_removed a (ids_b bs) (post_b bs) s1 s2); [done| |done|by intros ?%post_ids|unfold s1, put; by apply (holds_put (objs s) a oa)].
    intros y [->|Hy]%elem_of_cons; [by eexists|]. by eapply (proj1 (proj2 (rep_solid (objs s1)))). }
  pose proof Hholds2 as [(oc & n & Ec2 & Hk & Hndc & Hfc) _]. assert (Ec3 : objs s3 !! c = Some oc) by (rewrite Hsame by done; done).
  destruct (leave_parent (S f) a c n oc _ s3 Hca Ec3 Hndc Hfc Ea3) as (s4 & E4 & Hsb & Ea4 & Ec4); [done|done|done|cbn; lia|].
  exists s4. split.
  { rewrite object_unparent_S. unfold unparent_with. rewrite (get_obj_ok a oa s Ea). cbn [mbind res_bind]. change (parent oa) with (Some c). cbv match. unfold object_ref. rewrite (get_obj_ok a oa s Ea). cbn [mbind res_bind].
    fold s1. rewrite (get_obj_ok a _ s1 Ea1). cbn [mbind res_bind body]. rewrite E3. exact E4. }
  assert (Hin : ∀ y, y ≠ a → y ≠ c → objs s4 !! y = objs s3 !! y) by (intros y H1 H2; apply (sb_objs _ _ _ Hsb); rewrite !not_elem_of_cons; split_and!; [done|done|apply not_elem_of_nil]).
  split; [|by rewrite Hin].
  apply (removed_device a bs b c oa d s s1 s2 s4); try done; [rewrite Hkey; unfold s1; look; by rewrite Ea|by eexists; rewrite ?Ebb| | | | |].
  - intros y H1 H2 H3. by rewrite Hin, Hsame.
  - intros oc' E'. rewrite Ec2 in E'. injection E' as <-. exact Ec4.
  - by rewrite (sb_world _ _ _ Hsb).
  - by rewrite (sb_deleted _ _ _ Hsb).
  - by rewrite (sb_fields _ _ _ Hsb).
Qed.


Lemma removed_bus b ks a ob s s2 s' :
  objs s !! b = Some ob → removed b (ids_k ks) (post_k ks) (put b (set_ref (ref ob + 1) ob) s) s2 → a ≠ b → a ∉ ids_k ks → b ∉ ids_k ks →
  (∀ y, y ≠ a → y ≠ b → objs s' !! y = objs s2 !! y) → objs s' !! b = None → world s' = world s2 → deleted s' = deleted s2 → fields s' = fields s2 →
  removed a (b :: ids_k ks) (post_k ks) s s'.
Proof.
  intros Eb [G R Hw2 Hd2 Hf2] Hab Ha Hb Hsame Hgone Hw Hdel Hfld. set (s1 := put b (set_ref (ref ob + 1) ob) s) in *.
  assert (Hfold : foldl (λ w y, retire (objs s1) y w) (world s) (post_k ks) = foldl (λ w y, retire (objs s) y w) (world s) (post_k ks) ∧
    filter (λ y, was_realized (objs s1) y = true) (post_k ks) = filter (λ y, was_realized (objs s) y = true) (post_k ks)).
  { apply retire_fold. intros y Hy%post_ids. unfold s1, put. cbn [set_objs objs]. by rewrite lookup_insert_ne by congruence. }
  split.
  - intros y. rewrite elem_of_cons. intros [->|Hy]; [done|]. assert (y ≠ a) by congruence. assert (y ≠ b) by congruence. rewrite Hsame by done. by apply G.
  - intros y. rewrite not_elem_of_cons. intros [Hyb Hyi] Hya. rewrite Hsame, R by done. unfold s1, put. cbn [set_objs objs]. by rewrite lookup_insert_ne.
  - rewrite Hw, Hw2. change (world s1) with (world s). apply Hfold.
  - rewrite Hdel, Hd2. change (deleted s1) with (deleted s). by rewrite (proj2 Hfold).
  - by rewrite Hfld, Hf2.
Qed.

Lemma free_bus_step b ks K fuel s a oa d n l ps B :
  free_k_spec ks → objs s !! a = Some oa → body oa = KDev d → child_bus d = b :: l → NoDup (properties oa).*1 → filter (λ p, p.2 = Some b) (properties oa) = [(n, Some b)] →
  objs s !! b = Some (mkO (1 + Z.of_nat (length (kids ks))) (Some a) ps (KBus B)) → b_parent B = Some a → children B = kids ks → omap snd ps = ([] : list Z) →
  rep_k (objs s) b ks → NoDup (a :: b :: ids_k ks) → small K (objs s) (b :: ids_k ks) → (1 + size_k ks + K ≤ fuel)%nat →
  ∃ s', object_unparent fuel b s = Ok s' ∧ removed a (b :: ids_k ks) (post_k ks) s s' ∧
    objs s' !! a = Some (mkO (ref oa) (parent oa) (filter (λ p, p.2 ≠ Some b) (properties oa)) (KDev (set_child_bus l (num_child_bus d - 1) d))).
Proof.
  intros Hspec Ea Eab Hcb Hnd Hf Eb Hbp Hch Hps Hrep Hids Hsm Hfu. pose proof (Hsm b _ ltac:(by left) Eb) as HK. cbn [properties] in HK. destruct fuel as [|f]; [lia|].
  apply NoDup_cons in Hids as [Ha Hids]. rewrite not_elem_of_cons in Ha. destruct Ha as [Hab Hai]. pose proof Hids as [Hbi _]%NoDup_cons. pose proof (kids_size ks) as Hks.
  set (ob := mkO _ (Some a) ps (KBus B)) in Eb. set (s1 := put b (set_ref (ref ob + 1) ob) s). assert (Eb1 : objs s1 !! b = Some (set_ref (ref ob + 1) ob)) by (unfold s1; look).
  destruct (Hspec K f f s1 b _ B 2 Eb1 eq_refl Hps) as (s2 & ps2 & E2 & Hrm & Eb2 & Hps2 & Hlen); [unfold ob; cbn; lia|lia|done| |done| |lia|lia|].
  { apply (rep_put (objs s) b ob); done. }
  { apply (small_put K (objs s) b ob); done. }
  cbn [set_ref parent ob properties] in Eb2, Hlen. assert (Ea2 : objs s2 !! a = Some oa).
  { rewrite (rest_same _ _ _ _ _ a Hrm); [unfold s1; look|done|done|]. exists oa. split; [unfold s1; look|by rewrite Eab]. }
  set (B2 := set_children (max_index B) [] B) in Eb2. set (oa3 := set_body (KDev (set_child_bus l (num_child_bus d - 1) d)) oa). set (ob3 := mkO 2 (Some a) ps2 (KBus (set_b_parent None B2))).
  set (s3 := put b ob3 (put a oa3 s2)).
  assert (E3 : bus_unparent (object_unparent f) f b s1 = Ok s3).
  { unfold bus_unparent. rewrite E2. cbn [mbind res_bind]. rewrite (get_bus_ok b _ B2 s2 Eb2 eq_refl). cbn [mbind res_bind]. change (b_parent B2) with (b_parent B). rewrite Hbp.
    rewrite (get_dev_ok a oa d s2 Ea2 Eab). cbn [mbind res_bind]. rewrite Hcb. cbn [remove_first]. rewrite Z.eqb_refl, (put_dev_eq a oa _ s2 Ea2). cbn [mbind res_bind]. fold oa3.
    assert (Eb3 : objs (put a oa3 s2) !! b = Some (mkO 2 (Some a) ps2 (KBus B2))) by look. rewrite (get_bus_ok b _ B2 _ Eb3 eq_refl). cbn [mbind res_bind]. by rewrite (put_bus_eq b _ _ _ Eb3). }
  destruct (leave_parent f b a n oa3 ob3 s3) as (s4 & E4 & Hsb & Eb4 & Ea4); [done|unfold s3; look|done|done|unfold s3; look|done|done|done|cbn; lia|].
  exists s4. split; [|split].
  - rewrite object_unparent_S. unfold unparent_with. rewrite (get_obj_ok b ob s Eb). cbn [mbind res_bind]. change (parent ob) with (Some a). cbv match. unfold object_ref. rewrite (get_obj_ok b ob s Eb). cbn [mbind res_bind].
    fold s1. rewrite (get_obj_ok b _ s1 Eb1). cbn [mbind res_bind]. change (body (set_ref (ref ob + 1) ob)) with (KBus B). cbv match. rewrite E3. exact E4.
  - apply (removed_bus b ks a ob s s2 s4); try done.
    + intros y H1 H2. rewrite (sb_objs _ _ _ Hsb) by (rewrite !not_elem_of_cons; split_and!; [done|done|apply not_elem_of_nil]). unfold s3. look.
    + by rewrite (sb_world _ _ _ Hsb).
    + by rewrite (sb_deleted _ _ _ Hsb).
    + by rewrite (sb_fields _ _ _ Hsb).
  - exact Ea4.
Qed.


(** What is left of the tree after a part of it was removed. *)
Lemma rest_kept x L L' s s' T :
  removed x L L' s s' → solid (objs s) (x :: L) → (∃ o, objs s' !! x = Some o ∧ body o ≠ KContainer) → solid (objs s) T → (∀ y, y ∈ L' → y ∈ L) → (∀ y, y ∈ T → y ∉ L ∧ y ≠ x) →
  ∀ y, y ∈ T → objs s' !! y = objs s !! y ∧ ∀ c, holds (objs s) c y → holds (objs s') c y.
Proof.
  intros Hrm Hs Hx HT Hsub Hd y Hy. destruct (Hd y Hy) as [H1 H2]. split; [by apply (rest_same _ _ _ _ _ y Hrm H1 H2), HT|].
  intros c. eapply holds_removed; [done|done|done|]. intros Hin. by apply H1, Hsub.
Qed.
Lemma small_rest K (s s' : Sys W) x L T : (∀ y, y ∈ T → objs s' !! y = objs s !! y) → small K (objs s) L → (∀ y, y ∈ T → y ∈ L) →
  (∀ o, objs s' !! x = Some o → (length (properties o) < K)%nat) → small K (objs s') (x :: T).
Proof. intros Hy Hs Hsub Hx y o [->|Hin]%elem_of_cons E; [by apply Hx|]. rewrite Hy in E by done. eapply Hs; [by apply Hsub|done]. Qed.

Lemma NoDup_parts {A} (x : A) l k : NoDup (x :: l ++ k) → NoDup (x :: l) ∧ NoDup (x :: k) ∧ ∀ y, y ∈ k → y ∉ l ∧ y ≠ x.
Proof.
  rewrite !NoDup_cons, NoDup_app, not_elem_of_app. intros ([H1 H2] & H3 & H4 & H5). split; [done|]. split; [done|].
  intros y Hy. split; [intros Hl; by apply (H4 y)|congruence].
Qed.
Lemma remove_first_length {A} (f : A → bool) l : (length (remove_first f l) ≤ length l)%nat.
Proof. induction l as [|x l IH]; cbn; [done|]. destruct (f x); cbn; lia. Qed.

Lemma free_kids_step i t ks : free_d_spec t → free_k_spec ks → free_k_spec (KCons i t ks).
Proof.
  intros Hd Hk K fuel n s b ob B r Eb Ebb Hh Hr Hr1 Hch [Hrt Hrk] Hids Hsm Hfu Hn. cbn [ids_k kids length] in *. destruct n as [|n]; [lia|]. unfold size_k in Hfu. cbn [ids_k] in Hfu. rewrite length_app in Hfu. fold (size_d t) (size_k ks) in Hfu.
  destruct (NoDup_parts _ _ _ Hids) as (Hi1 & Hi2 & Hdis).
  destruct (Hd K fuel s b i ob B Eb Ebb Hh) as (s1 & E1 & Hrm & Eb1); [lia|rewrite Hch; cbn; by rewrite Z.eqb_refl|done|done| |lia|].
  { intros y o Hy. apply Hsm. apply elem_of_cons in Hy as [->|Hy]; [by left|]. right. apply elem_of_app. by left. }
  rewrite Hch in Eb1. cbn [remove_first snd] in Eb1. rewrite Z.eqb_refl in Eb1.
  assert (Hsol : solid (objs s) (b :: ids_d t)). { intros y [->|Hy]%elem_of_cons; [exists ob; split; [done|by rewrite Ebb]|]. by eapply (proj1 (rep_solid (objs s))). }
  assert (Hkept := rest_kept b (ids_d t) (post_d t) s s1 (ids_k ks) Hrm Hsol ltac:(by eexists) (proj2 (proj2 (rep_solid (objs s))) ks b Hrk) (proj1 post_ids t) Hdis).
  destruct (Hk K fuel n s1 b _ (set_children (max_index B) (kids ks) B) r Eb1 eq_refl) as (s2 & ps & E2 & Hrm2 & Eb2 & Hps & Hlen); [by apply held_remove|cbn; lia|done|done| |done| |lia|lia|].
  { exact (proj2 (proj2 (rep_frame (objs s) (objs s1))) ks b Hkept Hrk). }
  { eapply (small_rest K s); [intros y Hy; by apply Hkept|exact Hsm|intros y Hy; right; apply elem_of_app; by right|]. intros o E. rewrite Eb1 in E. injection E as <-. cbn [properties].
    pose proof (Hsm b ob ltac:(by left) Eb). unfold remove_prop. pose proof (remove_first_length (λ p : string * option Z, (p.1 =? child_name i)%string) (properties ob)). lia. }
  exists s2, ps. split; [|split; [|split; [exact Eb2|split; [done|]]]].
  - cbn [free_children]. rewrite (get_bus_ok b ob B s Eb Ebb). cbn [mbind res_bind]. rewrite Hch. cbn [root]. rewrite E1. exact E2.
  - eapply removed_trans; [exact Hrm|exact Hrm2|intros y Hy; by apply Hdis|intros y Hy%post_ids; split; [done|by apply Hdis]|by apply NoDup_cons in Hi1 as [? _]].
  - cbn [properties] in Hlen. unfold remove_prop in Hlen. pose proof (remove_first_length (λ p : string * option Z, (p.1 =? child_name i)%string) (properties ob)). lia.
Qed.


Lemma NoDup_ids_roots bs a : NoDup (a :: ids_b bs) → NoDup (bids bs) ∧ ∀ y, y ∈ bids bs → y ∈ ids_b bs.
Proof.
  intros [_ Hnd]%NoDup_cons. induction bs as [|b ks bs IH]; cbn [ids_b bids] in *; [split; [by apply NoDup_nil|done]|]. apply NoDup_parts in Hnd as (_ & [Hb Hnd]%NoDup_cons & _). destruct (IH Hnd) as [H1 H2].
  split; [apply NoDup_cons; split; [intros Hin; by apply Hb, H2|done]|]. intros y [->|Hy]%elem_of_cons; [by left|]. right. apply elem_of_app. right. auto.
Qed.
Lemma omap_drop (ps : list (string * option Z)) b l : omap snd ps ≡ₚ b :: l → NoDup (b :: l) → omap snd (filter (λ p, p.2 ≠ Some b) ps) ≡ₚ l.
Proof.
  intros Hp [Hb Hnd]%NoDup_cons. assert (E : omap snd (filter (λ p, p.2 ≠ Some b) ps) = filter (λ y, y ≠ b) (omap snd ps)).
  { clear. induction ps as [|[n [c|]] ps IH]; [done|..].
    - cbn [omap list_omap snd]. destruct (decide (c = b)) as [->|Hc].
      + rewrite filter_cons_False by (cbn; tauto). rewrite filter_cons_False by tauto. exact IH.
      + rewrite filter_cons_True by (cbn; congruence). rewrite (filter_cons_True _ c) by done. cbn [omap list_omap snd]. by rewrite IH.
    - rewrite filter_cons_True by done. cbn [omap list_omap snd]. exact IH. }
  rewrite E, Hp, filter_cons_False by tauto. rewrite filter_all; [done|]. apply Forall_forall. intros y Hy ->. done.
Qed.
Lemma free_buses_step b ks bs : free_k_spec ks → free_b_spec bs → free_b_spec (BCons b ks bs).
Proof.
  intros Hk Hb K fuel n s a oa d Ea Eab Hcb Hnum Hperm Hnd ((ps & B & Eb & Hbp & Hch & Hps) & Hrk & Hrb) Hids Hsm Hfu Hn. destruct (NoDup_ids_roots _ _ Hids) as [Hroots _].
  cbn [ids_b bids length] in *. destruct n as [|n]; [lia|]. unfold size_b in Hfu. cbn [ids_b length] in Hfu. rewrite length_app in Hfu. fold (size_b bs) (size_k ks) in Hfu.
  change (a :: b :: ids_k ks ++ ids_b bs) with (a :: (b :: ids_k ks) ++ ids_b bs) in *. destruct (NoDup_parts _ _ _ Hids) as (Hi1 & Hi2 & Hdis).
  destruct (one_child (properties oa) b) as [nm Hnm]; [by rewrite Hperm|rewrite Hperm; by left|].
  destruct (free_bus_step b ks K fuel s a oa d nm (bids bs) ps B) as (s1 & E1 & Hrm & Ea1); try done; [|lia|].
  { intros y o Hy. apply Hsm. right. apply elem_of_app. by left. }
  assert (Hsol : solid (objs s) (a :: b :: ids_k ks)).
  { intros y [->|[->|Hy]%elem_of_cons]%elem_of_cons; [exists oa; split; [done|by rewrite Eab]|by eexists|]. by eapply (proj2 (proj2 (rep_solid (objs s)))). }
  assert (Hkept := rest_kept a (b :: ids_k ks) (post_k ks) s s1 (ids_b bs) Hrm Hsol ltac:(by eexists) (proj1 (proj2 (rep_solid (objs s))) bs a Hrb) ltac:(intros y Hy%post_ids; by right) Hdis).
  pose proof (Hsm a oa ltac:(by left) Ea) as HKa. pose proof (length_filter (λ p : string * option Z, p.2 ≠ Some b) (properties oa)) as Hle.
  destruct (Hb K fuel n s1 a _ (set_child_bus (bids bs) (num_child_bus d - 1) d) Ea1 eq_refl eq_refl) as (s2 & ps2 & E2 & Hrm2 & Ea2 & Hps2 & Hlen); [cbn; lia| | | |done| |lia|lia|].
  { cbn [held_by properties]. by apply omap_drop. }
  { cbn [properties]. eapply sublist_NoDup; [exact Hnd|]. apply fmap_sublist, sublist_filter. }
  { exact (proj1 (proj2 (rep_frame (objs s) (objs s1))) bs a Hkept Hrb). }
  { eapply (small_rest K s); [intros y Hy; by apply Hkept|exact Hsm|intros y Hy; right; apply elem_of_app; by right|]. intros o E. rewrite Ea1 in E. injection E as <-. cbn [properties]. lia. }
  exists s2, ps2. split; [|split; [|split; [exact Ea2|split; [done|]]]].
  - cbn [free_buses]. rewrite (get_dev_ok a oa d s Ea Eab). cbn [mbind res_bind]. rewrite (proj2 (Z.eqb_neq _ 0)) by lia. rewrite Hcb, E1. exact E2.
  - change (b :: ids_k ks ++ ids_b bs) with ((b :: ids_k ks) ++ ids_b bs). eapply removed_trans; [exact Hrm|exact Hrm2|intros y Hy; by apply Hdis|intros y Hy%post_ids; split; [done|by apply Hdis]|by apply NoDup_cons in Hi1 as [? _]].
  - cbn [properties] in Hlen. lia.
Qed.

Lemma free_all : (∀ t, free_d_spec t) ∧ (∀ bs, free_b_spec bs) ∧ (∀ ks, free_k_spec ks).
Proof.
  apply tree_ind; [exact free_device_step| |intros; by apply free_buses_step| |intros; by apply free_kids_step].
  - intros K fuel n s a oa d Ea Eab Hcb Hnum Hperm _ _ _ _ _ Hn. cbn [bids length] in *. destruct n as [|n]; [lia|]. exists s, (properties oa). cbn [free_buses]. rewrite (get_dev_ok a oa d s Ea Eab). cbn [mbind res_bind].
    rewrite Hnum. split; [done|]. split; [apply removed_nil|]. split; [|split; [by apply Permutation_nil_r|done]]. rewrite Ea. f_equal. destruct oa, d. cbn in *. by subst.
  - intros K fuel n s b ob B r Eb Ebb Hh Hr _ Hch _ _ _ _ Hn. cbn [kids length] in *. destruct n as [|n]; [lia|]. exists s, (properties ob). cbn [free_children]. rewrite (get_bus_ok b ob B s Eb Ebb). cbn [mbind res_bind].
    rewrite Hch. split; [done|]. split; [apply removed_nil|]. split; [|by split]. rewrite Eb. f_equal. destruct ob, B. cbn in *. subst. f_equal. lia.
Qed.


(** ** Removal frees the whole tree *)

(** C13: Unplugging a device from its bus frees it with everything below it, when what is below was
    built by the code: every device of the tree has been realized once or put into a container, so
    that exactly its bus and one container hold it; the links between devices and buses agree in
    both directions, the reference counts are those links and the child buses of a device have
    distinct names ([rep_d]); and the bus has a reference left.  Then nothing is used after it was
    freed and no reference is left over: the devices are unrealized from the leaves up, each once,
    the bus and the containers lose exactly what pointed to the tree, and every other object is as
    it was. *)
Theorem qdev_free_frees_all K fuel t s b i ob B :
  objs s !! b = Some ob → body ob = KBus B → held_by ob = [] → 1 < ref ob → List.find (λ k, k.2 =? root t) (children B) = Some (i, root t) →
  rep_d (objs s) b t → NoDup (b :: ids_d t) → small K (objs s) (b :: ids_d t) → (size_d t + K ≤ fuel)%nat →
  ∃ s', qdev_free fuel (root t) s = Ok s' ∧ (∀ a, a ∈ ids_d t → objs s' !! a = None) ∧ (∀ a, a ∉ ids_d t → a ≠ b → objs s' !! a = prune (post_d t) <$> objs s !! a) ∧
    objs s' !! b = Some (mkO (ref ob - 1) (parent ob) (remove_prop (child_name i) (properties ob)) (KBus (set_children (max_index B) (remove_first (λ k, k.2 =? root t) (children B)) B))) ∧
    world s' = foldl (λ w a, retire (objs s) a w) (world s) (post_d t) ∧ deleted s' = deleted s ++ filter (λ a, was_realized (objs s) a = true) (post_d t) ∧ fields s' = fields s.
Proof.
  intros Eb Ebb Hh Hr Hf Hrep Hids Hsm Hfu. destruct (proj1 free_all t K fuel s b i ob B Eb Ebb Hh Hr Hf Hrep Hids Hsm Hfu) as (s' & E & [H1 H2 H3 H4 H5] & Eb').
  exists s'. by split_and!.
Qed.


(** ** Reset reaches every device once *)

(** The links of a tree, which the walks follow. *)
Fixpoint links_d (m : gmap Z Object) (t : dtree) : Prop :=
  match t with DT a bs => (∃ o d, m !! a = Some o ∧ body o = KDev d ∧ child_bus d = bids bs) ∧ links_b m bs end
with links_b (m : gmap Z Object) (bs : blist) : Prop :=
  match bs with BNil => True | BCons b ks bs => (∃ o B, m !! b = Some o ∧ body o = KBus B ∧ children B = kids ks) ∧ links_k m ks ∧ links_b m bs end
with links_k (m : gmap Z Object) (ks : klist) : Prop :=
  match ks with KNil => True | KCons _ t ks => links_d m t ∧ links_k m ks end.

(** Parents first; nothing below the buses of [stop]. *)
Inductive visit : Type := VDev (a : Z) | VBus (b : Z).
Fixpoint visits_d (stop : Z → bool) (t : dtree) : list visit := match t with DT a bs => VDev a :: visits_b stop bs end
with visits_b (stop : Z → bool) (bs : blist) : list visit :=
  match bs with BNil => [] | BCons b ks bs => (VBus b :: if stop b then [] else visits_k stop ks) ++ visits_b stop bs end
with visits_k (stop : Z → bool) (ks : klist) : list visit := match ks with KNil => [] | KCons _ t ks => visits_d stop t ++ visits_k stop ks end.

Section Visits.
Context (stop : Z → bool) (f g : Z → W → Z * W) (Hf : ∀ a w, (f a w).1 = 0) (Hg : ∀ b w, (g b w).1 = if stop b then 1 else 0).
Definition visit_step (w : W) (v : visit) : W := match v with VDev a => (f a w).2 | VBus b => (g b w).2 end.
Abbreviation after l s := (set_world (foldl visit_step (world s) l) s).

Lemma call_eq h a s : call (Some h) a s = ((h a (world s)).1, set_world (h a (world s)).2 s).
Proof. unfold call. by destruct (h a (world s)). Qed.
Lemma after_app l l' s : after l' (after l s) = after (l ++ l') s.
Proof. by rewrite foldl_app. Qed.
Lemma walk_dev fuel a bs o d s :
  objs s !! a = Some o → body o = KDev d → child_bus d = bids bs →
  (∀ w, walk_list (qbus_walk_children (Some f) (Some g) fuel) (bids bs) (set_world w s) = Ok (0, after (visits_b stop bs) (set_world w s))) →
  qdev_walk_children (Some f) (Some g) (S fuel) a s = Ok (0, after (visits_d stop (DT a bs)) s).
Proof.
  intros Ea Eb Hc Hw. unfold qbus_walk_children in Hw. cbn [qdev_walk_children]. rewrite (get_dev_ok a o d s Ea Eb). cbn [mbind res_bind]. rewrite call_eq, Hf, Hc. cbn [Z.eqb negb]. by rewrite Hw.
Qed.
Lemma walk_bus fuel b ks o B s :
  objs s !! b = Some o → body o = KBus B → children B = kids ks →
  (∀ w, walk_list (qdev_walk_children (Some f) (Some g) fuel) (map snd (kids ks)) (set_world w s) = Ok (0, after (visits_k stop ks) (set_world w s))) →
  qbus_walk_children (Some f) (Some g) fuel b s = Ok (if stop b then 1 else 0, after (VBus b :: if stop b then [] else visits_k stop ks) s).
Proof.
  intros Ea Eb Hc Hw. unfold qbus_walk_children, walk_bus_with. rewrite (get_bus_ok b o B s Ea Eb). cbn [mbind res_bind]. rewrite call_eq, Hg, Hc. destruct (stop b); cbn [Z.eqb negb]; [done|]. by rewrite Hw.
Qed.

Lemma walk_visits m :
  (∀ t, links_d m t → ∀ fuel s, objs s = m → (size_d t ≤ fuel)%nat → qdev_walk_children (Some f) (Some g) fuel (root t) s = Ok (0, after (visits_d stop t) s)) ∧
  (∀ bs, links_b m bs → ∀ fuel s, objs s = m → (size_b bs ≤ fuel)%nat → walk_list (qbus_walk_children (Some f) (Some g) fuel) (bids bs) s = Ok (0, after (visits_b stop bs) s)) ∧
  (∀ ks, links_k m ks → ∀ fuel s, objs s = m → (size_k ks ≤ fuel)%nat → walk_list (qdev_walk_children (Some f) (Some g) fuel) (map snd (kids ks)) s = Ok (0, after (visits_k stop ks) s)).
Proof.
  apply tree_ind.
  - intros a bs IH [(o & d & Ea & Eb & Hc) Hl] fuel s Es Hfu. unfold size_d in Hfu. cbn [ids_d length] in Hfu. destruct fuel as [|fuel]; [lia|]. cbn [root].
    apply (walk_dev fuel a bs o d); [by rewrite Es|done|done|]. intros w. apply IH; [done|done|unfold size_b; lia].
  - intros _ fuel s _ _. by destruct s.
  - intros b ks IHk bs IHb ((o & B & Eb & Ebb & Hc) & Hk & Hl) fuel s Es Hfu. unfold size_b in Hfu. cbn [ids_b length] in Hfu. rewrite length_app in Hfu. cbn [bids walk_list].
    rewrite (walk_bus fuel b ks o B s); [|by rewrite Es|done|done|intros w; apply IHk; [done|done|unfold size_k; lia]]. cbn [mbind res_bind]. rewrite (proj2 (Z.ltb_ge _ 0)) by (by destruct (stop b)).
    rewrite IHb; [|done|done|unfold size_b; lia]. by rewrite after_app.
  - intros _ fuel s _ _. by destruct s.
  - intros i t IHt ks IHk [Ht Hk] fuel s Es Hfu. unfold size_k in Hfu. cbn [ids_k] in Hfu. rewrite length_app in Hfu. cbn [kids map snd walk_list]. rewrite IHt; [|done|done|unfold size_d; lia]. cbn [mbind res_bind Z.ltb].
    change (0 <? 0) with false. cbv match. rewrite IHk; [|done|done|unfold size_k; lia]. by rewrite after_app.
Qed.
End Visits.

Definition vid (v : visit) : Z := match v with VDev a | VBus a => a end.
Lemma visits_ids stop :
  (∀ t, vid <$> visits_d stop t `sublist_of` ids_d t) ∧ (∀ bs, vid <$> visits_b stop bs `sublist_of` ids_b bs) ∧ (∀ ks, vid <$> visits_k stop ks `sublist_of` ids_k ks).
Proof.
  apply tree_ind; try done.
  - intros a bs IH. cbn [visits_d ids_d fmap list_fmap vid]. by apply sublist_skip.
  - intros b ks IHk bs IHb. cbn [visits_b ids_b]. rewrite fmap_app. cbn [fmap list_fmap vid app]. apply sublist_skip, sublist_app; [|done].
    destruct (stop b); [apply sublist_nil_l|done].
  - intros i t IHt ks IHk. cbn [visits_k ids_k]. rewrite fmap_app. by apply sublist_app.
Qed.

Lemma visits_all stop : (∀ x, stop x = false) →
  (∀ t, vid <$> visits_d stop t = ids_d t) ∧ (∀ bs, vid <$> visits_b stop bs = ids_b bs) ∧ (∀ ks, vid <$> visits_k stop ks = ids_k ks).
Proof.
  intros Hno. apply tree_ind; try done.
  - intros a bs IH. cbn [visits_d ids_d fmap list_fmap vid]. by rewrite IH.
  - intros b ks IHk bs IHb. cbn [visits_b ids_b]. rewrite Hno, fmap_app, fmap_cons. by rewrite IHk, IHb.
  - intros i t IHt ks IHk. cbn [visits_k ids_k]. by rewrite fmap_app, IHt, IHk.
Qed.

(** C26: Resetting a bus resets everything below it, each device and bus once and parents first.  Only
    what is below a bus whose own function reports that it went on by itself (the function of a PCI
    bus does) is left to that function.  The tree stays as it is. *)
Theorem qbus_reset_all_order (bc_reset : string → option (Z → W → Z * W)) (stop : Z → bool) fuel b ks o B (s : Sys W) :
  objs s !! b = Some o → body o = KBus B → children B = kids ks → links_k (objs s) ks → NoDup (b :: ids_k ks) → (1 + size_k ks ≤ fuel)%nat →
  (∀ x w, (qbus_reset_one bc_reset s x w).1 = if stop x then 1 else 0) →
  let order := VBus b :: (if stop b then [] else visits_k stop ks) in
  qbus_reset_all bc_reset fuel b s = Ok (set_world (foldl (visit_step (qdev_reset_one s) (qbus_reset_one bc_reset s)) (world s) order) s) ∧
  NoDup order ∧ ((∀ x, stop x = false) → vid <$> order = b :: ids_k ks).
Proof.
  intros Eb Ebb Hc Hl Hids Hfu Hs order. assert (Hd : ∀ a w, (qdev_reset_one s a w).1 = 0) by done. split; [|split].
  - unfold qbus_reset_all. rewrite (walk_bus stop (qdev_reset_one s) (qbus_reset_one bc_reset s) Hs fuel b ks o B s); [done|done|done|done|].
    intros w. apply (walk_visits stop _ _ Hd Hs (objs s)); [done|done|lia].
  - apply (NoDup_fmap_1 vid). eapply sublist_NoDup; [exact Hids|]. cbn [order fmap list_fmap vid]. apply sublist_skip.
    destruct (stop b); [apply sublist_nil_l|apply visits_ids].
  - intros Hno. cbn [order fmap list_fmap vid]. rewrite Hno. f_equal. by apply (visits_all stop).
Qed.

(** ** Plugging a device *)

Lemma find_prop_none nm ps : find_prop nm ps = None → nm ∉ ps.*1.
Proof.
  unfold find_prop. induction ps as [|[n c] ps IH]; cbn [List.find fmap list_fmap fst]; [intros _; apply not_elem_of_nil|]. destruct (String.eqb_spec n nm) as [->|Hn]; [done|].
  intros Hf. rewrite not_elem_of_cons. split; [congruence|by apply IH].
Qed.
Lemma remove_prop_last nm c ps : find_prop nm ps = None → remove_prop nm (ps ++ [(nm, c)]) = ps.
Proof.
  unfold find_prop, remove_prop. induction ps as [|[n x] ps IH]; cbn [List.find remove_first app fst]; [by rewrite String.eqb_refl|]. destruct (String.eqb n nm); [done|]. intros Hf. by rewrite IH.
Qed.

Section Plug.
Context (s : Sys W) (b u : Z) (ob ou : Object) (B : BusState) (type : string) (c : DeviceClass W).
Let a := next s.
Let index := max_index B.
Let nm := device_name (unattached_count s).

(** The bus, the container of new devices and a class; the address is unused, and so are the names
    the device gets. *)
Record ready : Prop := {
  rd_bus : objs s !! b = Some ob ∧ body ob = KBus B ∧ held_by ob = [] ∧ 0 < ref ob;
  rd_container : objs s !! u = Some ou ∧ body ou = KContainer ∧ NoDup (properties ou).*1;
  rd_class : classes type = Some c;
  rd_hotplug : qdev_hotplug s = false ∨ allow_hotplug B = true;
  rd_fresh : objs s !! a = None ∧ ∀ y o, objs s !! y = Some o → body o = KContainer → Forall (λ p, p.2 ≠ Some a) (properties o);
  rd_names : find_prop (child_name index) (properties ob) = None ∧ find_prop nm (properties ou) = None;
}.

Definition bus_with : Object :=
  mkO (ref ob + 1) (parent ob) (properties ob ++ [(child_name index, None)]) (KBus (set_children (index + 1) ((index, a) :: children B) B)).
Definition bus_after : Object := set_body (KBus (set_children (index + 1) (children B) B)) ob.
Definition container_with : Object := set_properties (properties ou ++ [(nm, Some a)]) ou.

(** The device is on the bus and in the container. *)
Record plugged (s1 : Sys W) (d : DeviceState) : Prop := {
  pl_dev : objs s1 !! a = Some (mkO 2 (Some u) [] (KDev d)) ∧ parent_bus d = Some b ∧ child_bus d = [] ∧ num_child_bus d = 0 ∧ d_typename d = type;
  pl_bus : objs s1 !! b = Some bus_with;
  pl_container : objs s1 !! u = Some container_with;
  pl_rest : ∀ y, y ≠ a → y ≠ b → y ≠ u → objs s1 !! y = objs s !! y;
}.

(** Removing it leaves the objects as they were, except that the bus has given out an index. *)
Lemma unplug_fresh fuel s1 d :
  ready → plugged s1 d → (length (properties ob) + 3 ≤ fuel)%nat →
  ∃ s2, qdev_free fuel a s1 = Ok s2 ∧ objs s2 = <[b := bus_after]> (objs s) ∧ world s2 = retire (objs s1) a (world s1) ∧
    deleted s2 = deleted s1 ++ (if realized d then [a] else []) ∧ fields s2 = fields s1.
Proof.
  intros [(Eb & Ebb & Hh & Hr) (Eu & Hk & Hnd) Hcl _ [Ef Hun] [Hn1 Hn2]] [(Ea1 & Hpb & Hcb & Hnum & Hty) Eb1 Eu1 Hrest] Hfu.
  assert (Hab : a ≠ b) by congruence. assert (Hau : a ≠ u) by congruence. assert (Hbu : b ≠ u) by congruence.
  assert (Hone : filter (λ p, p.2 = Some a) (properties ou ++ [(nm, Some a)]) = [(nm, Some a)]).
  { rewrite filter_app, filter_none; [by rewrite filter_cons_True|]. exact (Hun u ou Eu Hk). }
  assert (Hhold : holds (objs s1) u a).
  { split.
    - exists container_with, nm. split; [done|]. split; [done|]. split; [|exact Hone]. cbn [container_with set_properties properties]. rewrite fmap_app. apply NoDup_app. split; [done|]. split; [|by apply NoDup_singleton].
      intros x Hx ->%list_elem_of_singleton. by apply (find_prop_none nm (properties ou)).
    - intros c' o' E' Hk' Hne. destruct (decide (c' = a)) as [->|]; [rewrite Ea1 in E'; injection E' as <-; done|]. destruct (decide (c' = b)) as [->|]; [rewrite Eb1 in E'; injection E' as <-; done|].
      rewrite Hrest in E' by done. by apply (Hun c' o'). }
  assert (Hrep : rep_d (objs s1) b (DT a BNil)).
  { split; [|done]. exists u, [], d. rewrite Hcb, Hnum, Hty, Hcl. do 7 (split; [done || apply NoDup_nil_2|]). exact Hhold. }
  destruct (proj1 free_all (DT a BNil) (length (properties ob) + 2)%nat fuel s1 b index bus_with (set_children (index + 1) ((index, a) :: children B) B) Eb1 eq_refl) as (s2 & E2 & [G R Hw Hd Hfl] & Eb2).
  - unfold held_by. cbn [bus_with properties]. rewrite omap_app. unfold held_by in Hh. by rewrite Hh.
  - cbn. lia.
  - cbn [root set_children children List.find snd]. by rewrite Z.eqb_refl.
  - exact Hrep.
  - cbn [ids_d ids_b]. apply NoDup_cons. split; [by intros ->%list_elem_of_singleton|by apply NoDup_singleton].
  - intros y o [->| ->%list_elem_of_singleton]%elem_of_cons E; [rewrite Eb1 in E|rewrite Ea1 in E]; injection E as <-; cbn [bus_with properties]; rewrite ?length_app; cbn; lia.
  - unfold size_d. cbn. lia.
  - exists s2. split; [exact E2|]. cbn [ids_d ids_b post_d post_b app root] in *. split; [|split; [exact Hw|split; [|exact Hfl]]].
    + apply map_eq. intros y. destruct (decide (y = b)) as [->|Hyb].
      { rewrite Eb2, lookup_insert_eq. f_equal. unfold bus_after, set_body. cbn [bus_with ref parent properties body]. f_equal; [lia|by apply remove_prop_last|]. cbn [set_children max_index children remove_first snd]. by rewrite Z.eqb_refl. }
      rewrite lookup_insert_ne by done. destruct (decide (y = a)) as [->|Hya]; [rewrite G by (by left); done|]. rewrite R by (done || by intros ->%list_elem_of_singleton).
      destruct (decide (y = u)) as [->|Hyu].
      { rewrite Eu1, Eu. cbn [fmap option_fmap option_map]. f_equal. rewrite prune_one by done. unfold container_with, set_properties. cbn [ref parent properties body]. rewrite filter_app, filter_all by exact (Hun u ou Eu Hk).
        rewrite filter_cons_False by (cbn; tauto). rewrite filter_nil, app_nil_r. by destruct ou. }
      rewrite Hrest by done. destruct (objs s !! y) as [o|] eqn:E; [|done]. cbn. f_equal. apply prune_unheld. exact (Hun y o E).
    + rewrite Hd. f_equal. unfold was_realized. destruct (realized d) eqn:Hre.
      * rewrite filter_cons_True; [done|]. by rewrite Ea1.
      * rewrite filter_cons_False; [done|]. rewrite Ea1. cbn. congruence.
Qed.

(** [qdev_try_create]: the device is on the bus, and nothing else holds it. *)
Definition fresh_device : DeviceState := mkDS type None false (qdev_hotplug s) (Some b) [] 0 (-1) 0.
Lemma create_spec fuel :
  ready →
  ∃ s0, qdev_try_create (S fuel) (Some b) type s = Ok (Some a, s0) ∧ objs s0 !! a = Some (mkO 1 None [] (KDev fresh_device)) ∧ objs s0 !! b = Some bus_with ∧
    (∀ y, y ≠ a → y ≠ b → objs s0 !! y = objs s !! y) ∧ world s0 = world s ∧ deleted s0 = deleted s ∧
    fields s0 = (a + 1, qdev_hotplug s, qdev_hot_added s || qdev_hotplug s, qdev_hot_removed s, unattached_count s, reset_handlers s).
Proof.
  intros [(Eb & Ebb & Hh & Hr) _ Hcl Hhp [Ef _] [Hn1 _]]. assert (Hab : a ≠ b) by congruence. unfold qdev_try_create. rewrite Hcl. change (default main_system_bus (Some b)) with b. cbn [new_device]. fold a.
  set (s1 := mkSys _ _ _ _ _ _ _ _ _). assert (Ea1 : objs s1 !! a = Some (mkO 1 None [] (KDev (mkDS type None false (qdev_hotplug s) None [] 0 (-1) 0)))) by (unfold s1; look).
  unfold qdev_set_parent_bus. rewrite (get_dev_ok a _ _ s1 Ea1 eq_refl). cbn [mbind res_bind]. rewrite (put_dev_eq a _ _ s1 Ea1). cbn [mbind res_bind]. set (s2 := put a _ s1).
  assert (Eb2 : objs s2 !! b = Some ob) by (unfold s2, s1; look). unfold object_ref. rewrite (get_obj_ok b ob s2 Eb2). cbn [mbind res_bind]. set (s3 := put b _ s2).
  unfold bus_add_child, object_ref. assert (Eb3 : objs s3 !! b = Some (set_ref (ref ob + 1) ob)) by (unfold s3; look). rewrite (get_bus_ok b _ B s3 Eb3) by done. cbn [mbind res_bind].
  assert (Hg : qdev_hotplug s3 && negb (allow_hotplug B) = false) by (change (qdev_hotplug s3) with (qdev_hotplug s); destruct Hhp as [-> | ->]; [done|apply andb_false_r]). rewrite Hg.
  rewrite (put_bus_eq b _ _ s3 Eb3). cbn [mbind res_bind]. set (ob4 := set_body _ _). set (s4 := put b ob4 s3). assert (Ea4 : objs s4 !! a = Some (mkO 1 None [] (KDev fresh_device))) by (unfold s4, s3, s2, s1; look).
  rewrite (get_obj_ok a _ s4 Ea4). cbn [mbind res_bind]. set (s5 := put a _ s4). assert (Eb5 : objs s5 !! b = Some ob4) by (unfold s5, s4; look). rewrite (get_bus_ok b ob4 _ s5 Eb5 eq_refl). cbn [mbind res_bind].
  rewrite (put_bus_eq b _ _ s5 Eb5). cbn [mbind res_bind]. set (ob6 := set_body _ ob4). set (s6 := put b ob6 s5). assert (Eb6 : objs s6 !! b = Some ob6) by (unfold s6; look).
  unfold object_property_add_link, object_property_add. rewrite (get_obj_ok b ob6 s6 Eb6). cbn [mbind res_bind]. change (properties ob6) with (properties ob). fold index. rewrite Hn1. cbn [mbind res_bind]. set (s7 := put b _ s6).
  assert (Ea7 : objs s7 !! a = Some (mkO 2 None [] (KDev fresh_device))) by (unfold s7, s6, s5; look). rewrite (unref_dec fuel a _ s7 Ea7 ltac:(done)). cbn [mbind res_bind].
  eexists. split; [reflexivity|]. split; [look|]. split; [unfold s7, s6, s5; look|]. split; [intros y H1 H2; unfold s7, s6, s5, s4, s3, s2, s1; look|]. done.
Qed.

(** [device_set_realized] puts it into the container, then calls the function of its class; on an
    error it does nothing more. *)
Context (realize : Z → W → W) (fails : bool).
Definition realizes : Prop := dc_realize c = Some (λ x s, Ok (fails, set_world (realize x (world s)) s)).
Definition started (w : W) : W :=
  let w := if dc_vmsd c then vmstate_register_with_alias_id a (-1) 0 w else w in
  if qdev_hotplug s then match dc_reset c with Some f => f a w | None => w end else w.
Lemma realize_spec s0 :
  ready → u = unattached → realizes → objs s0 !! a = Some (mkO 1 None [] (KDev fresh_device)) → objs s0 !! b = Some bus_with → (∀ y, y ≠ a → y ≠ b → objs s0 !! y = objs s !! y) →
  unattached_count s0 = unattached_count s →
  ∃ s1, device_set_realized a true s0 = Ok (fails, s1) ∧ plugged s1 (if fails then fresh_device else set_realized true fresh_device) ∧ deleted s1 = deleted s0 ∧
    fields s1 = (next s0, qdev_hotplug s0, qdev_hot_added s0, qdev_hot_removed s0, unattached_count s0 + 1, reset_handlers s0) ∧
    world s1 = if fails then realize a (world s0) else started (realize a (world s0)).
Proof.
  intros [(Eb & Ebb & Hh & Hr) (Eu & Hk & Hnd) Hcl _ [Ef Hun] [Hn1 Hn2]] Hu Hre Ea0 Eb0 Hrest Hcount. assert (Hab : a ≠ b) by congruence. assert (Hau : a ≠ u) by congruence. assert (Hbu : b ≠ u) by congruence.
  unfold device_set_realized. rewrite (get_dev_ok a _ _ s0 Ea0 eq_refl). cbn [mbind res_bind]. unfold get_class. cbn [fresh_device d_typename]. rewrite Hcl. cbn [mbind res_bind parent realized fresh_device negb andb].
  rewrite <-Hu. assert (Eu0 : objs s0 !! u = Some ou) by (rewrite Hrest by done; done). set (s1 := set_count _ s0). unfold object_property_add_child, object_property_add.
  rewrite (get_obj_ok u ou s1 Eu0). cbn [mbind res_bind]. replace (device_name (unattached_count s0)) with nm by (unfold nm; by rewrite Hcount). rewrite Hn2. cbn [mbind res_bind]. set (s2 := put u _ s1). assert (Ea2 : objs s2 !! a = Some (mkO 1 None [] (KDev fresh_device))) by (unfold s2; look).
  unfold object_ref. rewrite (get_obj_ok a _ s2 Ea2). cbn [mbind res_bind]. set (s3 := put a _ s2). assert (Ea3 : objs s3 !! a = Some (mkO 2 None [] (KDev fresh_device))) by (unfold s3; look).
  rewrite (get_obj_ok a _ s3 Ea3). cbn [mbind res_bind parent]. set (s4 := put a _ s3). unfold realizes in Hre. rewrite Hre. cbn [mbind res_bind andb orb]. set (s5 := set_world _ s4).
  assert (Ea5 : objs s5 !! a = Some (mkO 2 (Some u) [] (KDev fresh_device))) by (unfold s5, s4; look).
  assert (Hpl : ∀ s' d, objs s' !! a = Some (mkO 2 (Some u) [] (KDev d)) → (∀ y, y ≠ a → objs s' !! y = objs s5 !! y) → d = fresh_device ∨ d = set_realized true fresh_device → plugged s' d).
  { intros s' d E' Hs' Hd. split; [split; [done|]; by destruct Hd as [-> | ->]|rewrite Hs' by done; unfold s5, s4, s3, s2; look|rewrite Hs' by done; unfold s5, s4, s3, s2; look|].
    intros y H1 H2 H3. rewrite Hs' by done. unfold s5, s4, s3, s2. look. by apply Hrest. }
  rewrite (get_dev_ok a _ _ s5 Ea5 eq_refl). cbn [mbind res_bind]. cbn [fresh_device hotplugged instance_id_alias alias_required_for_version]. destruct fails.
  - rewrite !andb_false_r. cbn [mbind res_bind]. exists s5. split; [done|]. split; [apply Hpl; auto|]. done.
  - cbn [negb]. rewrite !andb_true_r. set (s6 := if dc_vmsd c then _ else s5). assert (Ea6 : objs s6 !! a = objs s5 !! a) by (unfold s6; by destruct (dc_vmsd c)).
    unfold device_reset. rewrite (get_dev_ok a _ _ s6 (eq_trans Ea6 Ea5) eq_refl). cbn [mbind res_bind]. unfold get_class. cbn [fresh_device d_typename]. rewrite Hcl. cbn [mbind res_bind].
    set (s7 := match dc_reset c with Some f => _ | None => s6 end). assert (E7 : (if qdev_hotplug s then Ok s7 else Ok s6) = Ok (if qdev_hotplug s then s7 else s6)) by by destruct (qdev_hotplug s).
    rewrite E7. cbn [mbind res_bind]. set (s8 := if qdev_hotplug s then s7 else s6).
    assert (Eo : objs s8 = objs s5) by (unfold s8, s7, s6; destruct (qdev_hotplug s), (dc_reset c), (dc_vmsd c); done).
    assert (Ea8 : objs s8 !! a = Some (mkO 2 (Some u) [] (KDev fresh_device))) by (by rewrite Eo). rewrite (get_dev_ok a _ _ s8 Ea8 eq_refl). cbn [mbind res_bind]. rewrite (put_dev_eq a _ _ s8 Ea8). cbn [mbind res_bind].
    eexists. split; [reflexivity|]. split; [apply Hpl; [look|intros y Hy; look; by rewrite Eo|auto]|]. split; [|split].
    + unfold s8, s7, s6; destruct (qdev_hotplug s), (dc_reset c), (dc_vmsd c); done.
    + unfold s8, s7, s6; destruct (qdev_hotplug s), (dc_reset c), (dc_vmsd c); done.
    + unfold s8, s7, s6, started; destruct (qdev_hotplug s), (dc_reset c), (dc_vmsd c); done.
Qed.

Definition stopped (w : W) : W :=
  let w := if dc_vmsd c then vmstate_unregister a w else w in match dc_unrealize c with Some f => (f a w).2 | None => w end.

(** C14: Plugging a device in and unplugging it leaves every object, count and property as it was, except
    that the bus has given out an index; the device was started and stopped once, and its removal
    announced. *)
Theorem plug_unplug fuel :
  ready → u = unattached → realizes → fails = false → (length (properties ob) + 3 ≤ fuel)%nat →
  ∃ s0 s1 s2, qdev_create fuel (Some b) type s = Ok (next s, s0) ∧ qdev_init fuel (next s) s0 = Ok (0, s1) ∧
    plugged s1 (set_realized true fresh_device) ∧ world s1 = started (realize (next s) (world s)) ∧
    qdev_free fuel (next s) s1 = Ok s2 ∧ objs s2 = <[b := bus_after]> (objs s) ∧
    world s2 = stopped (started (realize (next s) (world s))) ∧ deleted s2 = deleted s ++ [next s] ∧
    fields s2 = (next s + 1, qdev_hotplug s, qdev_hot_added s || qdev_hotplug s, qdev_hot_removed s, unattached_count s + 1, reset_handlers s).
Proof.
  intros Hrd Hu Hre Hfa Hfu. destruct fuel as [|f]; [lia|]. destruct (create_spec f Hrd) as (s0 & E0 & Ea0 & Eb0 & Hrest & Hw0 & Hd0 & Hf0).
  assert (Hc0 : unattached_count s0 = unattached_count s) by (unfold fields in Hf0; by injection Hf0).
  destruct (realize_spec s0 Hrd Hu Hre Ea0 Eb0 Hrest Hc0) as (s1 & E1 & Hpl & Hd1 & Hf1 & Hw1). rewrite Hfa in E1, Hpl, Hw1.
  destruct (unplug_fresh (S f) s1 _ Hrd Hpl Hfu) as (s2 & E2 & Ho2 & Hw2 & Hd2 & Hf2). exists s0, s1, s2. split; [unfold qdev_create; by rewrite E0|]. split.
  { unfold qdev_init. fold a. rewrite (get_dev_ok a _ _ s0 Ea0 eq_refl). cbn [mbind res_bind fresh_device realized]. by rewrite E1. }
  split; [exact Hpl|]. split; [by rewrite Hw1, Hw0|]. split; [exact E2|]. split; [exact Ho2|]. split; [|split].
  - rewrite Hw2, Hw1, Hw0. destruct (pl_dev _ _ Hpl) as (Ea1 & _ & _ & _ & Hty). unfold retire. rewrite Ea1. cbn [body]. rewrite Hty, (rd_class Hrd). done.
  - by rewrite Hd2, Hd1, Hd0.
  - rewrite Hf2, Hf1. unfold fields in Hf0. by injection Hf0 as -> -> -> -> -> ->.
Qed.

(** A device whose realization fails is freed again: [qdev_init] reports the error and the tree is as
    before. *)
Theorem qdev_init_failure_undone fuel :
  ready → u = unattached → realizes → fails = true → (length (properties ob) + 3 ≤ fuel)%nat →
  ∃ s0 s2, qdev_create fuel (Some b) type s = Ok (next s, s0) ∧ qdev_init fuel (next s) s0 = Ok (-1, s2) ∧
    objs s2 = <[b := bus_after]> (objs s) ∧ world s2 = realize (next s) (world s) ∧ deleted s2 = deleted s.
Proof.
  intros Hrd Hu Hre Hfa Hfu. destruct fuel as [|f]; [lia|]. destruct (create_spec f Hrd) as (s0 & E0 & Ea0 & Eb0 & Hrest & Hw0 & Hd0 & Hf0).
  assert (Hc0 : unattached_count s0 = unattached_count s) by (unfold fields in Hf0; by injection Hf0).
  destruct (realize_spec s0 Hrd Hu Hre Ea0 Eb0 Hrest Hc0) as (s1 & E1 & Hpl & Hd1 & Hf1 & Hw1). rewrite Hfa in E1, Hpl, Hw1.
  destruct (unplug_fresh (S f) s1 _ Hrd Hpl Hfu) as (s2 & E2 & Ho2 & Hw2 & Hd2 & Hf2). exists s0, s2. split; [unfold qdev_create; by rewrite E0|]. split.
  { unfold qdev_init. fold a. rewrite (get_dev_ok a _ _ s0 Ea0 eq_refl). cbn [mbind res_bind fresh_device realized]. rewrite E1. cbn [mbind res_bind]. by rewrite E2. }
  split; [exact Ho2|]. split; [|by rewrite Hd2, Hd1, Hd0, app_nil_r].
  rewrite Hw2. destruct (pl_dev _ _ Hpl) as (Ea1 & _ & _ & _ & Hty). unfold retire. rewrite Ea1. cbn [body]. rewrite Hty, (rd_class Hrd). cbn [fresh_device realized]. by rewrite Hw1, Hw0.
Qed.
End Plug.

(** A device that was created and never realized has no parent, so that nothing removes it from its
    bus: freeing the bus does not end. *)
Lemma unrealized_child_stuck fuel n b ob B i a l s :
  objs s !! b = Some ob → body ob = KBus B → children B = (i, a) :: l → (∃ oa, objs s !! a = Some oa ∧ parent oa = None) →
  free_children (object_unparent (S fuel)) n b s = Diverge.
Proof.
  intros Eb Ebb Hch (oa & Ea & Hpa). induction n as [|n IH]; [done|]. cbn [free_children]. rewrite (get_bus_ok b ob B s Eb Ebb). cbn [mbind res_bind]. rewrite Hch.
  rewrite object_unparent_S. unfold unparent_with. rewrite (get_obj_ok a oa s Ea). cbn [mbind res_bind]. rewrite Hpa. exact IH.
Qed.

End Qdev.

(** ** A machine *)

(** What the devices keep is a log.  Cards and bridges are realized, a broken card is not; the bus of
    the second bridge resets its devices by itself. *)
Definition log : Type := list (string * Z).
Definition note (what : string) (a : Z) (w : log) : log := w ++ [(what, a)].
Definition card_class (fails : bool) : DeviceClass log :=
  mkDC log true (Some (λ a s, Ok (fails, set_world (note "realize" a (world s)) s))) (Some (λ a w, (false, note "unrealize" a w))) (Some (note "reset")) None.
Definition board_classes (type : string) : option (DeviceClass log) :=
  if String.eqb type "card" then Some (card_class false) else if String.eqb type "broken" then Some (card_class true) else None.
Definition board_reset (type : string) : option (Z → log → Z * log) :=
  if String.eqb type "PCI" then Some (λ b w, (1, note "bus reset" b w)) else None.
Definition board_register (a i r : Z) (w : log) : log := note "register" a w.
Definition board_unregister (a : Z) (w : log) : log := note "unregister" a w.

(** The container is 0 and the bus of the board 1. *)
Definition board0 : Sys log :=
  mkSys (<[0 := mkO 1 None [] KContainer]> (<[1 := mkO 1 None [] (KBus (mkBS "System" "main-system-bus" None false 0 []))]> ∅)) 2 false false false 0 [] [] [].
Abbreviation b_create := (qdev_create board_classes 1).
Abbreviation b_init := (qdev_init board_classes board_register board_unregister 0 1).
Abbreviation b_free := (qdev_free board_classes board_register board_unregister 0 1).
Definition b_plug (bus : Z) (type : string) (s : Sys log) : res (Sys log) :=
  '(a, s) ← b_create 20 (Some bus) type s; '(r, s) ← b_init 20 a s; if r =? 0 then Ok s else Fault AssertFail.
Definition b_bus (type : string) (dev : Z) (s : Sys log) : res (Sys log) := '(_, s) ← qbus_create 1 20 type (Some dev) None s; Ok s.

(** A host bridge 2 with a bus 3, on it a card 4 and a bridge 5 with a bus 6 and a card 7. *)
Definition board : Sys log :=
  match (s ← b_plug 1 "card" board0; s ← b_bus "isa" 2 s; s ← b_plug 3 "card" s; s ← b_plug 3 "card" s; s ← b_bus "PCI" 5 s; b_plug 6 "card" s) with
  | Ok s => s | _ => board0
  end.
Definition tree6 : klist := KCons 0 (DT 7 BNil) KNil.
Definition tree3 : klist := KCons 1 (DT 5 (BCons 6 tree6 BNil)) (KCons 0 (DT 4 BNil) KNil).
Definition board_tree : dtree := DT 2 (BCons 3 tree3 BNil).

(** Container 0 is the only one. *)
Definition one_container (s : Sys log) : bool := forallb (λ p, (p.1 =? 0) || match body p.2 with KContainer => false | _ => true end) (map_to_list (objs s)).
Lemma one_container_ok s c o : one_container s = true → objs s !! c = Some o → body o = KContainer → c = 0.
Proof.
  unfold one_container. rewrite forallb_forall. intros Hc E Hk. specialize (Hc (c, o)). cbn [fst snd] in Hc. rewrite Hk, orb_false_r in Hc. apply Z.eqb_eq, Hc.
  by apply list_elem_of_In, elem_of_map_to_list.
Qed.
Lemma board_one : one_container board = true.
Proof. vm_compute. reflexivity. Qed.
Lemma board_holds a n : (o ← get_obj 0 board; Ok (filter (λ p, p.2 = Some a) (properties o))) = Ok [(n, Some a)] → holds (objs board) 0 a.
Proof.
  intros Hf. split.
  - unfold get_obj in Hf. destruct (objs board !! 0) as [o|] eqn:E; [|done]. cbn [mbind res_bind] in Hf. exists o, n. split; [done|].
    assert (Hk : match objs board !! 0 with Some o => match body o with KContainer => bool_decide (NoDup (properties o).*1) | _ => false end | None => false end = true) by (vm_compute; reflexivity).
    rewrite E in Hk. destruct (body o); [done|done|]. split; [done|]. split; [by apply bool_decide_eq_true in Hk|congruence].
  - intros c' o E Hk Hne. destruct Hne. by apply (one_container_ok board c' o board_one).
Qed.

Ltac board_look := vm_compute; reflexivity.
Definition sysbus : Object := default (mkO 0 None [] KContainer) (objs board !! 1).
Definition sysbus_body : BusState := match body sysbus with KBus B => B | _ => mkBS "" "" None false 0 [] end.
Lemma board_bus : objs board !! 1 = Some sysbus ∧ body sysbus = KBus sysbus_body ∧ held_by sysbus = [] ∧ 1 < ref sysbus ∧
  List.find (λ k, k.2 =? root board_tree) (children sysbus_body) = Some (0, root board_tree).
Proof. split_and!; board_look. Qed.
Definition smallb (K : nat) (m : gmap Z Object) (L : list Z) : bool := forallb (λ y, match m !! y with Some o => (length (properties o) <? K)%nat | None => true end) L.
Lemma smallb_ok K m L : smallb K m L = true → small K m L.
Proof. unfold smallb. rewrite forallb_forall. intros Hs y o Hy E. specialize (Hs y (proj1 (list_elem_of_In _ _) Hy)). rewrite E in Hs. by apply Nat.ltb_lt. Qed.
Lemma board_ids : NoDup (1 :: ids_d board_tree) ∧ small 3 (objs board) (1 :: ids_d board_tree).
Proof. split; [apply (bool_decide_eq_true_1 (NoDup (1 :: ids_d board_tree)))|apply smallb_ok]; board_look. Qed.
Lemma board_dev a c ps d b bs :
  objs board !! a = Some (mkO 2 (Some 0) ps (KDev d)) → parent_bus d = Some b → child_bus d = bids bs → num_child_bus d = Z.of_nat (length (bids bs)) → board_classes (d_typename d) = Some c →
  omap snd ps = bids bs → NoDup ps.*1 → holds (objs board) 0 a → rep_b board_classes (objs board) a bs → rep_d board_classes (objs board) b (DT a bs).
Proof. intros E H1 H2 H3 H4 H5 H6 H7 H8. split; [|done]. exists 0, ps, d. rewrite H5. by split_and!. Qed.
Ltac board_device :=
  eapply board_dev; [vm_compute; reflexivity|reflexivity|reflexivity|reflexivity|reflexivity|reflexivity|repeat (apply NoDup_cons; split; [set_solver|]); apply NoDup_nil_2|eapply board_holds; vm_compute; reflexivity|].
Lemma board_rep : rep_d board_classes (objs board) 1 board_tree.
Proof.
  unfold board_tree. board_device. split; [eexists _, _; split; [board_look|]; by split_and!|]. split; [|done]. unfold tree3. split; [|split; [|done]].
  - board_device. split; [eexists _, _; split; [board_look|]; by split_and!|]. split; [|done]. unfold tree6. split; [|done]. by board_device.
  - by board_device.
Qed.

Lemma qdev_free_frees_all_witness :
  ∃ s', b_free 20 (root board_tree) board = Ok s' ∧ (∀ a, a ∈ ids_d board_tree → objs s' !! a = None) ∧ (∀ a, a ∉ ids_d board_tree → a ≠ 1 → objs s' !! a = prune (post_d board_tree) <$> objs board !! a) ∧
    objs s' !! 1 = Some (mkO (ref sysbus - 1) (parent sysbus) (remove_prop (child_name 0) (properties sysbus))
      (KBus (set_children (max_index sysbus_body) (remove_first (λ k, k.2 =? root board_tree) (children sysbus_body)) sysbus_body))) ∧
    world s' = foldl (λ w a, retire board_classes board_unregister (objs board) a w) (world board) (post_d board_tree) ∧
    deleted s' = deleted board ++ filter (λ a, was_realized (objs board) a = true) (post_d board_tree) ∧ fields s' = fields board.
Proof.
  destruct board_bus as (H1 & H2 & H3 & H4 & H5).
  apply (qdev_free_frees_all board_classes board_register board_unregister 0 1 3 20 board_tree board 1 0 sysbus sysbus_body H1 H2 H3 H4 H5 board_rep (proj1 board_ids) (proj2 board_ids)).
  cbn. lia.
Defined.
Example board_unplugged :
  (s ← b_free 20 2 board; Ok (map fst (map_to_list (objs s)), drop 8 (world s), deleted s)) =
  Ok ([1; 0], [("unregister", 7); ("unrealize", 7); ("unregister", 5); ("unrealize", 5); ("unregister", 4); ("unrealize", 4); ("unregister", 2); ("unrealize", 2)], [7; 5; 4; 2]).
Proof. vm_compute. reflexivity. Qed.

(** Reset from the bus of the board: the bus 6 does the rest by itself. *)
Definition board_stop (b : Z) : bool := b =? 6.
Lemma board_links : links_k (objs board) (KCons 0 board_tree KNil).
Proof.
  cbn [links_k links_d links_b board_tree tree3 tree6]. split_and!; try done; eexists _, _; (split; [board_look|split; reflexivity]).
Qed.
Lemma board_stops x (w : log) : (qbus_reset_one board_reset board x w).1 = if board_stop x then 1 else 0.
Proof.
  unfold qbus_reset_one. assert (Ht : board_reset (type_of x board) = if board_stop x then Some (λ b w, (1, note "bus reset" b w)) else None).
  { unfold board_stop. destruct (decide (x = 6)) as [->|Hx]; [board_look|]. rewrite (proj2 (Z.eqb_neq x 6)) by done.
    assert (Hall : forallb (λ p, (p.1 =? 6) || match body p.2 with KDev d => negb (String.eqb (d_typename d) "PCI") | KBus b => negb (String.eqb (b_typename b) "PCI") | KContainer => true end) (map_to_list (objs board)) = true) by board_look.
    rewrite forallb_forall in Hall. unfold type_of. destruct (objs board !! x) as [o|] eqn:E; [|done].
    specialize (Hall (x, o) (proj1 (list_elem_of_In _ _) (proj2 (elem_of_map_to_list _ _ _) E))). cbn [fst snd] in Hall. rewrite (proj2 (Z.eqb_neq x 6)) in Hall by done. cbn [orb] in Hall.
    unfold board_reset. destruct (body o); [apply negb_true_iff in Hall; by rewrite Hall..|done]. }
  rewrite Ht. by destruct (board_stop x).
Qed.
Lemma board_ids' : NoDup (1 :: ids_k (KCons 0 board_tree KNil)).
Proof. exact (proj1 board_ids). Qed.
Lemma qbus_reset_all_order_witness :
  let order := VBus 1 :: (if board_stop 1 then [] else visits_k board_stop (KCons 0 board_tree KNil)) in
  qbus_reset_all board_classes board_reset 20 1 board = Ok (set_world (foldl (visit_step (qdev_reset_one board_classes board) (qbus_reset_one board_reset board)) (world board) order) board) ∧
  NoDup order ∧ ((∀ x, board_stop x = false) → vid <$> order = 1 :: ids_k (KCons 0 board_tree KNil)).
Proof.
  destruct board_bus as (H1 & H2 & _).
  apply (qbus_reset_all_order board_classes board_reset board_stop 20 1 (KCons 0 board_tree KNil) sysbus sysbus_body board H1 H2); [board_look|exact board_links|exact board_ids'|cbn; lia|exact board_stops].
Defined.
Example board_reset_log :
  (s ← qbus_reset_all board_classes board_reset 20 1 board; Ok (drop 8 (world s))) = Ok [("reset", 2); ("reset", 5); ("bus reset", 6); ("reset", 4)].
Proof. vm_compute. reflexivity. Qed.

(** A card, or a broken one, on bus 3. *)
Definition isa : Object := default (mkO 0 None [] KContainer) (objs board !! 3).
Definition isa_body : BusState := match body isa with KBus B => B | _ => mkBS "" "" None false 0 [] end.
Definition shelf : Object := default (mkO 0 None [] KContainer) (objs board !! 0).
Lemma board_shelf : objs board !! 0 = Some shelf ∧ body shelf = KContainer ∧ NoDup (properties shelf).*1.
Proof. split; [board_look|]. split; [board_look|]. apply (bool_decide_eq_true_1 (NoDup (properties shelf).*1)). board_look. Qed.
Lemma board_ready type c : board_classes type = Some c → ready board_classes board 3 0 isa shelf isa_body type c.
Proof.
  intros Hc. split; [split_and!; board_look|exact board_shelf|exact Hc|by left| |split; board_look]. split; [board_look|].
  intros y o E Hk. assert (Hy : y = 0) by exact (one_container_ok board y o board_one E Hk). rewrite Hy in E. assert (Eo : o = shelf) by exact (Some_inj _ _ (eq_trans (eq_sym E) (proj1 board_shelf))). rewrite Eo.
  assert (Hf : forallb (λ p : string * option Z, negb (bool_decide (p.2 = Some (next board)))) (properties shelf) = true) by board_look. rewrite forallb_forall in Hf.
  apply Forall_forall. intros p Hp. specialize (Hf p (proj1 (list_elem_of_In _ _) Hp)). apply negb_true_iff in Hf. by apply bool_decide_eq_false_1 in Hf.
Qed.
Lemma plug_unplug_witness :
  ∃ s0 s1 s2, b_create 20 (Some 3) "card" board = Ok (next board, s0) ∧ b_init 20 (next board) s0 = Ok (0, s1) ∧
    plugged board 3 0 isa shelf isa_body "card" s1 (set_realized true (fresh_device board 3 "card")) ∧ world s1 = started board_register board (card_class false) (note "realize" (next board) (world board)) ∧
    b_free 20 (next board) s1 = Ok s2 ∧ objs s2 = <[3 := bus_after isa isa_body]> (objs board) ∧
    world s2 = stopped board_unregister board (card_class false) (started board_register board (card_class false) (note "realize" (next board) (world board))) ∧ deleted s2 = deleted board ++ [next board] ∧
    fields s2 = (next board + 1, qdev_hotplug board, qdev_hot_added board || qdev_hotplug board, qdev_hot_removed board, unattached_count board + 1, reset_handlers board).
Proof.
  apply (plug_unplug board_classes board_register board_unregister 0 1 board 3 0 isa shelf isa_body "card" (card_class false) (note "realize") false 20 (board_ready "card" (card_class false) eq_refl)); [done|done|done|].
  vm_compute. lia.
Defined.
Lemma qdev_init_failure_undone_witness :
  ∃ s0 s2, b_create 20 (Some 3) "broken" board = Ok (next board, s0) ∧ b_init 20 (next board) s0 = Ok (-1, s2) ∧
    objs s2 = <[3 := bus_after isa isa_body]> (objs board) ∧ world s2 = note "realize" (next board) (world board) ∧ deleted s2 = deleted board.
Proof.
  apply (qdev_init_failure_undone board_classes board_register board_unregister 0 1 board 3 0 isa shelf isa_body "broken" (card_class true) (note "realize") true 20 (board_ready "broken" (card_class true) eq_refl)); [done|done|done|].
  vm_compute. lia.
Defined.

(** *** What the code does not handle *)

(** A bus with a device that was created and not realized cannot be freed. *)
Example unrealized_child_hangs :
  (s ← (let '(_, s) := new_device "card" board in Ok s); s ← qdev_set_parent_bus 8 6 s; qbus_free board_classes board_register board_unregister 0 1 200 6 s) = Diverge.
Proof. vm_compute. reflexivity. Qed.
(** The names of the buses of a device repeat when one was freed in between: the last has no property
    that holds it, and is not freed with the device. *)
Example bus_name_repeats :
  (s ← b_bus "isa" 2 board; s ← qbus_free board_classes board_register board_unregister 0 1 20 3 s; s ← b_bus "isa" 2 s; s ← b_free 20 2 s;
   Ok (map (λ p, (p.1, match body p.2 with KBus b => b_name b | _ => "" end)) (map_to_list (objs s)))) = Ok [(9, "isa.1"); (1, "main-system-bus"); (0, "")].
Proof. vm_compute. reflexivity. Qed.

(** The path of a card, and how names of 50 characters at three levels leave the buffer. *)
Definition long_name : string := "host-pci-bridge-with-a-rather-long-name@0123456789".
Example fw_path : qdev_get_fw_dev_path (λ _, None) 10 7 board = Ok "/card/card/card".
Proof. vm_compute. reflexivity. Qed.
Example fw_path_overflows : qdev_get_fw_dev_path (λ _, Some (λ _, long_name)) 10 7 board = Fault OutOfBounds.
Proof. vm_compute. reflexivity. Qed.

End Qdev.
