(* ===== verification/Timer.v ===== *)
(** Timers (qemu-timer.c): the list of active timers, linked through the timers themselves and
    sorted by deadline, on which [timer_mod] and [timer_del] of the device work, the loop that
    runs expired timers, and the deadlines the main loop polls with.  Timers are named by their
    address; clocks are read through the argument [now].  Locks are not modelled: the operations
    run one at a time. *)

From stdpp Require Import sorting.
From S2P Require Import Prelude VMState.
Import VMState.

Module Timer.

Record QEMUTimer : Type := mkTimer {
  expire_time : Z;
  next : option Z;
  scale : Z;
}.
Definition set_next (n : option Z) (t : QEMUTimer) : QEMUTimer := mkTimer (expire_time t) n (scale t).
Definition set_expire (e : Z) (t : QEMUTimer) : QEMUTimer := mkTimer e (next t) (scale t).

(** A list with the memory its timers live in. *)
Record QEMUTimerList : Type := mkTList {
  heap : gmap Z QEMUTimer;
  active_timers : option Z;
}.
Definition set_heap (h : gmap Z QEMUTimer) (st : QEMUTimerList) : QEMUTimerList := mkTList h (active_timers st).

Definition deref (t : Z) (st : QEMUTimerList) : res QEMUTimer :=
  match heap st !! t with Some x => Ok x | None => Fault OutOfBounds end.

(** A [QEMUTimer **]: the head of the list ([None]) or the [next] field of a timer. *)
Definition read_cell (pt : option Z) (st : QEMUTimerList) : res (option Z) :=
  match pt with None => Ok (active_timers st) | Some t => x ← deref t st; Ok (next x) end.
Definition write_cell (pt : option Z) (v : option Z) (st : QEMUTimerList) : res QEMUTimerList :=
  match pt with
  | None => Ok (mkTList (heap st) v)
  | Some t => x ← deref t st; Ok (set_heap (<[t := set_next v x]> (heap st)) st)
  end.
Definition upd_timer (ts : Z) (f : QEMUTimer → QEMUTimer) (st : QEMUTimerList) : res QEMUTimerList :=
  x ← deref ts st; Ok (set_heap (<[ts := f x]> (heap st)) st).

(** ** Changing the list *)

Definition timer_expired_ns (timer_head : option Z) (current_time : Z) (st : QEMUTimerList) : res bool :=
  match timer_head with
  | None => Ok false
  | Some t => x ← deref t st; Ok (expire_time x <=? current_time)
  end.

Definition timer_init (ts s : Z) (st : QEMUTimerList) : QEMUTimerList :=
  set_heap (<[ts := mkTimer (-1) None s]> (heap st)) st.

Fixpoint del_loop (fuel : nat) (pt : option Z) (ts : Z) (st : QEMUTimerList) : res QEMUTimerList :=
  match fuel with
  | O => Diverge
  | S fuel =>
      t ← read_cell pt st;
      match t with
      | None => Ok st
      | Some t =>
          if t =? ts then x ← deref t st; write_cell pt (next x) st
          else del_loop fuel (Some t) ts st
      end
  end.
Definition timer_del_locked (fuel : nat) (ts : Z) (st : QEMUTimerList) : res QEMUTimerList :=
  st ← upd_timer ts (set_expire (-1)) st;
  del_loop fuel None ts st.

Fixpoint mod_loop (fuel : nat) (pt : option Z) (e : Z) (st : QEMUTimerList) : res (option Z) :=
  match fuel with
  | O => Diverge
  | S fuel =>
      t ← read_cell pt st;
      b ← timer_expired_ns t e st;
      if b : bool then mod_loop fuel t e st else Ok pt
  end.
(** The boolean tells whether the timer became the first of the list. *)
Definition timer_mod_ns_locked (fuel : nat) (ts e : Z) (st : QEMUTimerList) : res (bool * QEMUTimerList) :=
  pt ← mod_loop fuel None e st;
  st ← upd_timer ts (set_expire (Z.max e 0)) st;
  n ← read_cell pt st;
  st ← upd_timer ts (set_next n) st;
  st ← write_cell pt (Some ts) st;
  Ok (match pt with None => true | Some _ => false end, st).

Definition timer_del (fuel : nat) (ts : Z) (st : QEMUTimerList) : res QEMUTimerList := timer_del_locked fuel ts st.
(** The timer's memory is given back; it must not be in the list any more. *)
Definition timer_free (ts : Z) (st : QEMUTimerList) : QEMUTimerList := set_heap (delete ts (heap st)) st.

(** When the boolean is [true] the loop that polls for the list is notified. *)
Definition timer_mod_ns (fuel : nat) (ts e : Z) (st : QEMUTimerList) : res (bool * QEMUTimerList) :=
  st ← timer_del_locked fuel ts st;
  timer_mod_ns_locked fuel ts e st.

Definition timer_mod_anticipate_ns (fuel : nat) (ts e : Z) (st : QEMUTimerList) : res (bool * QEMUTimerList) :=
  x ← deref ts st;
  if (expire_time x =? -1) || (e <? expire_time x) then
    st ← (if negb (expire_time x =? -1) then timer_del_locked fuel ts st else Ok st);
    timer_mod_ns_locked fuel ts e st
  else Ok (false, st).

Definition timer_mod (fuel : nat) (ts e : Z) (st : QEMUTimerList) : res (bool * QEMUTimerList) :=
  x ← deref ts st; timer_mod_ns fuel ts (s64 (e * scale x)) st.
Definition timer_mod_anticipate (fuel : nat) (ts e : Z) (st : QEMUTimerList) : res (bool * QEMUTimerList) :=
  x ← deref ts st; timer_mod_anticipate_ns fuel ts (s64 (e * scale x)) st.

Definition timer_pending (ts : Z) (st : QEMUTimerList) : res bool := x ← deref ts st; Ok (0 <=? expire_time x).
Definition timer_expired (ts current_time : Z) (st : QEMUTimerList) : res bool :=
  x ← deref ts st; timer_expired_ns (Some ts) (s64 (current_time * scale x)) st.
(** A 64-bit unsigned value: -1 is its maximum. *)
Definition timer_expire_time_ns (ts : Z) (st : QEMUTimerList) : res Z :=
  p ← timer_pending ts st; x ← deref ts st; Ok (u64 (if p : bool then expire_time x else -1)).

(** ** Running *)

(** Callbacks may use the list; [W] is the rest of the world. *)
Section Run.
Context {W : Type} (cb : Z → QEMUTimerList * W → res (QEMUTimerList * W)).

Fixpoint run_loop (fuel : nat) (current_time : Z) (progress : bool) (st : QEMUTimerList) (w : W)
  : res (bool * QEMUTimerList * W) :=
  match fuel with
  | O => Diverge
  | S fuel =>
      let ts := active_timers st in
      b ← timer_expired_ns ts current_time st;
      match ts with
      | Some ts =>
          if b : bool then
            x ← deref ts st;
            let st := mkTList (<[ts := mkTimer (-1) None (scale x)]> (heap st)) (next x) in
            '(st, w) ← cb ts (st, w);
            run_loop fuel current_time true st w
          else Ok (progress, st, w)
      | None => Ok (progress, st, w)
      end
  end.

Definition timerlist_run_timers (fuel : nat) (enabled : bool) (now : Z) (st : QEMUTimerList) (w : W)
  : res (bool * QEMUTimerList * W) :=
  if enabled then run_loop fuel now false st w else Ok (false, st, w).
End Run.

(** ** Deadlines *)

Definition timerlist_has_timers (st : QEMUTimerList) : bool :=
  match active_timers st with None => false | Some _ => true end.

Definition timerlist_expired (now : Z) (st : QEMUTimerList) : res bool :=
  match active_timers st with
  | None => Ok false
  | Some t => x ← deref t st; Ok (expire_time x <? now)
  end.

Definition timerlist_deadline_ns (enabled : bool) (now : Z) (st : QEMUTimerList) : res Z :=
  if negb enabled then Ok (-1)
  else
    match active_timers st with
    | None => Ok (-1)
    | Some t =>
        x ← deref t st;
        let delta := s64 (expire_time x - now) in
        Ok (if delta <=? 0 then 0 else delta)
    end.

Definition qemu_soonest_timeout (timeout1 timeout2 : Z) : Z :=
  if u64 timeout1 <? u64 timeout2 then timeout1 else timeout2.

(** The lists of a clock (or of a group) with whether each is enabled and its time. *)
Fixpoint soonest_deadline (deadline : Z) (l : list (bool * Z * QEMUTimerList)) : res Z :=
  match l with
  | [] => Ok deadline
  | (enabled, now, st) :: l =>
      d ← timerlist_deadline_ns enabled now st;
      soonest_deadline (qemu_soonest_timeout deadline d) l
  end.
Definition qemu_clock_deadline_ns_all (lists : list (bool * Z * QEMUTimerList)) : res Z := soonest_deadline (-1) lists.

Definition SCALE_MS : Z := 1000000.
Definition INT32_MAX : Z := 2 ^ 31 - 1.

Definition qemu_timeout_ns_to_ms (ns : Z) : Z :=
  if ns <? 0 then -1
  else if ns =? 0 then 0
  else
    let ms := Z.quot (s64 (ns + SCALE_MS - 1)) SCALE_MS in
    s32 (if INT32_MAX <? ms then INT32_MAX else ms).

(** ** Migration of a timer *)

Definition timer_put (ts : Z) (st : QEMUTimerList) : res (list Z) :=
  e ← timer_expire_time_ns ts st; Ok (be_bytes 8 e).
Definition timer_get (fuel : nat) (ts : Z) (inp : list Z) (st : QEMUTimerList) : res (list Z * QEMUTimerList) :=
  let '(l, inp) := qemu_get_bytes 8 inp in
  let e := be_val l in
  if negb (e =? 2 ^ 64 - 1) then '(_, st) ← timer_mod_ns fuel ts (s64 e) st; Ok (inp, st)
  else st ← timer_del fuel ts st; Ok (inp, st).

(** ** The list the links represent *)

(** From cell value [p] the links run through [l] to [q]. *)
Fixpoint seg (h : gmap Z QEMUTimer) (p : option Z) (l : list Z) (q : option Z) : Prop :=
  match l with
  | [] => p = q
  | a :: l => p = Some a ∧ ∃ x, h !! a = Some x ∧ seg h (next x) l q
  end.

Definition deadline (h : gmap Z QEMUTimer) (a : Z) : Z := default (-1) (expire_time <$> h !! a).

Definition by_deadline (d : Z → Z) (a b : Z) : Prop := d a ≤ d b.

Lemma seg_app h p l1 l2 q : seg h p (l1 ++ l2) q ↔ ∃ r, seg h p l1 r ∧ seg h r l2 q.
Proof.
  revert p. induction l1 as [|a l1 IH]; intros p; cbn [app seg].
  - split; [intros H; by exists p|by intros (r & <- & H)].
  - split.
    + intros (Hp & x & Hx & (r & H1 & H2)%IH). exists r. split; [|done]. split; [done|]. by exists x.
    + intros (r & (Hp & x & Hx & H1) & H2). split; [done|]. exists x. split; [done|]. apply IH. by exists r.
Qed.

(** Only the links of the timers in the segment matter. *)
Lemma seg_ext h h' p l q :
  (∀ a, a ∈ l → next <$> h' !! a = next <$> h !! a) → seg h p l q → seg h' p l q.
Proof.
  revert p. induction l as [|a l IH]; intros p Hn; [done|]. intros (Hp & x & Hx & Hs). split; [done|].
  pose proof (Hn a ltac:(by left)) as Ha. rewrite Hx in Ha. destruct (h' !! a) as [x'|] eqn:E; [|done].
  exists x'. split; [done|]. cbn in Ha. injection Ha as ->. apply IH; [|done]. intros b Hb. apply Hn. by right.
Qed.

Lemma seg_insert h p l q a x : a ∉ l → seg h p l q → seg (<[a := x]> h) p l q.
Proof. intros Ha. apply seg_ext. intros b Hb. rewrite lookup_insert_ne; [done|]. by intros ->. Qed.

Lemma seg_mapped h p l q a : seg h p l q → a ∈ l → is_Some (h !! a).
Proof.
  revert p. induction l as [|b l IH]; intros p; [by intros _ ?%not_elem_of_nil|].
  intros (_ & x & Hx & Hs) [-> | Hb]%elem_of_cons; [by exists x|by eapply IH].
Qed.

(** The state of a list that holds the timers [l]. *)
Record holds (st : QEMUTimerList) (l : list Z) : Prop := {
  h_seg : seg (heap st) (active_timers st) l None;
  h_nodup : NoDup l;
  h_sorted : StronglySorted (by_deadline (deadline (heap st))) l;
  h_pending : ∀ a, a ∈ l → 0 ≤ deadline (heap st) a;
  h_idle : ∀ a, a ∉ l → deadline (heap st) a = -1;
}.

(** The cell after the prefix [l1] and what it holds. *)
Lemma read_last st l1 l2 q r :
  seg (heap st) (active_timers st) (l1 ++ l2) q → seg (heap st) (active_timers st) l1 r →
  read_cell (last l1) st = Ok r.
Proof.
  intros Hs. destruct l1 as [|a l1 _] using rev_ind; [by intros <-|]. rewrite last_snoc. rewrite seg_app.
  intros (r0 & H1 & (-> & x & Hx & Hr)). cbn in Hr. unfold read_cell, deref. rewrite Hx. cbn. by rewrite Hr.
Qed.

Lemma write_last st l1 r v :
  seg (heap st) (active_timers st) l1 r → NoDup l1 →
  ∃ st', write_cell (last l1) v st = Ok st' ∧ seg (heap st') (active_timers st') l1 v ∧
    (∀ a, expire_time <$> heap st' !! a = expire_time <$> heap st !! a) ∧
    (∀ a, a ∉ l1 → heap st' !! a = heap st !! a).
Proof.
  intros Hs Hd. destruct l1 as [|b l1 _] using rev_ind.
  { eexists. split; [reflexivity|]. cbn. done. }
  rewrite last_snoc. apply NoDup_app in Hd as (Hd1 & Hd2 & _). rewrite seg_app in Hs. destruct Hs as (r0 & H1 & (-> & x & Hx & Hr)).
  unfold write_cell, deref. rewrite Hx. eexists. split; [reflexivity|]. cbn [set_heap heap active_timers].
  assert (Hb : b ∉ l1) by (intros Hb; apply (Hd2 b Hb); by left). split_and!.
  - rewrite seg_app. exists (Some b). split; [by apply seg_insert|]. split; [done|]. eexists.
    split; [apply lookup_insert_eq|]. done.
  - intros a. destruct (decide (b = a)) as [<-|Hne]; [|by rewrite lookup_insert_ne].
    rewrite lookup_insert_eq, Hx. done.
  - intros a Ha. rewrite lookup_insert_ne; [done|]. intros ->. apply Ha. set_solver.
Qed.

(** ** Deletion *)

Definition without (ts : Z) (l : list Z) : list Z := filter (λ a, a ≠ ts) l.

Lemma without_notin ts l : ts ∉ l → without ts l = l.
Proof.
  unfold without. induction l as [|a l IH]; [done|]. intros [Hne Hl]%not_elem_of_cons.
  rewrite filter_cons, decide_True by congruence. by rewrite IH.
Qed.

Lemma sorted_ext d d' l : (∀ a, a ∈ l → d' a = d a) → StronglySorted (by_deadline d) l → StronglySorted (by_deadline d') l.
Proof.
  intros Hd Hs. induction Hs as [|a l _ IH Ha]; constructor.
  - apply IH. intros b Hb. apply Hd. by right.
  - rewrite Forall_forall in *. intros b Hb. unfold by_deadline. rewrite (Hd a), (Hd b); [by apply Ha|by right|by left].
Qed.

Lemma sorted_filter d l (P : Z → Prop) `{∀ a, Decision (P a)} :
  StronglySorted (by_deadline d) l → StronglySorted (by_deadline d) (filter P l).
Proof.
  induction 1 as [|a l _ IH Ha]; [constructor|]. rewrite filter_cons. case_decide; [|done]. constructor; [done|].
  rewrite Forall_forall in *. intros b [_ Hb]%list_elem_of_filter. by apply Ha.
Qed.

Definition same_deadlines (h h' : gmap Z QEMUTimer) : Prop := ∀ a, expire_time <$> h' !! a = expire_time <$> h !! a.

Lemma del_loop_spec fuel l1 l2 ts st :
  seg (heap st) (active_timers st) (l1 ++ l2) None → NoDup (l1 ++ l2) → (length l2 < fuel)%nat →
  ∃ st', del_loop fuel (last l1) ts st = Ok st' ∧
    seg (heap st') (active_timers st') (l1 ++ without ts l2) None ∧ same_deadlines (heap st) (heap st').
Proof.
  revert fuel l1. induction l2 as [|b l2 IH]; intros [|fuel] l1 Hs Hd Hf; cbn [length] in Hf; try lia; cbn [del_loop].
  - pose proof Hs as (r & H1 & H2)%seg_app. rewrite (read_last st l1 [] None r Hs H1). cbn [mbind res_bind].
    cbn in H2. subst r. by exists st.
  - pose proof Hs as (r & H1 & H2)%seg_app. rewrite (read_last st l1 (b :: l2) None r Hs H1). cbn [mbind res_bind].
    destruct H2 as (-> & x & Hx & H2). destruct (Z.eqb_spec b ts) as [->|Hne].
    + unfold deref. rewrite Hx. cbn [mbind res_bind]. pose proof Hd as (Hd1 & Hd12 & Hd2)%NoDup_app.
      destruct (write_last st l1 (Some ts) (next x) H1 Hd1) as (st' & E & Hs' & He & Hout). exists st'. split; [exact E|].
      apply NoDup_cons in Hd2 as [Hts Hd2]. unfold without. rewrite filter_cons, decide_False by tauto. fold (without ts l2).
      rewrite without_notin by done. split; [|done]. apply seg_app. exists (next x). split; [done|].
      eapply seg_ext; [|exact H2]. intros a Ha. rewrite Hout; [done|]. intros Ha1. apply (Hd12 a Ha1). by right.
    + destruct (IH fuel (l1 ++ [b])) as (st' & E & Hs' & He).
      { by rewrite <-app_assoc. } { by rewrite <-app_assoc. } { lia. }
      rewrite last_snoc in E. exists st'. split; [exact E|]. split; [|done]. unfold without. rewrite filter_cons, decide_True by done.
      by rewrite <-app_assoc in Hs'.
Qed.

Lemma same_deadlines_eq h h' a : same_deadlines h h' → deadline h' a = deadline h a.
Proof. intros Hd. unfold deadline. by rewrite Hd. Qed.

Lemma deadline_insert h ts x a : deadline (<[ts := x]> h) a = if decide (a = ts) then expire_time x else deadline h a.
Proof.
  unfold deadline. case_decide as Ha; [subst; by rewrite lookup_insert_eq|by rewrite lookup_insert_ne].
Qed.

(** Deleting a timer, in the list or not, takes it out and clears its deadline. *)
Lemma timer_del_holds fuel ts l st :
  holds st l → is_Some (heap st !! ts) → (length l < fuel)%nat →
  ∃ st', timer_del fuel ts st = Ok st' ∧ holds st' (without ts l) ∧ is_Some (heap st' !! ts) ∧
    ∀ a, deadline (heap st') a = if decide (a = ts) then -1 else deadline (heap st) a.
Proof.
  intros [Hs Hd Hsort Hp Hi] [x Hx] Hf. unfold timer_del, timer_del_locked, upd_timer, deref. rewrite Hx. cbn [mbind res_bind].
  set (st1 := set_heap _ st). destruct (del_loop_spec fuel [] l ts st1) as (st' & E & Hs' & He); [|done..|].
  { eapply seg_ext; [|exact Hs]. intros a _. unfold st1. cbn [set_heap heap]. destruct (decide (ts = a)) as [<-|];
      [by rewrite lookup_insert_eq, Hx|by rewrite lookup_insert_ne]. }
  assert (Hdl : ∀ a, deadline (heap st') a = if decide (a = ts) then -1 else deadline (heap st) a).
  { intros a. rewrite (same_deadlines_eq _ _ a He). unfold st1. cbn [set_heap heap]. apply deadline_insert. }
  exists st'. split; [exact E|]. split_and!; try done.
  - split; try done.
    + by apply NoDup_filter.
    + apply (sorted_ext (deadline (heap st))); [|by apply sorted_filter]. intros a [Ha _]%list_elem_of_filter.
      by rewrite Hdl, decide_False.
    + intros a [Hne Ha]%list_elem_of_filter. rewrite Hdl, decide_False by done. by apply Hp.
    + intros a Ha. rewrite Hdl. case_decide as Hts; [done|]. apply Hi. intros Hin. apply Ha. by apply list_elem_of_filter.
  - specialize (He ts). unfold st1 in He. cbn [set_heap heap] in He. rewrite lookup_insert_eq in He.
    by destruct (heap st' !! ts).
Qed.

(** ** Insertion *)

Lemma deadline_delete h ts a : deadline (delete ts h) a = if decide (a = ts) then -1 else deadline h a.
Proof. unfold deadline. case_decide as E; [subst; by rewrite lookup_delete_eq|by rewrite lookup_delete_ne]. Qed.

(** Freeing a timer that is not active leaves no pointer to it. *)
Lemma timer_free_holds ts l st : holds st l → ts ∉ l → holds (timer_free ts st) l ∧ heap (timer_free ts st) !! ts = None.
Proof.
  intros [H1 H2 H3 H4 H5] Hn. split; [|apply lookup_delete_eq].
  assert (Hd : ∀ a, a ∈ l → deadline (heap (timer_free ts st)) a = deadline (heap st) a).
  { intros a Ha. cbn. rewrite deadline_delete, decide_False; [done|]. by intros ->. }
  split; [|done|by eapply sorted_ext|intros a Ha; rewrite Hd by done; by apply H4|].
  - eapply seg_ext; [|exact H1]. intros a Ha. cbn. rewrite lookup_delete_ne; [done|]. by intros ->.
  - intros a Ha. cbn. rewrite deadline_delete. case_decide; [done|]. by apply H5.
Qed.

Lemma mod_loop_spec fuel l1 l2 e st :
  seg (heap st) (active_timers st) (l1 ++ l2) None → StronglySorted (by_deadline (deadline (heap st))) l2 →
  (length l2 < fuel)%nat →
  ∃ l3 l4, l2 = l3 ++ l4 ∧ mod_loop fuel (last l1) e st = Ok (last (l1 ++ l3)) ∧
    (∀ a, a ∈ l3 → deadline (heap st) a ≤ e) ∧ (∀ a, a ∈ l4 → e < deadline (heap st) a).
Proof.
  revert fuel l1. induction l2 as [|b l2 IH]; intros [|fuel] l1 Hs Hsort Hf; cbn [length] in Hf; try lia; cbn [mod_loop].
  - pose proof Hs as (r & H1 & H2)%seg_app. rewrite (read_last st l1 [] None r Hs H1). cbn in H2. subst r. cbn [mbind res_bind timer_expired_ns].
    exists [], []. rewrite (app_nil_r l1). split_and!; try done; intros a []%not_elem_of_nil.
  - pose proof Hs as (r & H1 & H2)%seg_app. rewrite (read_last st l1 (b :: l2) None r Hs H1). cbn [mbind res_bind].
    destruct H2 as (-> & x & Hx & H2). unfold timer_expired_ns, deref. rewrite Hx. cbn [mbind res_bind].
    assert (Hb : deadline (heap st) b = expire_time x) by (unfold deadline; by rewrite Hx).
    apply StronglySorted_inv in Hsort as [Hsort Hall]. destruct (Z.leb_spec (expire_time x) e) as [Hle|Hgt].
    + destruct (IH fuel (l1 ++ [b])) as (l3 & l4 & -> & E & H3 & H4); [by rewrite <-app_assoc|done|lia|].
      rewrite last_snoc, <-app_assoc in E. exists (b :: l3), l4. split_and!; try done.
      intros a [-> | Ha]%elem_of_cons; [lia|by apply H3].
    + exists [], (b :: l2). rewrite (app_nil_r l1). split_and!; try done; [intros a []%not_elem_of_nil|].
      rewrite Forall_forall in Hall. intros a [-> | Ha]%elem_of_cons; [lia|]. specialize (Hall a Ha). unfold by_deadline in Hall. lia.
Qed.

Lemma sorted_insert d ts l1 l2 e :
  StronglySorted (by_deadline d) (l1 ++ l2) → d ts = Z.max e 0 → (∀ a, a ∈ l1 → d a ≤ e) →
  (∀ a, a ∈ l2 → e < d a ∧ 0 ≤ d a) → StronglySorted (by_deadline d) (l1 ++ ts :: l2).
Proof.
  intros Hs Hts H1 H2. apply StronglySorted_app in Hs as (H12 & Hs1 & Hs2). apply StronglySorted_app. split_and!; [|done|].
  - intros a b Ha [-> | Hb]%elem_of_cons; [|by apply H12]. specialize (H1 a Ha). unfold by_deadline. lia.
  - constructor; [done|]. apply Forall_forall. intros b Hb. specialize (H2 b Hb). unfold by_deadline. lia.
Qed.

Lemma upd_timer_eq ts f st x :
  heap st !! ts = Some x → upd_timer ts f st = Ok (set_heap (<[ts := f x]> (heap st)) st).
Proof. intros Hx. unfold upd_timer, deref. by rewrite Hx. Qed.

Lemma timer_mod_ns_locked_holds fuel ts e l st :
  holds st l → ts ∉ l → is_Some (heap st !! ts) → (length l < fuel)%nat →
  ∃ l1 l2 st', timer_mod_ns_locked fuel ts e st = Ok (bool_decide (l1 = []), st') ∧ l = l1 ++ l2 ∧
    holds st' (l1 ++ ts :: l2) ∧
    (∀ a, a ∈ l1 → deadline (heap st) a ≤ e) ∧ (∀ a, a ∈ l2 → e < deadline (heap st) a) ∧
    (∀ a, deadline (heap st') a = if decide (a = ts) then Z.max e 0 else deadline (heap st) a).
Proof.
  intros [Hs Hd Hsort Hp Hi] Hts [x Hx] Hf. unfold timer_mod_ns_locked.
  destruct (mod_loop_spec fuel [] l e st Hs Hsort Hf) as (l1 & l2 & -> & E & H1 & H2). cbn [last app] in E. rewrite E. cbn [mbind res_bind].
  rewrite (upd_timer_eq _ _ _ _ Hx). cbn [mbind res_bind]. set (st1 := set_heap _ st).
  pose proof Hs as (r & Hs1 & Hs2)%seg_app. apply not_elem_of_app in Hts as [Hn1 Hn2].
  assert (Hs1' : seg (heap st1) (active_timers st1) l1 r) by (by apply seg_insert).
  assert (Hs2' : seg (heap st1) r l2 None) by (by apply seg_insert).
  rewrite (read_last st1 l1 l2 None r ltac:(apply seg_app; by exists r) Hs1'). cbn [mbind res_bind].
  rewrite (upd_timer_eq ts (set_next r) st1 (set_expire (Z.max e 0) x)) by apply lookup_insert_eq. cbn [mbind res_bind].
  set (st2 := set_heap _ st1). pose proof Hd as (Hd1 & Hd12 & Hd2)%NoDup_app.
  destruct (write_last st2 l1 r (Some ts)) as (st' & E' & Hs' & He & Hout); [by apply seg_insert|done|].
  rewrite E'. cbn [mbind res_bind].
  assert (Hdl : ∀ a, deadline (heap st') a = if decide (a = ts) then Z.max e 0 else deadline (heap st) a).
  { intros a. unfold deadline. rewrite He. unfold st2, st1. cbn [set_heap heap]. case_decide as Ha.
    - subst a. by rewrite !lookup_insert_eq.
    - by rewrite !lookup_insert_ne. }
  exists l1, l2, st'. split_and!; try done.
  { destruct l1 as [|b l1]; [done|]. rewrite bool_decide_eq_false_2 by done.
    destruct (last (b :: l1)) eqn:El; [done|]. by apply last_None in El. }
  split.
  - apply seg_app. exists (Some ts). split; [done|]. split; [done|]. eexists. split.
    { rewrite Hout by done. unfold st2. cbn [set_heap heap]. apply lookup_insert_eq. }
    cbn [set_next next]. eapply seg_ext; [|exact Hs2']. intros a Ha. rewrite Hout by (intros Ha1; by apply (Hd12 a Ha1)).
    unfold st2. cbn [set_heap heap]. rewrite lookup_insert_ne; [done|]. by intros ->.
  - apply NoDup_app. split_and!; [done| |].
    + intros a Ha [-> | Ha2]%elem_of_cons; [done|]. by apply (Hd12 a Ha).
    + by apply NoDup_cons.
  - apply (sorted_insert _ _ _ _ e).
    + apply (sorted_ext (deadline (heap st))); [|done]. intros a Ha. rewrite Hdl, decide_False; [done|]. intros ->. set_solver.
    + by rewrite Hdl, decide_True.
    + intros a Ha. rewrite Hdl, decide_False by (intros ->; done). by apply H1.
    + intros a Ha. rewrite Hdl, decide_False by (intros ->; done). split; [by apply H2|]. apply Hp. set_solver.
  - intros a Ha. rewrite Hdl. case_decide as Hats; [lia|]. apply Hp. set_solver.
  - intros a Ha. rewrite Hdl. case_decide as Hats; [subst; set_solver|]. apply Hi. set_solver.
Qed.

(** Modifying a timer: out of the list if it was there, then in front of the first later one. *)
Lemma timer_mod_ns_holds fuel ts e l st :
  holds st l → is_Some (heap st !! ts) → (length l < fuel)%nat →
  ∃ l1 l2 st', timer_mod_ns fuel ts e st = Ok (bool_decide (l1 = []), st') ∧ without ts l = l1 ++ l2 ∧
    holds st' (l1 ++ ts :: l2) ∧
    (∀ a, a ∈ l1 → deadline (heap st) a ≤ e) ∧ (∀ a, a ∈ l2 → e < deadline (heap st) a) ∧
    (∀ a, deadline (heap st') a = if decide (a = ts) then Z.max e 0 else deadline (heap st) a).
Proof.
  intros Hh Hx Hf. destruct (timer_del_holds fuel ts l st Hh Hx Hf) as (st1 & E1 & Hh1 & Hx1 & Hd1).
  assert (Hnot : ts ∉ without ts l) by (intros [? _]%list_elem_of_filter; done).
  assert (Hlen : (length (without ts l) < fuel)%nat) by (unfold without; pose proof (length_filter (λ a, a ≠ ts) l); lia).
  destruct (timer_mod_ns_locked_holds fuel ts e _ st1 Hh1 Hnot Hx1 Hlen) as (l1 & l2 & st' & E2 & Hl & Hh' & H1 & H2 & Hd2).
  exists l1, l2, st'. unfold timer_mod_ns. unfold timer_del in E1. rewrite E1. cbn [mbind res_bind].
  rewrite Hl in Hnot. apply not_elem_of_app in Hnot as [Hn1 Hn2]. split_and!; try done.
  - intros a Ha. specialize (H1 a Ha). rewrite Hd1, decide_False in H1 by congruence. done.
  - intros a Ha. specialize (H2 a Ha). rewrite Hd1, decide_False in H2 by congruence. done.
  - intros a. rewrite Hd2, Hd1. by case_decide.
Qed.

(** ** Scales *)

(** No operation touches the scale of a timer or makes one appear. *)
Definition same_scales (st st' : QEMUTimerList) : Prop := ∀ a, scale <$> heap st' !! a = scale <$> heap st !! a.

Lemma scales_trans st1 st2 st3 : same_scales st1 st2 → same_scales st2 st3 → same_scales st1 st3.
Proof. intros H1 H2 a. by rewrite H2. Qed.

Lemma upd_timer_scales ts f st st' : (∀ x, scale (f x) = scale x) → upd_timer ts f st = Ok st' → same_scales st st'.
Proof.
  intros Hf. unfold upd_timer, deref. destruct (heap st !! ts) as [x|] eqn:Hx; [|done]. intros [= <-] a. cbn [set_heap heap].
  destruct (decide (ts = a)) as [<-|]; [by rewrite lookup_insert_eq, Hx; cbn; rewrite Hf|by rewrite lookup_insert_ne].
Qed.

Lemma write_cell_scales pt v st st' : write_cell pt v st = Ok st' → same_scales st st'.
Proof. destruct pt as [t|]; [|by intros [= <-]]. by apply (upd_timer_scales t (set_next v)). Qed.

Lemma del_loop_scales fuel pt ts st st' : del_loop fuel pt ts st = Ok st' → same_scales st st'.
Proof.
  revert pt. induction fuel as [|fuel IH]; intros pt; [done|]. cbn [del_loop].
  destruct (read_cell pt st) as [[t|]| |]; cbn [mbind res_bind]; try done; [|by intros [= <-]].
  destruct (t =? ts); [|apply IH]. unfold deref. destruct (heap st !! t); cbn [mbind res_bind]; [|done]. apply write_cell_scales.
Qed.

Lemma timer_del_scales fuel ts st st' : timer_del fuel ts st = Ok st' → same_scales st st'.
Proof.
  unfold timer_del, timer_del_locked. destruct (upd_timer _ _ st) as [st1| |] eqn:E1; cbn [mbind res_bind]; try done.
  intros E2. eapply scales_trans; [by eapply upd_timer_scales in E1|by eapply del_loop_scales].
Qed.

Lemma timer_mod_ns_scales fuel ts e st b st' : timer_mod_ns fuel ts e st = Ok (b, st') → same_scales st st'.
Proof.
  unfold timer_mod_ns. destruct (timer_del_locked fuel ts st) as [st0| |] eqn:E0; cbn [mbind res_bind]; try done.
  apply timer_del_scales in E0. unfold timer_mod_ns_locked.
  destruct (mod_loop fuel None e st0) as [pt| |]; cbn [mbind res_bind]; try done.
  destruct (upd_timer ts (set_expire _) st0) as [st1| |] eqn:E1; cbn [mbind res_bind]; try done.
  destruct (read_cell pt st1) as [n| |]; cbn [mbind res_bind]; try done.
  destruct (upd_timer ts (set_next n) st1) as [st2| |] eqn:E2; cbn [mbind res_bind]; try done.
  destruct (write_cell pt (Some ts) st2) as [st3| |] eqn:E3; cbn [mbind res_bind]; try done. intros [= _ <-].
  apply upd_timer_scales in E1; [|done]. apply upd_timer_scales in E2; [|done]. apply write_cell_scales in E3.
  eauto using scales_trans.
Qed.

(** ** Running *)

Definition due (now : Z) (st : QEMUTimerList) (l : list Z) : list Z := filter (λ a, deadline (heap st) a ≤ now) l.

Lemma due_ext now st st' l :
  (∀ a, a ∈ l → deadline (heap st') a = deadline (heap st) a) → due now st' l = due now st l.
Proof.
  unfold due. induction l as [|b l IH]; intros Hd; [done|]. rewrite !filter_cons, (Hd b) by (by left).
  rewrite IH; [done|]. intros a Ha. apply Hd. by right.
Qed.

Lemma due_app now st l1 l2 : due now st (l1 ++ l2) = due now st l1 ++ due now st l2.
Proof. apply filter_app. Qed.

(** The first timer taken off. *)
Definition popped (a : Z) (x : QEMUTimer) (st : QEMUTimerList) : QEMUTimerList :=
  mkTList (<[a := mkTimer (-1) None (scale x)]> (heap st)) (next x).

Lemma popped_holds a x l st :
  holds st (a :: l) → heap st !! a = Some x →
  holds (popped a x st) l ∧ a ∉ l ∧ ∀ now, due now (popped a x st) l = due now st l.
Proof.
  intros [(Hp & x' & Hx' & Hs) [Ha Hd]%NoDup_cons [Hsort _]%StronglySorted_inv Hpend Hidle] Hx.
  rewrite Hx in Hx'. injection Hx' as <-.
  assert (Hdl : ∀ b, deadline (heap (popped a x st)) b = if decide (b = a) then -1 else deadline (heap st) b)
    by (intros b; apply deadline_insert). split_and!; [|done|].
  - split; try done.
    + by apply seg_insert.
    + apply (sorted_ext (deadline (heap st))); [|done]. intros b Hb. rewrite Hdl, decide_False; [done|by intros ->].
    + intros b Hb. rewrite Hdl, decide_False by (by intros ->). apply Hpend. by right.
    + intros b Hb. rewrite Hdl. case_decide as Hba; [done|]. apply Hidle. set_solver.
  - intros now. apply due_ext. intros b Hb. rewrite Hdl, decide_False; [done|by intros ->].
Qed.

Section Runs.
Context {W : Type} (cb : Z → QEMUTimerList * W → res (QEMUTimerList * W)) (now : Z).
Context (log : W → list Z) (J : QEMUTimerList → W → Prop).

(** Callbacks keep the list in order and an invariant [J], and may set timers, but not to fire
    before [now]; each shows in the log.  A callback finds its own timer idle: [J] holds when it
    is taken off. *)
Definition polite : Prop := ∀ a x st w l,
  J st w → holds st (a :: l) → heap st !! a = Some x → expire_time x ≤ now →
  ∃ st' w' l', cb a (popped a x st, w) = Ok (st', w') ∧ J st' w' ∧ holds st' l' ∧
               due now st' l' = due now st l ∧ log w' = log w ++ [a].

Lemma run_loop_due fuel progress st w l :
  polite → J st w → holds st l → (length (due now st l) < fuel)%nat →
  ∃ st' w' l', run_loop cb fuel now progress st w = Ok (progress || bool_decide (due now st l ≠ []), st', w') ∧
    J st' w' ∧ holds st' l' ∧ (∀ a, a ∈ l' → now < deadline (heap st') a) ∧ log w' = log w ++ due now st l.
Proof.
  intros Hcb. revert progress st w l. induction fuel as [|fuel IH]; intros progress st w l HJ Hh Hf; [lia|]. cbn [run_loop].
  destruct l as [|a l].
  { pose proof (h_seg _ _ Hh) as Hs. cbn in Hs. rewrite Hs. cbn [timer_expired_ns mbind res_bind].
    exists st, w, []. unfold due. cbn. rewrite orb_false_r, app_nil_r. split_and!; try done. intros a []%not_elem_of_nil. }
  pose proof (h_seg _ _ Hh) as (Hp & x & Hx & Hs). rewrite Hp. unfold timer_expired_ns, deref. rewrite Hx. cbn [mbind res_bind].
  assert (Ha : deadline (heap st) a = expire_time x) by (unfold deadline; by rewrite Hx).
  assert (Hdue : due now st (a :: l) = if expire_time x <=? now then a :: due now st l else []).
  { unfold due. rewrite filter_cons, Ha. destruct (Z.leb_spec (expire_time x) now) as [Hle|Hgt].
    - by rewrite decide_True.
    - rewrite decide_False by lia. pose proof (h_sorted _ _ Hh) as [_ Hall]%StronglySorted_inv. rewrite Forall_forall in Hall.
      apply (elem_of_nil_inv _). intros b [Hb Hin]%list_elem_of_filter. specialize (Hall b Hin). unfold by_deadline in Hall. lia. }
  rewrite Hdue in *. destruct (expire_time x <=? now) eqn:E.
  - fold (popped a x st). apply Z.leb_le in E.
    destruct (Hcb a x st w l HJ Hh Hx E) as (st2 & w2 & l2 & -> & HJ2 & Hh2 & Hd2 & Hlog).
    cbn [mbind res_bind]. cbn [length] in Hf.
    destruct (IH true st2 w2 l2 HJ2 Hh2 ltac:(rewrite Hd2; lia)) as (st' & w' & l' & -> & HJ' & Hh' & Hlate & Hlog').
    exists st', w', l'. rewrite (bool_decide_eq_true_2 (a :: due now st l ≠ [])) by done. rewrite orb_true_r. cbn [orb]. split_and!; try done.
    rewrite Hlog', Hlog, Hd2, <-app_assoc. done.
  - exists st, w, (a :: l). rewrite bool_decide_eq_false_2, orb_false_r, app_nil_r by tauto. split_and!; try done.
    pose proof (h_sorted _ _ Hh) as [_ Hall]%StronglySorted_inv. rewrite Forall_forall in Hall. apply Z.leb_gt in E.
    intros b [-> | Hb]%elem_of_cons; [lia|]. specialize (Hall b Hb). unfold by_deadline in Hall. lia.
Qed.

Lemma run_timers_due fuel st w l :
  polite → J st w → holds st l → (length l < fuel)%nat →
  ∃ st' w' l', timerlist_run_timers cb fuel true now st w = Ok (bool_decide (due now st l ≠ []), st', w') ∧
    J st' w' ∧ holds st' l' ∧ (∀ a, a ∈ l' → now < deadline (heap st') a) ∧ log w' = log w ++ due now st l.
Proof.
  intros Hcb HJ Hh Hf. apply (run_loop_due fuel false st w l Hcb HJ Hh).
  unfold due. pose proof (length_filter (λ a, deadline (heap st) a ≤ now) l). lia.
Qed.
End Runs.

(** C27: the linked list of active timers implements a list sorted by deadline: modifying a timer,
    active or not, takes it out of its place and puts it behind the timers that are due at the
    new deadline or before and in front of all later ones, changes no other deadline, and asks
    for a new poll exactly if it became the first. *)
Theorem timer_mod_ns_refines fuel ts e l st :
  holds st l → is_Some (heap st !! ts) → (length l < fuel)%nat →
  ∃ l1 l2 st', timer_mod_ns fuel ts e st = Ok (bool_decide (l1 = []), st') ∧ without ts l = l1 ++ l2 ∧
    holds st' (l1 ++ ts :: l2) ∧
    (∀ a, a ∈ l1 → deadline (heap st) a ≤ e) ∧ (∀ a, a ∈ l2 → e < deadline (heap st) a) ∧
    (∀ a, deadline (heap st') a = if decide (a = ts) then Z.max e 0 else deadline (heap st) a).
Proof. apply timer_mod_ns_holds. Qed.

(** C28: running the timers of an enabled clock ends and calls the callback of every timer that is
    due, in the order of their deadlines and no other, and afterwards no active timer is due;
    the callbacks may themselves set timers, as long as they set them to fire later, and
    whatever invariant they all keep holds at the end. *)
Theorem timerlist_run_timers_due {W} (cb : Z → QEMUTimerList * W → res (QEMUTimerList * W)) now log J fuel st w l :
  polite cb now log J → J st w → holds st l → (length l < fuel)%nat →
  ∃ st' w' l', timerlist_run_timers cb fuel true now st w = Ok (bool_decide (due now st l ≠ []), st', w') ∧
    J st' w' ∧ holds st' l' ∧ (∀ a, a ∈ l' → now < deadline (heap st') a) ∧ log w' = log w ++ due now st l.
Proof. apply run_timers_due. Qed.

(** ** Deadlines *)

(** A timeout: -1 for none. *)
Definition is_timeout (t : Z) : Prop := t = -1 ∨ 0 ≤ t < 2 ^ 63.

Lemma soonest_spec t1 t2 :
  is_timeout t1 → is_timeout t2 →
  qemu_soonest_timeout t1 t2 = if t1 =? -1 then t2 else if t2 =? -1 then t1 else Z.min t1 t2.
Proof.
  assert (Hu : ∀ t, is_timeout t → u64 t = if t =? -1 then 2 ^ 64 - 1 else t).
  { intros t [-> | Ht]; [done|]. unfold u64. rewrite Z.mod_small by lia. destruct (Z.eqb_spec t (-1)); lia. }
  intros H1 H2. unfold qemu_soonest_timeout. rewrite !Hu by done.
  destruct H1 as [-> | H1], H2 as [-> | H2]; cbn [Z.eqb]; repeat case_match; lia.
Qed.

(** What a list has left: nothing, or the time to its first timer. *)
Definition time_left (now : Z) (st : QEMUTimerList) (l : list Z) : Z :=
  match l with [] => -1 | a :: _ => Z.max 0 (deadline (heap st) a - now) end.

Lemma timerlist_deadline_eq now st l :
  holds st l → 0 ≤ now < 2 ^ 63 → (∀ a, a ∈ l → deadline (heap st) a < 2 ^ 63) →
  timerlist_deadline_ns true now st = Ok (time_left now st l).
Proof.
  intros Hh Hn Hb. unfold timerlist_deadline_ns. cbn [negb]. destruct l as [|a l].
  { pose proof (h_seg _ _ Hh) as Hs. cbn in Hs. by rewrite Hs. }
  pose proof (h_seg _ _ Hh) as (Hp & x & Hx & Hs). rewrite Hp. unfold deref. rewrite Hx. cbn [mbind res_bind time_left].
  assert (Ha : deadline (heap st) a = expire_time x) by (unfold deadline; by rewrite Hx).
  pose proof (h_pending _ _ Hh a ltac:(by left)). pose proof (Hb a ltac:(by left)). rewrite Ha in *.
  rewrite s64_id by lia. destruct (Z.leb_spec (expire_time x - now) 0); f_equal; lia.
Qed.

Lemma time_left_least now st l :
  holds st l → (∀ a, a ∈ l → deadline (heap st) a < 2 ^ 63) → 0 ≤ now →
  is_timeout (time_left now st l) ∧ (time_left now st l = -1 ↔ l = []) ∧
  (∀ a, a ∈ l → time_left now st l ≤ Z.max 0 (deadline (heap st) a - now)).
Proof.
  intros Hh Hb Hn. destruct l as [|a l].
  { split_and!; [by left|done|]. intros a []%not_elem_of_nil. }
  pose proof (h_pending _ _ Hh a ltac:(by left)) as H0. pose proof (Hb a ltac:(by left)) as H1. cbn [time_left]. split_and!.
  - right. lia.
  - split; [lia|done].
  - pose proof (h_sorted _ _ Hh) as [_ Hall]%StronglySorted_inv. rewrite Forall_forall in Hall.
    intros b [-> | Hin]%elem_of_cons; [lia|]. specialize (Hall b Hin). unfold by_deadline in Hall. lia.
Qed.

(** The lists of a clock at time [now], each with the timers it holds. *)
Definition clock_lists (now : Z) (ls : list (QEMUTimerList * list Z)) : Prop :=
  Forall (λ '(st, l), holds st l ∧ ∀ a, a ∈ l → deadline (heap st) a < 2 ^ 63) ls.

(** [r] is the least of [d0] and the times left, -1 counting as the largest. *)
Definition least (now : Z) (d0 r : Z) (ls : list (QEMUTimerList * list Z)) : Prop :=
  is_timeout r ∧
  (r = -1 → d0 = -1 ∧ ∀ st l, (st, l) ∈ ls → l = []) ∧
  (d0 ≠ -1 → r ≠ -1 ∧ r ≤ d0) ∧
  (∀ st l a, (st, l) ∈ ls → a ∈ l → r ≠ -1 ∧ r ≤ Z.max 0 (deadline (heap st) a - now)) ∧
  (r ≠ -1 → r = d0 ∨ ∃ st l a, (st, l) ∈ ls ∧ a ∈ l ∧ r = Z.max 0 (deadline (heap st) a - now)).

Lemma soonest_deadline_least now d0 ls :
  0 ≤ now < 2 ^ 63 → is_timeout d0 → clock_lists now ls →
  ∃ r, soonest_deadline d0 ((λ '(st, _), (true, now, st)) <$> ls) = Ok r ∧ least now d0 r ls.
Proof.
  intros Hn. revert d0. induction ls as [|[st l] ls IH]; intros d0 Hd0 Hl.
  { exists d0. split; [done|]. split_and!; try done; [|intros st l a []%not_elem_of_nil|by left].
    intros ->. split; [done|]. intros st l []%not_elem_of_nil. }
  apply Forall_cons in Hl as [[Hh Hb] Hl]. cbn [fmap list_fmap soonest_deadline].
  rewrite (timerlist_deadline_eq now st l Hh Hn Hb). cbn [mbind res_bind].
  destruct (time_left_least now st l Hh Hb ltac:(lia)) as (Ht & Hnone & Hmin).
  set (t := time_left now st l) in *. set (d1 := qemu_soonest_timeout d0 t).
  assert (Hd1 : d1 = if d0 =? -1 then t else if t =? -1 then d0 else Z.min d0 t) by (by apply soonest_spec).
  assert (Hd1t : is_timeout d1) by (rewrite Hd1; unfold is_timeout in *; repeat case_match; lia).
  destruct (IH d1 Hd1t Hl) as (r & E & H1 & H2 & H3 & H4 & H5). exists r. split; [exact E|].
  clearbody d1. split_and!; try done.
  - intros ->. destruct (H2 eq_refl) as [-> Hnil]. destruct (Z.eqb_spec d0 (-1)), (Z.eqb_spec t (-1)); try (unfold is_timeout in *; lia).
    split; [done|]. intros st' l' [[= -> ->]|Hin]%elem_of_cons; [by apply Hnone|by eapply Hnil].
  - intros Hne. destruct (Z.eqb_spec d0 (-1)), (Z.eqb_spec t (-1)); try lia; unfold is_timeout in *; lia.
  - intros st' l' a [[= -> ->]|Hin]%elem_of_cons Ha; [|by eapply H4]. specialize (Hmin a Ha).
    assert (t ≠ -1) by (intros Hx; apply Hnone in Hx; subst; by apply not_elem_of_nil in Ha).
    destruct (Z.eqb_spec d0 (-1)), (Z.eqb_spec t (-1)); try lia; unfold is_timeout in *; lia.
  - intros Hne. destruct (H5 Hne) as [-> | (st' & l' & a & Hin & Ha & Hr)].
    + destruct (Z.eqb_spec d0 (-1)), (Z.eqb_spec t (-1)); try lia.
      * right. destruct l as [|a l]; [by destruct n; apply Hnone|]. exists st, (a :: l), a. split_and!; [by left|by left|exact Hd1].
      * destruct (Z.min_spec d0 t) as [[_ Hm]|[_ Hm]]; [left; lia|]. right. destruct l as [|a l]; [by destruct n0; apply Hnone|].
        exists st, (a :: l), a. split_and!; [by left|by left|]. rewrite Hd1, Hm. done.
    + right. exists st', l', a. split_and!; try done. by right.
Qed.

(** the time the main loop may sleep on a clock is the least time left of all active timers
    of all its lists, 0 when one is due and -1 (for ever) exactly if there are none, in spite of
    the unsigned comparison that lets -1 count as the largest. *)
Theorem qemu_clock_deadline_least now ls :
  0 ≤ now < 2 ^ 63 → clock_lists now ls →
  ∃ r, qemu_clock_deadline_ns_all ((λ '(st, _), (true, now, st)) <$> ls) = Ok r ∧ least now (-1) r ls.
Proof. intros Hn Hl. apply soonest_deadline_least; [done|by left|done]. Qed.

(** C40: a time-out in nanoseconds becomes milliseconds rounded up, never 0 for a time-out that is
    not 0 (the loop would spin) and never beyond the 31 bits of an [int]; a negative one, for
    ever, becomes -1.  The sum before the division needs the time-out to stay a million below
    the largest 64-bit value. *)
Theorem qemu_timeout_ns_to_ms_bounds ns :
  - 2 ^ 63 ≤ ns ≤ 2 ^ 63 - SCALE_MS →
  let ms := qemu_timeout_ns_to_ms ns in
  -1 ≤ ms ≤ INT32_MAX ∧ (ms = -1 ↔ ns < 0) ∧ (ms = 0 ↔ ns = 0) ∧
  (0 ≤ ns → ms = INT32_MAX ∨ ns ≤ ms * SCALE_MS < ns + SCALE_MS) ∧
  (INT32_MAX * SCALE_MS < ns → ms = INT32_MAX).
Proof.
  unfold qemu_timeout_ns_to_ms, SCALE_MS, INT32_MAX. intros Hns.
  destruct (Z.ltb_spec ns 0) as [Hneg|Hpos]; [lia|]. destruct (Z.eqb_spec ns 0) as [->|Hnz]; [lia|].
  cbn zeta. rewrite s64_id by lia. rewrite Z.quot_div_nonneg by lia.
  set (q := (ns + 1000000 - 1) / 1000000).
  assert (Hq : 1000000 * q ≤ ns + 1000000 - 1 < 1000000 * q + 1000000).
  { pose proof (Z.div_mod (ns + 1000000 - 1) 1000000 ltac:(lia)) as E.
    pose proof (Z.mod_pos_bound (ns + 1000000 - 1) 1000000 ltac:(lia)). fold q in E. lia. }
  destruct (Z.ltb_spec (2 ^ 31 - 1) q); rewrite s32_id by lia; lia.
Qed.

(** ** Migration *)

Lemma be_get_put v rest :
  fits 64 v → ∃ l, qemu_get_bytes 8 (be_bytes 8 v ++ rest) = (l, rest) ∧ be_val l = v.
Proof.
  intros Hv. exists (be_bytes 8 v). split.
  - pose proof (get_bytes_app (be_bytes 8 v) rest) as H. by rewrite length_be_bytes in H.
  - rewrite be_val_be_bytes. apply Z.mod_small. exact Hv.
Qed.

(** a timer survives migration: whatever state it is in on the destination, loading what the
    source saved makes it pending with the source's deadline, or idle if it was idle there,
    leaves every other timer alone and the list sorted. *)
Theorem timer_migrates fuel ts l l' st st' rest :
  holds st l → is_Some (heap st !! ts) → deadline (heap st) ts < 2 ^ 63 →
  holds st' l' → is_Some (heap st' !! ts) → (length l' < fuel)%nat →
  ∃ out st2 l2, timer_put ts st = Ok out ∧ timer_get fuel ts (out ++ rest) st' = Ok (rest, st2) ∧ holds st2 l2 ∧
    (ts ∈ l2 ↔ ts ∈ l) ∧
    ∀ a, deadline (heap st2) a = if decide (a = ts) then deadline (heap st) ts else deadline (heap st') a.
Proof.
  intros Hh [x Hx] Hb Hh' Hx' Hf. assert (Hdl : deadline (heap st) ts = expire_time x) by (unfold deadline; by rewrite Hx).
  unfold timer_put, timer_expire_time_ns, timer_pending, deref. rewrite Hx. cbn [mbind res_bind].
  destruct (decide (ts ∈ l)) as [Hin|Hout].
  - pose proof (h_pending _ _ Hh _ Hin) as H0. rewrite Hdl in *. rewrite (proj2 (Z.leb_le _ _)) by done.
    assert (Hu : u64 (expire_time x) = expire_time x) by (unfold u64; rewrite Z.mod_small; lia). rewrite Hu.
    destruct (be_get_put (expire_time x) rest) as (bs & Eg & Ev); [split; lia|].
    destruct (timer_mod_ns_holds fuel ts (expire_time x) l' st' Hh' Hx' Hf) as (l1 & l2 & st2 & E & _ & Hh2 & _ & _ & Hd2).
    eexists _, st2, (l1 ++ ts :: l2). split; [reflexivity|]. unfold timer_get. rewrite Eg, Ev, (proj2 (Z.eqb_neq _ _)) by lia.
    cbn [negb]. rewrite s64_id by lia. rewrite E. cbn [mbind res_bind]. split_and!; try done; [set_solver|].
    intros a. rewrite Hd2. case_decide; [lia|done].
  - pose proof (h_idle _ _ Hh _ Hout) as H0. rewrite Hdl in *. rewrite H0. cbn [Z.leb Z.compare].
    destruct (be_get_put (u64 (-1)) rest) as (bs & Eg & Ev); [by split|].
    destruct (timer_del_holds fuel ts l' st' Hh' Hx' Hf) as (st2 & E & Hh2 & _ & Hd2).
    eexists _, st2, (without ts l'). split; [reflexivity|]. unfold timer_get. rewrite Eg, Ev.
    change (u64 (-1) =? 2 ^ 64 - 1) with true. cbn [negb]. rewrite E. cbn [mbind res_bind]. split_and!; try done.
    split; [by intros [? _]%list_elem_of_filter|done].
Qed.

(** ** Witnesses: timers 10 and 20 active, 30 idle *)

Definition demo : QEMUTimerList :=
  mkTList (<[10 := mkTimer 5 (Some 20) 1]> (<[20 := mkTimer 7 None 1]> (<[30 := mkTimer (-1) None 1]> ∅))) (Some 10).

Lemma demo_deadline a : deadline (heap demo) a = if decide (a = 10) then 5 else if decide (a = 20) then 7 else -1.
Proof. unfold demo. cbn [heap]. rewrite !deadline_insert. cbn [expire_time]. by repeat case_decide. Qed.

Lemma demo_holds : holds demo [10; 20].
Proof.
  split.
  - split; [done|]. eexists. split; [reflexivity|]. split; [done|]. eexists. split; reflexivity.
  - apply NoDup_cons. split; [set_solver|]. apply NoDup_cons. split; [set_solver|]. by apply NoDup_nil.
  - constructor; [constructor; [constructor|by apply Forall_nil]|]. apply Forall_cons. split; [|by apply Forall_nil].
    unfold by_deadline. rewrite !demo_deadline. done.
  - intros a Ha. rewrite demo_deadline. repeat case_decide; try lia. set_solver.
  - intros a Ha. rewrite demo_deadline. repeat case_decide; subst; [set_solver..|done].
Qed.

Lemma timer_mod_ns_refines_witness :
  ∃ st', timer_mod_ns 3 30 6 demo = Ok (false, st') ∧ holds st' [10; 30; 20].
Proof.
  destruct (timer_mod_ns_refines 3 30 6 [10; 20] demo) as (l1 & l2 & st' & E & Hl & Hh & H1 & H2 & _).
  - exact demo_holds.
  - by eexists.
  - cbn. lia.
  - exists st'. assert (Hl' : l1 ++ l2 = [10; 20]) by (by rewrite <-Hl).
    destruct l1 as [|a [|b [|c l1]]]; cbn in Hl'.
    + subst l2. specialize (H2 10 ltac:(by left)). change (6 < 5) in H2. lia.
    + injection Hl' as -> ->. split; [exact E|exact Hh].
    + injection Hl' as -> -> _. specialize (H1 20 ltac:(by right; left)). change (7 ≤ 6) in H1. lia.
    + discriminate Hl'.
Defined.

(** A callback that only writes to the log. *)
Definition log_cb (a : Z) (sw : QEMUTimerList * list Z) : res (QEMUTimerList * list Z) :=
  let '(st, w) := sw in Ok (st, w ++ [a]).

Lemma log_polite now : polite log_cb now (λ w, w) (λ _ _, True).
Proof.
  intros a x st w l _ Hh Hx _. destruct (popped_holds a x l st Hh Hx) as (Hh1 & _ & Hd1).
  by exists (popped a x st), (w ++ [a]), l.
Qed.

Lemma timerlist_run_timers_due_witness :
  ∃ st', timerlist_run_timers log_cb 3 true 6 demo [] = Ok (true, st', [10]).
Proof.
  destruct (timerlist_run_timers_due log_cb 6 (λ w, w) (λ _ _, True) 3 demo [] [10; 20]) as (st' & w' & l' & E & _ & _ & _ & Hw).
  - apply log_polite.
  - done.
  - exact demo_holds.
  - cbn. lia.
  - exists st'. cbn [app] in Hw. rewrite E, Hw. reflexivity.
Defined.

Lemma qemu_clock_deadline_least_witness : qemu_clock_deadline_ns_all [(true, 2, demo); (true, 2, demo)] = Ok 3.
Proof.
  destruct (qemu_clock_deadline_least 2 [(demo, [10; 20]); (demo, [10; 20])]) as (r & E & H1 & _ & _ & H4 & H5).
  - lia.
  - assert (Hb : holds demo [10; 20] ∧ ∀ a, a ∈ [10; 20] → deadline (heap demo) a < 2 ^ 63).
    { split; [exact demo_holds|]. intros a _. rewrite demo_deadline. repeat case_decide; lia. }
    apply Forall_cons. split; [exact Hb|]. apply Forall_cons. split; [exact Hb|]. by apply Forall_nil.
  - change (qemu_clock_deadline_ns_all [(true, 2, demo); (true, 2, demo)] = Ok r) in E. rewrite E. f_equal.
    destruct (H4 demo [10; 20] 10 ltac:(by left) ltac:(by left)) as [Hne Hle]. change (r ≤ 3) in Hle.
    destruct (H5 Hne) as [Hr|(st & l & a & Hin & Ha & Hr)]; [done|].
    assert (Hst : st = demo ∧ l = [10; 20]).
    { apply elem_of_cons in Hin as [[= -> ->]|Hin]; [done|]. apply list_elem_of_singleton in Hin. by injection Hin as -> ->. }
    destruct Hst as [-> ->].
    apply elem_of_cons in Ha as [-> | Ha]; [exact Hr|]. apply list_elem_of_singleton in Ha as ->. change (r = 5) in Hr. lia.
Defined.

Lemma qemu_timeout_ns_to_ms_bounds_witness : qemu_timeout_ns_to_ms 1 = 1 ∧ qemu_timeout_ns_to_ms (2 ^ 60) = INT32_MAX.
Proof.
  destruct (qemu_timeout_ns_to_ms_bounds 1) as (_ & _ & _ & H & _); [unfold SCALE_MS; lia|].
  destruct (qemu_timeout_ns_to_ms_bounds (2 ^ 60)) as (_ & _ & _ & _ & H2); [unfold SCALE_MS; lia|].
  split; [|apply H2; unfold INT32_MAX, SCALE_MS; lia]. specialize (H ltac:(lia)). unfold INT32_MAX, SCALE_MS in H.
  destruct H as [H|H]; [|lia]. vm_compute. reflexivity.
Defined.

Lemma timer_migrates_witness :
  ∃ st2, timer_get 3 20 (be_bytes 8 7) (mkTList (heap (popped 10 (mkTimer 5 (Some 20) 1) demo)) (Some 20)) = Ok ([], st2) ∧
         deadline (heap st2) 20 = 7.
Proof.
  destruct (popped_holds 10 (mkTimer 5 (Some 20) 1) [20] demo demo_holds eq_refl) as (Hh & _ & _).
  destruct (timer_migrates 3 20 [10; 20] [20] demo (popped 10 (mkTimer 5 (Some 20) 1) demo) []) as (out & st2 & l2 & Ep & Eg & _ & _ & Hd).
  - exact demo_holds.
  - by eexists.
  - change (7 < 2 ^ 63). lia.
  - exact Hh.
  - by eexists.
  - cbn. lia.
  - exists st2. assert (Ho : timer_put 20 demo = Ok (be_bytes 8 7)) by reflexivity. rewrite Ho in Ep. injection Ep as <-.
    rewrite app_nil_r in Eg. split; [exact Eg|]. rewrite Hd, decide_True, demo_deadline by done. reflexivity.
Defined.

End Timer.
