(* ===== verification/TimedDevice.v ===== *)
(** The device and its timers together: a world that keeps a real list of timers ([Timer]) beside
    any world of the device, the callbacks e1000.c registers, and what running the timers does to
    the machine.  The list may hold timers of other devices, whose callbacks are not followed. *)

From S2P Require Import Prelude Regs Iov NetQueue Device Board Intr Mmio Lifecycle System VMState Timer.
Import Intr Mmio Lifecycle System Timer.

Module TimedDevice.

(** ** A world with a timer list *)

Record Timed (W : Type) : Type := mkTimed {
  tw_base : W;
  tw_list : QEMUTimerList;
}.
Arguments mkTimed {_} tw_base tw_list.
Arguments tw_base {_} t.
Arguments tw_list {_} t.
Definition on_base {W} (f : W → W) (w : Timed W) : Timed W := mkTimed (f (tw_base w)) (tw_list w).
Definition on_list {W} (f : QEMUTimerList → QEMUTimerList) (w : Timed W) : Timed W :=
  mkTimed (tw_base w) (f (tw_list w)).

(** The device's two timers: where they are and the scale they are created with. *)
Definition taddr (t : timer) : Z := match t with AutonegTimer => 1 | MitTimer => 2 end.
Definition timer_scale (t : timer) : Z := match t with AutonegTimer => SCALE_MS | MitTimer => 1 end.

(** Fuel for the walks: no list is longer than the memory has timers. *)
Definition list_fuel (st : QEMUTimerList) : nat := S (size (heap st)).

Definition list_mod (t : timer) (e : Z) (st : QEMUTimerList) : QEMUTimerList :=
  match Timer.timer_mod (list_fuel st) (taddr t) e st with Ok (_, st') => st' | _ => st end.
Definition list_del (t : timer) (st : QEMUTimerList) : QEMUTimerList :=
  match Timer.timer_del (list_fuel st) (taddr t) st with Ok st' => st' | _ => st end.

#[export] Instance TimedEnv W `{DeviceEnv W} : DeviceEnv (Timed W) := {
  pci_dma_read a buf w := let '(l, b) := pci_dma_read a buf (tw_base w) in (l, mkTimed b (tw_list w));
  pci_dma_write a l := on_base (pci_dma_write a l);
  pci_set_irq b := on_base (pci_set_irq b);
  timer_mod t e := on_list (list_mod t e);
  timer_del t := on_list (list_del t);
  qemu_clock_get_ns w := qemu_clock_get_ns (tw_base w);
  qemu_clock_get_ms w := Z.quot (qemu_clock_get_ns (tw_base w)) SCALE_MS;
  net_send l := on_base (net_send l);
  net_hub_flush w := let '(f, b) := net_hub_flush (tw_base w) in (f, mkTimed b (tw_list w));
  qemu_notify_event := on_base qemu_notify_event;
  packet_sent_cb a b c := on_base (packet_sent_cb a b c);
  stack_bytes := stack_bytes;
}.

#[export] Instance TimedLaws W `{DeviceEnvLaws W} : DeviceEnvLaws (Timed W).
Proof.
  split; intros; cbn.
  - pose proof (dma_read_length a buf (tw_base w)). by destruct (pci_dma_read a buf (tw_base w)).
  - pose proof (dma_read_bytes a buf (tw_base w)). destruct (pci_dma_read a buf (tw_base w)). cbn in *. auto.
  - apply stack_length.
  - apply stack_fits.
Qed.

#[export] Instance TimedPin W `{IrqPin W} : IrqPin (Timed W).
Proof.
  refine {| irq_line w := irq_line (tw_base w) |}; intros; cbn;
    rewrite ?irq_line_set, ?irq_line_write, ?irq_line_send, ?irq_line_notify, ?irq_line_sent; try done.
  - pose proof (irq_line_read a l (tw_base w)). by destruct (pci_dma_read a l (tw_base w)).
  - pose proof (irq_line_hub (tw_base w)). by destruct (net_hub_flush (tw_base w)).
Defined.

(** ** The list keeps its order and its timers *)

Definition scales (st : QEMUTimerList) : Prop := ∀ t, scale <$> heap st !! taddr t = Some (timer_scale t).

Lemma scales_timer st t : scales st → ∃ x, heap st !! taddr t = Some x ∧ scale x = timer_scale t.
Proof. intros Hs. specialize (Hs t). destruct (heap st !! taddr t) as [x|]; [|done]. injection Hs as Hs. eauto. Qed.

Lemma scales_same st st' : same_scales st st' → scales st → scales st'.
Proof. intros He Hs t. by rewrite He. Qed.

Lemma holds_fuel st l : holds st l → (length l < list_fuel st)%nat.
Proof.
  intros Hh. unfold list_fuel. assert (Hsub : (list_to_set l : gset Z) ⊆ dom (heap st)).
  { intros a Ha%elem_of_list_to_set. apply elem_of_dom. by eapply seg_mapped; [apply Hh|]. }
  apply subseteq_size in Hsub. rewrite size_list_to_set in Hsub by apply Hh. rewrite size_dom in Hsub. lia.
Qed.

(** Setting a timer for later than [now] changes nothing about what is due. *)
Lemma list_mod_spec t e st l :
  holds st l → scales st →
  ∃ l', holds (list_mod t e st) l' ∧ scales (list_mod t e st) ∧
    (∀ a, deadline (heap (list_mod t e st)) a =
            if decide (a = taddr t) then Z.max (s64 (e * timer_scale t)) 0 else deadline (heap st) a) ∧
    (∀ now, taddr t ∉ l → now < s64 (e * timer_scale t) → due now (list_mod t e st) l' = due now st l).
Proof.
  intros Hh Hs. destruct (scales_timer st t Hs) as (x & Hx & Hsc). unfold list_mod, Timer.timer_mod, deref.
  rewrite Hx. cbn [mbind res_bind]. rewrite Hsc. set (d := s64 _).
  destruct (timer_mod_ns_holds (list_fuel st) (taddr t) d l st Hh ltac:(by eexists) (holds_fuel _ _ Hh))
    as (l1 & l2 & st' & E & Hl & Hh' & _ & _ & Hd). rewrite E.
  exists (l1 ++ taddr t :: l2). split_and!; try done.
  - by eapply scales_same; [eapply timer_mod_ns_scales|].
  - intros now Hn Hlt. rewrite without_notin in Hl by done. subst l. rewrite !due_app. apply not_elem_of_app in Hn as [Hn1 Hn2].
    assert (Hts : deadline (heap st') (taddr t) = Z.max d 0) by (by rewrite Hd, decide_True).
    unfold due at 2. rewrite filter_cons, Hts, decide_False by lia.
    f_equal; apply due_ext; intros a Ha; rewrite Hd, decide_False; try done; by intros ->.
Qed.

Lemma list_del_spec t st l :
  holds st l → scales st → holds (list_del t st) (without (taddr t) l) ∧ scales (list_del t st).
Proof.
  intros Hh Hs. destruct (scales_timer st t Hs) as (x & Hx & _). unfold list_del.
  destruct (timer_del_holds (list_fuel st) (taddr t) l st Hh ltac:(by eexists) (holds_fuel _ _ Hh))
    as (st' & E & Hh' & _). rewrite E. split; [done|]. by eapply scales_same; [eapply timer_del_scales|].
Qed.

(** The timer list is a world of timers for the device. *)
#[export] Instance TimedTimers W `{DeviceEnv W} : TimerWorld (Timed W).
Proof.
  refine {| timer_inv w := (∃ l, holds (tw_list w) l) ∧ scales (tw_list w);
            armed t w := 0 ≤ deadline (heap (tw_list w)) (taddr t) |};
    try (intros; intros Hi; by split).
  - intros t e w [[l Hh] Hs]. destruct (list_mod_spec t e _ _ Hh Hs) as (l' & _ & _ & Hd & _).
    cbn. rewrite Hd, decide_True by done. lia.
  - intros t e w [[l Hh] Hs]. destruct (list_mod_spec t e _ _ Hh Hs) as (l' & Hh' & Hs' & Hd & _).
    split; [by split; [exists l'|]|]. intros t' Ht. cbn. rewrite Hd. case_decide; [lia|done].
  - intros t w [[l Hh] Hs]. destruct (list_del_spec t _ _ Hh Hs) as [Hh' Hs']. split; [by eexists|done].
  - intros a l w Hi. cbn. by destruct (pci_dma_read a l (tw_base w)).
  - intros w Hi. cbn. by destruct (net_hub_flush (tw_base w)).
Defined.

(** ** Running the device's timers *)

(** The virtual clock does not advance while the pin is driven. *)
Class SteadyClock (W : Type) `{DeviceEnv W} : Prop :=
  clock_irq : ∀ b w, qemu_clock_get_ns (pci_set_irq b w) = qemu_clock_get_ns w.

#[export] Instance BoardClock : SteadyClock Board.
Proof. done. Qed.

Section Callbacks.
Context {W : Type} `{DeviceEnv W}.

(** The callbacks the timers were created with; the log tells which ran. *)
Definition device_cb (a : Z) (sw : QEMUTimerList * (Machine (Timed W) * list Z))
  : res (QEMUTimerList * (Machine (Timed W) * list Z)) :=
  let '(st, (s, log)) := sw in
  let s := upd_world (on_list (λ _, st)) s in
  let s := if a =? taddr AutonegTimer then e1000_autoneg_timer s
           else if a =? taddr MitTimer then e1000_mit_timer s else s in
  Ok (tw_list (world s), (s, log ++ [a])).

(** The main loop's turn for the clock: the due timers of the machine's list, at the present time. *)
Definition run_device_timers (s : Machine (Timed W)) : res (Machine (Timed W) * list Z) :=
  let st := tw_list (world s) in
  '(_, st, (s, log)) ← timerlist_run_timers device_cb (list_fuel st) true (qemu_clock_get_ns (world s)) st (s, []);
  Ok (upd_world (on_list (λ _, st)) s, log).

(** Auto-negotiation is over, and the link is up unless its other end is down. *)
Definition negotiated (s : Machine (Timed W)) : Prop :=
  tst (rd_phy s PHY_STATUS) MII_SR_AUTONEG_COMPLETE = true ∧
  (link_down (nc s) = false →
   tst (rd_phy s PHY_STATUS) MII_SR_LINK_STATUS = true ∧ tst (rd s STATUS) E1000_STATUS_LU = true).
End Callbacks.
Section Running.
Context {W : Type} `{DeviceEnvLaws W} `{!IrqPin W} `{!SteadyClock W}.
Implicit Types s : Machine (Timed W).

Lemma negotiated_ext s s' :
  rd_phy s' PHY_STATUS = rd_phy s PHY_STATUS → rd s' STATUS = rd s STATUS → nc s' = nc s →
  negotiated s → negotiated s'.
Proof. unfold negotiated. by intros -> -> ->. Qed.

(** The mitigation callback, run with its timer idle. *)
Lemma mit_timer_lists now s l :
  base_ok (upd_dev (set_mit_timer_on false) s) → holds (tw_list (world s)) l → taddr MitTimer ∉ l →
  qemu_clock_get_ns (world s) = now → 0 ≤ now < 2 ^ 62 →
  qemu_clock_get_ns (world (e1000_mit_timer s)) = now ∧
  ∃ l', holds (tw_list (world (e1000_mit_timer s))) l' ∧
        due now (tw_list (world (e1000_mit_timer s))) l' = due now (tw_list (world s)) l.
Proof.
  intros Hb Hh Hl Hc Hn. unfold e1000_mit_timer. set (s1 := upd_dev (set_mit_timer_on false) s) in *.
  change (world s) with (world s1) in *. set (v := rd s1 ICR).
  destruct (sic_world v s1) as [[Ht _]|[[b ->]|(b & p & Hd & ->)]]; [done| |].
  { cbn. rewrite clock_irq. split; [done|]. by exists l. }
  set (s2 := wr ICS v (wr ICR v s1)) in *. pose proof (bo_regs _ Hb) as Hg.
  assert (Hr : ∀ i, i ∈ idx_regs → i ≠ ICR → i ≠ ICS → fits 16 (rd s2 i)).
  { intros i Hi ? ?. unfold s2. rewrite !rd_wr_ne by done. by apply Hg. }
  destruct (mitigation_delay_bound s2 p) as [Hd0 Hd1]; [apply Hr; [by apply (bool_decide_eq_true (_ ∈ _))|done|done]..|].
  set (d := mitigation_delay s2 p) in *. clearbody d. rewrite u32_small by (split; lia).
  destruct (bo_timer _ Hb) as [[_ Hs] _]. rewrite Hc. change (tw_list (world s1)) with (tw_list (world s)) in *.
  destruct (list_mod_spec MitTimer (now + d * 256) _ _ Hh Hs) as (l' & Hh' & _ & _ & Hdue).
  cbn. rewrite clock_irq. split; [done|]. exists l'. split; [done|]. apply Hdue; [done|].
  cbn [timer_scale]. rewrite s64_id; lia.
Qed.

(** What stands after the callbacks of [log] ran, with the list [st]. *)
Definition timers_ran (now p : Z) (st : QEMUTimerList) (sl : Machine (Timed W) * list Z) : Prop :=
  let s := upd_world (on_list (λ _, st)) (fst sl) in
  mach_ok s ∧ qemu_clock_get_ns (world s) = now ∧ pending (dev s) = p ∧
  (taddr MitTimer ∈ snd sl → irq_line (world s) = negb (pending (dev s) =? 0)) ∧
  (taddr AutonegTimer ∈ snd sl → negotiated s).

Lemma mit_timer_ran s :
  base_ok (upd_dev (set_mit_timer_on false) s) → nc_ok (nc s) →
  let s' := e1000_mit_timer s in
  mach_ok s' ∧ pending (dev s') = pending (dev s) ∧ irq_line (world s') = negb (pending (dev s') =? 0) ∧ (negotiated s → negotiated s').
Proof.
  intros Hb Hn. cbn zeta. set (s1 := upd_dev (set_mit_timer_on false) s) in *.
  assert (Hi : rd s1 ICR = u32 (rd s1 ICR)) by (symmetry; apply u32_small, (reg_fits (dev s1)); apply Hb).
  assert (Hp : pending (dev (e1000_mit_timer s)) = pending (dev s1)).
  { unfold pending. change (Z.land (rd (set_interrupt_cause (rd s1 ICR) s1) IMS) (rd (set_interrupt_cause (rd s1 ICR) s1) ICR)
      = Z.land (rd s1 IMS) (rd s1 ICR)). by rewrite sic_icr, sic_rd, <-Hi by neq_reg. }
  split_and!.
  - split; [by apply dev_ok_sic|]. unfold e1000_mit_timer. by rewrite sic_nc.
  - exact Hp.
  - rewrite Hp. apply (e1000_mit_timer_delivers s); [|apply Hb]. destruct (bo_wf _ Hb). by split.
  - apply negotiated_ext; [exact (sic_phy _ s1 _)|by apply (sic_rd _ s1)|exact (sic_nc _ s1)].
Qed.


Lemma autoneg_world s :
  world (e1000_autoneg_timer s) = world s ∧ pending (dev (e1000_autoneg_timer s)) = pending (dev s).
Proof.
  unfold e1000_autoneg_timer. destruct (negb _); (split; [done|]); [|done].
  rewrite link_up_eq. unfold pending.
  change (Z.land (rd (wr STATUS (Z.lor (rd s STATUS) E1000_STATUS_LU) s) IMS) (rd (wr STATUS (Z.lor (rd s STATUS) E1000_STATUS_LU) s) ICR)
    = Z.land (rd s IMS) (rd s ICR)). by rewrite !rd_wr_ne by neq_reg.
Qed.

Lemma autoneg_ran s : mach_ok s → negotiated (e1000_autoneg_timer s).
Proof.
  intros [[[Hw _ _ _ _ _] _ _] _]. pose proof (phy_fits (dev s) PHY_STATUS Hw) as Hf. pose proof (reg_fits (dev s) STATUS Hw) as Hg.
  unfold negotiated, e1000_autoneg_timer. rewrite rd_phy_wr_eq, rd_wr_phy.
  destruct (link_down (nc s)) eqn:El; cbn [negb].
  - rewrite u16_small by (by apply lor_fits). split; [by apply lor_tst|]. cbn. by rewrite El.
  - assert (E : rd_phy (upd_dev e1000_link_up s) PHY_STATUS = Z.lor (rd_phy s PHY_STATUS) MII_SR_LINK_STATUS).
    { rewrite link_up_eq, rd_phy_wr_eq. apply u16_small. by apply lor_fits. }
    rewrite E, u16_small by (repeat apply lor_fits; done). split; [by apply lor_tst|]. intros _.
    split; [by apply lor_tst_l, lor_tst|]. rewrite link_up_eq, rd_wr_phy, rd_wr_eq, u32_small by (by apply lor_fits).
    by apply lor_tst.
Qed.

(** Another list in order, with the mitigation timer armed if the flag says so. *)
Lemma base_relist s st st' l b :
  base_ok (upd_world (on_list (λ _, st)) s) → holds st' l → scales st' →
  (b = true → 0 ≤ deadline (heap st') (taddr MitTimer)) →
  base_ok (upd_dev (set_mit_timer_on b) (upd_world (on_list (λ _, st')) s)).
Proof.
  intros [Hw Hg Hr Hm Hp _] Hh Hs Hb. split; try done; [by apply set_mit_timer_on_wf|]. split; [|done]. split; [by exists l|done].
Qed.

Lemma mach_relist s st st' l :
  mach_ok (upd_world (on_list (λ _, st)) s) → holds st' l → scales st' →
  (mit_timer_on (dev s) = true → 0 ≤ deadline (heap st') (taddr MitTimer)) → mach_ok (upd_world (on_list (λ _, st')) s).
Proof.
  intros [[Hb Hi Hc] Hn] Hh Hs Hm. pose proof (base_relist s st st' l _ Hb Hh Hs Hm) as Hb'.
  assert (E : upd_dev (set_mit_timer_on (mit_timer_on (dev s))) (upd_world (on_list (λ _, st')) s) = upd_world (on_list (λ _, st')) s)
    by (by destruct s as [[] ? []]). rewrite E in Hb'. by split; [split|].
Qed.

Lemma popped_scales a x st : heap st !! a = Some x → scales st → scales (popped a x st).
Proof.
  intros Hx. apply scales_same. intros b. cbn [popped heap]. destruct (decide (a = b)) as [<-|]; [|by rewrite lookup_insert_ne].
  by rewrite lookup_insert_eq, Hx.
Qed.

Lemma relist_self s : upd_world (on_list (λ _, tw_list (world s))) s = s.
Proof. by destruct s as [? ? []]. Qed.

Lemma timers_ran_now now p s log :
  mach_ok s → qemu_clock_get_ns (world s) = now → pending (dev s) = p →
  (taddr MitTimer ∈ log → irq_line (world s) = negb (pending (dev s) =? 0)) →
  (taddr AutonegTimer ∈ log → negotiated s) → timers_ran now p (tw_list (world s)) (s, log).
Proof. intros. unfold timers_ran. cbn [fst snd]. by rewrite relist_self. Qed.

(** The device's callbacks are ones the run of a timer list can bear. *)
Lemma device_cb_polite now p : 0 ≤ now < 2 ^ 62 → polite device_cb now snd (timers_ran now p).
Proof.
  intros Hn a x st [s log] l (Hok & Hc & Hpd & Hmit & Hneg) Hh Hx He. cbn [fst snd] in *.
  destruct (popped_holds a x l st Hh Hx) as (Hh' & Ha & Hdue). pose proof Hok as [[Hb _ _] Hnc].
  destruct (bo_timer _ Hb) as [[_ Hs] Hlink]. pose proof (popped_scales a x st Hx Hs) as Hs'.
  unfold device_cb. set (s0 := upd_world (on_list (λ _, popped a x st)) s).
  assert (Hd : ∀ b, b ≠ a → deadline (heap (popped a x st)) b = deadline (heap st) b).
  { intros b Hne. cbn [popped heap]. rewrite deadline_insert. by rewrite decide_False. }
  assert (Hok0 : a ≠ taddr MitTimer → mach_ok s0).
  { intros Hne. eapply mach_relist; [exact Hok|done|done|]. rewrite Hd by done. exact Hlink. }
  destruct (Z.eqb_spec a (taddr AutonegTimer)) as [->|Hna]; [|destruct (Z.eqb_spec a (taddr MitTimer)) as [->|Hnm]].
  - specialize (Hok0 ltac:(done)). destruct (autoneg_world s0) as [Ew Ep]. eexists _, _, l. split; [reflexivity|].
    rewrite Ew. split; [|done]. rewrite <-Ew. apply timers_ran_now; rewrite ?Ew, ?Ep; try done.
    + by apply autoneg_ok.
    + intros Hin. apply Hmit. set_solver.
    + intros _. by apply autoneg_ran.
  - assert (Hb0 : base_ok (upd_dev (set_mit_timer_on false) s0)) by (by eapply base_relist).
    destruct (mit_timer_ran s0 Hb0 Hnc) as (Hok' & Hq & Hp & Hng).
    destruct (mit_timer_lists now s0 l Hb0 Hh' Ha Hc Hn) as (Hc' & l' & Hl' & Hdue').
    eexists _, _, l'. split; [reflexivity|]. split; [|by rewrite Hdue'].
    apply timers_ran_now; try done; [by rewrite Hq|]. intros Hin. apply Hng, Hneg. set_solver.
  - eexists _, _, l. split; [reflexivity|]. split; [|done].
    apply timers_ran_now; [by apply Hok0|done|done|..]; intros Hin; [apply Hmit|apply Hneg]; set_solver.
Qed.

(** A turn of the loop, from a machine in order. *)
Lemma run_device_timers_ran s l :
  mach_ok s → holds (tw_list (world s)) l → 0 ≤ qemu_clock_get_ns (world s) < 2 ^ 62 →
  let now := qemu_clock_get_ns (world s) in
  let ran := due now (tw_list (world s)) l in
  ∃ s' l', run_device_timers s = Ok (s', ran) ∧ timers_ran now (pending (dev s)) (tw_list (world s')) (s', ran) ∧
    holds (tw_list (world s')) l' ∧ (∀ a, a ∈ l' → now < deadline (heap (tw_list (world s'))) a).
Proof.
  intros Hok Hh Hn. cbn zeta. set (now := qemu_clock_get_ns (world s)) in *.
  destruct (run_timers_due device_cb now snd (timers_ran now (pending (dev s))) (list_fuel (tw_list (world s))) (tw_list (world s)) (s, []) l)
    as (st' & [s' log] & l' & E & HJ & Hh' & Hlate & Hlog).
  { by apply device_cb_polite. }
  { apply timers_ran_now; try done; intros []%not_elem_of_nil. }
  { done. } { by apply holds_fuel. }
  unfold run_device_timers. cbn zeta. fold now. rewrite E. cbn [mbind res_bind]. cbn [snd app] in Hlog. subst log.
  eexists _, l'. split; [reflexivity|]. cbn [world tw_list on_list upd_world]. split; [|done].
  exact HJ.
Qed.

(** ** The device, its timers and time *)

(** Steps of the device, time passing (or anything else that leaves the pin and the timers
    alone), and turns of the loop that runs timers. *)
Inductive timed_reachable (fuel : nat) : Machine (Timed W) → Prop :=
| timed_init s : initial s → timed_reachable fuel s
| timed_step s s' : timed_reachable fuel s → step fuel s s' → timed_reachable fuel s'
| timed_pass s w :
    timed_reachable fuel s → irq_line w = irq_line (tw_base (world s)) →
    timed_reachable fuel (upd_world (on_base (λ _, w)) s)
| timed_run s s' log :
    timed_reachable fuel s → 0 ≤ qemu_clock_get_ns (world s) < 2 ^ 62 →
    run_device_timers s = Ok (s', log) → timed_reachable fuel s'.

Lemma mach_ok_holds s : mach_ok s → ∃ l, holds (tw_list (world s)) l.
Proof. by intros [[[_ _ _ _ _ [[? _] _]] _ _] _]. Qed.

Lemma timed_inv fuel s : timed_reachable fuel s → mach_ok s.
Proof.
  induction 1 as [s Hi|s s' _ IH Hs|s w _ IH Hw|s s' log _ IH Hc E].
  - by eapply reachable_inv, (reach_init fuel).
  - by eapply step_ok.
  - destruct IH as [Hd Hn]. split; [|done]. by apply dev_ok_world.
  - destruct (mach_ok_holds s IH) as [l Hl].
    destruct (run_device_timers_ran s l IH Hl Hc) as (s2 & l2 & E2 & (Hok & _) & _).
    rewrite E in E2. injection E2 as <- _. by rewrite relist_self in Hok.
Qed.

(** C12: no interrupt is lost to mitigation.  From any machine the guest, the peer, time and the
    timers can bring about, with the clock below 2^62 ns, running the due timers of the real timer
    list ends, runs the due callbacks in the order of their deadlines and leaves no active timer
    due.  The set of unmasked pending causes (IMS & ICR) is as before; if the mitigation timer was
    due the pin is afterwards high exactly when such a cause is set, and if one is set with the pin
    low, then the mitigation timer is in the list with a deadline to come; if the auto-negotiation
    timer was due, auto-negotiation is complete, and the link is up in the PHY and in STATUS unless
    the network client's link is down. *)
Theorem run_device_timers_delivers fuel s :
  timed_reachable fuel s → 0 ≤ qemu_clock_get_ns (world s) < 2 ^ 62 →
  let now := qemu_clock_get_ns (world s) in
  ∃ l s' l', holds (tw_list (world s)) l ∧
    run_device_timers s = Ok (s', due now (tw_list (world s)) l) ∧
    holds (tw_list (world s')) l' ∧ (∀ a, a ∈ l' → now < deadline (heap (tw_list (world s'))) a) ∧
    pending (dev s') = pending (dev s) ∧
    (taddr MitTimer ∈ due now (tw_list (world s)) l → irq_line (world s') = negb (pending (dev s') =? 0)) ∧
    (pending (dev s') ≠ 0 → irq_line (world s') = true ∨ taddr MitTimer ∈ l') ∧
    (taddr AutonegTimer ∈ due now (tw_list (world s)) l → negotiated s').
Proof.
  intros Hok%timed_inv Hc. cbn zeta. destruct (mach_ok_holds s Hok) as [l Hl].
  destruct (run_device_timers_ran s l Hok Hl Hc) as (s' & l' & E & HJ & Hh' & Hlate).
  unfold timers_ran in HJ. cbn [fst snd] in HJ. rewrite relist_self in HJ. destruct HJ as (Hok' & _ & Hp & Hm & Hn).
  exists l, s', l'. split_and!; try done. destruct Hok' as [[[_ _ _ _ Hpin [_ Harm]] [_ Hdef] _] _].
  intros Hne. destruct (Hdef Hne) as [Hlev|Hon]; [left; by rewrite Hpin|]. right. specialize (Harm Hon).
  destruct (decide (taddr MitTimer ∈ l')) as [|Hnot]; [done|]. pose proof (h_idle _ _ Hh' _ Hnot) as Hd.
  change (0 ≤ deadline (heap (tw_list (world s'))) (taddr MitTimer)) in Harm. lia.
Qed.
End Running.

(** ** Witness: a deferred interrupt *)

(** A list with the two timers just created, and a machine started with it. *)
Definition fresh_list : QEMUTimerList :=
  timer_init (taddr AutonegTimer) SCALE_MS (timer_init (taddr MitTimer) 1 (mkTList ∅ None)).

Lemma fresh_list_inv : timer_inv (mkTimed idle_board fresh_list).
Proof.
  assert (Hd : ∀ a, deadline (heap fresh_list) a = -1).
  { intros a. unfold fresh_list, timer_init. cbn [heap set_heap]. rewrite !deadline_insert. by repeat case_decide. }
  split; [|by intros []]. exists []. split; [done|by apply NoDup_nil|constructor|by intros a ?%not_elem_of_nil|done].
Qed.

Definition timed_booted : Machine (Timed Board) :=
  e1000_pci_reset (snd (pci_e1000_init 0 false (mkPci ∅ [] []) fresh_dev (mkTimed idle_board fresh_list))).

(** The driver asks for an interval of 256 us between interrupts, a link change interrupts it, it
    reads the cause, and a second change comes within the interval. *)
Definition write_reg (i v : Z) (s : Machine (Timed Board)) : Machine (Timed Board) :=
  match e1000_mmio_write 1 (4 * i) v s with Ok s' => s' | _ => s end.
Definition second_change : Machine (Timed Board) :=
  set_link true (snd (e1000_mmio_read (4 * ICR) (set_link false (write_reg IMS E1000_ICR_LSC (write_reg ITR 1000 timed_booted))))).

(** A millisecond later. *)
Definition later (w : Board) : Board := mkBoard (b_mem w) (b_irq w) (b_deadline w) 1000000 (b_sent w).
Definition deferred_machine : Machine (Timed Board) :=
  upd_world (on_base (λ _, later (tw_base (world second_change)))) second_change.

Lemma ok_pair_inj {A B} (a a' : A) (b b' : B) : Ok (a, b) = Ok (a', b') → a = a' ∧ b = b'.
Proof. by intros [= -> ->]. Qed.

Lemma write_reg_step i v s : is_ok (e1000_mmio_write 1 (4 * i) v s) = true → step 1 s (write_reg i v s).
Proof. unfold write_reg. destruct (e1000_mmio_write 1 (4 * i) v s) eqn:E; intros Hok; [by eapply step_write|done..]. Qed.

Lemma deferred_reachable : timed_reachable 1 deferred_machine.
Proof.
  apply timed_pass; [|vm_compute; reflexivity]. unfold second_change.
  eapply timed_step; [|apply step_link]. eapply timed_step; [|apply step_read]. eapply timed_step; [|apply step_link].
  do 2 (eapply timed_step; [|apply write_reg_step; vm_compute; reflexivity]).
  by apply timed_init, (initial_intro 0 false (mkPci ∅ [] []) fresh_dev); [exact fresh_dev_wf|reflexivity|exact fresh_list_inv].
Qed.

Lemma deferred_runs : ∃ s', run_device_timers deferred_machine = Ok (s', [taddr MitTimer]).
Proof. eexists. vm_compute. reflexivity. Qed.

Lemma deferred_facts :
  irq_line (world deferred_machine) = false ∧ negb (pending (dev deferred_machine) =? 0) = true ∧
  0 ≤ qemu_clock_get_ns (world deferred_machine) < 2 ^ 62.
Proof. vm_compute. split_and!; done. Qed.

Lemma run_device_timers_delivers_witness :
  irq_line (world deferred_machine) = false ∧
  ∃ s', run_device_timers deferred_machine = Ok (s', [taddr MitTimer]) ∧ irq_line (world s') = true.
Proof.
  destruct deferred_facts as (Hlow & Hpend & Hc). split; [exact Hlow|].
  destruct (run_device_timers_delivers 1 deferred_machine deferred_reachable Hc) as (l & s' & l' & _ & E & _ & _ & Hp & Hm & _).
  destruct deferred_runs as [s2 E2]. destruct (ok_pair_inj _ _ _ _ (eq_trans (eq_sym E2) E)) as [<- Edue]. exists s2. split; [exact E2|].
  rewrite Hm; [rewrite Hp; exact Hpend|]. rewrite <-Edue. by left.
Defined.

End TimedDevice.
