(* ===== verification/Pci.v ===== *)
(** A PCI device (hw/pci/pci.c): its configuration space with the masks that say which bits the
    guest may write or clear, which are checked on migration and which are taken by capabilities;
    its base address registers and where its regions are mapped; its capability list.  Interrupts
    and buses are in PciBus. *)

From S2P Require Import Prelude.

Module Pci.

(** ** Constants (pci_regs.h, pci.h) *)

Definition PCI_VENDOR_ID : Z := 0x00.
Definition PCI_DEVICE_ID : Z := 0x02.
Definition PCI_COMMAND : Z := 0x04.
Definition PCI_COMMAND_IO : Z := 0x1.
Definition PCI_COMMAND_MEMORY : Z := 0x2.
Definition PCI_COMMAND_MASTER : Z := 0x4.
Definition PCI_COMMAND_SERR : Z := 0x100.
Definition PCI_COMMAND_INTX_DISABLE : Z := 0x400.
Definition PCI_STATUS : Z := 0x06.
Definition PCI_STATUS_INTERRUPT : Z := 0x08.
Definition PCI_STATUS_CAP_LIST : Z := 0x10.
Definition PCI_STATUS_PARITY : Z := 0x100.
Definition PCI_STATUS_SIG_TARGET_ABORT : Z := 0x800.
Definition PCI_STATUS_REC_TARGET_ABORT : Z := 0x1000.
Definition PCI_STATUS_REC_MASTER_ABORT : Z := 0x2000.
Definition PCI_STATUS_SIG_SYSTEM_ERROR : Z := 0x4000.
Definition PCI_STATUS_DETECTED_PARITY : Z := 0x8000.
Definition PCI_REVISION_ID : Z := 0x08.
Definition PCI_CLASS_PROG : Z := 0x09.
Definition PCI_CLASS_DEVICE : Z := 0x0a.
Definition PCI_CACHE_LINE_SIZE : Z := 0x0c.
Definition PCI_HEADER_TYPE : Z := 0x0e.
Definition PCI_HEADER_TYPE_BRIDGE : Z := 1.
Definition PCI_HEADER_TYPE_MULTI_FUNCTION : Z := 0x80.
Definition PCI_BASE_ADDRESS_0 : Z := 0x10.
Definition PCI_BASE_ADDRESS_SPACE_IO : Z := 0x01.
Definition PCI_BASE_ADDRESS_MEM_TYPE_64 : Z := 0x04.
Definition PCI_SUBSYSTEM_VENDOR_ID : Z := 0x2c.
Definition PCI_SUBSYSTEM_ID : Z := 0x2e.
Definition PCI_ROM_ADDRESS : Z := 0x30.
Definition PCI_ROM_ADDRESS_ENABLE : Z := 0x01.
Definition PCI_CAPABILITY_LIST : Z := 0x34.
Definition PCI_ROM_ADDRESS1 : Z := 0x38.
Definition PCI_INTERRUPT_LINE : Z := 0x3c.
Definition PCI_INTERRUPT_PIN : Z := 0x3d.
Definition PCI_CAP_LIST_ID : Z := 0.
Definition PCI_CAP_LIST_NEXT : Z := 1.
Definition PCI_CONFIG_HEADER_SIZE : Z := 0x40.
Definition PCI_CONFIG_SPACE_SIZE : Z := 0x100.
Definition PCIE_CONFIG_SPACE_SIZE : Z := 0x1000.
Definition PCI_ROM_SLOT : Z := 6.
Definition PCI_NUM_REGIONS : Z := 7.
Definition PCI_NUM_PINS : Z := 4.
Definition PCI_FUNC_MAX : Z := 8.
Definition QEMU_PCI_CAP_MSI : Z := 0x1.
Definition QEMU_PCI_CAP_MSIX : Z := 0x2.
Definition QEMU_PCI_CAP_EXPRESS : Z := 0x4.
Definition QEMU_PCI_CAP_MULTIFUNCTION : Z := 0x8.
Definition QEMU_PCI_CAP_SERR : Z := 0x10.
Definition UINT32_MAX : Z := 2 ^ 32 - 1.
Definition HWADDR_MAX : Z := 2 ^ 64 - 1.
(** [~(pcibus_t)0] *)
Definition PCI_BAR_UNMAPPED : Z := 2 ^ 64 - 1.
Definition ENOSPC : Z := 28.
Definition EINVAL : Z := 22.

(** ** State *)

Record PCIIORegion : Type := mkRegion {
  r_addr : Z;
  r_size : Z;
  r_type : Z;
}.
Definition no_region : PCIIORegion := mkRegion 0 0 0.

(** [mapped] are the regions that are subregions of their address space, with the offset there;
    [bus_master] says whether the region for DMA is enabled, [vga] which of the legacy VGA
    regions (memory, I/O) are, when the device has them; [msi_cap] is where the capability of msi.c is. *)
Record PCIDevice : Type := mkDev {
  config : arr;
  cmask : arr;
  wmask : arr;
  w1cmask : arr;
  used : arr;
  bus : Z;
  devfn : Z;
  io_regions : gmap Z PCIIORegion;
  mapped : gmap Z Z;
  bus_master : bool;
  vga : option (bool * bool);
  irq_state : Z;
  cap_present : Z;
  msi_cap : Z;
}.
Definition set_config (c : arr) (d : PCIDevice) : PCIDevice :=
  mkDev c (cmask d) (wmask d) (w1cmask d) (used d) (bus d) (devfn d) (io_regions d) (mapped d)
    (bus_master d) (vga d) (irq_state d) (cap_present d) (msi_cap d).
Definition set_cmask (c : arr) (d : PCIDevice) : PCIDevice :=
  mkDev (config d) c (wmask d) (w1cmask d) (used d) (bus d) (devfn d) (io_regions d) (mapped d)
    (bus_master d) (vga d) (irq_state d) (cap_present d) (msi_cap d).
Definition set_wmask (c : arr) (d : PCIDevice) : PCIDevice :=
  mkDev (config d) (cmask d) c (w1cmask d) (used d) (bus d) (devfn d) (io_regions d) (mapped d)
    (bus_master d) (vga d) (irq_state d) (cap_present d) (msi_cap d).
Definition set_w1cmask (c : arr) (d : PCIDevice) : PCIDevice :=
  mkDev (config d) (cmask d) (wmask d) c (used d) (bus d) (devfn d) (io_regions d) (mapped d)
    (bus_master d) (vga d) (irq_state d) (cap_present d) (msi_cap d).
Definition set_used (c : arr) (d : PCIDevice) : PCIDevice :=
  mkDev (config d) (cmask d) (wmask d) (w1cmask d) c (bus d) (devfn d) (io_regions d) (mapped d)
    (bus_master d) (vga d) (irq_state d) (cap_present d) (msi_cap d).
Definition set_regions (r : gmap Z PCIIORegion) (m : gmap Z Z) (d : PCIDevice) : PCIDevice :=
  mkDev (config d) (cmask d) (wmask d) (w1cmask d) (used d) (bus d) (devfn d) r m
    (bus_master d) (vga d) (irq_state d) (cap_present d) (msi_cap d).
Definition set_bus_master (b : bool) (d : PCIDevice) : PCIDevice :=
  mkDev (config d) (cmask d) (wmask d) (w1cmask d) (used d) (bus d) (devfn d) (io_regions d) (mapped d)
    b (vga d) (irq_state d) (cap_present d) (msi_cap d).
Definition set_vga (v : option (bool * bool)) (d : PCIDevice) : PCIDevice :=
  mkDev (config d) (cmask d) (wmask d) (w1cmask d) (used d) (bus d) (devfn d) (io_regions d) (mapped d)
    (bus_master d) v (irq_state d) (cap_present d) (msi_cap d).
Definition set_irqs (s : Z) (d : PCIDevice) : PCIDevice :=
  mkDev (config d) (cmask d) (wmask d) (w1cmask d) (used d) (bus d) (devfn d) (io_regions d) (mapped d)
    (bus_master d) (vga d) s (cap_present d) (msi_cap d).

Definition set_msi (p c : Z) (d : PCIDevice) : PCIDevice :=
  mkDev (config d) (cmask d) (wmask d) (w1cmask d) (used d) (bus d) (devfn d) (io_regions d) (mapped d)
    (bus_master d) (vga d) (irq_state d) p c.

Definition region (d : PCIDevice) (i : Z) : PCIIORegion := default no_region (io_regions d !! i).

(** ** Accessors (pci.h) *)

Definition pci_get_byte (a : arr) (o : Z) : Z := aget a o.
Definition pci_set_byte (a : arr) (o v : Z) : arr := aset a o (u8 v).
Definition pci_get_word (a : arr) (o : Z) : Z := le_val (aread a o 2).
Definition pci_set_word (a : arr) (o v : Z) : arr := awrite a o (le_bytes 2 v).
Definition pci_get_long (a : arr) (o : Z) : Z := le_val (aread a o 4).
Definition pci_set_long (a : arr) (o v : Z) : arr := awrite a o (le_bytes 4 v).
Definition pci_get_quad (a : arr) (o : Z) : Z := le_val (aread a o 8).
Definition pci_set_quad (a : arr) (o v : Z) : arr := awrite a o (le_bytes 8 v).
Definition pci_word_test_and_clear_mask (a : arr) (o mask : Z) : arr :=
  pci_set_word a o (clr (pci_get_word a o) mask).
Definition pci_word_test_and_set_mask (a : arr) (o mask : Z) : arr :=
  pci_set_word a o (Z.lor (pci_get_word a o) mask).

Definition pci_is_express (d : PCIDevice) : bool := tst (cap_present d) QEMU_PCI_CAP_EXPRESS.
Definition pci_config_size (d : PCIDevice) : Z :=
  if pci_is_express d then PCIE_CONFIG_SPACE_SIZE else PCI_CONFIG_SPACE_SIZE.

(** range.h, on 64-bit values *)
Definition range_get_last (offset len : Z) : Z := u64 (offset + len - 1).
Definition range_covers_byte (offset len byte : Z) : bool :=
  (offset <=? byte) && (byte <=? range_get_last offset len).
Definition ranges_overlap (first1 len1 first2 len2 : Z) : bool :=
  negb ((range_get_last first2 len2 <? first1) || (range_get_last first1 len1 <? first2)).

(** ** Masks of a new device *)

Definition pci_init_cmask (d : PCIDevice) : PCIDevice :=
  let c := pci_set_word (cmask d) PCI_VENDOR_ID 0xffff in
  let c := pci_set_word c PCI_DEVICE_ID 0xffff in
  let c := aset c PCI_STATUS PCI_STATUS_CAP_LIST in
  let c := aset c PCI_REVISION_ID 0xff in
  let c := aset c PCI_CLASS_PROG 0xff in
  let c := pci_set_word c PCI_CLASS_DEVICE 0xffff in
  let c := aset c PCI_HEADER_TYPE 0xff in
  let c := aset c PCI_CAPABILITY_LIST 0xff in
  set_cmask c d.

Definition pci_init_wmask (d : PCIDevice) : PCIDevice :=
  let config_size := pci_config_size d in
  let c := aset (wmask d) PCI_CACHE_LINE_SIZE 0xff in
  let c := aset c PCI_INTERRUPT_LINE 0xff in
  let c := pci_set_word c PCI_COMMAND
             (Z.lor PCI_COMMAND_IO (Z.lor PCI_COMMAND_MEMORY
               (Z.lor PCI_COMMAND_MASTER PCI_COMMAND_INTX_DISABLE))) in
  let c := if tst (cap_present d) QEMU_PCI_CAP_SERR
           then pci_word_test_and_set_mask c PCI_COMMAND PCI_COMMAND_SERR else c in
  let c := awrite c PCI_CONFIG_HEADER_SIZE (replicate (Z.to_nat (config_size - PCI_CONFIG_HEADER_SIZE)) 0xff) in
  set_wmask c d.

Definition pci_init_w1cmask (d : PCIDevice) : PCIDevice :=
  set_w1cmask (pci_set_word (w1cmask d) PCI_STATUS
    (Z.lor PCI_STATUS_PARITY (Z.lor PCI_STATUS_SIG_TARGET_ABORT (Z.lor PCI_STATUS_REC_TARGET_ABORT
      (Z.lor PCI_STATUS_REC_MASTER_ABORT (Z.lor PCI_STATUS_SIG_SYSTEM_ERROR PCI_STATUS_DETECTED_PARITY)))))) d.

(** ** Base address registers *)

Definition pci_bar (d : PCIDevice) (reg : Z) : Z :=
  if negb (reg =? PCI_ROM_SLOT) then PCI_BASE_ADDRESS_0 + reg * 4
  else
    let type := u8 (clr (aget (config d) PCI_HEADER_TYPE) PCI_HEADER_TYPE_MULTI_FUNCTION) in
    if type =? PCI_HEADER_TYPE_BRIDGE then PCI_ROM_ADDRESS1 else PCI_ROM_ADDRESS.

(** [None]: the emulator exits with an error. *)
Definition pci_register_bar (region_num type size : Z) (d : PCIDevice) : res (option PCIDevice) :=
  if negb ((0 <=? region_num) && (region_num <? PCI_NUM_REGIONS)) then Fault AssertFail
  else if tst size (u64 (size - 1)) then Ok None
  else
    let wm := u64 (Z.lnot (size - 1)) in
    let addr := pci_bar d region_num in
    let wm := if region_num =? PCI_ROM_SLOT then Z.lor wm PCI_ROM_ADDRESS_ENABLE else wm in
    let d := set_config (pci_set_long (config d) addr type) d in
    let d := if negb (tst type PCI_BASE_ADDRESS_SPACE_IO) && tst type PCI_BASE_ADDRESS_MEM_TYPE_64 then
               set_cmask (pci_set_quad (cmask d) addr (2 ^ 64 - 1)) (set_wmask (pci_set_quad (wmask d) addr wm) d)
             else
               set_cmask (pci_set_long (cmask d) addr 0xffffffff)
                 (set_wmask (pci_set_long (wmask d) addr (Z.land wm 0xffffffff)) d) in
    Ok (Some (set_regions (<[region_num := mkRegion PCI_BAR_UNMAPPED size type]> (io_regions d)) (mapped d) d)).

Definition pci_get_bar_addr (region_num : Z) (d : PCIDevice) : Z := r_addr (region d region_num).

Definition pci_bar_address (d : PCIDevice) (reg type size : Z) : Z :=
  let bar := pci_bar d reg in
  let cmd := pci_get_word (config d) PCI_COMMAND in
  if tst type PCI_BASE_ADDRESS_SPACE_IO then
    if negb (tst cmd PCI_COMMAND_IO) then PCI_BAR_UNMAPPED
    else
      let new_addr := Z.land (pci_get_long (config d) bar) (u64 (Z.lnot (size - 1))) in
      let last_addr := u64 (new_addr + size - 1) in
      if (last_addr <=? new_addr) || (new_addr =? 0) || (UINT32_MAX <=? last_addr)
      then PCI_BAR_UNMAPPED else new_addr
  else if negb (tst cmd PCI_COMMAND_MEMORY) then PCI_BAR_UNMAPPED
  else
    let new_addr := if tst type PCI_BASE_ADDRESS_MEM_TYPE_64
                    then pci_get_quad (config d) bar else pci_get_long (config d) bar in
    if (reg =? PCI_ROM_SLOT) && negb (tst new_addr PCI_ROM_ADDRESS_ENABLE) then PCI_BAR_UNMAPPED
    else
      let new_addr := Z.land new_addr (u64 (Z.lnot (size - 1))) in
      let last_addr := u64 (new_addr + size - 1) in
      if (last_addr <=? new_addr) || (new_addr =? 0) || (last_addr =? PCI_BAR_UNMAPPED) then PCI_BAR_UNMAPPED
      else if negb (tst type PCI_BASE_ADDRESS_MEM_TYPE_64) && (UINT32_MAX <=? last_addr) then PCI_BAR_UNMAPPED
      else if HWADDR_MAX <=? last_addr then PCI_BAR_UNMAPPED
      else new_addr.

(** Adding a region that has a parent, or removing one that has none, fails an assertion. *)
Definition memory_region_del_subregion (i : Z) (m : gmap Z Z) : res (gmap Z Z) :=
  match m !! i with Some _ => Ok (delete i m) | None => Fault AssertFail end.
Definition memory_region_add_subregion_overlap (i addr : Z) (m : gmap Z Z) : res (gmap Z Z) :=
  match m !! i with Some _ => Fault AssertFail | None => Ok (<[i := addr]> m) end.

Definition pci_update_vga (d : PCIDevice) : PCIDevice :=
  match vga d with
  | None => d
  | Some _ =>
      let cmd := pci_get_word (config d) PCI_COMMAND in
      set_vga (Some (tst cmd PCI_COMMAND_MEMORY, tst cmd PCI_COMMAND_IO)) d
  end.

(** One round of the loop of [pci_update_mappings]. *)
Definition update_mapping (i : Z) (d : PCIDevice) : res PCIDevice :=
  let r := region d i in
  if r_size r =? 0 then Ok d
  else
    let new_addr := pci_bar_address d i (r_type r) (r_size r) in
    if new_addr =? r_addr r then Ok d
    else
      m ← (if negb (r_addr r =? PCI_BAR_UNMAPPED) then memory_region_del_subregion i (mapped d) else Ok (mapped d));
      m ← (if negb (new_addr =? PCI_BAR_UNMAPPED) then memory_region_add_subregion_overlap i new_addr m else Ok m);
      Ok (set_regions (<[i := mkRegion new_addr (r_size r) (r_type r)]> (io_regions d)) m d).
Fixpoint update_mappings_loop (l : list Z) (d : PCIDevice) : res PCIDevice :=
  match l with [] => Ok d | i :: l => d ← update_mapping i d; update_mappings_loop l d end.
Definition pci_update_mappings (d : PCIDevice) : res PCIDevice :=
  d ← update_mappings_loop (seqZ 0 PCI_NUM_REGIONS) d;
  Ok (pci_update_vga d).

(** ** Configuration accesses *)

Definition pci_default_read_config (d : PCIDevice) (address len : Z) : res Z :=
  if negb ((0 <=? len) && (len <=? 4)) then Fault OutOfBounds
  else l ← load (pci_config_size d) (config d) address len; Ok (le_val l).

(** The loop of [pci_default_write_config] from byte [i] on, [n] bytes. *)
Fixpoint write_config_loop (n : nat) (addr val : Z) (d : PCIDevice) : res PCIDevice :=
  match n with
  | O => Ok d
  | S n =>
      if negb (in_object (pci_config_size d) addr 1) then Fault OutOfBounds
      else
        let wm := aget (wmask d) addr in
        let w1c := aget (w1cmask d) addr in
        if tst wm w1c then Fault AssertFail
        else
          let b := Z.lor (clr (aget (config d) addr) wm) (Z.land (u8 val) wm) in
          let b := clr b (Z.land (u8 val) w1c) in
          write_config_loop n (addr + 1) (Z.shiftr val 8) (set_config (aset (config d) addr b) d)
  end.

(** The mappings are updated when a base address register or the command register is touched. *)
Definition touches_mappings (addr l : Z) : bool :=
  ranges_overlap addr l PCI_BASE_ADDRESS_0 24 || ranges_overlap addr l PCI_ROM_ADDRESS 4 ||
  ranges_overlap addr l PCI_ROM_ADDRESS1 4 || range_covers_byte addr l PCI_COMMAND.

Definition pci_irq_disabled (d : PCIDevice) : bool :=
  tst (pci_get_word (config d) PCI_COMMAND) PCI_COMMAND_INTX_DISABLE.

(** ** Capabilities *)

(** [n] rounds of the search from byte [i], the present candidate at [offset]. *)
Fixpoint find_space_loop (n : nat) (i offset size : Z) (d : PCIDevice) : Z :=
  match n with
  | O => 0
  | S n =>
      if negb (aget (used d) i =? 0) then find_space_loop n (i + 1) (i + 1) size d
      else if i - offset + 1 =? size then u8 offset
      else find_space_loop n (i + 1) offset size d
  end.
Definition pci_find_space (d : PCIDevice) (size : Z) : Z :=
  find_space_loop (Z.to_nat (PCI_CONFIG_SPACE_SIZE - PCI_CONFIG_HEADER_SIZE)) PCI_CONFIG_HEADER_SIZE PCI_CONFIG_HEADER_SIZE size d.

(** Returns the capability (0 if there is none) and the cell that points to it. *)
Fixpoint find_capability_loop (fuel : nat) (prev cap_id : Z) (d : PCIDevice) : res (Z * Z) :=
  match fuel with
  | O => Diverge
  | S fuel =>
      let next := aget (config d) prev in
      if next =? 0 then Ok (next, prev)
      else if aget (config d) (next + PCI_CAP_LIST_ID) =? cap_id then Ok (next, prev)
      else find_capability_loop fuel (u8 (next + PCI_CAP_LIST_NEXT)) cap_id d
  end.
Definition pci_find_capability_list (fuel : nat) (cap_id : Z) (d : PCIDevice) : res (Z * Z) :=
  if negb (tst (aget (config d) PCI_STATUS) PCI_STATUS_CAP_LIST) then Ok (0, 0)
  else find_capability_loop fuel PCI_CAPABILITY_LIST cap_id d.
Definition pci_find_capability (fuel : nat) (cap_id : Z) (d : PCIDevice) : res Z :=
  '(next, _) ← pci_find_capability_list fuel cap_id d; Ok next.

Fixpoint capability_at_loop (fuel : nat) (prev found offset : Z) (d : PCIDevice) : res Z :=
  match fuel with
  | O => Diverge
  | S fuel =>
      let next := aget (config d) prev in
      if next =? 0 then Ok found
      else
        let found := if (next <=? offset) && (found <? next) then next else found in
        capability_at_loop fuel (u8 (next + PCI_CAP_LIST_NEXT)) found offset d
  end.
Definition pci_find_capability_at_offset (fuel : nat) (offset : Z) (d : PCIDevice) : res Z :=
  if aget (used d) offset =? 0 then Ok 0
  else if negb (tst (aget (config d) PCI_STATUS) PCI_STATUS_CAP_LIST) then Fault AssertFail
  else capability_at_loop fuel PCI_CAPABILITY_LIST 0 offset d.

(** The overlap check of [pci_add_capability]; the offset becomes 8 bits wide at each call. *)
Fixpoint overlap_loop (n : nat) (fuel : nat) (i : Z) (d : PCIDevice) : res bool :=
  match n with
  | O => Ok false
  | S n => c ← pci_find_capability_at_offset fuel (u8 i) d;
           if negb (c =? 0) then Ok true else overlap_loop n fuel (i + 1) d
  end.

(** [memset] on one of the masks. *)
Definition fill (cap : Z) (a : arr) (o v n : Z) : res arr := store cap a o (replicate (Z.to_nat n) v).
Definition align4 (n : Z) : Z := (n + 3) / 4 * 4.

(** The last part of [pci_add_capability]: linking the capability in at [offset] and reserving its
    space. *)
Definition insert_capability (cap_id offset size : Z) (d : PCIDevice) : res (Z * PCIDevice) :=
  let cap := pci_config_size d in
  if negb (in_object cap offset 2) then Fault OutOfBounds
  else
    let c := aset (config d) (offset + PCI_CAP_LIST_ID) cap_id in
    let c := aset c (offset + PCI_CAP_LIST_NEXT) (aget c PCI_CAPABILITY_LIST) in
    let c := aset c PCI_CAPABILITY_LIST offset in
    let c := aset c PCI_STATUS (Z.lor (aget c PCI_STATUS) PCI_STATUS_CAP_LIST) in
    u ← fill cap (used d) offset 0xff (align4 size);
    w ← fill cap (wmask d) offset 0 size;
    k ← fill cap (cmask d) offset 0xff size;
    Ok (offset, set_cmask k (set_wmask w (set_used u (set_config c d)))).

(** The result is the offset, or a negative error code. *)
Definition pci_add_capability (fuel : nat) (cap_id offset size : Z) (d : PCIDevice) : res (Z * PCIDevice) :=
  if offset =? 0 then
    let offset := pci_find_space d size in
    if offset =? 0 then Ok (- ENOSPC, d) else insert_capability cap_id offset size d
  else
    b ← overlap_loop (Z.to_nat size) fuel offset d;
    if b : bool then Ok (- EINVAL, d) else insert_capability cap_id offset size d.

Definition pci_del_capability (fuel : nat) (cap_id size : Z) (d : PCIDevice) : res PCIDevice :=
  '(offset, prev) ← pci_find_capability_list fuel cap_id d;
  if offset =? 0 then Ok d
  else
    let cap := pci_config_size d in
    if negb (in_object cap offset 2) then Fault OutOfBounds
    else
      let c := aset (config d) prev (aget (config d) (offset + PCI_CAP_LIST_NEXT)) in
      w ← fill cap (wmask d) offset 0xff size;
      w1 ← fill cap (w1cmask d) offset 0 size;
      k ← fill cap (cmask d) offset 0 size;
      u ← fill cap (used d) offset 0 (align4 size);
      let c := if aget c PCI_CAPABILITY_LIST =? 0
               then aset c PCI_STATUS (clr (aget c PCI_STATUS) PCI_STATUS_CAP_LIST) else c in
      Ok (set_used u (set_cmask k (set_w1cmask w1 (set_wmask w (set_config c d))))).

(** ** Bits of the configuration space *)

(** Bit [k] of a little-endian value is a bit of one of its bytes. *)
Lemma le_val_testbit l k :
  Forall (fits 8) l → 0 ≤ k → Z.testbit (le_val l) k = Z.testbit (nth (Z.to_nat (k / 8)) l 0) (k mod 8).
Proof.
  intros Hl. revert k. induction Hl as [|b l [H0 H1] Hl IH]; intros k Hk; cbn [le_val].
  { rewrite Z.bits_0. destruct (Z.to_nat (k / 8)); by rewrite Z.bits_0. }
  change (2 ^ 8) with 256 in H1. destruct (Z.lt_ge_cases k 8) as [Hlt|Hge].
  - rewrite Z.div_small, Z.mod_small by lia. cbn [Z.to_nat nth].
    rewrite <-(Z.mod_pow2_bits_low _ 8 k) by lia. change (2 ^ 8) with 256.
    rewrite (Z.mul_comm 256), Z.mod_add, Z.mod_small by lia. done.
  - replace (Z.to_nat (k / 8)) with (S (Z.to_nat ((k - 8) / 8))).
    2: { replace k with ((k - 8) + 1 * 8) at 2 by lia. rewrite Z.div_add by lia.
         pose proof (Z.div_pos (k - 8) 8 ltac:(lia) ltac:(lia)). lia. }
    cbn [nth]. replace (k mod 8) with ((k - 8) mod 8).
    2: { replace k with ((k - 8) + 1 * 8) at 2 by lia. by rewrite Z.mod_add. }
    rewrite <-IH by lia. replace k with ((k - 8) + 8) at 1 by lia.
    rewrite <-Z.div_pow2_bits by lia. change (2 ^ 8) with 256. f_equal.
    rewrite (Z.mul_comm 256), Z.div_add, Z.div_small by lia. lia.
Qed.

(** A multi-byte read, bit by bit. *)
Lemma get_testbit (a : arr) o n k :
  afits 8 a → 0 ≤ k < 8 * Z.of_nat n →
  Z.testbit (le_val (aread a o n)) k = Z.testbit (aget a (o + k / 8)) (k mod 8).
Proof.
  intros Ha Hk. rewrite le_val_testbit by (try lia; by apply aread_fits).
  assert (k / 8 < Z.of_nat n) by (apply Z.div_lt_upper_bound; lia).
  pose proof (Z.div_pos k 8 ltac:(lia) ltac:(lia)). rewrite nth_aread by lia. by rewrite Z2Nat.id.
Qed.

Lemma get_fits (a : arr) o n : afits 8 a → fits (8 * Z.of_nat n) (le_val (aread a o n)).
Proof. intros Ha. rewrite <-(length_aread a o n) at 1. by apply le_val_fits, aread_fits. Qed.

(** What a write of the byte [v] makes of the byte [old]. *)
Definition merge (old v wm w1c : Z) : Z := clr (Z.lor (clr old wm) (Z.land v wm)) (Z.land v w1c).

(** Writable bits take the new value, bits of the other mask are cleared by writing 1, and all
    others stay. *)
Definition merge_bit (old v wm w1c : bool) : bool := if wm then v else old && negb (v && w1c).

Lemma merge_testbit old v wm w1c k :
  0 ≤ k → Z.land wm w1c = 0 →
  Z.testbit (merge old v wm w1c) k = merge_bit (Z.testbit old k) (Z.testbit v k) (Z.testbit wm k) (Z.testbit w1c k).
Proof.
  intros Hk Hd. unfold merge, merge_bit, clr. rewrite !Z.land_spec, Z.lor_spec, !Z.lnot_spec, !Z.land_spec, Z.lnot_spec by done.
  assert (Hb : Z.testbit wm k && Z.testbit w1c k = false) by (by rewrite <-Z.land_spec, Hd, Z.bits_0).
  destruct (Z.testbit wm k), (Z.testbit w1c k); try done; btauto.
Qed.

Lemma merge_fits old v wm w1c : fits 8 old → fits 8 v → fits 8 (merge old v wm w1c).
Proof. intros. unfold merge. auto 6 with width. Qed.

(** ** Invariant of a device *)

(** The arrays hold bytes, no bit is in both write masks, and no header bit beyond the status
    register is cleared by writing 1. *)
Record masks_ok (d : PCIDevice) : Prop := {
  mo_config : afits 8 (config d);
  mo_wmask : afits 8 (wmask d);
  mo_w1cmask : afits 8 (w1cmask d);
  mo_cmask : afits 8 (cmask d);
  mo_disjoint : ∀ o, Z.land (aget (wmask d) o) (aget (w1cmask d) o) = 0;
  mo_header : ∀ o, PCI_STATUS + 2 ≤ o < PCI_CONFIG_HEADER_SIZE → aget (w1cmask d) o = 0;
}.

(** A region is in its address space exactly when it is registered and has an address, and there. *)
Definition maps_ok (d : PCIDevice) : Prop :=
  ∀ i, 0 ≤ i < PCI_NUM_REGIONS →
    mapped d !! i = if (r_size (region d i) =? 0) || (r_addr (region d i) =? PCI_BAR_UNMAPPED) then None
                    else Some (r_addr (region d i)).

(** ** Writing *)

(** Byte [j] of the space after writing [n] bytes of [val] at [addr]. *)
Definition written (addr val : Z) (n : nat) (d : PCIDevice) (j : Z) : Z :=
  if (addr <=? j) && (j <? addr + Z.of_nat n)
  then merge (aget (config d) j) (u8 (Z.shiftr val (8 * (j - addr)))) (aget (wmask d) j) (aget (w1cmask d) j)
  else aget (config d) j.

Lemma write_config_loop_spec n addr val d :
  masks_ok d → 0 ≤ addr → addr + Z.of_nat n ≤ pci_config_size d →
  ∃ c, write_config_loop n addr val d = Ok (set_config c d) ∧ afits 8 c ∧
       ∀ j, aget c j = written addr val n d j.
Proof.
  revert addr val d. induction n as [|n IH]; intros addr val d Hm Ha Hs; cbn [write_config_loop].
  { exists (config d). split; [by destruct d|]. split; [apply Hm|]. intros j. unfold written.
    destruct (Z.leb_spec addr j), (Z.ltb_spec j (addr + Z.of_nat 0)); cbn [andb]; try done; lia. }
  unfold in_object. rewrite (proj2 (Z.leb_le 0 addr)), (proj2 (Z.leb_le (addr + 1) _)) by lia. cbn [Z.leb Z.compare andb negb].
  unfold tst. rewrite (mo_disjoint _ Hm). cbn [Z.eqb negb].
  change (clr (Z.lor (clr (aget (config d) addr) (aget (wmask d) addr)) (Z.land (u8 val) (aget (wmask d) addr))) (Z.land (u8 val) (aget (w1cmask d) addr))) with (merge (aget (config d) addr) (u8 val) (aget (wmask d) addr) (aget (w1cmask d) addr)).
  set (b := merge _ _ _ _). set (d1 := set_config _ d).
  assert (Hb : fits 8 b) by (apply merge_fits; [apply Hm|apply u8_fits]).
  assert (Hm1 : masks_ok d1) by (destruct Hm; split; try done; by apply afits_aset).
  destruct (IH (addr + 1) (Z.shiftr val 8) d1 Hm1 ltac:(lia)) as (c & E & Hc & Hj).
  { change (pci_config_size d1) with (pci_config_size d). lia. }
  exists c. split; [exact E|]. split; [exact Hc|]. intros j. rewrite Hj. unfold written. cbn [d1 set_config config wmask w1cmask].
  rewrite aget_aset.
  destruct (Z.eqb_spec addr j) as [<-|Hne].
  - rewrite (proj2 (Z.leb_gt (addr + 1) addr)), Z.leb_refl, (proj2 (Z.ltb_lt addr (addr + Z.of_nat (S n)))) by lia.
    cbn [andb]. rewrite Z.sub_diag. done.
  - destruct (Z.leb_spec (addr + 1) j), (Z.leb_spec addr j), (Z.ltb_spec j (addr + 1 + Z.of_nat n)), (Z.ltb_spec j (addr + Z.of_nat (S n)));
      cbn [andb]; try done; try lia. rewrite Z.shiftr_shiftr by lia. do 3 f_equal. lia.
Qed.

(** ** Mappings *)

(** Where a region belongs according to the configuration space. *)
Definition remap (d : PCIDevice) (i : Z) : PCIIORegion :=
  let r := region d i in
  if r_size r =? 0 then r else mkRegion (pci_bar_address d i (r_type r) (r_size r)) (r_size r) (r_type r).

Lemma update_mapping_spec i d :
  maps_ok d → 0 ≤ i < PCI_NUM_REGIONS →
  ∃ rs m, update_mapping i d = Ok (set_regions rs m d) ∧ maps_ok (set_regions rs m d) ∧
    ∀ j, region (set_regions rs m d) j = if i =? j then remap d i else region d j.
Proof.
  intros Hm Hi. unfold update_mapping, remap. set (r := region d i).
  assert (Hself : set_regions (io_regions d) (mapped d) d = d) by (by destruct d).
  assert (Hnone : ∀ x, x = region d i → ∀ j, region d j = if i =? j then x else region d j).
  { intros x -> j. by destruct (Z.eqb_spec i j) as [->|]. }
  destruct (Z.eqb_spec (r_size r) 0) as [Hz|Hz].
  { exists (io_regions d), (mapped d). rewrite Hself. split_and!; try done. by apply Hnone. }
  set (na := pci_bar_address d i (r_type r) (r_size r)). destruct (Z.eqb_spec na (r_addr r)) as [E|E].
  { exists (io_regions d), (mapped d). rewrite Hself. split_and!; try done. apply Hnone. rewrite E. unfold r. by destruct (region d i). }
  pose proof (Hm i Hi) as Hmi. fold r in Hmi. rewrite (proj2 (Z.eqb_neq _ _) Hz) in Hmi. cbn [orb] in Hmi.
  set (m1 := if negb (r_addr r =? PCI_BAR_UNMAPPED) then delete i (mapped d) else mapped d).
  assert (E1 : (if negb (r_addr r =? PCI_BAR_UNMAPPED) then memory_region_del_subregion i (mapped d) else Ok (mapped d)) = Ok m1).
  { unfold m1, memory_region_del_subregion. destruct (r_addr r =? PCI_BAR_UNMAPPED); cbn [negb]; [done|]. by rewrite Hmi. }
  assert (N1 : m1 !! i = None).
  { unfold m1. destruct (r_addr r =? PCI_BAR_UNMAPPED); cbn [negb]; [done|]. by rewrite lookup_delete_eq. }
  assert (O1 : ∀ j, j ≠ i → m1 !! j = mapped d !! j).
  { intros j Hj. unfold m1. destruct (negb _); [by rewrite lookup_delete_ne|done]. }
  rewrite E1. cbn [mbind res_bind].
  set (m2 := if negb (na =? PCI_BAR_UNMAPPED) then <[i := na]> m1 else m1).
  assert (E2 : (if negb (na =? PCI_BAR_UNMAPPED) then memory_region_add_subregion_overlap i na m1 else Ok m1) = Ok m2).
  { unfold m2, memory_region_add_subregion_overlap. destruct (na =? PCI_BAR_UNMAPPED); cbn [negb]; [done|]. by rewrite N1. }
  rewrite E2. cbn [mbind res_bind]. do 2 eexists. split; [reflexivity|].
  assert (Hr : ∀ j, region (set_regions (<[i := mkRegion na (r_size r) (r_type r)]> (io_regions d)) m2 d) j =
    if i =? j then mkRegion na (r_size r) (r_type r) else region d j).
  { intros j. unfold region. cbn [set_regions io_regions]. destruct (Z.eqb_spec i j) as [->|];
      [by rewrite lookup_insert_eq|by rewrite lookup_insert_ne]. }
  split; [|exact Hr]. intros j Hj. rewrite Hr. cbn [set_regions mapped]. destruct (Z.eqb_spec i j) as [<-|Hne].
  - cbn [r_size r_addr]. rewrite (proj2 (Z.eqb_neq _ _) Hz). cbn [orb]. unfold m2.
    destruct (na =? PCI_BAR_UNMAPPED); cbn [negb]; [done|by rewrite lookup_insert_eq].
  - rewrite <-(Hm j Hj), <-O1 by congruence. unfold m2. destruct (na =? PCI_BAR_UNMAPPED); cbn [negb]; [done|by rewrite lookup_insert_ne].
Qed.

Lemma update_mappings_loop_spec l d :
  maps_ok d → NoDup l → (∀ i, i ∈ l → 0 ≤ i < PCI_NUM_REGIONS) →
  ∃ rs m, update_mappings_loop l d = Ok (set_regions rs m d) ∧ maps_ok (set_regions rs m d) ∧
    ∀ j, region (set_regions rs m d) j = if bool_decide (j ∈ l) then remap d j else region d j.
Proof.
  revert d. induction l as [|i l IH]; intros d Hm Hd Hl; cbn [update_mappings_loop].
  { exists (io_regions d), (mapped d). assert (Hself : set_regions (io_regions d) (mapped d) d = d) by (by destruct d).
    rewrite Hself. split_and!; try done. }
  apply NoDup_cons in Hd as [Hi Hd].
  destruct (update_mapping_spec i d Hm ltac:(apply Hl; by left)) as (rs & m & E & Hm1 & Hr). rewrite E. cbn [mbind res_bind].
  destruct (IH _ Hm1 Hd ltac:(intros j Hj; apply Hl; by right)) as (rs' & m' & E' & Hm' & Hr'). exists rs', m'.
  split; [exact E'|]. split; [exact Hm'|]. intros j. etransitivity; [exact (Hr' j)|].
  assert (Hre : remap (set_regions rs m d) j = if i =? j then (if j =? i then remap (set_regions rs m d) j else remap d j) else remap d j).
  { destruct (Z.eqb_spec i j) as [->|Hne]; [by rewrite Z.eqb_refl|]. unfold remap. rewrite Hr, (proj2 (Z.eqb_neq _ _) Hne). done. }
  destruct (decide (j = i)) as [->|Hne].
  - rewrite (bool_decide_eq_false_2 (i ∈ l)), (bool_decide_eq_true_2 (i ∈ i :: l)) by (done || by left). by rewrite Hr, Z.eqb_refl.
  - rewrite Hre, Hr, (proj2 (Z.eqb_neq i j)) by congruence. rewrite (bool_decide_ext (j ∈ i :: l) (j ∈ l)); [done|].
    rewrite elem_of_cons. naive_solver.
Qed.

(** Updating the mappings cannot fail, and puts every region where its register says. *)
Lemma pci_update_mappings_spec d :
  maps_ok d →
  ∃ rs m v, pci_update_mappings d = Ok (set_vga v (set_regions rs m d)) ∧ maps_ok (set_regions rs m d) ∧
    ∀ j, 0 ≤ j < PCI_NUM_REGIONS → region (set_regions rs m d) j = remap d j.
Proof.
  intros Hm. unfold pci_update_mappings.
  destruct (update_mappings_loop_spec (seqZ 0 PCI_NUM_REGIONS) d Hm) as (rs & m & E & Hm' & Hr).
  { apply NoDup_seqZ. } { intros i Hi%elem_of_seqZ. lia. }
  rewrite E. cbn [mbind res_bind]. exists rs, m.
  assert (Hv : ∃ v, pci_update_vga (set_regions rs m d) = set_vga v (set_regions rs m d)).
  { unfold pci_update_vga. destruct (vga (set_regions rs m d)) eqn:Ev; [by eexists|]. exists None. cbn in Ev. destruct d; cbn in *. by subst. }
  destruct Hv as [v ->]. exists v. split; [done|]. split; [done|]. intros j Hj. rewrite Hr, bool_decide_eq_true_2; [done|].
  apply elem_of_seqZ. lia.
Qed.

(** ** Base address registers of 32 bits *)

Lemma pow2_mask_testbit k b : 0 ≤ k ≤ 64 → 0 ≤ b → Z.testbit (u64 (Z.lnot (2 ^ k - 1))) b = (k <=? b) && (b <? 64).
Proof.
  intros Hk Hb. unfold u64. replace (2 ^ k - 1) with (Z.ones k) by (rewrite Z.ones_equiv; lia).
  destruct (Z.ltb_spec b 64).
  - rewrite Z.mod_pow2_bits_low, Z.lnot_spec, andb_true_r by lia. rewrite Z.testbit_ones by lia.
    destruct (Z.leb_spec k b), (Z.leb_spec 0 b), (Z.ltb_spec b k); try done; lia.
  - rewrite Z.mod_pow2_bits_high, andb_false_r by lia. done.
Qed.

(** [x] without its low [k] bits. *)
Definition aligned (k x : Z) : Z := x - x mod 2 ^ k.

Lemma aligned_testbit k x b : 0 ≤ k → 0 ≤ b → Z.testbit (aligned k x) b = (k <=? b) && Z.testbit x b.
Proof.
  intros Hk Hb. unfold aligned. replace (x - x mod 2 ^ k) with (Z.shiftl (Z.shiftr x k) k).
  2: { rewrite Z.shiftl_mul_pow2, Z.shiftr_div_pow2 by done. pose proof (Z.div_mod x (2 ^ k) ltac:(lia)). lia. }
  destruct (Z.leb_spec k b).
  - rewrite Z.shiftl_spec, Z.shiftr_spec by lia. cbn [andb]. f_equal. lia.
  - rewrite Z.shiftl_spec_low by lia. done.
Qed.

Lemma land_mask_aligned k x : 0 ≤ k ≤ 64 → fits 64 x → Z.land x (u64 (Z.lnot (2 ^ k - 1))) = aligned k x.
Proof.
  intros Hk Hx. apply Z.bits_inj'. intros b Hb. rewrite Z.land_spec, pow2_mask_testbit, aligned_testbit by lia.
  destruct (Z.ltb_spec b 64); [btauto|]. rewrite (proj1 (fits_bits 64 x ltac:(lia) (proj1 Hx)) Hx b ltac:(lia)). btauto.
Qed.

(** Register [i] is set up for a region of [2 ^ k] bytes of a 32-bit kind. *)
Record bar_ready (d : PCIDevice) (i k type : Z) : Prop := {
  br_num : 0 ≤ i < PCI_ROM_SLOT;
  br_size : r_size (region d i) = 2 ^ k;
  br_type : r_type (region d i) = type;
  br_k : 1 ≤ k ≤ 32;
  br_low : 0 ≤ type < 2 ^ k;
  br_kind : tst type PCI_BASE_ADDRESS_SPACE_IO = false → tst type PCI_BASE_ADDRESS_MEM_TYPE_64 = false;
  br_wmask : ∀ b, 0 ≤ b < 32 → Z.testbit (pci_get_long (wmask d) (pci_bar d i)) b = (k <=? b);
  br_value : ∀ b, 0 ≤ b < k → Z.testbit (pci_get_long (config d) (pci_bar d i)) b = Z.testbit type b;
}.

Lemma bar_offset d i : 0 ≤ i < PCI_ROM_SLOT → pci_bar d i = 16 + i * 4.
Proof. intros Hi. unfold pci_bar. rewrite (proj2 (Z.eqb_neq i PCI_ROM_SLOT)) by lia. done. Qed.

(** A register after a write that hits it or not: writable bits change, low bits stay. *)
Lemma long_written d c o addr val n b :
  masks_ok d → afits 8 c → (∀ j, aget c j = written addr val n d j) →
  8 ≤ o → o + 4 ≤ PCI_CONFIG_HEADER_SIZE → 0 ≤ b < 32 →
  Z.testbit (pci_get_long c o) b =
    if Z.testbit (pci_get_long (wmask d) o) b && (addr <=? o + b / 8) && (o + b / 8 <? addr + Z.of_nat n)
    then Z.testbit val (8 * (o - addr) + b) else Z.testbit (pci_get_long (config d) o) b.
Proof.
  intros Hm Hc Hw Ho Ho4 Hb. unfold pci_get_long. rewrite !get_testbit by (try lia; apply Hm || done).
  rewrite Hw. unfold written. assert (b / 8 < 4) by (apply Z.div_lt_upper_bound; lia). pose proof (Z.div_pos b 8 ltac:(lia) ltac:(lia)).
  pose proof (Z.mod_pos_bound b 8 ltac:(lia)). set (j := o + b / 8) in *.
  destruct (Z.leb_spec addr j), (Z.ltb_spec j (addr + Z.of_nat n)); cbn [andb]; rewrite ?andb_true_r, ?andb_false_r; try done.
  rewrite merge_testbit by (try lia; apply Hm). rewrite (mo_header _ Hm j) by (unfold j, PCI_STATUS, PCI_CONFIG_HEADER_SIZE in *; lia).
  rewrite Z.bits_0. unfold merge_bit. rewrite andb_false_r, andb_true_r.
  destruct (Z.testbit (aget (wmask d) j) (b mod 8)); [|done]. unfold u8. rewrite Z.mod_pow2_bits_low, Z.shiftr_spec by lia.
  f_equal. unfold j. pose proof (Z.div_mod b 8 ltac:(lia)). lia.
Qed.

Lemma pci_bar_config d c i : 0 ≤ i < PCI_ROM_SLOT → pci_bar (set_config c d) i = pci_bar d i.
Proof. intros Hi. by rewrite !bar_offset. Qed.

(** No write of the guest spoils a register. *)
Lemma bar_ready_written d c addr val n i k type :
  masks_ok d → afits 8 c → (∀ j, aget c j = written addr val n d j) → bar_ready d i k type →
  bar_ready (set_config c d) i k type.
Proof.
  intros Hm Hc Hw [Hi Hs Ht Hk Hl Hkd Hwm Hv]. split; try done; rewrite pci_bar_config by done; [done|].
  intros b Hb. rewrite bar_offset in * by done. unfold PCI_ROM_SLOT in *. cbn [set_config config].
  rewrite (long_written d c _ addr val n) by (try done; unfold PCI_CONFIG_HEADER_SIZE; lia).
  rewrite Hwm by lia. rewrite (proj2 (Z.leb_gt k b)) by lia. cbn [andb]. apply Hv. lia.
Qed.

(** Writing a register: the low bits keep the kind, the others take what was written. *)
Lemma bar_write_value d c val i k type :
  masks_ok d → afits 8 c → (∀ j, aget c j = written (pci_bar d i) val 4 d j) → bar_ready d i k type → fits 32 val →
  pci_get_long c (pci_bar d i) = aligned k val + type.
Proof.
  intros Hm Hc Hw [Hi Hs Ht Hk Hl Hkd Hwm Hv] Hval.
  assert (Hadd : aligned k val + type = Z.lor (aligned k val) type).
  { rewrite Z.add_nocarry_lxor, Z.lxor_lor; [done| |]; apply Z.bits_inj'; intros b Hb;
      rewrite Z.land_spec, aligned_testbit, Z.bits_0 by lia; (destruct (Z.leb_spec k b); [|done]);
      rewrite (proj1 (fits_bits k type ltac:(lia) (proj1 Hl)) Hl b) by lia; btauto. }
  rewrite Hadd. apply Z.bits_inj'. intros b Hb. rewrite Z.lor_spec, aligned_testbit by lia.
  pose proof (get_fits c (pci_bar d i) 4 Hc) as Hf. change (8 * Z.of_nat 4) with 32 in Hf. destruct (Z.lt_ge_cases b 32).
  - rewrite bar_offset in * by done. unfold PCI_ROM_SLOT in *.
    rewrite (long_written d c _ (16 + i * 4) val 4) by (try done; unfold PCI_CONFIG_HEADER_SIZE; lia).
    rewrite Hwm by lia. assert (b / 8 < 4) by (apply Z.div_lt_upper_bound; lia). pose proof (Z.div_pos b 8 ltac:(lia) ltac:(lia)).
    rewrite (proj2 (Z.leb_le (16 + i * 4) _)), (proj2 (Z.ltb_lt (16 + i * 4 + b / 8) _)) by lia.
    rewrite !andb_true_r, Z.sub_diag, Z.mul_0_r, Z.add_0_l. destruct (Z.leb_spec k b); cbn [andb].
    + rewrite (proj1 (fits_bits k type ltac:(lia) (proj1 Hl)) Hl b) by lia. btauto.
    + rewrite Hv by lia. done.
  - assert (Hty : fits 32 type) by (eapply (fits_mono k); [lia|exact Hl]).
    unfold pci_get_long. rewrite (proj1 (fits_bits 32 _ ltac:(lia) (proj1 Hf)) Hf b) by lia.
    rewrite (proj1 (fits_bits 32 val ltac:(lia) (proj1 Hval)) Hval b) by lia.
    rewrite (proj1 (fits_bits 32 type ltac:(lia) (proj1 Hty)) Hty b) by lia. btauto.
Qed.

(** The bit of the command register that lets a region answer. *)
Definition decode_bit (type : Z) : Z := if tst type PCI_BASE_ADDRESS_SPACE_IO then PCI_COMMAND_IO else PCI_COMMAND_MEMORY.

(** An aligned address below the end of the 32-bit space is decoded as it is. *)
Lemma bar_address_decodes d i k type a :
  bar_ready d i k type → afits 8 (config d) → pci_get_long (config d) (pci_bar d i) = a + type → a mod 2 ^ k = 0 →
  tst (pci_get_word (config d) PCI_COMMAND) (decode_bit type) = true →
  pci_bar_address d i type (2 ^ k) = if (0 <? a) && (a + 2 ^ k <=? UINT32_MAX) then a else PCI_BAR_UNMAPPED.
Proof.
  intros [Hi Hs Ht Hk Hl Hkd Hwm Hv] Hc Hg Ha Hcmd. pose proof (get_fits (config d) (pci_bar d i) 4 Hc) as Hf.
  change (8 * Z.of_nat 4) with 32 in Hf. fold (pci_get_long (config d) (pci_bar d i)) in Hf. rewrite Hg in Hf.
  assert (Ha0 : 0 ≤ a). { destruct (Z.lt_ge_cases a 0); [|done]. destruct Hf. apply Z.mod_divide in Ha as [q Hq]; [|lia].
    assert (0 < 2 ^ k) by lia. assert (q < 0) by nia. assert (q * 2 ^ k ≤ -1 * 2 ^ k) by (apply Z.mul_le_mono_nonneg_r; lia). lia. }
  assert (Hal : Z.land (a + type) (u64 (Z.lnot (2 ^ k - 1))) = a).
  { rewrite land_mask_aligned; [|lia|by apply (fits_mono 32)]. unfold aligned.
    rewrite Z.add_mod, Ha, Z.add_0_l, Z.mod_mod, Z.mod_small by lia. lia. }
  assert (Hk2 : 2 ≤ 2 ^ k) by (change 2 with (2 ^ 1) at 1; apply Z.pow_le_mono_r; lia).
  assert (Hk32 : 2 ^ k ≤ 2 ^ 32) by (apply Z.pow_le_mono_r; lia). destruct Hf as [_ Hf].
  assert (Hlast : u64 (a + 2 ^ k - 1) = a + 2 ^ k - 1) by (apply u64_small; split; lia).
  unfold pci_bar_address, decode_bit, UINT32_MAX, PCI_BAR_UNMAPPED, HWADDR_MAX in *.
  destruct (tst type PCI_BASE_ADDRESS_SPACE_IO) eqn:Eio; rewrite Hcmd; cbn [negb].
  - rewrite Hg, Hal, Hlast. repeat case_match; bool_hyps; lia.
  - rewrite (Hkd eq_refl), Hg. rewrite (proj2 (Z.eqb_neq i PCI_ROM_SLOT)) by (unfold PCI_ROM_SLOT in *; lia). cbn [andb negb].
    rewrite Hal, Hlast. repeat case_match; bool_hyps; lia.
Qed.

(** ** Registration *)

Lemma get_set_long a o v : pci_get_long (pci_set_long a o v) o = u32 v.
Proof. unfold pci_get_long, pci_set_long. rewrite aread_awrite_len by apply length_le_bytes. apply le_val_le_bytes. Qed.
Lemma get_set_long_ne a o v o' : o' + 4 ≤ o ∨ o + 4 ≤ o' → pci_get_long (pci_set_long a o v) o' = pci_get_long a o'.
Proof. intros Ho. unfold pci_get_long, pci_set_long. f_equal. apply aread_awrite_out. rewrite length_le_bytes. lia. Qed.
Lemma set_long_fits a o v : afits 8 a → afits 8 (pci_set_long a o v).
Proof. intros. apply afits_awrite; [done|apply le_bytes_fits]. Qed.
Lemma set_long_out a o v j : j < o ∨ o + 4 ≤ j → aget (pci_set_long a o v) j = aget a j.
Proof. intros Hj. apply aget_awrite_out. rewrite length_le_bytes. lia. Qed.

(** Changing the write mask in the header, beyond the status register, keeps the masks in order. *)
Lemma masks_header d w c k o n :
  masks_ok d → afits 8 w → afits 8 c → afits 8 k → PCI_STATUS + 2 ≤ o → o + n ≤ PCI_CONFIG_HEADER_SIZE →
  (∀ j, j < o ∨ o + n ≤ j → aget w j = aget (wmask d) j) →
  masks_ok (set_cmask k (set_wmask w (set_config c d))).
Proof.
  intros [] Hw Hc Hk Ho Hn Hout. split; try done. cbn [set_cmask set_wmask set_config wmask w1cmask]. intros j.
  destruct (Z.lt_ge_cases j o); [by rewrite Hout by lia|]. destruct (Z.lt_ge_cases j (o + n)); [|by rewrite Hout by lia].
  rewrite mo_header0 by lia. apply Z.land_0_r.
Qed.

Lemma pow2_land_pred k : 0 ≤ k ≤ 64 → Z.land (2 ^ k) (u64 (2 ^ k - 1)) = 0.
Proof.
  intros Hk. pose proof (Z.pow_le_mono_r 2 k 64 ltac:(lia) ltac:(lia)). rewrite u64_small by (split; lia).
  replace (2 ^ k - 1) with (Z.ones k) by (rewrite Z.ones_equiv; lia). apply Z.bits_inj'. intros b Hb.
  rewrite Z.land_spec, Z.bits_0, Z.pow2_bits_eqb, Z.testbit_ones by lia.
  destruct (Z.eqb_spec k b), (Z.leb_spec 0 b), (Z.ltb_spec b k); try done; lia.
Qed.

Lemma pci_register_bar_ready d i k type :
  masks_ok d → maps_ok d → mapped d !! i = None → 0 ≤ i < PCI_ROM_SLOT → 1 ≤ k ≤ 32 → 0 ≤ type < 2 ^ k → fits 8 type →
  (tst type PCI_BASE_ADDRESS_SPACE_IO = false → tst type PCI_BASE_ADDRESS_MEM_TYPE_64 = false) →
  ∃ d', pci_register_bar i type (2 ^ k) d = Ok (Some d') ∧ masks_ok d' ∧ maps_ok d' ∧ bar_ready d' i k type ∧
    ∀ j k' type', j ≠ i → bar_ready d j k' type' → bar_ready d' j k' type'.
Proof.
  intros Hm Hmap Hfree Hi Hk Hl Hty Hkind. unfold pci_register_bar. pose proof Hi as Hi'. unfold PCI_ROM_SLOT in Hi'.
  rewrite (proj2 (Z.leb_le 0 i)), (proj2 (Z.ltb_lt i PCI_NUM_REGIONS)) by (unfold PCI_NUM_REGIONS; lia). cbn [andb negb].
  unfold tst at 1. rewrite pow2_land_pred by lia. cbn [Z.eqb negb].
  rewrite (proj2 (Z.eqb_neq i PCI_ROM_SLOT)) by (unfold PCI_ROM_SLOT; lia).
  assert (Ek : negb (tst type PCI_BASE_ADDRESS_SPACE_IO) && tst type PCI_BASE_ADDRESS_MEM_TYPE_64 = false).
  { destruct (tst type PCI_BASE_ADDRESS_SPACE_IO); [done|]. by rewrite Hkind. }
  rewrite Ek. rewrite bar_offset by done. set (o := 16 + i * 4). set (wm := Z.land _ 0xffffffff).
  assert (Hwm : ∀ b, 0 ≤ b → Z.testbit wm b = (k <=? b) && (b <? 32)).
  { intros b Hb. unfold wm. change 0xffffffff with (Z.ones 32). rewrite Z.land_spec, pow2_mask_testbit, Z.testbit_ones by lia.
    destruct (Z.leb_spec k b), (Z.leb_spec 0 b), (Z.ltb_spec b 32), (Z.ltb_spec b 64); try done; lia. }
  eexists. split; [reflexivity|]. set (d' := set_regions _ _ _).
  assert (Hr : ∀ j, region d' j = if i =? j then mkRegion PCI_BAR_UNMAPPED (2 ^ k) type else region d j).
  { intros j. unfold region, d'. cbn. destruct (Z.eqb_spec i j) as [->|]; [by rewrite lookup_insert_eq|by rewrite lookup_insert_ne]. }
  assert (Hu : u32 wm = wm).
  { apply u32_small. unfold wm. apply land_fits_r; [lia|]. done. }
  assert (Hut : u32 type = type) by (apply u32_small; apply (fits_mono 8); [lia|done]).
  split_and!.
  - assert (Hm' : masks_ok (set_cmask (pci_set_long (cmask d) o 0xffffffff) (set_wmask (pci_set_long (wmask d) o wm) (set_config (pci_set_long (config d) o type) d)))).
    { apply (masks_header _ _ _ _ o 4); try done; try (apply set_long_fits, Hm).
      - unfold PCI_STATUS, o. lia.
      - unfold PCI_CONFIG_HEADER_SIZE, o. lia.
      - intros j Hj. apply set_long_out. lia. }
    destruct Hm'. by split.
  - intros j Hj. rewrite Hr. unfold d'. cbn [set_regions mapped set_cmask set_wmask set_config].
    destruct (Z.eqb_spec i j) as [<-|]; [|by apply Hmap]. cbn [r_size r_addr]. rewrite Hfree.
    by rewrite Z.eqb_refl, orb_true_r.
  - split; try done; rewrite ?Hr, ?Z.eqb_refl; try done; rewrite bar_offset by done; fold o; unfold d'; cbn [set_regions set_cmask set_wmask set_config config wmask]; intros b Hb.
    + rewrite get_set_long, Hu, Hwm by lia. rewrite (proj2 (Z.ltb_lt b 32)) by lia. by rewrite andb_true_r.
    + by rewrite get_set_long, Hut.
  - intros j k' type' Hne [Hj Hs Ht Hk' Hl' Hkd Hw Hv]. rewrite bar_offset in Hw, Hv by done. unfold PCI_ROM_SLOT in Hj.
    split; try done; rewrite ?Hr, ?(proj2 (Z.eqb_neq i j)) by congruence; try done; rewrite bar_offset by done;
      unfold d'; cbn [set_regions set_cmask set_wmask set_config config wmask]; intros b Hb; rewrite get_set_long_ne by (unfold o; lia); auto.
Qed.

(** ** The capability list *)

(** From pointer [p] the links in the configuration space run through the capabilities [l]. *)
Fixpoint chain (c : arr) (p : Z) (l : list Z) : Prop :=
  match l with [] => p = 0 | o :: l => p = o ∧ chain c (aget c (o + PCI_CAP_LIST_NEXT)) l end.

Record caps_ok (d : PCIDevice) (l : list Z) : Prop := {
  co_chain : chain (config d) (aget (config d) PCI_CAPABILITY_LIST) l;
  co_nodup : NoDup l;
  co_status : tst (aget (config d) PCI_STATUS) PCI_STATUS_CAP_LIST = bool_decide (l ≠ []);
  co_place : ∀ o, o ∈ l → PCI_CONFIG_HEADER_SIZE ≤ o < PCI_CONFIG_SPACE_SIZE ∧ o mod 4 = 0 ∧ aget (used d) o ≠ 0;
  co_used : ∀ j, aget (used d) j = 0 ↔ aget (used d) (j - j mod 4) = 0;
}.

(** The first capability of [l] with the given id. *)
Definition first_cap (c : arr) (id : Z) (l : list Z) : Z := default 0 (head (filter (λ o, aget c (o + PCI_CAP_LIST_ID) = id) l)).

Lemma chain_ext c c' p l : (∀ o, o ∈ l → aget c' (o + 1) = aget c (o + 1)) → chain c p l → chain c' p l.
Proof.
  revert p. induction l as [|o l IH]; intros p Hc; [done|]. intros [-> Hl]. split; [done|].
  unfold PCI_CAP_LIST_NEXT in *. rewrite Hc by (by left). apply IH; [|done]. intros o' Ho. apply Hc. by right.
Qed.

Lemma find_capability_loop_spec fuel prev id d l :
  chain (config d) (aget (config d) prev) l → (∀ o, o ∈ l → 0 < o < 255) → (length l < fuel)%nat →
  ∃ prev', find_capability_loop fuel prev id d = Ok (first_cap (config d) id l, prev') ∧
    (first_cap (config d) id l ≠ 0 → ∃ l1 l2, l = l1 ++ first_cap (config d) id l :: l2 ∧ first_cap (config d) id l ∉ l1 ∧
       prev' = match last l1 with None => prev | Some o => o + 1 end).
Proof.
  revert prev l. induction fuel as [|fuel IH]; intros prev l Hc Hr Hf; [lia|]. cbn [find_capability_loop].
  destruct l as [|o l]; cbn [chain] in Hc.
  { rewrite Hc. cbn. by eexists. }
  destruct Hc as [Hp Hc]. rewrite Hp. pose proof (Hr o ltac:(by left)). rewrite (proj2 (Z.eqb_neq o 0)) by lia.
  unfold first_cap. rewrite filter_cons. destruct (Z.eqb_spec (aget (config d) (o + PCI_CAP_LIST_ID)) id) as [Hid|Hid].
  - rewrite decide_True by done. cbn. exists prev. split; [done|]. intros _. exists [], l. split_and!; [done|set_solver|done].
  - rewrite decide_False by done. unfold PCI_CAP_LIST_NEXT in *.
    rewrite (u8_small (o + 1)) by (split; lia). cbn [length] in Hf.
    destruct (IH (o + 1) l Hc ltac:(intros o' Ho'; apply Hr; by right) ltac:(lia)) as (prev' & E & Hf').
    fold (first_cap (config d) id l). exists prev'. split; [exact E|]. intros Hne. destruct (Hf' Hne) as (l1 & l2 & Hl & Hn & Hprev).
    exists (o :: l1), l2. split_and!.
    + cbn. by rewrite <-Hl.
    + apply not_elem_of_cons. split; [|done]. intros Heq. apply Hid.
      unfold first_cap in Heq, Hne. destruct (filter _ l) as [|x xs] eqn:Ef; [done|]. cbn in Heq. subst x.
      assert (Hin : o ∈ filter (λ o, aget (config d) (o + PCI_CAP_LIST_ID) = id) l) by (rewrite Ef; by left).
      by apply list_elem_of_filter in Hin as [? _].
    + rewrite Hprev. destruct l1 as [|x l1]; [done|]. change (last (o :: x :: l1)) with (last (x :: l1)). destruct (last (x :: l1)) eqn:El; [done|]. by apply last_None in El.
Qed.

Lemma caps_range d l o : caps_ok d l → o ∈ l → 0 < o < 255.
Proof.
  intros Hc Ho. destruct (co_place _ _ Hc o Ho) as (H1 & H2 & _). unfold PCI_CONFIG_HEADER_SIZE, PCI_CONFIG_SPACE_SIZE in *.
  pose proof (Z.div_mod o 4 ltac:(lia)). lia.
Qed.

Lemma pci_find_capability_spec fuel id d l :
  caps_ok d l → (length l < fuel)%nat → pci_find_capability fuel id d = Ok (first_cap (config d) id l).
Proof.
  intros Hc Hf. unfold pci_find_capability, pci_find_capability_list. rewrite (co_status _ _ Hc).
  destruct l as [|o l]; [done|]. rewrite bool_decide_eq_true_2 by done. cbn [negb].
  destruct (find_capability_loop_spec fuel PCI_CAPABILITY_LIST id d (o :: l) (co_chain _ _ Hc)) as (prev & -> & _); [|done|done].
  intros o' Ho'. by eapply caps_range.
Qed.

(** The space for a new capability: the first gap that is long enough. *)
Definition free (d : PCIDevice) (o n : Z) : Prop := ∀ j, o ≤ j < o + n → aget (used d) j = 0.

Lemma find_space_loop_spec n i offset size d :
  0 < size ≤ 255 → PCI_CONFIG_HEADER_SIZE ≤ offset ≤ i → i - offset < size → i + Z.of_nat n = PCI_CONFIG_SPACE_SIZE → free d offset (i - offset) →
  (offset = PCI_CONFIG_HEADER_SIZE ∨ aget (used d) (offset - 1) ≠ 0) →
  let r := find_space_loop n i offset size d in
  (r = 0 ∧ ∀ o, offset ≤ o → o + size ≤ PCI_CONFIG_SPACE_SIZE → ¬ free d o size) ∨
  (offset ≤ r ∧ r + size ≤ PCI_CONFIG_SPACE_SIZE ∧ free d r size ∧ (r = PCI_CONFIG_HEADER_SIZE ∨ aget (used d) (r - 1) ≠ 0) ∧
   ∀ o, offset ≤ o < r → ¬ free d o size).
Proof.
  unfold PCI_CONFIG_HEADER_SIZE, PCI_CONFIG_SPACE_SIZE. intros Hs. revert i offset.
  induction n as [|n IH]; intros i offset Ho Hi Hn Hf Hb; cbn [find_space_loop].
  { left. split; [done|]. intros o Ho1 Ho2. lia. }
  destruct (Z.eqb_spec (aget (used d) i) 0) as [Hu|Hu]; cbn [negb].
  - destruct (Z.eqb_spec (i - offset + 1) size) as [He|He].
    + right. rewrite u8_small by (split; lia). split_and!; try done; try lia.
      intros j Hj. destruct (Z.eq_dec j i) as [->|]; [done|]. apply Hf. lia.
    + apply IH; try lia. intros j Hj. destruct (Z.eq_dec j i) as [->|]; [done|]. apply Hf. lia.
  - assert (Hskip : ∀ o, offset ≤ o ≤ i → ¬ free d o size).
    { intros o Ho1 Hfr. destruct (Z.lt_ge_cases i (o + size)); [apply Hu, Hfr; lia|]. lia. }
    destruct (IH (i + 1) (i + 1)) as [[Hr Hn1]|(H1 & H2 & H3 & H4 & H5)]; try lia.
    + intros j Hj. lia.
    + right. replace (i + 1 - 1) with i by lia. done.
    + left. split; [done|]. intros o Ho1 Ho2. destruct (Z.lt_ge_cases i o); [apply Hn1; lia|apply Hskip; lia].
    + right. split_and!; try done; [lia|]. intros o Ho1. destruct (Z.lt_ge_cases i o); [apply H5; lia|apply Hskip; lia].
Qed.

Lemma pci_find_space_spec d size :
  0 < size ≤ 255 →
  (pci_find_space d size = 0 ∧ ∀ o, PCI_CONFIG_HEADER_SIZE ≤ o → o + size ≤ PCI_CONFIG_SPACE_SIZE → ¬ free d o size) ∨
  (PCI_CONFIG_HEADER_SIZE ≤ pci_find_space d size ∧ pci_find_space d size + size ≤ PCI_CONFIG_SPACE_SIZE ∧
   free d (pci_find_space d size) size ∧ (pci_find_space d size = PCI_CONFIG_HEADER_SIZE ∨ aget (used d) (pci_find_space d size - 1) ≠ 0) ∧
   ∀ o, PCI_CONFIG_HEADER_SIZE ≤ o < pci_find_space d size → ¬ free d o size).
Proof.
  intros Hs. apply find_space_loop_spec; try done; try lia; try (by left). intros j Hj. lia.
Qed.

Lemma fill_spec cap a o v n :
  0 ≤ o → 0 ≤ n → o + n ≤ cap →
  ∃ a', fill cap a o v n = Ok a' ∧ (∀ j, aget a' j = if (o <=? j) && (j <? o + n) then v else aget a j) ∧
        (∀ w, afits w a → fits w v → afits w a').
Proof.
  intros Ho Hn Hc. unfold fill. rewrite store_in by (rewrite ?length_replicate; lia). eexists. split; [reflexivity|]. split.
  - intros j. rewrite aget_awrite, length_replicate, Z2Nat.id by lia. split_if; [|done]. bool_hyps.
    rewrite nth_lookup, lookup_replicate_2; [done|]. lia.
  - intros w Ha Hv. apply afits_awrite; [done|]. by apply Forall_replicate.
Qed.

Lemma align4_spec n : 0 ≤ n → n ≤ align4 n ≤ n + 3 ∧ align4 n mod 4 = 0.
Proof.
  intros Hn. unfold align4. pose proof (Z.div_mod (n + 3) 4 ltac:(lia)). pose proof (Z.mod_pos_bound (n + 3) 4 ltac:(lia)).
  split; [lia|]. apply Z.mod_mul. lia.
Qed.

(** With whole words in use, a gap starts on a word and reaches the end of one. *)
Lemma free_aligned d l o size :
  caps_ok d l → PCI_CONFIG_HEADER_SIZE ≤ o → free d o size → 0 < size → o + size ≤ PCI_CONFIG_SPACE_SIZE →
  (o = PCI_CONFIG_HEADER_SIZE ∨ aget (used d) (o - 1) ≠ 0) →
  o mod 4 = 0 ∧ free d o (align4 size) ∧ o + align4 size ≤ PCI_CONFIG_SPACE_SIZE.
Proof.
  intros Hc Ho Hf Hs He Hb. unfold PCI_CONFIG_HEADER_SIZE, PCI_CONFIG_SPACE_SIZE in *.
  assert (Hm : o mod 4 = 0).
  { destruct Hb as [->|Hb]; [done|]. destruct (Z.eq_dec (o mod 4) 0) as [|Hne]; [done|]. exfalso. apply Hb.
    apply (co_used _ _ Hc). replace (o - 1 - (o - 1) mod 4) with (o - o mod 4).
    - apply (proj1 (co_used _ _ Hc o)), Hf. lia.
    - pose proof (Z.div_mod o 4 ltac:(lia)). pose proof (Z.mod_pos_bound o 4 ltac:(lia)).
      assert (Hx : (o - 1) mod 4 = o mod 4 - 1) by (symmetry; apply (Z.mod_unique _ _ (o / 4)); lia). lia. }
  destruct (align4_spec size ltac:(lia)) as [Ha Ham]. split; [done|].
  pose proof (Z.div_mod o 4 ltac:(lia)). pose proof (Z.div_mod (align4 size) 4 ltac:(lia)). split; [|lia].
  intros j Hj. apply (co_used _ _ Hc). pose proof (Z.div_mod j 4 ltac:(lia)). pose proof (Z.mod_pos_bound j 4 ltac:(lia)). apply Hf. lia.
Qed.

Lemma in_object_in cap o n : 0 ≤ o → 0 ≤ n → o + n ≤ cap → in_object cap o n = true.
Proof. intros. unfold in_object. rewrite !(proj2 (Z.leb_le _ _)) by lia. done. Qed.

Lemma config_size_ge d : PCI_CONFIG_SPACE_SIZE ≤ pci_config_size d.
Proof. unfold pci_config_size, PCI_CONFIG_SPACE_SIZE, PCIE_CONFIG_SPACE_SIZE. destruct (pci_is_express d); lia. Qed.


(** Two word-aligned capabilities do not share their first two bytes. *)
Lemma heads_apart o o' : o mod 4 = 0 → o' mod 4 = 0 → o ≠ o' → o ≠ o' + 1 ∧ o + 1 ≠ o' ∧ o + 1 ≠ o' + 1.
Proof. intros H1 H2 Hne. pose proof (Z.div_mod o 4 ltac:(lia)). pose proof (Z.div_mod o' 4 ltac:(lia)). lia. Qed.

Lemma insert_capability_spec id o size d l :
  caps_ok d l → masks_ok d → fits 8 id → PCI_CONFIG_HEADER_SIZE ≤ o → o mod 4 = 0 → 2 ≤ size → free d o (align4 size) →
  o + align4 size ≤ PCI_CONFIG_SPACE_SIZE →
  ∃ d', insert_capability id o size d = Ok (o, d') ∧ caps_ok d' (o :: l) ∧ masks_ok d' ∧ aget (config d') o = id ∧
    (∀ j, j ≠ o → j ≠ o + 1 → j ≠ PCI_CAPABILITY_LIST → j ≠ PCI_STATUS → aget (config d') j = aget (config d) j) ∧
    (∀ j, aget (used d') j = if (o <=? j) && (j <? o + align4 size) then 0xff else aget (used d) j) ∧
    (∀ j, o ≤ j < o + size → aget (wmask d') j = 0) ∧ pci_config_size d' = pci_config_size d ∧
    aget (config d') (o + 1) = aget (config d) PCI_CAPABILITY_LIST ∧ aget (config d') PCI_CAPABILITY_LIST = o ∧
    aget (config d') PCI_STATUS = Z.lor (aget (config d) PCI_STATUS) PCI_STATUS_CAP_LIST.
Proof.
  intros Hc Hm Hid Ho Ho4 Hs Hf He. destruct (align4_spec size ltac:(lia)) as [Ha Ham]. pose proof (config_size_ge d) as Hcs.
  pose proof Ho as Ho'. pose proof He as He'. unfold PCI_CONFIG_HEADER_SIZE, PCI_CONFIG_SPACE_SIZE in Ho', He', Hcs.
  unfold insert_capability. rewrite in_object_in by lia. cbn [negb].
  destruct (fill_spec (pci_config_size d) (used d) o 0xff (align4 size) ltac:(lia) ltac:(lia) ltac:(lia)) as (u & -> & Hu & _).
  destruct (fill_spec (pci_config_size d) (wmask d) o 0 size ltac:(lia) ltac:(lia) ltac:(lia)) as (w & -> & Hw & Hwf).
  destruct (fill_spec (pci_config_size d) (cmask d) o 0xff size ltac:(lia) ltac:(lia) ltac:(lia)) as (k & -> & Hk & Hkf).
  cbn [mbind res_bind]. eexists. split; [reflexivity|]. set (d' := set_cmask _ _).
  assert (Eo : o + PCI_CAP_LIST_ID = o) by (unfold PCI_CAP_LIST_ID; lia). unfold PCI_CAP_LIST_NEXT, PCI_CAPABILITY_LIST, PCI_STATUS in *.
  assert (Hcfg : ∀ j, aget (config d') j = if j =? 6 then Z.lor (aget (config d) 6) PCI_STATUS_CAP_LIST else if j =? 0x34 then o
                   else if j =? o + 1 then aget (config d) 0x34 else if j =? o then id else aget (config d) j).
  { intros j. unfold d'. cbn [set_cmask set_wmask set_used set_config config]. rewrite Eo, !aget_aset.
    rewrite !(Z.eqb_sym _ j). repeat (case_match; bool_hyps; try lia; try done; subst). }
  assert (Hother : ∀ j, 64 ≤ j → j ≠ o → j ≠ o + 1 → aget (config d') j = aget (config d) j).
  { intros j Hj H1 H2. rewrite Hcfg. rewrite !(proj2 (Z.eqb_neq j _)) by lia. done. }
  assert (Hnew : ∀ o', o' ∈ l → o' ≠ o).
  { intros o' Hin ->. destruct (co_place _ _ Hc o Hin) as (_ & _ & Hne). apply Hne, Hf. lia. }
  split_and!; try done.
  - split.
    + rewrite Hcfg. cbn [Z.eqb]. split; [done|]. rewrite Hcfg. rewrite !(proj2 (Z.eqb_neq (o + 1) _)), Z.eqb_refl by lia.
      eapply chain_ext; [|apply Hc]. intros o' Hin. destruct (co_place _ _ Hc o' Hin) as (H1 & H2 & _).
      destruct (heads_apart o o' Ho4 H2 ltac:(by intros ->; eapply Hnew)) as (? & ? & ?). unfold PCI_CONFIG_HEADER_SIZE in H1. apply Hother; lia.
    + apply NoDup_cons. split; [|apply Hc]. intros Hin. by eapply Hnew.
    + rewrite Hcfg. cbn [Z.eqb]. by apply lor_tst.
    + intros o' [->|Hin]%elem_of_cons.
      * unfold d'. cbn [set_cmask set_wmask set_used used]. rewrite Hu, (proj2 (Z.leb_le o o)), (proj2 (Z.ltb_lt o _)) by lia. cbn [andb].
        unfold PCI_CONFIG_HEADER_SIZE, PCI_CONFIG_SPACE_SIZE. lia.
      * destruct (co_place _ _ Hc o' Hin) as (H1 & H2 & H3). split_and!; [lia..|].
        unfold d'. cbn [set_cmask set_wmask set_used used]. rewrite Hu. split_if; [lia|done].
    + intros j. unfold d'. cbn [set_cmask set_wmask set_used used]. rewrite !Hu.
      assert (Hiff : (o <=? j) && (j <? o + align4 size) = (o <=? j - j mod 4) && (j - j mod 4 <? o + align4 size)).
      { pose proof (Z.div_mod j 4 ltac:(lia)). pose proof (Z.mod_pos_bound j 4 ltac:(lia)). pose proof (Z.div_mod o 4 ltac:(lia)).
        pose proof (Z.div_mod (align4 size) 4 ltac:(lia)).
        destruct (Z.leb_spec o j), (Z.ltb_spec j (o + align4 size)), (Z.leb_spec o (j - j mod 4)), (Z.ltb_spec (j - j mod 4) (o + align4 size)); try done; lia. }
      rewrite Hiff. split_if; [done|apply Hc].
  - destruct Hm. split; unfold d'; cbn [set_cmask set_wmask set_used set_config config wmask w1cmask cmask]; try done.
    + repeat apply afits_aset; try done; try (split; lia). apply lor_fits; [lia| |done].
      rewrite aget_aset_ne by lia. do 2 rewrite aget_aset_ne by lia. apply mo_config0.
    + by apply Hwf.
    + by apply Hkf.
    + intros j. rewrite Hw. split_if; [apply Z.land_0_l|apply mo_disjoint0].
  - rewrite Hcfg, !(proj2 (Z.eqb_neq o _)), Z.eqb_refl by lia. done.
  - intros j H1 H2 H3 H4. rewrite Hcfg, !(proj2 (Z.eqb_neq j _)) by lia. done.
  - intros j Hj. unfold d'. cbn [set_cmask set_wmask wmask]. rewrite Hw, (proj2 (Z.leb_le o j)), (proj2 (Z.ltb_lt j _)) by lia. done.
  - rewrite Hcfg, !(proj2 (Z.eqb_neq (o + 1) _)), Z.eqb_refl by lia. done.
Qed.

Lemma first_cap_ext c c' id l :
  (∀ o, o ∈ l → aget c' (o + PCI_CAP_LIST_ID) = aget c (o + PCI_CAP_LIST_ID)) → first_cap c' id l = first_cap c id l.
Proof.
  intros Hc. unfold first_cap. f_equal. f_equal. induction l as [|o l IH]; [done|]. rewrite !filter_cons, (Hc o) by (by left).
  rewrite IH; [done|]. intros o' Ho. apply Hc. by right.
Qed.

(** Taking off the capability that was linked in last, when nothing else lies in the space given
    back. *)
Lemma pci_del_head fuel id o size d l :
  caps_ok d (o :: l) → masks_ok d → aget (config d) o = id → 2 ≤ size → o + align4 size ≤ PCI_CONFIG_SPACE_SIZE → (S (length l) < fuel)%nat →
  (∀ o', o' ∈ l → ¬ o ≤ o' < o + align4 size) →
  ∃ d', pci_del_capability fuel id size d = Ok d' ∧ caps_ok d' l ∧ masks_ok d' ∧
    (∀ j, j ≠ PCI_CAPABILITY_LIST → j ≠ PCI_STATUS → aget (config d') j = aget (config d) j) ∧
    (∀ j, aget (used d') j = if (o <=? j) && (j <? o + align4 size) then 0 else aget (used d) j).
Proof.
  intros Hc Hm Hid Hs He Hf Hout. destruct (co_place _ _ Hc o ltac:(by left)) as (Ho & Ho4 & _).
  destruct (align4_spec size ltac:(lia)) as [Ha Ham]. pose proof (config_size_ge d) as Hcs.
  unfold PCI_CONFIG_HEADER_SIZE, PCI_CONFIG_SPACE_SIZE in *.
  unfold pci_del_capability, pci_find_capability_list. rewrite (co_status _ _ Hc), bool_decide_eq_true_2 by done. cbn [negb].
  destruct (co_chain _ _ Hc) as [Hhd Hch]. unfold PCI_CAP_LIST_NEXT, PCI_CAP_LIST_ID, PCI_CAPABILITY_LIST, PCI_STATUS in *.
  assert (El : find_capability_loop fuel 0x34 id d = Ok (o, 0x34)).
  { destruct fuel as [|fuel]; [lia|]. cbn [find_capability_loop]. rewrite Hhd, (proj2 (Z.eqb_neq o 0)) by lia.
    unfold PCI_CAP_LIST_ID. by rewrite Z.add_0_r, Hid, Z.eqb_refl. }
  rewrite El. cbn [mbind res_bind]. rewrite (proj2 (Z.eqb_neq o 0)) by lia. rewrite in_object_in by lia. cbn [negb].
  destruct (fill_spec (pci_config_size d) (wmask d) o 0xff size ltac:(lia) ltac:(lia) ltac:(lia)) as (w & -> & Hw & Hwf).
  destruct (fill_spec (pci_config_size d) (w1cmask d) o 0 size ltac:(lia) ltac:(lia) ltac:(lia)) as (w1 & -> & Hw1 & Hw1f).
  destruct (fill_spec (pci_config_size d) (cmask d) o 0 size ltac:(lia) ltac:(lia) ltac:(lia)) as (k & -> & Hk & Hkf).
  destruct (fill_spec (pci_config_size d) (used d) o 0 (align4 size) ltac:(lia) ltac:(lia) ltac:(lia)) as (u & -> & Hu & _).
  cbn [mbind res_bind]. eexists. split; [reflexivity|]. set (c := if _ =? 0 then _ else _).
  assert (Hc34 : aget c 0x34 = aget (config d) (o + 1)).
  { unfold c. split_if; rewrite ?aget_aset_ne by lia; apply aget_aset_eq. }
  assert (Hother : ∀ j, j ≠ 0x34 → j ≠ 6 → aget c j = aget (config d) j).
  { intros j H1 H2. unfold c. split_if; rewrite ?aget_aset_ne by lia; done. }
  assert (Hplace : ∀ o', o' ∈ l → 64 ≤ o' < 256 ∧ o' mod 4 = 0 ∧ aget (used d) o' ≠ 0).
  { intros o' Ho'. apply (co_place _ _ Hc). by right. }
  assert (Hnil : aget (config d) (o + 1) = 0 ↔ l = []).
  { destruct l as [|o' l]; [by split|]. destruct Hch as [-> _]. pose proof (Hplace o' ltac:(by left)). split; [lia|done]. }
  split_and!; cbn [set_used set_cmask set_w1cmask set_wmask set_config config used]; try done.
  - split; cbn [set_used set_cmask set_w1cmask set_wmask set_config config used].
    + unfold PCI_CAPABILITY_LIST. rewrite Hc34. eapply chain_ext; [|exact Hch]. intros o' Ho'. pose proof (Hplace o' Ho'). apply Hother; lia.
    + by pose proof (co_nodup _ _ Hc) as [_ ?]%NoDup_cons.
    + unfold PCI_STATUS, c. rewrite aget_aset_eq. destruct (Z.eqb_spec (aget (config d) (o + 1)) 0) as [E|E].
      * rewrite aget_aset_eq, clr_tst. symmetry. apply bool_decide_eq_false. rewrite Hnil in E. tauto.
      * rewrite aget_aset_ne by lia. pose proof (co_status _ _ Hc) as Hst. unfold PCI_STATUS in Hst. rewrite Hst.
        rewrite !bool_decide_eq_true_2; [done| |done]. by rewrite <-Hnil.
    + intros o' Ho'. destruct (Hplace o' Ho') as (H1 & H2 & H3). split; [done|]. split; [done|]. rewrite Hu.
      specialize (Hout o' Ho'). split_if; [bool_hyps; lia|done].
    + intros j. rewrite !Hu. pose proof (Z.div_mod j 4 ltac:(lia)). pose proof (Z.mod_pos_bound j 4 ltac:(lia)).
      pose proof (Z.div_mod o 4 ltac:(lia)). pose proof (Z.div_mod (align4 size) 4 ltac:(lia)).
      assert (Hiff : (o <=? j) && (j <? o + align4 size) = (o <=? j - j mod 4) && (j - j mod 4 <? o + align4 size)).
      { destruct (Z.leb_spec o j), (Z.ltb_spec j (o + align4 size)), (Z.leb_spec o (j - j mod 4)), (Z.ltb_spec (j - j mod 4) (o + align4 size)); try done; lia. }
      rewrite Hiff. split_if; [done|apply Hc].
  - destruct Hm. split; cbn [set_used set_cmask set_w1cmask set_wmask set_config config wmask w1cmask cmask].
    + intros j. unfold c. split_if; repeat apply afits_aset; try done; apply mo_config0 || (apply clr_fits; [lia|]; rewrite aget_aset_ne by lia; apply mo_config0).
    + by apply Hwf.
    + by apply Hw1f.
    + by apply Hkf.
    + intros j. rewrite Hw, Hw1. split_if; [apply Z.land_0_r|apply mo_disjoint0].
    + intros j Hj. rewrite Hw1. split_if; [done|by apply mo_header0].
Qed.

(** Whether there is room for a capability. *)
Definition has_room (d : PCIDevice) (size : Z) : Prop :=
  ∃ o, PCI_CONFIG_HEADER_SIZE ≤ o ∧ o + size ≤ PCI_CONFIG_SPACE_SIZE ∧ free d o size.

Lemma first_cap_other c c' id id' o l :
  aget c' o = id → id ≠ id' → (∀ x, x ∈ l → aget c' x = aget c x) → first_cap c' id' (o :: l) = first_cap c id' l.
Proof.
  intros Ho Hne Hc. unfold first_cap at 1. rewrite filter_cons. rewrite decide_False by (unfold PCI_CAP_LIST_ID; rewrite Z.add_0_r; congruence).
  apply first_cap_ext. intros x Hx. unfold PCI_CAP_LIST_ID. rewrite Z.add_0_r. auto.
Qed.

(** the allocator of the configuration space: if there is room (and only then), a capability is
    added in the first gap, read-only and linked in front of the others; it is then found under its
    id and every other id finds what it found before; and deleting it gives the old list and the
    old allocation back.  The loops over the list end. *)
Theorem pci_capability_lifecycle fuel id size d l :
  caps_ok d l → masks_ok d → fits 8 id → 2 ≤ size ≤ 255 → (S (length l) < fuel)%nat →
  (¬ has_room d size → pci_add_capability fuel id 0 size d = Ok (- ENOSPC, d)) ∧
  (has_room d size →
   ∃ o d1 d2, pci_add_capability fuel id 0 size d = Ok (o, d1) ∧
     PCI_CONFIG_HEADER_SIZE ≤ o ∧ o + size ≤ PCI_CONFIG_SPACE_SIZE ∧ free d o size ∧ caps_ok d1 (o :: l) ∧ masks_ok d1 ∧
     (∀ j, o ≤ j < o + size → aget (wmask d1) j = 0) ∧
     (∀ id', pci_find_capability fuel id' d1 = if id' =? id then Ok o else pci_find_capability fuel id' d) ∧
     pci_del_capability fuel id size d1 = Ok d2 ∧ caps_ok d2 l ∧ masks_ok d2 ∧ (∀ j, aget (used d2) j = aget (used d) j) ∧
     (∀ id', pci_find_capability fuel id' d2 = pci_find_capability fuel id' d)).
Proof.
  intros Hc Hm Hid Hs Hf. unfold pci_add_capability. cbn [Z.eqb].
  destruct (pci_find_space_spec d size ltac:(lia)) as [[Hz Hno]|(Ho & Hend & Hfree & Hb & _)].
  { rewrite Hz. cbn [Z.eqb]. split; [done|]. intros (o & H1 & H2 & H3). by destruct (Hno o H1 H2). }
  set (o := pci_find_space d size) in *. split; [intros Hr; destruct Hr; by exists o|]. intros _.
  rewrite (proj2 (Z.eqb_neq o 0)) by (unfold PCI_CONFIG_HEADER_SIZE in Ho; lia).
  destruct (free_aligned d l o size Hc Ho Hfree ltac:(lia) Hend Hb) as (Ho4 & Hfa & Hea).
  destruct (insert_capability_spec id o size d l Hc Hm Hid Ho Ho4 ltac:(lia) Hfa Hea)
    as (d1 & E1 & Hc1 & Hm1 & Hido & Hcfg & Hu & Hw & _).
  assert (Hnot : ∀ x, x ∈ l → ¬ o ≤ x < o + align4 size).
  { intros x Hx Hr. destruct (co_place _ _ Hc x Hx) as (_ & _ & Hne). apply Hne, Hfa. lia. }
  destruct (pci_del_head fuel id o size d1 l Hc1 Hm1 Hido ltac:(lia) Hea Hf Hnot) as (d2 & E2 & Hc2 & Hm2 & Hcfg2 & Hu2).
  assert (Hsame : ∀ x, x ∈ l → aget (config d1) x = aget (config d) x).
  { intros x Hx. destruct (co_place _ _ Hc x Hx) as (H1 & H2 & _). specialize (Hnot x Hx).
    destruct (align4_spec size ltac:(lia)) as [? _].
    apply Hcfg; unfold PCI_CAPABILITY_LIST, PCI_STATUS, PCI_CONFIG_HEADER_SIZE in *; try lia. }
  exists o, d1, d2. split_and!; try done.
  - intros id'. rewrite (pci_find_capability_spec fuel id' d1 (o :: l) Hc1) by (cbn; lia).
    destruct (Z.eqb_spec id' id) as [->|Hne].
    + unfold first_cap. rewrite filter_cons. rewrite decide_True by (unfold PCI_CAP_LIST_ID; by rewrite Z.add_0_r). done.
    + rewrite (first_cap_other (config d) _ id), (pci_find_capability_spec fuel id' d l Hc) by (done || lia). done.
  - intros j. rewrite Hu2, Hu. split_if; [|done]. bool_hyps. symmetry. apply Hfa. lia.
  - intros id'. rewrite (pci_find_capability_spec fuel id' d2 l Hc2), (pci_find_capability_spec fuel id' d l Hc) by lia.
    f_equal. apply first_cap_ext. intros x Hx. unfold PCI_CAP_LIST_ID. rewrite Z.add_0_r, <-(Hsame x Hx).
    destruct (co_place _ _ Hc x Hx) as (H1 & _). unfold PCI_CONFIG_HEADER_SIZE in H1. apply Hcfg2; unfold PCI_CAPABILITY_LIST, PCI_STATUS; lia.
Qed.

(** ** A new device *)

Lemma get_set_word a o v : pci_get_word (pci_set_word a o v) o = u16 v.
Proof. unfold pci_get_word, pci_set_word. by rewrite aread_awrite_len, le_val_le_bytes by apply length_le_bytes. Qed.
Lemma set_word_fits a o v : afits 8 a → afits 8 (pci_set_word a o v).
Proof. intros. apply afits_awrite; [done|apply le_bytes_fits]. Qed.
Lemma set_word_out a o v j : j < o ∨ o + 2 ≤ j → aget (pci_set_word a o v) j = aget a j.
Proof. intros Hj. apply aget_awrite_out. rewrite length_le_bytes. lia. Qed.

Definition init_masks (d : PCIDevice) : PCIDevice := pci_init_w1cmask (pci_init_wmask (pci_init_cmask d)).

(** The masks of a device whose arrays were just allocated. *)
Lemma init_masks_ok d :
  afits 8 (config d) → wmask d = ∅ → w1cmask d = ∅ → cmask d = ∅ → masks_ok (init_masks d).
Proof.
  intros Hc Hw Hw1 Hk. pose proof (afits_empty 8 ltac:(lia)) as He. split.
  - exact Hc.
  - unfold init_masks, pci_init_wmask, pci_init_w1cmask. cbn [set_w1cmask set_wmask wmask pci_init_cmask set_cmask]. rewrite Hw.
    apply afits_awrite; [|by apply Forall_replicate].
    assert (Hb : afits 8 (aset (aset ∅ PCI_CACHE_LINE_SIZE 255) PCI_INTERRUPT_LINE 255)) by (do 2 (apply afits_aset; [|done]); done).
    split_if; [apply set_word_fits|]; by apply set_word_fits.
  - unfold init_masks, pci_init_w1cmask. cbn [set_w1cmask w1cmask pci_init_wmask set_wmask pci_init_cmask set_cmask]. rewrite Hw1. by apply set_word_fits.
  - unfold init_masks, pci_init_w1cmask, pci_init_wmask, pci_init_cmask. cbn [set_w1cmask set_wmask set_cmask cmask]. rewrite Hk.
    do 2 (apply afits_aset; [|done]). apply set_word_fits. do 3 (apply afits_aset; [|done]). by do 2 apply set_word_fits.
  - intros o. unfold init_masks, pci_init_w1cmask, pci_init_wmask. cbn [set_w1cmask set_wmask wmask w1cmask pci_init_cmask set_cmask]. rewrite Hw, Hw1.
    destruct (decide (6 ≤ o < 8)) as [Hin|Hout].
    2: { rewrite (set_word_out ∅ PCI_STATUS) by (unfold PCI_STATUS; lia). rewrite aget_empty. apply Z.land_0_r. }
    rewrite aget_awrite_out by (unfold PCI_CONFIG_HEADER_SIZE; lia).
    assert (Hz : ∀ v, aget (pci_set_word (aset (aset ∅ PCI_CACHE_LINE_SIZE 255) PCI_INTERRUPT_LINE 255) PCI_COMMAND v) o = 0).
    { intros v. unfold PCI_COMMAND, PCI_CACHE_LINE_SIZE, PCI_INTERRUPT_LINE. rewrite set_word_out, !aget_aset_ne by lia. apply aget_empty. }
    split_if; [unfold pci_word_test_and_set_mask; rewrite set_word_out by (unfold PCI_COMMAND; lia)|]; rewrite Hz; apply Z.land_0_l.
  - intros o Ho. unfold init_masks, pci_init_w1cmask. cbn [set_w1cmask w1cmask pci_init_wmask set_wmask pci_init_cmask set_cmask]. rewrite Hw1.
    rewrite set_word_out by (unfold PCI_STATUS in *; lia). apply aget_empty.
Qed.

(** ** Witnesses *)

Definition zeroed : PCIDevice := mkDev ∅ ∅ ∅ ∅ ∅ 0 24 ∅ ∅ false None 0 0 0.
Definition blank : PCIDevice := init_masks zeroed.

Lemma blank_masks : masks_ok blank.
Proof. by apply init_masks_ok. Qed.

Lemma blank_caps : caps_ok blank [].
Proof.
  split; [done|by apply NoDup_nil|done|by intros o []%not_elem_of_nil|].
  intros j. change (used blank) with (∅ : arr). by rewrite !aget_empty.
Qed.

Lemma blank_offset o d1 : pci_add_capability 3 5 0 10 blank = Ok (o, d1) → o = 64.
Proof.
  assert (H : match pci_add_capability 3 5 0 10 blank with Ok (o, _) => o | _ => 0 end = 64) by (vm_compute; reflexivity).
  intros E. by rewrite E in H.
Qed.

Lemma blank_room : has_room blank 10.
Proof. exists 64. split_and!; [done|done|]. intros j _. apply aget_empty. Qed.

Lemma pci_capability_lifecycle_witness :
  ∃ d1, pci_add_capability 3 5 0 10 blank = Ok (64, d1) ∧ pci_find_capability 3 5 d1 = Ok 64.
Proof.
  destruct (pci_capability_lifecycle 3 5 10 blank [] blank_caps blank_masks) as [_ H]; [done|lia|cbn; lia|].
  destruct (H blank_room) as (o & d1 & d2 & E & _ & _ & _ & _ & _ & _ & Hf & _). clear H.
  pose proof (blank_offset _ _ E) as Ho. subst o. exists d1. split; [exact E|exact (Hf 5)].
Defined.

(** ** The mappings follow the registers *)

(** Every region is mapped where the configuration space says. *)
Definition synced (d : PCIDevice) : Prop := ∀ i, 0 ≤ i < PCI_NUM_REGIONS → region d i = remap d i.
(** A 64-bit register is one of the first five, and the guest cannot change the kind of header. *)
Record bars_ok (d : PCIDevice) : Prop := {
  bo_wide : ∀ i, 0 ≤ i < PCI_NUM_REGIONS → tst (r_type (region d i)) PCI_BASE_ADDRESS_SPACE_IO = false →
    tst (r_type (region d i)) PCI_BASE_ADDRESS_MEM_TYPE_64 = true → i < 5;
  bo_header : aget (wmask d) PCI_HEADER_TYPE = 0;
}.

(** The bytes that say where the regions are: the low byte of the command register and the base
    address registers. *)
Definition decoding (j : Z) : Prop := j = 4 ∨ 16 ≤ j < 40 ∨ 48 ≤ j < 52 ∨ 56 ≤ j < 60.

Lemma range_covers addr l j : 0 ≤ addr → 0 < l → addr + l ≤ 2 ^ 32 → range_covers_byte addr l j = (addr <=? j) && (j <? addr + l).
Proof.
  intros Ha Hl Hs. unfold range_covers_byte, range_get_last. rewrite u64_small by (split; lia).
  destruct (Z.leb_spec addr j), (Z.leb_spec j (addr + l - 1)), (Z.ltb_spec j (addr + l)); try done; lia.
Qed.
Lemma ranges_overlap_spec a n b m : 0 ≤ a → 0 < n → a + n ≤ 2 ^ 32 → 0 ≤ b → 0 < m → b + m ≤ 2 ^ 32 →
  ranges_overlap a n b m = false → a + n ≤ b ∨ b + m ≤ a.
Proof.
  intros Ha Hn Hs Hb Hm Hs' E. unfold ranges_overlap, range_get_last in E. rewrite !u64_small in E by (split; lia).
  apply negb_false_iff, orb_true_iff in E as [E|E]; apply Z.ltb_lt in E; lia.
Qed.
Lemma untouched addr l j : 0 ≤ addr → addr + l ≤ 2 ^ 32 → touches_mappings addr l = false → decoding j → ¬ addr ≤ j < addr + l.
Proof.
  intros Ha Hs E Hj [H1 H2]. unfold touches_mappings in E. rewrite !orb_false_iff in E. destruct E as [[[E1 E2] E3] E4].
  apply ranges_overlap_spec in E1, E2, E3; try (unfold PCI_BASE_ADDRESS_0, PCI_ROM_ADDRESS, PCI_ROM_ADDRESS1; lia).
  rewrite range_covers in E4 by lia. unfold decoding, PCI_BASE_ADDRESS_0, PCI_ROM_ADDRESS, PCI_ROM_ADDRESS1, PCI_COMMAND in *.
  lia.
Qed.

Lemma aread_same (c c' : arr) o n : (∀ j, o ≤ j < o + Z.of_nat n → aget c' j = aget c j) → aread c' o n = aread c o n.
Proof. intros H. unfold aread. apply map_ext_in. intros k Hk. apply in_seq in Hk. apply H. lia. Qed.

Lemma command_bit d (k : Z) : afits 8 (config d) → 0 ≤ k < 16 →
  tst (pci_get_word (config d) PCI_COMMAND) (2 ^ k) = Z.testbit (aget (config d) (PCI_COMMAND + k / 8)) (k mod 8).
Proof. intros Hc Hk. rewrite tst_bit by lia. unfold pci_get_word. apply get_testbit; [done|]. lia. Qed.

(** A register decodes to an address that only depends on those bytes. *)
Lemma bar_address_ext d c i : 
  afits 8 (config d) → afits 8 c → 0 ≤ i < PCI_NUM_REGIONS →
  (tst (r_type (region d i)) PCI_BASE_ADDRESS_SPACE_IO = false → tst (r_type (region d i)) PCI_BASE_ADDRESS_MEM_TYPE_64 = true → i < 5) →
  (∀ j, decoding j → aget c j = aget (config d) j) → aget c PCI_HEADER_TYPE = aget (config d) PCI_HEADER_TYPE →
  pci_bar_address (set_config c d) i (r_type (region d i)) (r_size (region d i)) = pci_bar_address d i (r_type (region d i)) (r_size (region d i)).
Proof.
  intros Hf Hc Hi Hw Hj Hh. set (ty := r_type (region d i)) in *. set (sz := r_size (region d i)).
  assert (Hbar : pci_bar (set_config c d) i = pci_bar d i) by (unfold pci_bar; cbn [set_config config]; by rewrite Hh).
  unfold PCI_NUM_REGIONS in Hi.
  assert (Hb : 16 ≤ pci_bar d i ∧ (i < 6 → pci_bar d i = 16 + i * 4) ∧ (i = 6 → pci_bar d i = 48 ∨ pci_bar d i = 56)).
  { unfold pci_bar, PCI_ROM_SLOT, PCI_BASE_ADDRESS_0, PCI_ROM_ADDRESS, PCI_ROM_ADDRESS1.
    destruct (Z.eqb_spec i 6) as [->|]; cbn [negb]; [|lia]. case_match; lia. }
  assert (Hlong : pci_get_long c (pci_bar d i) = pci_get_long (config d) (pci_bar d i)).
  { unfold pci_get_long. f_equal. apply aread_same. intros j Hjr. apply Hj. unfold decoding. lia. }
  assert (Hcmd : ∀ k, 0 ≤ k < 8 → tst (pci_get_word c PCI_COMMAND) (2 ^ k) = tst (pci_get_word (config d) PCI_COMMAND) (2 ^ k)).
  { intros k Hk. pose proof (command_bit (set_config c d) k Hc ltac:(lia)) as E. cbn [set_config config] in E. rewrite E, command_bit by (try done; lia).
    rewrite Z.div_small by lia. rewrite Z.add_0_r. unfold PCI_COMMAND. by rewrite Hj by (unfold decoding; lia). }
  pose proof (Hcmd 0 ltac:(lia)) as Hio. pose proof (Hcmd 1 ltac:(lia)) as Hmem. change (2 ^ 0) with PCI_COMMAND_IO in Hio. change (2 ^ 1) with PCI_COMMAND_MEMORY in Hmem.
  unfold pci_bar_address. rewrite Hbar. cbn [set_config config]. rewrite Hio, Hmem, Hlong.
  destruct (tst ty PCI_BASE_ADDRESS_SPACE_IO) eqn:Eio; [done|]. destruct (tst ty PCI_BASE_ADDRESS_MEM_TYPE_64) eqn:E64; [|done].
  specialize (Hw eq_refl eq_refl).
  assert (Hquad : pci_get_quad c (pci_bar d i) = pci_get_quad (config d) (pci_bar d i)).
  { unfold pci_get_quad. f_equal. apply aread_same. intros j Hjr. apply Hj. unfold decoding. lia. }
  by rewrite Hquad.
Qed.

Lemma remap_config d c i :
  afits 8 (config d) → afits 8 c → bars_ok d → 0 ≤ i < PCI_NUM_REGIONS →
  (∀ j, decoding j → aget c j = aget (config d) j) → aget c PCI_HEADER_TYPE = aget (config d) PCI_HEADER_TYPE →
  remap (set_config c d) i = remap d i.
Proof.
  intros Hf Hc Hb Hi Hj Hh. unfold remap. change (region (set_config c d) i) with (region d i). cbv zeta. case_match; [done|].
  by rewrite bar_address_ext by (try done; intros; by eapply bo_wide).
Qed.

Lemma written_out addr val n d j : ¬ addr ≤ j < addr + Z.of_nat n → written addr val n d j = aget (config d) j.
Proof. intros Hj. unfold written. destruct (Z.leb_spec addr j), (Z.ltb_spec j (addr + Z.of_nat n)); try done; lia. Qed.

Lemma written_readonly addr val n d j : masks_ok d → aget (wmask d) j = 0 → aget (w1cmask d) j = 0 → written addr val n d j = aget (config d) j.
Proof.
  intros Hm H1 H2. unfold written. case_match; [|done]. rewrite H1, H2. unfold merge, clr. rewrite !Z.land_0_r, Z.lor_0_r.
  by rewrite !Z.land_m1_r.
Qed.

Lemma region_set_vga v d i : region (set_vga v d) i = region d i.
Proof. done. Qed.

(** The mapping step of a configuration write. *)
Definition sync (addr l : Z) (d : PCIDevice) : res PCIDevice := if touches_mappings addr l then pci_update_mappings d else Ok d.

Lemma sync_written d c addr val n :
  masks_ok d → maps_ok d → bars_ok d → synced d → afits 8 c → (∀ j, aget c j = written addr val n d j) →
  0 ≤ addr → addr + Z.of_nat n ≤ 2 ^ 32 →
  ∃ rs m v, sync addr (Z.of_nat n) (set_config c d) = Ok (set_vga v (set_regions rs m (set_config c d))) ∧
    let d' := set_vga v (set_regions rs m (set_config c d)) in
    maps_ok d' ∧ bars_ok d' ∧ synced d' ∧ ∀ i, 0 ≤ i < PCI_NUM_REGIONS → region d' i = remap (set_config c d) i.
Proof.
  intros Hm Hmap Hb Hs Hc Hw Ha Hn. unfold sync.
  assert (Hd : ∀ rs m v, (∀ i, 0 ≤ i < PCI_NUM_REGIONS → region (set_vga v (set_regions rs m (set_config c d))) i = remap (set_config c d) i) →
    bars_ok (set_vga v (set_regions rs m (set_config c d))) ∧ synced (set_vga v (set_regions rs m (set_config c d)))).
  { intros rs m v Hr. assert (Ht : ∀ i, 0 ≤ i < PCI_NUM_REGIONS → r_type (region (set_vga v (set_regions rs m (set_config c d))) i) = r_type (region d i) ∧ r_size (region (set_vga v (set_regions rs m (set_config c d))) i) = r_size (region d i)).
    { intros i Hi. rewrite Hr by done. unfold remap. change (region (set_config c d) i) with (region d i). cbv zeta. by case_match. }
    split; [split|].
    - intros i Hi. rewrite (proj1 (Ht i Hi)). by apply bo_wide.
    - apply Hb.
    - intros i Hi. rewrite Hr at 1 by done. unfold remap at 2. cbv zeta. rewrite (proj1 (Ht i Hi)), (proj2 (Ht i Hi)).
      rewrite Hr by done. unfold remap. change (region (set_config c d) i) with (region d i). cbv zeta. by case_match. }
  destruct (touches_mappings addr (Z.of_nat n)) eqn:E.
  - destruct (pci_update_mappings_spec (set_config c d)) as (rs & m & v & E1 & Hm1 & Hr1); [done|].
    exists rs, m, v. split; [done|]. cbv zeta. destruct (Hd rs m v Hr1). done.
  - exists (io_regions d), (mapped d), (vga d). split; [by destruct d|]. cbv zeta.
    assert (Hr : ∀ i, 0 ≤ i < PCI_NUM_REGIONS → region (set_vga (vga d) (set_regions (io_regions d) (mapped d) (set_config c d))) i = remap (set_config c d) i).
    { intros i Hi. change (region (set_vga (vga d) (set_regions (io_regions d) (mapped d) (set_config c d))) i) with (region d i).
      rewrite remap_config; [by apply Hs|apply Hm|done|done|done| |].
      - intros j Hj. rewrite Hw. apply written_out. by apply untouched.
      - rewrite Hw. apply written_readonly; [done|apply Hb|apply Hm; unfold PCI_STATUS, PCI_HEADER_TYPE, PCI_CONFIG_HEADER_SIZE; lia]. }
    destruct (Hd _ _ _ Hr). split; [|done]. intros i Hi. apply (Hmap i Hi).
Qed.

Lemma masks_config d c : masks_ok d → afits 8 c → masks_ok (set_config c d).
Proof. intros [] Hc. by split. Qed.

End Pci.
