(* ===== verification/PciBus.v ===== *)
(** PCI buses (hw/pci/pci.c): devices on buses and bridges, the interrupt pins of the devices, how
    they are routed to the interrupt lines of a host bridge, the counters that make each line the
    logical or of the pins routed to it; configuration writes, reset and migration of a device on
    its bus.  Devices and buses are named by their addresses.  What runs after a configuration write
    for message-signalled interrupts is the record [MsiOps] with the laws [MsiLaws]; the reset
    handler of the device is a parameter. *)

From S2P Require Import Prelude Pci VMState.
Import Pci.

Module PciBus.

(** ** State *)

(** A bus: how a pin of a device (given by its slot and function) maps to a line of the bus; whether
    the bus drives the lines itself ([set_irq]) or through the device it hangs from; the devices by
    [devfn]; the buses behind its bridges; the counters; and the levels last given to the host through [set_irq]. *)
Record PCIBus : Type := mkBus {
  devfn_min : Z;
  set_irq : bool;
  map_irq : Z → Z → Z;
  devices : gmap Z Z;
  child : list Z;
  parent_dev : option Z;
  nirq : Z;
  irq_count : arr;
  host_irq : gmap Z bool;
}.
Definition set_irq_count (c : arr) (h : gmap Z bool) (b : PCIBus) : PCIBus :=
  mkBus (devfn_min b) (set_irq b) (map_irq b) (devices b) (child b) (parent_dev b) (nirq b) c h.
Definition set_devices (m : gmap Z Z) (b : PCIBus) : PCIBus :=
  mkBus (devfn_min b) (set_irq b) (map_irq b) m (child b) (parent_dev b) (nirq b) (irq_count b) (host_irq b).

(** [sent] are the interrupt messages the devices wrote to memory, with address and data, in order. *)
Record PciSys : Type := mkSys {
  devs : gmap Z PCIDevice;
  buses : gmap Z PCIBus;
  sent : list (Z * Z);
}.
Definition get_dev (a : Z) (s : PciSys) : res PCIDevice :=
  match devs s !! a with Some d => Ok d | None => Fault NullDeref end.
Definition get_bus (b : Z) (s : PciSys) : res PCIBus :=
  match buses s !! b with Some x => Ok x | None => Fault NullDeref end.
Definition put_dev (a : Z) (d : PCIDevice) (s : PciSys) : PciSys := mkSys (<[a := d]> (devs s)) (buses s) (sent s).
Definition put_bus (b : Z) (x : PCIBus) (s : PciSys) : PciSys := mkSys (devs s) (<[b := x]> (buses s)) (sent s).

Definition PCI_SLOT (devfn : Z) : Z := Z.land (Z.shiftr devfn 3) 0x1f.
Definition PCI_FUNC (devfn : Z) : Z := Z.land devfn 0x07.
Definition PCI_DEVFN (slot func : Z) : Z := Z.lor (Z.shiftl (Z.land slot 0x1f) 3) (Z.land func 0x07).
Definition PCI_DEVICES : Z := 256.

Definition pins : list Z := [0; 1; 2; 3].

(** ** Interrupts *)

Definition pci_irq_state (d : PCIDevice) (irq_num : Z) : Z := Z.land (Z.shiftr (irq_state d) irq_num) 1.
Definition pci_set_irq_state (irq_num level : Z) (d : PCIDevice) : PCIDevice :=
  let s := u8 (clr (irq_state d) (Z.shiftl 1 irq_num)) in
  set_irqs (u8 (Z.lor s (Z.shiftl level irq_num))) d.

(** The walk of [pci_change_irq_level] up to a bus that drives its lines. *)
Fixpoint irq_route (fuel : nat) (a irq_num : Z) (s : PciSys) : res (Z * Z) :=
  match fuel with
  | O => Diverge
  | S fuel =>
      d ← get_dev a s;
      b ← get_bus (bus d) s;
      let irq_num := map_irq b (devfn d) irq_num in
      if set_irq b then Ok (bus d, irq_num)
      else match parent_dev b with Some p => irq_route fuel p irq_num s | None => Fault NullDeref end
  end.
Definition pci_change_irq_level (fuel : nat) (a irq_num change : Z) (s : PciSys) : res PciSys :=
  '(b, irq_num) ← irq_route fuel a irq_num s;
  x ← get_bus b s;
  if negb ((0 <=? irq_num) && (irq_num <? nirq x)) then Fault OutOfBounds
  else
    let n := s32 (aget (irq_count x) irq_num + change) in
    Ok (put_bus b (set_irq_count (aset (irq_count x) irq_num n) (<[irq_num := negb (n =? 0)]> (host_irq x)) x) s).

Definition pci_bus_get_irq_level (b irq_num : Z) (s : PciSys) : res bool :=
  x ← get_bus b s;
  if negb ((0 <=? irq_num) && (irq_num <? nirq x)) then Fault AssertFail
  else Ok (negb (aget (irq_count x) irq_num =? 0)).

Definition pci_update_irq_status (d : PCIDevice) : PCIDevice :=
  let st := aget (config d) PCI_STATUS in
  set_config (aset (config d) PCI_STATUS
    (if negb (irq_state d =? 0) then Z.lor st PCI_STATUS_INTERRUPT else clr st PCI_STATUS_INTERRUPT)) d.

Definition pci_irq_handler (fuel : nat) (a irq_num level : Z) (s : PciSys) : res PciSys :=
  d ← get_dev a s;
  let change := level - pci_irq_state d irq_num in
  if change =? 0 then Ok s
  else
    let d := pci_update_irq_status (pci_set_irq_state irq_num level d) in
    let s := put_dev a d s in
    if pci_irq_disabled d then Ok s else pci_change_irq_level fuel a irq_num change s.

Definition pci_intx (d : PCIDevice) : Z := pci_get_byte (config d) PCI_INTERRUPT_PIN - 1.
(** The pin number is used as a shift of an [int]: a device without a pin must not call it. *)
Definition pci_set_irq (fuel : nat) (a level : Z) (s : PciSys) : res PciSys :=
  d ← get_dev a s;
  if negb ((0 <=? pci_intx d) && (pci_intx d <? 32)) then Fault OutOfBounds else pci_irq_handler fuel a (pci_intx d) level s.

Fixpoint deassert_loop (l : list Z) (fuel : nat) (a : Z) (s : PciSys) : res PciSys :=
  match l with [] => Ok s | i :: l => s ← pci_irq_handler fuel a i 0 s; deassert_loop l fuel a s end.
Definition pci_device_deassert_intx (fuel : nat) (a : Z) (s : PciSys) : res PciSys := deassert_loop pins fuel a s.

Fixpoint irq_disabled_loop (l : list Z) (fuel : nat) (a : Z) (d : PCIDevice) (disabled : bool) (s : PciSys) : res PciSys :=
  match l with
  | [] => Ok s
  | i :: l =>
      let state := pci_irq_state d i in
      s ← pci_change_irq_level fuel a i (if disabled then - state else state) s;
      irq_disabled_loop l fuel a d disabled s
  end.
Definition pci_update_irq_disabled (fuel : nat) (a : Z) (was_irq_disabled : bool) (s : PciSys) : res PciSys :=
  d ← get_dev a s;
  let disabled := pci_irq_disabled d in
  if Bool.eqb disabled was_irq_disabled then Ok s else irq_disabled_loop pins fuel a d disabled s.

Definition pci_swizzle_map_irq_fn (devfn pin : Z) : Z := (pin + PCI_SLOT devfn) mod PCI_NUM_PINS.

(** ** Configuration writes *)

Definition update_bus_master (d : PCIDevice) : PCIDevice :=
  set_bus_master (tst (pci_get_word (config d) PCI_COMMAND) PCI_COMMAND_MASTER) d.

(** The part of [pci_default_write_config] before the hooks of msi.c and msix.c. *)
Definition config_write (fuel : nat) (a addr val l : Z) (s : PciSys) : res PciSys :=
  d ← get_dev a s;
  let was_irq_disabled := pci_irq_disabled d in
  d ← write_config_loop (Z.to_nat l) addr val d;
  d ← (if touches_mappings addr l then pci_update_mappings d else Ok d);
  let s := put_dev a d s in
  if range_covers_byte addr l PCI_COMMAND then
    s ← pci_update_irq_disabled fuel a was_irq_disabled s;
    d ← get_dev a s;
    Ok (put_dev a (update_bus_master d) s)
  else Ok s.

(** What msi.c and msix.c do on a configuration write of device [a], and on reset; [msi_ok] is what
    they keep of the capability of a device, and [msix_idle] says for which devices the second does
    nothing.  Msi implements the first part; Msix runs the second one after it. *)
Record MsiOps : Type := mkMsi {
  msi_write_config : nat → Z → Z → Z → Z → PciSys → res PciSys;
  msix_write_config : nat → Z → Z → Z → Z → PciSys → res PciSys;
  msi_reset : PCIDevice → PCIDevice;
  msix_reset : PCIDevice → PCIDevice;
  msi_ok : PCIDevice → Prop;
  msix_idle : PCIDevice → Prop;
}.

Section Device.
Context (msi : MsiOps).

(** The hooks get what is left of [val] after the loop shifted it. *)
Definition pci_default_write_config (fuel : nat) (a addr val l : Z) (s : PciSys) : res PciSys :=
  s ← config_write fuel a addr val l s;
  let rest := Z.shiftr (u32 val) (8 * Z.max l 0) in
  s ← msi_write_config msi fuel a addr rest l s;
  msix_write_config msi fuel a addr rest l s.

(** ** Reset *)

(** [reset] is the device's own reset handler ([qdev_reset_all]). *)
Context (reset : Z → PciSys → res PciSys).

Definition reset_bar (d : PCIDevice) (r : Z) : PCIDevice :=
  let region := region d r in
  if r_size region =? 0 then d
  else if negb (tst (r_type region) PCI_BASE_ADDRESS_SPACE_IO) && tst (r_type region) PCI_BASE_ADDRESS_MEM_TYPE_64
  then set_config (pci_set_quad (config d) (pci_bar d r) (r_type region)) d
  else set_config (pci_set_long (config d) (pci_bar d r) (r_type region)) d.

Definition clear_writable (o : Z) (d : PCIDevice) : PCIDevice :=
  set_config (pci_word_test_and_clear_mask (config d) o
    (Z.lor (pci_get_word (wmask d) o) (pci_get_word (w1cmask d) o))) d.

(** The writable bits, the cache line size, the interrupt line and the base address registers. *)
Definition reset_registers (d : PCIDevice) : PCIDevice :=
  let d := clear_writable PCI_STATUS (clear_writable PCI_COMMAND d) in
  let d := set_config (aset (aset (config d) PCI_CACHE_LINE_SIZE 0) PCI_INTERRUPT_LINE 0) d in
  foldl reset_bar d (seqZ 0 PCI_NUM_REGIONS).

Definition pci_device_reset (fuel : nat) (a : Z) (s : PciSys) : res PciSys :=
  s ← reset a s;
  d ← get_dev a s;
  let s := put_dev a (pci_update_irq_status (set_irqs 0 d)) s in
  s ← pci_device_deassert_intx fuel a s;
  d ← get_dev a s;
  d ← pci_update_mappings (reset_registers d);
  Ok (put_dev a (msix_reset msi (msi_reset msi d)) s).

Fixpoint bus_reset_loop (l : list Z) (fuel : nat) (s : PciSys) : res PciSys :=
  match l with [] => Ok s | a :: l => s ← pci_device_reset fuel a s; bus_reset_loop l fuel s end.
(** The devices in the order of their [devfn]. *)
Definition bus_devices (x : PCIBus) : list Z := omap (λ f, devices x !! f) (seqZ 0 PCI_DEVICES).
Definition pci_bus_reset (fuel : nat) (b : Z) (s : PciSys) : res PciSys :=
  x ← get_bus b s;
  let s := put_bus b (set_irq_count (foldl (λ c i, aset c i 0) (irq_count x) (seqZ 0 (nirq x))) (host_irq x) x) s in
  bus_reset_loop (bus_devices x) fuel s.
End Device.

(** ** Counting pins *)

(** Pin [p] of the device is asserted and not disabled. *)
Definition asserted (d : PCIDevice) (p : Z) : Z := if pci_irq_disabled d then 0 else pci_irq_state d p.

Definition hits (fuel : nat) (s : PciSys) (a p b irq : Z) : bool :=
  match irq_route fuel a p s with Ok r => bool_decide (r = (b, irq)) | _ => false end.

Definition sum_pins (f : Z → Z) : Z := foldr (λ p n, f p + n) 0 pins.

(** How many pins of device [a] drive line [irq] of bus [b], and how many of all devices. *)
Definition contrib (fuel : nat) (s : PciSys) (b irq a : Z) (d : PCIDevice) : Z :=
  sum_pins (λ p, if hits fuel s a p b irq then asserted d p else 0).
Definition pin_count (fuel : nat) (s : PciSys) (b irq : Z) : Z :=
  map_fold (λ a d n, contrib fuel s b irq a d + n) 0 (devs s).

(** ** Topology *)

Definition dev_place (d : PCIDevice) : Z * Z := (bus d, devfn d).
Definition bus_place (x : PCIBus) : bool * (Z → Z → Z) * option Z * Z * gmap Z Z * list Z :=
  (set_irq x, map_irq x, parent_dev x, nirq x, devices x, child x).
Definition same_topology (s s' : PciSys) : Prop :=
  (∀ a, dev_place <$> devs s' !! a = dev_place <$> devs s !! a) ∧
  (∀ b, bus_place <$> buses s' !! b = bus_place <$> buses s !! b).

Lemma same_topology_refl s : same_topology s s.
Proof. done. Qed.
Lemma same_topology_trans s1 s2 s3 : same_topology s1 s2 → same_topology s2 s3 → same_topology s1 s3.
Proof. intros [D1 B1] [D2 B2]. split; intros; [by rewrite D2|by rewrite B2]. Qed.

Lemma irq_route_ext fuel a p s s' : same_topology s s' → irq_route fuel a p s' = irq_route fuel a p s.
Proof.
  intros [Hd Hb]. revert a p. induction fuel as [|fuel IH]; intros a p; [done|]. cbn [irq_route]. unfold get_dev, get_bus.
  specialize (Hd a). destruct (devs s !! a) as [d|], (devs s' !! a) as [d'|]; try done. cbn in Hd. injection Hd as Hbus Hdf.
  cbn [mbind res_bind]. rewrite Hbus, Hdf. specialize (Hb (bus d)). destruct (buses s !! bus d) as [x|], (buses s' !! bus d) as [x'|]; try done.
  cbn in Hb. injection Hb as E1 E2 E3 _ _ _. cbn [mbind res_bind]. rewrite E1, E2, E3. destruct (set_irq x); [done|]. by destruct (parent_dev x).
Qed.
Lemma hits_ext fuel s s' a p b irq : same_topology s s' → hits fuel s' a p b irq = hits fuel s a p b irq.
Proof. intros Ht. unfold hits. by rewrite (irq_route_ext fuel a p s s' Ht). Qed.
Lemma contrib_ext fuel s s' b irq a d : same_topology s s' → contrib fuel s' b irq a d = contrib fuel s b irq a d.
Proof. intros Ht. unfold contrib, sum_pins, pins. cbn [foldr]. by rewrite !(hits_ext fuel s s') by done. Qed.

Lemma put_dev_topology a d d' s :
  devs s !! a = Some d → dev_place d' = dev_place d → same_topology s (put_dev a d' s).
Proof.
  intros Ha Hp. split; [|done]. intros a'. cbn. destruct (decide (a = a')) as [<-|]; [by rewrite lookup_insert_eq, Ha; cbn; rewrite Hp|by rewrite lookup_insert_ne].
Qed.
Lemma put_bus_topology b x x' s :
  buses s !! b = Some x → bus_place x' = bus_place x → same_topology s (put_bus b x' s).
Proof.
  intros Hb Hp. split; [done|]. intros b'. cbn. destruct (decide (b = b')) as [<-|]; [by rewrite lookup_insert_eq, Hb; cbn; rewrite Hp|by rewrite lookup_insert_ne].
Qed.

(** ** Sums over the devices *)

Lemma fold_insert {A} (f : Z → A → Z) a x (m : gmap Z A) :
  m !! a = None → map_fold (λ a d n, f a d + n) 0 (<[a := x]> m) = f a x + map_fold (λ a d n, f a d + n) 0 m.
Proof. intros Ha. rewrite (map_fold_insert_L (λ a d n, f a d + n)); [done| |done]. intros. lia. Qed.

Lemma fold_replace {A} (f : Z → A → Z) a x y (m : gmap Z A) :
  m !! a = Some x →
  map_fold (λ a d n, f a d + n) 0 (<[a := y]> m) = map_fold (λ a d n, f a d + n) 0 m - f a x + f a y.
Proof.
  intros Ha. rewrite <-insert_delete_eq, fold_insert by apply lookup_delete_eq.
  rewrite <-(insert_delete_id m a x Ha) at 2. rewrite fold_insert by apply lookup_delete_eq. lia.
Qed.

Lemma fold_ext {A} (f g : Z → A → Z) (m : gmap Z A) :
  (∀ a x, m !! a = Some x → f a x = g a x) → map_fold (λ a d n, f a d + n) 0 m = map_fold (λ a d n, g a d + n) 0 m.
Proof.
  induction m as [|a x m Ha IH] using map_ind; intros Hfg; [done|]. rewrite !fold_insert by done.
  rewrite (Hfg a x) by apply lookup_insert_eq. rewrite IH; [done|]. intros a' x' Hx. apply Hfg. rewrite lookup_insert_ne; [done|]. congruence.
Qed.

Lemma fold_bound {A} (f : Z → A → Z) c (m : gmap Z A) :
  (∀ a x, m !! a = Some x → 0 ≤ f a x ≤ c) → 0 ≤ map_fold (λ a d n, f a d + n) 0 m ≤ c * Z.of_nat (size m).
Proof.
  induction m as [|a x m Ha IH] using map_ind; intros Hf.
  { rewrite map_fold_empty, map_size_empty. lia. }
  rewrite fold_insert by done. rewrite map_size_insert_None by done. pose proof (Hf a x ltac:(apply lookup_insert_eq)).
  specialize (IH ltac:(intros a' x' Hx; apply (Hf a'); rewrite lookup_insert_ne; [done|congruence])). lia.
Qed.

Lemma irq_state_bit d p : 0 ≤ p → pci_irq_state d p = Z.b2z (Z.testbit (irq_state d) p).
Proof. intros Hp. unfold pci_irq_state. rewrite Z.testbit_spec', Z.shiftr_div_pow2, (Z.land_ones _ 1) by lia. done. Qed.
Lemma asserted_bound d p : 0 ≤ p → 0 ≤ asserted d p ≤ 1.
Proof. intros Hp. unfold asserted. destruct (pci_irq_disabled d); [lia|]. rewrite irq_state_bit by done. by destruct (Z.testbit _ p); cbn. Qed.
Lemma contrib_bound fuel s b irq a d : 0 ≤ contrib fuel s b irq a d ≤ 4.
Proof.
  unfold contrib, sum_pins, pins. cbn [foldr].
  pose proof (asserted_bound d 0 ltac:(lia)). pose proof (asserted_bound d 1 ltac:(lia)).
  pose proof (asserted_bound d 2 ltac:(lia)). pose proof (asserted_bound d 3 ltac:(lia)). repeat case_match; lia.
Qed.
Lemma pin_count_bound fuel s b irq : 0 ≤ pin_count fuel s b irq ≤ 4 * Z.of_nat (size (devs s)).
Proof. apply fold_bound. intros. apply contrib_bound. Qed.

Lemma pin_count_ext fuel s s' b irq :
  same_topology s s' → devs s' = devs s → pin_count fuel s' b irq = pin_count fuel s b irq.
Proof. intros Ht Hd. unfold pin_count. rewrite Hd. apply fold_ext. intros. by apply contrib_ext. Qed.

(** Replacing a device changes the count by the difference of its contributions. *)
Lemma pin_count_put fuel s a d d' b irq :
  devs s !! a = Some d → dev_place d' = dev_place d →
  pin_count fuel (put_dev a d' s) b irq = pin_count fuel s b irq - contrib fuel s b irq a d + contrib fuel s b irq a d'.
Proof.
  intros Ha Hp. pose proof (put_dev_topology a d d' s Ha Hp) as Ht. unfold pin_count.
  rewrite (fold_ext _ (contrib fuel s b irq)) by (intros; by apply contrib_ext). cbn [put_dev devs].
  by rewrite (fold_replace _ a d d').
Qed.

(** ** The invariant of the interrupt lines *)

(** Every pin ends on a line of a bus that drives its lines; the counter of a line is the number
    of pins that drive it, up to a debt; and the host saw each line as its counter says.  The last
    bound keeps the counters far from the ends of an [int]. *)
Record counts (fuel : nat) (s : PciSys) (debt : Z → Z → Z) : Prop := {
  ct_route : ∀ a d p, devs s !! a = Some d → p ∈ pins →
    ∃ b irq x, irq_route fuel a p s = Ok (b, irq) ∧ buses s !! b = Some x ∧ set_irq x = true ∧ 0 ≤ irq < nirq x;
  ct_count : ∀ b x irq, buses s !! b = Some x → set_irq x = true → 0 ≤ irq < nirq x →
    aget (irq_count x) irq + debt b irq = pin_count fuel s b irq;
  ct_lines : ∀ b x irq, buses s !! b = Some x → set_irq x = true → 0 ≤ irq < nirq x →
    default false (host_irq x !! irq) = negb (aget (irq_count x) irq =? 0);
  ct_size : 4 * Z.of_nat (size (devs s)) + 8 < 2 ^ 31;
}.
Definition no_debt (b irq : Z) : Z := 0.
Definition counts_ok (fuel : nat) (s : PciSys) : Prop := counts fuel s no_debt.

Lemma counts_debt fuel s δ δ' : (∀ b irq, δ b irq = δ' b irq) → counts fuel s δ → counts fuel s δ'.
Proof. intros E [? Hc ? ?]. split; [done| |done|done]. intros b x irq Hb Hs Hi. rewrite <-E. by apply Hc. Qed.

(** Changing the level of a pin pays the debt of its line. *)
Lemma pci_change_irq_level_counts fuel s δ a d p change :
  counts fuel s δ → devs s !! a = Some d → p ∈ pins →
  (∀ b irq, -8 ≤ δ b irq - (if hits fuel s a p b irq then change else 0) ≤ 8) →
  ∃ s', pci_change_irq_level fuel a p change s = Ok s' ∧ devs s' = devs s ∧ same_topology s s' ∧
        counts fuel s' (λ b irq, δ b irq - if hits fuel s a p b irq then change else 0).
Proof.
  intros Hk Ha Hp Hd. destruct (ct_route _ _ _ Hk a d p Ha Hp) as (b & irq & x & Hr & Hb & Hs & Hi).
  unfold pci_change_irq_level. rewrite Hr. cbn [mbind res_bind]. unfold get_bus. rewrite Hb. cbn [mbind res_bind].
  assert (Hin : (0 <=? irq) && (irq <? nirq x) = true) by (apply andb_true_iff; split; [apply Z.leb_le|apply Z.ltb_lt]; lia).
  rewrite Hin. cbn [negb]. eexists. split; [reflexivity|]. split; [done|].
  assert (Ht : ∀ c h, same_topology s (put_bus b (set_irq_count c h x) s)) by (intros; by eapply put_bus_topology).
  split; [apply Ht|].
  assert (Hhit : hits fuel s a p b irq = true) by (unfold hits; rewrite Hr; by apply bool_decide_eq_true_2).
  assert (Hn : s32 (aget (irq_count x) irq + change) = aget (irq_count x) irq + change).
  { apply s32_small. pose proof (ct_count _ _ _ Hk b x irq Hb Hs Hi). pose proof (pin_count_bound fuel s b irq).
    pose proof (ct_size _ _ _ Hk). specialize (Hd b irq). rewrite Hhit in Hd. lia. }
  rewrite Hn. split.
  - intros a' d' p' Ha' Hp'. destruct (ct_route _ _ _ Hk a' d' p' Ha' Hp') as (b' & irq' & x' & Hr' & Hb' & Hs' & Hi').
    exists b', irq'. rewrite (irq_route_ext _ _ _ s) by apply Ht. cbn [put_bus buses].
    destruct (decide (b = b')) as [<-|Hne]; [rewrite lookup_insert_eq|rewrite lookup_insert_ne by done; eauto].
    rewrite Hb in Hb'. simplify_eq. eauto.
  - intros b' x' irq' Hb' Hs' Hi'. rewrite (pin_count_ext fuel s) by (try apply Ht; done). cbn [put_bus buses] in Hb'.
    unfold hits. rewrite Hr. destruct (decide (b = b')) as [<-|Hne].
    + rewrite lookup_insert_eq in Hb'. simplify_eq. cbn [set_irq_count irq_count nirq] in *. pose proof (ct_count _ _ _ Hk b x irq' Hb Hs Hi').
      destruct (decide (irq = irq')) as [<-|Hni].
      * rewrite bool_decide_eq_true_2 by done. rewrite aget_aset_eq. lia.
      * rewrite bool_decide_eq_false_2 by congruence. rewrite aget_aset_ne by done. lia.
    + rewrite lookup_insert_ne in Hb' by done. rewrite bool_decide_eq_false_2 by congruence. pose proof (ct_count _ _ _ Hk b' x' irq' Hb' Hs' Hi'). lia.
  - intros b' x' irq' Hb' Hs' Hi'. cbn [put_bus buses] in Hb'. destruct (decide (b = b')) as [<-|Hne].
    + rewrite lookup_insert_eq in Hb'. simplify_eq. cbn [set_irq_count irq_count host_irq nirq] in *.
      destruct (decide (irq = irq')) as [<-|Hni]; [by rewrite lookup_insert_eq, aget_aset_eq|].
      rewrite lookup_insert_ne, aget_aset_ne by done. by apply (ct_lines _ _ _ Hk b).
    + rewrite lookup_insert_ne in Hb' by done. by apply (ct_lines _ _ _ Hk b').
  - apply (ct_size _ _ _ Hk).
Qed.

(** Changing a device in place incurs the difference of its contributions. *)
Lemma put_dev_counts fuel s δ a d d' :
  counts fuel s δ → devs s !! a = Some d → dev_place d' = dev_place d →
  counts fuel (put_dev a d' s) (λ b irq, δ b irq - contrib fuel s b irq a d + contrib fuel s b irq a d').
Proof.
  intros Hk Ha Hp. pose proof (put_dev_topology a d d' s Ha Hp) as Ht. split.
  - intros a' d'' p Ha' Hp'. rewrite (irq_route_ext _ _ _ s) by done. cbn [put_dev devs] in Ha'.
    destruct (decide (a = a')) as [<-|Hne]; [by eapply (ct_route _ _ _ Hk)|]. rewrite lookup_insert_ne in Ha' by done. by eapply (ct_route _ _ _ Hk).
  - intros b x irq Hb Hs Hi. rewrite (pin_count_put _ _ _ d) by done. pose proof (ct_count _ _ _ Hk b x irq Hb Hs Hi). lia.
  - apply (ct_lines _ _ _ Hk).
  - cbn [put_dev devs]. rewrite map_size_insert_Some by eauto. apply (ct_size _ _ _ Hk).
Qed.
Lemma put_dev_quiet fuel s δ a d d' :
  counts fuel s δ → devs s !! a = Some d → dev_place d' = dev_place d → (∀ p, p ∈ pins → asserted d' p = asserted d p) →
  counts fuel (put_dev a d' s) δ.
Proof.
  intros Hk Ha Hp He. eapply counts_debt; [|by eapply (put_dev_counts fuel s δ a d d')]. intros b irq. cbv beta.
  assert (contrib fuel s b irq a d' = contrib fuel s b irq a d); [|lia]. unfold contrib, sum_pins, pins. cbn [foldr].
  by rewrite !He by (unfold pins; set_solver).
Qed.

(** ** Raising and lowering a pin *)

Lemma in_pins p : p ∈ pins ↔ 0 ≤ p < 4.
Proof. unfold pins. rewrite !elem_of_cons. split; [intros [->|[->|[->|[->|[]%not_elem_of_nil]]]]; lia|]. intros. assert (p = 0 ∨ p = 1 ∨ p = 2 ∨ p = 3) by lia. tauto. Qed.

Lemma get_word_aset (c : arr) j o v : j ≠ o → j ≠ o + 1 → pci_get_word (aset c j v) o = pci_get_word c o.
Proof. intros H1 H2. unfold pci_get_word, aread. cbn [seqZ]. f_equal. apply map_ext_in. intros k Hk. apply aget_aset_ne. apply in_seq in Hk. lia. Qed.

Lemma pci_update_irq_status_irqs d : irq_state (pci_update_irq_status d) = irq_state d.
Proof. done. Qed.
Lemma pci_update_irq_status_disabled d : pci_irq_disabled (pci_update_irq_status d) = pci_irq_disabled d.
Proof. unfold pci_irq_disabled, pci_update_irq_status. cbn [set_config config]. by rewrite get_word_aset. Qed.

Lemma pci_set_irq_state_spec d p q level :
  p ∈ pins → q ∈ pins → level = 0 ∨ level = 1 →
  pci_irq_state (pci_set_irq_state p level d) q = if p =? q then level else pci_irq_state d q.
Proof.
  rewrite !in_pins. intros Hp Hq Hl. rewrite !irq_state_bit by lia. unfold pci_set_irq_state. cbn [set_irqs irq_state].
  unfold u8. rewrite Z.mod_pow2_bits_low, Z.lor_spec, Z.mod_pow2_bits_low by lia. unfold clr.
  rewrite Z.land_spec, Z.lnot_spec, !Z.shiftl_spec by lia. destruct (Z.eqb_spec p q) as [<-|Hne].
  - rewrite Z.sub_diag. destruct Hl as [->| ->]; cbn; by rewrite ?andb_false_r, ?orb_true_r.
  - assert (H1 : Z.testbit 1 (q - p) = false).
    { destruct (Z.lt_ge_cases (q - p) 0); [by apply Z.testbit_neg_r|]. change 1 with (2 ^ 0). apply Z.pow2_bits_false. lia. }
    assert (H0 : Z.testbit level (q - p) = false) by (destruct Hl as [->| ->]; [apply Z.bits_0|done]).
    rewrite H1, H0. cbn [negb]. by rewrite andb_true_r, orb_false_r.
Qed.

(** Moving one pin changes the contribution to the line the pin is routed to. *)
Lemma contrib_move fuel s a d d' p change :
  p ∈ pins → (∀ q, q ∈ pins → asserted d' q = asserted d q + if p =? q then change else 0) →
  ∀ b irq, contrib fuel s b irq a d' = contrib fuel s b irq a d + if hits fuel s a p b irq then change else 0.
Proof.
  intros Hp Hd b irq. unfold contrib, sum_pins, pins. cbn [foldr]. rewrite !Hd by (apply in_pins; lia). clear Hd.
  apply in_pins in Hp. assert (p = 0 ∨ p = 1 ∨ p = 2 ∨ p = 3) as [->|[->|[->| ->]]] by lia; cbn [Z.eqb Pos.eqb];
  destruct (hits fuel s a 0 b irq), (hits fuel s a 1 b irq), (hits fuel s a 2 b irq), (hits fuel s a 3 b irq); lia.
Qed.

Definition moved (p level : Z) (d : PCIDevice) : PCIDevice :=
  if level =? pci_irq_state d p then d else pci_update_irq_status (pci_set_irq_state p level d).

Lemma moved_state d p q level :
  p ∈ pins → q ∈ pins → level = 0 ∨ level = 1 → pci_irq_state (moved p level d) q = if p =? q then level else pci_irq_state d q.
Proof.
  intros Hp Hq Hl. unfold moved. destruct (Z.eqb_spec level (pci_irq_state d p)) as [E|E]; [|by apply pci_set_irq_state_spec].
  by destruct (Z.eqb_spec p q) as [<-|].
Qed.
Lemma moved_disabled d p level : pci_irq_disabled (moved p level d) = pci_irq_disabled d.
Proof. unfold moved. destruct (level =? _); [done|]. by rewrite pci_update_irq_status_disabled. Qed.
Lemma moved_place d p level : dev_place (moved p level d) = dev_place d.
Proof. unfold moved. by destruct (level =? _). Qed.

Lemma pci_irq_handler_counts fuel s a d p level :
  counts_ok fuel s → devs s !! a = Some d → p ∈ pins → level = 0 ∨ level = 1 →
  ∃ s', pci_irq_handler fuel a p level s = Ok s' ∧ counts_ok fuel s' ∧ same_topology s s' ∧
        devs s' = <[a := moved p level d]> (devs s).
Proof.
  intros Hk Ha Hp Hl. unfold pci_irq_handler, get_dev. rewrite Ha. cbn [mbind res_bind].
  destruct (Z.eqb_spec (level - pci_irq_state d p) 0) as [E|E].
  { exists s. split; [done|]. split; [done|]. split; [apply same_topology_refl|]. unfold moved.
    rewrite (proj2 (Z.eqb_eq _ _)) by lia. by rewrite insert_id. }
  assert (Em : pci_update_irq_status (pci_set_irq_state p level d) = moved p level d) by (unfold moved; by rewrite (proj2 (Z.eqb_neq _ _)) by lia).
  rewrite Em, moved_disabled. set (d' := moved p level d). assert (Hpl : dev_place d' = dev_place d) by apply moved_place.
  pose proof (put_dev_topology a d d' s Ha Hpl) as Ht. pose proof (λ q Hq, moved_state d p q level Hp Hq Hl) as Hs. fold d' in Hs.
  destruct (pci_irq_disabled d) eqn:Hdis.
  - eexists. split; [reflexivity|]. split; [|done]. eapply put_dev_quiet; [done..|]. intros q Hq. unfold asserted. unfold d'. rewrite moved_disabled. by rewrite Hdis.
  - assert (Hc : ∀ b irq, contrib fuel s b irq a d' = contrib fuel s b irq a d + if hits fuel s a p b irq then level - pci_irq_state d p else 0).
    { apply contrib_move; [done|]. intros q Hq. unfold asserted. unfold d' at 1. rewrite moved_disabled, Hdis, Hs by done.
      destruct (Z.eqb_spec p q) as [<-|]; lia. }
    assert (Hst : 0 ≤ pci_irq_state d p ≤ 1). { apply in_pins in Hp. rewrite irq_state_bit by lia. destruct (Z.testbit _ _); cbn; lia. }
    destruct (pci_change_irq_level_counts fuel (put_dev a d' s) (λ b irq, if hits fuel s a p b irq then level - pci_irq_state d p else 0) a d' p (level - pci_irq_state d p))
      as (s' & Es & Hd' & Ht' & Hk').
    + eapply counts_debt; [|by eapply put_dev_counts]. intros b irq. cbv beta. rewrite Hc. unfold no_debt. lia.
    + cbn. by rewrite lookup_insert_eq.
    + done.
    + intros b irq. rewrite (hits_ext fuel s (put_dev a d' s)) by done. destruct (hits fuel s a p b irq); lia.
    + rewrite Es. exists s'. split; [done|]. split; [|split; [by eapply same_topology_trans|done]].
      eapply counts_debt; [|exact Hk']. intros b irq. cbv beta. rewrite (hits_ext fuel s (put_dev a d' s)) by done. unfold no_debt. lia.
Qed.

Lemma deassert_loop_counts l fuel s a d :
  counts_ok fuel s → devs s !! a = Some d → (∀ p, p ∈ l → p ∈ pins) →
  ∃ s' d', deassert_loop l fuel a s = Ok s' ∧ counts_ok fuel s' ∧ same_topology s s' ∧ devs s' = <[a := d']> (devs s) ∧
    ∀ q, q ∈ pins → pci_irq_state d' q = if bool_decide (q ∈ l) then 0 else pci_irq_state d q.
Proof.
  revert s d. induction l as [|p l IH]; intros s d Hk Ha Hl; cbn [deassert_loop].
  { exists s, d. rewrite insert_id by done. split; [done|]. split; [done|]. split; [apply same_topology_refl|]. done. }
  destruct (pci_irq_handler_counts fuel s a d p 0 Hk Ha ltac:(apply Hl; by left) ltac:(by left)) as (s1 & E1 & Hk1 & Ht1 & Hd1).
  rewrite E1. cbn [mbind res_bind].
  destruct (IH s1 (moved p 0 d) Hk1) as (s2 & d2 & E2 & Hk2 & Ht2 & Hd2 & Hs2).
  { rewrite Hd1. apply lookup_insert_eq. }
  { intros q Hq. apply Hl. by right. }
  exists s2, d2. split; [done|]. split; [done|]. split; [by eapply same_topology_trans|]. split; [by rewrite Hd2, Hd1, insert_insert_eq|].
  intros q Hq. rewrite Hs2, moved_state by (try done; try (apply Hl; by left); by left). destruct (Z.eqb_spec p q) as [<-|Hne].
  - rewrite (bool_decide_eq_true_2 (p ∈ p :: l)) by (by left). by case_bool_decide.
  - by rewrite (bool_decide_ext (q ∈ p :: l) (q ∈ l)) by (rewrite elem_of_cons; naive_solver).
Qed.

(** ** Disabling and enabling the pins *)

Definition toggle (d : PCIDevice) (disabled : bool) (p : Z) : Z := if disabled then - pci_irq_state d p else pci_irq_state d p.

Lemma sum_bound (f : Z → Z) l : (∀ p, p ∈ l → -1 ≤ f p ≤ 1) → - Z.of_nat (length l) ≤ foldr (λ p n, f p + n) 0 l ≤ Z.of_nat (length l).
Proof.
  induction l as [|p l IH]; intros Hf; cbn [foldr length]; [lia|]. pose proof (Hf p ltac:(by left)).
  specialize (IH ltac:(intros q Hq; apply Hf; by right)). lia.
Qed.

Lemma irq_disabled_loop_counts l fuel s a d disabled :
  devs s !! a = Some d → (∀ p, p ∈ l → p ∈ pins) → (length l ≤ 4)%nat →
  counts fuel s (λ b irq, foldr (λ p n, (if hits fuel s a p b irq then toggle d disabled p else 0) + n) 0 l) →
  ∃ s', irq_disabled_loop l fuel a d disabled s = Ok s' ∧ counts_ok fuel s' ∧ same_topology s s' ∧ devs s' = devs s.
Proof.
  revert s. induction l as [|p l IH]; intros s Ha Hl Hn Hk; cbn [irq_disabled_loop].
  { exists s. done. }
  fold (toggle d disabled p).
  assert (Hb : ∀ b irq, - Z.of_nat (length l) ≤ foldr (λ p n, (if hits fuel s a p b irq then toggle d disabled p else 0) + n) 0 l ≤ Z.of_nat (length l)).
  { intros b irq. apply (sum_bound (λ p, if hits fuel s a p b irq then toggle d disabled p else 0)). intros q Hq. unfold toggle. pose proof (proj1 (in_pins q) (Hl q ltac:(by right))).
    rewrite irq_state_bit by lia. destruct (hits fuel s a q b irq), disabled, (Z.testbit (irq_state d) q); cbn; lia. }
  destruct (pci_change_irq_level_counts fuel s _ a d p (toggle d disabled p) Hk Ha ltac:(apply Hl; by left)) as (s1 & E1 & Hd1 & Ht1 & Hk1).
  { intros b irq. cbn [foldr]. specialize (Hb b irq). cbn [length] in Hn. lia. }
  rewrite E1. cbn [mbind res_bind]. destruct (IH s1) as (s2 & E2 & Hk2 & Ht2 & Hd2).
  - by rewrite Hd1.
  - intros q Hq. apply Hl. by right.
  - cbn [length] in Hn. lia.
  - eapply counts_debt; [|exact Hk1]. intros b irq. cbn [foldr].
    rewrite (foldr_ext (λ p n, (if hits fuel s1 a p b irq then toggle d disabled p else 0) + n) (λ p n, (if hits fuel s a p b irq then toggle d disabled p else 0) + n) 0 0 l l); [lia| |done|done].
    intros q n. by rewrite (hits_ext fuel s s1).
  - exists s2. split; [done|]. split; [done|]. split; [by eapply same_topology_trans|]. by rewrite Hd2.
Qed.

(** A device is replaced by one with the same levels; [pci_update_irq_disabled] then sets the
    counters right. *)
Lemma pci_update_irq_disabled_counts fuel s a d d' :
  counts_ok fuel s → devs s !! a = Some d → dev_place d' = dev_place d → irq_state d' = irq_state d →
  ∃ s', pci_update_irq_disabled fuel a (pci_irq_disabled d) (put_dev a d' s) = Ok s' ∧ counts_ok fuel s' ∧
        same_topology s s' ∧ devs s' = <[a := d']> (devs s).
Proof.
  intros Hk Ha Hp Hi. pose proof (put_dev_topology a d d' s Ha Hp) as Ht. unfold pci_update_irq_disabled, get_dev. cbn [put_dev devs].
  rewrite lookup_insert_eq. cbn [mbind res_bind]. destruct (Bool.eqb_spec (pci_irq_disabled d') (pci_irq_disabled d)) as [E|E].
  { exists (put_dev a d' s). split; [done|]. split; [|done]. eapply put_dev_quiet; [done..|]. intros p _. unfold asserted, pci_irq_state. by rewrite E, Hi. }
  destruct (irq_disabled_loop_counts pins fuel (put_dev a d' s) a d' (pci_irq_disabled d')) as (s' & Es & Hk' & Ht' & Hd').
  - cbn. by rewrite lookup_insert_eq.
  - done.
  - cbn. lia.
  - eapply counts_debt; [|by eapply put_dev_counts]. intros b irq. cbv beta. rewrite <-(contrib_ext fuel s (put_dev a d' s)), <-(contrib_ext fuel s (put_dev a d' s) b irq a d') by done.
    unfold contrib, sum_pins, pins, toggle, asserted, no_debt. cbn [foldr]. unfold pci_irq_state. rewrite Hi.
    destruct (pci_irq_disabled d'), (pci_irq_disabled d); try done; repeat case_match; lia.
  - exists s'. split; [done|]. split; [done|]. split; [by eapply same_topology_trans|done].
Qed.

(** ** Configuration writes *)

(** What a device keeps between configuration accesses. *)
Record dev_ok (d : PCIDevice) : Prop := {
  do_masks : masks_ok d;
  do_maps : maps_ok d;
  do_bars : bars_ok d;
  do_synced : synced d;
}.
Definition no_msix (d : PCIDevice) : Prop := tst (cap_present d) QEMU_PCI_CAP_MSIX = false.
Definition no_msi (d : PCIDevice) : Prop := tst (cap_present d) QEMU_PCI_CAP_MSI = false ∧ no_msix d.

(** What neither the guest nor the hooks change of a device. *)
Definition statics (d : PCIDevice) : arr * arr * Z * Z * (Z * Z) := (wmask d, w1cmask d, cap_present d, msi_cap d, dev_place d).

(** What the hooks promise: they do nothing without the capability, or when the guest wrote to the
    header only; whatever the guest wrote, the interrupt counters stay right, the header too but
    for the interrupt bit of the status register, and the capability is in order again. *)
Class MsiLaws (m : MsiOps) : Prop := {
  msi_absent_ok : ∀ d, tst (cap_present d) QEMU_PCI_CAP_MSI = false → msi_ok m d;
  msi_ext : ∀ d d', msi_ok m d → statics d' = statics d →
    (∀ j, PCI_CONFIG_HEADER_SIZE ≤ j → aget (config d') j = aget (config d) j) → msi_ok m d';
  msi_absent_write : ∀ fuel a addr v l s d, devs s !! a = Some d →
    tst (cap_present d) QEMU_PCI_CAP_MSI = false → msi_write_config m fuel a addr v l s = Ok s;
  msix_absent_idle : ∀ d, no_msix d → msix_idle m d;
  msix_idle_ext : ∀ d d', msix_idle m d → statics d' = statics d → msix_idle m d';
  msix_idle_write : ∀ fuel a addr v l s d, devs s !! a = Some d → msix_idle m d → msix_write_config m fuel a addr v l s = Ok s;
  msi_header_write : ∀ fuel a addr v l s d, devs s !! a = Some d → msi_ok m d → 0 ≤ addr → 0 < l →
    addr + l ≤ PCI_CONFIG_HEADER_SIZE → msi_write_config m fuel a addr v l s = Ok s;
  msi_write : ∀ fuel a addr v val l s d0 d, counts_ok fuel s → devs s !! a = Some d → dev_ok d →
    masks_ok d0 → msi_ok m d0 → statics d = statics d0 → (∀ j, aget (config d) j = written addr val (Z.to_nat l) d0 j) →
    0 ≤ addr → 0 ≤ l ≤ 4 → addr + l ≤ pci_config_size d0 →
    ∃ s' d', msi_write_config m fuel a addr v l s = Ok s' ∧ counts_ok fuel s' ∧ same_topology s s' ∧
      devs s' = <[a := d']> (devs s) ∧ dev_ok d' ∧ msi_ok m d' ∧ statics d' = statics d ∧
      (∀ j, j < PCI_CONFIG_HEADER_SIZE → j ≠ PCI_STATUS → aget (config d') j = aget (config d) j);
  msi_reset_keeps : ∀ d, masks_ok d → msi_ok m d →
    ∃ c, msi_reset m d = set_config c d ∧ afits 8 c ∧ msi_ok m (set_config c d) ∧
      (∀ j, j < PCI_CONFIG_HEADER_SIZE → aget c j = aget (config d) j);
  msix_idle_reset : ∀ d, msix_idle m d → msix_reset m d = d;
}.

Lemma dev_ok_bus_master b d : dev_ok d → dev_ok (set_bus_master b d).
Proof. intros [[] Hmap [] Hs]. split; [by split|exact Hmap|by split|]. intros i Hi. rewrite <-(Hs i Hi) at 1. done || apply (Hs i Hi). Qed.

Lemma irq_disabled_bit d : afits 8 (config d) → pci_irq_disabled d = Z.testbit (aget (config d) (PCI_COMMAND + 1)) 2.
Proof. intros Hc. unfold pci_irq_disabled. change PCI_COMMAND_INTX_DISABLE with (2 ^ 10). by rewrite command_bit. Qed.

(** The part before the hooks, for a write that does not split the command register: it never
    fails, the configuration space takes the written value under its masks, the mappings follow
    and the interrupt counters stay right. *)
Lemma config_write_ok fuel s a d addr val l :
  counts_ok fuel s → devs s !! a = Some d → dev_ok d →
  0 ≤ addr → 0 ≤ l ≤ 4 → addr + l ≤ pci_config_size d → addr ≠ PCI_COMMAND + 1 →
  ∃ s' d', config_write fuel a addr val l s = Ok s' ∧ counts_ok fuel s' ∧ same_topology s s' ∧
    devs s' = <[a := d']> (devs s) ∧ dev_ok d' ∧ statics d' = statics d ∧ irq_state d' = irq_state d ∧
    (∀ j, aget (config d') j = written addr val (Z.to_nat l) d j) ∧
    (∀ i, 0 ≤ i < PCI_NUM_REGIONS → region d' i = remap (set_config (config d') d) i) ∧
    (range_covers_byte addr l PCI_COMMAND = true → bus_master d' = tst (pci_get_word (config d') PCI_COMMAND) PCI_COMMAND_MASTER).
Proof.
  intros Hk Ha Hd Hadr Hl Hsz Hcmd. pose proof (do_masks _ Hd) as Hm.
  assert (Hcs : pci_config_size d ≤ 2 ^ 32) by (unfold pci_config_size; by case_match).
  destruct (write_config_loop_spec (Z.to_nat l) addr val d Hm Hadr) as (c & Ew & Hc & Hw); [lia|].
  destruct (sync_written d c addr val (Z.to_nat l)) as (rs & m & v & Es & Hmap & Hbar & Hsy & Hr); try (apply Hd || done); [lia|].
  unfold sync in Es. rewrite Z2Nat.id in Es by lia.
  set (d1 := set_vga v (set_regions rs m (set_config c d))) in *.
  assert (Hd1 : dev_ok d1). { split; [|done|done|done]. destruct (masks_config d c Hm Hc). by split. }
  unfold config_write, get_dev. rewrite Ha. cbn [mbind res_bind]. rewrite Ew. cbn [mbind res_bind]. rewrite Es. cbn [mbind res_bind].
  destruct (range_covers_byte addr l PCI_COMMAND) eqn:Ec.
  - destruct (pci_update_irq_disabled_counts fuel s a d d1 Hk Ha eq_refl eq_refl) as (s1 & E1 & Hk1 & Ht1 & Hd1').
    rewrite E1. cbn [mbind res_bind]. rewrite Hd1', lookup_insert_eq. cbn [mbind res_bind]. set (d2 := update_bus_master d1).
    exists (put_dev a d2 s1), d2. split; [done|].
    split; [eapply put_dev_quiet; [done|by rewrite Hd1', lookup_insert_eq|done|done]|].
    split; [eapply same_topology_trans; [done|]; eapply put_dev_topology; [by rewrite Hd1', lookup_insert_eq|done]|].
    split; [cbn; by rewrite Hd1', insert_insert_eq|]. split; [by apply dev_ok_bus_master|]. split; [done|]. split; [done|]. split; [apply Hw|].
    split; [exact Hr|]. intros _. reflexivity.
  - exists (put_dev a d1 s), d1. split; [done|].
    split.
    { eapply put_dev_quiet; [done..|]. intros p _. unfold asserted, pci_irq_state. rewrite !irq_disabled_bit by (apply Hm || exact Hc).
      assert (Hb : aget (config d1) (PCI_COMMAND + 1) = aget (config d) (PCI_COMMAND + 1)); [|by rewrite Hb].
      change (config d1) with c. rewrite Hw. apply written_out. intros Hin. unfold PCI_COMMAND in *. rewrite range_covers in Ec by lia. lia. }
    split; [by eapply put_dev_topology|]. do 4 (split; [done|]). split; [apply Hw|]. split; [exact Hr|done].
Qed.

Section Write.
Context (msi : MsiOps) (Hmsi : MsiLaws msi).

(** The capabilities of a device are in order; what msix.c keeps lies beside the bus (Msix). *)
Definition msi_dev (d : PCIDevice) : Prop := msi_ok msi d ∧ msix_idle msi d.
Lemma no_msi_dev d : no_msi d → msi_dev d.
Proof. intros [H1 H2]. split; [by apply msi_absent_ok|by apply msix_absent_idle]. Qed.

Lemma statics_size d d' : statics d' = statics d → pci_config_size d' = pci_config_size d.
Proof. intros [= _ _ E _ _ _]. unfold pci_config_size, pci_is_express. by rewrite E. Qed.

(** A write to the header, or to a device without the capabilities. *)
Lemma quiet_write_ok fuel s a d addr val l :
  counts_ok fuel s → devs s !! a = Some d → dev_ok d → msi_dev d → no_msi d ∨ 0 < l ∧ addr + l ≤ PCI_CONFIG_HEADER_SIZE →
  0 ≤ addr → 0 ≤ l ≤ 4 → addr + l ≤ pci_config_size d → addr ≠ PCI_COMMAND + 1 →
  ∃ s' d', pci_default_write_config msi fuel a addr val l s = Ok s' ∧ counts_ok fuel s' ∧ same_topology s s' ∧
    devs s' = <[a := d']> (devs s) ∧ dev_ok d' ∧ msi_dev d' ∧ statics d' = statics d ∧ irq_state d' = irq_state d ∧
    (∀ j, aget (config d') j = written addr val (Z.to_nat l) d j) ∧
    (∀ i, 0 ≤ i < PCI_NUM_REGIONS → region d' i = remap (set_config (config d') d) i) ∧
    (range_covers_byte addr l PCI_COMMAND = true → bus_master d' = tst (pci_get_word (config d') PCI_COMMAND) PCI_COMMAND_MASTER).
Proof.
  intros Hk Ha Hd [Hok Hx] Hq Hadr Hl Hsz Hcmd.
  destruct (config_write_ok fuel s a d addr val l Hk Ha Hd Hadr Hl Hsz Hcmd) as (s' & d' & E & Hk' & Ht & Hds & Hd' & Hst & Hi & Hw & Hr & Hb).
  assert (Ha' : devs s' !! a = Some d') by (by rewrite Hds, lookup_insert_eq).
  assert (Hcap : cap_present d' = cap_present d) by (by injection Hst).
  pose proof (msix_idle_ext d d' Hx Hst) as Hx'.
  assert (Hok' : msi_ok msi d').
  { destruct Hq as [[Hn _]|[Hl0 Hle]]; [apply msi_absent_ok; by rewrite Hcap|].
    apply (msi_ext d); [done|done|]. intros j Hj. rewrite Hw. apply written_out. unfold PCI_CONFIG_HEADER_SIZE in *. lia. }
  exists s', d'. unfold pci_default_write_config. rewrite E. cbn [mbind res_bind]. split.
  - assert (Hm : ∀ v, msi_write_config msi fuel a addr v l s' = Ok s').
    { intros v. destruct Hq as [[Hn _]|[Hl0 Hle]]; [apply (msi_absent_write _ _ _ _ _ _ d'); [done|by rewrite Hcap]|].
      by apply (msi_header_write _ _ _ _ _ _ d'). }
    rewrite Hm. cbn [mbind res_bind]. by apply (msix_idle_write _ _ _ _ _ _ d').
  - do 5 (split; [done|]). done.
Qed.

(** Any write: the capability may react to it. *)
Lemma pci_default_write_config_ok fuel s a d addr val l :
  counts_ok fuel s → devs s !! a = Some d → dev_ok d → msi_dev d →
  0 ≤ addr → 0 ≤ l ≤ 4 → addr + l ≤ pci_config_size d → addr ≠ PCI_COMMAND + 1 →
  ∃ s' d', pci_default_write_config msi fuel a addr val l s = Ok s' ∧ counts_ok fuel s' ∧ same_topology s s' ∧
    devs s' = <[a := d']> (devs s) ∧ dev_ok d' ∧ msi_dev d' ∧ statics d' = statics d ∧
    (∀ j, j < PCI_CONFIG_HEADER_SIZE → j ≠ PCI_STATUS → aget (config d') j = written addr val (Z.to_nat l) d j).
Proof.
  intros Hk Ha Hd [Hok Hx] Hadr Hl Hsz Hcmd.
  destruct (config_write_ok fuel s a d addr val l Hk Ha Hd Hadr Hl Hsz Hcmd) as (s1 & d1 & E1 & Hk1 & Ht1 & Hds1 & Hd1 & Hst1 & _ & Hw1 & _).
  assert (Ha1 : devs s1 !! a = Some d1) by (by rewrite Hds1, lookup_insert_eq).
  unfold pci_default_write_config. rewrite E1. cbn [mbind res_bind].
  destruct (msi_write fuel a addr (Z.shiftr (u32 val) (8 * Z.max l 0)) val l s1 d d1 Hk1 Ha1 Hd1 (do_masks _ Hd) Hok Hst1 Hw1 Hadr Hl Hsz)
    as (s2 & d2 & E2 & Hk2 & Ht2 & Hds2 & Hd2 & Hok2 & Hst2 & Hh2).
  pose proof (msix_idle_ext d d2 Hx ltac:(by rewrite Hst2)) as Hx2.
  assert (Ha2 : devs s2 !! a = Some d2) by (by rewrite Hds2, lookup_insert_eq).
  rewrite E2. cbn [mbind res_bind]. exists s2, d2. split; [by apply (msix_idle_write _ _ _ _ _ _ d2)|].
  split; [done|]. split; [by eapply same_topology_trans|]. split; [by rewrite Hds2, Hds1, insert_insert_eq|].
  split; [done|]. split; [done|]. split; [by rewrite Hst2|]. intros j Hj Hs. by rewrite Hh2, Hw1.
Qed.
End Write.

(** ** The lines are the logical or of the pins *)

Lemma fold_nonzero {A} (f : Z → A → Z) (m : gmap Z A) :
  (∀ a x, 0 ≤ f a x) → map_fold (λ a d n, f a d + n) 0 m ≠ 0 ↔ ∃ a x, m !! a = Some x ∧ f a x ≠ 0.
Proof.
  intros Hf. induction m as [|a x m Ha IH] using map_ind.
  { rewrite map_fold_empty. split; [done|]. intros (a & x & Hx & _). by rewrite lookup_empty in Hx. }
  rewrite fold_insert by done. pose proof (Hf a x). assert (Hp : 0 ≤ map_fold (λ a d n, f a d + n) 0 m).
  { clear -Hf. induction m as [|a x m Ha IH] using map_ind; [by rewrite map_fold_empty|]. rewrite fold_insert by done. specialize (Hf a x). lia. }
  split.
  - intros Hne. destruct (decide (f a x = 0)) as [E|E].
    + destruct (proj1 IH) as (a' & x' & Hx & Hn); [lia|]. exists a', x'. split; [|done]. rewrite lookup_insert_ne; [done|]. congruence.
    + exists a, x. by rewrite lookup_insert_eq.
  - intros (a' & x' & Hx & Hn). destruct (decide (a = a')) as [<-|Hne].
    + rewrite lookup_insert_eq in Hx. simplify_eq. lia.
    + rewrite lookup_insert_ne in Hx by done. pose proof (proj2 IH (ex_intro _ a' (ex_intro _ x' (conj Hx Hn)))). lia.
Qed.

(** Pin [p] of device [a] is up, enabled and routed to the line. *)
Definition drives (fuel : nat) (s : PciSys) (b irq a p : Z) : Prop :=
  ∃ d, devs s !! a = Some d ∧ irq_route fuel a p s = Ok (b, irq) ∧ pci_irq_state d p = 1 ∧ pci_irq_disabled d = false.

Lemma contrib_nonzero fuel s b irq a d :
  contrib fuel s b irq a d ≠ 0 ↔ ∃ p, p ∈ pins ∧ hits fuel s a p b irq = true ∧ asserted d p = 1.
Proof.
  assert (Hb : ∀ p, p ∈ pins → 0 ≤ asserted d p ≤ 1) by (intros p Hp; apply asserted_bound; apply in_pins in Hp; lia).
  unfold contrib, sum_pins. revert Hb. generalize pins as l. induction l as [|p l IH]; intros Hb; cbn [foldr].
  { split; [done|]. intros (p & []%not_elem_of_nil & _). }
  specialize (IH ltac:(intros q Hq; apply Hb; by right)). pose proof (Hb p ltac:(by left)).
  assert (Hp : 0 ≤ foldr (λ p n, (if hits fuel s a p b irq then asserted d p else 0) + n) 0 l).
  { clear -Hb. induction l as [|q l IH]; cbn [foldr]; [lia|]. pose proof (Hb q ltac:(right; by left)).
    specialize (IH ltac:(intros r Hr; apply Hb; apply elem_of_cons in Hr as [->|Hr]; [by left|by right; right])). case_match; lia. }
  split.
  - intros Hne. destruct (hits fuel s a p b irq) eqn:E.
    + destruct (decide (asserted d p = 1)); [exists p; split; [by left|done]|]. destruct (proj1 IH) as (q & Hq & ?); [lia|]. exists q. split; [by right|done].
    + destruct (proj1 IH) as (q & Hq & ?); [lia|]. exists q. split; [by right|done].
  - intros (q & Hq & Hh & Ha). apply elem_of_cons in Hq as [->|Hq]; [rewrite Hh; lia|].
    pose proof (proj2 IH (ex_intro _ q (conj Hq (conj Hh Ha)))). case_match; lia.
Qed.

Lemma pin_count_drives fuel s b irq : pin_count fuel s b irq ≠ 0 ↔ ∃ a p, p ∈ pins ∧ drives fuel s b irq a p.
Proof.
  unfold pin_count. rewrite fold_nonzero by (intros; apply contrib_bound). setoid_rewrite contrib_nonzero. unfold drives, asserted, hits. split.
  - intros (a & d & Ha & p & Hp & Hh & Hs). exists a, p. split; [done|]. exists d. split; [done|]. destruct (irq_route fuel a p s) as [r| | ] eqn:E; try done.
    apply bool_decide_eq_true_1 in Hh as ->. split; [done|]. destruct (pci_irq_disabled d); done.
  - intros (a & p & Hp & d & Ha & Hr & Hs & Hd). exists a, d. split; [done|]. exists p. split; [done|]. rewrite Hr, Hd. split; [by apply bool_decide_eq_true_2|done].
Qed.

Lemma counts_line fuel s b x irq :
  counts_ok fuel s → buses s !! b = Some x → set_irq x = true → 0 ≤ irq < nirq x →
  pci_bus_get_irq_level b irq s = Ok (default false (host_irq x !! irq)) ∧
  (default false (host_irq x !! irq) = true ↔ ∃ a p, p ∈ pins ∧ drives fuel s b irq a p).
Proof.
  intros Hk Hb Hs Hi. rewrite (ct_lines _ _ _ Hk b) by done. pose proof (ct_count _ _ _ Hk b x irq Hb Hs Hi) as Hc.
  unfold no_debt in Hc. rewrite Z.add_0_r in Hc. split.
  - unfold pci_bus_get_irq_level, get_bus. rewrite Hb. cbn [mbind res_bind].
    assert (Hin : (0 <=? irq) && (irq <? nirq x) = true) by (apply andb_true_iff; split; [apply Z.leb_le|apply Z.ltb_lt]; lia). by rewrite Hin.
  - rewrite <-pin_count_drives, Hc, negb_true_iff, Z.eqb_neq. done.
Qed.

(** What happens on the buses between resets: devices move their pins, the guest writes to
    configuration spaces. *)
Inductive pci_op : Type :=
  | OpPin (a p level : Z)
  | OpSetIrq (a level : Z)
  | OpDeassert (a : Z)
  | OpWrite (a addr val l : Z).
Definition op_dev (o : pci_op) : Z := match o with OpPin a _ _ | OpSetIrq a _ | OpDeassert a | OpWrite a _ _ _ => a end.
Definition op_ok (o : pci_op) : Prop :=
  match o with
  | OpPin _ p level => p ∈ pins ∧ (level = 0 ∨ level = 1)
  | OpSetIrq _ level => level = 0 ∨ level = 1
  | OpDeassert _ => True
  | OpWrite _ addr _ l => 0 ≤ addr ∧ 0 ≤ l ≤ 4 ∧ addr + l ≤ PCI_CONFIG_SPACE_SIZE ∧ addr ≠ PCI_COMMAND + 1
  end.

(** A device with an interrupt pin that the guest cannot move. *)
Definition pin_ok (d : PCIDevice) : Prop := 1 ≤ aget (config d) PCI_INTERRUPT_PIN ≤ 4 ∧ aget (wmask d) PCI_INTERRUPT_PIN = 0.

Section Ops.
Context (msi : MsiOps).

Record sys_ok (fuel : nat) (s : PciSys) : Prop := {
  so_counts : counts_ok fuel s;
  so_devs : ∀ a d, devs s !! a = Some d → dev_ok d ∧ msi_dev msi d ∧ pin_ok d;
}.

Definition exec (fuel : nat) (o : pci_op) (s : PciSys) : res PciSys :=
  match o with
  | OpPin a p level => pci_irq_handler fuel a p level s
  | OpSetIrq a level => pci_set_irq fuel a level s
  | OpDeassert a => pci_device_deassert_intx fuel a s
  | OpWrite a addr val l => pci_default_write_config msi fuel a addr val l s
  end.
Fixpoint run (fuel : nat) (l : list pci_op) (s : PciSys) : res PciSys :=
  match l with [] => Ok s | o :: l => s ← exec fuel o s; run fuel l s end.
End Ops.

(** ** Every operation keeps the invariant *)

(** A device whose configuration changes where nothing is decoded. *)
Lemma dev_ok_config d c :
  dev_ok d → afits 8 c → (∀ j, decoding j ∨ j = PCI_HEADER_TYPE → aget c j = aget (config d) j) → dev_ok (set_config c d).
Proof.
  intros [Hm Hmap Hb Hs] Hc He. assert (Hr : ∀ i, 0 ≤ i < PCI_NUM_REGIONS → remap (set_config c d) i = remap d i).
  { intros i Hi. apply remap_config; [apply Hm|done|done|done|intros j Hj; apply He; by left|apply He; by right]. }
  split; [by apply masks_config|exact Hmap|by destruct Hb; split|].
  intros i Hi. change (region d i = remap (set_config c d) i). rewrite Hr by done. by apply Hs.
Qed.

Lemma moved_dev_ok d p level : dev_ok d → dev_ok (moved p level d).
Proof.
  intros Hd. unfold moved. destruct (level =? _); [done|]. pose proof (mo_config _ (do_masks _ Hd)) as Hf.
  assert (Hd' : dev_ok (pci_set_irq_state p level d)) by (destruct Hd as [[] Hmap [] Hs]; split; [by split|exact Hmap|by split|exact Hs]).
  apply (dev_ok_config (pci_set_irq_state p level d)); [done| |].
  - apply afits_aset; [done|]. case_match; [apply lor_fits; [lia|apply Hf|done]|apply clr_fits; [lia|apply Hf]].
  - intros j Hj. unfold decoding, PCI_HEADER_TYPE in Hj. apply aget_aset_ne. unfold PCI_STATUS. lia.
Qed.
Lemma moved_pin_ok d p level : pin_ok d → pin_ok (moved p level d).
Proof. intros [H1 H2]. unfold moved. destruct (level =? _); [done|]. split; [|done]. unfold pci_update_irq_status. cbn [set_config config]. by rewrite aget_aset_ne. Qed.
Lemma moved_statics d p level : statics (moved p level d) = statics d.
Proof. unfold moved. by destruct (level =? _). Qed.
Lemma moved_above d p level j : PCI_CONFIG_HEADER_SIZE ≤ j → aget (config (moved p level d)) j = aget (config d) j.
Proof. intros Hj. unfold moved. destruct (level =? _); [done|]. unfold pci_update_irq_status. cbn [set_config config]. apply aget_aset_ne. unfold PCI_STATUS, PCI_CONFIG_HEADER_SIZE in *. lia. Qed.

Section OpsOk.
Context (msi : MsiOps) (Hmsi : MsiLaws msi).

Lemma moved_msi_dev d p level : msi_dev msi d → msi_dev msi (moved p level d).
Proof.
  intros [H1 H2]. split; [apply (msi_ext d); [done|apply moved_statics|intros; by apply moved_above]|].
  apply (msix_idle_ext d); [done|apply moved_statics].
Qed.

Lemma sys_ok_update fuel s s' a d' :
  sys_ok msi fuel s → counts_ok fuel s' → devs s' = <[a := d']> (devs s) → dev_ok d' ∧ msi_dev msi d' ∧ pin_ok d' → sys_ok msi fuel s'.
Proof.
  intros [_ Hd] Hk E Hd'. split; [done|]. intros a0 d0 H0. rewrite E in H0. destruct (decide (a = a0)) as [<-|].
  - rewrite lookup_insert_eq in H0. by simplify_eq.
  - rewrite lookup_insert_ne in H0 by done. by eapply Hd.
Qed.

Lemma pci_irq_handler_ok fuel s a d p level :
  sys_ok msi fuel s → devs s !! a = Some d → p ∈ pins → level = 0 ∨ level = 1 →
  ∃ s', pci_irq_handler fuel a p level s = Ok s' ∧ sys_ok msi fuel s' ∧ same_topology s s' ∧ devs s' = <[a := moved p level d]> (devs s).
Proof.
  intros Hs Ha Hp Hl. destruct (pci_irq_handler_counts fuel s a d p level (so_counts _ _ _ Hs) Ha Hp Hl) as (s' & E & Hk & Ht & Hd).
  exists s'. split; [done|]. split; [|by split]. destruct (so_devs _ _ _ Hs a d Ha) as (H1 & H2 & H3).
  eapply sys_ok_update; [done..|]. split; [by apply moved_dev_ok|]. split; [by apply moved_msi_dev|by apply moved_pin_ok].
Qed.

Lemma deassert_loop_ok l fuel s a d :
  sys_ok msi fuel s → devs s !! a = Some d → (∀ p, p ∈ l → p ∈ pins) →
  ∃ s', deassert_loop l fuel a s = Ok s' ∧ sys_ok msi fuel s' ∧ same_topology s s'.
Proof.
  revert s d. induction l as [|p l IH]; intros s d Hs Ha Hl; cbn [deassert_loop]; [by exists s|].
  destruct (pci_irq_handler_ok fuel s a d p 0 Hs Ha) as (s1 & E1 & Hs1 & Ht1 & Ha1); [apply Hl; by left|by left|].
  rewrite E1. cbn [mbind res_bind]. destruct (IH s1 (moved p 0 d) Hs1) as (s2 & E2 & Hs2 & Ht2); [by rewrite Ha1, lookup_insert_eq|intros q Hq; apply Hl; by right|].
  exists s2. split; [done|]. split; [done|by eapply same_topology_trans].
Qed.

Lemma exec_ok fuel s o :
  sys_ok msi fuel s → op_ok o → is_Some (devs s !! op_dev o) →
  ∃ s', exec msi fuel o s = Ok s' ∧ sys_ok msi fuel s' ∧ same_topology s s'.
Proof.
  intros Hs Ho [d Ha]. destruct (so_devs _ _ _ Hs _ _ Ha) as (H1 & H2 & H3). destruct o as [a p level|a level|a|a addr val l]; cbn [op_ok op_dev exec] in *.
  - destruct Ho as [Hp Hl]. destruct (pci_irq_handler_ok fuel s a d p level Hs Ha Hp Hl) as (s' & ? & ? & ? & _). by exists s'.
  - unfold pci_set_irq, get_dev. rewrite Ha. cbn [mbind res_bind]. destruct H3 as [Hpin _]. unfold pci_intx, pci_get_byte.
    assert (Hin : (0 <=? aget (config d) PCI_INTERRUPT_PIN - 1) && (aget (config d) PCI_INTERRUPT_PIN - 1 <? 32) = true) by (apply andb_true_iff; split; [apply Z.leb_le|apply Z.ltb_lt]; lia).
    rewrite Hin. cbn [negb]. destruct (pci_irq_handler_ok fuel s a d (aget (config d) PCI_INTERRUPT_PIN - 1) level Hs Ha) as (s' & ? & ? & ? & _); [apply in_pins; lia|done|]. by exists s'.
  - by eapply deassert_loop_ok.
  - destruct Ho as (Hadr & Hl & Hsz & Hcmd). destruct (pci_default_write_config_ok msi Hmsi fuel s a d addr val l) as (s' & d' & E & Hk & Ht & Hd & Hd1 & Hn & Hst & Hw);
      [apply Hs|done..|pose proof (config_size_ge d); lia|done|].
    exists s'. split; [done|]. split; [|done]. eapply sys_ok_update; [done..|]. split; [done|]. split; [done|].
    assert (Hwm : wmask d' = wmask d) by (by injection Hst). split; [|by rewrite Hwm; apply H3].
    rewrite Hw, written_readonly; [apply H3|apply H1|apply H3| | |]; [|by unfold PCI_INTERRUPT_PIN, PCI_CONFIG_HEADER_SIZE; lia|done].
    apply (do_masks _ H1); unfold PCI_STATUS, PCI_INTERRUPT_PIN, PCI_CONFIG_HEADER_SIZE; lia.
Qed.

Lemma run_ok fuel l s :
  sys_ok msi fuel s → Forall (λ o, op_ok o ∧ is_Some (devs s !! op_dev o)) l →
  ∃ s', run msi fuel l s = Ok s' ∧ sys_ok msi fuel s' ∧ same_topology s s'.
Proof.
  revert s. induction l as [|o l IH]; intros s Hs Hl; cbn [run]; [by exists s|]. apply Forall_cons in Hl as [[Ho Hd] Hl].
  destruct (exec_ok fuel s o Hs Ho Hd) as (s1 & E1 & Hs1 & Ht1). rewrite E1. cbn [mbind res_bind].
  destruct (IH s1 Hs1) as (s2 & E2 & Hs2 & Ht2).
  { eapply Forall_impl; [exact Hl|]. intros o' [Ho' Hd']. split; [done|]. pose proof (proj1 Ht1 (op_dev o')) as E.
    destruct (devs s !! op_dev o'), (devs s1 !! op_dev o'); try done. }
  exists s2. split; [done|]. split; [done|by eapply same_topology_trans].
Qed.

(** C21: However the devices move their pins and the guest writes to their configuration spaces, nothing
    fails, and each interrupt line the host sees is up exactly if some device has a pin up, not
    disabled, that is routed to it, through the bridges in between; [pci_bus_get_irq_level] agrees.
    (A write must not start at the upper byte of the command register.) *)
Theorem pci_lines_wired_or fuel l s :
  sys_ok msi fuel s → Forall (λ o, op_ok o ∧ is_Some (devs s !! op_dev o)) l →
  ∃ s', run msi fuel l s = Ok s' ∧
    ∀ b x irq, buses s' !! b = Some x → set_irq x = true → 0 ≤ irq < nirq x →
      pci_bus_get_irq_level b irq s' = Ok (default false (host_irq x !! irq)) ∧
      (default false (host_irq x !! irq) = true ↔ ∃ a p, p ∈ pins ∧ drives fuel s' b irq a p).
Proof.
  intros Hs Hl. destruct (run_ok fuel l s Hs Hl) as (s' & E & Hs' & _). exists s'. split; [done|].
  intros b x irq Hb Hx Hi. apply counts_line; [apply Hs'|done..].
Qed.
End OpsOk.

(** ** Programming a base address register *)

Lemma read_long d o : 0 ≤ o → o + 4 ≤ pci_config_size d → pci_default_read_config d o 4 = Ok (pci_get_long (config d) o).
Proof. intros Ho Hs. unfold pci_default_read_config. cbn [Z.leb Z.compare andb negb Pos.compare Pos.compare_cont]. rewrite load_in by lia. done. Qed.

Lemma aligned_id k a : a mod 2 ^ k = 0 → aligned k a = a.
Proof. intros E. unfold aligned. lia. Qed.
Lemma aligned_ones k : 0 ≤ k ≤ 32 → aligned k UINT32_MAX = 2 ^ 32 - 2 ^ k.
Proof.
  intros Hk. unfold aligned, UINT32_MAX. replace (2 ^ 32 - 1) with ((2 ^ k - 1) + (2 ^ (32 - k) - 1) * 2 ^ k).
  - rewrite Z.mod_add, Z.mod_small by lia. replace 32 with ((32 - k) + k) at 2 by lia. rewrite Z.pow_add_r by lia. lia.
  - replace 32 with ((32 - k) + k) at 2 by lia. rewrite Z.pow_add_r by lia. lia.
Qed.
Lemma mod_aligned k x : 0 ≤ k → aligned k x mod 2 ^ k = 0.
Proof. intros Hk. unfold aligned. rewrite Zminus_mod_idemp_r, Z.sub_diag. by rewrite Z.mod_0_l by lia. Qed.

Section Bar.
Context (msi : MsiOps) (Hmsi : MsiLaws msi).

Lemma bar_write fuel s a d i k type val :
  sys_ok msi fuel s → devs s !! a = Some d → bar_ready d i k type → fits 32 val →
  tst (pci_get_word (config d) PCI_COMMAND) (decode_bit type) = true →
  ∃ s' d', pci_default_write_config msi fuel a (pci_bar d i) val 4 s = Ok s' ∧ sys_ok msi fuel s' ∧ devs s' !! a = Some d' ∧
    bar_ready d' i k type ∧ pci_get_word (config d') PCI_COMMAND = pci_get_word (config d) PCI_COMMAND ∧
    pci_default_read_config d' (pci_bar d i) 4 = Ok (aligned k val + type) ∧
    r_addr (region d' i) = if (0 <? aligned k val) && (aligned k val + 2 ^ k <=? UINT32_MAX) then aligned k val else PCI_BAR_UNMAPPED.
Proof.
  intros Hs Ha Hbr Hv Hc. destruct (so_devs _ _ _ Hs a d Ha) as (H1 & H2 & H3). pose proof (br_num _ _ _ _ Hbr) as Hi. pose proof (config_size_ge d) as Hsz.
  unfold PCI_ROM_SLOT in Hi. pose proof (bar_offset d i Hi) as Ho. unfold PCI_CONFIG_SPACE_SIZE in Hsz.
  assert (Hop : op_ok (OpWrite a (pci_bar d i) val 4)) by (cbn; unfold PCI_CONFIG_SPACE_SIZE, PCI_COMMAND; lia).
  destruct (exec_ok msi Hmsi fuel s _ Hs Hop) as (s0 & E0 & Hs0 & _); [by exists d|]. cbn [exec] in E0.
  destruct (quiet_write_ok msi Hmsi fuel s a d (pci_bar d i) val 4) as (s' & d' & E & Hk & Ht & Hd & Hd1 & Hn & Hst & _ & Hw & Hr & _);
    [apply Hs|done|done|done|right; unfold PCI_CONFIG_HEADER_SIZE; lia|lia|lia|lia|unfold PCI_COMMAND; lia|].
  assert (Hwm : wmask d' = wmask d) by (by injection Hst).
  rewrite E in E0. injection E0 as <-. change (Z.to_nat 4) with 4%nat in Hw. exists s', d'. split; [done|]. split; [done|]. split; [by rewrite Hd, lookup_insert_eq|].
  pose proof (do_masks _ H1) as Hm. assert (Hcf : afits 8 (config d')) by apply Hd1.
  pose proof (bar_ready_written d (config d') _ val 4 i k type Hm Hcf Hw Hbr) as Hbr'.
  assert (Hlong : pci_get_long (config d') (pci_bar d i) = aligned k val + type) by (by eapply bar_write_value).
  assert (Hreg : region d' i = mkRegion (pci_bar_address (set_config (config d') d) i type (2 ^ k)) (2 ^ k) type).
  { rewrite Hr by (unfold PCI_NUM_REGIONS; lia). unfold remap. rewrite (br_size _ _ _ _ Hbr'), (br_type _ _ _ _ Hbr'). cbv zeta.
    pose proof (br_k _ _ _ _ Hbr). assert (0 < 2 ^ k) by (apply Z.pow_pos_nonneg; lia). by rewrite (proj2 (Z.eqb_neq _ _)) by lia. }
  assert (Hcmd : pci_get_word (config d') PCI_COMMAND = pci_get_word (config d) PCI_COMMAND).
  { unfold pci_get_word. f_equal. apply aread_same. intros j Hj. rewrite Hw. apply written_out. unfold PCI_COMMAND in Hj. lia. }
  split; [|split; [done|split]].
  - destruct Hbr' as [B1 B2 B3 B4 B5 B6 B7 B8]. split; [done|by rewrite Hreg|by rewrite Hreg|done|done|done| |].
    + rewrite Hwm. rewrite !bar_offset in * by done. exact B7.
    + rewrite !bar_offset in * by done. exact B8.
  - rewrite read_long by (pose proof (config_size_ge d'); unfold PCI_CONFIG_SPACE_SIZE in *; lia). by rewrite Hlong.
  - rewrite Hreg. cbn [r_addr]. apply bar_address_decodes; [done|done| | |by rewrite <-Hcmd in Hc].
    + by rewrite pci_bar_config by done.
    + apply mod_aligned. pose proof (br_k _ _ _ _ Hbr). lia.
Qed.

(** C25: Programming a 32-bit base address register (not the expansion ROM's) of a device whose
    command register enables decoding of the register's kind, the way firmware does: writing all ones
    reads back the size of the region and its type, with the region unmapped; writing a non-zero
    address aligned to the size, with the region ending below the top of the 32-bit space, then maps
    the region there and nowhere else, and the address reads back with the type in its low bits. *)
Theorem pci_bar_programming fuel s a d i k type addr :
  sys_ok msi fuel s → devs s !! a = Some d → bar_ready d i k type →
  tst (pci_get_word (config d) PCI_COMMAND) (decode_bit type) = true →
  0 < addr → addr mod 2 ^ k = 0 → addr + 2 ^ k ≤ UINT32_MAX →
  ∃ s1 d1 s2 d2,
    pci_default_write_config msi fuel a (pci_bar d i) UINT32_MAX 4 s = Ok s1 ∧ devs s1 !! a = Some d1 ∧
    pci_default_read_config d1 (pci_bar d i) 4 = Ok (2 ^ 32 - 2 ^ k + type) ∧ mapped d1 !! i = None ∧
    pci_default_write_config msi fuel a (pci_bar d i) addr 4 s1 = Ok s2 ∧ devs s2 !! a = Some d2 ∧
    pci_default_read_config d2 (pci_bar d i) 4 = Ok (addr + type) ∧ mapped d2 !! i = Some addr ∧ pci_get_bar_addr i d2 = addr.
Proof.
  intros Hs Ha Hbr Hc Ha0 Hal Hend. pose proof (br_k _ _ _ _ Hbr) as Hk. pose proof (br_num _ _ _ _ Hbr) as Hi.
  assert (Hi' : 0 ≤ i < PCI_NUM_REGIONS) by (unfold PCI_ROM_SLOT, PCI_NUM_REGIONS in *; lia).
  assert (Hpow : 0 < 2 ^ k) by (apply Z.pow_pos_nonneg; lia).
  destruct (bar_write fuel s a d i k type UINT32_MAX Hs Ha Hbr ltac:(done) Hc) as (s1 & d1 & E1 & Hs1 & Ha1 & Hb1 & Hc1 & Hr1 & Hm1).
  destruct (bar_write fuel s1 a d1 i k type addr Hs1 Ha1 Hb1) as (s2 & d2 & E2 & Hs2 & Ha2 & Hb2 & _ & Hr2 & Hm2);
    [unfold UINT32_MAX in Hend; split; lia|by rewrite Hc1|]. rewrite (bar_offset d1), <-(bar_offset d) in E2, Hr2 by done.
  rewrite aligned_ones in Hr1, Hm1 by lia. rewrite aligned_id in Hr2, Hm2 by done.
  rewrite (proj2 (andb_true_iff _ _)) in Hm2 by (split; [by apply Z.ltb_lt|by apply Z.leb_le]).
  assert (Hum : r_addr (region d1 i) = PCI_BAR_UNMAPPED).
  { rewrite Hm1. destruct (Z.leb_spec (2 ^ 32 - 2 ^ k + 2 ^ k) UINT32_MAX); [unfold UINT32_MAX in *; lia|]. by rewrite andb_false_r. }
  exists s1, d1, s2, d2. do 3 (split; [done|]). split.
  { destruct (so_devs _ _ _ Hs1 a d1 Ha1) as (Hd1 & _). rewrite (do_maps _ Hd1 i Hi'), Hum. by rewrite orb_true_r. }
  do 3 (split; [done|]). split; [|exact Hm2]. destruct (so_devs _ _ _ Hs2 a d2 Ha2) as (Hd2 & _).
  rewrite (do_maps _ Hd2 i Hi'), Hm2, (br_size _ _ _ _ Hb2), !(proj2 (Z.eqb_neq _ _)); [done| |lia].
  unfold UINT32_MAX, PCI_BAR_UNMAPPED in *. lia.
Qed.
End Bar.

(** ** Reset *)

Lemma set_quad_out (a : arr) o v j : j < o ∨ o + 8 ≤ j → aget (pci_set_quad a o v) j = aget a j.
Proof. intros Hj. unfold pci_set_quad. rewrite aget_awrite, length_le_bytes. destruct (Z.leb_spec o j), (Z.ltb_spec j (o + Z.of_nat 8)); try done; lia. Qed.

Lemma bar_range d r : 0 ≤ r < PCI_NUM_REGIONS → 16 ≤ pci_bar d r ∧ pci_bar d r + 8 ≤ PCI_CONFIG_HEADER_SIZE.
Proof.
  unfold PCI_NUM_REGIONS. intros Hr. unfold pci_bar, PCI_BASE_ADDRESS_0, PCI_ROM_ADDRESS, PCI_ROM_ADDRESS1, PCI_ROM_SLOT, PCI_CONFIG_HEADER_SIZE.
  destruct (Z.eqb_spec r 6); cbn [negb]; repeat case_match; lia.
Qed.

Lemma reset_bars_spec l d :
  afits 8 (config d) → (∀ r, r ∈ l → 0 ≤ r < PCI_NUM_REGIONS) →
  ∃ c, foldl reset_bar d l = set_config c d ∧ afits 8 c ∧ ∀ j, j < 16 ∨ PCI_CONFIG_HEADER_SIZE ≤ j → aget c j = aget (config d) j.
Proof.
  revert d. induction l as [|r l IH]; intros d Hc Hl; cbn [foldl].
  { exists (config d). split; [by destruct d|done]. }
  assert (∃ c, reset_bar d r = set_config c d ∧ afits 8 c ∧ ∀ j, j < 16 ∨ PCI_CONFIG_HEADER_SIZE ≤ j → aget c j = aget (config d) j) as (c & E & Hf & Hlow).
  { unfold reset_bar. destruct (bar_range d r ltac:(apply Hl; by left)). repeat case_match.
    - exists (config d). split; [by destruct d|done].
    - eexists. split; [reflexivity|]. split; [apply afits_awrite; [done|apply le_bytes_fits]|]. intros j Hj. apply set_quad_out. lia.
    - eexists. split; [reflexivity|]. split; [by apply set_long_fits|]. intros j Hj. apply set_long_out. lia. }
  rewrite E. destruct (IH (set_config c d) Hf) as (c' & E' & Hf' & Hlow'); [intros r' Hr; apply Hl; by right|].
  exists c'. split; [by rewrite E'; destruct d|]. split; [done|]. intros j Hj. rewrite Hlow' by done. by apply Hlow.
Qed.

Lemma deassert_low l fuel a s d :
  devs s !! a = Some d → irq_state d = 0 → deassert_loop l fuel a s = Ok s.
Proof.
  intros Ha Hi. induction l as [|p l IH]; [done|]. cbn [deassert_loop]. unfold pci_irq_handler, get_dev. rewrite Ha. cbn [mbind res_bind].
  unfold pci_irq_state. rewrite Hi, Z.shiftr_0_l. cbn. exact IH.
Qed.

(** The command register as the guest can set it. *)
Definition command_writable (d : PCIDevice) : Prop :=
  Z.land (pci_get_word (wmask d) PCI_COMMAND) 0x407 = 0x407.

Lemma clear_command d k :
  masks_ok d → command_writable d → k = 0 ∨ k = 1 ∨ k = 2 ∨ k = 10 →
  Z.testbit (pci_get_word (config (clear_writable PCI_COMMAND d)) PCI_COMMAND) k = false.
Proof.
  intros Hm Hw Hk. unfold clear_writable. cbn [set_config config]. unfold pci_word_test_and_clear_mask, pci_get_word at 1, pci_set_word.
  rewrite aread_awrite_len by apply length_le_bytes. rewrite le_val_le_bytes. change (256 ^ Z.of_nat 2) with (2 ^ 16).
  rewrite Z.mod_pow2_bits_low by lia. unfold clr. rewrite Z.land_spec, Z.lnot_spec, Z.lor_spec by lia.
  assert (Hb : Z.testbit (pci_get_word (wmask d) PCI_COMMAND) k = true).
  { assert (Hx : Z.testbit (Z.land (pci_get_word (wmask d) PCI_COMMAND) 0x407) k = true) by (rewrite Hw; by destruct Hk as [->|[->|[->| ->]]]).
    rewrite Z.land_spec in Hx. by apply andb_true_iff in Hx as [? _]. }
  rewrite Hb. cbn. by rewrite andb_false_r.
Qed.

Lemma reset_registers_spec d :
  masks_ok d → command_writable d →
  ∃ c, reset_registers d = set_config c d ∧ afits 8 c ∧ (∀ j, PCI_CONFIG_HEADER_SIZE ≤ j → aget c j = aget (config d) j) ∧
    ∀ b, b ∈ [PCI_COMMAND_IO; PCI_COMMAND_MEMORY; PCI_COMMAND_MASTER; PCI_COMMAND_INTX_DISABLE] → tst (pci_get_word c PCI_COMMAND) b = false.
Proof.
  intros Hm Hw. unfold reset_registers. set (d1 := clear_writable PCI_COMMAND d). set (d2 := clear_writable PCI_STATUS d1).
  assert (Hf1 : afits 8 (config d1)) by (apply set_word_fits; apply Hm). assert (Hf2 : afits 8 (config d2)) by (by apply set_word_fits).
  set (c3 := aset (aset (config d2) PCI_CACHE_LINE_SIZE 0) PCI_INTERRUPT_LINE 0).
  assert (Hf3 : afits 8 c3) by (unfold c3; apply afits_aset; [by apply afits_aset|done]).
  destruct (reset_bars_spec (seqZ 0 PCI_NUM_REGIONS) (set_config c3 d2) Hf3) as (c & Ec & Hf & Hlow); [intros r Hin; apply elem_of_seqZ in Hin; unfold PCI_NUM_REGIONS in *; lia|].
  exists c. split; [by rewrite Ec|]. split; [done|]. split.
  { intros j Hj. rewrite Hlow by (by right). cbn [set_config config]. unfold c3, PCI_CONFIG_HEADER_SIZE in *.
    rewrite !aget_aset_ne by (unfold PCI_INTERRUPT_LINE, PCI_CACHE_LINE_SIZE; lia).
    unfold d2, d1, clear_writable, pci_word_test_and_clear_mask. cbn [set_config config].
    rewrite (set_word_out _ PCI_STATUS) by (unfold PCI_STATUS; lia). apply set_word_out. unfold PCI_COMMAND. lia. }
  intros b Hb.
  assert (∃ k, b = 2 ^ k ∧ (k = 0 ∨ k = 1 ∨ k = 2 ∨ k = 10)) as (k & -> & Hk).
  { rewrite !elem_of_cons in Hb. destruct Hb as [->|[->|[->|[->|[]%not_elem_of_nil]]]]; [by exists 0; tauto|by exists 1; tauto|by exists 2; tauto|by exists 10; tauto]. }
  rewrite tst_bit by lia.
  assert (Hcmd : pci_get_word c PCI_COMMAND = pci_get_word (config d1) PCI_COMMAND); [|rewrite Hcmd; by apply clear_command].
  unfold pci_get_word. f_equal. apply aread_same. unfold PCI_COMMAND. intros j Hj. rewrite Hlow by lia. cbn [set_config config].
  unfold c3. rewrite !aget_aset_ne by (unfold PCI_INTERRUPT_LINE, PCI_CACHE_LINE_SIZE; lia).
  unfold d2, clear_writable. cbn [set_config config]. apply set_word_out. unfold PCI_STATUS. lia.
Qed.

(** With the decoders off, updating the mappings removes them all. *)
Lemma unmap_all d :
  maps_ok d → tst (pci_get_word (config d) PCI_COMMAND) PCI_COMMAND_IO = false → tst (pci_get_word (config d) PCI_COMMAND) PCI_COMMAND_MEMORY = false →
  ∃ rs m v, pci_update_mappings d = Ok (set_vga v (set_regions rs m d)) ∧
    let d' := set_vga v (set_regions rs m d) in
    maps_ok d' ∧ synced d' ∧ (∀ i, 0 ≤ i < PCI_NUM_REGIONS → r_type (region d' i) = r_type (region d i) ∧ mapped d' !! i = None).
Proof.
  intros Hmap Hio Hmem. destruct (pci_update_mappings_spec d Hmap) as (rs & m & v & Em & Hmap' & Hreg).
  exists rs, m, v. split; [done|]. cbv zeta. split; [exact Hmap'|].
  assert (Hun : ∀ i ty sz, pci_bar_address d i ty sz = PCI_BAR_UNMAPPED) by (intros i ty sz; unfold pci_bar_address; rewrite Hio, Hmem; by case_match).
  assert (Hreg' : ∀ i, 0 ≤ i < PCI_NUM_REGIONS → region (set_regions rs m d) i = if r_size (region d i) =? 0 then region d i else mkRegion PCI_BAR_UNMAPPED (r_size (region d i)) (r_type (region d i))).
  { intros i Hi. rewrite Hreg by done. unfold remap. cbv zeta. by rewrite Hun. }
  split.
  - intros i Hi. rewrite region_set_vga. unfold remap. cbv zeta. rewrite region_set_vga, Hreg' by done.
    destruct (r_size (region d i) =? 0) eqn:E; cbn [r_size r_type]; rewrite E; [done|]. f_equal. symmetry. apply (Hun i).
  - intros i Hi. rewrite region_set_vga. pose proof (Hmap' i Hi) as Hmi. cbn [set_vga mapped]. rewrite Hmi, Hreg' by done.
    destruct (r_size (region d i) =? 0) eqn:E; cbn [r_size r_addr r_type]; by rewrite E.
Qed.

Section Reset.
Context (msi : MsiOps) (Hmsi : MsiLaws msi) (reset : Z → PciSys → res PciSys).

Lemma reset_tail {B} (k : PciSys → PCIDevice → res B) fuel a d s :
  irq_state d = 0 → (s ← pci_device_deassert_intx fuel a (put_dev a d s); d ← get_dev a s; k s d) = k (put_dev a d s) d.
Proof.
  intros Hi. assert (Ha : devs (put_dev a d s) !! a = Some d) by apply lookup_insert_eq. unfold pci_device_deassert_intx.
  rewrite (deassert_low pins fuel a _ d Ha Hi). cbn [mbind res_bind]. unfold get_dev. by rewrite Ha.
Qed.

(** Whatever the handler of the device left: the device ends up with its pins low and enabled, its
    decoders off and its regions unmapped.  No bus is touched. *)
Lemma pci_device_reset_ok fuel a s s1 d :
  reset a s = Ok s1 → devs s1 !! a = Some d → dev_ok d → msi_dev msi d → command_writable d →
  ∃ s' d', pci_device_reset msi reset fuel a s = Ok s' ∧ devs s' = <[a := d']> (devs s1) ∧ buses s' = buses s1 ∧ sent s' = sent s1 ∧
    dev_ok d' ∧ msi_dev msi d' ∧ irq_state d' = 0 ∧ statics d' = statics d ∧ pci_irq_disabled d' = false ∧
    (∀ i, 0 ≤ i < PCI_NUM_REGIONS → mapped d' !! i = None) ∧
    tst (pci_get_word (config d') PCI_COMMAND) PCI_COMMAND_MASTER = false ∧ bus_master d' = bus_master d.
Proof.
  intros Hr Ha [Hm Hmap [Hbw Hbh] _] [Hno Hnx] Hcw. unfold pci_device_reset. rewrite Hr. cbn [mbind res_bind]. assert (Hg : get_dev a s1 = Ok d) by (unfold get_dev; by rewrite Ha). rewrite Hg. cbn [mbind res_bind].
  remember (pci_update_irq_status (set_irqs 0 d)) as d0 eqn:E0. cbv zeta.
  rewrite (reset_tail (λ s d, d ← pci_update_mappings (reset_registers d); Ok (put_dev a (msix_reset msi (msi_reset msi d)) s))) by (by rewrite E0).
  assert (Hm0 : masks_ok d0).
  { rewrite E0. apply (masks_config (set_irqs 0 d)); [by destruct Hm; split|]. apply afits_aset; [apply Hm|]. apply clr_fits; [lia|apply Hm]. }
  assert (Hst : statics d0 = statics d) by (by rewrite E0).
  assert (Hw0 : wmask d0 = wmask d) by (by injection Hst).
  assert (Hmap0 : maps_ok d0) by (by rewrite E0). assert (Hr0 : io_regions d0 = io_regions d) by (by rewrite E0).
  assert (Hi0 : irq_state d0 = 0) by (by rewrite E0). assert (Hb0 : bus_master d0 = bus_master d) by (by rewrite E0).
  assert (Hab : ∀ j, PCI_CONFIG_HEADER_SIZE ≤ j → aget (config d0) j = aget (config d) j).
  { rewrite E0. intros j Hj. cbn. apply aget_aset_ne. unfold PCI_STATUS, PCI_CONFIG_HEADER_SIZE in *. lia. } clear E0.
  assert (Hcw0 : command_writable d0) by (unfold command_writable; by rewrite Hw0).
  destruct (reset_registers_spec d0 Hm0 Hcw0) as (c & -> & Hc & Habc & Hbits).
  destruct (unmap_all (set_config c d0)) as (rs & m & v & Em & Hmap' & Hsy & Hi'); [exact Hmap0|apply Hbits; by left|apply Hbits; right; by left|].
  rewrite Em. cbn [mbind res_bind]. set (d4 := set_vga v (set_regions rs m (set_config c d0))) in *.
  assert (Hst4 : statics d4 = statics d) by exact Hst.
  assert (Hd4 : dev_ok d4).
  { split; [|exact Hmap'| |exact Hsy].
    - destruct (masks_config d0 c Hm0 Hc). by split.
    - split; [|change (wmask d4) with (wmask d0); by rewrite Hw0]. intros i Hi. rewrite (proj1 (Hi' i Hi)).
      change (region (set_config c d0) i) with (default no_region (io_regions d0 !! i)). rewrite Hr0. by apply Hbw. }
  assert (Hno4 : msi_ok msi d4) by (apply (msi_ext d); [done|done|]; intros j Hj; change (config d4) with c; rewrite Habc by done; by apply Hab).
  destruct (msi_reset_keeps d4 (do_masks _ Hd4) Hno4) as (c5 & E5 & Hc5 & Hno5 & Hlow). rewrite E5.
  pose proof (msix_idle_ext d (set_config c5 d4) Hnx Hst4) as Hnx5.
  rewrite msix_idle_reset by done. assert (Hcmd : pci_get_word c5 PCI_COMMAND = pci_get_word c PCI_COMMAND).
  { unfold pci_get_word. f_equal. apply aread_same. intros j Hj. apply Hlow. unfold PCI_COMMAND, PCI_CONFIG_HEADER_SIZE in *. lia. }
  eexists _, (set_config c5 d4). split; [reflexivity|]. cbn [put_dev devs buses sent]. split; [by rewrite insert_insert_eq|]. do 2 (split; [done|]). split.
  { apply dev_ok_config; [done|done|]. intros j Hj. apply Hlow. unfold decoding, PCI_HEADER_TYPE, PCI_CONFIG_HEADER_SIZE in *. lia. }
  do 3 (split; [done|]). unfold pci_irq_disabled. cbn [set_config config]. rewrite Hcmd. split; [apply Hbits; do 3 right; by left|].
  split; [|split; [apply Hbits; do 2 right; by left|done]]. intros i Hi. by apply Hi'.
Qed.
End Reset.

Section Leak.
Context (msi : MsiOps) (Hmsi : MsiLaws msi) (reset : Z → PciSys → res PciSys).

(** Resetting a device whose pin is up, when its own handler leaves the pin alone: the levels are
    forgotten before the pins are lowered, so the counter of the line is never decreased.  No pin
    of the device is up any more, but the line stays up and the counters are wrong from then on. *)
Theorem pci_device_reset_leaks fuel a d s b irq p :
  sys_ok msi fuel s → reset a s = Ok s → devs s !! a = Some d → command_writable d → p ∈ pins → drives fuel s b irq a p →
  ∃ s' d', pci_device_reset msi reset fuel a s = Ok s' ∧ devs s' !! a = Some d' ∧
    (∀ q, q ∈ pins → pci_irq_state d' q = 0) ∧ pci_bus_get_irq_level b irq s' = Ok true ∧ ¬ counts_ok fuel s'.
Proof.
  intros Hs Hr Ha Hcw Hp Hdr. destruct (so_devs _ _ _ Hs a d Ha) as (Hd & Hno & _). pose proof (so_counts _ _ _ Hs) as Hk.
  destruct Hdr as (d0 & Ha0 & Hrt & Hst & Hdis). rewrite Ha in Ha0. simplify_eq.
  destruct (ct_route _ _ _ Hk a d0 p Ha Hp) as (b' & irq' & x & Hrt' & Hb & Hx & Hi). rewrite Hrt in Hrt'. injection Hrt' as <- <-.
  destruct (pci_device_reset_ok msi Hmsi reset fuel a s s d0 Hr Ha Hd Hno Hcw) as (s' & d' & E & Hds & Hbs & Hse & _ & _ & Hi0 & Hsta & _).
  assert (Hpl : dev_place d' = dev_place d0) by (injection Hsta as _ _ _ _ E1 E2; unfold dev_place; congruence).
  exists s', d'. split; [done|]. split; [by rewrite Hds, lookup_insert_eq|].
  assert (H0 : ∀ q, q ∈ pins → pci_irq_state d' q = 0) by (intros q _; unfold pci_irq_state; by rewrite Hi0, Z.shiftr_0_l).
  split; [done|]. destruct (counts_line fuel s b x irq Hk Hb Hx Hi) as [Hlev Hor].
  assert (Hup : default false (host_irq x !! irq) = true) by (apply Hor; exists a, p; split; [done|by exists d0]).
  split; [rewrite <-Hup, <-Hlev; unfold pci_bus_get_irq_level, get_bus; by rewrite Hbs|].
  intros Hk'. assert (Es : s' = put_dev a d' s) by (destruct s'; cbn in *; by subst).
  pose proof (ct_count _ _ _ Hk b x irq Hb Hx Hi) as C1. pose proof (ct_count _ _ _ Hk' b x irq ltac:(by rewrite Hbs) Hx Hi) as C2.
  rewrite Es, (pin_count_put fuel s a d0) in C2 by done. unfold no_debt in *.
  assert (Hz : contrib fuel s b irq a d' = 0).
  { destruct (decide (contrib fuel s b irq a d' = 0)) as [|Hne]; [done|]. apply contrib_nonzero in Hne as (q & Hq & _ & Hq1).
    unfold asserted in Hq1. rewrite H0 in Hq1 by done. by destruct (pci_irq_disabled d'). }
  assert (Hnz : contrib fuel s b irq a d0 ≠ 0).
  { apply contrib_nonzero. exists p. split; [done|]. unfold hits, asserted. rewrite Hrt, Hdis. split; [by apply bool_decide_eq_true_2|done]. }
  lia.
Qed.
End Leak.

(** ** A small machine *)

(** No device has the capabilities of msi.c and msix.c. *)
Definition nomsi : MsiOps := mkMsi (λ _ _ _ _ _ s, Ok s) (λ _ _ _ _ _ s, Ok s) (λ d, d) (λ d, d) (λ d, tst (cap_present d) QEMU_PCI_CAP_MSI = false) no_msix.
#[global] Instance nomsi_laws : MsiLaws nomsi.
Proof.
  split; try done.
  - intros d d' H [= _ _ E _ _ _] _. cbn. by rewrite E.
  - intros d d' H [= _ _ E _ _ _]. cbn. unfold no_msix. by rewrite E.
  - intros fuel a addr v val l s d0 d Hk Ha Hd _ H0 [= _ _ E _ _ _] _ _ _ _. exists s, d. split; [done|]. split; [done|]. split; [apply same_topology_refl|].
    split; [by rewrite insert_id|]. split; [done|]. split; [cbn in *; by rewrite E|]. split; [done|done].
  - intros d Hm Hd. exists (config d). cbn. split; [by destruct d|]. split; [apply Hm|]. by destruct d.
Qed.

(** A network card: memory region of 128 KiB, I/O region of 64 bytes, pin A; memory decoding on. *)
Definition card0 : PCIDevice :=
  init_masks (mkDev (aset (aset ∅ PCI_COMMAND 3) PCI_INTERRUPT_PIN 1) ∅ ∅ ∅ ∅ 0 24 ∅ ∅ false None 0 0 0).
Definition with_bar (i type size : Z) (d : PCIDevice) : PCIDevice := match pci_register_bar i type size d with Ok (Some d) => d | _ => d end.
Definition card1 : PCIDevice := with_bar 0 0 (2 ^ 17) card0.
Definition card : PCIDevice := with_bar 1 PCI_BASE_ADDRESS_SPACE_IO (2 ^ 6) card1.
Definition root_bus : PCIBus := mkBus 0 true pci_swizzle_map_irq_fn {[24 := 1]} [] None 4 ∅ ∅.
Definition machine : PciSys := mkSys {[1 := card]} {[0 := root_bus]} [].

Lemma with_bar_ok d i k type :
  masks_ok d → maps_ok d → mapped d !! i = None → 0 ≤ i < PCI_ROM_SLOT → 1 ≤ k ≤ 32 → 0 ≤ type < 2 ^ k → fits 8 type →
  (tst type PCI_BASE_ADDRESS_SPACE_IO = false → tst type PCI_BASE_ADDRESS_MEM_TYPE_64 = false) →
  masks_ok (with_bar i type (2 ^ k) d) ∧ maps_ok (with_bar i type (2 ^ k) d) ∧ bar_ready (with_bar i type (2 ^ k) d) i k type ∧
  ∀ j k' type', j ≠ i → bar_ready d j k' type' → bar_ready (with_bar i type (2 ^ k) d) j k' type'.
Proof.
  intros H1 H2 H3 H4 H5 H6 H7 H8. destruct (pci_register_bar_ready d i k type H1 H2 H3 H4 H5 H6 H7 H8) as (d' & E & Hr).
  unfold with_bar. by rewrite E.
Qed.

Lemma card_parts : masks_ok card ∧ maps_ok card ∧ bar_ready card 0 17 0 ∧ bar_ready card 1 6 PCI_BASE_ADDRESS_SPACE_IO.
Proof.
  assert (Hm0 : masks_ok card0) by (apply init_masks_ok; [repeat apply afits_aset; try done; apply afits_empty; lia|done..]).
  assert (Hp0 : maps_ok card0) by (intros i Hi; unfold region; cbn; by rewrite !lookup_empty).
  destruct (with_bar_ok card0 0 17 0 Hm0 Hp0) as (Hm1 & Hp1 & Hb1 & _); try done.
  destruct (with_bar_ok card1 1 6 PCI_BASE_ADDRESS_SPACE_IO Hm1 Hp1) as (Hm2 & Hp2 & Hb2 & Hb); try done.
  split; [done|]. split; [done|]. split; [by apply Hb|done].
Qed.

Lemma regions_cases (P : Z → Prop) : P 0 → P 1 → P 2 → P 3 → P 4 → P 5 → P 6 → ∀ i, 0 ≤ i < PCI_NUM_REGIONS → P i.
Proof. intros ? ? ? ? ? ? ? i Hi. unfold PCI_NUM_REGIONS in Hi. assert (i = 0 ∨ i = 1 ∨ i = 2 ∨ i = 3 ∨ i = 4 ∨ i = 5 ∨ i = 6) by lia. naive_solver. Qed.

Lemma card_ok : dev_ok card ∧ msi_dev nomsi card ∧ pin_ok card.
Proof.
  destruct card_parts as (Hm & Hp & _). split; [split; [done|done| |]|split].
  - split; [|vm_compute; reflexivity]. intros i Hi _. revert i Hi.
    refine (regions_cases (λ i, tst (r_type (region card i)) PCI_BASE_ADDRESS_MEM_TYPE_64 = true → i < 5) _ _ _ _ _ _ _); vm_compute; congruence.
  - refine (regions_cases (λ i, region card i = remap card i) _ _ _ _ _ _ _); vm_compute; reflexivity.
  - split; vm_compute; reflexivity.
  - assert (E : aget (config card) PCI_INTERRUPT_PIN = 1) by (vm_compute; reflexivity). split; [rewrite E; lia|vm_compute; reflexivity].
Qed.

Lemma machine_route p : p ∈ pins → irq_route 1 1 p machine = Ok (0, (p + 3) mod 4).
Proof. intros Hp. apply in_pins in Hp. assert (p = 0 ∨ p = 1 ∨ p = 2 ∨ p = 3) as [->|[->|[->| ->]]] by lia; vm_compute; reflexivity. Qed.

Lemma machine_devs a d : devs machine !! a = Some d → a = 1 ∧ d = card.
Proof. change (devs machine) with ({[1 := card]} : gmap Z PCIDevice). rewrite lookup_singleton_Some. by intros [<- <-]. Qed.
Lemma machine_buses b x : buses machine !! b = Some x → b = 0 ∧ x = root_bus.
Proof. change (buses machine) with ({[0 := root_bus]} : gmap Z PCIBus). rewrite lookup_singleton_Some. by intros [<- <-]. Qed.
Lemma machine_counts : counts_ok 1 machine.
Proof.
  split.
  - intros a d p Ha Hp. apply machine_devs in Ha as [-> ->]. exists 0, ((p + 3) mod 4), root_bus. split; [by apply machine_route|].
    split; [by apply lookup_singleton_eq|]. split; [done|]. cbn. pose proof (Z.mod_pos_bound (p + 3) 4). lia.
  - intros b x irq Hb Hx Hi. apply machine_buses in Hb as [-> ->]. cbn [irq_count root_bus nirq] in *.
    assert (irq = 0 ∨ irq = 1 ∨ irq = 2 ∨ irq = 3) as [->|[->|[->| ->]]] by lia; vm_compute; reflexivity.
  - intros b x irq Hb _ _. apply machine_buses in Hb as [-> ->]. cbn [irq_count host_irq root_bus]. by rewrite lookup_empty, aget_empty.
  - vm_compute. reflexivity.
Qed.
Lemma machine_ok : sys_ok nomsi 1 machine.
Proof. split; [apply machine_counts|]. intros a d Ha. apply machine_devs in Ha as [-> ->]. apply card_ok. Qed.
Lemma machine_card : devs machine !! 1 = Some card.
Proof. apply lookup_singleton_eq. Qed.

Lemma card_command : tst (pci_get_word (config card) PCI_COMMAND) (decode_bit 0) = true.
Proof. vm_compute. reflexivity. Qed.
Lemma card_writable : command_writable card.
Proof. vm_compute. reflexivity. Qed.

Lemma pci_bar_programming_witness :
  ∃ s1 d1 s2 d2,
    pci_default_write_config nomsi 1 1 (pci_bar card 0) UINT32_MAX 4 machine = Ok s1 ∧ devs s1 !! 1 = Some d1 ∧
    pci_default_read_config d1 (pci_bar card 0) 4 = Ok (2 ^ 32 - 2 ^ 17 + 0) ∧ mapped d1 !! 0 = None ∧
    pci_default_write_config nomsi 1 1 (pci_bar card 0) 0xfebc0000 4 s1 = Ok s2 ∧ devs s2 !! 1 = Some d2 ∧
    pci_default_read_config d2 (pci_bar card 0) 4 = Ok (0xfebc0000 + 0) ∧ mapped d2 !! 0 = Some 0xfebc0000 ∧ pci_get_bar_addr 0 d2 = 0xfebc0000.
Proof.
  apply (pci_bar_programming nomsi nomsi_laws 1 machine 1 card 0 17 0 0xfebc0000 machine_ok machine_card (proj1 (proj2 (proj2 card_parts))) card_command);
  [lia|reflexivity|unfold UINT32_MAX; lia].
Defined.

(** Pin A of the card raised, disabled by the guest, lowered and enabled again. *)
Definition pin_story : list pci_op := [OpSetIrq 1 1; OpWrite 1 PCI_COMMAND 0x403 2; OpSetIrq 1 0; OpWrite 1 PCI_COMMAND 3 2; OpPin 1 2 1].
Lemma pin_story_ok : Forall (λ o, op_ok o ∧ is_Some (devs machine !! op_dev o)) pin_story.
Proof.
  assert (Hc : is_Some (devs machine !! 1)) by (exists card; apply machine_card).
  unfold pin_story. repeat (apply Forall_cons; split; [split; [|exact Hc]|]); try apply Forall_nil; try done; cbn [op_ok];
  unfold PCI_COMMAND, PCI_CONFIG_SPACE_SIZE; try lia. split; [apply in_pins; lia|lia].
Qed.
Lemma pci_lines_wired_or_witness :
  ∃ s', run nomsi 1 pin_story machine = Ok s' ∧
    ∀ b x irq, buses s' !! b = Some x → set_irq x = true → 0 ≤ irq < nirq x →
      pci_bus_get_irq_level b irq s' = Ok (default false (host_irq x !! irq)) ∧
      (default false (host_irq x !! irq) = true ↔ ∃ a p, p ∈ pins ∧ drives 1 s' b irq a p).
Proof. apply (pci_lines_wired_or nomsi nomsi_laws 1 pin_story machine machine_ok pin_story_ok). Defined.
(** The lines the story ends with. *)
Example pin_story_lines :
  (s ← run nomsi 1 pin_story machine; x ← get_bus 0 s; Ok (map (λ i, host_irq x !! i) [0; 1; 2; 3])) =
  Ok [Some false; Some true; Some false; Some false].
Proof. vm_compute. reflexivity. Qed.

(** The card with its pin A up. *)
Definition pin_up : PciSys := match run nomsi 1 [OpSetIrq 1 1] machine with Ok s => s | _ => machine end.
Lemma pin_up_run : run nomsi 1 [OpSetIrq 1 1] machine = Ok pin_up.
Proof.
  assert (H : match run nomsi 1 [OpSetIrq 1 1] machine with Ok _ => true | _ => false end = true) by (vm_compute; reflexivity).
  unfold pin_up. by destruct (run nomsi 1 [OpSetIrq 1 1] machine).
Qed.
Lemma pin_up_ok : sys_ok nomsi 1 pin_up.
Proof.
  destruct (run_ok nomsi nomsi_laws 1 [OpSetIrq 1 1] machine machine_ok) as (s & E & Hs & _).
  { apply Forall_cons. split; [|by apply Forall_nil]. split; [by right|exists card; apply machine_card]. }
  rewrite pin_up_run in E. by injection E as <-.
Qed.
Definition card_up : PCIDevice := match devs pin_up !! 1 with Some d => d | None => card end.
Lemma card_up_in : devs pin_up !! 1 = Some card_up.
Proof.
  assert (H : match devs pin_up !! 1 with Some _ => true | None => false end = true) by (vm_compute; reflexivity).
  unfold card_up. by destruct (devs pin_up !! 1).
Qed.
Lemma card_up_writable : command_writable card_up.
Proof. vm_compute. reflexivity. Qed.
Lemma card_up_drives : drives 1 pin_up 0 3 1 0.
Proof. exists card_up. split; [apply card_up_in|]. split; [vm_compute; reflexivity|]. split; vm_compute; reflexivity. Qed.
Lemma pin_A : 0 ∈ pins.
Proof. apply in_pins. lia. Qed.

Lemma pci_device_reset_leaks_witness :
  ∃ s' d', pci_device_reset nomsi (λ _ s, Ok s) 1 1 pin_up = Ok s' ∧ devs s' !! 1 = Some d' ∧
    (∀ q, q ∈ pins → pci_irq_state d' q = 0) ∧ pci_bus_get_irq_level 0 3 s' = Ok true ∧ ¬ counts_ok 1 s'.
Proof.
  apply (pci_device_reset_leaks nomsi nomsi_laws (λ _ s, Ok s) 1 1 card_up pin_up 0 3 0 pin_up_ok eq_refl card_up_in card_up_writable pin_A card_up_drives).
Defined.

(** The level and the counter of line 3 of the machine. *)
Definition line3 (s : PciSys) : res (option bool * Z) := x ← get_bus 0 s; Ok (host_irq x !! 3, aget (irq_count x) 3).

(** Raising and lowering the pin after such a reset does not help: the line never goes down again. *)
Lemma reset_line_stuck :
  (s ← pci_device_reset nomsi (λ _ s, Ok s) 1 1 pin_up; s ← pci_set_irq 1 1 1 s; s ← pci_set_irq 1 1 0 s; line3 s) = Ok (Some true, 1).
Proof. vm_compute. reflexivity. Qed.

(** A bus reset zeroes the counters first: a device whose handler then lowers its pin takes the
    counter below zero, and the line goes up with no pin up. *)
Lemma bus_reset_unsyncs :
  (s ← pci_bus_reset nomsi (λ a s, pci_set_irq 1 a 0 s) 1 0 pin_up; line3 s) = Ok (Some true, -1).
Proof. vm_compute. reflexivity. Qed.

(** Setting the disable bit by a write to the upper byte of the command register alone: the
    counters are not adjusted, and the pin is lowered without them. *)
Lemma byte_write_stuck :
  (s ← pci_default_write_config nomsi 1 1 (PCI_COMMAND + 1) 4 1 pin_up; s ← pci_set_irq 1 1 0 s;
   s ← pci_default_write_config nomsi 1 1 PCI_COMMAND 3 2 s; line3 s) = Ok (Some true, 1).
Proof. vm_compute. reflexivity. Qed.

End PciBus.
