(* ===== verification/PciHost.v ===== *)
(** How the guest and the machine reach the devices of a PCI bus: putting a device on a bus and
    taking it off (do_pci_register_device of hw/pci/pci.c), finding a device by its bus number
    through the bridges, the address and data ports of a host bridge (hw/pci/pci_host.c), and the
    migration of the configuration space and the pin levels.  Devices use the default functions
    for accesses to their configuration space. *)

From S2P Require Import Prelude Pci PciBus VMState.
Import Pci PciBus.

Module PciHost.

(** ** Constants *)

Definition PCI_PRIMARY_BUS : Z := 0x18.
Definition PCI_SECONDARY_BUS : Z := 0x19.
Definition PCI_SUBORDINATE_BUS : Z := 0x1a.
Definition PCI_IO_BASE : Z := 0x1c.
Definition PCI_IO_LIMIT : Z := 0x1d.
Definition PCI_IO_RANGE_TYPE_16 : Z := 0x00.
Definition PCI_IO_RANGE_TYPE_MASK : Z := 0x0f.
Definition PCI_MEMORY_BASE : Z := 0x20.
Definition PCI_MEMORY_LIMIT : Z := 0x22.
Definition PCI_PREF_MEMORY_BASE : Z := 0x24.
Definition PCI_PREF_MEMORY_LIMIT : Z := 0x26.
Definition PCI_PREF_RANGE_TYPE_64 : Z := 0x01.
Definition PCI_PREF_RANGE_TYPE_MASK : Z := 0x0f.
Definition PCI_PREF_BASE_UPPER32 : Z := 0x28.
Definition PCI_PREF_LIMIT_UPPER32 : Z := 0x2c.
Definition PCI_IO_BASE_UPPER16 : Z := 0x30.
Definition PCI_IO_LIMIT_UPPER16 : Z := 0x32.
Definition PCI_IO_RANGE_TYPE_32 : Z := 0x01.
(** The masks of the ranges are [~0x0fUL]. *)
Definition PCI_RANGE_LOW : Z := 0x0f.
Definition PCI_BASE_ADDRESS_MEM_PREFETCH : Z := 0x08.
Definition PCI_BRIDGE_CONTROL : Z := 0x3e.
Definition PCI_BRIDGE_CTL_VGA : Z := 0x08.
Definition PCI_BRIDGE_CTL_BUS_RESET : Z := 0x40.
Definition PCI_BRIDGE_CTL_DISCARD_STATUS : Z := 0x400.
(** Parity, SERR, ISA, VGA, VGA16, master abort, bus reset, fast back-to-back, the discard timers. *)
Definition PCI_BRIDGE_CTL_WRITABLE : Z := 0xbff.
Definition PCI_SUBVENDOR_ID_REDHAT_QUMRANET : Z := 0x1af4.
Definition PCI_SUBDEVICE_ID_QEMU : Z := 0x1100.

(** ** Putting a device on a bus *)

Record PCIDeviceClass : Type := mkClass {
  vendor_id : Z;
  device_id : Z;
  revision : Z;
  class_id : Z;
  subsystem_vendor_id : Z;
  subsystem_id : Z;
  is_bridge : bool;
}.

Definition pci_set_default_subsystem_id (d : PCIDevice) : PCIDevice :=
  set_config (pci_set_word (pci_set_word (config d) PCI_SUBSYSTEM_VENDOR_ID PCI_SUBVENDOR_ID_REDHAT_QUMRANET)
    PCI_SUBSYSTEM_ID PCI_SUBDEVICE_ID_QEMU) d.

Definition pci_init_mask_bridge (d : PCIDevice) : PCIDevice :=
  let w := awrite (wmask d) PCI_PRIMARY_BUS (replicate 4 0xff) in
  let w := aset (aset w PCI_IO_BASE 0xf0) PCI_IO_LIMIT 0xf0 in
  let w := pci_set_word (pci_set_word w PCI_MEMORY_BASE 0xfff0) PCI_MEMORY_LIMIT 0xfff0 in
  let w := pci_set_word (pci_set_word w PCI_PREF_MEMORY_BASE 0xfff0) PCI_PREF_MEMORY_LIMIT 0xfff0 in
  let w := awrite w PCI_PREF_BASE_UPPER32 (replicate 8 0xff) in
  let c := aset (config d) PCI_IO_BASE (Z.lor (aget (config d) PCI_IO_BASE) PCI_IO_RANGE_TYPE_16) in
  let c := aset c PCI_IO_LIMIT (Z.lor (aget c PCI_IO_LIMIT) PCI_IO_RANGE_TYPE_16) in
  let c := pci_word_test_and_set_mask c PCI_PREF_MEMORY_BASE PCI_PREF_RANGE_TYPE_64 in
  let c := pci_word_test_and_set_mask c PCI_PREF_MEMORY_LIMIT PCI_PREF_RANGE_TYPE_64 in
  let w := pci_set_word w PCI_BRIDGE_CONTROL PCI_BRIDGE_CTL_WRITABLE in
  let w1 := pci_set_word (w1cmask d) PCI_BRIDGE_CONTROL PCI_BRIDGE_CTL_DISCARD_STATUS in
  let k := aset (cmask d) PCI_IO_BASE (Z.lor (aget (cmask d) PCI_IO_BASE) PCI_IO_RANGE_TYPE_MASK) in
  let k := aset k PCI_IO_LIMIT (Z.lor (aget k PCI_IO_LIMIT) PCI_IO_RANGE_TYPE_MASK) in
  let k := pci_word_test_and_set_mask k PCI_PREF_MEMORY_BASE PCI_PREF_RANGE_TYPE_MASK in
  let k := pci_word_test_and_set_mask k PCI_PREF_MEMORY_LIMIT PCI_PREF_RANGE_TYPE_MASK in
  set_cmask k (set_w1cmask w1 (set_config c (set_wmask w d))).

(** The function numbers 1 to 7 of the slot. *)
Definition other_functions (slot : Z) : list Z := PCI_DEVFN slot <$> [1; 2; 3; 4; 5; 6; 7].

(** The device, its header type updated, or [None] for the error. *)
Definition pci_init_multifunction (x : PCIBus) (s : PciSys) (d : PCIDevice) : res (option PCIDevice) :=
  let slot := PCI_SLOT (devfn d) in
  let multi := tst (cap_present d) QEMU_PCI_CAP_MULTIFUNCTION in
  let d := if multi then set_config (aset (config d) PCI_HEADER_TYPE (Z.lor (aget (config d) PCI_HEADER_TYPE) PCI_HEADER_TYPE_MULTI_FUNCTION)) d else d in
  if negb (PCI_FUNC (devfn d) =? 0) then
    match devices x !! PCI_DEVFN slot 0 with
    | None => Ok (Some d)
    | Some a0 => f0 ← get_dev a0 s;
                 Ok (if tst (cap_present f0) QEMU_PCI_CAP_MULTIFUNCTION then Some d else None)
    end
  else if multi then Ok (Some d)
  else Ok (if existsb (λ f, bool_decide (is_Some (devices x !! f))) (other_functions slot) then None else Some d).

Definition pci_config_alloc (d : PCIDevice) : PCIDevice :=
  set_used ∅ (set_w1cmask ∅ (set_wmask ∅ (set_cmask ∅ (set_config ∅ d)))).

Definition set_place (b f : Z) (d : PCIDevice) : PCIDevice :=
  mkDev (config d) (cmask d) (wmask d) (w1cmask d) (used d) b f (io_regions d) (mapped d)
    (bus_master d) (vga d) (irq_state d) (cap_present d) (msi_cap d).

(** The search for a free slot: [n] rounds from [f]. *)
Fixpoint find_slot (n : nat) (f : Z) (x : PCIBus) : option Z :=
  match n with
  | O => None
  | S n => if negb (f <? PCI_DEVICES) then None
           else match devices x !! f with None => Some f | Some _ => find_slot n (f + PCI_FUNC_MAX) x end
  end.
Definition pick_devfn (x : PCIBus) (f : Z) : res (option Z) :=
  if f <? 0 then Ok (find_slot 33 (devfn_min x) x)
  else if negb (f <? PCI_DEVICES) then Fault OutOfBounds
  else Ok (match devices x !! f with None => Some f | Some _ => None end).

(** The configuration space of the new device; [None]: an assertion about a bridge fails. *)
Definition init_config (pc : PCIDeviceClass) (d : PCIDevice) : res PCIDevice :=
  let c := pci_set_word (config d) PCI_VENDOR_ID (vendor_id pc) in
  let c := pci_set_word c PCI_DEVICE_ID (device_id pc) in
  let c := pci_set_byte c PCI_REVISION_ID (revision pc) in
  let c := pci_set_word c PCI_CLASS_DEVICE (class_id pc) in
  let d := set_config c d in
  if negb (is_bridge pc) then
    if negb (subsystem_vendor_id pc =? 0) || negb (subsystem_id pc =? 0) then
      Ok (set_config (pci_set_word (pci_set_word (config d) PCI_SUBSYSTEM_VENDOR_ID (subsystem_vendor_id pc))
            PCI_SUBSYSTEM_ID (subsystem_id pc)) d)
    else Ok (pci_set_default_subsystem_id d)
  else if negb (subsystem_vendor_id pc =? 0) || negb (subsystem_id pc =? 0) then Fault AssertFail
  else Ok d.

(** [a] is the device object (all its fields set by the caller are in [d]); [None] is the error
    return, which leaves the bus as it was. *)
Definition do_pci_register_device (pc : PCIDeviceClass) (a b f : Z) (d : PCIDevice) (s : PciSys) : res (option PciSys) :=
  x ← get_bus b s;
  o ← pick_devfn x f;
  match o with
  | None => Ok None
  | Some f =>
      let d := set_irqs 0 (set_bus_master false (set_place b f d)) in
      d ← init_config pc (pci_config_alloc d);
      let d := pci_init_w1cmask (pci_init_wmask (pci_init_cmask d)) in
      let d := if is_bridge pc then pci_init_mask_bridge d else d in
      r ← pci_init_multifunction x s d;
      Ok (match r with
          | None => None
          | Some d => Some (put_dev a d (put_bus b (set_devices (<[f := a]> (devices x)) x) s))
          end)
  end.

(** What [do_pci_unregister_device] does to the bus: the slot is cleared, the configuration space freed. *)
Definition leave_bus (a : Z) (s : PciSys) : res PciSys :=
  d ← get_dev a s;
  x ← get_bus (bus d) s;
  Ok (mkSys (delete a (devs s)) (<[bus d := set_devices (delete (devfn d) (devices x)) x]> (buses s)) (sent s)).

(** ** Finding a device *)

Definition pci_bus_is_root (x : PCIBus) : bool := match parent_dev x with None => true | Some _ => false end.
Definition pci_bus_num (x : PCIBus) (s : PciSys) : res Z :=
  match parent_dev x with None => Ok 0 | Some p => d ← get_dev p s; Ok (aget (config d) PCI_SECONDARY_BUS) end.
Definition pci_secondary_bus_in_range (d : PCIDevice) (bus_num : Z) : bool :=
  negb (tst (pci_get_word (config d) PCI_BRIDGE_CONTROL) PCI_BRIDGE_CTL_BUS_RESET) &&
  (aget (config d) PCI_SECONDARY_BUS <? bus_num) && (bus_num <=? aget (config d) PCI_SUBORDINATE_BUS).

(** The walk over the child buses: found, to be continued below a child, or at the end. *)
Inductive scan : Type := Found (b : Z) | Below (b : Z) | Missing.
Fixpoint scan_children (l : list Z) (bus_num : Z) (s : PciSys) : res scan :=
  match l with
  | [] => Ok Missing
  | sec :: l =>
      x ← get_bus sec s;
      match parent_dev x with
      | None => Fault AssertFail
      | Some p =>
          d ← get_dev p s;
          if aget (config d) PCI_SECONDARY_BUS =? bus_num then Ok (Found sec)
          else if pci_secondary_bus_in_range d bus_num then Ok (Below sec)
          else scan_children l bus_num s
      end
  end.
Fixpoint descend (fuel : nat) (b bus_num : Z) (s : PciSys) : res (option Z) :=
  match fuel with
  | O => Diverge
  | S fuel =>
      x ← get_bus b s;
      r ← scan_children (child x) bus_num s;
      match r with Found c => Ok (Some c) | Below c => descend fuel c bus_num s | Missing => Ok None end
  end.
Definition pci_find_bus_nr (fuel : nat) (b bus_num : Z) (s : PciSys) : res (option Z) :=
  x ← get_bus b s;
  n ← pci_bus_num x s;
  if n =? bus_num then Ok (Some b)
  else
    r ← (match parent_dev x with None => Ok true | Some p => d ← get_dev p s; Ok (pci_secondary_bus_in_range d bus_num) end);
    if negb r then Ok None else descend fuel b bus_num s.
Definition pci_find_device (fuel : nat) (b bus_num f : Z) (s : PciSys) : res (option Z) :=
  r ← pci_find_bus_nr fuel b bus_num s;
  match r with None => Ok None | Some b => x ← get_bus b s; Ok (devices x !! f) end.

(** ** The ports of a host bridge *)

Record PCIHostState : Type := mkHost {
  config_reg : Z;
  hbus : Z;
}.

Definition pci_dev_find_by_addr (fuel : nat) (b addr : Z) (s : PciSys) : res (option Z) :=
  pci_find_device fuel b (u8 (Z.shiftr addr 16)) (u8 (Z.shiftr addr 8)) s.

Section Host.
Context (msi : MsiOps) (fuel : nat).

Definition pci_host_config_write_common (a addr limit val len : Z) (s : PciSys) : res PciSys :=
  if 4 <? len then Fault AssertFail
  else pci_default_write_config msi fuel a addr val (Z.min len (u32 (limit - addr))) s.
Definition pci_host_config_read_common (d : PCIDevice) (addr limit len : Z) : res Z :=
  if 4 <? len then Fault AssertFail
  else pci_default_read_config d addr (Z.min len (u32 (limit - addr))).

Definition pci_data_write (b addr val len : Z) (s : PciSys) : res PciSys :=
  r ← pci_dev_find_by_addr fuel b addr s;
  let config_addr := Z.land addr (PCI_CONFIG_SPACE_SIZE - 1) in
  match r with None => Ok s | Some a => pci_host_config_write_common a config_addr PCI_CONFIG_SPACE_SIZE val len s end.
Definition pci_data_read (b addr len : Z) (s : PciSys) : res Z :=
  r ← pci_dev_find_by_addr fuel b addr s;
  let config_addr := Z.land addr (PCI_CONFIG_SPACE_SIZE - 1) in
  match r with
  | None => Ok 0xffffffff
  | Some a => d ← get_dev a s; pci_host_config_read_common d config_addr PCI_CONFIG_SPACE_SIZE len
  end.

Definition pci_host_config_write (addr val len : Z) (h : PCIHostState) : PCIHostState :=
  if negb (addr =? 0) || negb (len =? 4) then h else mkHost (u32 val) (hbus h).
Definition pci_host_config_read (h : PCIHostState) : Z := config_reg h.
Definition pci_host_data_write (h : PCIHostState) (addr val len : Z) (s : PciSys) : res PciSys :=
  if tst (config_reg h) (2 ^ 31) then pci_data_write (hbus h) (Z.lor (config_reg h) (Z.land addr 3)) (u32 val) len s else Ok s.
Definition pci_host_data_read (h : PCIHostState) (addr len : Z) (s : PciSys) : res Z :=
  if negb (tst (config_reg h) (2 ^ 31)) then Ok 0xffffffff
  else pci_data_read (hbus h) (Z.lor (config_reg h) (Z.land addr 3)) len s.
End Host.

(** ** Migration *)

Definition put_pci_config_device (size : Z) (d : PCIDevice) : res (list Z) :=
  if negb (size =? pci_config_size d) then Fault AssertFail else Ok (aread (config d) 0 (Z.to_nat size)).

(** The bits that must not change. *)
Definition fixed (d : PCIDevice) (j : Z) : Z := clr (clr (aget (cmask d) j) (aget (wmask d) j)) (aget (w1cmask d) j).

(** *** The windows of a bridge *)

Definition pci_config_get_io_base (c : arr) (base base_upper16 : Z) : Z :=
  let val := Z.shiftl (clr (aget c base) PCI_RANGE_LOW) 8 in
  if tst (aget c base) PCI_IO_RANGE_TYPE_32 then Z.lor val (Z.shiftl (pci_get_word c base_upper16) 16) else val.
Definition pci_config_get_memory_base (c : arr) (base : Z) : Z :=
  Z.shiftl (clr (pci_get_word c base) PCI_RANGE_LOW) 16.
Definition pci_config_get_pref_base (c : arr) (base upper : Z) : Z :=
  let tmp := pci_get_word c base in
  let val := Z.shiftl (clr tmp PCI_RANGE_LOW) 16 in
  if tst tmp PCI_PREF_RANGE_TYPE_64 then Z.lor val (Z.shiftl (pci_get_long c upper) 32) else val.

Definition pci_bridge_get_base (c : arr) (type : Z) : Z :=
  if tst type PCI_BASE_ADDRESS_SPACE_IO then pci_config_get_io_base c PCI_IO_BASE PCI_IO_BASE_UPPER16
  else if tst type PCI_BASE_ADDRESS_MEM_PREFETCH
  then pci_config_get_pref_base c PCI_PREF_MEMORY_BASE PCI_PREF_BASE_UPPER32
  else pci_config_get_memory_base c PCI_MEMORY_BASE.
Definition pci_bridge_get_limit (c : arr) (type : Z) : Z :=
  if tst type PCI_BASE_ADDRESS_SPACE_IO
  then Z.lor (pci_config_get_io_base c PCI_IO_LIMIT PCI_IO_LIMIT_UPPER16) 0xfff
  else Z.lor (if tst type PCI_BASE_ADDRESS_MEM_PREFETCH
              then pci_config_get_pref_base c PCI_PREF_MEMORY_LIMIT PCI_PREF_LIMIT_UPPER32
              else pci_config_get_memory_base c PCI_MEMORY_LIMIT) 0xfffff.

(** Base and size of an alias. *)
Definition pci_bridge_init_alias (c : arr) (type : Z) (enabled : bool) : Z * Z :=
  let base := pci_bridge_get_base c type in
  let limit := pci_bridge_get_limit c type in
  (base, if enabled && (base <=? limit) then u64 (limit + 1 - base) else 0).

(** The aliases of a bridge into the address spaces of its parent bus; those for VGA are the
    [vga] of the device. *)
Record PCIBridgeWindows : Type := mkWindows {
  alias_pref_mem : Z * Z;
  alias_mem : Z * Z;
  alias_io : Z * Z;
}.

(** The regions enter their address spaces ([vga] is not [None]), then leave them. *)
Definition pci_register_vga (d : PCIDevice) : res PCIDevice :=
  match vga d with Some _ => Fault AssertFail | None => Ok (pci_update_vga (set_vga (Some (true, true)) d)) end.
Definition pci_unregister_vga (d : PCIDevice) : PCIDevice :=
  match vga d with None => d | Some _ => set_vga None d end.

Definition pci_bridge_windows (c : arr) : PCIBridgeWindows :=
  let cmd := pci_get_word c PCI_COMMAND in
  mkWindows (pci_bridge_init_alias c PCI_BASE_ADDRESS_MEM_PREFETCH (tst cmd PCI_COMMAND_MEMORY))
    (pci_bridge_init_alias c 0 (tst cmd PCI_COMMAND_MEMORY))
    (pci_bridge_init_alias c PCI_BASE_ADDRESS_SPACE_IO (tst cmd PCI_COMMAND_IO)).
Definition pci_bridge_region_init (d : PCIDevice) : res (PCIBridgeWindows * PCIDevice) :=
  d ← (if tst (pci_get_word (config d) PCI_BRIDGE_CONTROL) PCI_BRIDGE_CTL_VGA then pci_register_vga d else Ok d);
  Ok (pci_bridge_windows (config d), d).
(** The old windows go ([pci_bridge_region_del]), the new ones come. *)
Definition pci_bridge_update_mappings (d : PCIDevice) : res (PCIBridgeWindows * PCIDevice) :=
  pci_bridge_region_init (pci_unregister_vga d).

(** *** Loading *)

(** [junk] is what the buffer holds where the stream was too short; [br] are the windows of a device
    that is a bridge. *)
Definition get_pci_config_device (junk : arr) (size : Z) (inp : list Z) (br : option PCIBridgeWindows) (d : PCIDevice)
  : res (Z * list Z * option PCIBridgeWindows * PCIDevice) :=
  if negb (size =? pci_config_size d) then Fault AssertFail
  else
    let '(l, inp) := VMState.qemu_get_buffer (Z.to_nat size) inp in
    let c := awrite junk 0 l in
    if existsb (λ j, tst (Z.lxor (aget c j) (aget (config d) j)) (fixed d j)) (seqZ 0 size)
    then Ok (- EINVAL, inp, br, d)
    else
      d ← pci_update_mappings (set_config (awrite (config d) 0 (aread c 0 (Z.to_nat size))) d);
      '(br, d) ← (match br with
                  | Some _ => '(w, d) ← pci_bridge_update_mappings d; Ok (Some w, d)
                  | None => Ok (None, d)
                  end);
      Ok (0, inp, br, update_bus_master d).

Definition put_pci_irq_state (d : PCIDevice) : list Z := concat ((λ i, be_bytes 4 (pci_irq_state d i)) <$> pins).
(** The levels are checked one by one as they are read. *)
Fixpoint get_irq_levels (n : nat) (inp : list Z) : option (list Z) * list Z :=
  match n with
  | O => (Some [], inp)
  | S n =>
      let '(l, inp) := VMState.qemu_get_bytes 4 inp in
      let v := be_val l in
      if negb (v =? 1) && negb (v =? 0) then (None, inp)
      else match get_irq_levels n inp with (Some vs, inp) => (Some (v :: vs), inp) | r => r end
  end.
Definition get_pci_irq_state (inp : list Z) (d : PCIDevice) : Z * list Z * PCIDevice :=
  match get_irq_levels 4 inp with
  | (None, inp) => (- EINVAL, inp, d)
  | (Some vs, inp) => (0, inp, foldl (λ d '(i, v), pci_set_irq_state i v d) d (zip pins vs))
  end.

(** The fields of vmstate_pci_device (and of vmstate_pcie_device, which differs in the size), with
    [version] the version number of the device. *)
Definition pci_device_save (version : Z) (d : PCIDevice) : res (list Z * PCIDevice) :=
  let d := set_config (aset (config d) PCI_STATUS (clr (aget (config d) PCI_STATUS) PCI_STATUS_INTERRUPT)) d in
  l ← put_pci_config_device (pci_config_size d) d;
  Ok (be_bytes 4 version ++ l ++ put_pci_irq_state d, pci_update_irq_status d).
(** The name and the versions of the description; it has neither an old format nor subsections. *)
Definition pci_vmstate_name (d : PCIDevice) : string := if pci_is_express d then "PCIEDevice" else "PCIDevice".
Definition pci_vmstate_version : Z := 2.
Definition pci_vmstate_minimum : Z := 1.

(** The fields: the version number of the device, the configuration space and, from version 2 on,
    the pins. *)
Definition pci_load_fields (junk : arr) (version : Z) (inp : list Z) (br : option PCIBridgeWindows) (d : PCIDevice)
  : res (Z * list Z * Z * option PCIBridgeWindows * PCIDevice) :=
  let '(l, inp) := VMState.qemu_get_bytes 4 inp in
  let loaded := s32 (be_val l) in
  if negb ((0 <=? loaded) && (loaded <=? version)) then Ok (- EINVAL, inp, version, br, d)
  else
    '(ret, inp, br, d) ← get_pci_config_device junk (pci_config_size d) inp br d;
    if ret <? 0 then Ok (ret, inp, loaded, br, d)
    else if 2 <=? version then
      let '(ret, inp, d) := get_pci_irq_state inp d in Ok (ret, inp, loaded, br, d)
    else Ok (0, inp, loaded, br, d).

(** [vmstate_load_state] for this description. *)
Definition pci_vmstate_load (junk : arr) (version : Z) (inp : list Z) (br : option PCIBridgeWindows) (d : PCIDevice)
  : res (Z * list Z * Z * option PCIBridgeWindows * PCIDevice) :=
  if pci_vmstate_version <? version then Ok (- EINVAL, inp, version, br, d)
  else if version <? pci_vmstate_minimum then Ok (- EINVAL, inp, version, br, d)
  else
    '(ret, inp, loaded, br, d) ← pci_load_fields junk version inp br d;
    if ret <? 0 then Ok (ret, inp, loaded, br, d)
    else
      match VMState.peek_subsection (pci_vmstate_name d) inp with
      | Some _ => Ok (- VMState.ENOENT, inp, loaded, br, d)
      | None => Ok (0, inp, loaded, br, d)
      end.

Definition pci_device_load (junk : arr) (version : Z) (inp : list Z) (br : option PCIBridgeWindows) (d : PCIDevice)
  : res (Z * list Z * Z * option PCIBridgeWindows * PCIDevice) :=
  '(ret, inp, loaded, br, d) ← pci_vmstate_load junk version inp br d;
  Ok (ret, inp, loaded, br, pci_update_irq_status d).

(** ** Bus numbers *)

(** The bridge above bus [c] forwards the numbers from [lo] to [hi] and does not hold the bus in
    reset. *)
Definition numbers (s : PciSys) (c lo hi : Z) : Prop :=
  ∃ x p d, buses s !! c = Some x ∧ parent_dev x = Some p ∧ devs s !! p = Some d ∧
    aget (config d) PCI_SECONDARY_BUS = lo ∧ aget (config d) PCI_SUBORDINATE_BUS = hi ∧
    tst (pci_get_word (config d) PCI_BRIDGE_CONTROL) PCI_BRIDGE_CTL_BUS_RESET = false.

Definition is_child (s : PciSys) (c b : Z) : Prop := ∃ x, buses s !! b = Some x ∧ c ∈ child x.

(** How firmware numbers the buses: every bridge forwards an interval, the intervals of siblings
    are disjoint and those below a bridge are inside its own. *)
Record numbered (s : PciSys) : Prop := {
  nb_child : ∀ b c, is_child s c b → ∃ lo hi, numbers s c lo hi ∧ 0 < lo ≤ hi;
  nb_apart : ∀ b c c' lo hi lo' hi', is_child s c b → is_child s c' b → c ≠ c' →
    numbers s c lo hi → numbers s c' lo' hi' → hi < lo' ∨ hi' < lo;
  nb_nested : ∀ b c lo hi lo' hi', is_child s c b → numbers s b lo hi → numbers s c lo' hi' → lo < lo' ∧ hi' ≤ hi;
}.

(** [t] is [n] bridges below [b]. *)
Inductive below (s : PciSys) : nat → Z → Z → Prop :=
  | below_child b c : is_child s c b → below s 1 b c
  | below_step n b c t : is_child s c b → below s n c t → below s (S n) b t.

Lemma numbers_fun s c lo hi lo' hi' : numbers s c lo hi → numbers s c lo' hi' → lo = lo' ∧ hi = hi'.
Proof. intros (x & p & d & Hx & Hp & Hd & <- & <- & _) (x' & p' & d' & Hx' & Hp' & Hd' & <- & <- & _). by simplify_eq. Qed.

(** The numbers of all buses below a bridge are in its interval. *)
Lemma below_range s n b t lo hi lo' hi' :
  numbered s → below s n b t → numbers s b lo hi → numbers s t lo' hi' → lo < lo' ∧ lo' ≤ hi.
Proof.
  intros Hn Hb. revert lo hi. induction Hb as [b c Hc|n b c t Hc Hb IH]; intros lo hi H1 H2.
  - destruct (nb_child _ Hn b c Hc) as (l0 & h0 & H0 & Hr). destruct (numbers_fun s c l0 h0 lo' hi' H0 H2) as [-> ->].
    pose proof (nb_nested _ Hn b c _ _ _ _ Hc H1 H2). lia.
  - destruct (nb_child _ Hn b c Hc) as (l0 & h0 & H0 & Hr). pose proof (nb_nested _ Hn b c _ _ _ _ Hc H1 H0). specialize (IH l0 h0 H0 H2). lia.
Qed.
Lemma below_numbers s n b t : numbered s → below s n b t → ∃ lo hi, numbers s t lo hi ∧ 0 < lo ≤ hi.
Proof. intros Hn Hb. induction Hb as [b c Hc|]; [by eapply nb_child|done]. Qed.

(** The scan stops at the child that has the number or contains it. *)
Lemma scan_children_stops s b c n lo hi l :
  numbered s → (∀ c', c' ∈ l → is_child s c' b) → is_child s c b → c ∈ l → numbers s c lo hi → lo ≤ n ≤ hi →
  scan_children l n s = Ok (if lo =? n then Found c else Below c).
Proof.
  intros Hn Hl Hc Hin Hnum Hr. induction l as [|c' l IH]; [by apply not_elem_of_nil in Hin|].
  destruct (decide (c' = c)) as [->|Hne].
  - destruct Hnum as (x & p & d & Hx & Hp & Hd & E1 & E2 & E3). cbn [scan_children]. unfold get_bus, get_dev. rewrite Hx. cbn [mbind res_bind].
    rewrite Hp, Hd. cbn [mbind res_bind]. rewrite E1. destruct (Z.eqb_spec lo n); [done|]. unfold pci_secondary_bus_in_range. rewrite E1, E2, E3.
    by rewrite (proj2 (Z.ltb_lt lo n)), (proj2 (Z.leb_le n hi)) by lia.
  - apply elem_of_cons in Hin as [->|Hin]; [done|].
    destruct (nb_child _ Hn b c' (Hl c' ltac:(by left))) as (lo' & hi' & Hn' & Hr').
    pose proof (nb_apart _ Hn b c c' lo hi lo' hi' Hc (Hl c' ltac:(by left)) ltac:(congruence) Hnum Hn') as Hap.
    destruct Hn' as (x & p & d & Hx & Hp & Hd & E1 & E2 & E3). cbn [scan_children]. unfold get_bus, get_dev. rewrite Hx. cbn [mbind res_bind].
    rewrite Hp, Hd. cbn [mbind res_bind]. rewrite E1, (proj2 (Z.eqb_neq lo' n)) by lia. unfold pci_secondary_bus_in_range. rewrite E1, E2, E3.
    assert (Hout : negb false && (lo' <? n) && (n <=? hi') = false) by (destruct (Z.ltb_spec lo' n), (Z.leb_spec n hi'); try done; lia).
    rewrite Hout. apply IH; [intros c'' H''; apply Hl; by right|done].
Qed.

Lemma descend_finds s k fuel b t n hi :
  numbered s → below s k b t → numbers s t n hi → (k ≤ fuel)%nat → descend fuel b n s = Ok (Some t).
Proof.
  intros Hn Hb Ht. revert fuel. induction Hb as [b c Hc|k b c t Hc Hb IH]; intros fuel Hk; (destruct fuel as [|fuel]; [lia|]); cbn [descend].
  - destruct (Hc) as (x & Hx & Hin). unfold get_bus. rewrite Hx. cbn [mbind res_bind]. destruct (nb_child _ Hn b c Hc) as (l0 & h0 & H0 & Hr).
    destruct (numbers_fun _ _ _ _ _ _ H0 Ht) as [-> ->].
    rewrite (scan_children_stops s b c n n hi) by (try done; try lia; intros; by exists x). cbn [mbind res_bind]. by rewrite Z.eqb_refl.
  - destruct (Hc) as (x & Hx & Hin). unfold get_bus. rewrite Hx. cbn [mbind res_bind]. destruct (nb_child _ Hn b c Hc) as (l0 & h0 & H0 & Hr).
    pose proof (below_range s k c t l0 h0 n hi Hn Hb H0 Ht) as Hrg.
    rewrite (scan_children_stops s b c n l0 h0) by (try done; try lia; intros; by exists x). cbn [mbind res_bind].
    rewrite (proj2 (Z.eqb_neq l0 n)) by lia. apply IH; [done|lia].
Qed.

(** Configuration cycles reach the right bus: on a machine whose buses are numbered in nested
    intervals, looking a number up from the root bus gives the bus whose bridge has it as its
    secondary number, at any depth; number 0 is the root. *)
Theorem pci_find_bus_nr_correct s fuel r x k t n hi :
  numbered s → buses s !! r = Some x → parent_dev x = None →
  pci_find_bus_nr fuel r 0 s = Ok (Some r) ∧
  (below s k r t → numbers s t n hi → (k ≤ fuel)%nat → pci_find_bus_nr fuel r n s = Ok (Some t)).
Proof.
  intros Hn Hr Hp. unfold pci_find_bus_nr, get_bus, pci_bus_num. rewrite Hr. cbn [mbind res_bind]. rewrite Hp. cbn [mbind res_bind].
  split; [done|]. intros Hb Ht Hk. destruct (below_numbers s k r t Hn Hb) as (l0 & h0 & H0 & Hrg). destruct (numbers_fun _ _ _ _ _ _ H0 Ht) as [-> ->].
  rewrite (proj2 (Z.eqb_neq 0 n)) by lia. cbn [negb]. by eapply descend_finds.
Qed.

(** A root bus with two bridges in a row. *)
Definition bridge (lo hi : Z) : PCIDevice :=
  mkDev (aset (aset ∅ PCI_SECONDARY_BUS lo) PCI_SUBORDINATE_BUS hi) ∅ ∅ ∅ ∅ 0 0 ∅ ∅ false None 0 0 0.
Definition plain_bus (cs : list Z) (p : option Z) : PCIBus := mkBus 0 false pci_swizzle_map_irq_fn ∅ cs p 0 ∅ ∅.
Definition bridges : PciSys :=
  mkSys (<[10 := bridge 1 2]> (<[11 := bridge 2 2]> ∅))
        (<[0 := plain_bus [1] None]> (<[1 := plain_bus [2] (Some 10)]> (<[2 := plain_bus [] (Some 11)]> ∅))) [].

Lemma bridges_bus b x : buses bridges !! b = Some x →
  b = 0 ∧ x = plain_bus [1] None ∨ b = 1 ∧ x = plain_bus [2] (Some 10) ∨ b = 2 ∧ x = plain_bus [] (Some 11).
Proof. cbn [buses bridges]. rewrite !lookup_insert_Some, lookup_empty. naive_solver. Qed.
Lemma bridges_child c b : is_child bridges c b → b = 0 ∧ c = 1 ∨ b = 1 ∧ c = 2.
Proof.
  intros (x & Hx & Hin). apply bridges_bus in Hx as [[-> ->]|[[-> ->]|[-> ->]]]; cbn [child plain_bus] in Hin.
  - apply list_elem_of_singleton in Hin. by left.
  - apply list_elem_of_singleton in Hin. by right.
  - by apply not_elem_of_nil in Hin.
Qed.
Lemma bridges_numbers : numbers bridges 1 1 2 ∧ numbers bridges 2 2 2 ∧ ∀ lo hi, ¬ numbers bridges 0 lo hi.
Proof.
  split; [|split].
  - by exists (plain_bus [2] (Some 10)), 10, (bridge 1 2).
  - by exists (plain_bus [] (Some 11)), 11, (bridge 2 2).
  - intros lo hi (x & p & d & Hx & Hp & _). apply bridges_bus in Hx as [[_ ->]|[[E _]|[E _]]]; done.
Qed.
Lemma bridges_numbered : numbered bridges.
Proof.
  destruct bridges_numbers as (H1 & H2 & H0). split.
  - intros b c [[-> ->]|[-> ->]]%bridges_child; [exists 1, 2|exists 2, 2]; (split; [done|lia]).
  - intros b c c' ? ? ? ? [[-> ->]|[-> ->]]%bridges_child [[? ->]|[? ->]]%bridges_child Hne; done.
  - intros b c lo hi lo' hi' [[-> ->]|[-> ->]]%bridges_child Hb Hc; [by apply H0 in Hb|].
    destruct (numbers_fun _ _ _ _ _ _ Hb H1) as [-> ->]. destruct (numbers_fun _ _ _ _ _ _ Hc H2) as [-> ->]. lia.
Qed.
Lemma bridges_deep : below bridges 2 0 2.
Proof.
  apply below_step with 1; [exists (plain_bus [1] None); split; [done|by apply list_elem_of_singleton]|].
  apply below_child. exists (plain_bus [2] (Some 10)). split; [done|by apply list_elem_of_singleton].
Qed.
Lemma pci_find_bus_nr_correct_witness :
  pci_find_bus_nr 2 0 0 bridges = Ok (Some 0) ∧ pci_find_bus_nr 2 0 2 bridges = Ok (Some 2).
Proof.
  destruct (pci_find_bus_nr_correct bridges 2 0 (plain_bus [1] None) 2 2 2 2 bridges_numbered eq_refl eq_refl) as [H0 H].
  split; [exact H0|exact (H bridges_deep (proj1 (proj2 bridges_numbers)) (le_n 2))].
Defined.

(** ** The ports *)

(** The value for the address port that selects byte [o] of device [f] on bus 0. *)
Definition select (f o : Z) : Z := 2 ^ 31 + f * 2 ^ 8 + o.

Lemma select_or f o k : 0 ≤ f < 256 → 0 ≤ o < 256 → o mod 4 = 0 → 0 ≤ k < 4 → Z.lor (select f o) (Z.land k 3) = select f o + k.
Proof.
  intros Hf Ho Hm Hk. replace (Z.land k 3) with k by (change 3 with (Z.ones 2); rewrite Z.land_ones, Z.mod_small by lia; done).
  assert (Ed : Z.land (select f o) k = 0).
  { assert (Hs : select f o = Z.shiftl (select f o / 4) 2).
    { rewrite Z.shiftl_mul_pow2 by lia. change (2 ^ 2) with 4. assert (select f o mod 4 = 0); [|pose proof (Z.div_mod (select f o) 4); lia].
      unfold select. replace (2 ^ 31 + f * 2 ^ 8 + o) with (o + (2 ^ 29 + f * 2 ^ 6) * 4) by lia. by rewrite Z.mod_add. }
    rewrite Hs. apply Z.bits_inj'. intros b Hb. rewrite Z.land_spec, Z.bits_0. destruct (Z.lt_ge_cases b 2).
    - by rewrite Z.shiftl_spec_low by lia.
    - rewrite (proj1 (fits_bits 2 k ltac:(lia) ltac:(lia)) ltac:(split; lia) b) by lia. by rewrite andb_false_r. }
  rewrite <-Z.lxor_lor, <-Z.add_nocarry_lxor by done. done.
Qed.

Lemma select_fields f o k : 0 ≤ f < 256 → 0 ≤ o → 0 ≤ k → o + k < 256 →
  tst (select f o) (2 ^ 31) = true ∧ u8 (Z.shiftr (select f o + k) 16) = 0 ∧ u8 (Z.shiftr (select f o + k) 8) = f ∧
  Z.land (select f o + k) (PCI_CONFIG_SPACE_SIZE - 1) = o + k.
Proof.
  intros Hf Ho Hk Hs. unfold select, u8. split; [|split; [|split]].
  - rewrite tst_bit by lia. apply Z.testbit_true; [lia|]. replace (2 ^ 31 + f * 2 ^ 8 + o) with ((f * 2 ^ 8 + o) + 1 * 2 ^ 31) by lia.
    rewrite Z.div_add, Z.div_small by lia. done.
  - rewrite Z.shiftr_div_pow2 by lia. replace (2 ^ 31 + f * 2 ^ 8 + o + k) with ((f * 2 ^ 8 + o + k) + 2 ^ 15 * 2 ^ 16) by lia.
    rewrite Z.div_add, Z.div_small by lia. done.
  - rewrite Z.shiftr_div_pow2 by lia. replace (2 ^ 31 + f * 2 ^ 8 + o + k) with ((o + k) + (f + 2 ^ 15 * 2 ^ 8) * 2 ^ 8) by lia.
    rewrite Z.div_add, Z.div_small by lia. rewrite Z.add_0_l, Z.mod_add, Z.mod_small by lia. done.
  - change (PCI_CONFIG_SPACE_SIZE - 1) with (Z.ones 8). rewrite Z.land_ones by lia.
    replace (2 ^ 31 + f * 2 ^ 8 + o + k) with ((o + k) + (f + 2 ^ 23) * 2 ^ 8) by lia. by rewrite Z.mod_add, Z.mod_small by lia.
Qed.

Lemma find_root fuel r x s f : buses s !! r = Some x → parent_dev x = None → pci_find_device fuel r 0 f s = Ok (devices x !! f).
Proof.
  intros Hr Hp. unfold pci_find_device, pci_find_bus_nr, get_bus, pci_bus_num. rewrite Hr. cbn [mbind res_bind]. rewrite Hp. cbn [mbind res_bind Z.eqb].
  by rewrite Hr.
Qed.

Lemma same_topology_bus s s' b x : same_topology s s' → buses s !! b = Some x → ∃ x', buses s' !! b = Some x' ∧ bus_place x' = bus_place x.
Proof. intros [_ Hb] Hx. specialize (Hb b). rewrite Hx in Hb. destruct (buses s' !! b) as [x'|]; [|done]. exists x'. split; [done|]. cbn [fmap option_fmap option_map] in Hb. congruence. Qed.

Lemma read_config d o n : 0 ≤ o → 0 ≤ n ≤ 4 → o + n ≤ pci_config_size d →
  pci_default_read_config d o n = Ok (le_val (aread (config d) o (Z.to_nat n))).
Proof.
  intros Ho Hn Hs. unfold pci_default_read_config.
  assert (E : (0 <=? n) && (n <=? 4) = true) by (apply andb_true_iff; split; apply Z.leb_le; lia). rewrite E. cbn [negb]. by rewrite load_in by lia.
Qed.

Section Ports.
Context (msi : MsiOps) (Hmsi : MsiLaws msi) (fuel : nat).

(** Both ports at an offset within the selected word. *)
Lemma port_write_device r x s f o k val len a :
  buses s !! r = Some x → parent_dev x = None → devices x !! f = Some a →
  0 ≤ f < 256 → 0 ≤ o < 256 → o mod 4 = 0 → 0 ≤ k → 0 ≤ len → k + len ≤ 4 → k < 4 →
  pci_host_data_write msi fuel (mkHost (select f o) r) k val len s = pci_default_write_config msi fuel a (o + k) (u32 val) len s.
Proof.
  intros Hr Hp Ha Hf Ho Hm Hk Hl Hkl Hk4. assert (o ≤ 252) by (pose proof (Z.div_mod o 4 ltac:(lia)); lia).
  destruct (select_fields f o k Hf ltac:(lia) Hk ltac:(lia)) as (E1 & E2 & E3 & E4).
  unfold pci_host_data_write. cbn [config_reg hbus]. rewrite E1, select_or by lia. unfold pci_data_write, pci_dev_find_by_addr.
  rewrite E2, E3, E4, (find_root fuel r x s f Hr Hp), Ha. cbn [mbind res_bind]. unfold pci_host_config_write_common.
  rewrite (proj2 (Z.ltb_ge 4 len)) by lia. rewrite (u32_small (_ - _)) by (unfold PCI_CONFIG_SPACE_SIZE; split; lia).
  by rewrite Z.min_l by (unfold PCI_CONFIG_SPACE_SIZE; lia).
Qed.
Lemma port_read_device r x s f o k len a d :
  buses s !! r = Some x → parent_dev x = None → devices x !! f = Some a → devs s !! a = Some d →
  0 ≤ f < 256 → 0 ≤ o < 256 → o mod 4 = 0 → 0 ≤ k → 0 ≤ len → k + len ≤ 4 → k < 4 →
  pci_host_data_read fuel (mkHost (select f o) r) k len s = Ok (le_val (aread (config d) (o + k) (Z.to_nat len))).
Proof.
  intros Hr Hp Ha Hd Hf Ho Hm Hk Hl Hkl Hk4. assert (o ≤ 252) by (pose proof (Z.div_mod o 4 ltac:(lia)); lia).
  destruct (select_fields f o k Hf ltac:(lia) Hk ltac:(lia)) as (E1 & E2 & E3 & E4).
  unfold pci_host_data_read. cbn [config_reg hbus]. rewrite E1, select_or by lia. cbn [negb]. unfold pci_data_read, pci_dev_find_by_addr.
  rewrite E2, E3, E4, (find_root fuel r x s f Hr Hp), Ha. cbn [mbind res_bind]. unfold get_dev. rewrite Hd. cbn [mbind res_bind]. unfold pci_host_config_read_common.
  rewrite (proj2 (Z.ltb_ge 4 len)) by lia. rewrite (u32_small (_ - _)) by (unfold PCI_CONFIG_SPACE_SIZE; split; lia).
  rewrite Z.min_l by (unfold PCI_CONFIG_SPACE_SIZE; lia). apply read_config; [lia|lia|]. pose proof (config_size_ge d). unfold PCI_CONFIG_SPACE_SIZE in *. lia.
Qed.

(** C33: The guest writes to a register of a device on the root bus through the address and data ports
    (in the header, or of a device without the capabilities of msi.c and msix.c; not starting at the
    upper byte of the command register, and not across a 32-bit register) and reads it back: each
    bit that reads back is the written one where the bit is writable, is cleared where the bit is
    cleared by writing 1, and is the old one elsewhere; no other device changes, and the machine
    stays in order.  Where there is no device, writes do nothing and reads give all ones. *)
Theorem pci_port_write_read r x s f o k val len :
  sys_ok msi fuel s → buses s !! r = Some x → parent_dev x = None → 0 ≤ f < 256 → 0 ≤ o < 256 → o mod 4 = 0 →
  0 ≤ k < 4 → 0 ≤ len → k + len ≤ 4 → o + k ≠ PCI_COMMAND + 1 → fits 32 val →
  let h := pci_host_config_write 0 (select f o) 4 (mkHost 0 r) in
  match devices x !! f with
  | None => pci_host_data_write msi fuel h k val len s = Ok s ∧ pci_host_data_read fuel h k len s = Ok 0xffffffff
  | Some a =>
      ∀ d, devs s !! a = Some d → no_msi d ∨ 0 < len ∧ o + k + len ≤ PCI_CONFIG_HEADER_SIZE →
      ∃ s' d' v, pci_host_data_write msi fuel h k val len s = Ok s' ∧ sys_ok msi fuel s' ∧ devs s' = <[a := d']> (devs s) ∧
        pci_host_data_read fuel h k len s' = Ok v ∧
        ∀ i, 0 ≤ i < 8 * len →
          let bit (m : arr) := Z.testbit (aget m (o + k + i / 8)) (i mod 8) in
          Z.testbit v i = merge_bit (bit (config d)) (Z.testbit val i) (bit (wmask d)) (bit (w1cmask d))
  end.
Proof.
  intros Hs Hr Hp Hf Ho Hm Hk Hl Hkl H5 Hv h. assert (o ≤ 252) by (pose proof (Z.div_mod o 4 ltac:(lia)); lia).
  assert (Hh : h = mkHost (select f o) r).
  { unfold h, pci_host_config_write. cbn [Z.eqb Pos.eqb negb orb hbus]. rewrite u32_small; [done|]. unfold select. split; lia. }
  rewrite Hh. clear h Hh. destruct (devices x !! f) as [a|] eqn:Ha.
  2: { destruct (select_fields f o k Hf ltac:(lia) ltac:(lia) ltac:(lia)) as (E1 & E2 & E3 & E4).
       unfold pci_host_data_write, pci_host_data_read. cbn [config_reg hbus]. rewrite E1, select_or by lia. cbn [negb]. unfold pci_data_write, pci_data_read, pci_dev_find_by_addr.
       by rewrite E2, E3, (find_root fuel r x s f Hr Hp), Ha. }
  intros d Hd Hq. destruct (so_devs _ _ _ Hs a d Hd) as (Hok & Hno & Hpin). rewrite (port_write_device r x s f o k val len a) by (done || lia). rewrite u32_small by done.
  assert (Hop : op_ok (OpWrite a (o + k) val len)) by (cbn; unfold PCI_CONFIG_SPACE_SIZE; lia).
  destruct (exec_ok msi Hmsi fuel s _ Hs Hop) as (s0 & E0 & Hs0 & _); [by exists d|]. cbn [exec] in E0.
  pose proof (config_size_ge d) as Hcs. unfold PCI_CONFIG_SPACE_SIZE in Hcs.
  destruct (quiet_write_ok msi Hmsi fuel s a d (o + k) val len) as (s' & d' & E & Hk' & Ht & Hds & Hd1 & Hn & _ & _ & Hw & _);
    [apply Hs|done|done|done|destruct Hq as [?|[? ?]]; [by left|right; lia]|lia|lia|lia|done|].
  rewrite E in E0. injection E0 as <-. exists s', d', (le_val (aread (config d') (o + k) (Z.to_nat len))). split; [done|]. split; [done|]. split; [done|].
  destruct (same_topology_bus s s' r x Ht Hr) as (x' & Hx' & Hpl). injection Hpl as _ _ Ep _ Ed _.
  split; [eapply (port_read_device r x' s'); try lia; [done|by rewrite Ep|by rewrite Ed|by rewrite Hds, lookup_insert_eq]|].
  intros i Hi bit. rewrite get_testbit by (try apply Hd1; rewrite Z2Nat.id; lia). rewrite Hw. unfold written. rewrite Z2Nat.id by lia.
  pose proof (Z.div_pos i 8 ltac:(lia) ltac:(lia)). assert (i / 8 < len) by (apply Z.div_lt_upper_bound; lia).
  assert (Hin : (o + k <=? o + k + i / 8) && (o + k + i / 8 <? o + k + len) = true) by (apply andb_true_iff; split; [apply Z.leb_le|apply Z.ltb_lt]; lia).
  rewrite Hin. pose proof (Z.mod_pos_bound i 8 ltac:(lia)). rewrite merge_testbit by (try apply (do_masks _ Hok); lia). f_equal.
  unfold u8. rewrite Z.mod_pow2_bits_low, Z.shiftr_spec by lia. f_equal. pose proof (Z.div_mod i 8 ltac:(lia)). lia.
Qed.
End Ports.

Lemma machine_root : buses machine !! 0 = Some root_bus.
Proof. reflexivity. Qed.
(** Bus mastering of the card switched on through the ports. *)
Lemma pci_port_write_read_witness :
  let h := pci_host_config_write 0 (select 24 PCI_COMMAND) 4 (mkHost 0 0) in
  ∃ s' d' v, pci_host_data_write nomsi 1 h 0 7 2 machine = Ok s' ∧ sys_ok nomsi 1 s' ∧ devs s' = <[1 := d']> (devs machine) ∧
    pci_host_data_read 1 h 0 2 s' = Ok v ∧
    ∀ i, 0 ≤ i < 8 * 2 →
      let bit (m : arr) := Z.testbit (aget m (PCI_COMMAND + 0 + i / 8)) (i mod 8) in
      Z.testbit v i = merge_bit (bit (config card)) (Z.testbit 7 i) (bit (wmask card)) (bit (w1cmask card)).
Proof.
  pose proof (pci_port_write_read nomsi nomsi_laws 1 0 root_bus machine 24 PCI_COMMAND 0 7 2 machine_ok machine_root eq_refl) as H.
  assert (E : devices root_bus !! 24 = Some 1) by reflexivity. rewrite E in H.
  apply H; [lia|unfold PCI_COMMAND; lia|reflexivity|lia|lia|lia|unfold PCI_COMMAND; lia|split; lia|exact machine_card|right; unfold PCI_COMMAND, PCI_CONFIG_HEADER_SIZE; lia].
Defined.

(** ** Migration *)

(** A device of the same model: same size, masks and regions, and the bits that cannot change agree. *)
Record same_model (d d' : PCIDevice) : Prop := {
  sm_cap : cap_present d' = cap_present d;
  sm_wmask : wmask d' = wmask d;
  sm_w1cmask : w1cmask d' = w1cmask d;
  sm_cmask : cmask d' = cmask d;
  sm_regions : ∀ i, 0 ≤ i < PCI_NUM_REGIONS → r_size (region d' i) = r_size (region d i) ∧ r_type (region d' i) = r_type (region d i);
  sm_fixed : ∀ j, 0 ≤ j < pci_config_size d → j ≠ PCI_STATUS → Z.land (Z.lxor (aget (config d) j) (aget (config d') j)) (fixed d j) = 0;
  sm_status : Z.land (Z.lxor (clr (aget (config d) PCI_STATUS) PCI_STATUS_INTERRUPT) (aget (config d') PCI_STATUS)) (fixed d PCI_STATUS) = 0;
}.

(** The status bit tells whether a pin is up. *)
Definition status_ok (d : PCIDevice) : Prop := tst (aget (config d) PCI_STATUS) PCI_STATUS_INTERRUPT = negb (irq_state d =? 0).

Lemma get_levels_put (vs rest : list Z) :
  Forall (λ v, v = 0 ∨ v = 1) vs →
  get_irq_levels (length vs) (concat (be_bytes 4 <$> vs) ++ rest) = (Some vs, rest).
Proof.
  induction vs as [|v vs IH]; intros Hv; [done|]. apply Forall_cons in Hv as [Hv Hvs]. cbn [length get_irq_levels fmap list_fmap concat].
  rewrite <-app_assoc. pose proof (VMState.get_bytes_app (be_bytes 4 v) (concat (be_bytes 4 <$> vs) ++ rest)) as E.
  rewrite length_be_bytes in E. rewrite E. rewrite be_val_be_bytes. change (256 ^ Z.of_nat 4) with (2 ^ 32).
  rewrite Z.mod_small by lia. assert (Hc : negb (v =? 1) && negb (v =? 0) = false) by (by destruct Hv as [->| ->]). rewrite Hc. by rewrite IH.
Qed.

Lemma pin_level d p : p ∈ pins → pci_irq_state d p = 0 ∨ pci_irq_state d p = 1.
Proof. intros Hp. apply in_pins in Hp. rewrite irq_state_bit by lia. destruct (Z.testbit _ _); [by right|by left]. Qed.

Lemma set_irq_state_only p v y d :
  y = set_irqs (irq_state y) d → pci_set_irq_state p v y = set_irqs (irq_state (pci_set_irq_state p v y)) d.
Proof. intros E. remember (irq_state y) as a eqn:Ea. clear Ea. subst y. unfold pci_set_irq_state. by destruct d. Qed.

Lemma get_put_irq_state d d' rest :
  fits 4 (irq_state d) → fits 4 (irq_state d') →
  ∃ d'', get_pci_irq_state (put_pci_irq_state d ++ rest) d' = (0, rest, d'') ∧ d'' = set_irqs (irq_state d) d'.
Proof.
  intros Hi Hi'. unfold get_pci_irq_state, put_pci_irq_state.
  assert (E : (λ i, be_bytes 4 (pci_irq_state d i)) <$> pins = be_bytes 4 <$> (pci_irq_state d <$> pins)) by (by rewrite <-list_fmap_compose).
  rewrite E. pose proof (get_levels_put (pci_irq_state d <$> pins) rest) as Hg. change (length (pci_irq_state d <$> pins)) with 4%nat in Hg.
  rewrite Hg. 2: { apply Forall_forall. intros v Hv. apply list_elem_of_fmap in Hv as (p & -> & Hp). by apply pin_level. }
  eexists. split; [reflexivity|]. unfold pins. cbn [fmap list_fmap zip zip_with foldl].
  assert (Hall : ∀ x : PCIDevice, irq_state x = irq_state d → set_irqs (irq_state x) d' = set_irqs (irq_state d) d') by (by intros ? ->).
  pose proof (pin_level d 0 ltac:(apply in_pins; lia)) as L0. pose proof (pin_level d 1 ltac:(apply in_pins; lia)) as L1.
  pose proof (pin_level d 2 ltac:(apply in_pins; lia)) as L2. pose proof (pin_level d 3 ltac:(apply in_pins; lia)) as L3.
  set (e := pci_set_irq_state 3 _ _). assert (He : e = set_irqs (irq_state e) d') by (unfold e; do 4 apply set_irq_state_only; by destruct d').
  rewrite He. clear He. f_equal.
  apply Z.bits_inj'. intros b Hb. destruct (Z.lt_ge_cases b 4) as [Hlt|Hge].
  - assert (Hst : ∀ q, q ∈ pins → pci_irq_state e q = pci_irq_state d q).
    { intros q Hq. unfold e. rewrite !pci_set_irq_state_spec by (done || (apply in_pins; lia)). apply in_pins in Hq.
      assert (q = 0 ∨ q = 1 ∨ q = 2 ∨ q = 3) as [->|[->|[->| ->]]] by lia; done. }
    specialize (Hst b ltac:(apply in_pins; lia)). rewrite !irq_state_bit in Hst by lia. by apply Z.b2z_inj in Hst.
  - rewrite (proj1 (fits_bits 4 _ ltac:(lia) ltac:(apply Hi)) Hi b Hge). assert (He4 : fits 4 (irq_state e)); [|by rewrite (proj1 (fits_bits 4 _ ltac:(lia) ltac:(apply He4)) He4 b Hge)].
    assert (Hstep : ∀ p v y, p ∈ pins → v = 0 ∨ v = 1 → fits 4 (irq_state y) → fits 4 (irq_state (pci_set_irq_state p v y))).
    { clear. intros p v y Hp Hv Hy. unfold pci_set_irq_state. cbn [set_irqs irq_state]. assert (Hc : fits 4 (clr (irq_state y) (Z.shiftl 1 p))) by (apply clr_fits; [lia|done]).
      assert (Hs : fits 4 (Z.shiftl v p)). { apply in_pins in Hp. assert (p = 0 ∨ p = 1 ∨ p = 2 ∨ p = 3) as [->|[->|[->| ->]]] by lia; destruct Hv as [->| ->]; done. }
      rewrite (u8_small (clr _ _)) by (by apply (fits_mono 4 8)). assert (Hl : fits 4 (Z.lor (clr (irq_state y) (Z.shiftl 1 p)) (Z.shiftl v p))) by (by apply lor_fits).
      by rewrite u8_small by (by apply (fits_mono 4 8)). }
    unfold e. repeat (apply Hstep; [apply in_pins; lia|done|]). exact Hi'.
Qed.

Lemma clear_restore st (b : bool) : 0 ≤ st → tst st PCI_STATUS_INTERRUPT = b →
  (if b then Z.lor (clr st PCI_STATUS_INTERRUPT) PCI_STATUS_INTERRUPT else clr (clr st PCI_STATUS_INTERRUPT) PCI_STATUS_INTERRUPT) = st.
Proof.
  change PCI_STATUS_INTERRUPT with (2 ^ 3). intros H0. rewrite tst_bit by lia. intros <-. unfold clr.
  apply Z.bits_inj'. intros k Hk. destruct (Z.testbit st 3) eqn:E.
  - rewrite Z.lor_spec, Z.land_spec, Z.lnot_spec, Z.pow2_bits_eqb by lia. destruct (Z.eqb_spec 3 k) as [<-|]; [by rewrite E, orb_true_r|]. cbn. by rewrite andb_true_r, orb_false_r.
  - rewrite !Z.land_spec, Z.lnot_spec, Z.pow2_bits_eqb by lia. destruct (Z.eqb_spec 3 k) as [<-|]; [by rewrite E|]. cbn. by rewrite !andb_true_r.
Qed.

Lemma config_size_bound d : 256 ≤ pci_config_size d ≤ 4096.
Proof. unfold pci_config_size, PCIE_CONFIG_SPACE_SIZE, PCI_CONFIG_SPACE_SIZE. case_match; lia. Qed.

Lemma fixed_model d d' j : same_model d d' → fixed d' j = fixed d j.
Proof. intros []. unfold fixed. congruence. Qed.

(** Rebuilding the windows of a bridge goes through, and changes nothing else but its VGA regions. *)
Lemma bridge_updated (br : option PCIBridgeWindows) d v :
  ∃ v', (match br with
         | Some _ => '(w, d) ← pci_bridge_update_mappings (set_vga v d); Ok (Some w, d)
         | None => Ok (None, set_vga v d)
         end) = Ok ((λ _, pci_bridge_windows (config d)) <$> br, set_vga v' d).
Proof.
  destruct br as [w|]; [|by exists v]. unfold pci_bridge_update_mappings, pci_bridge_region_init.
  assert (E : pci_unregister_vga (set_vga v d) = set_vga None d) by (unfold pci_unregister_vga; by destruct v).
  rewrite E. split_if; [|by exists None]. eexists. reflexivity.
Qed.

(** Loading a saved configuration space into a device of the same model. *)
Lemma get_put_config junk d d' c rest (br : option PCIBridgeWindows) :
  same_model d d' → maps_ok d' → afits 8 c → afits 8 (config d') →
  (∀ j, 0 ≤ j < pci_config_size d → Z.land (Z.lxor (aget c j) (aget (config d') j)) (fixed d j) = 0) →
  ∃ cc rs m v, get_pci_config_device junk (pci_config_size d') (aread c 0 (Z.to_nat (pci_config_size d)) ++ rest) br d' =
      Ok (0, rest, (λ _, pci_bridge_windows cc) <$> br, update_bus_master (set_vga v (set_regions rs m (set_config cc d')))) ∧
    afits 8 cc ∧ (∀ j, 0 ≤ j < pci_config_size d → aget cc j = aget c j) ∧ maps_ok (set_regions rs m (set_config cc d')) ∧
    (∀ i, 0 ≤ i < PCI_NUM_REGIONS → region (set_regions rs m (set_config cc d')) i = remap (set_config cc d') i).
Proof.
  intros Hsm Hmap Hc Hc' Hfix. assert (Hsz : pci_config_size d' = pci_config_size d) by (unfold pci_config_size, pci_is_express; by rewrite (sm_cap _ _ Hsm)).
  pose proof (config_size_bound d) as Hb. unfold get_pci_config_device. rewrite Hsz, Z.eqb_refl. cbn [negb]. unfold VMState.qemu_get_buffer.
  set (n := Z.to_nat (pci_config_size d)). assert (Hn : Z.of_nat n = pci_config_size d) by (unfold n; lia).
  assert (Hlen : length (aread c 0 n) = n) by apply length_aread.
  rewrite take_app_length', drop_app_length' by done. set (b := awrite junk 0 (aread c 0 n)).
  assert (Hbj : ∀ j, 0 ≤ j < pci_config_size d → aget b j = aget c j).
  { intros j Hj. unfold b. rewrite aget_awrite, Hlen, Hn. destruct (Z.leb_spec 0 j), (Z.ltb_spec j (0 + pci_config_size d)); try lia. cbn [andb].
    rewrite nth_aread by lia. f_equal. lia. }
  assert (Hex : existsb (λ j, tst (Z.lxor (aget b j) (aget (config d') j)) (fixed d' j)) (seqZ 0 (pci_config_size d)) = false).
  { apply not_true_iff_false. intros Hex. apply existsb_exists in Hex as (j & Hin & Ht). apply list_elem_of_In, elem_of_seqZ in Hin.
    rewrite Hbj, (fixed_model d d' j Hsm) in Ht by lia. unfold tst in Ht. rewrite Hfix in Ht by lia. done. }
  rewrite Hex. set (cc := awrite (config d') 0 (aread b 0 n)).
  destruct (pci_update_mappings_spec (set_config cc d') Hmap) as (rs & m & v & E & Hm' & Hr). rewrite E. cbn [mbind res_bind].
  assert (Hrd : aread b 0 n = aread c 0 n) by (apply aread_same; intros j Hj; apply Hbj; lia).
  destruct (bridge_updated br (set_regions rs m (set_config cc d')) v) as [v' Eb]. rewrite Eb. cbn [mbind res_bind].
  exists cc, rs, m, v'. split; [done|]. split; [|split; [|done]].
  - unfold cc. rewrite Hrd. apply afits_awrite; [done|by apply aread_fits].
  - intros j Hj. unfold cc. rewrite Hrd, aget_awrite, Hlen, Hn. destruct (Z.leb_spec 0 j), (Z.ltb_spec j (0 + pci_config_size d)); try lia. cbn [andb].
    rewrite nth_aread by lia. f_equal. lia.
Qed.

(** A region of the loaded device is where it was on the saved one. *)
Lemma same_mapping d d' cc i :
  dev_ok d → same_model d d' → afits 8 cc → (∀ j, 0 ≤ j < 256 → j ≠ PCI_STATUS → aget cc j = aget (config d) j) →
  0 ≤ i < PCI_NUM_REGIONS → r_size (region d i) ≠ 0 → remap (set_config cc d') i = region d i.
Proof.
  intros Hd Hsm Hcc Hj Hi Hz. rewrite (do_synced _ Hd i Hi). unfold remap. change (region (set_config cc d') i) with (region d' i).
  destruct (sm_regions _ _ Hsm i Hi) as [-> ->]. cbv zeta. rewrite (proj2 (Z.eqb_neq _ _) Hz). f_equal.
  change (pci_bar_address (set_config cc d') i) with (pci_bar_address (set_config cc d) i).
  apply bar_address_ext; [apply Hd|done|done|by apply (do_bars _ Hd)| |apply Hj; unfold PCI_HEADER_TYPE, PCI_STATUS; lia].
  intros j Hdec. apply Hj; unfold decoding, PCI_STATUS in *; lia.
Qed.

Lemma same_vmstate_name d d' : same_model d d' → pci_vmstate_name d = pci_vmstate_name d'.
Proof. intros Hsm. unfold pci_vmstate_name, pci_is_express. by rewrite (sm_cap _ _ Hsm). Qed.

(** The windows do not depend on the status register. *)
Lemma windows_ext c c' :
  (∀ j, 0 ≤ j < 256 → j ≠ PCI_STATUS → aget c j = aget c' j) → pci_bridge_windows c = pci_bridge_windows c'.
Proof.
  intros Hj. assert (Hw : ∀ o, 0 ≤ o ≤ 254 → o + 1 < PCI_STATUS ∨ PCI_STATUS < o → pci_get_word c o = pci_get_word c' o).
  { intros o Ho Hs. unfold pci_get_word. f_equal. apply aread_same. intros j Hb. apply Hj; lia. }
  assert (Hl : ∀ o, PCI_STATUS < o ≤ 252 → pci_get_long c o = pci_get_long c' o).
  { intros o Ho. unfold pci_get_long. f_equal. apply aread_same. unfold PCI_STATUS in *. intros j Hb. apply Hj; unfold PCI_STATUS; lia. }
  unfold pci_bridge_windows, pci_bridge_init_alias, pci_bridge_get_base, pci_bridge_get_limit, pci_config_get_io_base,
    pci_config_get_memory_base, pci_config_get_pref_base.
  rewrite !Hl by (vm_compute; split; congruence). rewrite !Hj by (vm_compute; (split; congruence) || congruence).
  rewrite !Hw by (vm_compute; first [split; congruence | left; congruence | right; congruence]). reflexivity.
Qed.

Lemma pci_load_refuses junk br d' version inp :
  version < 1 ∨ 2 < version →
  pci_device_load junk version inp br d' = Ok (- EINVAL, inp, version, br, pci_update_irq_status d').
Proof.
  intros Hv. unfold pci_device_load, pci_vmstate_load, pci_vmstate_version, pci_vmstate_minimum.
  destruct (Z.ltb_spec 2 version); [done|]. destruct (Z.ltb_spec version 1); [done|lia].
Qed.

(** C31: A device saved and loaded into a freshly created device of the same model, both with the
    current version number (2, as registration sets it), followed by something that is not a
    subsection of the record: the load succeeds and consumes what was written; configuration space,
    pin levels and mappings are those of the saved device, bus mastering is as its command register
    says, and the windows of a bridge are those its registers say.  A device whose version number is
    below 1 or above 2 is refused before anything is read. *)
Theorem pci_device_migrates junk d d' (br : option PCIBridgeWindows) rest :
  dev_ok d → status_ok d → fits 4 (irq_state d) → fits 4 (irq_state d') →
  masks_ok d' → maps_ok d' → same_model d d' → VMState.peek_subsection (pci_vmstate_name d) rest = None →
  (∃ stream d1 d2, pci_device_save pci_vmstate_version d = Ok (stream, d1) ∧ (∀ j, aget (config d1) j = aget (config d) j) ∧
    pci_device_load junk pci_vmstate_version (stream ++ rest) br d' =
      Ok (0, rest, pci_vmstate_version, (λ _, pci_bridge_windows (config d)) <$> br, d2) ∧
    (∀ j, 0 ≤ j < pci_config_size d → aget (config d2) j = aget (config d) j) ∧
    irq_state d2 = irq_state d ∧
    (∀ i, 0 ≤ i < PCI_NUM_REGIONS → mapped d2 !! i = mapped d !! i) ∧
    bus_master d2 = tst (pci_get_word (config d) PCI_COMMAND) PCI_COMMAND_MASTER) ∧
  (∀ version inp, version < 1 ∨ 2 < version →
    pci_device_load junk version inp br d' = Ok (- EINVAL, inp, version, br, pci_update_irq_status d')).
Proof.
  intros Hd Hst Hi Hi' Hm' Hmap' Hsm Hv. split; [|by apply pci_load_refuses].
  pose proof (config_size_bound d) as Hsz. pose proof (do_masks _ Hd) as Hm.
  assert (Hcf : ∀ j, fits 8 (aget (config d) j)) by apply Hm.
  set (c0 := aset (config d) PCI_STATUS (clr (aget (config d) PCI_STATUS) PCI_STATUS_INTERRUPT)).
  assert (Hc0 : afits 8 c0) by (apply afits_aset; [done|by apply clr_fits; [lia|]]).
  assert (Hback : ∀ c, (aget c PCI_STATUS = clr (aget (config d) PCI_STATUS) PCI_STATUS_INTERRUPT) →
     (if negb (irq_state d =? 0) then Z.lor (aget c PCI_STATUS) PCI_STATUS_INTERRUPT else clr (aget c PCI_STATUS) PCI_STATUS_INTERRUPT) = aget (config d) PCI_STATUS).
  { intros c ->. apply clear_restore; [apply Hcf|exact Hst]. }
  unfold pci_device_save, put_pci_config_device. fold c0. rewrite Z.eqb_refl. cbn [negb mbind res_bind].
  change (pci_config_size (set_config c0 d)) with (pci_config_size d). change (config (set_config c0 d)) with c0. change (put_pci_irq_state (set_config c0 d)) with (put_pci_irq_state d).
  destruct (get_put_config junk d d' c0 (put_pci_irq_state d ++ rest) br Hsm Hmap' Hc0) as (cc & rs & m & v & E & Hcc & Hcj & Hmp & Hr); [apply Hm'| |].
  { intros j Hj. unfold c0. rewrite aget_aset. destruct (Z.eqb_spec PCI_STATUS j) as [<-|]; [by apply (sm_status _ _ Hsm)|by apply (sm_fixed _ _ Hsm)]. }
  set (e := update_bus_master (set_vga v (set_regions rs m (set_config cc d')))) in *.
  destruct (get_put_irq_state d e rest Hi Hi') as (e2 & E2 & ->).
  eexists _, _, (pci_update_irq_status (set_irqs (irq_state d) e)). split; [reflexivity|]. split; [|split; [|split; [|split; [|split]]]].
  - intros j. unfold pci_update_irq_status. cbn [set_config config irq_state]. rewrite aget_aset. destruct (Z.eqb_spec PCI_STATUS j) as [<-|Hne].
    + apply Hback. unfold c0. apply aget_aset_eq.
    + unfold c0. by rewrite aget_aset_ne.
  - unfold pci_device_load, pci_vmstate_load, pci_load_fields. change (pci_vmstate_version <? pci_vmstate_version) with false.
    change (pci_vmstate_version <? pci_vmstate_minimum) with false. change (2 <=? pci_vmstate_version) with true. cbv match. rewrite <-!app_assoc.
    pose proof (VMState.get_bytes_app (be_bytes 4 pci_vmstate_version) (aread c0 0 (Z.to_nat (pci_config_size d)) ++ put_pci_irq_state d ++ rest)) as Eg.
    rewrite length_be_bytes in Eg. rewrite Eg. rewrite be_val_be_bytes. change (256 ^ Z.of_nat 4) with (2 ^ 32). change (s32 (pci_vmstate_version mod 2 ^ 32)) with pci_vmstate_version.
    change ((0 <=? pci_vmstate_version) && (pci_vmstate_version <=? pci_vmstate_version)) with true. cbn [negb].
    rewrite E. cbn [mbind res_bind]. change (0 <? 0) with false. cbv match. rewrite E2. cbn [mbind res_bind]. change (0 <? 0) with false. cbv match.
    change (pci_vmstate_name (set_irqs (irq_state d) e)) with (pci_vmstate_name d').
    rewrite <-(same_vmstate_name d d' Hsm), Hv. cbn [mbind res_bind]. rewrite (windows_ext cc (config d)); [done|].
    intros j Hj Hne. rewrite Hcj by lia. unfold c0. by rewrite aget_aset_ne.
  - intros j Hj. unfold pci_update_irq_status. cbn [set_config config set_irqs irq_state]. change (config e) with cc. rewrite aget_aset. destruct (Z.eqb_spec PCI_STATUS j) as [<-|Hne].
    + apply Hback. rewrite Hcj by (unfold PCI_STATUS; lia). unfold c0. apply aget_aset_eq.
    + rewrite Hcj by done. unfold c0. by rewrite aget_aset_ne.
  - done.
  - intros i Hin. change (mapped (pci_update_irq_status (set_irqs (irq_state d) e)) !! i) with (mapped (set_regions rs m (set_config cc d')) !! i).
    rewrite (Hmp i Hin), (do_maps _ Hd i Hin), Hr by done. destruct (Z.eqb_spec (r_size (region d i)) 0) as [Hz|Hz].
    + unfold remap. change (region (set_config cc d') i) with (region d' i). rewrite (proj1 (sm_regions _ _ Hsm i Hin)), Hz. cbn [Z.eqb]. cbv zeta. by rewrite (proj1 (sm_regions _ _ Hsm i Hin)), Hz.
    + rewrite (same_mapping d d' cc i Hd Hsm Hcc); [by rewrite (proj2 (Z.eqb_neq _ _) Hz)| |done|done].
      intros j Hj Hne. rewrite Hcj by lia. unfold c0. by rewrite aget_aset_ne.
  - change (tst (pci_get_word cc PCI_COMMAND) PCI_COMMAND_MASTER = tst (pci_get_word (config d) PCI_COMMAND) PCI_COMMAND_MASTER). f_equal. unfold pci_get_word. f_equal.
    apply aread_same. unfold PCI_COMMAND. intros j Hj. rewrite Hcj by lia. unfold c0. rewrite aget_aset_ne; [done|]. unfold PCI_STATUS. lia.
Qed.

Lemma card_up_dev_ok : dev_ok card_up.
Proof. apply (so_devs nomsi 1 pin_up pin_up_ok 1), card_up_in. Qed.
Lemma card_fixed :
  forallb (λ j, (j =? PCI_STATUS) || (Z.land (Z.lxor (aget (config card_up) j) (aget (config card) j)) (fixed card_up j) =? 0)) (seqZ 0 (pci_config_size card_up)) = true.
Proof. vm_compute. reflexivity. Qed.
Lemma card_models : same_model card_up card.
Proof.
  split.
  1-4: vm_compute; reflexivity.
  - refine (regions_cases (λ i, r_size (region card i) = r_size (region card_up i) ∧ r_type (region card i) = r_type (region card_up i)) _ _ _ _ _ _ _); vm_compute; split; reflexivity.
  - intros j Hj Hne. assert (Hin : In j (seqZ 0 (pci_config_size card_up))) by (apply list_elem_of_In, elem_of_seqZ; lia).
    pose proof (proj1 (forallb_forall _ _) card_fixed j Hin) as H. apply orb_true_iff in H as [H|H]; apply Z.eqb_eq in H; [by destruct Hne|exact H].
  - vm_compute. reflexivity.
Qed.
Lemma card_up_status : status_ok card_up.
Proof. vm_compute. reflexivity. Qed.
Lemma card_irqs : fits 4 (irq_state card_up) ∧ fits 4 (irq_state card).
Proof. split; vm_compute; split; congruence. Qed.
Lemma pci_device_migrates_witness :
  ∃ stream d1 d2, pci_device_save 2 card_up = Ok (stream, d1) ∧ (∀ j, aget (config d1) j = aget (config card_up) j) ∧
    pci_device_load ∅ 2 (stream ++ [7]) None card = Ok (0, [7], 2, None, d2) ∧
    (∀ j, 0 ≤ j < pci_config_size card_up → aget (config d2) j = aget (config card_up) j) ∧
    irq_state d2 = irq_state card_up ∧
    (∀ i, 0 ≤ i < PCI_NUM_REGIONS → mapped d2 !! i = mapped card_up !! i) ∧
    bus_master d2 = tst (pci_get_word (config card_up) PCI_COMMAND) PCI_COMMAND_MASTER.
Proof.
  apply (pci_device_migrates ∅ card_up card None [7] card_up_dev_ok card_up_status (proj1 card_irqs) (proj2 card_irqs)
           (proj1 card_parts) (proj1 (proj2 card_parts)) card_models). reflexivity.
Defined.

(** A stream whose configuration space differs in a bit that cannot change is refused, and the
    device keeps its own. *)
Lemma get_config_rejects junk c rest br d j :
  0 ≤ j < pci_config_size d → tst (Z.lxor (aget c j) (aget (config d) j)) (fixed d j) = true →
  get_pci_config_device junk (pci_config_size d) (aread c 0 (Z.to_nat (pci_config_size d)) ++ rest) br d = Ok (- EINVAL, rest, br, d).
Proof.
  intros Hj Ht. pose proof (config_size_bound d). unfold get_pci_config_device. rewrite Z.eqb_refl. cbn [negb]. unfold VMState.qemu_get_buffer.
  assert (Hlen : length (aread c 0 (Z.to_nat (pci_config_size d))) = Z.to_nat (pci_config_size d)) by apply length_aread.
  rewrite take_app_length', drop_app_length' by done.
  assert (Hex : existsb (λ j, tst (Z.lxor (aget (awrite junk 0 (aread c 0 (Z.to_nat (pci_config_size d)))) j) (aget (config d) j)) (fixed d j)) (seqZ 0 (pci_config_size d)) = true).
  { apply existsb_exists. exists j. split; [apply list_elem_of_In, elem_of_seqZ; lia|]. rewrite aget_awrite, Hlen, Z2Nat.id by lia.
    destruct (Z.leb_spec 0 j), (Z.ltb_spec j (0 + pci_config_size d)); try lia. cbn [andb]. rewrite nth_aread by lia. by replace (0 + Z.of_nat (Z.to_nat (j - 0))) with j by lia. }
  by rewrite Hex.
Qed.

(** ** Putting a device on a bus *)

Lemma find_slot_spec n f x :
  (∃ k, find_slot n f x = Some (f + 8 * Z.of_nat k) ∧ devices x !! (f + 8 * Z.of_nat k) = None ∧ f + 8 * Z.of_nat k < PCI_DEVICES ∧
     ∀ i, (i < k)%nat → is_Some (devices x !! (f + 8 * Z.of_nat i))) ∨
  (find_slot n f x = None ∧ ∀ i, (i < n)%nat → f + 8 * Z.of_nat i < PCI_DEVICES → is_Some (devices x !! (f + 8 * Z.of_nat i))).
Proof.
  revert f. induction n as [|n IH]; intros f; cbn [find_slot]; [right; split; [done|lia]|].
  destruct (Z.ltb_spec f PCI_DEVICES) as [Hlt|Hge]; cbn [negb]; [|right; split; [done|]; intros i Hi Hb; lia].
  destruct (devices x !! f) as [a|] eqn:E.
  - destruct (IH (f + PCI_FUNC_MAX)) as [(k & E1 & E2 & E3 & E4)|[E1 E2]]; unfold PCI_FUNC_MAX in *.
    + left. exists (S k). replace (f + 8 * Z.of_nat (S k)) with (f + 8 + 8 * Z.of_nat k) by lia. split; [done|]. split; [done|]. split; [done|].
      intros [|i] Hi; [rewrite Z.add_0_r; by exists a|]. replace (f + 8 * Z.of_nat (S i)) with (f + 8 + 8 * Z.of_nat i) by lia. apply E4. lia.
    + right. split; [done|]. intros [|i] Hi Hb; [rewrite Z.add_0_r; by exists a|].
      replace (f + 8 * Z.of_nat (S i)) with (f + 8 + 8 * Z.of_nat i) in * by lia. apply E2; [lia|done].
  - left. exists 0%nat. rewrite Z.add_0_r. split; [done|]. split; [done|]. split; [done|lia].
Qed.

(** The multifunction rules: a function other than 0 needs a function 0 that announces it, if there
    is one; a function 0 that announces nothing must be alone in its slot. *)
Definition conflict (x : PCIBus) (s : PciSys) (f : Z) (multi : bool) : bool :=
  if negb (PCI_FUNC f =? 0) then
    match devices x !! PCI_DEVFN (PCI_SLOT f) 0 with
    | None => false
    | Some a0 => match devs s !! a0 with Some f0 => negb (tst (cap_present f0) QEMU_PCI_CAP_MULTIFUNCTION) | None => false end
    end
  else negb multi && existsb (λ f, bool_decide (is_Some (devices x !! f))) (other_functions (PCI_SLOT f)).

Definition announce (d : PCIDevice) : PCIDevice :=
  if tst (cap_present d) QEMU_PCI_CAP_MULTIFUNCTION
  then set_config (aset (config d) PCI_HEADER_TYPE (Z.lor (aget (config d) PCI_HEADER_TYPE) PCI_HEADER_TYPE_MULTI_FUNCTION)) d else d.

Lemma pci_init_multifunction_spec x s d :
  (∀ f a, devices x !! f = Some a → is_Some (devs s !! a)) →
  pci_init_multifunction x s d = Ok (if conflict x s (devfn d) (tst (cap_present d) QEMU_PCI_CAP_MULTIFUNCTION) then None else Some (announce d)).
Proof.
  intros Hx. unfold pci_init_multifunction, conflict, announce.
  replace (devfn (if tst (cap_present d) QEMU_PCI_CAP_MULTIFUNCTION then _ else d)) with (devfn d) by (by case_match).
  destruct (PCI_FUNC (devfn d) =? 0) eqn:Ef; cbn [negb].
  - destruct (tst (cap_present d) QEMU_PCI_CAP_MULTIFUNCTION); [done|]. cbn [negb andb]. by case_match.
  - destruct (devices x !! PCI_DEVFN (PCI_SLOT (devfn d)) 0) as [a0|] eqn:E0; [|done]. destruct (Hx _ _ E0) as [f0 Hf0].
    unfold get_dev. rewrite Hf0. cbn [mbind res_bind]. by destruct (tst (cap_present f0) QEMU_PCI_CAP_MULTIFUNCTION).
Qed.

(** The configuration space of a new device: nothing but its identity. *)
Definition identity (pc : PCIDeviceClass) (c : arr) : Prop :=
  pci_get_word c PCI_VENDOR_ID = u16 (vendor_id pc) ∧ pci_get_word c PCI_DEVICE_ID = u16 (device_id pc) ∧
  ∀ j, 16 ≤ j < 0x2c ∨ 0x30 ≤ j ∨ 4 ≤ j < 8 → aget c j = 0.

Lemma get_set_word_ne a o v o' : o' + 2 ≤ o ∨ o + 2 ≤ o' → pci_get_word (pci_set_word a o v) o' = pci_get_word a o'.
Proof. intros Ho. unfold pci_get_word. f_equal. apply aread_same. intros j Hj. apply set_word_out. lia. Qed.

Lemma init_config_spec pc d :
  is_bridge pc = false → config d = ∅ →
  ∃ c, init_config pc d = Ok (set_config c d) ∧ afits 8 c ∧ identity pc c.
Proof.
  intros Hb Hc. unfold init_config, pci_set_default_subsystem_id. rewrite Hb, Hc. cbn [negb set_config config].
  set (c1 := pci_set_word (pci_set_byte (pci_set_word (pci_set_word ∅ PCI_VENDOR_ID (vendor_id pc)) PCI_DEVICE_ID (device_id pc)) PCI_REVISION_ID (revision pc)) PCI_CLASS_DEVICE (class_id pc)).
  assert (Hf1 : afits 8 c1) by (repeat first [apply set_word_fits | apply afits_aset]; [apply afits_empty; lia|apply u8_fits]).
  assert (Hsub : ∀ v w, afits 8 (pci_set_word (pci_set_word c1 PCI_SUBSYSTEM_VENDOR_ID v) PCI_SUBSYSTEM_ID w) ∧ identity pc (pci_set_word (pci_set_word c1 PCI_SUBSYSTEM_VENDOR_ID v) PCI_SUBSYSTEM_ID w)).
  { intros v w. split; [by do 2 apply set_word_fits|].
    assert (Hbyte : ∀ a v o, o + 2 ≤ PCI_REVISION_ID → pci_get_word (pci_set_byte a PCI_REVISION_ID v) o = pci_get_word a o).
    { intros a v' o Ho. unfold pci_set_byte. apply get_word_aset; lia. }
    unfold identity, c1. split; [|split].
    - rewrite !get_set_word_ne by (unfold PCI_SUBSYSTEM_ID, PCI_SUBSYSTEM_VENDOR_ID, PCI_VENDOR_ID, PCI_CLASS_DEVICE; lia). rewrite Hbyte by (unfold PCI_VENDOR_ID, PCI_REVISION_ID; lia).
      rewrite get_set_word_ne by (unfold PCI_VENDOR_ID, PCI_DEVICE_ID; lia). apply get_set_word.
    - rewrite !get_set_word_ne by (unfold PCI_SUBSYSTEM_ID, PCI_SUBSYSTEM_VENDOR_ID, PCI_DEVICE_ID, PCI_CLASS_DEVICE; lia). rewrite Hbyte by (unfold PCI_DEVICE_ID, PCI_REVISION_ID; lia). apply get_set_word.
    - intros j Hj. rewrite !set_word_out by (unfold PCI_SUBSYSTEM_ID, PCI_SUBSYSTEM_VENDOR_ID, PCI_CLASS_DEVICE; lia). unfold pci_set_byte. rewrite aget_aset_ne by (unfold PCI_REVISION_ID; lia).
      rewrite !set_word_out by (unfold PCI_VENDOR_ID, PCI_DEVICE_ID; lia). apply aget_empty. }
  destruct (negb (subsystem_vendor_id pc =? 0) || negb (subsystem_id pc =? 0)); eexists; (split; [reflexivity|apply Hsub]).
Qed.

Lemma init_wmask_low d o :
  wmask d = ∅ → o < PCI_CONFIG_HEADER_SIZE → o ≠ PCI_CACHE_LINE_SIZE → o ≠ PCI_INTERRUPT_LINE → ¬ PCI_COMMAND ≤ o < PCI_COMMAND + 2 →
  aget (wmask (init_masks d)) o = 0.
Proof.
  intros Hw Ho H1 H2 H3. unfold init_masks, pci_init_w1cmask, pci_init_wmask. cbn [set_w1cmask set_wmask wmask pci_init_cmask set_cmask]. rewrite Hw.
  rewrite aget_awrite_out by lia. unfold pci_word_test_and_set_mask. case_match; rewrite !set_word_out by lia; rewrite !aget_aset_ne by congruence; apply aget_empty.
Qed.
Lemma init_command d : wmask d = ∅ → command_writable (init_masks d).
Proof.
  intros Hw. unfold command_writable, init_masks, pci_init_w1cmask, pci_init_wmask. cbn [set_w1cmask set_wmask wmask pci_init_cmask set_cmask]. rewrite Hw.
  match goal with |- context [awrite ?a _ _] => assert (E : pci_get_word (awrite a PCI_CONFIG_HEADER_SIZE (replicate (Z.to_nat (pci_config_size (pci_init_cmask d) - PCI_CONFIG_HEADER_SIZE)) 255)) PCI_COMMAND = pci_get_word a PCI_COMMAND) end.
  { unfold pci_get_word. f_equal. apply aread_same. intros j Hj. apply aget_awrite_out. unfold PCI_COMMAND, PCI_CONFIG_HEADER_SIZE in *. lia. }
  cbn [pci_init_cmask set_cmask] in E. rewrite E. clear E. unfold pci_word_test_and_set_mask. case_match; rewrite !get_set_word; reflexivity.
Qed.

Lemma no_regions d i : io_regions d = ∅ → region d i = no_region.
Proof. intros E. unfold region. by rewrite E, lookup_empty. Qed.

(** A new device as [do_pci_register_device] leaves it. *)
Definition is_new (pc : PCIDeviceClass) (b f : Z) (d : PCIDevice) : Prop :=
  bus d = b ∧ devfn d = f ∧ irq_state d = 0 ∧ bus_master d = false ∧
  pci_get_word (config d) PCI_VENDOR_ID = u16 (vendor_id pc) ∧ pci_get_word (config d) PCI_DEVICE_ID = u16 (device_id pc) ∧
  dev_ok d ∧ caps_ok d [] ∧ command_writable d.

Lemma new_device pc d c b f :
  io_regions d = ∅ → mapped d = ∅ → afits 8 c → identity pc c →
  is_new pc b f (announce (init_masks (set_config c (pci_config_alloc (set_irqs 0 (set_bus_master false (set_place b f d))))))).
Proof.
  intros Hr Hm Hc (Hv & Hdv & Hz). set (e := set_config c (pci_config_alloc (set_irqs 0 (set_bus_master false (set_place b f d))))).
  assert (Hmk : masks_ok (init_masks e)) by (by apply init_masks_ok).
  assert (Hann : ∃ c', announce (init_masks e) = set_config c' (init_masks e) ∧ afits 8 c' ∧ ∀ j, j ≠ PCI_HEADER_TYPE → aget c' j = aget c j).
  { unfold announce. case_match.
    - eexists. split; [reflexivity|]. split; [apply afits_aset; [done|apply lor_fits; [lia|apply Hc|done]]|]. intros j Hj. by apply aget_aset_ne.
    - exists c. split; [reflexivity|done]. }
  destruct Hann as (c' & -> & Hc' & Hj'). set (d' := set_config c' (init_masks e)).
  assert (Hw : ∀ o, o + 2 ≤ PCI_HEADER_TYPE → pci_get_word c' o = pci_get_word c o).
  { intros o Ho. unfold pci_get_word. f_equal. apply aread_same. intros j Hj. apply Hj'. lia. }
  assert (Hreg : ∀ i, region d' i = no_region) by (intros i; by apply no_regions).
  do 4 (split; [done|]). split; [by rewrite <-Hv; apply Hw|]. split; [by rewrite <-Hdv; apply Hw|]. split; [|split].
  - split; [by apply masks_config| | |].
    + intros i Hi. rewrite Hreg. change (mapped d') with (mapped d). by rewrite Hm, lookup_empty.
    + split; [intros i Hi; by rewrite Hreg|]. apply (init_wmask_low e); [done|done|done|done|unfold PCI_COMMAND, PCI_HEADER_TYPE; lia].
    + intros i Hi. unfold remap. by rewrite Hreg.
  - split; [|by apply NoDup_nil| |by intros o []%not_elem_of_nil|].
    + cbn [chain]. change (config d') with c'. rewrite Hj' by done. apply Hz. unfold PCI_CAPABILITY_LIST. lia.
    + change (config d') with c'. rewrite Hj' by done. rewrite Hz by (unfold PCI_STATUS; lia). done.
    + intros j. change (used d') with (∅ : arr). by rewrite !aget_empty.
  - by apply (init_command e).
Qed.

(** ** Counters and a new device *)

Lemma irq_route_mono fuel s s' a p r :
  (∀ a d, devs s !! a = Some d → devs s' !! a = Some d) →
  (∀ b x, buses s !! b = Some x → ∃ x', buses s' !! b = Some x' ∧ set_irq x' = set_irq x ∧ map_irq x' = map_irq x ∧ parent_dev x' = parent_dev x) →
  irq_route fuel a p s = Ok r → irq_route fuel a p s' = Ok r.
Proof.
  intros Hd Hb. revert a p. induction fuel as [|fuel IH]; intros a p; [done|]. cbn [irq_route]. unfold get_dev, get_bus.
  destruct (devs s !! a) as [d|] eqn:Ea; [|done]. rewrite (Hd a d Ea). cbn [mbind res_bind].
  destruct (buses s !! bus d) as [x|] eqn:Eb; [|done]. destruct (Hb _ _ Eb) as (x' & -> & E1 & E2 & E3). cbn [mbind res_bind].
  rewrite E1, E2, E3. destruct (set_irq x); [done|]. destruct (parent_dev x); [apply IH|done].
Qed.

Lemma add_device_counts fuel s a d b x m :
  counts_ok fuel s → devs s !! a = None → irq_state d = 0 → bus d = b → buses s !! b = Some x → set_irq x = true → (0 < fuel)%nat →
  (∀ p, p ∈ pins → 0 ≤ map_irq x (devfn d) p < nirq x) → 4 * Z.of_nat (S (size (devs s))) + 8 < 2 ^ 31 →
  counts_ok fuel (put_dev a d (put_bus b (set_devices m x) s)).
Proof.
  intros Hk Ha Hi Hbd Hb Hx Hf Hmap Hsz. set (s' := put_dev a d (put_bus b (set_devices m x) s)).
  assert (Hdm : ∀ a' d', devs s !! a' = Some d' → devs s' !! a' = Some d') by (intros a' d' H; cbn; rewrite lookup_insert_ne; [done|congruence]).
  assert (Hbm : ∀ b' x', buses s !! b' = Some x' → ∃ x'', buses s' !! b' = Some x'' ∧ set_irq x'' = set_irq x' ∧ map_irq x'' = map_irq x' ∧ parent_dev x'' = parent_dev x').
  { intros b' x' H. cbn. destruct (decide (b = b')) as [<-|]; [rewrite lookup_insert_eq; simplify_eq; by eexists|rewrite lookup_insert_ne by done; by eexists]. }
  assert (Hbi : ∀ b' x', buses s' !! b' = Some x' → ∃ x'', buses s !! b' = Some x'' ∧ set_irq x'' = set_irq x' ∧ nirq x'' = nirq x' ∧ irq_count x'' = irq_count x' ∧ host_irq x'' = host_irq x').
  { intros b' x' H. cbn in H. destruct (decide (b = b')) as [<-|]; [rewrite lookup_insert_eq in H; simplify_eq; by exists x|rewrite lookup_insert_ne in H by done; by eexists]. }
  split.
  - intros a' d' p Ha' Hp. cbn [s' put_dev devs put_bus] in Ha'. destruct (decide (a = a')) as [<-|Hne].
    + rewrite lookup_insert_eq in Ha'. simplify_eq. exists (bus d'), (map_irq x (devfn d') p), (set_devices m x). split.
      * destruct fuel; [lia|]. cbn [irq_route]. unfold get_dev, get_bus. cbn [s' put_dev put_bus devs buses]. rewrite lookup_insert_eq. cbn [mbind res_bind].
        rewrite lookup_insert_eq. cbn [mbind res_bind set_devices set_irq map_irq]. by rewrite Hx.
      * split; [cbn; by rewrite lookup_insert_eq|]. split; [done|by apply Hmap].
    + rewrite lookup_insert_ne in Ha' by done. destruct (ct_route _ _ _ Hk a' d' p Ha' Hp) as (b' & irq' & x' & Hr & Hb' & Hx' & Hi').
      destruct (decide (b = b')) as [<-|Hnb].
      * simplify_eq. exists (bus d), irq', (set_devices m x). split; [by eapply irq_route_mono|]. split; [cbn; by rewrite lookup_insert_eq|done].
      * exists b', irq', x'. split; [by eapply irq_route_mono|]. split; [cbn; by rewrite lookup_insert_ne|done].
  - intros b' x' irq Hb' Hx' Hi'. destruct (Hbi b' x' Hb') as (x'' & Hb'' & E1 & E2 & E3 & E4). rewrite <-E3. unfold no_debt. rewrite Z.add_0_r.
    pose proof (ct_count _ _ _ Hk b' x'' irq Hb'' ltac:(congruence) ltac:(rewrite E2; done)) as Hc. unfold no_debt in Hc. rewrite Z.add_0_r in Hc. rewrite Hc.
    unfold pin_count. cbn [s' put_dev put_bus devs]. rewrite fold_insert by done.
    assert (Hz : contrib fuel s' b' irq a d = 0).
    { destruct (decide (contrib fuel s' b' irq a d = 0)) as [|Hne]; [done|]. apply contrib_nonzero in Hne as (q & _ & _ & Hq). unfold asserted, pci_irq_state in Hq. rewrite Hi, Z.shiftr_0_l in Hq. by destruct (pci_irq_disabled d). }
    rewrite Hz, Z.add_0_l. apply fold_ext. intros a0 d0 H0. unfold contrib, sum_pins, pins. cbn [foldr].
    assert (Hh : ∀ p, p ∈ pins → hits fuel s a0 p b' irq = hits fuel s' a0 p b' irq).
    { intros p Hp. destruct (ct_route _ _ _ Hk a0 d0 p H0 Hp) as (b1 & i1 & x1 & Hr1 & _). unfold hits. rewrite Hr1. by rewrite (irq_route_mono fuel s s' a0 p _ Hdm Hbm Hr1). }
    by rewrite !Hh by (apply in_pins; lia).
  - intros b' x' irq Hb' Hx' Hi'. destruct (Hbi b' x' Hb') as (x'' & Hb'' & E1 & E2 & E3 & E4). rewrite <-E3, <-E4. eapply (ct_lines _ _ _ Hk b'); [done|congruence|by rewrite E2].
  - cbn [s' put_dev put_bus devs]. by rewrite map_size_insert_None.
Qed.

(** Routes that do not pass a device do not see it go. *)
Lemma irq_route_remove fuel s s' a a' p :
  devs s' = delete a (devs s) →
  (∀ b x, buses s !! b = Some x → ∃ x', buses s' !! b = Some x' ∧ set_irq x' = set_irq x ∧ map_irq x' = map_irq x ∧ parent_dev x' = parent_dev x) →
  (∀ b x, buses s !! b = Some x → parent_dev x ≠ Some a) → (∀ b, buses s !! b = None → buses s' !! b = None) →
  a' ≠ a → irq_route fuel a' p s' = irq_route fuel a' p s.
Proof.
  intros Hd Hb Hpa Hn. revert a' p. induction fuel as [|fuel IH]; intros a' p Hne; [done|]. cbn [irq_route]. unfold get_dev, get_bus.
  rewrite Hd, lookup_delete_ne by done. destruct (devs s !! a') as [d|]; [|done]. cbn [mbind res_bind].
  destruct (buses s !! bus d) as [x|] eqn:Eb; [|by rewrite (Hn _ Eb)]. destruct (Hb _ _ Eb) as (x' & -> & E1 & E2 & E3). cbn [mbind res_bind].
  rewrite E1, E2, E3. destruct (set_irq x); [done|]. destruct (parent_dev x) as [q|] eqn:Eq; [|done]. apply IH. intros ->. by apply (Hpa _ _ Eb).
Qed.

(** Taking away a device that is no bridge and drives no line leaves the counters right. *)
Lemma remove_device_counts fuel s a d x m :
  counts_ok fuel s → devs s !! a = Some d → (∀ p, p ∈ pins → asserted d p = 0) → buses s !! bus d = Some x →
  (∀ b x, buses s !! b = Some x → parent_dev x ≠ Some a) →
  counts_ok fuel (mkSys (delete a (devs s)) (<[bus d := set_devices m x]> (buses s)) (sent s)).
Proof.
  intros Hk Ha Hi Hb Hpa. set (s' := mkSys _ _ _).
  assert (Hbm : ∀ b' x', buses s !! b' = Some x' → ∃ x'', buses s' !! b' = Some x'' ∧ set_irq x'' = set_irq x' ∧ map_irq x'' = map_irq x' ∧ parent_dev x'' = parent_dev x').
  { intros b' x' Hx. cbn. destruct (decide (bus d = b')) as [<-|]; [rewrite lookup_insert_eq; simplify_eq; by eexists|rewrite lookup_insert_ne by done; by eexists]. }
  assert (Hbi : ∀ b' x', buses s' !! b' = Some x' → ∃ x'', buses s !! b' = Some x'' ∧ set_irq x'' = set_irq x' ∧ nirq x'' = nirq x' ∧ irq_count x'' = irq_count x' ∧ host_irq x'' = host_irq x').
  { intros b' x' Hx. cbn in Hx. destruct (decide (bus d = b')) as [<-|]; [rewrite lookup_insert_eq in Hx; simplify_eq; by exists x|rewrite lookup_insert_ne in Hx by done; by eexists]. }
  assert (Hr : ∀ a' p, a' ≠ a → irq_route fuel a' p s' = irq_route fuel a' p s).
  { intros a' p. apply irq_route_remove; try done. intros b Hn. cbn. rewrite lookup_insert_ne; [done|]. intros <-. congruence. }
  split.
  - cbn [s' devs]. intros a' d' p [Hne Ha']%lookup_delete_Some Hp. rewrite (Hr a' p) by done.
    destruct (ct_route _ _ _ Hk a' d' p Ha' Hp) as (b' & irq' & x' & E & Hb' & Hx' & Hi'). destruct (decide (bus d = b')) as [<-|Hnb].
    + simplify_eq. exists (bus d), irq', (set_devices m x). split; [done|]. split; [cbn; by rewrite lookup_insert_eq|done].
    + exists b', irq', x'. split; [done|]. split; [cbn; by rewrite lookup_insert_ne|done].
  - intros b' x' irq Hb' Hx' Hi'. destruct (Hbi b' x' Hb') as (x'' & Hb'' & E1 & E2 & E3 & E4). rewrite <-E3.
    rewrite (ct_count _ _ _ Hk b' x'' irq Hb'' ltac:(congruence) ltac:(by rewrite E2)). unfold pin_count. cbn [s' devs].
    rewrite <-(insert_delete_id (devs s) a d Ha) at 1. rewrite fold_insert by apply lookup_delete_eq.
    assert (Hz : contrib fuel s b' irq a d = 0).
    { destruct (decide (contrib fuel s b' irq a d = 0)) as [|Hne]; [done|]. apply contrib_nonzero in Hne as (q & Hq & _ & Hq1). rewrite Hi in Hq1 by done. done. }
    rewrite Hz, Z.add_0_l. apply fold_ext. intros a0 d0 [H0 _]%lookup_delete_Some. unfold contrib, sum_pins, pins, hits. cbn [foldr]. by rewrite !Hr.
  - intros b' x' irq Hb' Hx' Hi'. destruct (Hbi b' x' Hb') as (x'' & Hb'' & E1 & E2 & E3 & E4). rewrite <-E3, <-E4. eapply (ct_lines _ _ _ Hk b'); [done|congruence|by rewrite E2].
  - cbn [s' devs]. pose proof (ct_size _ _ _ Hk). rewrite map_size_delete_Some by done. lia.
Qed.

Lemma leave_bus_ok msi fuel s a d :
  sys_ok msi fuel s → devs s !! a = Some d → (∀ p, p ∈ pins → asserted d p = 0) →
  (∀ b x, buses s !! b = Some x → parent_dev x ≠ Some a) →
  ∃ x, buses s !! bus d = Some x ∧
    leave_bus a s = Ok (mkSys (delete a (devs s)) (<[bus d := set_devices (delete (devfn d) (devices x)) x]> (buses s)) (sent s)) ∧
    sys_ok msi fuel (mkSys (delete a (devs s)) (<[bus d := set_devices (delete (devfn d) (devices x)) x]> (buses s)) (sent s)).
Proof.
  intros [Hk Hd] Ha Hi Hpa. destruct (ct_route _ _ _ Hk a d 0 Ha ltac:(apply in_pins; lia)) as (b & irq & y & Hr & _).
  assert (∃ x, buses s !! bus d = Some x) as [x Hx].
  { destruct fuel; [done|]. cbn [irq_route] in Hr. unfold get_dev, get_bus in Hr. rewrite Ha in Hr. cbn [mbind res_bind] in Hr. destruct (buses s !! bus d); [by eexists|done]. }
  exists x. split; [done|]. unfold leave_bus, get_dev, get_bus. rewrite Ha. cbn [mbind res_bind]. rewrite Hx. split; [done|].
  split; [by apply remove_device_counts|]. cbn [devs]. intros a' d' [_ Ha']%lookup_delete_Some. by apply Hd with a'.
Qed.

(** The slot the caller asked for, or the first free one. *)
Definition slot_for (x : PCIBus) (f : Z) (r : option Z) : Prop :=
  match r with
  | None => if f <? 0 then ∀ i, (i < 32)%nat → devfn_min x + 8 * Z.of_nat i < PCI_DEVICES → is_Some (devices x !! (devfn_min x + 8 * Z.of_nat i))
            else is_Some (devices x !! f)
  | Some f' => devices x !! f' = None ∧ 0 ≤ f' < PCI_DEVICES ∧
            if f <? 0 then ∃ k, f' = devfn_min x + 8 * Z.of_nat k ∧ ∀ i, (i < k)%nat → is_Some (devices x !! (devfn_min x + 8 * Z.of_nat i))
            else f' = f
  end.
Lemma pick_devfn_spec x f : f < PCI_DEVICES → 0 ≤ devfn_min x → ∃ r, pick_devfn x f = Ok r ∧ slot_for x f r.
Proof.
  intros Hf Hmin. unfold pick_devfn, slot_for. destruct (Z.ltb_spec f 0).
  - destruct (find_slot_spec 33 (devfn_min x) x) as [(k & E1 & E2 & E3 & E4)|[E1 E2]]; eexists; (split; [by rewrite E1|]).
    + split; [done|]. split; [lia|]. by exists k.
    + intros i Hi. apply E2. lia.
  - rewrite (proj2 (Z.ltb_lt f PCI_DEVICES)) by done. cbn [negb]. eexists. split; [reflexivity|]. destruct (devices x !! f) eqn:E; [by eexists|].
    split; [done|]. split; [lia|done].
Qed.

(** C32: Putting a device on a bus: it gets the slot asked for, or the first free one of the bus when the
    caller leaves the choice, and is refused exactly if there is no such slot or the multifunction
    rules forbid it; the new device has its identity, an empty capability list, no mappings and its
    pins low, nothing else changes, and the interrupt counters stay right. *)
Theorem do_pci_register_device_spec fuel pc a b f d s x :
  counts_ok fuel s → (0 < fuel)%nat → buses s !! b = Some x → set_irq x = true →
  (∀ f p, p ∈ pins → 0 ≤ map_irq x f p < nirq x) → (∀ f a, devices x !! f = Some a → is_Some (devs s !! a)) →
  4 * Z.of_nat (S (size (devs s))) + 8 < 2 ^ 31 → devs s !! a = None → io_regions d = ∅ → mapped d = ∅ →
  is_bridge pc = false → f < PCI_DEVICES → 0 ≤ devfn_min x →
  ∃ r, pick_devfn x f = Ok r ∧ slot_for x f r ∧
    match r with
    | None => do_pci_register_device pc a b f d s = Ok None
    | Some f' =>
        if conflict x s f' (tst (cap_present d) QEMU_PCI_CAP_MULTIFUNCTION) then do_pci_register_device pc a b f d s = Ok None
        else ∃ s' d', do_pci_register_device pc a b f d s = Ok (Some s') ∧ is_new pc b f' d' ∧ devs s' = <[a := d']> (devs s) ∧
               buses s' = <[b := set_devices (<[f' := a]> (devices x)) x]> (buses s) ∧ counts_ok fuel s'
    end.
Proof.
  intros Hk Hfu Hb Hx Hmap Hdev Hsz Ha Hio Hmp Hbr Hf Hmin. destruct (pick_devfn_spec x f Hf Hmin) as (r & Er & Hr).
  exists r. split; [done|]. split; [done|]. unfold do_pci_register_device, get_bus. rewrite Hb. cbn [mbind res_bind]. rewrite Er. cbn [mbind res_bind].
  destruct r as [f'|]; [|done]. cbv zeta. rewrite Hbr. set (d0 := pci_config_alloc (set_irqs 0 (set_bus_master false (set_place b f' d)))).
  destruct (init_config_spec pc d0 Hbr eq_refl) as (c & Ec & Hc & Hid). rewrite Ec. cbn [mbind res_bind].
  fold (init_masks (set_config c d0)). rewrite pci_init_multifunction_spec by done.
  change (devfn (init_masks (set_config c d0))) with f'. change (cap_present (init_masks (set_config c d0))) with (cap_present d). cbn [mbind res_bind].
  destruct (conflict x s f' (tst (cap_present d) QEMU_PCI_CAP_MULTIFUNCTION)); [done|].
  pose proof (new_device pc d c b f' Hio Hmp Hc Hid) as Hnew. fold d0 in Hnew. set (d' := announce (init_masks (set_config c d0))) in *.
  eexists _, d'. split; [reflexivity|]. split; [done|]. split; [done|]. split; [done|].
  destruct Hnew as (E1 & E2 & E3 & _). apply add_device_counts; try done. intros p Hp. by apply Hmap.
Qed.

(** A class of network cards, and a device object as it was allocated. *)
Definition e1000_class : PCIDeviceClass := mkClass 0x8086 0x100e 3 0x0200 0 0 false.
Definition object : PCIDevice := zeroed.
Lemma card_bus f p : p ∈ pins → 0 ≤ map_irq root_bus f p < nirq root_bus.
Proof. intros _. cbn. unfold pci_swizzle_map_irq_fn, PCI_NUM_PINS. pose proof (Z.mod_pos_bound (p + PCI_SLOT f) 4). lia. Qed.
Lemma root_devices f a : devices root_bus !! f = Some a → is_Some (devs machine !! a).
Proof. change (devices root_bus) with ({[24 := 1]} : gmap Z Z). rewrite lookup_singleton_Some. intros [_ <-]. exists card. apply machine_card. Qed.
Lemma machine_fresh : devs machine !! 2 = None ∧ 4 * Z.of_nat (S (size (devs machine))) + 8 < 2 ^ 31.
Proof. split; vm_compute; reflexivity. Qed.
Lemma do_pci_register_device_spec_witness :
  ∃ r, pick_devfn root_bus (-1) = Ok r ∧ slot_for root_bus (-1) r ∧
    match r with
    | None => do_pci_register_device e1000_class 2 0 (-1) object machine = Ok None
    | Some f' =>
        if conflict root_bus machine f' (tst (cap_present object) QEMU_PCI_CAP_MULTIFUNCTION) then do_pci_register_device e1000_class 2 0 (-1) object machine = Ok None
        else ∃ s' d', do_pci_register_device e1000_class 2 0 (-1) object machine = Ok (Some s') ∧ is_new e1000_class 0 f' d' ∧ devs s' = <[2 := d']> (devs machine) ∧
               buses s' = <[0 := set_devices (<[f' := 2]> (devices root_bus)) root_bus]> (buses machine) ∧ counts_ok 1 s'
    end.
Proof.
  apply (do_pci_register_device_spec 1 e1000_class 2 0 (-1) object machine root_bus machine_counts (le_n 1) machine_root eq_refl card_bus root_devices
           (proj2 machine_fresh) (proj1 machine_fresh) eq_refl eq_refl eq_refl); [unfold PCI_DEVICES; lia|cbn; lia].
Defined.
(** Function 1 of the slot of the card, which announces no other functions, is refused. *)
Example register_refused : do_pci_register_device e1000_class 2 0 25 object machine = Ok None.
Proof. vm_compute. reflexivity. Qed.

(** Removing a device whose pin is up leaves the line up, with no pin left to lower it. *)
Lemma unregister_leaks : (s ← leave_bus 1 pin_up; l ← line3 s; Ok (l, size (devs s))) = Ok (Some true, 1, 0%nat).
Proof. vm_compute. reflexivity. Qed.

End PciHost.
