(* ===== verification/Msi.v ===== *)
(** Message-signalled interrupts of a PCI device (hw/pci/msi.c): the capability, its registers, the
    messages a device sends, the vectors the guest masks and the ones that wait for it; the hook
    that runs after each configuration write, which discharges the interface [PciBus.MsiLaws]. *)

From S2P Require Import Prelude Pci PciBus.
Import Pci PciBus.

Module Msi.

(** ** Constants (pci_regs.h, msi.c) *)

Definition PCI_CAP_ID_MSI : Z := 0x05.
Definition PCI_MSI_FLAGS : Z := 2.
Definition PCI_MSI_FLAGS_64BIT : Z := 0x80.
Definition PCI_MSI_FLAGS_QSIZE : Z := 0x70.
Definition PCI_MSI_FLAGS_QMASK : Z := 0x0e.
Definition PCI_MSI_FLAGS_ENABLE : Z := 0x01.
Definition PCI_MSI_FLAGS_MASKBIT : Z := 0x100.
Definition PCI_MSI_ADDRESS_LO : Z := 4.
Definition PCI_MSI_ADDRESS_HI : Z := 8.
Definition PCI_MSI_DATA_32 : Z := 8.
Definition PCI_MSI_MASK_32 : Z := 12.
Definition PCI_MSI_DATA_64 : Z := 12.
Definition PCI_MSI_MASK_64 : Z := 16.
Definition PCI_MSI_PENDING_32 : Z := 0x10.
Definition PCI_MSI_PENDING_64 : Z := 0x14.
(** [~0x3] in 32 bits. *)
Definition PCI_MSI_ADDRESS_LO_MASK : Z := 0xfffffffc.
Definition PCI_MSI_32_SIZEOF : Z := 0x0a.
Definition PCI_MSI_64_SIZEOF : Z := 0x0e.
Definition PCI_MSI_32M_SIZEOF : Z := 0x14.
Definition PCI_MSI_64M_SIZEOF : Z := 0x18.
Definition PCI_MSI_VECTORS_MAX : Z := 32.
Definition ENOTSUP : Z := 95.

(** [ffs]: one more than the number of the lowest bit that is set. *)
Fixpoint pos_ffs (p : positive) : Z := match p with xO p => 1 + pos_ffs p | _ => 1 end.
Definition ffs (x : Z) : Z := match x with Zpos p | Zneg p => pos_ffs p | Z0 => 0 end.

(** ** Registers *)

Definition msi_present (d : PCIDevice) : bool := tst (cap_present d) QEMU_PCI_CAP_MSI.

Definition msi_cap_sizeof (flags : Z) : Z :=
  match tst flags PCI_MSI_FLAGS_MASKBIT, tst flags PCI_MSI_FLAGS_64BIT with
  | true, true => PCI_MSI_64M_SIZEOF
  | false, true => PCI_MSI_64_SIZEOF
  | true, false => PCI_MSI_32M_SIZEOF
  | false, false => PCI_MSI_32_SIZEOF
  end.

Definition log_num_vecs (flags : Z) : Z := Z.shiftr (Z.land flags PCI_MSI_FLAGS_QSIZE) (ffs PCI_MSI_FLAGS_QSIZE - 1).
Definition log_max_vecs (flags : Z) : Z := Z.shiftr (Z.land flags PCI_MSI_FLAGS_QMASK) (ffs PCI_MSI_FLAGS_QMASK - 1).
Definition msi_nr_vectors (flags : Z) : Z := Z.shiftl 1 (log_num_vecs flags).

Definition msi_flags_off (d : PCIDevice) : Z := u8 (msi_cap d + PCI_MSI_FLAGS).
Definition msi_address_lo_off (d : PCIDevice) : Z := u8 (msi_cap d + PCI_MSI_ADDRESS_LO).
Definition msi_address_hi_off (d : PCIDevice) : Z := u8 (msi_cap d + PCI_MSI_ADDRESS_HI).
Definition msi_data_off (d : PCIDevice) (msi64bit : bool) : Z :=
  u8 (msi_cap d + if msi64bit then PCI_MSI_DATA_64 else PCI_MSI_DATA_32).
Definition msi_mask_off (d : PCIDevice) (msi64bit : bool) : Z :=
  u8 (msi_cap d + if msi64bit then PCI_MSI_MASK_64 else PCI_MSI_MASK_32).
Definition msi_pending_off (d : PCIDevice) (msi64bit : bool) : Z :=
  u8 (msi_cap d + if msi64bit then PCI_MSI_PENDING_64 else PCI_MSI_PENDING_32).

Definition pci_long_test_and_clear_mask (a : arr) (o mask : Z) : arr := pci_set_long a o (clr (pci_get_long a o) mask).
Definition pci_long_test_and_set_mask (a : arr) (o mask : Z) : arr := pci_set_long a o (Z.lor (pci_get_long a o) mask).

Definition msi_flags (d : PCIDevice) : Z := pci_get_word (config d) (msi_flags_off d).
Definition msi_nr_vectors_allocated (d : PCIDevice) : Z := msi_nr_vectors (msi_flags d).
Definition msi_enabled (d : PCIDevice) : bool := msi_present d && tst (msi_flags d) PCI_MSI_FLAGS_ENABLE.

(** ** Messages *)

Definition msi_set_message (address data : Z) (d : PCIDevice) : PCIDevice :=
  let msi64bit := tst (msi_flags d) PCI_MSI_FLAGS_64BIT in
  let d := if msi64bit then set_config (pci_set_quad (config d) (msi_address_lo_off d) address) d
           else set_config (pci_set_long (config d) (msi_address_lo_off d) address) d in
  set_config (pci_set_word (config d) (msi_data_off d msi64bit) data) d.

Definition msi_get_message (d : PCIDevice) (vector : Z) : res (Z * Z) :=
  let flags := msi_flags d in
  let msi64bit := tst flags PCI_MSI_FLAGS_64BIT in
  let nr_vectors := msi_nr_vectors flags in
  if negb (vector <? nr_vectors) then Fault AssertFail
  else
    let address := if msi64bit then pci_get_quad (config d) (msi_address_lo_off d)
                   else pci_get_long (config d) (msi_address_lo_off d) in
    let data := pci_get_word (config d) (msi_data_off d msi64bit) in
    Ok (address, if 1 <? nr_vectors then Z.lor (clr data (nr_vectors - 1)) vector else data).

Definition msi_is_masked (d : PCIDevice) (vector : Z) : res bool :=
  let flags := msi_flags d in
  if negb (vector <? PCI_MSI_VECTORS_MAX) then Fault AssertFail
  else if negb (tst flags PCI_MSI_FLAGS_MASKBIT) then Ok false
  else Ok (tst (pci_get_long (config d) (msi_mask_off d (tst flags PCI_MSI_FLAGS_64BIT))) (Z.shiftl 1 vector)).

(** [stl_le_phys]: the message goes to memory. *)
Definition stl_le_phys (m : Z * Z) (s : PciSys) : PciSys := mkSys (devs s) (buses s) (sent s ++ [m]).

Definition msi_notify (a vector : Z) (s : PciSys) : res PciSys :=
  d ← get_dev a s;
  let flags := msi_flags d in
  let msi64bit := tst flags PCI_MSI_FLAGS_64BIT in
  if negb (vector <? msi_nr_vectors flags) then Fault AssertFail
  else
    masked ← msi_is_masked d vector;
    if masked : bool then
      if negb (tst flags PCI_MSI_FLAGS_MASKBIT) then Fault AssertFail
      else Ok (put_dev a (set_config (pci_long_test_and_set_mask (config d) (msi_pending_off d msi64bit) (Z.shiftl 1 vector)) d) s)
    else
      msg ← msi_get_message d vector;
      Ok (stl_le_phys msg s).

(** ** The capability *)

Definition msi_init (fuel : nat) (msi_supported : bool) (offset nr_vectors : Z) (msi64bit msi_per_vector_mask : bool)
    (d : PCIDevice) : res (Z * PCIDevice) :=
  if negb msi_supported then Ok (- ENOTSUP, d)
  else if tst nr_vectors (u32 (nr_vectors - 1)) then Fault AssertFail
  else if negb (0 <? nr_vectors) then Fault AssertFail
  else if negb (nr_vectors <=? PCI_MSI_VECTORS_MAX) then Fault AssertFail
  else
    let vectors_order := ffs nr_vectors - 1 in
    let flags := u16 (Z.shiftl vectors_order (ffs PCI_MSI_FLAGS_QMASK - 1)) in
    let flags := if msi64bit then Z.lor flags PCI_MSI_FLAGS_64BIT else flags in
    let flags := if msi_per_vector_mask then Z.lor flags PCI_MSI_FLAGS_MASKBIT else flags in
    let cap_size := msi_cap_sizeof flags in
    '(config_offset, d) ← pci_add_capability fuel PCI_CAP_ID_MSI offset cap_size d;
    if config_offset <? 0 then Ok (config_offset, d)
    else
      let d := set_msi (Z.lor (cap_present d) QEMU_PCI_CAP_MSI) (u8 config_offset) d in
      let d := set_config (pci_set_word (config d) (msi_flags_off d) flags) d in
      let d := set_wmask (pci_set_word (wmask d) (msi_flags_off d) (Z.lor PCI_MSI_FLAGS_QSIZE PCI_MSI_FLAGS_ENABLE)) d in
      let d := set_wmask (pci_set_long (wmask d) (msi_address_lo_off d) PCI_MSI_ADDRESS_LO_MASK) d in
      let d := if msi64bit then set_wmask (pci_set_long (wmask d) (msi_address_hi_off d) 0xffffffff) d else d in
      let d := set_wmask (pci_set_word (wmask d) (msi_data_off d msi64bit) 0xffff) d in
      let d := if msi_per_vector_mask
               then set_wmask (pci_set_long (wmask d) (msi_mask_off d msi64bit) (Z.shiftr 0xffffffff (PCI_MSI_VECTORS_MAX - nr_vectors))) d
               else d in
      Ok (config_offset, d).

Definition msi_uninit (fuel : nat) (d : PCIDevice) : res PCIDevice :=
  if negb (msi_present d) then Ok d
  else
    d ← pci_del_capability fuel PCI_CAP_ID_MSI (msi_cap_sizeof (msi_flags d)) d;
    Ok (set_msi (clr (cap_present d) QEMU_PCI_CAP_MSI) (msi_cap d) d).

Definition msi_reset (d : PCIDevice) : PCIDevice :=
  if negb (msi_present d) then d
  else
    let flags := clr (msi_flags d) (Z.lor PCI_MSI_FLAGS_QSIZE PCI_MSI_FLAGS_ENABLE) in
    let msi64bit := tst flags PCI_MSI_FLAGS_64BIT in
    let d := set_config (pci_set_word (config d) (msi_flags_off d) flags) d in
    let d := set_config (pci_set_long (config d) (msi_address_lo_off d) 0) d in
    let d := if msi64bit then set_config (pci_set_long (config d) (msi_address_hi_off d) 0) d else d in
    let d := set_config (pci_set_word (config d) (msi_data_off d msi64bit) 0) d in
    if tst flags PCI_MSI_FLAGS_MASKBIT then
      let d := set_config (pci_set_long (config d) (msi_mask_off d msi64bit) 0) d in
      set_config (pci_set_long (config d) (msi_pending_off d msi64bit) 0) d
    else d.

(** ** The hook of a configuration write *)

(** The loop that delivers what is no longer masked. *)
Fixpoint deliver_loop (l : list Z) (a pending : Z) (msi64bit : bool) (s : PciSys) : res PciSys :=
  match l with
  | [] => Ok s
  | vector :: l =>
      d ← get_dev a s;
      masked ← msi_is_masked d vector;
      if (masked : bool) || negb (tst pending (Z.shiftl 1 vector)) then deliver_loop l a pending msi64bit s
      else
        let d := set_config (pci_long_test_and_clear_mask (config d) (msi_pending_off d msi64bit) (Z.shiftl 1 vector)) d in
        s ← msi_notify a vector (put_dev a d s);
        deliver_loop l a pending msi64bit s
  end.

(** The number of vectors, cut down to what the device is capable of. *)
Definition clamp_flags (flags : Z) : Z :=
  if log_max_vecs flags <? log_num_vecs flags
  then Z.lor (clr flags PCI_MSI_FLAGS_QSIZE) (Z.shiftl (log_max_vecs flags) (ffs PCI_MSI_FLAGS_QSIZE - 1))
  else flags.

(** The value written is not looked at.  A shift of a 32-bit value by a negative number is undefined. *)
Definition msi_write_config (fuel : nat) (a addr val len : Z) (s : PciSys) : res PciSys :=
  d ← get_dev a s;
  let flags := msi_flags d in
  let msi64bit := tst flags PCI_MSI_FLAGS_64BIT in
  let msi_per_vector_mask := tst flags PCI_MSI_FLAGS_MASKBIT in
  if negb (msi_present d) || negb (ranges_overlap addr len (msi_cap d) (msi_cap_sizeof flags)) then Ok s
  else if negb (tst flags PCI_MSI_FLAGS_ENABLE) then Ok s
  else
    s ← pci_device_deassert_intx fuel a s;
    d ← get_dev a s;
    let d := if log_max_vecs flags <? log_num_vecs flags
             then set_config (pci_set_word (config d) (msi_flags_off d) (clamp_flags flags)) d else d in
    let s := put_dev a d s in
    if negb msi_per_vector_mask then Ok s
    else
      let nr_vectors := msi_nr_vectors (clamp_flags flags) in
      if PCI_MSI_VECTORS_MAX <? nr_vectors then Fault OutOfBounds else
      let pending := Z.land (pci_get_long (config d) (msi_pending_off d msi64bit)) (Z.shiftr 0xffffffff (PCI_MSI_VECTORS_MAX - nr_vectors)) in
      let s := put_dev a (set_config (pci_set_long (config d) (msi_pending_off d msi64bit) pending) d) s in
      deliver_loop (seqZ 0 nr_vectors) a pending msi64bit s.

(** ** The flags *)

Lemma flags_64 f : tst f PCI_MSI_FLAGS_64BIT = Z.testbit f 7.
Proof. exact (tst_bit f 7 ltac:(lia)). Qed.
Lemma flags_mask f : tst f PCI_MSI_FLAGS_MASKBIT = Z.testbit f 8.
Proof. exact (tst_bit f 8 ltac:(lia)). Qed.
Lemma flags_enable f : tst f PCI_MSI_FLAGS_ENABLE = Z.testbit f 0.
Proof. exact (tst_bit f 0 ltac:(lia)). Qed.

(** A field of three bits. *)
Lemma field_land f k : 0 ≤ k → Z.shiftr (Z.land f (Z.shiftl 7 k)) k = Z.land (Z.shiftr f k) 7.
Proof. intros Hk. by rewrite Z.shiftr_land, Z.shiftr_shiftl_l, Z.sub_diag, Z.shiftl_0_r. Qed.
Lemma log_num_land f : log_num_vecs f = Z.land (Z.shiftr f 4) 7.
Proof. apply (field_land f 4). lia. Qed.
Lemma log_max_land f : log_max_vecs f = Z.land (Z.shiftr f 1) 7.
Proof. apply (field_land f 1). lia. Qed.
Lemma land7_bound x : 0 ≤ Z.land x 7 ≤ 7.
Proof. assert (E : Z.land x 7 = x mod 2 ^ 3) by exact (Z.land_ones x 3 ltac:(lia)). rewrite E. pose proof (Z.mod_pos_bound x (2 ^ 3) ltac:(lia)). lia. Qed.
Lemma log_max_bound f : 0 ≤ log_max_vecs f ≤ 7.
Proof. rewrite log_max_land. apply land7_bound. Qed.
Lemma log_num_bound f : 0 ≤ log_num_vecs f ≤ 7.
Proof. rewrite log_num_land. apply land7_bound. Qed.
Lemma land7_ext x y : (∀ k, 0 ≤ k < 3 → Z.testbit x k = Z.testbit y k) → Z.land x 7 = Z.land y 7.
Proof.
  intros H. apply Z.bits_inj'. intros n Hn. rewrite !Z.land_spec. destruct (Z.ltb_spec n 3); [by rewrite H by lia|].
  rewrite (Z.bits_above_log2 7 n) by (cbn; lia). by rewrite !andb_false_r.
Qed.
Lemma log_max_ext f g : (∀ k, 1 ≤ k ≤ 3 → Z.testbit f k = Z.testbit g k) → log_max_vecs f = log_max_vecs g.
Proof. intros H. rewrite !log_max_land. apply land7_ext. intros k Hk. rewrite !Z.shiftr_spec by lia. apply H. lia. Qed.
Lemma nr_vectors_pow f : msi_nr_vectors f = 2 ^ log_num_vecs f.
Proof. unfold msi_nr_vectors. rewrite Z.shiftl_1_l. done. Qed.

(** Replacing the number of vectors. *)
Definition set_qsize (f m : Z) : Z := Z.lor (clr f PCI_MSI_FLAGS_QSIZE) (Z.shiftl m 4).
Lemma small_high m k : 0 ≤ m ≤ 7 → 3 ≤ k → Z.testbit m k = false.
Proof.
  intros Hm Hk. destruct (Z.eq_dec m 0) as [->|]; [apply Z.bits_0|]. apply Z.bits_above_log2; [lia|].
  apply Z.log2_lt_pow2; [lia|]. assert (2 ^ 3 ≤ 2 ^ k) by (apply Z.pow_le_mono_r; lia). lia.
Qed.
Lemma set_qsize_keeps f m k : 0 ≤ m ≤ 7 → 0 ≤ k → ¬ 4 ≤ k < 7 → Z.testbit (set_qsize f m) k = Z.testbit f k.
Proof.
  intros Hm Hk Hn. unfold set_qsize, clr. rewrite Z.lor_spec, Z.land_spec, Z.lnot_spec, Z.shiftl_spec by lia.
  assert (H1 : Z.testbit PCI_MSI_FLAGS_QSIZE k = false).
  { change PCI_MSI_FLAGS_QSIZE with (Z.shiftl 7 4). rewrite Z.shiftl_spec by lia. destruct (Z.ltb_spec k 4); [by apply Z.testbit_neg_r; lia|]. apply small_high; lia. }
  assert (H2 : Z.testbit m (k - 4) = false) by (destruct (Z.ltb_spec k 4); [by apply Z.testbit_neg_r; lia|apply small_high; lia]).
  rewrite H1, H2. cbn. by rewrite andb_true_r, orb_false_r.
Qed.
Lemma set_qsize_num f m : 0 ≤ m ≤ 7 → log_num_vecs (set_qsize f m) = m.
Proof.
  intros Hm. rewrite log_num_land. apply Z.bits_inj'. intros k Hk. rewrite Z.land_spec, Z.shiftr_spec by lia.
  unfold set_qsize, clr. rewrite Z.lor_spec, Z.land_spec, Z.lnot_spec, Z.shiftl_spec by lia. replace (k + 4 - 4) with k by lia.
  change PCI_MSI_FLAGS_QSIZE with (Z.shiftl 7 4). rewrite Z.shiftl_spec by lia. replace (k + 4 - 4) with k by lia.
  destruct (Z.ltb_spec k 3); [|rewrite (small_high 7 k), (small_high m k) by lia; by rewrite andb_false_r].
  assert (k = 0 ∨ k = 1 ∨ k = 2) as [->|[->| ->]] by lia; cbn [Z.testbit]; cbn; by rewrite andb_false_r, andb_true_r.
Qed.
Lemma set_qsize_fits f m : fits 16 f → 0 ≤ m ≤ 7 → fits 16 (set_qsize f m).
Proof.
  intros Hf Hm. apply lor_fits; [lia|by apply clr_fits|]. rewrite Z.shiftl_mul_pow2 by lia. split; lia.
Qed.

Lemma clamp_flags_spec f :
  fits 16 f →
  fits 16 (clamp_flags f) ∧ (∀ k, 0 ≤ k → ¬ 4 ≤ k < 7 → Z.testbit (clamp_flags f) k = Z.testbit f k) ∧
  log_num_vecs (clamp_flags f) = Z.min (log_num_vecs f) (log_max_vecs f) ∧ log_max_vecs (clamp_flags f) = log_max_vecs f.
Proof.
  intros Hf. pose proof (log_max_bound f). unfold clamp_flags. change (ffs PCI_MSI_FLAGS_QSIZE - 1) with 4.
  destruct (Z.ltb_spec (log_max_vecs f) (log_num_vecs f)); [|split; [done|split; [done|split; [lia|done]]]].
  fold (set_qsize f (log_max_vecs f)). split; [by apply set_qsize_fits|]. split; [intros; by apply set_qsize_keeps|].
  split; [rewrite set_qsize_num; lia|]. apply log_max_ext. intros k Hk. apply set_qsize_keeps; lia.
Qed.

(** ** Where the registers are *)

Definition b64 (d : PCIDevice) : bool := tst (msi_flags d) PCI_MSI_FLAGS_64BIT.
Definition maskable (d : PCIDevice) : bool := tst (msi_flags d) PCI_MSI_FLAGS_MASKBIT.
Definition enabled (d : PCIDevice) : bool := tst (msi_flags d) PCI_MSI_FLAGS_ENABLE.
Definition nr_vectors (d : PCIDevice) : Z := msi_nr_vectors (msi_flags d).
Definition cap_size (d : PCIDevice) : Z := msi_cap_sizeof (msi_flags d).
Definition mask_reg (d : PCIDevice) : Z := pci_get_long (config d) (msi_mask_off d (b64 d)).
Definition pending_reg (d : PCIDevice) : Z := pci_get_long (config d) (msi_pending_off d (b64 d)).
Definition masked (d : PCIDevice) (v : Z) : bool := maskable d && Z.testbit (mask_reg d) v.
Definition pending (d : PCIDevice) (v : Z) : bool := Z.testbit (pending_reg d) v.
(** The message of a vector. *)
Definition message (d : PCIDevice) (v : Z) : Z * Z :=
  let data := pci_get_word (config d) (msi_data_off d (b64 d)) in
  (if b64 d then pci_get_quad (config d) (msi_address_lo_off d) else pci_get_long (config d) (msi_address_lo_off d),
   if 1 <? nr_vectors d then Z.lor (clr data (nr_vectors d - 1)) v else data).

(** The capability lies above the header. *)
Definition place_ok (d : PCIDevice) : Prop := PCI_CONFIG_HEADER_SIZE ≤ msi_cap d ∧ msi_cap d + cap_size d ≤ PCI_CONFIG_SPACE_SIZE.

Lemma cap_size_cases d : cap_size d = (if b64 d then 14 else 10) + if maskable d then 10 else 0.
Proof. unfold cap_size, msi_cap_sizeof, b64, maskable. by destruct (tst _ PCI_MSI_FLAGS_MASKBIT), (tst _ PCI_MSI_FLAGS_64BIT). Qed.

(** Offset [k] into the capability. *)
Lemma off_in d k : place_ok d → 0 ≤ k < cap_size d → u8 (msi_cap d + k) = msi_cap d + k.
Proof. intros [H1 H2] Hk. unfold PCI_CONFIG_HEADER_SIZE, PCI_CONFIG_SPACE_SIZE in *. apply u8_small. split; lia. Qed.

Lemma flags_off d : place_ok d → msi_flags_off d = msi_cap d + 2.
Proof. intros Hp. apply off_in; [done|]. rewrite cap_size_cases. repeat case_match; lia. Qed.
Lemma address_off d : place_ok d → msi_address_lo_off d = msi_cap d + 4.
Proof. intros Hp. apply off_in; [done|]. rewrite cap_size_cases. repeat case_match; lia. Qed.
Lemma data_off d : place_ok d → msi_data_off d (b64 d) = msi_cap d + if b64 d then 12 else 8.
Proof. intros Hp. apply (off_in d (if b64 d then 12 else 8)); [done|]. rewrite cap_size_cases. repeat case_match; lia. Qed.
Lemma mask_off d : place_ok d → maskable d = true → msi_mask_off d (b64 d) = msi_cap d + if b64 d then 16 else 12.
Proof. intros Hp Hm. apply (off_in d (if b64 d then 16 else 12)); [done|]. rewrite cap_size_cases, Hm. repeat case_match; lia. Qed.
Lemma pending_off d : place_ok d → maskable d = true → msi_pending_off d (b64 d) = msi_cap d + if b64 d then 20 else 16.
Proof. intros Hp Hm. apply (off_in d (if b64 d then 20 else 16)); [done|]. rewrite cap_size_cases, Hm. repeat case_match; lia. Qed.

(** ** Registers that do not change *)

(** Byte [j] belongs to a register other than the pending bits. *)
Definition stable (d : PCIDevice) (j : Z) : Prop :=
  msi_cap d + 2 ≤ j < msi_cap d + cap_size d ∧ (maskable d = true → j < msi_cap d + if b64 d then 20 else 16).
Record keeps (d d' : PCIDevice) : Prop := {
  kp_cap : msi_cap d' = msi_cap d;
  kp_regs : ∀ j, stable d j → aget (config d') j = aget (config d) j;
}.

Lemma keeps_read d d' o n :
  keeps d d' → (∀ j, o ≤ j < o + Z.of_nat n → stable d j) → aread (config d') o n = aread (config d) o n.
Proof. intros Hk Hs. apply aread_same. intros j Hj. apply (kp_regs _ _ Hk). by apply Hs. Qed.

Lemma keeps_flags d d' : place_ok d → keeps d d' → msi_flags d' = msi_flags d.
Proof.
  intros Hp Hk. unfold msi_flags, msi_flags_off. rewrite (kp_cap _ _ Hk). fold (msi_flags_off d). rewrite flags_off by done.
  unfold pci_get_word. f_equal. apply keeps_read; [done|]. intros j Hj. split; [rewrite cap_size_cases; repeat case_match; lia|]. case_match; lia.
Qed.

Lemma message_ext d d' v :
  place_ok d → msi_cap d' = msi_cap d → msi_flags d' = msi_flags d →
  (∀ j, msi_cap d + 4 ≤ j < msi_cap d + (if b64 d then 14 else 10) → aget (config d') j = aget (config d) j) → message d' v = message d v.
Proof.
  intros Hp Ec Ef Hj. assert (E64 : b64 d' = b64 d) by (unfold b64; by rewrite Ef).
  assert (Hs : ∀ k n, 4 ≤ k → k + Z.of_nat n ≤ (if b64 d then 14 else 10) → aread (config d') (msi_cap d + k) n = aread (config d) (msi_cap d + k) n).
  { intros k n H1 H2. apply aread_same. intros j Hi. apply Hj. lia. }
  unfold message, nr_vectors. rewrite E64, Ef. unfold msi_address_lo_off, msi_data_off. rewrite Ec.
  fold (msi_address_lo_off d) (msi_data_off d (b64 d)). rewrite address_off, data_off by done. unfold pci_get_quad, pci_get_long, pci_get_word.
  destruct (b64 d); rewrite !Hs by lia; done.
Qed.

Section Keeps.
Context (d d' : PCIDevice) (Hp : place_ok d) (Hk : keeps d d').

Lemma keeps_64 : b64 d' = b64 d.
Proof. unfold b64. by rewrite (keeps_flags d d'). Qed.
Lemma keeps_maskable : maskable d' = maskable d.
Proof. unfold maskable. by rewrite (keeps_flags d d'). Qed.
Lemma keeps_enabled : enabled d' = enabled d.
Proof. unfold enabled. by rewrite (keeps_flags d d'). Qed.
Lemma keeps_vectors : nr_vectors d' = nr_vectors d.
Proof. unfold nr_vectors. by rewrite (keeps_flags d d'). Qed.
Lemma keeps_place : place_ok d'.
Proof. unfold place_ok, cap_size. by rewrite (keeps_flags d d'), (kp_cap _ _ Hk). Qed.
Lemma keeps_mask v : masked d' v = masked d v.
Proof.
  unfold masked. rewrite keeps_maskable. destruct (maskable d) eqn:Hm; [|done]. cbn [andb]. f_equal. unfold mask_reg.
  rewrite keeps_64. unfold msi_mask_off. rewrite (kp_cap _ _ Hk). fold (msi_mask_off d (b64 d)). rewrite mask_off by done.
  unfold pci_get_long. f_equal. apply keeps_read; [done|]. intros j Hj. split; [rewrite cap_size_cases, Hm; case_match; lia|]. case_match; lia.
Qed.
Lemma keeps_message v : message d' v = message d v.
Proof.
  apply message_ext; [done|apply Hk|by apply keeps_flags|]. intros j Hj. apply (kp_regs _ _ Hk). split; [rewrite cap_size_cases; repeat case_match; lia|].
  intros _. case_match; lia.
Qed.
End Keeps.

(** ** Notifying *)

Lemma shift_bit x v : 0 ≤ v → tst x (Z.shiftl 1 v) = Z.testbit x v.
Proof. intros Hv. rewrite Z.shiftl_1_l. by apply tst_bit. Qed.
Lemma shiftl1_testbit v k : 0 ≤ v → Z.testbit (Z.shiftl 1 v) k = (v =? k).
Proof. intros Hv. rewrite Z.shiftl_1_l. by apply Z.pow2_bits_eqb. Qed.

Lemma msi_is_masked_spec d v : 0 ≤ v < PCI_MSI_VECTORS_MAX → msi_is_masked d v = Ok (masked d v).
Proof.
  intros Hv. unfold msi_is_masked, masked, maskable. rewrite (proj2 (Z.ltb_lt _ _)) by lia. cbn [negb].
  destruct (tst (msi_flags d) PCI_MSI_FLAGS_MASKBIT); [|done]. cbn [negb andb]. by rewrite shift_bit by lia.
Qed.
Lemma msi_get_message_spec d v : v < nr_vectors d → msi_get_message d v = Ok (message d v).
Proof. intros Hv. unfold msi_get_message, message. fold (nr_vectors d). rewrite (proj2 (Z.ltb_lt _ _)) by done. done. Qed.

Definition set_pending_bit (v : Z) (d : PCIDevice) : PCIDevice :=
  set_config (pci_long_test_and_set_mask (config d) (msi_pending_off d (b64 d)) (Z.shiftl 1 v)) d.
Definition clear_pending_bit (v : Z) (d : PCIDevice) : PCIDevice :=
  set_config (pci_long_test_and_clear_mask (config d) (msi_pending_off d (b64 d)) (Z.shiftl 1 v)) d.

(** A vector the guest masked waits; the message of any other is sent. *)
Lemma msi_notify_spec a v s d :
  devs s !! a = Some d → 0 ≤ v < nr_vectors d → nr_vectors d ≤ PCI_MSI_VECTORS_MAX →
  msi_notify a v s = Ok (if masked d v then put_dev a (set_pending_bit v d) s else stl_le_phys (message d v) s).
Proof.
  intros Ha Hv Hn. unfold msi_notify, get_dev. rewrite Ha. cbn [mbind res_bind]. fold (nr_vectors d). rewrite (proj2 (Z.ltb_lt _ _)) by lia. cbn [negb].
  rewrite msi_is_masked_spec by lia. cbn [mbind res_bind]. destruct (masked d v) eqn:Hm.
  - unfold masked, maskable in Hm. apply andb_true_iff in Hm as [-> _]. done.
  - rewrite msi_get_message_spec by lia. done.
Qed.

(** Writing the pending bits. *)
Lemma set_pending_keeps d x : place_ok d → maskable d = true → keeps d (set_config (pci_set_long (config d) (msi_pending_off d (b64 d)) x) d).
Proof.
  intros Hp Hm. split; [done|]. intros j [Hj1 Hj2]. cbn [set_config config]. specialize (Hj2 Hm). apply set_long_out. rewrite pending_off by done. lia.
Qed.
Lemma set_pending_reg d x :
  place_ok d → maskable d = true → pending_reg (set_config (pci_set_long (config d) (msi_pending_off d (b64 d)) x) d) = u32 x.
Proof.
  intros Hp Hm. unfold pending_reg. rewrite (keeps_64 _ _ Hp (set_pending_keeps d x Hp Hm)).
  unfold msi_pending_off at 2. cbn [set_config config msi_cap]. fold (msi_pending_off d (b64 d)). apply get_set_long.
Qed.
Lemma u32_testbit x k : 0 ≤ k < 32 → Z.testbit (u32 x) k = Z.testbit x k.
Proof. intros Hk. unfold u32. by rewrite Z.mod_pow2_bits_low by lia. Qed.

(** ** The delivery loop *)

Definition due (d : PCIDevice) (P v : Z) : Prop := masked d v = false ∧ Z.testbit P v = true.
#[local] Instance due_dec d P v : Decision (due d P v).
Proof. unfold due. apply _. Defined.

Lemma filter_due d d' P (l : list Z) : (∀ v, masked d' v = masked d v) → filter (due d' P) l = filter (due d P) l.
Proof. intros H. apply list_filter_iff. intros v. unfold due. by rewrite H. Qed.

Lemma deliver_loop_spec l a P s d :
  devs s !! a = Some d → afits 8 (config d) → place_ok d → maskable d = true → nr_vectors d ≤ PCI_MSI_VECTORS_MAX →
  (∀ v, v ∈ l → 0 ≤ v < nr_vectors d) →
  ∃ c, deliver_loop l a P (b64 d) s = Ok (mkSys (<[a := set_config c d]> (devs s)) (buses s) (sent s ++ map (message d) (filter (due d P) l))) ∧
    afits 8 c ∧ (∀ j, ¬ msi_pending_off d (b64 d) ≤ j < msi_pending_off d (b64 d) + 4 → aget c j = aget (config d) j) ∧
    ∀ k, 0 ≤ k < 32 → Z.testbit (pci_get_long c (msi_pending_off d (b64 d))) k = pending d k && negb (bool_decide (k ∈ filter (due d P) l)).
Proof.
  revert s d. induction l as [|v l IH]; intros s d Ha Hc Hp Hm Hn Hl.
  { exists (config d). cbn [deliver_loop]. rewrite filter_nil, app_nil_r. split; [|split; [done|split; [done|]]].
    - destruct s as [ds bs ms], d. cbn [devs buses sent set_config config] in *. cbn. by rewrite insert_id.
    - intros k Hk. rewrite bool_decide_eq_false_2 by apply not_elem_of_nil. by rewrite andb_true_r. }
  cbn [deliver_loop]. unfold get_dev. rewrite Ha. cbn [mbind res_bind]. pose proof (Hl v ltac:(by left)) as Hv.
  rewrite msi_is_masked_spec by lia. cbn [mbind res_bind]. rewrite shift_bit, filter_cons by lia.
  destruct (decide (due d P v)) as [[Hd1 Hd2]|Hno].
  - rewrite Hd1, Hd2. cbn [negb orb]. fold (clear_pending_bit v d). set (d1 := clear_pending_bit v d).
    pose proof (set_pending_keeps d (clr (pci_get_long (config d) (msi_pending_off d (b64 d))) (Z.shiftl 1 v)) Hp Hm) as Hk. fold d1 in Hk.
    assert (Hx : masked d1 v = false) by (by rewrite (keeps_mask d d1)).
    assert (Ha1 : devs (put_dev a d1 s) !! a = Some d1) by apply lookup_insert_eq.
    rewrite (msi_notify_spec a v _ d1) by (try rewrite (keeps_vectors d d1); done || lia). rewrite Hx. cbn [mbind res_bind].
    destruct (IH (stl_le_phys (message d1 v) (put_dev a d1 s)) d1) as (c & E & Hf & Ho & Hb);
      [done|by apply set_long_fits|by apply (keeps_place d d1)|by rewrite (keeps_maskable d d1)|by rewrite (keeps_vectors d d1)|intros w Hw; rewrite (keeps_vectors d d1) by done; apply Hl; by right|].
    rewrite (keeps_64 d d1), (filter_due d d1) in * by (done || intros; by apply keeps_mask).
    change (msi_pending_off d1 (b64 d)) with (msi_pending_off d (b64 d)) in *. exists c. split; [|split; [done|split]].
    + rewrite E. cbn [stl_le_phys put_dev devs buses sent]. rewrite insert_insert_eq, (keeps_message d d1) by done. change (set_config c d1) with (set_config c d).
      rewrite <-app_assoc. cbn [map app]. do 4 f_equal. apply map_ext. intros w. by rewrite (keeps_message d d1).
    + intros j Hj. rewrite Ho by done. apply set_long_out. lia.
    + intros k Hk'. rewrite Hb by done. unfold pending. unfold d1 at 1, clear_pending_bit, pci_long_test_and_clear_mask. rewrite set_pending_reg by done.
      fold (pending_reg d). rewrite u32_testbit by done. unfold clr. rewrite Z.land_spec, Z.lnot_spec, shiftl1_testbit by lia.
      rewrite (bool_decide_ext (k ∈ v :: filter (due d P) l) (k = v ∨ k ∈ filter (due d P) l)) by apply elem_of_cons.
      destruct (Z.eqb_spec v k) as [<-|]; [rewrite (bool_decide_eq_true_2 (v = v ∨ _)) by (by left); cbn [negb]; by rewrite !andb_false_r|].
      rewrite (bool_decide_ext (k = v ∨ k ∈ filter (due d P) l) (k ∈ filter (due d P) l)) by naive_solver. cbn [negb]. by rewrite andb_true_r.
  - assert (E : masked d v || negb (Z.testbit P v) = true).
    { unfold due in Hno. destruct (masked d v), (Z.testbit P v); try done. by destruct Hno. }
    rewrite E. apply IH; try done. intros w Hw. apply Hl. by right.
Qed.

(** ** Lowering the pins *)

Lemma change_irq_level_sent fuel a p c s s' : pci_change_irq_level fuel a p c s = Ok s' → sent s' = sent s.
Proof.
  unfold pci_change_irq_level. destruct (irq_route fuel a p s) as [[b i]| |]; cbn [mbind res_bind]; [|done..].
  destruct (get_bus b s); cbn [mbind res_bind]; [|done..]. case_match; [done|]. by intros [= <-].
Qed.
Lemma irq_handler_sent fuel a p level s s' : pci_irq_handler fuel a p level s = Ok s' → sent s' = sent s.
Proof.
  unfold pci_irq_handler. destruct (get_dev a s); cbn [mbind res_bind]; [|done..]. case_match; [by intros [= <-]|]. case_match; [by intros [= <-]|].
  intros E. by apply change_irq_level_sent in E.
Qed.

Lemma moved_config d p level j : j ≠ PCI_STATUS → aget (config (moved p level d)) j = aget (config d) j.
Proof. intros Hj. unfold moved. case_match; [done|]. cbn. by apply aget_aset_ne. Qed.

Lemma deassert_spec l fuel s a d :
  counts_ok fuel s → devs s !! a = Some d → dev_ok d → (∀ p, p ∈ l → p ∈ pins) →
  ∃ s' d', deassert_loop l fuel a s = Ok s' ∧ counts_ok fuel s' ∧ same_topology s s' ∧ devs s' = <[a := d']> (devs s) ∧
    dev_ok d' ∧ statics d' = statics d ∧ sent s' = sent s ∧ (∀ j, j ≠ PCI_STATUS → aget (config d') j = aget (config d) j) ∧
    ∀ q, q ∈ pins → pci_irq_state d' q = if bool_decide (q ∈ l) then 0 else pci_irq_state d q.
Proof.
  revert s d. induction l as [|p l IH]; intros s d Hk Ha Hd Hl; cbn [deassert_loop].
  { exists s, d. rewrite insert_id by done. split_and!; try done. }
  destruct (pci_irq_handler_counts fuel s a d p 0 Hk Ha ltac:(apply Hl; by left) ltac:(by left)) as (s1 & E1 & Hk1 & Ht1 & Hd1).
  rewrite E1. cbn [mbind res_bind].
  destruct (IH s1 (moved p 0 d) Hk1) as (s2 & d2 & E2 & Hk2 & Ht2 & Hd2 & Hok2 & Hst2 & Hse2 & Hc2 & Hs2).
  { rewrite Hd1. apply lookup_insert_eq. }
  { by apply moved_dev_ok. }
  { intros q Hq. apply Hl. by right. }
  exists s2, d2. split; [done|]. split; [done|]. split; [by eapply same_topology_trans|]. split; [by rewrite Hd2, Hd1, insert_insert_eq|].
  split; [done|]. split; [by rewrite Hst2, moved_statics|]. split; [by rewrite Hse2, (irq_handler_sent _ _ _ _ _ _ E1)|].
  split; [intros j Hj; by rewrite Hc2, moved_config|].
  intros q Hq. rewrite Hs2, moved_state by (try done; try (apply Hl; by left); by left). destruct (Z.eqb_spec p q) as [<-|Hne].
  - rewrite (bool_decide_eq_true_2 (p ∈ p :: l)) by (by left). by case_bool_decide.
  - by rewrite (bool_decide_ext (q ∈ p :: l) (q ∈ l)) by (rewrite elem_of_cons; naive_solver).
Qed.

(** ** What the capability keeps *)

(** What the guest cannot change: the place, the kind, and which bits it may write. *)
Record msi_static (d : PCIDevice) : Prop := {
  ms_place : place_ok d;
  ms_max : log_max_vecs (msi_flags d) ≤ 5;
  ms_wflags : pci_get_word (wmask d) (msi_cap d + 2) = Z.lor PCI_MSI_FLAGS_QSIZE PCI_MSI_FLAGS_ENABLE;
  ms_w1c : ∀ j, msi_cap d ≤ j < msi_cap d + cap_size d → aget (w1cmask d) j = 0;
  ms_pending : maskable d = true → ∀ j, msi_pending_off d (b64 d) ≤ j < msi_pending_off d (b64 d) + 4 → aget (wmask d) j = 0;
}.
(** While the capability is enabled, the number of vectors is one the device is capable of, and
    every vector that waits is masked. *)
Record msi_inv (d : PCIDevice) : Prop := {
  mi_static : msi_static d;
  mi_clamped : enabled d = true → log_num_vecs (msi_flags d) ≤ log_max_vecs (msi_flags d);
  mi_quiet : enabled d = true → maskable d = true → ∀ v, 0 ≤ v < 32 → pending d v = true → masked d v = true ∧ v < nr_vectors d;
}.
Definition msi_dev_ok (d : PCIDevice) : Prop := msi_present d = true → msi_inv d.

Lemma msi_flags_fits d : afits 8 (config d) → fits 16 (msi_flags d).
Proof. intros Hc. exact (get_fits (config d) (msi_flags_off d) 2 Hc). Qed.

(** A device with the same registers, pending bits included. *)
Lemma pending_ext d d' :
  place_ok d → maskable d = true → keeps d d' →
  (∀ j, msi_pending_off d (b64 d) ≤ j < msi_pending_off d (b64 d) + 4 → aget (config d') j = aget (config d) j) →
  pending_reg d' = pending_reg d.
Proof.
  intros Hp Hm Hk Hj. unfold pending_reg. rewrite (keeps_64 d d') by done. unfold msi_pending_off at 1. rewrite (kp_cap _ _ Hk). fold (msi_pending_off d (b64 d)).
  unfold pci_get_long. f_equal. apply aread_same. intros j Hi. apply Hj. lia.
Qed.
Lemma static_ext d d' : msi_static d → statics d' = statics d → keeps d d' → msi_static d'.
Proof.
  intros [Hp H1 H2 H3 H4] [= E1 E2 _ _ _ _] Hk. pose proof (keeps_flags d d' Hp Hk) as Ef. pose proof (kp_cap _ _ Hk) as Ec.
  split; [by apply (keeps_place d)|by rewrite Ef|by rewrite E1, Ec| |].
  - unfold cap_size. rewrite Ef, E2, Ec. done.
  - rewrite (keeps_maskable d), (keeps_64 d) by done. unfold msi_pending_off. rewrite E1, Ec. done.
Qed.
Lemma inv_ext d d' :
  msi_inv d → statics d' = statics d → (∀ j, msi_cap d ≤ j < msi_cap d + cap_size d → aget (config d') j = aget (config d) j) → msi_inv d'.
Proof.
  intros [Hs Hc Hq] Est Hj. pose proof (ms_place _ Hs) as Hp. assert (Hk : keeps d d').
  { split; [by injection Est|]. intros j [Hj1 _]. apply Hj. lia. }
  split; [by eapply static_ext|by rewrite (keeps_enabled d), (keeps_flags d) by done|].
  rewrite (keeps_enabled d), (keeps_maskable d), (keeps_vectors d) by done. intros He Hm v Hv. rewrite (keeps_mask d) by done.
  unfold pending. rewrite (pending_ext d d' Hp Hm Hk); [by apply Hq|]. intros j Hi. apply Hj. rewrite pending_off in Hi by done.
  rewrite cap_size_cases, Hm. destruct (b64 d); lia.
Qed.

(** ** Devices of the same kind *)

(** What the guest cannot change of the flags is the same. *)
Record same_kind (d d' : PCIDevice) : Prop := {
  sk_statics : statics d' = statics d;
  sk_flags : ∀ k, 0 ≤ k < 16 → ¬ 4 ≤ k < 7 → k ≠ 0 → Z.testbit (msi_flags d') k = Z.testbit (msi_flags d) k;
}.
Lemma sk_cap d d' : same_kind d d' → msi_cap d' = msi_cap d.
Proof. intros [Est _]. by injection Est. Qed.
Lemma kind_64 d d' : same_kind d d' → b64 d' = b64 d.
Proof. intros Hk. unfold b64. rewrite !flags_64. apply (sk_flags _ _ Hk); lia. Qed.
Lemma kind_maskable d d' : same_kind d d' → maskable d' = maskable d.
Proof. intros Hk. unfold maskable. rewrite !flags_mask. apply (sk_flags _ _ Hk); lia. Qed.
Lemma kind_cap_size d d' : same_kind d d' → cap_size d' = cap_size d.
Proof. intros Hk. by rewrite !cap_size_cases, (kind_64 d d'), (kind_maskable d d'). Qed.
Lemma kind_max d d' : same_kind d d' → log_max_vecs (msi_flags d') = log_max_vecs (msi_flags d).
Proof. intros Hk. apply log_max_ext. intros k Hi. apply (sk_flags _ _ Hk); lia. Qed.
Lemma kind_static d d' : same_kind d d' → msi_static d → msi_static d'.
Proof.
  intros Hk [[Hp1 Hp2] H1 H2 H3 H4]. pose proof (sk_statics _ _ Hk) as Est. injection Est as E1 E2 _ E4 _ _. split.
  - unfold place_ok. by rewrite (kind_cap_size d d'), E4.
  - by rewrite (kind_max d d').
  - by rewrite E1, E4.
  - rewrite (kind_cap_size d d'), E2, E4 by done. done.
  - rewrite (kind_maskable d d'), (kind_64 d d'), E1 by done. unfold msi_pending_off. rewrite E4. done.
Qed.
Lemma kind_mask d d' v :
  place_ok d → same_kind d d' → (∀ j, msi_cap d + 4 ≤ j < msi_cap d + cap_size d → aget (config d') j = aget (config d) j) → masked d' v = masked d v.
Proof.
  intros Hp Hk Hj. unfold masked. rewrite (kind_maskable d d') by done. destruct (maskable d) eqn:Hm; [|done]. cbn [andb]. f_equal. unfold mask_reg.
  rewrite (kind_64 d d') by done. unfold msi_mask_off. rewrite (sk_cap d d') by done. fold (msi_mask_off d (b64 d)). rewrite mask_off by done.
  unfold pci_get_long. f_equal. apply aread_same. intros j Hi. apply Hj. rewrite cap_size_cases, Hm. destruct (b64 d); lia.
Qed.
Lemma kind_pending d d' :
  place_ok d → maskable d = true → same_kind d d' →
  (∀ j, msi_pending_off d (b64 d) ≤ j < msi_pending_off d (b64 d) + 4 → aget (config d') j = aget (config d) j) → pending_reg d' = pending_reg d.
Proof.
  intros Hp Hm Hk Hj. unfold pending_reg. rewrite (kind_64 d d') by done. unfold msi_pending_off at 1. rewrite (sk_cap d d') by done.
  fold (msi_pending_off d (b64 d)). unfold pci_get_long. f_equal. apply aread_same. intros j Hi. apply Hj. lia.
Qed.

(** ** What the guest's write does to it *)

Lemma bit_kept d c o n addr val m k :
  masks_ok d → afits 8 c → (∀ j, aget c j = written addr val m d j) → 0 ≤ k < 8 * Z.of_nat n →
  (∀ j, o ≤ j < o + Z.of_nat n → aget (w1cmask d) j = 0) → Z.testbit (le_val (aread (wmask d) o n)) k = false →
  Z.testbit (le_val (aread c o n)) k = Z.testbit (le_val (aread (config d) o n)) k.
Proof.
  intros Hm Hc Hw Hk H1 Hb. rewrite get_testbit in Hb by (try apply Hm; lia). rewrite !get_testbit by (try apply Hm; done || lia). rewrite Hw. unfold written.
  pose proof (Z.div_pos k 8 ltac:(lia) ltac:(lia)). assert (k / 8 < Z.of_nat n) by (apply Z.div_lt_upper_bound; lia). pose proof (Z.mod_pos_bound k 8 ltac:(lia)).
  case_match; [|done]. rewrite merge_testbit by (try apply Hm; lia). rewrite Hb, H1 by lia. unfold merge_bit. by rewrite Z.bits_0, andb_false_r, andb_true_r.
Qed.

Section Written.
Context (d d' : PCIDevice) (addr val l : Z).
Context (Hm : masks_ok d) (Hc : afits 8 (config d')) (Est : statics d' = statics d) (Hs : msi_static d).
Context (Hw : ∀ j, aget (config d') j = written addr val (Z.to_nat l) d j).

Lemma written_kind : same_kind d d'.
Proof.
  split; [done|]. intros k Hk H1 H2. pose proof (ms_place _ Hs) as Hp. assert (Ec : msi_cap d' = msi_cap d) by (by injection Est).
  unfold msi_flags, msi_flags_off. rewrite Ec. fold (msi_flags_off d). rewrite flags_off by done. unfold pci_get_word.
  apply (bit_kept d _ _ 2 addr val (Z.to_nat l)); [done|done|done|lia| |].
  - intros j Hj. apply (ms_w1c _ Hs). rewrite cap_size_cases. repeat case_match; lia.
  - pose proof (ms_wflags _ Hs) as E. unfold pci_get_word in E. rewrite E. change (Z.lor PCI_MSI_FLAGS_QSIZE PCI_MSI_FLAGS_ENABLE) with 0x71.
    assert (k = 1 ∨ k = 2 ∨ k = 3 ∨ k = 7 ∨ k = 8 ∨ k = 9 ∨ k = 10 ∨ k = 11 ∨ k = 12 ∨ k = 13 ∨ k = 14 ∨ k = 15) by lia.
    repeat (destruct H as [->|H]; [reflexivity|]). by rewrite H.
Qed.
Lemma written_pending : maskable d = true → pending_reg d' = pending_reg d.
Proof.
  intros Hmk. pose proof (ms_place _ Hs) as Hp. apply kind_pending; [done|done|apply written_kind|]. intros j Hj. rewrite Hw. apply written_readonly; [done|apply (ms_pending _ Hs Hmk); lia|].
  apply (ms_w1c _ Hs). rewrite pending_off in Hj by done. rewrite cap_size_cases, Hmk. destruct (b64 d); lia.
Qed.
(** A write that leaves the capability alone. *)
Lemma written_outside :
  0 ≤ addr → 0 ≤ l ≤ 4 → addr + l ≤ 2 ^ 32 → ranges_overlap addr l (msi_cap d) (cap_size d) = false →
  ∀ j, msi_cap d ≤ j < msi_cap d + cap_size d → aget (config d') j = aget (config d) j.
Proof.
  intros Ha Hl Hal Hr j Hj. rewrite Hw. apply written_out. intros Hin. rewrite Z2Nat.id in Hin by lia.
  destruct (ms_place _ Hs) as [Hp1 Hp2]. unfold PCI_CONFIG_HEADER_SIZE, PCI_CONFIG_SPACE_SIZE in *.
  destruct (ranges_overlap_spec addr l (msi_cap d) (cap_size d)); lia || done.
Qed.
End Written.

(** ** The hook *)

Lemma counts_sent fuel s δ m : counts fuel s δ → counts fuel (mkSys (devs s) (buses s) m) δ.
Proof.
  intros [H1 H2 H3 H4]. assert (Ht : same_topology s (mkSys (devs s) (buses s) m)) by done. split; cbn [devs buses]; [| |done|done].
  - intros a d p Ha Hp. rewrite (irq_route_ext _ _ _ s) by done. by eapply H1.
  - intros b x irq Hb Hx Hi. rewrite (pin_count_ext fuel s) by done. by apply H2.
Qed.

Lemma ones_shift n k : 0 ≤ n ≤ 32 → 0 ≤ k → Z.testbit (Z.shiftr 0xffffffff (32 - n)) k = (k <? n).
Proof.
  intros Hn Hk. rewrite Z.shiftr_spec by done. change 0xffffffff with (Z.ones 32). rewrite Z.testbit_ones_nonneg by lia.
  destruct (Z.ltb_spec k n), (Z.ltb_spec (k + (32 - n)) 32); lia || done.
Qed.

(** The device after the number of vectors was cut down. *)
Lemma clamp_step d :
  afits 8 (config d) → place_ok d →
  ∃ c, (if log_max_vecs (msi_flags d) <? log_num_vecs (msi_flags d)
        then set_config (pci_set_word (config d) (msi_flags_off d) (clamp_flags (msi_flags d))) d else d) = set_config c d ∧
    afits 8 c ∧ (∀ j, j < msi_cap d + 2 ∨ msi_cap d + 4 ≤ j → aget c j = aget (config d) j) ∧ msi_flags (set_config c d) = clamp_flags (msi_flags d).
Proof.
  intros Hc Hp. destruct (Z.ltb_spec (log_max_vecs (msi_flags d)) (log_num_vecs (msi_flags d))) as [Hlt|Hge].
  - eexists. split; [reflexivity|]. split; [by apply set_word_fits|]. rewrite flags_off by done. split; [intros j Hj; apply set_word_out; lia|].
    unfold msi_flags at 1. change (msi_flags_off (set_config _ d)) with (msi_flags_off d). rewrite flags_off by done. cbn [set_config config].
    unfold pci_get_word, pci_set_word. rewrite aread_awrite_len, le_val_le_bytes by apply length_le_bytes. apply Z.mod_small.
    apply (clamp_flags_spec _ (msi_flags_fits d Hc)).
  - exists (config d). split; [by destruct d|]. split; [done|]. split; [done|]. unfold clamp_flags. rewrite (proj2 (Z.ltb_ge _ _)) by done.
    by destruct d.
Qed.

Lemma clamped_kind d d' : afits 8 (config d) → statics d' = statics d → msi_flags d' = clamp_flags (msi_flags d) → same_kind d d'.
Proof. intros Hc Est Ef. split; [done|]. intros k Hk H1 H2. rewrite Ef. apply (clamp_flags_spec _ (msi_flags_fits d Hc)); lia. Qed.

(** The vectors of [d] that wait and are not masked. *)
Definition released (d : PCIDevice) (v : Z) : Prop := due d (pending_reg d) v.
#[local] Instance released_dec d v : Decision (released d v).
Proof. unfold released. apply _. Defined.

(** What the hook leaves of device [d], and what it sends. *)
Record delivered (d d' : PCIDevice) (out : list (Z * Z)) : Prop := {
  dl_kind : same_kind d d';
  dl_inv : msi_inv d';
  dl_flags : msi_flags d' = clamp_flags (msi_flags d);
  dl_mask : ∀ v, masked d' v = masked d v;
  dl_out : out = if maskable d then map (message d') (filter (released d) (seqZ 0 (nr_vectors d'))) else [];
  dl_pending : maskable d = true → ∀ v, 0 ≤ v < 32 → pending d' v = pending d v && masked d v && (v <? nr_vectors d');
  dl_regs : ∀ j, msi_cap d + 4 ≤ j < msi_cap d + (if b64 d then 14 else 10) → aget (config d') j = aget (config d) j;
  dl_header : ∀ j, j < PCI_CONFIG_HEADER_SIZE → j ≠ PCI_STATUS → aget (config d') j = aget (config d) j;
  dl_pins : ∀ q, q ∈ pins → pci_irq_state d' q = 0;
}.

Section Hook.
Context (d d' : PCIDevice) (c : arr).
Context (Hs : msi_static d) (Hf : afits 8 (config d)) (Est : statics d' = statics d) (Efl : msi_flags d' = clamp_flags (msi_flags d)).

Lemma clamped_log : log_num_vecs (msi_flags d') ≤ log_max_vecs (msi_flags d') ∧ log_max_vecs (msi_flags d') ≤ 5.
Proof.
  destruct (clamp_flags_spec _ (msi_flags_fits d Hf)) as (_ & _ & E1 & E2). rewrite Efl, E1, E2. pose proof (ms_max _ Hs). lia.
Qed.
Lemma clamped_vectors : 1 ≤ nr_vectors d' ≤ PCI_MSI_VECTORS_MAX.
Proof.
  destruct clamped_log as [H1 H2]. pose proof (log_num_bound (msi_flags d')). unfold nr_vectors. rewrite nr_vectors_pow. change PCI_MSI_VECTORS_MAX with (2 ^ 5).
  split; [change 1 with (2 ^ 0)|]; apply Z.pow_le_mono_r; lia.
Qed.
End Hook.

Lemma filter_iff_in (P Q : Z → Prop) `{!∀ x, Decision (P x), !∀ x, Decision (Q x)} (l : list Z) :
  (∀ x, x ∈ l → P x ↔ Q x) → filter P l = filter Q l.
Proof.
  intros Hl. induction l as [|x l IH]; [done|]. rewrite !filter_cons, IH by (intros y Hy; apply Hl; by right).
  pose proof (Hl x ltac:(by left)). destruct (decide (P x)), (decide (Q x)); tauto || done.
Qed.

Lemma finish_ok fuel s a d c m :
  counts_ok fuel s → devs s !! a = Some d → dev_ok d → afits 8 c → (∀ j, j < PCI_CONFIG_HEADER_SIZE → aget c j = aget (config d) j) →
  counts_ok fuel (mkSys (<[a := set_config c d]> (devs s)) (buses s) m) ∧
  same_topology s (mkSys (<[a := set_config c d]> (devs s)) (buses s) m) ∧ dev_ok (set_config c d).
Proof.
  intros Hk Ha Hd Hc Hj. split; [|split].
  - apply (counts_sent fuel (put_dev a (set_config c d) s)). eapply put_dev_quiet; [done|done|done|]. intros p _. unfold asserted, pci_irq_disabled.
    assert (E : pci_get_word (config (set_config c d)) PCI_COMMAND = pci_get_word (config d) PCI_COMMAND); [|by rewrite E].
    unfold pci_get_word. f_equal. apply aread_same. intros j Hi. apply Hj. unfold PCI_COMMAND, PCI_CONFIG_HEADER_SIZE in *. lia.
  - exact (put_dev_topology a d (set_config c d) s Ha eq_refl).
  - apply dev_ok_config; [done|done|]. intros j Hi. apply Hj. unfold decoding, PCI_HEADER_TYPE, PCI_CONFIG_HEADER_SIZE in *. lia.
Qed.

(** The last part of the hook, from the device with its flags cut down. *)
Lemma deliver_ok s a d :
  devs s !! a = Some d → afits 8 (config d) → place_ok d → maskable d = true → nr_vectors d ≤ PCI_MSI_VECTORS_MAX →
  let P := Z.land (pending_reg d) (Z.shiftr 0xffffffff (PCI_MSI_VECTORS_MAX - nr_vectors d)) in
  ∃ c, deliver_loop (seqZ 0 (nr_vectors d)) a P (b64 d) (put_dev a (set_config (pci_set_long (config d) (msi_pending_off d (b64 d)) P) d) s) =
         Ok (mkSys (<[a := set_config c d]> (devs s)) (buses s) (sent s ++ map (message d) (filter (released d) (seqZ 0 (nr_vectors d))))) ∧
    afits 8 c ∧ (∀ j, ¬ msi_pending_off d (b64 d) ≤ j < msi_pending_off d (b64 d) + 4 → aget c j = aget (config d) j) ∧
    ∀ k, 0 ≤ k < 32 → pending (set_config c d) k = pending d k && masked d k && (k <? nr_vectors d).
Proof.
  intros Ha Hc Hp Hm Hn P. set (d3 := set_config (pci_set_long (config d) (msi_pending_off d (b64 d)) P) d).
  pose proof (set_pending_keeps d P Hp Hm) as Hk. fold d3 in Hk. assert (Hn0 : 0 ≤ nr_vectors d). { unfold nr_vectors. rewrite nr_vectors_pow. apply Z.pow_nonneg. lia. }
  assert (HP : ∀ k, 0 ≤ k → Z.testbit P k = pending d k && (k <? nr_vectors d)).
  { intros k Hi. unfold P. rewrite Z.land_spec, (ones_shift (nr_vectors d)) by (unfold PCI_MSI_VECTORS_MAX in *; lia). done. }
  destruct (deliver_loop_spec (seqZ 0 (nr_vectors d)) a P (put_dev a d3 s) d3) as (c & E & Hf & Ho & Hb);
    [apply lookup_insert_eq|by apply set_long_fits|by apply (keeps_place d d3)|by rewrite (keeps_maskable d d3)|by rewrite (keeps_vectors d d3)|
     intros v Hv; rewrite (keeps_vectors d d3) by done; apply elem_of_seqZ in Hv; lia|].
  rewrite (keeps_64 d d3), (filter_due d d3) in * by (done || intros; by apply keeps_mask).
  change (msi_pending_off d3 (b64 d)) with (msi_pending_off d (b64 d)) in *.
  assert (Efi : filter (due d P) (seqZ 0 (nr_vectors d)) = filter (released d) (seqZ 0 (nr_vectors d))).
  { apply filter_iff_in. intros v Hv. apply elem_of_seqZ in Hv. unfold released, due. rewrite HP by lia. unfold pending.
    rewrite (proj2 (Z.ltb_lt _ _)) by lia. by rewrite andb_true_r. }
  assert (Hco : ∀ j, ¬ msi_pending_off d (b64 d) ≤ j < msi_pending_off d (b64 d) + 4 → aget c j = aget (config d) j).
  { intros j Hj. rewrite Ho by done. apply set_long_out. lia. }
  exists c. split; [|split; [done|split; [done|]]].
  - rewrite E. cbn [put_dev devs buses sent]. rewrite insert_insert_eq, Efi. change (set_config c d3) with (set_config c d). do 3 f_equal.
    apply map_ext. intros v. by rewrite (keeps_message d d3).
  - intros k Hi. assert (Hk' : keeps d (set_config c d)). { split; [done|]. intros j [_ Hj]. apply Hco. rewrite pending_off by done. specialize (Hj Hm). lia. }
    unfold pending at 1, pending_reg. rewrite (keeps_64 d _ Hp Hk'). change (msi_pending_off (set_config c d) (b64 d)) with (msi_pending_off d (b64 d)). cbn [set_config config].
    rewrite Hb by done. rewrite Efi. unfold pending at 1, d3. rewrite set_pending_reg, u32_testbit, HP by (done || lia).
    destruct (k <? nr_vectors d) eqn:Ek; [|by rewrite !andb_false_r]. rewrite !andb_true_r.
    rewrite (bool_decide_ext (k ∈ filter (released d) (seqZ 0 (nr_vectors d))) (released d k)).
    + case_bool_decide as Hr; unfold released, due in Hr; fold (pending d k) in Hr; destruct (pending d k), (masked d k); cbn; tauto || naive_solver.
    + rewrite list_elem_of_filter, elem_of_seqZ. apply Z.ltb_lt in Ek. split; [by intros [? _]|]. intros. split; [done|lia].
Qed.

(** The hook on an enabled capability the guest wrote to. *)
(** The clamped device [d2] and the device [d4] whose pending register the loop has left. *)
Lemma delivered_masked d d2 d4 :
  msi_static d → afits 8 (config d) → statics d2 = statics d → msi_flags d2 = clamp_flags (msi_flags d) → maskable d = true →
  (∀ j, msi_cap d + 4 ≤ j < msi_cap d + cap_size d → aget (config d2) j = aget (config d) j) →
  (∀ j, j < PCI_CONFIG_HEADER_SIZE → j ≠ PCI_STATUS → aget (config d2) j = aget (config d) j) →
  statics d4 = statics d2 →
  (∀ j, ¬ msi_pending_off d2 (b64 d2) ≤ j < msi_pending_off d2 (b64 d2) + 4 → aget (config d4) j = aget (config d2) j) →
  (∀ k, 0 ≤ k < 32 → pending d4 k = pending d2 k && masked d2 k && (k <? nr_vectors d2)) →
  (∀ q, q ∈ pins → pci_irq_state d4 q = 0) →
  delivered d d4 (map (message d2) (filter (released d2) (seqZ 0 (nr_vectors d2)))).
Proof.
  intros Hs Hf Hst2 Ef2 Hm Hab Hhd Hst4 Ho Hb Hq. pose proof (clamped_kind d d2 Hf Hst2 Ef2) as Hkd. destruct (clamped_log d d2 Hs Hf Ef2) as [Hcl _].
  pose proof (kind_static d d2 Hkd Hs) as Hs2. pose proof (ms_place _ Hs2) as Hp2. pose proof (kind_maskable d d2 Hkd) as Hm2. rewrite Hm in Hm2.
  pose proof (pending_off d2 Hp2 Hm2) as Epo. pose proof (sk_cap d d2 Hkd) as Ec2. pose proof (ms_place _ Hs) as Hp. destruct Hp as [Hp1 Hp2'].
  pose proof (λ v, kind_mask d d2 v ltac:(done) Hkd Hab) as Hmk.
  assert (Ep : pending_reg d2 = pending_reg d).
  { apply kind_pending; [done|done|done|]. intros j Hj. apply Hab. rewrite pending_off in Hj by done. rewrite cap_size_cases, Hm. destruct (b64 d); lia. }
  assert (Hk4 : keeps d2 d4). { split; [by injection Hst4|]. intros j [_ Hj]. apply Ho. rewrite Epo. specialize (Hj Hm2). lia. }
  assert (Ef4 : msi_flags d4 = clamp_flags (msi_flags d)) by (by rewrite (keeps_flags d2 d4 Hp2 Hk4)).
  assert (Hpe : ∀ v, 0 ≤ v < 32 → pending d4 v = pending d v && masked d v && (v <? nr_vectors d2)).
  { intros v Hv. rewrite (Hb v Hv). unfold pending at 1. by rewrite Ep, Hmk. }
  split.
  - apply clamped_kind; [done|by rewrite Hst4|done].
  - split; [by apply (static_ext d2)|intros _; by rewrite (keeps_flags d2 d4)|]. intros _ _ v Hv Hpv. rewrite Hpe in Hpv by done.
    rewrite (keeps_mask d2 d4), Hmk, (keeps_vectors d2 d4) by done. apply andb_true_iff in Hpv as [Hpv Hl]. apply andb_true_iff in Hpv as [_ Hmv]. split; [done|lia].
  - done.
  - intros v. by rewrite (keeps_mask d2 d4), Hmk.
  - rewrite Hm, (keeps_vectors d2 d4) by done. assert (Efr : filter (released d2) (seqZ 0 (nr_vectors d2)) = filter (released d) (seqZ 0 (nr_vectors d2))).
    { apply list_filter_iff. intros v. unfold released, due. by rewrite Ep, Hmk. }
    rewrite Efr. apply map_ext. intros v. by rewrite (keeps_message d2 d4).
  - intros _ v Hv. rewrite (keeps_vectors d2 d4) by done. by apply Hpe.
  - intros j Hj. rewrite Ho by (rewrite Epo, Ec2, (kind_64 d d2 Hkd); destruct (b64 d); lia). apply Hab. rewrite cap_size_cases, Hm. destruct (b64 d); lia.
  - intros j Hj Hne. rewrite Ho by (rewrite Epo, Ec2; destruct (b64 d2); lia). by apply Hhd.
  - exact Hq.
Qed.

Lemma msi_write_config_enabled fuel a addr val l s d :
  counts_ok fuel s → devs s !! a = Some d → dev_ok d → msi_present d = true → msi_static d →
  ranges_overlap addr l (msi_cap d) (cap_size d) = true → enabled d = true →
  ∃ s' d' out, msi_write_config fuel a addr val l s = Ok s' ∧ counts_ok fuel s' ∧ same_topology s s' ∧ devs s' = <[a := d']> (devs s) ∧
    dev_ok d' ∧ sent s' = sent s ++ out ∧ delivered d d' out.
Proof.
  intros Hk Ha Hd Hpr Hs Hr He. pose proof (mo_config _ (do_masks _ Hd)) as Hf. pose proof (ms_place _ Hs) as Hp. destruct Hp as [Hp1 Hp2].
  unfold msi_write_config, get_dev. rewrite Ha. cbn [mbind res_bind]. fold (cap_size d). rewrite Hpr, Hr. cbn [negb orb]. unfold enabled in He. rewrite He. cbn [negb].
  destruct (deassert_spec pins fuel s a d Hk Ha Hd ltac:(done)) as (s1 & d1 & E1 & Hk1 & Ht1 & Hds1 & Hd1 & Hst1 & Hse1 & Hc1 & Hq1).
  unfold pci_device_deassert_intx. rewrite E1. cbn [mbind res_bind]. rewrite Hds1, lookup_insert_eq. cbn [mbind res_bind].
  assert (Hke : keeps d d1). { split; [by injection Hst1|]. intros j [Hj _]. apply Hc1. unfold PCI_STATUS, PCI_CONFIG_HEADER_SIZE in *. lia. }
  pose proof (keeps_place d d1 ltac:(done) Hke) as Hp'. pose proof (keeps_flags d d1 ltac:(done) Hke) as Ef1.
  assert (Hf1 : afits 8 (config d1)) by apply Hd1.
  destruct (clamp_step d1 Hf1 Hp') as (c2 & E2 & Hf2 & Hc2 & Ef2). rewrite Ef1 in E2, Ef2. rewrite E2. set (d2 := set_config c2 d1) in *. fold (maskable d).
  assert (Ecap : msi_cap d1 = msi_cap d) by apply Hke. assert (Hst2 : statics d2 = statics d) by exact Hst1. cbv zeta.
  pose proof (clamped_kind d d2 Hf Hst2 Ef2) as Hkd. pose proof (clamped_vectors d d2 Hs Hf Ef2) as Hnv. destruct (clamped_log d d2 Hs Hf Ef2) as [Hcl _].
  pose proof (kind_static d d2 Hkd Hs) as Hs2. rewrite <-Ef2. fold (nr_vectors d2) (b64 d).
  assert (Hab : ∀ j, msi_cap d + 4 ≤ j < msi_cap d + cap_size d → aget (config d2) j = aget (config d) j).
  { intros j Hj. change (config d2) with c2. rewrite Hc2 by (rewrite Ecap; lia). apply Hc1. unfold PCI_STATUS, PCI_CONFIG_HEADER_SIZE in *. lia. }
  assert (Hhd : ∀ j, j < PCI_CONFIG_HEADER_SIZE → aget c2 j = aget (config d1) j) by (intros j Hj; apply Hc2; rewrite Ecap; lia).
  assert (Hq : ∀ q, q ∈ pins → pci_irq_state d1 q = 0) by (intros q Hq; rewrite Hq1 by done; by rewrite bool_decide_eq_true_2).
  assert (Ha1 : devs s1 !! a = Some d1) by (by rewrite Hds1, lookup_insert_eq).
  pose proof (λ v, kind_mask d d2 v ltac:(done) Hkd Hab) as Hmk. destruct (maskable d) eqn:Hm; cbn [negb].
  - pose proof (kind_maskable d d2 Hkd) as Hm2. rewrite Hm in Hm2. rewrite (proj2 (Z.ltb_ge PCI_MSI_VECTORS_MAX (nr_vectors d2))) by apply Hnv.
    assert (Eo : pci_get_long (config d2) (msi_pending_off d2 (b64 d)) = pending_reg d2) by (unfold pending_reg; by rewrite (kind_64 d d2)).
    rewrite Eo. rewrite <-(kind_64 d d2 Hkd).
    destruct (deliver_ok (put_dev a d2 s1) a d2) as (c & E & Hfc & Ho & Hb); [apply lookup_insert_eq|done|by apply (ms_place _ Hs2)|done|apply Hnv|].
    rewrite E. cbn [put_dev devs buses sent]. rewrite insert_insert_eq. change (set_config c d2) with (set_config c d1).
    pose proof (pending_off d2 (ms_place _ Hs2) Hm2) as Epo. assert (Ec2 : msi_cap d2 = msi_cap d) by exact Ecap.
    destruct (finish_ok fuel s1 a d1 c (sent s1 ++ map (message d2) (filter (released d2) (seqZ 0 (nr_vectors d2)))) Hk1 Ha1 Hd1 Hfc) as (Hk3 & Ht3 & Hd3).
    { intros j Hj. rewrite Ho; [by apply Hhd|]. rewrite Epo, Ec2. destruct (b64 d2); lia. }
    eexists _, (set_config c d1), _. split; [reflexivity|]. split; [done|]. split; [by eapply same_topology_trans|]. split; [cbn [devs]; by rewrite Hds1, insert_insert_eq|].
    split; [done|]. split; [cbn [sent]; by rewrite Hse1|]. apply delivered_masked; try done.
    intros j Hj Hne. change (config d2) with c2. rewrite Hhd by done. by apply Hc1.
  - destruct (finish_ok fuel s1 a d1 c2 (sent s1) Hk1 Ha1 Hd1 Hf2 Hhd) as (Hk3 & Ht3 & Hd3). exists (put_dev a d2 s1), d2, [].
    split; [done|]. split; [done|]. split; [by eapply same_topology_trans|]. split; [cbn; by rewrite Hds1, insert_insert_eq|]. split; [done|].
    split; [cbn; by rewrite Hse1, app_nil_r|]. split; [done| |done|done|by rewrite Hm|congruence| | |exact Hq].
    + split; [done|done|]. intros _ Hm2. rewrite (kind_maskable d d2 Hkd) in Hm2. congruence.
    + intros j Hj. apply Hab. rewrite cap_size_cases, Hm. destruct (b64 d); lia.
    + intros j Hj Hne. change (config d2) with c2. rewrite Hhd by done. by apply Hc1.
Qed.

(** ** Reset *)

Lemma get_word_out c o o' n v : o' + 2 ≤ o ∨ o + Z.of_nat n ≤ o' → pci_get_word (awrite c o (le_bytes n v)) o' = pci_get_word c o'.
Proof. intros H. unfold pci_get_word. f_equal. apply aread_awrite_out. rewrite length_le_bytes. lia. Qed.

(** A sequence of register writes between [lo] and [hi]. *)
Inductive within (lo hi : Z) (c : arr) : arr → Prop :=
| within_refl : within lo hi c c
| within_write c' o n v : within lo hi c c' → lo ≤ o → o + Z.of_nat n ≤ hi → within lo hi c (awrite c' o (le_bytes n v)).
Lemma within_out lo hi c c' j : within lo hi c c' → j < lo ∨ hi ≤ j → aget c' j = aget c j.
Proof. induction 1 as [|c' o n v _ IH Ho Hn]; intros Hj; [done|]. rewrite aget_awrite_out by (rewrite length_le_bytes; lia). by apply IH. Qed.
Lemma within_fits lo hi c c' : within lo hi c c' → afits 8 c → afits 8 c'.
Proof. induction 1 as [|c' o n v _ IH _ _]; intros Hf; [done|]. apply afits_awrite; [by apply IH|apply le_bytes_fits]. Qed.
Lemma within_weaken lo hi lo' hi' c c' : lo' ≤ lo → hi ≤ hi' → within lo hi c c' → within lo' hi' c c'.
Proof. intros Hlo Hhi. induction 1; [constructor|constructor; [done|lia|lia]]. Qed.

Definition reset_flags (f : Z) : Z := clr f (Z.lor PCI_MSI_FLAGS_QSIZE PCI_MSI_FLAGS_ENABLE).
Lemma reset_flags_spec f k : 0 ≤ k < 16 → Z.testbit (reset_flags f) k = Z.testbit f k && negb ((k =? 0) || (4 <=? k) && (k <? 7)).
Proof.
  intros Hk. unfold reset_flags, clr. rewrite Z.land_spec, Z.lnot_spec by lia. f_equal. f_equal.
  assert (k = 0 ∨ k = 1 ∨ k = 2 ∨ k = 3 ∨ k = 4 ∨ k = 5 ∨ k = 6 ∨ k = 7 ∨ k = 8 ∨ k = 9 ∨ k = 10 ∨ k = 11 ∨ k = 12 ∨ k = 13 ∨ k = 14 ∨ k = 15) by lia.
  repeat (destruct H as [->|H]; [reflexivity|]). by rewrite H.
Qed.

Lemma msi_reset_above d :
  msi_present d = true → place_ok d →
  ∃ c, msi_reset d = set_config c d ∧ within (msi_cap d + 4) (msi_cap d + cap_size d) (pci_set_word (config d) (msi_cap d + 2) (reset_flags (msi_flags d))) c.
Proof.
  intros Hpr Hp. unfold msi_reset. rewrite Hpr. cbn [negb]. fold (reset_flags (msi_flags d)). rewrite flags_off by done.
  assert (E64 : tst (reset_flags (msi_flags d)) PCI_MSI_FLAGS_64BIT = b64 d) by (unfold b64; rewrite !flags_64, reset_flags_spec by lia; by rewrite andb_true_r).
  assert (Em : tst (reset_flags (msi_flags d)) PCI_MSI_FLAGS_MASKBIT = maskable d) by (unfold maskable; rewrite !flags_mask, reset_flags_spec by lia; by rewrite andb_true_r).
  rewrite E64, Em. set (c1 := pci_set_word (config d) (msi_cap d + 2) _).
  assert (Hoff : ∀ k, 0 ≤ k < cap_size d → u8 (msi_cap d + k) = msi_cap d + k) by (intros; by apply off_in).
  rewrite cap_size_cases in *.
  unfold msi_address_lo_off, msi_address_hi_off, msi_data_off, msi_mask_off, msi_pending_off, pci_set_long.
  destruct (b64 d), (maskable d); eexists; (split; [reflexivity|]); cbn [set_config config msi_cap]; rewrite !Hoff by done;
    repeat (apply within_write; [|unfold PCI_MSI_ADDRESS_LO, PCI_MSI_ADDRESS_HI, PCI_MSI_DATA_32, PCI_MSI_DATA_64, PCI_MSI_MASK_32, PCI_MSI_MASK_64, PCI_MSI_PENDING_32, PCI_MSI_PENDING_64; lia..]);
    apply within_refl.
Qed.

Lemma reset_kind d c :
  afits 8 (config d) → place_ok d → within (msi_cap d + 4) (msi_cap d + cap_size d) (pci_set_word (config d) (msi_cap d + 2) (reset_flags (msi_flags d))) c →
  msi_flags (set_config c d) = reset_flags (msi_flags d) ∧ same_kind d (set_config c d).
Proof.
  intros Hf Hp Ha. assert (E : msi_flags (set_config c d) = reset_flags (msi_flags d)).
  { unfold msi_flags at 1. change (msi_flags_off (set_config c d)) with (msi_flags_off d). rewrite flags_off by done. cbn [set_config config].
    assert (Ew : pci_get_word c (msi_cap d + 2) = pci_get_word (pci_set_word (config d) (msi_cap d + 2) (reset_flags (msi_flags d))) (msi_cap d + 2)).
    { unfold pci_get_word. f_equal. apply aread_same. intros j Hj. eapply within_out; [exact Ha|lia]. }
    rewrite Ew, get_set_word. apply Z.mod_small. apply clr_fits; [lia|]. by apply msi_flags_fits. }
  split; [done|]. split; [done|]. intros k Hk H1 H2. rewrite E, reset_flags_spec by done.
  rewrite (proj2 (Z.eqb_neq k 0)) by done. destruct (Z.leb_spec 4 k), (Z.ltb_spec k 7); try lia; cbn; by rewrite andb_true_r.
Qed.

Lemma msi_reset_ok d :
  masks_ok d → msi_dev_ok d →
  ∃ c, msi_reset d = set_config c d ∧ afits 8 c ∧ msi_dev_ok (set_config c d) ∧ (∀ j, j < PCI_CONFIG_HEADER_SIZE → aget c j = aget (config d) j) ∧
    (msi_present d = true → enabled (set_config c d) = false).
Proof.
  intros Hm Hok. pose proof (mo_config _ Hm) as Hf. destruct (msi_present d) eqn:Hpr.
  2: { exists (config d). unfold msi_reset. rewrite Hpr. split; [by destruct d|]. split; [done|]. split; [by destruct d|done]. }
  destruct (Hok Hpr) as [Hs _ _]. pose proof (ms_place _ Hs) as Hp. destruct (msi_reset_above d Hpr Hp) as (c & E & Ha).
  destruct (reset_kind d c Hf Hp Ha) as [Ef Hk]. exists c. split; [done|]. split; [eapply within_fits; [done|]; by apply set_word_fits|].
  assert (Hen : enabled (set_config c d) = false) by (unfold enabled; rewrite Ef, flags_enable, reset_flags_spec by lia; by rewrite andb_false_r).
  split; [|split; [|done]].
  - intros _. split; [by apply (kind_static d)|congruence|congruence].
  - intros j Hj. destruct Hp as [Hp _]. rewrite (within_out _ _ _ _ j Ha) by lia. apply set_word_out. lia.
Qed.

(** ** The hooks as the bus sees them *)

(** What msix.c does comes last, and on the fields of its own: it is left open here, as long as it
    leaves the devices below alone. *)
Record MsixOps : Type := mkMsix {
  msix_write : nat → Z → Z → Z → Z → PciSys → res PciSys;
  msix_res : PCIDevice → PCIDevice;
  mx_idle : PCIDevice → Prop;
}.
Class MsixLaws (x : MsixOps) : Prop := {
  mx_absent : ∀ d, no_msix d → mx_idle x d;
  mx_ext : ∀ d d', mx_idle x d → statics d' = statics d → mx_idle x d';
  mx_write : ∀ fuel a addr v l s d, devs s !! a = Some d → mx_idle x d → msix_write x fuel a addr v l s = Ok s;
  mx_reset : ∀ d, mx_idle x d → msix_res x d = d;
}.
Definition msi_ops (x : MsixOps) : MsiOps := mkMsi msi_write_config (msix_write x) msi_reset (msix_res x) msi_dev_ok (mx_idle x).

Lemma write_quiet fuel a addr v l s d :
  devs s !! a = Some d → msi_present d && ranges_overlap addr l (msi_cap d) (cap_size d) && enabled d = false → msi_write_config fuel a addr v l s = Ok s.
Proof.
  intros Ha E. unfold msi_write_config, get_dev. rewrite Ha. cbn [mbind res_bind]. fold (cap_size d). unfold enabled in E.
  destruct (msi_present d), (ranges_overlap addr l (msi_cap d) (cap_size d)), (tst (msi_flags d) PCI_MSI_FLAGS_ENABLE); done.
Qed.

(** After any write of the guest the capability is in order again. *)
Lemma msi_write_ok fuel a addr v val l s d0 d :
  counts_ok fuel s → devs s !! a = Some d → dev_ok d → masks_ok d0 → msi_dev_ok d0 → statics d = statics d0 →
  (∀ j, aget (config d) j = written addr val (Z.to_nat l) d0 j) → 0 ≤ addr → 0 ≤ l ≤ 4 → addr + l ≤ pci_config_size d0 →
  ∃ s' d', msi_write_config fuel a addr v l s = Ok s' ∧ counts_ok fuel s' ∧ same_topology s s' ∧
    devs s' = <[a := d']> (devs s) ∧ dev_ok d' ∧ msi_dev_ok d' ∧ statics d' = statics d ∧
    (∀ j, j < PCI_CONFIG_HEADER_SIZE → j ≠ PCI_STATUS → aget (config d') j = aget (config d) j).
Proof.
  intros Hk Ha Hd Hm0 Hok Est Hw Hadr Hl Hsz. assert (Hcs : pci_config_size d0 ≤ 2 ^ 32) by (unfold pci_config_size; by case_match).
  assert (Epr : msi_present d = msi_present d0) by (unfold msi_present; assert (E : cap_present d = cap_present d0) by (by injection Est); by rewrite E).
  assert (Hid : msi_present d && ranges_overlap addr l (msi_cap d) (cap_size d) && enabled d = false → msi_dev_ok d →
    ∃ s' d', msi_write_config fuel a addr v l s = Ok s' ∧ counts_ok fuel s' ∧ same_topology s s' ∧
      devs s' = <[a := d']> (devs s) ∧ dev_ok d' ∧ msi_dev_ok d' ∧ statics d' = statics d ∧
      (∀ j, j < PCI_CONFIG_HEADER_SIZE → j ≠ PCI_STATUS → aget (config d') j = aget (config d) j)).
  { intros E Hdk. exists s, d. split; [by apply (write_quiet _ _ _ _ _ _ d)|]. split; [done|]. split; [apply same_topology_refl|]. split; [by rewrite insert_id|]. done. }
  destruct (msi_present d) eqn:Hpr; [|by apply Hid; [|unfold msi_dev_ok; congruence]].
  destruct (Hok ltac:(congruence)) as [Hs Hcl Hqu]. pose proof (mo_config _ (do_masks _ Hd)) as Hf.
  pose proof (written_kind d0 d addr val l Hm0 Hf Est Hs Hw) as Hkd. pose proof (kind_static d0 d Hkd Hs) as Hs'.
  destruct (ranges_overlap addr l (msi_cap d) (cap_size d)) eqn:Hr.
  - destruct (enabled d) eqn:He; [|apply Hid; [done|]; intros _; split; [done|congruence|congruence]].
    destruct (msi_write_config_enabled fuel a addr v l s d Hk Ha Hd Hpr Hs' Hr He) as (s' & d' & out & E & Hk' & Ht & Hds & Hd' & _ & Hde).
    exists s', d'. do 5 (split; [done|]). split; [intros _; apply Hde|]. split; [apply Hde|apply Hde].
  - apply Hid; [done|]. intros _. rewrite (kind_cap_size d0 d), (sk_cap d0 d) in Hr by done. apply (inv_ext d0); [by split|done|].
    eapply written_outside; done || lia.
Qed.

#[global] Instance msi_laws x `{!MsixLaws x} : MsiLaws (msi_ops x).
Proof.
  split; cbn.
  - intros d Hn Hpr. unfold msi_present in Hpr. congruence.
  - intros d d' Hok Est Hj Hpr. assert (E : cap_present d' = cap_present d) by (by injection Est). unfold msi_present in Hpr. rewrite E in Hpr.
    pose proof (Hok Hpr) as Hi. apply (inv_ext d); [done|done|]. intros j Hjr. apply Hj. destruct (ms_place _ (mi_static _ Hi)). lia.
  - intros fuel a addr v l s d Ha Hn. apply (write_quiet _ _ _ _ _ _ d Ha). unfold msi_present. by rewrite Hn.
  - apply mx_absent.
  - apply mx_ext.
  - apply mx_write.
  - intros fuel a addr v l s d Ha Hok H0 Hl Hh. apply (write_quiet _ _ _ _ _ _ d Ha). destruct (msi_present d) eqn:Hpr; [|done].
    destruct (ms_place _ (mi_static _ (Hok Hpr))) as [Hp1 Hp2]. unfold PCI_CONFIG_HEADER_SIZE, PCI_CONFIG_SPACE_SIZE in *.
    assert (0 < cap_size d) by (rewrite cap_size_cases; repeat case_match; lia).
    destruct (ranges_overlap addr l (msi_cap d) (cap_size d)) eqn:Hr; [|done]. exfalso. unfold ranges_overlap, range_get_last in Hr.
    rewrite !u64_small in Hr by (split; lia). apply negb_true_iff, orb_false_iff in Hr as [_ Hr]. apply Z.ltb_ge in Hr. lia.
  - intros. by eapply msi_write_ok.
  - intros d Hm Hok. destruct (msi_reset_ok d Hm Hok) as (c & ? & ? & ? & ? & _). by exists c.
  - apply mx_reset.
Qed.

(** ** Devices that notify *)

Lemma irq_disabled_loop_sent l fuel a d b s s' : irq_disabled_loop l fuel a d b s = Ok s' → sent s' = sent s.
Proof.
  revert s. induction l as [|i l IH]; intros s; cbn [irq_disabled_loop]; [by intros [= <-]|].
  destruct (pci_change_irq_level fuel a i _ s) eqn:E; cbn [mbind res_bind]; [|done..]. intros E'. rewrite (IH _ E'). by eapply change_irq_level_sent.
Qed.
Lemma config_write_sent fuel a addr val l s s' : config_write fuel a addr val l s = Ok s' → sent s' = sent s.
Proof.
  unfold config_write. destruct (get_dev a s) as [d| |]; cbn [mbind res_bind]; [|done..].
  destruct (write_config_loop (Z.to_nat l) addr val d) as [d1| |]; cbn [mbind res_bind]; [|done..].
  destruct (if touches_mappings addr l then pci_update_mappings d1 else Ok d1) as [d2| |]; cbn [mbind res_bind]; [|done..].
  destruct (range_covers_byte addr l PCI_COMMAND); [|by intros [= <-]].
  unfold pci_update_irq_disabled. destruct (get_dev a (put_dev a d2 s)) as [d3| |]; cbn [mbind res_bind]; [|done..].
  destruct (Bool.eqb _ _); cbn [mbind res_bind].
  - destruct (get_dev a (put_dev a d2 s)); cbn [mbind res_bind]; [|done..]. by intros [= <-].
  - destruct (irq_disabled_loop _ _ _ _ _ _) as [s1| |] eqn:E; cbn [mbind res_bind]; [|done..]. destruct (get_dev a s1); cbn [mbind res_bind]; [|done..].
    intros [= <-]. by apply irq_disabled_loop_sent in E.
Qed.

(** A notified vector that is masked is recorded in the capability. *)
Lemma set_pending_bit_spec d v :
  msi_inv d → 0 ≤ v < nr_vectors d → v < 32 → masked d v = true →
  keeps d (set_pending_bit v d) ∧ msi_inv (set_pending_bit v d) ∧ ∀ k, 0 ≤ k < 32 → pending (set_pending_bit v d) k = pending d k || (v =? k).
Proof.
  intros [Hs Hc Hq] Hv Hv32 Hm. pose proof (ms_place _ Hs) as Hp. assert (Hmk : maskable d = true) by (unfold masked in Hm; by apply andb_true_iff in Hm as [? _]).
  pose proof (set_pending_keeps d (Z.lor (pci_get_long (config d) (msi_pending_off d (b64 d))) (Z.shiftl 1 v)) Hp Hmk) as Hk. fold (set_pending_bit v d) in Hk.
  assert (Hb : ∀ k, 0 ≤ k < 32 → pending (set_pending_bit v d) k = pending d k || (v =? k)).
  { intros k Hi. unfold pending, set_pending_bit, pci_long_test_and_set_mask. rewrite set_pending_reg by done.
    rewrite u32_testbit, Z.lor_spec, shiftl1_testbit by lia. done. }
  split; [done|]. split; [|done]. split; [by apply (static_ext d)|by rewrite (keeps_enabled d), (keeps_flags d) by done|].
  rewrite (keeps_enabled d), (keeps_vectors d) by done. intros He _ k Hi Hpk. rewrite (keeps_mask d) by done. rewrite Hb in Hpk by done.
  apply orb_true_iff in Hpk as [Hpk|E]; [by apply Hq|]. apply Z.eqb_eq in E as <-. split; [done|lia].
Qed.

(** What happens on the buses: pins and configuration writes as before, and devices that notify a
    vector they have, when the guest enabled the capability. *)
Inductive msi_op : Type :=
| Bus (o : pci_op)
| Notify (a v : Z).
Definition msi_op_dev (o : msi_op) : Z := match o with Bus o => op_dev o | Notify a _ => a end.
Definition msi_op_ok (o : msi_op) : Prop := match o with Bus o => op_ok o | Notify _ v => 0 ≤ v end.

Section Notify.
Context (x : MsixOps) `{!MsixLaws x} (fuel : nat).
Abbreviation ok s := (sys_ok (msi_ops x) fuel s).

Definition msi_exec (o : msi_op) (s : PciSys) : res PciSys :=
  match o with
  | Bus o => exec (msi_ops x) fuel o s
  | Notify a v =>
      d ← get_dev a s;
      if msi_enabled d && (v <? msi_nr_vectors_allocated d) then msi_notify a v s else Ok s
  end.
Fixpoint msi_run (l : list msi_op) (s : PciSys) : res PciSys :=
  match l with [] => Ok s | o :: l => s ← msi_exec o s; msi_run l s end.

Lemma enabled_inv s a d : ok s → devs s !! a = Some d → msi_present d = true → enabled d = true → msi_inv d ∧ 1 ≤ nr_vectors d ≤ PCI_MSI_VECTORS_MAX.
Proof.
  intros Hs Ha Hpr He. destruct (so_devs _ _ _ Hs a d Ha) as (_ & [Hok _] & _). pose proof (Hok Hpr) as Hi. split; [done|].
  pose proof (mi_clamped _ Hi He). pose proof (ms_max _ (mi_static _ Hi)). pose proof (log_num_bound (msi_flags d)).
  unfold nr_vectors. rewrite nr_vectors_pow. change PCI_MSI_VECTORS_MAX with (2 ^ 5). split; [change 1 with (2 ^ 0)|]; apply Z.pow_le_mono_r; lia.
Qed.

(** The two outcomes of notifying. *)
Lemma notify_cases s a d v :
  ok s → devs s !! a = Some d → 0 ≤ v → msi_enabled d = true → v < nr_vectors d →
  ∃ s', msi_notify a v s = Ok s' ∧ ok s' ∧ same_topology s s' ∧
    (masked d v = true ∧ devs s' = <[a := set_pending_bit v d]> (devs s) ∧ sent s' = sent s ∧ keeps d (set_pending_bit v d) ∧
       statics (set_pending_bit v d) = statics d ∧ (∀ k, 0 ≤ k < 32 → pending (set_pending_bit v d) k = pending d k || (v =? k)) ∨
     masked d v = false ∧ devs s' = devs s ∧ sent s' = sent s ++ [message d v]).
Proof.
  intros Hs Ha Hv He Hn. unfold msi_enabled in He. apply andb_true_iff in He as [Hpr He]. destruct (enabled_inv s a d Hs Ha Hpr He) as [Hi Hnv].
  destruct (so_devs _ _ _ Hs a d Ha) as (Hd & [Hok Hx] & Hpin). rewrite (msi_notify_spec a v s d) by (done || lia). eexists. split; [reflexivity|].
  destruct (masked d v) eqn:Hm.
  - destruct (set_pending_bit_spec d v Hi) as (Hk & Hi' & Hb); [lia|unfold PCI_MSI_VECTORS_MAX in *; lia|done|].
    assert (Hmk : maskable d = true) by (unfold masked in Hm; by apply andb_true_iff in Hm as [? _]).
    assert (Hj : ∀ j, j < PCI_CONFIG_HEADER_SIZE → aget (config (set_pending_bit v d)) j = aget (config d) j).
    { intros j Hj. apply set_long_out. destruct (ms_place _ (mi_static _ Hi)) as [Hp1 _]. rewrite pending_off by (apply Hi || done). destruct (b64 d); lia. }
    destruct (finish_ok fuel s a d (config (set_pending_bit v d)) (sent s) (so_counts _ _ _ Hs) Ha Hd) as (Hk' & Ht & Hd'); [apply set_long_fits, Hd|done|].
    split; [|split; [exact Ht|left; done]]. eapply sys_ok_update; [done|exact Hk'|done|]. split; [done|]. split; [split; [by intros _|by apply (mx_ext d); [apply (so_devs _ _ _ Hs a d Ha)|]]|].
    destruct Hpin as [Hp1 Hp2]. split; [|done]. rewrite Hj by (unfold PCI_INTERRUPT_PIN, PCI_CONFIG_HEADER_SIZE; lia). done.
  - split; [|split; [done|right; done]]. split; [apply (counts_sent fuel s), Hs|apply Hs].
Qed.

Lemma msi_exec_ok s o :
  ok s → msi_op_ok o → is_Some (devs s !! msi_op_dev o) → ∃ s', msi_exec o s = Ok s' ∧ ok s' ∧ same_topology s s'.
Proof.
  intros Hs Ho [d Hd]. destruct o as [o|a v]; cbn [msi_op_ok msi_op_dev msi_exec] in *.
  - apply exec_ok; [apply _|done|done|by exists d].
  - unfold get_dev. rewrite Hd. cbn [mbind res_bind]. destruct (msi_enabled d) eqn:He; cbn [andb]; [|by exists s].
    destruct (Z.ltb_spec v (msi_nr_vectors_allocated d)); [|by exists s].
    destruct (notify_cases s a d v Hs Hd Ho He) as (s' & E & Hs' & Ht & _); [done|]. by exists s'.
Qed.
End Notify.

(** ** No interrupt is lost *)

(** The vector a message carries. *)
Definition vector_of (d : PCIDevice) (m : Z * Z) : Z := Z.land (snd m) (nr_vectors d - 1).
Lemma message_vector d d' v : msi_flags d' = msi_flags d → 0 ≤ v < nr_vectors d → vector_of d (message d' v) = v.
Proof.
  intros Ef Hv. unfold vector_of, message. assert (En : nr_vectors d' = nr_vectors d) by (unfold nr_vectors; by rewrite Ef). rewrite En.
  unfold nr_vectors in *. rewrite nr_vectors_pow in *. pose proof (log_num_bound (msi_flags d)). set (k := log_num_vecs (msi_flags d)) in *.
  replace (2 ^ k - 1) with (Z.ones k) by (rewrite Z.ones_equiv; lia). cbn [snd]. destruct (Z.ltb_spec 1 (2 ^ k)).
  - rewrite Z.land_lor_distr_l. unfold clr. rewrite <-Z.land_assoc, (Z.land_comm (Z.lnot _)), Z.land_lnot_diag, Z.land_0_r, Z.lor_0_l, Z.land_ones by lia.
    apply Z.mod_small. lia.
  - assert (v = 0) by lia. subst v. assert (Ek : k = 0). { destruct (Z.eq_dec k 0) as [|Hne]; [done|]. assert (2 ^ 1 ≤ 2 ^ k) by (apply Z.pow_le_mono_r; lia). lia. }
    rewrite Ek. apply Z.land_0_r.
Qed.

(** A write that does not touch the flags of the capability at [o] of device [a]. *)
Definition leaves_flags (a o : Z) (op : msi_op) : Prop :=
  match op with Bus (OpWrite a' addr _ l) => a' = a → addr + l ≤ o + 2 ∨ o + 4 ≤ addr | _ => True end.

Section Lost.
Context (x : MsixOps) `{!MsixLaws x} (fuel : nat).
Abbreviation ok s := (sys_ok (msi_ops x) fuel s).

(** A configuration write in two steps: the bytes, then the hook. *)
Lemma write_cases s a d addr val l :
  ok s → devs s !! a = Some d → op_ok (OpWrite a addr val l) →
  ∃ d1 s' d' out, pci_default_write_config (msi_ops x) fuel a addr val l s = Ok s' ∧ devs s' = <[a := d']> (devs s) ∧ sent s' = sent s ++ out ∧
    statics d1 = statics d ∧ afits 8 (config d1) ∧ (∀ j, aget (config d1) j = written addr val (Z.to_nat l) d j) ∧
    (d' = d1 ∧ out = [] ∧ msi_present d1 && ranges_overlap addr l (msi_cap d1) (cap_size d1) && enabled d1 = false ∨ msi_present d1 = true ∧ delivered d1 d' out).
Proof.
  intros Hs Ha (Hadr & Hl & Hsz & Hcmd). destruct (so_devs _ _ _ Hs a d Ha) as (Hd & [Hok Hx] & _). pose proof (config_size_ge d).
  destruct (config_write_ok fuel s a d addr val l (so_counts _ _ _ Hs) Ha Hd Hadr Hl ltac:(lia) Hcmd) as (s1 & d1 & E1 & Hk1 & _ & Hds1 & Hd1 & Hst1 & _ & Hw1 & _).
  assert (Ha1 : devs s1 !! a = Some d1) by (by rewrite Hds1, lookup_insert_eq). pose proof (config_write_sent _ _ _ _ _ _ _ E1) as Hse.
  assert (Hx1 : ∀ d2, statics d2 = statics d1 → mx_idle x d2) by (intros d2 E2; apply (mx_ext d); [done|congruence]).
  unfold pci_default_write_config. rewrite E1. cbn [mbind res_bind msi_ops PciBus.msi_write_config PciBus.msix_write_config]. exists d1.
  destruct (msi_present d1 && ranges_overlap addr l (msi_cap d1) (cap_size d1) && enabled d1) eqn:Eq.
  - apply andb_true_iff in Eq as [Eq He]. apply andb_true_iff in Eq as [Hpr Hr].
    assert (Epr : msi_present d = true). { unfold msi_present in *. assert (Ec : cap_present d1 = cap_present d) by (by injection Hst1). by rewrite <-Ec. }
    pose proof (kind_static d d1 (written_kind d d1 addr val l (do_masks _ Hd) (mo_config _ (do_masks _ Hd1)) Hst1 (mi_static _ (Hok Epr)) Hw1) (mi_static _ (Hok Epr))) as Hs1.
    destruct (msi_write_config_enabled fuel a addr (Z.shiftr (u32 val) (8 * Z.max l 0)) l s1 d1 Hk1 Ha1 Hd1 Hpr Hs1 Hr He) as (s2 & d2 & out & E2 & _ & _ & Hds2 & _ & Hse2 & Hde).
    rewrite E2. cbn [mbind res_bind]. exists s2, d2, out.
    split; [apply (mx_write _ _ _ _ _ _ d2); [by rewrite Hds2, lookup_insert_eq|apply Hx1, (sk_statics _ _ (dl_kind _ _ _ Hde))]|].
    split; [by rewrite Hds2, Hds1, insert_insert_eq|]. split; [by rewrite Hse2, Hse|]. split; [done|]. split; [apply Hd1|]. split; [done|by right].
  - rewrite (write_quiet _ _ _ _ _ _ d1 Ha1 Eq). cbn [mbind res_bind]. exists s1, d1, []. split; [by apply (mx_write _ _ _ _ _ _ d1); [|apply Hx1]|].
    split; [done|]. split; [by rewrite app_nil_r|]. split; [done|]. split; [apply Hd1|]. split; [done|by left].
Qed.

(** What a step does to a vector that waits on device [a]: it stays, or its message is sent. *)
Definition tracks (a v : Z) (d : PCIDevice) (s s' : PciSys) : Prop :=
  ∃ d' out, devs s' !! a = Some d' ∧ statics d' = statics d ∧ msi_flags d' = msi_flags d ∧ sent s' = sent s ++ out ∧
    (maskable d = true → pending d v = true → pending d' v = true ∨ ∃ m, m ∈ out ∧ vector_of d m = v).

Lemma tracks_other a v d s s' a' d1 out :
  devs s !! a = Some d → a' ≠ a → devs s' = <[a' := d1]> (devs s) → sent s' = sent s ++ out → tracks a v d s s'.
Proof. intros Ha Hne Hd Hse. exists d, out. rewrite Hd, lookup_insert_ne by done. split_and!; try done. by left. Qed.

(** The device changes outside its capability only. *)
Lemma tracks_same a v d s s' d1 :
  place_ok d → devs s' !! a = Some d1 → statics d1 = statics d → (∀ j, PCI_CONFIG_HEADER_SIZE ≤ j → aget (config d1) j = aget (config d) j) →
  sent s' = sent s → tracks a v d s s'.
Proof.
  intros Hp Ha Est Hj Hse. pose proof Hp as [Hp1 _]. assert (Hk : keeps d d1) by (split; [by injection Est|intros j [Hi _]; apply Hj; lia]).
  exists d1, []. split; [done|]. split; [done|]. split; [by apply keeps_flags|]. split; [by rewrite app_nil_r|]. intros Hm Hpe. left.
  unfold pending. rewrite (pending_ext d d1 Hp Hm Hk); [done|]. intros j Hi. apply Hj. rewrite pending_off in Hi by done. destruct (b64 d); lia.
Qed.

Lemma tracks_write a v d s s' addr val l :
  ok s → devs s !! a = Some d → msi_enabled d = true → 0 ≤ v < nr_vectors d → op_ok (OpWrite a addr val l) →
  addr + l ≤ msi_cap d + 2 ∨ msi_cap d + 4 ≤ addr → pci_default_write_config (msi_ops x) fuel a addr val l s = Ok s' → tracks a v d s s'.
Proof.
  intros Hs Ha Hen Hv Hop Hfl E. unfold msi_enabled in Hen. apply andb_true_iff in Hen as [Hpr He]. fold (enabled d) in He.
  destruct (enabled_inv x fuel s a d Hs Ha Hpr He) as [Hi Hnv]. pose proof (mi_static _ Hi) as Hst. pose proof (ms_place _ Hst) as Hp.
  destruct (so_devs _ _ _ Hs a d Ha) as (Hd & _). destruct (write_cases s a d addr val l Hs Ha Hop) as (d1 & s1 & d2 & out & E1 & Hds & Hse & Est & Hf & Hw & Hc).
  rewrite E in E1. injection E1 as <-. pose proof (written_kind d d1 addr val l (do_masks _ Hd) Hf Est Hst Hw) as Hkd.
  assert (Efl : msi_flags d1 = msi_flags d).
  { unfold msi_flags, msi_flags_off. rewrite (sk_cap d d1 Hkd). fold (msi_flags_off d). rewrite flags_off by done. unfold pci_get_word. f_equal. apply aread_same.
    intros j Hj. rewrite Hw. apply written_out. destruct Hop as (_ & Hl & _). lia. }
  pose proof (written_pending d d1 addr val l (do_masks _ Hd) Hf Est Hst Hw) as Hpe. exists d2, out. split; [by rewrite Hds, lookup_insert_eq|].
  destruct Hc as [(-> & -> & _)|[_ Hde]].
  - split; [done|]. split; [done|]. split; [done|]. intros Hm Hp1. left. unfold pending. by rewrite Hpe.
  - assert (Ef2 : msi_flags d2 = msi_flags d).
    { rewrite (dl_flags _ _ _ Hde), Efl. unfold clamp_flags. rewrite (proj2 (Z.ltb_ge _ _)); [done|]. by apply (mi_clamped _ Hi). }
    split; [by rewrite (sk_statics _ _ (dl_kind _ _ _ Hde))|]. split; [done|]. split; [done|]. intros Hm Hp1.
    assert (En : nr_vectors d2 = nr_vectors d) by (unfold nr_vectors; by rewrite Ef2). assert (Hm1 : maskable d1 = true) by (unfold maskable; by rewrite Efl).
    assert (Hp1' : pending d1 v = true) by (unfold pending; by rewrite Hpe).
    destruct (masked d1 v) eqn:Hmv.
    + left. rewrite (dl_pending _ _ _ Hde Hm1) by (unfold PCI_MSI_VECTORS_MAX in *; lia). rewrite Hp1', Hmv, En. apply Z.ltb_lt. lia.
    + right. exists (message d2 v). split; [|by apply message_vector]. rewrite (dl_out _ _ _ Hde), Hm1. apply list_elem_of_fmap. exists v. split; [done|].
      apply list_elem_of_filter. split; [by split|]. apply elem_of_seqZ. lia.
Qed.
End Lost.

Section NotLost.
Context (x : MsixOps) `{!MsixLaws x} (fuel : nat).
Abbreviation ok s := (sys_ok (msi_ops x) fuel s).

Lemma tracks_pin a v d s s' a' d' p level :
  place_ok d → devs s !! a = Some d → devs s !! a' = Some d' → devs s' = <[a' := moved p level d']> (devs s) → sent s' = sent s → tracks a v d s s'.
Proof.
  intros Hp Ha Ha' Hd Hse. destruct (decide (a' = a)) as [->|Hne].
  - rewrite Ha in Ha'. injection Ha' as <-. eapply tracks_same; [done|by rewrite Hd, lookup_insert_eq|apply moved_statics|intros; by apply moved_above|done].
  - eapply (tracks_other a v d s s' a' _ []); [done..|]. by rewrite app_nil_r.
Qed.

Lemma tracks_notify a v d s s' a' w :
  ok s → devs s !! a = Some d → msi_enabled d = true → 0 ≤ v < nr_vectors d → 0 ≤ w → is_Some (devs s !! a') →
  msi_exec x fuel (Notify a' w) s = Ok s' → tracks a v d s s'.
Proof.
  intros Hs Ha Hen Hv Hw [d' Ha'] E. cbn [msi_exec] in E. unfold get_dev in E. rewrite Ha' in E. cbn [mbind res_bind] in E.
  assert (Hnop : s' = s → tracks a v d s s') by (intros ->; exists d, []; rewrite app_nil_r; split_and!; try done; by left).
  destruct (msi_enabled d') eqn:He'; cbn [andb] in E; [|apply Hnop; by injection E]. destruct (Z.ltb_spec w (msi_nr_vectors_allocated d')); [|apply Hnop; by injection E].
  destruct (notify_cases x fuel s a' d' w Hs Ha' Hw He') as (s1 & E1 & _ & _ & Hc); [done|]. rewrite E in E1. injection E1 as <-.
  pose proof Hen as Hen'. unfold msi_enabled in Hen'. apply andb_true_iff in Hen' as [Hpr He]. destruct (enabled_inv x fuel s a d Hs Ha Hpr He) as [Hi Hnv].
  destruct Hc as [(Hm & Hds & Hse & Hk & Est & Hb)|(Hm & Hds & Hse)].
  - destruct (decide (a' = a)) as [->|Hne]; [|by eapply (tracks_other a v d s s' a' _ []); [done..|rewrite app_nil_r]].
    rewrite Ha in Ha'. injection Ha' as <-. exists (set_pending_bit w d), []. split; [by rewrite Hds, lookup_insert_eq|]. split; [done|].
    split; [apply keeps_flags; [apply Hi|done]|]. split; [by rewrite app_nil_r|]. intros _ Hpv. left. rewrite Hb by (unfold PCI_MSI_VECTORS_MAX in *; lia). by rewrite Hpv.
  - exists d, [message d' w]. split; [by rewrite Hds|]. split; [done|]. split; [done|]. split; [done|]. intros _ Hpv. by left.
Qed.

Lemma tracks_exec a v d s s' o :
  ok s → devs s !! a = Some d → msi_enabled d = true → 0 ≤ v < nr_vectors d →
  msi_op_ok o → is_Some (devs s !! msi_op_dev o) → leaves_flags a (msi_cap d) o → msi_exec x fuel o s = Ok s' → tracks a v d s s'.
Proof.
  intros Hs Ha Hen Hv Ho Hdev Hfl E. pose proof Hen as Hen'. unfold msi_enabled in Hen'. apply andb_true_iff in Hen' as [Hpr He].
  destruct (enabled_inv x fuel s a d Hs Ha Hpr He) as [Hi _]. pose proof (ms_place _ (mi_static _ Hi)) as Hp. pose proof (so_counts _ _ _ Hs) as Hk.
  destruct o as [[a' p level|a' level|a'|a' addr val l]|a' w]; cbn [msi_op_ok op_ok msi_op_dev op_dev leaves_flags] in *.
  - destruct Hdev as [d' Ha']. destruct Ho as [Hpi Hl]. cbn [msi_exec exec] in E.
    destruct (pci_irq_handler_counts fuel s a' d' p level Hk Ha' Hpi Hl) as (s1 & E1 & _ & _ & Hd). rewrite E in E1. injection E1 as <-.
    eapply tracks_pin; [done..|by eapply irq_handler_sent].
  - destruct Hdev as [d' Ha']. cbn [msi_exec exec] in E. destruct (so_devs _ _ _ Hs a' d' Ha') as (_ & _ & Hpin & _).
    unfold pci_set_irq, get_dev in E. rewrite Ha' in E. cbn [mbind res_bind] in E. unfold pci_intx, pci_get_byte in E. destruct (negb _); [done|].
    destruct (pci_irq_handler_counts fuel s a' d' (aget (config d') PCI_INTERRUPT_PIN - 1) level Hk Ha') as (s1 & E1 & _ & _ & Hd); [apply in_pins; lia|done|].
    rewrite E in E1. injection E1 as <-. eapply tracks_pin; [done..|by eapply irq_handler_sent].
  - destruct Hdev as [d' Ha']. cbn [msi_exec exec] in E. destruct (so_devs _ _ _ Hs a' d' Ha') as (Hd' & _).
    destruct (deassert_spec pins fuel s a' d' Hk Ha' Hd' ltac:(done)) as (s1 & d1 & E1 & _ & _ & Hd & _ & Est & Hse & Hc & _).
    unfold pci_device_deassert_intx in E. rewrite E in E1. injection E1 as <-. destruct (decide (a' = a)) as [->|Hne].
    + rewrite Ha in Ha'. injection Ha' as <-. eapply tracks_same; [done|by rewrite Hd, lookup_insert_eq|done| |done].
      intros j Hj. apply Hc. unfold PCI_STATUS, PCI_CONFIG_HEADER_SIZE in *. lia.
    + eapply (tracks_other a v d s s' a' _ []); [done..|]. by rewrite app_nil_r.
  - destruct Hdev as [d' Ha']. cbn [msi_exec exec] in E. destruct (decide (a' = a)) as [->|Hne]; [eapply tracks_write; try done; by apply Hfl|].
    destruct (write_cases x fuel s a' d' addr val l Hs Ha') as (d1 & s1 & d2 & out & E1 & Hds & Hse & _); [done|]. rewrite E in E1. injection E1 as <-. by eapply tracks_other.
  - by eapply tracks_notify.
Qed.

Lemma ops_later (P : msi_op → Prop) s s' l :
  same_topology s s' → Forall (λ o, msi_op_ok o ∧ is_Some (devs s !! msi_op_dev o) ∧ P o) l →
  Forall (λ o, msi_op_ok o ∧ is_Some (devs s' !! msi_op_dev o) ∧ P o) l.
Proof.
  intros Ht Hl. eapply Forall_impl; [exact Hl|]. intros o (Ho & Hd & Hf). split; [done|]. split; [|done]. pose proof (proj1 Ht (msi_op_dev o)) as E.
  destruct (devs s !! msi_op_dev o), (devs s' !! msi_op_dev o); done.
Qed.

(** A sequence of steps: a vector that waits goes on waiting or its message was sent. *)
Lemma tracks_run l a v d s :
  ok s → devs s !! a = Some d → msi_enabled d = true → 0 ≤ v < nr_vectors d →
  Forall (λ o, msi_op_ok o ∧ is_Some (devs s !! msi_op_dev o) ∧ leaves_flags a (msi_cap d) o) l →
  ∃ s', msi_run x fuel l s = Ok s' ∧ ok s' ∧ tracks a v d s s'.
Proof.
  revert s d. induction l as [|o l IH]; intros s d Hs Ha Hen Hv Hl; cbn [msi_run].
  { exists s. split; [done|]. split; [done|]. exists d, []. rewrite app_nil_r. split_and!; try done. by left. }
  apply Forall_cons in Hl as [(Ho & Hdev & Hfl) Hl]. destruct (msi_exec_ok x fuel s o Hs Ho Hdev) as (s1 & E1 & Hs1 & Ht1).
  rewrite E1. cbn [mbind res_bind]. destruct (tracks_exec a v d s s1 o Hs Ha Hen Hv Ho Hdev Hfl E1) as (d1 & out1 & Ha1 & Est1 & Ef1 & Hse1 & Hp1).
  assert (Ecap : msi_cap d1 = msi_cap d) by (by injection Est1). assert (En : nr_vectors d1 = nr_vectors d) by (unfold nr_vectors; by rewrite Ef1).
  destruct (IH s1 d1 Hs1 Ha1) as (s2 & E2 & Hs2 & d2 & out2 & Ha2 & Est2 & Ef2 & Hse2 & Hp2).
  - unfold msi_enabled, msi_present in *. assert (Ec : cap_present d1 = cap_present d) by (by injection Est1). by rewrite Ec, Ef1.
  - by rewrite En.
  - rewrite Ecap. by apply (ops_later _ s).
  - exists s2. split; [done|]. split; [done|]. exists d2, (out1 ++ out2). split; [done|]. split; [by rewrite Est2|]. split; [by rewrite Ef2|].
    split; [by rewrite Hse2, Hse1, app_assoc|]. intros Hm Hpv. setoid_rewrite elem_of_app.
    destruct (Hp1 Hm Hpv) as [Hpv1|(m & Hin & Hvm)]; [|right; exists m; auto].
    destruct Hp2 as [?|(m & Hin & Hvm)]; [unfold maskable; by rewrite Ef1|done|by left|]. right. exists m. split; [by right|]. unfold vector_of in *. by rewrite <-En.
Qed.

(** C22: No interrupt message is lost.  A device notifies a vector; afterwards pins move, the guest
    writes to the configuration spaces (masks and unmasks vectors, changes addresses and data)
    without touching the flags of this capability, and devices notify, in any order.  Nothing
    fails, and in the end a message that carries the vector was sent, or the vector is recorded as
    pending and the guest has it masked. *)
Theorem msi_notified l a v d s :
  ok s → devs s !! a = Some d → msi_enabled d = true → 0 ≤ v < msi_nr_vectors_allocated d →
  Forall (λ o, msi_op_ok o ∧ is_Some (devs s !! msi_op_dev o) ∧ leaves_flags a (msi_cap d) o) l →
  ∃ s' d' out, msi_run x fuel (Notify a v :: l) s = Ok s' ∧ devs s' !! a = Some d' ∧ sent s' = sent s ++ out ∧
    ((∃ m, m ∈ out ∧ vector_of d m = v) ∨ pending d' v = true ∧ masked d' v = true).
Proof.
  intros Hs Ha Hen Hv Hl. pose proof Hen as Hen'. unfold msi_enabled in Hen'. apply andb_true_iff in Hen' as [Hpr He]. fold (enabled d) in He. change (msi_nr_vectors_allocated d) with (nr_vectors d) in *.
  destruct (enabled_inv x fuel s a d Hs Ha Hpr He) as [Hi Hnv]. pose proof (ms_place _ (mi_static _ Hi)) as Hp. unfold PCI_MSI_VECTORS_MAX in Hnv.
  cbn [msi_run msi_exec]. unfold get_dev. rewrite Ha. cbn [mbind res_bind]. change (msi_nr_vectors_allocated d) with (nr_vectors d). rewrite Hen, (proj2 (Z.ltb_lt _ _)) by lia. cbn [andb].
  destruct (notify_cases x fuel s a d v Hs Ha) as (s1 & E1 & Hs1 & Ht1 & Hc); [lia|done|lia|]. rewrite E1. cbn [mbind res_bind].
  assert (∃ d1 out1, devs s1 !! a = Some d1 ∧ statics d1 = statics d ∧ msi_flags d1 = msi_flags d ∧ sent s1 = sent s ++ out1 ∧
    ((∃ m, m ∈ out1 ∧ vector_of d m = v) ∨ maskable d = true ∧ pending d1 v = true)) as (d1 & out1 & Ha1 & Est1 & Ef1 & Hse1 & Hor).
  { destruct Hc as [(Hm & Hds & Hse & Hk & Est & Hb)|(Hm & Hds & Hse)].
    - exists (set_pending_bit v d), []. rewrite Hds, lookup_insert_eq, app_nil_r. do 2 (split; [done|]). split; [by apply keeps_flags|]. split; [done|]. right.
      unfold masked in Hm. apply andb_true_iff in Hm as [Hm _]. split; [done|]. rewrite Hb by lia. by rewrite Z.eqb_refl, orb_true_r.
    - exists d, [message d v]. rewrite Hds. do 4 (split; [done|]). left. exists (message d v). split; [by left|]. by apply message_vector. }
  assert (Ecap : msi_cap d1 = msi_cap d) by (by injection Est1). assert (En : nr_vectors d1 = nr_vectors d) by (unfold nr_vectors; by rewrite Ef1).
  assert (Hen1 : msi_enabled d1 = true). { unfold msi_enabled, msi_present in *. assert (Ec : cap_present d1 = cap_present d) by (by injection Est1). by rewrite Ec, Ef1. }
  destruct (tracks_run l a v d1 s1 Hs1 Ha1 Hen1) as (s2 & E2 & Hs2 & d2 & out2 & Ha2 & Est2 & Ef2 & Hse2 & Hp2); [by rewrite En| |].
  { rewrite Ecap. by apply (ops_later _ s). }
  exists s2, d2, (out1 ++ out2). split; [done|]. split; [done|]. split; [by rewrite Hse2, Hse1, app_assoc|]. setoid_rewrite elem_of_app.
  destruct Hor as [(m & Hin & Hvm)|[Hm Hpv]]; [left; exists m; auto|].
  destruct (Hp2 ltac:(unfold maskable; by rewrite Ef1) Hpv) as [Hpv2|(m & Hin & Hvm)]; [right|left; exists m; split; [by right|]; unfold vector_of in *; by rewrite <-En].
  assert (Hpr2 : msi_present d2 = true). { unfold msi_present. assert (Ec : cap_present d2 = cap_present d) by (rewrite Est1 in Est2; by injection Est2). by rewrite Ec. }
  destruct (so_devs _ _ _ Hs2 a d2 Ha2) as (_ & [Hok2 _] & _). split; [done|].
  apply (mi_quiet _ (Hok2 Hpr2)); [unfold enabled; by rewrite Ef2, Ef1|unfold maskable; by rewrite Ef2, Ef1|lia|done].
Qed.
End NotLost.

(** ** Unmasking *)

(** A register the guest writes as a whole. *)
Lemma register_written d c o n val k :
  masks_ok d → afits 8 c → (∀ j, aget c j = written o val n d j) → 0 ≤ k < 8 * Z.of_nat n →
  (∀ j, o ≤ j < o + Z.of_nat n → aget (w1cmask d) j = 0) →
  Z.testbit (le_val (aread c o n)) k = if Z.testbit (le_val (aread (wmask d) o n)) k then Z.testbit val k else Z.testbit (le_val (aread (config d) o n)) k.
Proof.
  intros Hm Hc Hw Hk H1. rewrite !get_testbit by (try apply Hm; done || lia). rewrite Hw. unfold written.
  pose proof (Z.div_pos k 8 ltac:(lia) ltac:(lia)). assert (k / 8 < Z.of_nat n) by (apply Z.div_lt_upper_bound; lia). pose proof (Z.mod_pos_bound k 8 ltac:(lia)).
  rewrite (proj2 (Z.leb_le o (o + k / 8))), (proj2 (Z.ltb_lt (o + k / 8) _)) by lia. cbn [andb]. rewrite merge_testbit by (try apply Hm; lia). rewrite H1 by lia.
  unfold merge_bit. rewrite Z.bits_0, andb_false_r, andb_true_r. case_match; [|done]. unfold u8. rewrite Z.mod_pow2_bits_low, Z.shiftr_spec by lia.
  f_equal. pose proof (Z.div_mod k 8 ltac:(lia)). lia.
Qed.

Section Unmask.
Context (x : MsixOps) `{!MsixLaws x} (fuel : nat).

(** The guest writes the mask register of an enabled capability.  The bits it may write take the
    value; exactly the vectors that waited and are now not masked are sent, in order, each with its
    message; the others go on waiting; and the pins of the device are lowered. *)
Theorem msi_unmask_sends s a d val :
  sys_ok (msi_ops x) fuel s → devs s !! a = Some d → msi_enabled d = true → maskable d = true →
  let o := msi_mask_off d (b64 d) in
  ∃ s' d', pci_default_write_config (msi_ops x) fuel a o val 4 s = Ok s' ∧ devs s' = <[a := d']> (devs s) ∧
    (∀ v, 0 ≤ v < 32 → masked d' v = if Z.testbit (pci_get_long (wmask d) o) v then Z.testbit val v else masked d v) ∧
    sent s' = sent s ++ map (message d) (filter (λ v, pending d v = true ∧ masked d' v = false) (seqZ 0 (nr_vectors d))) ∧
    (∀ v, 0 ≤ v < 32 → pending d' v = pending d v && masked d' v) ∧ ∀ q, q ∈ pins → pci_irq_state d' q = 0.
Proof.
  intros Hs Ha Hen Hm o. unfold msi_enabled in Hen. apply andb_true_iff in Hen as [Hpr He]. fold (enabled d) in He.
  destruct (enabled_inv x fuel s a d Hs Ha Hpr He) as [Hi Hnv]. pose proof (mi_static _ Hi) as Hst. pose proof (ms_place _ Hst) as Hp. pose proof Hp as [Hp1 Hp2].
  destruct (so_devs _ _ _ Hs a d Ha) as (Hd & _). pose proof (do_masks _ Hd) as Hmk. pose proof (mask_off d Hp Hm) as Eo. fold o in Eo. pose proof (cap_size_cases d) as Ecs. rewrite Hm in Ecs.
  unfold PCI_CONFIG_HEADER_SIZE, PCI_CONFIG_SPACE_SIZE, PCI_MSI_VECTORS_MAX in *.
  assert (Hop : op_ok (OpWrite a o val 4)) by (cbn; unfold PCI_CONFIG_SPACE_SIZE, PCI_COMMAND; destruct (b64 d); lia).
  destruct (write_cases x fuel s a d o val 4 Hs Ha Hop) as (d1 & s' & d' & out & E & Hds & Hse & Est & Hf & Hw & Hc). change (Z.to_nat 4) with 4%nat in Hw.
  pose proof (written_kind d d1 o val 4 Hmk Hf Est Hst Hw) as Hkd. pose proof (sk_cap d d1 Hkd) as Ecap. pose proof (kind_cap_size d d1 Hkd) as Esz.
  assert (Efl : msi_flags d1 = msi_flags d).
  { unfold msi_flags, msi_flags_off. rewrite Ecap. fold (msi_flags_off d). rewrite flags_off by done. unfold pci_get_word. f_equal. apply aread_same.
    intros j Hj. rewrite Hw. apply written_out. destruct (b64 d); lia. }
  assert (Hde : delivered d1 d' out).
  { destruct Hc as [(_ & _ & Hno)|[_ Hde]]; [|done]. exfalso. unfold enabled in *. rewrite Efl, He, Ecap, Esz in Hno.
    assert (Hpr1 : msi_present d1 = true) by (unfold msi_present in *; assert (Ec : cap_present d1 = cap_present d) by (by injection Est); by rewrite Ec).
    rewrite Hpr1, andb_true_r in Hno. cbn [andb] in Hno. destruct (ranges_overlap_spec o 4 (msi_cap d) (cap_size d)); try done; destruct (b64 d); lia. }
  pose proof (written_pending d d1 o val 4 Hmk Hf Est Hst Hw Hm) as Hpe. pose proof (kind_maskable d d1 Hkd) as Hm1. rewrite Hm in Hm1.
  assert (Ef' : msi_flags d' = msi_flags d).
  { rewrite (dl_flags _ _ _ Hde), Efl. unfold clamp_flags. rewrite (proj2 (Z.ltb_ge _ _)); [done|]. by apply (mi_clamped _ Hi). }
  assert (En : nr_vectors d' = nr_vectors d) by (unfold nr_vectors; by rewrite Ef').
  exists s', d'. split; [done|]. split; [done|]. split; [|split; [|split; [|apply Hde]]].
  - intros v Hv. rewrite (dl_mask _ _ _ Hde). unfold masked. rewrite Hm1, Hm. cbn [andb]. unfold mask_reg. rewrite (kind_64 d d1 Hkd).
    unfold msi_mask_off at 1. rewrite Ecap. fold (msi_mask_off d (b64 d)) o. unfold pci_get_long. apply register_written; [done|done|done|lia|].
    intros j Hj. apply (ms_w1c _ Hst). destruct (b64 d); lia.
  - rewrite Hse, (dl_out _ _ _ Hde), Hm1, En. f_equal.
    assert (Efi : filter (released d1) (seqZ 0 (nr_vectors d)) = filter (λ v, pending d v = true ∧ masked d' v = false) (seqZ 0 (nr_vectors d))).
    { apply list_filter_iff. intros v. unfold released, due. rewrite Hpe, (dl_mask _ _ _ Hde). fold (pending d v). tauto. }
    rewrite Efi. apply map_ext. intros v.
    apply message_ext; [done|by rewrite (sk_cap _ _ (dl_kind _ _ _ Hde))|done|]. intros j Hj.
    rewrite (dl_regs _ _ _ Hde) by (by rewrite Ecap, (kind_64 d d1 Hkd)). rewrite Hw. apply written_out. destruct (b64 d); lia.
  - intros v Hv. rewrite (dl_pending _ _ _ Hde Hm1) by done. unfold pending at 1. rewrite Hpe, <-(dl_mask _ _ _ Hde), En. fold (pending d v).
    destruct (pending d v) eqn:Hpv; [|done]. destruct (mi_quiet _ Hi He Hm v Hv Hpv) as [_ Hlt]. rewrite (proj2 (Z.ltb_lt _ _)) by done. by rewrite andb_true_r.
Qed.
End Unmask.

(** ** A new capability *)

(** The flags [msi_init] sets, for [2 ^ n] vectors. *)
Definition flags_of (n : Z) (b m : bool) : Z :=
  let f := Z.shiftl n 1 in
  let f := if b then Z.lor f PCI_MSI_FLAGS_64BIT else f in
  if m then Z.lor f PCI_MSI_FLAGS_MASKBIT else f.
Lemma small_cases (P : Z → Prop) : P 0 → P 1 → P 2 → P 3 → P 4 → P 5 → ∀ n, 0 ≤ n ≤ 5 → P n.
Proof. intros. assert (n = 0 ∨ n = 1 ∨ n = 2 ∨ n = 3 ∨ n = 4 ∨ n = 5) by lia. naive_solver. Qed.
Lemma flags_of_spec b m : ∀ n, 0 ≤ n ≤ 5 →
  u16 (flags_of n b m) = flags_of n b m ∧ tst (flags_of n b m) PCI_MSI_FLAGS_64BIT = b ∧ tst (flags_of n b m) PCI_MSI_FLAGS_MASKBIT = m ∧
  tst (flags_of n b m) PCI_MSI_FLAGS_ENABLE = false ∧ log_max_vecs (flags_of n b m) = n.
Proof. by apply small_cases; destruct b, m; vm_compute. Qed.
Lemma vectors_order_spec : ∀ n, 0 ≤ n ≤ 5 →
  tst (2 ^ n) (u32 (2 ^ n - 1)) = false ∧ (0 <? 2 ^ n) = true ∧ (2 ^ n <=? PCI_MSI_VECTORS_MAX) = true ∧
  u16 (Z.shiftl (ffs (2 ^ n) - 1) (ffs PCI_MSI_FLAGS_QMASK - 1)) = Z.shiftl n 1.
Proof. by apply small_cases; vm_compute. Qed.

Lemma insert_capability_frame id o size d o' d' :
  0 ≤ size → insert_capability id o size d = Ok (o', d') →
  ∃ c k w u, d' = set_cmask k (set_wmask w (set_used u (set_config c d))) ∧ ∀ j, j < o ∨ o + size ≤ j → aget w j = aget (wmask d) j.
Proof.
  intros Hs. unfold insert_capability, fill, store. repeat (case_match; cbn [mbind res_bind]; try done).
  intros E. injection E as _ <-. do 4 eexists. split; [reflexivity|]. intros j Hj. apply aget_awrite_out. rewrite length_replicate. lia.
Qed.

Lemma caps_ok_same d d' l :
  caps_ok d l → used d' = used d → (∀ j, j = PCI_CAPABILITY_LIST ∨ j = PCI_STATUS ∨ (∃ o, o ∈ l ∧ j = o + 1) → aget (config d') j = aget (config d) j) → caps_ok d' l.
Proof.
  intros [H1 H2 H3 H4 H5] Eu Hc. split; [|done|by rewrite Hc by (right; by left)|by rewrite Eu|by rewrite Eu].
  rewrite (Hc PCI_CAPABILITY_LIST) by (by left). eapply chain_ext; [|exact H1]. intros o Ho. apply Hc. right. right. by exists o.
Qed.
Lemma caps_ok_ext d d' l :
  caps_ok d l → used d' = used d → (∀ j, j < PCI_CONFIG_HEADER_SIZE ∨ j mod 4 < 2 → aget (config d') j = aget (config d) j) → caps_ok d' l.
Proof.
  intros Hd Eu Hc. apply (caps_ok_same d); [done|done|]. intros j [->|[->|(o & Ho & ->)]]; [by apply Hc; left|by apply Hc; left|].
  destruct (co_place _ _ Hd o Ho) as (_ & Hm & _). apply Hc. right. rewrite Z.add_mod, Hm by lia. cbn. done.
Qed.

Lemma add_capability_first fuel id size d l :
  caps_ok d l → 2 ≤ size ≤ 255 → has_room d size →
  ∃ o, pci_add_capability fuel id 0 size d = insert_capability id o size d ∧
    PCI_CONFIG_HEADER_SIZE ≤ o ∧ o mod 4 = 0 ∧ free d o (align4 size) ∧ o + align4 size ≤ PCI_CONFIG_SPACE_SIZE.
Proof.
  intros Hc Hs (o' & H1 & H2 & H3). unfold pci_add_capability. cbn [Z.eqb].
  destruct (pci_find_space_spec d size ltac:(lia)) as [[_ Hno]|(Ho & Hend & Hfree & Hb & _)]; [by destruct (Hno o' H1 H2)|].
  exists (pci_find_space d size). rewrite (proj2 (Z.eqb_neq (pci_find_space d size) 0)) by (unfold PCI_CONFIG_HEADER_SIZE in Ho; lia).
  split; [done|]. split; [done|]. by eapply free_aligned; [|done|done|lia|..].
Qed.

(** What is written after the capability is linked in at [o], device [d]. *)
Definition end_of_writes (b m : bool) : Z := if m then if b then 20 else 16 else if b then 14 else 10.
Lemma msi_init_writes fuel n b m d o d1 :
  0 ≤ n ≤ 5 → pci_add_capability fuel PCI_CAP_ID_MSI 0 (msi_cap_sizeof (flags_of n b m)) d = Ok (o, d1) →
  PCI_CONFIG_HEADER_SIZE ≤ o → o + msi_cap_sizeof (flags_of n b m) ≤ PCI_CONFIG_SPACE_SIZE →
  ∃ w, msi_init fuel true 0 (2 ^ n) b m d =
         Ok (o, set_wmask w (set_config (pci_set_word (config d1) (o + 2) (flags_of n b m)) (set_msi (Z.lor (cap_present d1) QEMU_PCI_CAP_MSI) o d1))) ∧
    within (o + 4) (o + end_of_writes b m) (pci_set_word (wmask d1) (o + 2) (Z.lor PCI_MSI_FLAGS_QSIZE PCI_MSI_FLAGS_ENABLE)) w.
Proof.
  intros Hn Ea Ho He. destruct (vectors_order_spec n Hn) as (E1 & E2 & E3 & E4). destruct (flags_of_spec b m n Hn) as (_ & Eb & Em & _).
  assert (He' : o + ((if b then 14 else 10) + (if m then 10 else 0)) ≤ 256) by (unfold msi_cap_sizeof in He; rewrite Eb, Em in He; by destruct b, m).
  unfold PCI_CONFIG_HEADER_SIZE in Ho.
  assert (Hoff : ∀ k, 0 ≤ k < (if b then 14 else 10) + (if m then 10 else 0) → u8 (o + k) = o + k).
  { intros k Hk. apply u8_small. split; lia. }
  unfold msi_init. cbn [negb]. rewrite E1, E2, E3, E4. cbn [negb]. cbv zeta. fold (flags_of n b m).
  rewrite Ea. cbn [mbind res_bind]. rewrite (proj2 (Z.ltb_ge o 0)) by lia. rewrite (u8_small o) by (split; destruct b, m; lia).
  unfold msi_flags_off, msi_address_lo_off, msi_address_hi_off, msi_data_off, msi_mask_off, end_of_writes.
  destruct b, m; eexists; (split; [cbn [set_wmask set_config set_msi wmask config msi_cap]; rewrite !Hoff by done; reflexivity|]); unfold pci_set_long;
    cbn [set_wmask set_config set_msi wmask config msi_cap];
    repeat (apply within_write; [|unfold PCI_MSI_ADDRESS_LO, PCI_MSI_ADDRESS_HI, PCI_MSI_DATA_32, PCI_MSI_DATA_64, PCI_MSI_MASK_32, PCI_MSI_MASK_64; lia..]); apply within_refl.
Qed.

(** A device with the regions of [d], the same registers that decode, and masks in order. *)
Lemma dev_ok_like d d' :
  dev_ok d → masks_ok d' → io_regions d' = io_regions d → mapped d' = mapped d → aget (wmask d') PCI_HEADER_TYPE = aget (wmask d) PCI_HEADER_TYPE →
  (∀ j, decoding j ∨ j = PCI_HEADER_TYPE → aget (config d') j = aget (config d) j) → dev_ok d'.
Proof.
  intros Hd Hmk Er Em Hw Hc. destruct (dev_ok_config d (config d') Hd (mo_config _ Hmk) Hc) as [_ Hmap [Hb1 Hb2] Hsy].
  assert (Eg : ∀ i, region d' i = region d i) by (intros; unfold region; by rewrite Er). split; [done| |split|].
  - intros i Hi. rewrite Eg, Em. exact (Hmap i Hi).
  - intros i Hi. rewrite Eg. by apply Hb1.
  - by rewrite Hw.
  - intros i Hi. unfold remap. rewrite Eg. exact (Hsy i Hi).
Qed.

(** Taking the capability away again. *)
Lemma msi_uninit_ok fuel d o l :
  msi_present d = true → caps_ok d (o :: l) → masks_ok d → aget (config d) o = PCI_CAP_ID_MSI → 2 ≤ cap_size d →
  o + align4 (cap_size d) ≤ PCI_CONFIG_SPACE_SIZE → (∀ o', o' ∈ l → ¬ o ≤ o' < o + align4 (cap_size d)) → (S (length l) < fuel)%nat →
  ∃ d2, msi_uninit fuel d = Ok d2 ∧ caps_ok d2 l ∧ msi_present d2 = false.
Proof.
  intros Hpr Hc Hm Hid Hs He Hd Hf. unfold msi_uninit. rewrite Hpr. cbn [negb]. fold (cap_size d).
  destruct (pci_del_head fuel PCI_CAP_ID_MSI o (cap_size d) d l Hc Hm) as (d2 & E2 & Hc2 & _); [done..|].
  rewrite E2. cbn [mbind res_bind]. eexists. split; [reflexivity|]. split; [by destruct Hc2|]. unfold msi_present. cbn [set_msi cap_present]. apply clr_tst.
Qed.

(** A device gets the capability, not enabled, and loses it again. *)
Lemma msi_init_ok fuel n b m d l :
  caps_ok d l → dev_ok d → (∀ j, PCI_CONFIG_HEADER_SIZE ≤ j → aget (w1cmask d) j = 0) → 0 ≤ n ≤ 5 →
  has_room d (msi_cap_sizeof (flags_of n b m)) →
  ∃ o d', msi_init fuel true 0 (2 ^ n) b m d = Ok (o, d') ∧ caps_ok d' (o :: l) ∧ dev_ok d' ∧ msi_inv d' ∧ msi_present d' = true ∧
    msi_flags d' = flags_of n b m ∧ no_msix d' = no_msix d ∧ dev_place d' = dev_place d ∧ irq_state d' = irq_state d ∧
    (∀ j, j < PCI_CONFIG_HEADER_SIZE → j ≠ PCI_CAPABILITY_LIST → j ≠ PCI_STATUS → aget (config d') j = aget (config d) j) ∧
    (∀ j, j < PCI_CONFIG_HEADER_SIZE → aget (wmask d') j = aget (wmask d) j) ∧
    ((S (length l) < fuel)%nat → ∃ d2, msi_uninit fuel d' = Ok d2 ∧ caps_ok d2 l ∧ msi_present d2 = false).
Proof.
  intros Hc Hd Hw1 Hn Hr. destruct (flags_of_spec b m n Hn) as (Eu & Eb & Em & Een & Elm). set (f := flags_of n b m) in *. set (size := msi_cap_sizeof f) in *.
  assert (Hsize : size = (if b then 14 else 10) + if m then 10 else 0) by (unfold size, msi_cap_sizeof; rewrite Eb, Em; by destruct b, m).
  assert (Hs2 : 2 ≤ size ≤ 255) by (rewrite Hsize; clear; destruct b, m; lia).
  assert (Hew : 4 ≤ end_of_writes b m ≤ size) by (rewrite Hsize; unfold end_of_writes; clear; destruct b, m; lia).
  assert (Hpo : m = true → end_of_writes b m = (if b then 20 else 16) ∧ end_of_writes b m + 4 ≤ size) by (rewrite Hsize; unfold end_of_writes; clear; intros ->; destruct b; lia). pose proof (do_masks _ Hd) as Hm.
  destruct (add_capability_first fuel PCI_CAP_ID_MSI size d l Hc Hs2 Hr) as (o & Ea & Ho & Ho4 & Hfree & Hend). destruct (align4_spec size ltac:(lia)) as [Hal _].
  destruct (insert_capability_spec PCI_CAP_ID_MSI o size d l Hc Hm ltac:(done) Ho Ho4 ltac:(lia) Hfree Hend) as (d1 & E1 & Hc1 & Hm1 & Hid & Hcfg & _ & Hw0 & _).
  rewrite E1 in Ea. destruct (insert_capability_frame PCI_CAP_ID_MSI o size d o d1 ltac:(lia) E1) as (c & k & w0 & u & Ed1 & Hw0out).
  destruct (msi_init_writes fuel n b m d o d1 Hn Ea Ho ltac:(fold f size; lia)) as (w & Ei & Hin). fold f in Ei. rewrite Ei.
  set (d' := set_wmask w _). exists o, d'. unfold PCI_CONFIG_HEADER_SIZE, PCI_CONFIG_SPACE_SIZE in *.
  assert (Ecap : msi_cap d' = o) by done. assert (Hofl : u8 (o + 2) = o + 2) by (apply u8_small; split; lia).
  assert (Hcf : ∀ j, j < o + 2 ∨ o + 4 ≤ j → aget (config d') j = aget (config d1) j) by (intros j Hj; apply set_word_out; lia).
  assert (Ef : msi_flags d' = f) by (unfold msi_flags, msi_flags_off; rewrite Ecap; change PCI_MSI_FLAGS with 2; rewrite Hofl; unfold d'; cbn [set_wmask set_config config]; by rewrite get_set_word).
  assert (E64 : b64 d' = b) by (unfold b64; by rewrite Ef). assert (Emk : maskable d' = m) by (unfold maskable; by rewrite Ef).
  assert (Ecs : cap_size d' = size) by (unfold cap_size; by rewrite Ef). assert (Hdis : enabled d' = false) by (unfold enabled; by rewrite Ef).
  assert (Ew1 : w1cmask d' = w1cmask d) by (unfold d'; by rewrite Ed1).
  assert (Hwo : ∀ j, j < o ∨ o + size ≤ j → aget (wmask d') j = aget (wmask d) j).
  { intros j Hj. change (wmask d') with w. rewrite (within_out _ _ _ _ j Hin) by lia. rewrite set_word_out by lia. rewrite Ed1. by apply Hw0out. }
  assert (Hp : place_ok d') by (unfold place_ok, PCI_CONFIG_HEADER_SIZE, PCI_CONFIG_SPACE_SIZE; rewrite Ecap, Ecs; lia).
  assert (Hmk : masks_ok d').
  { split; [apply set_word_fits, Hm1|eapply within_fits; [exact Hin|]; apply set_word_fits, Hm1|rewrite Ew1; apply Hm|apply Hm1| |rewrite Ew1; apply Hm].
    intros j. rewrite Ew1. destruct (decide (o ≤ j < o + size)); [rewrite Hw1 by lia; apply Z.land_0_r|]. rewrite Hwo by lia. apply Hm. }
  assert (Hlow : ∀ j, j < 64 → j ≠ PCI_CAPABILITY_LIST → j ≠ PCI_STATUS → aget (config d') j = aget (config d) j) by (intros j Hj H1 H2; rewrite Hcf by lia; apply Hcfg; done || lia).
  assert (Hdd : dev_ok d').
  { apply (dev_ok_like d); [done|done|unfold d'; by rewrite Ed1|unfold d'; by rewrite Ed1|apply Hwo; unfold PCI_HEADER_TYPE; lia|].
    intros j Hj. unfold decoding, PCI_HEADER_TYPE in Hj. apply Hlow; unfold PCI_CAPABILITY_LIST, PCI_STATUS; lia. }
  assert (Hcc : caps_ok d' (o :: l)).
  { apply (caps_ok_ext d1); [done|done|]. intros j [Hj|Hj]; apply Hcf; [unfold PCI_CONFIG_HEADER_SIZE in Hj; lia|]. pose proof (Z.div_mod j 4 ltac:(lia)). pose proof (Z.div_mod o 4 ltac:(lia)).
    pose proof (Z.mod_pos_bound j 4 ltac:(lia)). lia. }
  split; [done|]. split; [done|]. split; [done|]. split; [split; [|congruence|congruence]|].
  { split; [done|by rewrite Ef, Elm; lia| | |].
    - rewrite Ecap. assert (E : pci_get_word (wmask d') (o + 2) = pci_get_word (pci_set_word (wmask d1) (o + 2) (Z.lor PCI_MSI_FLAGS_QSIZE PCI_MSI_FLAGS_ENABLE)) (o + 2)).
      { unfold pci_get_word. f_equal. apply aread_same. intros j Hj. eapply within_out; [exact Hin|lia]. }
      rewrite E, get_set_word. done.
    - rewrite Ecap, Ew1. intros j Hj. apply Hw1. lia.
    - rewrite E64, Emk. intros Hmt j Hj. rewrite <-E64, (pending_off d' Hp ltac:(congruence)), Ecap, E64 in Hj. change (wmask d') with w.
      destruct (Hpo Hmt) as [H1 H2]. rewrite <-H1 in Hj. rewrite (within_out _ _ _ _ j Hin) by lia. rewrite set_word_out by lia. apply Hw0. lia. }
  split; [unfold msi_present, d'; cbn [set_wmask set_config set_msi cap_present]; by apply lor_tst|]. split; [done|].
  split; [unfold no_msix, d'; cbn [set_wmask set_config set_msi cap_present]; rewrite Ed1; cbn [set_cmask set_wmask set_used set_config cap_present]; unfold tst; rewrite Z.land_lor_distr_l; change (Z.land QEMU_PCI_CAP_MSI QEMU_PCI_CAP_MSIX) with 0; by rewrite Z.lor_0_r|].
  split; [unfold d'; by rewrite Ed1|]. split; [unfold d'; by rewrite Ed1|]. split; [exact Hlow|]. split; [intros j Hj; apply Hwo; lia|].
  intros Hfu. apply (msi_uninit_ok fuel d' o l); [|done|done|rewrite Hcf by lia; done|rewrite Ecs; lia|rewrite Ecs; unfold PCI_CONFIG_SPACE_SIZE; lia| |done].
  - unfold msi_present, d'. cbn [set_wmask set_config set_msi cap_present]. by apply lor_tst.
  - rewrite Ecs. intros o' Ho' Hrg. destruct (co_place _ _ Hc o' Ho') as (_ & _ & Hne). apply Hne, Hfree. lia.
Qed.

(** ** A machine with messages *)

Lemma Ok_inj {A} (a b : A) : Ok a = Ok b → a = b.
Proof. by intros [= ->]. Qed.

(** No hook of msix.c, for machines without the capability and as the part of a configuration write
    before that hook runs. *)
Definition nomsix : MsixOps := mkMsix (λ _ _ _ _ _ s, Ok s) (λ d, d) (λ _, True).
#[global] Instance nomsix_laws : MsixLaws nomsix.
Proof. by split. Qed.
Abbreviation ops := (msi_ops nomsix).

(** The card of [machine] with four maskable vectors. *)
Definition msi_card : PCIDevice := match msi_init 2 true 0 4 false true card with Ok (_, d) => d | _ => card end.
Lemma card_caps : caps_ok card [].
Proof.
  split; [vm_compute; reflexivity|by apply NoDup_nil|vm_compute; reflexivity|by intros o []%not_elem_of_nil|].
  intros j. change (used card) with (∅ : arr). by rewrite !aget_empty.
Qed.
Lemma card_room : has_room card (msi_cap_sizeof (flags_of 2 false true)).
Proof. exists 64. split; [done|]. split; [done|]. intros j _. change (used card) with (∅ : arr). apply aget_empty. Qed.
Lemma card_w1c j : PCI_CONFIG_HEADER_SIZE ≤ j → aget (w1cmask card) j = 0.
Proof.
  intros Hj. change (w1cmask card) with (w1cmask card0). unfold card0, init_masks, pci_init_w1cmask. cbn [set_w1cmask w1cmask pci_init_wmask set_wmask pci_init_cmask set_cmask].
  rewrite set_word_out by (unfold PCI_STATUS, PCI_CONFIG_HEADER_SIZE in *; lia). apply aget_empty.
Qed.
Lemma msi_card_facts :
  dev_ok msi_card ∧ msi_dev ops msi_card ∧ pin_ok msi_card ∧ dev_place msi_card = dev_place card ∧ irq_state msi_card = irq_state card.
Proof.
  destruct card_ok as (Hd & [_ Hx] & Hpin). destruct (msi_init_ok 2 2 false true card [] card_caps Hd card_w1c ltac:(lia) card_room)
    as (o & d' & E & _ & Hd' & Hi & _ & _ & Ex & Hp & Hirq & Hc & Hw & _).
  assert (Ed : msi_card = d') by (unfold msi_card; change 4 with (2 ^ 2); by rewrite E). rewrite Ed. split; [done|]. split; [split; [by intros _|done]|]. split; [|by split].
  destruct Hpin as [H1 H2]. split; [rewrite Hc by (unfold PCI_INTERRUPT_PIN, PCI_CAPABILITY_LIST, PCI_STATUS, PCI_CONFIG_HEADER_SIZE; lia); done|].
  rewrite Hw by (unfold PCI_INTERRUPT_PIN, PCI_CONFIG_HEADER_SIZE; lia). done.
Qed.
Definition msi_machine : PciSys := put_dev 1 msi_card machine.
Lemma msi_machine_ok : sys_ok ops 1 msi_machine.
Proof.
  destruct msi_card_facts as (Hd & Hm & Hp & Hpl & Hirq). split.
  - eapply put_dev_quiet; [apply machine_counts|apply machine_card|done|]. intros p _. unfold asserted, pci_irq_state. rewrite Hirq.
    change (irq_state card) with 0. rewrite Z.shiftr_0_l. by repeat case_match.
  - intros a d Ha. unfold msi_machine, put_dev in Ha. cbn [devs] in Ha. apply lookup_insert_Some in Ha as [[<- <-]|[Hne Ha]]; [exact (conj Hd (conj Hm Hp))|].
    apply machine_devs in Ha as [Ea _]. exfalso. exact (Hne (eq_sym Ea)).
Qed.

(** The driver sets the address and the data, masks vector 1 and enables the four vectors. *)
Definition msi_setup : list pci_op :=
  [OpWrite 1 68 0xfee00000 4; OpWrite 1 72 0x4030 2; OpWrite 1 76 2 4; OpWrite 1 66 0x21 2].
Definition msi_ready : PciSys := match run ops 1 msi_setup msi_machine with Ok s => s | _ => msi_machine end.
Lemma msi_ready_run : run ops 1 msi_setup msi_machine = Ok msi_ready.
Proof.
  assert (H : is_ok (run ops 1 msi_setup msi_machine) = true) by (vm_compute; reflexivity).
  unfold msi_ready. by destruct (run ops 1 msi_setup msi_machine).
Qed.
Lemma msi_ready_ok : sys_ok ops 1 msi_ready.
Proof.
  assert (Hc : is_Some (devs msi_machine !! 1)) by (exists msi_card; apply lookup_insert_eq).
  destruct (run_ok ops _ 1 msi_setup msi_machine msi_machine_ok) as (s & E & Hs & _).
  { unfold msi_setup. repeat (apply Forall_cons; split; [split; [|exact Hc]|]); try apply Forall_nil; try done; cbn [op_ok]; unfold PCI_COMMAND, PCI_CONFIG_SPACE_SIZE; lia. }
  rewrite msi_ready_run in E. apply Ok_inj in E as ->. exact Hs.
Qed.
Definition ready_card : PCIDevice := match devs msi_ready !! 1 with Some d => d | None => msi_card end.
Lemma ready_card_in : devs msi_ready !! 1 = Some ready_card.
Proof.
  assert (H : match devs msi_ready !! 1 with Some _ => true | None => false end = true) by (vm_compute; reflexivity).
  unfold ready_card. by destruct (devs msi_ready !! 1).
Qed.
Lemma ready_facts : msi_enabled ready_card = true ∧ maskable ready_card = true ∧ msi_nr_vectors_allocated ready_card = 4 ∧ msi_cap ready_card = 64.
Proof. split; [|split; [|split]]; vm_compute; reflexivity. Qed.

(** Vector 1 is notified while it is masked, vector 2 is sent, then vector 1 is unmasked. *)
Definition msi_story : list msi_op := [Notify 1 2; Bus (OpWrite 1 76 0 4)].
Lemma msi_story_ok : Forall (λ o, msi_op_ok o ∧ is_Some (devs msi_ready !! msi_op_dev o) ∧ leaves_flags 1 (msi_cap ready_card) o) msi_story.
Proof.
  assert (Hc : is_Some (devs msi_ready !! 1)) by (exists ready_card; apply ready_card_in). destruct ready_facts as (_ & _ & _ & Ec). rewrite Ec. unfold msi_story.
  repeat (apply Forall_cons; split; [split; [|split; [exact Hc|]]|]); try apply Forall_nil; cbn [msi_op_ok op_ok leaves_flags]; unfold PCI_COMMAND, PCI_CONFIG_SPACE_SIZE; lia || done.
Qed.
Lemma msi_notified_witness :
  ∃ s' d' out, msi_run nomsix 1 (Notify 1 1 :: msi_story) msi_ready = Ok s' ∧ devs s' !! 1 = Some d' ∧ sent s' = sent msi_ready ++ out ∧
    ((∃ m, m ∈ out ∧ vector_of ready_card m = 1) ∨ pending d' 1 = true ∧ masked d' 1 = true).
Proof.
  destruct ready_facts as (He & _ & Hn & _).
  apply (msi_notified nomsix 1 msi_story 1 1 ready_card msi_ready msi_ready_ok ready_card_in He); [rewrite Hn; lia|exact msi_story_ok].
Defined.
(** The messages of the story. *)
Example msi_story_messages :
  (s ← msi_run nomsix 1 (Notify 1 1 :: msi_story) msi_ready; Ok (sent s)) = Ok [(0xfee00000, 0x4032); (0xfee00000, 0x4031)].
Proof. vm_compute. reflexivity. Qed.

Lemma msi_unmask_sends_witness :
  let o := msi_mask_off ready_card (b64 ready_card) in
  ∃ s' d', pci_default_write_config ops 1 1 o 0 4 msi_ready = Ok s' ∧ devs s' = <[1 := d']> (devs msi_ready) ∧
    (∀ v, 0 ≤ v < 32 → masked d' v = if Z.testbit (pci_get_long (wmask ready_card) o) v then Z.testbit 0 v else masked ready_card v) ∧
    sent s' = sent msi_ready ++ map (message ready_card) (filter (λ v, pending ready_card v = true ∧ masked d' v = false) (seqZ 0 (nr_vectors ready_card))) ∧
    (∀ v, 0 ≤ v < 32 → pending d' v = pending ready_card v && masked d' v) ∧ ∀ q, q ∈ pins → pci_irq_state d' q = 0.
Proof.
  destruct ready_facts as (He & Hm & _). exact (msi_unmask_sends nomsix 1 msi_ready 1 ready_card 0 msi_ready_ok ready_card_in He Hm).
Defined.

(** While the capability is not enabled, the number of vectors is not cut down: the guest can make
    the device believe it has 128. *)
Example vectors_not_clamped :
  (s ← run ops 1 [OpWrite 1 66 0x70 2] msi_machine; d ← get_dev 1 s; Ok (msi_nr_vectors_allocated d, log_max_vecs (msi_flags d))) = Ok (128, 2).
Proof. vm_compute. reflexivity. Qed.

End Msi.
