(* ===== verification/Msix.v ===== *)
(** The extended form of message-signalled interrupts (hw/pci/msix.c): a table of messages and masks
    in the memory of the device, an array of pending bits, the mask of the whole function, and the
    listeners that are told which vectors may fire.  A configuration write runs the bus and the hook
    of Msi first, then the hook of this file. *)

From S2P Require Import Prelude Pci PciBus Msi.
Import Pci PciBus Msi.

Module Msix.

(** ** Constants (pci_regs.h, msix.c) *)

Definition PCI_CAP_ID_MSIX : Z := 0x11.
Definition PCI_MSIX_FLAGS : Z := 2.
Definition PCI_MSIX_FLAGS_QSIZE : Z := 0x7ff.
Definition PCI_MSIX_FLAGS_ENABLE : Z := Z.shiftl 1 15.
Definition PCI_MSIX_FLAGS_MASKALL : Z := Z.shiftl 1 14.
Definition PCI_MSIX_TABLE : Z := 4.
Definition PCI_MSIX_PBA : Z := 8.
Definition PCI_MSIX_FLAGS_BIRMASK : Z := 7.
Definition PCI_MSIX_ENTRY_SIZE : Z := 16.
Definition PCI_MSIX_ENTRY_LOWER_ADDR : Z := 0.
Definition PCI_MSIX_ENTRY_DATA : Z := 8.
Definition PCI_MSIX_ENTRY_VECTOR_CTRL : Z := 12.
Definition PCI_MSIX_ENTRY_CTRL_MASKBIT : Z := 1.
Definition MSIX_CAP_LENGTH : Z := 12.
Definition MSIX_CONTROL_OFFSET : Z := PCI_MSIX_FLAGS + 1.
Definition MSIX_ENABLE_MASK : Z := Z.shiftr PCI_MSIX_FLAGS_ENABLE 8.
Definition MSIX_MASKALL_MASK : Z := Z.shiftr PCI_MSIX_FLAGS_MASKALL 8.

(** ** State *)

(** The fields of [PCIDevice] for MSI-X; [notifiers] says whether the functions that use and release
    a vector are set, [poller] whether the one that polls is. *)
Record Msix : Type := mkMX {
  msix_cap : Z;
  msix_table : arr;
  msix_pba : arr;
  msix_entry_used : arr;
  msix_entries_nr : Z;
  msix_function_masked : bool;
  notifiers : bool;
  poller : bool;
}.
Definition no_msix_state : Msix := mkMX 0 ∅ ∅ ∅ 0 false false false.
Definition set_table (t : arr) (x : Msix) : Msix :=
  mkMX (msix_cap x) t (msix_pba x) (msix_entry_used x) (msix_entries_nr x) (msix_function_masked x) (notifiers x) (poller x).
Definition set_pba (p : arr) (x : Msix) : Msix :=
  mkMX (msix_cap x) (msix_table x) p (msix_entry_used x) (msix_entries_nr x) (msix_function_masked x) (notifiers x) (poller x).
Definition set_entry_used (u : arr) (x : Msix) : Msix :=
  mkMX (msix_cap x) (msix_table x) (msix_pba x) u (msix_entries_nr x) (msix_function_masked x) (notifiers x) (poller x).
Definition set_function_masked (b : bool) (x : Msix) : Msix :=
  mkMX (msix_cap x) (msix_table x) (msix_pba x) (msix_entry_used x) (msix_entries_nr x) b (notifiers x) (poller x).
Definition set_notifiers (b p : bool) (x : Msix) : Msix :=
  mkMX (msix_cap x) (msix_table x) (msix_pba x) (msix_entry_used x) (msix_entries_nr x) (msix_function_masked x) b p.

(** Calls of the notifiers: vector and message with the result, vector, first and last vector. *)
Inductive event : Type :=
| Use (v : Z) (msg : Z * Z) (ret : Z)
| Release (v : Z)
| Poll (first last : Z).

(** The bus, the MSI-X fields of the devices by their addresses, and what their notifiers were told. *)
Record Sys : Type := mkS {
  bus : PciSys;
  mx : gmap Z Msix;
  events : list (Z * event);
}.
Definition mx_of (a : Z) (s : Sys) : Msix := default no_msix_state (mx s !! a).
Definition put_mx (a : Z) (x : Msix) (s : Sys) : Sys := mkS (bus s) (<[a := x]> (mx s)) (events s).
Definition set_bus (b : PciSys) (s : Sys) : Sys := mkS b (mx s) (events s).
Definition tell (a : Z) (e : event) (s : Sys) : Sys := mkS (bus s) (mx s) (events s ++ [(a, e)]).

(** ** Vectors *)

(** The table has an entry, and the pending array a bit, for each vector. *)
Definition has_vector (x : Msix) (vector : Z) : bool := (0 <=? vector) && (vector <? msix_entries_nr x).
Definition guard (b : bool) : res () := if b then Ok () else Fault OutOfBounds.

Definition entry (vector : Z) : Z := vector * PCI_MSIX_ENTRY_SIZE.
Definition message (x : Msix) (vector : Z) : Z * Z :=
  (pci_get_quad (msix_table x) (entry vector + PCI_MSIX_ENTRY_LOWER_ADDR), pci_get_long (msix_table x) (entry vector + PCI_MSIX_ENTRY_DATA)).
Definition msix_get_message (x : Msix) (vector : Z) : res (Z * Z) := _ ← guard (has_vector x vector); Ok (message x vector).

Definition set_entry_mask (f : Z → Z) (vector : Z) (x : Msix) : Msix :=
  let o := entry vector + PCI_MSIX_ENTRY_VECTOR_CTRL in set_table (aset (msix_table x) o (f (aget (msix_table x) o))) x.
Definition msix_set_message (vector : Z) (msg : Z * Z) (x : Msix) : res Msix :=
  _ ← guard (has_vector x vector);
  let t := pci_set_quad (msix_table x) (entry vector + PCI_MSIX_ENTRY_LOWER_ADDR) msg.1 in
  let t := pci_set_long t (entry vector + PCI_MSIX_ENTRY_DATA) msg.2 in
  Ok (set_entry_mask (λ b, clr b PCI_MSIX_ENTRY_CTRL_MASKBIT) vector (set_table t x)).

Definition msix_pending_mask (vector : Z) : Z := u8 (Z.shiftl 1 (vector mod 8)).
Definition pending (x : Msix) (vector : Z) : bool := tst (aget (msix_pba x) (vector / 8)) (msix_pending_mask vector).
Definition msix_is_pending (x : Msix) (vector : Z) : res bool := _ ← guard (has_vector x vector); Ok (pending x vector).
Definition msix_set_pending (vector : Z) (x : Msix) : res Msix :=
  _ ← guard (has_vector x vector);
  Ok (set_pba (aset (msix_pba x) (vector / 8) (Z.lor (aget (msix_pba x) (vector / 8)) (msix_pending_mask vector))) x).
Definition msix_clr_pending (vector : Z) (x : Msix) : res Msix :=
  _ ← guard (has_vector x vector);
  Ok (set_pba (aset (msix_pba x) (vector / 8) (clr (aget (msix_pba x) (vector / 8)) (msix_pending_mask vector))) x).

Definition entry_masked (x : Msix) (vector : Z) : bool :=
  tst (aget (msix_table x) (entry vector + PCI_MSIX_ENTRY_VECTOR_CTRL)) PCI_MSIX_ENTRY_CTRL_MASKBIT.
Definition msix_vector_masked (x : Msix) (vector : Z) (fmask : bool) : res bool :=
  if fmask then Ok true else _ ← guard (has_vector x vector); Ok (entry_masked x vector).
Definition msix_is_masked (x : Msix) (vector : Z) : res bool := msix_vector_masked x vector (msix_function_masked x).

Definition msix_present (d : PCIDevice) : bool := tst (cap_present d) QEMU_PCI_CAP_MSIX.
Definition control (d : PCIDevice) (x : Msix) : Z := aget (config d) (msix_cap x + MSIX_CONTROL_OFFSET).
Definition msix_enabled (d : PCIDevice) (x : Msix) : bool := msix_present d && tst (control d x) MSIX_ENABLE_MASK.
Definition msix_nr_vectors_allocated (x : Msix) : Z := msix_entries_nr x.

(** ** Notification and masks *)

Definition msix_notify (a vector : Z) (s : Sys) : res Sys :=
  let x := mx_of a s in
  if (msix_entries_nr x <=? vector) || (aget (msix_entry_used x) vector =? 0) then Ok s
  else
    masked ← msix_is_masked x vector;
    if masked : bool then x ← msix_set_pending vector x; Ok (put_mx a x s)
    else msg ← msix_get_message x vector; Ok (set_bus (stl_le_phys msg (bus s)) s).

Definition msix_update_function_masked (d : PCIDevice) (x : Msix) : Msix :=
  set_function_masked (negb (msix_enabled d x) || tst (control d x) MSIX_MASKALL_MASK) x.

Section Msix.
(** What the function that uses a vector returns, given what the notifiers were told before. *)
Context (use_ret : list (Z * event) → Z → Z → Z * Z → Z).

Definition msix_vector_use_notifier (a vector : Z) (msg : Z * Z) (s : Sys) : Z * Sys :=
  let ret := use_ret (events s) a vector msg in (ret, tell a (Use vector msg ret) s).
Definition msix_vector_release_notifier (a vector : Z) (s : Sys) : Sys := tell a (Release vector) s.

Definition msix_fire_vector_notifier (a vector : Z) (is_masked : bool) (s : Sys) : res Sys :=
  if negb (notifiers (mx_of a s)) then Ok s
  else if is_masked then Ok (msix_vector_release_notifier a vector s)
  else
    msg ← msix_get_message (mx_of a s) vector;
    let '(ret, s) := msix_vector_use_notifier a vector msg s in
    if negb (0 <=? ret) then Fault AssertFail else Ok s.

Definition msix_handle_mask_update (a vector : Z) (was_masked : bool) (s : Sys) : res Sys :=
  is_masked ← msix_is_masked (mx_of a s) vector;
  if Bool.eqb is_masked was_masked then Ok s
  else
    s ← msix_fire_vector_notifier a vector is_masked s;
    if is_masked then Ok s
    else
      p ← msix_is_pending (mx_of a s) vector;
      if p : bool then x ← msix_clr_pending vector (mx_of a s); msix_notify a vector (put_mx a x s) else Ok s.

Fixpoint function_mask_loop (l : list Z) (a : Z) (was_masked : bool) (s : Sys) : res Sys :=
  match l with
  | [] => Ok s
  | vector :: l =>
      w ← msix_vector_masked (mx_of a s) vector was_masked;
      s ← msix_handle_mask_update a vector w s;
      function_mask_loop l a was_masked s
  end.

Definition msix_write_config (fuel : nat) (a addr val len : Z) (s : Sys) : res Sys :=
  d ← get_dev a (bus s);
  let x := mx_of a s in
  let enable_pos := msix_cap x + MSIX_CONTROL_OFFSET in
  if negb (msix_present d) || negb (range_covers_byte addr len enable_pos) then Ok s
  else
    let was_masked := msix_function_masked x in
    let x := msix_update_function_masked d x in
    let s := put_mx a x s in
    if negb (msix_enabled d x) then Ok s
    else
      b ← pci_device_deassert_intx fuel a (bus s);
      let s := set_bus b s in
      if Bool.eqb (msix_function_masked x) was_masked then Ok s
      else function_mask_loop (seqZ 0 (msix_entries_nr x)) a was_masked s.

(** ** The registers in the memory of the device: 4-byte accesses *)

Definition table_size (x : Msix) : Z := msix_entries_nr x * PCI_MSIX_ENTRY_SIZE.
(** [QEMU_ALIGN_UP(n, 64) / 8] *)
Definition pba_size (n : Z) : Z := (n + 63) / 64 * 64 / 8.

Definition msix_table_mmio_read (a addr : Z) (s : Sys) : res Z :=
  let x := mx_of a s in _ ← guard ((0 <=? addr) && (addr + 4 <=? table_size x)); Ok (pci_get_long (msix_table x) addr).
Definition msix_table_mmio_write (a addr val : Z) (s : Sys) : res Sys :=
  let x := mx_of a s in
  let vector := addr / PCI_MSIX_ENTRY_SIZE in
  was_masked ← msix_is_masked x vector;
  _ ← guard ((0 <=? addr) && (addr + 4 <=? table_size x));
  msix_handle_mask_update a vector was_masked (put_mx a (set_table (pci_set_long (msix_table x) addr val) x) s).
(** [size] is 4. *)
Definition msix_pba_mmio_read (a addr size : Z) (s : Sys) : res (Z * Sys) :=
  let x := mx_of a s in
  let s := if poller x then tell a (Poll (u32 (addr * 8)) (Z.min (addr + size * 8) (msix_entries_nr x))) s else s in
  _ ← guard ((0 <=? addr) && (addr + 4 <=? pba_size (msix_entries_nr x)));
  Ok (pci_get_long (msix_pba x) addr, s).

Fixpoint mask_all_loop (l : list Z) (a : Z) (s : Sys) : res Sys :=
  match l with
  | [] => Ok s
  | vector :: l =>
      let x := mx_of a s in
      was_masked ← msix_is_masked x vector;
      _ ← guard (has_vector x vector);
      s ← msix_handle_mask_update a vector was_masked (put_mx a (set_entry_mask (λ b, Z.lor b PCI_MSIX_ENTRY_CTRL_MASKBIT) vector x) s);
      mask_all_loop l a s
  end.
Definition msix_mask_all (a nentries : Z) (s : Sys) : res Sys := mask_all_loop (seqZ 0 nentries) a s.

(** ** The capability *)

(** The registers of the capability at [cap]; the enable and mask bits become writable. *)
Definition init_device (nentries table pba cap : Z) (d : PCIDevice) : PCIDevice :=
  let d := set_msi (Z.lor (cap_present d) QEMU_PCI_CAP_MSIX) (msi_cap d) d in
  let c := pci_set_word (config d) (cap + PCI_MSIX_FLAGS) (nentries - 1) in
  let c := pci_set_long c (cap + PCI_MSIX_TABLE) table in
  let c := pci_set_long c (cap + PCI_MSIX_PBA) pba in
  let o := cap + MSIX_CONTROL_OFFSET in
  let w := aset (wmask d) o (Z.lor (aget (wmask d) o) (Z.lor MSIX_ENABLE_MASK MSIX_MASKALL_MASK)) in
  set_wmask w (set_config c d).
Definition bad_layout (nentries table_bar table_bar_nr table_offset pba_bar pba_bar_nr pba_offset : Z) : bool :=
  let table_size := nentries * PCI_MSIX_ENTRY_SIZE in
  let pba_size := pba_size nentries in
  ((table_bar_nr =? pba_bar_nr) && ranges_overlap table_offset table_size pba_offset pba_size)
  || (table_bar <? u32 (table_offset + table_size)) || (pba_bar <? u32 (pba_offset + pba_size))
  || tst (Z.lor table_offset pba_offset) PCI_MSIX_FLAGS_BIRMASK.
(** [table_bar] and [pba_bar] are the sizes of the regions that hold the table and the pending
    array; the subregions themselves are not kept. *)
Definition msix_init (fuel : nat) (msi_supported : bool) (a nentries table_bar table_bar_nr table_offset pba_bar pba_bar_nr pba_offset cap_pos : Z)
    (s : Sys) : res (Z * Sys) :=
  if negb msi_supported then Ok (- ENOTSUP, s)
  else if (nentries <? 1) || (PCI_MSIX_FLAGS_QSIZE + 1 <? nentries) then Ok (- EINVAL, s)
  else
    if bad_layout nentries table_bar table_bar_nr table_offset pba_bar pba_bar_nr pba_offset then Ok (- EINVAL, s)
    else
      d ← get_dev a (bus s);
      '(cap, d) ← pci_add_capability fuel PCI_CAP_ID_MSIX cap_pos MSIX_CAP_LENGTH d;
      if cap <? 0 then Ok (cap, s)
      else
        let d := init_device nentries (Z.lor table_offset table_bar_nr) (Z.lor pba_offset pba_bar_nr) cap d in
        let x := mx_of a s in
        let x := mkMX cap ∅ ∅ ∅ nentries true (notifiers x) (poller x) in
        s ← msix_mask_all a nentries (put_mx a x (set_bus (put_dev a d (bus s)) s));
        Ok (0, s).

(** A region of its own, with the table in the lower and the pending array in the upper half.
    [None]: the emulator exits (from [pci_register_bar]). *)
Definition MSIX_EXCLUSIVE_BAR_SIZE : Z := 4096.
Definition MSIX_EXCLUSIVE_BAR_TABLE_OFFSET : Z := 0.
Definition MSIX_EXCLUSIVE_BAR_PBA_OFFSET : Z := MSIX_EXCLUSIVE_BAR_SIZE / 2.
Definition MSIX_EXCLUSIVE_CAP_OFFSET : Z := 0.
Definition msix_init_exclusive_bar (fuel : nat) (msi_supported : bool) (a nentries bar_nr : Z) (s : Sys) : res (option (Z * Sys)) :=
  if MSIX_EXCLUSIVE_BAR_PBA_OFFSET <? nentries * PCI_MSIX_ENTRY_SIZE then Ok (Some (- EINVAL, s))
  else
    '(ret, s) ← msix_init fuel msi_supported a nentries MSIX_EXCLUSIVE_BAR_SIZE bar_nr MSIX_EXCLUSIVE_BAR_TABLE_OFFSET
                  MSIX_EXCLUSIVE_BAR_SIZE bar_nr MSIX_EXCLUSIVE_BAR_PBA_OFFSET MSIX_EXCLUSIVE_CAP_OFFSET s;
    if negb (ret =? 0) then Ok (Some (ret, s))
    else
      d ← get_dev a (bus s);
      r ← pci_register_bar bar_nr 0 MSIX_EXCLUSIVE_BAR_SIZE d;
      Ok (match r with Some d => Some (0, set_bus (put_dev a d (bus s)) s) | None => None end).

Fixpoint for_vectors (f : Z → Msix → res Msix) (l : list Z) (x : Msix) : res Msix :=
  match l with [] => Ok x | vector :: l => x ← f vector x; for_vectors f l x end.
Definition msix_free_irq_entries (x : Msix) : res Msix :=
  for_vectors (λ v x, msix_clr_pending v (set_entry_used (aset (msix_entry_used x) v 0) x)) (seqZ 0 (msix_entries_nr x)) x.
Definition msix_clear_all_vectors (x : Msix) : res Msix := for_vectors msix_clr_pending (seqZ 0 (msix_entries_nr x)) x.

Definition msix_uninit (fuel : nat) (a : Z) (s : Sys) : res Sys :=
  d ← get_dev a (bus s);
  if negb (msix_present d) then Ok s
  else
    d ← pci_del_capability fuel PCI_CAP_ID_MSIX MSIX_CAP_LENGTH d;
    let x := mx_of a s in
    x ← msix_free_irq_entries (mkMX 0 (msix_table x) (msix_pba x) (msix_entry_used x) (msix_entries_nr x) (msix_function_masked x) (notifiers x) (poller x));
    let x := mkMX 0 ∅ ∅ ∅ 0 (msix_function_masked x) (notifiers x) (poller x) in
    let d := set_msi (clr (cap_present d) QEMU_PCI_CAP_MSIX) (msi_cap d) d in
    Ok (put_mx a x (set_bus (put_dev a d (bus s)) s)).

Definition msix_uninit_exclusive_bar (fuel : nat) (a : Z) (s : Sys) : res Sys :=
  d ← get_dev a (bus s);
  if msix_present d then msix_uninit fuel a s else Ok s.

Definition msix_reset (a : Z) (s : Sys) : res Sys :=
  d ← get_dev a (bus s);
  if negb (msix_present d) then Ok s
  else
    x ← msix_clear_all_vectors (mx_of a s);
    let o := msix_cap x + MSIX_CONTROL_OFFSET in
    let d := set_config (aset (config d) o (clr (aget (config d) o) (aget (wmask d) o))) d in
    let n := msix_entries_nr x in
    let x := set_table (awrite (msix_table x) 0 (replicate (Z.to_nat (table_size x)) 0)) x in
    let x := set_pba (awrite (msix_pba x) 0 (replicate (Z.to_nat (pba_size n)) 0)) x in
    msix_mask_all a n (put_mx a x (set_bus (put_dev a d (bus s)) s)).

(** ** Migration *)

(** What [qemu_get_buffer] leaves in the first [n] bytes of a buffer, and the rest of the stream. *)
Definition read_array (n : Z) (inp : list Z) (buf : arr) : arr * list Z :=
  (awrite buf 0 (take (Z.to_nat n) inp), drop (Z.to_nat n) inp).

Definition msix_save (d : PCIDevice) (x : Msix) : list Z :=
  if negb (msix_present d) then []
  else aread (msix_table x) 0 (Z.to_nat (table_size x)) ++ aread (msix_pba x) 0 (Z.to_nat ((msix_entries_nr x + 7) / 8)).

Fixpoint update_loop (l : list Z) (a : Z) (s : Sys) : res Sys :=
  match l with [] => Ok s | vector :: l => s ← msix_handle_mask_update a vector true s; update_loop l a s end.
Definition msix_load (a : Z) (inp : list Z) (s : Sys) : res (list Z * Sys) :=
  d ← get_dev a (bus s);
  if negb (msix_present d) then Ok (inp, s)
  else
    x ← msix_clear_all_vectors (mx_of a s);
    let '(t, inp) := read_array (table_size x) inp (msix_table x) in
    let '(p, inp) := read_array ((msix_entries_nr x + 7) / 8) inp (msix_pba x) in
    let x := msix_update_function_masked d (set_pba p (set_table t x)) in
    s ← update_loop (seqZ 0 (msix_entries_nr x)) a (put_mx a x s);
    Ok (inp, s).

(** ** Vectors the device uses *)

Definition msix_vector_use (vector : Z) (x : Msix) : Z * Msix :=
  if msix_entries_nr x <=? vector then (- EINVAL, x)
  else (0, set_entry_used (aset (msix_entry_used x) vector (u32 (aget (msix_entry_used x) vector + 1))) x).
Definition msix_vector_unuse (vector : Z) (x : Msix) : res Msix :=
  if (msix_entries_nr x <=? vector) || (aget (msix_entry_used x) vector =? 0) then Ok x
  else
    let n := u32 (aget (msix_entry_used x) vector - 1) in
    let x := set_entry_used (aset (msix_entry_used x) vector n) x in
    if negb (n =? 0) then Ok x else msix_clr_pending vector x.
Definition msix_unuse_all_vectors (d : PCIDevice) (x : Msix) : res Msix :=
  if negb (msix_present d) then Ok x else msix_free_irq_entries x.

(** ** Listeners *)

Definition msix_set_notifier_for_vector (a vector : Z) (s : Sys) : res (Z * Sys) :=
  m ← msix_is_masked (mx_of a s) vector;
  if m : bool then Ok (0, s)
  else msg ← msix_get_message (mx_of a s) vector; Ok (msix_vector_use_notifier a vector msg s).
Definition msix_unset_notifier_for_vector (a vector : Z) (s : Sys) : res Sys :=
  m ← msix_is_masked (mx_of a s) vector;
  Ok (if m : bool then s else msix_vector_release_notifier a vector s).

(** The enable bit is set and the mask of the function is not. *)
Definition may_fire (d : PCIDevice) (x : Msix) : bool :=
  Z.land (control d x) (Z.lor MSIX_ENABLE_MASK MSIX_MASKALL_MASK) =? MSIX_ENABLE_MASK.
Fixpoint unset_loop (l : list Z) (a : Z) (s : Sys) : res Sys :=
  match l with [] => Ok s | vector :: l => s ← msix_unset_notifier_for_vector a vector s; unset_loop l a s end.
(** The vectors from [vector] on; on an error the result and the vector that failed. *)
Fixpoint set_loop (n : nat) (vector a : Z) (s : Sys) : res (option (Z * Z) * Sys) :=
  match n with
  | O => Ok (None, s)
  | S n =>
      '(ret, s) ← msix_set_notifier_for_vector a vector s;
      if ret <? 0 then Ok (Some (ret, vector), s) else set_loop n (vector + 1) a s
  end.
Definition msix_set_vector_notifiers (a : Z) (poll_notifier : bool) (s : Sys) : res (Z * Sys) :=
  d ← get_dev a (bus s);
  let x := set_notifiers true poll_notifier (mx_of a s) in
  let s := put_mx a x s in
  '(err, s) ← (if may_fire d x then set_loop (Z.to_nat (msix_entries_nr x)) 0 a s else Ok (None, s));
  match err with
  | None => Ok (0, if poll_notifier then tell a (Poll 0 (msix_entries_nr x)) s else s)
  | Some (ret, vector) =>
      s ← unset_loop (rev (seqZ 0 vector)) a s;
      Ok (ret, put_mx a (set_notifiers false (poller (mx_of a s)) (mx_of a s)) s)
  end.
Definition msix_unset_vector_notifiers (a : Z) (s : Sys) : res Sys :=
  d ← get_dev a (bus s);
  let x := mx_of a s in
  if negb (notifiers x) then Fault AssertFail
  else
    s ← (if may_fire d x then unset_loop (seqZ 0 (msix_entries_nr x)) a s else Ok s);
    Ok (put_mx a (set_notifiers false false (mx_of a s)) s).

(** ** A machine with such devices *)

(** A configuration write and a reset: the bus and the hooks of Msi, then the hooks of this file. *)
Definition device_config_write (fuel : nat) (a addr val l : Z) (s : Sys) : res Sys :=
  b ← pci_default_write_config (msi_ops nomsix) fuel a addr val l (bus s);
  msix_write_config fuel a addr (Z.shiftr (u32 val) (8 * Z.max l 0)) l (set_bus b s).
Definition device_reset_msix (reset : Z → PciSys → res PciSys) (fuel : nat) (a : Z) (s : Sys) : res Sys :=
  b ← pci_device_reset (msi_ops nomsix) reset fuel a (bus s);
  msix_reset a (set_bus b s).

Inductive xop : Type :=
| XPin (o : pci_op)                    (* a pin of some device moves *)
| XWrite (a addr val l : Z)            (* the guest writes to a configuration space *)
| XTable (a addr val : Z)              (* the guest writes to a table *)
| XNotify (a v : Z)                    (* a device signals a vector *)
| XUse (a v : Z)
| XUnuse (a v : Z).
Definition xexec (fuel : nat) (o : xop) (s : Sys) : res Sys :=
  match o with
  | XPin o => b ← exec (msi_ops nomsix) fuel o (bus s); Ok (set_bus b s)
  | XWrite a addr val l => device_config_write fuel a addr val l s
  | XTable a addr val => msix_table_mmio_write a addr val s
  | XNotify a v => msix_notify a v s
  | XUse a v => Ok (put_mx a (msix_vector_use v (mx_of a s)).2 s)
  | XUnuse a v => x ← msix_vector_unuse v (mx_of a s); Ok (put_mx a x s)
  end.
Fixpoint xrun (fuel : nat) (l : list xop) (s : Sys) : res Sys :=
  match l with [] => Ok s | o :: l => s ← xexec fuel o s; xrun fuel l s end.

End Msix.

(** ** Pending bits and masks *)

Definition masked (x : Msix) (v : Z) : bool := msix_function_masked x || entry_masked x v.

Lemma has_vector_iff x v : has_vector x v = true ↔ 0 ≤ v < msix_entries_nr x.
Proof. unfold has_vector. rewrite andb_true_iff, Z.leb_le, Z.ltb_lt. done. Qed.
Lemma is_masked_spec x v : has_vector x v = true → msix_is_masked x v = Ok (masked x v).
Proof. intros Hv. unfold msix_is_masked, msix_vector_masked, masked. rewrite Hv. by destruct (msix_function_masked x). Qed.

Lemma pending_testbit x v : 0 ≤ v → pending x v = Z.testbit (aget (msix_pba x) (v / 8)) (v mod 8).
Proof.
  intros Hv. unfold pending, msix_pending_mask. pose proof (Z.mod_pos_bound v 8 ltac:(lia)) as Hm.
  assert (E : u8 (Z.shiftl 1 (v mod 8)) = Z.shiftl 1 (v mod 8)).
  { apply u8_small. rewrite Z.shiftl_1_l. split; [apply Z.pow_nonneg; lia|]. apply Z.pow_lt_mono_r; lia. }
  rewrite E. apply shift_bit. lia.
Qed.
Lemma pending_mask_testbit v k : 0 ≤ v → Z.testbit (msix_pending_mask v) k = (v mod 8 =? k).
Proof.
  intros Hv. unfold msix_pending_mask. pose proof (Z.mod_pos_bound v 8 ltac:(lia)) as Hm. unfold u8. rewrite Z.mod_small; [apply shiftl1_testbit; lia|].
  rewrite Z.shiftl_1_l. split; [apply Z.pow_nonneg; lia|]. apply Z.pow_lt_mono_r; lia.
Qed.
Lemma same_bit v w : 0 ≤ v → 0 ≤ w → v / 8 = w / 8 → (v mod 8 =? w mod 8) = (v =? w).
Proof. intros Hv Hw E. pose proof (Z.div_mod v 8). pose proof (Z.div_mod w 8). destruct (Z.eqb_spec (v mod 8) (w mod 8)), (Z.eqb_spec v w); try done; [lia|congruence]. Qed.

Definition with_pending (v : Z) (b : bool) (x : Msix) : Msix :=
  let o := v / 8 in
  set_pba (aset (msix_pba x) o (if b then Z.lor (aget (msix_pba x) o) (msix_pending_mask v) else clr (aget (msix_pba x) o) (msix_pending_mask v))) x.
Lemma pending_with v b x w : 0 ≤ v → 0 ≤ w → pending (with_pending v b x) w = if v =? w then b else pending x w.
Proof.
  intros Hv Hw. rewrite !pending_testbit by done. unfold with_pending. cbn [set_pba msix_pba]. pose proof (Z.mod_pos_bound w 8 ltac:(lia)).
  destruct (decide (v / 8 = w / 8)) as [E|E]; [rewrite E, aget_aset_eq|rewrite aget_aset_ne by done].
  - pose proof (same_bit v w Hv Hw E) as Hb. destruct b.
    + rewrite Z.lor_spec, pending_mask_testbit, Hb by done. destruct (v =? w); [apply orb_true_r|apply orb_false_r].
    + unfold clr. rewrite Z.land_spec, Z.lnot_spec, pending_mask_testbit, Hb by lia. destruct (v =? w); [apply andb_false_r|apply andb_true_r].
  - destruct (Z.eqb_spec v w) as [->|]; done.
Qed.
Lemma set_pending_spec v x : has_vector x v = true → msix_set_pending v x = Ok (with_pending v true x).
Proof. intros Hv. unfold msix_set_pending. by rewrite Hv. Qed.
Lemma clr_pending_spec v x : has_vector x v = true → msix_clr_pending v x = Ok (with_pending v false x).
Proof. intros Hv. unfold msix_clr_pending. by rewrite Hv. Qed.

Lemma mx_of_put a x s : mx_of a (put_mx a x s) = x.
Proof. unfold mx_of. cbn. by rewrite lookup_insert_eq. Qed.
Lemma mx_of_other a b x s : b ≠ a → mx_of b (put_mx a x s) = mx_of b s.
Proof. intros Hn. unfold mx_of. cbn. by rewrite lookup_insert_ne. Qed.

(** ** What a change of a mask does *)

Definition deliver (out : list (Z * Z)) (b : PciSys) : PciSys := mkSys (devs b) (buses b) (sent b ++ out).
Lemma deliver_nil b : deliver [] b = b.
Proof. unfold deliver. rewrite app_nil_r. by destruct b. Qed.
Lemma deliver_app o1 o2 b : deliver o2 (deliver o1 b) = deliver (o1 ++ o2) b.
Proof. unfold deliver. cbn. by rewrite app_assoc. Qed.

Definition used (x : Msix) (v : Z) : bool := negb (aget (msix_entry_used x) v =? 0).
(** A vector that is not masked any more: what waits for it. *)
Definition released (x : Msix) (v : Z) : list (Z * Z) := if pending x v && used x v then [message x v] else [].
Lemma notify_spec a v s :
  0 ≤ v → (msix_entries_nr (mx_of a s) ≤ v ∨ has_vector (mx_of a s) v = true) →
  msix_notify a v s = Ok (if (v <? msix_entries_nr (mx_of a s)) && used (mx_of a s) v
                          then if masked (mx_of a s) v then put_mx a (with_pending v true (mx_of a s)) s else set_bus (deliver [message (mx_of a s) v] (bus s)) s
                          else s).
Proof.
  intros Hv Hc. unfold msix_notify, used. destruct (Z.leb_spec (msix_entries_nr (mx_of a s)) v) as [Hn|Hn].
  { rewrite (proj2 (Z.ltb_ge v _)) by lia. done. }
  rewrite (proj2 (Z.ltb_lt v _)) by lia. cbn [orb andb]. destruct (_ =? 0); [done|]. cbn [negb].
  assert (Hh : has_vector (mx_of a s) v = true) by (apply has_vector_iff; lia). rewrite is_masked_spec by done. cbn [mbind res_bind].
  destruct (masked (mx_of a s) v); [by rewrite set_pending_spec|]. unfold msix_get_message. by rewrite Hh.
Qed.

(** ** What the listeners know *)

(** The vectors of device [a] that were used and not released since. *)
Definition listen1 (a : Z) (u : gset Z) (e : Z * event) : gset Z :=
  if e.1 =? a then match e.2 with Use v _ ret => if 0 <=? ret then {[v]} ∪ u else u | Release v => u ∖ {[v]} | Poll _ _ => u end else u.
Definition listens (a : Z) (ev : list (Z * event)) : gset Z := foldl (listen1 a) ∅ ev.

Lemma listens_tell a b e s : listens a (events (tell b e s)) = listen1 a (listens a (events s)) (b, e).
Proof. unfold listens, tell. cbn [events]. by rewrite foldl_app. Qed.
Lemma listens_other a b e s : a ≠ b → listens a (events (tell b e s)) = listens a (events s).
Proof. intros Hne. rewrite listens_tell. unfold listen1. cbn [fst]. by rewrite (proj2 (Z.eqb_neq b a)) by congruence. Qed.
Lemma listens_release a v s w : w ∈ listens a (events (tell a (Release v) s)) ↔ w ∈ listens a (events s) ∧ w ≠ v.
Proof. rewrite listens_tell. unfold listen1. cbn [fst snd]. rewrite Z.eqb_refl. set_solver. Qed.
Lemma listens_use a v m ret s w : w ∈ listens a (events (tell a (Use v m ret) s)) ↔ w ∈ listens a (events s) ∨ w = v ∧ 0 ≤ ret.
Proof. rewrite listens_tell. unfold listen1. cbn [fst snd]. rewrite Z.eqb_refl. destruct (Z.leb_spec 0 ret); set_solver by lia. Qed.

Section Registering.
Context (use_ret : list (Z * event) → Z → Z → Z * Z → Z).

(** *** Registering a listener *)

(** The listener of [a] was told something, nothing else happened. *)
Definition only_told (a : Z) (s s' : Sys) : Prop := bus s' = bus s ∧ mx s' = mx s ∧ ∀ b, b ≠ a → listens b (events s') = listens b (events s).
Lemma only_told_trans a s1 s2 s3 : only_told a s1 s2 → only_told a s2 s3 → only_told a s1 s3.
Proof. intros (A1 & B1 & C1) (A2 & B2 & C2). split; [congruence|]. split; [congruence|]. intros b Hb. by rewrite C2, C1. Qed.
Lemma only_told_tell a e s : only_told a s (tell a e s).
Proof. split; [done|]. split; [done|]. intros b Hb. by apply listens_other. Qed.
Lemma only_told_mx a s s' b : only_told a s s' → mx_of b s' = mx_of b s.
Proof. intros (_ & E & _). unfold mx_of. by rewrite E. Qed.

Definition used_upto (a v u : Z) (s s' : Sys) : Prop :=
  ∀ w, w ∈ listens a (events s') ↔ w ∈ listens a (events s) ∨ v ≤ w < u ∧ masked (mx_of a s) w = false.
(** The listener's function, called for a vector that may fire, returned [ret]. *)
Definition answered (a u ret : Z) (s : Sys) : Prop :=
  masked (mx_of a s) u = false ∧
  ∃ ev, events s `prefix_of` ev ∧ use_ret ev a u (message (mx_of a s) u) = ret.
Definition set_result (n : nat) (v a : Z) (s : Sys) (e : option (Z * Z)) (s' : Sys) : Prop :=
  match e with
  | None => used_upto a v (v + Z.of_nat n) s s'
  | Some (ret, u) => ret < 0 ∧ v ≤ u < v + Z.of_nat n ∧ used_upto a v u s s' ∧ answered a u ret s
  end.
Lemma set_loop_spec n v a s :
  (∀ w, v ≤ w < v + Z.of_nat n → has_vector (mx_of a s) w = true) →
  ∃ e s', set_loop use_ret n v a s = Ok (e, s') ∧ only_told a s s' ∧ set_result n v a s e s'.
Proof.
  revert v s. induction n as [|n IH]; intros v s Hn; cbn [set_loop].
  { exists None, s. split; [done|]. split; [done|]. intros w. split; [by left|]. intros [|[? _]]; [done|lia]. }
  pose proof (Hn v ltac:(lia)) as Hv. unfold msix_set_notifier_for_vector. rewrite is_masked_spec by done. cbn [mbind res_bind].
  assert (Hnext : ∀ s1, only_told a s s1 → events s `prefix_of` events s1 → (∀ w, w ∈ listens a (events s1) ↔ w ∈ listens a (events s) ∨ w = v ∧ masked (mx_of a s) v = false) →
    ∃ e s', set_loop use_ret n (v + 1) a s1 = Ok (e, s') ∧ only_told a s s' ∧ set_result (S n) v a s e s').
  { intros s1 Ht Hpre Hl. destruct (IH (v + 1) s1) as (e & s' & E & Ht' & He). { intros w Hw. rewrite (only_told_mx a s s1 a Ht). apply Hn. lia. }
    exists e, s'. split; [done|]. split; [by eapply only_told_trans|]. 
    assert (Hup : ∀ u, v + 1 ≤ u → used_upto a (v + 1) u s1 s' → used_upto a v u s s').
    { intros u Hu Hw w. rewrite (Hw w), Hl, (only_told_mx a s s1 a Ht). destruct (decide (w = v)) as [->|]; naive_solver lia. }
    destruct e as [[ret u]|]; cbn [set_result] in *; [destruct He as (H1 & H2 & H3 & H4 & ev & H5 & H6)|].
    { rewrite (only_told_mx a s s1 a Ht) in H4, H6. split; [done|]. split; [lia|]. split; [apply Hup; [lia|done]|].
      split; [done|]. exists ev. split; [by etransitivity|done]. }
    replace (v + Z.of_nat (S n)) with (v + 1 + Z.of_nat n) by lia. apply Hup; [lia|done]. }
  destruct (masked (mx_of a s) v) eqn:Hm; cbn [mbind res_bind].
  - change (0 <? 0) with false. apply Hnext; [done|done|]. intros w. naive_solver.
  - unfold msix_get_message. rewrite Hv. cbn [guard mbind res_bind msix_vector_use_notifier]. set (ret := use_ret (events s) a v (message (mx_of a s) v)). destruct (Z.ltb_spec ret 0) as [Hr|Hr].
    + eexists _, _. split; [reflexivity|]. split; [apply only_told_tell|]. split; [done|]. split; [lia|]. split; [intros w; rewrite listens_use; naive_solver lia|]. split; [done|]. by exists (events s).
    + apply Hnext; [apply only_told_tell|apply prefix_app_r; reflexivity|]. intros w. rewrite listens_use. naive_solver lia.
Qed.
Lemma unset_loop_spec l a s :
  (∀ w, w ∈ l → has_vector (mx_of a s) w = true) →
  ∃ s', unset_loop l a s = Ok s' ∧ only_told a s s' ∧ ∀ w, w ∈ listens a (events s') ↔ w ∈ listens a (events s) ∧ ¬ (w ∈ l ∧ masked (mx_of a s) w = false).
Proof.
  revert s. induction l as [|v l IH]; intros s Hl; cbn [unset_loop]. { exists s. split; [done|]. split; [done|]. intros w. rewrite elem_of_nil. tauto. }
  unfold msix_unset_notifier_for_vector. rewrite is_masked_spec by (apply Hl; by left). cbn [mbind res_bind]. set (s1 := if masked _ _ then _ else _).
  assert (Ht : only_told a s s1) by (unfold s1, msix_vector_release_notifier; case_match; [done|apply only_told_tell]).
  assert (Hw : ∀ w, w ∈ listens a (events s1) ↔ w ∈ listens a (events s) ∧ ¬ (w = v ∧ masked (mx_of a s) v = false)).
  { intros w. unfold s1, msix_vector_release_notifier. case_match; [naive_solver|]. rewrite listens_release. naive_solver. }
  destruct (IH s1) as (s' & E & Ht' & Hw'). { intros w Hin. rewrite (only_told_mx a s s1 a Ht). apply Hl. by right. }
  exists s'. split; [done|]. split; [by eapply only_told_trans|]. intros w. rewrite Hw', Hw, elem_of_cons, (only_told_mx a s s1 a Ht). naive_solver.
Qed.

Lemma elem_of_down w u : w ∈ rev (seqZ 0 u) ↔ 0 ≤ w < u.
Proof. rewrite list_elem_of_In, <-in_rev, <-list_elem_of_In, elem_of_seqZ. lia. Qed.

(** C35: Registering a listener, on a device whose listener has nothing in use and whose function mask
    agrees with its control word (as it does until a reset, [reset_leaves_unmasked]), is all or
    nothing: it then has in use exactly the vectors that may fire, or its function, called for some
    vector that may fire, returned the negative result that is passed on, the vectors before are
    released again and it is not registered.  No other device changes, and of this one only the
    listener.  (The function that polls is set all the same.) *)
Theorem msix_set_vector_notifiers_spec a poll s d :
  devs (bus s) !! a = Some d → listens a (events s) = ∅ → msix_function_masked (mx_of a s) = negb (may_fire d (mx_of a s)) →
  ∃ ret s', msix_set_vector_notifiers use_ret a poll s = Ok (ret, s') ∧ bus s' = bus s ∧ (∀ b, b ≠ a → mx_of b s' = mx_of b s ∧ listens b (events s') = listens b (events s)) ∧
    (∃ n, mx_of a s' = set_notifiers n poll (mx_of a s)) ∧
    (ret = 0 ∧ notifiers (mx_of a s') = true ∧ (∀ v, has_vector (mx_of a s') v = true → v ∈ listens a (events s') ↔ masked (mx_of a s') v = false) ∨
     ret < 0 ∧ (∃ v, has_vector (mx_of a s) v = true ∧ answered a v ret s) ∧ notifiers (mx_of a s') = false ∧ listens a (events s') = ∅).
Proof.
  intros Hd Hl Hf. unfold msix_set_vector_notifiers, get_dev. rewrite Hd. cbn [mbind res_bind]. set (x := mx_of a s) in *. set (x1 := set_notifiers true poll x). set (s1 := put_mx a x1 s).
  assert (Ex1 : mx_of a s1 = x1) by apply mx_of_put. change (may_fire d x1) with (may_fire d x). change (msix_entries_nr x1) with (msix_entries_nr x).
  assert (Hoth : ∀ b, b ≠ a → mx_of b s1 = mx_of b s) by (intros b Hb; by apply mx_of_other). assert (Hl1 : listens a (events s1) = ∅) by exact Hl.
  assert (Hend : ∀ s2, only_told a s1 s2 → (∀ v, has_vector x v = true → v ∈ listens a (events s2) ↔ masked x v = false) → ∃ ret s',
    (Ok (0, if poll then tell a (Poll 0 (msix_entries_nr x)) s2 else s2) : res (Z * Sys)) = Ok (ret, s') ∧ bus s' = bus s ∧ (∀ b, b ≠ a → mx_of b s' = mx_of b s ∧ listens b (events s') = listens b (events s)) ∧
    (∃ n, mx_of a s' = set_notifiers n poll x) ∧ (ret = 0 ∧ notifiers (mx_of a s') = true ∧ (∀ v, has_vector (mx_of a s') v = true → v ∈ listens a (events s') ↔ masked (mx_of a s') v = false) ∨
     ret < 0 ∧ (∃ v, has_vector x v = true ∧ answered a v ret s) ∧ notifiers (mx_of a s') = false ∧ listens a (events s') = ∅)).
  { intros s2 Ht Hw. set (s3 := if poll then _ else _). assert (Ht3 : only_told a s1 s3) by (unfold s3; case_match; [eapply only_told_trans; [done|apply only_told_tell]|done]).
    assert (El : listens a (events s3) = listens a (events s2)) by (unfold s3; case_match; [|done]; rewrite listens_tell; unfold listen1; cbn; by rewrite Z.eqb_refl).
    exists 0, s3. split; [done|]. split; [apply Ht3|]. split; [intros b Hb; split; [by rewrite (only_told_mx a s1 s3 b Ht3), Hoth|by apply Ht3]|]. rewrite (only_told_mx a s1 s3 a Ht3), Ex1.
    split; [by exists true|]. left. split; [done|]. split; [done|]. intros v Hv. rewrite El. by apply Hw. }
  destruct (may_fire d x) eqn:Hmf.
  2: { cbn [mbind res_bind]. apply Hend; [done|]. intros v _. rewrite Hl1. unfold masked. rewrite Hf. cbn. set_solver. }
  destruct (set_loop_spec (Z.to_nat (msix_entries_nr x)) 0 a s1) as (e & s2 & E & Ht & He).
  { intros w Hw. rewrite Ex1. apply has_vector_iff. cbn. lia. }
  rewrite E. cbn [mbind res_bind]. unfold set_result, used_upto in He. rewrite Ex1, Hl1 in He. destruct e as [[ret u]|].
  - destruct He as (Hr & Hu & Hup & Han). destruct (unset_loop_spec (rev (seqZ 0 u)) a s2) as (s3 & E3 & Ht3 & Hw3).
    { intros w Hw. apply elem_of_down in Hw. rewrite (only_told_mx a s1 s2 a Ht), Ex1. apply has_vector_iff. cbn. lia. }
    rewrite E3. cbn [mbind res_bind]. pose proof (only_told_trans a _ _ _ Ht Ht3) as Ht'. eexists _, _. split; [reflexivity|]. split; [apply Ht'|].
    split; [intros b Hb; rewrite mx_of_other by done; split; [by rewrite (only_told_mx a s1 s3 b Ht'), Hoth|by apply Ht']|]. rewrite mx_of_put, (only_told_mx a s1 s3 a Ht'), Ex1. split; [by exists false|]. right.
    split; [done|]. split; [exists u; split; [apply has_vector_iff; lia|]; unfold answered in Han |- *; rewrite Ex1 in Han; exact Han|].
    split; [done|]. apply set_eq. intros w. change (events (put_mx a _ s3)) with (events s3). rewrite Hw3, Hup, (only_told_mx a s1 s2 a Ht), Ex1, elem_of_down. set_solver by lia.
  - apply Hend; [done|]. intros v Hv%has_vector_iff. rewrite He. change (masked x1 v) with (masked x v). set_solver by lia.
Qed.

End Registering.

Section Proofs.
Context (use_ret : list (Z * event) → Z → Z → Z * Z → Z) (Hret : ∀ ev a v m, 0 ≤ use_ret ev a v m) (fuel : nat).

Definition told (a v : Z) (s : Sys) : Sys :=
  let x := mx_of a s in
  if notifiers x then tell a (if masked x v then Release v else Use v (message x v) (use_ret (events s) a v (message x v))) s else s.
Definition mask_updated (a v : Z) (was : bool) (s : Sys) : Sys :=
  let x := mx_of a s in
  if Bool.eqb (masked x v) was then s
  else if masked x v then told a v s
  else if pending x v then set_bus (deliver (released x v) (bus s)) (put_mx a (with_pending v false x) (told a v s))
  else told a v s.

Lemma handle_spec a v was s : has_vector (mx_of a s) v = true → msix_handle_mask_update use_ret a v was s = Ok (mask_updated a v was s).
Proof.
  intros Hv. unfold msix_handle_mask_update, mask_updated. rewrite is_masked_spec by done. cbn [mbind res_bind]. destruct (Bool.eqb _ was); [done|].
  assert (Ef : msix_fire_vector_notifier use_ret a v (masked (mx_of a s) v) s = Ok (told a v s)).
  { unfold msix_fire_vector_notifier, told. destruct (notifiers (mx_of a s)); [|done]. cbn [negb]. destruct (masked (mx_of a s) v); [done|].
    unfold msix_get_message. rewrite Hv. cbn [guard mbind res_bind msix_vector_use_notifier]. rewrite (proj2 (Z.leb_le 0 _)) by apply Hret. done. }
  rewrite Ef. cbn [mbind res_bind]. destruct (masked (mx_of a s) v) eqn:Hm; [done|].
  assert (Ex : mx_of a (told a v s) = mx_of a s) by (unfold told; by destruct (notifiers (mx_of a s))). rewrite Ex.
  assert (Eb : bus (told a v s) = bus s) by (unfold told; by destruct (notifiers (mx_of a s))).
  unfold msix_is_pending. rewrite Hv. cbn [guard mbind res_bind]. destruct (pending (mx_of a s) v) eqn:Hp; [|done].
  rewrite clr_pending_spec by done. cbn [mbind res_bind]. rewrite notify_spec; [|apply has_vector_iff in Hv; lia|right; by rewrite mx_of_put].
  rewrite mx_of_put. change (masked (with_pending v false (mx_of a s)) v) with (masked (mx_of a s) v). change (used (with_pending v false (mx_of a s)) v) with (used (mx_of a s) v).
  change (message (with_pending v false (mx_of a s)) v) with (message (mx_of a s) v). cbn [with_pending set_pba msix_entries_nr]. rewrite Hm.
  apply has_vector_iff in Hv. rewrite (proj2 (Z.ltb_lt v _)) by lia. cbn [andb]. unfold released. rewrite Hp. cbn [andb put_mx bus]. rewrite Eb. destruct (used (mx_of a s) v); [done|].
  rewrite deliver_nil. f_equal. unfold set_bus, put_mx. cbn. by rewrite Eb.
Qed.

(** What handling vectors of device [a] touches: its pending bits, and messages [out] are sent. *)
Record touched (a : Z) (s s' : Sys) (out : list (Z * Z)) : Prop := {
  tc_bus : bus s' = deliver out (bus s);
  tc_other : ∀ b, b ≠ a → mx_of b s' = mx_of b s;
  tc_same : ∃ p, mx_of a s' = set_pba p (mx_of a s);
}.
Lemma touched_refl a s : touched a s s [].
Proof. split; [by rewrite deliver_nil|done|]. exists (msix_pba (mx_of a s)). by destruct (mx_of a s). Qed.
Lemma touched_trans a s1 s2 s3 o1 o2 : touched a s1 s2 o1 → touched a s2 s3 o2 → touched a s1 s3 (o1 ++ o2).
Proof.
  intros [B1 O1 [p1 S1]] [B2 O2 [p2 S2]]. split; [by rewrite B2, B1, deliver_app|intros b Hb; by rewrite O2, O1|]. exists p2. by rewrite S2, S1.
Qed.

(** The pending bit of the vector goes exactly when the vector may fire now and could not before. *)
Lemma mask_updated_touched a v was s :
  0 ≤ v → let x := mx_of a s in
  touched a s (mask_updated a v was s) (if was && negb (masked x v) then released x v else []) ∧
  ∀ w, 0 ≤ w → pending (mx_of a (mask_updated a v was s)) w = pending x w && negb ((v =? w) && was && negb (masked x w)).
Proof.
  intros Hv x. unfold mask_updated. fold x.
  assert (Ht : touched a s (told a v s) [] ∧ mx_of a (told a v s) = x).
  { unfold told. fold x. destruct (notifiers x); [|split; [apply touched_refl|done]]. split; [|done]. destruct (touched_refl a s) as [B O S]. by split. }
  destruct Ht as [Ht Ex]. destruct (masked x v) eqn:Hm, was; cbn [Bool.eqb andb negb].
  - split; [apply touched_refl|]. intros w Hw. destruct (Z.eqb_spec v w) as [<-|]; [rewrite Hm|]; by rewrite andb_true_r.
  - split; [done|]. intros w Hw. rewrite Ex, andb_false_r. by rewrite andb_true_r.
  - destruct (pending x v) eqn:Hp.
    + destruct Ht as [B O S]. split.
      * split; [done|intros b Hb; change (mx_of b (put_mx a (with_pending v false x) (told a v s)) = mx_of b s); rewrite mx_of_other by done; by apply O|].
        exists (msix_pba (with_pending v false x)). exact (mx_of_put a _ (told a v s)).
      * intros w Hw. change (pending (mx_of a (put_mx a (with_pending v false x) (told a v s))) w = pending x w && negb ((v =? w) && true && negb (masked x w))).
        rewrite mx_of_put, pending_with, andb_true_r by done.
        destruct (Z.eqb_spec v w) as [<-|]; [by rewrite Hm, andb_false_r|by rewrite andb_true_r].
    + split; [unfold released; by rewrite Hp|]. intros w Hw. rewrite Ex. destruct (Z.eqb_spec v w) as [<-|]; [by rewrite Hp|by rewrite andb_true_r].
  - split; [apply touched_refl|]. intros w Hw. rewrite andb_false_r. by rewrite andb_true_r.
Qed.

Lemma bool_decide_cons_ne (v w : Z) l : v ≠ w → bool_decide (w ∈ v :: l) = bool_decide (w ∈ l).
Proof. intros Hne. apply bool_decide_ext. rewrite elem_of_cons. split; [by intros [->|]|by right]. Qed.

(** The vectors of [l] in order: the ones that may fire now and could not before. *)
Definition freed (x : Msix) (was : bool) (l : list Z) : list (Z * Z) := flat_map (λ v, if was && negb (masked x v) then released x v else []) l.

Lemma freed_ext x p was l : (∀ v, v ∈ l → pending (set_pba p x) v = pending x v) → freed (set_pba p x) was l = freed x was l.
Proof.
  intros Hl. unfold freed. induction l as [|v l IH]; [done|]. cbn [flat_map]. rewrite IH by (intros w Hw; apply Hl; by right). f_equal.
  change (masked (set_pba p x) v) with (masked x v). case_match; [|done]. unfold released. change (used (set_pba p x) v) with (used x v). by rewrite (Hl v ltac:(by left)).
Qed.
Lemma freed_in x l v : pending x v = true → used x v = true → masked x v = false → v ∈ l → message x v ∈ freed x true l.
Proof.
  intros Hp Hu Hm Hv. unfold freed. apply list_elem_of_In, in_flat_map. exists v. split; [by apply list_elem_of_In|]. rewrite Hm. cbn [negb andb]. unfold released. rewrite Hp, Hu. by left.
Qed.

(** Vectors handled one after the other, [was] given for each by [f] from the state then. *)
Lemma loop_step a v was l s p :
  mx_of a (mask_updated a v was s) = set_pba p (mx_of a s) → 0 ≤ v → v ∉ l → (∀ w, w ∈ l → 0 ≤ w) →
  (∀ w, 0 ≤ w → pending (mx_of a (mask_updated a v was s)) w = pending (mx_of a s) w && negb ((v =? w) && was && negb (masked (mx_of a s) w))) →
  ∀ b, freed (mx_of a (mask_updated a v was s)) b l = freed (mx_of a s) b l.
Proof.
  intros Es Hv Hn Hl Hp b. rewrite Es in *. apply freed_ext. intros w Hw. rewrite Hp by auto. destruct (Z.eqb_spec v w) as [<-|]; [done|]. apply andb_true_r.
Qed.

Lemma function_mask_loop_spec l a was s :
  NoDup l → (∀ v, v ∈ l → has_vector (mx_of a s) v = true) → msix_function_masked (mx_of a s) = negb was →
  ∃ s', function_mask_loop use_ret l a was s = Ok s' ∧ touched a s s' (freed (mx_of a s) was l) ∧
    ∀ w, 0 ≤ w → pending (mx_of a s') w = pending (mx_of a s) w && negb (bool_decide (w ∈ l) && was && negb (masked (mx_of a s) w)).
Proof.
  revert s. induction l as [|v l IH]; intros s Hn Hl Hf; cbn [function_mask_loop].
  { exists s. split; [done|]. split; [apply touched_refl|]. intros w _. rewrite bool_decide_eq_false_2 by apply not_elem_of_nil. by rewrite andb_true_r. }
  apply NoDup_cons in Hn as [Hv Hn]. pose proof (Hl v ltac:(by left)) as Hhv. pose proof (proj1 (has_vector_iff _ _) Hhv) as Hv0.
  set (x := mx_of a s) in *. set (wm := was || entry_masked x v).
  assert (Ew : msix_vector_masked x v was = Ok wm) by (unfold msix_vector_masked, wm; destruct was; [done|]; by rewrite Hhv). rewrite Ew. cbn [mbind res_bind].
  rewrite handle_spec by done. cbn [mbind res_bind]. destruct (mask_updated_touched a v wm s ltac:(lia)) as [Ht Hp]. fold x in Ht, Hp.
  assert (Hwm : ∀ w, wm && negb (masked x w) = was && negb (masked x w)).
  { intros w. unfold wm, masked. rewrite Hf. destruct was; [done|]. cbn. by rewrite andb_false_r. }
  set (s1 := mask_updated a v wm s) in *. destruct (tc_same _ _ _ _ Ht) as [p Ep]. fold x in Ep.
  destruct (IH s1 Hn) as (s' & E & Ht' & Hp').
  { intros w Hw. rewrite Ep. apply (Hl w). by right. } { by rewrite Ep. }
  exists s'. split; [done|]. rewrite Hwm in Ht. assert (Ef : freed (mx_of a s1) was l = freed x was l).
  { apply (loop_step a v wm l s p); [done|lia|done| |done]. intros w Hw. pose proof (proj1 (has_vector_iff _ _) (Hl w ltac:(by right))). lia. }
  split; [rewrite Ef in Ht'; exact (touched_trans _ _ _ _ _ _ Ht Ht')|]. intros w Hw. rewrite Hp', Hp by done. rewrite Ep. change (masked (set_pba p x) w) with (masked x w).
  rewrite <-(andb_assoc (v =? w) wm), Hwm.
  destruct (Z.eqb_spec v w) as [<-|Hne].
  - rewrite (bool_decide_eq_false_2 (v ∈ l)), (bool_decide_eq_true_2 (v ∈ v :: l)) by (done || by left). cbn [andb negb]. by rewrite andb_true_r.
  - rewrite bool_decide_cons_ne by done. cbn [andb negb]. by rewrite andb_true_r.
Qed.

(** ** The invariant, and what every operation keeps *)

(** A vector waits only while it is masked. *)
Record msix_inv (x : Msix) : Prop := {
  xi_nr : 0 ≤ msix_entries_nr x ≤ PCI_MSIX_FLAGS_QSIZE + 1;
  xi_waits : ∀ v, has_vector x v = true → pending x v = true → masked x v = true;
}.
Abbreviation xops := (msi_ops nomsix).
Definition mok (s : Sys) : Prop := sys_ok xops fuel (bus s) ∧ ∀ a, msix_inv (mx_of a s).

Lemma sys_ok_deliver out b : sys_ok xops fuel b → sys_ok xops fuel (deliver out b).
Proof. intros [Hk Hd]. split; [apply (counts_sent fuel b), Hk|done]. Qed.

(** [out] was sent; vector [v] of device [a], if it waited and the device uses it, still waits or
    was sent, with the message its entry has now. *)
Definition kept (a v : Z) (s s' : Sys) (out : list (Z * Z)) : Prop :=
  has_vector (mx_of a s) v = true → used (mx_of a s) v = true →
  used (mx_of a s') v = true ∧ (pending (mx_of a s) v = true → pending (mx_of a s') v = true ∨ message (mx_of a s') v ∈ out).
Record stepped (s s' : Sys) (out : list (Z * Z)) : Prop := {
  sp_sent : sent (bus s') = sent (bus s) ++ out;
  sp_devs : ∀ a, is_Some (devs (bus s) !! a) → is_Some (devs (bus s') !! a);
  sp_nr : ∀ a, msix_entries_nr (mx_of a s') = msix_entries_nr (mx_of a s);
}.

Lemma topology_devs b b' a : same_topology b b' → is_Some (devs b !! a) → is_Some (devs b' !! a).
Proof. intros [Ht _] [d Hd]. specialize (Ht a). rewrite Hd in Ht. by destruct (devs b' !! a). Qed.

(** The bus alone. *)
Lemma bus_exec o b :
  sys_ok xops fuel b → op_ok o → is_Some (devs b !! op_dev o) →
  ∃ b' out, exec xops fuel o b = Ok b' ∧ sys_ok xops fuel b' ∧ same_topology b b' ∧ sent b' = sent b ++ out.
Proof.
  intros Hs Ho Hd. destruct (exec_ok xops _ fuel b o Hs Ho Hd) as (b' & E & Hs' & Ht). exists b'.
  assert (∃ out, sent b' = sent b ++ out) as [out Hout]; [|by exists out]. destruct Hd as [d Ha]. destruct (so_devs _ _ _ Hs _ _ Ha) as (Hd & _).
  destruct o as [a p level|a level|a|a addr val l]; cbn [op_dev exec] in *.
  - exists []. rewrite app_nil_r. by eapply irq_handler_sent.
  - exists []. rewrite app_nil_r. unfold pci_set_irq, get_dev in E. rewrite Ha in E. cbn [mbind res_bind] in E. unfold pci_intx in E. case_match; [done|]. by eapply irq_handler_sent.
  - exists []. rewrite app_nil_r. destruct (deassert_spec pins fuel b a d (so_counts _ _ _ Hs) Ha Hd ltac:(done)) as (b1 & d1 & E1 & _ & _ & _ & _ & _ & Hse & _).
    unfold pci_device_deassert_intx in E. rewrite E in E1. by injection E1 as <-.
  - destruct (write_cases nomsix fuel b a d addr val l Hs Ha Ho) as (d1 & b1 & d2 & out & E1 & _ & Hse & _). rewrite E in E1. injection E1 as <-. by exists out.
Qed.

(** Device [a] after its vectors were looked at: [x'] has the table and the counters of [x]. *)
Lemma kept_same a v s s' out b p :
  mx_of a s' = set_pba p (set_function_masked b (mx_of a s)) →
  (pending (mx_of a s) v = true → used (mx_of a s) v = true → pending (mx_of a s') v = true ∨ message (mx_of a s) v ∈ out) → kept a v s s' out.
Proof.
  intros E Hp _ Hu. rewrite E in *. change (used (set_pba p (set_function_masked b (mx_of a s))) v) with (used (mx_of a s) v).
  change (message (set_pba p (set_function_masked b (mx_of a s))) v) with (message (mx_of a s) v). split; [done|auto].
Qed.
Lemma kept_other a v s s' out : mx_of a s' = mx_of a s → kept a v s s' out.
Proof. intros E _ Hu. rewrite E. split; [done|by left]. Qed.

(** The hook after a configuration write: nothing to do, the function is disabled and so masked, or it
    is enabled and the pins go down, and its mask is as it was or has changed. *)
Lemma write_config_cases a addr val len s d :
  mok s → devs (bus s) !! a = Some d → let x := mx_of a s in
  ∃ s', msix_write_config use_ret fuel a addr val len s = Ok s' ∧
    (s' = s ∨ msix_enabled d x = false ∧ s' = put_mx a (set_function_masked true x) s ∨
     ∃ b, sys_ok xops fuel b ∧ same_topology (bus s) b ∧ (∃ o, sent b = sent (bus s) ++ o) ∧
       ((∀ c, mx_of c s' = mx_of c s) ∧ events s' = events s ∧ bus s' = b ∨
        let was := msix_function_masked x in let l := seqZ 0 (msix_entries_nr x) in
        let s1 := set_bus b (put_mx a (set_function_masked (negb was) x) s) in
        function_mask_loop use_ret l a was s1 = Ok s' ∧ NoDup l ∧ (∀ v, v ∈ l ↔ has_vector x v = true) ∧ mx_of a s1 = set_function_masked (negb was) x)).
Proof.
  intros [Hs Hi] Hd x. unfold msix_write_config, get_dev. rewrite Hd. cbn [mbind res_bind]. fold x. destruct (_ || _); [exists s; by split; [|left]|].
  set (f := negb (msix_enabled d x) || tst (control d x) MSIX_MASKALL_MASK). change (msix_update_function_masked d x) with (set_function_masked f x).
  change (msix_enabled d (set_function_masked f x)) with (msix_enabled d x). cbn [set_function_masked msix_function_masked msix_entries_nr].
  destruct (msix_enabled d x) eqn:Hen; cbn [negb]; [|eexists; split; [reflexivity|]; right; left; by split].
  destruct (bus_exec (OpDeassert a) (bus s) Hs I ltac:(by eexists)) as (b & o & E & Hs1 & Ht1 & Hse1). cbn [exec] in E. change (bus (put_mx a _ s)) with (bus s). rewrite E. cbn [mbind res_bind].
  destruct (Bool.eqb f (msix_function_masked x)) eqn:Ef.
  - apply Bool.eqb_prop in Ef. eexists. split; [reflexivity|]. right. right. exists b. do 2 (split; [done|]). split; [by exists o|]. left. split; [|done]. intros c.
    change (mx_of c (set_bus b ?s1)) with (mx_of c s1). destruct (decide (c = a)) as [->|Hc]; [|by apply mx_of_other]. etrans; [apply mx_of_put|]. rewrite Ef. fold x. by destruct x.
  - assert (Hf : f = negb (msix_function_masked x)) by (destruct f, (msix_function_masked x); done). rewrite Hf. set (s1 := set_bus b _). assert (Ex1 : mx_of a s1 = set_function_masked (negb (msix_function_masked x)) x) by apply mx_of_put.
    assert (Hl : ∀ v, v ∈ seqZ 0 (msix_entries_nr x) ↔ has_vector x v = true) by (intros v; rewrite elem_of_seqZ, has_vector_iff; lia).
    destruct (function_mask_loop_spec (seqZ 0 (msix_entries_nr x)) a (msix_function_masked x) s1) as (s' & E' & _); [apply NoDup_seqZ|intros v Hv; rewrite Ex1; by apply Hl|by rewrite Ex1|].
    exists s'. split; [done|]. right. right. exists b. do 2 (split; [done|]). split; [by exists o|]. right. split_and!; [done|apply NoDup_seqZ|done|done].
Qed.

(** The function is masked, or not any more: what waited is looked at. *)
Lemma function_mask_step a s b was :
  (∀ c, msix_inv (mx_of c s)) → let x := mx_of a s in was = msix_function_masked x → sys_ok xops fuel b → same_topology (bus s) b →
  ∀ o s' l, sent b = sent (bus s) ++ o → let s1 := set_bus b (put_mx a (set_function_masked (negb was) x) s) in
  function_mask_loop use_ret l a was s1 = Ok s' → NoDup l → (∀ v, v ∈ l ↔ has_vector x v = true) → mx_of a s1 = set_function_masked (negb was) x →
  ∃ out, mok s' ∧ stepped s s' out ∧ ∀ c v, kept c v s s' out.
Proof.
  intros Hi x Hwas Hs1 Ht1 o s' l Hse1 s1 E Hnd Hl Ex1. set (f := negb was) in *. destruct (Hi a) as [Hnr Hw]. fold x in Hnr, Hw.
  assert (Hoth : ∀ c, c ≠ a → mx_of c s1 = mx_of c s) by (intros c Hc; change (mx_of c s1) with (mx_of c (put_mx a (set_function_masked f x) s)); by apply mx_of_other).
  destruct (function_mask_loop_spec l a was s1 Hnd) as (s0 & E0 & Ht & Hp); [intros v Hv; rewrite Ex1; by apply Hl|by rewrite Ex1|]. rewrite E in E0. injection E0 as <-.
  destruct Ht as [Hb Ho [p Es]]. rewrite Ex1 in Es, Hp, Hb. exists (o ++ freed (set_function_masked f x) was l).
  assert (Hpe : ∀ v, has_vector x v = true → pending (mx_of a s') v = pending x v && negb (was && negb (masked (set_function_masked f x) v))).
  { intros v Hv. pose proof (proj1 (has_vector_iff _ _) Hv). rewrite Hp by lia. rewrite bool_decide_eq_true_2 by (by apply Hl). done. }
  split; [|split; [split|]].
  - split; [rewrite Hb; by apply sys_ok_deliver|]. intros c. destruct (decide (c = a)) as [->|Hc]; [|rewrite Ho, Hoth by done; apply Hi]. rewrite Es. split; [done|]. intros v Hv Hpv. rewrite <-Es, Hpe in Hpv by done.
    change (masked (set_function_masked f x) v = true). unfold f, masked in *. cbn [set_function_masked msix_function_masked] in *. destruct was; [|done]. destruct (entry_masked _ v); [done|]. by rewrite andb_false_r in Hpv.
  - rewrite Hb. cbn [deliver sent]. change (sent (bus s1)) with (sent b). by rewrite Hse1, <-app_assoc.
  - intros c Hc. rewrite Hb. by eapply topology_devs.
  - intros c. destruct (decide (c = a)) as [->|Hc]; [by rewrite Es|by rewrite Ho, Hoth].
  - intros c v. destruct (decide (c = a)) as [->|Hc]; [|apply kept_other; by rewrite Ho, Hoth]. intros Hv. apply (kept_same a v s s' _ f p); [done| |done]. fold x. intros Hpv Hu.
    rewrite Hpe by done. rewrite Hpv. destruct was eqn:Ew; [|by left]. destruct (masked (set_function_masked f x) v) eqn:Hm; [by left|]. right. apply elem_of_app. right.
    change (message x v) with (message (set_function_masked f x) v). apply freed_in; [done|done|done|by apply Hl].
Qed.

Lemma msix_write_config_ok a addr val len s :
  mok s → is_Some (devs (bus s) !! a) →
  ∃ s' out, msix_write_config use_ret fuel a addr val len s = Ok s' ∧ mok s' ∧ stepped s s' out ∧ ∀ b v, kept b v s s' out.
Proof.
  intros Hs [d Hd]. destruct (write_config_cases a addr val len s d Hs Hd) as (s' & E & Hc). exists s'. destruct Hs as [Hs Hi]. pose proof (Hi a) as [Hnr Hw]. set (x := mx_of a s) in *.
  destruct Hc as [->|[[_ ->]|(b & Hs1 & Ht1 & (o & Hse1) & [(Hall & _ & Hb)|(El & Hnd & Hl & Ex1)])]].
  - exists []. split; [done|]. split; [done|]. split; [split; [by rewrite app_nil_r|done|done]|]. intros b v. by apply kept_other.
  - exists []. split; [done|]. assert (Ex1 : mx_of a (put_mx a (set_function_masked true x) s) = set_function_masked true x) by apply mx_of_put. split; [split; [done|]|split; [split; [by rewrite app_nil_r|done|]|]].
    + intros b. destruct (decide (b = a)) as [->|Hb]; [|rewrite mx_of_other by done; apply Hi]. rewrite Ex1. by split.
    + intros b. destruct (decide (b = a)) as [->|Hb]; [by rewrite Ex1|by rewrite mx_of_other].
    + intros b v. destruct (decide (b = a)) as [->|Hb]; [|apply kept_other; by rewrite mx_of_other]. apply (kept_same a v _ _ [] true (msix_pba x)); [rewrite Ex1; reflexivity|]. intros Hp _. left. by rewrite Ex1.
  - exists o. split; [done|]. split; [split; [by rewrite Hb|intros c; rewrite Hall; apply Hi]|]. split; [split; [by rewrite Hb|intros c; rewrite Hb; by apply topology_devs|intros c; by rewrite Hall]|]. intros c v. by apply kept_other.
  - destruct (function_mask_step a s b _ Hi eq_refl Hs1 Ht1 o s' _ Hse1 El Hnd Hl Ex1) as (out & ? & ? & ?). by exists out.
Qed.

(** The guest writes four bytes of the table. *)
Lemma entry_byte addr v : 0 ≤ addr → addr mod 4 = 0 → addr / PCI_MSIX_ENTRY_SIZE ≠ v →
  ¬ addr ≤ entry v + PCI_MSIX_ENTRY_VECTOR_CTRL < addr + 4.
Proof.
  unfold entry, PCI_MSIX_ENTRY_SIZE, PCI_MSIX_ENTRY_VECTOR_CTRL. intros H0 H4 Hne Hr. apply Hne. symmetry. apply (Z.div_unique _ _ _ (addr - v * 16)); [|lia].
  left. pose proof (Z.div_mod addr 4). lia.
Qed.
Definition table_written (a addr val : Z) (s : Sys) : Msix := set_table (pci_set_long (msix_table (mx_of a s)) addr val) (mx_of a s).
Lemma table_write_eq a addr val s :
  0 ≤ addr → addr mod 4 = 0 → addr + 4 ≤ table_size (mx_of a s) → let x := mx_of a s in let v := addr / PCI_MSIX_ENTRY_SIZE in let x' := table_written a addr val s in
  has_vector x v = true ∧ msix_table_mmio_write use_ret a addr val s = Ok (mask_updated a v (masked x v) (put_mx a x' s)) ∧ ∀ w, w ≠ v → masked x' w = masked x w.
Proof.
  intros H0 H4 Hsz x v x'. fold x in Hsz. unfold table_size, PCI_MSIX_ENTRY_SIZE in Hsz.
  assert (Hv : has_vector x v = true).
  { apply has_vector_iff. split; [apply Z.div_pos; unfold PCI_MSIX_ENTRY_SIZE; lia|]. apply Z.div_lt_upper_bound; unfold PCI_MSIX_ENTRY_SIZE; lia. }
  split; [done|]. split.
  - unfold msix_table_mmio_write. fold x v. rewrite is_masked_spec by done. cbn [mbind res_bind].
    rewrite (proj2 (Z.leb_le 0 addr)), (proj2 (Z.leb_le (addr + 4) _)) by (unfold table_size, PCI_MSIX_ENTRY_SIZE; lia). cbn [andb guard mbind res_bind].
    by rewrite handle_spec by (by rewrite mx_of_put).
  - intros w Hne. unfold masked, entry_masked, x', table_written. fold x. cbn [set_table msix_table msix_function_masked]. rewrite set_long_out; [done|].
    pose proof (entry_byte addr w H0 H4 (λ e, Hne (eq_sym e))). lia.
Qed.
Lemma table_write_ok a addr val s :
  mok s → 0 ≤ addr → addr mod 4 = 0 → addr + 4 ≤ table_size (mx_of a s) →
  ∃ s' out, msix_table_mmio_write use_ret a addr val s = Ok s' ∧ mok s' ∧ stepped s s' out ∧ ∀ b v, kept b v s s' out.
Proof.
  intros [Hs Hi] H0 H4 Hsz. destruct (table_write_eq a addr val s H0 H4 Hsz) as (Hv & E & Hm). rewrite E. set (x := mx_of a s) in *. set (v0 := addr / PCI_MSIX_ENTRY_SIZE) in *. pose proof (Hi a) as [Hnr Hw]. fold x in Hnr, Hw.
  set (x1 := table_written a addr val s) in *. set (s1 := put_mx a x1 s). assert (Ex1 : mx_of a s1 = x1) by apply mx_of_put.
  destruct (mask_updated_touched a v0 (masked x v0) s1) as [Ht Hp]; [apply has_vector_iff in Hv; lia|]. rewrite Ex1 in Ht, Hp.
  set (s' := mask_updated a v0 (masked x v0) s1) in *. destruct Ht as [Hb Ho [p Es]]. rewrite Ex1 in Es.
  assert (Hot : ∀ b, b ≠ a → mx_of b s' = mx_of b s) by (intros b Hba; rewrite Ho by done; by apply mx_of_other).
  eexists _, _. split; [reflexivity|]. split; [|split; [split|]].
  - split; [rewrite Hb; by apply sys_ok_deliver|]. intros b. destruct (decide (b = a)) as [->|Hba]; [|rewrite Hot by done; apply Hi]. rewrite Es. split; [done|].
    intros w Hhw Hpw. rewrite <-Es, Hp in Hpw by (apply has_vector_iff in Hhw; lia). apply andb_true_iff in Hpw as [Hpw Hng]. change (pending x w = true) in Hpw.
    change (masked x1 w = true). destruct (decide (w = v0)) as [->|Hne]; [|rewrite Hm by done; by apply Hw]. rewrite Z.eqb_refl, (Hw v0 Hhw Hpw) in Hng. by destruct (masked x1 v0).
  - rewrite Hb. reflexivity.
  - intros c Hc. by rewrite Hb.
  - intros b. destruct (decide (b = a)) as [->|Hba]; [by rewrite Es|by rewrite Hot].
  - intros b v. destruct (decide (b = a)) as [->|Hba]; [|by apply kept_other, Hot]. intros Hhv Hu. fold x in Hu, Hhv. rewrite Es. split; [done|]. fold x. intros Hpv.
    rewrite <-Es at 1. rewrite Hp by (apply has_vector_iff in Hhv; lia). change (pending x1 v) with (pending x v). rewrite Hpv. cbn [andb]. destruct (Z.eqb_spec v0 v) as [<-|]; [|by left].
    destruct (masked x v0 && negb (masked x1 v0)) eqn:Hc; [|left; rewrite andb_true_l; by rewrite Hc]. right. unfold released. change (pending x1 v0) with (pending x v0).
    change (used x1 v0) with (used x v0). rewrite Hpv, Hu. by left.
Qed.

(** The device signals a vector: it is sent or waits. *)
Lemma notify_ok a v s :
  mok s → 0 ≤ v →
  ∃ s' out, msix_notify a v s = Ok s' ∧ mok s' ∧ stepped s s' out ∧ (∀ b w, kept b w s s' out) ∧
    (has_vector (mx_of a s) v = true → used (mx_of a s) v = true → pending (mx_of a s') v = true ∨ message (mx_of a s') v ∈ out).
Proof.
  intros [Hs Hi] Hv. pose proof (Hi a) as [Hnr Hw]. set (x := mx_of a s) in *.
  rewrite notify_spec by (fold x; rewrite ?has_vector_iff; lia). fold x. destruct ((v <? msix_entries_nr x) && used x v) eqn:Eu.
  2: { exists s, []. split; [done|]. split; [done|]. split; [split; [by rewrite app_nil_r|done|done]|]. split; [intros; by apply kept_other|].
    intros Hh%has_vector_iff Hu. rewrite (proj2 (Z.ltb_lt v _)), Hu in Eu by lia. done. }
  destruct (masked x v) eqn:Hm.
  - assert (Ex : mx_of a (put_mx a (with_pending v true x) s) = with_pending v true x) by apply mx_of_put.
    eexists _, []. split; [reflexivity|]. split; [|split; [split; [by rewrite app_nil_r|done|]|split]].
    + split; [done|]. intros b. destruct (decide (b = a)) as [->|Hba]; [|rewrite mx_of_other by done; apply Hi]. rewrite Ex. split; [done|]. intros w Hhw. pose proof (proj1 (has_vector_iff _ _) Hhw).
      rewrite pending_with by lia. change (masked (with_pending v true x) w) with (masked x w). destruct (Z.eqb_spec v w) as [<-|]; [done|by apply Hw].
    + intros b. destruct (decide (b = a)) as [->|Hba]; [by rewrite Ex|by rewrite mx_of_other].
    + intros b w. destruct (decide (b = a)) as [->|Hba]; [|apply kept_other; by rewrite mx_of_other]. intros Hhw Hu. pose proof (proj1 (has_vector_iff _ _) Hhw). rewrite Ex. split; [done|]. intros Hpw. left.
      rewrite pending_with by lia. by case_match.
    + intros _ _. left. rewrite Ex, pending_with by lia. by rewrite Z.eqb_refl.
  - eexists _, [message x v]. split; [reflexivity|]. split; [split; [by apply sys_ok_deliver|done]|]. split; [by split|]. split; [intros; by apply kept_other|]. intros _ _. right. by left.
Qed.

(** Counting the uses of a vector up and down. *)
Lemma use_ok a v s : mok s → let s' := put_mx a (msix_vector_use v (mx_of a s)).2 s in
  mok s' ∧ stepped s s' [] ∧ ∀ b w, (b, w) ≠ (a, v) → kept b w s s' [].
Proof.
  intros [Hs Hi] s'. set (x := mx_of a s) in *. assert (Ex : mx_of a s' = (msix_vector_use v x).2) by apply mx_of_put.
  assert (Hx : ∃ u, (msix_vector_use v x).2 = set_entry_used u x ∧ ∀ w, w ≠ v → aget u w = aget (msix_entry_used x) w).
  { unfold msix_vector_use. case_match; [exists (msix_entry_used x); split; [by destruct x|done]|]. eexists. split; [reflexivity|]. intros w Hw. by rewrite aget_aset_ne. }
  destruct Hx as (u & Hu & Hw). rewrite Hu in Ex. split; [|split; [split; [by rewrite app_nil_r|done|]|]].
  - split; [done|]. intros b. destruct (decide (b = a)) as [->|Hba]; [rewrite Ex; by destruct (Hi a)|]. unfold s'. rewrite mx_of_other by done. apply Hi.
  - intros b. destruct (decide (b = a)) as [->|Hba]; [by rewrite Ex|]. unfold s'. by rewrite mx_of_other.
  - intros b w Hne. destruct (decide (b = a)) as [->|Hba]; [|apply kept_other; unfold s'; by rewrite mx_of_other]. intros _ Hus. rewrite Ex. split; [|by left].
    unfold used in *. cbn [set_entry_used msix_entry_used]. rewrite Hw by congruence. done.
Qed.
Lemma unuse_ok a v s : mok s → 0 ≤ v →
  ∃ x, msix_vector_unuse v (mx_of a s) = Ok x ∧ let s' := put_mx a x s in mok s' ∧ stepped s s' [] ∧ ∀ b w, (b, w) ≠ (a, v) → kept b w s s' [].
Proof.
  intros [Hs Hi] Hv. set (x := mx_of a s) in *. pose proof (Hi a) as [Hnr Hwt]. fold x in Hnr, Hwt.
  assert (∃ x' u p, msix_vector_unuse v x = Ok x' ∧ x' = set_pba p (set_entry_used u x) ∧ (∀ w, w ≠ v → aget u w = aget (msix_entry_used x) w) ∧
    ∀ w, 0 ≤ w → pending x' w = true → pending x w = true) as (x' & u & p & E & Ex' & Hu & Hp1).
  { unfold msix_vector_unuse. destruct ((msix_entries_nr x <=? v) || _) eqn:Eg; [exists x, (msix_entry_used x), (msix_pba x); split; [done|]; split; [by destruct x|done]|].
    apply orb_false_iff in Eg as [Eg%Z.leb_gt _]. set (u := aset _ v _). case_match.
    - exists (set_entry_used u x), u, (msix_pba x). split; [done|]. split; [done|]. split; [intros w Hw; unfold u; by rewrite aget_aset_ne|done].
    - rewrite clr_pending_spec by (apply has_vector_iff; cbn; lia). eexists _, u, _. split; [done|]. split; [reflexivity|]. split; [intros w Hw; unfold u; by rewrite aget_aset_ne|].
     intros w Hw. rewrite pending_with by lia. by case_match. }
  assert (Hp2 : ∀ w, 0 ≤ w → w ≠ v → pending x w = true → pending x' w = true).
  { intros w Hw Hne Hpw. revert E. unfold msix_vector_unuse. case_match; [by intros [= <-]|]. case_match; [by intros [= <-]|]. intros E. unfold msix_clr_pending in E. destruct (has_vector _ v); [|done].
    cbn [guard mbind res_bind] in E. apply (f_equal (λ r, match r with Ok y => y | _ => x' end)) in E. subst x'. rewrite <-E. fold (with_pending v false (set_entry_used (aset (msix_entry_used x) v (u32 (aget (msix_entry_used x) v - 1))) x)).
    rewrite pending_with by lia. by rewrite (proj2 (Z.eqb_neq v w)) by congruence. }
  exists x'. split; [done|]. intros s'. assert (Exs : mx_of a s' = x') by apply mx_of_put. split; [|split; [split; [by rewrite app_nil_r|done|]|]].
  - split; [done|]. intros b. destruct (decide (b = a)) as [->|Hba]; [|unfold s'; rewrite mx_of_other by done; apply Hi]. rewrite Exs. split; [by rewrite Ex'|]. intros w Hhw Hpw.
    rewrite Ex' in Hhw. change (has_vector x w = true) in Hhw. apply Hp1 in Hpw; [|apply has_vector_iff in Hhw; lia]. rewrite Ex'. change (masked x w = true). by apply Hwt.
  - intros b. destruct (decide (b = a)) as [->|Hba]; [by rewrite Exs, Ex'|]. unfold s'. by rewrite mx_of_other.
  - intros b w Hne. destruct (decide (b = a)) as [->|Hba]; [|apply kept_other; unfold s'; by rewrite mx_of_other]. intros Hhw Hus. rewrite Exs. split.
    + rewrite Ex'. unfold used in *. cbn [set_entry_used set_pba msix_entry_used]. rewrite Hu by congruence. done.
    + intros Hpw. left. apply Hp2; [apply has_vector_iff in Hhw; lia|congruence|done].
Qed.

Definition xop_ok (s : Sys) (o : xop) : Prop :=
  match o with
  | XPin o => match o with OpWrite _ _ _ _ => False | _ => op_ok o ∧ is_Some (devs (bus s) !! op_dev o) end
  | XWrite a addr val l => op_ok (OpWrite a addr val l) ∧ is_Some (devs (bus s) !! a)
  | XTable a addr val => 0 ≤ addr ∧ addr mod 4 = 0 ∧ addr + 4 ≤ table_size (mx_of a s)
  | XNotify a v | XUse a v | XUnuse a v => 0 ≤ v
  end.
(** The device does not take or give up the vector. *)
Definition leaves (a v : Z) (o : xop) : Prop := o ≠ XUse a v ∧ o ≠ XUnuse a v.

Lemma stepped_trans s1 s2 s3 o1 o2 : stepped s1 s2 o1 → stepped s2 s3 o2 → stepped s1 s3 (o1 ++ o2).
Proof. intros [A1 B1 C1] [A2 B2 C2]. split; [by rewrite A2, A1, app_assoc|auto|intros a; by rewrite C2]. Qed.

Lemma xexec_ok s o :
  mok s → xop_ok s o →
  ∃ s' out, xexec use_ret fuel o s = Ok s' ∧ mok s' ∧ stepped s s' out ∧ ∀ a v, leaves a v o → kept a v s s' out.
Proof.
  intros Hs Ho. destruct o as [o|a addr val l|a addr val|a v|a v|a v]; cbn [xexec xop_ok] in *.
  - assert (Hb : op_ok o ∧ is_Some (devs (bus s) !! op_dev o)) by (by destruct o). destruct Hs as [Hs Hi].
    destruct (bus_exec o (bus s) Hs (proj1 Hb) (proj2 Hb)) as (b & out & E & Hs' & Ht & Hse). rewrite E. cbn [mbind res_bind]. exists (set_bus b s), out.
    split; [done|]. split; [done|]. split; [split; [done|intros a; by apply topology_devs|done]|]. intros; by apply kept_other.
  - destruct Hs as [Hs Hi]. destruct (bus_exec (OpWrite a addr val l) (bus s) Hs (proj1 Ho) (proj2 Ho)) as (b & out & E & Hs' & Ht & Hse). cbn [exec] in E. unfold device_config_write. rewrite E. cbn [mbind res_bind].
    destruct (msix_write_config_ok a addr (Z.shiftr (u32 val) (8 * Z.max l 0)) l (set_bus b s)) as (s' & out' & E' & Hok' & Hst & Hk); [done|eapply topology_devs; [done|apply Ho]|].
    exists s', (out ++ out'). split; [done|]. split; [done|]. split.
    + eapply stepped_trans; [|exact Hst]. split; [done|intros c; by apply topology_devs|done].
    + intros c v _ Hh Hu. destruct (Hk c v Hh Hu) as [H1 H2]. split; [done|]. intros Hp. destruct (H2 Hp) as [|]; [by left|right]. apply elem_of_app. by right.
  - destruct Ho as (H0 & H4 & Hsz). destruct (table_write_ok a addr val s Hs H0 H4 Hsz) as (s' & out & ? & ? & ? & Hk). exists s', out. split_and!; auto.
  - destruct (notify_ok a v s Hs Ho) as (s' & out & ? & ? & ? & Hk & _). exists s', out. split_and!; auto.
  - destruct (use_ok a v s Hs) as (? & ? & Hk). eexists _, []. split; [reflexivity|]. split_and!; [done|done|]. intros b w [H1 _]. apply Hk. congruence.
  - destruct (unuse_ok a v s Hs Ho) as (x & E & ? & ? & Hk). rewrite E. eexists _, []. split; [reflexivity|]. split_and!; [done|done|]. intros b w [_ H1]. apply Hk. congruence.
Qed.

Lemma xop_ok_later s s' out o : stepped s s' out → xop_ok s o → xop_ok s' o.
Proof.
  intros [_ Hd Hn]. destruct o as [o|a addr val l|a addr val|a v|a v|a v]; cbn [xop_ok]; try done.
  - destruct o; try done; intros [H1 H2]; split; try done; by apply Hd.
  - intros [H1 H2]. split; [done|by apply Hd].
  - unfold table_size. by rewrite Hn.
Qed.

Lemma xrun_ok l s :
  mok s → Forall (xop_ok s) l → ∃ s' out, xrun use_ret fuel l s = Ok s' ∧ mok s' ∧ stepped s s' out.
Proof.
  revert s. induction l as [|o l IH]; intros s Hs Hl; cbn [xrun]; [exists s, []; split_and!; try done; split; [by rewrite app_nil_r|done|done]|].
  apply Forall_cons in Hl as [Ho Hl]. destruct (xexec_ok s o Hs Ho) as (s1 & o1 & E1 & Hs1 & Hst1 & _). rewrite E1. cbn [mbind res_bind].
  destruct (IH s1 Hs1) as (s2 & o2 & E2 & Hs2 & Hst2); [eapply Forall_impl; [exact Hl|]; intros; by eapply xop_ok_later|].
  exists s2, (o1 ++ o2). split_and!; [done|done|by eapply stepped_trans].
Qed.

(** A vector that waits, along a run. *)
Lemma xrun_kept l s a v :
  mok s → Forall (λ o, xop_ok s o ∧ leaves a v o) l → has_vector (mx_of a s) v = true → used (mx_of a s) v = true → pending (mx_of a s) v = true →
  ∃ s', xrun use_ret fuel l s = Ok s' ∧ mok s' ∧ has_vector (mx_of a s') v = true ∧
    (pending (mx_of a s') v = true ∨
     ∃ l1 l2 s1 out, l = l1 ++ l2 ∧ xrun use_ret fuel l1 s = Ok s1 ∧ sent (bus s1) = sent (bus s) ++ out ∧ message (mx_of a s1) v ∈ out).
Proof.
  revert s. induction l as [|o l IH]; intros s Hs Hl Hh Hu Hp; cbn [xrun]; [exists s; by split_and!; [..|left]|]. apply Forall_cons in Hl as [[Ho Hlv] Hl].
  destruct (xexec_ok s o Hs Ho) as (s1 & out & E & Hs1 & Hst & Hk). rewrite E. cbn [mbind res_bind]. destruct (Hk a v Hlv Hh Hu) as [Hu1 Hp1].
  assert (Hh1 : has_vector (mx_of a s1) v = true) by (apply has_vector_iff; rewrite (sp_nr _ _ _ Hst); by apply has_vector_iff).
  assert (Hl1 : Forall (λ o, xop_ok s1 o ∧ leaves a v o) l) by (eapply Forall_impl; [exact Hl|]; intros o' [H1 H2]; split; [by eapply xop_ok_later|done]).
  destruct (Hp1 Hp) as [Hp'|Hm].
  - destruct (IH s1 Hs1 Hl1 Hh1 Hu1 Hp') as (s' & E' & Hs' & Hh' & Hor). exists s'. split; [done|]. split; [done|]. split; [done|]. destruct Hor as [|(l1 & l2 & s2 & o2 & -> & E2 & Hse & Hin)]; [by left|right].
    exists (o :: l1), l2, s2, (out ++ o2). split; [done|]. cbn [xrun]. rewrite E. split; [done|]. split; [by rewrite Hse, (sp_sent _ _ _ Hst), app_assoc|]. apply elem_of_app. by right.
  - destruct (xrun_ok l s1 Hs1) as (s' & out' & E' & Hs' & Hst'); [eapply Forall_impl; [exact Hl1|]; by intros o' [? _]|]. exists s'. split; [done|]. split; [done|].
    split; [apply has_vector_iff; rewrite (sp_nr _ _ _ Hst'); by apply has_vector_iff|]. right. exists [o], l, s1, out. cbn [xrun]. rewrite E. split_and!; [done|done|by apply Hst|done].
Qed.

(** C23: No vector the device signals is lost.  Devices of any kind move their pins and signal vectors, and
    the guest writes to the configuration spaces (enables and masks the function) and to the tables
    (masks, unmasks and changes messages), in any order, as long as no configuration write starts at
    the upper byte of the command register, a listener's function never fails, and the device keeps
    the vector (it neither takes nor gives up its use).  Then nothing fails, the interrupt lines stay
    the logical or of the pins, and in the end the vector waits and is masked, or at some point a
    message was sent for it, the one its entry had then. *)
Theorem msix_notified l s a v :
  mok s → has_vector (mx_of a s) v = true → used (mx_of a s) v = true → Forall (λ o, xop_ok s o ∧ leaves a v o) l →
  ∃ s', xrun use_ret fuel (XNotify a v :: l) s = Ok s' ∧ mok s' ∧
    (pending (mx_of a s') v = true ∧ masked (mx_of a s') v = true ∨
     ∃ l1 l2 s1 out, XNotify a v :: l = l1 ++ l2 ∧ xrun use_ret fuel l1 s = Ok s1 ∧ sent (bus s1) = sent (bus s) ++ out ∧ message (mx_of a s1) v ∈ out).
Proof.
  intros Hs Hh Hu Hl. pose proof (proj1 (has_vector_iff _ _) Hh) as Hv. cbn [xrun xexec].
  destruct (notify_ok a v s Hs ltac:(lia)) as (s1 & out & E & Hs1 & Hst & Hk & Hn). rewrite E. cbn [mbind res_bind].
  destruct (Hk a v Hh Hu) as [Hu1 _]. assert (Hh1 : has_vector (mx_of a s1) v = true) by (apply has_vector_iff; by rewrite (sp_nr _ _ _ Hst)).
  assert (Hl1 : Forall (λ o, xop_ok s1 o ∧ leaves a v o) l) by (eapply Forall_impl; [exact Hl|]; intros o [H1 H2]; split; [by eapply xop_ok_later|done]).
  destruct (Hn Hh Hu) as [Hp|Hm].
  - destruct (xrun_kept l s1 a v Hs1 Hl1 Hh1 Hu1 Hp) as (s' & E' & Hs' & Hh' & Hor). exists s'. split; [done|]. split; [done|].
    destruct Hor as [Hp'|(l1 & l2 & s2 & o2 & -> & E2 & Hse & Hin)]; [left; split; [done|by apply (xi_waits _ (proj2 Hs' a))]|right].
    exists (XNotify a v :: l1), l2, s2, (out ++ o2). split; [done|]. cbn [xrun xexec]. rewrite E. split; [done|]. split; [by rewrite Hse, (sp_sent _ _ _ Hst), app_assoc|]. apply elem_of_app. by right.
  - destruct (xrun_ok l s1 Hs1) as (s' & out' & E' & Hs' & _); [eapply Forall_impl; [exact Hl1|]; by intros o [? _]|]. exists s'. split; [done|]. split; [done|]. right.
    exists [XNotify a v], l, s1, out. split; [done|]. cbn [xrun xexec]. rewrite E. split_and!; [done|by apply Hst|done].
Qed.

(** ** Listeners *)

(** A listener of device [a] has in use exactly the vectors that may fire. *)
Definition attentive (s : Sys) : Prop :=
  ∀ a v, notifiers (mx_of a s) = true → has_vector (mx_of a s) v = true → v ∈ listens a (events s) ↔ masked (mx_of a s) v = false.

Lemma events_updated a v was s : 
  events (mask_updated a v was s) = events (if Bool.eqb (masked (mx_of a s) v) was then s else told a v s).
Proof. unfold mask_updated. destruct (Bool.eqb _ _); [done|]. destruct (masked _ _); [done|]. by destruct (pending _ _). Qed.

Lemma listens_updated a v was s :
  (∀ b, b ≠ a → listens b (events (mask_updated a v was s)) = listens b (events s)) ∧
  (notifiers (mx_of a s) = true → (v ∈ listens a (events s) ↔ was = false) →
   ∀ w, w ∈ listens a (events (mask_updated a v was s)) ↔ if decide (w = v) then masked (mx_of a s) v = false else w ∈ listens a (events s)).
Proof.
  rewrite events_updated. destruct (Bool.eqb (masked (mx_of a s) v) was) eqn:E.
  { split; [done|]. intros _ Hv w. apply Bool.eqb_prop in E. case_decide as Hw; [by rewrite Hw, E|done]. }
  unfold told. destruct (notifiers (mx_of a s)) eqn:Hn; [|done]. destruct (masked (mx_of a s) v) eqn:Hm.
  - split; [intros b Hb; by apply listens_other|]. intros _ Hv w. rewrite listens_release. case_decide; [naive_solver|naive_solver].
  - split; [intros b Hb; by apply listens_other|]. intros _ Hv w. rewrite listens_use. pose proof (Hret (events s) a v (message (mx_of a s) v)). case_decide; naive_solver.
Qed.

Lemma loop_listens l a was s s' :
  function_mask_loop use_ret l a was s = Ok s' → NoDup l → (∀ v, v ∈ l → has_vector (mx_of a s) v = true) → notifiers (mx_of a s) = true →
  (∀ w, w ∈ l → w ∈ listens a (events s) ↔ was || entry_masked (mx_of a s) w = false) →
  ∀ w, w ∈ listens a (events s') ↔ if decide (w ∈ l) then masked (mx_of a s) w = false else w ∈ listens a (events s).
Proof.
  revert s. induction l as [|v l IH]; intros s; cbn [function_mask_loop]; [intros [= <-] _ _ _ _ w; by rewrite decide_False by apply not_elem_of_nil|].
  intros E Hnd Hl Hn Hw. apply NoDup_cons in Hnd as [Hv Hnd]. set (x := mx_of a s) in *. pose proof (Hl v ltac:(by left)) as Hhv.
  assert (Ew : msix_vector_masked x v was = Ok (was || entry_masked x v)) by (unfold msix_vector_masked; destruct was; [done|]; by rewrite Hhv). rewrite Ew in E. cbn [mbind res_bind] in E.
  rewrite handle_spec in E by done. cbn [mbind res_bind] in E. set (wm := was || entry_masked x v) in *.
  destruct (mask_updated_touched a v wm s) as [Ht _]; [apply has_vector_iff in Hhv; lia|]. destruct (tc_same _ _ _ _ Ht) as [p Ep]. fold x in Ep.
  destruct (listens_updated a v wm s) as [_ Hls]. fold x in Hls. specialize (Hls Hn (Hw v ltac:(by left))). set (s1 := mask_updated a v wm s) in *.
  intros w. rewrite (IH s1 E Hnd); rewrite ?Ep; [|intros u Hu; apply (Hl u); by right|done|].
  - change (masked (set_pba p x) w) with (masked x w). specialize (Hls w). destruct (decide (w ∈ l)) as [Hin|Hout]; [by rewrite decide_True by (by right)|]. rewrite Hls.
    destruct (decide (w = v)) as [->|Hne]; [by rewrite decide_True by (by left)|by rewrite decide_False by (rewrite elem_of_cons; naive_solver)].
  - intros u Hu. change (entry_masked (set_pba p x) u) with (entry_masked x u). specialize (Hls u). rewrite decide_False in Hls by (intros ->; done). rewrite Hls. apply Hw. by right.
Qed.

Lemma loop_listens_other l a was s s' b :
  function_mask_loop use_ret l a was s = Ok s' → (∀ v, v ∈ l → has_vector (mx_of a s) v = true) → b ≠ a → listens b (events s') = listens b (events s).
Proof.
  revert s. induction l as [|v l IH]; intros s; cbn [function_mask_loop]; [by intros [= <-]|]. intros E Hl Hb. pose proof (Hl v ltac:(by left)) as Hhv.
  destruct (msix_vector_masked (mx_of a s) v was) as [wm| |]; [|done..]. cbn [mbind res_bind] in E. rewrite handle_spec in E by done. cbn [mbind res_bind] in E.
  destruct (mask_updated_touched a v wm s) as [Ht _]; [apply has_vector_iff in Hhv; lia|]. destruct (tc_same _ _ _ _ Ht) as [p Ep].
  rewrite (IH _ E); [by apply listens_updated| |done]. intros w Hw. rewrite Ep. apply (Hl w). by right.
Qed.

(** What the listeners look at: the masks and the number of vectors. *)
Definition looks_same (x x' : Msix) : Prop :=
  notifiers x' = notifiers x ∧ msix_entries_nr x' = msix_entries_nr x ∧ ∀ v, has_vector x v = true → masked x' v = masked x v.
Lemma attentive_at s s' :
  attentive s → (∀ a, looks_same (mx_of a s) (mx_of a s') ∧ listens a (events s') = listens a (events s) ∨
    ∀ v, notifiers (mx_of a s') = true → has_vector (mx_of a s') v = true → v ∈ listens a (events s') ↔ masked (mx_of a s') v = false) → attentive s'.
Proof.
  intros Hs Ha a v Hn Hv. destruct (Ha a) as [[(En & Er & Em) El]|Hd]; [|by apply Hd]. assert (Hv0 : has_vector (mx_of a s) v = true) by (unfold has_vector in *; by rewrite <-Er).
  rewrite El, Em by done. apply Hs; [by rewrite <-En|done].
Qed.

(** Unless the write disables the function, which releases no vector. *)
Lemma write_config_attentive a addr val len s s' :
  mok s → attentive s → msix_write_config use_ret fuel a addr val len s = Ok s' →
  (notifiers (mx_of a s) = true → ∃ d', devs (bus s') !! a = Some d' ∧ msix_enabled d' (mx_of a s') = true) → attentive s'.
Proof.
  intros Hs Hat E Hon. assert (∃ d, devs (bus s) !! a = Some d) as [d Hd].
  { unfold msix_write_config, get_dev in E. destruct (devs (bus s) !! a); [by eexists|done]. }
  destruct (write_config_cases a addr val len s d Hs Hd) as (s0 & E0 & Hc). rewrite E in E0. injection E0 as <-. set (x := mx_of a s) in *. apply (attentive_at s); [done|]. intros c.
  destruct Hc as [->|[[He ->]|(b & _ & _ & _ & [(Hall & Hev & _)|(El & Hnd & Hl & Ex1)])]].
  - by left.
  - destruct (decide (c = a)) as [->|Hc]; [right|left; by rewrite mx_of_other]. intros v Hn _. rewrite mx_of_put in Hn. destruct (Hon Hn) as (d' & Hd' & He'). rewrite mx_of_put in He'.
    change (bus (put_mx a _ s)) with (bus s) in Hd'. rewrite Hd in Hd'. injection Hd' as <-. change (msix_enabled d x = true) in He'. congruence.
  - left. by rewrite Hall, Hev.
  - set (s1 := set_bus b _) in *. assert (Hhv : ∀ v, v ∈ seqZ 0 (msix_entries_nr x) → has_vector (mx_of a s1) v = true) by (intros v Hv; rewrite Ex1; by apply Hl).
    destruct (function_mask_loop_spec _ a (msix_function_masked x) s1 Hnd Hhv) as (s0 & E0 & Ht & _); [by rewrite Ex1|]. rewrite El in E0. injection E0 as <-. destruct Ht as [_ Ho [p Es]]. rewrite Ex1 in Es.
    destruct (decide (c = a)) as [->|Hc]; [right|left].
    + intros v Hn Hv. rewrite Es in Hn, Hv |- *. rewrite (loop_listens _ a _ s1 s' El Hnd Hhv); [|by rewrite Ex1|].
      * rewrite decide_True by (by apply Hl). by rewrite Ex1.
      * intros w Hw. rewrite Ex1. change (events s1) with (events s). apply (Hat a w); [exact Hn|by apply Hl].
    + split; [|by rewrite (loop_listens_other _ _ _ _ _ c El)]. rewrite Ho by done. change (mx_of c s1) with (mx_of c (put_mx a (set_function_masked (negb (msix_function_masked x)) x) s)). by rewrite mx_of_other.
Qed.

Lemma table_write_attentive a addr val s s' :
  attentive s → 0 ≤ addr → addr mod 4 = 0 → addr + 4 ≤ table_size (mx_of a s) → msix_table_mmio_write use_ret a addr val s = Ok s' → attentive s'.
Proof.
  intros Hat H0 H4 Hsz. destruct (table_write_eq a addr val s H0 H4 Hsz) as (Hv & E & Hm). rewrite E. intros [= <-]. set (x := mx_of a s) in *. set (v0 := addr / PCI_MSIX_ENTRY_SIZE) in *.
  set (x1 := table_written a addr val s) in *. set (s1 := put_mx a x1 s). assert (Ex1 : mx_of a s1 = x1) by apply mx_of_put.
  destruct (mask_updated_touched a v0 (masked x v0) s1) as [[_ Ho [p Es]] _]; [apply has_vector_iff in Hv; lia|]. rewrite Ex1 in Es.
  destruct (listens_updated a v0 (masked x v0) s1) as [Hlo Hla]. apply (attentive_at s); [done|]. intros b. destruct (decide (b = a)) as [->|Hb].
  - right. intros v Hn Hhv. rewrite Es in Hn, Hhv |- *. rewrite Hla; [|by rewrite Ex1|change (events s1) with (events s); by apply (Hat a v0)]. rewrite Ex1. case_decide as Hd; [by rewrite Hd|].
    change (masked (set_pba p x1) v) with (masked x1 v). change (events s1) with (events s). rewrite (Hat a v Hn Hhv). fold x. by rewrite Hm.
  - left. split; [rewrite Ho by done; unfold s1; by rewrite mx_of_other|]. by rewrite Hlo.
Qed.

(** The pending bits and the counters do not matter to a listener. *)
Lemma attentive_quiet a s x : attentive s → looks_same (mx_of a s) x → attentive (put_mx a x s).
Proof.
  intros Hat Hx. apply (attentive_at s); [done|]. intros b. left. split; [|done]. destruct (decide (b = a)) as [->|Hb]; [by rewrite mx_of_put|by rewrite mx_of_other].
Qed.
Lemma unuse_looks v x x' : msix_vector_unuse v x = Ok x' → looks_same x x'.
Proof.
  unfold msix_vector_unuse. case_match; [by intros [= <-]|]. case_match; [by intros [= <-]|]. unfold msix_clr_pending. destruct (has_vector _ v); [|done]. by intros [= <-].
Qed.

(** After a configuration write to a device with a listener, MSI-X is enabled. *)
Definition still_enabled (o : xop) (s s' : Sys) : bool :=
  match o with
  | XWrite a _ _ _ => negb (notifiers (mx_of a s)) || (match devs (bus s') !! a with Some d => msix_enabled d (mx_of a s') | None => false end)
  | _ => true
  end.
Fixpoint stays_enabled (l : list xop) (s : Sys) : bool :=
  match l with
  | [] => true
  | o :: l => match xexec use_ret fuel o s with Ok s1 => still_enabled o s s1 && stays_enabled l s1 | _ => false end
  end.

Lemma xexec_attentive o s s' :
  mok s → attentive s → xop_ok s o → xexec use_ret fuel o s = Ok s' → still_enabled o s s' = true → attentive s'.
Proof.
  intros Hs Hat Ho E Hon. destruct o as [o|a addr val l|a addr val|a v|a v|a v]; cbn [xexec xop_ok] in *.
  - destruct (exec xops fuel o (bus s)) as [b| |]; [|done..]. cbn [mbind res_bind] in E. injection E as <-. exact Hat.
  - unfold device_config_write in E. destruct (pci_default_write_config xops fuel a addr val l (bus s)) as [b| |] eqn:Eb; [|done..]. cbn [mbind res_bind] in E.
    destruct Hs as [Hs Hi]. destruct (bus_exec (OpWrite a addr val l) (bus s) Hs (proj1 Ho) (proj2 Ho)) as (b1 & out & E1 & Hs1 & _). cbn [exec] in E1. rewrite Eb in E1. injection E1 as <-.
    apply (write_config_attentive _ _ _ _ (set_bus b s) s' (conj Hs1 Hi) Hat E). intros Hn. cbn [still_enabled] in Hon. change (mx_of a (set_bus b s)) with (mx_of a s) in Hn. rewrite Hn in Hon. cbn [negb orb] in Hon.
    destruct (devs (bus s') !! a) as [d|]; [by exists d|done].
  - destruct Ho as (H0 & H4 & Hsz). by apply (table_write_attentive a addr val s s' Hat H0 H4 Hsz).
  - rewrite notify_spec in E by (rewrite ?has_vector_iff; lia). injection E as <-. case_match; [|done]. case_match; [|done]. by apply attentive_quiet.
  - injection E as <-. apply attentive_quiet; [done|]. unfold msix_vector_use. by case_match.
  - destruct (msix_vector_unuse v (mx_of a s)) as [x| |] eqn:Ex; [|done..]. cbn [mbind res_bind] in E. injection E as <-. apply attentive_quiet; [done|]. by eapply unuse_looks.
Qed.

(** C24: A listener of a device always has in use exactly the vectors that may fire, whatever the guest
    writes and the devices do, as long as the guest does not disable MSI-X: it is told of every
    vector that is masked or unmasked, by its entry or by the mask of the function. *)
Theorem msix_listeners l s :
  mok s → attentive s → Forall (xop_ok s) l → stays_enabled l s = true →
  ∃ s', xrun use_ret fuel l s = Ok s' ∧ attentive s'.
Proof.
  revert s. induction l as [|o l IH]; intros s Hs Hat Hl Hon; cbn [xrun stays_enabled] in *; [by exists s|]. apply Forall_cons in Hl as [Ho Hl].
  destruct (xexec_ok s o Hs Ho) as (s1 & out & E & Hs1 & Hst & _). rewrite E in Hon |- *. apply andb_true_iff in Hon as [Hon Hr]. cbn [mbind res_bind].
  apply IH; [done|exact (xexec_attentive o s s1 Hs Hat Ho E Hon)| |done]. eapply Forall_impl; [exact Hl|]. intros; by eapply xop_ok_later.
Qed.

(** ** Migration and reset *)

Lemma read_array_aread n c rest buf :
  0 ≤ n → ∃ b, read_array n (aread c 0 (Z.to_nat n) ++ rest) buf = (b, rest) ∧ ∀ j, 0 ≤ j < n → aget b j = aget c j.
Proof.
  intros Hn. unfold read_array. rewrite take_app_length', drop_app_length' by (by rewrite length_aread). eexists. split; [reflexivity|]. intros j Hj.
  rewrite aget_awrite_in by (rewrite length_aread; lia). rewrite nth_aread by lia. f_equal. lia.
Qed.

Lemma for_vectors_pba l (f : Z → Msix → res Msix) x :
  (∀ v y, v ∈ l → msix_entries_nr y = msix_entries_nr x → ∃ p, f v y = Ok (set_pba p y)) → ∃ p, for_vectors f l x = Ok (set_pba p x).
Proof.
  revert x. induction l as [|v l IH]; intros x Hf; cbn [for_vectors]; [exists (msix_pba x); by destruct x|]. destruct (Hf v x ltac:(by left) eq_refl) as [p Ep]. rewrite Ep. cbn [mbind res_bind].
  destruct (IH (set_pba p x)) as [q Eq]; [intros w y Hw Hy; apply Hf; [by right|done]|]. rewrite Eq. by exists q.
Qed.
Lemma clear_all_ok x : ∃ p, msix_clear_all_vectors x = Ok (set_pba p x).
Proof.
  apply for_vectors_pba. intros v y Hv%elem_of_seqZ Hy. rewrite clr_pending_spec by (apply has_vector_iff; lia). by eexists.
Qed.

(** Every vector was masked before: the ones that may fire now. *)
Lemma update_loop_spec l a s :
  NoDup l → (∀ v, v ∈ l → has_vector (mx_of a s) v = true) →
  ∃ s', update_loop use_ret l a s = Ok s' ∧ touched a s s' (freed (mx_of a s) true l) ∧
    ∀ w, 0 ≤ w → pending (mx_of a s') w = pending (mx_of a s) w && negb (bool_decide (w ∈ l) && negb (masked (mx_of a s) w)).
Proof.
  revert s. induction l as [|v l IH]; intros s Hn Hl; cbn [update_loop].
  { exists s. split; [done|]. split; [apply touched_refl|]. intros w _. rewrite bool_decide_eq_false_2 by apply not_elem_of_nil. by rewrite andb_true_r. }
  apply NoDup_cons in Hn as [Hv Hn]. pose proof (Hl v ltac:(by left)) as Hhv. pose proof (proj1 (has_vector_iff _ _) Hhv) as Hv0. set (x := mx_of a s) in *.
  rewrite handle_spec by done. cbn [mbind res_bind]. destruct (mask_updated_touched a v true s ltac:(lia)) as [Ht Hp]. fold x in Ht, Hp.
  set (s1 := mask_updated a v true s) in *. destruct (tc_same _ _ _ _ Ht) as [p Ep]. fold x in Ep. destruct (IH s1 Hn) as (s' & E & Ht' & Hp'); [intros w Hw; rewrite Ep; apply (Hl w); by right|].
  exists s'. split; [done|]. assert (Ef : freed (mx_of a s1) true l = freed x true l).
  { apply (loop_step a v true l s p); [done|lia|done| |done]. intros w Hw. pose proof (proj1 (has_vector_iff _ _) (Hl w ltac:(by right))). lia. }
  split; [rewrite Ef in Ht'; exact (touched_trans _ _ _ _ _ _ Ht Ht')|]. intros w Hw. rewrite Hp', Hp by done. rewrite Ep. change (masked (set_pba p x) w) with (masked x w).
  destruct (Z.eqb_spec v w) as [<-|Hne].
  - rewrite (bool_decide_eq_false_2 (v ∈ l)), (bool_decide_eq_true_2 (v ∈ v :: l)) by (done || by left). cbn [andb negb]. by rewrite andb_true_r.
  - rewrite bool_decide_cons_ne by done. cbn [andb negb]. by rewrite andb_true_r.
Qed.

Lemma freed_nil x l : (∀ v, v ∈ l → pending x v = true → masked x v = true) → freed x true l = [].
Proof.
  intros Hl. unfold freed. induction l as [|v l IH]; [done|]. cbn [flat_map]. rewrite IH by (intros w Hw; apply Hl; by right). rewrite app_nil_r. cbn [andb].
  destruct (masked x v) eqn:Hm; [done|]. cbn [negb]. unfold released. destruct (pending x v) eqn:Hp; [|done]. rewrite (Hl v ltac:(by left) Hp) in Hm. done.
Qed.

(** Migration keeps the messages, the masks and what waits, and sends nothing: the target gets what
    the source saved, given that the configuration space of the target, which is restored first,
    masks the function as the source had it. *)
Theorem msix_migrates a s d dsrc x rest :
  devs (bus s) !! a = Some d → msix_present d = true → msix_present dsrc = true → msix_inv x → msix_entries_nr (mx_of a s) = msix_entries_nr x →
  msix_function_masked (msix_update_function_masked d (mx_of a s)) = msix_function_masked x →
  ∃ s', msix_load use_ret a (msix_save dsrc x ++ rest) s = Ok (rest, s') ∧ bus s' = bus s ∧ (∀ b, b ≠ a → mx_of b s' = mx_of b s) ∧
    let x' := mx_of a s' in
    msix_entries_nr x' = msix_entries_nr x ∧ msix_function_masked x' = msix_function_masked x ∧ msix_entry_used x' = msix_entry_used (mx_of a s) ∧
    ∀ v, has_vector x v = true → pending x' v = pending x v ∧ masked x' v = masked x v ∧ message x' v = message x v.
Proof.
  intros Hd Hpr Hps [Hnr Hw] En Hf. unfold msix_load, get_dev, msix_save. rewrite Hd, Hps. cbn [mbind res_bind negb]. rewrite Hpr. cbn [negb].
  set (x0 := mx_of a s) in *. destruct (clear_all_ok x0) as [p0 Ec]. rewrite Ec. cbn [mbind res_bind]. set (n := msix_entries_nr x) in *.
  change (table_size (set_pba p0 x0)) with (table_size x0). assert (Et : table_size x0 = table_size x) by (unfold table_size; by rewrite En). rewrite Et. cbn [set_pba msix_entries_nr msix_table msix_pba]. rewrite En.
  rewrite <-app_assoc. destruct (read_array_aread (table_size x) (msix_table x) (aread (msix_pba x) 0 (Z.to_nat ((n + 7) / 8)) ++ rest) (msix_table x0)) as (t & E1 & Ht); [unfold table_size, PCI_MSIX_ENTRY_SIZE; lia|]. rewrite E1.
  destruct (read_array_aread ((n + 7) / 8) (msix_pba x) rest p0) as (q & E2 & Hq); [apply Z.div_pos; lia|]. rewrite E2.
  set (x1 := set_pba q (set_table t _)). set (b := msix_function_masked (msix_update_function_masked d x0)). change (msix_update_function_masked d x1) with (set_function_masked b x1).
  set (x2 := set_function_masked b x1). set (s1 := put_mx a x2 s). assert (Ex2 : mx_of a s1 = x2) by apply mx_of_put. change (msix_entries_nr x2) with (msix_entries_nr x0). rewrite En.
  assert (Hsame : ∀ v, has_vector x v = true → pending x2 v = pending x v ∧ masked x2 v = masked x v ∧ message x2 v = message x v).
  { intros v Hv%has_vector_iff. fold n in Hv. unfold table_size, PCI_MSIX_ENTRY_SIZE in Ht. fold n in Ht. split; [|split].
    - unfold pending. cbn [x2 x1 set_function_masked set_pba set_table msix_pba]. rewrite Hq; [done|]. split; [apply Z.div_pos; lia|]. apply Z.div_lt_upper_bound; [lia|]. pose proof (Z.mod_pos_bound (n + 7) 8 ltac:(lia)). pose proof (Z.div_mod (n + 7) 8). lia.
    - unfold masked, entry_masked. cbn [x2 x1 set_function_masked set_pba set_table msix_table msix_function_masked]. unfold b. rewrite Hf, Ht; [done|]. unfold entry, PCI_MSIX_ENTRY_SIZE, PCI_MSIX_ENTRY_VECTOR_CTRL. lia.
    - unfold message, pci_get_quad, pci_get_long, entry, PCI_MSIX_ENTRY_SIZE, PCI_MSIX_ENTRY_LOWER_ADDR, PCI_MSIX_ENTRY_DATA. cbn [x2 x1 set_function_masked set_pba set_table msix_table].
      f_equal; f_equal; apply aread_same; intros j Hj; apply Ht; lia. }
  destruct (update_loop_spec (seqZ 0 n) a s1) as (s' & E & [Hb Ho [p Es]] & Hp); [apply NoDup_seqZ|intros v Hv%elem_of_seqZ; rewrite Ex2; apply has_vector_iff; cbn; lia|].
  rewrite Ex2 in Hb, Es, Hp. assert (Hwt : ∀ v, has_vector x v = true → pending x2 v = true → masked x2 v = true). { intros v Hv. destruct (Hsame v Hv) as (-> & -> & _). by apply Hw. }
  rewrite freed_nil, deliver_nil in Hb by (intros v Hv%elem_of_seqZ; apply Hwt, has_vector_iff; fold n; lia).
  rewrite E. cbn [mbind res_bind]. exists s'. split; [done|]. split; [done|]. split; [intros c Hc; rewrite Ho by done; unfold s1; by rewrite mx_of_other|]. rewrite Es.
  split; [exact En|]. split; [exact Hf|]. split; [done|]. intros v Hv. destruct (Hsame v Hv) as (H1 & H2 & H3). split; [|by split].
  rewrite <-Es, Hp by (apply has_vector_iff in Hv; lia). destruct (pending x2 v) eqn:Hp2; [|by rewrite <-H1]. rewrite (Hwt v Hv Hp2), andb_false_r. by rewrite <-H1.
Qed.

(** Masking the entries of [l]: a listener is told, nothing is sent. *)
Lemma mask_all_spec l a s :
  (∀ v, v ∈ l → has_vector (mx_of a s) v = true) →
  ∃ s' t, mask_all_loop use_ret l a s = Ok s' ∧ bus s' = bus s ∧ (∀ b, b ≠ a → mx_of b s' = mx_of b s) ∧ mx_of a s' = set_table t (mx_of a s) ∧
    (∀ v, v ∈ l → entry_masked (mx_of a s') v = true) ∧
    ∀ j, tst (aget (msix_table (mx_of a s)) j) PCI_MSIX_ENTRY_CTRL_MASKBIT = true → tst (aget t j) PCI_MSIX_ENTRY_CTRL_MASKBIT = true.
Proof.
  revert s. induction l as [|v l IH]; intros s Hl; cbn [mask_all_loop].
  { exists s, (msix_table (mx_of a s)). split_and!; try done; [by destruct (mx_of a s)|by intros v Hv%elem_of_nil]. }
  pose proof (Hl v ltac:(by left)) as Hv. rewrite is_masked_spec by done. cbn [mbind res_bind]. rewrite Hv. cbn [guard mbind res_bind]. set (x := mx_of a s) in *.
  set (x1 := set_entry_mask _ v x). set (s1 := put_mx a x1 s). assert (Ex1 : mx_of a s1 = x1) by apply mx_of_put. rewrite handle_spec by (by rewrite Ex1). cbn [mbind res_bind].
  assert (Hbit : tst (aget (msix_table x1) (entry v + PCI_MSIX_ENTRY_VECTOR_CTRL)) PCI_MSIX_ENTRY_CTRL_MASKBIT = true).
  { unfold x1, set_entry_mask. cbn [set_table msix_table]. rewrite aget_aset_eq. by apply lor_tst. }
  assert (Hkeep : ∀ j, tst (aget (msix_table x) j) PCI_MSIX_ENTRY_CTRL_MASKBIT = true → tst (aget (msix_table x1) j) PCI_MSIX_ENTRY_CTRL_MASKBIT = true).
  { intros j Hj. unfold x1, set_entry_mask. cbn [set_table msix_table]. rewrite aget_aset. case_match eqn:Ej; [|done]. apply Z.eqb_eq in Ej. subst j. by apply lor_tst_l. }
  destruct (mask_updated_touched a v (masked x v) s1) as [[Hb Ho _] _]; [apply has_vector_iff in Hv; lia|]. rewrite Ex1 in Hb.
  assert (Hm1 : masked x1 v = true) by (unfold masked, entry_masked; rewrite Hbit; apply orb_true_r). rewrite Hm1, andb_false_r, deliver_nil in Hb.
  assert (Es : mx_of a (mask_updated a v (masked x v) s1) = x1).
  { unfold mask_updated. rewrite Ex1, Hm1. case_match; [done|]. unfold told. rewrite Ex1. by case_match. }
  set (s2 := mask_updated a v (masked x v) s1) in *. destruct (IH s2) as (s' & t & E & Hb' & Ho' & Et & Hmk & Hk); [intros w Hw; rewrite Es; apply (Hl w); by right|].
  rewrite Es in Et, Hk. exists s', t. split; [done|]. split; [by rewrite Hb'|]. split; [intros b Hba; rewrite Ho', Ho by done; by apply mx_of_other|]. split; [done|]. split; [|auto].
  intros w [->|Hw]%elem_of_cons; [|by apply Hmk]. rewrite Et. unfold entry_masked. cbn [set_table msix_table]. by apply Hk.
Qed.

Lemma nth_zeros n i : nth i (replicate n 0) 0 = 0.
Proof. revert i. induction n; intros []; cbn; auto. Qed.

(** Reset: nothing waits, every entry is masked, nothing is sent.  The mask of the function is the
    one before, though the function is not enabled any more. *)
Lemma msix_reset_spec a s d :
  devs (bus s) !! a = Some d → msix_present d = true → 0 ≤ msix_entries_nr (mx_of a s) →
  ∃ s', msix_reset use_ret a s = Ok s' ∧ sent (bus s') = sent (bus s) ∧ msix_function_masked (mx_of a s') = msix_function_masked (mx_of a s) ∧
    msix_entry_used (mx_of a s') = msix_entry_used (mx_of a s) ∧
    ∀ v, has_vector (mx_of a s) v = true → pending (mx_of a s') v = false ∧ entry_masked (mx_of a s') v = true.
Proof.
  intros Hd Hpr Hn. unfold msix_reset, get_dev. rewrite Hd. cbn [mbind res_bind]. rewrite Hpr. cbn [negb]. destruct (clear_all_ok (mx_of a s)) as [p Ec]. rewrite Ec. cbn [mbind res_bind].
  set (x := mx_of a s) in *. cbn [set_pba msix_entries_nr]. set (x1 := set_pba (awrite _ _ _) _). set (s1 := put_mx a x1 _). assert (Ex1 : mx_of a s1 = x1) by apply mx_of_put.
  unfold msix_mask_all. destruct (mask_all_spec (seqZ 0 (msix_entries_nr x)) a s1) as (s' & t & E & Hb & _ & Et & Hm & _).
  { intros v Hv%elem_of_seqZ. rewrite Ex1. apply has_vector_iff. cbn. lia. }
  exists s'. split; [exact E|]. rewrite Ex1 in Et. split; [by rewrite Hb|]. split; [by rewrite Et|]. split; [by rewrite Et|]. intros v Hv%has_vector_iff.
  split; [|apply Hm, elem_of_seqZ; lia]. rewrite Et, pending_testbit by lia. cbn [set_table x1 set_pba msix_pba]. rewrite aget_awrite_in.
  - rewrite nth_zeros. apply Z.bits_0.
  - rewrite length_replicate. unfold pba_size. pose proof (Z.div_pos v 8 ltac:(lia) ltac:(lia)). pose proof (Z.div_mod (msix_entries_nr x + 63) 64). pose proof (Z.mod_pos_bound (msix_entries_nr x + 63) 64 ltac:(lia)).
    replace ((msix_entries_nr x + 63) / 64 * 64 / 8) with ((msix_entries_nr x + 63) / 64 * 8) by (rewrite <-(Z.div_mul ((msix_entries_nr x + 63) / 64 * 8) 8) by lia; f_equal; lia).
    assert (v / 8 < (msix_entries_nr x + 63) / 64 * 8) by (apply Z.div_lt_upper_bound; lia). lia.
Qed.

(** ** Initialisation *)

Lemma init_control n tbl pba cap d : 1 ≤ n ≤ PCI_MSIX_FLAGS_QSIZE + 1 →
  aget (config (init_device n tbl pba cap d)) (cap + MSIX_CONTROL_OFFSET) = (n - 1) / 256.
Proof.
  unfold PCI_MSIX_FLAGS_QSIZE, MSIX_CONTROL_OFFSET, PCI_MSIX_FLAGS. intros Hn. cbn [init_device set_msi set_wmask set_config config wmask cap_present]. rewrite !set_long_out by (unfold PCI_MSIX_TABLE, PCI_MSIX_PBA; lia).
  unfold pci_set_word, PCI_MSIX_FLAGS. rewrite aget_awrite_in by (rewrite length_le_bytes; lia). replace (Z.to_nat (cap + (2 + 1) - (cap + 2))) with 1%nat by lia. cbn [le_bytes nth].
  apply Z.mod_small. split; [apply Z.div_pos; lia|apply Z.div_lt_upper_bound; lia].
Qed.

Lemma init_device_ok n tbl pba o size d d1 l :
  dev_ok d → caps_ok d l → (∀ j, PCI_CONFIG_HEADER_SIZE ≤ j → aget (w1cmask d) j = 0) → size = MSIX_CAP_LENGTH →
  PCI_CONFIG_HEADER_SIZE ≤ o → o mod 4 = 0 → free d o (align4 size) → o + align4 size ≤ PCI_CONFIG_SPACE_SIZE → insert_capability PCI_CAP_ID_MSIX o size d = Ok (o, d1) →
  let d' := init_device n tbl pba o d1 in
  dev_ok d' ∧ caps_ok d' (o :: l) ∧ msix_present d' = true ∧ dev_place d' = dev_place d ∧ irq_state d' = irq_state d ∧ msi_cap d' = msi_cap d ∧
  cap_present d' = Z.lor (cap_present d) QEMU_PCI_CAP_MSIX ∧
  (∀ j, j < PCI_CONFIG_HEADER_SIZE → j ≠ PCI_CAPABILITY_LIST → j ≠ PCI_STATUS → aget (config d') j = aget (config d) j) ∧
  (∀ j, j < PCI_CONFIG_HEADER_SIZE → aget (wmask d') j = aget (wmask d) j).
Proof.
  intros Hd Hc Hw1 Hsz Ho Ho4 Hfree Hend E d'. pose proof (do_masks _ Hd) as Hm. assert (Hal : align4 size = 12) by (by rewrite Hsz). unfold MSIX_CAP_LENGTH in Hsz.
  destruct (insert_capability_spec PCI_CAP_ID_MSIX o size d l Hc Hm ltac:(done) Ho Ho4 ltac:(lia) Hfree Hend) as (d0 & E0 & Hc1 & Hm1 & _ & Hcfg & _ & _ & _).
  rewrite E in E0. injection E0 as <-. destruct (insert_capability_frame PCI_CAP_ID_MSIX o size d o d1 ltac:(lia) E) as (c & k & w0 & u & Ed1 & Hw0). rewrite Hal in Hend.
  unfold PCI_CONFIG_HEADER_SIZE, PCI_CONFIG_SPACE_SIZE in *. assert (Ew1 : w1cmask d' = w1cmask d) by (unfold d'; by rewrite Ed1).
  assert (Hcf : ∀ j, j < o + 2 ∨ o + 12 ≤ j → aget (config d') j = aget (config d1) j).
  { intros j Hj. cbn [d' init_device set_msi set_wmask set_config config]. rewrite !set_long_out, set_word_out by (unfold PCI_MSIX_FLAGS, PCI_MSIX_TABLE, PCI_MSIX_PBA; lia). done. }
  assert (Hwo : ∀ j, j < o ∨ o + 12 ≤ j → aget (wmask d') j = aget (wmask d) j).
  { intros j Hj. cbn [d' init_device set_msi set_wmask set_config wmask]. rewrite aget_aset_ne by (unfold MSIX_CONTROL_OFFSET, PCI_MSIX_FLAGS; lia). rewrite Ed1. cbn [set_cmask set_wmask set_entry_used set_config wmask]. apply Hw0. lia. }
  assert (Hlow : ∀ j, j < 64 → j ≠ PCI_CAPABILITY_LIST → j ≠ PCI_STATUS → aget (config d') j = aget (config d) j) by (intros j Hj H1 H2; rewrite Hcf by lia; apply Hcfg; done || lia).
  assert (Hmk : masks_ok d').
  { split; [cbn [d' init_device set_wmask set_config config]; by apply set_long_fits, set_long_fits, set_word_fits, Hm1| |rewrite Ew1; apply Hm|apply Hm1| |rewrite Ew1; apply Hm].
    - cbn [d' init_device set_msi set_wmask set_config wmask]. apply afits_aset; [apply Hm1|]. apply lor_fits; [lia|apply Hm1|]. split; [by vm_compute|by vm_compute].
    - intros j. rewrite Ew1. destruct (decide (o ≤ j < o + 12)); [rewrite Hw1 by lia; apply Z.land_0_r|]. rewrite Hwo by lia. apply Hm. }
  split; [|split; [|split; [|split; [|split; [|split; [|split; [|split]]]]]]].
  - apply (dev_ok_like d); [done|done|unfold d'; by rewrite Ed1|unfold d'; by rewrite Ed1|apply Hwo; unfold PCI_HEADER_TYPE; lia|].
    intros j Hj. unfold decoding, PCI_HEADER_TYPE in Hj. apply Hlow; unfold PCI_CAPABILITY_LIST, PCI_STATUS; lia.
  - apply (caps_ok_same d1); [done|done|]. intros j Hj. apply Hcf. destruct Hj as [->|[->|(o' & Hin & ->)]]; [unfold PCI_CAPABILITY_LIST; lia|unfold PCI_STATUS; lia|].
    apply elem_of_cons in Hin as [->|Hin]; [lia|]. destruct (co_place _ _ Hc o' Hin) as (_ & Hm4 & Hu). destruct (decide (o ≤ o' < o + align4 size)) as [Hr|]; [by destruct (Hu (Hfree o' Hr))|].
    pose proof (Z.div_mod o' 4). pose proof (Z.div_mod o 4). lia.
  - by apply lor_tst.
  - unfold d'. by rewrite Ed1.
  - unfold d'. by rewrite Ed1.
  - unfold d'. by rewrite Ed1.
  - unfold d'. by rewrite Ed1.
  - exact Hlow.
  - intros j Hj. apply Hwo. lia.
Qed.

(** Past the checks, the capability is written and every entry masked. *)
Lemma msix_init_eq cfuel a n tb tbn toff pb pbn poff s d o d1 :
  1 ≤ n ≤ PCI_MSIX_FLAGS_QSIZE + 1 → bad_layout n tb tbn toff pb pbn poff = false → devs (bus s) !! a = Some d →
  pci_add_capability cfuel PCI_CAP_ID_MSIX 0 MSIX_CAP_LENGTH d = Ok (o, d1) → 0 ≤ o →
  msix_init use_ret cfuel true a n tb tbn toff pb pbn poff 0 s =
    (s' ← msix_mask_all use_ret a n (put_mx a (mkMX o ∅ ∅ ∅ n true (notifiers (mx_of a s)) (poller (mx_of a s)))
      (set_bus (put_dev a (init_device n (Z.lor toff tbn) (Z.lor poff pbn) o d1) (bus s)) s)); Ok (0, s')).
Proof.
  intros Hn Hbad Ha Ec Ho. assert (Hg : (n <? 1) || (PCI_MSIX_FLAGS_QSIZE + 1 <? n) = false) by (apply orb_false_iff; split; apply Z.ltb_ge; lia).
  assert (Eg : get_dev a (bus s) = Ok d) by (unfold get_dev; by rewrite Ha). assert (Ho' : (o <? 0) = false) by by apply Z.ltb_ge.
  cbv beta delta [msix_init]. rewrite Hg, Hbad, Eg. cbv beta iota delta [negb mbind res_bind]. rewrite Ec. cbv beta iota. rewrite Ho'. reflexivity.
Qed.

(** Replacing a device by one with the same header, an MSI-X capability more, keeps the machine in order. *)
Lemma add_msix_ok s a d d' :
  sys_ok xops fuel s → devs s !! a = Some d → msi_present d = false → dev_ok d' → irq_state d' = irq_state d → cap_present d' = Z.lor (cap_present d) QEMU_PCI_CAP_MSIX →
  (∀ j, j < PCI_CONFIG_HEADER_SIZE → j ≠ PCI_CAPABILITY_LIST → j ≠ PCI_STATUS → aget (config d') j = aget (config d) j) →
  (∀ j, j < PCI_CONFIG_HEADER_SIZE → aget (wmask d') j = aget (wmask d) j) → dev_place d' = dev_place d → sys_ok xops fuel (put_dev a d' s).
Proof.
  intros Hs Ha Hmsi Hd' Hirq Hcp Hlow Hwm Hpl. destruct (so_devs _ _ _ Hs a d Ha) as (Hd & Hm & Hp1 & Hp2).
  assert (Ew : pci_get_word (config d') PCI_COMMAND = pci_get_word (config d) PCI_COMMAND).
  { unfold pci_get_word. f_equal. apply aread_same. intros j Hj. apply Hlow; unfold PCI_COMMAND, PCI_CAPABILITY_LIST, PCI_STATUS, PCI_CONFIG_HEADER_SIZE in *; lia. }
  eapply sys_ok_update; [exact Hs| |reflexivity|].
  - eapply put_dev_quiet; [apply Hs|exact Ha|exact Hpl|]. intros p _. unfold asserted, pci_irq_state, pci_irq_disabled. by rewrite Hirq, Ew.
  - split; [exact Hd'|]. split; [split; [|done]|].
    + intros Hmp. exfalso. unfold msi_present in Hmp, Hmsi. rewrite Hcp in Hmp. unfold tst in Hmp, Hmsi. rewrite Z.land_lor_distr_l in Hmp.
      change (Z.land QEMU_PCI_CAP_MSIX QEMU_PCI_CAP_MSI) with 0 in Hmp. rewrite Z.lor_0_r in Hmp. congruence.
    + split; [rewrite Hlow; [exact Hp1|..]|rewrite Hwm; [exact Hp2|]]; unfold PCI_INTERRUPT_PIN, PCI_CAPABILITY_LIST, PCI_STATUS, PCI_CONFIG_HEADER_SIZE; lia.
Qed.

Lemma init_disabled n tbl pba o d s : 1 ≤ n ≤ PCI_MSIX_FLAGS_QSIZE + 1 → msix_cap s = o → msix_enabled (init_device n tbl pba o d) s = false.
Proof.
  intros Hn <-. unfold msix_enabled, control. rewrite init_control by done. unfold PCI_MSIX_FLAGS_QSIZE in Hn. change MSIX_ENABLE_MASK with (2 ^ 7). rewrite tst_bit by lia.
  pose proof (Z.div_pos (n - 1) 256 ltac:(lia) ltac:(lia)). assert ((n - 1) / 256 < 2 ^ 7) by (apply Z.div_lt_upper_bound; lia). apply andb_false_iff. right.
  destruct (decide ((n - 1) / 256 = 0)) as [->|]; [apply Z.bits_0|]. apply Z.bits_above_log2; [lia|]. apply Z.log2_lt_pow2; lia.
Qed.

(** The state [msix_init] leaves: entries masked, nothing pending or in use. *)
Lemma masked_afresh n o a nt po s : 0 ≤ n →
  ∃ s' t, msix_mask_all use_ret a n (put_mx a (mkMX o ∅ ∅ ∅ n true nt po) s) = Ok s' ∧ bus s' = bus s ∧ (∀ b, b ≠ a → mx_of b s' = mx_of b s) ∧
    mx_of a s' = mkMX o t ∅ ∅ n true nt po ∧ ∀ v, 0 ≤ v < n → entry_masked (mx_of a s') v = true.
Proof.
  intros Hn. set (x1 := mkMX o ∅ ∅ ∅ n true nt po). destruct (mask_all_spec (seqZ 0 n) a (put_mx a x1 s)) as (s' & t & E & Hb & Hoth & Et & Hm & _).
  { intros v Hv%elem_of_seqZ. rewrite mx_of_put. apply has_vector_iff. cbn. lia. }
  exists s', t. rewrite mx_of_put in Et. split; [exact E|]. split; [exact Hb|]. split; [intros b Hba; rewrite Hoth by done; by apply mx_of_other|].
  split; [exact Et|]. intros v Hv. apply Hm, elem_of_seqZ. lia.
Qed.
Lemma fresh_inv n o t nt po : 1 ≤ n ≤ PCI_MSIX_FLAGS_QSIZE + 1 → msix_inv (mkMX o t ∅ ∅ n true nt po).
Proof. intros Hn. split; [cbn; lia|]. intros v _ Hv. unfold pending in Hv. cbn [msix_pba] in Hv. by rewrite aget_empty in Hv. Qed.

(** A device gets the capability: the function is disabled and masked, no vector waits, every entry
    is masked, and the machine is in order. *)
Lemma msix_init_ok cfuel a n tb tbn toff pb pbn poff s d l :
  mok s → devs (bus s) !! a = Some d → msi_present d = false → caps_ok d l → (∀ j, PCI_CONFIG_HEADER_SIZE ≤ j → aget (w1cmask d) j = 0) →
  has_room d MSIX_CAP_LENGTH → 1 ≤ n ≤ PCI_MSIX_FLAGS_QSIZE + 1 → bad_layout n tb tbn toff pb pbn poff = false →
  ∃ cap s' d', msix_init use_ret cfuel true a n tb tbn toff pb pbn poff 0 s = Ok (0, s') ∧ mok s' ∧ devs (bus s') = <[a := d']> (devs (bus s)) ∧ caps_ok d' (cap :: l) ∧
    msix_present d' = true ∧ msix_enabled d' (mx_of a s') = false ∧ msix_entries_nr (mx_of a s') = n ∧ msix_function_masked (mx_of a s') = true ∧
    (∀ v, 0 ≤ v < n → pending (mx_of a s') v = false ∧ entry_masked (mx_of a s') v = true ∧ used (mx_of a s') v = false) ∧ ∀ b, b ≠ a → mx_of b s' = mx_of b s.
Proof.
  intros [Hs Hi] Ha Hmsi Hc Hw1 Hr Hn Hbad. destruct (so_devs _ _ _ Hs a d Ha) as (Hd & _).
  destruct (add_capability_first cfuel PCI_CAP_ID_MSIX MSIX_CAP_LENGTH d l Hc ltac:(unfold MSIX_CAP_LENGTH; lia) Hr) as (o & Ea & Ho & Ho4 & Hfree & Hend).
  destruct (insert_capability_spec PCI_CAP_ID_MSIX o MSIX_CAP_LENGTH d l Hc (do_masks _ Hd) ltac:(done) Ho Ho4 ltac:(unfold MSIX_CAP_LENGTH; lia) Hfree Hend) as (d1 & E1 & _).
  destruct (init_device_ok n (Z.lor toff tbn) (Z.lor poff pbn) o MSIX_CAP_LENGTH d d1 l Hd Hc Hw1 eq_refl Ho Ho4 Hfree Hend E1) as (Hd' & Hc' & Hpr & Hpl & Hirq & _ & Hcp & Hlow & Hwm).
  rewrite (msix_init_eq cfuel a n tb tbn toff pb pbn poff s d o d1 Hn Hbad Ha (eq_trans Ea E1)) by (unfold PCI_CONFIG_HEADER_SIZE in Ho; lia).
  pose proof (λ x, init_disabled n (Z.lor toff tbn) (Z.lor poff pbn) o d1 x Hn) as Hen.
  generalize dependent (init_device n (Z.lor toff tbn) (Z.lor poff pbn) o d1). intros d' Hd' Hc' Hpr Hpl Hirq Hcp Hlow Hwm Hen.
  pose proof (add_msix_ok (bus s) a d d' Hs Ha Hmsi Hd' Hirq Hcp Hlow Hwm Hpl) as Hs'.
  destruct (masked_afresh n o a (notifiers (mx_of a s)) (poller (mx_of a s)) (set_bus (put_dev a d' (bus s)) s) ltac:(lia)) as (s' & t & E & Hb & Hoth & Et & Hm).
  rewrite E. exists o, s', d'. split; [reflexivity|]. rewrite Hb. split; [split; [rewrite Hb; exact Hs'|]|].
  - intros b. destruct (decide (b = a)) as [->|Hba]; [|rewrite Hoth by done; apply Hi]. rewrite Et. by apply fresh_inv.
  - split; [reflexivity|]. split; [exact Hc'|]. split; [exact Hpr|]. rewrite Et. split; [by apply Hen|]. split; [reflexivity|]. split; [reflexivity|]. split; [|exact Hoth].
    intros v Hv. rewrite <- Et. split; [|split; [by apply Hm|]]; rewrite Et; unfold pending, used; cbn [msix_pba msix_entry_used]; by rewrite aget_empty.
Qed.

End Proofs.

(** The layout of an exclusive region is always accepted. *)
Lemma exclusive_layout_ok n bar_nr :
  1 ≤ n → n * PCI_MSIX_ENTRY_SIZE ≤ MSIX_EXCLUSIVE_BAR_PBA_OFFSET →
  bad_layout n MSIX_EXCLUSIVE_BAR_SIZE bar_nr MSIX_EXCLUSIVE_BAR_TABLE_OFFSET MSIX_EXCLUSIVE_BAR_SIZE bar_nr MSIX_EXCLUSIVE_BAR_PBA_OFFSET = false.
Proof.
  intros H1 H2. assert (Hn : ∃ k : nat, n = Z.of_nat k ∧ (1 ≤ k ≤ 128)%nat).
  { exists (Z.to_nat n). unfold PCI_MSIX_ENTRY_SIZE, MSIX_EXCLUSIVE_BAR_PBA_OFFSET, MSIX_EXCLUSIVE_BAR_SIZE in H2. change (4096 / 2) with 2048 in H2. lia. }
  destruct Hn as (k & -> & Hk). assert (Hall : forallb (λ k, negb (bad_layout (Z.of_nat k) 4096 0 0 4096 0 2048)) (seq 1 128) = true) by (vm_compute; reflexivity).
  rewrite forallb_forall in Hall. specialize (Hall k ltac:(apply in_seq; lia)). apply negb_true_iff in Hall. rewrite <-Hall. unfold bad_layout. by rewrite Z.eqb_refl.
Qed.

(** ** A card with four vectors *)

(** A listener that takes every vector, and one that refuses vector 1. *)
Definition willing (ev : list (Z * event)) (a v : Z) (m : Z * Z) : Z := 0.
Definition unwilling (ev : list (Z * event)) (a v : Z) (m : Z * Z) : Z := if v =? 1 then -1 else 0.
Lemma willing_ok ev a v m : 0 ≤ willing ev a v m.
Proof. done. Qed.

(** The table is at 0x2000 and the pending array at 0x3000 of the memory region of the card. *)
Definition bare : Sys := mkS machine ∅ [].
Definition cards : Sys := match msix_init willing 2 true 1 4 (2 ^ 17) 0 0x2000 (2 ^ 17) 0 0x3000 0 bare with Ok (_, s) => s | _ => bare end.
Lemma bare_ok : mok 1 bare.
Proof.
  split.
  - destruct machine_ok as [Hk Hd]. split; [exact Hk|]. intros a d Ha. destruct (machine_devs a d Ha) as [-> ->]. destruct card_ok as (H1 & _ & H2).
    split; [exact H1|]. split; [|exact H2]. split; [|done]. intros Hm. exfalso. by vm_compute in Hm.
  - intros a. change (mx_of a bare) with (default no_msix_state ((∅ : gmap Z Msix) !! a)). rewrite lookup_empty. split; [cbn; unfold PCI_MSIX_FLAGS_QSIZE; lia|].
    intros v Hv%has_vector_iff. cbn in Hv. lia.
Qed.
Lemma card_room_msix : has_room card MSIX_CAP_LENGTH.
Proof. exists 64. split; [done|]. split; [done|]. intros j _. change (Pci.used card) with (∅ : arr). apply aget_empty. Qed.

(** The card with the capability: nothing else is new. *)
Lemma cards_init : msix_init willing 2 true 1 4 (2 ^ 17) 0 0x2000 (2 ^ 17) 0 0x3000 0 bare = Ok (0, cards) ∧ mok 1 cards.
Proof.
  destruct (msix_init_ok willing willing_ok 1 2 1 4 (2 ^ 17) 0 0x2000 (2 ^ 17) 0 0x3000 bare card [] bare_ok machine_card)
    as (cap & s' & d' & E & Hok & _); [vm_compute; reflexivity|exact card_caps|exact card_w1c|exact card_room_msix|unfold PCI_MSIX_FLAGS_QSIZE; lia|vm_compute; reflexivity|].
  assert (Es : cards = s') by (unfold cards; by rewrite E). rewrite Es. split; [exact E|exact Hok].
Qed.

(** The guest enables the function, the driver takes vectors 0 and 1, fills their entries and
    unmasks vector 0. *)
Definition setup : list xop :=
  [XWrite 1 67 0x80 1; XUse 1 0; XUse 1 1; XTable 1 0 0xfee00000; XTable 1 8 0x4030; XTable 1 16 0xfee00000; XTable 1 24 0x4031; XTable 1 12 0].
Definition ready : Sys := match xrun willing 1 setup cards with Ok s => s | _ => cards end.
Lemma ready_run : xrun willing 1 setup cards = Ok ready.
Proof.
  assert (H : is_ok (xrun willing 1 setup cards) = true) by (vm_compute; reflexivity).
  unfold ready. by destruct (xrun willing 1 setup cards).
Qed.
(** Sizes and addresses of operations of the card, checked. *)
Definition xop_okb (n : Z) (o : xop) : bool :=
  match o with
  | XPin _ => false
  | XWrite a addr val l => (a =? 1) && (PCI_CONFIG_HEADER_SIZE <=? addr) && (addr + l <=? PCI_CONFIG_SPACE_SIZE) && (0 <=? l) && (l <=? 4)
  | XTable a addr val => (a =? 1) && (0 <=? addr) && (addr mod 4 =? 0) && (addr + 4 <=? n * PCI_MSIX_ENTRY_SIZE)
  | XNotify a v | XUse a v | XUnuse a v => 0 <=? v
  end.
Lemma xop_okb_ok s n o : is_Some (devs (bus s) !! 1) → msix_entries_nr (mx_of 1 s) = n → xop_okb n o = true → xop_ok s o.
Proof.
  intros Hs Hn. destruct o as [o|a addr val l|a addr val|a v|a v|a v]; cbn [xop_okb xop_ok op_ok]; rewrite ?andb_true_iff, ?Z.leb_le, ?Z.eqb_eq; try done.
  - intros [[[[-> H1] H2] H3] H4]. unfold PCI_CONFIG_HEADER_SIZE, PCI_COMMAND in *. split; [lia|done].
  - intros [[[-> H1] H2] H3]. unfold table_size. rewrite Hn. done.
Qed.
Lemma xops_okb s l : is_Some (devs (bus s) !! 1) → msix_entries_nr (mx_of 1 s) = 4 → forallb (xop_okb 4) l = true → Forall (xop_ok s) l.
Proof. intros Hs Hn Hl. apply Forall_forall. intros o Ho. eapply xop_okb_ok; [done|done|]. rewrite forallb_forall in Hl. by apply Hl, list_elem_of_In. Qed.

Lemma some_dev (s : Sys) : match devs (bus s) !! 1 with Some _ => true | None => false end = true → is_Some (devs (bus s) !! 1).
Proof. by destruct (devs (bus s) !! 1). Qed.
Lemma ready_dev : is_Some (devs (bus ready) !! 1).
Proof. apply some_dev. vm_compute. reflexivity. Qed.
Lemma ready_ok : mok 1 ready.
Proof.
  destruct (xrun_ok willing willing_ok 1 setup cards (proj2 cards_init)) as (s & out & E & Hs & _).
  { apply xops_okb; [apply some_dev|..]; vm_compute; reflexivity. }
  rewrite ready_run in E. apply Ok_inj in E as ->. exact Hs.
Qed.

(** Vector 1 is signalled while its entry is masked, vector 0 is signalled, vector 1 is unmasked. *)
Definition story : list xop := [XNotify 1 0; XTable 1 28 0].
Lemma story_ok : Forall (λ o, xop_ok ready o ∧ leaves 1 1 o) story.
Proof.
  apply Forall_and. split; [apply xops_okb; [exact ready_dev|vm_compute; reflexivity..]|]. unfold story. repeat (apply Forall_cons; split; [by split|]). by apply Forall_nil.
Qed.
Lemma ready_vector : has_vector (mx_of 1 ready) 1 = true ∧ used (mx_of 1 ready) 1 = true.
Proof. split; vm_compute; reflexivity. Qed.
Lemma msix_notified_witness :
  ∃ s', xrun willing 1 (XNotify 1 1 :: story) ready = Ok s' ∧ mok 1 s' ∧
    (pending (mx_of 1 s') 1 = true ∧ masked (mx_of 1 s') 1 = true ∨
     ∃ l1 l2 s1 out, XNotify 1 1 :: story = l1 ++ l2 ∧ xrun willing 1 l1 ready = Ok s1 ∧ sent (bus s1) = sent (bus ready) ++ out ∧ message (mx_of 1 s1) 1 ∈ out).
Proof. exact (msix_notified willing willing_ok 1 story ready 1 1 ready_ok (proj1 ready_vector) (proj2 ready_vector) story_ok). Defined.
Example story_messages :
  (s ← xrun willing 1 (XNotify 1 1 :: story) ready; Ok (sent (bus s))) = Ok [(0xfee00000, 0x4030); (0xfee00000, 0x4031)].
Proof. vm_compute. reflexivity. Qed.

(** Checks of all devices with MSI-X fields. *)
Definition check_mx (P : Z → Msix → bool) (s : Sys) : bool := forallb (λ p, P p.1 p.2) (map_to_list (mx s)).
Lemma check_mx_ok P s a : check_mx P s = true → P a no_msix_state = true → P a (mx_of a s) = true.
Proof.
  intros Hc H0. unfold mx_of. destruct (mx s !! a) as [x|] eqn:E; [|exact H0]. unfold check_mx in Hc. rewrite forallb_forall in Hc.
  apply (Hc (a, x)), list_elem_of_In, elem_of_map_to_list. exact E.
Qed.
Definition all_vectors (x : Msix) (P : Z → bool) : bool := forallb P (seqZ 0 (msix_entries_nr x)).
Lemma all_vectors_ok x P v : all_vectors x P = true → has_vector x v = true → P v = true.
Proof. unfold all_vectors. rewrite forallb_forall. intros Ha Hv%has_vector_iff. apply Ha, list_elem_of_In, elem_of_seqZ. lia. Qed.
Definition attentive_b (ev : list (Z * event)) (a : Z) (x : Msix) : bool :=
  negb (notifiers x) || all_vectors x (λ v, Bool.eqb (bool_decide (v ∈ listens a ev)) (negb (masked x v))).
Lemma attentive_check s : check_mx (attentive_b (events s)) s = true → attentive s.
Proof.
  intros Hc a v Hn Hv. pose proof (check_mx_ok _ s a Hc eq_refl) as Ha. unfold attentive_b in Ha. rewrite Hn in Ha. cbn [negb orb] in Ha.
  pose proof (all_vectors_ok _ _ v Ha Hv) as Hb. apply Bool.eqb_prop in Hb. destruct (masked (mx_of a s) v); [apply bool_decide_eq_false_1 in Hb|apply bool_decide_eq_true_1 in Hb]; done.
Qed.
Definition inv_b (x : Msix) : bool :=
  (0 <=? msix_entries_nr x) && (msix_entries_nr x <=? PCI_MSIX_FLAGS_QSIZE + 1) && all_vectors x (λ v, implb (pending x v) (masked x v)).
Lemma inv_check s a : check_mx (λ _, inv_b) s = true → msix_inv (mx_of a s).
Proof.
  intros Hc. pose proof (check_mx_ok _ s a Hc eq_refl) as Ha. unfold inv_b in Ha. rewrite !andb_true_iff, !Z.leb_le in Ha. destruct Ha as [Hn Ha]. split; [exact Hn|].
  intros v Hv Hp. pose proof (all_vectors_ok _ _ v Ha Hv) as Hi. cbv beta in Hi. by rewrite Hp in Hi.
Qed.

(** A listener registers; the guest masks the function, unmasks vector 1, and unmasks the function. *)
Definition heard : Sys := match msix_set_vector_notifiers willing 1 true ready with Ok (_, s) => s | _ => ready end.
Lemma heard_ok : mok 1 heard.
Proof.
  assert (Hb : bus heard = bus ready) by (vm_compute; reflexivity). split; [rewrite Hb; exact (proj1 ready_ok)|]. intros a. apply inv_check. vm_compute. reflexivity.
Qed.
Definition heard_story : list xop := [XWrite 1 67 0xc0 1; XTable 1 28 0; XWrite 1 67 0x80 1; XNotify 1 1].
Lemma heard_story_ok : Forall (xop_ok heard) heard_story ∧ stays_enabled willing 1 heard_story heard = true.
Proof. split; [apply xops_okb; [apply some_dev|..]|]; vm_compute; reflexivity. Qed.
Lemma heard_attentive : attentive heard.
Proof. apply attentive_check. vm_compute. reflexivity. Qed.
Lemma msix_listeners_witness : ∃ s', xrun willing 1 heard_story heard = Ok s' ∧ attentive s'.
Proof. exact (msix_listeners willing willing_ok 1 heard_story heard heard_ok heard_attentive (proj1 heard_story_ok) (proj2 heard_story_ok)). Defined.
Example heard_events :
  (s ← xrun willing 1 heard_story heard; Ok (map snd (events s))) =
  Ok [Use 0 (0xfee00000, 0x4030) 0; Poll 0 4; Release 0; Use 0 (0xfee00000, 0x4030) 0; Use 1 (0xfee00000, 0x4031) 0].
Proof. vm_compute. reflexivity. Qed.

(** Both vectors may fire, and a listener refuses the second: it is not registered, and the first is
    released again. *)
Definition both : Sys := match xrun willing 1 [XTable 1 28 0] ready with Ok s => s | _ => ready end.
Definition both_card : PCIDevice := default card (devs (bus both) !! 1).
Lemma both_card_in : devs (bus both) !! 1 = Some both_card.
Proof. destruct (some_dev both) as [d E]; [vm_compute; reflexivity|]. unfold both_card. by rewrite E. Qed.
Lemma both_start : listens 1 (events both) = ∅ ∧ msix_function_masked (mx_of 1 both) = negb (may_fire both_card (mx_of 1 both)).
Proof. split; vm_compute; reflexivity. Qed.
Lemma msix_set_vector_notifiers_spec_witness :
  ∃ ret s', msix_set_vector_notifiers unwilling 1 true both = Ok (ret, s') ∧ bus s' = bus both ∧ (∀ b, b ≠ 1 → mx_of b s' = mx_of b both ∧ listens b (events s') = listens b (events both)) ∧
    (∃ n, mx_of 1 s' = set_notifiers n true (mx_of 1 both)) ∧
    (ret = 0 ∧ notifiers (mx_of 1 s') = true ∧ (∀ v, has_vector (mx_of 1 s') v = true → v ∈ listens 1 (events s') ↔ masked (mx_of 1 s') v = false) ∨
     ret < 0 ∧ (∃ v, has_vector (mx_of 1 both) v = true ∧ answered unwilling 1 v ret both) ∧ notifiers (mx_of 1 s') = false ∧ listens 1 (events s') = ∅).
Proof. exact (msix_set_vector_notifiers_spec unwilling 1 true both both_card both_card_in (proj1 both_start) (proj2 both_start)). Defined.
(** What it was told; the function that polls stays set. *)
Example refused_events :
  ('(ret, s) ← msix_set_vector_notifiers unwilling 1 true both; Ok (ret, map snd (events s), notifiers (mx_of 1 s), poller (mx_of 1 s))) =
  Ok (-1, [Use 0 (0xfee00000, 0x4030) 0; Use 1 (0xfee00000, 0x4031) (-1); Release 0], false, true).
Proof. vm_compute. reflexivity. Qed.

(** Vector 1 waits when the machine is saved; the target has the card enabled and blank. *)
Definition waiting : Sys := match xrun willing 1 [XNotify 1 1] ready with Ok s => s | _ => ready end.
Definition target : Sys := match xrun willing 1 [XWrite 1 67 0x80 1] cards with Ok s => s | _ => cards end.
Definition target_card : PCIDevice := default card (devs (bus target) !! 1).
Lemma target_card_in : devs (bus target) !! 1 = Some target_card.
Proof. destruct (some_dev target) as [d E]; [vm_compute; reflexivity|]. unfold target_card. by rewrite E. Qed.
Lemma waiting_inv : msix_inv (mx_of 1 waiting).
Proof. apply inv_check. vm_compute. reflexivity. Qed.
Lemma waiting_like : msix_present target_card = true ∧ msix_present both_card = true ∧ msix_entries_nr (mx_of 1 target) = msix_entries_nr (mx_of 1 waiting) ∧
  msix_function_masked (msix_update_function_masked target_card (mx_of 1 target)) = msix_function_masked (mx_of 1 waiting).
Proof. split_and!; vm_compute; reflexivity. Qed.
Lemma msix_migrates_witness :
  ∃ s', msix_load willing 1 (msix_save both_card (mx_of 1 waiting) ++ [7]) target = Ok ([7], s') ∧ bus s' = bus target ∧ (∀ b, b ≠ 1 → mx_of b s' = mx_of b target) ∧
    let x' := mx_of 1 s' in
    msix_entries_nr x' = msix_entries_nr (mx_of 1 waiting) ∧ msix_function_masked x' = msix_function_masked (mx_of 1 waiting) ∧ msix_entry_used x' = msix_entry_used (mx_of 1 target) ∧
    ∀ v, has_vector (mx_of 1 waiting) v = true → pending x' v = pending (mx_of 1 waiting) v ∧ masked x' v = masked (mx_of 1 waiting) v ∧ message x' v = message (mx_of 1 waiting) v.
Proof.
  destruct waiting_like as (H1 & H2 & H3 & H4).
  exact (msix_migrates willing willing_ok 1 target target_card both_card (mx_of 1 waiting) [7] target_card_in H1 H2 waiting_inv H3 H4).
Defined.
Example waiting_pending : pending (mx_of 1 waiting) 1 = true.
Proof. vm_compute. reflexivity. Qed.

(** *** What the code does not do *)

(** A reset disables MSI-X but the mask of the function stays as it was: the guest unmasks an entry
    and the vector fires, with MSI-X disabled. *)
Example reset_leaves_unmasked :
  (s ← device_reset_msix willing (λ _ b, Ok b) 1 1 ready; s ← xrun willing 1 [XTable 1 12 0; XNotify 1 0] s; d ← get_dev 1 (bus s);
   Ok (msix_enabled d (mx_of 1 s), msix_function_masked (mx_of 1 s), sent (bus s))) = Ok (false, false, [(0, 0)]).
Proof. vm_compute. reflexivity. Qed.
(** Disabling MSI-X releases nothing: the listener is told to use vector 0 again. *)
Example disabling_releases_nothing :
  (s ← xrun willing 1 [XWrite 1 67 0 1; XWrite 1 67 0x80 1] heard; Ok (map snd (events s))) =
  Ok [Use 0 (0xfee00000, 0x4030) 0; Poll 0 4; Use 0 (0xfee00000, 0x4030) 0].
Proof. vm_compute. reflexivity. Qed.
(** 128 vectors in a region of their own; a read of the bits of vectors 64 to 95 polls from 64 to 40. *)
Example poll_range_empty :
  (r ← msix_init_exclusive_bar willing 2 true 1 128 2 bare;
   match r with
   | Some (0, s) => '(_, s) ← msix_set_vector_notifiers willing 1 true s; '(_, s) ← msix_pba_mmio_read 1 8 4 s; Ok (map snd (events s))
   | _ => Fault AssertFail
   end) = Ok [Poll 0 128; Poll 64 40].
Proof. vm_compute. reflexivity. Qed.
(** The capability is taken away again. *)
Example exclusive_undone :
  (r ← msix_init_exclusive_bar willing 2 true 1 128 2 bare;
   match r with Some (0, s) => s ← msix_uninit_exclusive_bar 2 1 s; d ← get_dev 1 (bus s); Ok (msix_present d, aget (config d) PCI_CAPABILITY_LIST, msix_entries_nr (mx_of 1 s)) | _ => Fault AssertFail end)
  = Ok (false, 0, 0).
Proof. vm_compute. reflexivity. Qed.

End Msix.
