(* ===== verification/BusDevice.v ===== *)
(** The network device on a PCI bus: a world whose interrupt pin is the pin of a PCI device
    ([PciBus]), beside any world of the device, and what the host sees of the device's interrupts
    while other devices move their pins and the guest writes to configuration spaces. *)

From S2P Require Import Prelude Regs Iov NetQueue Device Board Intr Mmio Lifecycle System Pci PciBus.
Import Intr Mmio Lifecycle System.

Module BusDevice.

Section Bus.
Context (rfuel : nat) (a : Z) (msi : PciBus.MsiOps) {Hmsi : PciBus.MsiLaws msi} (W : Type).

(** ** A world with a bus *)

(** The buses in order, with the device at address [a], which uses its pin only. *)
Definition bus_ok (p : PciBus.PciSys) : Prop := PciBus.sys_ok msi rfuel p ∧ ∃ d, PciBus.devs p !! a = Some d ∧ PciBus.no_msi d.

Record OnBus : Type := mkOnBus {
  ob_base : W;
  ob_sys : PciBus.PciSys;
  ob_ok : bus_ok ob_sys;
}.
Definition on_base (f : W → W) (w : OnBus) : OnBus := mkOnBus (f (ob_base w)) (ob_sys w) (ob_ok w).

(** [pci_set_irq(d, level)]. *)
Definition drive (b : bool) (p : PciBus.PciSys) : PciBus.PciSys :=
  match PciBus.pci_set_irq rfuel a (Z.b2z b) p with Ok p' => p' | _ => p end.

(** The level of the device's pin. *)
Definition pin_level (p : PciBus.PciSys) : bool :=
  match PciBus.devs p !! a with Some d => PciBus.pci_irq_state d (PciBus.pci_intx d) =? 1 | None => false end.

Lemma moved_intx d q level : PciBus.pci_intx (PciBus.moved q level d) = PciBus.pci_intx d.
Proof.
  unfold PciBus.pci_intx, PciBus.moved, Pci.pci_get_byte. destruct (level =? _); [done|]. unfold PciBus.pci_update_irq_status.
  cbn [Pci.set_config Pci.config]. by rewrite aget_aset_ne.
Qed.

Lemma drive_spec b p d :
  PciBus.sys_ok msi rfuel p → PciBus.devs p !! a = Some d →
  PciBus.pci_set_irq rfuel a (Z.b2z b) p = Ok (drive b p) ∧ PciBus.sys_ok msi rfuel (drive b p) ∧ PciBus.same_topology p (drive b p) ∧
  ∃ d', PciBus.devs (drive b p) !! a = Some d' ∧ PciBus.statics d' = PciBus.statics d ∧ PciBus.pci_intx d' = PciBus.pci_intx d ∧ PciBus.pci_irq_state d' (PciBus.pci_intx d) = Z.b2z b.
Proof.
  intros Hp Ha. destruct (PciBus.so_devs _ _ _ Hp a d Ha) as (_ & _ & Hpin & _).
  assert (Hin : PciBus.pci_intx d ∈ PciBus.pins) by (apply PciBus.in_pins; unfold PciBus.pci_intx, Pci.pci_get_byte; lia).
  assert (Hl : Z.b2z b = 0 ∨ Z.b2z b = 1) by (destruct b; [by right|by left]).
  destruct (PciBus.pci_irq_handler_ok msi Hmsi rfuel p a d _ (Z.b2z b) Hp Ha Hin Hl) as (p' & E & Hp' & Ht & Ha').
  assert (Es : PciBus.pci_set_irq rfuel a (Z.b2z b) p = Ok p').
  { unfold PciBus.pci_set_irq, PciBus.get_dev. rewrite Ha. cbn [mbind res_bind]. apply PciBus.in_pins in Hin.
    assert (Hr : (0 <=? PciBus.pci_intx d) && (PciBus.pci_intx d <? 32) = true) by (apply andb_true_iff; split; [apply Z.leb_le|apply Z.ltb_lt]; lia).
    by rewrite Hr. }
  unfold drive. rewrite Es. split; [done|]. split; [done|]. split; [done|]. exists (PciBus.moved (PciBus.pci_intx d) (Z.b2z b) d).
  split; [by rewrite Ha', lookup_insert_eq|]. split; [apply PciBus.moved_statics|]. split; [apply moved_intx|]. rewrite PciBus.moved_state by done. by rewrite Z.eqb_refl.
Qed.

Lemma no_msi_statics d d' : PciBus.statics d' = PciBus.statics d → PciBus.no_msi d → PciBus.no_msi d'.
Proof. intros [= _ _ E _ _ _]. unfold PciBus.no_msi, PciBus.no_msix. by rewrite E. Qed.
Lemma drive_bus_ok b p : bus_ok p → bus_ok (drive b p).
Proof.
  intros [Hp (d & Ha & Hn)]. destruct (drive_spec b p d Hp Ha) as (_ & H & _ & d' & H' & Hs & _). split; [done|]. exists d'. split; [done|].
  by apply (no_msi_statics d).
Qed.

#[export] Instance OnBusEnv `{DeviceEnv W} : DeviceEnv OnBus := {
  pci_dma_read x buf w := let '(l, b) := pci_dma_read x buf (ob_base w) in (l, mkOnBus b (ob_sys w) (ob_ok w));
  pci_dma_write x l := on_base (pci_dma_write x l);
  pci_set_irq b w := mkOnBus (ob_base w) (drive b (ob_sys w)) (drive_bus_ok b (ob_sys w) (ob_ok w));
  timer_mod t e := on_base (timer_mod t e);
  timer_del t := on_base (timer_del t);
  qemu_clock_get_ns w := qemu_clock_get_ns (ob_base w);
  qemu_clock_get_ms w := qemu_clock_get_ms (ob_base w);
  net_send l := on_base (net_send l);
  net_hub_flush w := let '(f, b) := net_hub_flush (ob_base w) in (f, mkOnBus b (ob_sys w) (ob_ok w));
  qemu_notify_event := on_base qemu_notify_event;
  packet_sent_cb x b c := on_base (packet_sent_cb x b c);
  stack_bytes := stack_bytes;
}.

#[export] Instance OnBusLaws `{DeviceEnvLaws W} : DeviceEnvLaws OnBus.
Proof.
  split; intros; cbn.
  - pose proof (dma_read_length a0 buf (ob_base w)). by destruct (pci_dma_read a0 buf (ob_base w)).
  - pose proof (dma_read_bytes a0 buf (ob_base w)). destruct (pci_dma_read a0 buf (ob_base w)). cbn in *. auto.
  - apply stack_length.
  - apply stack_fits.
Qed.

(** The pin on the bus is an interrupt pin for the device. *)
#[export] Instance OnBusPin `{DeviceEnv W} : IrqPin OnBus.
Proof.
  refine {| irq_line w := pin_level (ob_sys w) |}; try done.
  - intros b w. cbn. destruct (ob_ok w) as [Hp (d & Ha & _)]. destruct (drive_spec b _ d Hp Ha) as (_ & _ & _ & d' & Ha' & _ & Ei & Es).
    unfold pin_level. rewrite Ha', Ei, Es. by destruct b.
  - intros x l w. cbn. by destruct (pci_dma_read x l (ob_base w)).
  - intros w. cbn. by destruct (net_hub_flush (ob_base w)).
Defined.

#[export] Instance OnBusTimers `{TimerWorld W} : TimerWorld OnBus.
Proof.
  refine {| timer_inv w := timer_inv (ob_base w); armed t w := armed t (ob_base w) |}.
  - intros t e w. apply (armed_mod t e (ob_base w)).
  - intros t e w. exact (timers_mod t e (ob_base w)).
  - intros t w. exact (timers_del t (ob_base w)).
  - intros x l w. pose proof (timers_read x l (ob_base w)) as Hk. cbn. by destruct (pci_dma_read x l (ob_base w)).
  - intros x l w. exact (timers_write x l (ob_base w)).
  - intros b w Hi. by split.
  - intros l w. exact (timers_send l (ob_base w)).
  - intros w. pose proof (timers_hub (ob_base w)) as Hk. cbn. by destruct (net_hub_flush (ob_base w)).
  - intros w. exact (timers_notify (ob_base w)).
  - intros x b c w. exact (timers_sent x b c (ob_base w)).
Defined.
End Bus.
Arguments mkOnBus {_ _ _ _} ob_base ob_sys ob_ok.
Arguments ob_base {_ _ _ _} o.
Arguments ob_sys {_ _ _ _} o.

(** ** The device among others *)

Section Composition.
Context (rfuel : nat) (a : Z) (msi : PciBus.MsiOps) {Hmsi : PciBus.MsiLaws msi}.

(** What others do on the bus: any operation that is not the device moving its pin. *)
Definition others (o : PciBus.pci_op) : Prop :=
  match o with PciBus.OpWrite _ _ _ _ => True | _ => PciBus.op_dev o ≠ a end.
Definition ops_ok (p : PciBus.PciSys) (l : list PciBus.pci_op) : Prop :=
  Forall (λ o, PciBus.op_ok o ∧ is_Some (PciBus.devs p !! PciBus.op_dev o)) l.

(** The device as others leave it. *)
Definition pin_kept (p p' : PciBus.PciSys) : Prop :=
  (∃ d, PciBus.devs p' !! a = Some d ∧ PciBus.no_msi d) ∧ pin_level a p' = pin_level a p.

Lemma pin_kept_other p p' x d da :
  PciBus.devs p !! a = Some da → PciBus.no_msi da → PciBus.devs p' = <[x := d]> (PciBus.devs p) → x ≠ a → pin_kept p p'.
Proof. intros Ha Hn E Hne. unfold pin_kept, pin_level. rewrite E, lookup_insert_ne, Ha by done. split; [by exists da|done]. Qed.

Lemma exec_pin o p p' :
  bus_ok rfuel a msi p → PciBus.op_ok o → is_Some (PciBus.devs p !! PciBus.op_dev o) → others o →
  PciBus.exec msi rfuel o p = Ok p' → pin_kept p p'.
Proof.
  intros [Hp (da & Ha & Hna)] Ho [d Hd] Hq E. destruct (PciBus.so_devs _ _ _ Hp _ _ Hd) as (Hdev & Hmd & Hpin & Hwm). pose proof (PciBus.so_counts _ _ _ Hp) as Hk.
  destruct o as [x q level|x level|x|x addr val len]; cbn [PciBus.op_ok PciBus.op_dev PciBus.exec others] in *.
  - destruct Ho as [Hq' Hl]. destruct (PciBus.pci_irq_handler_counts rfuel p x d q level Hk Hd Hq' Hl) as (p1 & E1 & _ & _ & Ed).
    rewrite E in E1. injection E1 as <-. by eapply pin_kept_other.
  - unfold PciBus.pci_set_irq, PciBus.get_dev in E. rewrite Hd in E. cbn [mbind res_bind] in E. unfold PciBus.pci_intx, Pci.pci_get_byte in E.
    destruct (negb _); [done|]. destruct (PciBus.pci_irq_handler_counts rfuel p x d (aget (Pci.config d) Pci.PCI_INTERRUPT_PIN - 1) level Hk Hd) as (p1 & E1 & _ & _ & Ed); [apply PciBus.in_pins; lia|done|].
    rewrite E in E1. injection E1 as <-. by eapply pin_kept_other.
  - destruct (PciBus.deassert_loop_counts PciBus.pins rfuel p x d Hk Hd ltac:(done)) as (p1 & d1 & E1 & _ & _ & Ed & _).
    unfold PciBus.pci_device_deassert_intx in E. rewrite E in E1. injection E1 as <-. by eapply pin_kept_other.
  - destruct Ho as (Hadr & Hl & Hsz & Hcmd). pose proof (Pci.config_size_ge d) as Hcs. destruct (decide (x = a)) as [->|Hne].
    + rewrite Ha in Hd. injection Hd as ->. destruct (PciBus.quiet_write_ok msi Hmsi rfuel p a d addr val len)
        as (p1 & d1 & E1 & _ & _ & Ed & _ & _ & Est & Ei & Hw & _); [done..|by left|done|done|lia|done|].
      rewrite E in E1. injection E1 as <-. unfold pin_kept, pin_level. rewrite Ed, lookup_insert_eq, Ha.
      split; [exists d1; split; [done|by eapply no_msi_statics]|]. unfold PciBus.pci_irq_state, PciBus.pci_intx, Pci.pci_get_byte. rewrite Ei, Hw.
      rewrite Pci.written_readonly; [done|apply Hdev|done|]. apply (Pci.mo_header _ (PciBus.do_masks _ Hdev)). unfold Pci.PCI_STATUS, Pci.PCI_INTERRUPT_PIN, Pci.PCI_CONFIG_HEADER_SIZE. lia.
    + destruct (PciBus.pci_default_write_config_ok msi Hmsi rfuel p x d addr val len) as (p1 & d1 & E1 & _ & _ & Ed & _); [done..|lia|done|].
      rewrite E in E1. injection E1 as <-. by eapply pin_kept_other.
Qed.

Lemma run_pin l p p' :
  bus_ok rfuel a msi p → ops_ok p l → Forall others l → PciBus.run msi rfuel l p = Ok p' → bus_ok rfuel a msi p' ∧ pin_level a p' = pin_level a p.
Proof.
  revert p. induction l as [|o l IH]; intros p Hp Hl Hq E; cbn [PciBus.run] in E; [by injection E as <-|].
  apply Forall_cons in Hl as [[Ho Hd] Hl]. apply Forall_cons in Hq as [Hq1 Hq].
  destruct (PciBus.exec_ok msi Hmsi rfuel p o (proj1 Hp) Ho Hd) as (p1 & E1 & Hp1 & Ht). destruct (exec_pin o p p1 Hp Ho Hd Hq1 E1) as [Ha1 Hpin].
  rewrite E1 in E. cbn [mbind res_bind] in E. destruct (IH p1) as [Hok He]; [by split| |done|done|split; [done|congruence]].
  eapply Forall_impl; [exact Hl|]. intros o' [Ho' Hd']. split; [done|]. pose proof (proj1 Ht (PciBus.op_dev o')) as Ex.
  destruct (PciBus.devs p !! PciBus.op_dev o'), (PciBus.devs p1 !! PciBus.op_dev o'); try done.
Qed.

Context {W : Type} `{DeviceEnvLaws W} `{!TimerWorld W}.
Implicit Types s : Machine (OnBus rfuel a msi W).

(** The entry points of the device but its reset. *)
Inductive device_step (fuel : nat) : Machine (OnBus rfuel a msi W) → Machine (OnBus rfuel a msi W) → Prop :=
| dev_write addr val s s' : e1000_mmio_write fuel addr val s = Ok s' → device_step fuel s s'
| dev_read addr s : device_step fuel s (snd (e1000_mmio_read addr s))
| dev_packet sender flags data cb ret s s' :
    0 < Z.of_nat (length data) < 2 ^ 31 - 64 →
    peer_send fuel sender flags data cb s = Ok (ret, s') → device_step fuel s s'
| dev_link up s : device_step fuel s (set_link up s)
| dev_autoneg s : device_step fuel s (e1000_autoneg_timer s)
| dev_mitigation s : device_step fuel s (e1000_mit_timer s)
| dev_save s : device_step fuel s (e1000_pre_save s).

Lemma device_step_step fuel s s' : device_step fuel s s' → step fuel s s'.
Proof. destruct 1; by econstructor. Qed.

(** Everything that happens between resets: the device, others on the bus, and the rest of the
    world as far as it leaves the device's timers in order. *)
Inductive bus_reachable (fuel : nat) : Machine (OnBus rfuel a msi W) → Prop :=
| bus_init s : initial s → bus_reachable fuel s
| bus_step s s' : bus_reachable fuel s → device_step fuel s s' → bus_reachable fuel s'
| bus_other s l p (Hp : bus_ok rfuel a msi p) :
    bus_reachable fuel s → ops_ok (ob_sys (world s)) l → Forall others l →
    PciBus.run msi rfuel l (ob_sys (world s)) = Ok p →
    bus_reachable fuel (upd_world (λ w, mkOnBus (ob_base w) p Hp) s)
| bus_world s w :
    bus_reachable fuel s → timers_kept timer_inv armed (ob_base (world s)) w →
    bus_reachable fuel (upd_world (on_base rfuel a msi W (λ _, w)) s).

Lemma bus_inv fuel s : bus_reachable fuel s → mach_ok s.
Proof.
  induction 1 as [s Hi|s s' _ IH Hs|s l p Hp _ IH Hl Hq E|s w _ IH Hw].
  - by eapply reachable_inv, (reach_init fuel).
  - eapply step_ok; [done|by apply device_step_step].
  - destruct IH as [Hd Hn]. split; [|done]. apply dev_ok_world; [|done]. split; [|by intros].
    by destruct (run_pin l _ p (ob_ok _ _ _ _ (world s)) Hl Hq E).
  - destruct IH as [Hd Hn]. split; [|done]. by apply dev_ok_world.
Qed.

(** C15: The host sees the device's interrupts.  Whatever the guest, the peer and the timers do to the
    device between its resets, other devices to their pins and the guest to configuration spaces (by
    writes that do not start at the upper byte of the command register), in any order: while an
    unmasked cause is pending, not held back by the mitigation timer, and the guest has not disabled
    the device's pin, the line its pin is routed to is up; and when no unmasked cause is pending, the
    line is up only if another pin drives it. *)
Theorem e1000_interrupt_reaches_host fuel s d b irq x :
  bus_reachable fuel s → PciBus.devs (ob_sys (world s)) !! a = Some d →
  PciBus.irq_route rfuel a (PciBus.pci_intx d) (ob_sys (world s)) = Ok (b, irq) → PciBus.buses (ob_sys (world s)) !! b = Some x →
  let line := default false (PciBus.host_irq x !! irq) in
  (pending (dev s) ≠ 0 → mit_timer_on (dev s) = false → Pci.pci_irq_disabled d = false → line = true) ∧
  (pending (dev s) = 0 → line = true →
     ∃ a' p', p' ∈ PciBus.pins ∧ (a', p') ≠ (a, PciBus.pci_intx d) ∧ PciBus.drives rfuel (ob_sys (world s)) b irq a' p').
Proof.
  intros Hr%bus_inv Ha Hrt Hb line. destruct (ob_ok _ _ _ _ (world s)) as [Hp _]. destruct (PciBus.so_devs _ _ _ Hp a d Ha) as (_ & _ & Hpin & _).
  pose proof (PciBus.so_counts _ _ _ Hp) as Hk. set (q := PciBus.pci_intx d) in *.
  assert (Hin : q ∈ PciBus.pins) by (apply PciBus.in_pins; unfold q, PciBus.pci_intx, Pci.pci_get_byte; lia).
  destruct (PciBus.ct_route _ _ _ Hk a d q Ha Hin) as (b' & irq' & x' & Hrt' & Hb' & Hx & Hi). rewrite Hrt in Hrt'. injection Hrt' as <- <-. rewrite Hb in Hb'. injection Hb' as <-.
  destruct (PciBus.counts_line rfuel _ b x irq Hk Hb Hx Hi) as [_ Hor]. fold line in Hor.
  destruct Hr as [[Hbase [Hup Hdown] _] _]. pose proof (bo_pin _ Hbase) as Hlev.
  assert (Hst : (PciBus.pci_irq_state d q =? 1) = mit_irq_level (dev s)). { rewrite <-Hlev. cbn. unfold pin_level. by rewrite Ha. }
  split.
  - intros Hpe Hm Hdis. destruct (Hdown Hpe) as [Hl|Hl]; [|congruence]. apply Hor. exists a, q. split; [done|].
    exists d. rewrite Hl in Hst. apply Z.eqb_eq in Hst. done.
  - intros Hz Hline. apply Hor in Hline as (a' & p' & Hp' & Hdr). exists a', p'. split; [done|]. split; [|done].
    intros [= -> ->]. destruct Hdr as (d' & Ha' & _ & Hs' & _). rewrite Ha in Ha'. injection Ha' as <-.
    rewrite Hs' in Hst. cbn in Hst. by apply Hup.
Qed.
End Composition.

(** ** Witness: a link change seen by the host *)

Lemma machine_bus_ok : bus_ok 1 1 PciBus.nomsi PciBus.machine.
Proof. split; [apply PciBus.machine_ok|]. exists PciBus.card. split; [apply PciBus.machine_card|]. split; vm_compute; reflexivity. Qed.
Definition first_world : OnBus 1 1 PciBus.nomsi Board := mkOnBus idle_board PciBus.machine machine_bus_ok.
Definition bus_booted : Machine (OnBus 1 1 PciBus.nomsi Board) :=
  e1000_pci_reset (snd (pci_e1000_init 0 false (mkPci ∅ [] []) fresh_dev first_world)).

(** The driver enables link interrupts, and the link goes down. *)
Definition enabled_machine : Machine (OnBus 1 1 PciBus.nomsi Board) :=
  match e1000_mmio_write 1 (4 * IMS) E1000_ICR_LSC bus_booted with Ok s => s | _ => bus_booted end.
Definition link_lost : Machine (OnBus 1 1 PciBus.nomsi Board) := set_link false enabled_machine.

Lemma link_lost_reachable : bus_reachable 1 1 PciBus.nomsi 1 link_lost.
Proof.
  eapply bus_step; [|apply dev_link]. eapply bus_step.
  - apply bus_init, (initial_intro 0 false (mkPci ∅ [] []) fresh_dev first_world); [exact fresh_dev_wf|reflexivity|exact I].
  - assert (E : is_ok (e1000_mmio_write 1 (4 * IMS) E1000_ICR_LSC bus_booted) = true) by (vm_compute; reflexivity).
    unfold enabled_machine. destruct (e1000_mmio_write 1 (4 * IMS) E1000_ICR_LSC bus_booted) eqn:E1; [by eapply dev_write|done..].
Qed.
Definition lost_card : Pci.PCIDevice := match PciBus.devs (ob_sys (world link_lost)) !! 1 with Some d => d | None => PciBus.card end.
Definition lost_bus : PciBus.PCIBus := match PciBus.buses (ob_sys (world link_lost)) !! 0 with Some x => x | None => PciBus.root_bus end.
Lemma lost_facts :
  PciBus.devs (ob_sys (world link_lost)) !! 1 = Some lost_card ∧ PciBus.buses (ob_sys (world link_lost)) !! 0 = Some lost_bus.
Proof.
  assert (H1 : match PciBus.devs (ob_sys (world link_lost)) !! 1 with Some _ => true | None => false end = true) by (vm_compute; reflexivity).
  assert (H2 : match PciBus.buses (ob_sys (world link_lost)) !! 0 with Some _ => true | None => false end = true) by (vm_compute; reflexivity).
  unfold lost_card, lost_bus. destruct (PciBus.devs (ob_sys (world link_lost)) !! 1); [|discriminate H1].
  destruct (PciBus.buses (ob_sys (world link_lost)) !! 0); [by split|discriminate H2].
Qed.
Lemma lost_route : PciBus.irq_route 1 1 (PciBus.pci_intx lost_card) (ob_sys (world link_lost)) = Ok (0, 3).
Proof. vm_compute. reflexivity. Qed.
Lemma lost_pending : (pending (dev link_lost) =? 0) = false ∧ mit_timer_on (dev link_lost) = false ∧ Pci.pci_irq_disabled lost_card = false.
Proof. split; [|split]; vm_compute; reflexivity. Qed.
Lemma e1000_interrupt_reaches_host_witness : default false (PciBus.host_irq lost_bus !! 3) = true.
Proof.
  destruct lost_facts as [Hd Hb]. destruct lost_pending as (Hp & Hm & Hi).
  apply (e1000_interrupt_reaches_host 1 1 PciBus.nomsi 1 link_lost lost_card 0 3 lost_bus link_lost_reachable Hd lost_route Hb);
  [exact (proj1 (Z.eqb_neq _ _) Hp)|exact Hm|exact Hi].
Defined.

End BusDevice.
