(* ===== verification/Net.v ===== *)
(** The network layer as a whole (net/net.c, net/hub.c): the registry of clients, which are paired
    as peers, and the hubs, whose ports are clients themselves.  A packet sent by a client goes
    through the queue of its peer ([NetQueue]) to the peer's receive function; a hub port forwards
    it to the peers of the other ports.  What the clients that are not hub ports do (network
    cards, back ends) is the interface [Endpoints]. *)

From stdpp Require Import pretty.
From S2P Require Import Prelude Iov NetQueue.

Module Net.

(** ** State *)

(** [NetClientInfo]'s type. *)
Inductive NetClientOptionsKind : Type := KIND_NIC | KIND_HUBPORT | KIND_BACKEND.
#[global] Instance kind_eq_dec : EqDecision NetClientOptionsKind.
Proof. solve_decision. Defined.

(** A [NetClientState]; [hub] and [port_id] are the other fields of a [NetHubPort], [nic] is the
    [NICState] a client of a network card belongs to. *)
Record NetClientState : Type := mkClient {
  kind : NetClientOptionsKind;
  name : string;
  model : string;
  peer : option Z;
  link_down : bool;
  receive_disabled : bool;
  incoming_queue : NetQueue.NetQueue;
  hub : Z;
  port_id : Z;
  nic : Z;
}.
Definition set_peer (p : option Z) (x : NetClientState) : NetClientState :=
  mkClient (kind x) (name x) (model x) p (link_down x) (receive_disabled x) (incoming_queue x) (hub x) (port_id x) (nic x).
Definition set_link_down (b : bool) (x : NetClientState) : NetClientState :=
  mkClient (kind x) (name x) (model x) (peer x) b (receive_disabled x) (incoming_queue x) (hub x) (port_id x) (nic x).
Definition set_disabled (b : bool) (x : NetClientState) : NetClientState :=
  mkClient (kind x) (name x) (model x) (peer x) (link_down x) b (incoming_queue x) (hub x) (port_id x) (nic x).
Definition set_queue (q : NetQueue.NetQueue) (x : NetClientState) : NetClientState :=
  mkClient (kind x) (name x) (model x) (peer x) (link_down x) (receive_disabled x) q (hub x) (port_id x) (nic x).

Record NICState : Type := mkNic {
  nic_ncs : list Z;
  peer_deleted : bool;
}.
Record NetHub : Type := mkHub {
  hub_id : Z;
  num_ports : Z;
  ports : list Z;
}.

(** Clients, cards and hubs by their addresses; the lists [net_clients] and [hubs]; the state of
    the clients that are not hub ports. *)
Record Net (E : Type) : Type := mkNet {
  ncs : gmap Z NetClientState;
  net_clients : list Z;
  nics : gmap Z NICState;
  hub_mem : gmap Z NetHub;
  hubs : list Z;
  ends : E;
}.
Arguments mkNet {_} ncs net_clients nics hub_mem hubs ends.
Arguments ncs {_} n.
Arguments net_clients {_} n.
Arguments nics {_} n.
Arguments hub_mem {_} n.
Arguments hubs {_} n.
Arguments ends {_} n.

(** What the clients at the ends do: their receive functions (the result and the new state), whether
    they can receive now, and their other callbacks. *)
Class Endpoints (E : Type) : Type := {
  ep_receive : Z → list Z → E → Z * E;
  ep_can_receive : Z → E → bool;
  ep_cleanup : Z → E → E;
  ep_link_changed : Z → E → E;
  ep_sent : Z → Z → Z → E → E;
}.

Section Net.
Context {E : Type} `{Endpoints E}.
Implicit Types s : Net E.

Definition get_nc (a : Z) (s : Net E) : res NetClientState :=
  match ncs s !! a with Some x => Ok x | None => Fault NullDeref end.
Definition get_hub (a : Z) (s : Net E) : res NetHub :=
  match hub_mem s !! a with Some x => Ok x | None => Fault NullDeref end.
Definition set_ncs (m : gmap Z NetClientState) (s : Net E) : Net E :=
  mkNet m (net_clients s) (nics s) (hub_mem s) (hubs s) (ends s).
Definition put_nc (a : Z) (x : NetClientState) (s : Net E) : Net E := set_ncs (<[a := x]> (ncs s)) s.
Definition set_list (l : list Z) (s : Net E) : Net E := mkNet (ncs s) l (nics s) (hub_mem s) (hubs s) (ends s).
Definition set_nics (m : gmap Z NICState) (s : Net E) : Net E := mkNet (ncs s) (net_clients s) m (hub_mem s) (hubs s) (ends s).
Definition set_hubs (m : gmap Z NetHub) (l : list Z) (s : Net E) : Net E := mkNet (ncs s) (net_clients s) (nics s) m l (ends s).
Definition set_ends (e : E) (s : Net E) : Net E := mkNet (ncs s) (net_clients s) (nics s) (hub_mem s) (hubs s) e.

(** ** Creating clients *)

(** How many other clients of the list have the model. *)
Fixpoint count_model (l : list Z) (nc1 : Z) (m : string) (s : Net E) : res Z :=
  match l with
  | [] => Ok 0
  | a :: l =>
      n ← count_model l nc1 m s;
      if a =? nc1 then Ok n
      else x ← get_nc a s; Ok (if String.eqb (model x) m then n + 1 else n)
  end.
(** [snprintf] into a buffer of 256 bytes. *)
Definition assign_name (nc1 : Z) (m : string) (s : Net E) : res string :=
  id ← count_model (net_clients s) nc1 m s; Ok (String.substring 0 255 (m +:+ "." +:+ pretty id)).

(** [a] is the new client, [x] what the caller allocated (zeroed but for its kind, hub and card). *)
Definition qemu_net_client_setup (a : Z) (k : NetClientOptionsKind) (h id n : Z) (pr : option Z) (m : string) (nm : option string) (s : Net E)
  : res (Net E) :=
  nm ← (match nm with Some nm => Ok nm | None => assign_name a m s end);
  s ← (match pr with
       | None => Ok s
       | Some p => y ← get_nc p s;
                   match peer y with Some _ => Fault AssertFail | None => Ok (put_nc p (set_peer (Some a) y) s) end
       end);
  Ok (set_list (net_clients s ++ [a]) (put_nc a (mkClient k nm m pr false false NetQueue.qemu_new_net_queue h id n) s)).

Definition qemu_new_net_client (a : Z) (k : NetClientOptionsKind) (pr : option Z) (m : string) (nm : option string) (s : Net E) : res (Net E) :=
  qemu_net_client_setup a k 0 0 0 pr m nm s.

(** A card with one client per element of [peers], at the addresses [l]. *)
Fixpoint nic_setup (l : list Z) (peers : list (option Z)) (n : Z) (m : string) (nm : option string) (s : Net E) : res (Net E) :=
  match l, peers with
  | a :: l, p :: peers => s ← qemu_net_client_setup a KIND_NIC 0 0 n p m nm s; nic_setup l peers n m nm s
  | _, _ => Ok s
  end.
Definition new_nic (n : Z) (l : list Z) (peers : list (option Z)) (m : string) (nm : option string) (s : Net E) : res (Net E) :=
  nic_setup l peers n m nm (set_nics (<[n := mkNic l false]> (nics s)) s).

(** ** Finding clients *)

Fixpoint find_except (l : list Z) (id : string) (type : option NetClientOptionsKind) (s : Net E) : res (list Z) :=
  match l with
  | [] => Ok []
  | a :: l =>
      x ← get_nc a s;
      r ← find_except l id type s;
      if bool_decide (Some (kind x) = type) then Ok r
      else Ok (if String.eqb (name x) id then a :: r else r)
  end.
(** [None] stands for the kind that no client has. *)
Definition qemu_find_net_clients_except (id : string) (type : option NetClientOptionsKind) (s : Net E) : res (list Z) :=
  find_except (net_clients s) id type s.
Definition qemu_find_netdev (id : string) (s : Net E) : res (option Z) :=
  l ← qemu_find_net_clients_except id (Some KIND_NIC) s; Ok (head l).

(** ** Removing clients *)

Definition MAX_QUEUE_NUM : Z := 1024.

Definition without (a : Z) (l : list Z) : list Z := filter (λ b, b ≠ a) l.

Definition net_hub_port_cleanup (a : Z) (x : NetClientState) (s : Net E) : res (Net E) :=
  h ← get_hub (hub x) s;
  Ok (set_hubs (<[hub x := mkHub (hub_id h) (num_ports h) (without a (ports h))]> (hub_mem s)) (hubs s) s).

Definition qemu_cleanup_net_client (a : Z) (s : Net E) : res (Net E) :=
  x ← get_nc a s;
  let s := set_list (without a (net_clients s)) s in
  match kind x with KIND_HUBPORT => net_hub_port_cleanup a x s | _ => Ok (set_ends (ep_cleanup a (ends s)) s) end.

(** The queue goes with the client.  A client of a card is part of the card and freed with it. *)
Definition qemu_free_net_client (a : Z) (s : Net E) : res (Net E) :=
  x ← get_nc a s;
  s ← (match peer x with None => Ok s | Some p => y ← get_nc p s; Ok (put_nc p (set_peer None y) s) end);
  Ok (match kind x with KIND_NIC => s | _ => set_ncs (delete a (ncs s)) s end).

Fixpoint for_clients (f : Z → Net E → res (Net E)) (l : list Z) (s : Net E) : res (Net E) :=
  match l with [] => Ok s | a :: l => s ← f a s; for_clients f l s end.

Definition peer_link_down (a : Z) (s : Net E) : res (Net E) :=
  x ← get_nc a s;
  match peer x with None => Fault NullDeref | Some p => y ← get_nc p s; Ok (put_nc p (set_link_down true y) s) end.

Definition qemu_del_net_client (a : Z) (s : Net E) : res (Net E) :=
  x ← get_nc a s;
  l ← qemu_find_net_clients_except (name x) (Some KIND_NIC) s;
  if Z.of_nat (length l) =? 0 then Fault AssertFail
  else if MAX_QUEUE_NUM <? Z.of_nat (length l) then Fault OutOfBounds
  else
    pn ← (match peer x with
          | None => Ok None
          | Some p => y ← get_nc p s; Ok (match kind y with KIND_NIC => Some (p, nic y) | _ => None end)
          end);
    match pn with
    | Some (p, n) =>
        match nics s !! n with
        | None => Fault NullDeref
        | Some c =>
            if peer_deleted c then Ok s
            else
              let s := set_nics (<[n := mkNic (nic_ncs c) true]> (nics s)) s in
              s ← for_clients peer_link_down l s;
              for_clients qemu_cleanup_net_client l (set_ends (ep_link_changed p (ends s)) s)
        end
    | None =>
        match kind x with
        | KIND_NIC => Fault AssertFail
        | _ => for_clients (λ a s, s ← qemu_cleanup_net_client a s; qemu_free_net_client a s) l s
        end
    end.

(** The callback of a client; hub ports have none. *)
Definition link_status_changed (a : Z) (x : NetClientState) (s : Net E) : Net E :=
  match kind x with KIND_HUBPORT => s | _ => set_ends (ep_link_changed a (ends s)) s end.

Definition free_peer (a : Z) (s : Net E) : res (Net E) :=
  x ← get_nc a s;
  match peer x with None => Fault NullDeref | Some p => qemu_free_net_client p s end.

Definition qemu_del_nic (n : Z) (s : Net E) : res (Net E) :=
  match nics s !! n with
  | None => Fault NullDeref
  | Some c =>
      s ← (if peer_deleted c then for_clients free_peer (nic_ncs c) s else Ok s);
      s ← for_clients (λ a s, s ← qemu_cleanup_net_client a s; qemu_free_net_client a s) (rev (nic_ncs c)) s;
      Ok (set_nics (delete n (nics s)) (set_ncs (foldl (λ m a, delete a m) (ncs s) (nic_ncs c)) s))
  end.

(** One round of the loop per unit of fuel. *)
Fixpoint net_cleanup (fuel : nat) (s : Net E) : res (Net E) :=
  match net_clients s with
  | [] => Ok s
  | nc :: _ =>
      match fuel with
      | O => Diverge
      | S fuel =>
          x ← get_nc nc s;
          s ← (match kind x with KIND_NIC => qemu_del_nic (nic x) s | _ => qemu_del_net_client nc s end);
          net_cleanup fuel s
      end
  end.

(** ** Hubs *)

Definition net_hub_new (h id : Z) (s : Net E) : Net E := set_hubs (<[h := mkHub id 0 []]> (hub_mem s)) (h :: hubs s) s.

Definition port_name (id k : Z) : string := "hub" +:+ pretty id +:+ "port" +:+ pretty k.
Definition net_hub_port_new (a h : Z) (nm : option string) (s : Net E) : res (Net E) :=
  H ← get_hub h s;
  let id := num_ports H in
  let nm := default (port_name (hub_id H) id) nm in
  s ← qemu_net_client_setup a KIND_HUBPORT h id 0 None "hub" (Some nm) s;
  Ok (set_hubs (<[h := mkHub (hub_id H) (id + 1) (a :: ports H)]> (hub_mem s)) (hubs s) s).

(** The first hub of the list with the number. *)
Fixpoint find_hub (l : list Z) (id : Z) (s : Net E) : res (option Z) :=
  match l with
  | [] => Ok None
  | h :: l => H ← get_hub h s; if hub_id H =? id then Ok (Some h) else find_hub l id s
  end.
(** [a] and [h] are the addresses of the port and of the hub, if one is created. *)
Definition net_hub_add_port (a h id : Z) (nm : option string) (s : Net E) : res (Net E) :=
  o ← find_hub (hubs s) id s;
  match o with
  | Some h => net_hub_port_new a h nm s
  | None => net_hub_port_new a h nm (net_hub_new h id s)
  end.

Fixpoint free_port (l : list Z) (s : Net E) : res (option Z) :=
  match l with
  | [] => Ok None
  | p :: l => x ← get_nc p s; match peer x with None => Ok (Some p) | Some _ => free_port l s end
  end.
Definition net_hub_port_find (a h id : Z) (s : Net E) : res (Z * Net E) :=
  o ← find_hub (hubs s) id s;
  r ← (match o with None => Ok None | Some h => H ← get_hub h s; free_port (ports H) s end);
  match r with
  | Some p => Ok (p, s)
  | None => s ← net_hub_add_port a h id None s; Ok (a, s)
  end.

Fixpoint peer_named (l : list Z) (nm : string) (s : Net E) : res (option Z) :=
  match l with
  | [] => Ok None
  | p :: l =>
      x ← get_nc p s;
      match peer x with
      | None => peer_named l nm s
      | Some q => y ← get_nc q s; if String.eqb (name y) nm then Ok (Some q) else peer_named l nm s
      end
  end.
Fixpoint find_on_hubs (l : list Z) (id : Z) (nm : string) (s : Net E) : res (option Z) :=
  match l with
  | [] => Ok None
  | h :: l =>
      H ← get_hub h s;
      r ← (if hub_id H =? id then peer_named (ports H) nm s else Ok None);
      match r with Some q => Ok (Some q) | None => find_on_hubs l id nm s end
  end.
Definition net_hub_find_client_by_name (id : Z) (nm : string) (s : Net E) : res (option Z) := find_on_hubs (hubs s) id nm s.

Definition ENOENT : Z := 2.
Definition EINVAL : Z := 22.
(** The result and the hub's number. *)
Definition net_hub_id_for_client (a : Z) (s : Net E) : res (Z * option Z) :=
  x ← get_nc a s;
  o ← (match kind x with
       | KIND_HUBPORT => Ok (Some (hub x))
       | _ => match peer x with
              | None => Ok None
              | Some p => y ← get_nc p s; Ok (match kind y with KIND_HUBPORT => Some (hub y) | _ => None end)
              end
       end);
  match o with None => Ok (- ENOENT, None) | Some h => H ← get_hub h s; Ok (0, Some (hub_id H)) end.
Definition net_init_hubport (a h id : Z) (nm : option string) (pr : option Z) (s : Net E) : res (Z * Net E) :=
  match pr with Some _ => Ok (- EINVAL, s) | None => s ← net_hub_add_port a h id nm s; Ok (0, s) end.

(** ** Packets *)

(** A flat packet or a vector. *)
Inductive payload : Type := Flat (data : list Z) | Vec (iov : list (list Z)).
Definition payload_len (v : payload) : Z :=
  match v with Flat d => Z.of_nat (length d) | Vec iov => Z.of_nat (Iov.iov_size iov) end.

Definition receiver : Type := payload → Z → Net E → res (Z * Net E).

(** Client [p] for the delivery functions of [NetQueue], given what its receive functions do. *)
Definition nc_field {A} (f : NetClientState → A) (d : A) (p : Z) (s : Net E) : A := match ncs s !! p with Some x => f x | None => d end.
Definition upd_nc (f : NetClientState → NetClientState) (p : Z) (s : Net E) : Net E := set_ncs (alter f p (ncs s)) s.
Definition is_port (p : Z) (s : Net E) : bool := nc_field (λ x, bool_decide (kind x = KIND_HUBPORT)) false p s.

(** Whether a client can receive is asked by [can_send] below, not through this interface. *)
Definition as_client (rcv : receiver) (p : Z) (port : bool) : NetQueue.NetClient (Net E) := {|
  NetQueue.nc_link_down := nc_field link_down false p;
  NetQueue.nc_receive_disabled := nc_field receive_disabled false p;
  NetQueue.set_receive_disabled b := upd_nc (set_disabled b) p;
  NetQueue.nc_receive data := rcv (Flat data) p;
  NetQueue.nc_receive_raw := None;
  NetQueue.nc_receive_iov := if port then Some (λ iov, rcv (Vec iov) p) else None;
  NetQueue.nc_can_receive := None;
|}.

(** [qemu_can_send_packet] of client [c]; hub ports ask the other ports of their hub.  The fuel is
    the number of clients in a row; the theorems give enough of it. *)
Fixpoint can_send (fuel : nat) (c : Z) (s : Net E) : bool :=
  match nc_field peer None c s with
  | None => true
  | Some p =>
      if nc_field receive_disabled false p s then false
      else
        match fuel with
        | O => true
        | S fuel =>
            if is_port p s then
              match hub_mem s !! nc_field hub 0 p s with
              | None => false
              | Some H => existsb (λ q, can_send fuel q s) (filter (λ q, q ≠ p) (ports H))
              end
            else ep_can_receive p (ends s)
        end
  end.

(** The queue of client [p]. *)
Definition as_port (fuel : nat) (rcv : receiver) (p : Z) : NetQueue.NetPort (Net E) := {|
  NetQueue.port_queue := nc_field incoming_queue NetQueue.qemu_new_net_queue p;
  NetQueue.set_port_queue q := upd_nc (set_queue q) p;
  NetQueue.deliver_packet sender flags data s :=
    @NetQueue.qemu_deliver_packet _ (as_client rcv p (is_port p s)) flags data s;
  NetQueue.deliver_packet_iov sender flags iov s :=
    @NetQueue.qemu_deliver_packet_iov _ (as_client rcv p (is_port p s)) flags iov s;
  NetQueue.can_send_packet sender := can_send fuel sender;
  NetQueue.packet_sent cb sender ret s := set_ends (ep_sent cb sender ret (ends s)) s;
|}.

(** [qemu_send_packet] or [qemu_sendv_packet] of client [c], given the receive functions. *)
Definition send_with (fuel : nat) (rcv : receiver) (c : Z) (v : payload) (cb : option Z) (s : Net E) : res (Z * Net E) :=
  x ← get_nc c s;
  let port := as_port fuel rcv (default 0 (peer x)) in
  let has := bool_decide (is_Some (peer x)) in
  match v with
  | Flat data => @NetQueue.qemu_send_packet_async _ port fuel (link_down x) has c data cb s
  | Vec iov => @NetQueue.qemu_sendv_packet_async _ port fuel (link_down x) has c iov cb s
  end.

(** [net_hub_receive] and [net_hub_receive_iov]. *)
Fixpoint hub_forward (fuel : nat) (rcv : receiver) (l : list Z) (source : Z) (v : payload) (s : Net E) : res (Net E) :=
  match l with
  | [] => Ok s
  | port :: l =>
      if port =? source then hub_forward fuel rcv l source v s
      else '(_, s) ← send_with fuel rcv port v None s; hub_forward fuel rcv l source v s
  end.

(** The receive functions of a client. *)
Fixpoint client_receive (fuel : nat) (v : payload) (c : Z) (s : Net E) : res (Z * Net E) :=
  match fuel with
  | O => Diverge
  | S fuel =>
      x ← get_nc c s;
      match kind x with
      | KIND_HUBPORT =>
          H ← get_hub (hub x) s;
          s ← hub_forward fuel (client_receive fuel) (ports H) c v s;
          Ok (payload_len v, s)
      | _ => match v with
             | Flat data => let '(r, e) := ep_receive c data (ends s) in Ok (r, set_ends e s)
             | Vec _ => Fault NullDeref     (* these clients have no [receive_iov] *)
             end
      end
  end.

Definition send (fuel : nat) (c : Z) (v : payload) (cb : option Z) (s : Net E) : res (Z * Net E) :=
  send_with fuel (client_receive fuel) c v cb s.

Definition qemu_purge_queued_packets (c : Z) (s : Net E) : res (Net E) :=
  x ← get_nc c s;
  match peer x with
  | None => Ok s
  | Some p => Ok (@NetQueue.qemu_net_queue_purge _ (as_port 0 (λ _ _ s, Ok (0, s)) p) c s)
  end.

Definition qmp_set_link (nm : string) (up : bool) (s : Net E) : res (Net E) :=
  l ← qemu_find_net_clients_except nm None s;
  if MAX_QUEUE_NUM <? Z.of_nat (length l) then Fault OutOfBounds
  else
    match l with
    | [] => Ok s                                       (* QERR_DEVICE_NOT_FOUND *)
    | nc :: _ =>
        s ← for_clients (λ a s, x ← get_nc a s; Ok (put_nc a (set_link_down (negb up) x) s)) l s;
        x ← get_nc nc s;
        let s := link_status_changed nc x s in
        match peer x with None => Ok s | Some p => y ← get_nc p s; Ok (link_status_changed p y s) end
    end.

(** Flushing the queues of the other ports; the result tells whether one of them was emptied. *)
Fixpoint flush_ports (fuel : nat) (l : list Z) (source : Z) (s : Net E) : res (Z * Net E) :=
  match l with
  | [] => Ok (0, s)
  | p :: l =>
      if p =? source then flush_ports fuel l source s
      else
        '(b, s) ← @NetQueue.qemu_net_queue_flush _ (as_port fuel (client_receive fuel) p) fuel s;
        '(n, s) ← flush_ports fuel l source s;
        Ok (Z.b2z b + n, s)
  end.
Definition net_hub_flush (fuel : nat) (c : Z) (s : Net E) : res (bool * Net E) :=
  x ← get_nc c s;
  H ← get_hub (hub x) s;
  '(n, s) ← flush_ports fuel (ports H) c s;
  Ok (negb (n =? 0), s).

(** The result counts the calls of [qemu_notify_event]. *)
Definition qemu_flush_queued_packets (fuel : nat) (c : Z) (s : Net E) : res (nat * Net E) :=
  x ← get_nc c s;
  let s := upd_nc (set_disabled false) c s in
  '(b, s) ← (match peer x with
             | Some p => y ← get_nc p s; match kind y with KIND_HUBPORT => net_hub_flush fuel p s | _ => Ok (false, s) end
             | None => Ok (false, s)
             end);
  '(b', s) ← @NetQueue.qemu_net_queue_flush _ (as_port fuel (client_receive fuel) c) fuel s;
  Ok ((Nat.b2n b + Nat.b2n b')%nat, s).
End Net.

(** ** Broadcasting *)

(** What a sender relies on: clients are separate, so that a packet one of them receives changes
    neither whether another can receive nor whether it takes the packet.  A client that can receive
    may still refuse a packet (a result of 0: net/tap.c and net/socket.c, when the host's end
    would block).  Receive functions that send a packet before they return (the user-mode stack)
    are not clients of this interface. *)
Class EndpointsLaws (E : Type) `{Endpoints E} : Prop := {
  ep_apart : ∀ e e' data x, e ≠ e' → ep_can_receive e' (snd (ep_receive e data x)) = ep_can_receive e' x;
  ep_apart_result : ∀ e e' data x, e ≠ e' →
    fst (ep_receive e' data (snd (ep_receive e data x))) = fst (ep_receive e' data x);
}.

Section Hub.
Context {E : Type} `{EndpointsLaws E}.
Implicit Types s : Net E.

(** A client at the end of a port that is up, enabled and has nothing queued. *)
Definition quiet_end (s : Net E) (q e : Z) : Prop :=
  ∃ y, ncs s !! e = Some y ∧ kind y ≠ KIND_HUBPORT ∧ peer y = Some q ∧ link_down y = false ∧ receive_disabled y = false ∧
    incoming_queue y = NetQueue.qemu_new_net_queue.
(** A port with such a client, or none. *)
Definition leaf (s : Net E) (h q : Z) : Prop :=
  ∃ x, ncs s !! q = Some x ∧ kind x = KIND_HUBPORT ∧ hub x = h ∧ link_down x = false ∧ receive_disabled x = false ∧
    incoming_queue x = NetQueue.qemu_new_net_queue ∧ match peer x with None => True | Some e => quiet_end s q e end.

(** Where a packet from port [q] goes: to the receive function of the client there, or to its queue;
    after a refusal to the queue, and the client gets nothing more until it flushes. *)
Definition waiting (q : Z) (data : list Z) : NetQueue.NetQueue :=
  NetQueue.mkQueue 10000 1 [NetQueue.mkPacket q NetQueue.QEMU_NET_PACKET_FLAG_NONE data None] false.
Definition refused (q : Z) (data : list Z) (y : NetClientState) : NetClientState :=
  set_queue (waiting q data) (set_disabled true y).
Definition arrive (data : list Z) (s : Net E) (q : Z) : Net E :=
  match nc_field peer None q s with
  | None => s
  | Some e =>
      if ep_can_receive e (ends s) then
        let '(r, x) := ep_receive e data (ends s) in
        if r =? 0 then upd_nc (refused q data) e (set_ends x s) else set_ends x s
      else upd_nc (set_queue (waiting q data)) e s
  end.

Lemma upd_upd f g p s : upd_nc f p (upd_nc g p s) = upd_nc (f ∘ g) p s.
Proof. unfold upd_nc, set_ncs. cbn. f_equal. apply map_eq. intros a. destruct (decide (p = a)) as [<-|]; rewrite ?lookup_alter_eq, ?lookup_alter_ne by done; [|done]. by destruct (ncs s !! p). Qed.
Lemma upd_id f p s y : ncs s !! p = Some y → f y = y → upd_nc f p s = s.
Proof.
  intros Hp Hf. unfold upd_nc. rewrite alter_id; [by destruct s|]. intros y' Hy. rewrite Hp in Hy. by injection Hy as <-.
Qed.
Lemma upd_ext f g p s y : ncs s !! p = Some y → f y = g y → upd_nc f p s = upd_nc g p s.
Proof.
  intros Hp Hf. unfold upd_nc, set_ncs. cbn. f_equal. apply map_eq. intros a.
  destruct (decide (p = a)) as [<-|]; rewrite ?lookup_alter_eq, ?lookup_alter_ne by done; [|done]. rewrite Hp. cbn. by rewrite Hf.
Qed.
Lemma upd_ends f p e s : upd_nc f p (set_ends e s) = set_ends e (upd_nc f p s).
Proof. done. Qed.
Lemma upd_lookup f p s y : ncs s !! p = Some y → ncs (upd_nc f p s) !! p = Some (f y).
Proof. intros Hp. cbn. by rewrite lookup_alter_eq, Hp. Qed.
Lemma upd_other f p s a : p ≠ a → ncs (upd_nc f p s) !! a = ncs s !! a.
Proof. intros Hne. cbn. by rewrite lookup_alter_ne. Qed.

(** One port passes a packet on. *)
Lemma send_leaf fuel fuel' s h q data :
  leaf s h q → data ≠ [] →
  ∃ r, send_with (S fuel) (client_receive (S fuel')) q (Flat data) None s = Ok (r, arrive data s q).
Proof.
  intros (x & Hx & Hkx & Hhx & Hlx & Hdx & Hqx & Hpx) Hne. unfold send_with, get_nc, arrive, nc_field. rewrite Hx. cbn [mbind res_bind].
  unfold NetQueue.qemu_send_packet_async, NetQueue.qemu_send_packet_async_with_flags. rewrite Hlx.
  destruct (peer x) as [e|] eqn:Ep; [|rewrite bool_decide_eq_false_2 by (by intros [? ?]); by eexists].
  rewrite bool_decide_eq_true_2 by eauto. cbn [orb negb]. change (default 0 (Some e)) with e. destruct Hpx as (y & Hy & Hky & Hpy & Hly & Hdy & Hqy).
  assert (Hq0 : nc_field incoming_queue NetQueue.qemu_new_net_queue e s = NetQueue.qemu_new_net_queue) by (unfold nc_field; by rewrite Hy, Hqy).
  unfold NetQueue.qemu_net_queue_send. cbn [NetQueue.port_queue NetQueue.can_send_packet as_port]. rewrite Hq0.
  cbn [NetQueue.delivering NetQueue.qemu_new_net_queue orb].
  assert (Hc : can_send (S fuel) q s = ep_can_receive e (ends s)).
  { cbn [can_send]. unfold nc_field at 1. rewrite Hx, Ep. unfold nc_field at 1. rewrite Hy, Hdy. unfold is_port, nc_field. rewrite Hy.
    by rewrite bool_decide_eq_false_2. }
  rewrite Hc. destruct (ep_can_receive e (ends s)) eqn:Er; cbn [negb].
  2: { eexists. unfold NetQueue.qemu_net_queue_append. cbn [NetQueue.port_queue NetQueue.set_port_queue as_port]. rewrite Hq0.
       cbn [NetQueue.nq_maxlen NetQueue.nq_count NetQueue.qemu_new_net_queue Z.leb Z.compare Pos.compare Pos.compare_cont andb NetQueue.packets app]. reflexivity. }
  unfold NetQueue.qemu_net_queue_deliver. cbn [NetQueue.port_queue NetQueue.set_port_queue NetQueue.deliver_packet as_port]. rewrite Hq0.
  set (s1 := upd_nc (set_queue (NetQueue.set_delivering NetQueue.qemu_new_net_queue true)) e s).
  assert (Hy1 : ncs s1 !! e = Some (set_queue (NetQueue.set_delivering NetQueue.qemu_new_net_queue true) y)) by (by apply upd_lookup).
  unfold NetQueue.qemu_deliver_packet. cbn [NetQueue.nc_link_down NetQueue.nc_receive_disabled NetQueue.nc_receive_raw NetQueue.nc_receive as_client].
  assert (Hl1 : nc_field link_down false e s1 = false) by (unfold nc_field; by rewrite Hy1). assert (Hd1 : nc_field receive_disabled false e s1 = false) by (unfold nc_field; by rewrite Hy1).
  rewrite Hl1, Hd1. cbn [client_receive]. unfold get_nc. rewrite Hy1. cbn [mbind res_bind kind set_queue].
  change (ends s1) with (ends s). destruct (ep_receive e data (ends s)) as [r E'] eqn:Ee.
  assert (Hk : match kind y with KIND_HUBPORT => h ← get_hub (hub y) s1; s' ← hub_forward fuel' (client_receive fuel') (ports h) e (Flat data) s1; Ok (payload_len (Flat data), s') | _ => Ok (r, set_ends E' s1) end = Ok (r, set_ends E' s1)) by (by destruct (kind y)).
  cbn [hub set_queue] in Hk |- *. rewrite Hk. clear Hk. cbn [mbind res_bind].
  destruct (Z.eqb_spec r 0) as [->|Hr].
  { cbn [mbind res_bind Z.eqb NetQueue.set_receive_disabled as_client].
    assert (Hq2 : nc_field incoming_queue NetQueue.qemu_new_net_queue e (upd_nc (set_disabled true) e (set_ends E' s1)) =
                  NetQueue.set_delivering NetQueue.qemu_new_net_queue true).
    { unfold nc_field. rewrite (upd_lookup _ e (set_ends E' s1) _ Hy1). done. }
    rewrite Hq2, !upd_ends, upd_upd. unfold s1. rewrite upd_upd. unfold NetQueue.qemu_net_queue_append.
    cbn [NetQueue.port_queue NetQueue.set_port_queue as_port]. unfold nc_field at 1 2 3 4 5.
    cbn [ncs set_ends upd_nc set_ncs]. rewrite lookup_alter_eq, Hy. eexists. do 2 f_equal. rewrite upd_ends. f_equal. rewrite upd_upd.
    by apply (upd_ext _ _ e s y). }
  cbn [mbind res_bind].
  assert (Hq2 : nc_field incoming_queue NetQueue.qemu_new_net_queue e (set_ends E' s1) = NetQueue.set_delivering NetQueue.qemu_new_net_queue true).
  { unfold nc_field. cbn [ncs set_ends]. by rewrite Hy1. }
  rewrite Hq2. assert (Hback : upd_nc (set_queue (NetQueue.set_delivering (NetQueue.set_delivering NetQueue.qemu_new_net_queue true) false)) e (set_ends E' s1) = set_ends E' s).
  { rewrite upd_ends. f_equal. unfold s1. rewrite upd_upd. eapply upd_id; [done|]. destruct y. cbn in *. by subst. }
  rewrite Hback. cbn [NetQueue.qemu_net_queue_flush NetQueue.port_queue as_port]. unfold nc_field. cbn [ncs set_ends]. rewrite Hy, Hqy.
  cbn [NetQueue.packets NetQueue.qemu_new_net_queue mbind res_bind]. by exists r.
Qed.

Definition far (s : Net E) (q : Z) : option Z := nc_field peer None q s.

Lemma leaf_far s h q e : leaf s h q → far s q = Some e → quiet_end s q e.
Proof. intros (x & Hx & _ & _ & _ & _ & _ & Hp) He. unfold far, nc_field in He. rewrite Hx in He. by rewrite He in Hp. Qed.
Lemma far_apart s h q q' e e' : leaf s h q → leaf s h q' → far s q = Some e → far s q' = Some e' → q ≠ q' → e ≠ e'.
Proof.
  intros Hl Hl' He He' Hne ->. destruct (leaf_far s h q e' Hl He) as (y & Hy & _ & Hp & _). destruct (leaf_far s h q' e' Hl' He') as (y' & Hy' & _ & Hp' & _). congruence.
Qed.
Lemma far_end s h q q' e : leaf s h q → leaf s h q' → far s q' = Some e → q ≠ e.
Proof. intros (x & Hx & Hk & _) Hl' He ->. destruct (leaf_far s h q' e Hl' He) as (y & Hy & Hk' & _). congruence. Qed.

Lemma arrive_ends_far data s q a : far (arrive data s q) a = far s a.
Proof.
  unfold arrive, far. destruct (nc_field peer None q s) as [e|]; [|done].
  assert (Hu : ∀ f x, (∀ y, peer (f y) = peer y) → nc_field peer None a (upd_nc f e (set_ends x s)) = nc_field peer None a s).
  { intros f x Hf. unfold nc_field. destruct (decide (e = a)) as [<-|Hne]; [|change (ncs (upd_nc f e (set_ends x s))) with (ncs (upd_nc f e s)); by rewrite upd_other]. cbn. rewrite lookup_alter_eq.
    destruct (ncs s !! e); [|done]. cbn. apply Hf. }
  destruct (ep_can_receive e (ends s)); [|by apply (Hu _ (ends s))]. destruct (ep_receive e data (ends s)) as [r x]. split_if; [by apply Hu|done].
Qed.
Lemma arrive_other data s q a : far s q ≠ Some a → ncs (arrive data s q) !! a = ncs s !! a.
Proof.
  intros Ha. unfold arrive. fold (far s q). destruct (far s q) as [e|]; [|done].
  assert (Hu : ∀ f x, ncs (upd_nc f e (set_ends x s)) !! a = ncs s !! a) by (intros f x; change (ncs (upd_nc f e s) !! a = ncs s !! a); apply upd_other; congruence).
  destruct (ep_can_receive e (ends s)); [|by apply (Hu _ (ends s))]. destruct (ep_receive e data (ends s)) as [r x]. split_if; [by apply Hu|done].
Qed.
Lemma arrive_ends data s q :
  ends (arrive data s q) = match far s q with
                           | Some e => if ep_can_receive e (ends s) then snd (ep_receive e data (ends s)) else ends s
                           | None => ends s
                           end.
Proof.
  unfold arrive. fold (far s q). destruct (far s q) as [e|]; [|done]. destruct (ep_can_receive e (ends s)); [|done].
  destruct (ep_receive e data (ends s)) as [r x]. by split_if.
Qed.
Lemma arrive_rest data s q :
  net_clients (arrive data s q) = net_clients s ∧ hub_mem (arrive data s q) = hub_mem s ∧
  hubs (arrive data s q) = hubs s ∧ nics (arrive data s q) = nics s.
Proof.
  unfold arrive. destruct (nc_field peer None q s) as [e|]; [|done]. destruct (ep_can_receive e (ends s)); [|done].
  destruct (ep_receive e data (ends s)) as [r x]. by split_if.
Qed.
Lemma arrive_leaf data s h q q' : leaf s h q → leaf s h q' → q ≠ q' → leaf (arrive data s q') h q.
Proof.
  intros Hl Hl' Hne. pose proof Hl as (x & Hx & Hk & Hh & Hld & Hd & Hq & Hp). exists x.
  rewrite arrive_other. 2: { intros He. by apply (far_end s h q q' q Hl Hl' He). }
  do 6 (split; [done|]). destruct (peer x) as [e|] eqn:Ep; [|done]. destruct Hp as (y & Hy & Hky & Hpy & Hrest). exists y.
  rewrite arrive_other; [done|]. intros He. assert (Hf : far s q = Some e) by (unfold far, nc_field; by rewrite Hx).
  by apply (far_apart s h q q' e e Hl Hl' Hf He Hne).
Qed.
Lemma arrive_can data s h q q' e : leaf s h q → leaf s h q' → q ≠ q' → far s q = Some e →
  ep_can_receive e (ends (arrive data s q')) = ep_can_receive e (ends s).
Proof.
  intros Hl Hl' Hne He. rewrite arrive_ends. destruct (far s q') as [e'|] eqn:He'; [|done]. destruct (ep_can_receive e' (ends s)); [|done].
  apply ep_apart. intros ->. by apply (far_apart s h q q' e e Hl Hl' He He' Hne).
Qed.
Lemma arrive_result data s h q q' e : leaf s h q → leaf s h q' → q ≠ q' → far s q = Some e →
  fst (ep_receive e data (ends (arrive data s q'))) = fst (ep_receive e data (ends s)).
Proof.
  intros Hl Hl' Hne He. rewrite arrive_ends. destruct (far s q') as [e'|] eqn:He'; [|done]. destruct (ep_can_receive e' (ends s)); [|done].
  apply ep_apart_result. intros ->. by apply (far_apart s h q q' e e Hl Hl' He He' Hne).
Qed.

(** Client [e] can receive a packet now and takes it. *)
Definition takes (data : list Z) (s : Net E) (e : Z) : bool :=
  ep_can_receive e (ends s) && negb (fst (ep_receive e data (ends s)) =? 0).

(** The hub's loop passes the packet on from every port but the source. *)
Lemma hub_forward_spec fuel fuel' h data l src s :
  data ≠ [] → NoDup l → (∀ q, q ∈ l → q ≠ src → leaf s h q) →
  hub_forward (S fuel) (client_receive (S fuel')) l src (Flat data) s = Ok (foldl (arrive data) s (filter (λ q, q ≠ src) l)).
Proof.
  intros Hd. revert s. induction l as [|q l IH]; intros s Hnd Hl; [done|]. apply NoDup_cons in Hnd as [Hq Hnd]. cbn [hub_forward]. rewrite filter_cons.
  destruct (Z.eqb_spec q src) as [->|Hne].
  - rewrite decide_False by tauto. apply IH; [done|]. intros p Hp. apply Hl. by right.
  - rewrite decide_True by done. destruct (send_leaf fuel fuel' s h q data ltac:(apply Hl; [by left|done]) Hd) as [r Er]. rewrite Er. cbn [mbind res_bind foldl].
    apply IH; [done|]. intros p Hp Hps. apply arrive_leaf; [apply Hl; [by right|done]|apply Hl; [by left|done]|]. by intros ->.
Qed.

(** The clients that get the packet now, and the one that finds it in its queue. *)
Definition receivers (s : Net E) (l : list Z) : list Z :=
  omap (λ q, match far s q with Some e => if ep_can_receive e (ends s) then Some e else None | None => None end) l.

Definition left_for (q : Z) (data : list Z) (can : bool) : NetClientState → NetClientState :=
  if can then refused q data else set_queue (waiting q data).

Lemma arrive_takes data s h q q' e : leaf s h q → leaf s h q' → q ≠ q' → far s q = Some e →
  takes data (arrive data s q') e = takes data s e.
Proof. intros Hl Hl' Hne He. unfold takes. by rewrite (arrive_can data s h q q' e), (arrive_result data s h q q' e). Qed.

Lemma arrive_left data s q e y :
  far s q = Some e → takes data s e = false → ncs s !! e = Some y →
  ncs (arrive data s q) !! e = Some (left_for q data (ep_can_receive e (ends s)) y).
Proof.
  intros He Ht Hy. unfold arrive. fold (far s q). rewrite He. unfold takes in Ht. unfold left_for.
  destruct (ep_can_receive e (ends s)); [|by apply upd_lookup]. cbn [andb] in Ht. apply negb_false_iff in Ht.
  destruct (ep_receive e data (ends s)) as [r x]. cbn [fst] in Ht. rewrite Ht. by apply upd_lookup.
Qed.
Lemma arrive_taken data s q e : far s q = Some e → takes data s e = true → ncs (arrive data s q) = ncs s.
Proof.
  intros He Ht. unfold arrive. fold (far s q). rewrite He. unfold takes in Ht. apply andb_true_iff in Ht as [-> Ht].
  apply negb_true_iff in Ht. destruct (ep_receive e data (ends s)) as [r x]. cbn [fst] in Ht. by rewrite Ht.
Qed.

Lemma foldl_arrive data h l s :
  NoDup l → (∀ q, q ∈ l → leaf s h q) →
  let s' := foldl (arrive data) s l in
  ends s' = foldl (λ x e, snd (ep_receive e data x)) (ends s) (receivers s l) ∧
  (∀ q e y, q ∈ l → far s q = Some e → takes data s e = false → ncs s !! e = Some y →
     ncs s' !! e = Some (left_for q data (ep_can_receive e (ends s)) y)) ∧
  (∀ a, (∀ q, q ∈ l → far s q = Some a → takes data s a = true) → ncs s' !! a = ncs s !! a) ∧
  net_clients s' = net_clients s ∧ hub_mem s' = hub_mem s ∧ hubs s' = hubs s ∧ nics s' = nics s.
Proof.
  revert s. induction l as [|q l IH]; intros s Hnd Hl; cbn zeta.
  { cbn. split; [done|]. split; [by intros ? ? ? []%not_elem_of_nil|done]. }
  apply NoDup_cons in Hnd as [Hq Hnd]. cbn [foldl]. assert (Hlq : leaf s h q) by (apply Hl; by left).
  assert (Hll : ∀ p, p ∈ l → leaf s h p ∧ p ≠ q) by (intros p Hp; split; [apply Hl; by right|by intros ->]).
  destruct (IH (arrive data s q) Hnd) as (H1 & H2 & H3 & H4 & H5 & H6 & H7).
  { intros p Hp. destruct (Hll p Hp). by apply arrive_leaf. }
  assert (Hrec : receivers (arrive data s q) l = receivers s l).
  { unfold receivers. clear -Hll Hlq H0. induction l as [|p l IHl]; [done|]. cbn [omap list_omap]. rewrite arrive_ends_far.
    destruct (Hll p ltac:(by left)) as [Hlp Hpq]. rewrite IHl by (intros p' Hp'; apply Hll; by right). destruct (far s p) as [e|] eqn:He; [|done]. by rewrite (arrive_can data s h p q e). }
  rewrite Hrec in H1. split; [|split; [|split]].
  - rewrite H1, arrive_ends. cbn [receivers omap list_omap]. destruct (far s q) as [e|]; [|done]. by destruct (ep_can_receive e (ends s)).
  - intros p e y Hp He Hc Hy. apply elem_of_cons in Hp as [->|Hp].
    + rewrite H3; [by apply arrive_left|]. intros p Hp Hf. rewrite arrive_ends_far in Hf. destruct (Hll p Hp) as [Hlp Hpq].
      by destruct (far_apart s h p q e e Hlp Hlq Hf He Hpq).
    + destruct (Hll p Hp) as [Hlp Hpq]. rewrite <-(arrive_can data s h p q e) by done.
      apply (H2 p e y Hp); [by rewrite arrive_ends_far|by rewrite (arrive_takes data s h p q e)|].
      rewrite arrive_other; [done|]. intros Hf. by apply (far_apart s h p q e e Hlp Hlq He Hf Hpq).
  - intros a Ha. rewrite H3.
    + destruct (decide (far s q = Some a)) as [He|He]; [|by apply arrive_other].
      rewrite (arrive_taken data s q a He); [done|]. apply (Ha q); [by left|done].
    + intros p Hp Hf. rewrite arrive_ends_far in Hf. destruct (Hll p Hp) as [Hlp Hpq]. rewrite (arrive_takes data s h p q a) by done. apply (Ha p); [by right|done].
  - destruct (arrive_rest data s q) as (E4 & E5 & E6 & E7). by rewrite H4, H5, H6, H7, E4, E5, E6, E7.
Qed.

Lemma upd_comm f g a b s : a ≠ b → upd_nc f a (upd_nc g b s) = upd_nc g b (upd_nc f a s).
Proof. intros Hne. unfold upd_nc, set_ncs. cbn. f_equal. apply map_eq. intros c.
  destruct (decide (a = c)) as [<-|]; [rewrite lookup_alter_eq, !lookup_alter_ne, lookup_alter_eq by done; done|]. rewrite lookup_alter_ne by done.
  destruct (decide (b = c)) as [<-|]; by rewrite ?lookup_alter_eq, ?lookup_alter_ne by done.
Qed.

Lemma arrive_upd data g p s q : (∀ x, peer (g x) = peer x) → far s q ≠ Some p → arrive data (upd_nc g p s) q = upd_nc g p (arrive data s q).
Proof.
  intros Hg Hf. assert (Hp : nc_field peer None q (upd_nc g p s) = far s q).
  { unfold far, nc_field. destruct (decide (p = q)) as [<-|Hne]; [|by rewrite upd_other]. cbn. rewrite lookup_alter_eq. destruct (ncs s !! p); [|done]. cbn. apply Hg. }
  unfold arrive. rewrite Hp. fold (far s q). destruct (far s q) as [e|]; [|done]. change (ends (upd_nc g p s)) with (ends s).
  destruct (ep_can_receive e (ends s)); [|apply upd_comm; congruence]. destruct (ep_receive e data (ends s)) as [r x]. split_if; [|done].
  rewrite <-upd_ends. apply upd_comm. congruence.
Qed.
Lemma foldl_arrive_upd data g p l s :
  (∀ x, peer (g x) = peer x) → (∀ q, q ∈ l → far s q ≠ Some p) → foldl (arrive data) (upd_nc g p s) l = upd_nc g p (foldl (arrive data) s l).
Proof.
  intros Hg. revert s. induction l as [|q l IH]; intros s Hf; [done|]. cbn [foldl]. rewrite arrive_upd by (try done; apply Hf; by left).
  apply IH. intros q' Hq'. rewrite arrive_ends_far. apply Hf. by right.
Qed.

Lemma can_send_leaf fuel s h q : leaf s h q → can_send (S fuel) q s = match far s q with None => true | Some e => ep_can_receive e (ends s) end.
Proof.
  intros Hl. cbn [can_send]. fold (far s q). destruct (far s q) as [e|] eqn:He; [|done]. destruct (leaf_far s h q e Hl He) as (y & Hy & Hk & _ & _ & Hd & _).
  unfold is_port, nc_field. rewrite Hy, Hd. by rewrite bool_decide_eq_false_2.
Qed.

Lemma leaf_upd s h g p q :
  (∀ x, peer (g x) = peer x) → leaf s h q → leaf s h p → q ≠ p → leaf (upd_nc g p s) h q.
Proof.
  intros Hg Hl Hlp Hne. pose proof Hl as (x & Hx & Hk & Hh & Hld & Hd & Hq & Hp). exists x. rewrite upd_other by done.
  do 6 (split; [done|]). destruct (peer x) as [e|] eqn:Ep; [|done]. destruct Hp as (y & Hy & Hrest). exists y. rewrite upd_other; [done|].
  intros ->. destruct Hlp as (x' & Hx' & Hk' & _). rewrite Hy in Hx'. simplify_eq. by destruct Hrest.
Qed.

(** No port of the hub but the source can take a packet. *)
Definition all_busy (s : Net E) (l : list Z) : bool := negb (existsb (λ q, match far s q with None => true | Some e => ep_can_receive e (ends s) end) l).

Lemma port_receive fuel s p x hb v :
  ncs s !! p = Some x → kind x = KIND_HUBPORT → hub_mem s !! hub x = Some hb →
  client_receive (S fuel) v p s = s' ← hub_forward fuel (client_receive fuel) (ports hb) p v s; Ok (payload_len v, s').
Proof. intros Hx Hk Hh. cbn [client_receive]. unfold get_nc, get_hub. rewrite Hx. cbn [mbind res_bind]. rewrite Hk, Hh. done. Qed.

Lemma send_on_hub fuel s h hb n p data cb :
  hub_mem s !! h = Some hb → NoDup (ports hb) → p ∈ ports hb → (∀ q, q ∈ ports hb → leaf s h q) → far s p = Some n → data ≠ [] →
  let others := filter (λ q, q ≠ p) (ports hb) in
  send (S (S fuel)) n (Flat data) cb s =
    if all_busy s others then Ok (0, upd_nc (set_queue (NetQueue.mkQueue 10000 1 [NetQueue.mkPacket n NetQueue.QEMU_NET_PACKET_FLAG_NONE data cb] false)) p s)
    else Ok (Z.of_nat (length data), foldl (arrive data) s others).
Proof.
  intros HH Hnd Hp Hl Hf Hne others. pose proof (Hl p Hp) as Hlp. pose proof Hlp as (x & Hx & Hk & Hh & Hld & Hd & Hq & _).
  destruct (leaf_far s h p n Hlp Hf) as (y & Hy & Hky & Hpy & Hly & Hdy & Hqy).
  unfold send, send_with, get_nc. rewrite Hy. cbn [mbind res_bind]. unfold NetQueue.qemu_send_packet_async, NetQueue.qemu_send_packet_async_with_flags.
  rewrite Hly, Hpy. rewrite bool_decide_eq_true_2 by eauto. cbn [orb negb]. change (default 0 (Some p)) with p.
  assert (Hq0 : nc_field incoming_queue NetQueue.qemu_new_net_queue p s = NetQueue.qemu_new_net_queue) by (unfold nc_field; by rewrite Hx, Hq).
  assert (Hc : can_send (S (S fuel)) n s = negb (all_busy s others)).
  { unfold all_busy. rewrite negb_involutive. cbn [can_send]. unfold nc_field at 1. rewrite Hy, Hpy. unfold nc_field at 1. rewrite Hx, Hd. unfold is_port, nc_field. rewrite Hx, bool_decide_eq_true_2 by done.
    rewrite Hh, HH. fold others. assert (Hin : ∀ q, q ∈ others → leaf s h q) by (intros q [_ Hqp]%list_elem_of_filter; by apply Hl).
    clear -Hin H0. induction others as [|q l IH]; [done|]. cbn [existsb]. rewrite IH by (intros; apply Hin; by right). f_equal. apply (can_send_leaf fuel s h). apply Hin. by left. }
  unfold NetQueue.qemu_net_queue_send. cbn [NetQueue.port_queue NetQueue.can_send_packet as_port]. rewrite Hq0, Hc.
  cbn [NetQueue.delivering NetQueue.qemu_new_net_queue orb]. destruct (all_busy s others); cbn [negb].
  { unfold NetQueue.qemu_net_queue_append. cbn [NetQueue.port_queue NetQueue.set_port_queue as_port]. rewrite Hq0.
    by cbn [NetQueue.nq_maxlen NetQueue.nq_count NetQueue.qemu_new_net_queue Z.leb Z.compare Pos.compare Pos.compare_cont andb NetQueue.packets app]. }
  unfold NetQueue.qemu_net_queue_deliver. cbn [NetQueue.port_queue NetQueue.set_port_queue NetQueue.deliver_packet as_port]. rewrite Hq0.
  set (g := set_queue (NetQueue.set_delivering NetQueue.qemu_new_net_queue true)). set (s1 := upd_nc g p s).
  assert (Hx1 : ncs s1 !! p = Some (g x)) by (by apply upd_lookup).
  unfold NetQueue.qemu_deliver_packet. cbn [NetQueue.nc_link_down NetQueue.nc_receive_disabled NetQueue.nc_receive_raw NetQueue.nc_receive as_client].
  assert (Hl1 : nc_field link_down false p s1 = false) by (unfold nc_field; by rewrite Hx1).
  assert (Hd1 : nc_field receive_disabled false p s1 = false) by (unfold nc_field; by rewrite Hx1).
  rewrite Hl1, Hd1, (port_receive (S fuel) s1 p (g x) hb) by (cbn; by rewrite ?Hh).
  rewrite (hub_forward_spec fuel fuel h data (ports hb) p s1 Hne Hnd) by (intros q Hqp Hnp; apply leaf_upd; [done|by apply Hl|done|done]). fold others. cbn [mbind res_bind payload_len].
  assert (Hlen : Z.of_nat (length data) ≠ 0) by (destruct data; [done|cbn; lia]). rewrite (proj2 (Z.eqb_neq _ _) Hlen). cbn [mbind res_bind].
  assert (Hoth : ∀ q, q ∈ others → far s q ≠ Some p).
  { intros q [Hqne Hqp]%list_elem_of_filter Hfq. by apply (far_end s h p q p Hlp (Hl q Hqp) Hfq). }
  unfold s1 at 1 2. rewrite (foldl_arrive_upd data g p others s) by done. set (s' := foldl (arrive data) s others).
  destruct (foldl_arrive data h others s ltac:(by apply NoDup_filter) ltac:(intros q [_ Hqp]%list_elem_of_filter; by apply Hl)) as (_ & _ & H3 & _).
  assert (Hx' : ncs s' !! p = Some x). { unfold s'. rewrite H3; [done|]. intros q Hqo Hfq. by destruct (Hoth q Hqo). }
  assert (Hq2 : nc_field incoming_queue NetQueue.qemu_new_net_queue p (upd_nc g p s') = NetQueue.set_delivering NetQueue.qemu_new_net_queue true).
  { unfold nc_field. by rewrite (upd_lookup g p s' x Hx'). }
  rewrite Hq2, upd_upd. rewrite (upd_id _ p s' x Hx') by (destruct x; cbn in *; by subst).
  cbn [NetQueue.qemu_net_queue_flush NetQueue.port_queue as_port]. unfold nc_field. rewrite Hx', Hq. cbn [NetQueue.packets NetQueue.qemu_new_net_queue mbind res_bind].
  reflexivity.
Qed.

(** C16: A hub delivers a packet to everyone but its sender, once.  On a hub whose ports and clients are
    up, enabled and have nothing queued, a non-empty packet that a client sends while a client of
    another port can receive, or another port has no client, is accepted: the receive functions of
    the clients of the other ports that can receive now are called with it, each once and in the
    order of the ports; a client that cannot receive now finds it in its queue; so does one whose
    receive function refuses it (returns 0), which is also marked as not receiving; and nothing
    else changes, the sender and the ports included.  If no other port can take it, it waits at the
    sender's port.  The clients are separate (one's receiving does not change another's) and do
    not send within their receive functions. *)
Theorem net_hub_broadcast fuel s h hb n p data cb :
  hub_mem s !! h = Some hb → NoDup (ports hb) → p ∈ ports hb → (∀ q, q ∈ ports hb → leaf s h q) → far s p = Some n → data ≠ [] →
  let others := filter (λ q, q ≠ p) (ports hb) in
  if all_busy s others then
    send (S (S fuel)) n (Flat data) cb s =
      Ok (0, upd_nc (set_queue (NetQueue.mkQueue 10000 1 [NetQueue.mkPacket n NetQueue.QEMU_NET_PACKET_FLAG_NONE data cb] false)) p s)
  else
    ∃ s', send (S (S fuel)) n (Flat data) cb s = Ok (Z.of_nat (length data), s') ∧
      ends s' = foldl (λ x e, snd (ep_receive e data x)) (ends s) (receivers s others) ∧
      (∀ q e y, q ∈ others → far s q = Some e → takes data s e = false → ncs s !! e = Some y →
         ncs s' !! e = Some (left_for q data (ep_can_receive e (ends s)) y)) ∧
      (∀ a, (∀ q, q ∈ others → far s q = Some a → takes data s a = true) → ncs s' !! a = ncs s !! a) ∧
      net_clients s' = net_clients s ∧ hub_mem s' = hub_mem s ∧ hubs s' = hubs s ∧ nics s' = nics s.
Proof.
  intros HH Hnd Hp Hl Hf Hne others. pose proof (send_on_hub fuel s h hb n p data cb HH Hnd Hp Hl Hf Hne) as Hs. cbv zeta in Hs. fold others in Hs.
  destruct (all_busy s others); [done|]. eexists. split; [exact Hs|]. apply (foldl_arrive data h others s); [by apply NoDup_filter|].
  intros q [_ Hqp]%list_elem_of_filter. by apply Hl.
Qed.
End Hub.

(** A hub with four ports and the clients 1, 2, 3 and 4, of which 3 cannot receive and 4 refuses. *)
Module Demo.
Record Ends : Type := mkEnds { log : list (Z * list Z); busy : list Z; full : list Z }.
#[global] Instance DemoEnds : Endpoints Ends := {|
  ep_receive e data x :=
    if existsb (Z.eqb e) (full x) then (0, x)
    else (Z.of_nat (length data), mkEnds (log x ++ [(e, data)]) (busy x) (full x));
  ep_can_receive e x := negb (existsb (Z.eqb e) (busy x));
  ep_cleanup _ x := x;
  ep_link_changed _ x := x;
  ep_sent _ _ _ x := x;
|}.
#[global] Instance DemoLaws : EndpointsLaws Ends.
Proof.
  split; intros e e' data x _; cbn; destruct (existsb (Z.eqb e) (full x)); cbn; [done..|].
  by destruct (existsb (Z.eqb e') (full x)).
Qed.

Definition empty : Net Ends := mkNet ∅ [] ∅ ∅ [] (mkEnds [] [3] [4]).
Definition wire (i : Z) (s : Net Ends) : res (Net Ends) :=
  s ← net_hub_add_port (10 + i) 100 0 None s; qemu_new_net_client i KIND_BACKEND (Some (10 + i)) "user" None s.
Definition four : Net Ends :=
  match s ← wire 1 empty; s ← wire 2 s; s ← wire 3 s; wire 4 s with Ok s => s | _ => empty end.

Lemma four_leaf q : q ∈ [14; 13; 12; 11] → leaf four 100 q.
Proof.
  intros Hq. repeat (apply elem_of_cons in Hq as [->|Hq]); [..|by apply not_elem_of_nil in Hq];
  (eexists; split; [vm_compute; reflexivity|]); cbn; (do 5 (split; [reflexivity|]); eexists; split; [vm_compute; reflexivity|by repeat split]).
Qed.
Lemma four_hub : hub_mem four !! 100 = Some (mkHub 0 4 [14; 13; 12; 11]).
Proof. vm_compute. reflexivity. Qed.
Lemma four_distinct : NoDup (ports (mkHub 0 4 [14; 13; 12; 11])).
Proof. cbn. repeat constructor; set_solver. Qed.
Lemma four_port : 11 ∈ ports (mkHub 0 4 [14; 13; 12; 11]).
Proof. cbn. set_solver. Qed.
Lemma four_far : far four 11 = Some 1.
Proof. vm_compute. reflexivity. Qed.
Lemma four_others : filter (λ q, q ≠ 11) (ports (mkHub 0 4 [14; 13; 12; 11])) = [14; 13; 12].
Proof. vm_compute. reflexivity. Qed.
Lemma four_busy : all_busy four [14; 13; 12] = false ∧ receivers four [14; 13; 12] = [4; 2] ∧ ends four = mkEnds [] [3] [4].
Proof. vm_compute. auto. Qed.
Lemma four_waits : far four 13 = Some 3 ∧ takes [7; 8] four 3 = false ∧ ep_can_receive 3 (ends four) = false ∧ is_Some (ncs four !! 3).
Proof. vm_compute. repeat split. eauto. Qed.
Lemma four_refuses : far four 14 = Some 4 ∧ takes [7; 8] four 4 = false ∧ ep_can_receive 4 (ends four) = true ∧ is_Some (ncs four !! 4).
Proof. vm_compute. repeat split. eauto. Qed.
End Demo.

(** Client 1 sends: 2 gets the packet, 3 finds it in its queue, 4 refuses it and finds it in its
    queue. *)
Lemma net_hub_broadcast_witness :
  ∃ s', send 2 1 (Flat [7; 8]) None Demo.four = Ok (2, s') ∧ Demo.log (ends s') = [(2, [7; 8])] ∧
    nc_field incoming_queue NetQueue.qemu_new_net_queue 3 s' = waiting 13 [7; 8] ∧
    nc_field incoming_queue NetQueue.qemu_new_net_queue 4 s' = waiting 14 [7; 8] ∧ nc_field receive_disabled false 4 s' = true.
Proof.
  pose proof (net_hub_broadcast 0 Demo.four 100 _ 1 11 [7; 8] None Demo.four_hub Demo.four_distinct Demo.four_port
    Demo.four_leaf Demo.four_far ltac:(done)) as Hb.
  destruct Demo.four_busy as (Hb1 & Hr & Hl). destruct Demo.four_waits as (Hf & Ht & Hc & [y Hn]).
  destruct Demo.four_refuses as (Hf4 & Ht4 & Hc4 & [y4 Hn4]).
  cbv zeta in Hb. rewrite Demo.four_others, Hb1, Hr in Hb. destruct Hb as (s' & Hs & He & Hq & _). exists s'. split; [exact Hs|].
  split; [rewrite He, Hl; reflexivity|].
  pose proof (Hq 13 3 y (list_elem_of_further _ _ _ (list_elem_of_here _ _)) Hf Ht Hn) as H3. pose proof (Hq 14 4 y4 (list_elem_of_here _ _) Hf4 Ht4 Hn4) as H4.
  unfold nc_field. rewrite H3, H4, Hc, Hc4. cbn [left_for refused set_queue set_disabled incoming_queue receive_disabled]. auto.
Defined.

End Net.
