(* ===== verification/NetRegistry.v ===== *)
(** The registry of network clients (net/net.c, net/hub.c): the invariant that every operation
    keeps ([net_ok]), that removing a client or a card never fails in states that keep it, and
    that the shutdown ends with everything freed.  Packets leave the registry alone
    ([same_shape]), whatever the clients do with them. *)

From S2P Require Import Prelude Iov NetQueue Net.
Import Net.

Module NetRegistry.

(** ** Packets leave the registry alone *)

Section Shape.
Context {E : Type} `{Endpoints E}.
Implicit Types s : Net E.

(** A client without what the delivery of packets changes. *)
Definition strip (x : NetClientState) : NetClientState :=
  mkClient (kind x) (name x) (model x) (peer x) false false NetQueue.qemu_new_net_queue (hub x) (port_id x) (nic x).
Definition same_shape (s s' : Net E) : Prop :=
  net_clients s = net_clients s' ∧ nics s = nics s' ∧ hub_mem s = hub_mem s' ∧ hubs s = hubs s' ∧ strip <$> ncs s = strip <$> ncs s'.

#[export] Instance same_shape_equiv : Equivalence same_shape.
Proof. split; [by intros s|intros s s' (? & ? & ? & ? & ?); by repeat split|]. intros s1 s2 s3 (? & ? & ? & ? & ?) (? & ? & ? & ? & ?). repeat split; congruence. Qed.

Lemma shape_upd f p s : (∀ x, strip (f x) = strip x) → same_shape s (upd_nc f p s).
Proof.
  intros Hf. do 4 (split; [done|]). cbn. apply map_eq. intros a. rewrite !lookup_fmap. destruct (decide (p = a)) as [<-|].
  - rewrite lookup_alter_eq. destruct (ncs s !! p); [cbn; by rewrite Hf|done].
  - by rewrite lookup_alter_ne.
Qed.
Lemma shape_ends e s : same_shape s (set_ends e s).
Proof. done. Qed.
Lemma shape_put a x y s : ncs s !! a = Some x → strip y = strip x → same_shape s (put_nc a y s).
Proof. intros Ha He. do 4 (split; [done|]). cbn. by rewrite fmap_insert, He, insert_id by (rewrite lookup_fmap, Ha; done). Qed.

Lemma shape_lookup s s' a x : same_shape s s' → ncs s !! a = Some x → ∃ x', ncs s' !! a = Some x' ∧ strip x = strip x'.
Proof.
  intros (_ & _ & _ & _ & Hm) Ha. assert (Hb : (strip <$> ncs s) !! a = Some (strip x)) by (rewrite lookup_fmap, Ha; done).
  rewrite Hm, lookup_fmap in Hb. destruct (ncs s' !! a) as [x'|]; [|done]. apply (inj Some) in Hb. by exists x'.
Qed.

Definition keeps_shape (rcv : payload → Z → Net E → res (Z * Net E)) : Prop := ∀ v c s r s', rcv v c s = Ok (r, s') → same_shape s s'.

Section Ports.
Context (fuel : nat) (rcv : receiver) (Hrcv : keeps_shape rcv).

Lemma deliver_shape p sender flags data s r s' :
  @NetQueue.deliver_packet _ (as_port fuel rcv p) sender flags data s = Ok (r, s') → same_shape s s'.
Proof.
  cbn. apply (NetQueue.deliver_packet_preserves same_shape); try done.
  - intros b s1. by apply shape_upd.
  - intros d s1 r1 s1'. apply Hrcv.
Qed.
Lemma deliver_iov_shape p sender flags iov s r s' :
  @NetQueue.deliver_packet_iov _ (as_port fuel rcv p) sender flags iov s = Ok (r, s') → same_shape s s'.
Proof.
  cbn. apply (NetQueue.deliver_packet_iov_preserves same_shape).
  - intros b s1. by apply shape_upd.
  - intros d s1 r1 s1'. apply Hrcv.
  - intros f d s1 r1 s1' Hf. cbn in Hf. destruct (is_port p s); [|done]. injection Hf as <-. apply Hrcv.
Qed.
Lemma flush_shape p n s r s' : @NetQueue.qemu_net_queue_flush _ (as_port fuel rcv p) n s = Ok (r, s') → same_shape s s'.
Proof.
  apply (NetQueue.flush_preserves same_shape).
  - intros q s1. by apply shape_upd.
  - intros. apply shape_ends.
  - apply deliver_shape.
Qed.
Lemma send_with_shape c v cb s r s' : send_with fuel rcv c v cb s = Ok (r, s') → same_shape s s'.
Proof.
  unfold send_with. intros (x & _ & Hs)%bind_Ok. destruct v as [d|iov].
  - unfold NetQueue.qemu_send_packet_async, NetQueue.qemu_send_packet_async_with_flags in Hs. destruct (link_down x || _); [by injection Hs as <- <-|].
    revert Hs. apply (NetQueue.queue_send_preserves same_shape); [intros q s1; by apply shape_upd|intros; apply shape_ends|apply deliver_shape].
  - unfold NetQueue.qemu_sendv_packet_async in Hs. destruct (link_down x || _); [by injection Hs as <- <-|].
    revert Hs. apply (NetQueue.queue_send_iov_preserves same_shape); [intros q s1; by apply shape_upd|intros; apply shape_ends|apply deliver_shape|apply deliver_iov_shape].
Qed.
Lemma hub_forward_shape l source v s s' : hub_forward fuel rcv l source v s = Ok s' → same_shape s s'.
Proof.
  revert s. induction l as [|p l IH]; intros s Hf; cbn [hub_forward] in Hf; [by injection Hf as <-|]. destruct (p =? source); [by apply IH|].
  apply bind_Ok in Hf as ([r s1] & Hs & Hf). etrans; [by eapply send_with_shape|by apply IH].
Qed.
End Ports.

Lemma client_receive_shape fuel : keeps_shape (client_receive fuel).
Proof.
  induction fuel as [|fuel IH]; intros v c s r s' Hr; [done|]. cbn [client_receive] in Hr. apply bind_Ok in Hr as (x & _ & Hr).
  assert (Hend : ∀ d, (let '(r, e) := ep_receive c d (ends s) in Ok (r, set_ends e s)) = Ok (r, s') → same_shape s s').
  { intros d. destruct (ep_receive c d (ends s)) as [r1 e1]. intros He. by injection He as <- <-. }
  destruct (kind x); [destruct v; [by eapply Hend|done]| |destruct v; [by eapply Hend|done]].
  apply bind_Ok in Hr as (hb & _ & Hr). apply bind_Ok in Hr as (s1 & Hf & He). injection He as <- <-. by eapply hub_forward_shape.
Qed.
Lemma send_shape fuel c v cb s r s' : send fuel c v cb s = Ok (r, s') → same_shape s s'.
Proof. apply send_with_shape, client_receive_shape. Qed.
Lemma flush_ports_shape fuel l c s r s' : flush_ports fuel l c s = Ok (r, s') → same_shape s s'.
Proof.
  revert s r. induction l as [|p l IH]; intros s r Hf; cbn [flush_ports] in Hf; [by injection Hf as <- <-|]. destruct (p =? c); [by eapply IH|].
  apply bind_Ok in Hf as ([b s1] & Hs & Hf). apply bind_Ok in Hf as ([n s2] & Hf & He). injection He as <- <-.
  etrans; [by eapply flush_shape, Hs; apply client_receive_shape|by eapply IH].
Qed.
Lemma hub_flush_shape fuel c s r s' : net_hub_flush fuel c s = Ok (r, s') → same_shape s s'.
Proof.
  unfold net_hub_flush. intros (x & _ & Hf)%bind_Ok. apply bind_Ok in Hf as (hb & _ & Hf). apply bind_Ok in Hf as ([n s1] & Hf & He).
  injection He as <- <-. by eapply flush_ports_shape.
Qed.
Lemma flush_queued_shape fuel c s r s' : qemu_flush_queued_packets fuel c s = Ok (r, s') → same_shape s s'.
Proof.
  unfold qemu_flush_queued_packets. intros (x & _ & Hf)%bind_Ok. apply bind_Ok in Hf as ([b s1] & Hb & Hf). apply bind_Ok in Hf as ([b' s2] & Hf & He).
  injection He as <- <-. etrans; [by apply (shape_upd (set_disabled false) c)|]. etrans; [|by eapply flush_shape, Hf; apply client_receive_shape].
  destruct (peer x) as [p|]; [|by injection Hb as <- <-]. apply bind_Ok in Hb as (y & _ & Hb). destruct (kind y); try (by injection Hb as <- <-). by eapply hub_flush_shape.
Qed.
Lemma purge_shape c s s' : qemu_purge_queued_packets c s = Ok s' → same_shape s s'.
Proof.
  unfold qemu_purge_queued_packets. intros (x & _ & Hp)%bind_Ok. destruct (peer x) as [p|]; injection Hp as <-; [|done].
  unfold NetQueue.qemu_net_queue_purge. destruct (foldl _ _ _) as [n l]. by apply shape_upd.
Qed.
Lemma set_link_shape nm up s s' : qmp_set_link nm up s = Ok s' → same_shape s s'.
Proof.
  unfold qmp_set_link. intros (l & _ & Hl)%bind_Ok. destruct (_ <? _); [done|]. destruct l as [|a l]; [by injection Hl as <-|]. generalize dependent (a :: l). intros l0 Hl.
  apply bind_Ok in Hl as (s1 & Hf & Hl). apply bind_Ok in Hl as (x & _ & Hl). transitivity s1.
  - clear Hl x a l. revert s Hf. induction l0 as [|a l IH]; intros s Hf; [by injection Hf as <-|]. cbn [for_clients] in Hf. apply bind_Ok in Hf as (s2 & Ha & Hf).
    etrans; [|by apply IH]. apply bind_Ok in Ha as (x & Hx & He). injection He as <-. apply (shape_put a x); [|done]. unfold get_nc in Hx. destruct (ncs s !! a); [by injection Hx as <-|done].
  - assert (Hc : ∀ a x s, same_shape s (link_status_changed a x s)) by (intros b y s2; unfold link_status_changed; by destruct (kind y)).
    destruct (peer x) as [p|]; [|injection Hl as <-; apply Hc]. apply bind_Ok in Hl as (y & _ & Hl). injection Hl as <-. etrans; apply Hc.
Qed.
End Shape.

(** ** The registry *)

Section Registry.
Context {E : Type} `{Endpoints E}.
Implicit Types s : Net E.

Definition distinct_names (s : Net E) : Prop :=
  ∀ a b x y, a ∈ net_clients s → b ∈ net_clients s → ncs s !! a = Some x → ncs s !! b = Some y →
    kind x ≠ KIND_NIC → kind y ≠ KIND_NIC → name x = name y → a = b.

(** Listed clients are allocated; peers point at each other; a hub's ports are the listed ports of
    that hub; a card (with one queue) has its client, and has lost its back end exactly when the
    client's peer is no longer listed; a client that is allocated but not listed is a back end
    that waits for its card to go; the clients that are not cards have distinct names. *)
Record net_ok (s : Net E) : Prop := mkOk {
  ok_nodup : NoDup (net_clients s);
  ok_live : ∀ a, a ∈ net_clients s → is_Some (ncs s !! a);
  ok_peer : ∀ a x p, ncs s !! a = Some x → peer x = Some p → p ≠ a ∧ ∃ y, ncs s !! p = Some y ∧ peer y = Some a;
  ok_ports : ∀ h hb, hub_mem s !! h = Some hb →
    NoDup (ports hb) ∧ ∀ q, q ∈ ports hb ↔ q ∈ net_clients s ∧ ∃ x, ncs s !! q = Some x ∧ kind x = KIND_HUBPORT ∧ hub x = h;
  ok_hub : ∀ a x, ncs s !! a = Some x → kind x = KIND_HUBPORT → is_Some (hub_mem s !! hub x);
  ok_hubs : NoDup (hubs s) ∧ ∀ h, h ∈ hubs s ↔ is_Some (hub_mem s !! h);
  ok_ids : ∀ h h' hb hb', hub_mem s !! h = Some hb → hub_mem s !! h' = Some hb' → hub_id hb = hub_id hb' → h = h';
  ok_nics : ∀ n c, nics s !! n = Some c → ∃ a x, nic_ncs c = [a] ∧ a ∈ net_clients s ∧ ncs s !! a = Some x ∧ kind x = KIND_NIC ∧ nic x = n ∧
    (peer_deleted c = true ↔ ∃ b, peer x = Some b ∧ b ∉ net_clients s);
  ok_nic : ∀ a x, ncs s !! a = Some x → kind x = KIND_NIC → ∃ c, nics s !! nic x = Some c ∧ nic_ncs c = [a];
  ok_orphan : ∀ a x, ncs s !! a = Some x → a ∉ net_clients s →
    kind x ≠ KIND_NIC ∧ ∃ p y, peer x = Some p ∧ ncs s !! p = Some y ∧ kind y = KIND_NIC;
  ok_names : distinct_names s;
}.

Lemma get_nc_ok a s x : ncs s !! a = Some x → get_nc a s = Ok x.
Proof. intros Ha. unfold get_nc. by rewrite Ha. Qed.
Lemma get_nc_inv a s x : get_nc a s = Ok x → ncs s !! a = Some x.
Proof. unfold get_nc. destruct (ncs s !! a); [by intros [= ->]|done]. Qed.
Lemma get_hub_ok h s hb : hub_mem s !! h = Some hb → get_hub h s = Ok hb.
Proof. intros Ha. unfold get_hub. by rewrite Ha. Qed.
Lemma get_hub_inv h s hb : get_hub h s = Ok hb → hub_mem s !! h = Some hb.
Proof. unfold get_hub. destruct (hub_mem s !! h); [by intros [= ->]|done]. Qed.
Lemma elem_of_without a b l : b ∈ without a l ↔ b ∈ l ∧ b ≠ a.
Proof. unfold without. rewrite list_elem_of_filter. tauto. Qed.
Lemma NoDup_without a l : NoDup l → NoDup (without a l).
Proof. apply NoDup_filter. Qed.

(** What does not change while a client is linked and unlinked. *)
Definition same_client (x y : NetClientState) : Prop := kind x = kind y ∧ name x = name y ∧ hub x = hub y ∧ nic x = nic y.

(** *** Packets and link changes *)
Lemma strip_fields x y : strip x = strip y → same_client x y ∧ peer x = peer y.
Proof. intros [=]. by repeat split. Qed.

Lemma shape_net_ok s s' : same_shape s s' → net_ok s → net_ok s'.
Proof.
  intros Hs [H1 H2 H3 H4 H5 H6 H7 H8 H9 H10 H11]. pose proof Hs as (El & En & Eh & Eb & _). rewrite El, En, Eh, Eb in *.
  assert (Hf : ∀ a x, ncs s !! a = Some x → ∃ x', ncs s' !! a = Some x' ∧ same_client x x' ∧ peer x = peer x').
  { intros a x Ha. destruct (shape_lookup s s' a x Hs Ha) as (x' & Ha' & He). exists x'. split; [done|]. by apply strip_fields. }
  assert (Hg : ∀ a x, ncs s' !! a = Some x → ∃ x', ncs s !! a = Some x' ∧ same_client x x' ∧ peer x = peer x').
  { intros a x Ha. symmetry in Hs. destruct (shape_lookup s' s a x Hs Ha) as (x' & Ha' & He). exists x'. split; [done|]. by apply strip_fields. }
  split; rewrite <- ?El, <- ?En, <- ?Eh, <- ?Eb; rewrite ?El, ?En, ?Eh, ?Eb; try done.
  - intros a Ha. destruct (H2 a Ha) as [x Hx]. destruct (Hf a x Hx) as (x' & -> & _). eauto.
  - intros a x p Ha Hp. destruct (Hg a x Ha) as (x0 & Ha0 & _ & E0). rewrite E0 in Hp. destruct (H3 a x0 p Ha0 Hp) as (Hne & y & Hy & Hpy). split; [done|].
    destruct (Hf p y Hy) as (y' & Hy' & _ & E1). exists y'. split; [done|congruence].
  - intros h hb Hh. destruct (H4 h hb Hh) as [Hnd Hq]. split; [done|]. intros q. rewrite Hq. split; intros [Hl (x & Hx & Hk & Hxh)]; (split; [done|]).
    + destruct (Hf q x Hx) as (x' & Hx' & (E1 & E2 & E3 & E4) & _). exists x'. split; [done|]. split; congruence.
    + destruct (Hg q x Hx) as (x' & Hx' & (E1 & E2 & E3 & E4) & _). exists x'. split; [done|]. split; congruence.
  - intros a x Ha Hk. destruct (Hg a x Ha) as (x0 & Ha0 & (E1 & E2 & E3 & E4) & _). rewrite E3. apply (H5 a x0 Ha0). congruence.
  - intros n c Hn. destruct (H8 n c Hn) as (a & x & Hc & Hl & Hx & Hk & Hxn & Hd). destruct (Hf a x Hx) as (x' & Hx' & (E1 & E2 & E3 & E4) & E5).
    exists a, x'. rewrite <-E5. repeat (split; [congruence|]). exact Hd.
  - intros a x Ha Hk. destruct (Hg a x Ha) as (x0 & Ha0 & (E1 & E2 & E3 & E4) & _). rewrite E4. apply (H9 a x0 Ha0). congruence.
  - intros a x Ha Hl. destruct (Hg a x Ha) as (x0 & Ha0 & (E1 & E2 & E3 & E4) & E5). rewrite E1, E5. destruct (H10 a x0 Ha0 Hl) as (Hk & p & y & Hp & Hy & Hky).
    split; [done|]. destruct (Hf p y Hy) as (y' & Hy' & (F1 & _) & _). exists p, y'. split; [done|]. split; [done|congruence].
  - intros a b x y Ha Hb Hx Hy Hkx Hky Hn. destruct (Hg a x Hx) as (x0 & Hx0 & (E1 & E2 & _) & _). destruct (Hg b y Hy) as (y0 & Hy0 & (F1 & F2 & _) & _).
    apply (H11 a b x0 y0); congruence.
Qed.

(** *** Creating *)

(** The allocated clients after [a] has been linked with its peer, and after it has been unlinked. *)
Definition linked (a : Z) (x : NetClientState) (m : gmap Z NetClientState) : gmap Z NetClientState :=
  <[a := x]> (match peer x with None => m | Some p => alter (set_peer (Some a)) p m end).

Lemma linked_inv a x m b z :
  linked a x m !! b = Some z →
  (b = a ∧ z = x) ∨
  (b ≠ a ∧ ∃ z0, m !! b = Some z0 ∧ same_client z z0 ∧ peer z = if decide (peer x = Some b) then Some a else peer z0).
Proof.
  unfold linked. destruct (decide (b = a)) as [->|Hne]; [rewrite lookup_insert_eq; intros [= ->]; by left|]. rewrite lookup_insert_ne by done. intros Hb. right. split; [done|].
  destruct (peer x) as [p|]; [|exists z; rewrite decide_False by done; by repeat split]. destruct (decide (p = b)) as [->|Hpb].
  - rewrite lookup_alter_eq in Hb. destruct (m !! b) as [z0|]; [|done]. injection Hb as <-. exists z0. rewrite decide_True by done. by repeat split.
  - rewrite lookup_alter_ne in Hb by done. exists z. rewrite decide_False by congruence. by repeat split.
Qed.
Lemma linked_new a x m : linked a x m !! a = Some x.
Proof. apply lookup_insert_eq. Qed.
Lemma linked_old a x m b z0 :
  b ≠ a → m !! b = Some z0 → ∃ z, linked a x m !! b = Some z ∧ same_client z z0 ∧ peer z = if decide (peer x = Some b) then Some a else peer z0.
Proof.
  intros Hne Hb. unfold linked. rewrite lookup_insert_ne by done. destruct (peer x) as [p|]; [|exists z0; rewrite decide_False by done; by repeat split].
  destruct (decide (p = b)) as [->|Hpb].
  - rewrite lookup_alter_eq, Hb. eexists. split; [done|]. rewrite decide_True by done. by repeat split.
  - rewrite lookup_alter_ne by done. exists z0. rewrite decide_False by congruence. by repeat split.
Qed.

Lemma setup_inv a k h id n pr m nm s s' :
  qemu_net_client_setup a k h id n pr m nm s = Ok s' → ncs s !! a = None →
  ∃ x, kind x = k ∧ hub x = h ∧ nic x = n ∧ peer x = pr ∧ (∀ nm', nm = Some nm' → name x = nm') ∧
    (∀ p, pr = Some p → p ≠ a ∧ ∃ y, ncs s !! p = Some y ∧ peer y = None) ∧
    s' = set_list (net_clients s ++ [a]) (set_ncs (linked a x (ncs s)) s).
Proof.
  unfold qemu_net_client_setup. intros (nm1 & Hn & Hs)%bind_Ok Ha. apply bind_Ok in Hs as (s1 & H1 & Hs). injection Hs as <-.
  exists (mkClient k nm1 m pr false false NetQueue.qemu_new_net_queue h id n). do 4 (split; [done|]). split; [intros nm' ->; by injection Hn as <-|].
  destruct pr as [p|]; [|injection H1 as <-; done]. apply bind_Ok in H1 as (y & Hy & H1). apply get_nc_inv in Hy. destruct (peer y) eqn:Ep; [done|]. injection H1 as <-.
  split; [intros p' [= <-]; split; [congruence|eauto]|]. unfold linked. cbn. f_equal. unfold put_nc, set_ncs. cbn. f_equal. f_equal.
  apply map_eq. intros b. destruct (decide (p = b)) as [<-|]; [by rewrite lookup_insert_eq, lookup_alter_eq, Hy|]. by rewrite lookup_insert_ne, lookup_alter_ne.
Qed.

Section Join.
Context (s : Net E) (a : Z) (x : NetClientState).
Hypothesis (Hok : net_ok s) (Hfresh : ncs s !! a = None) (Hpr : ∀ p, peer x = Some p → p ≠ a ∧ ∃ y, ncs s !! p = Some y ∧ peer y = None).

Lemma fresh_listed : a ∉ net_clients s.
Proof using Hok Hfresh. intros Ha. destruct (ok_live s Hok a Ha) as [y Hy]. congruence. Qed.
Lemma peer_listed p : peer x = Some p → p ∈ net_clients s.
Proof using Hok Hpr.
  intros Hp. destruct (decide (p ∈ net_clients s)) as [|Hn]; [done|]. destruct (Hpr p Hp) as (_ & y & Hy & Hyp). destruct (ok_orphan s Hok p y Hy Hn) as (_ & q & z & Hq & _). congruence.
Qed.
(** No one points at a client that does not exist. *)
Lemma no_peer b z : ncs s !! b = Some z → peer z ≠ Some a.
Proof using Hok Hfresh. intros Hb Hz. destruct (ok_peer s Hok b z a Hb Hz) as (_ & y & Hy & _). congruence. Qed.

Variable (s' : Net E).
Hypothesis (Hl : net_clients s' = net_clients s ++ [a]) (Hm : ncs s' = linked a x (ncs s)).

Lemma listed_join b : b ∈ net_clients s' ↔ b ∈ net_clients s ∨ b = a.
Proof using Hl. rewrite Hl, elem_of_app, list_elem_of_singleton. done. Qed.
Lemma join_nodup : NoDup (net_clients s').
Proof using Hl Hok Hfresh. rewrite Hl. apply NoDup_app. split; [apply Hok|]. split; [|apply NoDup_singleton]. intros b Hb Hba. apply list_elem_of_singleton in Hba as ->. by apply fresh_listed. Qed.
Lemma join_live b : b ∈ net_clients s' → is_Some (ncs s' !! b).
Proof using Hl Hm Hok.
  intros [Hb | ->]%listed_join; rewrite Hm; [|rewrite linked_new; eauto]. destruct (decide (b = a)) as [->|Hne]; [rewrite linked_new; eauto|].
  destruct (ok_live s Hok b Hb) as [z Hz]. destruct (linked_old a x _ b z Hne Hz) as (z' & -> & _). eauto.
Qed.
Lemma join_peer b z p : ncs s' !! b = Some z → peer z = Some p → p ≠ b ∧ ∃ y, ncs s' !! p = Some y ∧ peer y = Some b.
Proof using Hm Hok Hfresh Hpr.
  rewrite Hm. intros [[-> ->] | (Hne & z0 & Hz0 & _ & Hzp)]%linked_inv Hp.
  - destruct (Hpr p Hp) as (Hpa & y & Hy & Hyp). split; [done|]. destruct (linked_old a x _ p y Hpa Hy) as (y' & Hy' & _ & E'). exists y'. split; [done|]. by rewrite E', decide_True.
  - rewrite Hp in Hzp. case_decide as Hd.
    + injection Hzp as ->. split; [done|]. exists x. by rewrite linked_new.
    + symmetry in Hzp. destruct (ok_peer s Hok b z0 p Hz0 Hzp) as (Hpb & y & Hy & Hyp). split; [done|].
      assert (Hpa : p ≠ a) by (intros ->; by apply (no_peer b z0)). destruct (linked_old a x _ p y Hpa Hy) as (y' & Hy' & _ & E'). exists y'. split; [done|].
      rewrite E', decide_False; [done|]. intros Hx. destruct (Hpr p Hx) as (_ & y1 & Hy1 & Hn1). congruence.
Qed.
Lemma join_orphan b z : ncs s' !! b = Some z → b ∉ net_clients s' → kind z ≠ KIND_NIC ∧ ∃ p y, peer z = Some p ∧ ncs s' !! p = Some y ∧ kind y = KIND_NIC.
Proof using Hl Hm Hok Hfresh Hpr.
  rewrite listed_join, Hm. intros [[-> ->] | (Hne & z0 & Hz0 & (K & _) & Hzp)]%linked_inv Hn; [tauto|]. rewrite K.
  destruct (ok_orphan s Hok b z0 Hz0 ltac:(tauto)) as (Hk & p & y & Hp & Hy & Hky). split; [done|]. rewrite Hzp, decide_False.
  2: { intros Hx. apply peer_listed in Hx. tauto. }
  assert (Hpa : p ≠ a) by (intros ->; by apply (no_peer b z0)). destruct (linked_old a x _ p y Hpa Hy) as (y' & Hy' & (K' & _) & _). exists p, y'. rewrite K'. done.
Qed.
(** The ports of a hub, if the new client is not one. *)
Lemma join_ports h hb :
  (kind x = KIND_HUBPORT → hub x ≠ h) → hub_mem s !! h = Some hb →
  NoDup (ports hb) ∧ ∀ q, q ∈ ports hb ↔ q ∈ net_clients s' ∧ ∃ y, ncs s' !! q = Some y ∧ kind y = KIND_HUBPORT ∧ hub y = h.
Proof using Hl Hm Hok Hfresh.
  intros Hx Hh. destruct (ok_ports s Hok h hb Hh) as [Hnd Hq]. split; [done|]. intros q. rewrite Hq, listed_join, Hm. split.
  - intros (Hql & y & Hy & Hk & Hyh). split; [by left|]. assert (Hqa : q ≠ a) by congruence. destruct (linked_old a x _ q y Hqa Hy) as (y' & Hy' & (K & _ & K' & _) & _).
    exists y'. split; [done|]. split; congruence.
  - intros (Hql & y & Hy & Hk & Hyh). apply linked_inv in Hy as [[-> ->] | (Hne & z0 & Hz0 & (K & _ & K' & _) & _)]; [by destruct (Hx Hk)|].
    split; [tauto|]. exists z0. split; [done|]. split; congruence.
Qed.
(** The card of a client that is not new. *)
Lemma join_nics n c : nics s !! n = Some c →
  ∃ b y, nic_ncs c = [b] ∧ b ∈ net_clients s' ∧ ncs s' !! b = Some y ∧ kind y = KIND_NIC ∧ nic y = n ∧ (peer_deleted c = true ↔ ∃ d, peer y = Some d ∧ d ∉ net_clients s').
Proof using Hl Hm Hok Hfresh Hpr.
  intros Hn. destruct (ok_nics s Hok n c Hn) as (b & y & Hc & Hb & Hy & Hk & Hyn & Hd). assert (Hba : b ≠ a) by congruence.
  destruct (linked_old a x _ b y Hba Hy) as (y' & Hy' & (K & _ & _ & K') & Hp). exists b, y'. rewrite Hm, listed_join. split; [done|]. split; [by left|]. split; [done|].
  split; [congruence|]. split; [congruence|]. rewrite Hd, Hp. split.
  - intros (d & Hyd & Hdl). exists d. rewrite decide_False, listed_join. 2: { intros Hx. destruct (Hpr b Hx) as (_ & y1 & Hy1 & Hn1). congruence. }
    split; [done|]. intros [?| ->]; [done|]. by apply (no_peer b y).
  - intros (d & Hyd & Hdl). rewrite listed_join in Hdl. case_decide; [injection Hyd as <-; tauto|]. exists d. tauto.
Qed.
Lemma join_nic b y : b ≠ a → ncs s' !! b = Some y → kind y = KIND_NIC → ∃ c, nics s !! nic y = Some c ∧ nic_ncs c = [b].
Proof using Hm Hok.
  intros Hb. rewrite Hm. intros [[-> ->] | (Hne & z0 & Hz0 & (K & _ & _ & K') & _)]%linked_inv Hk; [done|]. rewrite K'. apply (ok_nic s Hok b z0); congruence.
Qed.
Lemma join_hub b y : b ≠ a → ncs s' !! b = Some y → kind y = KIND_HUBPORT → is_Some (hub_mem s !! hub y).
Proof using Hm Hok.
  intros Hb. rewrite Hm. intros [[-> ->] | (Hne & z0 & Hz0 & (K & _ & K' & _) & _)]%linked_inv Hk; [done|]. rewrite K'. apply (ok_hub s Hok b z0); congruence.
Qed.
End Join.

(** A client that is no port leaves the hubs alone, one of no card the cards. *)
Lemma join_hubs s a x s' :
  net_ok s → ncs s !! a = None → net_clients s' = net_clients s ++ [a] → ncs s' = linked a x (ncs s) → hub_mem s' = hub_mem s → hubs s' = hubs s →
  kind x ≠ KIND_HUBPORT →
  (∀ h hb, hub_mem s' !! h = Some hb →
     NoDup (ports hb) ∧ ∀ q, q ∈ ports hb ↔ q ∈ net_clients s' ∧ ∃ x, ncs s' !! q = Some x ∧ kind x = KIND_HUBPORT ∧ hub x = h) ∧
  (∀ b y, ncs s' !! b = Some y → kind y = KIND_HUBPORT → is_Some (hub_mem s' !! hub y)) ∧
  (NoDup (hubs s') ∧ ∀ h, h ∈ hubs s' ↔ is_Some (hub_mem s' !! h)) ∧
  (∀ h h' hb hb', hub_mem s' !! h = Some hb → hub_mem s' !! h' = Some hb' → hub_id hb = hub_id hb' → h = h').
Proof.
  intros Hok Ha Hl Hm Eh Eb Hk. rewrite Eh, Eb. split; [|split; [|split; apply Hok]].
  - intros h hb. by apply (join_ports s a x Hok Ha s' Hl Hm).
  - intros b y Hb Hkb. destruct (decide (b = a)) as [->|Hne]; [rewrite Hm, linked_new in Hb; congruence|]. by apply (join_hub s a x Hok s' Hm b y).
Qed.
Lemma join_cards s a x s' :
  net_ok s → ncs s !! a = None → (∀ p, peer x = Some p → p ≠ a ∧ ∃ y, ncs s !! p = Some y ∧ peer y = None) →
  net_clients s' = net_clients s ++ [a] → ncs s' = linked a x (ncs s) → nics s' = nics s → kind x ≠ KIND_NIC →
  (∀ n c, nics s' !! n = Some c → ∃ a x, nic_ncs c = [a] ∧ a ∈ net_clients s' ∧ ncs s' !! a = Some x ∧ kind x = KIND_NIC ∧ nic x = n ∧
     (peer_deleted c = true ↔ ∃ b, peer x = Some b ∧ b ∉ net_clients s')) ∧
  (∀ b y, ncs s' !! b = Some y → kind y = KIND_NIC → ∃ c, nics s' !! nic y = Some c ∧ nic_ncs c = [b]).
Proof.
  intros Hok Ha Hpr Hl Hm En Hk. rewrite En. split.
  - intros n c. by apply (join_nics s a x).
  - intros b y Hb Hkb. destruct (decide (b = a)) as [->|Hne]; [rewrite Hm, linked_new in Hb; congruence|]. by apply (join_nic s a x Hok s' Hm b y).
Qed.

Lemma new_client_ok a pr m nm s s' :
  net_ok s → ncs s !! a = None → qemu_new_net_client a KIND_BACKEND pr m nm s = Ok s' → distinct_names s' → net_ok s'.
Proof.
  intros Hok Ha Hs Hn. apply setup_inv in Hs as (x & Hk & _ & _ & <- & _ & Hpr & Hs'); [|done].
  assert (Hl : net_clients s' = net_clients s ++ [a]) by (by subst s'). assert (Hm : ncs s' = linked a x (ncs s)) by (by subst s').
  destruct (join_hubs s a x s') as (? & ? & ? & ?); try (by subst s'); [congruence|]. destruct (join_cards s a x s') as (? & ?); try (by subst s'); [congruence|].
  split; eauto using join_nodup, join_live, join_peer, join_orphan.
Qed.

Lemma new_nic_ok n a pr m nm s s' :
  net_ok s → ncs s !! a = None → nics s !! n = None → new_nic n [a] [pr] m nm s = Ok s' → net_ok s'.
Proof.
  intros Hok Ha Hn Hs. unfold new_nic in Hs. cbn [nic_setup] in Hs. apply bind_Ok in Hs as (s1 & Hs & [= ->]).
  apply setup_inv in Hs as (x & Hk & _ & Hxn & <- & _ & Hpr & Hs'); [|done]. cbn in Hpr.
  assert (Hl : net_clients s' = net_clients s ++ [a]) by (by subst s'). assert (Hm : ncs s' = linked a x (ncs s)) by (by subst s').
  destruct (join_hubs s a x s') as (? & ? & ? & ?); try (by subst s'); [congruence|].
  assert (En : nics s' = <[n := mkNic [a] false]> (nics s)) by (by subst s').
  split; eauto using join_nodup, join_live, join_peer, join_orphan; rewrite ?En.
  - intros n' c. destruct (decide (n = n')) as [<-|Hne]; [rewrite lookup_insert_eq; intros [= <-]|rewrite lookup_insert_ne by done; by apply (join_nics s a x)].
    exists a, x. rewrite Hm, linked_new, (listed_join s a s' Hl). do 5 (split; [done || (by right)|]). split; [done|]. intros (b & Hb & Hbl). apply (peer_listed s a x Hok Hpr) in Hb. rewrite (listed_join s a s' Hl) in Hbl. tauto.
  - intros b y Hb Hkb. destruct (decide (b = a)) as [->|Hne].
    + rewrite Hm, linked_new in Hb. injection Hb as <-. rewrite Hxn, lookup_insert_eq. by eexists.
    + destruct (join_nic s a x Hok s' Hm b y Hne Hb Hkb) as (c & Hc & Hcb). rewrite lookup_insert_ne by congruence. eauto.
  - intros b d y z. rewrite !(listed_join s a s' Hl), !Hm. intros Hb Hd Hy Hz Hky Hkz Hyz.
    apply linked_inv in Hy as [[-> ->] | (Hba & y0 & Hy0 & (K1 & K2 & _) & _)]; [congruence|]. apply linked_inv in Hz as [[-> ->] | (Hda & z0 & Hz0 & (K3 & K4 & _) & _)]; [congruence|].
    apply (ok_names s Hok b d y0 z0); try congruence; tauto.
Qed.

Lemma hub_new_ok h id s :
  net_ok s → hub_mem s !! h = None → (∀ h' hb, hub_mem s !! h' = Some hb → hub_id hb ≠ id) → net_ok (net_hub_new h id s).
Proof.
  intros Hok Hh Hid. destruct Hok as [H1 H2 H3 H4 H5 H6 H7 H8 H9 H10 H11]. split; try done; cbn.
  - intros h' hb. destruct (decide (h = h')) as [<-|]; [rewrite lookup_insert_eq; intros [= <-]|rewrite lookup_insert_ne by done; apply H4]. split; [apply NoDup_nil_2|]. intros q. cbn. split; [by intros ?%not_elem_of_nil|].
    intros (_ & x & Hx & Hk & Hxh). destruct (H5 q x Hx Hk) as [hb Hb]. congruence.
  - intros a x Ha Hk. destruct (H5 a x Ha Hk) as [hb Hb]. rewrite lookup_insert_ne by congruence. eauto.
  - destruct H6 as [Hnd Hin]. split.
    + apply NoDup_cons. split; [|done]. rewrite Hin, Hh. by intros [? ?].
    + intros h'. rewrite elem_of_cons, Hin. destruct (decide (h = h')) as [<-|]; [rewrite lookup_insert_eq; split; eauto|]. rewrite lookup_insert_ne by done. split; [intros [->|?]; done|by right].
  - intros h1 h2 b1 b2. destruct (decide (h = h1)) as [<-|], (decide (h = h2)) as [<-|]; rewrite ?lookup_insert_eq, ?lookup_insert_ne by done; [done|..|apply H7].
    + intros [= <-] Hb He. cbn in He. by destruct (Hid h2 b2 Hb).
    + intros Hb [= <-] He. cbn in He. by destruct (Hid h1 b1 Hb).
Qed.

Lemma port_new_ok a h nm s s' :
  net_ok s → ncs s !! a = None → net_hub_port_new a h nm s = Ok s' → distinct_names s' → net_ok s'.
Proof.
  intros Hok Ha Hs Hn. unfold net_hub_port_new in Hs. apply bind_Ok in Hs as (hb & Hh & Hs). apply get_hub_inv in Hh. apply bind_Ok in Hs as (s1 & Hs & [= Hs']).
  apply setup_inv in Hs as (x & Hk & Hxh & _ & Hxp & _ & _ & Hs1); [|done].
  assert (Hl : net_clients s' = net_clients s ++ [a]) by (by subst s' s1). assert (Hm : ncs s' = linked a x (ncs s)) by (by subst s' s1).
  assert (Hpr : ∀ p, peer x = Some p → p ≠ a ∧ ∃ y, ncs s !! p = Some y ∧ peer y = None) by (intros p; congruence).
  destruct (join_cards s a x s') as (? & ?); try (by subst s' s1); [congruence|].
  assert (Em : hub_mem s' = <[h := mkHub (hub_id hb) (num_ports hb + 1) (a :: ports hb)]> (hub_mem s)) by (by subst s' s1). assert (Eb : hubs s' = hubs s) by (by subst s' s1). clear Hs' Hs1.
  split; eauto using join_nodup, join_live, join_peer, join_orphan; rewrite ?Em, ?Eb.
  - intros h' hb'. destruct (decide (h = h')) as [<-|Hne]; [rewrite lookup_insert_eq; intros [= <-]|rewrite lookup_insert_ne by done; apply (join_ports s a x Hok Ha s' Hl Hm); congruence].
    destruct (ok_ports s Hok h hb Hh) as [Hnd Hin]. cbn [ports]. split.
    + apply NoDup_cons. split; [|done]. rewrite Hin. intros (Hal & _). by apply (fresh_listed s a Hok Ha).
    + intros q. rewrite elem_of_cons, Hin, (listed_join s a s' Hl), Hm. destruct (decide (q = a)) as [->|Hqa].
      * split; [intros _|by left]. split; [by right|]. exists x. by rewrite linked_new.
      * split.
        -- intros [?|(Hql & y & Hy & Hky & Hyh)]; [done|]. split; [by left|]. destruct (linked_old a x _ q y Hqa Hy) as (y' & Hy' & (K & _ & K' & _) & _). exists y'. split; [done|]. split; congruence.
        -- intros (Hql & y & Hy & Hky & Hyh). right. apply linked_inv in Hy as [[-> ->] | (_ & z0 & Hz0 & (K & _ & K' & _) & _)]; [done|]. split; [tauto|]. exists z0. split; [done|]. split; congruence.
  - intros b y Hb Hkb. destruct (decide (b = a)) as [->|Hne].
    + rewrite Hm, linked_new in Hb. injection Hb as <-. rewrite Hxh, lookup_insert_eq. eauto.
    + destruct (join_hub s a x Hok s' Hm b y Hne Hb Hkb) as [hb' Hb']. destruct (decide (h = hub y)) as [->|]; [rewrite lookup_insert_eq|rewrite lookup_insert_ne by done]; eauto.
  - split; [apply Hok|]. intros h'. rewrite (proj2 (ok_hubs s Hok) h'). destruct (decide (h = h')) as [<-|]; [rewrite lookup_insert_eq, Hh; split; eauto|by rewrite lookup_insert_ne].
  - intros h1 h2 b1 b2. pose proof (ok_ids s Hok) as Hi. destruct (decide (h = h1)) as [<-|], (decide (h = h2)) as [<-|]; rewrite ?lookup_insert_eq, ?lookup_insert_ne by done; [done|..|apply Hi].
    + intros [= <-] Hb He. by apply (Hi h h2 hb b2).
    + intros Hb [= <-] He. by apply (Hi h1 h b1 hb).
Qed.

Lemma find_hub_spec l id s r :
  find_hub l id s = Ok r → match r with Some h => h ∈ l ∧ ∃ hb, hub_mem s !! h = Some hb ∧ hub_id hb = id | None => ∀ h hb, h ∈ l → hub_mem s !! h = Some hb → hub_id hb ≠ id end.
Proof.
  induction l as [|h l IH]; intros Hf; cbn [find_hub] in Hf; [injection Hf as <-; by intros ? ? ?%not_elem_of_nil|]. apply bind_Ok in Hf as (hb & Hh & Hf). apply get_hub_inv in Hh.
  destruct (Z.eqb_spec (hub_id hb) id) as [He|Hne]; [injection Hf as <-; split; [by left|eauto]|]. apply IH in Hf. destruct r as [h'|].
  - destruct Hf as [Hl Hb]. split; [by right|done].
  - intros h' hb' [->|Hl]%elem_of_cons Hb; [congruence|eauto].
Qed.
Lemma add_port_ok a h id nm s s' :
  net_ok s → ncs s !! a = None → hub_mem s !! h = None → net_hub_add_port a h id nm s = Ok s' → distinct_names s' → net_ok s'.
Proof.
  intros Hok Ha Hh Hs Hn. unfold net_hub_add_port in Hs. apply bind_Ok in Hs as (o & Ho & Hs). apply find_hub_spec in Ho. destruct o as [h'|]; [by apply (port_new_ok a h' nm s)|].
  apply (port_new_ok a h nm (net_hub_new h id s)); try done. apply hub_new_ok; [done|done|]. intros h' hb Hb. apply (Ho h' hb); [|done]. apply (ok_hubs s Hok). eauto.
Qed.
Lemma port_find_ok a h id s p s' :
  net_ok s → ncs s !! a = None → hub_mem s !! h = None → net_hub_port_find a h id s = Ok (p, s') → distinct_names s' → net_ok s'.
Proof.
  intros Hok Ha Hh Hs Hn. unfold net_hub_port_find in Hs. apply bind_Ok in Hs as (o & _ & Hs). apply bind_Ok in Hs as (r & _ & Hs). destruct r as [p'|]; [by injection Hs as _ <-|].
  apply bind_Ok in Hs as (s1 & Hs & [= _ ->]). by apply (add_port_ok a h id None s).
Qed.

(** *** Removing *)

Definition unlinked (a : Z) (x : NetClientState) (m : gmap Z NetClientState) : gmap Z NetClientState :=
  delete a (match peer x with None => m | Some p => alter (set_peer None) p m end).
Definition drop_port (a : Z) (x : NetClientState) (m : gmap Z NetHub) : gmap Z NetHub :=
  match kind x with KIND_HUBPORT => alter (λ hb, mkHub (hub_id hb) (num_ports hb) (without a (ports hb))) (hub x) m | _ => m end.

Lemma unlinked_inv a x m b z :
  unlinked a x m !! b = Some z → b ≠ a ∧ ∃ z0, m !! b = Some z0 ∧ same_client z z0 ∧ peer z = if decide (peer x = Some b) then None else peer z0.
Proof.
  unfold unlinked. destruct (decide (b = a)) as [->|Hne]; [by rewrite lookup_delete_eq|]. rewrite lookup_delete_ne by done. intros Hb. split; [done|].
  destruct (peer x) as [p|]; [|exists z; rewrite decide_False by done; by repeat split]. destruct (decide (p = b)) as [->|Hpb].
  - rewrite lookup_alter_eq in Hb. destruct (m !! b) as [z0|]; [|done]. injection Hb as <-. exists z0. rewrite decide_True by done. by repeat split.
  - rewrite lookup_alter_ne in Hb by done. exists z. rewrite decide_False by congruence. by repeat split.
Qed.
Lemma unlinked_old a x m b z0 :
  b ≠ a → m !! b = Some z0 → ∃ z, unlinked a x m !! b = Some z ∧ same_client z z0 ∧ peer z = if decide (peer x = Some b) then None else peer z0.
Proof.
  intros Hne Hb. unfold unlinked. rewrite lookup_delete_ne by done. destruct (peer x) as [p|]; [|exists z0; rewrite decide_False by done; by repeat split].
  destruct (decide (p = b)) as [->|Hpb].
  - rewrite lookup_alter_eq, Hb. eexists. split; [done|]. rewrite decide_True by done. by repeat split.
  - rewrite lookup_alter_ne by done. exists z0. rewrite decide_False by congruence. by repeat split.
Qed.
Lemma drop_port_lookup a x m h :
  drop_port a x m !! h = (λ hb, if bool_decide (kind x = KIND_HUBPORT ∧ hub x = h) then mkHub (hub_id hb) (num_ports hb) (without a (ports hb)) else hb) <$> m !! h.
Proof.
  unfold drop_port. destruct (decide (hub x = h)) as [->|Hne].
  - destruct (kind x); try (rewrite bool_decide_eq_false_2 by (by intros [? ?]); by destruct (m !! h)). rewrite bool_decide_eq_true_2 by done. by rewrite lookup_alter_eq.
  - rewrite bool_decide_eq_false_2 by (by intros [? ?]). destruct (kind x); rewrite ?lookup_alter_ne by done; by destruct (m !! h).
Qed.

Lemma cleanup_eq a s x :
  ncs s !! a = Some x → (kind x = KIND_HUBPORT → is_Some (hub_mem s !! hub x)) →
  ∃ e, qemu_cleanup_net_client a s = Ok (mkNet (ncs s) (without a (net_clients s)) (nics s) (drop_port a x (hub_mem s)) (hubs s) e).
Proof.
  intros Ha Hh. unfold qemu_cleanup_net_client, drop_port. rewrite (get_nc_ok a s x Ha). cbn [mbind res_bind]. destruct (kind x); [by eexists| |by eexists].
  destruct (Hh eq_refl) as [hb Hb]. unfold net_hub_port_cleanup, get_hub. cbn [hub_mem set_list]. rewrite Hb. cbn [mbind res_bind]. exists (ends s). unfold set_hubs. cbn. f_equal. f_equal.
  apply map_eq. intros h. destruct (decide (hub x = h)) as [<-|]; [by rewrite lookup_insert_eq, lookup_alter_eq, Hb|]. by rewrite lookup_insert_ne, lookup_alter_ne.
Qed.
Lemma free_eq a s x :
  ncs s !! a = Some x → (∀ p, peer x = Some p → p ≠ a ∧ is_Some (ncs s !! p)) →
  ∃ m, qemu_free_net_client a s = Ok (set_ncs m s) ∧ delete a m = unlinked a x (ncs s) ∧ (kind x ≠ KIND_NIC → m = unlinked a x (ncs s)).
Proof.
  intros Ha Hp. unfold qemu_free_net_client, unlinked. rewrite (get_nc_ok a s x Ha). cbn [mbind res_bind]. destruct (peer x) as [p|].
  - destruct (Hp p eq_refl) as (Hpa & y & Hy). rewrite (get_nc_ok p s y Hy). cbn [mbind res_bind].
    assert (He : <[p := set_peer None y]> (ncs s) = alter (set_peer None) p (ncs s)).
    { apply map_eq. intros b. destruct (decide (p = b)) as [<-|]; [by rewrite lookup_insert_eq, lookup_alter_eq, Hy|]. by rewrite lookup_insert_ne, lookup_alter_ne. }
    unfold put_nc. rewrite He. destruct (kind x); [exists (alter (set_peer None) p (ncs s)); done|..];
      (exists (delete a (alter (set_peer None) p (ncs s))); split; [done|]; split; [by rewrite delete_delete_eq|done]).
  - cbn [mbind res_bind]. destruct (kind x); [exists (ncs s); split; [by destruct s|]; done|..]; (exists (delete a (ncs s)); split; [done|]; split; [by rewrite delete_delete_eq|done]).
Qed.

(** *** What a removal leaves in order *)
Section Leave.
Context (s s' : Net E) (a : Z) (x : NetClientState).
Hypothesis (Hok : net_ok s) (Hx : ncs s !! a = Some x) (Hl : net_clients s' = without a (net_clients s)).

Lemma listed_leave b : b ∈ net_clients s' ↔ b ∈ net_clients s ∧ b ≠ a.
Proof using Hl. rewrite Hl. apply elem_of_without. Qed.
Lemma leave_nodup : NoDup (net_clients s').
Proof using Hl Hok. rewrite Hl. apply NoDup_without, Hok. Qed.

Section Hubs.
Hypothesis (Hback : ∀ b z, ncs s' !! b = Some z → ∃ z0, ncs s !! b = Some z0 ∧ same_client z z0).
Hypothesis (Hforth : ∀ b z0, b ≠ a → ncs s !! b = Some z0 → ∃ z, ncs s' !! b = Some z ∧ same_client z z0).
Hypothesis (Hm : hub_mem s' = drop_port a x (hub_mem s)) (Hb : hubs s' = hubs s).

Lemma leave_live b : b ∈ net_clients s' → is_Some (ncs s' !! b).
Proof using Hforth Hl Hok. intros [Hb' Hne]%listed_leave. destruct (ok_live s Hok b Hb') as [z Hz]. destruct (Hforth b z Hne Hz) as (z' & -> & _). eauto. Qed.
Lemma leave_ports h hb : hub_mem s' !! h = Some hb →
  NoDup (ports hb) ∧ ∀ q, q ∈ ports hb ↔ q ∈ net_clients s' ∧ ∃ x, ncs s' !! q = Some x ∧ kind x = KIND_HUBPORT ∧ hub x = h.
Proof using Hback Hforth Hm Hl Hok Hx.
  rewrite Hm, drop_port_lookup. intros (hb0 & Hh & He)%fmap_Some. destruct (ok_ports s Hok h hb0 Hh) as [Hnd Hq].
  assert (Hp : NoDup (ports hb) ∧ ∀ q, q ∈ ports hb ↔ q ∈ ports hb0 ∧ q ≠ a).
  { case_bool_decide as Hd; subst hb; cbn [ports]; [split; [by apply NoDup_without|intros q; apply elem_of_without]|]. split; [done|]. intros q. split; [|tauto]. intros Hqp. split; [done|]. intros ->.
    apply Hd. apply Hq in Hqp as (_ & y & Hy & Hk & Hyh). rewrite Hx in Hy. by injection Hy as <-. }
  destruct Hp as [Hnd' Hp]. split; [done|]. intros q. rewrite Hp, Hq, listed_leave. split.
  - intros ((Hql & y & Hy & Hk & Hyh) & Hne). split; [done|]. destruct (Hforth q y Hne Hy) as (y' & Hy' & (K & _ & K' & _)). exists y'. split; [done|]. split; congruence.
  - intros ((Hql & Hne) & y & Hy & Hk & Hyh). split; [|done]. split; [done|]. destruct (Hback q y Hy) as (y' & Hy' & (K & _ & K' & _)). exists y'. split; [done|]. split; congruence.
Qed.
Lemma leave_hub b y : ncs s' !! b = Some y → kind y = KIND_HUBPORT → is_Some (hub_mem s' !! hub y).
Proof using Hback Hm Hok.
  intros Hy Hk. destruct (Hback b y Hy) as (y0 & Hy0 & (K & _ & K' & _)). rewrite Hm, drop_port_lookup, K'. apply fmap_is_Some, (ok_hub s Hok b y0 Hy0). congruence.
Qed.
Lemma leave_hubs : NoDup (hubs s') ∧ ∀ h, h ∈ hubs s' ↔ is_Some (hub_mem s' !! h).
Proof using Hm Hb Hok. rewrite Hb. split; [apply Hok|]. intros h. rewrite Hm, drop_port_lookup, fmap_is_Some. apply Hok. Qed.
Lemma leave_ids h h' hb hb' : hub_mem s' !! h = Some hb → hub_mem s' !! h' = Some hb' → hub_id hb = hub_id hb' → h = h'.
Proof using Hm Hok.
  rewrite Hm, !drop_port_lookup. intros (b0 & H0 & ->)%fmap_Some (b1 & H1 & ->)%fmap_Some He. apply (ok_ids s Hok h h' b0 b1 H0 H1).
  revert He. by repeat case_bool_decide.
Qed.
Lemma leave_names : distinct_names s'.
Proof using Hback Hl Hok.
  intros b d y z [Hbl _]%listed_leave [Hdl _]%listed_leave Hy Hz Hky Hkz Hyz. destruct (Hback b y Hy) as (y0 & Hy0 & (K1 & K2 & _)). destruct (Hback d z Hz) as (z0 & Hz0 & (K3 & K4 & _)).
  apply (ok_names s Hok b d y0 z0); congruence.
Qed.
End Hubs.

Hypothesis (Hm : ncs s' = unlinked a x (ncs s)).

Lemma unlink_back b z : ncs s' !! b = Some z → ∃ z0, ncs s !! b = Some z0 ∧ same_client z z0.
Proof using Hm. rewrite Hm. intros (_ & z0 & Hz & Hs & _)%unlinked_inv. eauto. Qed.
Lemma unlink_forth b z0 : b ≠ a → ncs s !! b = Some z0 → ∃ z, ncs s' !! b = Some z ∧ same_client z z0.
Proof using Hm. rewrite Hm. intros Hne Hz. destruct (unlinked_old a x _ b z0 Hne Hz) as (z & ? & ? & _). eauto. Qed.
(** The clients that pointed at [a] are the one it pointed at. *)
Lemma pointed b z : ncs s !! b = Some z → peer z = Some a ↔ peer x = Some b.
Proof using Hok Hx.
  intros Hz. split; intros Hp.
  - destruct (ok_peer s Hok b z a Hz Hp) as (_ & y & Hy & Hpy). rewrite Hx in Hy. by injection Hy as <-.
  - destruct (ok_peer s Hok a x b Hx Hp) as (_ & y & Hy & Hpy). rewrite Hz in Hy. by injection Hy as <-.
Qed.
Lemma unlink_peer b z : ncs s' !! b = Some z → b ≠ a ∧ ∃ z0, ncs s !! b = Some z0 ∧ same_client z z0 ∧ peer z = if decide (peer z0 = Some a) then None else peer z0.
Proof using Hok Hx Hm.
  rewrite Hm. intros (Hne & z0 & Hz & Hs & Hp)%unlinked_inv. split; [done|]. exists z0. split; [done|]. split; [done|]. rewrite Hp. pose proof (pointed b z0 Hz). repeat case_decide; tauto.
Qed.
Lemma leave_peer b z p : ncs s' !! b = Some z → peer z = Some p → p ≠ b ∧ ∃ y, ncs s' !! p = Some y ∧ peer y = Some b.
Proof using Hok Hx Hm.
  intros (Hne & z0 & Hz & _ & Hp)%unlink_peer Hzp. rewrite Hzp in Hp. case_decide as Hd; [done|]. symmetry in Hp. destruct (ok_peer s Hok b z0 p Hz Hp) as (Hpb & y & Hy & Hyb). split; [done|].
  assert (Hpa : p ≠ a) by congruence. destruct (unlinked_old a x _ p y Hpa Hy) as (y' & Hy' & _ & Hp'). rewrite Hm. exists y'. split; [done|]. rewrite Hp', decide_False; [done|].
  intros Hxp. apply (pointed p y Hy) in Hxp. congruence.
Qed.
Lemma leave_orphan b z :
  (∀ b y, ncs s !! b = Some y → b ∉ net_clients s → peer y ≠ Some a) →
  ncs s' !! b = Some z → b ∉ net_clients s' → kind z ≠ KIND_NIC ∧ ∃ p y, peer z = Some p ∧ ncs s' !! p = Some y ∧ kind y = KIND_NIC.
Proof using Hok Hx Hm Hl.
  intros Hno (Hne & z0 & Hz & (K & _) & Hp)%unlink_peer Hbl. rewrite listed_leave in Hbl. assert (Hbl' : b ∉ net_clients s) by tauto.
  destruct (ok_orphan s Hok b z0 Hz Hbl') as (Hk & p & y & Hzp & Hy & Hky). split; [congruence|]. pose proof (Hno b z0 Hz Hbl') as Hna. rewrite Hp, decide_False by done.
  destruct (unlink_forth p y ltac:(congruence) Hy) as (y' & Hy' & (K' & _)). exists p, y'. split; [done|]. split; [done|congruence].
Qed.
End Leave.

Lemma find_name s a x l :
  net_ok s → a ∈ net_clients s → ncs s !! a = Some x → kind x ≠ KIND_NIC → NoDup l → (∀ b, b ∈ l → b ∈ net_clients s) →
  find_except l (name x) (Some KIND_NIC) s = Ok (if bool_decide (a ∈ l) then [a] else []).
Proof.
  intros Hok Ha Hx Hk. induction l as [|b l IH]; intros Hnd Hl; [by rewrite bool_decide_eq_false_2 by apply not_elem_of_nil|]. apply NoDup_cons in Hnd as [Hb Hnd].
  assert (Hbl : b ∈ net_clients s) by (apply Hl; by left). destruct (ok_live s Hok b Hbl) as [y Hy]. cbn [find_except]. rewrite (get_nc_ok b s y Hy). cbn [mbind res_bind].
  rewrite IH by (try done; intros c Hc; apply Hl; by right). cbn [mbind res_bind]. destruct (decide (b = a)) as [->|Hne].
  - rewrite Hx in Hy. injection Hy as <-. rewrite (bool_decide_eq_false_2 (Some (kind x) = _)) by congruence. rewrite String.eqb_refl, (bool_decide_eq_false_2 (a ∈ l)), bool_decide_eq_true_2 by (by left || done). done.
  - rewrite (bool_decide_ext (a ∈ b :: l) (a ∈ l)) by (rewrite elem_of_cons; naive_solver). destruct (bool_decide (Some (kind y) = _)) eqn:Hky; [done|]. apply bool_decide_eq_false in Hky. destruct (String.eqb_spec (name y) (name x)) as [Hn|]; [|done].
    destruct Hne. apply (ok_names s Hok b a y x); congruence.
Qed.

Section Remove.
Context (s : Net E) (Hok : net_ok s).

(** Taking out a back end or a port that is not connected to a card. *)
Lemma leave_ok s' a x :
  a ∈ net_clients s → ncs s !! a = Some x → kind x ≠ KIND_NIC → (∀ p y, peer x = Some p → ncs s !! p = Some y → kind y ≠ KIND_NIC) →
  net_clients s' = without a (net_clients s) → ncs s' = unlinked a x (ncs s) → nics s' = nics s → hub_mem s' = drop_port a x (hub_mem s) → hubs s' = hubs s →
  net_ok s'.
Proof using Hok.
  intros Ha Hx Hk Hp Hl Hm En Eh Eb. pose proof (unlink_back s s' a x Hm) as Hback. pose proof (unlink_forth s s' a x Hm) as Hforth.
  split; [by apply (leave_nodup s s' a)|by apply (leave_live s s' a)|by apply (leave_peer s s' a x)|by apply (leave_ports s s' a x)|by apply (leave_hub s s' a x)|by apply (leave_hubs s s' a x)|by apply (leave_ids s s' a x)|..|by apply (leave_names s s' a)].
  - rewrite En. intros n c Hn. destruct (ok_nics s Hok n c Hn) as (b & y & Hc & Hb & Hy & Hky & Hyn & Hd). assert (Hba : b ≠ a) by congruence.
    destruct (Hforth b y Hba Hy) as (y' & Hy' & (K & _ & _ & K')). pose proof Hy' as (_ & z0 & Hz & _ & Hpz)%(unlink_peer s s' a x Hok Hx Hm). rewrite Hy in Hz. injection Hz as <-.
    assert (Hna : peer y ≠ Some a). { intros Hya. destruct (ok_peer s Hok b y a Hy Hya) as (_ & x1 & Hx1 & Hxb). rewrite Hx in Hx1. injection Hx1 as <-. by apply (Hp b y Hxb Hy). }
    rewrite decide_False in Hpz by done. exists b, y'. rewrite (listed_leave s s' a Hl). do 5 (split; [done || congruence|]). rewrite Hd, Hpz. split; intros (d & Hyd & Hdl); exists d.
    + rewrite (listed_leave s s' a Hl). tauto.
    + rewrite (listed_leave s s' a Hl) in Hdl. split; [done|]. intros Hdl'. apply Hdl. split; [done|congruence].
  - intros b y Hy Hky. rewrite En. destruct (Hback b y Hy) as (y0 & Hy0 & (K & _ & _ & K')). rewrite K'. apply (ok_nic s Hok b y0 Hy0). congruence.
  - intros b z. apply (leave_orphan s s' a x Hok Hx Hl Hm). intros d y Hy Hd Hya. destruct (ok_orphan s Hok d y Hy Hd) as (_ & p & w & Hyp & Hw & Hkw). rewrite Hya in Hyp. congruence.
Qed.

(** Taking out a back end or a port whose card stays: it stays allocated until the card goes. *)
Lemma detach_ok s' a x p y c :
  a ∈ net_clients s → ncs s !! a = Some x → kind x ≠ KIND_NIC → peer x = Some p → ncs s !! p = Some y → kind y = KIND_NIC → nics s !! nic y = Some c → nic_ncs c = [p] →
  net_clients s' = without a (net_clients s) → ncs s' = ncs s → nics s' = <[nic y := mkNic [p] true]> (nics s) → hub_mem s' = drop_port a x (hub_mem s) → hubs s' = hubs s →
  net_ok s'.
Proof using Hok.
  intros Ha Hx Hk Hp Hy Hky Hc Hcp Hl Hm En Eh Eb. assert (Hyp : peer y = Some a). { destruct (ok_peer s Hok a x p Hx Hp) as (_ & y1 & Hy1 & Hyp). congruence. }
  assert (Hback : ∀ b z, ncs s' !! b = Some z → ∃ z0, ncs s !! b = Some z0 ∧ same_client z z0) by (rewrite Hm; intros b z Hz; by exists z).
  assert (Hforth : ∀ b z0, b ≠ a → ncs s !! b = Some z0 → ∃ z, ncs s' !! b = Some z ∧ same_client z z0) by (rewrite Hm; intros b z _ Hz; by exists z).
  split; [by apply (leave_nodup s s' a)|by apply (leave_live s s' a)|rewrite Hm; apply Hok|by apply (leave_ports s s' a x)|by apply (leave_hub s s' a x)|by apply (leave_hubs s s' a x)|by apply (leave_ids s s' a x)|..|by apply (leave_names s s' a)]; rewrite ?En, ?Hm.
  - intros n c'. destruct (decide (nic y = n)) as [<-|Hne].
    + rewrite lookup_insert_eq. intros [= <-]. exists p, y. rewrite (listed_leave s s' a Hl). split; [done|]. split; [|do 3 (split; [done|]); split; [intros _; exists a; rewrite (listed_leave s s' a Hl); tauto|done]].
      split; [|congruence]. destruct (ok_nics s Hok _ c Hc) as (b & z & Hcb & Hb & _). congruence.
    + rewrite lookup_insert_ne by done. intros Hn. destruct (ok_nics s Hok n c' Hn) as (b & z & Hcb & Hb & Hz & Hkz & Hzn & Hd). exists b, z. rewrite (listed_leave s s' a Hl). assert (Hba : b ≠ a) by congruence.
      do 5 (split; [done || congruence|]). rewrite Hd. split; intros (d & Hzd & Hdl); exists d; rewrite (listed_leave s s' a Hl) in *; [tauto|]. split; [done|]. intros Hdl'. apply Hdl. split; [done|]. intros ->.
      destruct (ok_peer s Hok b z a Hz Hzd) as (_ & x1 & Hx1 & Hxb). congruence.
  - intros b z Hz Hkz. destruct (ok_nic s Hok b z Hz Hkz) as (c' & Hc' & Hcb). destruct (decide (nic y = nic z)) as [He|].
    + rewrite He, lookup_insert_eq. eexists. split; [done|]. cbn. rewrite He in Hc. congruence.
    + rewrite lookup_insert_ne by done. eauto.
  - intros b z Hz. rewrite (listed_leave s s' a Hl). intros Hb. destruct (decide (b = a)) as [->|Hne]; [|apply (ok_orphan s Hok b z Hz); tauto].
    rewrite Hx in Hz. injection Hz as <-. split; [done|]. exists p, y. done.
Qed.

(** Taking out a card that still has its back end, or none. *)
Lemma leave_nic_ok s' a x :
  ncs s !! a = Some x → kind x = KIND_NIC → (∀ b, peer x = Some b → b ∈ net_clients s) →
  net_clients s' = without a (net_clients s) → ncs s' = unlinked a x (ncs s) → nics s' = delete (nic x) (nics s) → hub_mem s' = hub_mem s → hubs s' = hubs s →
  net_ok s'.
Proof using Hok.
  intros Hx Hk Hp Hl Hm En Eh Eb. pose proof (unlink_back s s' a x Hm) as Hback. pose proof (unlink_forth s s' a x Hm) as Hforth.
  assert (Eh' : hub_mem s' = drop_port a x (hub_mem s)) by (unfold drop_port; by rewrite Hk).
  split; [by apply (leave_nodup s s' a)|by apply (leave_live s s' a)|by apply (leave_peer s s' a x)|by apply (leave_ports s s' a x)|by apply (leave_hub s s' a x)|by apply (leave_hubs s s' a x)|by apply (leave_ids s s' a x)|..|by apply (leave_names s s' a)].
  - rewrite En. intros n c [Hne Hn]%lookup_delete_Some. destruct (ok_nics s Hok n c Hn) as (b & y & Hc & Hb & Hy & Hky & Hyn & Hd). assert (Hba : b ≠ a) by congruence.
    destruct (Hforth b y Hba Hy) as (y' & Hy' & (K & _ & _ & K')). pose proof Hy' as (_ & z0 & Hz & _ & Hpz)%(unlink_peer s s' a x Hok Hx Hm). rewrite Hy in Hz. injection Hz as <-.
    exists b, y'. rewrite (listed_leave s s' a Hl). do 5 (split; [done || congruence|]). rewrite Hd, Hpz. case_decide as Hya.
    + split; [|by intros (? & ? & ?)]. intros (d & Hyd & Hdl). destruct Hdl. rewrite Hya in Hyd. injection Hyd as <-. destruct (ok_nic s Hok a x Hx Hk) as (c' & Hc' & Hca).
      destruct (ok_nics s Hok _ c' Hc') as (a' & x' & Hc'' & Ha & _). congruence.
    + split; intros (d & Hyd & Hdl); exists d; rewrite (listed_leave s s' a Hl) in *; [tauto|]. split; [done|]. intros Hdl'. apply Hdl. split; [done|congruence].
  - intros b y Hy Hky. rewrite En. destruct (Hback b y Hy) as (y0 & Hy0 & (K & _ & _ & K')). rewrite K'. destruct (ok_nic s Hok b y0 Hy0 ltac:(congruence)) as (c & Hc & Hcb).
    exists c. split; [|done]. apply lookup_delete_Some. split; [|done]. intros He. destruct (ok_nic s Hok a x Hx Hk) as (c' & Hc' & Hca). rewrite He in Hc'. rewrite Hc in Hc'. injection Hc' as <-.
    assert (b = a) as -> by congruence. rewrite Hm in Hy. by apply unlinked_inv in Hy as (? & _).
  - intros b z. apply (leave_orphan s s' a x Hok Hx Hl Hm). intros d y Hy Hd Hya. apply (pointed s a x Hok Hx d y Hy) in Hya. auto.
Qed.

(** Freeing the back end that waited for the card. *)
Lemma free_orphan_ok s' a x q z c :
  ncs s !! a = Some x → kind x = KIND_NIC → nics s !! nic x = Some c → peer x = Some q → ncs s !! q = Some z → q ∉ net_clients s →
  net_clients s' = net_clients s → ncs s' = unlinked q z (ncs s) → nics s' = <[nic x := mkNic [a] false]> (nics s) → hub_mem s' = hub_mem s → hubs s' = hubs s →
  net_ok s'.
Proof using Hok.
  intros Hx Hk Hc Hp Hz Hq Hl Hm En Eh Eb. destruct (ok_nic s Hok a x Hx Hk) as (c1 & Hc1 & Hca). rewrite Hc in Hc1. injection Hc1 as <-.
  assert (Hzp : peer z = Some a). { destruct (ok_peer s Hok a x q Hx Hp) as (_ & z1 & Hz1 & Hzp). congruence. }
  assert (Hl' : net_clients s' = without q (net_clients s)).
  { rewrite Hl. clear -Hq. induction (net_clients s) as [|b l IH]; [done|]. apply not_elem_of_cons in Hq as [Hqb Hq]. unfold without. rewrite filter_cons, decide_True by done. f_equal. by apply IH. }
  assert (Eh' : hub_mem s' = drop_port q z (hub_mem s)).
  { rewrite Eh. apply map_eq. intros h. rewrite drop_port_lookup. destruct (hub_mem s !! h) as [hb|] eqn:Hh; [|done]. cbn. f_equal. case_bool_decide as Hd; [|done]. destruct hb as [id k l]. cbn. f_equal.
    destruct (ok_ports s Hok h _ Hh) as [_ Hin]. cbn in Hin. assert (Hql : q ∉ l) by (rewrite Hin; tauto).
    clear -Hql. induction l as [|b l IH]; [done|]. apply not_elem_of_cons in Hql as [Hqb Hq]. unfold without. rewrite filter_cons, decide_True by done. f_equal. by apply IH. }
  pose proof (unlink_back s s' q z Hm) as Hback. pose proof (unlink_forth s s' q z Hm) as Hforth. destruct (ok_orphan s Hok q z Hz Hq) as (Hkz & _).
  split; [by rewrite Hl; apply Hok|by apply (leave_live s s' q)|by apply (leave_peer s s' q z)|by apply (leave_ports s s' q z)|by apply (leave_hub s s' q z)|by apply (leave_hubs s s' q z)|by apply (leave_ids s s' q z)|..|by apply (leave_names s s' q)].
  - rewrite En. intros n c'. destruct (decide (nic x = n)) as [<-|Hne].
    + rewrite lookup_insert_eq. intros [= <-]. destruct (Hforth a x ltac:(congruence) Hx) as (x' & Hx' & (K & _ & _ & K')). exists a, x'. destruct (ok_nics s Hok _ c Hc) as (a1 & x1 & Hc1 & Ha & _).
      assert (a1 = a) as -> by congruence. rewrite Hl. do 5 (split; [done || congruence|]). pose proof Hx' as (_ & x0 & Hx0 & _ & Hpx)%(unlink_peer s s' q z Hok Hz Hm). rewrite Hx in Hx0. injection Hx0 as <-.
      rewrite decide_True in Hpx by done. rewrite Hpx. split; [done|by intros (? & ? & _)].
    + rewrite lookup_insert_ne by done. intros Hn. destruct (ok_nics s Hok n c' Hn) as (b & y & Hcb & Hb & Hy & Hky & Hyn & Hd). destruct (Hforth b y ltac:(congruence) Hy) as (y' & Hy' & (K & _ & _ & K')). exists b, y'. rewrite Hl.
      do 5 (split; [done || congruence|]). pose proof Hy' as (_ & y0 & Hy0 & _ & Hpy)%(unlink_peer s s' q z Hok Hz Hm). rewrite Hy in Hy0. injection Hy0 as <-. rewrite Hd, Hpy, decide_False; [done|].
      intros Hyq. destruct (ok_peer s Hok b y q Hy Hyq) as (_ & z1 & Hz1 & Hz1p). congruence.
  - intros b y Hy Hky. rewrite En. destruct (Hback b y Hy) as (y0 & Hy0 & (K & _ & _ & K')). rewrite K'. destruct (ok_nic s Hok b y0 Hy0 ltac:(congruence)) as (c' & Hc' & Hcb).
    destruct (decide (nic x = nic y0)) as [He|]; [rewrite He, lookup_insert_eq; eexists; split; [done|]; cbn; rewrite He in Hc; congruence|rewrite lookup_insert_ne by done; eauto].
  - intros b y. apply (leave_orphan s s' q z Hok Hz Hl' Hm). intros d w Hw Hd Hwq. apply (pointed s q z Hok Hz d w Hw) in Hwq. rewrite Hzp in Hwq. injection Hwq as <-.
    destruct (ok_nics s Hok _ c Hc) as (a1 & x1 & Hc1 & Ha & _). congruence.
Qed.
End Remove.

Lemma peer_alive s a x p : net_ok s → ncs s !! a = Some x → peer x = Some p → p ≠ a ∧ is_Some (ncs s !! p).
Proof. intros Hok Hx Hp. destruct (ok_peer s Hok a x p Hx Hp) as (Hne & y & Hy & _). eauto. Qed.

(** Taking a client out and freeing it. *)
Lemma cleanup_free_eq a s x :
  ncs s !! a = Some x → (kind x = KIND_HUBPORT → is_Some (hub_mem s !! hub x)) → (∀ p, peer x = Some p → p ≠ a ∧ is_Some (ncs s !! p)) →
  ∃ e m, (s1 ← qemu_cleanup_net_client a s; qemu_free_net_client a s1) = Ok (mkNet m (without a (net_clients s)) (nics s) (drop_port a x (hub_mem s)) (hubs s) e) ∧
    delete a m = unlinked a x (ncs s) ∧ (kind x ≠ KIND_NIC → m = unlinked a x (ncs s)).
Proof.
  intros Hx Hh Hp. destruct (cleanup_eq a s x Hx Hh) as [e He]. rewrite He. cbn [mbind res_bind].
  destruct (free_eq a (mkNet (ncs s) (without a (net_clients s)) (nics s) (drop_port a x (hub_mem s)) (hubs s) e) x Hx Hp) as (m & Hm & H1 & H2). rewrite Hm. by exists e, m.
Qed.

Lemma del_client_ok s a x :
  net_ok s → a ∈ net_clients s → ncs s !! a = Some x → kind x ≠ KIND_NIC →
  ∃ s', qemu_del_net_client a s = Ok s' ∧ net_ok s' ∧ net_clients s' = without a (net_clients s).
Proof.
  intros Hok Ha Hx Hk. unfold qemu_del_net_client. rewrite (get_nc_ok a s x Hx). cbn [mbind res_bind]. unfold qemu_find_net_clients_except.
  rewrite (find_name s a x (net_clients s) Hok Ha Hx Hk (ok_nodup s Hok)), bool_decide_eq_true_2 by done. cbn [mbind res_bind length].
  change (Z.of_nat 1 =? 0) with false. change (MAX_QUEUE_NUM <? Z.of_nat 1) with false. cbn [mbind res_bind].
  assert (Hplain : (∀ p y, peer x = Some p → ncs s !! p = Some y → kind y ≠ KIND_NIC) →
    ∃ s', for_clients (λ a s, s ← qemu_cleanup_net_client a s; qemu_free_net_client a s) [a] s = Ok s' ∧ net_ok s' ∧ net_clients s' = without a (net_clients s)).
  { intros Hp. destruct (cleanup_free_eq a s x Hx (ok_hub s Hok a x Hx) (λ p, peer_alive s a x p Hok Hx)) as (e & m & He & _ & Hm). cbn [for_clients]. rewrite He. cbn [mbind res_bind]. eexists. split; [done|].
    split; [|done]. eapply (leave_ok s Hok _ a x); try done. cbn. auto. }
  destruct (peer x) as [p|] eqn:Ep; cbn [mbind res_bind]; [|destruct (Hplain ltac:(done)) as (s' & Hs); destruct (kind x); [done|by exists s'..]].
  destruct (ok_peer s Hok a x p Hx Ep) as (_ & y & Hy & Hyp). rewrite (get_nc_ok p s y Hy). cbn [mbind res_bind]. destruct (decide (kind y = KIND_NIC)) as [Hky|Hky].
  2: { destruct (Hplain ltac:(intros p0 y0 [= <-] Hy0; congruence)) as (s' & Hs). destruct (kind y); [done|..]; (destruct (kind x); [done|by exists s'..]). }
  rewrite Hky. destruct (ok_nic s Hok p y Hy Hky) as (c & Hc & Hcp). rewrite Hc. destruct (ok_nics s Hok _ c Hc) as (p1 & y1 & Hc1 & Hpl & Hy1 & _ & _ & Hd). assert (p1 = p) as -> by congruence. rewrite Hy in Hy1. injection Hy1 as <-.
  destruct (peer_deleted c) eqn:Ed. { destruct (proj1 Hd eq_refl) as (b & Hb & Hbl). congruence. }
  cbn [for_clients]. unfold peer_link_down. rewrite (get_nc_ok a (set_nics (<[nic y:=mkNic (nic_ncs c) true]> (nics s)) s) x Hx). cbn [mbind res_bind]. rewrite Ep.
  rewrite (get_nc_ok p (set_nics (<[nic y:=mkNic (nic_ncs c) true]> (nics s)) s) y Hy). cbn [mbind res_bind]. set (s1 := set_ends _ _).
  assert (Hshape : same_shape (set_nics (<[nic y := mkNic (nic_ncs c) true]> (nics s)) s) s1). { etrans; [by apply (shape_put p y (set_link_down true y))|done]. }
  destruct (shape_lookup _ s1 a x Hshape Hx) as (x1 & Hx1 & Hst). apply strip_fields in Hst as [(K1 & K2 & K3 & K4) Kp]. destruct (cleanup_eq a s1 x1 Hx1) as [e He]. { rewrite <-K1, <-K3. apply (ok_hub s Hok a x Hx). }
  rewrite He. cbn [mbind res_bind]. eexists. split; [done|]. split; [|done].
  apply (shape_net_ok (mkNet (ncs s) (without a (net_clients s)) (<[nic y := mkNic [p] true]> (nics s)) (drop_port a x (hub_mem s)) (hubs s) (ends s))).
  - destruct Hshape as (E1 & E2 & E3 & E4 & E5). unfold drop_port. clearbody s1. cbn in E1, E2, E3, E4. split; [cbn [net_clients]; by rewrite E1|]. split; [cbn [nics]; by rewrite <-E2, Hcp|]. split; [|split; [done|exact E5]]. cbn. by rewrite K1, K3, E3.
  - by eapply (detach_ok s Hok _ a x p y c).
Qed.

Lemma unlinked_self a x m : peer x = None → unlinked a x m = delete a m.
Proof. intros Hp. unfold unlinked. by rewrite Hp. Qed.

Lemma del_nic_ok s n c :
  net_ok s → nics s !! n = Some c →
  ∃ a s', nic_ncs c = [a] ∧ a ∈ net_clients s ∧ qemu_del_nic n s = Ok s' ∧ net_ok s' ∧ net_clients s' = without a (net_clients s).
Proof.
  intros Hok Hc. destruct (ok_nics s Hok n c Hc) as (a & x & Hca & Ha & Hx & Hk & Hxn & Hd). exists a. unfold qemu_del_nic. rewrite Hc, Hca.
  (* the first loop *)
  assert (H1 : ∃ s1 x1, (if peer_deleted c then for_clients free_peer [a] s else Ok s) = Ok s1 ∧ ncs s1 !! a = Some x1 ∧ kind x1 = KIND_NIC ∧ nic x1 = n ∧ net_clients s1 = net_clients s ∧
    net_ok (set_nics (<[n := mkNic [a] false]> (nics s1)) s1) ∧ ∀ b, peer x1 = Some b → b ∈ net_clients s).
  { destruct (peer_deleted c) eqn:Ed.
    - destruct (proj1 Hd eq_refl) as (q & Hq & Hql). destruct (ok_peer s Hok a x q Hx Hq) as (Hqa & z & Hz & Hzp). destruct (ok_orphan s Hok q z Hz Hql) as (Hkz & _).
      cbn [for_clients]. unfold free_peer. rewrite (get_nc_ok a s x Hx). cbn [mbind res_bind]. rewrite Hq. destruct (free_eq q s z Hz (λ p, peer_alive s q z p Hok Hz)) as (m & Hm & _ & Hm'). rewrite Hm. cbn [mbind res_bind].
      rewrite (Hm' Hkz). destruct (unlinked_old q z (ncs s) a x ltac:(congruence) Hx) as (x1 & Hx1 & (K & _ & _ & K') & Hp1). eexists _, x1. split; [done|]. split; [done|]. split; [congruence|]. split; [congruence|]. split; [done|].
      rewrite decide_True in Hp1 by done. split; [|by rewrite Hp1]. subst n. by eapply (free_orphan_ok s Hok _ a x q z c).
    - eexists s, x. do 5 (split; [done|]). split.
      + rewrite insert_id; [by destruct s|]. rewrite Hc. destruct c as [l d]. cbn in *. by subst.
      + intros b Hb. destruct (decide (b ∈ net_clients s)) as [|Hn]; [done|]. assert (false = true) by (apply Hd; eauto). done. }
  destruct H1 as (s1 & x1 & -> & Hx1 & Hk1 & Hn1 & Hl1 & Hok1 & Hp1). cbn [mbind res_bind rev app for_clients]. set (t := set_nics _ s1) in Hok1.
  destruct (cleanup_free_eq a s1 x1 Hx1 (ok_hub t Hok1 a x1 Hx1) (λ p, peer_alive t a x1 p Hok1 Hx1)) as (e & m & He & Hm & _). rewrite He. cbn [mbind res_bind foldl].
  eexists. split; [done|]. split; [done|]. split; [done|]. cbn. rewrite Hl1. split; [|done].
  eapply (leave_nic_ok t Hok1 _ a x1); try done; cbn; rewrite ?Hl1, ?Hn1; try done.
  - by rewrite delete_insert_eq.
  - unfold drop_port. by rewrite Hk1.
Qed.

(** What freeing a client does not touch. *)
Lemma free_client_keeps b s s' :
  qemu_free_net_client b s = Ok s' →
  nics s' = nics s ∧ ends s' = ends s ∧ ∀ a x', ncs s' !! a = Some x' → ∃ x, ncs s !! a = Some x ∧ kind x' = kind x.
Proof.
  unfold qemu_free_net_client, get_nc. destruct (ncs s !! b) as [x|] eqn:Hb; [|done]. cbn [mbind res_bind].
  assert (Hd : ∀ (k : NetClientOptionsKind) (s1 : Net E), nics s1 = nics s → ends s1 = ends s → (∀ a x', ncs s1 !! a = Some x' → ∃ x, ncs s !! a = Some x ∧ kind x' = kind x) →
    Ok (match k with KIND_NIC => s1 | _ => set_ncs (delete b (ncs s1)) s1 end) = Ok s' →
    nics s' = nics s ∧ ends s' = ends s ∧ ∀ a x', ncs s' !! a = Some x' → ∃ x, ncs s !! a = Some x ∧ kind x' = kind x).
  { intros k s1 H1 H2 H3 [= <-]. destruct k; (split; [done|]; split; [done|]); [exact H3|..];
      (cbn [set_ncs ncs]; intros a x' [_ Ha]%lookup_delete_Some; by apply H3). }
  destruct (peer x) as [p|]; [|cbn [mbind res_bind]; apply Hd; eauto].
  destruct (ncs s !! p) as [y|] eqn:Hp; [|done]. cbn [mbind res_bind]. apply Hd; [done|done|]. cbn [put_nc set_ncs ncs].
  intros a x' [[<- <-]|[_ Ha]]%lookup_insert_Some; eauto.
Qed.

(** What removing a card leaves: no card, no client of it, and the cleanup of the client has run. *)
Lemma del_nic_effect s n c a x s' :
  nics s !! n = Some c → nic_ncs c = [a] → ncs s !! a = Some x → kind x = KIND_NIC → qemu_del_nic n s = Ok s' →
  nics s' = delete n (nics s) ∧ ncs s' !! a = None ∧ ends s' = ep_cleanup a (ends s).
Proof.
  intros Hn Hc Hx Hk. unfold qemu_del_nic. rewrite Hn, Hc.
  destruct (if peer_deleted c then for_clients free_peer [a] s else Ok s) as [s1| |] eqn:E1; [|done..].
  assert (nics s1 = nics s ∧ ends s1 = ends s ∧ ∀ x1, ncs s1 !! a = Some x1 → kind x1 = KIND_NIC) as (En & Ee & Hkd).
  { destruct (peer_deleted c); [|injection E1 as <-; repeat split; congruence]. cbn [for_clients] in E1. unfold free_peer, get_nc in E1. rewrite Hx in E1. cbn [mbind res_bind] in E1.
    destruct (peer x) as [q|]; [|done]. destruct (qemu_free_net_client q s) as [s0| |] eqn:E0; [|done..]. cbn [mbind res_bind] in E1. injection E1 as <-.
    destruct (free_client_keeps q s s0 E0) as (? & ? & Hf). split; [done|]. split; [done|]. intros x1 Hx1. destruct (Hf a x1 Hx1) as (? & ? & ?). congruence. }
  cbn [mbind res_bind rev app for_clients]. unfold qemu_cleanup_net_client, get_nc. destruct (ncs s1 !! a) as [x1|]; [|done]. cbn [mbind res_bind]. rewrite (Hkd x1 eq_refl).
  cbn [mbind res_bind]. destruct (qemu_free_net_client a _) as [s2| |] eqn:E2; [|done..]. cbn [mbind res_bind foldl]. intros [= <-].
  destruct (free_client_keeps _ _ _ E2) as (F1 & F2 & _). cbn [set_nics set_ncs nics ncs ends]. rewrite F1, F2. cbn [set_ends set_list nics ends]. rewrite En, Ee, lookup_delete_eq. done.
Qed.

(** What becomes of the other clients: the peer is unlinked, or freed if it was removed before. *)
Lemma del_nic_others s n c a x s' :
  net_ok s → nics s !! n = Some c → nic_ncs c = [a] → ncs s !! a = Some x → qemu_del_nic n s = Ok s' →
  hub_mem s' = hub_mem s ∧ hubs s' = hubs s ∧
  ∀ b, b ≠ a → ncs s' !! b = if decide (peer x = Some b) then (if peer_deleted c then None else set_peer None <$> ncs s !! b) else ncs s !! b.
Proof.
  intros Hok Hn Hc Hx. destruct (ok_nics s Hok n c Hn) as (a' & x' & Hca & Ha & Hx' & Hk & _ & Hd). assert (a' = a) as -> by congruence. assert (x' = x) as -> by congruence. clear Hx' Hca.
  unfold qemu_del_nic. rewrite Hn, Hc. destruct (peer_deleted c) eqn:Ed.
  - destruct (proj1 Hd eq_refl) as (q & Hq & Hql). destruct (ok_peer s Hok a x q Hx Hq) as (Hqa & y & Hy & Hyp). destruct (ok_orphan s Hok q y Hy Hql) as (Hky & _).
    cbn [for_clients]. unfold free_peer, qemu_free_net_client. rewrite (get_nc_ok a s x Hx). cbn [mbind res_bind]. rewrite Hq, (get_nc_ok q s y Hy). cbn [mbind res_bind].
    rewrite Hyp, (get_nc_ok a s x Hx). cbn [mbind res_bind]. destruct (kind y); [done|..]; cbn [mbind res_bind rev app for_clients]; unfold qemu_cleanup_net_client, get_nc; cbn [set_ncs put_nc ncs];
      rewrite lookup_delete_ne, lookup_insert_eq by done; cbn [mbind res_bind set_peer kind]; rewrite Hk; cbn [mbind res_bind set_ends set_list set_ncs put_nc ncs]; rewrite lookup_delete_ne, lookup_insert_eq by done;
      cbn [mbind res_bind set_peer peer kind]; rewrite Hk; intros [= <-]; (split; [done|]; split; [done|]); intros b Hb; cbn; rewrite lookup_delete_ne by done;
      (case_decide as Hbq; [injection Hbq as <-; by rewrite lookup_delete_eq|rewrite lookup_delete_ne by congruence; by rewrite lookup_insert_ne by done]).
  - cbn [mbind res_bind rev app for_clients]. unfold qemu_cleanup_net_client, qemu_free_net_client. rewrite (get_nc_ok a s x Hx). cbn [mbind res_bind]. rewrite Hk. unfold get_nc. cbn [mbind res_bind set_ends set_list ncs]. rewrite Hx. cbn [mbind res_bind].
    destruct (peer x) as [q|] eqn:Hq; [destruct (ok_peer s Hok a x q Hx Hq) as (Hqa & y & Hy & Hyp); rewrite Hy|]; cbn [mbind res_bind]; rewrite Hk; cbn [mbind res_bind]; intros [= <-];
      (split; [done|]; split; [done|]); intros b Hb; cbn; rewrite lookup_delete_ne by done; [|done].
    case_decide as Hbq; [injection Hbq as <-; by rewrite lookup_insert_eq, Hy|]. by rewrite lookup_insert_ne by congruence.
Qed.

(** *** Everything the callers do *)

Definition net_init (e : E) : Net E := mkNet ∅ [] ∅ ∅ [] e.

(** The operations from outside, at fresh addresses; new back ends and ports with a new name. *)
Inductive net_step (s : Net E) : Net E → Prop :=
  | st_client a pr m nm s' :
      ncs s !! a = None → qemu_new_net_client a KIND_BACKEND pr m nm s = Ok s' → distinct_names s' → net_step s s'
  | st_nic n a pr m nm s' : ncs s !! a = None → nics s !! n = None → new_nic n [a] [pr] m nm s = Ok s' → net_step s s'
  | st_port a h id nm pr r s' :
      ncs s !! a = None → hub_mem s !! h = None → net_init_hubport a h id nm pr s = Ok (r, s') → distinct_names s' → net_step s s'
  | st_find a h id p s' :
      ncs s !! a = None → hub_mem s !! h = None → net_hub_port_find a h id s = Ok (p, s') → distinct_names s' → net_step s s'
  | st_del a x s' : a ∈ net_clients s → ncs s !! a = Some x → kind x ≠ KIND_NIC → qemu_del_net_client a s = Ok s' → net_step s s'
  | st_del_nic n s' : is_Some (nics s !! n) → qemu_del_nic n s = Ok s' → net_step s s'
  | st_send fuel a v cb r s' : send fuel a v cb s = Ok (r, s') → net_step s s'
  | st_flush fuel a r s' : qemu_flush_queued_packets fuel a s = Ok (r, s') → net_step s s'
  | st_purge a s' : qemu_purge_queued_packets a s = Ok s' → net_step s s'
  | st_link nm up s' : qmp_set_link nm up s = Ok s' → net_step s s'.

Lemma net_init_ok e : net_ok (net_init e).
Proof.
  split; cbn; try (by intros ? ? ?; rewrite lookup_empty); try (by intros ? ?; rewrite lookup_empty); try (by intros ? ? ? ?; rewrite lookup_empty); try apply NoDup_nil_2; try (by intros ? ?%not_elem_of_nil).
  - split; [apply NoDup_nil_2|]. intros h. rewrite lookup_empty. split; [by intros ?%not_elem_of_nil|by intros [? ?]].
  - by intros ? ? ? ? ?%not_elem_of_nil.
Qed.

Lemma net_step_ok s s' : net_step s s' → net_ok s → net_ok s'.
Proof.
  destruct 1 as [a pr m nm s' Ha Hs Hn|n a pr m nm s' Ha Hn Hs|a h id nm pr r s' Ha Hh Hs Hn|a h id p s' Ha Hh Hs Hn|a x s' Ha Hx Hk Hs|n s' [c Hc] Hs|fuel a v cb r s' Hs|fuel a r s' Hs|a s' Hs|nm up s' Hs];
    intros Hok.
  - by eapply new_client_ok.
  - by eapply new_nic_ok.
  - unfold net_init_hubport in Hs. destruct pr; [by injection Hs as _ <-|]. apply bind_Ok in Hs as (s1 & Hs & [= _ ->]). by eapply add_port_ok.
  - by eapply port_find_ok.
  - destruct (del_client_ok s a x Hok Ha Hx Hk) as (s1 & He & Hok1 & _). rewrite He in Hs. by injection Hs as <-.
  - destruct (del_nic_ok s n c Hok Hc) as (a & s1 & _ & _ & He & Hok1 & _). rewrite He in Hs. by injection Hs as <-.
  - by eapply shape_net_ok; [eapply send_shape|].
  - by eapply shape_net_ok; [eapply flush_queued_shape|].
  - by eapply shape_net_ok; [eapply purge_shape|].
  - by eapply shape_net_ok; [eapply set_link_shape|].
Qed.
Lemma net_steps_ok e s : rtc net_step (net_init e) s → net_ok s.
Proof. intros Hs. pose proof (net_init_ok e) as Hi. revert Hi. induction Hs; [done|]. intros Hi. by eapply IHHs, net_step_ok. Qed.

Lemma length_without a l : a ∈ l → (length (without a l) < length l)%nat.
Proof.
  unfold without. induction l as [|b l IH]; [by intros ?%not_elem_of_nil|]. intros [<-|Hl]%elem_of_cons; rewrite filter_cons.
  - rewrite decide_False by tauto. cbn. pose proof (length_filter (λ b, b ≠ a) l). lia.
  - specialize (IH Hl). case_decide; cbn; lia.
Qed.
Lemma net_cleanup_ok fuel s :
  net_ok s → (length (net_clients s) ≤ fuel)%nat → ∃ s', net_cleanup fuel s = Ok s' ∧ net_ok s' ∧ net_clients s' = [].
Proof.
  revert s. induction fuel as [|fuel IH]; intros s Hok Hf; destruct (net_clients s) as [|a l] eqn:El; cbn in Hf; try lia; [by exists s; cbn; rewrite El..|].
  cbn [net_cleanup]. rewrite El. assert (Ha : a ∈ net_clients s) by (rewrite El; by left). destruct (ok_live s Hok a Ha) as [x Hx]. rewrite (get_nc_ok a s x Hx). cbn [mbind res_bind].
  assert (Hgo : ∀ b s1, b ∈ net_clients s → net_ok s1 → net_clients s1 = without b (net_clients s) → ∃ s', net_cleanup fuel s1 = Ok s' ∧ net_ok s' ∧ net_clients s' = []).
  { intros b s1 Hb Hok1 Hl1. apply IH; [done|]. pose proof (length_without b _ Hb) as Hlt. rewrite Hl1, El in *. cbn [length] in Hlt. lia. }
  destruct (decide (kind x = KIND_NIC)) as [Hk|Hk].
  - rewrite Hk. destruct (ok_nic s Hok a x Hx Hk) as (c & Hc & _). destruct (del_nic_ok s _ c Hok Hc) as (b & s1 & _ & Hb & -> & Hok1 & Hl1). cbn [mbind res_bind]. by eapply Hgo.
  - destruct (del_client_ok s a x Hok Ha Hx Hk) as (s1 & Hs1 & Hok1 & Hl1). destruct (kind x); [done|..]; rewrite Hs1; cbn [mbind res_bind]; by eapply Hgo.
Qed.

(** C17: The registry stays in order along every sequence of creations, removals, sends, flushes,
    purges and link changes in which cards have one queue and the names of listed back ends and
    ports stay distinct (generated names can collide, [assign_name_collides]): listed clients are
    allocated, peers point at each other, the ports of a hub are those on the list, and what is
    allocated but no longer listed waits for its card.  And then removing never fails: every client
    on the list that is not a card's, and every card, can be removed, alone or with a peer on either
    side, without a null pointer or a failed assertion. *)
Theorem net_reachable_ok e s :
  rtc net_step (net_init e) s →
  net_ok s ∧
  (∀ a x, a ∈ net_clients s → ncs s !! a = Some x → kind x ≠ KIND_NIC →
     ∃ s', qemu_del_net_client a s = Ok s' ∧ net_clients s' = without a (net_clients s)) ∧
  (∀ n c, nics s !! n = Some c → ∃ a s', nic_ncs c = [a] ∧ qemu_del_nic n s = Ok s' ∧ net_clients s' = without a (net_clients s)).
Proof.
  intros Hok%net_steps_ok. split; [done|]. split.
  - intros a x Ha Hx Hk. destruct (del_client_ok s a x Hok Ha Hx Hk) as (s' & ? & _ & ?). eauto.
  - intros n c Hc. destruct (del_nic_ok s n c Hok Hc) as (a & s' & ? & _ & ? & _ & ?). eauto.
Qed.

(** C18: Shutting the network down ends, with every client freed: from whatever registry such a
    sequence has built (cards with one queue, the names of listed back ends and ports distinct),
    the loop removes one client of the list per round, and leaves no client, no card and no port
    allocated, those that had been removed before their card included. *)
Theorem net_cleanup_frees_all e s :
  rtc net_step (net_init e) s →
  ∃ s', net_cleanup (length (net_clients s)) s = Ok s' ∧ net_clients s' = [] ∧ ncs s' = ∅ ∧ nics s' = ∅ ∧
    ∀ h hb, hub_mem s' !! h = Some hb → ports hb = [].
Proof.
  intros Hok%net_steps_ok. destruct (net_cleanup_ok _ s Hok (le_n _)) as (s' & Hs & Hok' & Hl). exists s'. split; [done|]. split; [done|].
  assert (Hnic : nics s' = ∅). { apply map_empty. intros n. destruct (nics s' !! n) as [c|] eqn:Hc; [|done]. destruct (ok_nics s' Hok' n c Hc) as (a & _ & _ & Ha & _). rewrite Hl in Ha. by apply not_elem_of_nil in Ha. }
  split; [|split; [done|]].
  - apply map_empty. intros a. destruct (ncs s' !! a) as [x|] eqn:Hx; [|done]. destruct (ok_orphan s' Hok' a x Hx) as (_ & p & y & _ & Hy & Hky); [rewrite Hl; apply not_elem_of_nil|].
    destruct (ok_nic s' Hok' p y Hy Hky) as (c & Hc & _). by rewrite Hnic, lookup_empty in Hc.
  - intros h hb Hh. destruct (ok_ports s' Hok' h hb Hh) as [_ Hq]. destruct (ports hb) as [|q l]; [done|]. destruct (proj1 (Hq q) ltac:(by left)) as (Hql & _). rewrite Hl in Hql. by apply not_elem_of_nil in Hql.
Qed.
End Registry.

(** A back end, its card, and the back end removed first. *)
Module Demo2.
Definition start : Net Demo.Ends := net_init (Demo.mkEnds [] [] []).
Definition get {A} (d : A) (r : res A) : A := match r with Ok x => x | _ => d end.
Definition s1 : Net Demo.Ends := get start (qemu_new_net_client 1 KIND_BACKEND None "user" (Some "net0") start).
Definition s2 : Net Demo.Ends := get start (new_nic 20 [2] [Some 1] "e1000" None s1).
Definition s3 : Net Demo.Ends := get start (qemu_del_net_client 1 s2).

Lemma s1_names : distinct_names s1.
Proof. intros a b x y Ha Hb _ _ _ _ _. change (net_clients s1) with [1] in *. set_solver. Qed.
Lemma step1 : net_step start s1.
Proof. apply (st_client start 1 None "user" (Some "net0")); [vm_compute; reflexivity|vm_compute; reflexivity|apply s1_names]. Qed.
Lemma step2 : net_step s1 s2.
Proof. apply (st_nic s1 20 2 (Some 1) "e1000" None); vm_compute; reflexivity. Qed.
Lemma s2_client : ∃ x, ncs s2 !! 1 = Some x ∧ kind x = KIND_BACKEND.
Proof. vm_compute. eauto. Qed.
Lemma step3 : net_step s2 s3.
Proof.
  destruct s2_client as (x & Hx & Hk). apply (st_del s2 1 x); [change (net_clients s2) with [1; 2]; set_solver|done|by rewrite Hk|vm_compute; reflexivity].
Qed.
Lemma reach2 : rtc net_step start s2.
Proof. eapply rtc_l; [apply step1|]. apply rtc_once, step2. Qed.
Lemma reach3 : rtc net_step start s3.
Proof. eapply rtc_r; [apply reach2|apply step3]. Qed.
Lemma s3_waits : net_clients s3 = [2] ∧ is_Some (ncs s3 !! 1).
Proof. vm_compute. eauto. Qed.
Lemma s2_listed : 1 ∈ net_clients s2.
Proof. change (net_clients s2) with [1; 2]. set_solver. Qed.
End Demo2.

Lemma net_reachable_ok_witness : net_ok Demo2.s2 ∧ ∃ s', qemu_del_net_client 1 Demo2.s2 = Ok s' ∧ net_clients s' = without 1 (net_clients Demo2.s2).
Proof.
  destruct (net_reachable_ok _ _ Demo2.reach2) as (Hok & Hdel & _). destruct Demo2.s2_client as (x & Hx & Hk).
  split; [exact Hok|]. apply (Hdel 1 x Demo2.s2_listed Hx). rewrite Hk. intros [=].
Defined.
Lemma net_cleanup_frees_all_witness :
  (net_clients Demo2.s3 = [2] ∧ is_Some (ncs Demo2.s3 !! 1)) ∧
  ∃ s', net_cleanup (length (net_clients Demo2.s3)) Demo2.s3 = Ok s' ∧ net_clients s' = [] ∧ ncs s' = ∅ ∧ nics s' = ∅ ∧
    ∀ h hb, hub_mem s' !! h = Some hb → ports hb = [].
Proof. split; [exact Demo2.s3_waits|exact (net_cleanup_frees_all _ _ Demo2.reach3)]. Defined.

(** Three clients of a model, the first of which is removed. *)
Definition twins : res (Net Demo.Ends) :=
  s ← qemu_new_net_client 1 KIND_BACKEND None "user" None Demo2.start;
  s ← qemu_new_net_client 2 KIND_BACKEND None "user" None s;
  s ← qemu_del_net_client 1 s;
  qemu_new_net_client 3 KIND_BACKEND None "user" None s.
(** The names that the code makes up need not be new: the number is the count of clients of the
    model, not the first free one.  After the first of two clients is removed, the next one gets
    the name of the second, and removing one of them removes both; if that one has a card and the
    other has no peer, the code follows a null pointer. *)
Example assign_name_collides :
  match twins with
  | Ok s =>
      nc_field name "" 2 s = "user.1" ∧ nc_field name "" 3 s = "user.1" ∧ net_clients s = [2; 3] ∧
      match qemu_del_net_client 3 s with Ok s' => net_clients s' = [] | _ => False end ∧
      (s ← new_nic 20 [4] [Some 3] "e1000" None s; qemu_del_net_client 3 s) = Fault NullDeref
  | _ => False
  end.
Proof. vm_compute. repeat split. Qed.

End NetRegistry.
