(* ===== verification/Release.v ===== *)
(** Unplugging the e1000: [pci_e1000_uninit] and [e1000_cleanup] (e1000.c), run by
    [pci_unregister_device] (hw/pci/pci.c) on the parts of the emulator that point at the device:
    the timer list, the network clients, the memory regions and the PCI bus. *)

From S2P Require Import Prelude Timer Pci PciBus PciHost Net NetRegistry.
Import Timer Pci PciBus PciHost Net NetRegistry.

Module Release.

(** ** State *)

(** The function a region has for its own end: I/O regions have none, the option ROM frees its block
    of RAM, the bus-master region drops its reference to the region it is an alias of. *)
Inductive Destructor : Type :=
  | memory_region_destructor_none
  | memory_region_destructor_ram (ram_addr : Z)
  | memory_region_destructor_alias (alias : Z).

(** [mr_name] says whether the name of the region is allocated; [memory_region_destroy] frees it. *)
Record MemoryRegion : Type := mkMR {
  mr_name : bool;
  subregions : list Z;
  coalesced : list (Z * Z);
  destructor : Destructor;
}.

(** The endpoints of the network with the pointer [d->nic] of the device. *)
Record WithCard (E : Type) : Type := mkEnds {
  d_nic : option Z;
  rest : E;
}.
Arguments mkEnds {_} d_nic rest.
Arguments d_nic {_} w.
Arguments rest {_} w.

(** The addresses the device keeps: its timers, its regions, the address space of its DMA with the
    region that switches it, its client and its place on the bus. *)
Record Card : Type := mkCard {
  autoneg_timer : Z;
  mit_timer : Z;
  mmio : Z;
  io : Z;
  bus_master_enable_region : Z;
  bus_master_as : Z;
  client : Z;
  pci_dev : Z;
}.

(** [rom] is the region of the option ROM, if the device has one ([has_rom]); [ram_list] are the
    offsets of the blocks of RAM, [address_spaces] the roots of the address spaces. *)
Record Host (E : Type) : Type := mkHost {
  timers : QEMUTimerList;
  net : Net (WithCard E);
  pci : PciSys;
  regions : gmap Z MemoryRegion;
  transaction_depth : Z;
  rom : option Z;
  ram_list : list Z;
  address_spaces : gmap Z Z;
}.
Arguments mkHost {_} timers net pci regions transaction_depth rom ram_list address_spaces.
Arguments timers {_} h.
Arguments net {_} h.
Arguments pci {_} h.
Arguments regions {_} h.
Arguments transaction_depth {_} h.
Arguments rom {_} h.
Arguments ram_list {_} h.
Arguments address_spaces {_} h.

Section Release.
Context {E : Type} `{Endpoints E} (c : Card).
Implicit Types h : Host E.

Definition set_timers (t : QEMUTimerList) (h : Host E) : Host E :=
  mkHost t (net h) (pci h) (regions h) (transaction_depth h) (rom h) (ram_list h) (address_spaces h).
Definition set_net (n : Net (WithCard E)) (h : Host E) : Host E :=
  mkHost (timers h) n (pci h) (regions h) (transaction_depth h) (rom h) (ram_list h) (address_spaces h).
Definition set_pci (p : PciSys) (h : Host E) : Host E :=
  mkHost (timers h) (net h) p (regions h) (transaction_depth h) (rom h) (ram_list h) (address_spaces h).
Definition set_mem (m : gmap Z MemoryRegion) (h : Host E) : Host E :=
  mkHost (timers h) (net h) (pci h) m (transaction_depth h) (rom h) (ram_list h) (address_spaces h).
Definition set_rom (r : option Z) (h : Host E) : Host E :=
  mkHost (timers h) (net h) (pci h) (regions h) (transaction_depth h) r (ram_list h) (address_spaces h).
Definition set_ram (l : list Z) (h : Host E) : Host E :=
  mkHost (timers h) (net h) (pci h) (regions h) (transaction_depth h) (rom h) l (address_spaces h).
Definition set_spaces (m : gmap Z Z) (h : Host E) : Host E :=
  mkHost (timers h) (net h) (pci h) (regions h) (transaction_depth h) (rom h) (ram_list h) m.

(** ** The network client of the device *)

Definition e1000_cleanup (e : WithCard E) : WithCard E := mkEnds None (rest e).

(** The callbacks of the other clients are those of the endpoints. *)
#[local] Instance card_ends : Endpoints (WithCard E) := {|
  ep_receive a data e := let '(r, x) := ep_receive a data (rest e) in (r, mkEnds (d_nic e) x);
  ep_can_receive a e := ep_can_receive a (rest e);
  ep_cleanup a e := if a =? client c then e1000_cleanup e else mkEnds (d_nic e) (ep_cleanup a (rest e));
  ep_link_changed a e := mkEnds (d_nic e) (ep_link_changed a (rest e));
  ep_sent cb a r e := mkEnds (d_nic e) (ep_sent cb a r (rest e));
|}.

(** ** Memory regions *)

Definition memory_region_clear_coalescing (x : MemoryRegion) : MemoryRegion := mkMR (mr_name x) (subregions x) [] (destructor x).

(** The first block at the offset goes. *)
Fixpoint qemu_ram_free (addr : Z) (l : list Z) : list Z :=
  match l with
  | [] => []
  | offset :: l => if addr =? offset then l else offset :: qemu_ram_free addr l
  end.
(** The region that the bus-master region is an alias of is the root of the address space of the
    machine, which has no owner ([memory_map_init]): dropping the reference does nothing. *)
Definition run_destructor (x : MemoryRegion) (l : list Z) : list Z :=
  match destructor x with memory_region_destructor_ram addr => qemu_ram_free addr l | _ => l end.

(** The registers that map the regions of the device. *)
Definition bars (h : Host E) : list (Z * Z) := [(0, mmio c); (1, io c)] ++ ((λ r, (PCI_ROM_SLOT, r)) <$> option_list (rom h)).
(** Something still points at the region: it is a subregion of an address space of the bus, or the
    root of an address space. *)
Definition is_mapped (r : Z) (h : Host E) : bool :=
  match devs (pci h) !! pci_dev c with
  | None => false
  | Some d => existsb (λ '(i, m), (m =? r) && bool_decide (is_Some (mapped d !! i))) (bars h)
  end.
Definition is_root (r : Z) (h : Host E) : bool := existsb (λ '(_, m), m =? r) (map_to_list (address_spaces h)).

(** The code does not look at whether the region is in use; if it is, the next walk over the address
    space follows a pointer to what was freed.  Freeing the name twice is undefined too. *)
Definition memory_region_destroy (r : Z) (h : Host E) : res (Host E) :=
  match regions h !! r with
  | None => Fault NullDeref
  | Some x =>
      if negb (bool_decide (subregions x = [])) then Fault AssertFail
      else if negb (transaction_depth h =? 0) then Fault AssertFail
      else if is_mapped r h || is_root r h then Fault OutOfBounds
      else
        let h := set_ram (run_destructor x (ram_list h)) h in
        let x := memory_region_clear_coalescing x in
        if negb (mr_name x) then Fault OutOfBounds
        else Ok (set_mem (<[r := mkMR false (subregions x) (coalesced x) (destructor x)]> (regions h)) h)
  end.

(** Taking an address space that is not on the list from it is undefined. *)
Definition address_space_destroy (a : Z) (h : Host E) : res (Host E) :=
  match address_spaces h !! a with
  | None => Fault NullDeref
  | Some _ => Ok (set_spaces (delete a (address_spaces h)) h)
  end.

(** ** The device *)

Definition pci_e1000_uninit (fuel : nat) (h : Host E) : res (Host E) :=
  t ← timer_del fuel (autoneg_timer c) (timers h);
  let t := timer_free (autoneg_timer c) t in
  t ← timer_del fuel (mit_timer c) t;
  let h := set_timers (timer_free (mit_timer c) t) h in
  h ← memory_region_destroy (mmio c) h;
  h ← memory_region_destroy (io c) h;
  match d_nic (ends (net h)) with
  | None => Fault NullDeref
  | Some n => x ← qemu_del_nic n (net h); Ok (set_net x h)
  end.

(** ** The PCI layer *)

Fixpoint unregister_loop (l : list Z) (d : PCIDevice) : res PCIDevice :=
  match l with
  | [] => Ok d
  | i :: l =>
      let r := region d i in
      if (r_size r =? 0) || (r_addr r =? PCI_BAR_UNMAPPED) then unregister_loop l d
      else m ← memory_region_del_subregion i (mapped d); unregister_loop l (set_regions (io_regions d) m d)
  end.
Definition pci_unregister_io_regions (d : PCIDevice) : res PCIDevice :=
  d ← unregister_loop (seqZ 0 PCI_NUM_REGIONS) d;
  Ok (pci_unregister_vga d).

Definition pci_del_option_rom (h : Host E) : res (Host E) :=
  match rom h with
  | None => Ok h
  | Some r => h ← memory_region_destroy r h; Ok (set_rom None h)
  end.

Definition do_pci_unregister_device (h : Host E) : res (Host E) :=
  p ← leave_bus (pci_dev c) (pci h);
  h ← address_space_destroy (bus_master_as c) (set_pci p h);
  memory_region_destroy (bus_master_enable_region c) h.

(** [exit] is the function of the device's class, if it has one. *)
Definition pci_unregister_device (exit : option (Host E → res (Host E))) (h : Host E) : res (Host E) :=
  d ← get_dev (pci_dev c) (pci h);
  d ← pci_unregister_io_regions d;
  let h := set_pci (put_dev (pci_dev c) d (pci h)) h in
  h ← pci_del_option_rom h;
  h ← (match exit with Some f => f h | None => Ok h end);
  do_pci_unregister_device h.

(** ** Lemmas *)

Definition destroyed (x : MemoryRegion) : MemoryRegion := mkMR false [] [] (destructor x).

Lemma memory_region_destroy_ok r h x :
  regions h !! r = Some x → mr_name x = true → subregions x = [] → transaction_depth h = 0 → is_mapped r h = false → is_root r h = false →
  memory_region_destroy r h = Ok (set_mem (<[r := destroyed x]> (regions h)) (set_ram (run_destructor x (ram_list h)) h)).
Proof.
  intros Hr Hn Hs Hd Hm Ho. unfold memory_region_destroy. rewrite Hr, Hs, Hd, Hm, Ho, bool_decide_eq_true_2 by done. cbn. by rewrite Hn, Hs.
Qed.

Lemma is_root_false r h : (∀ a, address_spaces h !! a ≠ Some r) → is_root r h = false.
Proof.
  intros Hr. apply not_true_is_false. intros ([a m] & Ha & ->%Z.eqb_eq)%existsb_exists. apply list_elem_of_In, elem_of_map_to_list in Ha. by apply (Hr a).
Qed.

(** A device with no register mapped. *)
Definition no_bars (h : Host E) : Prop :=
  ∀ d i, devs (pci h) !! pci_dev c = Some d → 0 ≤ i < PCI_NUM_REGIONS → mapped d !! i = None.
Lemma is_mapped_false r h : no_bars h → is_mapped r h = false.
Proof.
  intros Hm. unfold is_mapped. destruct (devs (pci h) !! pci_dev c) as [d|] eqn:Hd; [|done]. apply not_true_is_false.
  intros ([i m] & Hi & [_ Hs%bool_decide_eq_true]%andb_prop)%existsb_exists. rewrite (Hm d i Hd) in Hs; [by destruct Hs|].
  apply list_elem_of_In in Hi. unfold bars, PCI_NUM_REGIONS, PCI_ROM_SLOT in *. destruct (rom h); cbn in Hi; set_solver by lia.
Qed.

Lemma qemu_ram_free_spec addr l a : NoDup l → a ∈ qemu_ram_free addr l ↔ a ∈ l ∧ a ≠ addr.
Proof.
  induction l as [|o l IH]; intros Hn; [cbn; set_solver|]. apply NoDup_cons in Hn as [Ho Hn]. cbn. destruct (Z.eqb_spec addr o) as [->|Hne]; [set_solver|].
  rewrite !elem_of_cons, IH by done. naive_solver.
Qed.

Lemma unregister_loop_spec l d :
  NoDup l → (∀ i, i ∈ l → mapped d !! i = if (r_size (region d i) =? 0) || (r_addr (region d i) =? PCI_BAR_UNMAPPED) then None else Some (r_addr (region d i))) →
  ∃ m, unregister_loop l d = Ok (set_regions (io_regions d) m d) ∧ ∀ i, m !! i = if bool_decide (i ∈ l) then None else mapped d !! i.
Proof.
  revert d. induction l as [|i l IH]; intros d Hn Hm.
  { exists (mapped d). split; [by destruct d|]. intros i. by rewrite bool_decide_eq_false_2 by apply not_elem_of_nil. }
  apply NoDup_cons in Hn as [Hi Hn]. pose proof (Hm i ltac:(by left)) as Hmi. cbn [unregister_loop]. destruct (_ || _).
  - destruct (IH d Hn) as (m & Em & Hr); [intros j Hj; apply Hm; by right|]. exists m. split; [done|]. intros j. rewrite Hr.
    destruct (decide (j = i)) as [->|Hne]; [by rewrite bool_decide_eq_false_2, bool_decide_eq_true_2, Hmi by (done || by left)|].
    by rewrite (bool_decide_ext (j ∈ i :: l) (j ∈ l)) by (rewrite elem_of_cons; naive_solver).
  - unfold memory_region_del_subregion. rewrite Hmi. cbn [mbind res_bind]. set (d1 := set_regions _ _ d).
    destruct (IH d1 Hn) as (m & Em & Hr).
    { intros j Hj. unfold d1. cbn [set_regions mapped]. rewrite lookup_delete_ne by (intros ->; done). apply Hm. by right. }
    exists m. split; [exact Em|]. intros j. rewrite Hr. unfold d1. cbn [set_regions mapped].
    destruct (decide (j = i)) as [->|Hne]; [rewrite lookup_delete_eq, (bool_decide_eq_true_2 (i ∈ i :: l)) by (by left); by case_match|].
    rewrite lookup_delete_ne by done. by rewrite (bool_decide_ext (j ∈ i :: l) (j ∈ l)) by (rewrite elem_of_cons; naive_solver).
Qed.

(** No region stays in an address space. *)
Lemma pci_unregister_io_regions_ok d :
  maps_ok d → ∃ m, pci_unregister_io_regions d = Ok (set_vga None (set_regions (io_regions d) m d)) ∧ ∀ i, 0 ≤ i < PCI_NUM_REGIONS → m !! i = None.
Proof.
  intros Hm. unfold pci_unregister_io_regions. destruct (unregister_loop_spec (seqZ 0 PCI_NUM_REGIONS) d) as (m & Em & Hr); [apply NoDup_seqZ|intros i Hi%elem_of_seqZ; apply Hm; lia|].
  rewrite Em. cbn [mbind res_bind]. exists m. split; [unfold pci_unregister_vga; destruct d as [? ? ? ? ? ? ? ? ? ? [] ? ? ?]; done|].
  intros i Hi. rewrite Hr, bool_decide_eq_true_2; [done|]. apply elem_of_seqZ. lia.
Qed.

(** Both timers of the device leave the list and are freed; the others keep their deadlines. *)
Lemma free_timer_ok fuel t l st :
  holds st l → is_Some (heap st !! t) → (length l < fuel)%nat →
  ∃ st', timer_del fuel t st = Ok st' ∧ holds (timer_free t st') (Timer.without t l) ∧ heap (timer_free t st') !! t = None ∧
    ∀ a, a ≠ t → deadline (heap (timer_free t st')) a = deadline (heap st) a ∧ (is_Some (heap st !! a) → is_Some (heap (timer_free t st') !! a)).
Proof.
  intros Hh Ht Hf. destruct (timer_del_holds fuel t l st Hh Ht Hf) as (st' & E1 & Hh' & _ & Hd). exists st'. split; [done|].
  destruct (timer_free_holds t _ st' Hh') as [Hh2 Hn]. { intros [Hne _]%list_elem_of_filter. done. }
  split; [done|]. split; [done|]. intros a Ha. cbn [timer_free set_heap heap]. rewrite deadline_delete, Hd, !decide_False by done. split; [done|].
  rewrite lookup_delete_ne by done. pose proof (timer_del_scales _ _ _ _ E1 a) as Hsc. intros [x Hx]. rewrite Hx in Hsc. by destruct (heap st' !! a).
Qed.

Lemma length_timer_without t l : (length (Timer.without t l) ≤ length l)%nat.
Proof. apply length_filter. Qed.

(** ** Unplugging *)

Definition own_regions (h : Host E) : list Z := option_list (rom h) ++ [mmio c; io c; bus_master_enable_region c].

(** The block of RAM of the option ROM. *)
Definition ram_block (x : MemoryRegion) : option Z := match destructor x with memory_region_destructor_ram a => Some a | _ => None end.
Definition rom_block (h : Host E) : option Z := r ← rom h; x ← regions h !! r; ram_block x.

(** The device's timers are allocated, its client is the card [n], its regions are not destroyed and
    have no regions below them, the space of its DMA is listed and no other has a region of the
    device as root; [l] are the active timers. *)
Record plugged (h : Host E) (l : list Z) (n : Z) : Prop := {
  pl_timers : holds (timers h) l;
  pl_autoneg : is_Some (heap (timers h) !! autoneg_timer c);
  pl_mit : is_Some (heap (timers h) !! mit_timer c);
  pl_two : mit_timer c ≠ autoneg_timer c;
  pl_net : net_ok (net h);
  pl_nic : d_nic (ends (net h)) = Some n;
  pl_client : ∃ k, nics (net h) !! n = Some k ∧ nic_ncs k = [client c];
  pl_regions : ∀ r, r ∈ own_regions h → ∃ x, regions h !! r = Some x ∧ mr_name x = true ∧ subregions x = [];
  pl_io : ∀ r x, r ∈ [mmio c; io c; bus_master_enable_region c] → regions h !! r = Some x → ram_block x = None;
  pl_nodup : NoDup (own_regions h);
  pl_depth : transaction_depth h = 0;
  pl_blocks : NoDup (ram_list h);
  pl_space : address_spaces h !! bus_master_as c = Some (bus_master_enable_region c);
  pl_roots : ∀ a r, address_spaces h !! a = Some r → r ∈ own_regions h → a = bus_master_as c;
}.

Arguments pl_timers {h l n} _.
Arguments pl_autoneg {h l n} _.
Arguments pl_mit {h l n} _.
Arguments pl_two {h l n} _.
Arguments pl_net {h l n} _.
Arguments pl_nic {h l n} _.
Arguments pl_client {h l n} _.
Arguments pl_regions {h l n} _.
Arguments pl_io {h l n} _.
Arguments pl_nodup {h l n} _.
Arguments pl_depth {h l n} _.
Arguments pl_blocks {h l n} _.
Arguments pl_space {h l n} _.
Arguments pl_roots {h l n} _.

(** What becomes of the other clients: the peer of the card is unlinked, or freed if it was removed
    before the card; the hubs and the rest are as they were. *)
Definition others_kept (s s' : Net (WithCard E)) (n : Z) : Prop :=
  hub_mem s' = hub_mem s ∧ hubs s' = hubs s ∧
  ∃ k x, nics s !! n = Some k ∧ ncs s !! client c = Some x ∧
    ∀ b, b ≠ client c → ncs s' !! b = if decide (peer x = Some b) then (if peer_deleted k then None else set_peer None <$> ncs s !! b) else ncs s !! b.

(** What is left of it: no timer, client, region, address space or slot of the device, and what
    belongs to others is in order and as it was. *)
Record unplugged (msi : MsiOps) (rfuel : nat) (h h' : Host E) (l : list Z) (n : Z) (d : PCIDevice) : Prop := {
  up_timers : holds (timers h') (Timer.without (mit_timer c) (Timer.without (autoneg_timer c) l));
  up_freed : heap (timers h') !! autoneg_timer c = None ∧ heap (timers h') !! mit_timer c = None;
  up_deadlines : ∀ a, a ≠ autoneg_timer c → a ≠ mit_timer c → deadline (heap (timers h')) a = deadline (heap (timers h)) a;
  up_net : net_ok (net h');
  up_list : net_clients (net h') = Net.without (client c) (net_clients (net h));
  up_client : ncs (net h') !! client c = None ∧ nics (net h') = delete n (nics (net h));
  up_others : others_kept (net h) (net h') n;
  up_peers : ∀ a x, ncs (net h') !! a = Some x → peer x ≠ Some (client c);
  up_nic : ends (net h') = mkEnds None (rest (ends (net h)));
  up_pci : sys_ok msi rfuel (pci h');
  up_devs : devs (pci h') = delete (pci_dev c) (devs (pci h));
  up_buses : ∃ x, buses (pci h) !! bus d = Some x ∧ buses (pci h') = <[bus d := set_devices (delete (devfn d) (devices x)) x]> (buses (pci h));
  up_sent : sent (pci h') = sent (pci h);
  up_regions : ∀ r, regions h' !! r = if bool_decide (r ∈ own_regions h) then destroyed <$> regions h !! r else regions h !! r;
  up_ram : ∀ a, a ∈ ram_list h' ↔ a ∈ ram_list h ∧ rom_block h ≠ Some a;
  up_spaces : address_spaces h' = delete (bus_master_as c) (address_spaces h);
  up_rom : rom h' = None;
}.

Lemma plugged_pci h l n p : plugged h l n → plugged (set_pci p h) l n.
Proof. by intros []. Qed.

(** The roots of the address spaces are no regions of the device but the one of its own space. *)
Lemma not_root h l n r : plugged h l n → r ∈ own_regions h → r ≠ bus_master_enable_region c → is_root r h = false.
Proof. intros Hp Hr Hne. apply is_root_false. intros a Ha. pose proof (pl_roots Hp a r Ha Hr) as ->. rewrite (pl_space Hp) in Ha. congruence. Qed.

Lemma run_destructor_none x l : ram_block x = None → run_destructor x l = l.
Proof. unfold ram_block, run_destructor. by destruct (destructor x). Qed.

Lemma run_destructor_spec x l a : NoDup l → a ∈ run_destructor x l ↔ a ∈ l ∧ ram_block x ≠ Some a.
Proof.
  intros Hn. unfold run_destructor, ram_block. destruct (destructor x); [naive_solver| |naive_solver]. rewrite qemu_ram_free_spec by done. naive_solver.
Qed.
Lemma qemu_ram_free_sub addr l : qemu_ram_free addr l `sublist_of` l.
Proof. induction l as [|o l IH]; cbn; [constructor|]. destruct (addr =? o); by constructor. Qed.
Lemma run_destructor_NoDup x l : NoDup l → NoDup (run_destructor x l).
Proof. intros Hn. unfold run_destructor. destruct (destructor x); [done| |done]. by eapply sublist_NoDup, qemu_ram_free_sub. Qed.

(** The regions of the device that are destroyed by its own function. *)
Definition without_io (m : gmap Z MemoryRegion) : gmap Z MemoryRegion := alter destroyed (io c) (alter destroyed (mmio c) m).
Lemma alter_insert r x (m : gmap Z MemoryRegion) : m !! r = Some x → <[r := destroyed x]> m = alter destroyed r m.
Proof. intros Hr. apply map_eq. intros q. destruct (decide (r = q)) as [<-|]; [by rewrite lookup_insert_eq, lookup_alter_eq, Hr|by rewrite lookup_insert_ne, lookup_alter_ne]. Qed.

(** A region of the device that nothing maps can be destroyed. *)
Lemma destroy_own h l n r :
  plugged h l n → no_bars h → r ∈ own_regions h → r ≠ bus_master_enable_region c →
  ∃ x, regions h !! r = Some x ∧ memory_region_destroy r h = Ok (set_mem (alter destroyed r (regions h)) (set_ram (run_destructor x (ram_list h)) h)).
Proof.
  intros Hp Hb Hr Hne. destruct (pl_regions Hp r Hr) as (x & Hx & N & S). exists x. split; [done|].
  rewrite (memory_region_destroy_ok r h x); [by rewrite (alter_insert r x)|done..|apply (pl_depth Hp)|by apply is_mapped_false|by eapply not_root].
Qed.

Lemma uninit_ok fuel h l n :
  plugged h l n → rom h = None → no_bars h → (length l < fuel)%nat →
  ∃ t x, pci_e1000_uninit fuel h = Ok (mkHost t x (pci h) (without_io (regions h)) 0 None (ram_list h) (address_spaces h)) ∧
    holds t (Timer.without (mit_timer c) (Timer.without (autoneg_timer c) l)) ∧ (heap t !! autoneg_timer c = None ∧ heap t !! mit_timer c = None) ∧
    (∀ a, a ≠ autoneg_timer c → a ≠ mit_timer c → deadline (heap t) a = deadline (heap (timers h)) a) ∧
    net_ok x ∧ net_clients x = Net.without (client c) (net_clients (net h)) ∧ (ncs x !! client c = None ∧ nics x = delete n (nics (net h))) ∧
    others_kept (net h) x n ∧ ends x = mkEnds None (rest (ends (net h))).
Proof.
  intros Hp Hrom Hb Hf. pose proof (pl_nodup Hp) as Hnd. assert (Ho : own_regions h = [mmio c; io c; bus_master_enable_region c]) by (unfold own_regions; by rewrite Hrom).
  rewrite Ho, !NoDup_cons, !not_elem_of_cons in Hnd. destruct Hnd as ((Hne & Hm & _) & (Hi & _) & _).
  destruct (free_timer_ok fuel (autoneg_timer c) l (timers h)) as (t1 & E1 & Hh1 & F1 & D1); [by apply (pl_timers Hp)|by apply (pl_autoneg Hp)|done|].
  destruct (free_timer_ok fuel (mit_timer c) (Timer.without (autoneg_timer c) l) (timer_free (autoneg_timer c) t1)) as (t2 & E2 & Hh2 & F2 & D2); [done|..].
  { apply D1; [apply (pl_two Hp)|apply (pl_mit Hp)]. } { pose proof (length_timer_without (autoneg_timer c) l). lia. }
  destruct (pl_client Hp) as (k & Hk & Hkc). destruct (ok_nics _ (pl_net Hp) n k Hk) as (a & x & Ha & _ & Hx & Hkx & _). assert (a = client c) as -> by congruence.
  destruct (del_nic_ok (net h) n k (pl_net Hp) Hk) as (a & y & Ha' & _ & E3 & Hy & Hl). assert (a = client c) as -> by congruence.
  destruct (del_nic_effect _ _ _ _ _ _ Hk Hkc Hx Hkx E3) as (En & Ec & Ee).
  destruct (del_nic_others _ _ _ _ _ _ (pl_net Hp) Hk Hkc Hx E3) as (Eh & Ehs & Eo).
  set (t3 := timer_free (mit_timer c) t2) in *. set (h1 := set_timers t3 h).
  destruct (pl_regions Hp (mmio c)) as (x1 & Hx1 & N1 & S1); [rewrite Ho; by left|]. destruct (pl_regions Hp (io c)) as (x2 & Hx2 & N2 & S2); [rewrite Ho; by right; left|].
  exists t3, y. split.
  { unfold pci_e1000_uninit. rewrite E1. cbn [mbind res_bind]. rewrite E2. cbn [mbind res_bind]. fold t3 h1.
    rewrite (memory_region_destroy_ok (mmio c) h1 x1); [|done..|apply (pl_depth Hp)|by apply is_mapped_false|apply (not_root h l n); [done|rewrite Ho; by left|done]]. cbn [mbind res_bind].
    rewrite (memory_region_destroy_ok (io c) _ x2); [|cbn; by rewrite lookup_insert_ne|done..|apply (pl_depth Hp)|by apply is_mapped_false|apply (not_root h l n); [done|rewrite Ho; by right; left|done]]. cbn [mbind res_bind].
    cbn [set_mem set_ram set_timers h1 net ram_list regions]. rewrite (pl_nic Hp), E3. cbn [mbind res_bind].
    rewrite !run_destructor_none by (eapply (pl_io Hp); [|done]; set_solver). rewrite (alter_insert (mmio c)), (alter_insert (io c)) by (rewrite ?lookup_alter_ne; done).
    unfold set_net, without_io. cbn. by rewrite (pl_depth Hp), Hrom. }
  split; [done|]. split; [split; [|done]|]. { cbn. rewrite lookup_delete_ne by apply (pl_two Hp). pose proof (timer_del_scales _ _ _ _ E2 (autoneg_timer c)) as Hs. rewrite F1 in Hs. by destruct (heap t2 !! autoneg_timer c). }
  split; [intros a Ha1 Ha2; by rewrite (proj1 (D2 a Ha2)), (proj1 (D1 a Ha1))|]. do 3 (split; [done|]). split; [split; [done|]; split; [done|]; by exists k, x|]. rewrite Ee. cbn. by rewrite Z.eqb_refl.
Qed.

Definition without_rom (h : Host E) : gmap Z MemoryRegion := match rom h with Some r => alter destroyed r (regions h) | None => regions h end.
Lemma del_option_rom_ok h l n :
  plugged h l n → no_bars h →
  ∃ rl, let h' := mkHost (timers h) (net h) (pci h) (without_rom h) 0 None rl (address_spaces h) in
    pci_del_option_rom h = Ok h' ∧ plugged h' l n ∧ no_bars h' ∧ ∀ a, a ∈ rl ↔ a ∈ ram_list h ∧ rom_block h ≠ Some a.
Proof.
  intros Hp Hb. unfold pci_del_option_rom, without_rom, rom_block. pose proof (pl_nodup Hp) as Hnd. unfold own_regions in Hnd. destruct (rom h) as [r|] eqn:Er; cbn [option_list app] in Hnd.
  - apply NoDup_cons in Hnd as [Hn Hnd]. assert (Hro : r ∈ own_regions h) by (unfold own_regions; rewrite Er; by left).
    destruct (destroy_own h l n r Hp Hb Hro) as (x & Hx & Ed); [set_solver|]. rewrite Ed. cbn [mbind res_bind]. exists (run_destructor x (ram_list h)). unfold set_rom, set_mem, set_ram. cbn. rewrite (pl_depth Hp).
    split; [done|]. split; [|split; [done|intros a; rewrite Hx; apply run_destructor_spec, (pl_blocks Hp)]].
    assert (Hi : ∀ q, q ∈ [mmio c; io c; bus_master_enable_region c] → alter destroyed r (regions h) !! q = regions h !! q) by (intros q Hq; apply lookup_alter_ne; by intros ->).
    assert (Hs : ∀ q, q ∈ [mmio c; io c; bus_master_enable_region c] → q ∈ own_regions h) by (intros q Hq; unfold own_regions; rewrite Er; by right).
    destruct Hp; split; try done; cbn.
    + intros q Hq. rewrite Hi by done. auto.
    + intros q y Hq. rewrite Hi by done. eauto.
    + by apply run_destructor_NoDup.
    + intros a q Ha Hq. apply (pl_roots0 a q Ha). auto.
  - exists (ram_list h). assert (Eh : h = mkHost (timers h) (net h) (pci h) (regions h) 0 None (ram_list h) (address_spaces h)) by (pose proof (pl_depth Hp); destruct h; cbn in *; congruence).
    rewrite <-Eh. split; [done|]. split; [done|]. split; [done|]. cbn. naive_solver.
Qed.

(** All regions of the device are destroyed, and only they. *)
Lemma alter_all rs (m : gmap Z MemoryRegion) r :
  NoDup rs → foldl (λ m r, alter destroyed r m) m rs !! r = if bool_decide (r ∈ rs) then destroyed <$> m !! r else m !! r.
Proof.
  revert m. induction rs as [|q rs IH]; intros m Hn; cbn [foldl]; [by rewrite bool_decide_eq_false_2 by apply not_elem_of_nil|].
  apply NoDup_cons in Hn as [Hq Hn]. rewrite IH by done. destruct (decide (r = q)) as [->|Hne].
  - by rewrite (bool_decide_eq_false_2 (q ∈ rs)), (bool_decide_eq_true_2 (q ∈ q :: rs)), lookup_alter_eq by (done || by left).
  - rewrite lookup_alter_ne by done. by rewrite (bool_decide_ext (r ∈ q :: rs) (r ∈ rs)) by (rewrite elem_of_cons; naive_solver).
Qed.
Lemma unplugged_regions h l n r :
  plugged h l n →
  alter destroyed (bus_master_enable_region c) (without_io (without_rom h)) !! r =
    if bool_decide (r ∈ own_regions h) then destroyed <$> regions h !! r else regions h !! r.
Proof. intros Hp. rewrite <-alter_all by apply (pl_nodup Hp). unfold own_regions, without_rom. by destruct (rom h). Qed.

(** The end of the address space for DMA and of its region. *)
Lemma do_pci_unregister_device_ok h p x :
  leave_bus (pci_dev c) (pci h) = Ok p → devs p !! pci_dev c = None →
  regions h !! bus_master_enable_region c = Some x → mr_name x = true → subregions x = [] → ram_block x = None → transaction_depth h = 0 →
  address_spaces h !! bus_master_as c = Some (bus_master_enable_region c) →
  (∀ a, address_spaces h !! a = Some (bus_master_enable_region c) → a = bus_master_as c) →
  do_pci_unregister_device h =
    Ok (mkHost (timers h) (net h) p (alter destroyed (bus_master_enable_region c) (regions h)) 0 (rom h) (ram_list h) (delete (bus_master_as c) (address_spaces h))).
Proof.
  intros Hl Hn Hx N S R Hd Hs Hu. unfold do_pci_unregister_device, address_space_destroy. rewrite Hl. cbn [mbind res_bind set_pci address_spaces]. rewrite Hs. cbn [mbind res_bind].
  rewrite (memory_region_destroy_ok _ _ x); try done.
  - cbn. rewrite run_destructor_none, (alter_insert _ x) by done. by rewrite <-Hd.
  - apply is_mapped_false. intros d i Hd'. cbn in Hd'. congruence.
  - apply is_root_false. cbn. intros a [Ha Ha']%lookup_delete_Some. by apply Ha, eq_sym, Hu.
Qed.

(** C19: Unplugging the device returns, whatever timers are pending and packets wait: its regions
    leave the address spaces before they are destroyed (destroying one that is still mapped or still
    the root of an address space is a fault), and then its timers are freed, its client and card are
    gone with its pointer to the card null, its slot is empty, its regions are destroyed and the
    block of its option ROM and the address space of its DMA are gone.  All else is as it was: the
    deadlines of the other timers, the other clients, but for the peer of the card, which is
    unlinked (or freed, if it was removed before the card), the hubs, the other devices, buses and
    slots, the other regions, blocks and address spaces; and the interrupt counters and the network
    are in order.  This is for a machine in order ([plugged], [sys_ok]: the device's timers are
    allocated, its card is registered with its one client, its regions are not destroyed yet, hold
    no others and are the root of no address space but its own, no memory transaction is open), all
    of the device's pins low (a pin that is up keeps the line up for ever, [unregister_leaks]) and
    no bus behind it.
    (Packets of the device that wait in a queue still name it as their sender, which delivering
    them does not look at.) *)
Theorem e1000_unplugs msi rfuel fuel h l n d :
  plugged h l n → (length l < fuel)%nat →
  sys_ok msi rfuel (pci h) → devs (pci h) !! pci_dev c = Some d → (∀ p, p ∈ pins → asserted d p = 0) →
  (∀ b x, buses (pci h) !! b = Some x → parent_dev x ≠ Some (pci_dev c)) →
  ∃ h', pci_unregister_device (Some (pci_e1000_uninit fuel)) h = Ok h' ∧ unplugged msi rfuel h h' l n d.
Proof.
  intros Hp Hf Hs Hd Hlow Hleaf. destruct (pci_unregister_io_regions_ok d) as (m & Eu & Hm); [by apply (so_devs _ _ _ Hs _ _ Hd)|].
  set (d1 := set_vga _ _) in Eu. set (p1 := put_dev (pci_dev c) d1 (pci h)). set (h0 := set_pci p1 h).
  assert (Hb : no_bars h0). { intros d' i. cbn. rewrite lookup_insert_eq. intros [= <-]. apply Hm. }
  destruct (del_option_rom_ok h0 l n (plugged_pci _ _ _ _ Hp) Hb) as (rl & Er & Hp1 & Hb1 & Hrl). set (h1 := mkHost _ _ _ _ 0 None rl _) in *.
  destruct (uninit_ok fuel h1 l n Hp1 eq_refl Hb1 Hf) as (t & y & Ei & Ht & Hfr & Hdl & Hy & Hl & Hc & Hoth & He). set (h2 := mkHost _ _ _ _ 0 None _ _) in Ei.
  destruct (leave_bus_ok msi rfuel (pci h) (pci_dev c) d Hs Hd Hlow Hleaf) as (x & Hx & Ex & Hs'). set (p2 := mkSys _ _ _) in Ex, Hs'.
  assert (El : leave_bus (pci_dev c) p1 = Ok p2).
  { unfold leave_bus, get_dev, get_bus. cbn [p1 put_dev devs]. rewrite lookup_insert_eq. cbn [mbind res_bind]. change (buses _ !! bus d1) with (buses (pci h) !! bus d). rewrite Hx. cbn [mbind res_bind put_dev devs buses sent]. by rewrite delete_insert_eq. }
  pose proof (pl_nodup Hp1) as Hnd. change (own_regions h1) with [mmio c; io c; bus_master_enable_region c] in Hnd. rewrite !NoDup_cons, !not_elem_of_cons in Hnd. destruct Hnd as ((Hmi & Hmb & _) & (Hib & _) & _).
  destruct (pl_regions Hp1 (bus_master_enable_region c)) as (z & Hz & N & S); [change (own_regions h1) with [mmio c; io c; bus_master_enable_region c]; set_solver|].
  eexists. split.
  { unfold pci_unregister_device, get_dev. rewrite Hd. cbn [mbind res_bind]. rewrite Eu. cbn [mbind res_bind]. fold p1 h0. rewrite Er. cbn [mbind res_bind]. rewrite Ei. cbn [mbind res_bind].
    apply (do_pci_unregister_device_ok h2 p2 z); [done|apply lookup_delete_eq| |done|done| |done|exact (pl_space Hp)| ].
    - cbn. unfold without_io. by rewrite !lookup_alter_ne.
    - apply (pl_io Hp1 _ z) in Hz; [done|set_solver].
    - intros a Ha. apply (pl_roots Hp a _ Ha). unfold own_regions. set_solver. }
  split; cbn; try done.
  - intros a w Ha Hw. destruct (ok_peer y Hy a w _ Ha Hw) as (_ & v & Hv & _). destruct Hc as [Hc _]. congruence.
  - by exists x.
  - intros r. exact (unplugged_regions h l n r Hp).
Qed.

End Release.

(** ** A machine to unplug: both timers pending, a back end on the wire, the base address registers of the card of PciBus *)
Module Demo.
Definition c : Card := mkCard 10 20 100 101 103 7 2 1.
#[local] Instance ends_of : Endpoints (WithCard Net.Demo.Ends) := card_ends c.
Definition start : Net (WithCard Net.Demo.Ends) := net_init (mkEnds (Some 20) (Net.Demo.mkEnds [] [] [])).
Definition wired : Net (WithCard Net.Demo.Ends) :=
  Demo2.get start (s ← qemu_new_net_client 1 KIND_BACKEND None "user" (Some "net0") start; new_nic 20 [2] [Some 1] "e1000" None s).
Definition host (n : Net (WithCard Net.Demo.Ends)) (s : PciSys) : Host Net.Demo.Ends :=
  mkHost demo n s {[100 := mkMR true [] [(0, 0x20)] memory_region_destructor_none; 101 := mkMR true [] [] memory_region_destructor_none;
    102 := mkMR true [] [] (memory_region_destructor_ram 0x8000000); 103 := mkMR true [] [] (memory_region_destructor_alias 1)]}
    0 (Some 102) [0; 0x8000000] {[7 := 103; 8 := 1]}.

Lemma wired_ok : net_ok wired.
Proof.
  set (s1 := Demo2.get start (qemu_new_net_client 1 KIND_BACKEND None "user" (Some "net0") start)).
  apply (new_nic_ok 20 2 (Some 1) "e1000" None s1); [|vm_compute; reflexivity..].
  apply (new_client_ok 1 None "user" (Some "net0") start); [apply net_init_ok|vm_compute; reflexivity..|].
  intros a b x y Ha Hb _ _ _ _ _. change (net_clients s1) with [1] in *. set_solver.
Qed.
Lemma host_plugged s : plugged c (host wired s) [10; 20] 20.
Proof.
  split; [apply demo_holds|by eexists|by eexists|done|apply wired_ok|done|exists (mkNic [2] false); split; vm_compute; reflexivity| | | |done| |reflexivity|].
  - change (own_regions c (host wired s)) with [102; 100; 101; 103]. intros r Hr. repeat (apply elem_of_cons in Hr as [->|Hr]); [..|by apply not_elem_of_nil in Hr]; by eexists.
  - intros r x Hr. change (r ∈ [100; 101; 103]) in Hr. repeat (apply elem_of_cons in Hr as [->|Hr]); [..|by apply not_elem_of_nil in Hr]; by intros [= <-].
  - change (own_regions c (host wired s)) with [102; 100; 101; 103]. apply (bool_decide_unpack _). vm_compute. exact I.
  - apply (bool_decide_unpack _). vm_compute. exact I.
  - change (own_regions c (host wired s)) with [102; 100; 101; 103]. cbn [host address_spaces bus_master_as c]. intros a r [[<- _]|[_ Ha]]%lookup_insert_Some Hr; [done|].
    apply lookup_singleton_Some in Ha as [_ <-]. set_solver.
Qed.

(** The guest has given the memory region an address and enabled it. *)
Definition guest : list pci_op := [OpWrite 1 PCI_BASE_ADDRESS_0 0xfebc0000 4; OpWrite 1 PCI_COMMAND 3 2].
Definition running : PciSys := Demo2.get machine (run nomsi 1 guest machine).
Definition running_card : PCIDevice := default card (devs running !! 1).

Lemma running_ok : sys_ok nomsi 1 running ∧ same_topology machine running.
Proof.
  destruct (run_ok nomsi nomsi_laws 1 guest machine machine_ok) as (s & E & Hs & Ht).
  2: { unfold running. rewrite E. cbn [Demo2.get]. exact (conj Hs Ht). }
  assert (Hc : is_Some (devs machine !! 1)) by (exists card; apply machine_card).
  repeat (apply Forall_cons; split; [split; [|exact Hc]|]); [..|by apply Forall_nil]; cbn [op_ok]; unfold PCI_BASE_ADDRESS_0, PCI_COMMAND, PCI_CONFIG_SPACE_SIZE; lia.
Qed.
Lemma running_card_in : devs running !! 1 = Some running_card.
Proof.
  destruct running_ok as [_ [Ht _]]. specialize (Ht 1). rewrite machine_card in Ht. unfold running_card.
  destruct (devs running !! 1); [exact eq_refl|discriminate Ht].
Qed.
Lemma running_leaf b x : buses running !! b = Some x → parent_dev x ≠ Some 1.
Proof.
  intros Hb. destruct running_ok as [_ [_ Ht]]. specialize (Ht b). rewrite Hb in Ht. unfold machine in Ht. cbn [buses fmap option_fmap option_map] in Ht.
  destruct (decide (0 = b)) as [<-|]; [|rewrite lookup_singleton_ne in Ht by done; done]. rewrite lookup_singleton_eq in Ht. injection Ht. intros. congruence.
Qed.
Lemma running_low p : p ∈ pins → asserted running_card p = 0.
Proof. intros Hp. repeat (apply elem_of_cons in Hp as [->|Hp]; [vm_compute; reflexivity|]). by apply not_elem_of_nil in Hp. Qed.
Example running_mapped : mapped running_card !! 0 = Some 0xfebc0000.
Proof. vm_compute. reflexivity. Qed.
End Demo.

Lemma e1000_unplugs_witness :
  ∃ h', pci_unregister_device Demo.c (Some (pci_e1000_uninit Demo.c 3)) (Demo.host Demo.wired Demo.running) = Ok h' ∧
    unplugged Demo.c nomsi 1 (Demo.host Demo.wired Demo.running) h' [10; 20] 20 Demo.running_card.
Proof.
  apply (e1000_unplugs Demo.c nomsi 1 3 (Demo.host Demo.wired Demo.running) [10; 20] 20 Demo.running_card); [apply Demo.host_plugged|cbn; lia|exact (proj1 Demo.running_ok)|exact Demo.running_card_in|exact Demo.running_low|exact Demo.running_leaf].
Defined.

(** The order matters: the memory region of the running device is mapped, and its own function
    alone would destroy it where it is. *)
Example uninit_mapped : pci_e1000_uninit Demo.c 3 (Demo.host Demo.wired Demo.running) = Fault OutOfBounds.
Proof. vm_compute. reflexivity. Qed.

(** After the network was shut down ([net_cleanup]) the card is gone, and unplugging the device uses a null pointer. *)
Example unplug_after_cleanup :
  (n ← @net_cleanup _ (card_ends Demo.c) 2 Demo.wired; pci_unregister_device Demo.c (Some (pci_e1000_uninit Demo.c 3)) (Demo.host n Demo.running)) = Fault NullDeref.
Proof. vm_compute. reflexivity. Qed.

End Release.
