(* ===== verification/QemuFile.v ===== *)
(** The buffered files of savevm.c ([QEMUFile]): writing through the buffer and the vector of
    pending pieces, reading through the buffer, positions and errors.  A file back end is the
    record [QEMUFileOps]; the buffer lies in the file, and pieces written without a copy lie in
    the caller's memory.  The theorems show that a file is a stream: what was put is what reaches
    the back end, in order, and what is got is what the back end holds, in order, however short
    its reads are; they justify the streams of bytes that [VMState] loads from and saves to. *)

From S2P Require Import Prelude VMState.

Module QemuFile.

(** ** Data *)

Definition IO_BUF_SIZE : Z := 32768.
Definition MAX_IOV_SIZE : nat := 64.

Definition EIO : Z := 5.
Definition EAGAIN : Z := 11.

(** The functions of a back end in state [B]: what to write and where (the result is the amount
    written or an error); the position and the amount wanted (the result is the amount read, or
    an error, and the bytes). *)
Record QEMUFileOps (B : Type) : Type := mkOps {
  put_buffer : option (list Z → Z → B → Z * B);
  get_buffer : option (Z → Z → B → Z * list Z * B);
  writev_buffer : option (list (list Z) → Z → B → Z * B);
  close : option (B → Z * B);
}.
Arguments mkOps {_} put_buffer get_buffer writev_buffer close.
Arguments put_buffer {_} q.
Arguments get_buffer {_} q.
Arguments writev_buffer {_} q.
Arguments close {_} q.

(** Where a piece of data lies: in the buffer of the file, or elsewhere. *)
Inductive base : Type := InBuf (o : Z) | Ext (a : Z).

Record QEMUFile (B : Type) : Type := mkFile {
  opaque : B;
  bytes_xfer : Z;
  xfer_limit : Z;
  pos : Z;
  buf_index : Z;
  buf_size : Z;
  buf : arr;
  iov : list (base * Z);
  last_error : Z;
}.
Arguments mkFile {_} opaque bytes_xfer xfer_limit pos buf_index buf_size buf iov last_error.
Arguments opaque {_} q.
Arguments bytes_xfer {_} q.
Arguments xfer_limit {_} q.
Arguments pos {_} q.
Arguments buf_index {_} q.
Arguments buf_size {_} q.
Arguments buf {_} q.
Arguments iov {_} q.
Arguments last_error {_} q.

Section File.
Context {B : Type} (ops : QEMUFileOps B) (ext : Z → Z).
Implicit Types f : QEMUFile B.

Definition set_opaque (b : B) (f : QEMUFile B) : QEMUFile B := mkFile b (bytes_xfer f) (xfer_limit f) (pos f) (buf_index f) (buf_size f) (buf f) (iov f) (last_error f).
Definition set_xfer (n : Z) (f : QEMUFile B) : QEMUFile B := mkFile (opaque f) n (xfer_limit f) (pos f) (buf_index f) (buf_size f) (buf f) (iov f) (last_error f).
Definition set_limit (n : Z) (f : QEMUFile B) : QEMUFile B := mkFile (opaque f) (bytes_xfer f) n (pos f) (buf_index f) (buf_size f) (buf f) (iov f) (last_error f).
Definition set_pos (n : Z) (f : QEMUFile B) : QEMUFile B := mkFile (opaque f) (bytes_xfer f) (xfer_limit f) n (buf_index f) (buf_size f) (buf f) (iov f) (last_error f).
Definition set_index (n : Z) (f : QEMUFile B) : QEMUFile B := mkFile (opaque f) (bytes_xfer f) (xfer_limit f) (pos f) n (buf_size f) (buf f) (iov f) (last_error f).
Definition set_size (n : Z) (f : QEMUFile B) : QEMUFile B := mkFile (opaque f) (bytes_xfer f) (xfer_limit f) (pos f) (buf_index f) n (buf f) (iov f) (last_error f).
Definition set_buf (a : arr) (f : QEMUFile B) : QEMUFile B := mkFile (opaque f) (bytes_xfer f) (xfer_limit f) (pos f) (buf_index f) (buf_size f) a (iov f) (last_error f).
Definition set_iov (l : list (base * Z)) (f : QEMUFile B) : QEMUFile B := mkFile (opaque f) (bytes_xfer f) (xfer_limit f) (pos f) (buf_index f) (buf_size f) (buf f) l (last_error f).
Definition set_error (e : Z) (f : QEMUFile B) : QEMUFile B := mkFile (opaque f) (bytes_xfer f) (xfer_limit f) (pos f) (buf_index f) (buf_size f) (buf f) (iov f) e.

(** [g_malloc0]. *)
Definition qemu_fopen_ops (b : B) : QEMUFile B := mkFile b 0 0 0 0 0 ∅ [] 0.

Definition qemu_file_get_error (f : QEMUFile B) : Z := last_error f.
Definition qemu_file_set_error (ret : Z) (f : QEMUFile B) : QEMUFile B :=
  if last_error f =? 0 then set_error ret f else f.
Definition qemu_file_is_writable : bool := bool_decide (is_Some (writev_buffer ops)) || bool_decide (is_Some (put_buffer ops)).

(** ** Writing *)

(** The bytes of a piece at the time it is written. *)
Definition piece (f : QEMUFile B) (v : base * Z) : list Z :=
  match v with
  | (InBuf o, n) => aread (buf f) o (Z.to_nat n)
  | (Ext a, n) => (λ i, ext (a + Z.of_nat i)) <$> seq 0 (Z.to_nat n)
  end.

Definition qemu_fflush (f : QEMUFile B) : QEMUFile B :=
  if negb qemu_file_is_writable then f
  else
    let '(ret, b) :=
      match writev_buffer ops with
      | Some writev => if 0 <? Z.of_nat (length (iov f)) then writev (piece f <$> iov f) (pos f) (opaque f) else (0, opaque f)
      | None =>
          match put_buffer ops with
          | Some put => if 0 <? buf_index f then put (aread (buf f) 0 (Z.to_nat (buf_index f))) (pos f) (opaque f) else (0, opaque f)
          | None => (0, opaque f)
          end
      end in
    let f := set_opaque b f in
    let f := if 0 <=? ret then set_pos (s64 (pos f + ret)) f else f in
    let f := set_iov [] (set_index 0 f) in
    if ret <? 0 then qemu_file_set_error ret f else f.

Definition qemu_update_position (size : Z) (f : QEMUFile B) : QEMUFile B := set_pos (s64 (pos f + size)) f.

(** The result, and the back end once the file is gone. *)
Definition qemu_fclose (f : QEMUFile B) : Z * B :=
  let f := qemu_fflush f in
  let ret := qemu_file_get_error f in
  let '(ret, b) :=
    match close ops with
    | Some close => let '(ret2, b) := close (opaque f) in (if 0 <=? ret then ret2 else ret, b)
    | None => (ret, opaque f)
    end in
  (if negb (last_error f =? 0) then last_error f else ret, b).

(** The address behind a piece. *)
Definition base_add (b : base) (n : Z) : base := match b with InBuf o => InBuf (o + n) | Ext a => Ext (a + n) end.
#[global] Instance base_eq_dec : EqDecision base.
Proof. solve_decision. Defined.

Definition add_to_iovec (b : base) (size : Z) (f : QEMUFile B) : QEMUFile B :=
  let f :=
    match last (iov f) with
    | Some (b', n) =>
        if bool_decide (b = base_add b' n) then set_iov (removelast (iov f) ++ [(b', n + size)]) f
        else set_iov (iov f ++ [(b, size)]) f
    | None => set_iov (iov f ++ [(b, size)]) f
    end in
  if (MAX_IOV_SIZE <=? length (iov f))%nat then qemu_fflush f else f.

(** One round of the loop per unit of fuel. *)
Fixpoint put_loop (fuel : nat) (l : list Z) (f : QEMUFile B) : res (QEMUFile B) :=
  match l with
  | [] => Ok f
  | _ =>
      match fuel with
      | O => Diverge
      | S fuel =>
          let n := Z.min (IO_BUF_SIZE - buf_index f) (Z.of_nat (length l)) in
          let idx := buf_index f in
          a ← store IO_BUF_SIZE (buf f) idx (take (Z.to_nat n) l);
          let f := set_xfer (s64 (bytes_xfer f + n)) (set_buf a f) in
          let f := if writev_buffer ops then add_to_iovec (InBuf idx) n f else f in
          let f := set_index (buf_index f + n) f in
          let f := if buf_index f =? IO_BUF_SIZE then qemu_fflush f else f in
          if negb (qemu_file_get_error f =? 0) then Ok f else put_loop fuel (drop (Z.to_nat n) l) f
      end
  end.
Definition qemu_put_buffer (l : list Z) (f : QEMUFile B) : res (QEMUFile B) :=
  if negb (last_error f =? 0) then Ok f else put_loop (length l) l f.

(** [size] bytes of the caller's memory at [a]. *)
Definition qemu_put_buffer_async (a size : Z) (f : QEMUFile B) : res (QEMUFile B) :=
  match writev_buffer ops with
  | None => qemu_put_buffer ((λ i, ext (a + Z.of_nat i)) <$> seq 0 (Z.to_nat size)) f
  | Some _ =>
      if negb (last_error f =? 0) then Ok f
      else Ok (add_to_iovec (Ext a) size (set_xfer (s64 (bytes_xfer f + size)) f))
  end.

Definition qemu_put_byte (v : Z) (f : QEMUFile B) : res (QEMUFile B) :=
  if negb (last_error f =? 0) then Ok f
  else
    let idx := buf_index f in
    a ← store IO_BUF_SIZE (buf f) idx [u8 v];
    let f := set_xfer (s64 (bytes_xfer f + 1)) (set_buf a f) in
    let f := if writev_buffer ops then add_to_iovec (InBuf idx) 1 f else f in
    let f := set_index (buf_index f + 1) f in
    Ok (if buf_index f =? IO_BUF_SIZE then qemu_fflush f else f).

Definition qemu_put_be16 (v : Z) (f : QEMUFile B) : res (QEMUFile B) :=
  f ← qemu_put_byte (Z.shiftr v 8) f; qemu_put_byte v f.
Definition qemu_put_be32 (v : Z) (f : QEMUFile B) : res (QEMUFile B) :=
  f ← qemu_put_byte (Z.shiftr v 24) f; f ← qemu_put_byte (Z.shiftr v 16) f; f ← qemu_put_byte (Z.shiftr v 8) f; qemu_put_byte v f.
Definition qemu_put_be64 (v : Z) (f : QEMUFile B) : res (QEMUFile B) :=
  f ← qemu_put_be32 (u32 (Z.shiftr v 32)) f; qemu_put_be32 (u32 v) f.

Definition qemu_ftell (f : QEMUFile B) : Z * QEMUFile B := let f := qemu_fflush f in (pos f, f).

Definition qemu_file_rate_limit (f : QEMUFile B) : Z :=
  if negb (qemu_file_get_error f =? 0) then 1
  else if (0 <? xfer_limit f) && (xfer_limit f <? bytes_xfer f) then 1 else 0.
Definition qemu_file_set_rate_limit (limit : Z) (f : QEMUFile B) : QEMUFile B := set_limit limit f.
Definition qemu_file_reset_rate_limit (f : QEMUFile B) : QEMUFile B := set_xfer 0 f.

(** ** Reading *)

Definition qemu_fill_buffer (f : QEMUFile B) : res (QEMUFile B) :=
  if qemu_file_is_writable then Fault AssertFail
  else
    let pending := buf_size f - buf_index f in
    f ← (if 0 <? pending then
           l ← load IO_BUF_SIZE (buf f) (buf_index f) pending; a ← store IO_BUF_SIZE (buf f) 0 l; Ok (set_buf a f)
         else Ok f);
    let f := set_size pending (set_index 0 f) in
    match get_buffer ops with
    | None => Fault NullDeref
    | Some get =>
        let '(len, l, b) := get (pos f) (IO_BUF_SIZE - pending) (opaque f) in
        let f := set_opaque b f in
        if 0 <? len then
          a ← store IO_BUF_SIZE (buf f) pending l;
          Ok (set_pos (s64 (pos f + len)) (set_size (buf_size f + len) (set_buf a f)))
        else if len =? 0 then Ok (qemu_file_set_error (- EIO) f)
        else if negb (len =? - EAGAIN) then Ok (qemu_file_set_error len f)
        else Ok f
    end.

Definition qemu_file_skip (size : Z) (f : QEMUFile B) : QEMUFile B :=
  if buf_index f + size <=? buf_size f then set_index (buf_index f + size) f else f.

Definition qemu_peek_buffer (size offset : Z) (f : QEMUFile B) : res (list Z * QEMUFile B) :=
  if qemu_file_is_writable then Fault AssertFail
  else
    f ← (if buf_size f - (buf_index f + offset) <? size then qemu_fill_buffer f else Ok f);
    let index := buf_index f + offset in
    let pending := buf_size f - index in
    if pending <=? 0 then Ok ([], f)
    else l ← load IO_BUF_SIZE (buf f) index (Z.min size pending); Ok (l, f).

Fixpoint get_loop (fuel : nat) (pending : Z) (f : QEMUFile B) : res (list Z * QEMUFile B) :=
  if pending <=? 0 then Ok ([], f)
  else
    match fuel with
    | O => Diverge
    | S fuel =>
        '(l, f) ← qemu_peek_buffer pending 0 f;
        if (length l =? 0)%nat then Ok ([], f)
        else
          let n := Z.of_nat (length l) in
          '(l', f) ← get_loop fuel (pending - n) (qemu_file_skip n f);
          Ok (l ++ l', f)
    end.
Definition qemu_get_buffer (size : Z) (f : QEMUFile B) : res (list Z * QEMUFile B) := get_loop (Z.to_nat size) size f.

Definition qemu_peek_byte (offset : Z) (f : QEMUFile B) : res (Z * QEMUFile B) :=
  if qemu_file_is_writable then Fault AssertFail
  else if buf_size f <=? buf_index f + offset then
    f ← qemu_fill_buffer f;
    if buf_size f <=? buf_index f + offset then Ok (0, f)
    else l ← load IO_BUF_SIZE (buf f) (buf_index f + offset) 1; Ok (nth 0 l 0, f)
  else l ← load IO_BUF_SIZE (buf f) (buf_index f + offset) 1; Ok (nth 0 l 0, f).

Definition qemu_get_byte (f : QEMUFile B) : res (Z * QEMUFile B) :=
  '(v, f) ← qemu_peek_byte 0 f; Ok (v, qemu_file_skip 1 f).

Definition qemu_get_be16 (f : QEMUFile B) : res (Z * QEMUFile B) :=
  '(a, f) ← qemu_get_byte f; '(b, f) ← qemu_get_byte f; Ok (Z.lor (Z.shiftl a 8) b, f).
Definition qemu_get_be32 (f : QEMUFile B) : res (Z * QEMUFile B) :=
  '(a, f) ← qemu_get_byte f; '(b, f) ← qemu_get_byte f; '(c, f) ← qemu_get_byte f; '(d, f) ← qemu_get_byte f;
  Ok (u32 (Z.lor (Z.lor (Z.lor (Z.shiftl a 24) (Z.shiftl b 16)) (Z.shiftl c 8)) d), f).
Definition qemu_get_be64 (f : QEMUFile B) : res (Z * QEMUFile B) :=
  '(h, f) ← qemu_get_be32 f; '(l, f) ← qemu_get_be32 f; Ok (Z.lor (Z.shiftl h 32) l, f).
End File.

(** ** Bytes of a stream *)

Lemma get_bytes_add n m l :
  fst (VMState.qemu_get_bytes (n + m) l) = fst (VMState.qemu_get_bytes n l) ++ fst (VMState.qemu_get_bytes m (snd (VMState.qemu_get_bytes n l))).
Proof.
  revert l. induction n as [|n IH]; intros l; [done|]. cbn [Nat.add VMState.qemu_get_bytes]. destruct (VMState.qemu_get_byte l) as [b t].
  specialize (IH t). destruct (VMState.qemu_get_bytes (n + m) t), (VMState.qemu_get_bytes n t). cbn in *. by rewrite IH.
Qed.
Lemma be_bytes_halves v : be_bytes 8 v = be_bytes 4 (u32 (Z.shiftr v 32)) ++ be_bytes 4 (u32 v).
Proof.
  unfold be_bytes, u32. change (2 ^ 32) with (256 ^ Z.of_nat 4). rewrite !le_bytes_mod, Z.shiftr_div_pow2 by lia. rewrite <-reverse_app.
  change 8%nat with (4 + 4)%nat. by rewrite le_bytes_app.
Qed.

(** ** Reading is reading a stream *)

(** What a file that is read relies on: the back end gives bytes from the head of what is left, at
    least one if there is one and one is wanted.  It may give fewer than wanted. *)
Class SourceLaws {B : Type} (ops : QEMUFileOps B) (left : B → list Z) : Prop := {
  source_only : qemu_file_is_writable ops = false;
  source_get : ∃ get, get_buffer ops = Some get ∧ ∀ p n b, 0 ≤ n →
    ∃ l b', get p n b = (Z.of_nat (length l), l, b') ∧ Z.of_nat (length l) ≤ n ∧ left b = l ++ left b' ∧ (l = [] → n = 0 ∨ left b = []);
}.

Section Reader.
Context {B : Type} (ops : QEMUFileOps B) (left : B → list Z) `{SourceLaws B ops left}.
Implicit Types f : QEMUFile B.

Definition reader_ok (f : QEMUFile B) : Prop := 0 ≤ buf_index f ≤ buf_size f ∧ buf_size f ≤ IO_BUF_SIZE.
(** The bytes that have not been read: the rest of the buffer, then the rest of the back end. *)
Definition unread (f : QEMUFile B) : nat := Z.to_nat (buf_size f - buf_index f).
Definition stream (f : QEMUFile B) : list Z := aread (buf f) (buf_index f) (unread f) ++ left (opaque f).

Lemma fill_buffer_spec f :
  reader_ok f → ∃ f', qemu_fill_buffer ops f = Ok f' ∧ reader_ok f' ∧ stream f' = stream f ∧ buf_index f' = 0 ∧
    (unread f ≤ unread f')%nat ∧
    (Z.of_nat (unread f) < IO_BUF_SIZE → left (opaque f) ≠ [] → (unread f < unread f')%nat ∧ last_error f' = last_error f) ∧
    (left (opaque f) = [] → unread f' = unread f ∧ last_error f' ≠ 0).
Proof.
  intros [Hi Hs]. unfold qemu_fill_buffer. rewrite source_only. destruct source_get as (get & Hget & Hlaw). rewrite Hget.
  set (p := buf_size f - buf_index f). assert (Hp : 0 ≤ p ≤ IO_BUF_SIZE) by lia.
  set (l0 := aread (buf f) (buf_index f) (unread f)). assert (Hl0 : Z.of_nat (length l0) = p) by (unfold l0, unread; rewrite length_aread; fold p; lia).
  assert (H1 : ∃ a, (if 0 <? p then l ← load IO_BUF_SIZE (buf f) (buf_index f) p; a ← store IO_BUF_SIZE (buf f) 0 l; Ok (set_buf a f) else Ok f) = Ok (set_buf a f) ∧ aread a 0 (unread f) = l0).
  { destruct (Z.ltb_spec 0 p).
    - rewrite load_in by lia. cbn [mbind res_bind]. rewrite store_in by (rewrite ?length_aread; lia). eexists. split; [done|].
      change (unread f) with (Z.to_nat p). rewrite aread_awrite_len by (by rewrite length_aread). done.
    - exists (buf f). split; [by destruct f|]. assert (unread f = 0%nat) as E by (unfold unread; lia). unfold l0. by rewrite E. }
  destruct H1 as (a & -> & Ha). cbn [mbind res_bind]. cbn [pos opaque set_index set_size set_buf buf_size buf].
  destruct (Hlaw (pos f) (IO_BUF_SIZE - p) (opaque f) ltac:(lia)) as (l & b' & -> & Hn & Hleft & Hnil).
  assert (Hst : stream f = l0 ++ l ++ left b') by (unfold stream; fold l0; by rewrite Hleft).
  destruct (Z.ltb_spec 0 (Z.of_nat (length l))) as [Hlen|Hlen].
  - rewrite store_in by lia. cbn [mbind res_bind]. eexists. split; [done|].
    set (f' := set_pos _ _). assert (Hu : unread f' = (unread f + length l)%nat) by (unfold unread; cbn; fold p; lia).
    split; [unfold reader_ok; cbn; lia|]. split; [|split; [done|split; [lia|split; [by intros; split; [lia|done]|]]]].
    + rewrite Hst. unfold stream. rewrite Hu. cbn [buf_index opaque buf f' set_pos set_size set_buf set_opaque set_index]. rewrite aread_app, Z.add_0_l.
      replace (Z.of_nat (unread f)) with p by (unfold unread; fold p; lia).
      rewrite aread_awrite, aread_awrite_out by (unfold unread; fold p; lia). by rewrite Ha, app_assoc.
    + intros Hl. rewrite Hleft in Hl. apply app_eq_nil in Hl as [-> _]. done.
  - assert (l = []) as -> by (destruct l; [done|cbn in Hlen; lia]). cbn [length Z.of_nat Z.eqb]. eexists. split; [done|]. set (f' := qemu_file_set_error _ _).
    assert (Hf : buf_index f' = 0 ∧ buf_size f' = p ∧ buf f' = a ∧ opaque f' = b' ∧ last_error f' ≠ 0).
    { unfold f', qemu_file_set_error. cbn. destruct (Z.eqb_spec (last_error f) 0); cbn; by repeat split. }
    destruct Hf as (F1 & F2 & F3 & F4 & F5). assert (Hu : unread f' = unread f) by (unfold unread; rewrite F1, F2; fold p; lia).
    split; [unfold reader_ok; rewrite F1, F2; lia|]. split; [rewrite Hst; unfold stream; by rewrite Hu, F1, F3, F4, Ha|]. split; [done|]. split; [lia|]. split; [|done].
    intros Hfull Hl. destruct (Hnil eq_refl) as [He|He]; [|done]. unfold unread in Hfull. fold p in Hfull. lia.
Qed.

Lemma skip_spec n f : reader_ok f → 0 ≤ n ≤ Z.of_nat (unread f) →
  let f' := qemu_file_skip n f in reader_ok f' ∧ stream f' = drop (Z.to_nat n) (stream f) ∧ last_error f' = last_error f.
Proof.
  intros [Hi Hs] Hn. unfold unread in Hn. unfold qemu_file_skip. destruct (Z.leb_spec (buf_index f + n) (buf_size f)); [|lia]. cbn zeta.
  split; [unfold reader_ok; cbn; lia|]. split; [|done]. unfold stream, unread. cbn [set_index buf_index buf_size buf opaque].
  replace (Z.to_nat (buf_size f - buf_index f)) with (Z.to_nat n + Z.to_nat (buf_size f - (buf_index f + n)))%nat by lia.
  rewrite aread_app, <-app_assoc, drop_app_length' by (by rewrite length_aread). repeat f_equal. lia.
Qed.
Lemma skip_unread n f : reader_ok f → 0 ≤ n ≤ Z.of_nat (unread f) → unread (qemu_file_skip n f) = (unread f - Z.to_nat n)%nat.
Proof. intros [Hi Hs] Hn. unfold unread in *. unfold qemu_file_skip. destruct (Z.leb_spec (buf_index f + n) (buf_size f)); cbn; lia. Qed.
Lemma skip_over f : reader_ok f → unread f = 0%nat → qemu_file_skip 1 f = f.
Proof. intros [Hi Hs] Hu. unfold unread in Hu. unfold qemu_file_skip. destruct (Z.leb_spec (buf_index f + 1) (buf_size f)); [lia|done]. Qed.

Lemma stream_head f k : (k < unread f)%nat → nth k (stream f) 0 = aget (buf f) (buf_index f + Z.of_nat k).
Proof. intros Hk. unfold stream. rewrite app_nth1 by (by rewrite length_aread). by apply nth_aread. Qed.
Lemma stream_take f n : (n ≤ unread f)%nat → take n (stream f) = aread (buf f) (buf_index f) n.
Proof.
  intros Hn. unfold stream. rewrite take_app_le by (by rewrite length_aread). replace (unread f) with (n + (unread f - n))%nat by lia.
  rewrite aread_app. by rewrite take_app_length' by (by rewrite length_aread).
Qed.
Lemma unread_le f : (unread f ≤ length (stream f))%nat.
Proof. unfold stream. rewrite length_app, length_aread. lia. Qed.
Lemma unread_all f : left (opaque f) = [] → length (stream f) = unread f.
Proof. intros Hl. unfold stream. rewrite Hl, app_nil_r. apply length_aread. Qed.
Lemma left_none f : length (stream f) = unread f → left (opaque f) = [].
Proof. unfold stream. rewrite length_app, length_aread. intros. apply nil_length_inv. lia. Qed.

(** A byte: the head of the stream, or 0 and an error at its end. *)
Lemma get_byte_spec f :
  reader_ok f → ∃ f', qemu_get_byte ops f = Ok (fst (VMState.qemu_get_byte (stream f)), f') ∧ reader_ok f' ∧ stream f' = snd (VMState.qemu_get_byte (stream f)) ∧
    (stream f ≠ [] → last_error f' = last_error f) ∧ (stream f = [] → last_error f' ≠ 0).
Proof.
  intros Hf. unfold qemu_get_byte, qemu_peek_byte. rewrite source_only.
  assert (Hread : ∀ g, reader_ok g → (0 < unread g)%nat →
    (l ← load IO_BUF_SIZE (buf g) (buf_index g + 0) 1; Ok (nth 0 l 0, g)) = Ok (fst (VMState.qemu_get_byte (stream g)), g) ∧
    reader_ok (qemu_file_skip 1 g) ∧ stream (qemu_file_skip 1 g) = snd (VMState.qemu_get_byte (stream g)) ∧ last_error (qemu_file_skip 1 g) = last_error g ∧ stream g ≠ []).
  { intros g Hg Hu. pose proof Hg as [Hi Hs]. assert (Hu' : buf_index g < buf_size g) by (unfold unread in Hu; lia).
    rewrite load_in by lia. cbn [mbind res_bind]. change (Z.to_nat 1) with 1%nat. rewrite nth_aread by lia.
    destruct (skip_spec 1 g Hg ltac:(lia)) as (H1 & H2 & H3). pose proof (stream_head g 0 Hu) as Hh. pose proof (unread_le g) as Hle.
    destruct (stream g) as [|v t] eqn:Es; [cbn in Hle; lia|]. cbn in Hh. cbn [VMState.qemu_get_byte fst snd]. rewrite Z.add_0_r in *. cbn [Z.of_nat] in *. rewrite ?Z.add_0_r in *. rewrite <-Hh. done. }
  rewrite Z.add_0_r. destruct (Z.leb_spec (buf_size f) (buf_index f)) as [Hempty|Hsome].
  - destruct (fill_buffer_spec f Hf) as (g & Hg & Hok & Hst & Hidx & Hu & Hmore & Hnone). rewrite Hg. cbn [mbind res_bind]. rewrite Z.add_0_r.
    assert (Hu0 : unread f = 0%nat) by (unfold unread; lia). destruct (left (opaque f)) as [|v t] eqn:El.
    + destruct (Hnone eq_refl) as [Hu1 He]. rewrite Hu0 in Hu1. destruct (Z.leb_spec (buf_size g) (buf_index g)); [|unfold unread in Hu1; lia]. cbn [mbind res_bind].
      assert (Hsf : stream f = []). { apply nil_length_inv. rewrite (unread_all f El). lia. } rewrite (skip_over g Hok Hu1). exists g. rewrite Hst, Hsf. done.
    + destruct Hmore as [Hlt He]; [rewrite Hu0; unfold IO_BUF_SIZE; lia|done|]. destruct (Z.leb_spec (buf_size g) (buf_index g)); [unfold unread in Hlt; lia|].
      destruct (Hread g Hok ltac:(lia)) as (E1 & E2 & E3 & E4 & E5). rewrite Z.add_0_r in E1. rewrite E1. cbn [mbind res_bind]. rewrite Hst in *. eexists. split; [done|]. rewrite E4, He. done.
  - destruct (Hread f Hf ltac:(unfold unread; lia)) as (E1 & E2 & E3 & E4 & E5). rewrite Z.add_0_r in E1. rewrite E1. cbn [mbind res_bind]. eexists. split; [done|]. done.
Qed.

Lemma peek_spec size f :
  reader_ok f → 0 < size → ∃ l f', qemu_peek_buffer ops size 0 f = Ok (l, f') ∧ reader_ok f' ∧ stream f' = stream f ∧
    l = take (length l) (stream f) ∧ Z.of_nat (length l) ≤ size ∧ (length l ≤ unread f')%nat ∧
    (l = [] → stream f = [] ∧ last_error f' ≠ 0) ∧ (size ≤ IO_BUF_SIZE → size ≤ Z.of_nat (length (stream f)) → last_error f' = last_error f).
Proof.
  intros Hf Hsz. unfold qemu_peek_buffer. rewrite source_only, Z.add_0_r.
  assert (Hread : ∀ g, reader_ok g → (0 < unread g)%nat →
    load IO_BUF_SIZE (buf g) (buf_index g) (Z.min size (buf_size g - buf_index g)) = Ok (take (Z.to_nat (Z.min size (buf_size g - buf_index g))) (stream g)) ∧
    length (take (Z.to_nat (Z.min size (buf_size g - buf_index g))) (stream g)) = Z.to_nat (Z.min size (buf_size g - buf_index g)) ∧ (Z.to_nat (Z.min size (buf_size g - buf_index g)) ≤ unread g)%nat).
  { intros g [Hi Hs] Hu. rewrite load_in by lia. assert (Hle : (Z.to_nat (Z.min size (buf_size g - buf_index g)) ≤ unread g)%nat) by (unfold unread; lia).
    rewrite stream_take by done. split; [done|]. split; [by rewrite length_aread|done]. }
  assert (Hgo : ∀ g, reader_ok g → stream g = stream f → (0 < unread g)%nat → (size ≤ IO_BUF_SIZE → size ≤ Z.of_nat (length (stream f)) → last_error g = last_error f) →
    ∃ l f', (if buf_size g - (buf_index g + 0) <=? 0 then Ok ([], g) else l ← load IO_BUF_SIZE (buf g) (buf_index g + 0) (Z.min size (buf_size g - (buf_index g + 0))); Ok (l, g)) = Ok (l, f') ∧
      reader_ok f' ∧ stream f' = stream f ∧ l = take (length l) (stream f) ∧ Z.of_nat (length l) ≤ size ∧ (length l ≤ unread f')%nat ∧
      (l = [] → stream f = [] ∧ last_error f' ≠ 0) ∧ (size ≤ IO_BUF_SIZE → size ≤ Z.of_nat (length (stream f)) → last_error f' = last_error f)).
  { intros g Hg Hst Hu He. rewrite Z.add_0_r. destruct (Hread g Hg Hu) as (H1 & H2 & H3). destruct (Z.leb_spec (buf_size g - buf_index g) 0); [unfold unread in Hu; lia|].
    rewrite H1. cbn [mbind res_bind]. eexists _, g. split; [done|]. rewrite <-Hst in *. split; [done|]. split; [done|]. rewrite H2. split; [done|]. split; [lia|]. split; [done|]. split; [|done].
    intros Hn. rewrite Hn in H2. cbn in H2. unfold unread in Hu. lia. }
  destruct (Z.ltb_spec (buf_size f - buf_index f) size) as [Hless|Hmore].
  - destruct (fill_buffer_spec f Hf) as (g & -> & Hok & Hst & Hidx & Hu & Hm & Hn). cbn [mbind res_bind].
    assert (He : size ≤ IO_BUF_SIZE → size ≤ Z.of_nat (length (stream f)) → last_error g = last_error f).
    { intros H1 H2. apply Hm; [destruct Hf; unfold unread; lia|]. intros Hl. rewrite (unread_all f Hl) in H2. destruct Hf. unfold unread in H2. lia. }
    destruct (decide (unread g = 0%nat)) as [Hz|Hz]; [|apply Hgo; [done|done|lia|done]]. rewrite Z.add_0_r.
    destruct (Z.leb_spec (buf_size g - buf_index g) 0); [|unfold unread in Hz; lia]. eexists _, g. split; [done|]. split; [done|]. split; [done|]. cbn. split; [done|]. split; [lia|]. split; [lia|].
    split; [|done]. intros _. assert (Hl : left (opaque f) = []).
    { destruct (left (opaque f)) eqn:El; [done|]. destruct Hm as [Hm _]; [|done|lia]. assert (unread f = 0%nat) as -> by lia. done. }
    split; [|by apply Hn]. apply nil_length_inv. rewrite (unread_all f Hl). lia.
  - cbn [mbind res_bind]. apply Hgo; [done|done|unfold unread; lia|done].
Qed.

Lemma get_loop_spec fuel size f :
  reader_ok f → size ≤ Z.of_nat fuel → ∃ f', get_loop ops fuel size f = Ok (take (Z.to_nat size) (stream f), f') ∧ reader_ok f' ∧ stream f' = drop (Z.to_nat size) (stream f) ∧
    (size ≤ IO_BUF_SIZE → size ≤ Z.of_nat (length (stream f)) → last_error f' = last_error f) ∧ (Z.of_nat (length (stream f)) < size → last_error f' ≠ 0).
Proof.
  revert size f. induction fuel as [|fuel IH]; intros size f Hf Hsz; cbn [get_loop]; destruct (Z.leb_spec size 0) as [Hz|Hz]; try lia.
  1,2: replace (Z.to_nat size) with 0%nat by lia; exists f; rewrite take_0, drop_0; repeat split; try done; try apply Hf; lia.
  destruct (peek_spec size f Hf Hz) as (l & g & -> & Hok & Hst & Hl & Hls & Hlu & Hnil & He). cbn [mbind res_bind]. destruct (Nat.eqb_spec (length l) 0) as [H0|H0].
  - apply nil_length_inv in H0. destruct (Hnil H0) as [Hs Hge]. exists g. rewrite Hs. rewrite take_nil, drop_nil. split; [done|]. split; [done|]. split; [congruence|]. split; [cbn; lia|done].
  - destruct (skip_spec (Z.of_nat (length l)) g Hok ltac:(lia)) as (Hok' & Hst' & He'). rewrite Nat2Z.id, Hst in Hst'. cbn zeta in *.
    destruct (IH (size - Z.of_nat (length l)) (qemu_file_skip (Z.of_nat (length l)) g) Hok' ltac:(lia)) as (h & Hh & Hokh & Hsth & Heh & Hnh). rewrite Hh. cbn [mbind res_bind]. exists h.
    assert (Hsum : Z.to_nat size = (length l + Z.to_nat (size - Z.of_nat (length l)))%nat) by lia. rewrite Hst' in *. rewrite length_drop in *.
    assert (Hlen : (length l ≤ length (stream f))%nat) by (rewrite Hl, length_take; lia).
    split; [rewrite Hsum, <-take_take_drop, <-Hl; done|]. split; [done|]. split; [by rewrite Hsth, drop_drop, <-Hsum|]. split.
    + intros H1 H2. rewrite Heh by lia. rewrite He' . by apply He.
    + intros H1. apply Hnh. lia.
Qed.

(** The bytes of a stream, one after the other. *)
Lemma get_bytes_S n l : VMState.qemu_get_bytes (S n) l = let '(b, l) := VMState.qemu_get_byte l in let '(r, l) := VMState.qemu_get_bytes n l in (b :: r, l).
Proof. done. Qed.
Lemma next_byte f : reader_ok f → ∃ b s' f', VMState.qemu_get_byte (stream f) = (b, s') ∧ qemu_get_byte ops f = Ok (b, f') ∧ reader_ok f' ∧ stream f' = s' ∧
  (∀ n, (S n ≤ length (stream f))%nat → (n ≤ length s')%nat ∧ last_error f' = last_error f) ∧ (Forall (fits 8) (stream f) → fits 8 b ∧ Forall (fits 8) s').
Proof.
  intros Hf. destruct (get_byte_spec f Hf) as (f' & E & Hok & Hst & He & _). destruct (VMState.qemu_get_byte (stream f)) as [b s'] eqn:Eb. exists b, s', f'. do 4 (split; [done|]). split.
  - intros n Hn. destruct (stream f) as [|v t]; [cbn in Hn; lia|]. injection Eb as <- <-. cbn in Hn. split; [lia|by apply He].
  - intros Hb. destruct (stream f) as [|v t]; injection Eb as <- <-; [done|]. by apply Forall_cons in Hb.
Qed.
Lemma get_be32_spec f :
  reader_ok f → Forall (fits 8) (stream f) →
  ∃ f', qemu_get_be32 ops f = Ok (be_val (fst (VMState.qemu_get_bytes 4 (stream f))), f') ∧ reader_ok f' ∧ stream f' = snd (VMState.qemu_get_bytes 4 (stream f)) ∧
    ((4 ≤ length (stream f))%nat → last_error f' = last_error f).
Proof.
  intros Hf Hb. unfold qemu_get_be32. rewrite get_bytes_S.
  destruct (next_byte f Hf) as (a & s1 & f1 & -> & -> & Hf1 & <- & He1 & Hb1). destruct (Hb1 Hb) as [Ha Hs1]. rewrite get_bytes_S. cbn [mbind res_bind].
  destruct (next_byte f1 Hf1) as (b & s2 & f2 & -> & -> & Hf2 & <- & He2 & Hb2). destruct (Hb2 Hs1) as [Hbb Hs2]. rewrite get_bytes_S. cbn [mbind res_bind].
  destruct (next_byte f2 Hf2) as (c & s3 & f3 & -> & -> & Hf3 & <- & He3 & Hb3). destruct (Hb3 Hs2) as [Hc Hs3]. rewrite get_bytes_S. cbn [mbind res_bind].
  destruct (next_byte f3 Hf3) as (d & s4 & f4 & -> & -> & Hf4 & <- & He4 & Hb4). destruct (Hb4 Hs3) as [Hd _]. cbn [mbind res_bind VMState.qemu_get_bytes fst snd].
  exists f4. split; [|split; [done|split; [done|]]].
  - do 2 f_equal. cbn [be_val reverse rev_append le_val]. unfold be_val. cbn. unfold fits in *. change (2 ^ 8) with 256 in *.
    rewrite !Z.shiftl_mul_pow2 by lia. rewrite (lor_mul a (b * 2 ^ 16) 24) by lia.
    replace (a * 2 ^ 24 + b * 2 ^ 16) with ((a * 2 ^ 8 + b) * 2 ^ 16) by lia. rewrite (lor_mul _ (c * 2 ^ 8) 16) by lia.
    replace ((a * 2 ^ 8 + b) * 2 ^ 16 + c * 2 ^ 8) with (((a * 2 ^ 8 + b) * 2 ^ 8 + c) * 2 ^ 8) by lia. rewrite (lor_mul _ d 8) by lia. unfold u32. rewrite Z.mod_small; lia.
  - intros H4. destruct (He1 3%nat H4) as [H3 E1]. destruct (He2 2%nat H3) as [H2 E2]. destruct (He3 1%nat H2) as [H1 E3]. destruct (He4 0%nat H1) as [_ E4]. congruence.
Qed.

Lemma get_be16_spec f :
  reader_ok f → Forall (fits 8) (stream f) →
  ∃ f', qemu_get_be16 ops f = Ok (be_val (fst (VMState.qemu_get_bytes 2 (stream f))), f') ∧ reader_ok f' ∧ stream f' = snd (VMState.qemu_get_bytes 2 (stream f)) ∧
    ((2 ≤ length (stream f))%nat → last_error f' = last_error f).
Proof.
  intros Hf Hb. unfold qemu_get_be16. rewrite get_bytes_S.
  destruct (next_byte f Hf) as (a & s1 & f1 & -> & -> & Hf1 & <- & He1 & Hb1). destruct (Hb1 Hb) as [Ha Hs1]. rewrite get_bytes_S. cbn [mbind res_bind].
  destruct (next_byte f1 Hf1) as (b & s2 & f2 & -> & -> & Hf2 & <- & He2 & Hb2). destruct (Hb2 Hs1) as [Hbb _]. cbn [mbind res_bind VMState.qemu_get_bytes fst snd].
  exists f2. split; [|split; [done|split; [done|]]].
  - do 2 f_equal. unfold be_val. cbn. unfold fits in *. rewrite Z.shiftl_mul_pow2 by lia. rewrite (lor_mul a b 8) by lia. lia.
  - intros H2. destruct (He1 1%nat H2) as [H1 E1]. destruct (He2 0%nat H1) as [_ E2]. congruence.
Qed.

Lemma get_bytes_fits n l : Forall (fits 8) l → Forall (fits 8) (fst (VMState.qemu_get_bytes n l)) ∧ Forall (fits 8) (snd (VMState.qemu_get_bytes n l)).
Proof.
  revert l. induction n as [|n IH]; intros l Hl; [done|]. rewrite get_bytes_S. destruct l as [|b l]; cbn [VMState.qemu_get_byte].
  - specialize (IH [] Hl). destruct (VMState.qemu_get_bytes n []) as [r t]. cbn in *. split; [|tauto]. apply Forall_cons. split; [done|tauto].
  - apply Forall_cons in Hl as [Hb Hl]. specialize (IH l Hl). destruct (VMState.qemu_get_bytes n l) as [r t]. cbn in *. split; [|tauto]. apply Forall_cons. tauto.
Qed.
Lemma get_bytes_length n l : length (fst (VMState.qemu_get_bytes n l)) = n ∧ snd (VMState.qemu_get_bytes n l) = drop n l.
Proof.
  revert l. induction n as [|n IH]; intros l; [done|]. rewrite get_bytes_S. destruct l as [|b l]; cbn [VMState.qemu_get_byte].
  - specialize (IH []). destruct (VMState.qemu_get_bytes n []) as [r t]. cbn in *. destruct IH as [-> ->]. by rewrite drop_nil.
  - specialize (IH l). destruct (VMState.qemu_get_bytes n l) as [r t]. cbn in *. destruct IH as [-> ->]. done.
Qed.

(** ** Sequences of reads *)

Inductive rop : Type := GetByte | GetBe16 | GetBe32 | GetBe64 | GetBuffer (n : nat).
Definition rop_size (o : rop) : nat := match o with GetByte => 1 | GetBe16 => 2 | GetBe32 => 4 | GetBe64 => 8 | GetBuffer n => n end.

(** The values a read gives, from the file and from the stream. *)
Definition read_file (o : rop) (f : QEMUFile B) : res (list Z * QEMUFile B) :=
  match o with
  | GetByte => '(v, f) ← qemu_get_byte ops f; Ok ([v], f)
  | GetBe16 => '(v, f) ← qemu_get_be16 ops f; Ok ([v], f)
  | GetBe32 => '(v, f) ← qemu_get_be32 ops f; Ok ([v], f)
  | GetBe64 => '(v, f) ← qemu_get_be64 ops f; Ok ([v], f)
  | GetBuffer n => qemu_get_buffer ops (Z.of_nat n) f
  end.
Definition read_stream (o : rop) (l : list Z) : list Z :=
  match o with
  | GetBuffer n => fst (VMState.qemu_get_buffer n l)
  | _ => [be_val (fst (VMState.qemu_get_bytes (rop_size o) l))]
  end.
Fixpoint read_all (os : list rop) (f : QEMUFile B) : res (list (list Z) * QEMUFile B) :=
  match os with
  | [] => Ok ([], f)
  | o :: os => '(v, f) ← read_file o f; '(vs, f) ← read_all os f; Ok (v :: vs, f)
  end.
Fixpoint stream_all (os : list rop) (l : list Z) : list (list Z) :=
  match os with [] => [] | o :: os => read_stream o l :: stream_all os (drop (rop_size o) l) end.

Lemma read_file_spec o f :
  reader_ok f → Forall (fits 8) (stream f) →
  ∃ f', read_file o f = Ok (read_stream o (stream f), f') ∧ reader_ok f' ∧ stream f' = drop (rop_size o) (stream f) ∧
    (Z.of_nat (rop_size o) ≤ IO_BUF_SIZE → (rop_size o ≤ length (stream f))%nat → last_error f' = last_error f).
Proof.
  intros Hf Hb. destruct o as [| | | |n]; cbn [read_file read_stream rop_size].
  - destruct (get_byte_spec f Hf) as (f' & -> & Hok & Hst & He & _). cbn [mbind res_bind]. exists f'. split; [|split; [done|split; [by rewrite Hst; destruct (stream f)|]]].
    + cbn. destruct (stream f) as [|v t]; cbn; [done|]. do 3 f_equal. unfold be_val. cbn. lia.
    + intros _ Hl. apply He. intros Hn. rewrite Hn in Hl. cbn in Hl. lia.
  - destruct (get_be16_spec f Hf Hb) as (f' & -> & Hok & Hst & He). exists f'. rewrite Hst, (proj2 (get_bytes_length 2 _)). auto.
  - destruct (get_be32_spec f Hf Hb) as (f' & -> & Hok & Hst & He). exists f'. rewrite Hst, (proj2 (get_bytes_length 4 _)). auto.
  - unfold qemu_get_be64. destruct (get_be32_spec f Hf Hb) as (f1 & -> & Hok1 & Hst1 & He1). cbn [mbind res_bind]. pose proof (get_bytes_fits 4 (stream f) Hb) as [Hh Hb1]. rewrite <-Hst1 in Hb1.
    destruct (get_be32_spec f1 Hok1 Hb1) as (f2 & -> & Hok2 & Hst2 & He2). cbn [mbind res_bind]. exists f2. pose proof (get_bytes_fits 4 (stream f1) Hb1) as [Hl _].
    rewrite Hst2, (proj2 (get_bytes_length 4 _)), Hst1, (proj2 (get_bytes_length 4 _)), drop_drop. split; [|split; [done|split; [done|]]].
    + do 3 f_equal. rewrite Z.shiftl_mul_pow2 by lia. apply be_val_fits in Hl. rewrite (proj1 (get_bytes_length 4 _)) in Hl. change (8 * Z.of_nat 4) with 32 in Hl. rewrite Hst1, (proj2 (get_bytes_length 4 _)) in Hl. rewrite lor_mul by (unfold fits in Hl; lia).
      change 8%nat with (4 + 4)%nat. rewrite get_bytes_add, be_val_app, (proj1 (get_bytes_length 4 _)), (proj2 (get_bytes_length 4 _)). done.
    + intros _ Hlen. rewrite He2, He1; [done|lia|]. rewrite Hst1, (proj2 (get_bytes_length 4 _)), length_drop. lia.
  - unfold qemu_get_buffer. rewrite Nat2Z.id. destruct (get_loop_spec n (Z.of_nat n) f Hf ltac:(lia)) as (f' & -> & Hok & Hst & He & _). rewrite Nat2Z.id in *. exists f'. split; [done|]. split; [done|]. split; [done|].
    intros H1 H2. apply He; lia.
Qed.

Lemma read_all_spec os f :
  reader_ok f → Forall (fits 8) (stream f) →
  ∃ f', read_all os f = Ok (stream_all os (stream f), f') ∧ reader_ok f' ∧ stream f' = drop (sum_list (rop_size <$> os)) (stream f) ∧
    (Forall (λ o, Z.of_nat (rop_size o) ≤ IO_BUF_SIZE) os → (sum_list (rop_size <$> os) ≤ length (stream f))%nat → last_error f' = last_error f).
Proof.
  revert f. induction os as [|o os IH]; intros f Hf Hb; cbn [read_all stream_all]; [by exists f|].
  destruct (read_file_spec o f Hf Hb) as (g & -> & Hg & Hst & Heg). cbn [mbind res_bind].
  destruct (IH g Hg) as (h & -> & Hh & Hsth & Heh); [rewrite Hst; by apply Forall_drop|]. cbn [mbind res_bind]. exists h. rewrite Hst in *. split; [done|]. split; [done|].
  split; [by rewrite Hsth, drop_drop|]. rewrite length_drop in Heh. intros [H1 H2]%Forall_cons H3. change (sum_list (rop_size <$> o :: os)) with (rop_size o + sum_list (rop_size <$> os))%nat in H3. rewrite Heh, Heg; [done|done|lia|done|lia].
Qed.

(** C30: Reading a file is reading the stream behind it: whatever the sizes of the back end's reads,
    and wherever they fall, every sequence of reads gives the values at the head of what was left,
    in order; and if there are enough bytes (and no single read is longer than the buffer), no
    error is recorded. *)
Theorem qemu_file_get_stream os b :
  Forall (fits 8) (left b) →
  ∃ f', read_all os (qemu_fopen_ops b) = Ok (stream_all os (left b), f') ∧ stream f' = drop (sum_list (rop_size <$> os)) (left b) ∧
    (Forall (λ o, Z.of_nat (rop_size o) ≤ IO_BUF_SIZE) os → (sum_list (rop_size <$> os) ≤ length (left b))%nat → last_error f' = 0).
Proof.
  intros Hb. destruct (read_all_spec os (qemu_fopen_ops b)) as (f' & H1 & _ & H2 & H3); [unfold reader_ok; cbn; unfold IO_BUF_SIZE; lia|done|]. exists f'. auto.
Qed.

End Reader.

(** ** Looking ahead *)

(** The head of [vmstate_subsection_load]: the name of a subsection that may belong to section
    [name], and the file behind the name. *)
Definition file_peek_subsection {B} (ops : QEMUFileOps B) (name : string) (f : QEMUFile B) : res (option (list Z * QEMUFile B) * QEMUFile B) :=
  '(b, f) ← qemu_peek_byte ops 0 f;
  if b =? VMState.QEMU_VM_SUBSECTION then
    '(len, f) ← qemu_peek_byte ops 1 f;
    let len := u8 len in
    if len <? Z.of_nat (String.length name) + 1 then Ok (None, f)
    else
      '(l, f) ← qemu_peek_buffer ops len 2 f;
      let size := u8 (Z.of_nat (length l)) in
      if negb (size =? len) then Ok (None, f)
      else
        let idstr := VMState.cstring l in
        if bool_decide (take (String.length name) idstr = VMState.str_bytes name) then
          Ok (Some (idstr, qemu_file_skip len (qemu_file_skip 1 (qemu_file_skip 1 f))), f)
        else Ok (None, f)
  else Ok (None, f).

(** A back end whose reads are as long as they can be, like [fread]. *)
Class FullReads {B : Type} (ops : QEMUFileOps B) (left : B → list Z) : Prop :=
  full_reads : ∀ get p n b len l b', get_buffer ops = Some get → 0 ≤ n ≤ IO_BUF_SIZE → get p n b = (len, l, b') → l = take (Z.to_nat n) (left b).

Section Peek.
Context {B : Type} (ops : QEMUFileOps B) (left : B → list Z) `{!SourceLaws ops left, !FullReads ops left}.
Implicit Types f : QEMUFile B.
Local Notation stream := (stream left).

Lemma fill_full f : reader_ok f → ∃ f', qemu_fill_buffer ops f = Ok f' ∧ reader_ok f' ∧ stream f' = stream f ∧ buf_index f' = 0 ∧
  unread f' = Nat.min (Z.to_nat IO_BUF_SIZE) (length (stream f)).
Proof.
  intros Hf. pose proof (fill_buffer_spec ops left f Hf) as (f' & Hr & Hok & Hst & Hi & _). exists f'. do 4 (split; [done|]).
  destruct Hf as [Hi0 Hs0]. unfold qemu_fill_buffer in Hr. rewrite (source_only (ops := ops) (left := left)) in Hr. destruct (source_get (ops := ops) (left := left)) as (get & Hget & Hlaw). rewrite Hget in Hr.
  set (p := buf_size f - buf_index f) in Hr. assert (Hp : 0 ≤ p ≤ IO_BUF_SIZE) by lia. apply bind_Ok in Hr as (g & Hg & Hr).
  assert (Hgo : opaque g = opaque f). { destruct (0 <? p); [|by injection Hg as <-]. rewrite load_in in Hg by lia. cbn [mbind res_bind] in Hg. rewrite store_in in Hg by (rewrite ?length_aread; lia). by injection Hg as <-. }
  cbn [opaque pos set_size set_index] in Hr. rewrite Hgo in Hr. destruct (Hlaw (pos g) (IO_BUF_SIZE - p) (opaque f) ltac:(lia)) as (l & b' & Hl & Hn & Hleft & _).
  pose proof (full_reads get (pos g) (IO_BUF_SIZE - p) (opaque f) _ _ _ Hget ltac:(lia) Hl) as Hfull. rewrite Hl in Hr.
  assert (Hlen : length (stream f) = (Z.to_nat p + length (left (opaque f)))%nat) by (unfold QemuFile.stream; rewrite length_app, length_aread; done).
  assert (Hu : buf_size f' = p + Z.of_nat (length l)).
  { destruct (Z.ltb_spec 0 (Z.of_nat (length l))); [rewrite store_in in Hr by lia; by injection Hr as <-|].
    destruct l; [|cbn in *; lia]. cbn [length Z.of_nat Z.eqb] in *. injection Hr as <-. unfold qemu_file_set_error. cbn. destruct (last_error g =? 0); cbn; lia. }
  unfold unread. rewrite Hi, Hu, Hlen, Hfull, length_take. lia.
Qed.

(** What is seen when enough has been buffered. *)
Lemma ahead f k n : (k + n ≤ unread f)%nat → take n (drop k (stream f)) = aread (buf f) (buf_index f + Z.of_nat k) n.
Proof.
  intros Hk. unfold QemuFile.stream. replace (unread f) with (k + (unread f - k))%nat by lia. rewrite aread_app, <-app_assoc, drop_app_length' by (by rewrite length_aread).
  replace (unread f - k)%nat with (n + (unread f - k - n))%nat by lia. rewrite aread_app, <-app_assoc. by rewrite take_app_length' by (by rewrite length_aread).
Qed.

Lemma peek_buffer_full f size off :
  reader_ok f → 0 ≤ off → 0 < size → off + size ≤ IO_BUF_SIZE →
  ∃ f', qemu_peek_buffer ops size off f = Ok (take (Z.to_nat size) (drop (Z.to_nat off) (stream f)), f') ∧ reader_ok f' ∧ stream f' = stream f ∧ (Z.to_nat (off + size) ≤ unread f' ∨ length (stream f) = unread f')%nat.
Proof.
  intros Hf Ho Hs Hos. unfold qemu_peek_buffer. rewrite (source_only (ops := ops) (left := left)).
  assert (Hg : ∃ g, (if buf_size f - (buf_index f + off) <? size then qemu_fill_buffer ops f else Ok f) = Ok g ∧ reader_ok g ∧ stream g = stream f ∧
    (Z.to_nat (off + size) ≤ unread g ∨ length (stream f) = unread g)%nat).
  { destruct (Z.ltb_spec (buf_size f - (buf_index f + off)) size) as [Hl|Hl]; [|exists f; do 3 (split; [done|]); left; unfold unread; lia].
    destruct (fill_full f Hf) as (g & Hg & Hok & Hst & _ & Hu). exists g. do 3 (split; [done|]). rewrite Hu. lia. }
  destruct Hg as (g & -> & Hok & Hst & Hu). cbn [mbind res_bind]. destruct Hok as [Hi Hz]. pose proof (unread_le left g) as Hle. rewrite Hst in Hle.
  destruct (Z.leb_spec (buf_size g - (buf_index g + off)) 0) as [Hn|Hn].
  - exists g. split; [|done]. do 2 f_equal. rewrite drop_ge, take_nil; [done|]. unfold unread in *. lia.
  - rewrite load_in by lia. cbn [mbind res_bind]. exists g. split; [|done]. do 2 f_equal. rewrite <-Hst.
    set (n := Z.to_nat (Z.min size (buf_size g - (buf_index g + off)))). assert (Hn' : (Z.to_nat off + n ≤ unread g)%nat) by (unfold unread; lia).
    rewrite <-(Z2Nat.id off Ho) at 1. rewrite <-ahead by done. destruct (decide (n = Z.to_nat size)) as [->|Hne]; [done|].
    rewrite (take_ge _ (Z.to_nat size)) by (rewrite length_drop, Hst; unfold n, unread in *; lia). apply take_ge. rewrite length_drop, Hst. unfold n, unread in *. lia.
Qed.

Lemma peek_byte_full f off :
  reader_ok f → 0 ≤ off < IO_BUF_SIZE → ∃ f', qemu_peek_byte ops off f = Ok (nth (Z.to_nat off) (stream f) 0, f') ∧ reader_ok f' ∧ stream f' = stream f.
Proof.
  intros Hf Ho. unfold qemu_peek_byte. rewrite (source_only (ops := ops) (left := left)).
  assert (Hread : ∀ g, reader_ok g → stream g = stream f → buf_index g + off < buf_size g →
    (l ← load IO_BUF_SIZE (buf g) (buf_index g + off) 1; Ok (nth 0 l 0, g)) = Ok (nth (Z.to_nat off) (stream f) 0, g)).
  { intros g [Hi Hz] Hst Hlt. rewrite load_in by lia. cbn [mbind res_bind]. do 2 f_equal. change (Z.to_nat 1) with 1%nat. rewrite nth_aread, <-Hst, stream_head by (unfold unread; lia). f_equal. lia. }
  destruct (Z.leb_spec (buf_size f) (buf_index f + off)) as [Hl|Hl]; [|rewrite Hread by done; by exists f].
  destruct (fill_full f Hf) as (g & -> & Hok & Hst & Hi & Hu). cbn [mbind res_bind]. destruct (Z.leb_spec (buf_size g) (buf_index g + off)) as [Hl'|Hl']; [|rewrite Hread by done; by exists g].
  exists g. split; [|done]. do 2 f_equal. rewrite nth_overflow; [done|]. unfold unread in Hu. lia.
Qed.

(** Looking for a subsection in a file is looking for it in the stream, for back ends whose reads
    are as long as they can be: the name is found, or not, and the file behind it goes on with the
    rest of the stream. *)
Theorem file_peek_subsection_refines f name :
  reader_ok f →
  ∃ o f', file_peek_subsection ops name f = Ok (o, f') ∧ reader_ok f' ∧ stream f' = stream f ∧
    (prod_map id stream) <$> o = VMState.peek_subsection name (stream f).
Proof.
  intros Hf. unfold file_peek_subsection, VMState.peek_subsection. destruct (peek_byte_full f 0 Hf ltac:(unfold IO_BUF_SIZE; lia)) as (f1 & -> & H1 & S1). cbn [mbind res_bind]. change (Z.to_nat 0) with 0%nat.
  destruct (_ =? VMState.QEMU_VM_SUBSECTION) eqn:E5; [|by exists None, f1]. destruct (peek_byte_full f1 1 H1 ltac:(unfold IO_BUF_SIZE; lia)) as (f2 & -> & H2 & S2). cbn [mbind res_bind]. change (Z.to_nat 1) with 1%nat.
  rewrite S1 in *. set (len := u8 _). pose proof (u8_fits (nth 1 (stream f) 0)) as Hl. fold len in Hl. unfold fits in Hl. destruct (Z.ltb_spec len (Z.of_nat (String.length name) + 1)) as [|Hlen]; [by exists None, f2|].
  destruct (peek_buffer_full f2 len 2 H2 ltac:(lia) ltac:(lia) ltac:(unfold IO_BUF_SIZE; lia)) as (f3 & -> & H3 & S3 & Hu). cbn [mbind res_bind]. rewrite S2 in *. change (Z.to_nat 2) with 2%nat in *.
  set (l := take (Z.to_nat len) (drop 2 (stream f))). assert (Hll : (length l ≤ Z.to_nat len)%nat) by (unfold l; rewrite length_take; lia).
  rewrite (u8_small (Z.of_nat (length l))) by (unfold fits; lia). destruct (Z.eqb_spec (Z.of_nat (length l)) len) as [He|He]; cbn [negb]; [|by exists None, f3].
  case_bool_decide; [|by exists None, f3]. eexists _, f3. split; [done|]. split; [done|]. split; [done|]. cbn. do 2 f_equal.
  assert (Hlen' : (Z.to_nat (2 + len) ≤ unread f3)%nat). { destruct Hu as [Hu|Hu]; [done|]. unfold l in He. rewrite length_take, length_drop in He. lia. }
  destruct (skip_spec left 1 f3 H3 ltac:(lia)) as (H4 & S4 & _). cbn zeta in *. assert (U4 : unread (qemu_file_skip 1 f3) = (unread f3 - 1)%nat) by (by apply skip_unread; [done|lia]).
  destruct (skip_spec left 1 _ H4 ltac:(lia)) as (H5 & S5 & _). cbn zeta in *. assert (U5 : unread (qemu_file_skip 1 (qemu_file_skip 1 f3)) = (unread f3 - 2)%nat) by (rewrite skip_unread by (done || lia); lia).
  destruct (skip_spec left len _ H5 ltac:(lia)) as (H6 & S6 & _). cbn zeta in *. rewrite S6, S5, S4, S3. change (Z.to_nat 1) with 1%nat. by rewrite !drop_drop.
Qed.
End Peek.

(** ** Writing is appending to a stream *)

(** What a file that is written relies on: the function that [qemu_fflush] calls (the one for vectors
    if there is one) takes all it is given, or returns a negative error and takes a part of it from
    the front.  Sockets do so ([socket_sink]).  A stream ([stdio_put_buffer]) does not: it returns a
    short count if the disk is full, which is taken for success ([short_write_lost]); nor would
    [block_put_buffer], which drops the error, but disk images have a function for vectors. *)
Definition took {B} (sunk : B → list Z) (l : list Z) (b : B) (r : Z * B) : Prop :=
  (fst r = Z.of_nat (length l) ∧ sunk (snd r) = sunk b ++ l) ∨ (fst r < 0 ∧ ∃ k, sunk (snd r) = sunk b ++ take k l).
Class SinkLaws {B : Type} (ops : QEMUFileOps B) (sunk : B → list Z) : Prop := {
  sink_writable : qemu_file_is_writable ops = true;
  sink_writev : ∀ w vs p b, writev_buffer ops = Some w → took sunk (concat vs) b (w vs p b);
  sink_put : ∀ w l p b, writev_buffer ops = None → put_buffer ops = Some w → took sunk l b (w l p b);
}.

(** A socket: what it sends is short only with an error. *)
Definition socket_writev_buffer {B} (iov_send : list Z → B → Z * B) (socket_error : B → Z) (vs : list (list Z)) (pos : Z) (s : B) : Z * B :=
  let size := Z.of_nat (length (concat vs)) in
  let '(len, s) := iov_send (concat vs) s in
  (if len <? size then - socket_error s else len, s).
Lemma socket_sink {B} (iov_send : list Z → B → Z * B) socket_error (sent : B → list Z) :
  (∀ l s, let r := iov_send l s in
     (fst r = Z.of_nat (length l) ∧ sent (snd r) = sent s ++ l) ∨
     (fst r < Z.of_nat (length l) ∧ 0 < socket_error (snd r) ∧ ∃ k, sent (snd r) = sent s ++ take k l)) →
  SinkLaws (mkOps None None (Some (socket_writev_buffer iov_send socket_error)) None) sent.
Proof.
  intros Hs. split; [done| |done]. intros w vs p b [= <-]. unfold socket_writev_buffer, took. specialize (Hs (concat vs) b). cbv zeta in Hs.
  destruct (iov_send (concat vs) b) as [len b']. cbn [fst snd] in *. destruct Hs as [[-> Hl]|(Hlt & He & Hk)].
  - left. destruct (Z.ltb_spec (Z.of_nat (length (concat vs))) (Z.of_nat (length (concat vs)))); [lia|done].
  - right. destruct (Z.ltb_spec len (Z.of_nat (length (concat vs)))); [|lia]. split; [lia|done].
Qed.

Section Writer.
Context {B : Type} (ops : QEMUFileOps B) (ext : Z → Z) (sunk : B → list Z) `{!SinkLaws ops sunk}.
Implicit Types f : QEMUFile B.

(** What is still on its way to the back end. *)
Definition pending_data (f : QEMUFile B) : list Z :=
  match writev_buffer ops with
  | Some _ => concat (piece ext f <$> iov f)
  | None => aread (buf f) 0 (Z.to_nat (buf_index f))
  end.

(** The pieces of the vector lie below [k] in the buffer; without [writev_buffer] there are none. *)
Definition pieces_below (k : Z) (f : QEMUFile B) : Prop :=
  Forall (λ v : base * Z, 0 ≤ snd v ∧ match fst v with InBuf o => 0 ≤ o ∧ o + snd v ≤ k | Ext _ => True end) (iov f) ∧
  (length (iov f) < MAX_IOV_SIZE)%nat ∧ (writev_buffer ops = None → iov f = []).

(** [l] is all that was put: it is at the back end or on its way; after an error, a front part of
    it is at the back end and nothing is on its way. *)
Definition holds_all (f : QEMUFile B) (l : list Z) : Prop :=
  (last_error f = 0 ∧ sunk (opaque f) ++ pending_data f = l) ∨
  (last_error f ≠ 0 ∧ pending_data f = [] ∧ ∃ k, sunk (opaque f) = take k l).
Definition wrote (f : QEMUFile B) (l : list Z) : Prop := 0 ≤ buf_index f < IO_BUF_SIZE ∧ pieces_below (buf_index f) f ∧ holds_all f l.

(** After a flush the buffer is empty. *)
Definition flushed (f : QEMUFile B) (l : list Z) : Prop :=
  buf_index f = 0 ∧ iov f = [] ∧ ((last_error f = 0 ∧ sunk (opaque f) = l) ∨ (last_error f ≠ 0 ∧ ∃ k, sunk (opaque f) = take k l)).

Lemma flushed_wrote f l : flushed f l → wrote f l.
Proof.
  intros (Hi & Hv & Hc). assert (Hp : pending_data f = []) by (unfold pending_data; rewrite Hi, Hv; by destruct (writev_buffer ops)).
  split; [rewrite Hi; unfold IO_BUF_SIZE; lia|]. split; [unfold pieces_below; rewrite Hv; split; [constructor|]; split; [cbn; unfold MAX_IOV_SIZE; lia|done]|].
  unfold holds_all. rewrite Hp, app_nil_r. destruct Hc as [Hc|[Hc1 Hc2]]; [by left|by right].
Qed.

Lemma flush_out f l : holds_all f l → flushed (qemu_fflush ops ext f) l.
Proof.
  intros Hh. unfold qemu_fflush. rewrite (sink_writable (ops := ops) (sunk := sunk)). cbn [negb].
  (* what the back end did *)
  set (r := match writev_buffer ops with Some _ => _ | None => _ end).
  assert (Hr : took sunk (pending_data f) (opaque f) r).
  { unfold r, pending_data. destruct (writev_buffer ops) as [w|] eqn:Ew.
    - destruct (Z.ltb_spec 0 (Z.of_nat (length (iov f)))); [by apply sink_writev|]. left. destruct (iov f); [cbn; by rewrite app_nil_r|cbn in *; lia].
    - destruct (put_buffer ops) as [w|] eqn:Ep.
      + destruct (Z.ltb_spec 0 (buf_index f)); [by apply sink_put|]. left. replace (Z.to_nat (buf_index f)) with 0%nat by lia. cbn. by rewrite app_nil_r.
      + pose proof (sink_writable (ops := ops) (sunk := sunk)) as Hw. unfold qemu_file_is_writable in Hw. rewrite Ew, Ep in Hw. by rewrite !bool_decide_eq_false_2 in Hw by (by intros [? ?]). }
  destruct r as [ret b]. unfold took in Hr. cbn [fst snd] in Hr. destruct (Z.ltb_spec ret 0) as [Hneg|Hpos].
  - destruct (Z.leb_spec 0 ret); [lia|]. unfold qemu_file_set_error. cbn [set_iov set_index set_opaque last_error].
    destruct Hr as [[-> _]|[_ [k Hk]]]; [lia|]. destruct Hh as [[He Hl]|(He & Hn & k' & Hk')].
    + rewrite He. cbn. split; [done|]. split; [done|]. right. split; [cbn; lia|]. subst l. cbn. exists (length (sunk (opaque f)) + k)%nat. rewrite Hk, take_app_add. done.
    + destruct (Z.eqb_spec (last_error f) 0); [done|]. split; [done|]. split; [done|]. right. split; [done|]. exists k'. cbn. rewrite Hk, Hn, take_nil, app_nil_r. done.
  - destruct (Z.leb_spec 0 ret); [|lia]. split; [done|]. split; [done|]. cbn. destruct Hr as [[_ Hr]|[? _]]; [|lia].
    destruct Hh as [[He Hl]|(He & Hn & k' & Hk')]; [left; by rewrite Hr|right]. split; [done|]. exists k'. by rewrite Hr, Hn, app_nil_r.
Qed.

Lemma piece_split f b n m : 0 ≤ n → 0 ≤ m → piece ext f (b, n + m) = piece ext f (b, n) ++ piece ext f (base_add b n, m).
Proof.
  intros Hn Hm. destruct b as [o|a]; cbn [piece base_add]; rewrite Z2Nat.inj_add by lia.
  - rewrite aread_app. by rewrite Z2Nat.id by lia.
  - rewrite seq_app, fmap_app. f_equal. cbn [Nat.add]. apply list_eq. intros i. rewrite !list_lookup_fmap. destruct (decide (i < Z.to_nat m)%nat).
    + rewrite !lookup_seq_lt by done. cbn. do 2 f_equal. lia.
    + by rewrite !lookup_seq_ge by lia.
Qed.

(** A new piece in the vector, which may be flushed for it. *)
Lemma add_to_iovec_spec f b n k d l w :
  writev_buffer ops = Some w → last_error f = 0 → 0 < n → piece ext f (b, n) = d → (match b with InBuf o => 0 ≤ o ∧ o + n ≤ k | Ext _ => True end) → pieces_below k f → sunk (opaque f) ++ pending_data f = l →
  let f' := add_to_iovec ops ext b n f in
  flushed f' (l ++ d) ∨ (buf_index f' = buf_index f ∧ buf f' = buf f ∧ last_error f' = 0 ∧ pieces_below k f' ∧ sunk (opaque f') ++ pending_data f' = l ++ d).
Proof.
  intros Hw He Hn Hd Hb (Hin & Hlen & _) Hl. unfold add_to_iovec.
  assert (Hf1 : ∃ v, (match last (iov f) with
      | Some (b', m) => if bool_decide (b = base_add b' m) then set_iov (removelast (iov f) ++ [(b', m + n)]) f else set_iov (iov f ++ [(b, n)]) f
      | None => set_iov (iov f ++ [(b, n)]) f end) = set_iov v f ∧
    Forall (λ v : base * Z, 0 ≤ snd v ∧ match fst v with InBuf o => 0 ≤ o ∧ o + snd v ≤ k | Ext _ => True end) v ∧ concat (piece ext f <$> v) = concat (piece ext f <$> iov f) ++ d).
  { assert (Hplain : Forall (λ v : base * Z, 0 ≤ snd v ∧ match fst v with InBuf o => 0 ≤ o ∧ o + snd v ≤ k | Ext _ => True end) (iov f ++ [(b, n)]) ∧ concat (piece ext f <$> iov f ++ [(b, n)]) = concat (piece ext f <$> iov f) ++ d).
    { split; [apply Forall_app; split; [done|]; apply Forall_singleton; split; [cbn; lia|done]|]. rewrite fmap_app, concat_app. cbn [fmap list_fmap concat]. by rewrite Hd, app_nil_r. }
    destruct (iov f) as [|v0 vs _] eqn:Ev using rev_ind; [by eexists|]. rewrite last_snoc. destruct v0 as [b' m]. case_bool_decide as Hadj; [|by eexists].
    rewrite removelast_last. apply Forall_app in Hin as [Hvs Hv0]. apply Forall_singleton in Hv0 as [Hm Hb']. cbn in Hm, Hb'. eexists. split; [done|]. split.
    - apply Forall_app. split; [done|]. apply Forall_singleton. split; [cbn; lia|]. cbn. destruct b' as [o|a]; [|done]. subst b. cbn in Hb. lia.
    - rewrite !fmap_app, !concat_app. cbn [fmap list_fmap concat]. rewrite piece_split, <-Hadj, Hd, !app_nil_r by lia. by rewrite app_assoc. }
  destruct Hf1 as (v & -> & Hv & Hc). cbn [iov set_iov]. destruct (Nat.leb_spec MAX_IOV_SIZE (length v)).
  - left. apply flush_out. left. split; [done|]. unfold pending_data in *. rewrite Hw in *. cbn [opaque iov set_iov]. change (piece ext (set_iov v f)) with (piece ext f). by rewrite Hc, app_assoc, Hl.
  - right. split; [done|]. split; [done|]. split; [done|]. split; [split; [done|]; split; [done|]; by rewrite Hw|]. unfold pending_data in *. rewrite Hw in *. cbn [opaque iov set_iov]. change (piece ext (set_iov v f)) with (piece ext f). by rewrite Hc, app_assoc, Hl.
Qed.

Lemma holds_more f l d : last_error f ≠ 0 → holds_all f l → holds_all f (l ++ d).
Proof.
  intros He [[? _]|(_ & Hp & k & Hk)]; [done|]. right. split; [done|]. split; [done|]. exists (Nat.min k (length l)). rewrite take_app_le by lia. rewrite Hk.
  destruct (decide (k ≤ length l)%nat); [by rewrite Nat.min_l|]. by rewrite Nat.min_r, !take_ge by lia.
Qed.
Lemma wrote_more f l d : last_error f ≠ 0 → wrote f l → wrote f (l ++ d).
Proof. intros He (Hi & Hp & Hh). split; [done|]. split; [done|]. by apply holds_more. Qed.

(** The end of a round: the buffer is flushed when it is full. *)
Lemma round_end f l :
  0 ≤ buf_index f ≤ IO_BUF_SIZE → pieces_below (buf_index f) f → holds_all f l → wrote (if buf_index f =? IO_BUF_SIZE then qemu_fflush ops ext f else f) l.
Proof. intros Hi Hp Hh. destruct (Z.eqb_spec (buf_index f) IO_BUF_SIZE); [by apply flushed_wrote, flush_out|]. split; [lia|done]. Qed.

Lemma pieces_mono k k' f : k ≤ k' → pieces_below k f → pieces_below k' f.
Proof.
  intros Hk (Hf & Hl & Hn). split; [|done]. eapply Forall_impl; [exact Hf|]. intros [[o|a] n] [H1 H2]; cbn in *; [lia|done].
Qed.
(** Bytes stored behind the pieces do not change them. *)
Lemma pieces_same f a k : pieces_below k f → (∀ i, 0 ≤ i < k → aget a i = aget (buf f) i) → piece ext (set_buf a f) <$> iov f = piece ext f <$> iov f.
Proof.
  intros (Hf & _ & _) Ha. induction Hf as [|[[o|e] n] v [Hn Ho] _ IH]; [done|..]; cbn [fmap list_fmap]; rewrite IH; [|done]. f_equal. cbn in *. apply aread_ext. intros i Hi. apply Ha. lia.
Qed.

(** One round: the bytes [d] go to the buffer. *)
Definition chunk (d : list Z) (f : QEMUFile B) : QEMUFile B :=
  let n := Z.of_nat (length d) in
  let f1 := set_xfer (s64 (bytes_xfer f + n)) (set_buf (awrite (buf f) (buf_index f) d) f) in
  let f2 := if writev_buffer ops then add_to_iovec ops ext (InBuf (buf_index f)) n f1 else f1 in
  let f3 := set_index (buf_index f2 + n) f2 in
  if buf_index f3 =? IO_BUF_SIZE then qemu_fflush ops ext f3 else f3.

Lemma chunk_spec f l d :
  wrote f l → last_error f = 0 → d ≠ [] → buf_index f + Z.of_nat (length d) ≤ IO_BUF_SIZE → wrote (chunk d f) (l ++ d).
Proof.
  intros (Hi & Hp & Hh) He Hd Hn. destruct Hh as [[_ Hl]|[? _]]; [|done]. unfold chunk.
  set (n := Z.of_nat (length d)). assert (Hn0 : 0 < n) by (destruct d; [done|cbn in *; lia]).
  set (f1 := set_xfer _ _). set (i := buf_index f) in *. assert (Hout : ∀ j, 0 ≤ j < i → aget (awrite (buf f) i d) j = aget (buf f) j) by (intros j Hj; apply aget_awrite_out; lia).
  destruct (writev_buffer ops) as [w|] eqn:Ew.
  - assert (Hpd : pending_data f1 = pending_data f). { unfold pending_data. rewrite Ew. f_equal. exact (pieces_same f (awrite (buf f) i d) i Hp Hout). }
    assert (Hp1 : pieces_below (i + n) f1) by (by apply (pieces_mono i); [lia|]).
    destruct (add_to_iovec_spec f1 (InBuf i) n (i + n) d l w Ew He Hn0) as [Hfl|(F1 & F2 & F3 & F4 & F5)]; [cbn; unfold n; rewrite Nat2Z.id; apply aread_awrite|lia|done|by rewrite Hpd|..].
    + destruct Hfl as (G1 & G2 & G3). set (f2 := add_to_iovec _ _ _ _ _) in *. set (f3 := set_index (buf_index f2 + n) f2).
      assert (Hv3 : iov f3 = []) by done. assert (Hp3 : pending_data f3 = []) by (unfold pending_data; rewrite Ew, Hv3; done).
      apply round_end; [cbn; lia| |].
      * unfold pieces_below. rewrite Hv3. split; [constructor|]. split; [cbn; unfold MAX_IOV_SIZE; lia|done].
      * destruct G3 as [[E1 E2]|[E1 E2]]; [left|right]; (split; [done|]); rewrite Hp3, ?app_nil_r; done.
    + set (f2 := add_to_iovec _ _ _ _ _) in *. apply round_end; cbn [buf_index set_index]; rewrite ?F1; change (buf_index f1) with i; [lia|done|]. left. split; [done|]. unfold pending_data in *. rewrite Ew in *. exact F5.
  - apply round_end; cbn [buf_index set_index f1 set_xfer set_buf]; fold i; [lia|..].
    + destruct Hp as (_ & _ & Hnil). specialize (Hnil Ew). unfold pieces_below. cbn [iov set_index f1 set_xfer set_buf]. rewrite Hnil. split; [constructor|]. split; [cbn; unfold MAX_IOV_SIZE; lia|done].
    + left. split; [done|]. unfold pending_data in *. rewrite Ew in *. cbn [buf buf_index opaque set_index f1 set_xfer set_buf]. fold i. rewrite Z2Nat.inj_add, aread_app by lia.
      rewrite Z.add_0_l, Z2Nat.id by lia. unfold n. rewrite Nat2Z.id, aread_awrite, aread_awrite_out by lia. fold i in Hl. by rewrite app_assoc, Hl.
Qed.

Lemma put_byte_spec v f l : wrote f l → ∃ f', qemu_put_byte ops ext v f = Ok f' ∧ wrote f' (l ++ [u8 v]).
Proof.
  intros Hw. unfold qemu_put_byte. destruct (Z.eqb_spec (last_error f) 0) as [He|He]; cbn [negb]; [|exists f; split; [done|by apply wrote_more]].
  pose proof Hw as (Hi & _ & _). rewrite store_in by (cbn; lia). cbn [mbind res_bind]. eexists. split; [done|]. apply (chunk_spec f l [u8 v] Hw He); [done|cbn; lia].
Qed.
Lemma put_loop_spec fuel d f l : wrote f l → last_error f = 0 → (length d ≤ fuel)%nat → ∃ f', put_loop ops ext fuel d f = Ok f' ∧ wrote f' (l ++ d).
Proof.
  revert d f l. induction fuel as [|fuel IH]; intros d f l Hw He Hf; destruct d as [|v d]; cbn [length] in Hf; try lia; try (exists f; rewrite app_nil_r; done).
  cbn [put_loop]. set (D := v :: d). set (n := Z.min (IO_BUF_SIZE - buf_index f) (Z.of_nat (length D))). pose proof Hw as (Hi & _ & _).
  assert (HD : (0 < length D)%nat) by (cbn; lia). assert (Hn : 0 < n) by lia. assert (Hlt : length (take (Z.to_nat n) D) = Z.to_nat n) by (rewrite length_take; lia).
  rewrite store_in by (rewrite ?Hlt; lia). cbn [mbind res_bind].
  assert (Hc : wrote (chunk (take (Z.to_nat n) D) f) (l ++ take (Z.to_nat n) D)). { apply chunk_spec; [done|done|intros E; rewrite E in Hlt; cbn in Hlt; lia|rewrite Hlt; lia]. }
  unfold chunk in Hc. rewrite Hlt, Z2Nat.id in Hc by lia. set (g := if _ =? IO_BUF_SIZE then _ else _) in Hc |- *. unfold qemu_file_get_error.
  destruct (Z.eqb_spec (last_error g) 0) as [Hg|Hg]; cbn [negb].
  - destruct (IH (drop (Z.to_nat n) D) g _ Hc Hg) as (f' & Hf' & Hw'); [rewrite length_drop; cbn in *; lia|]. exists f'. split; [done|]. by rewrite <-app_assoc, take_drop in Hw'.
  - exists g. split; [done|]. apply (wrote_more _ _ (drop (Z.to_nat n) D)) in Hc; [|done]. by rewrite <-app_assoc, take_drop in Hc.
Qed.
Lemma put_buffer_spec d f l : wrote f l → ∃ f', qemu_put_buffer ops ext d f = Ok f' ∧ wrote f' (l ++ d).
Proof.
  intros Hw. unfold qemu_put_buffer. destruct (Z.eqb_spec (last_error f) 0) as [He|He]; cbn [negb]; [by apply put_loop_spec|]. exists f. split; [done|by apply wrote_more].
Qed.
Definition ext_bytes (a size : Z) : list Z := (λ i, ext (a + Z.of_nat i)) <$> seq 0 (Z.to_nat size).
Lemma put_async_spec a size f l : 0 < size → wrote f l → ∃ f', qemu_put_buffer_async ops ext a size f = Ok f' ∧ wrote f' (l ++ ext_bytes a size).
Proof.
  intros Hsz Hw. unfold qemu_put_buffer_async. destruct (writev_buffer ops) as [w|] eqn:Ew; [|by apply put_buffer_spec].
  destruct (Z.eqb_spec (last_error f) 0) as [He|He]; cbn [negb]; [|exists f; split; [done|by apply wrote_more]]. eexists. split; [done|].
  pose proof Hw as (Hi & Hp & Hh). destruct Hh as [[_ Hl]|[? _]]; [|done]. set (f1 := set_xfer _ f).
  destruct (add_to_iovec_spec f1 (Ext a) size (buf_index f) (ext_bytes a size) l w Ew He Hsz eq_refl I Hp) as [Hfl|(F1 & F2 & F3 & F4 & F5)]; [unfold pending_data in *; rewrite Ew in *; exact Hl|by apply flushed_wrote|].
  split; [rewrite F1; done|]. split; [by rewrite F1|]. by left.
Qed.
Lemma put_be32_spec v f l : wrote f l → ∃ f', qemu_put_be32 ops ext v f = Ok f' ∧ wrote f' (l ++ be_bytes 4 v).
Proof.
  intros Hw. unfold qemu_put_be32. destruct (put_byte_spec (Z.shiftr v 24) f l Hw) as (f1 & -> & H1). cbn [mbind res_bind]. destruct (put_byte_spec (Z.shiftr v 16) f1 _ H1) as (f2 & -> & H2). cbn [mbind res_bind].
  destruct (put_byte_spec (Z.shiftr v 8) f2 _ H2) as (f3 & -> & H3). cbn [mbind res_bind]. destruct (put_byte_spec v f3 _ H3) as (f4 & -> & H4). exists f4. split; [done|].
  rewrite <-!app_assoc in H4. cbn [app] in H4. replace (be_bytes 4 v) with [u8 (Z.shiftr v 24); u8 (Z.shiftr v 16); u8 (Z.shiftr v 8); u8 v]; [done|].
  unfold be_bytes. cbn [le_bytes reverse rev_append]. rewrite !Z.shiftr_div_pow2 by lia. unfold u8. cbn. rewrite !Z.div_div by lia. done.
Qed.
Lemma put_be16_spec v f l : wrote f l → ∃ f', qemu_put_be16 ops ext v f = Ok f' ∧ wrote f' (l ++ be_bytes 2 v).
Proof.
  intros Hw. unfold qemu_put_be16. destruct (put_byte_spec (Z.shiftr v 8) f l Hw) as (f1 & -> & H1). cbn [mbind res_bind]. destruct (put_byte_spec v f1 _ H1) as (f2 & -> & H2). exists f2. split; [done|].
  rewrite <-!app_assoc in H2. cbn [app] in H2. replace (be_bytes 2 v) with [u8 (Z.shiftr v 8); u8 v]; [done|]. unfold be_bytes. cbn [le_bytes reverse rev_append]. rewrite !Z.shiftr_div_pow2 by lia. done.
Qed.
Lemma put_be64_spec v f l : wrote f l → ∃ f', qemu_put_be64 ops ext v f = Ok f' ∧ wrote f' (l ++ be_bytes 8 v).
Proof.
  intros Hw. unfold qemu_put_be64. destruct (put_be32_spec (u32 (Z.shiftr v 32)) f l Hw) as (f1 & -> & H1). cbn [mbind res_bind]. destruct (put_be32_spec (u32 v) f1 _ H1) as (f2 & -> & H2). exists f2. split; [done|].
  rewrite <-app_assoc in H2. by rewrite be_bytes_halves.
Qed.

(** ** Sequences of writes *)

Inductive wop : Type := PutByte (v : Z) | PutBe16 (v : Z) | PutBe32 (v : Z) | PutBe64 (v : Z) | PutBuffer (l : list Z) | PutAsync (a size : Z).
Definition wop_bytes (o : wop) : list Z :=
  match o with
  | PutByte v => [u8 v]
  | PutBe16 v => be_bytes 2 v
  | PutBe32 v => be_bytes 4 v
  | PutBe64 v => be_bytes 8 v
  | PutBuffer l => l
  | PutAsync a size => ext_bytes a size
  end.
Definition write_file (o : wop) (f : QEMUFile B) : res (QEMUFile B) :=
  match o with
  | PutByte v => qemu_put_byte ops ext v f
  | PutBe16 v => qemu_put_be16 ops ext v f
  | PutBe32 v => qemu_put_be32 ops ext v f
  | PutBe64 v => qemu_put_be64 ops ext v f
  | PutBuffer l => qemu_put_buffer ops ext l f
  | PutAsync a size => qemu_put_buffer_async ops ext a size f
  end.
Fixpoint write_all (os : list wop) (f : QEMUFile B) : res (QEMUFile B) :=
  match os with [] => Ok f | o :: os => f ← write_file o f; write_all os f end.
(** Pieces of the caller's memory are not empty. *)
Definition wop_ok (o : wop) : Prop := match o with PutAsync _ size => 0 < size | _ => True end.

Lemma write_file_spec o f l : wop_ok o → wrote f l → ∃ f', write_file o f = Ok f' ∧ wrote f' (l ++ wop_bytes o).
Proof.
  destruct o; intros Ho Hw; cbn [write_file wop_bytes]; [by apply put_byte_spec|by apply put_be16_spec|by apply put_be32_spec|by apply put_be64_spec|by apply put_buffer_spec|by apply put_async_spec].
Qed.
Lemma write_all_spec os f l : Forall wop_ok os → wrote f l → ∃ f', write_all os f = Ok f' ∧ wrote f' (l ++ concat (wop_bytes <$> os)).
Proof.
  intros Hos. revert f l. induction Hos as [|o os Ho _ IH]; intros f l Hw; cbn [write_all]; [exists f; by rewrite app_nil_r|].
  destruct (write_file_spec o f l Ho Hw) as (g & -> & Hg). cbn [mbind res_bind]. destruct (IH g _ Hg) as (h & -> & Hh). exists h. split; [done|]. by rewrite <-app_assoc in Hh.
Qed.

(** C29: Writing a file is appending to the back end, whether it takes vectors or flat buffers and
    however the buffer and the vector fill up on the way.  For back ends that take all they are
    given or else return a negative error and take a front part of it ([SinkLaws]: sockets do; a
    stream whose short count passes for success does not, [short_write_lost]), and for pieces
    written from the caller's memory that are not empty and do not change until they are flushed:
    after any writes and a flush, the back end holds what it held before and then all that was
    put, in order, if no error is recorded; if one is, it holds a front part of that. *)
Theorem qemu_file_put_stream os b :
  Forall wop_ok os →
  ∃ f, write_all os (qemu_fopen_ops b) = Ok f ∧
    let f' := qemu_fflush ops ext f in
    let all := sunk b ++ concat (wop_bytes <$> os) in
    (last_error f' = 0 → sunk (opaque f') = all) ∧ (last_error f' ≠ 0 → ∃ k, sunk (opaque f') = take k all).
Proof.
  intros Hos. assert (H0 : wrote (qemu_fopen_ops b) (sunk b)). { apply flushed_wrote. split; [done|]. split; [done|]. by left. }
  destruct (write_all_spec os _ _ Hos H0) as (f & Hf & _ & _ & Hh). exists f. split; [done|]. cbn zeta. destruct (flush_out f _ Hh) as (_ & _ & [[He Hs]|[He Hs]]); by split; intros.
Qed.
End Writer.

(** ** Where files lose data *)

(** A full buffer is topped up with a read of no bytes, whose result counts as the end of the
    file: asking for more than the buffer holds, when it is full, records an error although the
    bytes are there. *)
Theorem full_buffer_error {B} (ops : QEMUFileOps B) left `{!SourceLaws ops left} f size :
  reader_ok f → Z.of_nat (unread f) = IO_BUF_SIZE → last_error f = 0 → IO_BUF_SIZE < size →
  ∃ l f', qemu_peek_buffer ops size 0 f = Ok (l, f') ∧ length l = Z.to_nat IO_BUF_SIZE ∧ last_error f' = - EIO.
Proof.
  intros Hf Hu He Hs. pose proof Hf as [Hi Hz]. unfold unread in Hu. unfold qemu_peek_buffer, qemu_fill_buffer. rewrite (source_only (ops := ops) (left := left)), Z.add_0_r.
  destruct (source_get (ops := ops) (left := left)) as (get & Hget & Hlaw). rewrite Hget. set (p := buf_size f - buf_index f) in *. assert (Hp : p = IO_BUF_SIZE) by lia.
  destruct (Z.ltb_spec p size); [|lia]. destruct (Z.ltb_spec 0 p); [|unfold IO_BUF_SIZE in *; lia]. rewrite load_in by lia. cbn [mbind res_bind]. rewrite store_in by (rewrite ?length_aread; lia). cbn [mbind res_bind].
  cbn [pos opaque set_index set_size set_buf]. rewrite Hp, Z.sub_diag. destruct (Hlaw (pos f) 0 (opaque f) ltac:(lia)) as (l & b' & -> & Hn & _). assert (l = []) as -> by (destruct l; [done|cbn in Hn; lia]).
  change (Z.of_nat (@length Z [])) with 0. change (0 <? 0) with false. change (0 =? 0) with true. cbv iota. set (g := qemu_file_set_error _ _).
  assert (Hg : buf_index g = 0 ∧ buf_size g = IO_BUF_SIZE ∧ last_error g = - EIO) by (unfold g, qemu_file_set_error; cbn; by rewrite He). destruct Hg as (G1 & G2 & G3).
  cbn [mbind res_bind]. rewrite G1, G2. change (IO_BUF_SIZE - (0 + 0)) with IO_BUF_SIZE. change (IO_BUF_SIZE <=? 0) with false. cbv iota. rewrite load_in by (unfold IO_BUF_SIZE in *; lia).
  cbn [mbind res_bind]. eexists _, g. split; [done|]. split; [|done]. rewrite length_aread. lia.
Qed.

(** A back end without vectors that takes less than it is given, without an error (as a stream on
    a full disk does), is not noticed: the rest is lost. *)
Lemma short_write_lost {B} (ops : QEMUFileOps B) ext f w m b :
  writev_buffer ops = None → put_buffer ops = Some w → 0 < buf_index f → w (aread (buf f) 0 (Z.to_nat (buf_index f))) (pos f) (opaque f) = (m, b) → 0 ≤ m < buf_index f →
  last_error (qemu_fflush ops ext f) = last_error f ∧ pending_data ops ext (qemu_fflush ops ext f) = [].
Proof.
  intros Hv Hw Hi Hr Hm. unfold qemu_fflush, qemu_file_is_writable, pending_data. rewrite Hv, Hw. rewrite (bool_decide_eq_true_2 (is_Some (Some w))) by eauto. rewrite orb_true_r. cbn [negb].
  destruct (Z.ltb_spec 0 (buf_index f)); [|lia]. rewrite Hr. destruct (Z.leb_spec 0 m); [|lia]. destruct (Z.ltb_spec m 0); [lia|]. done.
Qed.

(** ** Back ends in memory *)
Module Demo.
(** A vector sink, and a source that gives at most [k] bytes at a time. *)
Definition sink : QEMUFileOps (list Z) :=
  mkOps None None (Some (λ vs _ b, (Z.of_nat (length (concat vs)), b ++ concat vs))) None.
Definition source (k : Z) : QEMUFileOps (list Z) :=
  mkOps None (Some (λ _ n b, let m := Z.to_nat (Z.min n k) in (Z.of_nat (length (take m b)), take m b, drop m b))) None None.
#[global] Instance sink_laws : SinkLaws sink id.
Proof. split; [done|intros w vs p b [= <-]; by left|done]. Qed.
Lemma source_laws k : 0 < k → SourceLaws (source k) id.
Proof.
  intros Hk. split; [done|]. eexists. split; [done|]. intros p n b Hn. eexists _, _. split; [done|]. rewrite length_take. split; [lia|]. unfold id. rewrite take_drop. split; [done|].
  intros E. destruct (decide (n = 0)); [by left|]. right. apply (f_equal length) in E. rewrite length_take in E. cbn in E. destruct b; [done|cbn in E; lia].
Qed.
#[global] Instance source3_laws : SourceLaws (source 3) id.
Proof. by apply source_laws. Qed.
#[global] Instance source_io_laws : SourceLaws (source IO_BUF_SIZE) id.
Proof. by apply source_laws. Qed.
#[global] Instance source_io_full : FullReads (source IO_BUF_SIZE) id.
Proof. intros get p n b len l b' [= <-] Hn [= _ <- _]. unfold id. by rewrite Z.min_l by lia. Qed.
End Demo.

Lemma qemu_file_get_stream_witness :
  ∃ f', read_all (Demo.source 3) [GetByte; GetBe32; GetBuffer 5; GetBe16] (qemu_fopen_ops (seqZ 1 13)) = Ok ([[1]; [33752069]; [6; 7; 8; 9; 10]; [2828]], f') ∧
    stream id f' = [13] ∧ last_error f' = 0.
Proof.
  destruct (qemu_file_get_stream (Demo.source 3) id [GetByte; GetBe32; GetBuffer 5; GetBe16] (seqZ 1 13)) as (f' & H1 & H2 & H3).
  - vm_compute. repeat constructor; discriminate.
  - exists f'. split; [exact H1|]. split; [exact H2|]. apply H3; [|apply Nat.leb_le; reflexivity]. do 4 (apply Forall_cons; split; [vm_compute; discriminate|]). apply Forall_nil_2.
Defined.

Lemma qemu_file_put_stream_witness :
  ∃ f, write_all Demo.sink (λ a, a) [PutByte 257; PutAsync 100 2; PutBe32 5; PutBuffer [9; 8]] (qemu_fopen_ops [77]) = Ok f ∧
    let f' := qemu_fflush Demo.sink (λ a, a) f in
    (last_error f' = 0 → opaque f' = [77; 1; 100; 101; 0; 0; 0; 5; 9; 8]) ∧
    (last_error f' ≠ 0 → ∃ k, opaque f' = take k [77; 1; 100; 101; 0; 0; 0; 5; 9; 8]).
Proof.
  apply (qemu_file_put_stream Demo.sink (λ a, a) id [PutByte 257; PutAsync 100 2; PutBe32 5; PutBuffer [9; 8]] [77]). repeat constructor.
Defined.

Definition with_sub : list Z := [5; 3; 115; 47; 97; 0; 0; 0; 1].
Lemma file_peek_subsection_refines_witness :
  ∃ o f', file_peek_subsection (Demo.source IO_BUF_SIZE) "s" (qemu_fopen_ops with_sub) = Ok (o, f') ∧ reader_ok f' ∧ stream id f' = with_sub ∧
    (prod_map id (stream id)) <$> o = Some ([115; 47; 97], [0; 0; 0; 1]).
Proof.
  apply (file_peek_subsection_refines (Demo.source IO_BUF_SIZE) id (qemu_fopen_ops with_sub) "s"). split; [split|]; vm_compute; discriminate.
Defined.

Definition full_file : QEMUFile (list Z) := mkFile [1; 2] 0 0 0 0 IO_BUF_SIZE ∅ [] 0.
Lemma full_buffer_error_witness :
  ∃ l f', qemu_peek_buffer (Demo.source 3) (IO_BUF_SIZE + 1) 0 full_file = Ok (l, f') ∧ length l = Z.to_nat IO_BUF_SIZE ∧ last_error f' = - EIO.
Proof.
  apply (full_buffer_error (Demo.source 3) id full_file (IO_BUF_SIZE + 1)); [split; [split|]; vm_compute; discriminate|reflexivity|reflexivity|vm_compute; reflexivity].
Defined.

(** A back end that gives fewer bytes than wanted (a socket) can hide a subsection: its name is
    looked for with one read only.  The stream holds a subsection of "s", and the file that reads
    two bytes at a time does not find it. *)
Example short_reads_hide_subsection :
  VMState.peek_subsection "s" with_sub = Some ([115; 47; 97], [0; 0; 0; 1]) ∧
  ∃ f', file_peek_subsection (Demo.source 2) "s" (qemu_fopen_ops with_sub) = Ok (None, f') ∧ stream id f' = with_sub ∧ last_error f' = 0.
Proof. split; [vm_compute; reflexivity|]. eexists. split; [vm_compute; reflexivity|]. split; vm_compute; reflexivity. Qed.

End QemuFile.
