(* ===== verification/SaveVm.v ===== *)
(** Migration of a whole machine (savevm.c): the registry of what is to be saved, the sections of
    the stream, and saving and loading them.  Streams are lists of bytes, which the files of
    [QemuFile] implement; the state of a device is saved and loaded by its description
    ([VMState]), or by handlers of its own, which are arguments.  The machine is a flat memory. *)

From S2P Require Import Prelude VMState.

Module SaveVm.

Notation mem := VMState.mem.

(** ** Data *)

(** Handlers get the [opaque] pointer of their entry; those that write give what they append. *)
Record SaveVMHandlers : Type := mkHandlers {
  set_params : option (Z → mem → mem);
  save_state : option (Z → mem → res (list Z * mem));
  cancel : option (Z → mem → mem);
  save_live_complete : option (Z → mem → res (Z * list Z * mem));
  is_active : option (Z → mem → bool);
  save_live_iterate : option (Z → mem → res (Z * list Z * mem));
  save_live_setup : option (Z → mem → res (Z * list Z * mem));
  save_live_pending : option (Z → Z → mem → Z);
  load_state : option (list Z → Z → Z → mem → res (Z * list Z * mem));
}.

(** Names are strings of bytes that are not 0, at most 255 long.  A description comes with its
    address. *)
Record CompatEntry : Type := mkCompat { c_idstr : list Z; c_instance_id : Z }.
Record SaveStateEntry : Type := mkEntry {
  idstr : list Z;
  instance_id : Z;
  alias_id : Z;
  version_id : Z;
  section_id : Z;
  ops : option SaveVMHandlers;
  vmsd : option (Z * VMState.VMStateDescription);
  opaque : Z;
  compat : option CompatEntry;
  no_migrate : bool;
  is_ram : bool;
}.

(** [savevm_handlers] and [global_section_id]. *)
Record Registry : Type := mkReg {
  savevm_handlers : list SaveStateEntry;
  global_section_id : Z;
}.

(** ** Registering *)

(** [pstrcpy] and [pstrcat] into 256 bytes. *)
Definition pstrcat (buf s : list Z) : list Z := take 255 (buf ++ s).

Definition calculate_new_instance_id (id : list Z) (r : Registry) : Z :=
  foldl (λ n se, if bool_decide (id = idstr se) && (n <=? instance_id se) then s32 (instance_id se + 1) else n) 0 (savevm_handlers r).
Definition calculate_compat_instance_id (id : list Z) (r : Registry) : Z :=
  foldl (λ n se, match compat se with
                 | None => n
                 | Some c => if bool_decide (id = c_idstr c) && (n <=? c_instance_id c) then s32 (c_instance_id c + 1) else n
                 end) 0 (savevm_handlers r).

Definition slash : Z := 47.

(** The name, the instance and the compatible entry of a new entry; [path] is the path of the
    device, if there is a device and it has one. *)
Definition entry_names (path : option (list Z)) (name : list Z) (inst : Z) (r : Registry) : list Z * Z * option CompatEntry :=
  let '(buf, inst, c) :=
    match path with
    | None => ([], inst, None)
    | Some p => (pstrcat (pstrcat [] p) [slash], -1,
                 Some (mkCompat (pstrcat [] name) (if inst =? -1 then calculate_compat_instance_id name r else inst)))
    end in
  let id := pstrcat buf name in
  (id, if inst =? -1 then calculate_new_instance_id id r else inst, c).

Definition insert_entry (se : SaveStateEntry) (r : Registry) : res Registry :=
  if bool_decide (is_Some (compat se)) && negb (instance_id se =? 0) then Fault AssertFail
  else Ok (mkReg (savevm_handlers r ++ [se]) (s32 (global_section_id r + 1))).

Definition register_savevm_live (path : option (list Z)) (name : list Z) (inst version : Z) (o : SaveVMHandlers) (opq : Z) (r : Registry) : res Registry :=
  let '(id, inst, c) := entry_names path name inst r in
  insert_entry (mkEntry id inst 0 version (global_section_id r) (Some o) None opq c false (bool_decide (is_Some (save_live_setup o)))) r.

Definition register_savevm (path : option (list Z)) (name : list Z) (inst version : Z) (save : Z → mem → res (list Z * mem))
    (load : list Z → Z → Z → mem → res (Z * list Z * mem)) (opq : Z) (r : Registry) : res Registry :=
  register_savevm_live path name inst version (mkHandlers None (Some save) None None None None None None (Some load)) opq r.

Definition unregister_savevm (path : option (list Z)) (name : list Z) (opq : Z) (r : Registry) : Registry :=
  let id := pstrcat (match path with None => [] | Some p => pstrcat (pstrcat [] p) [slash] end) name in
  mkReg (filter (λ se, ¬ (idstr se = id ∧ opaque se = opq)) (savevm_handlers r)) (global_section_id r).

(** [a] is the address of the description, [unmigratable] its flag. *)
Definition vmstate_register_with_alias_id (path : option (list Z)) (inst a : Z) (v : VMState.VMStateDescription) (unmigratable : bool) (opq alias required : Z) (r : Registry)
  : res Registry :=
  if negb (alias =? -1) && (required <? VMState.vm_minimum_version_id v) then Fault AssertFail
  else
    let '(id, inst, c) := entry_names path (VMState.str_bytes (VMState.vm_name v)) inst r in
    insert_entry (mkEntry id inst alias (VMState.vm_version_id v) (global_section_id r) None (Some (a, v)) opq c unmigratable false) r.

Definition vmstate_unregister (a opq : Z) (r : Registry) : Registry :=
  mkReg (filter (λ se, ¬ (fst <$> vmsd se = Some a ∧ opaque se = opq)) (savevm_handlers r)) (global_section_id r).

(** ** Saving *)

Definition QEMU_VM_FILE_MAGIC : Z := 0x5145564d.
Definition QEMU_VM_FILE_VERSION_COMPAT : Z := 2.
Definition QEMU_VM_FILE_VERSION : Z := 3.
Definition QEMU_VM_EOF : Z := 0.
Definition QEMU_VM_SECTION_START : Z := 1.
Definition QEMU_VM_SECTION_PART : Z := 2.
Definition QEMU_VM_SECTION_END : Z := 3.
Definition QEMU_VM_SECTION_FULL : Z := 4.
Definition ENOTSUP : Z := 95.
Definition EIO : Z := 5.

Definition vmstate_load (se : SaveStateEntry) (version : Z) (inp : list Z) (m : mem) : res (Z * list Z * mem) :=
  match vmsd se with
  | Some (_, v) => VMState.vmstate_load_state v (opaque se) version inp m
  | None =>
      match ops se with
      | Some o => match load_state o with Some load => load inp (opaque se) version m | None => Fault NullDeref end
      | None => Fault NullDeref
      end
  end.
Definition vmstate_save (se : SaveStateEntry) (m : mem) : res (list Z * mem) :=
  match vmsd se with
  | Some (_, v) => VMState.vmstate_save_state v (opaque se) m
  | None =>
      match ops se with
      | Some o => match save_state o with Some save => save (opaque se) m | None => Fault NullDeref end
      | None => Fault NullDeref
      end
  end.

Definition qemu_savevm_state_blocked (r : Registry) : bool := existsb no_migrate (savevm_handlers r).

(** The stream written so far, the machine and the error of the file. *)
Record Saving : Type := mkSaving { out : list Z; smem : mem; serr : Z }.
Definition put (l : list Z) (w : Saving) : Saving := mkSaving (out w ++ l) (smem w) (serr w).
Definition set_serr (e : Z) (w : Saving) : Saving := mkSaving (out w) (smem w) (if serr w =? 0 then e else serr w).

(** The type, the section, the name, the instance and the version. *)
Definition section_header (type : Z) (se : SaveStateEntry) : list Z :=
  [type] ++ be_bytes 4 (section_id se) ++ [u8 (Z.of_nat (length (idstr se)))] ++ idstr se ++ be_bytes 4 (instance_id se) ++ be_bytes 4 (version_id se).

(** What a live handler appends. *)
Definition run_live (f : Z → mem → res (Z * list Z * mem)) (se : SaveStateEntry) (w : Saving) : res (Z * Saving) :=
  '(ret, l, m) ← f (opaque se) (smem w); Ok (ret, mkSaving (out w ++ l) m (serr w)).
Definition active (o : SaveVMHandlers) (se : SaveStateEntry) (m : mem) : bool :=
  match is_active o with Some a => a (opaque se) m | None => true end.

Section Save.
(** Whether the file's rate limit is exceeded; what the processors do to bring their state to memory,
    and to take it from there. *)
Context (rate_limit : Saving → bool) (cpu_synchronize_all_states cpu_synchronize_all_post_init : mem → mem).

Definition set_all_params (l : list SaveStateEntry) (m : mem) : mem :=
  foldl (λ m se, match ops se with Some o => match set_params o with Some f => f (opaque se) m | None => m end | None => m end) m l.

Fixpoint begin_loop (l : list SaveStateEntry) (w : Saving) : res Saving :=
  match l with
  | [] => Ok w
  | se :: l =>
      match ops se with
      | Some o =>
          match save_live_setup o with
          | Some f =>
              if active o se (smem w) then
                '(ret, w) ← run_live f se (put (section_header QEMU_VM_SECTION_START se) w);
                if ret <? 0 then Ok (set_serr ret w) else begin_loop l w
              else begin_loop l w
          | None => begin_loop l w
          end
      | None => begin_loop l w
      end
  end.
Definition qemu_savevm_state_begin (r : Registry) (w : Saving) : res Saving :=
  let w := mkSaving (out w) (set_all_params (savevm_handlers r) (smem w)) (serr w) in
  begin_loop (savevm_handlers r) (put (be_bytes 4 QEMU_VM_FILE_MAGIC ++ be_bytes 4 QEMU_VM_FILE_VERSION) w).

Fixpoint iterate_loop (l : list SaveStateEntry) (ret : Z) (w : Saving) : res (Z * Saving) :=
  match l with
  | [] => Ok (ret, w)
  | se :: l =>
      match ops se with
      | Some o =>
          match save_live_iterate o with
          | Some f =>
              if active o se (smem w) then
                if rate_limit w then Ok (0, w)
                else
                  '(ret, w) ← run_live f se (put ([QEMU_VM_SECTION_PART] ++ be_bytes 4 (section_id se)) w);
                  let w := if ret <? 0 then set_serr ret w else w in
                  if ret <=? 0 then Ok (ret, w) else iterate_loop l ret w
              else iterate_loop l ret w
          | None => iterate_loop l ret w
          end
      | None => iterate_loop l ret w
      end
  end.
Definition qemu_savevm_state_iterate (r : Registry) (w : Saving) : res (Z * Saving) := iterate_loop (savevm_handlers r) 1 w.

(** The result tells whether the function goes on. *)
Fixpoint complete_loop (l : list SaveStateEntry) (w : Saving) : res (bool * Saving) :=
  match l with
  | [] => Ok (true, w)
  | se :: l =>
      match ops se with
      | Some o =>
          match save_live_complete o with
          | Some f =>
              if active o se (smem w) then
                '(ret, w) ← run_live f se (put ([QEMU_VM_SECTION_END] ++ be_bytes 4 (section_id se)) w);
                if ret <? 0 then Ok (false, set_serr ret w) else complete_loop l w
              else complete_loop l w
          | None => complete_loop l w
          end
      | None => complete_loop l w
      end
  end.
Definition savable (se : SaveStateEntry) : bool :=
  match vmsd se with Some _ => true | None => match ops se with Some o => bool_decide (is_Some (save_state o)) | None => false end end.
Fixpoint full_loop (l : list SaveStateEntry) (w : Saving) : res Saving :=
  match l with
  | [] => Ok w
  | se :: l =>
      if savable se then
        let w := put (section_header QEMU_VM_SECTION_FULL se) w in
        '(d, m) ← vmstate_save se (smem w);
        full_loop l (mkSaving (out w ++ d) m (serr w))
      else full_loop l w
  end.
Definition synchronize (w : Saving) : Saving := mkSaving (out w) (cpu_synchronize_all_states (smem w)) (serr w).
Definition qemu_savevm_state_complete (r : Registry) (w : Saving) : res Saving :=
  '(go, w) ← complete_loop (savevm_handlers r) (synchronize w);
  if negb go then Ok w
  else w ← full_loop (savevm_handlers r) w; Ok (put [QEMU_VM_EOF] w).

Definition qemu_savevm_state_pending (r : Registry) (max_size : Z) (m : mem) : Z :=
  foldl (λ n se, match ops se with
                 | Some o => match save_live_pending o with Some f => if active o se m then u64 (n + f (opaque se) max_size m) else n | None => n end
                 | None => n
                 end) 0 (savevm_handlers r).
Definition qemu_savevm_state_cancel (r : Registry) (w : Saving) : Saving :=
  mkSaving (out w) (foldl (λ m se, match ops se with Some o => match cancel o with Some f => f (opaque se) m | None => m end | None => m end) (smem w) (savevm_handlers r)) (serr w).

(** [while (qemu_file_get_error(f) == 0)]. *)
Fixpoint savevm_loop (fuel : nat) (r : Registry) (w : Saving) : res Saving :=
  if negb (serr w =? 0) then Ok w
  else
    match fuel with
    | O => Diverge
    | S fuel => '(ret, w) ← qemu_savevm_state_iterate r w; if 0 <? ret then Ok w else savevm_loop fuel r w
    end.
Definition qemu_savevm_state (fuel : nat) (r : Registry) (w : Saving) : res (Z * Saving) :=
  if qemu_savevm_state_blocked r then Ok (- VMState.EINVAL, w)
  else
    w ← qemu_savevm_state_begin r w;
    w ← savevm_loop fuel r w;
    w ← (if serr w =? 0 then qemu_savevm_state_complete r w else Ok w);
    Ok (serr w, if negb (serr w =? 0) then qemu_savevm_state_cancel r w else w).

Definition qemu_save_device_state (r : Registry) (w : Saving) : res (Z * Saving) :=
  let w := put (be_bytes 4 QEMU_VM_FILE_MAGIC ++ be_bytes 4 QEMU_VM_FILE_VERSION) w in
  w ← full_loop (filter (λ se, is_ram se = false) (savevm_handlers r)) (synchronize w);
  let w := put [QEMU_VM_EOF] w in
  Ok (serr w, w).

(** ** Loading *)

(** [strstr(s, t) != NULL]. *)
Fixpoint strstr (s t : list Z) : bool :=
  bool_decide (take (length t) s = t) || match s with [] => false | _ :: s => strstr s t end.

Definition se_matches (id : list Z) (inst : Z) (se : SaveStateEntry) : bool :=
  (bool_decide (idstr se = id) && ((inst =? instance_id se) || (inst =? alias_id se))) ||
  match compat se with
  | Some c => strstr (idstr se) id && bool_decide (c_idstr c = id) && ((inst =? c_instance_id c) || (inst =? alias_id se))
  | None => false
  end.
Definition find_se (id : list Z) (inst : Z) (r : Registry) : option SaveStateEntry :=
  List.find (se_matches id inst) (savevm_handlers r).

(** A section that has been started: its number, its entry and its version. *)
Record LoadStateEntry : Type := mkLoad { l_section_id : Z; l_se : SaveStateEntry; l_version_id : Z }.

(** The name in [idstr[257]], whose old contents are [junk], when [len] bytes were wanted. *)
Definition read_name (junk l : list Z) (len : Z) : list Z := VMState.cstring (l ++ drop (length l) (take (Z.to_nat len) junk)).

Context (junk : list Z).

(** One round of the loop over the sections per unit of fuel; the last result tells whether the
    loop ran into the end of the stream, which records an error of the file. *)
Fixpoint loadvm_loop (fuel : nat) (les : list LoadStateEntry) (r : Registry) (inp : list Z) (m : mem) : res (Z * list Z * mem * bool) :=
  match fuel with
  | O => Diverge
  | S fuel =>
      let at_end := bool_decide (inp = []) in
      let '(type, inp) := VMState.qemu_get_byte inp in
      if type =? QEMU_VM_EOF then Ok (0, inp, m, at_end)
      else if (type =? QEMU_VM_SECTION_START) || (type =? QEMU_VM_SECTION_FULL) then
        let '(b, inp) := VMState.qemu_get_bytes 4 inp in
        let sid := be_val b in
        let '(len, inp) := VMState.qemu_get_byte inp in
        let '(l, inp) := VMState.qemu_get_buffer (Z.to_nat len) inp in
        let id := read_name junk l len in
        let '(b, inp) := VMState.qemu_get_bytes 4 inp in
        let inst := be_val b in
        let '(b, inp) := VMState.qemu_get_bytes 4 inp in
        let version := be_val b in
        match find_se id (s32 inst) r with
        | None => Ok (- VMState.EINVAL, inp, m, false)
        | Some se =>
            if u32 (version_id se) <? version then Ok (- VMState.EINVAL, inp, m, false)
            else
              '(ret, inp, m) ← vmstate_load se (s32 version) inp m;
              if ret <? 0 then Ok (ret, inp, m, false)
              else loadvm_loop fuel (mkLoad (s32 sid) se (s32 version) :: les) r inp m
        end
      else if (type =? QEMU_VM_SECTION_PART) || (type =? QEMU_VM_SECTION_END) then
        let '(b, inp) := VMState.qemu_get_bytes 4 inp in
        let sid := be_val b in
        match List.find (λ le, u32 (l_section_id le) =? sid) les with
        | None => Ok (- VMState.EINVAL, inp, m, false)
        | Some le =>
            '(ret, inp, m) ← vmstate_load (l_se le) (l_version_id le) inp m;
            if ret <? 0 then Ok (ret, inp, m, false) else loadvm_loop fuel les r inp m
        end
      else Ok (- VMState.EINVAL, inp, m, false)
  end.

(** The result and the machine. *)
Definition qemu_loadvm_state (r : Registry) (inp : list Z) (m : mem) : res (Z * mem) :=
  if qemu_savevm_state_blocked r then Ok (- VMState.EINVAL, m)
  else
    let '(b, inp) := VMState.qemu_get_bytes 4 inp in
    if negb (be_val b =? QEMU_VM_FILE_MAGIC) then Ok (- VMState.EINVAL, m)
    else
      let '(b, inp) := VMState.qemu_get_bytes 4 inp in
      if be_val b =? QEMU_VM_FILE_VERSION_COMPAT then Ok (- ENOTSUP, m)
      else if negb (be_val b =? QEMU_VM_FILE_VERSION) then Ok (- ENOTSUP, m)
      else
        '(ret, inp, m, at_end) ← loadvm_loop (S (length inp)) [] r inp m;
        if ret =? 0 then Ok (if (at_end : bool) then - EIO else 0, cpu_synchronize_all_post_init m)
        else Ok (ret, m).
End Save.

(** ** The numbers of instances *)

(** The entries of [l] with name [id] have numbers that can be counted up. *)
Definition countable_ids (id : list Z) (l : list SaveStateEntry) : Prop :=
  Forall (λ se, idstr se = id → 0 ≤ instance_id se < 2 ^ 31 - 1) l.

Lemma new_instance_loop id l n :
  countable_ids id l → 0 ≤ n →
  let k := foldl (λ n se, if bool_decide (id = idstr se) && (n <=? instance_id se) then s32 (instance_id se + 1) else n) n l in
  n ≤ k ∧ Forall (λ se, idstr se = id → instance_id se < k) l ∧ (k = n ∨ ∃ se, se ∈ l ∧ idstr se = id ∧ k = instance_id se + 1).
Proof.
  intros Hl. revert n. induction Hl as [|se l Hse _ IH]; intros n Hn; cbn [foldl]; [split; [lia|split; [constructor|by left]]|].
  set (n' := if bool_decide (id = idstr se) && (n <=? instance_id se) then s32 (instance_id se + 1) else n).
  assert (Hn' : n ≤ n' ∧ (idstr se = id → instance_id se < n') ∧ (n' = n ∨ idstr se = id ∧ n' = instance_id se + 1)).
  { unfold n'. destruct (decide (id = idstr se)) as [He|He].
    - rewrite bool_decide_eq_true_2 by done. specialize (Hse (eq_sym He)). destruct (Z.leb_spec n (instance_id se)); cbn [andb]; [rewrite s32_small by lia|]; (split; [lia|split; [lia|]]); [right; split; [done|lia]|by left].
    - rewrite bool_decide_eq_false_2 by done. cbn [andb]. split; [lia|]. split; [by intros E; destruct He|by left]. }
  destruct Hn' as (H1 & H2 & H3). destruct (IH n' ltac:(lia)) as (H4 & H5 & H6). cbn zeta in *. split; [lia|]. split.
  - apply Forall_cons. split; [intros E; specialize (H2 E); lia|done].
  - destruct H6 as [E|(se' & Hin & Hid & E)]; [|right; exists se'; split; [by right|done]]. rewrite E. destruct H3 as [->|[Hid Hk]]; [by left|]. right. exists se. split; [by left|done].
Qed.

(** Entries that are found under their own name and number. *)
Definition unambiguous (r : Registry) : Prop :=
  ∀ i se, savevm_handlers r !! i = Some se → find_se (idstr se) (instance_id se) r = Some se.
(** Entries of devices without a path and without aliases. *)
Definition plain_entry (se : SaveStateEntry) : Prop := compat se = None ∧ alias_id se = -1 ∧ 0 ≤ instance_id se < 2 ^ 31 - 1.

Lemma plain_matches id inst se : plain_entry se → 0 ≤ inst → se_matches id inst se = bool_decide (idstr se = id ∧ instance_id se = inst).
Proof.
  intros (Hc & Ha & _) Hi. unfold se_matches. rewrite Hc, Ha, orb_false_r. rewrite (proj2 (Z.eqb_neq inst (-1))) by lia. rewrite orb_false_r.
  destruct (decide (idstr se = id)) as [He|He]; [|by rewrite (bool_decide_eq_false_2 (idstr se = id)), bool_decide_eq_false_2 by tauto].
  rewrite (bool_decide_eq_true_2 (idstr se = id)) by done. cbn [andb]. destruct (Z.eqb_spec inst (instance_id se)); [by rewrite bool_decide_eq_true_2|]. rewrite bool_decide_eq_false_2; [done|]. intros [_ ?]. congruence.
Qed.
Lemma find_app {A} (f : A → bool) l l' : List.find f (l ++ l') = match List.find f l with Some x => Some x | None => List.find f l' end.
Proof. induction l as [|x l IH]; [done|]. cbn. by destruct (f x). Qed.

(** Registering without a number gives a new one: every entry, the new one included, is found under
    its own name and number, for devices without a path. *)
Theorem register_new_instance a v u opq req r r' :
  Forall plain_entry (savevm_handlers r) → unambiguous r → calculate_new_instance_id (pstrcat [] (VMState.str_bytes (VMState.vm_name v))) r < 2 ^ 31 - 1 →
  vmstate_register_with_alias_id None (-1) a v u opq (-1) req r = Ok r' →
  Forall plain_entry (savevm_handlers r') ∧ unambiguous r' ∧
  ∃ se, savevm_handlers r' = savevm_handlers r ++ [se] ∧ vmsd se = Some (a, v) ∧ opaque se = opq ∧
    Forall (λ se', idstr se' = idstr se → instance_id se' < instance_id se) (savevm_handlers r).
Proof.
  intros Hp Hu Hn. unfold vmstate_register_with_alias_id. cbn [Z.eqb negb andb]. unfold entry_names. change (-1 =? -1) with true. cbv iota. cbn [andb negb].
  set (id := pstrcat [] _) in *. set (k := calculate_new_instance_id id r) in *. unfold insert_entry. cbn [compat]. rewrite bool_decide_eq_false_2 by (by intros [? ?]). cbn [andb]. intros [= <-]. cbn [savevm_handlers].
  set (se := mkEntry _ _ _ _ _ _ _ _ _ _ _). assert (Hc : countable_ids id (savevm_handlers r)) by (eapply Forall_impl; [exact Hp|]; by intros x (_ & _ & ?) _).
  destruct (new_instance_loop id (savevm_handlers r) 0 Hc ltac:(lia)) as (H1 & H2 & _). cbn zeta in *. fold (calculate_new_instance_id id r) in H1, H2. fold k in H1, H2.
  assert (Hse : plain_entry se) by (split; [done|]; split; [done|]; cbn; lia). split; [apply Forall_app; split; [done|by apply Forall_singleton]|]. split; [|by exists se].
  intros i x Hx. unfold find_se. cbn [savevm_handlers] in *. rewrite find_app. apply lookup_app_Some in Hx as [Hx|[Hi Hx]].
  - specialize (Hu i x Hx). unfold find_se in Hu. by rewrite Hu.
  - apply list_lookup_singleton_Some in Hx as [_ <-]. destruct (List.find _ (savevm_handlers r)) as [y|] eqn:Ey.
    + apply find_some in Ey as [Hin Hm]. apply list_elem_of_In in Hin. rewrite Forall_forall in Hp, H2. rewrite (plain_matches _ _ y (Hp y Hin)) in Hm by (cbn; lia).
      apply bool_decide_eq_true in Hm as [E1 E2]. specialize (H2 y Hin E1). cbn in *. lia.
    + cbn [List.find]. rewrite (plain_matches _ _ se Hse) by (cbn; lia). by rewrite bool_decide_eq_true_2.
Qed.

(** ** Migration of a machine *)

(** A device with a description, on the two machines: the entries there, the description, its
    optional subsection, the size of the structure and the state. *)
Record Dev : Type := mkDev {
  d_se : SaveStateEntry;
  d_te : SaveStateEntry;
  d_v : VMState.VMStateDescription;
  d_sub : option VMState.VMStateSubsection;
  d_sz : Z;
  d_st : Z → Z;
}.

(** The bytes of the structure that migrate. *)
Definition d_ranges (ms : mem) (d : Dev) : list (Z * Z) :=
  VMState.state_ranges (d_v d) ++
  match d_sub d with Some s => if VMState.s_needed s ms (opaque (d_se d)) then VMState.state_ranges (VMState.s_vmsd s) else [] | None => [] end.

(** The source holds the state, the destination has a counterpart with room for it, and the
    description is one that [VMState] carries over. *)
Record portable (rt : Registry) (ms mt : mem) (d : Dev) : Prop := {
  p_se : ∃ a, vmsd (d_se d) = Some (a, d_v d);
  p_te : ∃ a, vmsd (d_te d) = Some (a, d_v d);
  p_id : Forall (λ b, 0 < b < 256) (idstr (d_se d)) ∧ (length (idstr (d_se d)) ≤ 255)%nat;
  p_inst : 0 ≤ instance_id (d_se d) < 2 ^ 31;
  p_version : version_id (d_se d) = VMState.vm_version_id (d_v d) ∧ version_id (d_te d) = VMState.vm_version_id (d_v d) ∧ 0 ≤ VMState.vm_version_id (d_v d) < 2 ^ 31;
  p_found : find_se (idstr (d_se d)) (instance_id (d_se d)) rt = Some (d_te d);
  p_sz : d_sz d < 2 ^ 31;
  p_flat : VMState.flat (d_sz d) (d_v d);
  p_subs : VMState.vm_subsections (d_v d) = option_list (d_sub d);
  p_sub : ∀ s, d_sub d = Some s → VMState.flat_sub (d_sz d) (VMState.vm_name (d_v d)) s ∧ VMState.bool_fields (VMState.s_vmsd s) (d_st d);
  p_holds : VMState.holds_state ms (opaque (d_se d)) (d_sz d) (d_st d);
  p_bools : VMState.bool_fields (d_v d) (d_st d);
  p_mapped : VMState.mapped mt (opaque (d_te d)) (Z.to_nat (d_sz d)) = true;
}.

(** The destination after some devices have been loaded, one after the other. *)
Fixpoint loaded (ms : mem) (ds : list Dev) (m m' : mem) : Prop :=
  match ds with
  | [] => m' = m
  | d :: ds => ∃ m1, VMState.restored (opaque (d_te d)) (d_st d) (d_ranges ms d) m m1 ∧ loaded ms ds m1 m'
  end.

Lemma no_subsection name b l : b ≠ VMState.QEMU_VM_SUBSECTION → VMState.peek_subsection name (b :: l) = None.
Proof. intros Hb. unfold VMState.peek_subsection. cbn [nth]. by destruct (Z.eqb_spec b VMState.QEMU_VM_SUBSECTION). Qed.

(** What is behind a device: another section or the end. *)
Definition behind (l : list Z) : Prop := ∃ b l', l = b :: l' ∧ (b = QEMU_VM_SECTION_FULL ∨ b = QEMU_VM_EOF).
Lemma behind_peek name l : behind l → VMState.peek_subsection name l = None.
Proof. intros (b & l' & -> & [-> | ->]); by apply no_subsection. Qed.

Lemma portable_saves rt ms mt d rest :
  portable rt ms mt d → behind rest →
  ∃ body m2, vmstate_save (d_se d) ms = Ok (body, ms) ∧
    vmstate_load (d_te d) (VMState.vm_version_id (d_v d)) (body ++ rest) mt = Ok (0, rest, m2) ∧ VMState.restored (opaque (d_te d)) (d_st d) (d_ranges ms d) mt m2.
Proof.
  intros Hp Hr. destruct (p_se _ _ _ _ Hp) as [a Hse]. destruct (p_te _ _ _ _ Hp) as [a' Hte]. unfold vmstate_save, vmstate_load. rewrite Hse, Hte.
  apply (VMState.vmstate_roundtrip (d_sz d) (p_sz _ _ _ _ Hp) (d_v d) (d_sub d) (opaque (d_se d)) (opaque (d_te d)) (d_st d) ms mt rest); try apply Hp.
  - intros s Hs. destruct (p_sub _ _ _ _ Hp s Hs) as [H1 H2]. split; [done|]. split; [done|]. by apply behind_peek.
  - by apply behind_peek.
Qed.

Lemma cstring_id l : Forall (λ b, 0 < b < 256) l → VMState.cstring l = l.
Proof. induction 1 as [|b l Hb _ IH]; [done|]. cbn. destruct (Z.eqb_spec b 0); [lia|]. by rewrite IH. Qed.
Lemma get_be l rest n v : l = be_bytes n v → VMState.qemu_get_bytes n (l ++ rest) = (be_bytes n v, rest).
Proof. intros ->. pose proof (VMState.get_bytes_app (be_bytes n v) rest) as Hg. by rewrite length_be_bytes in Hg. Qed.

Section Load.
Context (sync post : mem → mem) (junk : list Z).

Lemma load_header fuel les r se rest m :
  Forall (λ b, 0 < b < 256) (idstr se) → (length (idstr se) ≤ 255)%nat → 0 ≤ instance_id se < 2 ^ 31 → 0 ≤ version_id se < 2 ^ 31 →
  loadvm_loop junk (S fuel) les r (section_header QEMU_VM_SECTION_FULL se ++ rest) m =
  match find_se (idstr se) (instance_id se) r with
  | None => Ok (- VMState.EINVAL, rest, m, false)
  | Some te =>
      if u32 (version_id te) <? version_id se then Ok (- VMState.EINVAL, rest, m, false)
      else
        '(ret, inp, m) ← vmstate_load te (version_id se) rest m;
        if ret <? 0 then Ok (ret, inp, m, false)
        else loadvm_loop junk fuel (mkLoad (s32 (be_val (be_bytes 4 (section_id se)))) te (version_id se) :: les) r inp m
  end.
Proof.
  intros Hid Hlen Hi Hv. unfold section_header. rewrite <-!app_assoc. cbn [app loadvm_loop VMState.qemu_get_byte].
  change (QEMU_VM_SECTION_FULL =? QEMU_VM_EOF) with false. change ((QEMU_VM_SECTION_FULL =? QEMU_VM_SECTION_START) || (QEMU_VM_SECTION_FULL =? QEMU_VM_SECTION_FULL)) with true. cbv iota.
  rewrite (get_be _ _ 4 (section_id se) eq_refl). cbn [VMState.qemu_get_byte]. rewrite (u8_small (Z.of_nat (length (idstr se)))) by (unfold fits; lia).
  unfold VMState.qemu_get_buffer. rewrite Nat2Z.id, take_app_length, drop_app_length. rewrite (get_be _ _ 4 (instance_id se) eq_refl), (get_be _ _ 4 (version_id se) eq_refl).
  unfold read_name. rewrite Nat2Z.id, drop_ge, app_nil_r, (cstring_id _ Hid) by (rewrite length_take; lia).
  rewrite (be_val_be_bytes 4 (instance_id se)), (be_val_be_bytes 4 (version_id se)). rewrite (Z.mod_small (instance_id se)), (Z.mod_small (version_id se)) by lia. rewrite (s32_small (instance_id se)), (s32_small (version_id se)) by lia. done.
Qed.

Definition body_of (ms : mem) (d : Dev) : list Z := match vmstate_save (d_se d) ms with Ok (l, _) => l | _ => [] end.
Definition sections (ms : mem) (ds : list Dev) : list Z := concat ((λ d, section_header QEMU_VM_SECTION_FULL (d_se d) ++ body_of ms d) <$> ds).

Lemma behind_sections ms ds : behind (sections ms ds ++ [QEMU_VM_EOF]).
Proof. destruct ds as [|d ds]; [exists QEMU_VM_EOF, []; split; [done|by right]|]. eexists _, _. split; [reflexivity|by left]. Qed.

Lemma portable_keeps rt ms m m' d d' st rs : VMState.restored (opaque d') st rs m m' → portable rt ms m d → portable rt ms m' d.
Proof.
  intros Hr Hp. destruct Hp as [H1 H2 H3 H4 H5 H6 H0 H7 H8 H9 H10 H11 H12]. split; try done. apply VMState.mapped_spec. intros i Hi. eapply VMState.restored_mapped; [exact Hr|]. by apply (proj1 (VMState.mapped_spec _ _ _) H12).
Qed.

(** The loop over the sections of some devices. *)
Lemma load_sections rt ms ds fuel les m :
  Forall (portable rt ms m) ds → (length ds < fuel)%nat →
  ∃ m', loadvm_loop junk fuel les rt (sections ms ds ++ [QEMU_VM_EOF]) m = Ok (0, [], m', false) ∧ loaded ms ds m m'.
Proof.
  revert fuel les m. induction ds as [|d ds IH]; intros fuel les m Hp Hf; (destruct fuel as [|fuel]; [cbn in Hf; lia|]); [by exists m|].
  apply Forall_cons in Hp as [Hd Hds]. unfold sections. cbn [fmap list_fmap concat]. fold (sections ms ds). rewrite <-!app_assoc.
  destruct (p_id _ _ _ _ Hd) as [Hi1 Hi2]. destruct (p_version _ _ _ _ Hd) as (Hv1 & Hv2 & Hv3). rewrite load_header; [|done|done|apply Hd|lia].
  rewrite (p_found _ _ _ _ Hd), Hv1, Hv2. rewrite (u32_small (VMState.vm_version_id (d_v d))), Z.ltb_irrefl by (unfold fits; lia).
  destruct (portable_saves rt ms m d _ Hd (behind_sections ms ds)) as (body & m1 & Hs & Hl & Hr). unfold body_of. rewrite Hs, Hl. cbn [mbind res_bind]. change (0 <? 0) with false. cbv iota.
  destruct (IH fuel (mkLoad (s32 (be_val (be_bytes 4 (section_id (d_se d))))) (d_te d) (VMState.vm_version_id (d_v d)) :: les) m1) as (m' & Hm' & Hc); [|cbn in Hf; lia|].
  { eapply Forall_impl; [exact Hds|]. intros d' Hd'. by eapply portable_keeps. }
  exists m'. split; [exact Hm'|]. by exists m1.
Qed.

Lemma full_sections rt mt ms e ds pre :
  Forall (portable rt ms mt) ds → full_loop (d_se <$> ds) (mkSaving pre ms e) = Ok (mkSaving (pre ++ sections ms ds) ms e).
Proof.
  intros Hp. revert pre. induction Hp as [|d ds Hd _ IH]; intros pre; [by rewrite app_nil_r|]. cbn [fmap list_fmap full_loop]. destruct (p_se _ _ _ _ Hd) as [a Hse].
  unfold savable at 1. rewrite Hse. cbn [put out smem serr]. destruct (portable_saves rt ms mt d _ Hd (behind_sections ms ds)) as (body & m1 & Hs & _). rewrite Hs. cbn [mbind res_bind]. rewrite IH.
  do 2 f_equal. unfold sections. cbn [fmap list_fmap concat]. unfold body_of. rewrite Hs. by rewrite <-!app_assoc.
Qed.
End Load.

(** What the chain of loads leaves, when the destinations do not overlap. *)
Definition apart (d d' : Dev) : Prop := opaque (d_te d) + d_sz d ≤ opaque (d_te d') ∨ opaque (d_te d') + d_sz d' ≤ opaque (d_te d).

Lemma loaded_frame ms ds m m' a :
  loaded ms ds m m' → (∀ d, d ∈ ds → VMState.in_ranges (d_ranges ms d) (a - opaque (d_te d)) = false) → m' !! a = m !! a.
Proof.
  revert m. induction ds as [|d ds IH]; intros m Hl Ha; [by rewrite Hl|]. destruct Hl as (m1 & Hr & Hl). rewrite (IH m1 Hl) by (intros d' Hd'; apply Ha; by right).
  rewrite Hr, (Ha d) by (by left). done.
Qed.

(** The migrating bytes lie in the structure. *)
Lemma ranges_within sz v : VMState.flat sz v → VMState.within sz (VMState.state_ranges v).
Proof.
  intros Hv. unfold VMState.state_ranges, VMState.within. pose proof (VMState.fl_fields _ _ Hv) as Hf. induction Hf as [|f fs [Hs _] _ IH]; [constructor|]. cbn [fmap list_fmap concat].
  apply Forall_app. split; [|done]. unfold VMState.field_ranges. destruct (VMState.f_present f _); [|constructor]. apply Forall_concat, Forall_fmap, Forall_forall. intros k Hk. apply elem_of_seqZ in Hk.
  cbn. destruct Hs. unfold VMState.enc_ranges. destruct (VMState.info_of f); try apply Forall_nil_2; apply Forall_singleton; nia.
Qed.
Lemma d_ranges_within rt ms mt d : portable rt ms mt d → VMState.within (d_sz d) (d_ranges ms d).
Proof.
  intros Hp. unfold d_ranges. apply Forall_app. split; [apply ranges_within, Hp|]. destruct (d_sub d) as [s|] eqn:Es; [|constructor]. destruct (VMState.s_needed s ms _); [|constructor].
  destruct (p_sub _ _ _ _ Hp s Es) as [[H1 _ _ _] _]. by apply ranges_within.
Qed.

Lemma loaded_all rt ms mt ds m m' :
  Forall (portable rt ms mt) ds → ForallOrdPairs apart ds → loaded ms ds m m' →
  ∀ d o, d ∈ ds → VMState.in_ranges (d_ranges ms d) o = true → m' !! (opaque (d_te d) + o) = Some (d_st d o).
Proof.
  intros Hp Ha. revert m. induction Ha as [|d ds Hd _ IH]; intros m Hl d' o Hin Ho; [by apply not_elem_of_nil in Hin|]. apply Forall_cons in Hp as [Hpd Hp]. destruct Hl as (m1 & Hr & Hl).
  apply elem_of_cons in Hin as [->|Hin]; [|by eapply IH]. rewrite (loaded_frame ms ds m1 m' _ Hl).
  - rewrite Hr. replace (opaque (d_te d) + o - opaque (d_te d)) with o by lia. by rewrite Ho.
  - intros e He. destruct (VMState.in_ranges (d_ranges ms e) _) eqn:Ee; [|done]. rewrite Forall_forall in Hp, Hd. specialize (Hp e He). specialize (Hd e He) as Hap.
    apply (VMState.in_ranges_within _ _ _ (d_ranges_within _ _ _ _ Hp)) in Ee. apply (VMState.in_ranges_within _ _ _ (d_ranges_within _ _ _ _ Hpd)) in Ho. unfold apart in Hap. lia.
Qed.

Lemma length_sections ms ds : (length ds ≤ length (sections ms ds))%nat.
Proof.
  induction ds as [|d ds IH]; [done|]. change (sections ms (d :: ds)) with ((section_header QEMU_VM_SECTION_FULL (d_se d) ++ body_of ms d) ++ sections ms ds).
  rewrite length_app, length_app. unfold section_header. rewrite length_app. cbn [length]. lia.
Qed.

(** C20: A machine of simple devices migrates.  Let every entry of the source that is not RAM be
    described by a table (no entry with its own save and load functions) that is flat: it has no
    hooks, no nested structures and no pointers, its fields have a fixed place and length and lie in
    the structure, booleans hold 0 or 1, and there is at most one subsection, flat too; so neither
    the e1000 nor any other PCI device is one of them; let the destination, not blocked for
    migration, have for each an entry of the same name, number, description and version, whose
    memory exists and overlaps that of no other ([portable], [apart]).  Then what
    [qemu_save_device_state] writes, [qemu_loadvm_state] reads into the destination: both report
    success, every byte that the descriptions cover is, for every device, the one of the source,
    and no other byte of the destination changes. *)
Theorem machine_migrates sync post junk rs rt ds m0 mt :
  filter (λ se, is_ram se = false) (savevm_handlers rs) = d_se <$> ds →
  qemu_savevm_state_blocked rt = false →
  Forall (portable rt (sync m0) mt) ds → ForallOrdPairs apart ds →
  ∃ w m', qemu_save_device_state sync rs (mkSaving [] m0 0) = Ok (0, w) ∧
    qemu_loadvm_state post junk rt (out w) mt = Ok (0, post m') ∧
    (∀ d o, d ∈ ds → VMState.in_ranges (d_ranges (sync m0) d) o = true → m' !! (opaque (d_te d) + o) = Some (d_st d o)) ∧
    (∀ a, (∀ d, d ∈ ds → VMState.in_ranges (d_ranges (sync m0) d) (a - opaque (d_te d)) = false) → m' !! a = mt !! a).
Proof.
  intros Hrs Hrt Hp Ha. set (ms := sync m0) in *. unfold qemu_save_device_state. rewrite Hrs. unfold synchronize, put. cbn [out smem serr app]. fold ms.
  rewrite (full_sections rt mt ms 0 ds _ Hp). cbn [mbind res_bind out smem serr]. unfold qemu_loadvm_state. rewrite Hrt.
  set (inp := sections ms ds ++ [QEMU_VM_EOF]). assert (Hlen : (length ds < S (length inp))%nat).
  { unfold inp. rewrite length_app. pose proof (length_sections ms ds). lia. }
  destruct (load_sections junk rt ms ds (S (length inp)) [] mt Hp Hlen) as (m' & Hm' & Hl). eexists _, m'. split; [reflexivity|]. cbn [out]. rewrite <-!app_assoc. fold inp.
  rewrite (get_be _ _ 4 QEMU_VM_FILE_MAGIC eq_refl). change (negb (be_val (be_bytes 4 QEMU_VM_FILE_MAGIC) =? QEMU_VM_FILE_MAGIC)) with false. cbv match.
  rewrite (get_be _ _ 4 QEMU_VM_FILE_VERSION eq_refl). change (be_val (be_bytes 4 QEMU_VM_FILE_VERSION) =? QEMU_VM_FILE_VERSION_COMPAT) with false.
  change (negb (be_val (be_bytes 4 QEMU_VM_FILE_VERSION) =? QEMU_VM_FILE_VERSION)) with false. cbv match. fold inp in Hm'. rewrite Hm'. cbn [mbind res_bind]. split; [done|]. split.
  - by eapply loaded_all.
  - intros a. by apply loaded_frame.
Qed.

(** ** Two machines with two devices each *)
Module Demo.
Definition l1 : list Z := [1; 2; 3; 4; 5; 6; 7; 8; 9; 1].
Definition l2 : list Z := [0; 20; 30; 40; 50; 60; 70; 80; 90; 0].
Definition ms : mem := awrite (awrite ∅ 0 l1) 100 l2.
Definition mt : mem := awrite (awrite ∅ 200 (replicate 10 0)) 300 (replicate 10 0).
Definition empty : Registry := mkReg [] 0.
(** Both devices have the description of name "dev"; they get the numbers 0 and 1. *)
Definition add (opq : Z) (r : Registry) : Registry :=
  match vmstate_register_with_alias_id None (-1) 7 VMState.small false opq (-1) 0 r with Ok r' => r' | _ => r end.
Definition rs : Registry := add 100 (add 0 empty).
Definition rt : Registry := add 300 (add 200 empty).
Definition entry (i : nat) (r : Registry) : SaveStateEntry := nth i (savevm_handlers r) (mkEntry [] 0 0 0 0 None None 0 None false false).
Definition dev (i : nat) (l : list Z) : Dev := mkDev (entry i rs) (entry i rt) VMState.small (Some VMState.small_sub) 10 (λ o, nth (Z.to_nat o) l 0).
Definition devs : list Dev := [dev 0 l1; dev 1 l2].

Lemma names : (idstr <$> savevm_handlers rs) = [[100; 101; 118]; [100; 101; 118]] ∧ (instance_id <$> savevm_handlers rs) = [0; 1].
Proof. vm_compute. done. Qed.

Lemma holds_at (m : mem) b l : Z.of_nat (length l) = 10 → VMState.holds_state (awrite m b l) b 10 (λ o, nth (Z.to_nat o) l 0).
Proof.
  intros Hl o Ho. rewrite VMState.lookup_awrite, Hl. rewrite (proj2 (Z.leb_le _ _)), (proj2 (Z.ltb_lt _ _)) by lia. cbn [andb]. do 3 f_equal. lia.
Qed.
Lemma holds_below (m : mem) b l c l' : Z.of_nat (length l) = 10 → b + 10 ≤ c → VMState.holds_state (awrite (awrite m b l) c l') b 10 (λ o, nth (Z.to_nat o) l 0).
Proof.
  intros Hl Hc o Ho. rewrite VMState.lookup_awrite. destruct (Z.leb_spec c (b + o)); [lia|]. cbn [andb]. by apply holds_at.
Qed.
Lemma dev_portable i l :
  (i = 0%nat ∧ l = l1 ∨ i = 1%nat ∧ l = l2) → portable rt ms mt (dev i l).
Proof.
  intros Hi. split.
  - destruct Hi as [[-> ->]|[-> ->]]; by eexists.
  - destruct Hi as [[-> ->]|[-> ->]]; by eexists.
  - destruct Hi as [[-> ->]|[-> ->]]; vm_compute; (split; [|lia]); repeat constructor.
  - destruct Hi as [[-> ->]|[-> ->]]; vm_compute; split; (discriminate || reflexivity).
  - destruct Hi as [[-> ->]|[-> ->]]; (split; [reflexivity|split; [reflexivity|vm_compute; split; (discriminate || reflexivity)]]).
  - destruct Hi as [[-> ->]|[-> ->]]; vm_compute; reflexivity.
  - reflexivity.
  - exact VMState.small_flat.
  - reflexivity.
  - intros s [= <-]. split; [exact VMState.small_sub_flat|]. apply Forall_cons_2; [|by apply Forall_nil]. intros k Hk. change (0 ≤ k < 1) in Hk. assert (k = 0) as -> by lia.
    destruct Hi as [[-> ->]|[-> ->]]; [by right|by left].
  - destruct Hi as [[-> ->]|[-> ->]]; [by apply (holds_below ∅ 0 l1 100 l2)|by apply (holds_at (awrite ∅ 0 l1) 100 l2)].
  - apply Forall_cons_2; [done|]. apply Forall_cons_2; [done|]. apply Forall_cons_2; [done|by apply Forall_nil].
  - destruct Hi as [[-> ->]|[-> ->]]; vm_compute; reflexivity.
Qed.
Lemma devs_portable : Forall (portable rt ((λ m, m) ms) mt) devs.
Proof. apply Forall_cons; split; [apply dev_portable; by left|]. apply Forall_cons; split; [apply dev_portable; by right|]. apply Forall_nil_2. Qed.
Lemma devs_apart : ForallOrdPairs apart devs.
Proof. constructor; [apply Forall_cons; split; [left; vm_compute; discriminate|apply Forall_nil_2]|]. constructor; [apply Forall_nil_2|constructor]. Qed.
Lemma first_dev : dev 0 l1 ∈ devs.
Proof. by left. Qed.
Lemma second_dev : dev 1 l2 ∈ devs.
Proof. right. by left. Qed.
End Demo.

Lemma machine_migrates_witness :
  ∃ w m', qemu_save_device_state (λ m, m) Demo.rs (mkSaving [] Demo.ms 0) = Ok (0, w) ∧
    qemu_loadvm_state (λ m, m) [] Demo.rt (out w) Demo.mt = Ok (0, m') ∧
    m' !! 206 = Some 7 ∧ m' !! 306 = Some 70.
Proof.
  destruct (machine_migrates (λ m, m) (λ m, m) [] Demo.rs Demo.rt Demo.devs Demo.ms Demo.mt eq_refl eq_refl Demo.devs_portable Demo.devs_apart) as (w & m' & H1 & H2 & H3 & _).
  exists w, m'. split; [exact H1|]. split; [exact H2|]. split; [apply (H3 (Demo.dev 0 Demo.l1) 6 Demo.first_dev); vm_compute; reflexivity|].
  apply (H3 (Demo.dev 1 Demo.l2) 6 Demo.second_dev). vm_compute. reflexivity.
Defined.

Lemma register_new_instance_witness :
  unambiguous (Demo.add 0 Demo.empty) ∧ savevm_handlers (Demo.add 0 Demo.empty) ≠ [].
Proof.
  destruct (register_new_instance 7 VMState.small false 0 0 Demo.empty (Demo.add 0 Demo.empty)) as (_ & Hu & se & Hse & _).
  - apply Forall_nil_2.
  - intros i se Hse. change (@lookup nat SaveStateEntry (list SaveStateEntry) _ i [] = Some se) in Hse. rewrite lookup_nil in Hse. discriminate Hse.
  - vm_compute. reflexivity.
  - reflexivity.
  - split; [exact Hu|]. rewrite Hse. cbn. discriminate.
Defined.

(** An entry of an old-style registration has the alias 0, because nothing sets it: a section of
    number 0 is loaded into an entry of the same name with another number, if that was registered
    first. *)
Example alias_zero_shadows :
  let save := λ (_ : Z) (m : mem), Ok ([], m) in
  let load := λ (inp : list Z) (_ _ : Z) (m : mem), Ok (0, inp, m) in
  ∃ r, (r ← register_savevm None [120] 1 0 save load 11 Demo.empty; register_savevm None [120] 0 0 save load 22 r) = Ok r ∧
    (opaque <$> find_se [120] 0 r) = Some 11.
Proof. eexists. split; [reflexivity|]. reflexivity. Qed.

End SaveVm.
